(* ===== verification/_CoqProject ===== *)
-Q . S2P
Prelude.v
Wire.v
Memory.v
Strings.v
Cpp.v
Uuid.v
Json.v
Schemas.v
MeshSchema.v
UintQueue.v
Atomic.v
UintQueueConc.v
LockedQueue.v
Message.v
World.v
Callbacks.v
FileSystem.v
StringMap.v
Connection.v
SlotFrame.v
ContextQueue.v
Windows.v
Contexts.v
AutoConnect.v
ReadThread.v
Accept.v
Select.v
Dispatch.v
MixedDispatch.v
ThreadModel.v
DispatchStart.v
ReadModel.v
Lifecycle.v
UnitTests.v
Delivery.v
Session.v
Meeting.v
Encounter.v
Shutdown.v
Hangup.v
FunctionTable.v
Applications.v
Framework.v
FrameworkThreads.v
FrameworkTests.v
DynamicLoad.v
Integration.v
Qt.v
Python.v
