(* ===== verification/Prelude.v ===== *)
(** * Substance Connector: a verification development

    The library connects the programs of one machine: each program opens a TCP
    port, publishes it as a file name in a well-known directory, connects to the
    ports it finds there, exchanges names by an internal handshake and then
    sends and receives messages, a 16-byte identifier with a text.  The C library
    is [src/core]; [src/module-cpp] is a framework in C++ on top of it, with
    applications that declare callbacks and schemas for the texts.  The
    development models both, and the modules for Python and Qt: of the library its
    Linux variant (GNU atomics, POSIX sockets and files, [poll]) on a 64-bit
    machine and, as a variant of it, the build for Windows, of the framework its
    static and its dynamic build, and the repository's unit tests.

    ** The program and its model

    Data flows through the library like this:
<<
      framework (core.cpp): applications, registry of callbacks, schemas
          | write_message                                    ^ trampoline
          v                                                  |
      outbound queue --> write threads --> sockets --> read threads --> inbound
          ^              (write_threads.c)   ^   (read_threads.c)        queue
          |                                  |                             |
          |                              context table                     v
          +---- handshake answers <---- (context_queue.c) <------- dispatch threads
                (internal_messages.c)                              (dispatch.c)
>>
    A component is a file, in the order of dependency.  Paths of the library are
    relative to [src/core/src] and [src/core/src/details].

    - [Prelude]: the state monad [M S A] in which code with effects is written
      ([Done] with a value and a state, or [Stuck] at undefined behaviour or a
      deadlock), 16- and 32- and 64-bit arithmetic, the return codes, and the
      development's tactics and lemmas.
    - [Wire]: identifiers, message headers, byte order, the memory image of a
      header ([uuid_utils.c], [internal_uuids.c], [connection_utils.c],
      [message_header.h]).
    - [Memory]: the heap and the two function pointers of [memory.c].  The heap
      maps addresses to live blocks, each with its allocator; dereferencing NULL
      or a freed block, accesses beyond a block, freeing twice or with the wrong
      deallocator are [Stuck].  Which allocations fail is an oracle in the state.
    - [Strings]: [string_utils.c] and [pathutils.c].
    - [UintQueue]: the bounded queue of [uint_queue.c] as sequential calls, and
      [available_queue.c].  [Atomic]: the three definitions of the macros of
      [atomic.h].  [UintQueueConc]: the same functions as threads that
      interleave at every access to a shared field.
    - [LockedQueue]: the linked queue of [locked_queue.c].  [Message]: the
      messages of [message.c] and the two message queues of [message_queue.c].
    - [World]: the library's static variables in one record [world], the
      operating system as the class [Platform], the functions that language
      bindings register as the class [Bindings], and a small simulated
      environment on which the examples run.
    - [Callbacks]: the list of trampolines ([callbacks.c]).
    - [FileSystem]: [fileutils.c] and [connectiondirectory.c].
    - [StringMap]: the hash map of [string_map.c].
    - [Connection]: messages over a stream ([readwriteutils.c]), sockets
      ([openconnectionimpl.c], [connection_unix.c]), the polling function, and
      the dispatch on the connection type ([connection.c]).  [SlotFrame] proves
      what these operations leave alone.  [Select]: the variant of the polling
      function that uses [select], which the build does not choose.
    - [ContextQueue]: the table of contexts ([context_queue.c]) and
      [configuration.c].  [Contexts]: its invariant and its properties.
    - [Windows]: [connection_windows.c] and the Windows branches of the shared
      sources, over a class of the calls to Winsock and the wide file functions.
    - [AutoConnect]: [autoconnect.c].
    - [ReadThread]: [readstructimpl.c], [readthreadimpl.c],
      [disconnect_message.c] and the routine of [read_threads.c].  [Accept]: what
      a read thread does with an open context, and an application that connects.
    - [Dispatch]: [internal_messages.c], the routine of [dispatch.c] and the
      routine of [write_threads.c], as the calls that one thread makes.
      [MixedDispatch]: what the dispatch routine does with a queue that mixes
      handshakes and messages, and what it leaves alone.
    - [ThreadModel]: the same two routines as machines whose steps interleave
      with producers, with waits that end by themselves, and with the thread that
      shuts the library down.  [DispatchStart]: the creation of the dispatch
      threads and the loop that spins until each of them sleeps.
      [ReadModel]: the routine of [read_threads.c] as machines that interleave
      with the main thread, which creates and joins them, and with the callers
      that open contexts; a context is only its identifier there.  Its shutdown
      begins where that of the library does, with the end of the free queue.
    - [Lifecycle]: [communication.c], the initialisation and shutdown of all
      subsystems, and the interface of [external_api.c], once as calls and once
      as a machine in which several threads call it.  [Shutdown]: what shutting
      down a library in use releases.  [Hangup]: a round of a read thread whose
      peers have hung up.
    - [UnitTests]: the programs of [core/test/unit_test], each a list of tests that
      run one after the other.
    - [Delivery]: two processes that are connected.  The specification is a
      [channel], a queue of messages of which some wait at the sender, some are in
      the stream and some wait at the receiver; its implementation are the rounds
      of the two libraries' threads, over any two platforms whose sockets form a
      stream (the class [Link]).  [Session]: both directions at once, with the
      handshakes.  The specification are two [endpoint]s, in which a handshake
      that is handled becomes an answer; the sockets and the network between them
      are the classes [Socket] and [Network].  [Meeting]: the two processes from
      accepting and connecting on.  [Encounter]: from their first call on.

    The framework, with paths relative to [src/module-cpp/src/framework]:

    - [Cpp]: exceptions, as a result type on top of the state monad
      ([X S A] is [M S (exn + A)]), string literals, and [std::optional].
    - [Uuid]: identifiers as text ([uuid.cpp]).
    - [Json]: what the schemas use of jsoncpp, as the class [Json] of its
      operations and the class [JsonLaws] of their documented behaviour, with an
      instance (a tree, a writer and a parser) on which the examples run.
    - [Schemas]: the texts that are sent for an asset and for a connection
      ([schemas/sendtoschema.cpp], [schemas/connectionschema.cpp]).
      [MeshSchema]: the configuration of a mesh export
      ([schemas/sendmeshschema.cpp]).
    - [FunctionTable]: the record of functions through which other modules see
      the library ([connector.h]), and its instance by [external_api.c].
    - [Applications]: the classes of applications, the objects of a program, the
      registry of callbacks, and the functions that send messages
      ([application.cpp], [system.cpp], [details/callbacks.cpp] and the features).
    - [Framework]: [core.cpp], over any table of functions.  [FrameworkThreads]:
      its calls as threads that interleave at every access to its static
      variables.  [FrameworkTests]: the programs of [module-cpp/tests].
      [Integration]: the framework over the library's own table.  [DynamicLoad]: the dynamic build
      ([details/dynamicload.cpp]), in which the functions are called through a
      pointer that is looked up in a module.

    And the module for Python, [src/module-python/src/details]:

    - [Python]: its methods, the trampoline that calls a Python function, and the
      conversion of identifiers, over any table of functions.  What is called of
      CPython is the class [Python], and [PythonLaws] what is documented of it:
      who owns which reference.

    And the module for Qt, [src/module-qt/src]:

    - [Qt]: the objects that own an application of the framework, the static
      pointers to their instances, the callbacks that turn messages into signals,
      the methods that send, and [ConnectorModule].

    A definition has the name of the function it translates.  Code that returns
    several results by pointer returns a tuple; an out-parameter is an [option],
    [None] when it is not written.  A loop is a [Fixpoint] whose name is the
    function's followed by [_loop].  A method is a function of its object, an
    overload has a suffix for the argument that tells it apart.

    ** What the theorems show

    - Data: headers survive the conversion between any two byte orders and have
      one wire format ([Wire]); joining paths writes exactly what it allocated
      ([Strings]); the hash is FNV-1a ([StringMap]); identifiers survive being
      printed and parsed, parsing stores nothing out of bounds however long the text
      is, and their order is the library's comparison ([Uuid]);
      what a schema writes another program reads, field by field ([Schemas],
      [MeshSchema]).
    - Queues: the bounded queue refines a list of bounded length, in one thread
      and under any interleaving, and publishing never waits for ever
      ([UintQueue], [UintQueueConc]); the locked queue is first-in first-out, and
      shutting the message queues down releases every message ([LockedQueue],
      [Message]); the trampolines are a list ([Callbacks]).
    - The environment: a directory listing is read back and released
      ([FileSystem]), a published port is withdrawn again, sent messages are
      received ([Connection]), connecting to everything that is published
      releases all it allocated ([AutoConnect]).
    - The table of contexts: the free queue holds exactly the cleared slots
      ([contexts_inv]); opening and connecting take a slot, shutting down gives
      it back, and the handshake is sent once ([Contexts]); accepting takes a slot
      and, when there is none, overwrites the first one ([Accept]).
    - The threads: what a read thread receives is queued, what is queued is
      dispatched and sent in order and released, handshakes are answered once
      and not answered in turn, contexts marked as shut down are returned
      ([ReadThread], [Dispatch]), and a queue of handshakes and messages in any
      order is dispatched with nothing else in memory touched ([MixedDispatch]);
      under every interleaving no message is lost or
      handled twice, and shutting the dispatch threads down terminates
      ([ThreadModel]), starting them terminates with all asleep, and the first
      message they are signalled for is handled ([DispatchStart]); as long as one is
      free when it is needed, every context is at exactly one place until the
      shutdown destroys the free queue, and at one place at most from then on, when
      what is given back is lost and accepting a connection dereferences NULL; the
      first context that is handed over is heard, and shutting the read threads down
      terminates ([ReadModel]).
    - The life cycle: every function is refused outside the initialised state,
      initialising and shutting down give back everything but the name, and the
      calls exclude each other ([Lifecycle]); shutting down with open contexts,
      waiting messages and registered trampolines releases them all and leaves a
      library that can be initialised again ([Shutdown]).
    - End to end: two connected processes refine a queue, and every message that
      was written can be delivered, in order, with nothing left behind
      ([Delivery]); with both directions and the handshakes they refine a session,
      and whatever they have done they can get to know each other's names and
      deliver all that was written ([Session]); a process that connects and one
      that accepts get there from a table without a connection ([Meeting]), and so do two
      programs that initialise the library, register trampolines and open a port
      or connect, with every message they then write ([Encounter]).  Contexts whose peers hang up are closed and given
      back ([Hangup]).
    - Windows: over calls that answer as documented, a TCP connection does what
      the Unix build does over the same calls, with the ports published below the
      user's folder and the path released at the end; a handle of 2^31 or more is
      not kept, a failed [socket] is not noticed, and Unix sockets are refused
      ([Windows]).  The macros of GCC and of Windows are the same operations, those
      of the build without atomics are not ([Atomic]).
    - The tests of the repository that are modelled pass ([UnitTests],
      [FrameworkTests], and the one on atomics in [Atomic]): the model gives the
      results that the code's authors expect.
    - The framework: under every sequence of calls and whatever the library
      answers, the registry of callbacks agrees with the registered applications
      and the state; a message reaches the callbacks of the first application
      that declares it; a new connection is told what the program offers, in a
      text from which its peer reads it; a refused start or stop is final
      ([Framework]); its calls exclude each other whatever the threads that make
      them ([FrameworkThreads]); over the library, a start initialises it with the trampoline
      and a stop gives it back ([Integration]); loading the library at run time
      makes no difference when the module has the table, and when it has not, or was
      unloaded, everything that needs the library calls through a null or dangling
      pointer ([DynamicLoad]).
    - The Qt module: every sequence of calls on its objects keeps each instance,
      its application and what it declares in agreement; every message becomes the
      signal that belongs to it; text is sent as it was received ([Qt]).
    - The Python module: every message reaches the registered function as the
      objects it stands for, and every call gives back the references it takes,
      under any interpreter that keeps its documentation ([Python]).
    - Where the code does not do what it is meant to, a theorem says what it does:
      lost wakeups, a context that is queued while all read threads sleep, a
      shutdown that can hang, one that destroys a queue which threads still use, a second shutdown that breaks the
      exclusion, the wrap-around of the queue's counters, connecting with no
      free context, Unix sockets that cannot be opened, headers that arrive in
      parts and are lost, export configurations that cannot be read, pointers that
      dangle, and others.

    Theorems marked C1 to C40 are the development's properties; each one with
    hypotheses is followed by a lemma that applies it to concrete values.

    ** Bounds and fuel

    Integers are values of [Z] with their wrap-around written out ([u16], [u32],
    [u64]).  Loops over linked lists have one more iteration than the heap has
    blocks, so they end in [Stuck NoFuel] only on a cyclic list, and the theorems
    on them say that they end in [Done].  Loops of threads that depend on other
    threads take what the thread observes (the values of a shutdown flag, the
    results of waiting) as a list, and their theorems hold for every list that
    is long enough.  Pushing onto a bounded queue is correct while its 32-bit
    counters do not wrap; the theorems carry this bound, and a theorem of
    [UintQueue] shows that it is needed.  The loops of the framework run over
    containers and texts and need no fuel.

    ** What is not modelled

    - Creating, joining and scheduling operating-system threads
      ([thread_unix.c] only wraps pthreads): creating is a no-op, joining a read
      thread runs its exit path, and waiting is blocking until a signal.  Waits
      that end by themselves are steps of [ThreadModel] and [ReadModel]; those of
      the main thread of [ReadModel], and of the threads of [DispatchStart] while
      the subsystem starts, are left out.  In [ReadModel] destroying the free queue
      and setting the pointer to NULL is one step.  The exclusion that a mutex gives across
      threads is left out outside [ThreadModel], [DispatchStart] and [ReadModel].
    - In [Delivery] and [Session], failing system calls, several connections of
      one process, and bytes that are only partly there when a read starts (of
      which [Delivery] shows that they are lost).
    - [Shutdown]'s contexts are TCP contexts, and its trampolines touch only the
      outside world ([QuietBindings]).
    - Of the Windows build, the listing of a directory with [FindFirstFile], which
      is one call of the class, and [thread_windows.c].  The functions of
      [memory.c] on shared memory, which nothing calls.
    - Of the tests, 07 and 19 of the library and 04 of the framework: the first two
      wait for threads, the last counts the calls of virtual methods of a class
      that the test declares; and the size of a path literal.
    - jsoncpp is a parameter: what its functions do is stated as laws, and the
      depth and form of a text that it can read back as the hypothesis
      [text_survives].  Exceptions of the allocator are left out.
    - In [FrameworkThreads], [registerApplication] inserts into the set and the
      list in one step, and the callbacks of the user do not call the framework.
      The lifetime of the application objects is the program's affair in
      [Framework]; in [Qt] they are owned.
    - Of the Python module, the table that the interpreter loads ([module.c]), the
      variant for Python 2, and interpreters that run out of memory.
    - Of Qt, its event loop and the connection of signals to slots: a signal is
      recorded when it is emitted.
    - The bindings for Ruby, Tcl, QML and Lisp, which call an earlier interface of
      the library and do not compile with this one; the binding for Java
      ([core/bindings]), which includes a header that is not in the repository and
      registers a trampoline of an earlier type; the command-line tool.
    - Of the behaviours the definitions cover, these have no theorem yet: the end
      of a session as seen by both sides at once; Unix sockets through the table
      of contexts; the Python module over the library's own table. *)

From Stdlib Require Export ZArith Lia.
From stdpp Require Export base numbers option relations gmap list.

#[global] Open Scope Z_scope.

(** ** Return codes ([errorcodes.h]) *)

Definition SUBSTANCE_CONNECTOR_SUCCESS : Z := 0.
Definition SUBSTANCE_CONNECTOR_ERROR : Z := 1.
Definition SUBSTANCE_CONNECTOR_BADALLOC : Z := 2.
Definition SUBSTANCE_CONNECTOR_NOTLOADED : Z := 3.
Definition SUBSTANCE_CONNECTOR_CONN_FAIL : Z := 4.
Definition SUBSTANCE_CONNECTOR_SEND_FAIL : Z := 5.
Definition SUBSTANCE_CONNECTOR_UNSUPPORTED : Z := 6.
Definition SUBSTANCE_CONNECTOR_INVALID : Z := 7.
Definition SUBSTANCE_CONNECTOR_READ_FAIL : Z := 8.
Definition SUBSTANCE_CONNECTOR_OPEN_FAIL : Z := 9.

(** ** Booleans of [common.h] *)

Definition SUBSTANCE_CONNECTOR_FALSE : Z := 0.
Definition SUBSTANCE_CONNECTOR_TRUE : Z := 1.

(** ** Machine integers *)

(** Unsigned integers are values of [Z] reduced after each operation that can
    leave their range. *)
Definition u8 (x : Z) : Z := x mod 2 ^ 8.
Definition u16 (x : Z) : Z := x mod 2 ^ 16.
Definition u32 (x : Z) : Z := x mod 2 ^ 32.
Definition u64 (x : Z) : Z := x mod 2 ^ 64.

(** The signed value of a two's complement integer of width [w]. *)
Definition to_signed (w x : Z) : Z :=
  let y := x mod 2 ^ w in if y <? 2 ^ (w - 1) then y else y - 2 ^ w.

Definition UINT_MAX : Z := 2 ^ 32 - 1.

(** ** Outcomes *)

(** What makes an execution undefined in C, or (for [Deadlock]) blocks it
    for ever, or (for [NoFuel]) exhausts the bound given to a loop. *)
Inductive ub : Set :=
  | NullDeref
  | UseAfterFree
  | InvalidFree
  | OutOfBounds
  | Uninitialised
  | DivByZero
  | Deadlock
  | NoFuel.

Inductive outcome (S A : Type) : Type :=
  | Done (a : A) (s : S)
  | Stuck (u : ub).
Arguments Done {S A} a s.
Arguments Stuck {S A} u.

(** Stateful code that can get stuck. *)
Definition M (S A : Type) : Type := S -> outcome S A.

Definition ret {S A} (a : A) : M S A := fun s => Done a s.
Definition stuck {S A} (u : ub) : M S A := fun _ => Stuck u.
Definition bind {S A B} (m : M S A) (k : A -> M S B) : M S B :=
  fun s => match m s with Done a s' => k a s' | Stuck u => Stuck u end.
Definition get {S} : M S S := fun s => Done s s.
Definition put {S} (s : S) : M S unit := fun _ => Done tt s.
Definition modify {S} (f : S -> S) : M S unit := fun s => Done tt (f s).
Definition gets {S A} (f : S -> A) : M S A := fun s => Done (f s) s.

(** Run an operation on a part of the state. *)
Definition zoom {S T A} (proj : S -> T) (upd : T -> S -> S) (m : M T A) : M S A :=
  fun s => match m (proj s) with Done a t => Done a (upd t s) | Stuck u => Stuck u end.

Declare Scope connector_scope.
Delimit Scope connector_scope with conn.

Notation "'let*' x ':=' c1 'in' c2" := (bind c1 (fun x => c2))
  (at level 10, x pattern, c1 at level 100, c2 at level 200) : connector_scope.
Notation "c1 ';;;' c2" := (bind c1 (fun _ => c2))
  (at level 100, c2 at level 200, right associativity) : connector_scope.

#[global] Open Scope connector_scope.

(** [when b m] is the C statement [if (b) { m; }]. *)
Definition when {S} (b : bool) (m : M S unit) : M S unit := if b then m else ret tt.

(** ** Total correctness of an operation from a state *)

Definition wp {S A} (m : M S A) (Q : A -> S -> Prop) (s : S) : Prop :=
  match m s with Done a s' => Q a s' | Stuck _ => False end.

Lemma wp_ret {S A} (a : A) (Q : A -> S -> Prop) s : Q a s -> wp (ret a) Q s.
Proof. done. Qed.

Lemma wp_bind {S A B} (m : M S A) (k : A -> M S B) (Q : B -> S -> Prop) s :
  wp m (fun a s' => wp (k a) Q s') s -> wp (bind m k) Q s.
Proof. unfold wp, bind. by destruct (m s). Qed.

Lemma wp_mono {S A} (m : M S A) (P Q : A -> S -> Prop) s :
  wp m P s -> (forall a s', P a s' -> Q a s') -> wp m Q s.
Proof. unfold wp. destruct (m s); auto. Qed.

Lemma wp_modify {S} (f : S -> S) (Q : unit -> S -> Prop) s :
  Q tt (f s) -> wp (modify f) Q s.
Proof. done. Qed.

Lemma wp_gets {S A} (f : S -> A) (Q : A -> S -> Prop) s :
  Q (f s) s -> wp (gets f) Q s.
Proof. done. Qed.

Lemma wp_zoom {S T A} proj upd (m : M T A) (Q : A -> S -> Prop) s :
  wp m (fun a t => Q a (upd t s)) (proj s) -> wp (zoom proj upd m) Q s.
Proof. unfold wp, zoom. by destruct (m (proj s)). Qed.

Lemma wp_eq {S A} (m : M S A) (Q : A -> S -> Prop) s a s' :
  m s = Done a s' -> Q a s' -> wp m Q s.
Proof. unfold wp. by intros ->. Qed.

Lemma wp_inv {S A} (m : M S A) (Q : A -> S -> Prop) s :
  wp m Q s -> exists a s', m s = Done a s' /\ Q a s'.
Proof. unfold wp. destruct (m s); [eauto | done]. Qed.

(** ** Operations that always finish and keep an assertion *)

Definition keeps {S A} (J : S -> Prop) (m : M S A) : Prop :=
  forall s, J s -> exists a s', m s = Done a s' /\ J s'.

Lemma keeps_ret {S A} (J : S -> Prop) (a : A) : keeps J (ret a).
Proof. intros s Hs. by exists a, s. Qed.

Lemma keeps_bind {S A B} (J : S -> Prop) (m : M S A) (k : A -> M S B) :
  keeps J m -> (forall a, keeps J (k a)) -> keeps J (bind m k).
Proof.
  intros Hm Hk s Hs. destruct (Hm s Hs) as (a & s1 & E & H1). unfold bind. rewrite E. by apply Hk.
Qed.

Lemma keeps_if {S A} (J : S -> Prop) (b : bool) (m1 m2 : M S A) :
  keeps J m1 -> keeps J m2 -> keeps J (if b then m1 else m2).
Proof. by destruct b. Qed.

Lemma keeps_when {S} (J : S -> Prop) (b : bool) (m : M S unit) : keeps J m -> keeps J (when b m).
Proof. destruct b; [done|]. intros _. apply keeps_ret. Qed.

Lemma keeps_gets {S A} (J : S -> Prop) (f : S -> A) : keeps J (gets f).
Proof. intros s Hs. by exists (f s), s. Qed.

Lemma bind_done {S A B} (m : M S A) (k : A -> M S B) s a s' :
  m s = Done a s' -> bind m k s = k a s'.
Proof. intros H. unfold bind. by rewrite H. Qed.

Lemma bind_stuck {S A B} (m : M S A) (k : A -> M S B) s u : m s = Stuck u -> bind m k s = Stuck u.
Proof. intros H. unfold bind. by rewrite H. Qed.

Create HintDb keeps.
#[export] Hint Resolve keeps_ret keeps_bind keeps_if keeps_when keeps_gets : keeps.

(** Walk through an operation, deciding its tests as they come. *)
Ltac keeps_steps :=
  repeat match goal with
  | |- keeps _ (ret _) => apply keeps_ret
  | |- keeps _ (gets _) => apply keeps_gets
  | |- keeps _ (bind _ _) => apply keeps_bind; [|intros ?]
  | |- keeps _ (when _ _) => apply keeps_when
  | |- keeps _ (if _ then _ else _) => apply keeps_if
  | |- keeps _ (match ?x with _ => _ end) => destruct x
  end;
  auto with keeps.

Create HintDb conn.
Create Rewrite HintDb conn_rw.
#[export] Hint Resolve wp_ret wp_modify wp_gets : conn.

(** Run through the monadic structure of a goal [wp m Q s]. *)
Ltac wp_step :=
  match goal with
  | |- wp (bind _ _) _ _ => apply wp_bind
  | |- wp (ret _) _ _ => apply wp_ret
  | |- wp (modify _) _ _ => apply wp_modify
  | |- wp (gets _) _ _ => apply wp_gets
  | |- wp (zoom _ _ _) _ _ => apply wp_zoom
  end.
Ltac wp_steps := repeat (wp_step; cbn beta iota).

(** ** Generic lemmas *)

Lemma u32_small x : 0 <= x < 2 ^ 32 -> u32 x = x.
Proof. apply Z.mod_small. Qed.

Lemma u32_bound x : 0 <= u32 x < 2 ^ 32.
Proof. by apply Z.mod_pos_bound. Qed.

Lemma land_mask_small x m : 0 <= m < 2 ^ 32 -> u32 (Z.land x m) = Z.land x m.
Proof.
  intros Hm. unfold u32. rewrite <- Z.land_ones, <- Z.land_assoc by lia.
  by rewrite Z.land_ones, (Z.mod_small m) by lia.
Qed.


Lemma u16_small x : 0 <= x < 2 ^ 16 -> u16 x = x.
Proof. apply Z.mod_small. Qed.

#[export] Hint Resolve u32_bound : conn.
#[export] Hint Rewrite u32_small u16_small using lia : conn_rw.

(** Two numbers closer than [n] have the same residue only if equal. *)
Lemma mod_eq_close a b n :
  0 < n -> a <= b < a + n -> a mod n = b mod n -> a = b.
Proof.
  intros Hn Hab Heq.
  pose proof (Z.div_mod a n ltac:(lia)). pose proof (Z.div_mod b n ltac:(lia)).
  assert (Hk : b - a = n * (b / n - a / n)) by lia.
  destruct (Z_lt_le_dec (b / n - a / n) 1); [nia |].
  assert (n * 1 <= n * (b / n - a / n)) by (apply Z.mul_le_mono_nonneg_l; lia). lia.
Qed.

Lemma mod_eq_step a n : 0 < n -> (a + n) mod n = a mod n.
Proof. intros. rewrite <- (Z.mul_1_l n) at 1. by rewrite Z.mod_add by lia. Qed.

(** Closing tactic for goals about concrete values. *)
Ltac by_computation := vm_compute; repeat split; try done.

(** A sum in which one summand becomes smaller. *)
Lemma sum_list_insert_lt {A} (f : A -> nat) (l : list A) i x y :
  l !! i = Some x -> (f y < f x)%nat -> (sum_list (map f (<[i := y]> l)) < sum_list (map f l))%nat.
Proof.
  revert i. induction l as [|z l IH]; intros [|i] Hi Hlt; try done.
  - injection Hi as ->. change (<[0%nat:=y]> (x :: l)) with (y :: l). cbn [map sum_list foldr]. cbn. lia.
  - specialize (IH i Hi Hlt). change (<[S i:=y]> (z :: l)) with (z :: <[i:=y]> l).
    change (f z + sum_list (map f (<[i:=y]> l)) < f z + sum_list (map f l))%nat. lia.
Qed.

(** Replacing an element by the last one and dropping the last. *)
Definition swap_remove {A} (i : nat) (l : list A) : list A :=
  match last l with Some x => take (length l - 1) (<[i := x]> l) | None => l end.

Lemma swap_remove_perm {A} (pre : list A) y post :
  exists post', swap_remove (length pre) (pre ++ y :: post) = pre ++ post' /\ post' ≡ₚ post.
Proof.
  unfold swap_remove. destruct post as [|x post _] using rev_ind.
  - exists []. rewrite last_snoc, length_app. cbn. split; [|done].
    rewrite Nat.add_sub, take_insert_ge by lia. by rewrite app_nil_r, take_app_length.
  - exists (x :: post). rewrite app_comm_cons, (app_assoc pre), last_snoc, length_app, Nat.add_sub.
    rewrite insert_app_l by (rewrite length_app; cbn; lia).
    rewrite take_app_le, take_ge by (rewrite length_insert; lia).
    rewrite <- (Nat.add_0_r (length pre)), insert_app_r. split; [done|]. apply Permutation_cons_append.
Qed.
