(* ===== verification/Wire.v ===== *)
(** * Identifiers, message headers and their byte order

    The types of [types.h] and [message_header.h], the comparison of
    identifiers ([uuid_utils.c]), the identifiers of the internal messages
    ([internal_uuids.c]), the conversion of a header between host and network
    byte order ([connection_utils.c]) and the memory image of a header, which
    is what [connector_send_message_generic] puts on the wire.  The host's
    endianness is a parameter. *)

From S2P Require Import Prelude.

(** ** Data *)

(** [substance_connector_uuid_t]: the array [elements[4]]. *)
Record uuid := Uuid { elements : list Z }.

#[export] Instance uuid_eq_dec : EqDecision uuid.
Proof. solve_decision. Defined.

(** [connector_message_header_r1_t]. *)
Record message_header := Header {
  description : Z;      (* uint16_t *)
  message_length : Z;   (* uint32_t *)
  message_id : uuid
}.

Definition uuid_wf (u : uuid) : Prop :=
  length (elements u) = 4%nat /\ Forall (fun x => 0 <= x < 2 ^ 32) (elements u).

Definition header_wf (h : message_header) : Prop :=
  0 <= description h < 2 ^ 16 /\ 0 <= message_length h < 2 ^ 32 /\ uuid_wf (message_id h).

(** ** Protocol constants of [message_header.h] *)

Definition CONNECTOR_MESSAGE_IDENTIFIER : Z := 0x03c9.
Definition CONNECTOR_INTERNAL_IDENTIFIER : Z := 0x03db.
Definition CONNECTOR_HEADER_R1 : Z := 0x0000.

Definition CONNECTOR_PROTOCOL_VERSION (x : Z) : Z := Z.land x 0xf000.
Definition CONNECTOR_MESSAGE_TYPE (x : Z) : Z := Z.land x 0x0fff.

Definition CONNECTOR_IDENTIFY_MESSAGE (x : Z) : bool :=
  Z.land (Z.land x 0x0fff) CONNECTOR_MESSAGE_IDENTIFIER =? CONNECTOR_MESSAGE_IDENTIFIER.
Definition CONNECTOR_IDENTIFY_INTERNAL (x : Z) : bool :=
  Z.land (Z.land x 0x0fff) CONNECTOR_INTERNAL_IDENTIFIER =? CONNECTOR_INTERNAL_IDENTIFIER.

(** ** Internal identifiers ([internal_uuids.c]) *)

Definition connector_internal_handshake_uuid : uuid :=
  Uuid [0x02572bc5; 0x2d84450a; 0x9e01d22c; 0x66b1abb1].
Definition connector_internal_connection_closed_uuid : uuid :=
  Uuid [0x04705ddf; 0x16d44489; 0xaf6c6e3a; 0x93f1959d].
Definition connector_internal_log_uuid : uuid :=
  Uuid [0x3f7fa3ce; 0x164c4661; 0x8bb6b8c4; 0xea80c93b].

(** ** Comparison of identifiers ([uuid_utils.c]) *)

(** The body of the loop from index [i] with [n] iterations left. *)
Fixpoint compare_uuid_from (n i : nat) (id0 id1 : uuid) : Z :=
  match n with
  | O => 0
  | S n' =>
      let a := nth i (elements id0) 0 in
      let b := nth i (elements id1) 0 in
      if a <? b then -1
      else if b <? a then 1
      else compare_uuid_from n' (S i) id0 id1
  end.

Definition connector_compare_uuid (id0 id1 : uuid) : Z := compare_uuid_from 4 0 id0 id1.

(** ** Byte order *)

Inductive endianness : Set := Little | Big.

Fixpoint le_bytes (n : nat) (x : Z) : list Z :=
  match n with
  | O => []
  | S n' => x mod 256 :: le_bytes n' (x / 256)
  end.
Definition be_bytes (n : nat) (x : Z) : list Z := rev (le_bytes n x).

Fixpoint of_le_bytes (bs : list Z) : Z :=
  match bs with
  | [] => 0
  | b :: bs' => b + 256 * of_le_bytes bs'
  end.
Definition of_be_bytes (bs : list Z) : Z := of_le_bytes (rev bs).

(** The bytes an [n]-byte integer occupies in the memory of a host, and back. *)
Definition host_bytes (e : endianness) (n : nat) (x : Z) : list Z :=
  match e with Little => le_bytes n x | Big => be_bytes n x end.
Definition of_host_bytes (e : endianness) (bs : list Z) : Z :=
  match e with Little => of_le_bytes bs | Big => of_be_bytes bs end.

(** [htons], [htonl], [ntohs], [ntohl] of <arpa/inet.h>: a byte swap on a
    little-endian host, the identity on a big-endian one. *)
Definition hton (e : endianness) (n : nat) (x : Z) : Z :=
  match e with Little => of_be_bytes (le_bytes n x) | Big => x end.
Definition htons e x := hton e 2 x.
Definition htonl e x := hton e 4 x.
Definition ntohs e x := hton e 2 x.
Definition ntohl e x := hton e 4 x.

(** [htonuuid] and [ntohuuid]. *)
Definition htonuuid (e : endianness) (original : uuid) : uuid :=
  Uuid [htonl e (nth 0 (elements original) 0); htonl e (nth 1 (elements original) 0);
        htonl e (nth 2 (elements original) 0); htonl e (nth 3 (elements original) 0)].
Definition ntohuuid (e : endianness) (original : uuid) : uuid :=
  Uuid [ntohl e (nth 0 (elements original) 0); ntohl e (nth 1 (elements original) 0);
        ntohl e (nth 2 (elements original) 0); ntohl e (nth 3 (elements original) 0)].

Definition connector_htonheader (e : endianness) (original : message_header) : message_header :=
  Header (htons e (description original)) (htonl e (message_length original))
         (htonuuid e (message_id original)).
Definition connector_ntohheader (e : endianness) (original : message_header) : message_header :=
  Header (ntohs e (description original)) (ntohl e (message_length original))
         (ntohuuid e (message_id original)).

(** ** The memory image of a header

    [description] is at offset 0, two bytes of padding follow, then
    [message_length] at offset 4 and the four [elements] from offset 8. *)

Definition sizeof_header : Z := 24.

Definition header_image (e : endianness) (pad : list Z) (h : message_header) : list Z :=
  host_bytes e 2 (description h) ++ pad ++ host_bytes e 4 (message_length h)
  ++ flat_map (host_bytes e 4) (elements (message_id h)).

Definition slice (off n : nat) (bs : list Z) : list Z := take n (drop off bs).

Definition image_header (e : endianness) (bs : list Z) : message_header :=
  Header (of_host_bytes e (slice 0 2 bs)) (of_host_bytes e (slice 4 4 bs))
    (Uuid [of_host_bytes e (slice 8 4 bs); of_host_bytes e (slice 12 4 bs);
           of_host_bytes e (slice 16 4 bs); of_host_bytes e (slice 20 4 bs)]).

(** ** Polling errors ([connection_utils.c]) *)

Definition SUBSTANCE_CONNECTOR_POLL_ESUCCESS : Z := 0.
Definition SUBSTANCE_CONNECTOR_POLL_EBADF : Z := 1.
Definition SUBSTANCE_CONNECTOR_POLL_EFAULT : Z := 2.
Definition SUBSTANCE_CONNECTOR_POLL_EINTR : Z := 3.
Definition SUBSTANCE_CONNECTOR_POLL_ENETDOWN : Z := 4.
Definition SUBSTANCE_CONNECTOR_POLL_ENOMEM : Z := 5.
Definition SUBSTANCE_CONNECTOR_POLL_EINVAL : Z := 6.
Definition SUBSTANCE_CONNECTOR_POLL_EUNKNOWN : Z := 7.
Definition SUBSTANCE_CONNECTOR_POLL_TIMEOUT : Z := 1200.

(** The values of <errno.h> on Linux that the switch names. *)
Definition EINTR : Z := 4.
Definition EBADF : Z := 9.
Definition ENOMEM : Z := 12.
Definition EFAULT : Z := 14.
Definition EINVAL : Z := 22.
Definition ENETDOWN : Z := 100.

(** [convert_network_error]: the switch assigns to the parameter [errorcode],
    and the function returns [retcode].  The pair is the final value of the
    parameter and the returned value. *)
Definition convert_network_error_locals (errorcode : Z) : Z * Z :=
  let retcode := SUBSTANCE_CONNECTOR_POLL_EUNKNOWN in
  let errorcode' :=
    if errorcode =? EBADF then SUBSTANCE_CONNECTOR_POLL_EBADF
    else if errorcode =? EFAULT then SUBSTANCE_CONNECTOR_POLL_EFAULT
    else if errorcode =? EINTR then SUBSTANCE_CONNECTOR_POLL_EINTR
    else if errorcode =? ENETDOWN then SUBSTANCE_CONNECTOR_POLL_ENETDOWN
    else if errorcode =? ENOMEM then SUBSTANCE_CONNECTOR_POLL_ENOMEM
    else if errorcode =? EINVAL then SUBSTANCE_CONNECTOR_POLL_EINVAL
    else errorcode in
  (errorcode', retcode).
Definition convert_network_error (errorcode : Z) : Z :=
  snd (convert_network_error_locals errorcode).

(** ** Lemmas on byte order *)

Lemma length_le_bytes n x : length (le_bytes n x) = n.
Proof. revert x. induction n; intros; simpl; auto. Qed.

Lemma length_be_bytes n x : length (be_bytes n x) = n.
Proof. unfold be_bytes. by rewrite length_rev, length_le_bytes. Qed.

Lemma length_host_bytes e n x : length (host_bytes e n x) = n.
Proof. destruct e; [apply length_le_bytes | apply length_be_bytes]. Qed.

Lemma le_bytes_byte n x : Forall (fun b => 0 <= b < 256) (le_bytes n x).
Proof.
  revert x. induction n; intros; simpl; constructor; [apply Z.mod_pos_bound; lia | done].
Qed.

Lemma of_le_bytes_le_bytes n x : of_le_bytes (le_bytes n x) = x mod 256 ^ Z.of_nat n.
Proof.
  revert x. induction n as [|n IH]; intros x; cbn [le_bytes of_le_bytes].
  - by rewrite Z.mod_1_r.
  - rewrite IH, Nat2Z.inj_succ, Z.pow_succ_r by lia.
    rewrite Z.rem_mul_r by lia. lia.
Qed.

Lemma rev_le_bytes_byte n x : Forall (fun b => 0 <= b < 256) (rev (le_bytes n x)).
Proof. apply List.Forall_rev, le_bytes_byte. Qed.

Lemma le_bytes_of_le_bytes bs :
  Forall (fun b => 0 <= b < 256) bs -> le_bytes (length bs) (of_le_bytes bs) = bs.
Proof.
  induction 1 as [|b bs Hb _ IH]; [done|]. cbn [length le_bytes of_le_bytes].
  rewrite (Z.mul_comm 256), Z.mod_add, Z.div_add by lia.
  by rewrite Z.mod_small, Z.div_small, Z.add_0_l, IH by lia.
Qed.

Lemma of_be_bytes_be_bytes n x : of_be_bytes (be_bytes n x) = x mod 256 ^ Z.of_nat n.
Proof. unfold of_be_bytes, be_bytes. rewrite rev_involutive. apply of_le_bytes_le_bytes. Qed.

(** The image in memory of a converted integer is its big-endian encoding,
    whatever the host. *)
Lemma host_bytes_hton e n x :
  0 <= x < 256 ^ Z.of_nat n -> host_bytes e n (hton e n x) = be_bytes n x.
Proof.
  intros Hx. destruct e; [|done]. unfold hton, host_bytes, of_be_bytes, be_bytes.
  rewrite <- (length_le_bytes n x) at 1. rewrite <- length_rev.
  apply le_bytes_of_le_bytes, rev_le_bytes_byte.
Qed.

Lemma hton_of_host_bytes e n x :
  0 <= x < 256 ^ Z.of_nat n -> hton e n (of_host_bytes e (be_bytes n x)) = x.
Proof.
  intros Hx. destruct e; cbn.
  - unfold hton. rewrite <- (length_be_bytes n x) at 1.
    rewrite le_bytes_of_le_bytes by apply rev_le_bytes_byte.
    rewrite of_be_bytes_be_bytes. by apply Z.mod_small.
  - rewrite of_be_bytes_be_bytes. by apply Z.mod_small.
Qed.

Lemma uuid_wf_inv u : uuid_wf u -> exists a b c d, u = Uuid [a; b; c; d] /\
  0 <= a < 2 ^ 32 /\ 0 <= b < 2 ^ 32 /\ 0 <= c < 2 ^ 32 /\ 0 <= d < 2 ^ 32.
Proof.
  destruct u as [els]. unfold uuid_wf. cbn [elements]. intros [Hl Hf].
  destruct els as [|a [|b [|c [|d [|]]]]]; try discriminate.
  decompose_Forall_hyps. exists a, b, c, d. intuition auto.
Qed.

Lemma wire_layout_aux e pad h :
  header_wf h ->
  header_image e pad (connector_htonheader e h) =
    be_bytes 2 (description h) ++ pad ++ be_bytes 4 (message_length h)
    ++ flat_map (be_bytes 4) (elements (message_id h)).
Proof.
  intros (Hd & Hl & Hu). destruct h as [d l u]. cbn in Hd, Hl, Hu.
  destruct (uuid_wf_inv u Hu) as (a & b & c & f & -> & ? & ? & ? & ?).
  unfold header_image, connector_htonheader. cbn [description message_length message_id].
  unfold htons, htonl, htonuuid. cbn [elements nth flat_map]. unfold htonl.
  by rewrite !host_bytes_hton by (cbn; lia).
Qed.

Lemma length_header_image e pad h :
  length pad = 2%nat -> uuid_wf (message_id h) -> length (header_image e pad h) = 24%nat.
Proof.
  intros Hp Hu. destruct (uuid_wf_inv _ Hu) as (a & b & c & d & E & _).
  unfold header_image. rewrite E. cbn [elements flat_map].
  repeat rewrite length_app. rewrite !length_host_bytes, Hp. done.
Qed.

(** Converting to network order, storing, loading and converting back. *)
Lemma ntoh_image_hton (e1 e2 : endianness) (pad : list Z) (h : message_header) :
  header_wf h -> length pad = 2%nat ->
  connector_ntohheader e2 (image_header e2 (header_image e1 pad (connector_htonheader e1 h))) = h.
Proof.
  intros Hwf Hpad.
  rewrite wire_layout_aux by done. destruct Hwf as (Hd & Hl & Hu).
  destruct h as [d l u]. cbn [description message_length message_id] in *.
  destruct (uuid_wf_inv u Hu) as (a & b & c & f & -> & ? & ? & ? & ?).
  destruct pad as [|p1 [|p2 [|]]]; try discriminate Hpad.
  unfold image_header, connector_ntohheader, ntohuuid, ntohs, ntohl.
  cbn [description message_length message_id elements nth].
  change (Header (hton e2 2 (of_host_bytes e2 (be_bytes 2 d)))
    (hton e2 4 (of_host_bytes e2 (be_bytes 4 l)))
    (Uuid [hton e2 4 (of_host_bytes e2 (be_bytes 4 a));
           hton e2 4 (of_host_bytes e2 (be_bytes 4 b));
           hton e2 4 (of_host_bytes e2 (be_bytes 4 c));
           hton e2 4 (of_host_bytes e2 (be_bytes 4 f))]) =
    Header d l (Uuid [a; b; c; f])).
  by rewrite !hton_of_host_bytes by (cbn; lia).
Qed.

Lemma hton_bound e n x : 0 <= x < 256 ^ Z.of_nat n -> 0 <= hton e n x < 256 ^ Z.of_nat n.
Proof.
  intros Hx. destruct e; [|done]. unfold hton, of_be_bytes.
  set (bs := rev (le_bytes n x)).
  assert (Hl : length bs = n) by (unfold bs; by rewrite length_rev, length_le_bytes).
  assert (Hb : Forall (fun b => 0 <= b < 256) bs).
  { apply rev_le_bytes_byte. }
  clearbody bs. subst n. clear Hx x.
  induction Hb as [|b bs Hb _ IH]; cbn [of_le_bytes length]; [lia|].
  rewrite Nat2Z.inj_succ, Z.pow_succ_r by lia. lia.
Qed.

Lemma length_network_header e pad h :
  length pad = 2%nat -> header_wf h -> length (header_image e pad (connector_htonheader e h)) = 24%nat.
Proof.
  intros Hpad (_ & _ & Hu). apply length_header_image; [done|]. unfold connector_htonheader. cbn [message_id].
  destruct (uuid_wf_inv _ Hu) as (a & b & c & d & -> & ? & ? & ? & ?).
  split; [done|]. cbn [htonuuid elements nth]. unfold htonl. repeat constructor; apply (hton_bound e 4); done.
Qed.

(** ** Lemmas on the comparison of identifiers *)

Lemma compare_uuid_concrete a b c d a' b' c' d' :
  connector_compare_uuid (Uuid [a; b; c; d]) (Uuid [a'; b'; c'; d']) =
    if a <? a' then -1 else if a' <? a then 1
    else if b <? b' then -1 else if b' <? b then 1
    else if c <? c' then -1 else if c' <? c then 1
    else if d <? d' then -1 else if d' <? d then 1 else 0.
Proof. reflexivity. Qed.

Ltac destruct_ltb :=
  repeat match goal with
  | |- context [?x <? ?y] => destruct (Z.ltb_spec x y)
  | H : context [?x <? ?y] |- _ => destruct (Z.ltb_spec x y)
  end.

Lemma compare_uuid_refl u : uuid_wf u -> connector_compare_uuid u u = 0.
Proof.
  intros Hu. destruct (uuid_wf_inv u Hu) as (a & b & c & d & -> & _).
  rewrite compare_uuid_concrete, !Z.ltb_irrefl. done.
Qed.

Lemma compare_uuid_zero a b : uuid_wf a -> uuid_wf b -> connector_compare_uuid a b = 0 -> a = b.
Proof.
  intros Ha Hb.
  destruct (uuid_wf_inv a Ha) as (a0 & a1 & a2 & a3 & -> & _).
  destruct (uuid_wf_inv b Hb) as (b0 & b1 & b2 & b3 & -> & _).
  rewrite compare_uuid_concrete. destruct_ltb; try discriminate. intros _. repeat f_equal; lia.
Qed.

Lemma handshake_uuid_wf : uuid_wf connector_internal_handshake_uuid.
Proof. split; [done | repeat constructor; lia]. Qed.

(** ** Properties *)

(** A header converted to network order by a host of one endianness, put on
    the wire as that host's memory image (whatever the padding bytes), and read
    back by a host of any endianness through [connector_ntohheader], is the
    original header. *)
Theorem header_roundtrip (e1 e2 : endianness) (pad : list Z) (h : message_header)
    (Hwf : header_wf h) (Hpad : length pad = 2%nat) :
  connector_ntohheader e2 (image_header e2 (header_image e1 pad (connector_htonheader e1 h))) = h.
Proof.
  by apply ntoh_image_hton.
Qed.

(** A handshake header sent by a big-endian host and read by a little-endian one. *)
Lemma header_roundtrip_witness :
  let h := Header 0x03db 5 connector_internal_handshake_uuid in
  header_wf h /\ length [7; 7] = 2%nat /\
  connector_ntohheader Little (image_header Little
    (header_image Big [7; 7] (connector_htonheader Big h))) = h.
Proof.
  assert (Hwf : header_wf (Header 0x03db 5 connector_internal_handshake_uuid)).
  { repeat split; try (cbn; lia). cbn. repeat constructor; lia. }
  split; [exact Hwf | split; [reflexivity |]].
  exact (header_roundtrip Big Little [7; 7] _ Hwf eq_refl).
Defined.

(** The wire format of a header is 24 bytes, the same on every host: the
    description in two big-endian bytes, two bytes of structure padding, then
    the length and the four words of the identifier, each big-endian. *)
Theorem header_wire_format (e : endianness) (pad : list Z) (h : message_header)
    (Hwf : header_wf h) (Hpad : length pad = 2%nat) :
  header_image e pad (connector_htonheader e h) =
    be_bytes 2 (description h) ++ pad ++ be_bytes 4 (message_length h)
    ++ flat_map (be_bytes 4) (elements (message_id h)) /\
  Z.of_nat (length (header_image e pad (connector_htonheader e h))) = sizeof_header.
Proof.
  split; [by apply wire_layout_aux |]. by rewrite length_network_header.
Qed.

Lemma header_wire_format_witness :
  let h := Header 0x03c9 258 connector_internal_log_uuid in
  header_wf h /\
  header_image Little [0; 0] (connector_htonheader Little h) =
    [0x03; 0xc9; 0; 0; 0; 0; 1; 2; 0x3f; 0x7f; 0xa3; 0xce; 0x16; 0x4c; 0x46; 0x61;
     0x8b; 0xb6; 0xb8; 0xc4; 0xea; 0x80; 0xc9; 0x3b].
Proof.
  assert (Hwf : header_wf (Header 0x03c9 258 connector_internal_log_uuid)).
  { repeat split; try (cbn; lia). cbn. repeat constructor; lia. }
  split; [exact Hwf |].
  exact (proj1 (header_wire_format Little [0; 0] _ Hwf eq_refl)).
Defined.

(** [connector_compare_uuid] is a three-way comparison that totally orders
    identifiers: it answers -1, 0 or 1, answers 0 exactly on equal identifiers,
    changes sign when its arguments are swapped, and its "less than" is
    transitive. *)
Theorem compare_uuid_total_order (a b c : uuid)
    (Ha : uuid_wf a) (Hb : uuid_wf b) (Hc : uuid_wf c) :
  In (connector_compare_uuid a b) [-1; 0; 1] /\
  (connector_compare_uuid a b = 0 <-> a = b) /\
  connector_compare_uuid b a = - connector_compare_uuid a b /\
  (connector_compare_uuid a b = -1 -> connector_compare_uuid b c = -1 ->
   connector_compare_uuid a c = -1).
Proof.
  destruct (uuid_wf_inv a Ha) as (a0 & a1 & a2 & a3 & -> & _).
  destruct (uuid_wf_inv b Hb) as (b0 & b1 & b2 & b3 & -> & _).
  destruct (uuid_wf_inv c Hc) as (c0 & c1 & c2 & c3 & -> & _).
  rewrite !compare_uuid_concrete. split; [|split; [|split]].
  - destruct_ltb; cbn; auto.
  - destruct_ltb; split; intros E; try discriminate E; try (injection E; lia).
    repeat f_equal; lia.
  - destruct_ltb; cbn; lia.
  - destruct_ltb; lia.
Qed.

Lemma compare_uuid_total_order_witness :
  connector_compare_uuid connector_internal_handshake_uuid connector_internal_log_uuid = -1.
Proof.
  assert (W1 : uuid_wf connector_internal_handshake_uuid) by (split; [done | repeat constructor; lia]).
  assert (W2 : uuid_wf connector_internal_connection_closed_uuid) by (split; [done | repeat constructor; lia]).
  assert (W3 : uuid_wf connector_internal_log_uuid) by (split; [done | repeat constructor; lia]).
  destruct (compare_uuid_total_order _ _ _ W1 W2 W3) as (_ & _ & _ & T).
  apply T; reflexivity.
Defined.

(** Every description recognised as internal is also recognised as a
    connector message, the protocol-version bits never matter, and a freshly
    built (user) description is recognised as a message but not as internal,
    until the internal identifier is or-ed into it. *)
Theorem identify_macros (x : Z) :
  (CONNECTOR_IDENTIFY_INTERNAL x = true -> CONNECTOR_IDENTIFY_MESSAGE x = true) /\
  CONNECTOR_IDENTIFY_MESSAGE (CONNECTOR_MESSAGE_TYPE x) = CONNECTOR_IDENTIFY_MESSAGE x /\
  CONNECTOR_IDENTIFY_INTERNAL (CONNECTOR_MESSAGE_TYPE x) = CONNECTOR_IDENTIFY_INTERNAL x /\
  CONNECTOR_IDENTIFY_INTERNAL (Z.lor x CONNECTOR_INTERNAL_IDENTIFIER) = true /\
  CONNECTOR_IDENTIFY_MESSAGE (Z.lor CONNECTOR_HEADER_R1 CONNECTOR_MESSAGE_IDENTIFIER) = true /\
  CONNECTOR_IDENTIFY_INTERNAL (Z.lor CONNECTOR_HEADER_R1 CONNECTOR_MESSAGE_IDENTIFIER) = false.
Proof.
  unfold CONNECTOR_IDENTIFY_INTERNAL, CONNECTOR_IDENTIFY_MESSAGE, CONNECTOR_MESSAGE_TYPE.
  split; [|split; [|split; [|split; [|done]]]].
  - rewrite !Z.eqb_eq. intros H.
    change CONNECTOR_MESSAGE_IDENTIFIER
      with (Z.land CONNECTOR_INTERNAL_IDENTIFIER CONNECTOR_MESSAGE_IDENTIFIER).
    by rewrite Z.land_assoc, H.
  - f_equal. f_equal. by rewrite <- (Z.land_assoc x), Z.land_diag.
  - f_equal. f_equal. by rewrite <- (Z.land_assoc x), Z.land_diag.
  - rewrite Z.eqb_eq, Z.land_lor_distr_l, Z.land_lor_distr_l.
    change (Z.land (Z.land CONNECTOR_INTERNAL_IDENTIFIER 0xfff) CONNECTOR_INTERNAL_IDENTIFIER)
      with CONNECTOR_INTERNAL_IDENTIFIER.
    apply Z.bits_inj'. intros n _. rewrite Z.lor_spec, !Z.land_spec.
    destruct (Z.testbit CONNECTOR_INTERNAL_IDENTIFIER n);
      [apply orb_true_r | by rewrite !andb_false_r].
Qed.

Lemma identify_macros_witness :
  CONNECTOR_IDENTIFY_INTERNAL 0x13db = true /\ CONNECTOR_IDENTIFY_MESSAGE 0x13db = true.
Proof. split; [reflexivity | apply (identify_macros 0x13db); reflexivity]. Defined.

(** [convert_network_error] answers [SUBSTANCE_CONNECTOR_POLL_EUNKNOWN] for
    every error: the switch assigns the converted code to its parameter, which
    is dropped, so the specific codes of [SubstanceConnectorPollError] are never
    reported to the read threads. *)
Theorem convert_network_error_unknown (errorcode : Z) :
  convert_network_error errorcode = SUBSTANCE_CONNECTOR_POLL_EUNKNOWN /\
  fst (convert_network_error_locals EINTR) = SUBSTANCE_CONNECTOR_POLL_EINTR /\
  fst (convert_network_error_locals EBADF) = SUBSTANCE_CONNECTOR_POLL_EBADF.
Proof. done. Qed.
