(* ===== verification/Memory.v ===== *)
(** * The memory of the library

    [memory.c]: the two function pointers through which every allocation and
    deallocation goes, and a heap on which their effect is visible: which
    blocks are live, what they hold and which allocator they came from.  A
    pointer is a number, [0] is NULL.  Dereferencing NULL or a freed block,
    freeing a block twice and handing a block to a deallocator that does not
    belong to its allocator are outcomes of the model ([Stuck]), so a theorem
    that an operation ends in [Done] says that it does none of these. *)

From S2P Require Import Prelude Wire.

(** ** Heap *)

(** [connector_message_t] and the header allocated behind it; [None] for the
    header is the NULL [header] pointer that [connector_clear_message] leaves. *)
Record message := Message {
  msg_header : option message_header;
  msg_text : Z;     (* char *message *)
  msg_context : Z   (* unsigned int context *)
}.

(** What a live block holds. *)
Inductive block : Type :=
  | BRaw (size : Z)                         (* allocated, not yet written *)
  | BStr (bytes : list Z)                   (* an array of char *)
  | BMsg (m : message)                      (* connector_message_t *)
  | BNode (node_next node_contents : Z)     (* connector_locked_queue_node_t *)
  | BTramp (trampoline node_next : Z)       (* connector_trampoline_node_t *)
  | BPtrs (slots : list (option Z))         (* an array of pointers; None: not written *)
  | BMap (keys entries bucket_size : Z).    (* connector_string_map_t *)

Record cell := Cell { owner : Z; contents : block }.

(** Allocators and deallocators are function pointers, identified by numbers:
    [0] is [malloc], respectively [free], and the deallocator that belongs to
    allocator [n] is numbered [n].  [oracle] lists the answers the allocator
    will give, [false] for NULL; past its end every request is served.  [junk]
    is the value that memory the program has not written reads as. *)
Record memory := Memory {
  heap : gmap Z cell;
  next_addr : Z;
  connector_memory_allocate : Z;
  connector_memory_free : Z;
  oracle : list bool;
  junk : Z
}.

Definition set_heap (h : gmap Z cell) (m : memory) : memory :=
  Memory h (next_addr m) (connector_memory_allocate m) (connector_memory_free m)
    (oracle m) (junk m).
Definition set_next_addr (a : Z) (m : memory) : memory :=
  Memory (heap m) a (connector_memory_allocate m) (connector_memory_free m)
    (oracle m) (junk m).
Definition set_oracle (o : list bool) (m : memory) : memory :=
  Memory (heap m) (next_addr m) (connector_memory_allocate m) (connector_memory_free m)
    o (junk m).

Definition malloc_id : Z := 0.
Definition initial_memory : memory := Memory ∅ 1 malloc_id malloc_id [] 0.

(** ** Reading and writing blocks *)

Definition load (p : Z) : M memory block := fun m =>
  if p =? 0 then Stuck NullDeref
  else match heap m !! p with
       | Some c => Done (contents c) m
       | None => Stuck UseAfterFree
       end.

Definition store (p : Z) (b : block) : M memory unit := fun m =>
  if p =? 0 then Stuck NullDeref
  else match heap m !! p with
       | Some c => Done tt (set_heap (<[p := Cell (owner c) b]> (heap m)) m)
       | None => Stuck UseAfterFree
       end.

Definition load_bytes (p : Z) : M memory (list Z) :=
  let* b := load p in
  match b with BStr bs => ret bs | _ => stuck Uninitialised end.
Definition load_message (p : Z) : M memory message :=
  let* b := load p in
  match b with BMsg x => ret x | _ => stuck Uninitialised end.
Definition load_node (p : Z) : M memory (Z * Z) :=
  let* b := load p in
  match b with BNode n c => ret (n, c) | _ => stuck Uninitialised end.
Definition load_tramp (p : Z) : M memory (Z * Z) :=
  let* b := load p in
  match b with BTramp f n => ret (f, n) | _ => stuck Uninitialised end.
Definition load_ptrs (p : Z) : M memory (list (option Z)) :=
  let* b := load p in
  match b with BPtrs l => ret l | _ => stuck Uninitialised end.

(** [array[i]] of an array of pointers, read and written. *)
Definition load_slot (p : Z) (i : nat) : M memory Z :=
  let* l := load_ptrs p in
  match l !! i with
  | Some (Some x) => ret x
  | Some None => stuck Uninitialised
  | None => stuck OutOfBounds
  end.
Definition store_slot (p : Z) (i : nat) (x : Z) : M memory unit :=
  let* l := load_ptrs p in
  match l !! i with
  | Some _ => store p (BPtrs (<[i := Some x]> l))
  | None => stuck OutOfBounds
  end.

(** ** The functions of [memory.c] *)

Definition connector_clear_allocators : M memory Z :=
  modify (fun m => Memory (heap m) (next_addr m) malloc_id malloc_id (oracle m) (junk m)) ;;;
  ret SUBSTANCE_CONNECTOR_SUCCESS.

Definition connector_set_allocator (allocator : Z) : M memory unit :=
  modify (fun m => Memory (heap m) (next_addr m) allocator (connector_memory_free m)
                          (oracle m) (junk m)).

Definition connector_set_deallocator (deallocator : Z) : M memory unit :=
  modify (fun m => Memory (heap m) (next_addr m) (connector_memory_allocate m) deallocator
                          (oracle m) (junk m)).

Definition connector_allocate (size : Z) : M memory Z := fun m =>
  match oracle m with
  | false :: o => Done 0 (set_oracle o m)
  | o =>
      let p := next_addr m in
      Done p (set_oracle (tail o) (set_next_addr (p + 1)
        (set_heap (<[p := Cell (connector_memory_allocate m) (BRaw size)]> (heap m)) m)))
  end.

Definition connector_array_allocate (num size : Z) : M memory Z :=
  connector_allocate (u64 (num * size)).

(** Freeing NULL does nothing. *)
Definition connector_free (p : Z) : M memory unit := fun m =>
  if p =? 0 then Done tt m
  else match heap m !! p with
       | Some c =>
           if owner c =? connector_memory_free m
           then Done tt (set_heap (delete p (heap m)) m)
           else Stuck InvalidFree
       | None => Stuck InvalidFree
       end.

(** ** Well-formedness and lemmas *)

(** Live blocks have addresses the allocator has already given out. *)
Definition mem_wf (m : memory) : Prop :=
  0 < next_addr m /\ forall p, is_Some (heap m !! p) -> 0 < p < next_addr m.

(** The allocator never answers NULL, and the deallocator belongs to it. *)
Definition mem_serving (m : memory) : Prop :=
  oracle m = [] /\ connector_memory_allocate m = connector_memory_free m.

Definition owns (m : memory) (p : Z) (b : block) : Prop :=
  heap m !! p = Some (Cell (connector_memory_free m) b).

(** Two memories that serve requests in the same way. *)
Record mem_config_eq (m m' : memory) : Prop := {
  config_alloc : connector_memory_allocate m' = connector_memory_allocate m;
  config_free : connector_memory_free m' = connector_memory_free m;
  config_oracle : oracle m' = oracle m;
  config_junk : junk m' = junk m
}.

#[export] Instance mem_config_refl : Reflexive mem_config_eq.
Proof. by intros m. Qed.
#[export] Instance mem_config_trans : Transitive mem_config_eq.
Proof. intros m1 m2 m3 [] []. constructor; congruence. Qed.

Lemma initial_memory_wf : mem_wf initial_memory.
Proof. split; [done|]. intros p [c Hc]. cbn in Hc. by rewrite lookup_empty in Hc. Qed.

Lemma mem_wf_fresh m : mem_wf m -> heap m !! next_addr m = None.
Proof.
  intros [_ H]. destruct (heap m !! next_addr m) eqn:E; [|done].
  specialize (H (next_addr m) (mk_is_Some _ _ E)). lia.
Qed.

Lemma mem_wf_beyond m a : mem_wf m -> next_addr m <= a -> heap m !! a = None.
Proof.
  intros [_ Hwf] Ha. destruct (heap m !! a) eqn:E; [|done]. assert (a < next_addr m) by (apply Hwf; by eexists). lia.
Qed.

Lemma mem_wf_pos m p : mem_wf m -> is_Some (heap m !! p) -> p <> 0.
Proof. intros [_ H] Hp. specialize (H p Hp). lia. Qed.

Lemma owns_pos m p b : mem_wf m -> owns m p b -> (p =? 0) = false.
Proof. intros Hwf Ho. apply Z.eqb_neq, (mem_wf_pos m); [done | by eexists]. Qed.

(** The memory after a served request for a block that is then filled with [b]. *)
Definition alloc_with (b : block) (m : memory) : memory :=
  set_next_addr (next_addr m + 1)
    (set_heap (<[next_addr m := Cell (connector_memory_allocate m) b]> (heap m)) m).

Lemma connector_allocate_serving size m :
  mem_serving m -> connector_allocate size m = Done (next_addr m) (alloc_with (BRaw size) m).
Proof.
  intros [Ho _]. unfold connector_allocate. rewrite Ho. cbn [tail].
  destruct m. cbn in *. by subst.
Qed.

Lemma store_alloc_with b b' m :
  mem_wf m -> store (next_addr m) b' (alloc_with b m) = Done tt (alloc_with b' m).
Proof.
  intros [Hn _]. unfold store. rewrite (proj2 (Z.eqb_neq _ 0)) by lia.
  cbn [alloc_with set_heap set_next_addr heap]. rewrite lookup_insert_eq.
  unfold alloc_with, set_heap, set_next_addr. cbn. by rewrite insert_insert_eq.
Qed.

Lemma alloc_with_wf b m : mem_wf m -> mem_wf (alloc_with b m).
Proof.
  intros [Hn Hp]. split; cbn; [lia|]. intros p Hs.
  destruct (decide (p = next_addr m)) as [->|Hne]; [lia|].
  rewrite lookup_insert_ne in Hs by done. specialize (Hp p Hs). lia.
Qed.

Lemma alloc_with_config b m : mem_config_eq m (alloc_with b m).
Proof. done. Qed.

Lemma alloc_with_owns b m : mem_serving m -> owns (alloc_with b m) (next_addr m) b.
Proof. intros [_ E]. unfold owns. cbn. by rewrite lookup_insert_eq, E. Qed.

Lemma alloc_with_owns_other b m p b' :
  mem_wf m -> owns m p b' -> owns (alloc_with b m) p b'.
Proof.
  intros Hwf Ho. unfold owns in *. cbn. rewrite lookup_insert_ne; [done|].
  intros Hp. rewrite <- Hp, (mem_wf_fresh m Hwf) in Ho. done.
Qed.

Lemma load_owns m p b : mem_wf m -> owns m p b -> load p m = Done b m.
Proof.
  intros Hwf Ho. unfold load. rewrite (owns_pos m p b) by done. by rewrite Ho.
Qed.

(** The memory after a successful deallocation. *)
Definition free_cell (p : Z) (m : memory) : memory := set_heap (delete p (heap m)) m.
(** The memory after writing a live block. *)
Definition write_cell (p : Z) (b : block) (m : memory) : memory :=
  set_heap (<[p := Cell (connector_memory_free m) b]> (heap m)) m.

Lemma store_owns m p b b' :
  mem_wf m -> owns m p b -> store p b' m = Done tt (write_cell p b' m).
Proof.
  intros Hwf Ho. unfold store. rewrite (owns_pos m p b) by done. by rewrite Ho.
Qed.

Lemma connector_free_owns m p b :
  mem_wf m -> owns m p b -> connector_free p m = Done tt (free_cell p m).
Proof.
  intros Hwf Ho. unfold connector_free. rewrite (owns_pos m p b) by done.
  rewrite Ho. cbn. by rewrite Z.eqb_refl.
Qed.

Lemma connector_free_null m : connector_free 0 m = Done tt m.
Proof. done. Qed.

Lemma free_cell_wf p m : mem_wf m -> mem_wf (free_cell p m).
Proof.
  intros [Hn Hp]. split; [done|]. intros q [c Hq]. cbn in Hq.
  rewrite lookup_delete in Hq. case_decide; [done|]. eauto.
Qed.

Lemma free_cell_config p m : mem_config_eq m (free_cell p m).
Proof. done. Qed.

Lemma free_cell_owns_other p q b m : p <> q -> owns m q b -> owns (free_cell p m) q b.
Proof. intros Hne Ho. unfold owns. cbn. by rewrite lookup_delete_ne. Qed.

Lemma write_cell_wf p b b' m : mem_wf m -> owns m p b -> mem_wf (write_cell p b' m).
Proof.
  intros Hwf Ho. split; [by destruct Hwf|]. intros q Hq. cbn in *.
  destruct (decide (q = p)) as [->|Hne].
  - apply Hwf. by eexists.
  - rewrite lookup_insert_ne in Hq by done. by apply Hwf.
Qed.

Lemma write_cell_config p b m : mem_config_eq m (write_cell p b m).
Proof. done. Qed.

Lemma write_cell_owns p b m : owns (write_cell p b m) p b.
Proof. unfold owns. cbn. by rewrite lookup_insert_eq. Qed.

Lemma write_cell_owns_other p q b b' m :
  p <> q -> owns m q b' -> owns (write_cell p b m) q b'.
Proof. intros Hne Ho. unfold owns. cbn. by rewrite lookup_insert_ne. Qed.

Lemma mem_serving_config m m' : mem_config_eq m m' -> mem_serving m -> mem_serving m'.
Proof. intros [Ha Hf Ho _] [? ?]. split; congruence. Qed.

#[export] Hint Resolve alloc_with_wf alloc_with_owns alloc_with_owns_other alloc_with_config
  free_cell_wf free_cell_config write_cell_config write_cell_owns : conn.

(** [m'] is [m] with the new blocks [ps]. *)
Record added (ps : list Z) (m m' : memory) : Prop := {
  added_wf : mem_wf m';
  added_config : mem_config_eq m m';
  added_nodup : NoDup ps;
  added_fresh : forall a, a ∈ ps -> heap m !! a = None;
  added_owned : forall a, a ∈ ps -> exists b, owns m' a b;
  added_other : forall a, a ∉ ps -> heap m' !! a = heap m !! a
}.

Lemma added_live ps m m' a : added ps m m' -> heap m !! a <> None -> heap m' !! a = heap m !! a.
Proof. intros [_ _ _ Hf _ Ho] Ha. apply Ho. intros Hin. by apply Ha, Hf. Qed.

Lemma added_owns ps m m' a b : added ps m m' -> owns m a b -> owns m' a b.
Proof. intros Hadd Ha. pose proof Hadd as [_ Hc _ _ _ _]. unfold owns in *. by rewrite (config_free _ _ Hc), (added_live _ _ _ _ Hadd), Ha; [|rewrite Ha]. Qed.

Lemma added_alloc b m : mem_wf m -> mem_serving m -> added [next_addr m] m (alloc_with b m).
Proof.
  intros Hwf Hs. constructor.
  - by apply alloc_with_wf.
  - apply alloc_with_config.
  - apply NoDup_singleton.
  - intros a Ha. apply list_elem_of_singleton in Ha. subst a. by apply mem_wf_fresh.
  - intros a Ha. apply list_elem_of_singleton in Ha. subst a. exists b. by apply alloc_with_owns.
  - intros a Ha. cbn. apply lookup_insert_ne. intros <-. by apply Ha, list_elem_of_singleton.
Qed.

Lemma added_trans ps qs m1 m2 m3 : added ps m1 m2 -> added qs m2 m3 -> added (ps ++ qs) m1 m3.
Proof.
  intros [W1 C1 N1 F1 O1 H1] [W2 C2 N2 F2 O2 H2].
  assert (Hdisj : forall a, a ∈ ps -> a ∉ qs).
  { intros a Hp Hq. destruct (O1 a Hp) as [b Hb]. unfold owns in Hb. by rewrite (F2 a Hq) in Hb. }
  constructor; [done | by etransitivity | by apply NoDup_app | | |].
  - intros a [Hp|Hq]%elem_of_app; [by apply F1|].
    rewrite <- H1; [by apply F2|]. intros Hp. by apply (Hdisj a).
  - intros a [Hp|Hq]%elem_of_app; [|by apply O2]. destruct (O1 a Hp) as [b Hb]. exists b.
    unfold owns in *. rewrite H2, (config_free _ _ C2) by auto. done.
  - intros a Ha. rewrite elem_of_app in Ha. rewrite H2, H1 by intuition. done.
Qed.

(** ** Properties *)

(** Blocks survive a change of allocator only until they are freed: a block
    obtained through a user-supplied allocator cannot be released once
    [connector_clear_allocators] has put [malloc] and [free] back, while under
    the allocator that served it the same block is released and gone. *)
Theorem allocator_switch_invalidates (a size : Z) (m : memory)
    (Hwf : mem_wf m) (Ho : oracle m = []) (Ha : a <> malloc_id) :
  exists p m1 m2,
    (connector_set_allocator a ;;; connector_set_deallocator a ;;; connector_allocate size) m
      = Done p m1 /\
    connector_clear_allocators m1 = Done SUBSTANCE_CONNECTOR_SUCCESS m2 /\
    connector_free p m2 = Stuck InvalidFree /\
    (exists m3, connector_free p m1 = Done tt m3 /\ heap m3 = heap m).
Proof.
  destruct m as [h n al fr o j]. cbn in Ho. subst o.
  assert (Hfresh : h !! n = None) by (apply (mem_wf_fresh _ Hwf)).
  destruct Hwf as [Hn _]. cbn in Hn.
  set (m1 := alloc_with (BRaw size) (Memory h n a a [] j)).
  exists n, m1, (Memory (heap m1) (next_addr m1) malloc_id malloc_id [] j).
  split; [done|]. split; [done|].
  unfold connector_free. rewrite (proj2 (Z.eqb_neq n 0)) by lia. cbn.
  rewrite lookup_insert_eq. cbn. rewrite (proj2 (Z.eqb_neq a malloc_id)) by done.
  split; [done|]. rewrite Z.eqb_refl. eexists. split; [done|]. cbn.
  by rewrite delete_insert_id.
Qed.

Lemma allocator_switch_invalidates_witness :
  exists p m1 m2,
    (connector_set_allocator 7 ;;; connector_set_deallocator 7 ;;; connector_allocate 16)
      initial_memory = Done p m1 /\
    connector_clear_allocators m1 = Done SUBSTANCE_CONNECTOR_SUCCESS m2 /\
    connector_free p m2 = Stuck InvalidFree /\
    (exists m3, connector_free p m1 = Done tt m3 /\ heap m3 = heap initial_memory).
Proof.
  apply (allocator_switch_invalidates 7 16 initial_memory initial_memory_wf eq_refl).
  discriminate.
Defined.
