(* ===== verification/Strings.v ===== *)
(** * Strings and paths

    [string_utils.c] and [pathutils.c] (the POSIX variant).  A C string is a
    block of bytes with a terminating zero; bytes are values from 0 to 255 and
    [schar] is what they compare as when [char] is signed. *)

From S2P Require Import Prelude Wire Memory.

(** ** The C string functions the code uses *)

Definition schar (b : Z) : Z := to_signed 8 b.

(** The bytes before the first zero, if there is one. *)
Fixpoint cstr_prefix (bs : list Z) : option (list Z) :=
  match bs with
  | [] => None
  | b :: bs' => if b =? 0 then Some [] else (fun s => b :: s) <$> cstr_prefix bs'
  end.

(** Reading a string up to its terminator. *)
Definition read_cstr (p : Z) : M memory (list Z) :=
  let* bs := load_bytes p in
  match cstr_prefix bs with Some s => ret s | None => stuck OutOfBounds end.

Definition strlen (p : Z) : M memory Z :=
  let* s := read_cstr p in ret (Z.of_nat (length s)).

(** ** [string_utils.c] *)

(** The loop of [connector_memrchr]: [n] bytes are left to look at, the next
    one is at offset [n - 1]. *)
Fixpoint memrchr_loop (n : nat) (bs : list Z) (c : Z) : option Z :=
  match n with
  | O => None
  | S i => if schar (nth i bs 0) =? c then Some (Z.of_nat i) else memrchr_loop i bs c
  end.

(** The offset of the result from [buffer], [None] for NULL. *)
Definition connector_memrchr (buffer c : Z) (length_ : nat) : M memory (option Z) :=
  match length_ with
  | O => ret None
  | _ =>
      let* bs := load_bytes buffer in
      if (length bs <? length_)%nat then stuck OutOfBounds
      else ret (memrchr_loop length_ bs c)
  end.

Definition connector_strdup (s : Z) : M memory Z :=
  if s =? 0 then ret 0
  else
    let* cs := read_cstr s in
    let length_ := Z.of_nat (length cs) + 1 in
    let* result := connector_allocate length_ in
    store result (BStr (cs ++ [0])) ;;;
    ret result.

Definition connector_strndup (s : Z) (n : Z) : M memory Z :=
  if s =? 0 then ret 0
  else
    let* bs := load_bytes s in
    let* slen := strlen s in
    let length_ := slen + 1 in
    if n <=? length_ then
      let* result := connector_allocate n in
      store result (BStr (take (Z.to_nat n) bs)) ;;;
      ret result
    else
      let* result := connector_allocate (u64 (n + 1)) in
      if Z.of_nat (length bs) <? n then stuck OutOfBounds
      else
        store result (BStr (take (Z.to_nat n) bs ++ [0])) ;;;
        ret result.

(** The loop of [connector_chomp] with [i + 1 = n]: the buffer and [amount]. *)
Fixpoint chomp_loop (n : nat) (bs : list Z) (delim amount : Z) : list Z * Z :=
  match n with
  | O => (bs, amount)
  | S i =>
      if schar (nth i bs 0) =? schar delim
      then chomp_loop i (<[i := 0]> bs) delim (amount + 1)
      else (bs, amount)
  end.

Definition connector_chomp (s delim : Z) : M memory Z :=
  let* bs := load_bytes s in
  let* cs := read_cstr s in
  let '(bs', amount) := chomp_loop (length cs) bs delim 0 in
  store s (BStr bs') ;;;
  ret amount.

(** The returned code and what is written through [length], if anything. *)
Definition connector_untrusted_strlen (buffer : Z) (buffer_length : nat) (length_given : bool) :
    M memory (Z * option Z) :=
  let* found := connector_memrchr buffer 0 buffer_length in
  match found with
  | Some off =>
      if length_given then ret (SUBSTANCE_CONNECTOR_SUCCESS, Some off)
      else ret (SUBSTANCE_CONNECTOR_ERROR, None)
  | None => ret (SUBSTANCE_CONNECTOR_ERROR, None)
  end.

(** ** [pathutils.c] *)

Definition CONNECTOR_PATH_DELIM : Z := 47. (* '/' *)

(** Copy [src] into [buf] at offset [loc]. *)
Definition write_at (loc : nat) (src buf : list Z) : option (list Z) :=
  if (length buf <? loc + length src)%nat then None
  else Some (take loc buf ++ src ++ drop (loc + length src) buf).

(** The second loop of [connector_path_join]: the delimiter of the platform, the
    remaining parts, the offset [location] and the buffer. *)
Fixpoint path_join_loop (delim : Z) (parts : list (list Z)) (location : nat) (buf : list Z) :
    option (list Z) :=
  match parts with
  | [] => Some buf
  | part :: rest =>
      let length_ := length part in
      match write_at location part buf with
      | None => None
      | Some buf1 =>
          let c := match rest with [] => 0 | _ => delim end in
          match write_at (location + length_) [c] buf1 with
          | None => None
          | Some buf2 => path_join_loop delim rest (location + length_ + 1) buf2
          end
      end
  end.

(** The first loop: the sum of the lengths, as a [size_t]. *)
Fixpoint path_join_size (parts : list (list Z)) (size : Z) : Z :=
  match parts with
  | [] => size
  | part :: rest => path_join_size rest (u64 (size + Z.of_nat (length part)))
  end.

(** [connector_path_join] on a platform with the delimiter [delim] and characters
    of [width] bytes.  [parts] is the array up to its NULL sentinel, [None] when it
    is NULL itself; the answer is the code and what is stored through [result]. *)
Definition path_join_on (delim width : Z) (parts : option (list (list Z))) (result_given : bool) :
    M memory (Z * option Z) :=
  match parts with
  | Some ps =>
      if result_given then
        let size := path_join_size ps 0 in
        let count := length ps in
        if (0 <? count)%nat then
          let size := u64 (size + u64 (Z.of_nat count - 1)) in
          let n := u64 (size + 1) in
          let* p := connector_allocate (u64 (width * n)) in
          let* m := get in
          match path_join_loop delim ps 0 (replicate (Z.to_nat n) (junk m)) with
          | Some buf => store p (BStr buf) ;;; ret (SUBSTANCE_CONNECTOR_SUCCESS, Some p)
          | None => stuck OutOfBounds
          end
        else ret (SUBSTANCE_CONNECTOR_ERROR, None)
      else ret (SUBSTANCE_CONNECTOR_ERROR, None)
  | None => ret (SUBSTANCE_CONNECTOR_ERROR, None)
  end.

Definition connector_path_join : option (list (list Z)) -> bool -> M memory (Z * option Z) :=
  path_join_on CONNECTOR_PATH_DELIM 1.

Definition connector_path_strdup (str : Z) : M memory Z := connector_strdup str.

(** ** The functions of <stdio.h> and <stdlib.h> used on paths *)

(** The digits of [n] in base ten, as [snprintf] with [%u] prints them; [fuel]
    bounds the number of digits. *)
Fixpoint decimal_digits (fuel : nat) (n : Z) (acc : list Z) : list Z :=
  match fuel with
  | O => acc
  | S f =>
      let acc' := 48 + n mod 10 :: acc in
      if n / 10 =? 0 then acc' else decimal_digits f (n / 10) acc'
  end.
Definition print_unsigned (n : Z) : list Z := decimal_digits 10 n [].

Definition is_space (c : Z) : bool := (c =? 32) || ((9 <=? c) && (c <=? 13)).
Definition is_digit (c : Z) : bool := (48 <=? c) && (c <=? 57).

Fixpoint skip_spaces (s : list Z) : list Z :=
  match s with
  | c :: s' => if is_space c then skip_spaces s' else s
  | [] => []
  end.
Fixpoint atoi_digits (s : list Z) (acc : Z) : Z :=
  match s with
  | c :: s' => if is_digit c then atoi_digits s' (10 * acc + (c - 48)) else acc
  | [] => acc
  end.

(** [atoi]; the value of a string that does not fit an [int] is unspecified
    by the C library, here it is not reduced. *)
Definition atoi (s : list Z) : Z :=
  match skip_spaces s with
  | c :: s' =>
      if c =? 45 then - atoi_digits s' 0
      else if c =? 43 then atoi_digits s' 0
      else atoi_digits (c :: s') 0
  | [] => 0
  end.

(** [strrchr]: the suffix from the last occurrence of [c]. *)
Fixpoint strrchr (s : list Z) (c : Z) : option (list Z) :=
  match s with
  | [] => None
  | b :: s' =>
      match strrchr s' c with
      | Some r => Some r
      | None => if b =? c then Some s else None
      end
  end.

(** ** Representation of strings *)

(** A list of bytes without a zero. *)
Definition cstring (s : list Z) : Prop := Forall (fun b => 0 < b < 256) s.

(** [p] points to a live string [s], in a block of the current deallocator. *)
Definition points_to_string (m : memory) (p : Z) (s : list Z) : Prop :=
  owns m p (BStr (s ++ [0])).

(** The specification of a join: the parts with a delimiter between them. *)
Fixpoint joined_by (delim : Z) (parts : list (list Z)) : list Z :=
  match parts with
  | [] => []
  | [p] => p
  | p :: rest => p ++ delim :: joined_by delim rest
  end.
Abbreviation joined := (joined_by CONNECTOR_PATH_DELIM).

Fixpoint total_length (parts : list (list Z)) : Z :=
  match parts with [] => 0 | p :: rest => Z.of_nat (length p) + total_length rest end.

(** ** Lemmas *)

Lemma cstr_prefix_app s rest : cstring s -> cstr_prefix (s ++ 0 :: rest) = Some s.
Proof.
  induction 1 as [|b s Hb _ IH]; cbn; [done|].
  rewrite (proj2 (Z.eqb_neq b 0)) by lia. by rewrite IH.
Qed.

Lemma load_bytes_string m p s :
  mem_wf m -> points_to_string m p s -> load_bytes p m = Done (s ++ [0]) m.
Proof. intros Hwf Hp. unfold load_bytes, bind. by rewrite (load_owns m p _ Hwf Hp). Qed.

Lemma read_cstr_string m p s :
  mem_wf m -> cstring s -> points_to_string m p s -> read_cstr p m = Done s m.
Proof.
  intros Hwf Hs Hp. unfold read_cstr, bind.
  rewrite (load_bytes_string m p s) by done. by rewrite cstr_prefix_app.
Qed.

Lemma connector_strdup_null m : connector_strdup 0 m = Done 0 m.
Proof. done. Qed.

Lemma connector_strdup_string m p s :
  mem_wf m -> mem_serving m -> cstring s -> points_to_string m p s ->
  connector_strdup p m = Done (next_addr m) (alloc_with (BStr (s ++ [0])) m).
Proof.
  intros Hwf Hserve Hs Hp. unfold connector_strdup.
  rewrite (owns_pos m p _ Hwf Hp). unfold bind.
  rewrite (read_cstr_string m p s) by done.
  rewrite connector_allocate_serving by done.
  by rewrite store_alloc_with.
Qed.

Lemma length_write_at loc src buf buf' :
  write_at loc src buf = Some buf' -> length buf' = length buf.
Proof.
  unfold write_at. case_match eqn:E; [done|]. apply Nat.ltb_ge in E. intros [= <-].
  rewrite !length_app, length_take, length_drop. lia.
Qed.

(** Writing right after what has been written extends it. *)
Lemma write_at_extend pre src tl :
  (length src <= length tl)%nat ->
  write_at (length pre) src (pre ++ tl) = Some ((pre ++ src) ++ drop (length src) tl).
Proof.
  intros H. unfold write_at. rewrite length_app.
  rewrite (proj2 (Nat.ltb_ge _ _)) by lia.
  rewrite take_app_length, drop_app_add. by rewrite <- app_assoc.
Qed.

Lemma length_joined_by delim parts :
  parts <> [] ->
  Z.of_nat (length (joined_by delim parts)) = total_length parts + Z.of_nat (length parts) - 1.
Proof.
  induction parts as [|p rest IH]; [done|]. intros _.
  destruct rest as [|q rest]; [cbn; lia|].
  change (joined_by delim (p :: q :: rest)) with (p ++ delim :: joined_by delim (q :: rest)).
  rewrite length_app. cbn [length]. rewrite Nat2Z.inj_add, Nat2Z.inj_succ, IH by done.
  cbn [total_length length]. lia.
Qed.

Lemma path_join_loop_correct delim parts pre tl :
  parts <> [] -> (length tl = S (length (joined_by delim parts)))%nat ->
  path_join_loop delim parts (length pre) (pre ++ tl) = Some (pre ++ joined_by delim parts ++ [0]).
Proof.
  revert pre tl. induction parts as [|p rest IH]; [done|]. intros pre tl _ Hl.
  assert (Hp : (length p < length tl)%nat).
  { rewrite Hl. destruct rest; cbn [joined_by]; [lia|]. rewrite length_app. lia. }
  cbn [path_join_loop]. rewrite write_at_extend by lia.
  rewrite <- length_app.
  rewrite write_at_extend by (rewrite length_drop; cbn; lia).
  rewrite drop_drop. cbn [length].
  replace (length (pre ++ p) + 1)%nat with (length ((pre ++ p) ++ [0])) at 1
    by (rewrite (length_app _ [0]); done).
  destruct rest as [|q rest].
  - cbn [joined_by] in *. cbn [path_join_loop].
    replace (drop _ tl) with (@nil Z) by (symmetry; apply nil_length_inv; rewrite length_drop; lia).
    rewrite app_nil_r. by rewrite <- app_assoc.
  - rewrite (length_app (pre ++ p) [0]).
    change (length [0]) with (length [delim]). rewrite <- length_app.
    rewrite IH; [|done|].
    + change (joined_by delim (p :: q :: rest)) with (p ++ delim :: joined_by delim (q :: rest)).
      by rewrite <- !app_assoc.
    + rewrite length_drop, Hl.
      change (joined_by delim (p :: q :: rest)) with (p ++ delim :: joined_by delim (q :: rest)).
      rewrite length_app. cbn [length]. lia.
Qed.

Lemma total_length_nonneg parts : 0 <= total_length parts.
Proof. induction parts; cbn [total_length]; lia. Qed.

Lemma path_join_size_total parts acc :
  0 <= acc -> acc + total_length parts < 2 ^ 64 -> path_join_size parts acc = acc + total_length parts.
Proof.
  revert acc. induction parts as [|p rest IH]; intros acc Ha Hb; cbn [path_join_size total_length] in *.
  - lia.
  - pose proof (total_length_nonneg rest).
    unfold u64. rewrite Z.mod_small by lia. rewrite IH by lia. lia.
Qed.

Lemma path_join_on_serving delim width ps m :
  mem_wf m -> mem_serving m -> ps <> [] -> total_length ps + Z.of_nat (length ps) < 2 ^ 64 ->
  path_join_on delim width (Some ps) true m =
    Done (SUBSTANCE_CONNECTOR_SUCCESS, Some (next_addr m))
      (alloc_with (BStr (joined_by delim ps ++ [0])) m).
Proof.
  intros Hwf Hserve Hne Hlen. unfold path_join_on.
  pose proof (total_length_nonneg ps). pose proof (length_joined_by delim ps Hne) as Hj.
  assert (0 < length ps)%nat by (destruct ps; [done | cbn; lia]).
  rewrite (proj2 (Nat.ltb_lt _ _)) by done.
  rewrite path_join_size_total by lia. unfold u64.
  rewrite (Z.mod_small (Z.of_nat (length ps) - 1)) by lia.
  rewrite (Z.mod_small (0 + _ + _)) by lia. rewrite (Z.mod_small (0 + _ + _ + _)) by lia.
  unfold bind at 1. rewrite connector_allocate_serving by done.
  unfold bind at 1. cbn [get].
  pose proof (path_join_loop_correct delim ps [] (replicate
    (Z.to_nat (0 + total_length ps + (Z.of_nat (length ps) - 1) + 1)) (junk m)) Hne) as E.
  cbn [length app] in E. rewrite length_replicate in E.
  cbn [alloc_with set_next_addr set_heap junk]. rewrite E by lia.
  unfold bind. by rewrite store_alloc_with.
Qed.

Lemma connector_path_join_serving ps m :
  mem_wf m -> mem_serving m -> ps <> [] -> total_length ps + Z.of_nat (length ps) < 2 ^ 64 ->
  connector_path_join (Some ps) true m =
    Done (SUBSTANCE_CONNECTOR_SUCCESS, Some (next_addr m))
      (alloc_with (BStr (joined ps ++ [0])) m).
Proof. apply path_join_on_serving. Qed.

(** ** Decimal numbers *)

Lemma atoi_digits_app s1 s2 acc :
  Forall (fun c => 48 <= c <= 57) s1 -> atoi_digits (s1 ++ s2) acc = atoi_digits s2 (atoi_digits s1 acc).
Proof.
  revert acc. induction s1 as [|c s1 IH]; intros acc Hs; [done|]. cbn.
  apply Forall_cons_1 in Hs as [Hc Hs]. unfold is_digit.
  rewrite (proj2 (Z.leb_le 48 c)), (proj2 (Z.leb_le c 57)) by lia. cbn. by apply IH.
Qed.

Lemma decimal_digits_app fuel n acc : decimal_digits fuel n acc = decimal_digits fuel n [] ++ acc.
Proof.
  revert n acc. induction fuel as [|f IH]; intros n acc; [done|]. cbn.
  case_match; [done|]. rewrite IH, (IH _ [_]). by rewrite <- app_assoc.
Qed.

Lemma decimal_digits_digits fuel n :
  Forall (fun c => 48 <= c <= 57) (decimal_digits fuel n []).
Proof.
  revert n. induction fuel as [|f IH]; intros n; [constructor|]. cbn.
  pose proof (Z.mod_pos_bound n 10 ltac:(lia)).
  case_match; [repeat constructor; lia|]. rewrite decimal_digits_app.
  apply Forall_app. split; [apply IH | repeat constructor; lia].
Qed.

Lemma atoi_digits_decimal fuel n :
  0 <= n < 10 ^ Z.of_nat fuel -> (0 < fuel)%nat -> atoi_digits (decimal_digits fuel n []) 0 = n.
Proof.
  revert n. induction fuel as [|f IH]; intros n Hn Hf; [lia|]. cbn [decimal_digits].
  pose proof (Z.div_mod n 10 ltac:(lia)) as Hdm. pose proof (Z.mod_pos_bound n 10 ltac:(lia)).
  assert (Hdig : forall a, atoi_digits [48 + n mod 10] a = 10 * a + n mod 10).
  { intros a. cbn. unfold is_digit.
    rewrite (proj2 (Z.leb_le 48 _)), (proj2 (Z.leb_le _ 57)) by lia. cbn. lia. }
  destruct (Z.eqb_spec (n / 10) 0) as [E|E].
  - rewrite Hdig. lia.
  - rewrite Nat2Z.inj_succ, Z.pow_succ_r in Hn by lia.
    assert (0 <= n / 10 < 10 ^ Z.of_nat f) by (split; [apply Z.div_pos; lia | apply Z.div_lt_upper_bound; lia]).
    assert (0 < f)%nat by (destruct f; [cbn in *; lia | lia]).
    rewrite decimal_digits_app, atoi_digits_app by apply decimal_digits_digits.
    rewrite IH by done. rewrite Hdig. lia.
Qed.

Lemma decimal_digits_head fuel n :
  (0 < fuel)%nat -> exists c s, decimal_digits fuel n [] = c :: s /\ 48 <= c <= 57.
Proof.
  intros Hf. pose proof (decimal_digits_digits fuel n) as H.
  destruct (decimal_digits fuel n []) as [|c s] eqn:E.
  - destruct fuel; [lia|]. cbn in E. case_match; [done|].
    rewrite decimal_digits_app in E. by destruct (decimal_digits fuel (n / 10) []).
  - apply Forall_cons_1 in H as [? _]. eauto.
Qed.

Lemma atoi_digit_string c s : 48 <= c <= 57 -> atoi (c :: s) = atoi_digits (c :: s) 0.
Proof.
  intros Hc. unfold atoi. cbn [skip_spaces]. unfold is_space.
  rewrite (proj2 (Z.eqb_neq c 32)), (proj2 (Z.leb_gt c 13)), andb_false_r by lia. cbn [orb].
  by rewrite (proj2 (Z.eqb_neq c 45)), (proj2 (Z.eqb_neq c 43)) by lia.
Qed.

Lemma atoi_print_unsigned n : 0 <= n < 2 ^ 32 -> atoi (print_unsigned n) = n.
Proof.
  intros Hn. unfold print_unsigned.
  destruct (decimal_digits_head 10 n ltac:(lia)) as (c & s & E & Hc).
  rewrite E, atoi_digit_string by done. rewrite <- E. apply atoi_digits_decimal; [|lia].
  split; [lia|]. eapply Z.lt_trans; [apply Hn | done].
Qed.

Lemma print_unsigned_cstring n : cstring (print_unsigned n).
Proof.
  refine (List.Forall_impl _ _ (decimal_digits_digits 10 n)). cbn. lia.
Qed.

Lemma strrchr_absent s c : ~ In c s -> strrchr s c = None.
Proof.
  induction s as [|b s IH]; intros Hn; [done|]. cbn.
  rewrite IH by (intros ?; apply Hn; by right).
  rewrite (proj2 (Z.eqb_neq b c)); [done|]. intros ->. apply Hn. by left.
Qed.

Lemma strrchr_last s1 s2 c : ~ In c s2 -> strrchr (s1 ++ c :: s2) c = Some (c :: s2).
Proof.
  intros Hn. induction s1 as [|b s1 IH]; cbn.
  - by rewrite strrchr_absent, Z.eqb_refl.
  - by rewrite IH.
Qed.

Lemma print_unsigned_no_delim n : ~ In CONNECTOR_PATH_DELIM (print_unsigned n).
Proof.
  intros Hin. pose proof (decimal_digits_digits 10 n) as H. rewrite Forall_forall in H.
  apply list_elem_of_In in Hin. specialize (H _ Hin). unfold CONNECTOR_PATH_DELIM in H. lia.
Qed.

(** ** The loop of [connector_chomp] *)

Lemma schar_inj a b : 0 <= a < 256 -> 0 <= b < 256 -> schar a = schar b -> a = b.
Proof.
  unfold schar, to_signed. intros Ha Hb. change (2 ^ 8) with 256.
  rewrite !Z.mod_small by lia. change (2 ^ (8 - 1)) with 128. destruct_ltb; lia.
Qed.

Lemma chomp_loop_correct s rest d amount :
  cstring s -> 0 < d < 256 ->
  exists kept k, s = kept ++ replicate k d /\ last kept <> Some d /\
    chomp_loop (length s) (s ++ rest) d amount =
      (kept ++ replicate k 0 ++ rest, amount + Z.of_nat k).
Proof.
  intros Hs Hd. revert rest amount. induction s as [|b s IH] using rev_ind; intros rest amount.
  - exists [], 0%nat. split; [done|]. split; [done|]. cbn. by rewrite Z.add_0_r.
  - apply Forall_app in Hs as [Hs Hb]. apply Forall_cons_1 in Hb as [Hb _].
    rewrite length_app, Nat.add_comm. cbn [length Nat.add chomp_loop].
    rewrite <- app_assoc, app_nth2, Nat.sub_diag by lia. cbn [app nth].
    destruct (Z.eqb_spec (schar b) (schar d)) as [E|E].
    + assert (b = d) as -> by (apply schar_inj; [lia | lia | done]).
      rewrite insert_app_r_alt by lia. rewrite Nat.sub_diag. cbn.
      destruct (IH Hs (0 :: rest) (amount + 1)) as (kept & k & Hk & Hl & Hc).
      exists kept, (S k). split; [|split; [done|]].
      * rewrite Hk, <- app_assoc. f_equal. by rewrite replicate_S_end.
      * etransitivity; [exact Hc|]. f_equal; [|lia].
        rewrite replicate_S_end, <- app_assoc. done.
    + exists (s ++ [b]), 0%nat. split; [by rewrite app_nil_r|]. split.
      * rewrite last_snoc. intros [= ->]. by apply E.
      * cbn. rewrite <- app_assoc, Z.add_0_r. done.
Qed.

(** ** The loop of [connector_memrchr] *)

Lemma memrchr_loop_last pre post c b :
  schar b = c -> Forall (fun x => schar x <> c) post ->
  memrchr_loop (length (pre ++ b :: post)) (pre ++ b :: post) c = Some (Z.of_nat (length pre)).
Proof.
  intros Hb Hp. revert Hp. induction post as [|x post IH] using rev_ind; intros Hp.
  - rewrite length_app, Nat.add_comm. cbn [length Nat.add memrchr_loop].
    rewrite app_nth2, Nat.sub_diag by lia. cbn. by rewrite (proj2 (Z.eqb_eq _ _) Hb).
  - apply Forall_app in Hp as [Hp Hx]. apply Forall_cons_1 in Hx as [Hx _].
    rewrite app_comm_cons, app_assoc, length_app, Nat.add_comm.
    cbn [length Nat.add memrchr_loop].
    rewrite app_nth2, Nat.sub_diag by lia. cbn [nth].
    rewrite (proj2 (Z.eqb_neq _ _) Hx).
    rewrite <- (IH Hp). generalize (pre ++ b :: post) as l. intros l.
    assert (H : forall n, (n <= length l)%nat -> memrchr_loop n (l ++ [x]) c = memrchr_loop n l c).
    { induction n as [|n IHn]; intros Hn; [done|]. cbn.
      rewrite app_nth1 by lia. by rewrite IHn by lia. }
    by apply H.
Qed.

(** ** Properties *)

(** Joining any non-empty list of path parts succeeds with a fresh block
    that holds exactly the parts separated by ['/'] and a final zero: the sizes
    computed by the first loop are exactly what the second loop writes, so no
    write leaves the allocation, and nothing else in memory changes. *)
Theorem path_join_correct (ps : list (list Z)) (m : memory)
    (Hwf : mem_wf m) (Hserve : mem_serving m) (Hne : ps <> [])
    (Hlen : total_length ps + Z.of_nat (length ps) < 2 ^ 64) :
  exists p m', connector_path_join (Some ps) true m =
      Done (SUBSTANCE_CONNECTOR_SUCCESS, Some p) m' /\
    heap m !! p = None /\
    points_to_string m' p (joined ps) /\
    delete p (heap m') = heap m /\ mem_wf m' /\ mem_config_eq m m'.
Proof.
  exists (next_addr m), (alloc_with (BStr (joined ps ++ [0])) m).
  rewrite connector_path_join_serving by done.
  split; [done|]. split; [by apply mem_wf_fresh|].
  split; [by apply alloc_with_owns|].
  split; [| split; [by apply alloc_with_wf | done]].
  cbn. by rewrite delete_insert_id by (by apply mem_wf_fresh).
Qed.

Lemma path_join_correct_witness :
  exists p m', connector_path_join (Some [[47; 116; 109; 112]; [97]; [98]]) true initial_memory =
      Done (SUBSTANCE_CONNECTOR_SUCCESS, Some p) m' /\
    points_to_string m' p [47; 116; 109; 112; 47; 97; 47; 98].
Proof.
  assert (Hs : mem_serving initial_memory) by (split; reflexivity).
  destruct (path_join_correct [[47; 116; 109; 112]; [97]; [98]] initial_memory
    initial_memory_wf Hs ltac:(discriminate) eq_refl) as (p & m' & E & _ & Hp & _).
  exists p, m'. split; [exact E | exact Hp].
Defined.

(** [connector_strdup] of a live string returns a fresh pointer to an equal
    string, leaves the original (and every other block) in place, and returns
    NULL for NULL. *)
Theorem strdup_correct (p : Z) (s : list Z) (m : memory)
    (Hwf : mem_wf m) (Hserve : mem_serving m) (Hs : cstring s) (Hp : points_to_string m p s) :
  connector_strdup 0 m = Done 0 m /\
  exists q m', connector_strdup p m = Done q m' /\ q <> p /\ q <> 0 /\
    points_to_string m' q s /\ points_to_string m' p s /\
    delete q (heap m') = heap m /\ mem_wf m'.
Proof.
  split; [done|]. exists (next_addr m), (alloc_with (BStr (s ++ [0])) m).
  rewrite (connector_strdup_string m p s) by done. split; [done|].
  assert (Hb : 0 < p < next_addr m) by (apply Hwf; by eexists).
  split; [lia|]. split; [destruct Hwf; lia|].
  split; [by apply alloc_with_owns|].
  split; [by apply alloc_with_owns_other|].
  split; [| by apply alloc_with_wf].
  cbn. by rewrite delete_insert_id by (by apply mem_wf_fresh).
Qed.

Definition one_string_memory : memory := alloc_with (BStr [97; 98; 0]) initial_memory.

Lemma strdup_correct_witness :
  exists q m', connector_strdup 1 one_string_memory = Done q m' /\ q <> 1 /\
    points_to_string m' q [97; 98].
Proof.
  assert (Hwf : mem_wf one_string_memory) by (apply alloc_with_wf, initial_memory_wf).
  assert (Hs : mem_serving one_string_memory) by (split; reflexivity).
  assert (Hc : cstring [97; 98]) by (repeat constructor; lia).
  destruct (strdup_correct 1 [97; 98] one_string_memory Hwf Hs Hc eq_refl)
    as (_ & q & m' & E & Hne & _ & Hq & _).
  exists q, m'. split; [exact E | split; [exact Hne | exact Hq]].
Defined.

(** [connector_chomp] removes the whole run of delimiters at the end of the
    string and nothing else, in place, and returns how many it removed; what is
    left does not end in the delimiter. *)
Theorem chomp_correct (p : Z) (s : list Z) (d : Z) (m : memory)
    (Hwf : mem_wf m) (Hs : cstring s) (Hp : points_to_string m p s) (Hd : 0 < d < 256) :
  exists kept k m', s = kept ++ replicate k d /\ last kept <> Some d /\
    connector_chomp p d m = Done (Z.of_nat k) m' /\
    owns m' p (BStr (kept ++ replicate k 0 ++ [0])) /\
    read_cstr p m' = Done kept m' /\ delete p (heap m') = delete p (heap m).
Proof.
  destruct (chomp_loop_correct s [0] d 0 Hs Hd) as (kept & k & Hk & Hl & Hc).
  exists kept, k, (write_cell p (BStr (kept ++ replicate k 0 ++ [0])) m).
  split; [done|]. split; [done|].
  assert (Hw : mem_wf (write_cell p (BStr (kept ++ replicate k 0 ++ [0])) m))
    by (by eapply write_cell_wf).
  split; [|split; [apply write_cell_owns | split]].
  - unfold connector_chomp, bind. rewrite (load_bytes_string m p s) by done.
    rewrite (read_cstr_string m p s) by done. rewrite Hc.
    by rewrite (store_owns m p (BStr (s ++ [0]))).
  - unfold read_cstr, load_bytes, bind.
    erewrite load_owns; [|done|apply write_cell_owns].
    assert (Hck : cstring kept) by (rewrite Hk in Hs; by apply Forall_app in Hs as [? _]).
    assert (E : exists r, replicate k 0 ++ [0] = 0 :: r) by (destruct k; cbn; eauto).
    destruct E as [r ->]. cbn. by rewrite cstr_prefix_app.
  - cbn. by rewrite delete_insert_eq.
Qed.

Lemma chomp_correct_witness :
  exists kept k m', [97; 47; 47] = kept ++ replicate k 47 /\ last kept <> Some 47 /\
    connector_chomp 1 47 (alloc_with (BStr [97; 47; 47; 0]) initial_memory) = Done (Z.of_nat k) m'.
Proof.
  assert (Hwf : mem_wf (alloc_with (BStr [97; 47; 47; 0]) initial_memory))
    by (apply alloc_with_wf, initial_memory_wf).
  assert (Hs : cstring [97; 47; 47]) by (repeat constructor; lia).
  destruct (chomp_correct 1 [97; 47; 47] 47 _ Hwf Hs eq_refl ltac:(lia))
    as (kept & k & m' & H1 & H2 & H3 & _).
  exists kept, k, m'. split; [exact H1 | split; [exact H2 | exact H3]].
Defined.

(** [connector_untrusted_strlen] looks for the terminator from the end of
    the buffer, so it answers the offset of the LAST zero: the length of the
    string when the only zero is the terminator, but the size of the whole
    buffer minus one as soon as the buffer ends in a zero. *)
Theorem untrusted_strlen_last_zero (p : Z) (s fill post : list Z) (m : memory)
    (Hwf : mem_wf m) (Hp : owns m p (BStr (s ++ fill ++ 0 :: post)))
    (Hpost : Forall (fun b => 0 < b < 256) post) :
  connector_untrusted_strlen p (length (s ++ fill ++ 0 :: post)) true m =
    Done (SUBSTANCE_CONNECTOR_SUCCESS, Some (Z.of_nat (length s + length fill))) m.
Proof.
  unfold connector_untrusted_strlen, bind, connector_memrchr.
  assert (exists n, length (s ++ fill ++ 0 :: post) = S n) as [n E].
  { rewrite !length_app. cbn. exists (length s + length fill + length post)%nat. lia. }
  rewrite E. rewrite <- E. unfold load_bytes, bind. rewrite (load_owns m p _ Hwf Hp).
  cbn [ret]. rewrite Nat.ltb_irrefl.
  rewrite app_assoc, (memrchr_loop_last (s ++ fill) post 0 0); [by rewrite length_app | done |].
  eapply Forall_impl; [exact Hpost|]. cbn. intros b Hb Hz. unfold schar, to_signed in Hz.
  change (2 ^ 8) with 256 in Hz. rewrite Z.mod_small in Hz by lia. destruct_ltb; lia.
Qed.

Lemma untrusted_strlen_last_zero_witness :
  connector_untrusted_strlen 1 6 true (alloc_with (BStr [97; 98; 0; 99; 0; 100]) initial_memory) =
    Done (SUBSTANCE_CONNECTOR_SUCCESS, Some 4)
      (alloc_with (BStr [97; 98; 0; 99; 0; 100]) initial_memory).
Proof.
  assert (Hwf : mem_wf (alloc_with (BStr [97; 98; 0; 99; 0; 100]) initial_memory))
    by (apply alloc_with_wf, initial_memory_wf).
  exact (untrusted_strlen_last_zero 1 [97; 98] [0; 99] [100] _ Hwf eq_refl
           ltac:(repeat constructor; lia)).
Defined.

(** [connector_strndup] does not do what strndup does: with a bound up to
    the length of the string the copy has no terminator, and with a bound past
    the terminator it reads beyond the end of the source block; only the bound
    [strlen + 1] gives a string. *)
Theorem strndup_bounds (p : Z) (s : list Z) (n : Z) (m : memory)
    (Hwf : mem_wf m) (Hserve : mem_serving m) (Hs : cstring s) (Hp : points_to_string m p s)
    (Hn : 0 <= n < 2 ^ 64 - 1) :
  match Z.compare n (Z.of_nat (length s) + 1) with
  | Lt => exists q m' bs, connector_strndup p n m = Done q m' /\ owns m' q (BStr bs) /\
            Z.of_nat (length bs) = n /\ cstr_prefix bs = None
  | Eq => exists q m', connector_strndup p n m = Done q m' /\ points_to_string m' q s
  | Gt => connector_strndup p n m = Stuck OutOfBounds
  end.
Proof.
  assert (Hpre : forall t, cstring t -> cstr_prefix t = None).
  { induction 1 as [|b t Hb _ IH]; [done|]. cbn.
    rewrite (proj2 (Z.eqb_neq b 0)) by lia. by rewrite IH. }
  assert (E : forall k, (load_bytes p m, strlen p m) = k -> k = (Done (s ++ [0]) m, Done (Z.of_nat (length s)) m)).
  { intros k <-. unfold strlen, bind. rewrite (load_bytes_string m p s) by done.
    by rewrite (read_cstr_string m p s). }
  injection (E _ eq_refl) as El Es.
  assert (Hstep : n <= Z.of_nat (length s) + 1 -> connector_strndup p n m =
    Done (next_addr m) (alloc_with (BStr (take (Z.to_nat n) (s ++ [0]))) m)).
  { intros Hle. unfold connector_strndup, bind. rewrite (owns_pos m p _ Hwf Hp), El, Es.
    cbn [ret]. rewrite (proj2 (Z.leb_le _ _)) by lia.
    rewrite connector_allocate_serving by done. by rewrite store_alloc_with. }
  destruct (Z.compare_spec n (Z.of_nat (length s) + 1)) as [Hc|Hc|Hc].
  - do 2 eexists. split; [apply Hstep; lia|].
    rewrite take_ge by (rewrite length_app; cbn; lia). by apply alloc_with_owns.
  - do 3 eexists. split; [apply Hstep; lia|]. split; [by apply alloc_with_owns|].
    split; [rewrite length_take, length_app; cbn; lia|].
    rewrite take_app_le by lia. apply Hpre. by apply Forall_take.
  - unfold connector_strndup, bind. rewrite (owns_pos m p _ Hwf Hp), El, Es. cbn [ret].
    rewrite (proj2 (Z.leb_gt _ _)) by lia.
    rewrite connector_allocate_serving by done.
    rewrite (proj2 (Z.ltb_lt _ _)); [done|]. rewrite length_app. cbn. lia.
Qed.

Lemma strndup_bounds_witness :
  connector_strndup 1 9 one_string_memory = Stuck OutOfBounds /\
  exists q m' bs, connector_strndup 1 1 one_string_memory = Done q m' /\
    owns m' q (BStr bs) /\ Z.of_nat (length bs) = 1 /\ cstr_prefix bs = None.
Proof.
  assert (Hwf : mem_wf one_string_memory) by (apply alloc_with_wf, initial_memory_wf).
  assert (Hs : mem_serving one_string_memory) by (split; reflexivity).
  assert (Hc : cstring [97; 98]) by (repeat constructor; lia).
  split.
  - exact (strndup_bounds 1 [97; 98] 9 _ Hwf Hs Hc eq_refl ltac:(lia)).
  - exact (strndup_bounds 1 [97; 98] 1 _ Hwf Hs Hc eq_refl ltac:(lia)).
Defined.
