(* ===== verification/Cpp.v ===== *)
(** * C++ on top of the C model

    The C++ framework ([src/module-cpp]) throws exceptions besides what C code
    does.  [X S A] is the monad of its methods: the state [S] survives an
    exception, and undefined behaviour is [Stuck] as everywhere.  A [std::string]
    is a list of bytes. *)

From S2P Require Import Prelude.
From Stdlib Require String Ascii.
Export String.StringSyntax.

(** ** String literals *)

Definition text (s : String.string) : list Z :=
  map (fun c => Z.of_N (Ascii.N_of_ascii c)) (String.list_ascii_of_string s).
Arguments text s%_string_scope.

(** ** Exceptions *)

(** [Json::LogicError] is what the JSON library throws when a value has the
    wrong type, [std::bad_optional_access] what reading an empty
    [std::optional] throws. *)
Inductive exn : Set := LogicError | BadOptionalAccess.

Definition X (S A : Type) : Type := M S (exn + A).

Definition xret {S A} (a : A) : X S A := ret (inr a).
Definition throw {S A} (e : exn) : X S A := ret (inl e).
Definition xbind {S A B} (m : X S A) (k : A -> X S B) : X S B :=
  bind m (fun r => match r with inl e => throw e | inr a => k a end).
Definition lift {S A} (m : M S A) : X S A := bind m xret.

Notation "'let?' x ':=' c1 'in' c2" := (xbind c1 (fun x => c2))
  (at level 10, x pattern, c1 at level 100, c2 at level 200) : connector_scope.
Notation "c1 ';?;' c2" := (xbind c1 (fun _ => c2))
  (at level 100, c2 at level 200, right associativity) : connector_scope.

(** [if (b) { m; }] *)
Definition xwhen {S} (b : bool) (m : X S unit) : X S unit := if b then m else xret tt.

(** A call of a library that answers [None] when it throws [e]. *)
Definition or_throw {S A} (e : exn) (o : option A) : X S A :=
  match o with Some a => xret a | None => throw e end.

(** [if (o.has_value ()) { body (o.value ()); }] *)
Definition if_has_value {S A} (o : option A) (body : A -> X S unit) : X S unit :=
  match o with Some a => body a | None => xret tt end.

(** A [for] loop over the elements of a container. *)
Fixpoint for_each {S A} (l : list A) (body : A -> X S unit) : X S unit :=
  match l with
  | [] => xret tt
  | x :: l' => body x ;?; for_each l' body
  end.

Lemma xbind_done {S A B} (m : X S A) (k : A -> X S B) s a s' :
  m s = Done (inr a) s' -> xbind m k s = k a s'.
Proof. intros H. unfold xbind, bind. by rewrite H. Qed.

Lemma xbind_throw {S A B} (m : X S A) (k : A -> X S B) s e s' :
  m s = Done (inl e) s' -> xbind m k s = Done (inl e) s'.
Proof. intros H. unfold xbind, bind. by rewrite H. Qed.

Lemma xbind_stuck {S A B} (m : X S A) (k : A -> X S B) s u :
  m s = Stuck u -> xbind m k s = Stuck u.
Proof. intros H. unfold xbind, bind. by rewrite H. Qed.

Lemma lift_done {S A} (m : M S A) s a s' : m s = Done a s' -> lift m s = Done (inr a) s'.
Proof. intros H. unfold lift, bind. by rewrite H. Qed.
