(* ===== verification/Uuid.v ===== *)
(** * Identifiers in the C++ framework

    [module-cpp/src/framework/uuid.cpp]: the order and the equality that the
    framework gives to identifiers, and their textual form. *)

From S2P Require Import Prelude Wire Strings Cpp.

(** ** Comparison *)

(** The comparisons of [std::tuple<uint32_t, ...>]. *)
Fixpoint tuple_lt (x y : list Z) : bool :=
  match x, y with
  | a :: x', b :: y' => (a <? b) || (negb (b <? a) && tuple_lt x' y')
  | _, _ => false
  end.
Fixpoint tuple_eq (x y : list Z) : bool :=
  match x, y with
  | a :: x', b :: y' => (a =? b) && tuple_eq x' y'
  | _, _ => true
  end.

Definition uuid_tuple (u : uuid) : list Z :=
  [nth 0 (elements u) 0; nth 1 (elements u) 0; nth 2 (elements u) 0; nth 3 (elements u) 0].

(** [operator<] and [operator==]. *)
Definition uuid_less (x y : uuid) : bool := tuple_lt (uuid_tuple x) (uuid_tuple y).
Definition uuid_equal (x y : uuid) : bool := tuple_eq (uuid_tuple x) (uuid_tuple y).

(** ** Printing *)

(** [std::ostream << std::hex << n]; [fuel] bounds the number of digits. *)
Definition hex_digit (d : Z) : Z := if d <? 10 then 48 + d else 87 + d.
Fixpoint hex_digits (fuel : nat) (n : Z) (acc : list Z) : list Z :=
  match fuel with
  | O => acc
  | S f =>
      let acc' := hex_digit (n mod 16) :: acc in
      if n / 16 =? 0 then acc' else hex_digits f (n / 16) acc'
  end.

(** [std::setw(w) << std::setfill('0')]: zeros on the left. *)
Definition print_hex (w : nat) (n : Z) : list Z :=
  let s := hex_digits 8 n [] in replicate (w - length s) 48 ++ s.

Definition DASH : Z := 45. (* '-' *)

Definition uuidToString (u : uuid) : list Z :=
  let ints i := nth i (elements u) 0 in
  print_hex 8 (ints 0%nat) ++ [DASH] ++
  print_hex 4 (Z.shiftr (ints 1%nat) 16) ++ [DASH] ++
  print_hex 4 (Z.land (ints 1%nat) 0xFFFF) ++ [DASH] ++
  print_hex 4 (Z.shiftr (ints 2%nat) 16) ++ [DASH] ++
  print_hex 4 (Z.land (ints 2%nat) 0xFFFF) ++
  print_hex 8 (ints 3%nat).

(** ** Parsing *)

Definition hex_value (c : Z) : option Z :=
  if (48 <=? c) && (c <=? 57) then Some (c - 48)
  else if (97 <=? c) && (c <=? 102) then Some (c - 87)
  else if (65 <=? c) && (c <=? 70) then Some (c - 55)
  else None.

(** The value of the digits up to the first character that is none. *)
Fixpoint hex_run (s : list Z) (acc : Z) : Z :=
  match s with
  | c :: s' => match hex_value c with Some d => hex_run s' (16 * acc + d) | None => acc end
  | [] => acc
  end.

(** [iss >> std::setbase(16) >> u] for a string without ['-'] that is short
    enough not to overflow: blanks are skipped, then come an optional ['+'], an
    optional [0x] and digits.  Without digits [u] becomes zero; when the stream
    ends in the blanks [u] is not written, which is [None]. *)
Definition skip_plus (s : list Z) : list Z :=
  match s with c :: r => if c =? 43 then r else s | [] => s end.
Definition skip_0x (s : list Z) : list Z :=
  match s with
  | c :: x :: r => if (c =? 48) && ((x =? 120) || (x =? 88)) then r else s
  | _ => s
  end.
Definition read_hex (s : list Z) : option Z :=
  match skip_spaces s with
  | [] => None
  | s1 => Some (hex_run (skip_0x (skip_plus s1)) 0)
  end.

(** The loop over the characters: [els] the elements so far, [index] and
    [cur] are [currentElementIndex] and [currentElementString].  A store behind the
    last element would be out of bounds. *)
Fixpoint uuidFromString_loop {S} (s : list Z) (els : list Z) (index : nat) (cur : list Z) :
    M S (list Z) :=
  match s with
  | [] => ret els
  | c :: s' =>
      if c =? DASH then uuidFromString_loop s' els index cur
      else
        let cur := cur ++ [c] in
        if (length cur =? 8)%nat then
          match read_hex cur with
          | None => stuck Uninitialised
          | Some u =>
              if (length els <=? index)%nat then stuck OutOfBounds
              else
                let els := <[index := u]> els in
                let index := (index + 1)%nat in
                if (4 <=? index)%nat then ret els
                else uuidFromString_loop s' els index []
          end
        else uuidFromString_loop s' els index cur
  end.

Definition uuidFromString {S} (uuid_string : list Z) : M S uuid :=
  let* els := uuidFromString_loop uuid_string [0; 0; 0; 0] 0 [] in
  ret (Uuid els).

(** ** Lemmas on printing *)

(** [w] digits, most significant first. *)
Fixpoint hex_fixed (w : nat) (n : Z) : list Z :=
  match w with
  | O => []
  | S w' => hex_fixed w' (n / 16) ++ [hex_digit (n mod 16)]
  end.

Definition is_hex (c : Z) : Prop := is_Some (hex_value c).

(** The digits 0 to 9 and a to f. *)
Definition is_lower_hex (c : Z) : Prop := 48 <= c <= 57 \/ 97 <= c <= 102.

Lemma hex_value_digit d : 0 <= d < 16 -> hex_value (hex_digit d) = Some d.
Proof.
  intros Hd. unfold hex_digit, hex_value.
  repeat match goal with |- context [?a <? ?b] => destruct (Z.ltb_spec a b) end;
  repeat match goal with |- context [?a <=? ?b] => destruct (Z.leb_spec a b) end;
  cbn; f_equal; lia.
Qed.

Lemma is_hex_range c : is_hex c -> 48 <= c <= 57 \/ 97 <= c <= 102 \/ 65 <= c <= 70.
Proof.
  intros [d Hd]. unfold hex_value in Hd.
  repeat match type of Hd with context [?a <=? ?b] => destruct (Z.leb_spec a b); cbn in Hd end;
    first [lia | discriminate].
Qed.

Lemma is_hex_digit n : is_hex (hex_digit (n mod 16)).
Proof. eexists. apply hex_value_digit, Z.mod_pos_bound. lia. Qed.

Lemma length_hex_fixed w n : length (hex_fixed w n) = w.
Proof. revert n. induction w as [|w IH]; intros n; cbn; [done|]. rewrite length_app, IH. cbn. lia. Qed.

Lemma hex_fixed_hex w n : Forall is_hex (hex_fixed w n).
Proof.
  revert n. induction w as [|w IH]; intros n; cbn; [done|]. apply Forall_app. split; [done|].
  repeat constructor. apply is_hex_digit.
Qed.

Lemma hex_fixed_lower w n : Forall is_lower_hex (hex_fixed w n).
Proof.
  revert n. induction w as [|w IH]; intros n; cbn; [done|]. apply Forall_app. split; [done|].
  apply Forall_singleton. unfold is_lower_hex, hex_digit. pose proof (Z.mod_pos_bound n 16 ltac:(lia)).
  destruct (Z.ltb_spec (n mod 16) 10); lia.
Qed.

Lemma hex_fixed_zero w : hex_fixed w 0 = replicate w 48.
Proof.
  induction w as [|w IH]; [done|]. cbn [hex_fixed]. rewrite Z.div_0_l, Z.mod_0_l, IH by lia.
  change [hex_digit 0] with (replicate 1 48). by rewrite <- replicate_add, Nat.add_1_r.
Qed.

Lemma hex_fixed_app m n x :
  hex_fixed (m + n) x = hex_fixed m (x / 16 ^ Z.of_nat n) ++ hex_fixed n (x mod 16 ^ Z.of_nat n).
Proof.
  revert x. induction n as [|n IH]; intros x.
  - cbn. by rewrite Nat.add_0_r, Z.div_1_r, app_nil_r.
  - rewrite Nat.add_succ_r. cbn [hex_fixed]. rewrite IH, <- app_assoc.
    rewrite Nat2Z.inj_succ, Z.pow_succ_r by lia.
    rewrite Z.div_div, Z.rem_mul_r by lia. set (y := (x / 16) mod 16 ^ Z.of_nat n).
    rewrite (Z.mul_comm 16 y), Z.div_add, Z.mod_add by lia.
    rewrite (Z.div_small (x mod 16)) by (apply Z.mod_pos_bound; lia).
    by rewrite Z.mod_mod, Z.add_0_l by lia.
Qed.

Lemma hex_digits_fixed w f n acc :
  (1 <= w <= f)%nat -> 0 <= n < 16 ^ Z.of_nat w ->
  replicate (w + length acc - length (hex_digits f n acc)) 48 ++ hex_digits f n acc = hex_fixed w n ++ acc.
Proof.
  revert f n acc. induction w as [|w IH]; intros f n acc Hw Hn; [lia|].
  destruct f as [|f]; [lia|]. cbn [hex_digits hex_fixed].
  rewrite Nat2Z.inj_succ, Z.pow_succ_r in Hn by lia. rewrite <- app_assoc.
  destruct (Z.eqb_spec (n / 16) 0) as [E|E].
  - rewrite E, hex_fixed_zero. cbn. f_equal. f_equal. lia.
  - destruct w as [|w]; [cbn in Hn; exfalso; apply E, Z.div_small; lia|].
    rewrite <- (IH f)
      by first [lia | split; [apply Z.div_pos; lia | apply Z.div_lt_upper_bound; lia]].
    cbn [app]. f_equal. f_equal. cbn [length]. lia.
Qed.

Lemma print_hex_fixed w n :
  (1 <= w <= 8)%nat -> 0 <= n < 16 ^ Z.of_nat w -> print_hex w n = hex_fixed w n.
Proof.
  intros Hw Hn. unfold print_hex. pose proof (hex_digits_fixed w 8 n [] Hw Hn) as H.
  cbn [length] in H. by rewrite Nat.add_0_r, app_nil_r in H.
Qed.

(** ** Lemmas on parsing *)

Lemma hex_run_fixed w n acc s :
  0 <= n < 16 ^ Z.of_nat w -> hex_run (hex_fixed w n ++ s) acc = hex_run s (acc * 16 ^ Z.of_nat w + n).
Proof.
  revert n acc s. induction w as [|w IH]; intros n acc s Hn.
  - cbn in *. f_equal. lia.
  - rewrite Nat2Z.inj_succ, Z.pow_succ_r in * by lia. cbn [hex_fixed]. rewrite <- app_assoc.
    rewrite IH by (split; [apply Z.div_pos; lia | apply Z.div_lt_upper_bound; lia]).
    cbn [hex_run app]. rewrite hex_value_digit by (apply Z.mod_pos_bound; lia).
    f_equal. pose proof (Z.div_mod n 16 ltac:(lia)). nia.
Qed.

Lemma read_hex_digits s : s <> [] -> Forall is_hex s -> read_hex s = Some (hex_run s 0).
Proof.
  intros Hne Hs. destruct Hs as [|c s Hc Hs]; [done|]. apply is_hex_range in Hc as Hr.
  unfold read_hex. cbn [skip_spaces].
  assert (is_space c = false) as ->.
  { unfold is_space. apply orb_false_iff. split; [lia|]. apply andb_false_iff. lia. }
  unfold skip_plus. rewrite (proj2 (Z.eqb_neq c 43)) by lia. f_equal.
  destruct Hs as [|x s Hx Hs]; [done|]. apply is_hex_range in Hx. unfold skip_0x.
  rewrite (proj2 (Z.eqb_neq x 120)), (proj2 (Z.eqb_neq x 88)) by lia. by rewrite andb_false_r.
Qed.

Lemma read_hex_fixed n : 0 <= n < 2 ^ 32 -> read_hex (hex_fixed 8 n) = Some n.
Proof.
  intros Hn. rewrite read_hex_digits; [|by destruct n|apply hex_fixed_hex].
  rewrite <- (app_nil_r (hex_fixed 8 n)), hex_run_fixed by (cbn; lia). cbn. f_equal; lia.
Qed.

Section parsing.
Context {S : Type}.

Lemma loop_ignores_dashes s els i cur :
  uuidFromString_loop (S:=S) s els i cur =
  uuidFromString_loop (List.filter (fun c => negb (c =? DASH)) s) els i cur.
Proof.
  revert els i cur. induction s as [|c s IH]; intros els i cur; [done|].
  cbn [uuidFromString_loop List.filter]. destruct (Z.eqb_spec c DASH) as [->|Hc]; cbn [negb]; [by apply IH|].
  cbn [uuidFromString_loop]. rewrite (proj2 (Z.eqb_neq _ _) Hc), IH.
  destruct (_ =? 8)%nat; [|done]. destruct (read_hex _); [|done]. destruct (_ <=? i)%nat; [done|]. by rewrite IH.
Qed.

(** Characters that do not complete a word are collected. *)
Lemma loop_collects w s els i cur :
  DASH ∉ w -> (length cur + length w < 8)%nat ->
  uuidFromString_loop (S:=S) (w ++ s) els i cur = uuidFromString_loop s els i (cur ++ w).
Proof.
  revert cur. induction w as [|c w IH]; intros cur Hd Hl; [by rewrite app_nil_r|].
  cbn [app uuidFromString_loop]. apply not_elem_of_cons in Hd as [Hc Hd].
  rewrite (proj2 (Z.eqb_neq c DASH)) by done. cbn [length] in Hl.
  rewrite length_app. cbn [length]. rewrite (proj2 (Nat.eqb_neq _ 8)) by lia.
  rewrite IH, <- app_assoc; [done | done |]. rewrite length_app. cbn. lia.
Qed.

(** Eight characters are one word. *)
Lemma loop_word w s els i :
  DASH ∉ w -> length w = 8%nat -> (i < length els)%nat ->
  uuidFromString_loop (S:=S) (w ++ s) els i [] =
  match read_hex w with
  | None => stuck Uninitialised
  | Some u => if (3 <=? i)%nat then ret (<[i := u]> els)
              else uuidFromString_loop s (<[i := u]> els) (i + 1) []
  end.
Proof.
  intros Hd Hl Hi. destruct w as [|c w _] using rev_ind; [done|].
  rewrite length_app in Hl. cbn in Hl. rewrite <- app_assoc.
  assert (Hdw : (DASH ∉ w) /\ c <> DASH).
  { split; [intros H; apply Hd, elem_of_app; by left|].
    intros ->. apply Hd, elem_of_app. right. by apply list_elem_of_singleton. }
  destruct Hdw as [Hdw Hc]. rewrite loop_collects by (done || cbn; lia). cbn [app uuidFromString_loop].
  rewrite (proj2 (Z.eqb_neq _ _) Hc), length_app. cbn [length]. rewrite (proj2 (Nat.eqb_eq _ 8)) by lia.
  destruct (read_hex _); [|done]. rewrite (proj2 (Nat.leb_gt _ i)) by done.
  by replace (4 <=? i + 1)%nat with (3 <=? i)%nat by (destruct (Nat.leb_spec 3 i), (Nat.leb_spec 4 (i + 1)); lia).
Qed.

(** A text in which the dashes separate 32 digits gives the four words. *)
Lemma uuidFromString_words s w0 w1 w2 w3 rest (st : S) :
  List.filter (fun c => negb (c =? DASH)) s = w0 ++ w1 ++ w2 ++ w3 ++ rest ->
  Forall is_hex (w0 ++ w1 ++ w2 ++ w3) -> Forall (fun w => length w = 8%nat) [w0; w1; w2; w3] ->
  uuidFromString s st = Done (Uuid [hex_run w0 0; hex_run w1 0; hex_run w2 0; hex_run w3 0]) st.
Proof.
  intros Hf Hh Hl. decompose_Forall_hyps. unfold uuidFromString. rewrite loop_ignores_dashes, Hf.
  assert (Hd : forall w, Forall is_hex w -> DASH ∉ w).
  { intros w Hw Hin. rewrite Forall_forall in Hw. apply Hw, is_hex_range in Hin. unfold DASH in Hin. lia. }
  assert (Hne : forall w : list Z, length w = 8%nat -> w <> []) by (by intros [|]).
  assert (Hw : forall w t els i, Forall is_hex w -> length w = 8%nat -> (i < length els)%nat ->
    uuidFromString_loop (S:=S) (w ++ t) els i [] =
    if (3 <=? i)%nat then ret (<[i := hex_run w 0]> els)
    else uuidFromString_loop t (<[i := hex_run w 0]> els) (i + 1) []).
  { intros w t els i Hh Hl Hi. by rewrite loop_word, read_hex_digits by auto. }
  do 3 (rewrite Hw by (done || (cbn; lia)); cbn [Nat.leb Nat.add]). by rewrite Hw by (done || (cbn; lia)).
Qed.

End parsing.

Lemma filter_hex s : Forall is_hex s -> List.filter (fun c => negb (c =? DASH)) s = s.
Proof.
  induction 1 as [|c s Hc _ IH]; [done|]. cbn. apply is_hex_range in Hc.
  rewrite (proj2 (Z.eqb_neq c DASH)) by (unfold DASH; lia). cbn. by rewrite IH.
Qed.

(** The words a text consists of are 32-bit. *)
Lemma hex_run_bound s acc : 0 <= acc -> acc <= hex_run s acc < (acc + 1) * 16 ^ Z.of_nat (length s).
Proof.
  revert acc. induction s as [|c s IH]; intros acc Ha; cbn [hex_run length]; [cbn; lia|].
  rewrite Nat2Z.inj_succ, Z.pow_succ_r by lia.
  assert (0 < 16 ^ Z.of_nat (length s)) by (apply Z.pow_pos_nonneg; lia).
  destruct (hex_value c) as [d|] eqn:E; [|nia].
  assert (0 <= d < 16).
  { assert (is_hex c) as Hc by (by eexists). apply is_hex_range in Hc. unfold hex_value in E.
    repeat match type of E with context [?a <=? ?b] => destruct (Z.leb_spec a b); cbn in E end;
      first [lia | discriminate E | injection E; lia]. }
  specialize (IH (16 * acc + d) ltac:(lia)). nia.
Qed.

Lemma length_skip_spaces s : (length (skip_spaces s) <= length s)%nat.
Proof. induction s as [|c s IH]; cbn; [done|]. destruct (is_space c); cbn; lia. Qed.

Lemma read_hex_bound s u : (length s <= 8)%nat -> read_hex s = Some u -> 0 <= u < 2 ^ 32.
Proof.
  intros Hl. unfold read_hex. pose proof (length_skip_spaces s) as Hs.
  destruct (skip_spaces s) as [|c r]; [done|]. intros [= <-]. cbn [length] in Hs.
  assert (Hb : forall t, (length t <= 8)%nat -> 0 <= hex_run t 0 < 2 ^ 32).
  { intros t Ht. pose proof (hex_run_bound t 0 ltac:(lia)) as H. rewrite Z.mul_1_l in H.
    assert (16 ^ Z.of_nat (length t) <= 16 ^ 8) by (apply Z.pow_le_mono_r; lia). lia. }
  apply Hb. unfold skip_0x, skip_plus. repeat case_match; simplify_eq; cbn [length] in *; lia.
Qed.

Lemma uuidFromString_loop_wf {S} s els i cur (st : S) :
  Forall (fun c => is_space c = false) (cur ++ s) -> (length cur < 8)%nat -> (i < 4)%nat ->
  uuid_wf (Uuid els) ->
  exists els', uuidFromString_loop s els i cur st = Done els' st /\ uuid_wf (Uuid els').
Proof.
  revert els i cur. induction s as [|c s IH]; intros els i cur Hs Hc Hi Hwf; [by exists els|].
  cbn [uuidFromString_loop].
  assert (Hs' : Forall (fun c => is_space c = false) ((cur ++ [c]) ++ s)) by (by rewrite <- app_assoc).
  destruct (c =? DASH).
  - apply IH; auto. apply Forall_app in Hs as [H1 H2]. apply Forall_cons in H2 as [_ H2].
    by apply Forall_app.
  - destruct (Nat.eqb_spec (length (cur ++ [c])) 8) as [El|El].
    + assert (exists u, read_hex (cur ++ [c]) = Some u) as [u Hu].
      { apply Forall_app in Hs' as [H1 _]. unfold read_hex.
        destruct (cur ++ [c]) as [|a t]; [done|]. apply Forall_cons in H1 as [H1 _].
        cbn [skip_spaces]. rewrite H1. eauto. }
      rewrite Hu, (proj2 (Nat.leb_gt (length els) i)) by (destruct Hwf as [Hlen _]; cbn in Hlen; lia).
      assert (Hwf' : uuid_wf (Uuid (<[i:=u]> els))).
      { destruct Hwf as [Hl Hf]. split; cbn in *; [by rewrite length_insert|].
        apply Forall_insert; [done|]. apply (read_hex_bound (cur ++ [c])); [lia | done]. }
      destruct (Nat.leb_spec 4 (i + 1)); [by eexists|].
      apply IH; [|cbn; lia|lia|done]. apply Forall_app in Hs' as [_ H2]. done.
    + apply IH; auto. rewrite length_app in *. cbn in *. lia.
Qed.

(** What follows the last of the four words is not looked at. *)
Lemma uuidFromString_loop_stops {S} s rest els i cur (st : S) :
  Forall (fun c => is_space c = false) (cur ++ s) -> (length cur < 8)%nat -> (i < 4)%nat -> length els = 4%nat ->
  (32 <= 8 * i + length cur + length (List.filter (fun c => negb (c =? DASH)%Z) s))%nat ->
  uuidFromString_loop (s ++ rest) els i cur st = uuidFromString_loop s els i cur st.
Proof.
  revert els i cur. induction s as [|c s IH]; intros els i cur Hs Hc Hi Hl Hn; [cbn in Hn; lia|].
  cbn [app uuidFromString_loop List.filter] in *. pose proof Hs as [H1 [_ H2]%Forall_cons]%Forall_app.
  destruct (c =? DASH); cbn [negb length] in *; [apply IH; auto; by apply Forall_app|].
  assert (Hs' : Forall (fun c => is_space c = false) ((cur ++ [c]) ++ s)) by (by rewrite <- app_assoc).
  destruct (Nat.eqb_spec (length (cur ++ [c])) 8) as [El|El]; rewrite length_app in *; cbn [length] in *.
  - destruct (read_hex _); [|done]. destruct (_ <=? i)%nat; [done|]. destruct (Nat.leb_spec 4 (i + 1)); [done|].
    apply IH; cbn [length app]; rewrite ?length_insert; auto; lia.
  - apply IH; rewrite ?length_app; cbn [length]; auto; lia.
Qed.

(** The text of an identifier, word by word, and what parsing it gives. *)
Lemma uuidToString_words a b c d :
  uuid_wf (Uuid [a; b; c; d]) ->
  uuidToString (Uuid [a; b; c; d]) = hex_fixed 8 a ++ [DASH] ++ hex_fixed 4 (b / 16 ^ 4) ++ [DASH] ++
    hex_fixed 4 (b mod 16 ^ 4) ++ [DASH] ++ hex_fixed 4 (c / 16 ^ 4) ++ [DASH] ++
    hex_fixed 4 (c mod 16 ^ 4) ++ hex_fixed 8 d.
Proof.
  intros Hx. destruct (uuid_wf_inv _ Hx) as (? & ? & ? & ? & [= <- <- <- <-] & Ha & Hb & Hc & Hd).
  unfold uuidToString. cbn [elements nth]. rewrite !Z.shiftr_div_pow2 by lia.
  change 0xFFFF with (Z.ones 16). rewrite !Z.land_ones by lia.
  rewrite !print_hex_fixed by (lia || (cbn; split;
    first [apply Z.mod_pos_bound; lia | apply Z.div_pos; lia | apply Z.div_lt_upper_bound; lia | lia])).
  done.
Qed.

Lemma uuidFromString_uuidToString {S} x (st : S) :
  uuid_wf x -> uuidFromString (uuidToString x) st = Done x st.
Proof.
  intros Hx. destruct (uuid_wf_inv x Hx) as (a & b & c & d & -> & Ha & Hb & Hc & Hd).
  rewrite uuidToString_words by done.
  rewrite (uuidFromString_words _ (hex_fixed 8 a) (hex_fixed 8 b) (hex_fixed 8 c) (hex_fixed 8 d) []).
  - assert (Hr : forall n, 0 <= n < 2 ^ 32 -> hex_run (hex_fixed 8 n) 0 = n).
    { intros n Hn. rewrite <- (app_nil_r (hex_fixed 8 n)), hex_run_fixed by (cbn; lia). cbn. lia. }
    by rewrite !Hr.
  - rewrite !List.filter_app. cbn [List.filter Z.eqb DASH Pos.eqb negb app].
    rewrite !(filter_hex _ (hex_fixed_hex _ _)).
    change (hex_fixed 8 b) with (hex_fixed (4 + 4) b). change (hex_fixed 8 c) with (hex_fixed (4 + 4) c).
    rewrite (hex_fixed_app 4 4 b), (hex_fixed_app 4 4 c). by rewrite <- !app_assoc, app_nil_r.
  - rewrite !Forall_app. repeat split; apply hex_fixed_hex.
  - by repeat constructor; rewrite length_hex_fixed.
Qed.

(** ** Identifiers as keys *)

#[export] Instance uuid_countable : Countable uuid.
Proof. by apply (inj_countable' elements Uuid); intros []. Defined.

(** ** Properties *)

(** The C++ order and equality of identifiers are those of the C library's
    comparison: [operator<] holds exactly when [connector_compare_uuid] answers
    -1 and [operator==] exactly when it answers 0; on well-formed identifiers
    [operator==] is equality and [operator<] is a strict total order, which is
    what [std::map] asks of its keys. *)
Theorem uuid_order_equivalence (x y z : uuid) (Hx : uuid_wf x) (Hy : uuid_wf y) (Hz : uuid_wf z) :
  uuid_less x y = (connector_compare_uuid x y =? -1) /\
  uuid_equal x y = (connector_compare_uuid x y =? 0) /\
  (uuid_equal x y = true <-> x = y) /\
  uuid_less x x = false /\
  (uuid_less x y = true -> uuid_less y z = true -> uuid_less x z = true) /\
  (x = y \/ uuid_less x y = true \/ uuid_less y x = true).
Proof.
  destruct (uuid_wf_inv x Hx) as (a0 & a1 & a2 & a3 & -> & _).
  destruct (uuid_wf_inv y Hy) as (b0 & b1 & b2 & b3 & -> & _).
  destruct (uuid_wf_inv z Hz) as (c0 & c1 & c2 & c3 & -> & _).
  rewrite compare_uuid_concrete. unfold uuid_less, uuid_equal, uuid_tuple.
  cbn [elements nth tuple_lt tuple_eq].
  rewrite !orb_true_iff, !andb_true_iff, !negb_true_iff, !Z.eqb_eq, !Z.ltb_lt, !Z.ltb_ge, !Z.ltb_irrefl.
  rewrite !andb_true_r, !andb_false_r, !orb_false_r. cbn [orb andb negb].
  split; [|split; [|split; [|split; [done|split]]]].
  - destruct_ltb; try reflexivity; lia.
  - destruct_ltb; repeat match goal with |- context [?a =? ?b] => destruct (Z.eqb_spec a b) end;
      first [reflexivity | lia].
  - split; [intros (? & ? & ? & ? & _); congruence | by intros [= -> -> -> ->]].
  - lia.
  - destruct (decide (Uuid [a0; a1; a2; a3] = Uuid [b0; b1; b2; b3])) as [|Hne]; [by left|]. right.
    assert (~ (a0 = b0 /\ a1 = b1 /\ a2 = b2 /\ a3 = b3)) by (by intros (-> & -> & -> & ->)). lia.
Qed.

Lemma log_uuid_wf : uuid_wf connector_internal_log_uuid.
Proof. split; [done | repeat constructor; lia]. Qed.

Lemma uuid_order_equivalence_witness :
  uuid_less connector_internal_handshake_uuid connector_internal_log_uuid = true.
Proof.
  pose proof (uuid_order_equivalence _ _ _ handshake_uuid_wf log_uuid_wf log_uuid_wf) as [-> _].
  reflexivity.
Defined.

(** C35: An identifier survives being printed and parsed: the text is the canonical
    8-4-4-4-12 form, 36 characters of which those at offsets 8, 13, 18 and 23
    are dashes and all others lower-case hexadecimal digits, and parsing it
    gives the identifier back, so that different identifiers have different
    texts. *)
Theorem uuid_text_roundtrip {S} (u : uuid) (st : S) (Hu : uuid_wf u) :
  uuidFromString (uuidToString u) st = Done u st /\
  (exists g0 g1 g2 g3 g4, uuidToString u = g0 ++ [DASH] ++ g1 ++ [DASH] ++ g2 ++ [DASH] ++ g3 ++ [DASH] ++ g4 /\
     map length [g0; g1; g2; g3; g4] = [8; 4; 4; 4; 12]%nat /\ Forall is_lower_hex (g0 ++ g1 ++ g2 ++ g3 ++ g4)) /\
  (forall v, uuid_wf v -> uuidToString u = uuidToString v -> u = v).
Proof.
  split; [by apply uuidFromString_uuidToString|]. split.
  - destruct (uuid_wf_inv u Hu) as (a & b & c & d & -> & _). rewrite uuidToString_words by done.
    eexists (hex_fixed 8 a), _, _, _, (hex_fixed 4 (c mod 16 ^ 4) ++ hex_fixed 8 d).
    split; [reflexivity|]. split.
    + cbn [map]. by rewrite length_app, !length_hex_fixed.
    + rewrite !Forall_app. repeat split; apply hex_fixed_lower.
  - intros v Hv Heq. pose proof (uuidFromString_uuidToString v st Hv) as Hp.
    rewrite <- Heq, uuidFromString_uuidToString in Hp by done. by injection Hp.
Qed.

(** 02572bc5-2d84-450a-9e01-d22c66b1abb1 *)
Lemma uuid_text_roundtrip_witness :
  uuidToString connector_internal_handshake_uuid = text "02572bc5-2d84-450a-9e01-d22c66b1abb1" /\
  uuidFromString (uuidToString connector_internal_handshake_uuid) tt =
    Done connector_internal_handshake_uuid tt.
Proof.
  split; [by vm_compute|]. exact (proj1 (uuid_text_roundtrip connector_internal_handshake_uuid tt handshake_uuid_wf)).
Defined.

(** C36: Parsing accepts every text without blanks, of any length and with any
    characters, and always gives a well-formed identifier: no store is out of
    bounds, since parsing stops at the 32nd character that is no dash, whatever
    follows.  Without the condition it can read a variable that was never written:
    eight blanks in a row end the stream before a number starts, and its extraction
    leaves [u] indeterminate. *)
Theorem uuid_parse_total {S} (s : list Z) (st : S) (Hs : Forall (fun c => is_space c = false) s) :
  (exists u, uuidFromString s st = Done u st /\ uuid_wf u) /\
  (forall rest, (32 <= length (List.filter (fun c => negb (c =? DASH)%Z) s))%nat ->
     uuidFromString (s ++ rest) st = uuidFromString s st) /\
  uuidFromString (text "        ") st = Stuck Uninitialised.
Proof.
  split; [|split; [|done]].
  - destruct (uuidFromString_loop_wf s [0; 0; 0; 0] 0 [] st Hs ltac:(cbn; lia) ltac:(lia)
      ltac:(split; [done | repeat constructor; lia])) as (els & H & Hwf).
    exists (Uuid els). split; [|done]. unfold uuidFromString. by rewrite (bind_done _ _ _ _ _ H).
  - intros rest Hn. unfold uuidFromString, bind.
    by rewrite uuidFromString_loop_stops by (done || (cbn; lia)).
Qed.

(** Too short, with characters that are no digits, and with more than four words. *)
Lemma uuid_parse_total_witness :
  uuidFromString (text "0123-xyz") tt = Done (Uuid [0; 0; 0; 0]) tt /\
  uuidFromString (text "+123xyz0-ffffFFFF") tt = Done (Uuid [0x123; 0xffffffff; 0; 0]) tt /\
  (exists u, uuidFromString (text "0123-xyz") tt = Done u tt /\ uuid_wf u) /\
  uuidFromString (text "00000001-00000002-00000003-00000004" ++ text "-00000005 and more") tt =
    Done (Uuid [1; 2; 3; 4]) tt.
Proof.
  split; [by vm_compute|]. split; [by vm_compute|]. split.
  - refine (proj1 (uuid_parse_total (text "0123-xyz") tt _)). by repeat constructor.
  - assert (Hs : Forall (fun c => is_space c = false) (text "00000001-00000002-00000003-00000004"))
      by (by repeat constructor).
    destruct (uuid_parse_total _ tt Hs) as (_ & H & _). rewrite H by (by apply Nat.leb_le). by vm_compute.
Defined.
