(* ===== verification/Json.v ===== *)
(** * The JSON library as the framework uses it

    The framework keeps structured messages in values of the jsoncpp library,
    which is not part of the repository.  [Json] has the functions of the library
    that are called, [JsonLaws] what its documentation says of them, in terms of
    a view of a value.  [json] is a small implementation, on which the examples
    run. *)

From S2P Require Import Prelude Cpp.

(** ** The interface *)

Class Json (V : Type) := {
  json_null : V;                                (* Value () *)
  json_string : list Z -> V;                    (* Value (const std::string &) *)
  json_bool : bool -> V;                        (* Value (bool) *)
  json_set : V -> list Z -> V -> option V;      (* root[key] = v *)
  json_get : V -> list Z -> V -> option V;      (* root.get (key, default) *)
  json_member : V -> list Z -> option bool;     (* root.isMember (key) *)
  json_append : V -> V -> option V;             (* root.append (v) *)
  json_iterate : V -> list V;                   (* from begin () to end () *)
  json_at : V -> Z -> option V;                 (* root[index], for a const root *)
  json_end_index : V -> Z;                      (* root.end ().index () *)
  json_as_string : V -> option (list Z);        (* asString () *)
  json_as_bool : V -> option bool;              (* asBool () *)
  json_write : V -> list Z;                     (* writeString, indentation "" *)
  json_parse : list Z -> option V               (* CharReader::parse *)
}.

(** What a value is; a number is seen as its text and whether it is not zero. *)
Inductive json_view (V : Type) : Type :=
  | VNull
  | VBool (b : bool)
  | VNumber (s : list Z) (nonzero : bool)
  | VString (s : list Z)
  | VArray (l : list V)
  | VObject (m : gmap (list Z) V).
Arguments VNull {V}.
Arguments VBool {V} b.
Arguments VNumber {V} s nonzero.
Arguments VString {V} s.
Arguments VArray {V} l.
Arguments VObject {V} m.

(** The members of an object; null counts as the empty object, and as the empty
    array.  On other values the library throws. *)
Definition members {V} (v : json_view V) : option (gmap (list Z) V) :=
  match v with VNull => Some ∅ | VObject m => Some m | _ => None end.
Definition items {V} (v : json_view V) : option (list V) :=
  match v with VNull => Some [] | VArray l => Some l | _ => None end.

Class JsonLaws (V : Type) {J : Json V} := {
  view : V -> json_view V;
  view_null : view json_null = VNull;
  view_string s : view (json_string s) = VString s;
  view_bool b : view (json_bool b) = VBool b;
  set_law r k v :
    match members (view r) with
    | Some m => exists r', json_set r k v = Some r' /\ view r' = VObject (<[k := v]> m)
    | None => json_set r k v = None
    end;
  get_law r k d : json_get r k d = (fun m => default d (m !! k)) <$> members (view r);
  member_law r k : json_member r k = (fun m => bool_decide (is_Some (m !! k))) <$> members (view r);
  append_law r v :
    match items (view r) with
    | Some l => exists r', json_append r v = Some r' /\ view r' = VArray (l ++ [v])
    | None => json_append r v = None
    end;
  iterate_law r l : items (view r) = Some l -> json_iterate r = l;
  at_law r i : json_at r i = (fun l => default json_null (l !! Z.to_nat i)) <$> items (view r);
  as_string_law v :
    json_as_string v =
      match view v with
      | VNull => Some []
      | VBool true => Some (text "true")
      | VBool false => Some (text "false")
      | VNumber s _ => Some s
      | VString s => Some s
      | VArray _ | VObject _ => None
      end;
  as_bool_law v :
    json_as_bool v =
      match view v with
      | VNull => Some false
      | VBool b => Some b
      | VNumber _ nonzero => Some nonzero
      | VString _ | VArray _ | VObject _ => None
      end
}.

(** ** Statements on JSON values *)

Section statements.
Context {V : Type} {J : Json V}.

(** [root[key] = v;] on a root that is the state. *)
Definition json_assign (key : list Z) (v : V) : X V unit :=
  let? root := lift get in
  let? root' := or_throw LogicError (json_set root key v) in
  lift (put root').

(** [root[key].append (v);] creates a null member first. *)
Definition json_append_to (key : list Z) (v : V) : X V unit :=
  let? root := lift get in
  let? member := or_throw LogicError (json_get root key json_null) in
  let? root' := or_throw LogicError (json_set root key member) in
  lift (put root') ;?;
  let? member' := or_throw LogicError (json_append member v) in
  json_assign key member'.

(** [root.get (key, default).asString ()] *)
Definition get_string {S} (root : V) (key : list Z) (default : V) : X S (list Z) :=
  let? v := or_throw LogicError (json_get root key default) in
  or_throw LogicError (json_as_string v).
Definition get_bool {S} (root : V) (key : list Z) (default : V) : X S bool :=
  let? v := or_throw LogicError (json_get root key default) in
  or_throw LogicError (json_as_bool v).

(** [if (root.isMember (key)) { body; }] *)
Definition if_member {S} (root : V) (key : list Z) (body : X S unit) : X S unit :=
  let? present := or_throw LogicError (json_member root key) in
  xwhen present body.

End statements.

(** ** What a root holds

    The contents of an object are described by a list of keys, each with the
    value it was given if any; the first entry of a key counts. *)

Fixpoint assoc {V} (k : list Z) (fs : list (list Z * option V)) : option V :=
  match fs with
  | [] => None
  | (k', o) :: fs' =>
      if bool_decide (k = k') then match o with Some v => Some v | None => assoc k fs' end
      else assoc k fs'
  end.

Section contents.
Context {V : Type} {J : Json V} {L : JsonLaws V}.

Definition holds (root : V) (fs : list (list Z * option V)) : Prop :=
  exists m, members (view root) = Some m /\ forall k, m !! k = assoc k fs.

Lemma holds_null : holds json_null [].
Proof. exists ∅. rewrite view_null. split; [done|]. intros k. apply lookup_empty. Qed.

Lemma json_assign_holds root fs k v :
  holds root fs -> exists root', json_assign k v root = Done (inr tt) root' /\ holds root' ((k, Some v) :: fs).
Proof.
  intros (m & Hm & Hfs). pose proof (set_law root k v) as H. rewrite Hm in H.
  destruct H as (r' & Hs & Hv). exists r'. split.
  - unfold json_assign, lift, xbind, bind, get. cbn. by rewrite Hs.
  - exists (<[k := v]> m). rewrite Hv. split; [done|]. intros k'. cbn [assoc].
    case_bool_decide as Hk; [subst; by rewrite lookup_insert_eq | by rewrite lookup_insert_ne, Hfs].
Qed.

Lemma json_assign_optional {A} root fs k (f : A -> V) (o : option A) :
  holds root fs ->
  exists root', if_has_value o (fun a => json_assign k (f a)) root = Done (inr tt) root' /\
    holds root' ((k, f <$> o) :: fs).
Proof.
  intros H. destruct o as [a|]; cbn [if_has_value fmap option_fmap option_map]; [by apply json_assign_holds|].
  exists root. split; [done|]. destruct H as (m & Hm & Hfs). exists m. split; [done|]. intros k'. cbn [assoc].
  rewrite Hfs. by case_bool_decide.
Qed.

Lemma json_get_holds root fs k d : holds root fs -> json_get root k d = Some (default d (assoc k fs)).
Proof. intros (m & Hm & Hfs). by rewrite get_law, Hm, <- Hfs. Qed.

Lemma json_member_holds root fs k :
  holds root fs -> json_member root k = Some (bool_decide (is_Some (assoc k fs))).
Proof. intros (m & Hm & Hfs). by rewrite member_law, Hm, <- Hfs. Qed.

Lemma get_string_holds {S} root fs k d s (st : S) :
  holds root fs -> assoc k fs = Some (json_string s) -> get_string root k d st = Done (inr s) st.
Proof.
  intros Hr Hk. unfold get_string. rewrite (json_get_holds _ _ _ _ Hr), Hk. cbn.
  by rewrite as_string_law, view_string.
Qed.

Lemma get_bool_holds {S} root fs k d b (st : S) :
  holds root fs -> assoc k fs = Some (json_bool b) -> get_bool root k d st = Done (inr b) st.
Proof.
  intros Hr Hk. unfold get_bool. rewrite (json_get_holds _ _ _ _ Hr), Hk. cbn.
  by rewrite as_bool_law, view_bool.
Qed.

(** Appending to a member that is an array, or is not there yet. *)
Lemma json_append_to_holds root fs k v l :
  holds root fs -> items (view (default json_null (assoc k fs))) = Some l ->
  exists root' a, json_append_to k v root = Done (inr tt) root' /\ holds root' ((k, Some a) :: fs) /\
    view a = VArray (l ++ [v]).
Proof.
  intros Hr Hl. set (member := default json_null (assoc k fs)) in *.
  destruct (json_assign_holds root fs k member Hr) as (r1 & H1 & Hr1).
  pose proof (append_law member v) as Ha. rewrite Hl in Ha. destruct Ha as (a & Ha & Hva).
  destruct (json_assign_holds r1 _ k a Hr1) as (r2 & H2 & Hr2).
  exists r2, a. split; [|split; [|done]].
  - unfold json_append_to. rewrite (xbind_done _ _ root root root) by done.
    rewrite (json_get_holds _ _ _ _ Hr). fold member.
    rewrite (xbind_done _ _ root member root) by done.
    unfold json_assign in H1. rewrite (xbind_done _ _ root root root) in H1 by done.
    destruct (json_set root k member) as [r|]; [|discriminate]. injection H1 as ->.
    rewrite (xbind_done _ _ root r1 root), (xbind_done _ _ root tt r1) by done.
    by rewrite Ha, (xbind_done _ _ r1 a r1).
  - destruct Hr2 as (m & Hm & Hfs). exists m. split; [done|]. intros k'. rewrite Hfs. cbn [assoc].
    by case_bool_decide.
Qed.

End contents.

(** ** A small implementation *)

#[local] Set Warnings "-register-all".

Inductive json : Type :=
  | JNull
  | JBool (b : bool)
  | JString (s : list Z)
  | JArray (l : list json)
  | JObject (l : list (list Z * json)).

Definition json_of_view (v : json) : json_view json :=
  match v with
  | JNull => VNull
  | JBool b => VBool b
  | JString s => VString s
  | JArray l => VArray l
  | JObject l => VObject (list_to_map l)
  end.

Definition set_entry (k : list Z) (v : json) (l : list (list Z * json)) : list (list Z * json) :=
  (k, v) :: List.filter (fun e => negb (bool_decide (fst e = k))) l.

(** Text: strings with the escapes that a compact writer needs. *)
Definition QUOTE : Z := 34.
Definition BACKSLASH : Z := 92.

Definition write_string (s : list Z) : list Z :=
  [QUOTE] ++ flat_map (fun c => if (c =? QUOTE) || (c =? BACKSLASH) then [BACKSLASH; c] else [c]) s ++ [QUOTE].

(** The elements with a comma between them. *)
Definition commas (l : list (list Z)) : list Z :=
  match l with [] => [] | x :: l' => x ++ flat_map (fun y => 44 :: y) l' end.

Fixpoint write_json (v : json) : list Z :=
  match v with
  | JNull => text "null"
  | JBool b => if b then text "true" else text "false"
  | JString s => write_string s
  | JArray l => [91] ++ commas (map write_json l) ++ [93]
  | JObject l => [123] ++ commas (map (fun e => write_string (fst e) ++ [58] ++ write_json (snd e)) l) ++ [125]
  end.

Fixpoint parse_chars (s acc : list Z) : option (list Z * list Z) :=
  match s with
  | [] => None
  | c :: s' =>
      if c =? QUOTE then Some (acc, s')
      else if c =? BACKSLASH then
        match s' with c' :: s'' => parse_chars s'' (acc ++ [c']) | [] => None end
      else parse_chars s' (acc ++ [c])
  end.

Definition strip (p s : list Z) : option (list Z) :=
  if bool_decide (take (length p) s = p) then Some (drop (length p) s) else None.

Fixpoint parse_value (fuel : nat) (s : list Z) : option (json * list Z) :=
  match fuel, s with
  | S n, c :: s' =>
      if c =? QUOTE then (fun r => (JString (fst r), snd r)) <$> parse_chars s' []
      else if c =? 91 then
        match s' with
        | 93 :: s'' => Some (JArray [], s'')
        | _ => (fun r => (JArray (fst r), snd r)) <$> parse_items n s'
        end
      else if c =? 123 then
        match s' with
        | 125 :: s'' => Some (JObject [], s'')
        | _ => (fun r => (JObject (fst r), snd r)) <$> parse_members n s'
        end
      else match strip (text "null") s, strip (text "true") s, strip (text "false") s with
           | Some r, _, _ => Some (JNull, r)
           | _, Some r, _ => Some (JBool true, r)
           | _, _, Some r => Some (JBool false, r)
           | _, _, _ => None
           end
  | _, _ => None
  end
with parse_items (fuel : nat) (s : list Z) : option (list json * list Z) :=
  match fuel with
  | O => None
  | S n =>
      match parse_value n s with
      | Some (v, 44 :: r) => (fun q => (v :: fst q, snd q)) <$> parse_items n r
      | Some (v, 93 :: r) => Some ([v], r)
      | _ => None
      end
  end
with parse_members (fuel : nat) (s : list Z) : option (list (list Z * json) * list Z) :=
  match fuel with
  | O => None
  | S n =>
      match s with
      | 34 :: s' =>
          match parse_chars s' [] with
          | Some (k, 58 :: r) =>
              match parse_value n r with
              | Some (v, 44 :: r) => (fun q => ((k, v) :: fst q, snd q)) <$> parse_members n r
              | Some (v, 125 :: r) => Some ([(k, v)], r)
              | _ => None
              end
          | _ => None
          end
      | _ => None
      end
  end.

Definition parse_json (s : list Z) : option json :=
  match parse_value (2 * length s) s with Some (v, []) => Some v | _ => None end.

Definition json_items (v : json) : option (list json) := items (json_of_view v).

#[export] Instance json_json : Json json := {
  json_null := JNull;
  json_string := JString;
  json_bool := JBool;
  json_set r k v :=
    match r with
    | JNull => Some (JObject [(k, v)])
    | JObject l => Some (JObject (set_entry k v l))
    | _ => None
    end;
  json_get r k d := (fun m => default d (m !! k)) <$> members (json_of_view r);
  json_member r k := (fun m => bool_decide (is_Some (m !! k))) <$> members (json_of_view r);
  json_append r v := (fun l => JArray (l ++ [v])) <$> json_items r;
  json_iterate v :=
    match v with JArray l => l | JObject l => map snd l | _ => [] end;
  json_at r i := (fun l => default JNull (l !! Z.to_nat i)) <$> json_items r;
  json_end_index v :=
    match v with JArray l => Z.of_nat (length l) | _ => 0 end;
  json_as_string v :=
    match v with
    | JNull => Some []
    | JBool b => Some (if b then text "true" else text "false")
    | JString s => Some s
    | JArray _ | JObject _ => None
    end;
  json_as_bool v :=
    match v with JNull => Some false | JBool b => Some b | _ => None end;
  json_write := write_json;
  json_parse := parse_json
}.

Lemma set_entry_map k v l : list_to_map (M:=gmap (list Z) json) (set_entry k v l) = <[k := v]> (list_to_map l).
Proof.
  apply map_eq. intros k'. cbn. destruct (decide (k = k')) as [<-|Hk].
  - by rewrite !lookup_insert_eq.
  - rewrite !lookup_insert_ne by done. induction l as [|[k1 v1] l IH]; [done|]. cbn.
    case_bool_decide as H1; cbn in *.
    + subst. by rewrite lookup_insert_ne.
    + destruct (decide (k1 = k')) as [->|]; [by rewrite !lookup_insert_eq | by rewrite !lookup_insert_ne].
Qed.

#[export] Instance json_laws : JsonLaws json.
Proof.
  refine {| view := json_of_view |}; try done.
  - intros r k v. destruct r as [| | | |l]; cbn; try done; eexists; (split; [reflexivity|]); cbn [json_of_view];
      f_equal; apply set_entry_map.
  - intros r v. destruct r; cbn; try done; eexists; split; reflexivity.
  - intros r l. destruct r; cbn; try done; by intros [= <-].
  - by intros [|[]| | |].
  - by intros [|[]| | |].
Defined.

Example json_text :
  let v := JObject [(text "name", JString (text "a " ++ [QUOTE; BACKSLASH])); (text "list", JArray [JNull; JBool true; JArray []])] in
  parse_json (write_json v) = Some v.
Proof. by vm_compute. Qed.
