(* ===== verification/Schemas.v ===== *)
(** * The framework's message schemas

    [schemas/*.cpp] of [module-cpp/src/framework]: the structures that messages
    carry and their conversion to and from JSON.  A method that fills the root
    it is given has the root as its state, one that fills its own object has the
    object as its state: an exception leaves what was assigned before it. *)

From S2P Require Import Prelude Wire Cpp Uuid Json.

Section schemas.
Context {V : Type} {J : Json V}.

(** The parameters [""] and [false] of [get]. *)
Definition empty_string : V := json_string [].

(** ** [send_to_schema] *)

Record send_to_schema := SendTo {
  st_take_file_ownership : bool;
  st_path : list Z;
  st_name : list Z;
  st_uuid : list Z;
  st_type : list Z
}.

Definition send_to_Serialize (this : send_to_schema) : X V unit :=
  json_assign (text "path") (json_string (st_path this)) ;?;
  json_assign (text "name") (json_string (st_name this)) ;?;
  json_assign (text "uuid") (json_string (st_uuid this)) ;?;
  json_assign (text "type") (json_string (st_type this)) ;?;
  json_assign (text "take_file_ownership") (json_bool (st_take_file_ownership this)).

Definition set_st_path x s := SendTo (st_take_file_ownership s) x (st_name s) (st_uuid s) (st_type s).
Definition set_st_name x s := SendTo (st_take_file_ownership s) (st_path s) x (st_uuid s) (st_type s).
Definition set_st_uuid x s := SendTo (st_take_file_ownership s) (st_path s) (st_name s) x (st_type s).
Definition set_st_type x s := SendTo (st_take_file_ownership s) (st_path s) (st_name s) (st_uuid s) x.
Definition set_st_take_file_ownership x s := SendTo x (st_path s) (st_name s) (st_uuid s) (st_type s).

(** [field = m;] *)
Definition assign {S A} (set : A -> S -> S) (m : X S A) : X S unit :=
  let? x := m in lift (modify (set x)).

Definition send_to_Deserialize_value (root : V) : X send_to_schema unit :=
  assign set_st_path (get_string root (text "path") empty_string) ;?;
  assign set_st_name (get_string root (text "name") empty_string) ;?;
  assign set_st_uuid (get_string root (text "uuid") empty_string) ;?;
  assign set_st_type (get_string root (text "type") empty_string) ;?;
  assign set_st_take_file_ownership (get_bool root (text "take_file_ownership") (json_bool false)).

(** The overload on a text parses it and does nothing when that fails.  The
    length of the text becomes an [int]. *)
Definition Deserialize_text {S} (Deserialize : V -> X S unit) (json : list Z) : X S unit :=
  let jsonLength := to_signed 32 (Z.of_nat (length json)) in
  if jsonLength <? 0 then lift (stuck OutOfBounds)
  else
    match json_parse (take (Z.to_nat jsonLength) json) with
    | None => xret tt
    | Some root => Deserialize root
    end.

Definition send_to_Deserialize (json : list Z) : X send_to_schema unit :=
  Deserialize_text send_to_Deserialize_value json.

(** Serialising to a fresh value and writing that. *)
Definition GetJsonString {S} (Serialize : X V unit) : X S (list Z) := fun s =>
  match Serialize json_null with
  | Done (inr _) value => Done (inr (json_write value)) s
  | Done (inl e) _ => Done (inl e) s
  | Stuck u => Stuck u
  end.

Definition send_to_GetJsonString {S} (this : send_to_schema) : X S (list Z) :=
  GetJsonString (send_to_Serialize this).

(** [find_last_of (c)]: the offset of the last [c]. *)
Fixpoint find_last_of (c : Z) (s : list Z) : option nat :=
  match s with
  | [] => None
  | b :: s' =>
      match find_last_of c s' with
      | Some i => Some (S i)
      | None => if b =? c then Some O else None
      end
  end.

(** [path.substr (path.find_last_of (".") + 1)]; [npos + 1] is zero. *)
Definition getPathExtension (this : send_to_schema) : list Z :=
  let path := st_path this in
  if (0 <? length path)%nat then
    drop (match find_last_of 46 path with Some i => i + 1 | None => 0 end) path
  else [].

Definition isPathFileExtension (this : send_to_schema) (extension : list Z) : bool :=
  bool_decide (getPathExtension this = extension).

(** ** [connection_schema] *)

Record connection_schema := ConnectionSchema {
  cs_display_name : list Z;
  cs_id_name : list Z;
  cs_connector_version : list Z;
  cs_available_features : list uuid
}.

Definition set_cs_display_name x s :=
  ConnectionSchema x (cs_id_name s) (cs_connector_version s) (cs_available_features s).
Definition set_cs_id_name x s :=
  ConnectionSchema (cs_display_name s) x (cs_connector_version s) (cs_available_features s).
Definition set_cs_connector_version x s :=
  ConnectionSchema (cs_display_name s) (cs_id_name s) x (cs_available_features s).
Definition set_cs_available_features x s :=
  ConnectionSchema (cs_display_name s) (cs_id_name s) (cs_connector_version s) x.

(** The local [featureValue] is built by appending to a null value. *)
Fixpoint append_all (featureValue : V) (l : list V) : option V :=
  match l with
  | [] => Some featureValue
  | v :: l' => json_append featureValue v ≫= fun featureValue => append_all featureValue l'
  end.

Definition connection_Serialize (this : connection_schema) : X V unit :=
  json_assign (text "display_name") (json_string (cs_display_name this)) ;?;
  json_assign (text "id_name") (json_string (cs_id_name this)) ;?;
  json_assign (text "connector_version") (json_string (cs_connector_version this)) ;?;
  let? featureValue := or_throw LogicError
    (append_all json_null (map (fun u => json_string (uuidToString u)) (cs_available_features this))) in
  json_assign (text "available_features") featureValue.

(** The transformation of the elements by [uuidFromString (v.asString ())]. *)
Fixpoint features_of {S} (l : list V) : X S (list uuid) :=
  match l with
  | [] => xret []
  | v :: l' =>
      let? s := or_throw LogicError (json_as_string v) in
      let? u := lift (uuidFromString s) in
      let? us := features_of l' in
      xret (u :: us)
  end.

Definition connection_Deserialize_value (root : V) : X connection_schema unit :=
  assign set_cs_display_name (get_string root (text "display_name") empty_string) ;?;
  assign set_cs_id_name (get_string root (text "id_name") empty_string) ;?;
  assign set_cs_connector_version (get_string root (text "connector_version") empty_string) ;?;
  let? featureArray := or_throw LogicError (json_get root (text "available_features") json_null) in
  assign set_cs_available_features (features_of (json_iterate featureArray)).

Definition connection_Deserialize (json : list Z) : X connection_schema unit :=
  Deserialize_text connection_Deserialize_value json.

Definition connection_GetJsonString {S} (this : connection_schema) : X S (list Z) :=
  GetJsonString (connection_Serialize this).

(** ** Lemmas *)

Context {L : JsonLaws V}.

Lemma int_of_length (n : nat) : Z.of_nat n < 2 ^ 31 -> to_signed 32 (Z.of_nat n) = Z.of_nat n.
Proof.
  intros Hn. unfold to_signed. rewrite Z.mod_small by lia. change (2 ^ (32 - 1)) with (2 ^ 31).
  by rewrite (proj2 (Z.ltb_lt _ _)).
Qed.

Lemma Deserialize_text_parsed {S} (D : V -> X S unit) json root s :
  Z.of_nat (length json) < 2 ^ 31 -> json_parse json = Some root -> Deserialize_text D json s = D root s.
Proof.
  intros Hl Hp. unfold Deserialize_text.
  rewrite int_of_length by done.
  rewrite (proj2 (Z.ltb_ge _ 0)) by lia. by rewrite Nat2Z.id, take_ge, Hp by lia.
Qed.

Lemma Deserialize_text_unparsed {S} (D : V -> X S unit) json s :
  Z.of_nat (length json) < 2 ^ 31 -> json_parse json = None -> Deserialize_text D json s = Done (inr tt) s.
Proof.
  intros Hl Hp. unfold Deserialize_text. rewrite int_of_length by done.
  rewrite (proj2 (Z.ltb_ge _ 0)) by lia. by rewrite Nat2Z.id, take_ge, Hp by lia.
Qed.

Lemma assign_done {S A} (set : A -> S -> S) (m : X S A) s a :
  m s = Done (inr a) s -> assign set m s = Done (inr tt) (set a s).
Proof. intros H. unfold assign. by rewrite (xbind_done _ _ _ _ _ H). Qed.

(** Appending strings one by one makes the array of them. *)
Lemma append_all_array v l (vs : list V) :
  items (view v) = Some l -> vs <> [] ->
  exists v', append_all v vs = Some v' /\ view v' = VArray (l ++ vs).
Proof.
  revert v l. induction vs as [|x vs IH]; intros v l Hl Hne; [done|]. cbn.
  pose proof (append_law v x) as H. rewrite Hl in H. destruct H as (v1 & Ha & Hv). rewrite Ha. cbn.
  destruct vs as [|y vs]; [by exists v1|].
  destruct (IH v1 (l ++ [x])) as (v' & H' & Hv'); [by rewrite Hv | done |].
  exists v'. split; [done|]. by rewrite Hv', <- app_assoc.
Qed.

Lemma append_all_null (vs : list V) :
  exists v, append_all json_null vs = Some v /\ items (view v) = Some vs.
Proof.
  destruct vs as [|x vs]; [exists json_null; by rewrite view_null|].
  destruct (append_all_array json_null [] (x :: vs)) as (v & H & Hv); [by rewrite view_null | done |].
  exists v. by rewrite Hv.
Qed.

Lemma features_of_texts {S} (us : list uuid) (s : S) :
  Forall uuid_wf us -> features_of (map (fun u => json_string (uuidToString u)) us) s = Done (inr us) s.
Proof.
  induction 1 as [|u us Hu _ IH]; [done|]. cbn [map features_of].
  rewrite as_string_law, view_string. cbn [or_throw].
  rewrite (xbind_done _ _ _ (uuidToString u) s) by done.
  rewrite (xbind_done _ _ _ u s) by (by apply lift_done, uuidFromString_uuidToString).
  by rewrite (xbind_done _ _ _ us s).
Qed.

End schemas.

(** Run a sequence of assignments to a root whose contents are known. *)
Ltac assign_steps :=
  repeat match goal with
  | H : holds ?r ?fs |- context [xbind (json_assign ?k ?v) _ ?r] =>
      let r' := fresh "r" in let E := fresh "E" in let H' := fresh "H" in
      destruct (json_assign_holds r fs k v H) as (r' & E & H');
      rewrite (xbind_done _ _ _ _ _ E); clear E H
  | H : holds ?r ?fs |- context [xbind (if_has_value ?o (fun a => json_assign ?k (@?f a))) _ ?r] =>
      let r' := fresh "r" in let E := fresh "E" in let H' := fresh "H" in
      destruct (json_assign_optional r fs k f o H) as (r' & E & H'); cbn beta in E;
      rewrite (xbind_done _ _ _ _ _ E); clear E H
  end.

(** Run a sequence of assignments from a root whose contents are known. *)
Ltac field_step Hr :=
  match goal with
  | |- context [xbind (assign ?set (get_string ?root ?k ?d)) _ ?s] =>
      rewrite (xbind_done (assign set (get_string root k d)) _ s tt _)
        by (apply assign_done; eapply get_string_holds; [exact Hr | reflexivity])
  | |- context [xbind (assign ?set (get_bool ?root ?k ?d)) _ ?s] =>
      rewrite (xbind_done (assign set (get_bool root k d)) _ s tt _)
        by (apply assign_done; eapply get_bool_holds; [exact Hr | reflexivity])
  end.

Section properties.
Context {V : Type} {J : Json V} {L : JsonLaws V}.

(** What the library documents of writing and reading a value, for the value
    [root]: the text parses to an equal value, and is not absurdly long. *)
Definition text_survives (root : V) : Prop :=
  json_parse (json_write root) = Some root /\ Z.of_nat (length (json_write root)) < 2 ^ 31.

Lemma text_roundtrip {S} (Ser : X V unit) (D : V -> X S unit) root (s s' : S) {T} (st : T) :
  Ser json_null = Done (inr tt) root -> text_survives root -> D root s = Done (inr tt) s' ->
  GetJsonString Ser st = Done (inr (json_write root)) st /\
  Deserialize_text D (json_write root) s = Done (inr tt) s'.
Proof.
  intros HS [Hp Hl] HD. unfold GetJsonString. rewrite HS. split; [done|].
  by rewrite (Deserialize_text_parsed _ _ root).
Qed.

Lemma send_to_value_roundtrip (this old : send_to_schema) :
  exists root, send_to_Serialize this json_null = Done (inr tt) root /\
    send_to_Deserialize_value root old = Done (inr tt) this.
Proof.
  unfold send_to_Serialize. pose proof (holds_null (V:=V)) as H. assign_steps.
  match goal with H : holds ?r ?fs |- context [json_assign ?k ?v ?r] =>
    destruct (json_assign_holds r fs k v H) as (root & E & Hr) end.
  exists root. split; [exact E|]. unfold send_to_Deserialize_value. repeat field_step Hr.
  erewrite assign_done by (eapply get_bool_holds; [exact Hr | reflexivity]). by destruct this.
Qed.

(** Sending an asset: what [Serialize] puts into a fresh value, [Deserialize]
    reads back into any object, field by field; and so it does through the text
    of the message. *)
Theorem send_to_roundtrip (this old : send_to_schema) :
  exists root, send_to_Serialize this json_null = Done (inr tt) root /\
    send_to_Deserialize_value root old = Done (inr tt) this /\
    (text_survives root ->
     send_to_GetJsonString this tt = Done (inr (json_write root)) tt /\
     send_to_Deserialize (json_write root) old = Done (inr tt) this).
Proof.
  destruct (send_to_value_roundtrip this old) as (root & HS & HD).
  exists root. split; [done|]. split; [done|]. intros Ht. by apply text_roundtrip.
Qed.

Lemma connection_value_roundtrip (this old : connection_schema) :
  Forall uuid_wf (cs_available_features this) ->
  exists root, connection_Serialize this json_null = Done (inr tt) root /\
    connection_Deserialize_value root old = Done (inr tt) this.
Proof.
  intros Hwf. unfold connection_Serialize. pose proof (holds_null (V:=V)) as H. assign_steps.
  destruct (append_all_null (map (fun u => json_string (uuidToString u)) (cs_available_features this)))
    as (features & Ha & Hi). rewrite Ha. cbn [or_throw].
  match goal with H : holds ?r _ |- _ => rewrite (xbind_done _ _ r features r) by done end.
  match goal with H : holds ?r ?fs |- context [json_assign ?k ?v ?r] =>
    destruct (json_assign_holds r fs k v H) as (root & E & Hr) end.
  exists root. split; [exact E|]. unfold connection_Deserialize_value. repeat field_step Hr.
  rewrite (json_get_holds _ _ _ _ Hr).
  match goal with |- xbind _ _ ?s = _ => rewrite (xbind_done _ _ s features s) by done end.
  rewrite (iterate_law _ _ Hi).
  erewrite assign_done by (by apply features_of_texts). by destruct this.
Qed.

(** Describing a connection: the names, the version and the identifiers of the
    features survive being serialised into a fresh value and read back into any
    object, directly or as text. *)
Theorem connection_roundtrip (this old : connection_schema)
    (Hwf : Forall uuid_wf (cs_available_features this)) :
  exists root, connection_Serialize this json_null = Done (inr tt) root /\
    connection_Deserialize_value root old = Done (inr tt) this /\
    (text_survives root ->
     connection_GetJsonString this tt = Done (inr (json_write root)) tt /\
     connection_Deserialize (json_write root) old = Done (inr tt) this).
Proof.
  destruct (connection_value_roundtrip this old Hwf) as (root & HS & HD).
  exists root. split; [done|]. split; [done|]. intros Ht. by apply text_roundtrip.
Qed.

(** Errors of reading: a text that does not parse changes nothing and reports
    nothing; a root that is neither an object nor null makes the library throw
    before anything is assigned; a member that has no string form makes it throw
    after the members before it were assigned, so that a message with a proper
    path and a broken name leaves a mixture in the object. *)
Theorem deserialize_errors (this : send_to_schema) (conn : connection_schema) (json : list Z) (root : V)
    (Hlen : Z.of_nat (length json) < 2 ^ 31) :
  (json_parse json = None -> send_to_Deserialize json this = Done (inr tt) this /\
     connection_Deserialize json conn = Done (inr tt) conn) /\
  (members (view root) = None -> send_to_Deserialize_value root this = Done (inl LogicError) this /\
     connection_Deserialize_value root conn = Done (inl LogicError) conn) /\
  (forall fs path broken, holds root fs -> assoc (text "path") fs = Some (json_string path) ->
     assoc (text "name") fs = Some broken -> json_as_string broken = None ->
     send_to_Deserialize_value root this = Done (inl LogicError) (set_st_path path this)).
Proof.
  split; [|split].
  - intros Hp. unfold send_to_Deserialize, connection_Deserialize.
    by rewrite !(Deserialize_text_unparsed _ json).
  - intros Hm. unfold send_to_Deserialize_value, connection_Deserialize_value, assign, get_string.
    rewrite !get_law, Hm. done.
  - intros fs path broken Hr Hpath Hname Hb. unfold send_to_Deserialize_value.
    rewrite (xbind_done _ _ _ tt (set_st_path path this))
      by (apply assign_done; by eapply get_string_holds).
    apply xbind_throw. unfold assign. apply xbind_throw. unfold get_string.
    rewrite (json_get_holds _ _ _ _ Hr), Hname. cbn. by rewrite Hb.
Qed.

End properties.

(** ** Examples *)

Definition sent_asset : send_to_schema := SendTo true (text "/tmp/a.b/chair.fbx") (text "chair") (text "7") (text "mesh").
Definition previous_asset : send_to_schema := SendTo false (text "old") (text "old") [] [].

Lemma send_to_roundtrip_witness :
  exists json, send_to_GetJsonString (V:=Json.json) sent_asset tt = Done (inr json) tt /\
    send_to_Deserialize (V:=Json.json) json previous_asset = Done (inr tt) sent_asset.
Proof.
  destruct (send_to_roundtrip (V:=Json.json) sent_asset previous_asset) as (root & HS & _ & Ht).
  exists (json_write root). apply Ht. vm_compute in HS. injection HS as <-. split; by vm_compute.
Defined.

Definition described_connection : connection_schema :=
  ConnectionSchema (text "Painter") (text "painter") (text "1.2") [connector_internal_handshake_uuid].

Lemma connection_roundtrip_witness :
  exists json, connection_GetJsonString (V:=Json.json) described_connection tt = Done (inr json) tt /\
    connection_Deserialize (V:=Json.json) json (ConnectionSchema [] [] [] []) =
      Done (inr tt) described_connection.
Proof.
  destruct (connection_roundtrip (V:=Json.json) described_connection (ConnectionSchema [] [] [] []))
    as (root & HS & _ & Ht); [repeat constructor; lia|].
  exists (json_write root). apply Ht. vm_compute in HS. injection HS as <-. split; by vm_compute.
Defined.

Lemma deserialize_errors_witness :
  send_to_Deserialize (V:=Json.json) (text "no json") previous_asset = Done (inr tt) previous_asset /\
  send_to_Deserialize_value (V:=Json.json) (JArray []) previous_asset = Done (inl LogicError) previous_asset /\
  send_to_Deserialize_value (V:=Json.json) (JObject [(text "path", JString (text "new")); (text "name", JArray [])])
    previous_asset = Done (inl LogicError) (SendTo false (text "new") (text "old") [] []).
Proof.
  split; [|split].
  - apply (proj1 (deserialize_errors (V:=Json.json) previous_asset described_connection (text "no json") JNull ltac:(cbn; lia))).
    by vm_compute.
  - apply (proj1 (proj2 (deserialize_errors (V:=Json.json) previous_asset described_connection [] (JArray []) ltac:(cbn; lia)))).
    by vm_compute.
  - refine (proj2 (proj2 (deserialize_errors (V:=Json.json) previous_asset described_connection []
      (JObject [(text "path", JString (text "new")); (text "name", JArray [])]) ltac:(cbn; lia)))
      [(text "path", Some (JString (text "new"))); (text "name", Some (JArray []))] (text "new") (JArray []) _ _ _ _);
      try reflexivity.
    eexists. split; [reflexivity|]. intros k. cbn [assoc list_to_map].
    destruct (decide (k = text "path")) as [->|Hp]; [by vm_compute|]. rewrite bool_decide_false by done.
    destruct (decide (k = text "name")) as [->|Hn]; [by vm_compute|]. rewrite bool_decide_false by done.
    cbn. by rewrite !lookup_insert_ne by done.
Defined.

(** The extension follows the last dot, even one in a directory, and a path
    without a dot is its own extension. *)
Example path_extensions :
  map (fun p => getPathExtension (set_st_path p sent_asset))
    [text "/tmp/a.b/chair.fbx"; text "/tmp/a.b/chair"; text "chair"; []] =
  [text "fbx"; text "b/chair"; text "chair"; []].
Proof. by vm_compute. Qed.
