(* ===== verification/MeshSchema.v ===== *)
(** * The schema of mesh exports

    [schemas/sendmeshschema.cpp] and its header: the enumerations with their
    names, the optional fields, and the request for a configuration. *)

From S2P Require Import Prelude Cpp Json Schemas.

(** ** Enumerations with names *)

(** The static maps from enumerators to strings, in the order of the keys. *)
Class EnumStrings (T : Type) := {
  enum_eq_dec :: EqDecision T;
  enum_strings : list (T * list Z)
}.

Inductive ColorEncoding : Set := Linear | SRGB.
Inductive ColorFormat : Set := None_ | Vertex | Texture.
Inductive FileFormat : Set :=
  fbx | glb | gltf | igs | jt | obj | step | stl | stp | usd | usda | usdz | usdc.
Inductive AxisConvention : Set := ForceYUp_XRight_mZForward | ForceZUp_XRight_YForward.
Inductive Unit : Set := Millimeters | Centimeters | Meters | Kilometers | Inches | Feet | Yards | Miles.
Inductive ExportTopology : Set := Triangles | Quads.

#[export] Instance ColorEncodingStrings : EnumStrings ColorEncoding := {
  enum_eq_dec := ltac:(solve_decision);
  enum_strings := [(Linear, text "Linear"); (SRGB, text "SRGB")]
}.
#[export] Instance ColorFormatStrings : EnumStrings ColorFormat := {
  enum_eq_dec := ltac:(solve_decision);
  enum_strings := [(None_, text "None"); (Vertex, text "Vertex"); (Texture, text "Texture")]
}.
#[export] Instance FileFormatStrings : EnumStrings FileFormat := {
  enum_eq_dec := ltac:(solve_decision);
  enum_strings :=
    [(fbx, text "fbx"); (glb, text "glb"); (gltf, text "gltf"); (igs, text "igs"); (jt, text "jt");
     (obj, text "obj"); (step, text "step"); (stl, text "stl"); (stp, text "stp"); (usd, text "usd");
     (usda, text "usda"); (usdz, text "usdz"); (usdc, text "usdc")]
}.
#[export] Instance AxisConventionStrings : EnumStrings AxisConvention := {
  enum_eq_dec := ltac:(solve_decision);
  enum_strings :=
    [(ForceYUp_XRight_mZForward, text "ForceYUp_XRight_mZForward");
     (ForceZUp_XRight_YForward, text "ForceZUp_XRight_YForward")]
}.
#[export] Instance UnitStrings : EnumStrings Unit := {
  enum_eq_dec := ltac:(solve_decision);
  enum_strings :=
    [(Millimeters, text "Millimeters"); (Centimeters, text "Centimeters"); (Meters, text "Meters");
     (Kilometers, text "Kilometers"); (Inches, text "Inches"); (Feet, text "Feet");
     (Yards, text "Yards"); (Miles, text "Miles")]
}.
#[export] Instance ExportTopologyStrings : EnumStrings ExportTopology := {
  enum_eq_dec := ltac:(solve_decision);
  enum_strings := [(Triangles, text "Triangles"); (Quads, text "Quads")]
}.

(** [strings[key]]: an absent key would be given the empty string. *)
Definition string_of_enum {T} `{EnumStrings T} (key : T) : list Z :=
  match List.find (fun e => bool_decide (fst e = key)) enum_strings with
  | Some e => snd e
  | None => []
  end.

(** [getKeyFromValue]: the result of the search is dereferenced, also when it
    is the end of the map. *)
Definition getKeyFromValue {T} `{EnumStrings T} {S} (value : list Z) : X S T :=
  match List.find (fun e => bool_decide (snd e = value)) enum_strings with
  | Some e => xret (fst e)
  | None => lift (stuck OutOfBounds)
  end.

(** ** [mesh_export_schema] *)

Record mesh_export_schema := MeshExport {
  me_assetName : list Z;
  me_assetUuid : option (list Z);
  me_supportedFormats : option (list FileFormat);
  me_colorFormat : option ColorFormat;
  me_colorEncoding : option ColorEncoding;
  me_allowNegativeTransforms : option bool;
  me_allowInstances : option bool;
  me_flattenHierarchy : option bool;
  me_axisConvention : option AxisConvention;
  me_unit : option Unit;
  me_topology : option ExportTopology;
  me_requestUv : option bool;
  me_enableUdims : option bool
}.

(** A default-constructed object. *)
Definition empty_mesh_export : mesh_export_schema :=
  MeshExport [] None None None None None None None None None None None None.

Definition set_me_assetName x s := MeshExport x (me_assetUuid s) (me_supportedFormats s) (me_colorFormat s)
  (me_colorEncoding s) (me_allowNegativeTransforms s) (me_allowInstances s) (me_flattenHierarchy s)
  (me_axisConvention s) (me_unit s) (me_topology s) (me_requestUv s) (me_enableUdims s).
Definition set_me_assetUuid x s := MeshExport (me_assetName s) (Some x) (me_supportedFormats s) (me_colorFormat s)
  (me_colorEncoding s) (me_allowNegativeTransforms s) (me_allowInstances s) (me_flattenHierarchy s)
  (me_axisConvention s) (me_unit s) (me_topology s) (me_requestUv s) (me_enableUdims s).
Definition set_me_supportedFormats x s := MeshExport (me_assetName s) (me_assetUuid s) x (me_colorFormat s)
  (me_colorEncoding s) (me_allowNegativeTransforms s) (me_allowInstances s) (me_flattenHierarchy s)
  (me_axisConvention s) (me_unit s) (me_topology s) (me_requestUv s) (me_enableUdims s).
Definition set_me_colorFormat x s := MeshExport (me_assetName s) (me_assetUuid s) (me_supportedFormats s) (Some x)
  (me_colorEncoding s) (me_allowNegativeTransforms s) (me_allowInstances s) (me_flattenHierarchy s)
  (me_axisConvention s) (me_unit s) (me_topology s) (me_requestUv s) (me_enableUdims s).
Definition set_me_colorEncoding x s := MeshExport (me_assetName s) (me_assetUuid s) (me_supportedFormats s)
  (me_colorFormat s) (Some x) (me_allowNegativeTransforms s) (me_allowInstances s) (me_flattenHierarchy s)
  (me_axisConvention s) (me_unit s) (me_topology s) (me_requestUv s) (me_enableUdims s).
Definition set_me_allowNegativeTransforms x s := MeshExport (me_assetName s) (me_assetUuid s)
  (me_supportedFormats s) (me_colorFormat s) (me_colorEncoding s) (Some x) (me_allowInstances s)
  (me_flattenHierarchy s) (me_axisConvention s) (me_unit s) (me_topology s) (me_requestUv s) (me_enableUdims s).
Definition set_me_allowInstances x s := MeshExport (me_assetName s) (me_assetUuid s) (me_supportedFormats s)
  (me_colorFormat s) (me_colorEncoding s) (me_allowNegativeTransforms s) (Some x) (me_flattenHierarchy s)
  (me_axisConvention s) (me_unit s) (me_topology s) (me_requestUv s) (me_enableUdims s).
Definition set_me_flattenHierarchy x s := MeshExport (me_assetName s) (me_assetUuid s) (me_supportedFormats s)
  (me_colorFormat s) (me_colorEncoding s) (me_allowNegativeTransforms s) (me_allowInstances s) (Some x)
  (me_axisConvention s) (me_unit s) (me_topology s) (me_requestUv s) (me_enableUdims s).
Definition set_me_axisConvention x s := MeshExport (me_assetName s) (me_assetUuid s) (me_supportedFormats s)
  (me_colorFormat s) (me_colorEncoding s) (me_allowNegativeTransforms s) (me_allowInstances s)
  (me_flattenHierarchy s) (Some x) (me_unit s) (me_topology s) (me_requestUv s) (me_enableUdims s).
Definition set_me_unit x s := MeshExport (me_assetName s) (me_assetUuid s) (me_supportedFormats s)
  (me_colorFormat s) (me_colorEncoding s) (me_allowNegativeTransforms s) (me_allowInstances s)
  (me_flattenHierarchy s) (me_axisConvention s) (Some x) (me_topology s) (me_requestUv s) (me_enableUdims s).
Definition set_me_topology x s := MeshExport (me_assetName s) (me_assetUuid s) (me_supportedFormats s)
  (me_colorFormat s) (me_colorEncoding s) (me_allowNegativeTransforms s) (me_allowInstances s)
  (me_flattenHierarchy s) (me_axisConvention s) (me_unit s) (Some x) (me_requestUv s) (me_enableUdims s).
Definition set_me_requestUv x s := MeshExport (me_assetName s) (me_assetUuid s) (me_supportedFormats s)
  (me_colorFormat s) (me_colorEncoding s) (me_allowNegativeTransforms s) (me_allowInstances s)
  (me_flattenHierarchy s) (me_axisConvention s) (me_unit s) (me_topology s) (Some x) (me_enableUdims s).
Definition set_me_enableUdims x s := MeshExport (me_assetName s) (me_assetUuid s) (me_supportedFormats s)
  (me_colorFormat s) (me_colorEncoding s) (me_allowNegativeTransforms s) (me_allowInstances s)
  (me_flattenHierarchy s) (me_axisConvention s) (me_unit s) (me_topology s) (me_requestUv s) (Some x).

(** ** [send_mesh_config_request_schema] *)

Record send_mesh_config_request_schema := MeshRequest {
  mr_assetName : list Z;
  mr_assetUuid : option (list Z)
}.

Definition set_mr_assetName x s := MeshRequest x (mr_assetUuid s).
Definition set_mr_assetUuid x s := MeshRequest (mr_assetName s) (Some x).

Section schemas.
Context {V : Type} {J : Json V}.

Definition json_enum {T} `{EnumStrings T} (x : T) : V := json_string (string_of_enum x).

Definition mesh_export_Serialize (this : mesh_export_schema) : X V unit :=
  json_assign (text "assetName") (json_string (me_assetName this)) ;?;
  if_has_value (me_assetUuid this) (fun x => json_assign (text "assetUuid") (json_string x)) ;?;
  if_has_value (me_supportedFormats this)
    (fun formats => for_each formats (fun x => json_append_to (text "supportedFormats") (json_enum x))) ;?;
  if_has_value (me_colorFormat this) (fun x => json_assign (text "colorFormat") (json_enum x)) ;?;
  if_has_value (me_colorEncoding this) (fun x => json_assign (text "colorEncoding") (json_enum x)) ;?;
  if_has_value (me_allowNegativeTransforms this)
    (fun x => json_assign (text "allowNegativeTransforms") (json_bool x)) ;?;
  if_has_value (me_allowInstances this) (fun x => json_assign (text "allowInstances") (json_bool x)) ;?;
  if_has_value (me_flattenHierarchy this) (fun x => json_assign (text "flattenHierarchy") (json_bool x)) ;?;
  if_has_value (me_axisConvention this) (fun x => json_assign (text "axisConvention") (json_enum x)) ;?;
  if_has_value (me_unit this) (fun x => json_assign (text "unit") (json_enum x)) ;?;
  if_has_value (me_topology this) (fun x => json_assign (text "topology") (json_enum x)) ;?;
  if_has_value (me_enableUdims this) (fun x => json_assign (text "enableUdims") (json_bool x)) ;?;
  if_has_value (me_requestUv this) (fun x => json_assign (text "requestUv") (json_bool x)).

(** [getKeyFromValue (strings, root.get (key, "").asString ())] *)
Definition get_enum {T} `{EnumStrings T} {S} (root : V) (key : list Z) : X S T :=
  let? s := get_string root key empty_string in getKeyFromValue s.

(** [supportedFormats.value ().emplace_back (x)] *)
Definition emplace_format (x : FileFormat) : X mesh_export_schema unit :=
  let? this := lift get in
  match me_supportedFormats this with
  | None => throw BadOptionalAccess
  | Some formats => lift (modify (set_me_supportedFormats (Some (formats ++ [x]))))
  end.

(** The loop over the formats, with the 32-bit [index]. *)
Fixpoint supported_formats_loop (fuel : nat) (formats_array : V) (index last_index : Z) :
    X mesh_export_schema unit :=
  match fuel with
  | O => lift (stuck NoFuel)
  | S n =>
      if index <=? last_index then
        let? element := or_throw LogicError (json_at formats_array index) in
        let? s := or_throw LogicError (json_as_string element) in
        let? current_value := getKeyFromValue s in
        emplace_format current_value ;?;
        supported_formats_loop n formats_array (u32 (index + 1)) last_index
      else xret tt
  end.

(** [supportedFormats = {}] makes the [std::optional] empty.  [end ().index ()]
    is a [UInt]. *)
Definition Deserialize_formats (root : V) : X mesh_export_schema unit :=
  let? formats_array := or_throw LogicError (json_get root (text "supportedFormats") json_null) in
  match json_iterate formats_array with
  | [] => lift (stuck OutOfBounds)
  | first :: _ =>
      let? s := or_throw LogicError (json_as_string first) in
      xwhen (0 <? length s)%nat
        (let last_index := u32 (json_end_index formats_array) in
         lift (modify (set_me_supportedFormats None)) ;?;
         supported_formats_loop (S (length (json_iterate formats_array))) formats_array 0 last_index)
  end.

Definition mesh_export_Deserialize_value (root : V) : X mesh_export_schema unit :=
  assign set_me_assetName (get_string root (text "assetName") empty_string) ;?;
  if_member root (text "assetUuid")
    (assign set_me_assetUuid (get_string root (text "assetUuid") empty_string)) ;?;
  if_member root (text "supportedFormats") (Deserialize_formats root) ;?;
  if_member root (text "colorFormat") (assign set_me_colorFormat (get_enum root (text "colorFormat"))) ;?;
  if_member root (text "colorEncoding") (assign set_me_colorEncoding (get_enum root (text "colorEncoding"))) ;?;
  if_member root (text "allowInstances")
    (assign set_me_allowInstances (get_bool root (text "allowInstances") empty_string)) ;?;
  if_member root (text "flattenHierarchy")
    (assign set_me_flattenHierarchy (get_bool root (text "flattenHierarchy") empty_string)) ;?;
  if_member root (text "allowNegativeTransforms")
    (assign set_me_allowNegativeTransforms (get_bool root (text "allowNegativeTransforms") empty_string)) ;?;
  if_member root (text "unit") (assign set_me_unit (get_enum root (text "unit"))) ;?;
  if_member root (text "axisConvention")
    (assign set_me_axisConvention (get_enum root (text "axisConvention"))) ;?;
  if_member root (text "topology") (assign set_me_topology (get_enum root (text "topology"))) ;?;
  if_member root (text "enableUdims")
    (assign set_me_enableUdims (get_bool root (text "enableUdims") empty_string)) ;?;
  if_member root (text "requestUv")
    (assign set_me_requestUv (get_bool root (text "requestUv") empty_string)).

Definition mesh_export_Deserialize (json : list Z) : X mesh_export_schema unit :=
  Deserialize_text mesh_export_Deserialize_value json.

Definition mesh_export_GetJsonString {S} (this : mesh_export_schema) : X S (list Z) :=
  GetJsonString (mesh_export_Serialize this).

Definition mesh_request_Serialize (this : send_mesh_config_request_schema) : X V unit :=
  json_assign (text "assetName") (json_string (mr_assetName this)) ;?;
  if_has_value (mr_assetUuid this) (fun x => json_assign (text "assetUuid") (json_string x)).

Definition mesh_request_Deserialize_value (root : V) : X send_mesh_config_request_schema unit :=
  assign set_mr_assetName (get_string root (text "assetName") empty_string) ;?;
  if_member root (text "assetUuid")
    (assign set_mr_assetUuid (get_string root (text "assetUuid") empty_string)).

Definition mesh_request_Deserialize (json : list Z) : X send_mesh_config_request_schema unit :=
  Deserialize_text mesh_request_Deserialize_value json.

Definition mesh_request_GetJsonString {S} (this : send_mesh_config_request_schema) : X S (list Z) :=
  GetJsonString (mesh_request_Serialize this).

End schemas.

(** ** Lemmas *)

(** What the static maps satisfy: every enumerator has a name of its own, which
    is not empty. *)
Class EnumLaws (T : Type) `{EnumStrings T} := {
  enum_found (x : T) :
    List.find (fun e => bool_decide (snd e = string_of_enum x)) enum_strings = Some (x, string_of_enum x);
  enum_named (x : T) : string_of_enum x <> []
}.

#[export] Instance ColorEncoding_laws : EnumLaws ColorEncoding.
Proof. by split; intros []. Qed.
#[export] Instance ColorFormat_laws : EnumLaws ColorFormat.
Proof. by split; intros []. Qed.
#[export] Instance FileFormat_laws : EnumLaws FileFormat.
Proof. by split; intros []. Qed.
#[export] Instance AxisConvention_laws : EnumLaws AxisConvention.
Proof. by split; intros []. Qed.
#[export] Instance Unit_laws : EnumLaws Unit.
Proof. by split; intros []. Qed.
#[export] Instance ExportTopology_laws : EnumLaws ExportTopology.
Proof. by split; intros []. Qed.

Lemma getKeyFromValue_string {T} `{EnumLaws T} {S} (x : T) (s : S) :
  getKeyFromValue (string_of_enum x) s = Done (inr x) s.
Proof. unfold getKeyFromValue. by rewrite enum_found. Qed.

Lemma getKeyFromValue_unknown {T} `{EnumLaws T} {S} (value : list Z) (s : S) :
  (forall x : T, In (x, value) enum_strings -> False) ->
  getKeyFromValue (T:=T) value s = Stuck OutOfBounds.
Proof.
  intros Hn. unfold getKeyFromValue.
  destruct (List.find _ enum_strings) as [[x t]|] eqn:E; [|done].
  apply List.find_some in E as [Hin Ht]. apply bool_decide_eq_true in Ht. cbn in Ht. subst.
  by destruct (Hn x).
Qed.

(** Assigning a field if there is a value for it. *)
Definition opt_set {A S} (set : A -> S -> S) (o : option A) (s : S) : S :=
  match o with Some a => set a s | None => s end.
Definition or_old {A} (o old : option A) : option A := match o with Some a => Some a | None => old end.

Lemma opt_set_other {A S T} (set : A -> S -> S) (proj : S -> T) o s :
  (forall a s, proj (set a s) = proj s) -> proj (opt_set set o s) = proj s.
Proof. intros H. by destruct o; cbn. Qed.

Lemma opt_set_same {A S} (set : A -> S -> S) (proj : S -> option A) o s :
  (forall a s, proj (set a s) = Some a) -> proj (opt_set set o s) = or_old o (proj s).
Proof. intros H. by destruct o; cbn. Qed.

Section lemmas.
Context {V : Type} {J : Json V} {L : JsonLaws V}.

Lemma if_member_holds {S A} root fs k (f : A -> V) (o : option A) (set : A -> S -> S) (m : X S A) s :
  holds root fs -> assoc k fs = match f <$> o with Some v => Some v | None => None end ->
  (forall a, assoc k fs = Some (f a) -> m s = Done (inr a) s) ->
  if_member root k (assign set m) s = Done (inr tt) (opt_set set o s).
Proof.
  intros Hr Hk Hm. unfold if_member. rewrite (json_member_holds _ _ _ Hr), Hk.
  destruct o as [a|]; cbn; [|done]. by apply assign_done, Hm.
Qed.

Lemma if_member_absent {S} root fs k (m : X S unit) s :
  holds root fs -> assoc k fs = None -> if_member root k m s = Done (inr tt) s.
Proof. intros Hr Hk. unfold if_member. by rewrite (json_member_holds _ _ _ Hr), Hk. Qed.

Lemma if_member_present {S} root fs k v (m : X S unit) s :
  holds root fs -> assoc k fs = Some v -> if_member root k m s = m s.
Proof.
  intros Hr Hk. unfold if_member. rewrite (json_member_holds _ _ _ Hr), Hk.
  rewrite bool_decide_true by by eexists. done.
Qed.

Lemma get_enum_holds {T} `{EnumLaws T} {S} root fs k (x : T) (st : S) :
  holds root fs -> assoc k fs = Some (json_enum x) -> get_enum root k st = Done (inr x) st.
Proof.
  intros Hr Hk. unfold get_enum. rewrite (xbind_done _ _ st (string_of_enum x) st).
  - apply getKeyFromValue_string.
  - by eapply get_string_holds.
Qed.

Lemma holds_shadow root k a a' fs : holds root ((k, Some a') :: (k, Some a) :: fs) -> holds root ((k, Some a') :: fs).
Proof.
  intros (m & Hm & Hfs). exists m. split; [done|]. intros k'. rewrite Hfs. cbn. by case_bool_decide.
Qed.

(** Appending several formats to the member. *)
Lemma append_formats root fs k xs l :
  holds root fs -> items (view (default json_null (assoc k fs))) = Some l -> xs <> [] ->
  exists root' a, for_each xs (fun x : FileFormat => json_append_to k (json_enum x)) root = Done (inr tt) root' /\
    holds root' ((k, Some a) :: fs) /\ view a = VArray (l ++ map json_enum xs).
Proof.
  revert root fs l. induction xs as [|x xs IH]; intros root fs l Hr Hl Hne; [done|]. cbn [for_each map].
  destruct (json_append_to_holds root fs k (json_enum x) l Hr Hl) as (r1 & a & H1 & Hr1 & Ha).
  rewrite (xbind_done _ _ _ _ _ H1). destruct xs as [|y xs]; [by exists r1, a|].
  destruct (IH r1 ((k, Some a) :: fs) (l ++ [json_enum x])) as (r2 & a' & H2 & Hr2 & Ha'); [done | | done |].
  - cbn [assoc]. rewrite bool_decide_true by done. cbn. by rewrite Ha.
  - exists r2, a'. split; [done|]. split; [by eapply holds_shadow|]. by rewrite Ha', <- app_assoc.
Qed.

End lemmas.

(** ** Properties *)

(** Read the optional members of a root whose contents are known. *)
Ltac read_optional Hr :=
  eapply if_member_holds; [exact Hr | reflexivity |];
  let H := fresh "H" in intros ? H; first [eapply get_string_holds | eapply get_bool_holds | eapply get_enum_holds];
  [exact Hr | exact H].
Ltac optional_step Hr :=
  match goal with
  | |- context [xbind (if_member ?root ?k (assign ?set ?m)) _ ?s] =>
      erewrite (xbind_done (if_member root k (assign set m)) _ s tt) by read_optional Hr
  end.

(** The object [old] with what [this] has written over it. *)
Definition mesh_merge (this old : mesh_export_schema) : mesh_export_schema :=
  MeshExport (me_assetName this) (or_old (me_assetUuid this) (me_assetUuid old)) (me_supportedFormats old)
    (or_old (me_colorFormat this) (me_colorFormat old))
    (or_old (me_colorEncoding this) (me_colorEncoding old))
    (or_old (me_allowNegativeTransforms this) (me_allowNegativeTransforms old))
    (or_old (me_allowInstances this) (me_allowInstances old))
    (or_old (me_flattenHierarchy this) (me_flattenHierarchy old))
    (or_old (me_axisConvention this) (me_axisConvention old))
    (or_old (me_unit this) (me_unit old))
    (or_old (me_topology this) (me_topology old))
    (or_old (me_requestUv this) (me_requestUv old))
    (or_old (me_enableUdims this) (me_enableUdims old)).

Lemma mesh_export_eta (x : mesh_export_schema) :
  x = MeshExport (me_assetName x) (me_assetUuid x) (me_supportedFormats x) (me_colorFormat x)
    (me_colorEncoding x) (me_allowNegativeTransforms x) (me_allowInstances x) (me_flattenHierarchy x)
    (me_axisConvention x) (me_unit x) (me_topology x) (me_requestUv x) (me_enableUdims x).
Proof. by destruct x. Qed.

Lemma mesh_merge_steps (this old : mesh_export_schema) :
  opt_set set_me_requestUv (me_requestUv this) (opt_set set_me_enableUdims (me_enableUdims this)
    (opt_set set_me_topology (me_topology this) (opt_set set_me_axisConvention (me_axisConvention this)
    (opt_set set_me_unit (me_unit this)
    (opt_set set_me_allowNegativeTransforms (me_allowNegativeTransforms this)
    (opt_set set_me_flattenHierarchy (me_flattenHierarchy this)
    (opt_set set_me_allowInstances (me_allowInstances this)
    (opt_set set_me_colorEncoding (me_colorEncoding this)
    (opt_set set_me_colorFormat (me_colorFormat this) (opt_set set_me_assetUuid (me_assetUuid this)
    (set_me_assetName (me_assetName this) old))))))))))) = mesh_merge this old.
Proof.
  etrans; [apply mesh_export_eta|]. unfold mesh_merge.
  f_equal; repeat first [rewrite opt_set_other by done | rewrite opt_set_same by done]; done.
Qed.

Section properties.
Context {V : Type} {J : Json V} {L : JsonLaws V}.

Lemma mesh_merge_value this old :
  me_supportedFormats this = None \/ me_supportedFormats this = Some [] ->
  exists root, mesh_export_Serialize this json_null = Done (inr tt) root /\
    mesh_export_Deserialize_value root old = Done (inr tt) (mesh_merge this old).
Proof.
  intros Hf. unfold mesh_export_Serialize. pose proof (holds_null (V:=V)) as H. assign_steps.
  match goal with H : holds ?r _ |- context [if_has_value (me_supportedFormats this) ?body] =>
    assert (if_has_value (me_supportedFormats this) body r = Done (inr tt) r) as E
      by (destruct Hf as [->| ->]; done);
    rewrite (xbind_done _ _ _ _ _ E); clear E end.
  assign_steps.
  match goal with H : holds ?r ?fs |- context [if_has_value ?o (fun x => json_assign ?k (@?f x)) ?r] =>
    destruct (json_assign_optional r fs k f o H) as (root & E & Hr); clear H end.
  exists root. split; [exact E|]. unfold mesh_export_Deserialize_value. field_step Hr. optional_step Hr.
  erewrite (xbind_done (if_member root (text "supportedFormats") _))
    by (eapply if_member_absent; [exact Hr | reflexivity]).
  do 9 optional_step Hr. erewrite if_member_holds; [| exact Hr | reflexivity |].
  2: { intros a Ha. eapply get_bool_holds; [exact Hr | exact Ha]. }
  f_equal. apply mesh_merge_steps.
Qed.

(** C37: The part of the export configuration that JSON carries.  Without supported
    formats (or with an empty list of them), a serialised configuration is read
    back field by field: every field that it gives replaces the object's, every
    field that it leaves open keeps the object's old value.  A fresh object
    therefore becomes the configuration, except that an empty list of formats is
    not there any more; through the text of the message as well. *)
Theorem mesh_export_roundtrip (this old : mesh_export_schema)
    (Hformats : me_supportedFormats this = None \/ me_supportedFormats this = Some []) :
  exists root, mesh_export_Serialize this json_null = Done (inr tt) root /\
    mesh_export_Deserialize_value root old = Done (inr tt) (mesh_merge this old) /\
    mesh_merge this empty_mesh_export = set_me_supportedFormats None this /\
    (text_survives root ->
     mesh_export_GetJsonString this tt = Done (inr (json_write root)) tt /\
     mesh_export_Deserialize (json_write root) old = Done (inr tt) (mesh_merge this old)).
Proof.
  destruct (mesh_merge_value this old Hformats) as (root & HS & HD). exists root.
  split; [done|]. split; [done|]. split.
  - unfold mesh_merge, set_me_supportedFormats, empty_mesh_export. cbn. unfold or_old.
    f_equal; by case_match.
  - intros Ht. by apply text_roundtrip.
Qed.

(** Reading an array of formats ends at its first one. *)
Lemma Deserialize_formats_throws root fs a (x : FileFormat) xs s :
  holds root fs -> assoc (text "supportedFormats") fs = Some a -> view a = VArray (map json_enum (x :: xs)) ->
  Deserialize_formats root s = Done (inl BadOptionalAccess) (set_me_supportedFormats None s).
Proof.
  intros Hr Hk Ha. unfold Deserialize_formats. rewrite (json_get_holds _ _ _ _ Hr), Hk.
  rewrite (xbind_done _ _ s a s) by done.
  rewrite (iterate_law a (map json_enum (x :: xs))) by (by rewrite Ha). cbn [map].
  assert (Hs : json_as_string (json_enum x) = Some (string_of_enum x)).
  { unfold json_enum. by rewrite as_string_law, view_string. }
  rewrite (xbind_done _ _ s (string_of_enum x) s) by (by rewrite Hs).
  assert ((0 <? length (string_of_enum x))%nat = true) as ->
    by (apply Nat.ltb_lt; destruct (string_of_enum x) eqn:E; [by destruct (enum_named x) | cbn; lia]).
  cbn [xwhen]. rewrite (xbind_done _ _ s tt (set_me_supportedFormats None s)) by done.
  set (s1 := set_me_supportedFormats None s). cbn [supported_formats_loop].
  rewrite (proj2 (Z.leb_le 0 _)) by apply u32_bound.
  rewrite (xbind_done _ _ s1 (json_enum x) s1) by (by rewrite at_law, Ha).
  rewrite (xbind_done _ _ s1 (string_of_enum x) s1) by (by rewrite Hs).
  rewrite (xbind_done _ _ s1 x s1) by apply getKeyFromValue_string.
  by apply xbind_throw.
Qed.

(** A configuration that lists supported formats cannot be read.  It is
    serialised as an array of their names, but [Deserialize] empties the
    [std::optional] and then reaches through it for the vector, which throws
    [std::bad_optional_access], whatever the library says of the end of the
    array; the object is left with the new name and identifier, without formats
    and with the old value of everything else. *)
Theorem mesh_formats_unreadable (this old : mesh_export_schema) (x : FileFormat) (xs : list FileFormat)
    (Hformats : me_supportedFormats this = Some (x :: xs)) :
  exists root fs a, mesh_export_Serialize this json_null = Done (inr tt) root /\
    holds root fs /\ assoc (text "supportedFormats") fs = Some a /\
    view a = VArray (map json_enum (x :: xs)) /\
    mesh_export_Deserialize_value root old =
      Done (inl BadOptionalAccess)
        (set_me_supportedFormats None (opt_set set_me_assetUuid (me_assetUuid this)
           (set_me_assetName (me_assetName this) old))).
Proof.
  unfold mesh_export_Serialize. pose proof (holds_null (V:=V)) as H. assign_steps. rewrite Hformats.
  match goal with H : holds ?r ?fs |- _ =>
    destruct (append_formats r fs (text "supportedFormats") (x :: xs) []) as (r1 & a & E & H' & Ha);
      [exact H | | done |]; [|clear H] end.
  { change (items (view (json_null (V:=V))) = Some []). by rewrite view_null. }
  cbn [if_has_value]. rewrite (xbind_done _ _ _ _ _ E). clear E. assign_steps.
  match goal with H : holds ?r ?fs |- context [if_has_value ?o (fun x => json_assign ?k (@?f x)) ?r] =>
    destruct (json_assign_optional r fs k f o H) as (root & E & Hr); clear H end.
  exists root. eexists _, a. split; [exact E|]. split; [exact Hr|]. split; [reflexivity|]. split; [done|].
  unfold mesh_export_Deserialize_value. field_step Hr. optional_step Hr. apply xbind_throw.
  erewrite if_member_present; [| exact Hr | reflexivity].
  by eapply Deserialize_formats_throws; [exact Hr | reflexivity |].
Qed.

(** A name that no enumerator has is undefined behaviour: the search for it
    answers the end of the map, which is dereferenced.  So is an empty array of
    formats. *)
Theorem mesh_unknown_names (old : mesh_export_schema) (root : V) (fs : list (list Z * option V))
    (name : list Z) (Hroot : holds root fs)
    (Hassets : assoc (text "assetName") fs = None /\ assoc (text "assetUuid") fs = None) :
  (forall a, assoc (text "supportedFormats") fs = Some a -> view a = VArray [] ->
     mesh_export_Deserialize_value root old = Stuck OutOfBounds) /\
  (assoc (text "supportedFormats") fs = None -> assoc (text "colorFormat") fs = Some (json_string name) ->
     name ∉ [text "None"; text "Vertex"; text "Texture"] ->
     mesh_export_Deserialize_value root old = Stuck OutOfBounds).
Proof.
  destruct Hassets as [Hname Huuid].
  assert (Hstart : forall k : unit -> X mesh_export_schema unit,
    (let? x := assign set_me_assetName (get_string root (text "assetName") empty_string) in
     let? y := if_member root (text "assetUuid")
       (assign set_me_assetUuid (get_string root (text "assetUuid") empty_string)) in k y) old =
    k tt (set_me_assetName [] old)).
  { intros k. rewrite (xbind_done _ _ old tt (set_me_assetName [] old)).
    - by rewrite (xbind_done _ _ _ _ _ (if_member_absent _ _ _ _ _ Hroot Huuid)).
    - apply assign_done. unfold get_string. rewrite (json_get_holds _ _ _ _ Hroot), Hname. cbn.
      unfold empty_string. by rewrite as_string_law, view_string. }
  unfold mesh_export_Deserialize_value. rewrite Hstart. split.
  - intros a Ha Hv. apply xbind_stuck. rewrite (if_member_present _ _ _ _ _ _ Hroot Ha).
    unfold Deserialize_formats. rewrite (json_get_holds _ _ _ _ Hroot), Ha.
    rewrite (xbind_done _ _ _ a (set_me_assetName [] old)) by done. rewrite (iterate_law a []) by (by rewrite Hv). done.
  - intros Hf Hc Hn. rewrite (xbind_done _ _ _ _ _ (if_member_absent _ _ _ _ _ Hroot Hf)).
    apply xbind_stuck. rewrite (if_member_present _ _ _ _ _ _ Hroot Hc). apply xbind_stuck. unfold get_enum.
    rewrite (xbind_done _ _ _ name (set_me_assetName [] old)) by (by eapply get_string_holds).
    apply getKeyFromValue_unknown. intros c. cbn. intros [E|[E|[E|[]]]]; injection E as _ E;
      apply Hn; rewrite <- E; repeat constructor.
Qed.

Lemma mesh_request_value_roundtrip (this old : send_mesh_config_request_schema) :
  exists root, mesh_request_Serialize this json_null = Done (inr tt) root /\
    mesh_request_Deserialize_value root old =
      Done (inr tt) (MeshRequest (mr_assetName this) (or_old (mr_assetUuid this) (mr_assetUuid old))).
Proof.
  unfold mesh_request_Serialize. pose proof (holds_null (V:=V)) as H. assign_steps.
  match goal with H : holds ?r ?fs |- context [if_has_value ?o (fun x => json_assign ?k (@?f x)) ?r] =>
    destruct (json_assign_optional r fs k f o H) as (root & E & Hr) end.
  exists root. split; [exact E|]. unfold mesh_request_Deserialize_value. field_step Hr.
  erewrite if_member_holds; [| exact Hr | reflexivity | intros b Hb; by eapply get_string_holds].
  by destruct this as [n [u|]].
Qed.

(** The request for a configuration survives as well; a request without an
    identifier leaves the object's old one. *)
Theorem mesh_request_roundtrip (this old : send_mesh_config_request_schema) :
  exists root, mesh_request_Serialize this json_null = Done (inr tt) root /\
    mesh_request_Deserialize_value root old =
      Done (inr tt) (MeshRequest (mr_assetName this) (or_old (mr_assetUuid this) (mr_assetUuid old))) /\
    (text_survives root ->
     mesh_request_GetJsonString this tt = Done (inr (json_write root)) tt /\
     mesh_request_Deserialize (json_write root) old =
       Done (inr tt) (MeshRequest (mr_assetName this) (or_old (mr_assetUuid this) (mr_assetUuid old)))).
Proof.
  destruct (mesh_request_value_roundtrip this old) as (root & HS & HD).
  exists root. split; [done|]. split; [done|]. intros Ht. by apply text_roundtrip.
Qed.

End properties.

(** ** Examples *)

Definition usd_in_meters : mesh_export_schema :=
  MeshExport (text "chair") (Some (text "7")) None (Some Vertex) None (Some false) None (Some true)
    (Some ForceZUp_XRight_YForward) (Some Meters) (Some Quads) (Some true) None.

Lemma mesh_export_roundtrip_witness :
  exists json, mesh_export_GetJsonString (V:=Json.json) usd_in_meters tt = Done (inr json) tt /\
    mesh_export_Deserialize (V:=Json.json) json empty_mesh_export = Done (inr tt) usd_in_meters.
Proof.
  destruct (mesh_export_roundtrip (V:=Json.json) usd_in_meters empty_mesh_export ltac:(by left))
    as (root & HS & _ & Hm & Ht).
  exists (json_write root). rewrite Hm in Ht. apply Ht. vm_compute in HS. injection HS as <-.
  split; by vm_compute.
Defined.

Lemma mesh_formats_unreadable_witness :
  exists root, mesh_export_Serialize (V:=Json.json) (set_me_supportedFormats (Some [usd; fbx]) usd_in_meters) json_null =
      Done (inr tt) root /\
    mesh_export_Deserialize_value root empty_mesh_export =
      Done (inl BadOptionalAccess) (MeshExport (text "chair") (Some (text "7")) None None None None None None
        None None None None None).
Proof.
  destruct (mesh_formats_unreadable (V:=Json.json) (set_me_supportedFormats (Some [usd; fbx]) usd_in_meters)
    empty_mesh_export usd [fbx] eq_refl) as (root & fs & a & HS & _ & _ & _ & HD).
  exists root. split; [exact HS | exact HD].
Defined.

Lemma mesh_unknown_names_witness :
  mesh_export_Deserialize_value (V:=Json.json) (JObject [(text "colorFormat", JString (text "Blue"))])
    empty_mesh_export = Stuck OutOfBounds.
Proof.
  refine (proj2 (mesh_unknown_names (V:=Json.json) empty_mesh_export _
    [(text "colorFormat", Some (JString (text "Blue")))] (text "Blue") _ _) _ _ _); try done.
  - eexists. split; [reflexivity|]. intros k. cbn [assoc list_to_map].
    destruct (decide (k = text "colorFormat")) as [->|Hn]; [by vm_compute|]. rewrite bool_decide_false by done.
    cbn. by rewrite lookup_insert_ne by done.
  - apply (bool_decide_unpack _). by vm_compute.
Defined.
