(* ===== verification/UintQueue.v ===== *)
(** * The bounded queue of unsigned integers, one call at a time

    [uint_queue.c]: creation, destruction, and [push] and [pop] when no other
    thread interferes.  The queue counts pushes and pops in 32-bit counters and
    stores the element of position [i] in slot [i mod size].  [UintQueueConc]
    models the same functions step by step under arbitrary interleavings.
    [available_queue.c] wraps one such queue and is modelled here too. *)

From S2P Require Import Prelude Wire Memory.

(** ** Atomic compare and exchange ([atomic.h], GNU and Windows variants)

    The value left in the variable and the value returned in [ret]. *)
Definition CONNECTOR_ATOMIC_COMPARE_EXCHANGE (ptr x y : Z) : Z * Z :=
  (if ptr =? x then y else ptr, ptr).

(** ** Data *)

(** [struct _connector_uint_queue]; [self] and [array_ptr] are the addresses of
    the two allocations, [array] is the content of the second. *)
Record uint_queue := UintQueue {
  write_index : Z;
  read_index : Z;
  max_index : Z;
  size : Z;
  array : list Z;
  self : Z;
  array_ptr : Z
}.

(** A pointer to a queue: NULL, a live queue, or a pointer to freed memory. *)
Inductive queue_ptr : Type :=
  | QNull
  | QLive (q : uint_queue)
  | QDangling.

Definition convert_to_index (position length_ : Z) : Z := position mod length_.

(** ** Operations *)

(** Without interference every compare-and-exchange finds the value just read,
    so the first loop runs once; the second loop would spin for ever if
    [max_index] were not the reserved position. *)
Definition connector_uint_queue_push (elem : Z) : M queue_ptr Z := fun queue =>
  match queue with
  | QNull => Done SUBSTANCE_CONNECTOR_INVALID QNull
  | QDangling => Stuck UseAfterFree
  | QLive q =>
      if size q =? 0 then Stuck DivByZero
      else
        let w := write_index q in
        let r := read_index q in
        if convert_to_index (u32 (w + 1)) (size q) =? convert_to_index r (size q)
        then Done SUBSTANCE_CONNECTOR_ERROR (QLive q)
        else
          let '(w', _) := CONNECTOR_ATOMIC_COMPARE_EXCHANGE (write_index q) w (u32 (w + 1)) in
          let i := Z.to_nat (convert_to_index w (size q)) in
          if (length (array q) <=? i)%nat then Stuck OutOfBounds
          else
            let '(m', res) := CONNECTOR_ATOMIC_COMPARE_EXCHANGE (max_index q) w (u32 (w + 1)) in
            if res =? w then
              Done SUBSTANCE_CONNECTOR_SUCCESS
                (QLive (UintQueue w' r m' (size q) (<[i := elem]> (array q)) (self q) (array_ptr q)))
            else Stuck Deadlock
  end.

(** The code returned and the element stored through [retval], if any. *)
Definition connector_uint_queue_pop : M queue_ptr (Z * option Z) := fun queue =>
  match queue with
  | QNull => Stuck NullDeref
  | QDangling => Stuck UseAfterFree
  | QLive q =>
      if size q =? 0 then Stuck DivByZero
      else
        let r := read_index q in
        let m := max_index q in
        if convert_to_index r (size q) =? convert_to_index m (size q)
        then Done (SUBSTANCE_CONNECTOR_ERROR, None) (QLive q)
        else
          match array q !! Z.to_nat (convert_to_index r (size q)) with
          | None => Stuck OutOfBounds
          | Some data =>
              let '(r', _) := CONNECTOR_ATOMIC_COMPARE_EXCHANGE (read_index q) r (u32 (r + 1)) in
              Done (SUBSTANCE_CONNECTOR_SUCCESS, Some data)
                (QLive (UintQueue (write_index q) r' m (size q) (array q) (self q) (array_ptr q)))
          end
  end.

Definition sizeof_uint_queue : Z := 24.

(** The number of slots for [size] elements. *)
Definition padded_size (size : Z) : Z :=
  u32 (size + (1 + Z.lxor (Z.land size 1) 1)).

Definition connector_uint_queue_destroy (queue : queue_ptr) : M memory Z :=
  match queue with
  | QNull => ret SUBSTANCE_CONNECTOR_ERROR
  | QLive q =>
      connector_free (array_ptr q) ;;;
      connector_free (self q) ;;;
      ret SUBSTANCE_CONNECTOR_SUCCESS
  | QDangling => stuck UseAfterFree
  end.

(** When the creation fails after [queue] has been allocated, the pointer that
    is returned is the one [connector_uint_queue_destroy] has just freed; with
    [size = 0] the field [array] that is passed to [connector_free] there has
    never been written. *)
Definition connector_uint_queue_create (size : Z) : M memory queue_ptr :=
  let* queue := connector_allocate sizeof_uint_queue in
  if (0 <? size) && negb (queue =? 0) then
    let size' := padded_size size in
    let* arr := connector_allocate (4 * size') in
    if negb (arr =? 0) then
      ret (QLive (UintQueue 0 0 0 size' (replicate (Z.to_nat size') 0) queue arr))
    else
      connector_free 0 ;;;
      connector_free queue ;;;
      ret QDangling
  else if queue =? 0 then ret QNull
  else stuck Uninitialised.

(** ** The queue of available connections ([available_queue.c]) *)

Definition SUBSTANCE_CONNECTOR_CONTEXT_COUNT : Z := 32.
Definition SUBSTANCE_CONNECTOR_AVAILABLE_RETRIES : nat := 5.

(** The new value of [connection_queue] and the returned code. *)
Definition connector_available_queue_init (connection_queue : queue_ptr) :
    M memory (queue_ptr * Z) :=
  match connection_queue with
  | QNull =>
      let* q := connector_uint_queue_create SUBSTANCE_CONNECTOR_CONTEXT_COUNT in
      ret (q, match q with QNull => SUBSTANCE_CONNECTOR_ERROR | _ => SUBSTANCE_CONNECTOR_SUCCESS end)
  | q => ret (q, SUBSTANCE_CONNECTOR_ERROR)
  end.

Definition connector_available_queue_shutdown (connection_queue : queue_ptr) :
    M memory (queue_ptr * Z) :=
  let* retcode := connector_uint_queue_destroy connection_queue in
  if retcode =? SUBSTANCE_CONNECTOR_SUCCESS then ret (QNull, retcode)
  else ret (connection_queue, retcode).

Definition connector_available_queue_push (context : Z) : M queue_ptr Z := fun queue =>
  match queue with
  | QNull => Done SUBSTANCE_CONNECTOR_ERROR QNull
  | _ => connector_uint_queue_push context queue
  end.

(** The loop with [n] retries left; [retcode] is its value before them. *)
Fixpoint available_pop_loop (n : nat) (retcode : Z) : M queue_ptr (Z * option Z) :=
  match n with
  | O => ret (retcode, None)
  | S n' =>
      let* res := connector_uint_queue_pop in
      if fst res =? SUBSTANCE_CONNECTOR_SUCCESS then ret res
      else available_pop_loop n' (fst res)
  end.

Definition connector_available_queue_pop (context_given : bool) : M queue_ptr (Z * option Z) :=
  fun queue =>
  match queue with
  | QNull => Done (SUBSTANCE_CONNECTOR_ERROR, None) QNull
  | _ =>
      if context_given
      then available_pop_loop SUBSTANCE_CONNECTOR_AVAILABLE_RETRIES SUBSTANCE_CONNECTOR_ERROR queue
      else Done (SUBSTANCE_CONNECTOR_ERROR, None) queue
  end.

(** ** Specification: a bounded first-in first-out list *)

Inductive queue_op : Type := Push (elem : Z) | Pop.

(** The contents after an operation and what it answers. *)
Definition spec_op (capacity : Z) (op : queue_op) (l : list Z) : list Z * (Z * option Z) :=
  match op with
  | Push x =>
      if Z.of_nat (length l) <? capacity then (l ++ [x], (SUBSTANCE_CONNECTOR_SUCCESS, None))
      else (l, (SUBSTANCE_CONNECTOR_ERROR, None))
  | Pop =>
      match l with
      | [] => ([], (SUBSTANCE_CONNECTOR_ERROR, None))
      | x :: l' => (l', (SUBSTANCE_CONNECTOR_SUCCESS, Some x))
      end
  end.

Fixpoint spec_ops (capacity : Z) (ops : list queue_op) (l : list Z) : list Z * list (Z * option Z) :=
  match ops with
  | [] => (l, [])
  | op :: ops' =>
      let '(l', res) := spec_op capacity op l in
      let '(l'', ress) := spec_ops capacity ops' l' in
      (l'', res :: ress)
  end.

Definition do_op (op : queue_op) : M queue_ptr (Z * option Z) :=
  match op with
  | Push x => let* r := connector_uint_queue_push x in ret (r, None)
  | Pop => connector_uint_queue_pop
  end.

Fixpoint do_ops (ops : list queue_op) : M queue_ptr (list (Z * option Z)) :=
  match ops with
  | [] => ret []
  | op :: ops' =>
      let* res := do_op op in
      let* ress := do_ops ops' in
      ret (res :: ress)
  end.

Definition is_push (op : queue_op) : bool := match op with Push _ => true | Pop => false end.
Definition pushes (ops : list queue_op) : Z :=
  Z.of_nat (length (List.filter is_push ops)).

(** [q] holds the elements [l], oldest first, and its counters have not wrapped. *)
Record queue_repr (q : uint_queue) (l : list Z) : Prop := {
  repr_size : 0 < size q < 2 ^ 32;
  repr_array : Z.of_nat (length (array q)) = size q;
  repr_max : max_index q = write_index q;
  repr_counters : 0 <= read_index q <= write_index q /\ write_index q < 2 ^ 32;
  repr_length : write_index q - read_index q = Z.of_nat (length l);
  repr_room : Z.of_nat (length l) < size q;
  repr_slots : forall i x, l !! i = Some x ->
    array q !! Z.to_nat ((read_index q + Z.of_nat i) mod size q) = Some x
}.

(** ** Lemmas *)

Lemma slot_lt q l pos : queue_repr q l -> (Z.to_nat (pos mod size q) < length (array q))%nat.
Proof.
  intros []. pose proof (Z.mod_pos_bound pos (size q) ltac:(lia)). lia.
Qed.

Lemma slot_ne n a b : 0 < n -> a < b < a + n -> Z.to_nat (a mod n) <> Z.to_nat (b mod n).
Proof.
  intros Hn Hab E. pose proof (Z.mod_pos_bound a n Hn). pose proof (Z.mod_pos_bound b n Hn).
  assert (a = b) by (apply (mod_eq_close _ _ n); lia). lia.
Qed.

(** The test of [push]: the queue is full exactly when it holds [size - 1]. *)
Lemma full_test q l :
  queue_repr q l -> write_index q < 2 ^ 32 - 1 ->
  (convert_to_index (u32 (write_index q + 1)) (size q) =? convert_to_index (read_index q) (size q))
    = negb (Z.of_nat (length l) <? size q - 1).
Proof.
  intros [] Hw. unfold convert_to_index. rewrite u32_small by lia.
  destruct (Z.ltb_spec (Z.of_nat (length l)) (size q - 1)); cbn.
  - apply Z.eqb_neq. intros E.
    assert (read_index q = write_index q + 1) by (apply (mod_eq_close _ _ (size q)); lia). lia.
  - apply Z.eqb_eq. replace (write_index q + 1) with (read_index q + size q) by lia.
    apply mod_eq_step. lia.
Qed.

(** The test of [pop]: the queue is empty. *)
Lemma empty_test q l :
  queue_repr q l ->
  (convert_to_index (read_index q) (size q) =? convert_to_index (max_index q) (size q))
    = match l with [] => true | _ => false end.
Proof.
  intros []. unfold convert_to_index. rewrite repr_max0. destruct l as [|x l].
  - apply Z.eqb_eq. cbn in repr_length0. f_equal. lia.
  - apply Z.eqb_neq. intros E. cbn [length] in *.
    assert (read_index q = write_index q) by (apply (mod_eq_close _ _ (size q)); lia). lia.
Qed.

Definition pushed_queue (q : uint_queue) (x : Z) : uint_queue :=
  UintQueue (write_index q + 1) (read_index q) (write_index q + 1) (size q)
    (<[Z.to_nat (write_index q mod size q) := x]> (array q)) (self q) (array_ptr q).

Definition popped_queue (q : uint_queue) : uint_queue :=
  UintQueue (write_index q) (read_index q + 1) (max_index q) (size q) (array q)
    (self q) (array_ptr q).

Lemma push_repr q l x :
  queue_repr q l -> write_index q < 2 ^ 32 - 1 ->
  connector_uint_queue_push x (QLive q) =
    if Z.of_nat (length l) <? size q - 1
    then Done SUBSTANCE_CONNECTOR_SUCCESS (QLive (pushed_queue q x))
    else Done SUBSTANCE_CONNECTOR_ERROR (QLive q).
Proof.
  intros Hr Hw. pose proof (full_test q l Hr Hw) as Ht. pose proof (slot_lt q l (write_index q) Hr).
  unfold connector_uint_queue_push. destruct Hr.
  rewrite (proj2 (Z.eqb_neq (size q) 0)) by lia. rewrite Ht.
  destruct (Z.of_nat (length l) <? size q - 1); [|done]. cbn [negb].
  unfold CONNECTOR_ATOMIC_COMPARE_EXCHANGE, convert_to_index.
  rewrite (proj2 (Nat.leb_gt _ _)) by done.
  rewrite repr_max0, Z.eqb_refl, u32_small by lia. done.
Qed.

Lemma pop_repr q l :
  queue_repr q l ->
  connector_uint_queue_pop (QLive q) =
    match l with
    | [] => Done (SUBSTANCE_CONNECTOR_ERROR, None) (QLive q)
    | x :: _ => Done (SUBSTANCE_CONNECTOR_SUCCESS, Some x) (QLive (popped_queue q))
    end.
Proof.
  intros Hr. pose proof (empty_test q l Hr) as Ht. unfold connector_uint_queue_pop.
  destruct Hr. rewrite (proj2 (Z.eqb_neq (size q) 0)) by lia. rewrite Ht.
  destruct l as [|x l]; [done|].
  specialize (repr_slots0 0%nat x eq_refl). rewrite Z.add_0_r in repr_slots0.
  unfold convert_to_index. rewrite repr_slots0.
  unfold CONNECTOR_ATOMIC_COMPARE_EXCHANGE. rewrite Z.eqb_refl.
  cbn [length] in *. by rewrite u32_small by lia.
Qed.

Lemma pushed_queue_repr q l x :
  queue_repr q l -> write_index q < 2 ^ 32 - 1 -> Z.of_nat (length l) < size q - 1 ->
  queue_repr (pushed_queue q x) (l ++ [x]).
Proof.
  intros Hr Hw Hroom. pose proof (slot_lt q l (write_index q) Hr). destruct Hr.
  constructor; cbn [pushed_queue size array read_index write_index max_index];
    rewrite ?length_app, ?length_insert; cbn [length]; try lia.
  intros i y Hy. destruct (decide (i < length l)%nat) as [Hi|Hi].
  - rewrite lookup_app_l in Hy by done.
    rewrite list_lookup_insert_ne; [by apply repr_slots0|].
    apply not_eq_sym, slot_ne; lia.
  - rewrite lookup_app_r in Hy by lia.
    destruct (i - length l)%nat eqn:E; [|done]. cbn in Hy. injection Hy as <-.
    replace (read_index q + Z.of_nat i) with (write_index q) by lia.
    by apply list_lookup_insert_eq.
Qed.

Lemma popped_queue_repr q x l : queue_repr q (x :: l) -> queue_repr (popped_queue q) l.
Proof.
  intros []. cbn [length] in *.
  constructor; cbn [popped_queue size array read_index write_index max_index]; try lia.
  intros i y Hy. specialize (repr_slots0 (S i) y Hy).
  by replace (read_index q + 1 + Z.of_nat i) with (read_index q + Z.of_nat (S i)) by lia.
Qed.

Lemma do_op_repr op q l :
  queue_repr q l -> write_index q + (if is_push op then 1 else 0) < 2 ^ 32 ->
  exists q', do_op op (QLive q) = Done (snd (spec_op (size q - 1) op l)) (QLive q') /\
    queue_repr q' (fst (spec_op (size q - 1) op l)) /\ size q' = size q /\
    write_index q' <= write_index q + (if is_push op then 1 else 0).
Proof.
  intros Hr Hw. destruct op as [x|]; cbn [is_push do_op spec_op] in *.
  - unfold bind. rewrite (push_repr q l x Hr) by lia.
    destruct (Z.ltb_spec (Z.of_nat (length l)) (size q - 1)).
    + exists (pushed_queue q x). split; [done|]. split; [apply pushed_queue_repr; auto; lia|].
      split; [done | cbn; lia].
    + exists q. split; [done|]. split; [done|]. split; [done | lia].
  - rewrite (pop_repr q l Hr). destruct l as [|x l].
    + exists q. split; [done|]. split; [done|]. split; [done | lia].
    + exists (popped_queue q). split; [done|]. split; [by apply popped_queue_repr with x|].
      split; [done | cbn; lia].
Qed.

Lemma do_ops_repr ops q l :
  queue_repr q l -> write_index q + pushes ops < 2 ^ 32 ->
  exists q', do_ops ops (QLive q) = Done (snd (spec_ops (size q - 1) ops l)) (QLive q') /\
    queue_repr q' (fst (spec_ops (size q - 1) ops l)).
Proof.
  revert q l. induction ops as [|op ops IH]; intros q l Hr Hw; [by exists q|].
  assert (Hp : pushes (op :: ops) = (if is_push op then 1 else 0) + pushes ops).
  { unfold pushes. cbn [List.filter]. destruct (is_push op); cbn [length]; lia. }
  assert (0 <= pushes ops) by (unfold pushes; lia).
  destruct (do_op_repr op q l Hr) as (q1 & E1 & Hr1 & Hs1 & Hw1); [destruct (is_push op); lia|].
  cbn [do_ops spec_ops]. destruct (spec_op (size q - 1) op l) as [l1 res] eqn:Es.
  cbn [fst snd] in *. destruct (IH q1 l1 Hr1) as (q2 & E2 & Hr2); [lia|].
  rewrite Hs1 in E2, Hr2. destruct (spec_ops (size q - 1) ops l1) as [l2 ress].
  exists q2. split; [|done]. unfold bind. rewrite E1, E2. done.
Qed.

Lemma padded_size_spec n :
  0 < n <= 2 ^ 32 - 3 -> n + 1 <= padded_size n <= n + 2 /\ Z.even (padded_size n) = true.
Proof.
  intros Hn. unfold padded_size. replace (Z.land n 1) with (n mod 2)
    by (symmetry; apply (Z.land_ones n 1); lia).
  rewrite Zmod_even. destruct (Z.even n) eqn:E.
  - change (1 + Z.lxor 0 1) with 2. rewrite u32_small by lia.
    split; [lia|]. by rewrite Z.even_add, E.
  - change (1 + Z.lxor 1 1) with 1. rewrite u32_small by lia.
    split; [lia|]. by rewrite Z.even_add, E.
Qed.

Lemma queue_create_serving n m :
  mem_wf m -> mem_serving m -> 0 < n ->
  connector_uint_queue_create n m =
    Done (QLive (UintQueue 0 0 0 (padded_size n) (replicate (Z.to_nat (padded_size n)) 0)
                   (next_addr m) (next_addr m + 1)))
      (alloc_with (BRaw (4 * padded_size n)) (alloc_with (BRaw sizeof_uint_queue) m)).
Proof.
  intros Hwf Hs Hn. unfold connector_uint_queue_create, bind.
  rewrite connector_allocate_serving by done.
  rewrite (proj2 (Z.ltb_lt 0 n)) by done.
  assert (H0 : (next_addr m =? 0) = false) by (apply Z.eqb_neq; destruct Hwf; lia).
  rewrite H0. cbn [negb andb].
  rewrite connector_allocate_serving by done.
  cbn [alloc_with set_next_addr next_addr].
  rewrite (proj2 (Z.eqb_neq (next_addr m + 1) 0)) by (destruct Hwf; lia). done.
Qed.

Lemma new_queue_repr n s a :
  0 < n < 2 ^ 32 -> queue_repr (UintQueue 0 0 0 n (replicate (Z.to_nat n) 0) s a) [].
Proof.
  intros Hn. constructor; cbn; try lia; [by rewrite length_replicate; lia | done].
Qed.

Lemma available_loop_empty q n rc :
  queue_repr q [] ->
  available_pop_loop (S n) rc (QLive q) = Done (SUBSTANCE_CONNECTOR_ERROR, None) (QLive q).
Proof.
  intros Hr. revert rc. induction n as [|n IH]; intros rc.
  - cbn [available_pop_loop]. unfold bind. by rewrite (pop_repr q [] Hr).
  - change (available_pop_loop (S (S n)) rc) with
      (let* res := connector_uint_queue_pop in
       if fst res =? SUBSTANCE_CONNECTOR_SUCCESS then ret res
       else available_pop_loop (S n) (fst res)).
    unfold bind. rewrite (pop_repr q [] Hr). apply (IH SUBSTANCE_CONNECTOR_ERROR).
Qed.

Lemma available_pop_repr q l :
  queue_repr q l ->
  connector_available_queue_pop true (QLive q) =
    match l with
    | [] => Done (SUBSTANCE_CONNECTOR_ERROR, None) (QLive q)
    | x :: _ => Done (SUBSTANCE_CONNECTOR_SUCCESS, Some x) (QLive (popped_queue q))
    end.
Proof.
  intros Hr. unfold connector_available_queue_pop, SUBSTANCE_CONNECTOR_AVAILABLE_RETRIES.
  destruct l as [|x l]; [by apply available_loop_empty|].
  cbn [available_pop_loop]. unfold bind. by rewrite (pop_repr q _ Hr).
Qed.

#[export] Hint Resolve new_queue_repr pushed_queue_repr popped_queue_repr : conn.

(** ** Properties *)

(** C32: The queue refines a bounded first-in first-out list: from a queue that
    represents [l], any sequence of pushes and pops whose pushes keep the 32-bit
    counter from wrapping answers exactly what the list of capacity
    [size - 1] answers (full pushes and empty pops fail and change nothing), and
    leaves a queue that represents the specification's final list.  In
    particular no operation gets stuck. *)
Theorem queue_refines_fifo (ops : list queue_op) (q : uint_queue) (l : list Z)
    (Hr : queue_repr q l) (Hw : write_index q + pushes ops < 2 ^ 32) :
  exists q', do_ops ops (QLive q) = Done (snd (spec_ops (size q - 1) ops l)) (QLive q') /\
    queue_repr q' (fst (spec_ops (size q - 1) ops l)).
Proof. by apply do_ops_repr. Qed.

Definition empty_queue34 : uint_queue := UintQueue 0 0 0 34 (replicate 34 0) 1 2.

Lemma queue_refines_fifo_witness :
  exists q', do_ops [Push 5; Push 6; Pop; Pop; Pop] (QLive empty_queue34) =
    Done [(0, None); (0, None); (0, Some 5); (0, Some 6); (1, None)] (QLive q').
Proof.
  assert (Hr : queue_repr empty_queue34 []) by (apply (new_queue_repr 34); lia).
  assert (Hw : write_index empty_queue34 + pushes [Push 5; Push 6; Pop; Pop; Pop] < 2 ^ 32)
    by (vm_compute; reflexivity).
  destruct (queue_refines_fifo _ _ _ Hr Hw) as (q' & E & _). exists q'. exact E.
Defined.

(** Creation: for every size that leaves room for the padding in 32 bits,
    [connector_uint_queue_create] allocates the structure and the slots and
    returns an empty queue with an even number of slots that holds at least
    [n] elements, as its header promises; destroying it frees both blocks. *)
Theorem queue_create_capacity (n : Z) (m : memory)
    (Hwf : mem_wf m) (Hs : mem_serving m) (Hn : 0 < n <= 2 ^ 32 - 3) :
  exists q m', connector_uint_queue_create n m = Done (QLive q) m' /\
    queue_repr q [] /\ n <= size q - 1 <= n + 1 /\ Z.even (size q) = true /\
    exists m'', connector_uint_queue_destroy (QLive q) m' = Done SUBSTANCE_CONNECTOR_SUCCESS m'' /\
      heap m'' = heap m.
Proof.
  destruct (padded_size_spec n Hn) as [Hsz Hev].
  rewrite (queue_create_serving n m) by (auto; lia).
  set (m1 := alloc_with (BRaw sizeof_uint_queue) m).
  assert (Hwf1 : mem_wf m1) by (by apply alloc_with_wf).
  assert (Hs1 : mem_serving m1) by done.
  set (m2 := alloc_with (BRaw (4 * padded_size n)) m1).
  assert (Hwf2 : mem_wf m2) by (by apply alloc_with_wf).
  do 2 eexists. split; [done|]. split; [apply new_queue_repr; lia|].
  split; [cbn; lia|]. split; [done|].
  unfold connector_uint_queue_destroy, bind. cbn [array_ptr self].
  change (next_addr m + 1) with (next_addr m1).
  rewrite (connector_free_owns m2 (next_addr m1) (BRaw (4 * padded_size n)))
    by (auto; by apply alloc_with_owns).
  assert (Hne : next_addr m1 <> next_addr m) by (cbn; lia).
  rewrite (connector_free_owns _ (next_addr m) (BRaw sizeof_uint_queue)).
  - eexists. split; [done|]. cbn.
    rewrite delete_insert_id by (by apply (mem_wf_fresh m1)).
    by rewrite delete_insert_id by (by apply mem_wf_fresh).
  - by apply free_cell_wf.
  - apply free_cell_owns_other; [done|]. apply alloc_with_owns_other; [done|].
    by apply alloc_with_owns.
Qed.

Lemma queue_create_capacity_witness :
  exists q m', connector_uint_queue_create 32 initial_memory = Done (QLive q) m' /\
    queue_repr q [] /\ 32 <= size q - 1 <= 33.
Proof.
  assert (Hs : mem_serving initial_memory) by (split; reflexivity).
  destruct (queue_create_capacity 32 initial_memory initial_memory_wf Hs ltac:(lia))
    as (q & m' & E & Hr & Hc & _).
  exists q, m'. split; [exact E | split; [exact Hr | exact Hc]].
Defined.

(** Failed creation does not give NULL as the header promises: when the
    allocation of the slots fails, the returned pointer is the one that has
    just been freed, so [connector_available_queue_init] reports success and the
    next push dereferences freed memory; and creating a queue of size zero frees
    an array pointer that was never initialised. *)
Theorem queue_create_failure (n : Z) (m : memory) (Hwf : mem_wf m)
    (Ho : oracle m = [true; false])
    (Hf : connector_memory_allocate m = connector_memory_free m) (Hn : 0 < n) :
  (exists m', connector_uint_queue_create n m = Done QDangling m' /\ heap m' = heap m) /\
  (exists m', connector_available_queue_init QNull m = Done (QDangling, SUBSTANCE_CONNECTOR_SUCCESS) m') /\
  connector_available_queue_push 0 QDangling = Stuck UseAfterFree /\
  connector_uint_queue_create 0 m = Stuck Uninitialised.
Proof.
  destruct m as [h a al fr o j]. cbn in Ho, Hf. subst o al.
  assert (Hfresh : h !! a = None) by (apply (mem_wf_fresh _ Hwf)).
  assert (Ha : (a =? 0) = false) by (apply Z.eqb_neq; destruct Hwf; cbn in *; lia).
  assert (E : forall k, 0 < k -> exists m', connector_uint_queue_create k (Memory h a fr fr [true; false] j)
    = Done QDangling m' /\ heap m' = h).
  { intros k Hk. unfold connector_uint_queue_create, bind, connector_allocate, connector_free.
    cbn. rewrite (proj2 (Z.ltb_lt 0 k)) by done. rewrite Ha. cbn. rewrite ?Ha.
    rewrite lookup_insert_eq. cbn. rewrite Z.eqb_refl. eexists. split; [done|]. cbn.
    by rewrite delete_insert_id. }
  split; [by apply E|]. split; [|split; [done|]].
  - destruct (E SUBSTANCE_CONNECTOR_CONTEXT_COUNT ltac:(done)) as (m' & Em & _).
    exists m'. unfold connector_available_queue_init, bind. by rewrite Em.
  - unfold connector_uint_queue_create, bind, connector_allocate. cbn. by rewrite Ha.
Qed.

Lemma queue_create_failure_witness :
  exists m', connector_uint_queue_create 32 (Memory ∅ 1 0 0 [true; false] 0) = Done QDangling m' /\
    heap m' = ∅.
Proof.
  assert (Hwf : mem_wf (Memory ∅ 1 0 0 [true; false] 0)).
  { split; [reflexivity|]. intros p [c Hc]. cbn in Hc. by rewrite lookup_empty in Hc. }
  exact (proj1 (queue_create_failure 32 _ Hwf eq_refl eq_refl ltac:(lia))).
Defined.

(** An empty queue of the library's size after [c] pushes of zero, each popped
    before the next. *)
Definition worn_queue (c : Z) : uint_queue := UintQueue c c c 34 (replicate 34 0) 1 2.

Fixpoint churn (n : nat) : list queue_op :=
  match n with O => [] | S n' => churn n' ++ [Push 0; Pop] end.

Lemma worn_queue_repr c : 0 <= c < 2 ^ 32 -> queue_repr (worn_queue c) [].
Proof. intros Hc. constructor; cbn; try lia. done. Qed.

Lemma do_ops_app ops1 ops2 s :
  do_ops (ops1 ++ ops2) s =
    match do_ops ops1 s with
    | Done r1 s1 =>
        match do_ops ops2 s1 with Done r2 s2 => Done (r1 ++ r2) s2 | Stuck u => Stuck u end
    | Stuck u => Stuck u
    end.
Proof.
  revert s. induction ops1 as [|op ops1 IH]; intros s; cbn [app do_ops].
  - cbn. by destruct (do_ops ops2 s).
  - unfold bind. destruct (do_op op s) as [res s1|u]; [|done].
    rewrite IH. destruct (do_ops ops1 s1) as [r1 s2|u]; [|done].
    unfold ret. by destruct (do_ops ops2 s2).
Qed.

Lemma worn_queue_step c :
  0 <= c < 2 ^ 32 - 1 ->
  do_ops [Push 0; Pop] (QLive (worn_queue c)) =
    Done [(SUBSTANCE_CONNECTOR_SUCCESS, None); (SUBSTANCE_CONNECTOR_SUCCESS, Some 0)]
      (QLive (worn_queue (c + 1))).
Proof.
  intros Hc. pose proof (worn_queue_repr c ltac:(lia)) as Hr.
  assert (Hr1 : queue_repr (pushed_queue (worn_queue c) 0) [0])
    by (apply (pushed_queue_repr _ [] 0 Hr); cbn; lia).
  unfold do_ops, do_op, bind. rewrite (push_repr _ [] 0 Hr) by (cbn; lia).
  cbn [length size worn_queue Z.of_nat]. rewrite (proj2 (Z.ltb_lt _ _)) by lia.
  cbn [ret]. rewrite (pop_repr _ [0] Hr1). cbn [ret]. do 2 f_equal.
  unfold popped_queue, pushed_queue, worn_queue.
  cbn [write_index read_index max_index size array self array_ptr].
  by rewrite insert_replicate.
Qed.

Lemma churn_reaches n :
  Z.of_nat n < 2 ^ 32 ->
  exists ress, do_ops (churn n) (QLive (worn_queue 0)) = Done ress (QLive (worn_queue (Z.of_nat n))) /\
    Forall (fun r => fst r = SUBSTANCE_CONNECTOR_SUCCESS) ress.
Proof.
  induction n as [|n IH]; intros Hn; [by exists []|].
  destruct IH as (ress & E & Hf); [lia|]. eexists. cbn [churn]. split.
  - rewrite do_ops_app, E, worn_queue_step by lia.
    replace (Z.of_nat n + 1) with (Z.of_nat (S n)) by lia. done.
  - apply Forall_app. split; [done | repeat constructor].
Qed.

Lemma worn_overflow :
  exists q', do_ops (map Push (seqZ 1 31) ++ replicate 31 Pop) (QLive (worn_queue (2 ^ 32 - 30))) =
    Done (replicate 31 (SUBSTANCE_CONNECTOR_SUCCESS, None)
          ++ map (fun x => (SUBSTANCE_CONNECTOR_SUCCESS, Some x)) (seqZ 1 12 ++ [31])
          ++ replicate 18 (SUBSTANCE_CONNECTOR_ERROR, None)) (QLive q').
Proof. eexists. vm_compute. reflexivity. Qed.

(** C40: The counters of the library's queues (34 slots) do not survive their
    wrap-around: 2{^32} is not a multiple of 34.  There is a sequence of
    successful pushes and pops after which the queue is empty, yet 31 further
    pushes, all reported as successful, come back as 1 to 12 and then 31, and
    the other 18 elements are lost. *)
Theorem queue_wrap_loses_elements :
  exists warmup ress q q',
    do_ops warmup (QLive (UintQueue 0 0 0 34 (replicate 34 0) 1 2)) = Done ress (QLive q) /\
    Forall (fun r => fst r = SUBSTANCE_CONNECTOR_SUCCESS) ress /\ queue_repr q [] /\
    do_ops (map Push (seqZ 1 31) ++ replicate 31 Pop) (QLive q) =
      Done (replicate 31 (SUBSTANCE_CONNECTOR_SUCCESS, None)
            ++ map (fun x => (SUBSTANCE_CONNECTOR_SUCCESS, Some x)) (seqZ 1 12 ++ [31])
            ++ replicate 18 (SUBSTANCE_CONNECTOR_ERROR, None)) (QLive q').
Proof.
  destruct (churn_reaches (Z.to_nat (2 ^ 32 - 30))) as (ress & E & Hf); [lia|].
  destruct worn_overflow as [q' Eq].
  exists (churn (Z.to_nat (2 ^ 32 - 30))), ress, (worn_queue (2 ^ 32 - 30)), q'.
  rewrite Z2Nat.id in E by lia.
  split; [exact E|]. split; [exact Hf|]. split; [apply worn_queue_repr; lia | exact Eq].
Qed.
