(* ===== verification/Atomic.v ===== *)
(** * Atomic operations

    The three definitions that [atomic.h] gives its macros: the builtins of GCC
    and Clang, the interlocked functions of Windows and the plain C fallback of
    [SUBSTANCE_CONNECTOR_NO_ATOMIC].  The rest of the development uses the
    compare-and-exchange of [UintQueue], which is the first one. *)

From S2P Require Import Prelude UintQueue.

(** The macros on a variable that holds [ptr]: the new value of the variable,
    and, where there is one, of the variable [ret] for the result, whose value
    before is an argument. *)
Class atomics := {
  CONNECTOR_ATOMIC_SET_1 : Z -> Z;
  CONNECTOR_ATOMIC_SET_0 : Z -> Z;
  CONNECTOR_ATOMIC_OR (ptr val ret : Z) : Z * Z;
  CONNECTOR_ATOMIC_AND (ptr val ret : Z) : Z * Z;
  ATOMIC_COMPARE_EXCHANGE (ptr x y ret : Z) : Z * Z
}.

(** [__atomic_store_n], [__atomic_fetch_or], [__atomic_fetch_and] and
    [__atomic_compare_exchange_n], which stores the value it found in [ret] when
    that is not the expected one. *)
Definition gnu_atomics : atomics := {|
  CONNECTOR_ATOMIC_SET_1 ptr := 0x01;
  CONNECTOR_ATOMIC_SET_0 ptr := 0x00;
  CONNECTOR_ATOMIC_OR ptr val ret := (Z.lor ptr val, ptr);
  CONNECTOR_ATOMIC_AND ptr val ret := (Z.land ptr val, ptr);
  ATOMIC_COMPARE_EXCHANGE ptr x y ret :=
    let ret := x in if ptr =? ret then (y, ret) else (ptr, ptr)
|}.

(** The interlocked functions answer the value before. *)
Definition interlocked_atomics : atomics := {|
  CONNECTOR_ATOMIC_SET_1 ptr := Z.lor ptr 0x01;
  CONNECTOR_ATOMIC_SET_0 ptr := Z.land ptr 0x00;
  CONNECTOR_ATOMIC_OR ptr val ret := (Z.lor ptr val, ptr);
  CONNECTOR_ATOMIC_AND ptr val ret := (Z.land ptr val, ptr);
  ATOMIC_COMPARE_EXCHANGE ptr x y ret := (if ptr =? x then y else ptr, ptr)
|}.

Definition plain_atomics : atomics := {|
  CONNECTOR_ATOMIC_SET_1 ptr := 1;
  CONNECTOR_ATOMIC_SET_0 ptr := 0;
  CONNECTOR_ATOMIC_OR ptr val ret := let ptr := Z.lor ptr val in (ptr, ptr);
  CONNECTOR_ATOMIC_AND ptr val ret := let ptr := Z.land ptr val in (ptr, ptr);
  ATOMIC_COMPARE_EXCHANGE ptr x y ret := if ptr =? x then (y, ptr) else (ptr, ret)
|}.

(** ** The unit test [10_test_atomic] *)

Section tests.
Context {A : atomics}.

Definition connector_test_atomic_compare_exchange : Z :=
  let original_value := 0x17 in
  let target_value := 0x32 in
  let expected_1 := original_value in
  let expected_2 := 0x0 in
  let '(value_1, result_1) := ATOMIC_COMPARE_EXCHANGE original_value expected_1 target_value 0x0 in
  let '(value_2, result_2) := ATOMIC_COMPARE_EXCHANGE original_value expected_2 target_value 0x0 in
  if negb (value_1 =? target_value) || negb (result_1 =? original_value) then 1
  else if negb (value_2 =? original_value) || negb (result_2 =? original_value) then 2
  else 0.

Definition connector_test_atomic_and : Z :=
  let original_sequence := 0xffffffff in
  let original_value := 0x1234 in
  let original_mask := 0xff in
  let expected_2 := Z.land original_value original_mask in
  let '(value_0, retval_0) := CONNECTOR_ATOMIC_AND original_value 0x00 0x0 in
  let '(value_1, retval_1) := CONNECTOR_ATOMIC_AND original_value original_sequence 0x3357 in
  let '(value_2, retval_2) := CONNECTOR_ATOMIC_AND original_value original_mask 0x0 in
  if negb (value_0 =? 0x00) then 1
  else if negb (retval_0 =? original_value) then 2
  else if negb (value_1 =? original_value) then 3
  else if negb (retval_1 =? original_value) then 4
  else if negb (value_2 =? expected_2) then 5
  else if negb (retval_2 =? original_value) then 6
  else 0.

Definition connector_test_atomic_or : Z :=
  let original_sequence := 0xffffffff in
  let original_value := 0x1234 in
  let '(value_0, retval_0) := CONNECTOR_ATOMIC_OR original_value original_sequence 0 in
  let '(value_1, retval_1) := CONNECTOR_ATOMIC_OR original_value 0x00 0x3357 in
  if negb (value_0 =? original_sequence) then 1
  else if negb (retval_0 =? original_value) then 2
  else if negb (value_1 =? original_value) then 3
  else if negb (retval_1 =? original_value) then 4
  else 0.

Definition atomic_tests : list Z :=
  [connector_test_atomic_compare_exchange; connector_test_atomic_and; connector_test_atomic_or].

End tests.

(** ** Properties *)

(** The compare-and-exchange of the other files is the one of GCC and Clang. *)
Lemma gnu_compare_exchange ptr x y ret :
  ATOMIC_COMPARE_EXCHANGE (atomics := gnu_atomics) ptr x y ret = CONNECTOR_ATOMIC_COMPARE_EXCHANGE ptr x y.
Proof. cbn. unfold CONNECTOR_ATOMIC_COMPARE_EXCHANGE. by destruct (Z.eqb_spec ptr x) as [->|]. Qed.

(** The builtins of GCC and the interlocked functions of Windows are the same
    operations, and on flags they set the same values.  The plain fallback
    changes the variable in the same way but answers differently: a failed
    exchange leaves the result as it was, and the bit operations answer the new
    value; so of the repository's three tests all pass with the first two and
    none with the fallback.  A guard of the library whose result variable starts
    with the expected value, as in [substance_connector_init], then lets every
    caller in. *)
Theorem atomics_agree (ptr x y v ret : Z) :
  let G := gnu_atomics in let I := interlocked_atomics in let N := plain_atomics in
  ATOMIC_COMPARE_EXCHANGE (atomics := G) ptr x y ret = ATOMIC_COMPARE_EXCHANGE (atomics := I) ptr x y ret /\
  CONNECTOR_ATOMIC_OR (atomics := G) ptr v ret = CONNECTOR_ATOMIC_OR (atomics := I) ptr v ret /\
  CONNECTOR_ATOMIC_AND (atomics := G) ptr v ret = CONNECTOR_ATOMIC_AND (atomics := I) ptr v ret /\
  Forall (fun A => Forall (fun flag => CONNECTOR_ATOMIC_SET_1 (atomics := A) flag = 1 /\
    CONNECTOR_ATOMIC_SET_0 (atomics := A) flag = 0) [0; 1]) [G; I; N] /\
  fst (ATOMIC_COMPARE_EXCHANGE (atomics := N) ptr x y ret) = fst (ATOMIC_COMPARE_EXCHANGE (atomics := G) ptr x y ret) /\
  (snd (ATOMIC_COMPARE_EXCHANGE (atomics := N) ptr x y ret) = ptr <-> ptr = x \/ ret = ptr) /\
  snd (ATOMIC_COMPARE_EXCHANGE (atomics := N) ptr x y x) = x /\
  map (@atomic_tests) [G; I; N] = [[0; 0; 0]; [0; 0; 0]; [2; 2; 2]].
Proof.
  intros G I N. subst G I N. cbn [gnu_atomics interlocked_atomics plain_atomics
    ATOMIC_COMPARE_EXCHANGE CONNECTOR_ATOMIC_OR CONNECTOR_ATOMIC_AND].
  split; [by destruct (Z.eqb_spec ptr x) as [->|]|]. split; [done|]. split; [done|].
  split; [repeat constructor|]. split; [by destruct (Z.eqb_spec ptr x)|].
  split; [destruct (Z.eqb_spec ptr x); cbn; split; auto; intros [?|?]; done|].
  split; [by destruct (Z.eqb_spec ptr x)|]. reflexivity.
Qed.
