(* ===== verification/UintQueueConc.v ===== *)
(** * The bounded queue under concurrent calls

    [connector_uint_queue_push] and [connector_uint_queue_pop] of
    [uint_queue.c] as any number of threads execute them at the same time: each
    access to a shared field is one step of a thread, and a program counter
    with the thread's local variables stands between two accesses.  Two ghost
    lists record the elements in the order in which positions are reserved and
    taken. *)

From S2P Require Import Prelude Wire Memory UintQueue.

(** ** Threads *)

Inductive pc : Type :=
  | Ready                              (* outside the queue's functions *)
  | PushReadWrite (elem : Z)           (* about to read [write_index] *)
  | PushReadRead (elem w : Z)          (* about to read [read_index] and test *)
  | PushReserve (elem w r : Z)         (* about to exchange [write_index] *)
  | PushStore (elem w : Z)             (* about to write the slot *)
  | PushCommit (elem w : Z)            (* exchanging [max_index] until it is [w] *)
  | PushReturn (code : Z)
  | PopReadRead                        (* about to read [read_index] *)
  | PopReadMax (r : Z)                 (* about to read [max_index] and test *)
  | PopFetch (r m : Z)                 (* about to read the slot *)
  | PopTake (r data : Z)               (* about to exchange [read_index] *)
  | PopReturn (code : Z) (retval : option Z).

Definition set_write_index (w : Z) (q : uint_queue) : uint_queue :=
  UintQueue w (read_index q) (max_index q) (size q) (array q) (self q) (array_ptr q).
Definition set_read_index (r : Z) (q : uint_queue) : uint_queue :=
  UintQueue (write_index q) r (max_index q) (size q) (array q) (self q) (array_ptr q).
Definition set_max_index (m : Z) (q : uint_queue) : uint_queue :=
  UintQueue (write_index q) (read_index q) m (size q) (array q) (self q) (array_ptr q).
Definition set_array (a : list Z) (q : uint_queue) : uint_queue :=
  UintQueue (write_index q) (read_index q) (max_index q) (size q) a (self q) (array_ptr q).

(** One atomic step of a thread inside [connector_uint_queue_push] (the loop of
    lines 42-57, the store of line 61, the loop of lines 64-68). *)
Definition push_step (p : pc) : M uint_queue pc := fun q =>
  match p with
  | PushReadWrite e => Done (PushReadRead e (write_index q)) q
  | PushReadRead e w =>
      let r := read_index q in
      if size q =? 0 then Stuck DivByZero
      else if convert_to_index (u32 (w + 1)) (size q) =? convert_to_index r (size q)
      then Done (PushReturn SUBSTANCE_CONNECTOR_ERROR) q
      else Done (PushReserve e w r) q
  | PushReserve e w _ =>
      let '(w', res) := CONNECTOR_ATOMIC_COMPARE_EXCHANGE (write_index q) w (u32 (w + 1)) in
      Done (if res =? w then PushStore e w else PushReadWrite e) (set_write_index w' q)
  | PushStore e w =>
      let i := Z.to_nat (convert_to_index w (size q)) in
      if (length (array q) <=? i)%nat then Stuck OutOfBounds
      else Done (PushCommit e w) (set_array (<[i := e]> (array q)) q)
  | PushCommit e w =>
      let '(m', res) := CONNECTOR_ATOMIC_COMPARE_EXCHANGE (max_index q) w (u32 (w + 1)) in
      Done (if res =? w then PushReturn SUBSTANCE_CONNECTOR_SUCCESS else PushCommit e w)
        (set_max_index m' q)
  | _ => Done p q
  end.

(** One atomic step inside [connector_uint_queue_pop] (the loop of lines 88-115). *)
Definition pop_step (p : pc) : M uint_queue pc := fun q =>
  match p with
  | PopReadRead => Done (PopReadMax (read_index q)) q
  | PopReadMax r =>
      let m := max_index q in
      if size q =? 0 then Stuck DivByZero
      else if convert_to_index r (size q) =? convert_to_index m (size q)
      then Done (PopReturn SUBSTANCE_CONNECTOR_ERROR None) q
      else Done (PopFetch r m) q
  | PopFetch r _ =>
      match array q !! Z.to_nat (convert_to_index r (size q)) with
      | None => Stuck OutOfBounds
      | Some data => Done (PopTake r data) q
      end
  | PopTake r data =>
      let '(r', res) := CONNECTOR_ATOMIC_COMPARE_EXCHANGE (read_index q) r (u32 (r + 1)) in
      Done (if res =? r then PopReturn SUBSTANCE_CONNECTOR_SUCCESS (Some data) else PopReadRead)
        (set_read_index r' q)
  | _ => Done p q
  end.

Definition thread_step (p : pc) : M uint_queue pc :=
  match p with
  | Ready | PushReturn _ | PopReturn _ _ => ret p
  | PushReadWrite _ | PushReadRead _ _ | PushReserve _ _ _ | PushStore _ _ | PushCommit _ _ =>
      push_step p
  | PopReadRead | PopReadMax _ | PopFetch _ _ | PopTake _ _ => pop_step p
  end.

(** ** The system *)

Record sys := Sys {
  shared : uint_queue;
  threads : list pc;
  pushed : list Z;    (* elements in the order their positions were reserved *)
  popped : list Z     (* elements in the order they were taken *)
}.

(** The ghost lists after a step from [p] to [p']. *)
Definition record_push (p p' : pc) (l : list Z) : list Z :=
  match p, p' with PushReserve _ _ _, PushStore e _ => l ++ [e] | _, _ => l end.
Definition record_pop (p p' : pc) (l : list Z) : list Z :=
  match p, p' with PopTake _ _, PopReturn _ (Some d) => l ++ [d] | _, _ => l end.

Inductive sys_step : sys -> sys -> Prop :=
  | step_call_push s i e :
      threads s !! i = Some Ready ->
      sys_step s (Sys (shared s) (<[i := PushReadWrite e]> (threads s)) (pushed s) (popped s))
  | step_call_pop s i :
      threads s !! i = Some Ready ->
      sys_step s (Sys (shared s) (<[i := PopReadRead]> (threads s)) (pushed s) (popped s))
  | step_return_push s i c :
      threads s !! i = Some (PushReturn c) ->
      sys_step s (Sys (shared s) (<[i := Ready]> (threads s)) (pushed s) (popped s))
  | step_return_pop s i c v :
      threads s !! i = Some (PopReturn c v) ->
      sys_step s (Sys (shared s) (<[i := Ready]> (threads s)) (pushed s) (popped s))
  | step_thread s i p p' q' :
      threads s !! i = Some p ->
      thread_step p (shared s) = Done p' q' ->
      sys_step s (Sys q' (<[i := p']> (threads s)) (record_push p p' (pushed s))
                    (record_pop p p' (popped s))).

(** [k] idle threads on an empty queue of [n] slots. *)
Definition sys_init (n : Z) (k : nat) : sys :=
  Sys (UintQueue 0 0 0 n (replicate (Z.to_nat n) 0) 1 2) (replicate k Ready) [] [].

Definition reachable (n : Z) (k : nat) (s : sys) : Prop := rtc sys_step (sys_init n k) s.

(** ** Running one thread without interference *)

Fixpoint run_alone (fuel : nat) (p : pc) : M uint_queue pc :=
  match fuel with
  | O => ret p
  | S f => let* p' := thread_step p in run_alone f p'
  end.

(** ** Executing a given schedule *)

Inductive action : Type := CallPush (e : Z) | CallPop | Step | Return.

Definition schedule_one (i : nat) (a : action) (s : sys) : option sys :=
  match threads s !! i, a with
  | Some Ready, CallPush e =>
      Some (Sys (shared s) (<[i := PushReadWrite e]> (threads s)) (pushed s) (popped s))
  | Some Ready, CallPop =>
      Some (Sys (shared s) (<[i := PopReadRead]> (threads s)) (pushed s) (popped s))
  | Some (PushReturn _), Return | Some (PopReturn _ _), Return =>
      Some (Sys (shared s) (<[i := Ready]> (threads s)) (pushed s) (popped s))
  | Some p, Step =>
      match thread_step p (shared s) with
      | Done p' q' => Some (Sys q' (<[i := p']> (threads s)) (record_push p p' (pushed s))
                              (record_pop p p' (popped s)))
      | Stuck _ => None
      end
  | _, _ => None
  end.

Fixpoint schedule (acts : list (nat * action)) (s : sys) : option sys :=
  match acts with
  | [] => Some s
  | (i, a) :: acts' =>
      match schedule_one i a s with Some s' => schedule acts' s' | None => None end
  end.

(** ** The invariant *)

Definition thread_ok (n W R Mx : Z) (l : list Z) (arr : list Z) (p : pc) : Prop :=
  match p with
  | PushReadRead _ w => 0 <= w <= W
  | PushReserve _ w r => 0 <= w <= W /\ 0 <= r <= R /\ (w = W -> w - r < n - 1)
  | PushStore e w => Mx <= w < W /\ l !! Z.to_nat w = Some e
  | PushCommit e w =>
      Mx <= w < W /\ l !! Z.to_nat w = Some e /\ arr !! Z.to_nat (w mod n) = Some e
  | PopReadMax r => 0 <= r <= R
  | PopFetch r m => 0 <= r <= R /\ m <= Mx /\ (r = R -> r < m)
  | PopTake r d => 0 <= r <= R /\ (r = R -> r < Mx /\ l !! Z.to_nat r = Some d)
  | _ => True
  end.

(** The position a thread has reserved and not yet committed. *)
Definition holds (p : pc) (w : Z) : Prop :=
  match p with PushStore _ w' | PushCommit _ w' => w' = w | _ => False end.

Record queue_inv (n W R Mx : Z) (s : sys) : Prop := {
  inv_size : 0 < n < 2 ^ 32 /\ size (shared s) = n /\ Z.of_nat (length (array (shared s))) = n;
  inv_write : write_index (shared s) = W /\ Z.of_nat (length (pushed s)) = W;
  inv_read : read_index (shared s) = R /\ Z.of_nat (length (popped s)) = R;
  inv_max : max_index (shared s) = Mx;
  inv_order : 0 <= R <= Mx /\ Mx <= W < 2 ^ 32 - 1 /\ W - R <= n - 1;
  inv_popped : popped s = take (Z.to_nat R) (pushed s);
  inv_slots : forall k, R <= k < Mx ->
    array (shared s) !! Z.to_nat (k mod n) = pushed s !! Z.to_nat k;
  inv_threads : forall i p, threads s !! i = Some p ->
    thread_ok n W R Mx (pushed s) (array (shared s)) p;
  inv_unique : forall i j p p' w, threads s !! i = Some p -> threads s !! j = Some p' ->
    holds p w -> holds p' w -> i = j;
  inv_owner : forall w, Mx <= w < W -> exists i p, threads s !! i = Some p /\ holds p w
}.

Definition sys_inv (n : Z) (s : sys) : Prop := exists W R Mx, queue_inv n W R Mx s.

(** ** Lemmas: facts that other threads' steps do not disturb *)

Lemma threads_insert (ths : list pc) i j p p' :
  <[i := p']> ths !! j = Some p -> (i = j /\ p = p') \/ (i <> j /\ ths !! j = Some p).
Proof.
  intros H. destruct (decide (i = j)) as [->|Hne].
  - left. split; [done|]. apply list_lookup_insert_Some in H as [(_ & -> & _)|[? _]]; done.
  - right. split; [done|]. by rewrite list_lookup_insert_ne in H.
Qed.

Lemma thread_ok_push n W R Mx l arr p e :
  thread_ok n W R Mx l arr p -> Z.of_nat (length l) = W ->
  thread_ok n (W + 1) R Mx (l ++ [e]) arr p.
Proof.
  assert (Hl : forall k x, l !! k = Some x -> (l ++ [e]) !! k = Some x)
    by (intros; by apply lookup_app_l_Some).
  intros H HW. destruct p; cbn in *; auto; intuition (auto || lia).
Qed.

Lemma thread_ok_pop n W R Mx l arr p :
  thread_ok n W R Mx l arr p -> thread_ok n W (R + 1) Mx l arr p.
Proof. intros H. destruct p; cbn in *; auto; intuition lia. Qed.

Lemma thread_ok_commit n W R Mx l arr p :
  thread_ok n W R Mx l arr p -> ~ holds p Mx -> thread_ok n W R (Mx + 1) l arr p.
Proof. intros H Hh. destruct p; cbn in *; auto; intuition lia. Qed.

Lemma thread_ok_store n W R Mx l arr p w e :
  thread_ok n W R Mx l arr p -> ~ holds p w -> Mx <= w < W -> W - Mx <= n - 1 -> 0 < n ->
  thread_ok n W R Mx l (<[Z.to_nat (w mod n) := e]> arr) p.
Proof.
  intros H Hh Hw Hn Hpos. destruct p as [| | | | |e' w'| | | | | |]; cbn in *; auto.
  destruct H as (H1 & H2 & H3). split; [done|]. split; [done|].
  rewrite list_lookup_insert_ne; [done|].
  destruct (Z.lt_total w w') as [|[?|]]; [|congruence|].
  - apply slot_ne; lia.
  - apply not_eq_sym, slot_ne; lia.
Qed.

(** Changing a thread's program counter to one that holds no new position. *)
Lemma inv_local n W R Mx s i p p' :
  queue_inv n W R Mx s -> threads s !! i = Some p ->
  thread_ok n W R Mx (pushed s) (array (shared s)) p' ->
  (forall w, holds p' w <-> holds p w) ->
  queue_inv n W R Mx (Sys (shared s) (<[i := p']> (threads s)) (pushed s) (popped s)).
Proof.
  intros [] Hi Hok Hh. constructor; cbn; auto.
  - intros j q Hj. apply threads_insert in Hj as [[-> ->]|[? ?]]; eauto.
  - intros j k q q' w Hj Hk Hq Hq'.
    apply threads_insert in Hj as [[-> ->]|[? Hj]];
      apply threads_insert in Hk as [[-> ->]|[? Hk]]; auto.
    + apply Hh in Hq. eauto.
    + apply Hh in Hq'. eauto.
    + eauto.
  - intros w Hw. destruct (inv_owner0 w Hw) as (j & q & Hj & Hq).
    destruct (decide (i = j)) as [->|Hne].
    + exists j, p'. split; [|apply Hh; congruence].
      apply list_lookup_insert_eq. by apply lookup_lt_Some in Hj.
    + exists j, q. by rewrite list_lookup_insert_ne.
Qed.

Lemma inv_array_slot n W R Mx s k :
  queue_inv n W R Mx s -> (Z.to_nat (k mod n) < length (array (shared s)))%nat.
Proof. intros []. pose proof (Z.mod_pos_bound k n ltac:(lia)). lia. Qed.

(** ** The invariant is preserved, one lemma per kind of step *)

Lemma inv_reserve n W R Mx s i e w r :
  queue_inv n W R Mx s -> W + 1 < 2 ^ 32 - 1 ->
  threads s !! i = Some (PushReserve e w r) -> w = W ->
  queue_inv n (W + 1) R Mx
    (Sys (set_write_index (W + 1) (shared s)) (<[i := PushStore e w]> (threads s))
       (pushed s ++ [e]) (popped s)).
Proof.
  intros [] HW Hi ->. pose proof (inv_threads0 i _ Hi) as (Hw & Hr & Hfull). cbn in Hfull.
  assert (Hlt : forall (k : Z) (x : Z), 0 <= k < W -> pushed s !! Z.to_nat k = (pushed s ++ [e]) !! Z.to_nat k)
    by (intros; rewrite lookup_app_l by lia; done).
  constructor; cbn; auto; try lia.
  - rewrite length_app. cbn. lia.
  - rewrite take_app_le by lia. done.
  - intros k Hk. rewrite inv_slots0 by lia. apply (Hlt k 0). lia.
  - intros j p Hj. apply threads_insert in Hj as [[-> ->]|[? ?]].
    + cbn. split; [lia|]. rewrite lookup_app_r by lia.
      by replace (Z.to_nat W - length (pushed s))%nat with 0%nat by lia.
    + apply thread_ok_push; [eauto | lia].
  - assert (Hnew : forall j p, threads s !! j = Some p -> ~ holds p W).
    { intros j p Hj Hh. specialize (inv_threads0 j p Hj).
      destruct p; cbn in *; try done; lia. }
    intros j k q q' v Hj Hk Hq Hq'.
    apply threads_insert in Hj as [[-> ->]|[? Hj]];
      apply threads_insert in Hk as [[-> ->]|[? Hk]]; auto; cbn in *; subst.
    + by edestruct Hnew.
    + by edestruct Hnew.
    + eauto.
  - intros v Hv. destruct (decide (v = W)) as [->|Hne].
    + exists i, (PushStore e W). split; [|done].
      apply list_lookup_insert_eq. by apply lookup_lt_Some in Hi.
    + destruct (inv_owner0 v) as (j & p & Hj & Hp); [lia|]. exists j, p.
      split; [|done]. rewrite list_lookup_insert_ne; [done|]. intros <-.
      rewrite Hi in Hj. injection Hj as <-. done.
Qed.

Lemma inv_store n W R Mx s i e w :
  queue_inv n W R Mx s -> threads s !! i = Some (PushStore e w) ->
  queue_inv n W R Mx
    (Sys (set_array (<[Z.to_nat (w mod n) := e]> (array (shared s))) (shared s))
       (<[i := PushCommit e w]> (threads s)) (pushed s) (popped s)).
Proof.
  intros Hinv Hi. pose proof (inv_array_slot n W R Mx s w Hinv) as Hslot.
  destruct Hinv. pose proof (inv_threads0 i _ Hi) as [Hw Hl]. cbn in Hw, Hl.
  constructor; cbn; auto.
  - rewrite length_insert. done.
  - intros k Hk. rewrite list_lookup_insert_ne; [by apply inv_slots0|].
    apply not_eq_sym, slot_ne; lia.
  - intros j p Hj. apply threads_insert in Hj as [[-> ->]|[Hne Hj]].
    + cbn. split; [done|]. split; [done|]. by apply list_lookup_insert_eq.
    + apply thread_ok_store; [eauto | | lia | lia | lia].
      intros Hh. apply Hne. eapply (inv_unique0 i j); eauto. done.
  - intros j k q q' v Hj Hk Hq Hq'.
    apply threads_insert in Hj as [[-> ->]|[? Hj]];
      apply threads_insert in Hk as [[-> ->]|[? Hk]]; auto; eauto.
  - intros v Hv. destruct (inv_owner0 v Hv) as (j & p & Hj & Hp).
    destruct (decide (i = j)) as [->|Hne].
    + exists j, (PushCommit e w). split; [|by rewrite Hi in Hj; injection Hj as <-].
      apply list_lookup_insert_eq. by apply lookup_lt_Some in Hi.
    + exists j, p. by rewrite list_lookup_insert_ne.
Qed.

Lemma inv_commit n W R Mx s i e w :
  queue_inv n W R Mx s -> threads s !! i = Some (PushCommit e w) -> w = Mx ->
  queue_inv n W R (Mx + 1)
    (Sys (set_max_index (Mx + 1) (shared s))
       (<[i := PushReturn SUBSTANCE_CONNECTOR_SUCCESS]> (threads s)) (pushed s) (popped s)).
Proof.
  intros [] Hi ->. pose proof (inv_threads0 i _ Hi) as (Hw & Hl & Ha). cbn in Hw, Hl, Ha.
  constructor; cbn; auto; try lia.
  - intros k Hk. destruct (decide (k = Mx)) as [->|]; [congruence|]. apply inv_slots0. lia.
  - intros j p Hj. apply threads_insert in Hj as [[-> ->]|[Hne Hj]]; [done|].
    apply thread_ok_commit; [eauto|]. intros Hh. apply Hne.
    eapply (inv_unique0 i j); eauto. done.
  - intros j k q q' v Hj Hk Hq Hq'.
    apply threads_insert in Hj as [[-> ->]|[? Hj]];
      apply threads_insert in Hk as [[-> ->]|[? Hk]]; auto; cbn in *; try done; eauto.
  - intros v Hv. destruct (inv_owner0 v) as (j & p & Hj & Hp); [lia|]. exists j, p.
    split; [|done]. rewrite list_lookup_insert_ne; [done|]. intros <-.
    rewrite Hi in Hj. injection Hj as <-. cbn in Hp. lia.
Qed.

Lemma inv_take n W R Mx s i r d :
  queue_inv n W R Mx s -> threads s !! i = Some (PopTake r d) -> r = R ->
  queue_inv n W (R + 1) Mx
    (Sys (set_read_index (R + 1) (shared s))
       (<[i := PopReturn SUBSTANCE_CONNECTOR_SUCCESS (Some d)]> (threads s))
       (pushed s) (popped s ++ [d])).
Proof.
  intros [] Hi ->. pose proof (inv_threads0 i _ Hi) as (Hr & Hd). cbn in Hd.
  destruct (Hd eq_refl) as [HM Hl].
  constructor; cbn; auto; try lia.
  - rewrite length_app. cbn. lia.
  - rewrite inv_popped0. replace (Z.to_nat (R + 1)) with (S (Z.to_nat R)) by lia.
    symmetry. by apply take_S_r.
  - intros k Hk. apply inv_slots0. lia.
  - intros j p Hj. apply threads_insert in Hj as [[-> ->]|[Hne Hj]]; [done|].
    apply thread_ok_pop. eauto.
  - intros j k q q' v Hj Hk Hq Hq'.
    apply threads_insert in Hj as [[-> ->]|[? Hj]];
      apply threads_insert in Hk as [[-> ->]|[? Hk]]; auto; cbn in *; try done; eauto.
  - intros v Hv. destruct (inv_owner0 v) as (j & p & Hj & Hp); [lia|]. exists j, p.
    split; [|done]. rewrite list_lookup_insert_ne; [done|]. intros <-.
    rewrite Hi in Hj. injection Hj as <-. done.
Qed.

Lemma set_write_index_same q : set_write_index (write_index q) q = q.
Proof. by destruct q. Qed.
Lemma set_max_index_same q : set_max_index (max_index q) q = q.
Proof. by destruct q. Qed.
Lemma set_read_index_same q : set_read_index (read_index q) q = q.
Proof. by destruct q. Qed.

Lemma push_step_inv n s i p p' q' :
  sys_inv n s -> threads s !! i = Some p -> push_step p (shared s) = Done p' q' ->
  Z.of_nat (length (record_push p p' (pushed s))) < 2 ^ 32 - 1 ->
  sys_inv n (Sys q' (<[i := p']> (threads s)) (record_push p p' (pushed s))
               (record_pop p p' (popped s))).
Proof.
  intros (W & R & Mx & Hinv) Hi Hstep Hlen. pose proof Hinv as Hinv'.
  destruct Hinv' as [(Hn & Hsz & _) [HW HWl] [HR _] HM Hord _ _ Hth _ _].
  specialize (Hth i p Hi). destruct p; cbn in Hstep; try (injection Hstep as <- <-).
  all: try (exists W, R, Mx; cbn [record_push record_pop]; apply (inv_local _ _ _ _ _ _ _ _ Hinv Hi);
            [cbn in *; lia || done | done]).
  - (* PushReadRead *)
    rewrite Hsz, (proj2 (Z.eqb_neq n 0)) in Hstep by lia. cbn in Hth.
    destruct (Z.eqb_spec (convert_to_index (u32 (w + 1)) n) (convert_to_index (read_index (shared s)) n))
      as [E|E]; injection Hstep as <- <-; exists W, R, Mx; cbn [record_push record_pop];
      apply (inv_local _ _ _ _ _ _ _ _ Hinv Hi); try done.
    cbn. rewrite HR. split; [lia|]. split; [lia|]. intros ->.
    assert (W + 1 - R <> n); [|lia]. intros Hfull. apply E. unfold convert_to_index.
    rewrite u32_small by lia. rewrite HR. replace (W + 1) with (R + n) by lia.
    apply mod_eq_step. lia.
  - (* PushReserve *)
    cbn in Hth. rewrite HW in *. destruct (Z.eqb_spec W w) as [<-|Hne].
    + cbn [record_push record_pop] in *. rewrite length_app in Hlen. cbn in Hlen.
      rewrite u32_small by lia. exists (W + 1), R, Mx. apply (inv_reserve n W R Mx s i elem W r); auto; lia.
    + cbn [record_push record_pop] in *. rewrite <- HW, set_write_index_same.
      exists W, R, Mx. by apply (inv_local _ _ _ _ _ _ _ _ Hinv Hi).
  - (* PushStore *)
    pose proof (inv_array_slot n W R Mx s w Hinv) as Hslot. unfold convert_to_index in Hstep.
    rewrite Hsz in Hstep. rewrite (proj2 (Nat.leb_gt _ _)) in Hstep by done.
    injection Hstep as <- <-. exists W, R, Mx. by apply inv_store.
  - (* PushCommit *)
    cbn in Hth. rewrite HM. destruct (Z.eqb_spec Mx w) as [<-|Hne].
    + rewrite u32_small by lia. exists W, R, (Mx + 1). by apply (inv_commit n W R Mx s i elem Mx).
    + rewrite <- HM, set_max_index_same. exists W, R, Mx.
      apply (inv_local _ _ _ _ _ _ _ _ Hinv Hi); done.
Qed.

Lemma pop_step_inv n s i p p' q' :
  sys_inv n s -> threads s !! i = Some p -> pop_step p (shared s) = Done p' q' ->
  sys_inv n (Sys q' (<[i := p']> (threads s)) (record_push p p' (pushed s))
               (record_pop p p' (popped s))).
Proof.
  intros (W & R & Mx & Hinv) Hi Hstep. pose proof Hinv as Hinv'.
  destruct Hinv' as [(Hn & Hsz & _) [HW HWl] [HR _] HM Hord _ Hslots Hth _ _].
  specialize (Hth i p Hi). destruct p; cbn in Hstep; try (injection Hstep as <- <-).
  all: try (exists W, R, Mx; cbn [record_push record_pop]; apply (inv_local _ _ _ _ _ _ _ _ Hinv Hi);
            [cbn in *; lia || done | done]).
  - (* PopReadMax *)
    rewrite Hsz, (proj2 (Z.eqb_neq n 0)) in Hstep by lia. cbn in Hth.
    destruct (Z.eqb_spec (convert_to_index r n) (convert_to_index (max_index (shared s)) n))
      as [E|E]; injection Hstep as <- <-; exists W, R, Mx; cbn [record_push record_pop];
      apply (inv_local _ _ _ _ _ _ _ _ Hinv Hi); try done.
    cbn. rewrite HM in *. split; [lia|]. split; [lia|]. intros ->.
    destruct (Z.eq_dec R Mx) as [->|]; [done | lia].
  - (* PopFetch *)
    destruct (array (shared s) !! Z.to_nat (convert_to_index r (size (shared s)))) as [d|] eqn:Ed;
      [|done]. injection Hstep as <- <-. exists W, R, Mx. cbn [record_push record_pop].
    apply (inv_local _ _ _ _ _ _ _ _ Hinv Hi); [|done].
    cbn in *. destruct Hth as (? & ? & Hrm). split; [lia|]. intros ->. split; [lia|].
    unfold convert_to_index in Ed. rewrite Hsz, Hslots in Ed by lia. done.
  - (* PopTake *)
    cbn in Hth. rewrite HR. destruct (Z.eqb_spec R r) as [<-|Hne].
    + rewrite u32_small by lia. exists W, (R + 1), Mx. by apply (inv_take n W R Mx s i R).
    + rewrite <- HR, set_read_index_same. exists W, R, Mx.
      apply (inv_local _ _ _ _ _ _ _ _ Hinv Hi); done.
Qed.

Lemma schedule_sound acts s s' : schedule acts s = Some s' -> rtc sys_step s s'.
Proof.
  revert s. induction acts as [|[i a] acts IH]; intros s H; cbn in H.
  - injection H as <-. apply rtc_refl.
  - destruct (schedule_one i a s) as [s1|] eqn:E; [|done].
    apply rtc_l with s1; [|by apply IH]. unfold schedule_one in E.
    destruct (threads s !! i) as [p|] eqn:Ei; [|done].
    destruct p, a; try done; try (injection E as <-; econstructor; eassumption).
    all: match type of E with context [thread_step ?p ?q] =>
           destruct (thread_step p q) eqn:Es; [injection E as <-; exact (step_thread s i p _ _ Ei Es) | done] end.
Qed.

Lemma sys_step_inv n s s' :
  sys_inv n s -> sys_step s s' -> Z.of_nat (length (pushed s')) < 2 ^ 32 - 1 -> sys_inv n s'.
Proof.
  intros Hinv Hstep Hlen.
  destruct Hstep as [s i e Hi|s i Hi|s i c Hi|s i c v Hi|s i p p' q' Hi Hs].
  1-4: destruct Hinv as (W & R & Mx & Hinv); exists W, R, Mx; by apply (inv_local _ _ _ _ _ _ _ _ Hinv Hi).
  destruct p; cbn [thread_step] in Hs;
    try (injection Hs as <- <-; destruct Hinv as (W & R & Mx & Hinv); exists W, R, Mx;
         by apply (inv_local _ _ _ _ _ _ _ _ Hinv Hi)).
  1-5: by apply (push_step_inv n s i _ _ _ Hinv Hi Hs).
  1-4: by apply (pop_step_inv n s i _ _ _ Hinv Hi Hs).
Qed.

Lemma sys_step_pushed s s' : sys_step s s' -> (length (pushed s) <= length (pushed s'))%nat.
Proof.
  intros []; cbn; try lia. destruct p, p'; cbn; rewrite ?length_app; lia.
Qed.

Lemma sys_init_inv n k : 0 < n < 2 ^ 32 -> sys_inv n (sys_init n k).
Proof.
  intros Hn. exists 0, 0, 0. constructor; cbn; auto; try lia.
  - rewrite length_replicate. lia.
  - intros i p Hi. apply lookup_replicate in Hi as [-> _]. done.
  - intros i j p p' w Hi Hj Hp _. apply lookup_replicate in Hi as [-> _]. done.
Qed.

Lemma rtc_inv n s s' :
  rtc sys_step s s' -> sys_inv n s -> Z.of_nat (length (pushed s')) < 2 ^ 32 - 1 -> sys_inv n s'.
Proof.
  intros Hr. induction Hr as [s|s1 s2 s3 H12 H23 IH]; [done|]. intros Hinv Hlen.
  apply IH; [|done]. apply (sys_step_inv n s1); [done | done |].
  assert (length (pushed s2) <= length (pushed s3))%nat; [|lia].
  clear -H23. induction H23 as [|a b c Hab _ IH]; [done|]. apply sys_step_pushed in Hab. lia.
Qed.

Lemma reachable_inv n k s :
  0 < n < 2 ^ 32 -> reachable n k s -> Z.of_nat (length (pushed s)) < 2 ^ 32 - 1 -> sys_inv n s.
Proof. intros Hn Hr. apply (rtc_inv n _ _ Hr). by apply sys_init_inv. Qed.

Lemma thread_step_defined n s i p :
  sys_inv n s -> threads s !! i = Some p -> exists p' q', thread_step p (shared s) = Done p' q'.
Proof.
  intros (W & R & Mx & Hinv) Hi. pose proof (inv_array_slot n W R Mx s) as Hslot.
  assert (Hs : size (shared s) = n) by (by destruct Hinv as [(_ & ? & _)]).
  assert (Hn : (n =? 0) = false) by (apply Z.eqb_neq; destruct Hinv; lia).
  destruct p as [|e|e w|e w r|e w|e w|c| |r|r m|r d|c v]; cbn; rewrite ?Hs, ?Hn; eauto.
  - case_match; eauto.
  - rewrite (proj2 (Nat.leb_gt _ _)) by (apply Hslot; done). eauto.
  - case_match; eauto.
  - destruct (lookup_lt_is_Some_2 (array (shared s)) (Z.to_nat (r mod n))) as [d Hd];
      [by apply Hslot|]. unfold convert_to_index. rewrite Hd. eauto.
Qed.

(** When no thread is inside an operation the queue represents what has been
    pushed and not yet popped. *)
Lemma quiescent_repr n s :
  sys_inv n s -> (forall i p, threads s !! i = Some p -> p = Ready) ->
  queue_repr (shared s) (drop (length (popped s)) (pushed s)).
Proof.
  intros (W & R & Mx & []) Hq.
  assert (Mx = W) as ->.
  { destruct (Z.eq_dec Mx W); [done|]. destruct (inv_owner0 Mx) as (i & p & Hi & Hp); [lia|].
    by rewrite (Hq i p Hi) in Hp. }
  constructor; rewrite ?length_drop; try lia.
  intros j x Hj. rewrite lookup_drop in Hj.
  replace (size (shared s)) with n by lia. rewrite inv_slots0.
  - rewrite <- Hj. f_equal. lia.
  - apply lookup_lt_Some in Hj. lia.
Qed.

(** ** Properties *)

(** C8: Under any interleaving of any number of threads, as long as fewer than
    2{^32} - 1 pushes have been made: the elements taken are exactly the oldest
    ones reserved, in order, none lost, none duplicated; the shared counters are
    the numbers of pushes and pops; at most [n - 1] elements are in flight; no
    thread ever reads or writes outside the array; and whenever no thread is
    inside an operation the queue represents exactly the elements that were
    pushed and not yet popped. *)
Theorem concurrent_fifo (n : Z) (k : nat) (s : sys) (Hn : 0 < n < 2 ^ 32)
    (Hr : reachable n k s) (Hlen : Z.of_nat (length (pushed s)) < 2 ^ 32 - 1) :
  popped s = take (length (popped s)) (pushed s) /\
  write_index (shared s) = Z.of_nat (length (pushed s)) /\
  read_index (shared s) = Z.of_nat (length (popped s)) /\
  Z.of_nat (length (pushed s)) - Z.of_nat (length (popped s)) <= n - 1 /\
  (forall i p, threads s !! i = Some p -> exists p' q', thread_step p (shared s) = Done p' q') /\
  ((forall i p, threads s !! i = Some p -> p = Ready) ->
   queue_repr (shared s) (drop (length (popped s)) (pushed s))).
Proof.
  pose proof (reachable_inv n k s Hn Hr Hlen) as Hinv.
  split; [|split; [|split; [|split; [|split]]]].
  1-4: destruct Hinv as (W & R & Mx & []); try lia.
  - rewrite inv_popped0 at 1. f_equal. lia.
  - intros i p. by apply (thread_step_defined n).
  - by apply quiescent_repr with n.
Qed.

(** Two threads push 7 and 8 at the same time, a third pops. *)
Definition racing_pushes : list (nat * action) :=
  [(0%nat, CallPush 7); (1%nat, CallPush 8); (0%nat, Step); (1%nat, Step); (0%nat, Step);
   (1%nat, Step); (1%nat, Step); (0%nat, Step); (0%nat, Step); (0%nat, Step); (0%nat, Step);
   (1%nat, Step); (1%nat, Step); (0%nat, Step); (0%nat, Step); (2%nat, CallPop);
   (2%nat, Step); (2%nat, Step); (2%nat, Step); (2%nat, Step)].

Lemma concurrent_fifo_witness :
  exists s, reachable 34 3 s /\ pushed s = [8; 7] /\ popped s = take (length (popped s)) (pushed s).
Proof.
  destruct (schedule racing_pushes (sys_init 34 3)) as [s|] eqn:E; [|vm_compute in E; discriminate].
  assert (Hr : reachable 34 3 s) by (by apply schedule_sound with racing_pushes).
  assert (Hp : pushed s = [8; 7]) by (vm_compute in E; injection E as <-; reflexivity).
  exists s. split; [exact Hr|]. split; [exact Hp|].
  apply (concurrent_fifo 34 3 s ltac:(lia) Hr). rewrite Hp. reflexivity.
Defined.

(** The second loop of [push] cannot wait for ever on a running system:
    whenever reserved positions are not yet readable, the oldest of them belongs
    to a thread that is storing or committing it, and two steps of that thread
    alone publish it. *)
Theorem commit_progress (n : Z) (k : nat) (s : sys) (Hn : 0 < n < 2 ^ 32)
    (Hr : reachable n k s) (Hlen : Z.of_nat (length (pushed s)) < 2 ^ 32 - 1)
    (Hlag : max_index (shared s) < write_index (shared s)) :
  exists i p q', threads s !! i = Some p /\ holds p (max_index (shared s)) /\
    run_alone 2 p (shared s) = Done (PushReturn SUBSTANCE_CONNECTOR_SUCCESS) q' /\
    max_index q' = max_index (shared s) + 1.
Proof.
  destruct (reachable_inv n k s Hn Hr Hlen) as (W & R & Mx & Hinv).
  pose proof (inv_array_slot n W R Mx s Mx Hinv) as Hslot.
  destruct Hinv. destruct (inv_owner0 Mx) as (i & p & Hi & Hp); [lia|].
  exists i, p. rewrite inv_max0.
  destruct p; cbn in Hp; try done; subst w; eexists; split; try done; split; try done.
  - cbn. unfold bind. cbn. replace (size (shared s)) with n by lia.
    rewrite (proj2 (Nat.leb_gt _ _)) by done. cbn.
    rewrite inv_max0, Z.eqb_refl, u32_small by lia. done.
  - cbn. unfold bind. cbn. rewrite inv_max0, Z.eqb_refl, u32_small by lia. done.
Qed.

(** A thread has reserved position 0 and not stored yet. *)
Lemma commit_progress_witness :
  exists s i p q', max_index (shared s) < write_index (shared s) /\ threads s !! i = Some p /\
    run_alone 2 p (shared s) = Done (PushReturn SUBSTANCE_CONNECTOR_SUCCESS) q'.
Proof.
  destruct (schedule (take 7 racing_pushes) (sys_init 34 3)) as [s|] eqn:E;
    [|vm_compute in E; discriminate].
  assert (Hr : reachable 34 3 s) by (by apply schedule_sound with (take 7 racing_pushes)).
  assert (Hp : Z.of_nat (length (pushed s)) < 2 ^ 32 - 1)
    by (vm_compute in E; injection E as <-; reflexivity).
  assert (Hl : max_index (shared s) < write_index (shared s))
    by (vm_compute in E; injection E as <-; reflexivity).
  destruct (commit_progress 34 3 s ltac:(lia) Hr Hp Hl) as (i & p & q' & Hi & _ & H & _).
  exists s, i, p, q'. split; [exact Hl | split; [exact Hi | exact H]].
Defined.

(** The step-by-step threads and the one-call definitions of [UintQueue] are
    the same functions: run alone on a queue in a consistent state, a thread
    ends with the code, the element and the queue that [connector_uint_queue_push]
    and [connector_uint_queue_pop] compute. *)
Theorem run_alone_sequential (q : uint_queue) (l : list Z) (x : Z) (fuel : nat)
    (Hr : queue_repr q l) (Hw : write_index q < 2 ^ 32 - 1) (Hf : (5 <= fuel)%nat) :
  (exists c q', connector_uint_queue_push x (QLive q) = Done c (QLive q') /\
     run_alone fuel (PushReadWrite x) q = Done (PushReturn c) q') /\
  (exists c v q', connector_uint_queue_pop (QLive q) = Done (c, v) (QLive q') /\
     run_alone fuel PopReadRead q = Done (PopReturn c v) q').
Proof.
  assert (Hstay : forall p s, thread_step p s = Done p s -> forall f, run_alone f p s = Done p s).
  { intros p s Hp f. induction f as [|f IH]; [done|]. cbn. unfold bind. by rewrite Hp. }
  destruct fuel as [|[|[|[|[|f]]]]]; try lia.
  pose proof (slot_lt q l (write_index q) Hr) as Hslot.
  pose proof (full_test q l Hr Hw) as Hfull. pose proof (empty_test q l Hr) as Hempty.
  assert (Hz : (size q =? 0) = false) by (apply Z.eqb_neq; destruct Hr; lia).
  assert (Hu : u32 (write_index q + 1) = write_index q + 1) by (destruct Hr; apply u32_small; lia).
  split.
  - rewrite (push_repr q l x Hr Hw). cbn [run_alone]. unfold bind. cbn. rewrite Hz, Hfull.
    destruct (Z.of_nat (length l) <? size q - 1); cbn.
    + rewrite Z.eqb_refl. cbn. unfold convert_to_index.
      rewrite (proj2 (Nat.leb_gt _ _)) by done. cbn.
      rewrite (repr_max q l Hr), Z.eqb_refl, Hu. do 2 eexists. split; [done|]. by rewrite Hstay.
    + do 2 eexists. split; [done|]. by rewrite Hstay.
  - rewrite (pop_repr q l Hr). cbn [run_alone]. unfold bind. cbn. rewrite Hz, Hempty.
    destruct l as [|y l]; cbn.
    + do 3 eexists. split; [done|]. by rewrite Hstay.
    + pose proof (repr_slots q _ Hr 0%nat y eq_refl) as Hs. rewrite Z.add_0_r in Hs.
      unfold convert_to_index. rewrite Hs. cbn. rewrite Z.eqb_refl. cbn.
      destruct Hr. cbn [length] in *. rewrite u32_small by lia.
      do 3 eexists. split; [done|]. by rewrite Hstay.
Qed.

Lemma run_alone_sequential_witness :
  exists c q', connector_uint_queue_push 9 (QLive empty_queue34) = Done c (QLive q') /\
    run_alone 5 (PushReadWrite 9) empty_queue34 = Done (PushReturn c) q'.
Proof.
  assert (Hr : queue_repr empty_queue34 []) by (apply (new_queue_repr 34); lia).
  exact (proj1 (run_alone_sequential empty_queue34 [] 9 5 Hr eq_refl (le_n 5))).
Defined.

(** A push can fail on an almost empty queue: between a thread's reads of
    [write_index] and [read_index] another thread pushes and pops one element,
    the stale pair looks like a full queue, and the push answers
    [SUBSTANCE_CONNECTOR_ERROR] although the queue of 33 places has never held
    more than one element. *)
Theorem push_spurious_failure :
  exists s, reachable 34 2 s /\ threads s !! 0%nat = Some (PushReturn SUBSTANCE_CONNECTOR_ERROR) /\
    length (pushed s) = 1%nat /\ popped s = pushed s.
Proof.
  set (acts := [(0%nat, CallPush 5); (0%nat, Step)]
    ++ (1%nat, CallPush 6) :: replicate 5 (1%nat, Step) ++ [(1%nat, Return); (1%nat, CallPop)]
    ++ replicate 4 (1%nat, Step) ++ [(1%nat, Return); (0%nat, Step)]).
  destruct (schedule acts (sys_init 34 2)) as [s|] eqn:E; [|vm_compute in E; discriminate].
  exists s. split; [by apply schedule_sound with acts|].
  vm_compute in E. injection E as <-. done.
Qed.
