(* ===== verification/LockedQueue.v ===== *)
(** * The locked queue

    [locked_queue.c]: a singly linked list of nodes in the heap with a front
    and an end pointer, guarded by a mutex.  The representation predicate
    [lq_repr] relates the pointers to the list of (node, contents) pairs. *)

From S2P Require Import Prelude Wire Memory.

(** ** Mutexes, as far as a single thread can see them

    Locking a mutex that this thread already holds blocks for ever. *)
Definition mutex_lock (locked : bool) : M memory bool :=
  if locked then stuck Deadlock else ret true.
Definition mutex_unlock (locked : bool) : M memory bool := ret false.

(** ** Data *)

(** [connector_locked_queue_t]; the handler is a function pointer. *)
Record locked_queue := LockedQueue {
  lq_front : Z;
  lq_end : Z;
  lq_handler : Z -> M memory unit;
  lq_lock : bool
}.

Definition set_front (f : Z) (q : locked_queue) : locked_queue :=
  LockedQueue f (lq_end q) (lq_handler q) (lq_lock q).
Definition set_end (e : Z) (q : locked_queue) : locked_queue :=
  LockedQueue (lq_front q) e (lq_handler q) (lq_lock q).
Definition set_lock (l : bool) (q : locked_queue) : locked_queue :=
  LockedQueue (lq_front q) (lq_end q) (lq_handler q) l.

(** [node->next = n]. *)
Definition set_node_next (node n : Z) : M memory unit :=
  let* nc := load_node node in store node (BNode n (snd nc)).

(** ** Operations: each returns the new value of the queue structure *)

Definition dummy_handler (node : Z) : M memory unit := ret tt.

Definition connector_locked_queue_init (handler : option (Z -> M memory unit)) : M memory locked_queue :=
  ret (LockedQueue 0 0 (match handler with None => dummy_handler | Some h => h end) false).

(** The loop of [connector_locked_queue_clear]. *)
Fixpoint clear_loop (fuel : nat) (q : locked_queue) : M memory locked_queue :=
  if lq_front q =? 0 then ret q
  else
    match fuel with
    | O => stuck NoFuel
    | S f =>
        let front := lq_front q in
        let* nc := load_node front in
        let q' := set_front (fst nc) q in
        lq_handler q front ;;;
        clear_loop f q'
    end.

(** The nodes of a list are distinct live blocks, so one iteration per live
    block is enough. *)
Definition connector_locked_queue_clear (q : locked_queue) : M memory locked_queue :=
  let* l := mutex_lock (lq_lock q) in
  let* m := get in
  let* q' := clear_loop (stdpp.base.size (heap m)) (set_lock l q) in
  let* l' := mutex_unlock (lq_lock q') in
  ret (set_lock l' q').

Definition connector_locked_enqueue (q : locked_queue) (node : Z) : M memory locked_queue :=
  let* l := mutex_lock (lq_lock q) in
  let q := set_lock l q in
  set_node_next node 0 ;;;
  let end_ := lq_end q in
  let q := set_end node q in
  let q := if lq_front q =? 0 then set_front (lq_end q) q else q in
  when (negb (end_ =? 0)) (set_node_next end_ node) ;;;
  let* l' := mutex_unlock (lq_lock q) in
  ret (set_lock l' q).

(** The node that was removed (NULL if none) and the new queue. *)
Definition connector_locked_dequeue (q : locked_queue) : M memory (Z * locked_queue) :=
  let* l := mutex_lock (lq_lock q) in
  let q := set_lock l q in
  let* nq :=
    (if negb (lq_front q =? 0) then
       let node := lq_front q in
       let* nc := load_node node in
       let q := set_front (fst nc) q in
       let q := if lq_front q =? 0 then set_end 0 q else q in
       ret (node, q)
     else ret (0, q)) in
  let* l' := mutex_unlock (lq_lock (snd nq)) in
  ret (fst nq, set_lock l' (snd nq)).

(** ** Representation *)

(** [f] points to a list of nodes that ends in NULL; [ns] gives each node's
    address and contents. *)
Fixpoint chain (m : memory) (f : Z) (ns : list (Z * Z)) : Prop :=
  match ns with
  | [] => f = 0
  | (p, c) :: ns' => f = p /\ exists next, owns m p (BNode next c) /\ chain m next ns'
  end.

Record lq_repr (m : memory) (q : locked_queue) (ns : list (Z * Z)) : Prop := {
  lq_unlocked : lq_lock q = false;
  lq_chain : chain m (lq_front q) ns;
  lq_last : lq_end q = default 0 (last (map fst ns));
  lq_nodup : NoDup (map fst ns)
}.

(** [m'] differs from [m] at most at the addresses [ps]. *)
Record same_outside (ps : list Z) (m m' : memory) : Prop := {
  outside_config : mem_config_eq m m';
  outside_next : next_addr m' = next_addr m;
  outside_heap : forall p, ~ In p ps -> heap m' !! p = heap m !! p
}.

(** ** Lemmas *)

#[export] Instance same_outside_refl ps : Reflexive (same_outside ps).
Proof. by intros m. Qed.
#[export] Instance same_outside_trans ps : Transitive (same_outside ps).
Proof.
  intros m1 m2 m3 [C1 N1 H1] [C2 N2 H2]. constructor.
  - by etransitivity.
  - congruence.
  - intros p Hp. by rewrite H2, H1.
Qed.

Lemma same_outside_mono ps qs m m' :
  (forall p, In p ps -> In p qs) -> same_outside ps m m' -> same_outside qs m m'.
Proof. intros Hs [C N H]. constructor; auto. Qed.

Lemma write_cell_outside p b m ps : In p ps -> same_outside ps m (write_cell p b m).
Proof.
  intros Hp. constructor; [done | done |]. intros q Hq. cbn.
  rewrite lookup_insert_ne; [done|]. congruence.
Qed.

Lemma free_cell_outside p m ps : In p ps -> same_outside ps m (free_cell p m).
Proof.
  intros Hp. constructor; [done | done |]. intros q Hq. cbn.
  rewrite lookup_delete_ne; [done|]. congruence.
Qed.

Lemma chain_owned m f ns p c : chain m f ns -> In (p, c) ns -> exists n, owns m p (BNode n c).
Proof.
  revert f. induction ns as [|[q d] ns IH]; intros f Hc Hin; [done|].
  destruct Hc as (_ & next & Ho & Hc). destruct Hin as [[= -> ->]|Hin]; eauto.
Qed.

Lemma chain_frame m m' f ns :
  chain m f ns -> connector_memory_free m' = connector_memory_free m ->
  (forall p, In p (map fst ns) -> heap m' !! p = heap m !! p) -> chain m' f ns.
Proof.
  intros Hc Hf. revert f Hc. induction ns as [|[p c] ns IH]; intros f Hc Hh; [done|].
  destruct Hc as (-> & next & Ho & Hc). split; [done|]. exists next. split.
  - unfold owns in *. rewrite Hh, Hf by (cbn; auto). done.
  - apply IH; [done|]. intros q Hq. apply Hh. cbn. auto.
Qed.

(** A queue is kept by whatever keeps its nodes. *)
Lemma lq_repr_frame m m' q ns :
  lq_repr m q ns -> mem_config_eq m m' ->
  (forall a n c, In a (map fst ns) -> owns m a (BNode n c) -> heap m' !! a = heap m !! a) ->
  lq_repr m' q ns.
Proof.
  intros [Hl Hch Hla Hnd] Hc Hh. constructor; auto.
  apply (chain_frame m); [done | by destruct Hc |]. intros a Ha.
  apply in_map_iff in Ha as ([p c] & <- & Hin). destruct (chain_owned _ _ _ _ _ Hch Hin) as [n Hn].
  apply (Hh p n c); [by apply (in_map fst _ (p, c)) | done].
Qed.

(** Linking a new last node behind the previous one. *)
Lemma chain_snoc m f ns p c node d m' :
  chain m f (ns ++ [(p, c)]) -> NoDup (map fst (ns ++ [(p, c)])) ->
  connector_memory_free m' = connector_memory_free m ->
  (forall q, In q (map fst ns) -> heap m' !! q = heap m !! q) ->
  owns m' p (BNode node c) -> owns m' node (BNode 0 d) ->
  chain m' f (ns ++ [(p, c)] ++ [(node, d)]).
Proof.
  intros Hc Hnd Hf. revert f Hc Hnd. induction ns as [|[q e] ns IH]; intros f Hc Hnd Hh Hp Hn.
  - destruct Hc as (-> & next & _ & _). cbn. eauto 10.
  - destruct Hc as (-> & next & Ho & Hc). cbn in Hnd. apply NoDup_cons in Hnd as [_ Hnd].
    split; [done|]. exists next. split.
    + unfold owns in *. rewrite Hh, Hf by (cbn; auto). done.
    + apply IH; auto. intros x Hx. apply Hh. cbn. auto.
Qed.

Lemma load_node_owns m p n c : mem_wf m -> owns m p (BNode n c) -> load_node p m = Done (n, c) m.
Proof. intros Hwf Ho. unfold load_node, bind. by rewrite (load_owns m p _ Hwf Ho). Qed.

Lemma set_node_next_owns m p n c n' :
  mem_wf m -> owns m p (BNode n c) ->
  set_node_next p n' m = Done tt (write_cell p (BNode n' c) m).
Proof.
  intros Hwf Ho. unfold set_node_next, bind. rewrite (load_node_owns m p n c) by done.
  by rewrite (store_owns m p (BNode n c)).
Qed.

Lemma last_map_fst (ns : list (Z * Z)) p c : last (map fst (ns ++ [(p, c)])) = Some p.
Proof. rewrite map_app. apply last_snoc. Qed.

Lemma chain_front_zero m q ns :
  mem_wf m -> chain m (lq_front q) ns -> (lq_front q =? 0) = match ns with [] => true | _ => false end.
Proof.
  intros Hwf Hc. destruct ns as [|[p c] ns]; cbn in Hc.
  - by rewrite Hc.
  - destruct Hc as (-> & next & Ho & _). by apply (owns_pos m p _ Hwf Ho).
Qed.

Lemma enqueue_repr m q ns node x d :
  mem_wf m -> lq_repr m q ns -> owns m node (BNode x d) -> ~ In node (map fst ns) ->
  exists q' m', connector_locked_enqueue q node m = Done q' m' /\
    lq_repr m' q' (ns ++ [(node, d)]) /\ lq_handler q' = lq_handler q /\
    same_outside (map fst ns ++ [node]) m m' /\ mem_wf m'.
Proof.
  intros Hwf [Hl Hc Hlast Hnd] Ho Hfresh. unfold connector_locked_enqueue, bind, mutex_lock.
  rewrite Hl. cbn [ret]. rewrite (set_node_next_owns m node x d) by done.
  set (m1 := write_cell node (BNode 0 d) m).
  assert (Hwf1 : mem_wf m1) by (by eapply write_cell_wf).
  cbn [set_lock lq_end lq_front set_end]. rewrite (chain_front_zero m q ns Hwf Hc).
  assert (Hnd' : NoDup (map fst (ns ++ [(node, d)]))).
  { rewrite map_app, NoDup_app. split; [done|]. split; [|apply NoDup_singleton].
    intros p Hp Hq. apply list_elem_of_singleton in Hq as ->. by apply Hfresh, list_elem_of_In. }
  destruct ns as [|pc0 ns0] eqn:Ens using rev_ind; [|clear IHns0].
  - cbn in Hc, Hlast. rewrite Hlast. cbn. do 2 eexists. split; [done|].
    split; [constructor; cbn; auto|].
    + split; [done|]. exists 0. split; [apply write_cell_owns | done].
    + split; [done|]. split; [apply write_cell_outside; by left | done].
  - destruct pc0 as [p c]. rewrite last_map_fst in Hlast. cbn in Hlast.
    assert (Hp : exists n, owns m p (BNode n c)).
    { eapply chain_owned; [exact Hc|]. apply in_or_app. right. by left. }
    destruct Hp as [n Hp].
    assert (Hpn : node <> p).
    { intros ->. apply Hfresh. rewrite map_app. apply in_or_app. right. by left. }
    assert (Hp1 : owns m1 p (BNode n c)) by (by apply write_cell_owns_other).
    rewrite Hlast, (owns_pos m p _ Hwf Hp). cbn [negb when].
    rewrite (set_node_next_owns m1 p n c) by done. cbn [ret mutex_unlock].
    replace (match ns0 ++ [(p, c)] with [] => true | _ => false end) with false by (by destruct ns0).
    do 2 eexists. split; [done|].
    assert (Hsep : forall z, In z (map fst ns0) -> z <> p /\ z <> node).
    { intros z Hz. split; intros ->.
      - rewrite map_app, NoDup_app in Hnd. destruct Hnd as (_ & Hd & _).
        apply (Hd p); [by apply list_elem_of_In | by left].
      - apply Hfresh. rewrite map_app. apply in_or_app. by left. }
    split; [constructor; cbn; auto|].
    + rewrite <- app_assoc. apply (chain_snoc m); auto.
      * intros z Hz. destruct (Hsep z Hz). cbn. by rewrite !lookup_insert_ne by congruence.
      * apply write_cell_owns.
      * apply write_cell_owns_other; [congruence|]. apply write_cell_owns.
    + by rewrite last_map_fst.
    + split; [done|]. split.
      * transitivity m1; apply write_cell_outside; rewrite map_app; cbn;
          rewrite !in_app_iff; cbn; auto.
      * by eapply write_cell_wf.
Qed.

Lemma dequeue_repr m q ns :
  mem_wf m -> lq_repr m q ns ->
  exists q', connector_locked_dequeue q m =
      Done (match ns with [] => 0 | (p, _) :: _ => p end, q') m /\
    lq_repr m q' (tail ns) /\ lq_handler q' = lq_handler q.
Proof.
  intros Hwf [Hl Hc Hlast Hnd]. unfold connector_locked_dequeue, bind, mutex_lock.
  rewrite Hl. cbn [ret set_lock lq_front]. rewrite (chain_front_zero m q ns Hwf Hc).
  destruct ns as [|[p c] ns]; cbn [negb].
  - eexists. split; [done|]. split; [by constructor | done].
  - destruct Hc as (-> & next & Ho & Hc). rewrite (load_node_owns m p next c) by done.
    cbn [ret fst snd mutex_unlock]. cbn in Hnd. apply NoDup_cons in Hnd as [_ Hnd].
    set (q1 := set_front next (set_lock true q)).
    change (lq_front q1) with next.
    pose proof (chain_front_zero m q1 ns Hwf Hc) as Hz. change (lq_front q1) with next in Hz.
    rewrite Hz. eexists. split; [done|]. destruct ns as [|[p' c'] ns].
    + split; [|done]. constructor; cbn; auto.
    + split; [|done]. constructor; cbn; auto.
Qed.

(** ** Clearing with a handler *)

(** [m'] is [m] with the blocks at [ps] released. *)
Record released (ps : list Z) (m m' : memory) : Prop := {
  released_wf : mem_wf m';
  released_config : mem_config_eq m m';
  released_next : next_addr m' = next_addr m;
  released_heap : forall a, heap m' !! a = if decide (a ∈ ps) then None else heap m !! a
}.

Lemma released_nil m : mem_wf m -> released [] m m.
Proof. intros Hwf. by constructor. Qed.

Lemma released_trans ps qs m1 m2 m3 :
  released ps m1 m2 -> released qs m2 m3 -> released (ps ++ qs) m1 m3.
Proof.
  intros [W1 C1 N1 H1] [W2 C2 N2 H2]. constructor; [done | by etransitivity | congruence |].
  intros a. rewrite H2, H1. repeat case_decide; try done; set_solver.
Qed.

Lemma released_free_cell p m : mem_wf m -> released [p] m (free_cell p m).
Proof.
  intros Hwf. constructor; [by apply free_cell_wf | done | done |]. intros a. cbn.
  rewrite lookup_delete. repeat case_decide; try done; set_solver.
Qed.

Lemma released_heap_other ps m m' a : released ps m m' -> a ∉ ps -> heap m' !! a = heap m !! a.
Proof. intros [_ _ _ H] Ha. rewrite H. by case_decide. Qed.

Lemma released_owns ps m m' a b : released ps m m' -> a ∉ ps -> owns m a b -> owns m' a b.
Proof.
  intros H Ha Ho. unfold owns in *. rewrite (released_heap_other ps m m') by done.
  rewrite (config_free _ _ (released_config _ _ _ H)). done.
Qed.

Lemma chain_released ps m m' f ns :
  released ps m m' -> chain m f ns -> (forall p, p ∈ map fst ns -> p ∉ ps) -> chain m' f ns.
Proof.
  intros H Hc Hd. apply (chain_frame m); [done | by destruct H as [_ [] _ _] |].
  intros p Hp. apply (released_heap_other ps); [done|]. apply Hd. by apply list_elem_of_In.
Qed.

(** A list of distinct live addresses is no longer than the heap. *)
Lemma chain_size m f ns :
  chain m f ns -> NoDup (map fst ns) -> (length ns <= stdpp.base.size (heap m))%nat.
Proof.
  intros Hc Hnd. rewrite <- (length_map fst), <- (size_list_to_set (C:=gset Z)) by done.
  rewrite <- size_dom. apply subseteq_size. intros p Hp.
  apply elem_of_list_to_set, list_elem_of_In, in_map_iff in Hp as ([q c] & <- & Hin).
  destruct (chain_owned m f ns q c Hc Hin) as [n Ho]. apply elem_of_dom. by eexists.
Qed.

Section clear.
(** [R m c ps]: in [m] the contents [c] of a node can be released together
    with the blocks [ps]. *)
Variable R : memory -> Z -> list Z -> Prop.
Variable handler : Z -> M memory unit.

Hypothesis R_frame : forall m m' c ps,
  R m c ps -> mem_config_eq m m' -> (forall a, a ∈ ps -> heap m' !! a = heap m !! a) -> R m' c ps.
Hypothesis handler_releases : forall m p n c ps,
  mem_wf m -> owns m p (BNode n c) -> R m c ps -> p ∉ ps ->
  exists m', handler p m = Done tt m' /\ released (p :: ps) m m'.

Lemma clear_loop_releases fuel q m ns fps :
  mem_wf m -> lq_handler q = handler -> chain m (lq_front q) ns ->
  Forall2 (fun pc ps => R m (snd pc) ps) ns fps -> NoDup (map fst ns ++ concat fps) ->
  (length ns <= fuel)%nat ->
  exists m', clear_loop fuel q m = Done (set_front 0 q) m' /\
    released (map fst ns ++ concat fps) m m'.
Proof.
  intros Hwf Hh Hc HR Hnd Hf. revert q m fps fuel Hwf Hh Hc HR Hnd Hf.
  induction ns as [|[p c] ns IH]; intros q m fps fuel Hwf Hh Hc HR Hnd Hf.
  - cbn in Hc. apply Forall2_nil_inv_l in HR as ->. exists m.
    split; [|by apply released_nil]. destruct q as [f e h l]. cbn in *. subst f.
    by destruct fuel.
  - apply Forall2_cons_inv_l in HR as (ps & fps' & HRc & HR & ->).
    destruct fuel as [|fuel]; [cbn in Hf; lia|].
    pose proof (chain_front_zero m q _ Hwf Hc) as Hz.
    destruct Hc as (Hp & next & Ho & Hc). cbn [clear_loop]. rewrite Hz, Hp. unfold bind.
    rewrite (load_node_owns m p next c) by done. cbn [fst snd]. rewrite Hh.
    cbn [map fst concat] in Hnd.
    assert (Hperm : p :: map fst ns ++ ps ++ concat fps' ≡ₚ (p :: ps) ++ map fst ns ++ concat fps').
    { cbn. f_equiv. rewrite !app_assoc. f_equiv. apply Permutation_app_comm. }
    rewrite Hperm in Hnd. apply NoDup_app in Hnd as (Hnd1 & Hdisj & Hnd2).
    apply NoDup_cons in Hnd1 as [Hpps _]. cbn [snd] in HRc.
    destruct (handler_releases m p next c ps Hwf Ho HRc Hpps) as (m1 & E1 & Hrel).
    rewrite E1.
    destruct (IH (set_front next q) m1 fps' fuel) as (m2 & E2 & Hrel2).
    + by destruct Hrel.
    + done.
    + apply (chain_released _ _ _ _ _ Hrel); [done|]. intros a Ha Hin.
      apply (Hdisj a Hin). set_solver.
    + assert (Hout : forall a, a ∈ concat fps' -> a ∉ p :: ps) by (intros a Ha Hin; apply (Hdisj a Hin); set_solver).
      clear -HR Hrel Hout R_frame. induction HR as [|[q' c'] qs ns fps Hq HR IH]; constructor.
      * apply (R_frame m); [done | by destruct Hrel |]. intros a Ha.
        apply (released_heap_other _ _ _ _ Hrel), Hout. cbn. set_solver.
      * apply IH. intros a Ha. apply Hout. cbn. set_solver.
    + done.
    + cbn in Hf. lia.
    + exists m2. split; [exact E2|]. destruct (released_trans _ _ _ _ _ Hrel Hrel2) as [W C N H].
      constructor; auto. intros a. rewrite H.
      assert (a ∈ (p :: ps) ++ map fst ns ++ concat fps' <-> a ∈ map fst ((p, c) :: ns) ++ concat (ps :: fps'))
        by (cbn; set_solver).
      repeat case_decide; tauto.
Qed.

(** Clearing releases every node and what hangs off it, and leaves the end
    pointer as it was. *)
Lemma queue_clear_releases q m ns fps :
  mem_wf m -> lq_handler q = handler -> lq_repr m q ns ->
  Forall2 (fun pc ps => R m (snd pc) ps) ns fps -> NoDup (map fst ns ++ concat fps) ->
  exists m', connector_locked_queue_clear q m = Done (set_front 0 q) m' /\
    released (map fst ns ++ concat fps) m m'.
Proof.
  intros Hwf Hh [Hl Hc _ Hnd0] HR Hnd. unfold connector_locked_queue_clear, bind, mutex_lock.
  rewrite Hl. cbn [ret get].
  destruct (clear_loop_releases (stdpp.base.size (heap m)) (set_lock true q) m ns fps)
    as (m' & E & Hrel); auto.
  - by apply chain_size with (lq_front q).
  - exists m'. rewrite E. split; [|done]. destruct q. cbn in Hl. by subst.
Qed.
End clear.

(** ** Properties *)

(** Enqueueing and dequeueing implement a first-in first-out list: enqueueing
    a live node that is not in the queue appends it (and leaves every other
    block as it was), dequeueing returns the oldest node, or NULL when there is
    none, and removes it; both leave the mutex unlocked. *)
Theorem locked_queue_fifo (m : memory) (q : locked_queue) (ns : list (Z * Z)) (node x d : Z)
    (Hwf : mem_wf m) (Hq : lq_repr m q ns) (Ho : owns m node (BNode x d))
    (Hn : ~ In node (map fst ns)) :
  (exists q' m', connector_locked_enqueue q node m = Done q' m' /\
     lq_repr m' q' (ns ++ [(node, d)]) /\ lq_lock q' = false /\
     same_outside (map fst ns ++ [node]) m m' /\ mem_wf m') /\
  (exists q', connector_locked_dequeue q m =
       Done (match ns with [] => 0 | (p, _) :: _ => p end, q') m /\
     lq_repr m q' (tail ns) /\ lq_lock q' = false).
Proof.
  split.
  - destruct (enqueue_repr m q ns node x d Hwf Hq Ho Hn) as (q' & m' & E & Hr & _ & Hs & Hw).
    exists q', m'. repeat (split; [done || by destruct Hr|]). done.
  - destruct (dequeue_repr m q ns Hwf Hq) as (q' & E & Hr & _).
    exists q'. split; [done|]. split; [done | by destruct Hr].
Qed.

Definition two_nodes : memory :=
  alloc_with (BNode 0 20) (alloc_with (BNode 0 10) initial_memory).

Lemma locked_queue_fifo_witness :
  lq_repr two_nodes (LockedQueue 1 1 dummy_handler false) [(1, 10)] /\
  exists q' m', connector_locked_enqueue (LockedQueue 1 1 dummy_handler false) 2 two_nodes = Done q' m' /\
     lq_repr m' q' [(1, 10); (2, 20)].
Proof.
  assert (Hwf : mem_wf two_nodes) by (do 2 apply alloc_with_wf; apply initial_memory_wf).
  assert (Hq : lq_repr two_nodes (LockedQueue 1 1 dummy_handler false) [(1, 10)]).
  { constructor; try reflexivity; [|repeat constructor; set_solver].
    cbn. split; [reflexivity|]. exists 0. split; reflexivity. }
  split; [exact Hq|].
  destruct (locked_queue_fifo two_nodes _ _ 2 0 20 Hwf Hq eq_refl) as [(q' & m' & E & Hr & _) _].
  - intros [H|[]]. discriminate.
  - exists q', m'. split; [exact E | exact Hr].
Defined.

(** Clearing a non-empty queue whose handler releases the nodes leaves the
    end pointer on the last, now freed, node: the queue looks empty, but the next
    enqueue without a new initialisation writes into freed memory. *)
Theorem clear_leaves_dangling_end (R : memory -> Z -> list Z -> Prop) (h : Z -> M memory unit)
    (m : memory) (q : locked_queue) (ns : list (Z * Z)) (fps : list (list Z)) (node x d : Z)
    (R_frame : forall m m' c ps, R m c ps -> mem_config_eq m m' ->
       (forall a, a ∈ ps -> heap m' !! a = heap m !! a) -> R m' c ps)
    (h_releases : forall m p n c ps, mem_wf m -> owns m p (BNode n c) -> R m c ps -> p ∉ ps ->
       exists m', h p m = Done tt m' /\ released (p :: ps) m m')
    (Hwf : mem_wf m) (Hh : lq_handler q = h) (Hq : lq_repr m q ns) (Hne : ns <> [])
    (HR : Forall2 (fun pc ps => R m (snd pc) ps) ns fps) (Hnd : NoDup (map fst ns ++ concat fps))
    (Ho : owns m node (BNode x d)) (Hn : node ∉ map fst ns ++ concat fps) :
  exists q' m', connector_locked_queue_clear q m = Done q' m' /\
    lq_front q' = 0 /\ owns m' node (BNode x d) /\
    connector_locked_enqueue q' node m' = Stuck UseAfterFree.
Proof.
  destruct (queue_clear_releases R h R_frame h_releases q m ns fps Hwf Hh Hq HR Hnd)
    as (m' & E & Hrel).
  exists (set_front 0 q), m'. split; [done|]. split; [done|].
  pose proof (released_owns _ _ _ _ _ Hrel Hn Ho) as Ho'. split; [done|].
  destruct Hq as [Hl Hc Hlast _].
  destruct ns as [|[p c] ns' _] using rev_ind; [done|]. rewrite last_map_fst in Hlast. cbn in Hlast.
  assert (Hp : p ∈ map fst (ns' ++ [(p, c)])) by (rewrite map_app; set_solver).
  destruct (chain_owned m _ _ p c Hc) as [n Hop]; [apply in_or_app; right; by left|].
  assert (Hnp : node <> p) by (intros ->; apply Hn, elem_of_app; by left).
  assert (Hgone : heap m' !! p = None).
  { destruct Hrel as [_ _ _ H]. rewrite H. case_decide as Hin; [done|].
    destruct Hin. apply elem_of_app. by left. }
  unfold connector_locked_enqueue, bind, mutex_lock. cbn [set_front lq_lock]. rewrite Hl. cbn [ret].
  assert (Hwf' : mem_wf m') by (by destruct Hrel).
  rewrite (set_node_next_owns m' node x d) by done.
  cbn [set_lock set_front lq_end lq_front]. rewrite Hlast.
  rewrite (owns_pos m p _ Hwf Hop). cbn [negb when].
  unfold set_node_next, load_node, load, bind. rewrite (owns_pos m p _ Hwf Hop). cbn.
  by rewrite lookup_insert_ne, Hgone.
Qed.

(** A handler that frees the node itself, as for contents that are not blocks. *)
Lemma clear_leaves_dangling_end_witness :
  exists q' m', connector_locked_queue_clear (LockedQueue 1 1 connector_free false) two_nodes = Done q' m' /\
    connector_locked_enqueue q' 2 m' = Stuck UseAfterFree.
Proof.
  assert (Hwf : mem_wf two_nodes) by (do 2 apply alloc_with_wf; apply initial_memory_wf).
  assert (Hq : lq_repr two_nodes (LockedQueue 1 1 connector_free false) [(1, 10)]).
  { constructor; try reflexivity; [|repeat constructor; set_solver].
    cbn. split; [reflexivity|]. exists 0. split; reflexivity. }
  destruct (clear_leaves_dangling_end (fun _ _ ps => ps = []) connector_free two_nodes
    (LockedQueue 1 1 connector_free false) [(1, 10)] [[]] 2 0 20) as (q' & m' & E & _ & _ & Hs).
  - intros m m' c ps H _ _. exact H.
  - intros m p n c ps Hm Ho -> _. exists (free_cell p m).
    split; [by apply (connector_free_owns m p (BNode n c)) | by apply released_free_cell].
  - exact Hwf.
  - reflexivity.
  - exact Hq.
  - discriminate.
  - repeat constructor.
  - cbn. apply NoDup_singleton.
  - reflexivity.
  - cbn. set_solver.
  - exists q', m'. split; [exact E | exact Hs].
Defined.
