(* ===== verification/Message.v ===== *)
(** * Messages and the message queues

    [message.c] builds and clears messages; [message_queue.c] keeps the inbound
    and the outbound queue, two locked queues of messages behind a small state
    machine. *)

From S2P Require Import Prelude Wire Memory Strings UintQueue LockedQueue.

(** ** [message.c] *)

Definition sizeof_message : Z := 24.

(** [type] is the identifier behind the pointer, [None] for NULL. *)
Definition connector_build_message (context : Z) (type : option uuid) (text : Z) : M memory Z :=
  match type with
  | Some ty =>
      if negb (text =? 0) then
        let* result := connector_allocate (sizeof_message + sizeof_header) in
        if negb (result =? 0) then
          let* copy := connector_strdup text in
          let* len := strlen copy in
          let desc := Z.lor (Z.lor 0 CONNECTOR_HEADER_R1) CONNECTOR_MESSAGE_IDENTIFIER in
          store result (BMsg (Message (Some (Header desc (u32 len) ty)) copy context)) ;;;
          ret result
        else ret result
      else ret 0
  | None => ret 0
  end.

Definition connector_clear_message (message : Z) : M memory unit :=
  if negb (message =? 0) then
    let* x := load_message message in
    connector_free (msg_text x) ;;;
    store message (BMsg (Message None 0 0))
  else ret tt.

(** ** [message_queue.c] *)

Definition MESSAGE_QUEUE_SHUTDOWN : Z := 0.
Definition MESSAGE_QUEUE_INIT_STARTED : Z := 1.
Definition MESSAGE_QUEUE_INITIALIZED : Z := 2.
Definition MESSAGE_QUEUE_SHUTDOWN_STARTED : Z := 3.
Definition MESSAGE_QUEUE_INVALID : Z := 4.

(** The static variables of the file. *)
Record message_queues := MessageQueues {
  inbound_queue : locked_queue;
  outbound_queue : locked_queue;
  message_queue_state : Z
}.

Definition set_inbound (q : locked_queue) (qs : message_queues) : message_queues :=
  MessageQueues q (outbound_queue qs) (message_queue_state qs).
Definition set_outbound (q : locked_queue) (qs : message_queues) : message_queues :=
  MessageQueues (inbound_queue qs) q (message_queue_state qs).

Definition handle_message (node : Z) : M memory unit :=
  let* nc := load_node node in
  let message_struct := snd nc in
  connector_clear_message message_struct ;;;
  connector_free message_struct ;;;
  connector_free node.

Definition sizeof_node : Z := 16.

Definition enqueue_message (queue : locked_queue) (message : Z) : M memory locked_queue :=
  let* node := connector_allocate sizeof_node in
  store node (BNode 0 message) ;;;
  connector_locked_enqueue queue node.

(** The message (NULL if none) and the new queue. *)
Definition dequeue_message (queue : locked_queue) : M memory (Z * locked_queue) :=
  let* nq := connector_locked_dequeue queue in
  let '(node, queue') := nq in
  if negb (node =? 0) then
    let* nc := load_node node in
    connector_free node ;;;
    ret (snd nc, queue')
  else ret (0, queue').

(** The new static variables and the returned code. *)
Definition connector_init_message_queue_subsystem (qs : message_queues) :
    M memory (message_queues * Z) :=
  let '(st, initialized) := CONNECTOR_ATOMIC_COMPARE_EXCHANGE (message_queue_state qs)
      MESSAGE_QUEUE_SHUTDOWN MESSAGE_QUEUE_INIT_STARTED in
  if initialized =? MESSAGE_QUEUE_SHUTDOWN then
    let* inq := connector_locked_queue_init (Some handle_message) in
    let* outq := connector_locked_queue_init (Some handle_message) in
    let '(st', _) := CONNECTOR_ATOMIC_COMPARE_EXCHANGE st
        MESSAGE_QUEUE_INIT_STARTED MESSAGE_QUEUE_INITIALIZED in
    ret (MessageQueues inq outq st', SUBSTANCE_CONNECTOR_SUCCESS)
  else ret (MessageQueues (inbound_queue qs) (outbound_queue qs) st, SUBSTANCE_CONNECTOR_ERROR).

Definition connector_shutdown_message_queue_subsystem (qs : message_queues) :
    M memory (message_queues * Z) :=
  let '(st, initialized) := CONNECTOR_ATOMIC_COMPARE_EXCHANGE (message_queue_state qs)
      MESSAGE_QUEUE_INITIALIZED MESSAGE_QUEUE_SHUTDOWN_STARTED in
  if initialized =? MESSAGE_QUEUE_INITIALIZED then
    let* inq := connector_locked_queue_clear (inbound_queue qs) in
    let* outq := connector_locked_queue_clear (outbound_queue qs) in
    let '(st', _) := CONNECTOR_ATOMIC_COMPARE_EXCHANGE st
        MESSAGE_QUEUE_SHUTDOWN_STARTED MESSAGE_QUEUE_SHUTDOWN in
    ret (MessageQueues inq outq st', SUBSTANCE_CONNECTOR_SUCCESS)
  else ret (MessageQueues (inbound_queue qs) (outbound_queue qs) st, SUBSTANCE_CONNECTOR_ERROR).

Definition connector_enqueue_inbound_message (message : Z) (qs : message_queues) :
    M memory message_queues :=
  let* q := enqueue_message (inbound_queue qs) message in ret (set_inbound q qs).

Definition connector_acquire_inbound_message (qs : message_queues) :
    M memory (Z * message_queues) :=
  let* mq := dequeue_message (inbound_queue qs) in ret (fst mq, set_inbound (snd mq) qs).

Definition connector_enqueue_outbound_message (message : Z) (qs : message_queues) :
    M memory message_queues :=
  let* q := enqueue_message (outbound_queue qs) message in ret (set_outbound q qs).

Definition connector_acquire_outbound_message (qs : message_queues) :
    M memory (Z * message_queues) :=
  let* mq := dequeue_message (outbound_queue qs) in ret (fst mq, set_outbound (snd mq) qs).

(** ** Representation *)

(** [p] is a live message with this header, text and context, whose text block
    is separate. *)
Definition message_at (m : memory) (p : Z) (h : message_header) (t : list Z) (ctx : Z) : Prop :=
  exists q, owns m p (BMsg (Message (Some h) q ctx)) /\ points_to_string m q t /\ q <> p.

(** The blocks of a queued message: the structure and, if it has one, its text. *)
Definition message_blocks (m : memory) (p : Z) (ps : list Z) : Prop :=
  exists x, owns m p (BMsg x) /\
    ((msg_text x = 0 /\ ps = [p]) \/
     (msg_text x <> p /\ ps = [p; msg_text x] /\ exists b, owns m (msg_text x) b)).

(** A queue of messages: [nodes] and the messages in them, all blocks distinct. *)
Definition queue_holds (m : memory) (q : locked_queue) (messages : list Z) : Prop :=
  exists ns, lq_repr m q ns /\ map snd ns = messages.

(** ** Lemmas *)

Lemma load_message_owns m p x : mem_wf m -> owns m p (BMsg x) -> load_message p m = Done x m.
Proof. intros Hwf Ho. unfold load_message, bind. by rewrite (load_owns m p _ Hwf Ho). Qed.

(** Clearing a live message frees its text and zeroes the structure. *)
Lemma clear_message_spec m p x ps :
  mem_wf m -> owns m p (BMsg x) -> message_blocks m p ps ->
  exists m', connector_clear_message p m = Done tt m' /\ mem_wf m' /\ mem_config_eq m m' /\
    next_addr m' = next_addr m /\ owns m' p (BMsg (Message None 0 0)) /\
    forall a, a <> p -> heap m' !! a = if decide (a ∈ ps) then None else heap m !! a.
Proof.
  intros Hwf Ho (x' & Ho' & Hps). assert (x' = x) as -> by (unfold owns in *; congruence).
  unfold connector_clear_message, bind. rewrite (owns_pos m p _ Hwf Ho). cbn [negb].
  rewrite (load_message_owns m p x) by done.
  destruct Hps as [[Ht ->]|(Ht & -> & b & Hb)].
  - rewrite Ht, connector_free_null. rewrite (store_owns m p (BMsg x)) by done.
    eexists. split; [done|]. split; [by eapply write_cell_wf|]. split; [done|]. split; [done|].
    split; [apply write_cell_owns|]. intros a Ha. cbn.
    rewrite lookup_insert_ne by done. case_decide; [set_solver | done].
  - rewrite (connector_free_owns m (msg_text x) b) by done.
    assert (Hwf1 : mem_wf (free_cell (msg_text x) m)) by (by apply free_cell_wf).
    assert (Ho1 : owns (free_cell (msg_text x) m) p (BMsg x)) by (by apply free_cell_owns_other).
    rewrite (store_owns _ p (BMsg x)) by done.
    eexists. split; [done|]. split; [by eapply write_cell_wf|]. split; [done|]. split; [done|].
    split; [apply write_cell_owns|]. intros a Ha. cbn.
    rewrite lookup_insert_ne, lookup_delete by done. repeat case_decide; try done; set_solver.
Qed.

Lemma message_blocks_frame m m' c ps :
  message_blocks m c ps -> mem_config_eq m m' ->
  (forall a, a ∈ ps -> heap m' !! a = heap m !! a) -> message_blocks m' c ps.
Proof.
  intros (x & Ho & Hps) Hc Hh. exists x. unfold owns in *.
  rewrite (config_free _ _ Hc). destruct Hps as [[Ht ->]|(Ht & -> & b & Hb)].
  - rewrite Hh by set_solver. auto.
  - rewrite !Hh by set_solver. split; [done|]. right. eauto.
Qed.

(** Clearing and freeing a message releases its two blocks. *)
Lemma discard_message m p h t ctx b :
  mem_wf m -> owns m p (BMsg (Message h t ctx)) -> owns m t b -> t <> p ->
  exists m1 m', connector_clear_message p m = Done tt m1 /\ connector_free p m1 = Done tt m' /\
    released [p; t] m m'.
Proof.
  intros Hwf Hp Ht Hne.
  destruct (clear_message_spec m p _ [p; t] Hwf Hp) as (m1 & E1 & Hwf1 & C1 & N1 & Ho1 & H1).
  { eexists. split; [exact Hp|]. right. cbn. eauto. }
  exists m1, (free_cell p m1). split; [done|]. split; [by apply (connector_free_owns m1 p (BMsg (Message None 0 0)))|].
  constructor; [by apply free_cell_wf | by destruct C1 | done |]. intros a. cbn. rewrite lookup_delete.
  destruct (decide (p = a)) as [<-|Hpa].
  - case_decide as Hd; [done|]. destruct Hd. apply elem_of_cons. by left.
  - by rewrite H1 by congruence.
Qed.

Lemma handle_message_releases m p n c ps :
  mem_wf m -> owns m p (BNode n c) -> message_blocks m c ps -> p ∉ ps ->
  exists m', handle_message p m = Done tt m' /\ released (p :: ps) m m'.
Proof.
  intros Hwf Hp Hm Hps. pose proof Hm as (x & Hc & Hx).
  destruct (clear_message_spec m c x ps Hwf Hc Hm) as (m1 & E1 & Hwf1 & C1 & N1 & Hc1 & H1).
  assert (Hcps : c ∈ ps) by (destruct Hx as [[_ ->]|(_ & -> & _)]; set_solver).
  assert (Hpc : c <> p) by (intros ->; done).
  unfold handle_message, bind. rewrite (load_node_owns m p n c) by done. cbn [snd].
  rewrite E1. rewrite (connector_free_owns m1 c (BMsg (Message None 0 0))) by done.
  assert (Hp2 : owns (free_cell c m1) p (BNode n c)).
  { apply free_cell_owns_other; [done|]. unfold owns in *.
    rewrite H1 by congruence. rewrite (config_free _ _ C1). by case_decide. }
  rewrite (connector_free_owns _ p (BNode n c)) by (done || by apply free_cell_wf).
  eexists. split; [done|]. constructor; [by do 2 apply free_cell_wf | by destruct C1 | exact N1 |].
  intros a. cbn. rewrite !lookup_delete.
  assert (Hin : a ∈ p :: ps <-> a = p \/ a ∈ ps) by apply elem_of_cons.
  destruct (decide (p = a)) as [<-|Hpa]; [case_decide; intuition|].
  destruct (decide (c = a)) as [<-|Hca]; [case_decide; intuition|].
  rewrite H1 by congruence. repeat case_decide; intuition congruence.
Qed.

Lemma enqueue_message_spec m q ns x :
  mem_wf m -> mem_serving m -> lq_repr m q ns ->
  exists q' m' node, enqueue_message q x m = Done q' m' /\
    lq_repr m' q' (ns ++ [(node, x)]) /\ lq_handler q' = lq_handler q /\
    mem_wf m' /\ mem_config_eq m m' /\ heap m !! node = None /\
    forall a, a <> node -> ~ In a (map fst ns) -> heap m' !! a = heap m !! a.
Proof.
  intros Hwf Hs Hq. unfold enqueue_message, bind.
  rewrite connector_allocate_serving by done. rewrite store_alloc_with by done.
  set (m1 := alloc_with (BNode 0 x) m).
  assert (Hwf1 : mem_wf m1) by (by apply alloc_with_wf).
  assert (Hfresh : ~ In (next_addr m) (map fst ns)).
  { intros Hin. apply in_map_iff in Hin as ([p c] & Hp & Hin). cbn in Hp. subst p.
    destruct Hq as [_ Hc _ _]. destruct (chain_owned m _ _ _ _ Hc Hin) as [n Ho].
    unfold owns in Ho. by rewrite (mem_wf_fresh m Hwf) in Ho. }
  assert (Hq1 : lq_repr m1 q ns).
  { apply (lq_repr_frame m); [done | done |]. intros a n c Ha _. cbn. rewrite lookup_insert_ne; [done|]. congruence. }
  destruct (enqueue_repr m1 q ns (next_addr m) 0 x Hwf1 Hq1) as (q' & m' & E & Hr & Hh & Ho & Hw).
  - by apply alloc_with_owns.
  - done.
  - exists q', m', (next_addr m). split; [done|]. split; [done|]. split; [done|].
    split; [done|]. split; [transitivity m1; [done | by destruct Ho]|].
    split; [by apply mem_wf_fresh|]. intros a Ha Hin.
    rewrite (outside_heap _ _ _ Ho) by (rewrite in_app_iff; cbn; intuition).
    cbn. by rewrite lookup_insert_ne.
Qed.

(** Enqueueing a message [p] whose structure and text were allocated since [m0]:
    with its node they are three new blocks, and apart from the nodes that were
    in the queue nothing else differs from [m0]. *)
Lemma enqueue_new_message m0 m q ns p t :
  mem_serving m0 -> lq_repr m0 q ns -> added [p; t] m0 m ->
  exists q' m' node, enqueue_message q p m = Done q' m' /\ lq_repr m' q' (ns ++ [(node, p)]) /\
    mem_wf m' /\ mem_config_eq m0 m' /\ NoDup [node; p; t] /\
    (forall a, a ∈ [node; p; t] -> heap m0 !! a = None) /\
    (forall a, a ∉ [node; p; t] -> a ∉ map fst ns -> heap m' !! a = heap m0 !! a) /\
    (forall a b, a ∈ [p; t] -> owns m a b -> owns m' a b).
Proof.
  intros Hs Hq [Hwf Hc Hnd Hf Hown Hh].
  assert (Hlive : forall a, In a (map fst ns) -> heap m0 !! a <> None).
  { intros a Ha. apply in_map_iff in Ha as ([a' x] & <- & Ha).
    destruct (chain_owned _ _ _ _ _ (lq_chain _ _ _ Hq) Ha) as [n Hn]. cbn. unfold owns in Hn. by rewrite Hn. }
  assert (Hq1 : lq_repr m q ns).
  { apply (lq_repr_frame m0); [done | done |]. intros a n x _ Ha. apply Hh. intros Hin.
    unfold owns in Ha. by rewrite (Hf a Hin) in Ha. }
  destruct (enqueue_message_spec m q ns p Hwf) as (q' & m' & node & E & Hq' & _ & Hwf' & Hc' & Hn & Hh');
    [by apply (mem_serving_config m0) | done |].
  assert (Hnode : node ∉ [p; t]) by (intros Hin; destruct (Hown node Hin) as [b Hb]; unfold owns in Hb; congruence).
  assert (Hout : forall a, a ∈ [p; t] -> ~ In a (map fst ns) /\ a <> node).
  { intros a Ha. split; [intros Hin; by apply (Hlive a Hin), Hf | by intros ->]. }
  exists q', m', node. split; [done|]. split; [done|]. split; [done|]. split; [by transitivity m|].
  split; [by constructor|]. split; [|split].
  - intros a [->|Ha]%elem_of_cons; [|by apply Hf]. by rewrite <- Hh.
  - intros a Ha Hin. rewrite elem_of_cons in Ha. rewrite Hh', Hh by (rewrite <- ?list_elem_of_In; intuition). done.
  - intros a b Ha Hb. destruct (Hout a Ha). unfold owns in *. by rewrite (config_free _ _ Hc'), Hh'.
Qed.

Lemma dequeue_message_spec m q ns :
  mem_wf m -> lq_repr m q ns ->
  exists q', match ns with
    | [] => dequeue_message q m = Done (0, q') m /\ lq_repr m q' []
    | (p, x) :: ns' => dequeue_message q m = Done (x, q') (free_cell p m) /\
        lq_repr (free_cell p m) q' ns'
    end /\ lq_handler q' = lq_handler q.
Proof.
  intros Hwf Hq. destruct (dequeue_repr m q ns Hwf Hq) as (q' & E & Hr & Hh).
  exists q'. split; [|done]. unfold dequeue_message, bind. rewrite E.
  destruct ns as [|[p x] ns']; [done|]. cbn [tail] in Hr.
  destruct Hq as [_ (_ & next & Ho & _) _ Hnd].
  rewrite (owns_pos m p _ Hwf Ho). cbn [negb].
  rewrite (load_node_owns m p next x) by done.
  rewrite (connector_free_owns m p (BNode next x)) by done. split; [done|].
  apply (lq_repr_frame m); [done | done |]. intros a n c Ha _. cbn in *. rewrite lookup_delete_ne; [done|]. intros ->.
  apply NoDup_cons in Hnd as [Hp _]. by apply Hp, list_elem_of_In.
Qed.

(** The two blocks a new message is made of. *)
Lemma build_message_blocks m ctx ty p s :
  mem_wf m -> mem_serving m -> cstring s -> points_to_string m p s ->
  Z.of_nat (length s) < 2 ^ 32 ->
  exists m', connector_build_message ctx (Some ty) p m = Done (next_addr m) m' /\
    mem_wf m' /\ mem_config_eq m m' /\
    owns m' (next_addr m) (BMsg (Message (Some (Header 0x03c9 (Z.of_nat (length s)) ty)) (next_addr m + 1) ctx)) /\
    points_to_string m' (next_addr m + 1) s /\
    forall a, a <> next_addr m -> a <> next_addr m + 1 -> heap m' !! a = heap m !! a.
Proof.
  intros Hwf Hs Hcs Hp Hlen. unfold connector_build_message, bind.
  rewrite (owns_pos m p _ Hwf Hp). cbn [negb].
  rewrite connector_allocate_serving by done.
  set (m1 := alloc_with (BRaw (sizeof_message + sizeof_header)) m).
  assert (Hwf1 : mem_wf m1) by (by apply alloc_with_wf).
  assert (Hp1 : points_to_string m1 p s) by (by apply alloc_with_owns_other).
  assert (Hn : (next_addr m =? 0) = false) by (apply Z.eqb_neq; destruct Hwf; lia).
  rewrite Hn. cbn [negb]. rewrite (connector_strdup_string m1 p s) by done.
  set (m2 := alloc_with (BStr (s ++ [0])) m1).
  assert (Hwf2 : mem_wf m2) by (by apply alloc_with_wf).
  assert (Hq2 : points_to_string m2 (next_addr m1) s) by (by apply alloc_with_owns).
  unfold strlen, bind. rewrite (read_cstr_string m2 (next_addr m1) s) by done. cbn [ret].
  rewrite u32_small by lia.
  assert (Ho2 : owns m2 (next_addr m) (BRaw (sizeof_message + sizeof_header))).
  { apply alloc_with_owns_other; [done|]. by apply alloc_with_owns. }
  rewrite (store_owns m2 (next_addr m) _ _ Hwf2 Ho2).
  eexists. split; [done|]. split; [by eapply write_cell_wf|]. split; [done|].
  split; [apply write_cell_owns|]. split; [apply write_cell_owns_other; [lia | exact Hq2]|].
  intros a Ha Hb. cbn. by rewrite !lookup_insert_ne by (cbn; lia).
Qed.

Lemma build_message_spec m ctx ty p s :
  mem_wf m -> mem_serving m -> cstring s -> points_to_string m p s ->
  Z.of_nat (length s) < 2 ^ 32 ->
  exists m', connector_build_message ctx (Some ty) p m = Done (next_addr m) m' /\
    mem_wf m' /\ mem_config_eq m m' /\
    message_at m' (next_addr m) (Header 0x03c9 (Z.of_nat (length s)) ty) s ctx /\
    forall a, heap m !! a <> None -> heap m' !! a = heap m !! a.
Proof.
  intros Hwf Hs Hcs Hp Hlen.
  destruct (build_message_blocks m ctx ty p s) as (m' & Hrun & Hwf' & Hc & Hm & Hq & Hh); auto.
  exists m'. split; [done|]. split; [done|]. split; [done|]. split.
  - exists (next_addr m + 1). split; [done|]. split; [done | lia].
  - intros a Ha. destruct (heap m !! a) eqn:Ea; [|done].
    assert (a < next_addr m) by (apply Hwf; by eexists). rewrite Hh by lia. done.
Qed.

(** The queues after a shutdown: only the fronts are reset. *)
Definition shut_queues (qs : message_queues) : message_queues :=
  MessageQueues (set_front 0 (inbound_queue qs)) (set_front 0 (outbound_queue qs)) MESSAGE_QUEUE_SHUTDOWN.

(** Shutting down initialised queues releases what they hold. *)
Lemma shutdown_queues_releases (m : memory) (qs : message_queues) (ins outs : list (Z * Z)) (ifps ofps : list (list Z)) :
  mem_wf m -> message_queue_state qs = MESSAGE_QUEUE_INITIALIZED ->
  lq_handler (inbound_queue qs) = handle_message -> lq_handler (outbound_queue qs) = handle_message ->
  lq_repr m (inbound_queue qs) ins -> lq_repr m (outbound_queue qs) outs ->
  Forall2 (fun pc ps => message_blocks m (snd pc) ps) ins ifps ->
  Forall2 (fun pc ps => message_blocks m (snd pc) ps) outs ofps ->
  NoDup ((map fst ins ++ concat ifps) ++ (map fst outs ++ concat ofps)) ->
  exists m', connector_shutdown_message_queue_subsystem qs m =
      Done (shut_queues qs, SUBSTANCE_CONNECTOR_SUCCESS) m' /\
    released ((map fst ins ++ concat ifps) ++ (map fst outs ++ concat ofps)) m m'.
Proof.
  intros Hwf Hst Hhi Hho Hin Hout Hib Hob Hnd. apply NoDup_app in Hnd as (Hnd1 & Hdisj & Hnd2).
  destruct (queue_clear_releases message_blocks handle_message message_blocks_frame
    handle_message_releases (inbound_queue qs) m ins ifps) as (m1 & E1 & Hrel1); auto.
  destruct (queue_clear_releases message_blocks handle_message message_blocks_frame
    handle_message_releases (outbound_queue qs) m1 outs ofps) as (m2 & E2 & Hrel2); auto.
  - by destruct Hrel1.
  - destruct Hout as [Hl Hc Hla Hn]. constructor; auto.
    apply (chain_released _ _ _ _ _ Hrel1 Hc). intros a Ha Hin'.
    apply (Hdisj a Hin'). apply elem_of_app. by left.
  - assert (Hno : forall a, a ∈ concat ofps -> a ∉ map fst ins ++ concat ifps).
    { intros a Ha Hin'. apply (Hdisj a Hin'). apply elem_of_app. by right. }
    clear -Hob Hrel1 Hno. induction Hob as [|pc ps outs ofps Hm _ IH]; constructor.
    + apply (message_blocks_frame m); [done | by destruct Hrel1 |]. intros a Ha.
      apply (released_heap_other _ _ _ _ Hrel1), Hno. cbn. apply elem_of_app. by left.
    + apply IH. intros a Ha. apply Hno. cbn. apply elem_of_app. by right.
  - destruct qs as [iq oq st]. cbn in *. subst st. exists m2.
    split; [unfold connector_shutdown_message_queue_subsystem, bind; cbn; by rewrite E1, E2|].
    by apply (released_trans _ _ _ m1).
Qed.

(** ** Properties *)

(** [connector_build_message] builds a complete user message: description of
    protocol revision one with the connector tag, the length of the text, the
    given identifier and context, and its own copy of the text; it changes no
    block that was live before.  With a NULL identifier or a NULL text it
    answers NULL and allocates nothing. *)
Theorem build_message_correct (m : memory) (ctx : Z) (ty : uuid) (p : Z) (s : list Z)
    (Hwf : mem_wf m) (Hs : mem_serving m) (Hcs : cstring s) (Hp : points_to_string m p s)
    (Hlen : Z.of_nat (length s) < 2 ^ 32) :
  (exists msg m', connector_build_message ctx (Some ty) p m = Done msg m' /\
     message_at m' msg
       (Header (Z.lor CONNECTOR_HEADER_R1 CONNECTOR_MESSAGE_IDENTIFIER) (Z.of_nat (length s)) ty) s ctx /\
     (forall a, heap m !! a <> None -> heap m' !! a = heap m !! a)) /\
  connector_build_message ctx None p m = Done 0 m /\
  connector_build_message ctx (Some ty) 0 m = Done 0 m.
Proof.
  split; [|done]. destruct (build_message_spec m ctx ty p s) as (m' & E & _ & _ & Hm & Hh); auto.
  exists (next_addr m), m'. done.
Qed.

Lemma build_message_correct_witness :
  exists msg m', connector_build_message 3 (Some connector_internal_log_uuid) 1 one_string_memory =
      Done msg m' /\
    message_at m' msg (Header 0x03c9 2 connector_internal_log_uuid) [97; 98] 3.
Proof.
  assert (Hwf : mem_wf one_string_memory) by (apply alloc_with_wf, initial_memory_wf).
  assert (Hs : mem_serving one_string_memory) by (split; reflexivity).
  assert (Hc : cstring [97; 98]) by (repeat constructor; lia).
  destruct (build_message_correct one_string_memory 3 connector_internal_log_uuid 1 [97; 98]
    Hwf Hs Hc eq_refl eq_refl) as [(msg & m' & E & Hm & _) _].
  exists msg, m'. split; [exact E | exact Hm].
Defined.

(** The outbound queue delivers messages in the order they were enqueued and
    leaks nothing: enqueueing [x] behind [xs] succeeds and keeps the order, and
    acquiring hands out the oldest message and frees its node, so that one
    enqueue and one acquire on an empty queue leave the heap as it was. *)
Theorem message_queue_fifo (m : memory) (qs : message_queues) (ns : list (Z * Z)) (x : Z)
    (Hwf : mem_wf m) (Hs : mem_serving m) (Hq : lq_repr m (outbound_queue qs) ns) :
  exists qs1 m1 qs2 m2,
    connector_enqueue_outbound_message x qs m = Done qs1 m1 /\
    queue_holds m1 (outbound_queue qs1) (map snd ns ++ [x]) /\
    inbound_queue qs1 = inbound_queue qs /\
    connector_acquire_outbound_message qs1 m1 =
      Done (match map snd ns with [] => x | y :: _ => y end, qs2) m2 /\
    queue_holds m2 (outbound_queue qs2) (tail (map snd ns ++ [x])) /\
    (ns = [] -> heap m2 = heap m).
Proof.
  destruct (enqueue_message_spec m (outbound_queue qs) ns x Hwf Hs Hq)
    as (q1 & m1 & node & E1 & Hr1 & _ & Hwf1 & _ & Hn & Hh1).
  destruct (dequeue_message_spec m1 q1 (ns ++ [(node, x)]) Hwf1 Hr1) as (q2 & H2 & _).
  exists (set_outbound q1 qs), m1, (set_outbound q2 qs).
  assert (Hholds : queue_holds m1 (outbound_queue (set_outbound q1 qs)) (map snd ns ++ [x])).
  { exists (ns ++ [(node, x)]). split; [done|]. by rewrite map_app. }
  destruct ns as [|[p y] ns'].
  - destruct H2 as [E2 Hr2]. exists (free_cell node m1).
    split; [unfold connector_enqueue_outbound_message, bind; by rewrite E1|].
    split; [done|]. split; [done|].
    split; [unfold connector_acquire_outbound_message, bind; cbn; by rewrite E2|].
    split; [by exists []|]. intros _. apply map_eq. intros a. cbn.
    rewrite lookup_delete. case_decide as Ha; [by subst|]. apply Hh1; [congruence | auto].
  - destruct H2 as [E2 Hr2]. exists (free_cell p m1).
    split; [unfold connector_enqueue_outbound_message, bind; by rewrite E1|].
    split; [done|]. split; [done|].
    split; [unfold connector_acquire_outbound_message, bind; cbn in *; by rewrite E2|].
    split; [|done]. exists (ns' ++ [(node, x)]). split; [done|]. by rewrite map_app.
Qed.

Definition empty_message_queues : message_queues :=
  MessageQueues (LockedQueue 0 0 handle_message false) (LockedQueue 0 0 handle_message false)
    MESSAGE_QUEUE_INITIALIZED.

Lemma message_queue_fifo_witness :
  exists qs1 m1 qs2 m2,
    connector_enqueue_outbound_message 77 empty_message_queues initial_memory = Done qs1 m1 /\
    connector_acquire_outbound_message qs1 m1 = Done (77, qs2) m2 /\ heap m2 = heap initial_memory.
Proof.
  assert (Hs : mem_serving initial_memory) by (split; reflexivity).
  assert (Hq : lq_repr initial_memory (outbound_queue empty_message_queues) [])
    by (constructor; try reflexivity; constructor).
  destruct (message_queue_fifo initial_memory empty_message_queues [] 77 initial_memory_wf Hs Hq)
    as (qs1 & m1 & qs2 & m2 & E1 & _ & _ & E2 & _ & Hh).
  exists qs1, m1, qs2, m2. split; [exact E1 | split; [exact E2 | exact (Hh eq_refl)]].
Defined.

(** Shutting down initialised queues releases every node, every queued
    message and every text of both queues, and nothing else, and puts the state
    machine back to the shut-down state, from which a second
    shutdown answers [SUBSTANCE_CONNECTOR_ERROR] and changes nothing and an
    initialisation gives two empty queues. *)
Theorem message_queue_shutdown_releases (m : memory) (qs : message_queues)
    (ins outs : list (Z * Z)) (ifps ofps : list (list Z))
    (Hwf : mem_wf m) (Hst : message_queue_state qs = MESSAGE_QUEUE_INITIALIZED)
    (Hhi : lq_handler (inbound_queue qs) = handle_message)
    (Hho : lq_handler (outbound_queue qs) = handle_message)
    (Hin : lq_repr m (inbound_queue qs) ins) (Hout : lq_repr m (outbound_queue qs) outs)
    (Hib : Forall2 (fun pc ps => message_blocks m (snd pc) ps) ins ifps)
    (Hob : Forall2 (fun pc ps => message_blocks m (snd pc) ps) outs ofps)
    (Hnd : NoDup ((map fst ins ++ concat ifps) ++ (map fst outs ++ concat ofps))) :
  exists qs' m', connector_shutdown_message_queue_subsystem qs m =
      Done (qs', SUBSTANCE_CONNECTOR_SUCCESS) m' /\
    message_queue_state qs' = MESSAGE_QUEUE_SHUTDOWN /\
    released ((map fst ins ++ concat ifps) ++ (map fst outs ++ concat ofps)) m m' /\
    (exists qs'', connector_shutdown_message_queue_subsystem qs' m' =
        Done (qs'', SUBSTANCE_CONNECTOR_ERROR) m' /\ qs'' = qs') /\
    (exists qs'', connector_init_message_queue_subsystem qs' m' =
        Done (qs'', SUBSTANCE_CONNECTOR_SUCCESS) m' /\
        queue_holds m' (inbound_queue qs'') [] /\ queue_holds m' (outbound_queue qs'') []).
Proof.
  destruct (shutdown_queues_releases m qs ins outs ifps ofps) as (m' & E & Hrel); auto.
  eexists _, m'. split; [exact E|]. split; [done|]. split; [done|].
  split; [eexists; split; [reflexivity|done]|].
  eexists. split; [reflexivity|]. split; exists []; split; try done; by constructor; try constructor.
Qed.

Lemma message_queue_shutdown_releases_witness :
  exists qs' m', connector_shutdown_message_queue_subsystem empty_message_queues initial_memory =
      Done (qs', SUBSTANCE_CONNECTOR_SUCCESS) m' /\
    message_queue_state qs' = MESSAGE_QUEUE_SHUTDOWN.
Proof.
  assert (Hq : lq_repr initial_memory (LockedQueue 0 0 handle_message false) [])
    by (constructor; try reflexivity; constructor).
  destruct (message_queue_shutdown_releases initial_memory empty_message_queues [] [] [] []
    initial_memory_wf eq_refl eq_refl eq_refl Hq Hq ltac:(constructor) ltac:(constructor)
    ltac:(constructor)) as (qs' & m' & E & Hs & _).
  exists qs', m'. split; [exact E | exact Hs].
Defined.
