(* ===== verification/World.v ===== *)
(** * The state of the library and its environment

    The static variables of the modules, gathered in one record, the operating
    system as a class of system calls, and the functions the language bindings
    register as a class of trampolines. *)

From S2P Require Import Prelude Wire Memory Strings UintQueue LockedQueue Message.

(** ** Contexts ([context_struct.h]) *)

(** [connector_context_t]; [connection_data] and [application_name] are
    addresses. *)
Record context_struct := ContextStruct {
  configuration : Z;         (* uint64_t *)
  cx_fd : Z;                 (* size_t *)
  cx_port : Z;               (* size_t *)
  connection_data : Z;
  cx_application_name : Z;
  cx_identifier : Z          (* uint16_t *)
}.

(** The structure after [memset] to zero. *)
Definition zero_context : context_struct := ContextStruct 0 0 0 0 0 0.

Definition SUBSTANCE_CONNECTOR_COMM_TCP : Z := 0x01.
Definition SUBSTANCE_CONNECTOR_COMM_UNIX : Z := 0x02.
Definition SUBSTANCE_CONNECTOR_COMM_MAX : Z := 0x02.
Definition SUBSTANCE_CONNECTOR_COMM_MASK : Z := 0xff.

Definition SUBSTANCE_CONNECTOR_CONN_CLOSED : Z := 0x000.
Definition SUBSTANCE_CONNECTOR_CONN_OPEN : Z := 0x100.
Definition SUBSTANCE_CONNECTOR_CONN_CONNECTED : Z := 0x200.
Definition SUBSTANCE_CONNECTOR_CONN_SHUTDOWN : Z := 0x400.
Definition SUBSTANCE_CONNECTOR_CONN_MASK : Z := 0x700.

Definition SUBSTANCE_CONNECTOR_HANDSHAKE_NOT_SENT : Z := 0x000.
Definition SUBSTANCE_CONNECTOR_HANDSHAKE_SENT : Z := 0x800.
Definition SUBSTANCE_CONNECTOR_HANDSHAKE_MASK : Z := 0x800.

(** ** Effects other threads and the bindings see *)

Inductive event : Type :=
  | SignalOutbound                  (* connector_condition_signal (&outbound_condition) *)
  | BroadcastInbound                (* connector_condition_broadcast (&inbound_condition) *)
  | SignalDispatch                  (* connector_condition_signal (&dispatch_condition) *)
  | BroadcastOutbound               (* connector_condition_broadcast (&outbound_condition) *)
  | BroadcastDispatch               (* connector_condition_broadcast (&dispatch_condition) *)
  | BroadcastDispatchMain           (* connector_condition_broadcast (&dispatch_main_condition) *)
  | TrampolineCall (trampoline context : Z) (type : uuid) (text : option (list Z)).

(** ** The static variables *)

Record world {E : Type} := World {
  env : E;                        (* the operating system *)
  mem : memory;                   (* memory.c *)
  module_state : Z;               (* state.c *)
  application_name : Z;           (* configuration.c *)
  context_list : list context_struct;  (* context_queue.c *)
  free_contexts : queue_ptr;           (* context_queue.c *)
  connection_queue : queue_ptr;        (* available_queue.c *)
  queues : message_queues;             (* message_queue.c *)
  trampoline_front : Z;                (* callbacks.c *)
  trace : list event                   (* oldest first *)
}.
Arguments world E : clear implicits.

Section updates.
Context {E : Type}.
Implicit Types w : world E.

Definition set_env (x : E) w : world E :=
  World _ x (mem w) (module_state w) (application_name w) (context_list w) (free_contexts w)
    (connection_queue w) (queues w) (trampoline_front w) (trace w).
Definition set_mem (x : memory) w : world E :=
  World _ (env w) x (module_state w) (application_name w) (context_list w) (free_contexts w)
    (connection_queue w) (queues w) (trampoline_front w) (trace w).
Definition set_module_state (x : Z) w : world E :=
  World _ (env w) (mem w) x (application_name w) (context_list w) (free_contexts w)
    (connection_queue w) (queues w) (trampoline_front w) (trace w).
Definition set_app_name (x : Z) w : world E :=
  World _ (env w) (mem w) (module_state w) x (context_list w) (free_contexts w)
    (connection_queue w) (queues w) (trampoline_front w) (trace w).
Definition set_context_list (x : list context_struct) w : world E :=
  World _ (env w) (mem w) (module_state w) (application_name w) x (free_contexts w)
    (connection_queue w) (queues w) (trampoline_front w) (trace w).
Definition set_free_contexts (x : queue_ptr) w : world E :=
  World _ (env w) (mem w) (module_state w) (application_name w) (context_list w) x
    (connection_queue w) (queues w) (trampoline_front w) (trace w).
Definition set_connection_queue (x : queue_ptr) w : world E :=
  World _ (env w) (mem w) (module_state w) (application_name w) (context_list w) (free_contexts w)
    x (queues w) (trampoline_front w) (trace w).
Definition set_queues (x : message_queues) w : world E :=
  World _ (env w) (mem w) (module_state w) (application_name w) (context_list w) (free_contexts w)
    (connection_queue w) x (trampoline_front w) (trace w).
Definition set_trampoline_front (x : Z) w : world E :=
  World _ (env w) (mem w) (module_state w) (application_name w) (context_list w) (free_contexts w)
    (connection_queue w) (queues w) x (trace w).
Definition set_trace (x : list event) w : world E :=
  World _ (env w) (mem w) (module_state w) (application_name w) (context_list w) (free_contexts w)
    (connection_queue w) (queues w) (trampoline_front w) x.

(** Operations of one module run on its part of the state. *)
Definition in_mem {A} (m : M memory A) : M (world E) A := zoom mem set_mem m.
Definition in_free {A} (m : M queue_ptr A) : M (world E) A := zoom free_contexts set_free_contexts m.
Definition in_available {A} (m : M queue_ptr A) : M (world E) A :=
  zoom connection_queue set_connection_queue m.
Definition sys {A} (f : E -> A * E) : M (world E) A :=
  fun w => let '(a, e) := f (env w) in Done a (set_env e w).
Definition emit (e : event) : M (world E) unit := modify (fun w => set_trace (trace w ++ [e]) w).

(** Functions that return new static message queues. *)
Definition in_queues {A} (f : message_queues -> M memory (A * message_queues)) : M (world E) A :=
  let* qs := gets queues in
  let* r := in_mem (f qs) in
  modify (set_queues (snd r)) ;;;
  ret (fst r).

(** ** Pointers to contexts

    [connector_context_t *]: NULL or the address of a slot of [context_list]. *)
Definition context_ref : Type := option nat.

Definition load_context (p : context_ref) : M (world E) context_struct := fun w =>
  match p with
  | None => Stuck NullDeref
  | Some i => match context_list w !! i with
              | Some c => Done c w
              | None => Stuck OutOfBounds
              end
  end.

Definition store_context (p : context_ref) (c : context_struct) : M (world E) unit := fun w =>
  match p with
  | None => Stuck NullDeref
  | Some i => match context_list w !! i with
              | Some _ => Done tt (set_context_list (<[i := c]> (context_list w)) w)
              | None => Stuck OutOfBounds
              end
  end.

Definition update_context (p : context_ref) (f : context_struct -> context_struct) :
    M (world E) unit :=
  let* c := load_context p in store_context p (f c).

End updates.

Definition set_configuration (x : Z) (c : context_struct) : context_struct :=
  ContextStruct x (cx_fd c) (cx_port c) (connection_data c) (cx_application_name c) (cx_identifier c).
Definition set_fd (x : Z) (c : context_struct) : context_struct :=
  ContextStruct (configuration c) x (cx_port c) (connection_data c) (cx_application_name c) (cx_identifier c).
Definition set_port (x : Z) (c : context_struct) : context_struct :=
  ContextStruct (configuration c) (cx_fd c) x (connection_data c) (cx_application_name c) (cx_identifier c).
Definition set_connection_data (x : Z) (c : context_struct) : context_struct :=
  ContextStruct (configuration c) (cx_fd c) (cx_port c) x (cx_application_name c) (cx_identifier c).
Definition set_context_name (x : Z) (c : context_struct) : context_struct :=
  ContextStruct (configuration c) (cx_fd c) (cx_port c) (connection_data c) x (cx_identifier c).

(** ** The operating system

    Sockets are descriptors, [-1] for a failed call; paths are byte strings.  A
    call that fills a buffer returns what it stored. *)
Class Platform (E : Type) := {
  host_order : endianness;
  socket_inet : E -> Z * E;
  socket_unix : E -> Z * E;
  bind_inet : Z -> Z -> E -> Z * E;            (* descriptor, port *)
  bind_unix : Z -> list Z -> E -> Z * E;       (* descriptor, path *)
  getsockname : Z -> E -> option Z * E;        (* the bound port, None for an error *)
  listen : Z -> E -> Z * E;
  accept : Z -> E -> Z * E;
  connect_inet : Z -> Z -> E -> Z * E;
  connect_unix : Z -> list Z -> E -> Z * E;
  close : Z -> E -> Z * E;
  send : Z -> list Z -> E -> Z * E;
  recv : Z -> Z -> E -> (Z * list Z) * E;      (* descriptor, room *)
  poll : list (Z * Z) -> E -> (Z * list Z) * E;  (* (fd, events); result and revents *)
  errno : E -> Z;
  mkdir : list Z -> E -> Z * E;
  chmod : list Z -> E -> Z * E;
  stat : list Z -> E -> option Z * E;          (* st_mode *)
  unlink : list Z -> E -> Z * E;
  rmdir : list Z -> E -> Z * E;
  readdir : list Z -> E -> option (list (list Z)) * E;  (* None: opendir failed *)
  fopen_write : list Z -> E -> bool * E;       (* fopen (path, "w") != NULL *)
  fopen_read : list Z -> E -> option (list Z) * E  (* the contents, None for NULL *)
}.

(** ** The registered functions

    A trampoline is a function of a language binding; it may call back into the
    library. *)
Class Bindings (E : Type) := {
  trampoline_body : Z -> Z -> uuid -> Z -> M (world E) unit
}.

(** ** Lemmas *)

Section lemmas.
Context {E : Type}.
Implicit Types w : world E.

Lemma in_mem_done {A} (m : M memory A) w a m' :
  m (mem w) = Done a m' -> in_mem m w = Done a (set_mem m' w).
Proof. intros H. unfold in_mem, zoom. by rewrite H. Qed.

Lemma load_context_some w i c :
  context_list w !! i = Some c -> load_context (Some i) w = Done c w.
Proof. intros H. unfold load_context. by rewrite H. Qed.

Lemma store_context_some w i c c' :
  context_list w !! i = Some c ->
  store_context (Some i) c' w = Done tt (set_context_list (<[i := c']> (context_list w)) w).
Proof. intros H. unfold store_context. by rewrite H. Qed.

Lemma update_context_some w i c f :
  context_list w !! i = Some c ->
  update_context (Some i) f w = Done tt (set_context_list (<[i := f c]> (context_list w)) w).
Proof.
  intros H. unfold update_context, bind. rewrite (load_context_some w i c H).
  by apply (store_context_some w i c).
Qed.

Lemma set_mem_id w : set_mem (mem w) w = w.
Proof. by destruct w. Qed.
Lemma set_mem_set_mem m1 m2 w : set_mem m2 (set_mem m1 w) = set_mem m2 w.
Proof. done. Qed.
Lemma set_context_list_id w : set_context_list (context_list w) w = w.
Proof. by destruct w. Qed.
Lemma set_context_list_twice l1 l2 w :
  set_context_list l2 (set_context_list l1 w) = set_context_list l2 w.
Proof. done. Qed.

End lemmas.

#[export] Hint Resolve in_mem_done load_context_some store_context_some update_context_some : conn.
#[export] Hint Rewrite @set_mem_set_mem @set_mem_id @set_context_list_id
  @set_context_list_twice : conn_rw.

(** ** A simulated operating system

    A small executable environment, on which the development's examples run. *)

Record simulation := Simulation {
  sim_next_fd : Z;
  sim_refuse : bool;             (* connections are refused *)
  sim_inbox : list Z;            (* the bytes [recv] will deliver *)
  sim_sent : list Z;             (* the bytes sent so far *)
  sim_closed : list Z;           (* the descriptors closed so far *)
  sim_files : list (list Z * Z)  (* path and mode *)
}.

Definition sim_find (path : list Z) (s : simulation) : option Z :=
  snd <$> List.find (fun f => bool_decide (fst f = path)) (sim_files s).

Definition sim_set_files (fs : list (list Z * Z)) (s : simulation) : simulation :=
  Simulation (sim_next_fd s) (sim_refuse s) (sim_inbox s) (sim_sent s) (sim_closed s) fs.

Definition sim_fresh_fd (s : simulation) : Z * simulation :=
  (sim_next_fd s, Simulation (sim_next_fd s + 1) (sim_refuse s) (sim_inbox s) (sim_sent s)
                    (sim_closed s) (sim_files s)).

Definition sim_remove (path : list Z) (s : simulation) : Z * simulation :=
  match sim_find path s with
  | Some _ => (0, sim_set_files (List.filter (fun f => negb (bool_decide (fst f = path))) (sim_files s)) s)
  | None => (-1, s)
  end.

Definition S_IFDIR : Z := 0x4000.
Definition S_IFREG : Z := 0x8000.
Definition S_IFSOCK : Z := 0xc000.

(** The names of the files below a directory. *)
Definition sim_names (path : list Z) (s : simulation) : list (list Z) :=
  omap (fun f => let p := path ++ [CONNECTOR_PATH_DELIM] in
                 if bool_decide (take (length p) (fst f) = p) then Some (drop (length p) (fst f)) else None)
    (sim_files s).

#[export] Instance simulation_platform : Platform simulation := {
  host_order := Little;
  socket_inet := sim_fresh_fd;
  socket_unix := sim_fresh_fd;
  bind_inet _ _ s := (0, s);
  bind_unix _ p s := (0, sim_set_files ((p, S_IFSOCK) :: sim_files s) s);
  getsockname _ s := (Some 40000, s);
  listen _ s := (0, s);
  accept _ := sim_fresh_fd;
  connect_inet _ _ s := (if sim_refuse s then -1 else 0, s);
  connect_unix _ _ s := (if sim_refuse s then -1 else 0, s);
  close fd s := (0, Simulation (sim_next_fd s) (sim_refuse s) (sim_inbox s) (sim_sent s)
                      (sim_closed s ++ [fd]) (sim_files s));
  send _ bs s := (Z.of_nat (length bs),
                  Simulation (sim_next_fd s) (sim_refuse s) (sim_inbox s) (sim_sent s ++ bs)
                    (sim_closed s) (sim_files s));
  recv _ n s := let k := Z.to_nat (Z.min n (Z.of_nat (length (sim_inbox s)))) in
                ((Z.of_nat k, take k (sim_inbox s)),
                 Simulation (sim_next_fd s) (sim_refuse s) (drop k (sim_inbox s))
                   (sim_sent s) (sim_closed s) (sim_files s));
  poll fds s := ((0, map (fun _ => 0) fds), s);
  errno _ := 0;
  mkdir p s := match sim_find p s with
               | Some _ => (-1, s)
               | None => (0, sim_set_files ((p, S_IFDIR) :: sim_files s) s)
               end;
  chmod p s := (match sim_find p s with Some _ => 0 | None => -1 end, s);
  stat p s := (sim_find p s, s);
  unlink := sim_remove;
  rmdir := sim_remove;
  readdir p s := (match sim_find p s with Some _ => Some (sim_names p s) | None => None end, s);
  fopen_write p s := (true, match sim_find p s with
                            | Some _ => s
                            | None => sim_set_files ((p, S_IFREG) :: sim_files s) s
                            end);
  fopen_read p s := (match sim_find p s with Some _ => Some [] | None => None end, s)
}.

(** Trampolines that only record that they were called, with the text they saw. *)
#[export] Instance recording_bindings (E : Type) : Bindings E := {
  trampoline_body f context type text :=
    if text =? 0 then emit (TrampolineCall f context type None)
    else
      let* s := in_mem (read_cstr text) in
      emit (TrampolineCall f context type (Some s))
}.
