(* ===== verification/Callbacks.v ===== *)
(** * The list of trampolines

    [callbacks.c]: a singly linked list of the functions the language bindings
    registered, newest first. *)

From S2P Require Import Prelude Wire Memory Strings UintQueue LockedQueue Message World.

(** ** Operations *)

Section callbacks.
Context {E : Type} {B : Bindings E}.

Definition sizeof_trampoline_node : Z := 16.

Definition connector_init_trampoline_subsystem : M (world E) Z :=
  modify (set_trampoline_front 0) ;;; ret SUBSTANCE_CONNECTOR_SUCCESS.

(** The list has no more nodes than the heap has blocks, so [list_fuel]
    iterations reach its end. *)
Definition list_fuel (w : world E) : nat := S (stdpp.base.size (heap (mem w))).

Fixpoint shutdown_trampolines_loop (fuel : nat) (node : Z) : M (world E) unit :=
  match fuel with
  | O => stuck NoFuel
  | S n =>
      if negb (node =? 0) then
        let* tn := in_mem (load_tramp node) in
        in_mem (connector_free node) ;;;
        shutdown_trampolines_loop n (snd tn)
      else ret tt
  end.

Definition connector_shutdown_trampoline_subsystem : M (world E) Z :=
  let* node := gets trampoline_front in
  let* fuel := gets list_fuel in
  shutdown_trampolines_loop fuel node ;;;
  ret SUBSTANCE_CONNECTOR_SUCCESS.

Fixpoint notify_loop (fuel : nat) (node context : Z) (type : uuid) (message : Z) :
    M (world E) unit :=
  match fuel with
  | O => stuck NoFuel
  | S n =>
      if negb (node =? 0) then
        let* tn := in_mem (load_tramp node) in
        trampoline_body (fst tn) context type message ;;;
        let* tn' := in_mem (load_tramp node) in
        notify_loop n (snd tn') context type message
      else ret tt
  end.

Definition connector_notify_trampolines (context : Z) (type : uuid) (message : Z) : M (world E) Z :=
  let* node := gets trampoline_front in
  let* fuel := gets list_fuel in
  notify_loop fuel node context type message ;;;
  ret SUBSTANCE_CONNECTOR_SUCCESS.

Definition connector_add_trampoline (trampoline : Z) : M (world E) Z :=
  if negb (trampoline =? 0) then
    let* node := in_mem (connector_allocate sizeof_trampoline_node) in
    let* front := gets trampoline_front in
    in_mem (store node (BTramp trampoline front)) ;;;
    modify (set_trampoline_front node) ;;;
    ret SUBSTANCE_CONNECTOR_SUCCESS
  else ret SUBSTANCE_CONNECTOR_INVALID.

(** [prev->next = next] *)
Definition set_trampoline_next (prev next : Z) : M (world E) unit :=
  in_mem (let* pn := load_tramp prev in store prev (BTramp (fst pn) next)).

Fixpoint remove_trampoline_loop (fuel : nat) (prev node trampoline : Z) : M (world E) Z :=
  match fuel with
  | O => stuck NoFuel
  | S n =>
      if negb (node =? 0) && negb (trampoline =? 0) then
        let* tn := in_mem (load_tramp node) in
        if fst tn =? trampoline then
          when (negb (prev =? 0)) (set_trampoline_next prev (snd tn)) ;;;
          let* front := gets trampoline_front in
          when (node =? front) (modify (set_trampoline_front (snd tn))) ;;;
          in_mem (connector_free node) ;;;
          ret SUBSTANCE_CONNECTOR_SUCCESS
        else remove_trampoline_loop n node (snd tn) trampoline
      else ret SUBSTANCE_CONNECTOR_INVALID
  end.

Definition connector_remove_trampoline (trampoline : Z) : M (world E) Z :=
  let* node := gets trampoline_front in
  let* fuel := gets list_fuel in
  remove_trampoline_loop fuel 0 node trampoline.

End callbacks.

(** ** Specification: a list of functions *)

Inductive trampoline_op : Type := AddTrampoline (f : Z) | RemoveTrampoline (f : Z).

(** Take the first occurrence of [f] out of the list. *)
Fixpoint remove_first (f : Z) (fs : list Z) : list Z :=
  match fs with
  | [] => []
  | g :: fs' => if g =? f then fs' else g :: remove_first f fs'
  end.

Definition spec_trampoline_op (op : trampoline_op) (fs : list Z) : list Z * Z :=
  match op with
  | AddTrampoline f =>
      if f =? 0 then (fs, SUBSTANCE_CONNECTOR_INVALID) else (f :: fs, SUBSTANCE_CONNECTOR_SUCCESS)
  | RemoveTrampoline f =>
      (remove_first f fs,
       if bool_decide (f ∈ fs) then SUBSTANCE_CONNECTOR_SUCCESS else SUBSTANCE_CONNECTOR_INVALID)
  end.

Fixpoint spec_trampoline_ops (ops : list trampoline_op) (fs : list Z) : list Z * list Z :=
  match ops with
  | [] => (fs, [])
  | op :: ops' =>
      let '(fs1, r) := spec_trampoline_op op fs in
      let '(fs2, rs) := spec_trampoline_ops ops' fs1 in
      (fs2, r :: rs)
  end.

Definition do_trampoline_op {E} (op : trampoline_op) : M (world E) Z :=
  match op with
  | AddTrampoline f => connector_add_trampoline f
  | RemoveTrampoline f => connector_remove_trampoline f
  end.

Fixpoint do_trampoline_ops {E} (ops : list trampoline_op) : M (world E) (list Z) :=
  match ops with
  | [] => ret []
  | op :: ops' =>
      let* r := do_trampoline_op op in
      let* rs := do_trampoline_ops ops' in
      ret (r :: rs)
  end.

(** Call the functions one after the other. *)
Fixpoint call_all {E} `{Bindings E} (fs : list Z) (context : Z) (type : uuid) (text : Z) :
    M (world E) unit :=
  match fs with
  | [] => ret tt
  | f :: fs' => trampoline_body f context type text ;;; call_all fs' context type text
  end.

(** ** Representation *)

(** The nodes [ns] lead from [front] to [stop]. *)
Fixpoint tseg (m : memory) (front : Z) (ns : list (Z * Z)) (stop : Z) : Prop :=
  match ns with
  | [] => front = stop
  | (p, f) :: ns' =>
      front = p /\ f <> 0 /\ exists next, owns m p (BTramp f next) /\ tseg m next ns' stop
  end.

(** [w] has the trampolines [fs], in a well-formed memory. *)
Record trampolines_repr {E} (w : world E) (fs : list Z) : Prop := {
  tr_wf : mem_wf (mem w);
  tr_serving : mem_serving (mem w);
  tr_chain : exists ns, tseg (mem w) (trampoline_front w) ns 0 /\ map snd ns = fs /\ NoDup (map fst ns)
}.

(** ** Lemmas *)

Lemma load_tramp_owns m p f n : mem_wf m -> owns m p (BTramp f n) -> load_tramp p m = Done (f, n) m.
Proof. intros Hwf Ho. unfold load_tramp, bind. by rewrite (load_owns m p _ Hwf Ho). Qed.

Lemma tseg_owned m front ns stop p f :
  tseg m front ns stop -> (p, f) ∈ ns -> exists next, owns m p (BTramp f next).
Proof.
  revert front. induction ns as [|[q g] ns IH]; intros front Hc Hin; [by apply elem_of_nil in Hin|].
  destruct Hc as (_ & _ & next & Ho & Hc).
  apply elem_of_cons in Hin as [[= -> ->]|Hin]; eauto.
Qed.

Lemma tseg_live m front ns stop p :
  tseg m front ns stop -> p ∈ map fst ns -> exists f next, owns m p (BTramp f next).
Proof.
  intros Hc Hp. apply list_elem_of_In, in_map_iff in Hp as ([q f] & <- & Hin).
  apply list_elem_of_In in Hin. destruct (tseg_owned _ _ _ _ _ _ Hc Hin). eauto.
Qed.

Lemma tseg_frame m m' front ns stop :
  tseg m front ns stop -> connector_memory_free m' = connector_memory_free m ->
  (forall p, p ∈ map fst ns -> heap m' !! p = heap m !! p) -> tseg m' front ns stop.
Proof.
  intros Hc Hf. revert front Hc. induction ns as [|[p f] ns IH]; intros front Hc Hh; [done|].
  destruct Hc as (-> & Hne & next & Ho & Hc). cbn in *. split; [done|]. split; [done|].
  exists next. unfold owns in *. rewrite Hf, Hh by (apply elem_of_cons; auto).
  split; [done|]. apply IH; [done|]. intros q Hq. apply Hh, elem_of_cons. auto.
Qed.

(** The list of trampolines survives when its nodes do. *)
Lemma trampolines_frame {E} (w w' : world E) fs :
  trampolines_repr w fs -> mem_wf (mem w') -> mem_config_eq (mem w) (mem w') -> trampoline_front w' = trampoline_front w ->
  (forall a f n, owns (mem w) a (BTramp f n) -> heap (mem w') !! a = heap (mem w) !! a) -> trampolines_repr w' fs.
Proof.
  intros [Hwf Hs (ns & Hc & Hns & Hnd)] Hwf' Hcfg Hf Hh. constructor; [done | by eapply mem_serving_config |].
  exists ns. split; [|done]. rewrite Hf. apply (tseg_frame (mem w)); [done | by destruct Hcfg |]. intros a Ha.
  destruct (tseg_live _ _ _ _ _ Hc Ha) as (f & n & Hn). by apply (Hh a f n).
Qed.

Lemma tseg_app m front ns1 ns2 stop :
  tseg m front (ns1 ++ ns2) stop <-> exists mid, tseg m front ns1 mid /\ tseg m mid ns2 stop.
Proof.
  revert front. induction ns1 as [|[p f] ns1 IH]; intros front; cbn.
  - split; [by exists front | by intros (? & -> & ?)].
  - split.
    + intros (-> & Hf & next & Ho & Hc). apply IH in Hc as (mid & H1 & H2). eauto 10.
    + intros (mid & (-> & Hf & next & Ho & Hc) & H2). split; [done|]. split; [done|].
      exists next. split; [done|]. apply IH. eauto.
Qed.

Lemma tseg_size m front ns stop :
  tseg m front ns stop -> NoDup (map fst ns) -> (length ns <= stdpp.base.size (heap m))%nat.
Proof.
  intros Hc Hnd. rewrite <- (length_map fst), <- (size_list_to_set (C:=gset Z)) by done.
  rewrite <- size_dom. apply subseteq_size. intros p Hp.
  apply elem_of_list_to_set in Hp. destruct (tseg_live _ _ _ _ _ Hc Hp) as (f & n & Ho).
  apply elem_of_dom. by eexists.
Qed.

Lemma tseg_nonzero m front ns stop : tseg m front ns stop -> 0 ∉ map snd ns.
Proof.
  revert front. induction ns as [|[p f] ns IH]; intros front Hc; [apply not_elem_of_nil|].
  destruct Hc as (_ & Hne & next & _ & Hc). cbn. rewrite elem_of_cons. intros [?|?]; [done|].
  by apply (IH next).
Qed.

Section proofs.
Context {E : Type} {B : Bindings E}.
Implicit Types w : world E.

Lemma add_trampoline_done w f :
  mem_wf (mem w) -> mem_serving (mem w) -> f <> 0 ->
  connector_add_trampoline f w =
    Done SUBSTANCE_CONNECTOR_SUCCESS
      (set_trampoline_front (next_addr (mem w))
         (set_mem (alloc_with (BTramp f (trampoline_front w)) (mem w)) w)).
Proof.
  intros Hwf Hs Hf. unfold connector_add_trampoline. rewrite (proj2 (Z.eqb_neq f 0) Hf). cbn [negb].
  unfold bind. rewrite (in_mem_done _ _ _ _ (connector_allocate_serving _ _ Hs)).
  cbn [gets]. rewrite (in_mem_done _ _ tt (alloc_with (BTramp f (trampoline_front w)) (mem w)))
    by (by apply store_alloc_with).
  reflexivity.
Qed.

Lemma add_trampoline_repr w fs f :
  trampolines_repr w fs ->
  exists w', connector_add_trampoline f w = Done (snd (spec_trampoline_op (AddTrampoline f) fs)) w' /\
    trampolines_repr w' (fst (spec_trampoline_op (AddTrampoline f) fs)).
Proof.
  intros [Hwf Hs (ns & Hc & Hns & Hnd)]. cbn [spec_trampoline_op].
  destruct (Z.eqb_spec f 0) as [->|Hf].
  - exists w. split; [done|]. by constructor; eauto.
  - rewrite (add_trampoline_done w f Hwf Hs Hf).
    eexists. split; [reflexivity|].
    constructor; cbn -[alloc_with]; [by apply alloc_with_wf | done |].
    assert (Hfresh : next_addr (mem w) ∉ map fst ns).
    { intros Hp. destruct (tseg_live _ _ _ _ _ Hc Hp) as (g & n & Ho).
      unfold owns in Ho. by rewrite (mem_wf_fresh _ Hwf) in Ho. }
    exists ((next_addr (mem w), f) :: ns). split; [|split].
    + split; [done|]. split; [done|]. eexists. split; [by apply alloc_with_owns|].
      apply (tseg_frame (mem w)); [done | done |]. intros p Hp. cbn.
      apply lookup_insert_ne. by intros <-.
    + cbn. by rewrite Hns.
    + cbn. by apply NoDup_cons.
Qed.

(** Looking for an absent function walks to the end and changes nothing. *)
Lemma remove_loop_absent fuel w prev node ns f :
  mem_wf (mem w) -> tseg (mem w) node ns 0 -> f ∉ map snd ns -> (length ns < fuel)%nat ->
  remove_trampoline_loop fuel prev node f w = Done SUBSTANCE_CONNECTOR_INVALID w.
Proof.
  intros Hwf. revert fuel prev node. induction ns as [|[p g] ns IH]; intros fuel prev node Hc Hn Hf;
    (destruct fuel as [|fuel]; [cbn in Hf; lia|]); cbn [remove_trampoline_loop].
  - by rewrite Hc.
  - destruct Hc as (-> & Hg & next & Ho & Hc). rewrite (owns_pos _ _ _ Hwf Ho). cbn [negb andb].
    destruct (Z.eqb_spec f 0) as [->|H0]; cbn [negb]; [done|]. unfold bind.
    rewrite (in_mem_done _ _ _ _ (load_tramp_owns _ _ _ _ Hwf Ho)), set_mem_id. cbn [fst snd].
    cbn in Hn. rewrite elem_of_cons in Hn.
    rewrite (proj2 (Z.eqb_neq g f)) by (intros ->; auto).
    apply IH; auto; cbn in Hf; lia.
Qed.

(** Unlinking the node after [pre]. *)
Lemma unlink_node w pre p f next ns :
  mem_wf (mem w) -> tseg (mem w) (trampoline_front w) pre p -> owns (mem w) p (BTramp f next) ->
  tseg (mem w) next ns 0 -> NoDup (map fst (pre ++ (p, f) :: ns)) ->
  exists w', (when (negb (default 0 (last (map fst pre)) =? 0))
                (set_trampoline_next (default 0 (last (map fst pre))) next) ;;;
              let* front := gets trampoline_front in
              when (p =? front) (modify (set_trampoline_front next)) ;;;
              in_mem (connector_free p) ;;;
              ret SUBSTANCE_CONNECTOR_SUCCESS) w = Done SUBSTANCE_CONNECTOR_SUCCESS w' /\
    mem_wf (mem w') /\ mem_config_eq (mem w) (mem w') /\
    tseg (mem w') (trampoline_front w') (pre ++ ns) 0.
Proof.
  intros Hwf Hpre Ho Hns Hnd. rewrite map_app in Hnd. apply NoDup_app in Hnd as (Hnd1 & Hd & Hnd2).
  cbn in Hnd2. apply NoDup_cons in Hnd2 as [Hp Hnd2].
  assert (Hppre : p ∉ map fst pre) by (intros Hin; apply (Hd p Hin), elem_of_cons; by left).
  destruct pre as [|[q g] pre _] using rev_ind.
  - cbn in Hpre. unfold bind. cbn [when negb map last default Z.eqb gets ret].
    rewrite Hpre, Z.eqb_refl. cbn [when modify].
    rewrite (in_mem_done _ _ tt (free_cell p (mem w))) by (by eapply connector_free_owns).
    eexists. split; [reflexivity|]. split; [by apply free_cell_wf|]. split; [done|].
    apply (tseg_frame (mem w)); [done | done |]. intros a Ha. cbn. apply lookup_delete_ne. by intros <-.
  - apply tseg_app in Hpre as (mid & Hpre & -> & Hg & n & Hq & ->).
    rewrite map_app in *. cbn [map fst] in *. rewrite last_snoc. cbn [from_option id].
    assert (Hqp : q <> p) by (intros ->; apply Hppre, elem_of_app; right; by apply list_elem_of_singleton).
    assert (Hfp : (p =? trampoline_front w) = false).
    { apply Z.eqb_neq. intros ->. apply Hppre. destruct pre as [|[r h] pre]; cbn in *.
      - rewrite Hpre. by apply list_elem_of_singleton.
      - destruct Hpre as [-> _]. by left. }
    unfold bind, set_trampoline_next. rewrite (owns_pos _ _ _ Hwf Hq). cbn [negb when].
    unfold bind.
    rewrite (in_mem_done _ _ tt (write_cell q (BTramp g next) (mem w)))
      by (unfold bind; rewrite (load_tramp_owns _ _ _ _ Hwf Hq); cbn [fst]; by eapply store_owns).
    cbn [gets trampoline_front set_mem]. rewrite Hfp. cbn [when ret].
    assert (Hwf1 : mem_wf (write_cell q (BTramp g next) (mem w))) by (by eapply write_cell_wf).
    rewrite (in_mem_done _ _ tt (free_cell p (write_cell q (BTramp g next) (mem w))))
      by (eapply connector_free_owns; [done | by apply write_cell_owns_other]).
    eexists. split; [reflexivity|]. split; [by apply free_cell_wf|]. split; [done|].
    apply NoDup_app in Hnd1 as (Hnd0 & Hdq & _).
    assert (Hqpre : q ∉ map fst pre) by (intros Hin; apply (Hdq q Hin); by apply list_elem_of_singleton).
    assert (Hqns : q ∉ map fst ns).
    { intros Hin. apply (Hd q); [apply elem_of_app; right; by apply list_elem_of_singleton|].
      apply elem_of_cons. by right. }
    rewrite <- app_assoc. apply tseg_app. exists q. split; [|split; [done|split; [done|]]].
    + apply (tseg_frame (mem w)); [done | done |]. intros a Ha. cbn.
      assert (p <> a) by (intros <-; apply Hppre, elem_of_app; by left).
      assert (q <> a) by (by intros <-). by rewrite lookup_delete_ne, lookup_insert_ne.
    + exists next. split; [apply free_cell_owns_other; [done | apply write_cell_owns]|].
      apply (tseg_frame (mem w)); [done | done |]. intros a Ha. cbn.
      assert (p <> a) by (by intros <-).
      assert (q <> a) by (by intros <-). by rewrite lookup_delete_ne, lookup_insert_ne.
Qed.

Lemma remove_loop_present fuel w pre node ns f :
  mem_wf (mem w) -> tseg (mem w) (trampoline_front w) pre node -> tseg (mem w) node ns 0 ->
  NoDup (map fst (pre ++ ns)) -> f ∈ map snd ns -> (length ns < fuel)%nat ->
  exists w' ns', remove_trampoline_loop fuel (default 0 (last (map fst pre))) node f w =
      Done SUBSTANCE_CONNECTOR_SUCCESS w' /\
    mem_wf (mem w') /\ mem_config_eq (mem w) (mem w') /\
    tseg (mem w') (trampoline_front w') ns' 0 /\
    map snd ns' = map snd pre ++ remove_first f (map snd ns) /\ NoDup (map fst ns').
Proof.
  intros Hwf. revert fuel pre node. induction ns as [|[p g] ns IH];
    intros fuel pre node Hpre Hc Hnd Hin Hf; [by apply elem_of_nil in Hin|].
  destruct fuel as [|fuel]; [cbn in Hf; lia|]. cbn [remove_trampoline_loop].
  destruct Hc as (-> & Hg & next & Ho & Hc). rewrite (owns_pos _ _ _ Hwf Ho). cbn [negb andb].
  assert (Hf0 : (f =? 0) = false).
  { apply Z.eqb_neq. intros ->. apply (tseg_nonzero (mem w) p ((p, g) :: ns) 0); [|done].
    cbn. eauto 10. }
  rewrite Hf0. cbn [negb].
  rewrite (bind_done (in_mem (load_tramp p)) _ w (g, next) w)
    by (rewrite (in_mem_done _ _ _ _ (load_tramp_owns _ _ _ _ Hwf Ho)); by rewrite set_mem_id).
  cbn [fst snd]. destruct (Z.eqb_spec g f) as [->|Hgf].
  - destruct (unlink_node w pre p f next ns) as (w' & Hrun & Hwf' & Hcfg & Hseg); auto.
    exists w', (pre ++ ns). split; [exact Hrun|]. split; [done|]. split; [done|]. split; [done|].
    split; [by rewrite map_app; cbn; rewrite Z.eqb_refl|].
    rewrite map_app in *. apply NoDup_app in Hnd as (H1 & H2 & H3).
    apply NoDup_cons in H3 as [_ H3]. apply NoDup_app. split; [done|]. split; [|done].
    intros x Hx Hx'. apply (H2 x Hx), elem_of_cons. by right.
  - destruct (IH fuel (pre ++ [(p, g)]) next) as (w' & ns' & Hrun & Hrest).
    + apply tseg_app. exists p. split; [done|]. cbn. eauto 10.
    + done.
    + by rewrite <- app_assoc.
    + cbn in Hin. apply elem_of_cons in Hin as [->|]; done.
    + cbn in Hf. lia.
    + rewrite map_app in Hrun. cbn [map fst] in Hrun. rewrite last_snoc in Hrun. exists w', ns'. split; [exact Hrun|].
      rewrite map_app, <- app_assoc in Hrest. cbn in Hrest |- *.
      by rewrite (proj2 (Z.eqb_neq g f)).
Qed.

Lemma remove_trampoline_repr w fs f :
  trampolines_repr w fs ->
  exists w', connector_remove_trampoline f w = Done (snd (spec_trampoline_op (RemoveTrampoline f) fs)) w' /\
    trampolines_repr w' (fst (spec_trampoline_op (RemoveTrampoline f) fs)).
Proof.
  intros Hr. pose proof Hr as [Hwf Hs (ns & Hc & <- & Hnd)]. unfold connector_remove_trampoline.
  cbn [spec_trampoline_op fst snd]. unfold bind at 1 2. cbn [gets].
  pose proof (tseg_size _ _ _ _ Hc Hnd). case_bool_decide as Hin.
  - destruct (remove_loop_present (list_fuel w) w [] (trampoline_front w) ns f)
      as (w' & ns' & Hrun & Hwf' & Hcfg & Hseg & Hns' & Hnd'); auto; [done | unfold list_fuel; lia |].
    exists w'. split; [exact Hrun|]. constructor; [done | by apply (mem_serving_config (mem w)) |].
    exists ns'. auto.
  - exists w. rewrite (remove_loop_absent _ w 0 _ ns f) by (auto; unfold list_fuel; lia).
    split; [done|]. replace (remove_first f (map snd ns)) with (map snd ns); [done|].
    clear -Hin. induction (map snd ns) as [|g l IH]; [done|]. cbn.
    rewrite elem_of_cons in Hin. rewrite (proj2 (Z.eqb_neq g f)) by (intros ->; auto).
    f_equal. auto.
Qed.

Lemma trampoline_op_repr w fs op :
  trampolines_repr w fs ->
  exists w', do_trampoline_op op w = Done (snd (spec_trampoline_op op fs)) w' /\
    trampolines_repr w' (fst (spec_trampoline_op op fs)).
Proof. intros Hr. destruct op; [by apply add_trampoline_repr | by apply remove_trampoline_repr]. Qed.

(** Trampolines that leave the list and the memory alone are called in order. *)
Lemma notify_loop_calls fuel w node ns context type text :
  mem_wf (mem w) -> tseg (mem w) node ns 0 -> (length ns < fuel)%nat ->
  (forall f w1, mem w1 = mem w -> exists w2, trampoline_body f context type text w1 = Done tt w2 /\
    mem w2 = mem w1) ->
  exists w', notify_loop fuel node context type text w = Done tt w' /\
    call_all (map snd ns) context type text w = Done tt w' /\ mem w' = mem w.
Proof.
  revert fuel w node. induction ns as [|[p f] ns IH]; intros fuel w node Hwf Hc Hf Hb;
    (destruct fuel as [|fuel]; [cbn in Hf; lia|]); cbn [notify_loop].
  - rewrite Hc. by exists w.
  - destruct Hc as (-> & Hg & next & Ho & Hc). rewrite (owns_pos _ _ _ Hwf Ho). cbn [negb].
    destruct (Hb f w eq_refl) as (w1 & E1 & M1).
    assert (Hload : forall v : world E, mem v = mem w -> in_mem (load_tramp p) v = Done (f, next) v).
    { intros v Hv. rewrite (in_mem_done _ v (f, next) (mem w)).
      - by rewrite <- Hv, set_mem_id.
      - rewrite Hv. by apply load_tramp_owns. }
    rewrite (bind_done _ _ _ _ _ (Hload w eq_refl)). cbn [fst].
    rewrite (bind_done _ _ _ _ _ E1), (bind_done _ _ _ _ _ (Hload w1 M1)). cbn [snd].
    destruct (IH fuel w1 next) as (w' & Hrun & Hcall & Hm); rewrite ?M1; auto; [cbn in Hf; lia|].
    exists w'. split; [done|]. split; [|by rewrite Hm].
    cbn [map snd call_all]. by rewrite (bind_done _ _ _ _ _ E1).
Qed.

Lemma trampolines_repr_frame w w' fs :
  trampolines_repr w fs -> mem_wf (mem w') -> mem_config_eq (mem w) (mem w') ->
  heap (mem w') = heap (mem w) -> trampoline_front w' = trampoline_front w -> trampolines_repr w' fs.
Proof.
  intros [Hwf Hs (ns & Hc & Hns & Hnd)] Hwf' Hcfg Hh Hf. constructor; [done | by eapply mem_serving_config |].
  exists ns. split; [|done]. rewrite Hf. apply (tseg_frame (mem w)); [done | by destruct Hcfg |].
  intros p _. by rewrite Hh.
Qed.

(** Releasing a string leaves the trampolines alone. *)
Lemma trampolines_repr_release w w' fs a bs :
  trampolines_repr w fs -> mem_wf (mem w') -> mem_config_eq (mem w) (mem w') ->
  owns (mem w) a (BStr bs) -> heap (mem w') = delete a (heap (mem w)) ->
  trampoline_front w' = trampoline_front w -> trampolines_repr w' fs.
Proof.
  intros [Hwf Hs (ns & Hc & Hns & Hnd)] Hwf' Hcfg Ho Hh Hf.
  constructor; [done | by eapply mem_serving_config |].
  exists ns. split; [|done]. rewrite Hf. apply (tseg_frame (mem w)); [done | by destruct Hcfg |].
  intros p Hp. rewrite Hh, lookup_delete_ne; [done|]. intros <-.
  destruct (tseg_live _ _ _ _ _ Hc Hp) as (f & n & Hn). unfold owns in *. congruence.
Qed.

(** A state that differs at most in what the outside world sees. *)
Definition quiet w w' : Prop := w' = set_env (env w') (set_trace (trace w') w).

(** The text is NULL or a string. *)
Definition readable (m : memory) (text : Z) : Prop :=
  text = 0 \/ exists s, read_cstr text m = Done s m.

Lemma quiet_trans w1 w2 w3 : quiet w1 w2 -> quiet w2 w3 -> quiet w1 w3.
Proof. unfold quiet. intros H1 H2. rewrite H2, H1. done. Qed.

Lemma quiet_mem w w' : quiet w w' -> mem w' = mem w.
Proof. intros ->. done. Qed.

(** ** Properties *)

(** C38: The trampoline list behaves as a list of functions, newest first: any
    sequence of additions and removals, from a well-formed list, answers what
    the specification answers (a NULL function is [SUBSTANCE_CONNECTOR_INVALID],
    and so is the removal of an absent one), removes exactly the newest
    registration of a function, and ends in a well-formed list of the
    specified functions.  A function that was added twice is therefore still called
    after one removal, although [callbacks.h] says of a removed trampoline that it
    will no longer be called. *)
Theorem trampolines_refine_list (w : world E) (fs : list Z) (ops : list trampoline_op)
    (Hr : trampolines_repr w fs) :
  exists w', do_trampoline_ops ops w = Done (snd (spec_trampoline_ops ops fs)) w' /\
    trampolines_repr w' (fst (spec_trampoline_ops ops fs)).
Proof.
  revert w fs Hr. induction ops as [|op ops IH]; intros w fs Hr; [by exists w|].
  destruct (trampoline_op_repr w fs op Hr) as (w1 & E1 & Hr1).
  cbn [do_trampoline_ops spec_trampoline_ops].
  destruct (spec_trampoline_op op fs) as [fs1 r]. cbn [fst snd] in *.
  destruct (IH w1 fs1 Hr1) as (w2 & E2 & Hr2).
  destruct (spec_trampoline_ops ops fs1) as [fs2 rs]. cbn [fst snd] in *.
  exists w2. split; [|done]. by rewrite (bind_done _ _ _ _ _ E1), (bind_done _ _ _ _ _ E2).
Qed.

(** Notifying calls every registered function exactly once, newest first,
    with the given context, type and text, as long as the functions leave the
    library's memory alone. *)
Theorem notify_calls_all (w : world E) (fs : list Z) (context : Z) (type : uuid) (text : Z)
    (Hr : trampolines_repr w fs)
    (Hb : forall f w1, mem w1 = mem w ->
      exists w2, trampoline_body f context type text w1 = Done tt w2 /\ mem w2 = mem w1) :
  exists w', connector_notify_trampolines context type text w = Done SUBSTANCE_CONNECTOR_SUCCESS w' /\
    call_all fs context type text w = Done tt w'.
Proof.
  destruct Hr as [Hwf Hs (ns & Hc & <- & Hnd)].
  destruct (notify_loop_calls (list_fuel w) w (trampoline_front w) ns context type text)
    as (w' & Hrun & Hcall & _); auto.
  - pose proof (tseg_size _ _ _ _ Hc Hnd). unfold list_fuel. lia.
  - exists w'. split; [|done]. unfold connector_notify_trampolines, bind. cbn [gets].
    by rewrite Hrun.
Qed.

(** Shutting the list down releases its nodes. *)
Lemma shutdown_loop_releases fuel w node ns :
  mem_wf (mem w) -> tseg (mem w) node ns 0 -> NoDup (map fst ns) -> (length ns < fuel)%nat ->
  exists m', shutdown_trampolines_loop fuel node w = Done tt (set_mem m' w) /\
    released (map fst ns) (mem w) m'.
Proof.
  revert fuel w node. induction ns as [|[p f] ns IH]; intros fuel w node Hwf Hc Hnd Hf;
    (destruct fuel as [|fuel]; [cbn in Hf; lia|]); cbn [shutdown_trampolines_loop].
  - rewrite Hc. exists (mem w). split; [by rewrite set_mem_id | by apply released_nil].
  - destruct Hc as (-> & _ & next & Ho & Hc). apply NoDup_cons in Hnd as [Hp Hnd].
    rewrite (owns_pos _ _ _ Hwf Ho). cbn [negb].
    rewrite (bind_done _ _ _ _ _ (in_mem_done _ w _ _ (load_tramp_owns _ _ _ _ Hwf Ho))), set_mem_id. cbn [snd].
    rewrite (bind_done _ _ _ _ _ (in_mem_done _ w _ _ (connector_free_owns _ _ _ Hwf Ho))).
    destruct (IH fuel (set_mem (free_cell p (mem w)) w) next) as (m' & Hrun & Hrel);
      [by apply free_cell_wf | | done | cbn in Hf; lia |].
    { apply (tseg_frame (mem w)); [done | done |]. intros a Ha. cbn. apply lookup_delete_ne. by intros <-. }
    exists m'. split; [exact Hrun|].
    by apply (released_trans [p] _ _ (free_cell p (mem w))); [apply released_free_cell|].
Qed.

Lemma shutdown_trampolines_releases w ns :
  mem_wf (mem w) -> tseg (mem w) (trampoline_front w) ns 0 -> NoDup (map fst ns) ->
  exists m', connector_shutdown_trampoline_subsystem w = Done SUBSTANCE_CONNECTOR_SUCCESS (set_mem m' w) /\
    released (map fst ns) (mem w) m'.
Proof.
  intros Hwf Hc Hnd. pose proof (tseg_size _ _ _ _ Hc Hnd) as Hsize.
  destruct (shutdown_loop_releases (list_fuel w) w (trampoline_front w) ns) as (m' & Hrun & Hrel);
    [done | done | done | unfold list_fuel; lia|].
  exists m'. split; [|done]. unfold connector_shutdown_trampoline_subsystem.
  rewrite (bind_done (gets trampoline_front) _ w (trampoline_front w) w) by done.
  rewrite (bind_done (gets list_fuel) _ w (list_fuel w) w) by done. by rewrite (bind_done _ _ _ _ _ Hrun).
Qed.

End proofs.

(** Trampolines that only touch the outside world. *)
Class QuietBindings (E : Type) `{Bindings E} : Prop :=
  quiet_call : forall f context type text (w : world E), readable (mem w) text ->
    exists w', trampoline_body f context type text w = Done tt w' /\ quiet w w'.

#[export] Instance recording_quiet E : QuietBindings E.
Proof.
  intros f context type text w Ht. unfold trampoline_body, recording_bindings.
  destruct (Z.eqb_spec text 0) as [->|Hn].
  - eexists. split; [reflexivity|]. by destruct w.
  - destruct Ht as [?|[s Hs]]; [done|].
    rewrite (bind_done _ _ _ _ _ (in_mem_done _ w _ _ Hs)), set_mem_id.
    eexists. split; [reflexivity|]. by destruct w.
Qed.

Lemma call_all_quiet {E} `{QuietBindings E} fs context type text (w : world E) :
  readable (mem w) text ->
  exists w', call_all fs context type text w = Done tt w' /\ quiet w w'.
Proof.
  revert w. induction fs as [|f fs IH]; intros w Ht.
  - exists w. split; [done|]. by destruct w.
  - destruct (quiet_call f context type text w Ht) as (w1 & E1 & Q1).
    destruct (IH w1) as (w2 & E2 & Q2); [by rewrite (quiet_mem _ _ Q1)|].
    exists w2. cbn [call_all]. rewrite (bind_done _ _ _ _ _ E1). split; [done|].
    by eapply quiet_trans.
Qed.

Lemma notify_quiet {E} `{QuietBindings E} fs context type text (w : world E) :
  trampolines_repr w fs -> readable (mem w) text ->
  exists w', connector_notify_trampolines context type text w = Done SUBSTANCE_CONNECTOR_SUCCESS w' /\
    call_all fs context type text w = Done tt w' /\ quiet w w'.
Proof.
  intros [Hwf Hs (ns & Hc & <- & Hnd)] Ht.
  destruct (notify_loop_calls (list_fuel w) w (trampoline_front w) ns context type text)
    as (w' & Hrun & Hcall & _); auto.
  - pose proof (tseg_size _ _ _ _ Hc Hnd). unfold list_fuel. lia.
  - intros f w1 Hm. destruct (quiet_call f context type text w1) as (w2 & E2 & Q2);
      [by rewrite Hm|]. exists w2. split; [done|]. by apply quiet_mem.
  - destruct (call_all_quiet (map snd ns) context type text w Ht) as (w2 & Hcall' & Q).
    rewrite Hcall in Hcall'. injection Hcall' as <-.
    exists w'. split; [|done]. unfold connector_notify_trampolines, bind. cbn [gets]. by rewrite Hrun.
Qed.

(** A library in which nothing has happened yet. *)
Definition initial_world : world simulation :=
  World _ (Simulation 3 false [] [] [] []) initial_memory 0 0 [] QNull QNull
    (MessageQueues (LockedQueue 0 0 handle_message false) (LockedQueue 0 0 handle_message false)
       MESSAGE_QUEUE_SHUTDOWN) 0 [].

Lemma initial_trampolines : trampolines_repr initial_world [].
Proof.
  constructor; [apply initial_memory_wf | split; reflexivity |].
  exists []. split; [reflexivity|]. split; [reflexivity | constructor].
Qed.

Lemma trampolines_refine_list_witness :
  exists w', do_trampoline_ops [AddTrampoline 7; AddTrampoline 8; AddTrampoline 7; RemoveTrampoline 7;
      RemoveTrampoline 9; AddTrampoline 0] initial_world = Done [0; 0; 0; 0; 7; 7] w' /\
    trampolines_repr w' [8; 7].
Proof.
  destruct (trampolines_refine_list initial_world [] [AddTrampoline 7; AddTrampoline 8;
    AddTrampoline 7; RemoveTrampoline 7; RemoveTrampoline 9; AddTrampoline 0] initial_trampolines)
    as (w' & Hrun & Hr).
  exists w'. split; [exact Hrun | exact Hr].
Defined.

Lemma trampolines_refine_list_two :
  exists w1, do_trampoline_ops [AddTrampoline 7; AddTrampoline 8] initial_world = Done [0; 0] w1 /\
    trampolines_repr w1 [8; 7].
Proof.
  destruct (trampoline_op_repr initial_world [] (AddTrampoline 7) initial_trampolines) as (wa & Ea & Ra).
  destruct (trampoline_op_repr wa [7] (AddTrampoline 8) Ra) as (wb & Eb & Rb).
  exists wb. split; [|exact Rb]. cbn [do_trampoline_ops].
  rewrite (bind_done _ _ _ _ _ Ea). unfold bind. by rewrite Eb.
Qed.

Lemma notify_calls_all_witness :
  exists w1 w2, do_trampoline_ops [AddTrampoline 7; AddTrampoline 8] initial_world = Done [0; 0] w1 /\
    connector_notify_trampolines 5 connector_internal_log_uuid 0 w1 =
      Done SUBSTANCE_CONNECTOR_SUCCESS w2 /\
    trace w2 = (trace w1 ++ [TrampolineCall 8 5 connector_internal_log_uuid None]) ++
               [TrampolineCall 7 5 connector_internal_log_uuid None].
Proof.
  destruct (trampolines_refine_list_two) as (w1 & E1 & R1).
  destruct (notify_calls_all w1 [8; 7] 5 connector_internal_log_uuid 0 R1) as (w2 & Hrun & Hcall).
  { intros f w Hw. eexists. split; [reflexivity | reflexivity]. }
  exists w1, w2. split; [exact E1|]. split; [exact Hrun|].
  cbn in Hcall. injection Hcall as <-. reflexivity.
Defined.

(** A function that unregisters itself while it is being called. *)
Definition self_removing {E} : Bindings E := {|
  trampoline_body f context type text := connector_remove_trampoline f ;;; ret tt
|}.

(** A trampoline that unregisters itself when called makes the notification loop
    read the freed node. *)
Lemma self_removing_trampoline :
  exists w, connector_add_trampoline 7 initial_world = Done SUBSTANCE_CONNECTOR_SUCCESS w /\
    @connector_notify_trampolines _ self_removing 5 connector_internal_log_uuid 0 w =
      Stuck UseAfterFree.
Proof. eexists. split; vm_compute; reflexivity. Qed.
