(* ===== verification/FileSystem.v ===== *)
(** * Files and directories

    [fileutils.c] and [connectiondirectory.c], their POSIX variants: file types,
    directory listings as NULL-terminated arrays, and the directory in which
    open TCP ports are published as file names. *)

From S2P Require Import Prelude Wire Memory Strings UintQueue LockedQueue Message World.

(** A [const char *]: NULL, a string literal or stack buffer, or a heap address. *)
Inductive path : Type :=
  | PNull
  | PLit (s : list Z)
  | PPtr (p : Z).

(** The string a pointer points to, [None] for NULL. *)
Definition read_path (p : path) : M memory (option (list Z)) :=
  match p with
  | PNull => ret None
  | PLit s => ret (Some s)
  | PPtr a => if a =? 0 then ret None else let* s := read_cstr a in ret (Some s)
  end.

Section files.
Context {E : Type} {P : Platform E}.

(** ** [fileutils.c] *)

Definition CONNECTOR_DEFAULT_FILE_LIST_SIZE : nat := 16.

(** The name may be empty: [path[0]] is then the terminator. *)
Definition default_filter (p : option (list Z)) : Z :=
  match p with
  | Some s => if negb (nth 0 s 0 =? 46) then SUBSTANCE_CONNECTOR_SUCCESS else SUBSTANCE_CONNECTOR_ERROR
  | None => SUBSTANCE_CONNECTOR_ERROR
  end.

Definition test_file_type (p : path) (flag : Z) : M (world E) Z :=
  let* s := in_mem (read_path p) in
  match s with
  | Some s =>
      let* st_mode := sys (stat s) in
      match st_mode with
      | Some mode =>
          if negb (Z.land mode flag =? 0) then ret SUBSTANCE_CONNECTOR_SUCCESS
          else ret SUBSTANCE_CONNECTOR_ERROR
      | None => ret SUBSTANCE_CONNECTOR_ERROR
      end
  | None => ret SUBSTANCE_CONNECTOR_ERROR
  end.

(** [strdup] of a name in the buffer of [readdir]. *)
Definition strdup_name (name : list Z) : M memory Z :=
  let* result := connector_allocate (Z.of_nat (length name) + 1) in
  store result (BStr (name ++ [0])) ;;;
  ret result.

(** The new values of [*elements], [*capacity] and the number of elements. *)
Definition append_file_list (name : list Z) (elements : Z) (capacity size : nat) :
    M memory (Z * nat * nat) :=
  let* ec :=
    (if elements =? 0 then
       let capacity := CONNECTOR_DEFAULT_FILE_LIST_SIZE in
       let* elements := connector_allocate (8 * Z.of_nat capacity) in
       store elements (BPtrs (replicate capacity (Some 0))) ;;;
       ret (elements, capacity)
     else if (size + 2 =? capacity)%nat then
       let* array := connector_allocate (8 * Z.of_nat capacity * 2) in
       let* old := load_ptrs elements in
       store array (BPtrs (take capacity old ++ replicate capacity None)) ;;;
       connector_free elements ;;;
       ret (array, (capacity * 2)%nat)
     else ret (elements, capacity)) in
  let* copy := strdup_name name in
  store_slot (fst ec) size copy ;;;
  ret (fst ec, snd ec, (size + 1)%nat).

(** The loop over the entries of the directory. *)
Fixpoint list_directory_loop (names : list (list Z)) (filter_op : option (list Z) -> Z)
    (elements : Z) (capacity count : nat) : M memory Z :=
  match names with
  | [] => ret elements
  | name :: rest =>
      if filter_op (Some name) =? SUBSTANCE_CONNECTOR_SUCCESS then
        let* r := append_file_list name elements capacity count in
        let '(elements', capacity', count') := r in
        list_directory_loop rest filter_op elements' capacity' count'
      else list_directory_loop rest filter_op elements capacity count
  end.

(** [elements] is [None] when the pointer itself is NULL; the answer is the code
    and the new value of [*elements]. *)
Definition connector_list_directory (p : path) (filter_op : option (option (list Z) -> Z))
    (elements : option Z) : M (world E) (Z * option Z) :=
  let filter_op := default default_filter filter_op in
  let* s := in_mem (read_path p) in
  match s, elements with
  | Some s, Some elements =>
      let* directory := sys (readdir s) in
      match directory with
      | Some names =>
          let* elements' := in_mem (list_directory_loop names filter_op elements 0 0) in
          ret (SUBSTANCE_CONNECTOR_SUCCESS, Some elements')
      | None => ret (SUBSTANCE_CONNECTOR_ERROR, Some elements)
      end
  | _, _ => ret (SUBSTANCE_CONNECTOR_ERROR, elements)
  end.

(** The loop at slot [i]; there are at most [fuel] more slots. *)
Fixpoint clear_directory_loop (fuel : nat) (elements : Z) (i : nat) : M memory unit :=
  match fuel with
  | O => stuck NoFuel
  | S n =>
      let* x := load_slot elements i in
      if negb (x =? 0) then
        connector_free x ;;;
        store_slot elements i 0 ;;;
        clear_directory_loop n elements (S i)
      else ret tt
  end.

(** The new value of [*elements]. *)
Definition connector_clear_directory_list (elements : option Z) : M memory (option Z) :=
  match elements with
  | Some elements =>
      if negb (elements =? 0) then
        let* slots := load_ptrs elements in
        clear_directory_loop (S (length slots)) elements 0 ;;;
        connector_free elements ;;;
        ret (Some 0)
      else ret (Some elements)
  | None => ret None
  end.

Definition connector_is_directory (p : path) : M (world E) Z := test_file_type p S_IFDIR.
Definition connector_is_unix_socket (p : path) : M (world E) Z := test_file_type p S_IFSOCK.
Definition connector_is_file (p : path) : M (world E) Z := test_file_type p S_IFREG.

(** [result || chmod (...)] changes the mode only when [mkdir] answered zero. *)
Definition connector_make_directory (p : path) : M (world E) Z :=
  let* s := in_mem (read_path p) in
  match s with
  | Some s =>
      let* result := sys (mkdir s) in
      if negb (result =? 0) then ret SUBSTANCE_CONNECTOR_ERROR
      else
        let* result := sys (chmod s) in
        if result =? 0 then ret SUBSTANCE_CONNECTOR_SUCCESS else ret SUBSTANCE_CONNECTOR_ERROR
  | None => ret SUBSTANCE_CONNECTOR_ERROR
  end.

Definition connector_remove_directory (p : path) : M (world E) Z :=
  let* s := in_mem (read_path p) in
  match s with
  | Some s =>
      let* result := sys (rmdir s) in
      if result =? 0 then ret SUBSTANCE_CONNECTOR_SUCCESS else ret SUBSTANCE_CONNECTOR_ERROR
  | None => stuck NullDeref
  end.

Definition connector_remove_file (p : path) : M (world E) Z :=
  let* s := in_mem (read_path p) in
  match s with
  | Some s =>
      let* result := sys (unlink s) in
      if result =? 0 then ret SUBSTANCE_CONNECTOR_SUCCESS else ret SUBSTANCE_CONNECTOR_ERROR
  | None => stuck NullDeref
  end.

(** ** [connectiondirectory.c] *)

(** ["/tmp/substanceconnectoropenunix"] and ["/tmp/substanceconnectoropentcp"] *)
Definition tmp_prefix : list Z := [47; 116; 109; 112; 47].
Definition substanceconnectoropen : list Z :=
  [115; 117; 98; 115; 116; 97; 110; 99; 101; 99; 111; 110; 110; 101; 99; 116; 111; 114;
   111; 112; 101; 110].
Definition CONNECTOR_DEFAULT_UNIX_DIRECTORY : list Z :=
  tmp_prefix ++ substanceconnectoropen ++ [117; 110; 105; 120].
Definition CONNECTOR_DEFAULT_TCP_DIRECTORY : list Z :=
  tmp_prefix ++ substanceconnectoropen ++ [116; 99; 112].

Definition connector_get_default_unix_directory : path := PLit CONNECTOR_DEFAULT_UNIX_DIRECTORY.
Definition connector_get_default_tcp_directory : path := PLit CONNECTOR_DEFAULT_TCP_DIRECTORY.

Definition CONNECTOR_PORT_SPRINTF_SIZE : nat := 16.

(** [snprintf] keeps at most [CONNECTOR_PORT_SPRINTF_SIZE - 1] characters. *)
Definition create_tcp_filepath (port : Z) : M memory Z :=
  let buffer := take (CONNECTOR_PORT_SPRINTF_SIZE - 1) (print_unsigned port) in
  let* r := connector_path_join (Some [CONNECTOR_DEFAULT_TCP_DIRECTORY; buffer]) true in
  ret (default 0 (snd r)).

Definition connector_setup_default_tcp_directory : M (world E) Z := ret SUBSTANCE_CONNECTOR_SUCCESS.
Definition connector_cleanup_default_tcp_directory : M (world E) Z := ret SUBSTANCE_CONNECTOR_SUCCESS.

Definition connector_ensure_default_unix_directory : M (world E) Z :=
  connector_make_directory connector_get_default_unix_directory ;;;
  connector_is_directory connector_get_default_unix_directory.

Definition connector_ensure_default_tcp_directory : M (world E) Z :=
  connector_make_directory connector_get_default_tcp_directory ;;;
  connector_is_directory connector_get_default_tcp_directory.

(** [fclose] of a NULL stream is undefined. *)
Definition connector_commit_open_tcp_port (port : Z) : M (world E) Z :=
  let* location := in_mem (create_tcp_filepath port) in
  let* s := in_mem (read_cstr location) in
  let* opened := sys (fopen_write s) in
  if opened then
    in_mem (connector_free location) ;;;
    ret SUBSTANCE_CONNECTOR_SUCCESS
  else stuck NullDeref.

Definition connector_remove_open_tcp_port (port : Z) : M (world E) Z :=
  let* location := in_mem (create_tcp_filepath port) in
  let* is_file := connector_is_file (PPtr location) in
  let* retcode :=
    (if is_file =? SUBSTANCE_CONNECTOR_SUCCESS then connector_remove_file (PPtr location)
     else ret SUBSTANCE_CONNECTOR_ERROR) in
  in_mem (connector_free location) ;;;
  ret retcode.

Definition connector_build_default_unix_path : Z := 0.

End files.

(** ** Representation of a listing *)

(** From [m0], the array [e] with the given slots and the copies [ps] of the
    names have been allocated, and nothing else has changed. *)
Record listing (m0 m : memory) (e : Z) (slots : list (option Z)) (ps : list Z)
    (names : list (list Z)) : Prop := {
  listing_wf : mem_wf m;
  listing_config : mem_config_eq m0 m;
  listing_owns : owns m e (BPtrs slots);
  listing_names : Forall2 (fun p s => points_to_string m p s) ps names;
  listing_nodup : NoDup (e :: ps);
  listing_old : forall a, a ∉ e :: ps -> heap m !! a = heap m0 !! a;
  listing_fresh : forall a, a ∈ e :: ps -> heap m0 !! a = None
}.

Definition accepted (names : list (list Z)) : list (list Z) :=
  List.filter (fun s => default_filter (Some s) =? SUBSTANCE_CONNECTOR_SUCCESS) names.

(** ** Lemmas *)

Lemma strdup_name_serving name m :
  mem_wf m -> mem_serving m ->
  strdup_name name m = Done (next_addr m) (alloc_with (BStr (name ++ [0])) m).
Proof.
  intros Hwf Hs. unfold strdup_name, bind. rewrite connector_allocate_serving by done.
  by rewrite store_alloc_with.
Qed.

Lemma load_ptrs_owns m p l : mem_wf m -> owns m p (BPtrs l) -> load_ptrs p m = Done l m.
Proof. intros Hwf Ho. unfold load_ptrs, bind. by rewrite (load_owns m p _ Hwf Ho). Qed.

Lemma load_slot_owns m p l i x :
  mem_wf m -> owns m p (BPtrs l) -> l !! i = Some (Some x) -> load_slot p i m = Done x m.
Proof.
  intros Hwf Ho Hi. unfold load_slot, bind. rewrite (load_ptrs_owns m p l) by done. by rewrite Hi.
Qed.

Lemma store_slot_owns m p l i x :
  mem_wf m -> owns m p (BPtrs l) -> (i < length l)%nat ->
  store_slot p i x m = Done tt (write_cell p (BPtrs (<[i := Some x]> l)) m).
Proof.
  intros Hwf Ho Hi. unfold store_slot, bind. rewrite (load_ptrs_owns m p l) by done.
  destruct (lookup_lt_is_Some_2 l i Hi) as [y ->]. by eapply store_owns.
Qed.

Lemma listing_live m0 m e slots ps names a :
  listing m0 m e slots ps names -> a ∈ e :: ps -> is_Some (heap m !! a).
Proof.
  intros [Hwf _ Ho Hn _ _ _] [->|Ha]%elem_of_cons; [by eexists|].
  apply list_elem_of_lookup in Ha as [i Hi].
  destruct (Forall2_lookup_l _ _ _ _ _ Hn Hi) as (s & _ & Hs). by eexists.
Qed.

Lemma listing_next m0 m e slots ps names :
  listing m0 m e slots ps names -> next_addr m ∉ e :: ps.
Proof.
  intros Hl Hin. destruct (listing_live _ _ _ _ _ _ _ Hl Hin) as [c Hc].
  rewrite (mem_wf_fresh m) in Hc by apply Hl. done.
Qed.

Lemma points_to_strings_frame m m' ps names :
  Forall2 (fun p s => points_to_string m p s) ps names ->
  connector_memory_free m' = connector_memory_free m ->
  (forall p, p ∈ ps -> heap m' !! p = heap m !! p) ->
  Forall2 (fun p s => points_to_string m' p s) ps names.
Proof.
  intros H Hc. induction H as [|p s ps names Hp _ IH]; intros Hh; constructor.
  - unfold points_to_string, owns in *. rewrite Hc, Hh; [done|]. apply elem_of_cons. by left.
  - apply IH. intros q Hq. apply Hh, elem_of_cons. by right.
Qed.

(** Duplicate a name and put it in the next slot. *)
Lemma put_name m0 m e slots ps names name :
  mem_serving m -> listing m0 m e slots ps names -> (length ps < length slots)%nat ->
  exists p m', (let* copy := strdup_name name in store_slot e (length ps) copy) m = Done tt m' /\
    listing m0 m' e (<[length ps := Some p]> slots) (ps ++ [p]) (names ++ [name]) /\
    p <> 0.
Proof.
  intros Hs Hl Hlen. pose proof Hl as [Hwf Hc Ho Hn Hnd Hold Hfr].
  pose proof (listing_next _ _ _ _ _ _ Hl) as Hnew.
  set (m1 := alloc_with (BStr (name ++ [0])) m).
  assert (Hwf1 : mem_wf m1) by (by apply alloc_with_wf).
  assert (Ho1 : owns m1 e (BPtrs slots)) by (by apply alloc_with_owns_other).
  exists (next_addr m), (write_cell e (BPtrs (<[length ps := Some (next_addr m)]> slots)) m1).
  split; [unfold bind; rewrite strdup_name_serving by done; by apply store_slot_owns|].
  assert (He : e <> next_addr m) by (intros Heq; apply Hnew, elem_of_cons; by left).
  split; [|destruct Hwf; lia]. constructor.
  - by eapply write_cell_wf.
  - by destruct Hc.
  - apply write_cell_owns.
  - apply Forall2_app.
    + apply (points_to_strings_frame m); [done | done |]. intros p Hp. cbn.
      assert (e <> p) by (intros <-; by apply NoDup_cons in Hnd as [? _]).
      rewrite lookup_insert_ne by done. apply lookup_insert_ne. intros <-.
      apply Hnew, elem_of_cons. by right.
    + constructor; [|constructor]. unfold points_to_string.
      apply write_cell_owns_other; [done|]. by apply alloc_with_owns.
  - rewrite app_comm_cons. apply NoDup_app. split; [done|]. split; [|apply NoDup_singleton].
    intros a Ha Ha'. apply list_elem_of_singleton in Ha' as ->. done.
  - intros a Ha. rewrite app_comm_cons, elem_of_app, list_elem_of_singleton, elem_of_cons in Ha. cbn.
    assert (e <> a /\ next_addr m <> a) as [? ?] by (split; intros <-; auto).
    rewrite !lookup_insert_ne by done. apply Hold. rewrite elem_of_cons. auto.
  - intros a Ha. rewrite app_comm_cons, elem_of_app, list_elem_of_singleton in Ha.
    destruct Ha as [Ha| ->]; [by apply Hfr|]. rewrite <- Hold by done. by apply mem_wf_fresh.
Qed.

Lemma append_first m cap name :
  mem_wf m -> mem_serving m ->
  exists e p m', append_file_list name 0 cap 0 m = Done (e, 16%nat, 1%nat) m' /\
    listing m m' e (Some p :: replicate 15 (Some 0)) [p] [name] /\ e <> 0 /\ p <> 0.
Proof.
  intros Hwf Hs. set (m1 := alloc_with (BPtrs (replicate 16 (Some 0))) m).
  assert (Hl : listing m m1 (next_addr m) (replicate 16 (Some 0)) [] []).
  { constructor; [by apply alloc_with_wf | done | by apply alloc_with_owns | constructor
      | apply NoDup_singleton | |].
    - intros a Ha. rewrite list_elem_of_singleton in Ha. cbn. by apply lookup_insert_ne.
    - intros a ->%list_elem_of_singleton. by apply mem_wf_fresh. }
  destruct (put_name m m1 (next_addr m) (replicate 16 (Some 0)) [] [] name) as (p & m' & E1 & Hl' & Hp);
    [done | done | cbn; lia |].
  exists (next_addr m), p, m'. split; [|split; [done | split; [destruct Hwf; lia | done]]].
  unfold append_file_list. cbn [Z.eqb]. unfold bind in *.
  rewrite connector_allocate_serving by done. rewrite store_alloc_with by done. cbn [ret fst snd].
  change (alloc_with (BPtrs (replicate CONNECTOR_DEFAULT_FILE_LIST_SIZE (Some 0))) m) with m1.
  change (length (@nil Z)) with 0%nat in E1.
  destruct (strdup_name name m1); [|done].
  by rewrite E1.
Qed.

Lemma append_next m0 m e slots ps names cap name :
  mem_serving m -> e <> 0 -> listing m0 m e slots ps names -> (length ps < length slots)%nat ->
  (length ps + 2 =? cap)%nat = false ->
  exists p m', append_file_list name e cap (length ps) m = Done (e, cap, (length ps + 1)%nat) m' /\
    listing m0 m' e (<[length ps := Some p]> slots) (ps ++ [p]) (names ++ [name]) /\ p <> 0.
Proof.
  intros Hs He Hl Hlen Hcap.
  destruct (put_name m0 m e slots ps names name Hs Hl Hlen) as (p & m' & E1 & Hl' & Hp).
  exists p, m'. split; [|done]. unfold append_file_list.
  rewrite (proj2 (Z.eqb_neq e 0)) by done. rewrite Hcap. unfold bind in *. cbn [ret fst snd].
  destruct (strdup_name name m); [|done]. by rewrite E1.
Qed.

Lemma append_grow m0 m e slots ps names name :
  mem_serving m -> e <> 0 -> listing m0 m e slots ps names ->
  length slots = (length ps + 2)%nat ->
  exists e' p m', append_file_list name e (length slots) (length ps) m =
      Done (e', (length slots * 2)%nat, (length ps + 1)%nat) m' /\
    listing m0 m' e' (<[length ps := Some p]> (slots ++ replicate (length slots) None))
      (ps ++ [p]) (names ++ [name]) /\ e' <> 0 /\ p <> 0.
Proof.
  intros Hs He Hl Hlen. pose proof Hl as [Hwf Hc Ho Hn Hnd Hold Hfr].
  pose proof (listing_next _ _ _ _ _ _ Hl) as Hnew.
  set (new := slots ++ replicate (length slots) None).
  set (m1 := alloc_with (BPtrs new) m). set (m2 := free_cell e m1).
  assert (Hwf1 : mem_wf m1) by (by apply alloc_with_wf).
  assert (Hne : e <> next_addr m) by (intros Heq; apply Hnew, elem_of_cons; by left).
  assert (Hl2 : listing m0 m2 (next_addr m) new ps names).
  { rewrite elem_of_cons in Hnew. apply NoDup_cons in Hnd as [Heps Hnd]. constructor.
    - by apply free_cell_wf.
    - by destruct Hc.
    - apply free_cell_owns_other; [done|]. by apply alloc_with_owns.
    - apply (points_to_strings_frame m); [done | done |]. intros p Hp. cbn.
      rewrite lookup_delete_ne, lookup_insert_ne; [done | |]; intros <-; auto.
    - apply NoDup_cons. auto.
    - intros a Ha. rewrite elem_of_cons in Ha. cbn. rewrite lookup_delete.
      case_decide as Hea; [subst a; symmetry; apply Hfr, elem_of_cons; by left|].
      rewrite lookup_insert_ne by (intros <-; auto). apply Hold. rewrite elem_of_cons.
      intros [->|?]; auto.
    - intros a [->|Ha]%elem_of_cons.
      + rewrite <- Hold by (by rewrite elem_of_cons). by apply mem_wf_fresh.
      + apply Hfr, elem_of_cons. by right. }
  destruct (put_name m0 m2 (next_addr m) new ps names name) as (p & m' & E1 & Hl' & Hp);
    [done | done | unfold new; rewrite length_app; lia |].
  exists (next_addr m), p, m'. split; [|split; [done | split; [destruct Hwf; lia | done]]].
  unfold append_file_list. rewrite (proj2 (Z.eqb_neq e 0)) by done.
  rewrite Hlen at 1. rewrite Nat.eqb_refl. unfold bind in *.
  rewrite connector_allocate_serving by done.
  assert (Ho' : owns (alloc_with (BRaw (8 * Z.of_nat (length slots) * 2)) m) e (BPtrs slots))
    by (by apply alloc_with_owns_other).
  rewrite (load_ptrs_owns _ e slots) by (done || by apply alloc_with_wf).
  rewrite firstn_all. rewrite store_alloc_with by done. fold new m1.
  rewrite (connector_free_owns m1 e (BPtrs slots)) by (done || by apply alloc_with_owns_other).
  cbn [ret fst snd]. fold m2. destruct (strdup_name name m2); [|done]. by rewrite E1.
Qed.

(** The array while at most fifteen names are in it: a NULL follows them. *)
Inductive short_list (ps : list Z) : nat -> list (option Z) -> Prop :=
  | short_small : (1 <= length ps <= 14)%nat ->
      short_list ps 16 (map Some ps ++ replicate (16 - length ps) (Some 0))
  | short_grown : length ps = 15%nat ->
      short_list ps 32 (map Some ps ++ Some 0 :: replicate 16 None).

Lemma insert_after (ps : list Z) (x y : option Z) l :
  <[length ps := x]> (map Some ps ++ y :: l) = map Some ps ++ x :: l.
Proof.
  replace (length ps) with (length (map Some ps) + 0)%nat by (rewrite length_map; lia).
  by rewrite insert_app_r.
Qed.

Lemma map_some_snoc (ps : list Z) p (l : list (option Z)) :
  map Some ps ++ Some p :: l = map Some (ps ++ [p]) ++ l.
Proof. by rewrite map_app, <- app_assoc. Qed.

Lemma append_short m0 m e cap slots ps names name :
  mem_serving m -> e <> 0 -> listing m0 m e slots ps names -> short_list ps cap slots ->
  (length ps < 15)%nat -> Forall (fun p => p <> 0) ps ->
  exists e' cap' slots' p m', append_file_list name e cap (length ps) m =
      Done (e', cap', length (ps ++ [p])) m' /\ e' <> 0 /\
    listing m0 m' e' slots' (ps ++ [p]) (names ++ [name]) /\ short_list (ps ++ [p]) cap' slots' /\
    Forall (fun p => p <> 0) (ps ++ [p]).
Proof.
  intros Hs He Hl Hsh Hlt Hnz. destruct Hsh as [Hn|Hn]; [|lia].
  destruct (decide (length ps = 14%nat)) as [H14|H14].
  - destruct (append_grow m0 m e _ ps names name Hs He Hl) as (e' & p & m' & E1 & Hl' & He' & Hp);
      [rewrite length_app, length_map, length_replicate; lia|].
    exists e', 32%nat, (map Some (ps ++ [p]) ++ Some 0 :: replicate 16 None), p, m'.
    rewrite length_app, length_map, length_replicate in E1, Hl'. rewrite H14 in E1, Hl'.
    cbn [Nat.sub Nat.add Nat.mul] in E1, Hl'.
    split; [rewrite length_app; cbn [length]; rewrite H14; exact E1|]. split; [done|].
    split; [|split; [constructor; rewrite length_app; cbn; lia | apply Forall_app; split; [done | by constructor; [|constructor]]]].
    rewrite <- map_some_snoc. rewrite <- app_assoc in Hl'.
    change (replicate 2 (Some 0) ++ replicate 16 None) with (Some 0 :: Some 0 :: replicate 16 (@None Z)) in Hl'.
    rewrite <- H14 in Hl'. rewrite insert_after, H14 in Hl'. exact Hl'.
  - destruct (append_next m0 m e _ ps names 16 name Hs He Hl) as (p & m' & E1 & Hl' & Hp);
      [rewrite length_app, length_map, length_replicate; lia | apply Nat.eqb_neq; lia|].
    exists e, 16%nat, (map Some (ps ++ [p]) ++ replicate (16 - length (ps ++ [p])) (Some 0)), p, m'.
    split; [by rewrite length_app|]. split; [done|].
    split; [|split; [constructor; rewrite length_app; cbn; lia | apply Forall_app; split; [done | by constructor; [|constructor]]]].
    replace (16 - length ps)%nat with (S (16 - length (ps ++ [p])))
      in Hl' by (rewrite length_app; cbn; lia).
    cbn [replicate] in Hl'. rewrite insert_after in Hl'. by rewrite map_some_snoc in Hl'.
Qed.

Lemma listing_serving m0 m e slots ps names : listing m0 m e slots ps names -> mem_serving m0 -> mem_serving m.
Proof. intros Hl. apply mem_serving_config. by destruct Hl. Qed.

Lemma list_loop_short names0 m0 m e cap slots ps names :
  mem_serving m0 -> e <> 0 -> listing m0 m e slots ps names -> short_list ps cap slots ->
  Forall (fun p => p <> 0) ps -> (length ps + length (accepted names0) <= 15)%nat ->
  exists e' m' cap' slots' ps', list_directory_loop names0 default_filter e cap (length ps) m = Done e' m' /\
    e' <> 0 /\ listing m0 m' e' slots' ps' (names ++ accepted names0) /\ short_list ps' cap' slots' /\
    Forall (fun p => p <> 0) ps'.
Proof.
  intros Hs. revert m e cap slots ps names. induction names0 as [|name names0 IH];
    intros m e cap slots ps names He Hl Hsh Hnz Hlen; cbn [list_directory_loop accepted List.filter].
  - exists e, m, cap, slots, ps. rewrite app_nil_r. auto.
  - unfold accepted in *. cbn [List.filter] in Hlen.
    destruct (default_filter (Some name) =? SUBSTANCE_CONNECTOR_SUCCESS); [|by apply (IH m e cap slots)].
    cbn [length] in Hlen.
    destruct (append_short m0 m e cap slots ps names name)
      as (e1 & cap1 & slots1 & p & m1 & E1 & He1 & Hl1 & Hsh1 & Hnz1); auto;
      [by eapply listing_serving | lia|].
    unfold bind. rewrite E1.
    destruct (IH m1 e1 cap1 slots1 (ps ++ [p]) (names ++ [name]))
      as (e2 & m2 & cap2 & slots2 & ps2 & E2 & Hrest); auto; [rewrite length_app; cbn [length]; lia|].
    exists e2, m2, cap2, slots2, ps2. rewrite <- app_assoc in Hrest. auto.
Qed.

Lemma list_loop_none names0 cap n m e :
  accepted names0 = [] -> list_directory_loop names0 default_filter e cap n m = Done e m.
Proof.
  induction names0 as [|name names0 IH]; [done|]. unfold accepted in *.
  cbn [List.filter list_directory_loop]. destruct (default_filter (Some name) =? SUBSTANCE_CONNECTOR_SUCCESS); [done|]. auto.
Qed.

Lemma list_loop_from_empty names0 m0 :
  mem_wf m0 -> mem_serving m0 -> (1 <= length (accepted names0) <= 15)%nat ->
  exists e m' cap slots ps, list_directory_loop names0 default_filter 0 0 0 m0 = Done e m' /\
    e <> 0 /\ listing m0 m' e slots ps (accepted names0) /\ short_list ps cap slots /\
    Forall (fun p => p <> 0) ps.
Proof.
  intros Hwf Hs. induction names0 as [|name names0 IH]; [cbn; lia|]. unfold accepted in *.
  cbn [List.filter list_directory_loop]. intros Hlen.
  destruct (default_filter (Some name) =? SUBSTANCE_CONNECTOR_SUCCESS); [|by apply IH].
  cbn [length] in Hlen. destruct (append_first m0 0 name Hwf Hs) as (e & p & m1 & E1 & Hl & He & Hp).
  unfold bind. rewrite E1.
  destruct (list_loop_short names0 m0 m1 e 16 (Some p :: replicate 15 (Some 0)) [p] [name])
    as (e2 & m2 & cap2 & slots2 & ps2 & E2 & Hrest); auto.
  - apply (short_small [p]). cbn. lia.
  - cbn [length]. unfold accepted in *. lia.
  - exists e2, m2, cap2, slots2, ps2. auto.
Qed.

Lemma short_list_ends ps cap slots :
  short_list ps cap slots -> exists rest, slots = map Some ps ++ Some 0 :: rest.
Proof.
  intros [Hn|Hn]; [|eauto]. exists (replicate (15 - length ps) (Some 0)).
  by replace (16 - length ps)%nat with (S (15 - length ps)) by lia.
Qed.

(** Clearing from slot [k] on, where [todo] names remain. *)
Lemma clear_loop_spec fuel todo k m e rest :
  mem_wf m -> owns m e (BPtrs (replicate k (Some 0) ++ map Some todo ++ Some 0 :: rest)) ->
  Forall (fun p => p <> 0 /\ exists b, owns m p b) todo -> NoDup (e :: todo) ->
  (length todo < fuel)%nat ->
  exists m', clear_directory_loop fuel e k m = Done tt m' /\ mem_wf m' /\ mem_config_eq m m' /\
    (exists b, owns m' e b) /\
    forall a, a <> e -> heap m' !! a = if decide (a ∈ todo) then None else heap m !! a.
Proof.
  revert fuel k m. induction todo as [|p todo IH]; intros fuel k m Hwf Ho Hps Hnd Hf;
    (destruct fuel as [|fuel]; [cbn in Hf; lia|]); cbn [clear_directory_loop]; unfold bind.
  - rewrite (load_slot_owns m e _ k 0 Hwf Ho)
      by (rewrite lookup_app_r; rewrite length_replicate; [by rewrite Nat.sub_diag | done]).
    exists m. split; [done|]. split; [done|]. split; [done|]. split; [eauto|]. intros a _.
    by case_decide as H; [apply elem_of_nil in H|].
  - apply Forall_cons in Hps as [[Hp [b Hb]] Hps].
    apply NoDup_cons in Hnd as [He Hnd]. rewrite elem_of_cons in He.
    apply NoDup_cons in Hnd as [Hpt Hnd].
    rewrite (load_slot_owns m e _ k p Hwf Ho)
      by (rewrite lookup_app_r; rewrite length_replicate; [by rewrite Nat.sub_diag | done]).
    rewrite (proj2 (Z.eqb_neq p 0)) by done. cbn [negb].
    rewrite (connector_free_owns m p b) by done.
    set (m1 := free_cell p m). assert (Hwf1 : mem_wf m1) by (by apply free_cell_wf).
    assert (Ho1 : owns m1 e (BPtrs (replicate k (Some 0) ++ map Some (p :: todo) ++ Some 0 :: rest)))
      by (apply free_cell_owns_other; [intros ->; auto | done]).
    rewrite (store_slot_owns m1 e _ k 0 Hwf1 Ho1)
      by (rewrite !length_app, length_replicate; cbn; lia).
    assert (Hslots : <[k := Some 0]> (replicate k (Some 0) ++ map Some (p :: todo) ++ Some 0 :: rest)
      = replicate (S k) (Some 0) ++ map Some todo ++ Some 0 :: rest).
    { rewrite insert_app_r_alt by (by rewrite length_replicate).
      rewrite length_replicate, Nat.sub_diag. cbn [map app insert list_insert].
      rewrite (replicate_S_end k), <- app_assoc. done. }
    rewrite Hslots. set (m2 := write_cell e _ m1).
    destruct (IH fuel (S k) m2) as (m' & E' & Hwf' & Hc' & He' & Hh').
    + by eapply write_cell_wf.
    + apply write_cell_owns.
    + apply (List.Forall_impl _ (P := fun q => q ∈ todo /\ q <> 0 /\ exists b, owns m q b)).
      * intros q (Hq & Hq0 & b' & Hb'). split; [done|]. exists b'.
        apply write_cell_owns_other; [intros ->; auto|].
        apply free_cell_owns_other; [intros ->; auto | done].
      * apply Forall_forall. intros q Hq. split; [done|]. rewrite Forall_forall in Hps. auto.
    + apply NoDup_cons. split; auto.
    + cbn in Hf. lia.
    + exists m'. split; [done|]. split; [done|]. split; [by destruct Hc'|]. split; [done|].
      intros a Ha. rewrite Hh' by done. cbn. rewrite lookup_insert_ne by done.
      rewrite lookup_delete. assert (a ∈ p :: todo <-> a = p \/ a ∈ todo) by apply elem_of_cons.
      repeat case_decide; try done; exfalso; naive_solver.
Qed.

Lemma clear_directory_list_spec m0 m e cap slots ps names :
  e <> 0 -> listing m0 m e slots ps names -> short_list ps cap slots ->
  Forall (fun p => p <> 0) ps ->
  exists m', connector_clear_directory_list (Some e) m = Done (Some 0) m' /\ mem_wf m' /\
    mem_config_eq m m' /\ heap m' = heap m0.
Proof.
  intros He Hl Hsh Hnz. pose proof Hl as [Hwf Hc Ho Hn Hnd Hold Hfr].
  destruct (short_list_ends _ _ _ Hsh) as [rest ->].
  unfold connector_clear_directory_list. rewrite (proj2 (Z.eqb_neq e 0)) by done. cbn [negb].
  unfold bind. rewrite (load_ptrs_owns m e _ Hwf Ho).
  destruct (clear_loop_spec (S (length (map Some ps ++ Some 0 :: rest))) ps 0 m e rest)
    as (m1 & E1 & Hwf1 & Hc1 & [b Hb] & Hh1); auto.
  - apply Forall_forall. intros p Hp. rewrite Forall_forall in Hnz. split; [auto|].
    apply list_elem_of_lookup in Hp as [i Hi].
    destruct (Forall2_lookup_l _ _ _ _ _ Hn Hi) as (s & _ & Hs). by eexists.
  - rewrite length_app, length_map. cbn. lia.
  - rewrite E1. rewrite (connector_free_owns m1 e b) by done.
    eexists. split; [done|]. split; [by apply free_cell_wf|]. split; [by destruct Hc1|].
    apply map_eq. intros a. cbn. rewrite lookup_delete. case_decide as Hea.
    + subst a. symmetry. apply Hfr, elem_of_cons. by left.
    + rewrite Hh1 by done. case_decide as Hin.
      * symmetry. apply Hfr, elem_of_cons. by right.
      * apply Hold. rewrite elem_of_cons. intros [?|?]; auto.
Qed.

(** The TCP file of a port is named after the port. *)
Lemma print_unsigned_length n : (length (print_unsigned n) <= 10)%nat.
Proof.
  unfold print_unsigned. assert (H : forall f n acc, (length (decimal_digits f n acc) <= f + length acc)%nat).
  { intros f. induction f as [|f IH]; intros k acc; cbn [decimal_digits]; [lia|].
    destruct (k / 10 =? 0); [cbn; lia|]. etransitivity; [apply IH|]. cbn. lia. }
  specialize (H 10%nat n []). cbn [length] in H. lia.
Qed.

Definition tcp_path (port : Z) : list Z :=
  CONNECTOR_DEFAULT_TCP_DIRECTORY ++ CONNECTOR_PATH_DELIM :: print_unsigned port.

Lemma create_tcp_filepath_serving port m :
  mem_wf m -> mem_serving m ->
  create_tcp_filepath port m = Done (next_addr m) (alloc_with (BStr (tcp_path port ++ [0])) m).
Proof.
  intros Hwf Hs. unfold create_tcp_filepath, CONNECTOR_PORT_SPRINTF_SIZE, bind.
  pose proof (print_unsigned_length port).
  rewrite firstn_all2 by lia.
  rewrite connector_path_join_serving by
    (try done; cbn [total_length length]; unfold CONNECTOR_DEFAULT_TCP_DIRECTORY;
     rewrite !length_app; cbn [length tmp_prefix substanceconnectoropen]; lia).
  unfold tcp_path. cbn [ret default snd joined_by]. by rewrite <- app_assoc.
Qed.

Lemma tcp_path_cstring port : cstring (tcp_path port).
Proof.
  unfold cstring, tcp_path. apply List.Forall_app. split.
  - unfold CONNECTOR_DEFAULT_TCP_DIRECTORY, tmp_prefix, substanceconnectoropen. repeat constructor; lia.
  - constructor; [unfold CONNECTOR_PATH_DELIM; lia | apply print_unsigned_cstring].
Qed.

Section ports.
Context {E : Type} {P : Platform E}.
Implicit Types w : world E.

(** [w] with another environment and a memory of the same blocks. *)
Definition env_moved w w' : Prop :=
  exists e m', w' = set_env e (set_mem m' w) /\ mem_wf m' /\ mem_config_eq (mem w) m' /\
    heap m' = heap (mem w).

(** The path of a port, allocated and released again. *)
Lemma tcp_path_cell port m :
  mem_wf m -> mem_serving m ->
  let p := next_addr m in let m1 := alloc_with (BStr (tcp_path port ++ [0])) m in
  mem_wf m1 /\ (p =? 0) = false /\ read_cstr p m1 = Done (tcp_path port) m1 /\
  connector_free p m1 = Done tt (free_cell p m1) /\ mem_wf (free_cell p m1) /\
  mem_config_eq m (free_cell p m1) /\ heap (free_cell p m1) = heap m.
Proof.
  intros Hwf Hs p m1. assert (Hwf1 : mem_wf m1) by (by apply alloc_with_wf).
  assert (Ho1 : points_to_string m1 p (tcp_path port)) by (by apply alloc_with_owns).
  split; [done|]. split; [by eapply owns_pos|].
  split; [apply read_cstr_string; [done | apply tcp_path_cstring | done]|].
  split; [by eapply connector_free_owns|]. split; [by apply free_cell_wf|]. split; [done|].
  apply map_eq. intros a. cbn. rewrite lookup_delete. case_decide as Ha.
  - subst a. symmetry. by apply mem_wf_fresh.
  - by apply lookup_insert_ne.
Qed.

Lemma commit_port_spec w port env1 :
  mem_wf (mem w) -> mem_serving (mem w) -> fopen_write (tcp_path port) (env w) = (true, env1) ->
  exists w', connector_commit_open_tcp_port port w = Done SUBSTANCE_CONNECTOR_SUCCESS w' /\
    env w' = env1 /\ env_moved w w'.
Proof.
  intros Hwf Hs Hopen.
  destruct (tcp_path_cell port (mem w) Hwf Hs) as (Hwf1 & Hne & Hread & Hfree & Hwf2 & Hc & Hh).
  unfold connector_commit_open_tcp_port.
  rewrite (bind_done _ _ _ _ _ (in_mem_done _ w _ _ (create_tcp_filepath_serving port _ Hwf Hs))).
  rewrite (bind_done _ _ _ _ _ (in_mem_done _ (set_mem _ w) _ _ Hread)).
  erewrite (bind_done (sys _)); [|unfold sys; cbn [env set_mem]; by rewrite Hopen].
  cbn iota. erewrite bind_done; [|apply (in_mem_done _ (set_env env1 (set_mem _ w))); exact Hfree].
  eexists. split; [reflexivity|]. split; [done|]. by eexists _, _.
Qed.

Lemma remove_port_spec w port :
  mem_wf (mem w) -> mem_serving (mem w) ->
  exists r w', connector_remove_open_tcp_port port w = Done r w' /\ env_moved w w' /\
    forall env2 env3, stat (tcp_path port) (env w) = (Some S_IFREG, env2) ->
      unlink (tcp_path port) env2 = (0, env3) -> r = SUBSTANCE_CONNECTOR_SUCCESS /\ env w' = env3.
Proof.
  intros Hwf Hs.
  destruct (tcp_path_cell port (mem w) Hwf Hs) as (Hwf1 & Hne & Hread & Hfree & Hwf2 & Hc & Hh).
  unfold connector_remove_open_tcp_port.
  rewrite (bind_done _ _ _ _ _ (in_mem_done _ w _ _ (create_tcp_filepath_serving port _ Hwf Hs))).
  set (m1 := alloc_with _ (mem w)) in *. set (p := next_addr (mem w)) in *.
  assert (Hpath : forall e, in_mem (read_path (PPtr p)) (set_env e (set_mem m1 w)) =
      Done (Some (tcp_path port)) (set_env e (set_mem m1 w))).
  { intros e. apply (in_mem_done _ (set_env e (set_mem m1 w)) _ m1). cbn [mem set_env set_mem read_path].
    rewrite Hne. by rewrite (bind_done _ _ _ _ _ Hread). }
  assert (Hend : forall (r : Z) e, (in_mem (connector_free p) ;;; ret r) (set_env e (set_mem m1 w)) =
      Done r (set_env e (set_mem (free_cell p m1) w))).
  { intros r e. by rewrite (bind_done _ _ _ _ _ (in_mem_done _ (set_env e (set_mem m1 w)) _ _ Hfree)). }
  assert (Hmoved : forall e, env_moved w (set_env e (set_mem (free_cell p m1) w)))
    by (intros e; by eexists _, _).
  unfold connector_is_file, test_file_type, connector_remove_file.
  unfold bind at 1 2. change (set_mem m1 w) with (set_env (env w) (set_mem m1 w)).
  rewrite Hpath. unfold bind at 1. unfold sys at 1. cbn [env set_env].
  destruct (stat (tcp_path port) (env w)) as [st e1] eqn:Est.
  set (is_file := match st with Some mode => negb (Z.land mode S_IFREG =? 0) | None => false end).
  destruct is_file eqn:Ef.
  - destruct st as [mode|]; [|discriminate]. unfold is_file in Ef. rewrite Ef. cbn [ret].
    rewrite Z.eqb_refl. unfold bind at 1 2. rewrite Hpath. unfold bind, sys. cbn [env set_env].
    destruct (unlink (tcp_path port) e1) as [r e2] eqn:Eu.
    exists (if r =? 0 then SUBSTANCE_CONNECTOR_SUCCESS else SUBSTANCE_CONNECTOR_ERROR),
      (set_env e2 (set_mem (free_cell p m1) w)).
    split; [by destruct (r =? 0); exact (Hend _ e2)|]. split; [done|].
    intros env2 env3 [= -> ->] Eu'. rewrite Eu in Eu'. by injection Eu' as -> ->.
  - exists SUBSTANCE_CONNECTOR_ERROR, (set_env e1 (set_mem (free_cell p m1) w)).
    split; [|split; [done|]].
    + destruct st as [mode|]; unfold is_file in Ef; [rewrite Ef|]; cbn [ret]; exact (Hend _ e1).
    + intros env2 env3 [= -> ->]. discriminate Ef.
Qed.

End ports.

(** ** Properties *)

Section properties.
Context {E : Type} {P : Platform E}.

(** C39: For a directory with at most fifteen accepted entries the listing without a
    filter holds copies of exactly the accepted names in the order of the directory,
    followed by a NULL, and clearing it releases every block the listing
    allocated and nothing else; without accepted entries no list is
    allocated.  Accepted are the names that [default_filter] lets pass, which the
    code puts in the place of NULL; [fileutils.h] promises all elements then. *)
Theorem directory_listing_roundtrip (w : world E) (p : path) (s : list Z)
    (names : list (list Z)) (env' : E)
    (Hwf : mem_wf (mem w)) (Hs : mem_serving (mem w))
    (Hp : read_path p (mem w) = Done (Some s) (mem w))
    (Hdir : readdir s (env w) = (Some names, env')) (Hshort : (length (accepted names) <= 15)%nat) :
  exists e w1, connector_list_directory p None (Some 0) w =
      Done (SUBSTANCE_CONNECTOR_SUCCESS, Some e) w1 /\ env w1 = env' /\
    (accepted names = [] -> e = 0 /\ mem w1 = mem w) /\
    (accepted names <> [] -> exists ps rest,
       owns (mem w1) e (BPtrs (map Some ps ++ Some 0 :: rest)) /\ Forall (fun a => a <> 0) ps /\
       Forall2 (fun a name => points_to_string (mem w1) a name) ps (accepted names)) /\
    exists m2, connector_clear_directory_list (Some e) (mem w1) = Done (Some 0) m2 /\
      heap m2 = heap (mem w).
Proof.
  unfold connector_list_directory. cbn [default from_option id].
  rewrite (bind_done _ _ _ _ _ (in_mem_done _ _ _ _ Hp)), set_mem_id.
  rewrite (bind_done _ _ w (Some names) (set_env env' w)) by (unfold sys; by rewrite Hdir).
  destruct (decide (accepted names = [])) as [Hnil|Hnil].
  - rewrite (bind_done _ _ _ _ _ (in_mem_done _ (set_env env' w) _ _ (list_loop_none names 0 0 _ 0 Hnil))).
    exists 0, (set_env env' w). rewrite set_mem_id. repeat split; try done. by exists (mem w).
  - destruct (list_loop_from_empty names (mem w) Hwf Hs)
      as (e & m1 & cap & slots & ps & E1 & He & Hl & Hsh & Hnz).
    { destruct (accepted names); [done|]. cbn in *. lia. }
    rewrite (bind_done _ _ _ _ _ (in_mem_done _ (set_env env' w) _ _ E1)).
    exists e, (set_mem m1 (set_env env' w)). split; [done|]. split; [done|]. split; [done|]. split.
    + intros _. destruct (short_list_ends _ _ _ Hsh) as [rest Hrest]. rewrite Hrest in Hl.
      exists ps, rest. split; [apply Hl|]. split; [done|]. apply Hl.
    + destruct (clear_directory_list_spec _ _ _ _ _ _ _ He Hl Hsh Hnz) as (m2 & E2 & _ & _ & Hh).
      exists m2. done.
Qed.

(** The TCP socket directory: publishing a port creates the file
    [<directory>/<port>], and the port read back from that path, the number
    after its last delimiter, is the published one.  The temporary path is
    released in both directions, and removing the published port unlinks that
    same file when it is a regular one. *)
Theorem tcp_port_publish (w : world E) (port : Z) (env1 : E)
    (Hwf : mem_wf (mem w)) (Hs : mem_serving (mem w)) (Hport : 0 <= port < 2 ^ 32)
    (Hopen : fopen_write (tcp_path port) (env w) = (true, env1)) :
  (exists w1, connector_commit_open_tcp_port port w = Done SUBSTANCE_CONNECTOR_SUCCESS w1 /\
     env w1 = env1 /\ heap (mem w1) = heap (mem w)) /\
  (strrchr (tcp_path port) CONNECTOR_PATH_DELIM = Some (CONNECTOR_PATH_DELIM :: print_unsigned port) /\
   atoi (print_unsigned port) = port) /\
  (forall env2 env3, stat (tcp_path port) (env w) = (Some S_IFREG, env2) ->
     unlink (tcp_path port) env2 = (0, env3) ->
     exists w2, connector_remove_open_tcp_port port w = Done SUBSTANCE_CONNECTOR_SUCCESS w2 /\
       env w2 = env3 /\ heap (mem w2) = heap (mem w)).
Proof.
  split; [|split].
  - destruct (commit_port_spec w port env1 Hwf Hs Hopen) as (w1 & Hrun & Henv & e & m' & -> & _ & _ & Hh).
    eexists. split; [exact Hrun|]. done.
  - split; [|by apply atoi_print_unsigned]. apply strrchr_last, print_unsigned_no_delim.
  - intros env2 env3 Hstat Hunlink.
    destruct (remove_port_spec w port Hwf Hs) as (r & w2 & Hrun & (e & m' & -> & _ & _ & Hh) & Hr).
    destruct (Hr env2 env3 Hstat Hunlink) as [-> Henv]. eexists. split; [exact Hrun|]. done.
Qed.

End properties.

(** Files and directories on the simulated system. *)
Definition simulated_world (files : list (list Z * Z)) : world simulation :=
  World _ (Simulation 3 false [] [] [] files) initial_memory 0 0 [] QNull QNull
    (MessageQueues (LockedQueue 0 0 handle_message false) (LockedQueue 0 0 handle_message false)
       MESSAGE_QUEUE_SHUTDOWN) 0 [].

Definition small_directory : list (list Z * Z) :=
  [([47; 100], S_IFDIR); ([47; 100; 47; 97], S_IFREG); ([47; 100; 47; 46; 104], S_IFREG);
   ([47; 100; 47; 98], S_IFSOCK)].

Lemma directory_listing_roundtrip_witness :
  exists e w1, connector_list_directory (PLit [47; 100]) None (Some 0) (simulated_world small_directory) =
      Done (SUBSTANCE_CONNECTOR_SUCCESS, Some e) w1 /\
    exists ps rest, owns (mem w1) e (BPtrs (map Some ps ++ Some 0 :: rest)) /\
      Forall2 (fun a name => points_to_string (mem w1) a name) ps [[97]; [98]].
Proof.
  destruct (directory_listing_roundtrip (simulated_world small_directory) (PLit [47; 100]) [47; 100]
    [[97]; [46; 104]; [98]] (env (simulated_world small_directory)) initial_memory_wf
    ltac:(split; reflexivity) eq_refl eq_refl ltac:(vm_compute; lia))
    as (e & w1 & Hrun & _ & _ & Hlist & _).
  exists e, w1. split; [exact Hrun|].
  destruct (Hlist ltac:(discriminate)) as (ps & rest & Ho & _ & Hps). exists ps, rest. split; [exact Ho | exact Hps].
Defined.

Lemma tcp_port_publish_witness :
  exists w1, connector_commit_open_tcp_port 40000 (simulated_world []) =
    Done SUBSTANCE_CONNECTOR_SUCCESS w1 /\ sim_files (env w1) = [(tcp_path 40000, S_IFREG)].
Proof.
  destruct (tcp_port_publish (simulated_world []) 40000
    (Simulation 3 false [] [] [] [(tcp_path 40000, S_IFREG)]) initial_memory_wf
    ltac:(split; reflexivity) ltac:(lia) ltac:(reflexivity)) as ((w1 & Hrun & Henv & _) & _).
  exists w1. split; [exact Hrun | rewrite Henv; reflexivity].
Defined.

(** With sixteen accepted entries the array has no NULL after them: the upper
    half of the enlarged array was never written, and clearing the list reads
    it. *)
Definition sixteen_files : list (list Z * Z) :=
  ([47; 100], S_IFDIR) :: map (fun c => ([47; 100; 47; 97 + Z.of_nat c], S_IFREG)) (seq 0 16).

Lemma listing_of_sixteen_has_no_end :
  exists e w1, connector_list_directory (PLit [47; 100]) None (Some 0) (simulated_world sixteen_files) =
      Done (SUBSTANCE_CONNECTOR_SUCCESS, Some e) w1 /\
    connector_clear_directory_list (Some e) (mem w1) = Stuck Uninitialised.
Proof. eexists _, _. split; vm_compute; reflexivity. Qed.

(** The type of a file is tested bit by bit: [connector_is_unix_socket] accepts
    every directory and regular file, [connector_is_file] every socket. *)
Lemma file_type_tests_overlap {E} `{Platform E} (w : world E) (s : list Z) (mode : Z) (env' : E) :
  stat s (env w) = (Some mode, env') ->
  (mode = S_IFDIR \/ mode = S_IFREG ->
     connector_is_unix_socket (PLit s) w = Done SUBSTANCE_CONNECTOR_SUCCESS (set_env env' w)) /\
  (mode = S_IFSOCK ->
     connector_is_file (PLit s) w = Done SUBSTANCE_CONNECTOR_SUCCESS (set_env env' w) /\
     connector_is_directory (PLit s) w = Done SUBSTANCE_CONNECTOR_SUCCESS (set_env env' w)).
Proof.
  intros Hstat. unfold connector_is_unix_socket, connector_is_file, connector_is_directory,
    test_file_type, bind, in_mem, zoom, sys, read_path.
  cbn [ret mem set_mem env]. rewrite Hstat, set_mem_id. by split; [intros [-> | ->] | intros ->].
Qed.
