(* ===== verification/StringMap.v ===== *)
(** * The map with string keys

    [string_map.c] on a 64-bit machine: a table of 512 buckets, each with room
    for one entry, indexed by an FNV-1a hash. *)

From S2P Require Import Prelude Wire Memory Strings.

Definition CONNECTOR_FNV_OFFSET_BASIS : Z := 0xcbf29ce484222325.
Definition CONNECTOR_FNV_PRIME : Z := 0x100000001b3.
Definition CONNECTOR_MAP_BUCKET_SIZE : nat := 512.
Definition sizeof_string_map : Z := 24.

(** ** Operations *)

(** A [char] is signed: [hash ^= str[i]] extends its sign to 64 bits. *)
Fixpoint fnv1a_loop (str : list Z) (hash : Z) : Z :=
  match str with
  | [] => hash
  | c :: str' => fnv1a_loop str' (u64 (Z.lxor hash (u64 (schar c)) * CONNECTOR_FNV_PRIME))
  end.
Definition compute_fnv1a_hash (str : list Z) : Z := fnv1a_loop str CONNECTOR_FNV_OFFSET_BASIS.

Definition hash_to_index (hashcode length_ : Z) : Z := hashcode mod length_.

Definition load_map (p : Z) : M memory (Z * Z * Z) :=
  let* b := load p in
  match b with BMap k e n => ret (k, e, n) | _ => stuck Uninitialised end.

(** The keys and the entries are the two halves of one array; [entries] is the
    index at which the second begins. *)
Definition connector_string_map_init : M memory Z :=
  let* map := connector_allocate sizeof_string_map in
  if negb (map =? 0) then
    let n := CONNECTOR_MAP_BUCKET_SIZE in
    let* keys := connector_allocate (2 * 8 * Z.of_nat n) in
    store map (BMap keys (Z.of_nat n) (Z.of_nat n)) ;;;
    store keys (BPtrs (replicate (2 * n) (Some 0))) ;;;
    ret map
  else ret map.

Fixpoint map_destroy_loop (n i : nat) (keys entries : Z) : M memory unit :=
  match n with
  | O => ret tt
  | S n' =>
      let* k := load_slot keys i in
      connector_free k ;;;
      store_slot keys i 0 ;;;
      store_slot keys (Z.to_nat entries + i) 0 ;;;
      map_destroy_loop n' (S i) keys entries
  end.

Definition connector_string_map_destroy (map : Z) : M memory Z :=
  if negb (map =? 0) then
    let* ken := load_map map in
    let '(keys, entries, bucket_size) := ken in
    map_destroy_loop (Z.to_nat bucket_size) 0 keys entries ;;;
    connector_free keys ;;;
    connector_free map ;;;
    ret SUBSTANCE_CONNECTOR_SUCCESS
  else ret SUBSTANCE_CONNECTOR_ERROR.

(** The bucket is computed and nothing is stored in it. *)
Definition connector_string_map_insert (map key val : Z) : M memory Z :=
  let* k := read_cstr key in
  let hashcode := compute_fnv1a_hash k in
  let* ken := load_map map in
  let '(_, _, bucket_size) := ken in
  let hash := hash_to_index hashcode bucket_size in
  ret 0.

Definition connector_string_map_search (map key : Z) : M memory Z :=
  if negb (key =? 0) && negb (map =? 0) then
    let* k := read_cstr key in
    let hashcode := compute_fnv1a_hash k in
    let* ken := load_map map in
    let '(keys, entries, bucket_size) := ken in
    let hash := Z.to_nat (hash_to_index hashcode bucket_size) in
    let* stored := load_slot keys hash in
    if negb (stored =? 0) then
      let* s := read_cstr stored in
      if bool_decide (s = k) then
        let* entry := load_slot keys (Z.to_nat entries + hash) in
        connector_strdup entry
      else ret 0
    else ret 0
  else ret 0.

(** ** Specification: FNV-1a on the bytes of the string *)

Fixpoint reference_fnv1a (str : list Z) (hash : Z) : Z :=
  match str with
  | [] => hash
  | c :: str' => reference_fnv1a str' (u64 (Z.lxor hash c * CONNECTOR_FNV_PRIME))
  end.

(** ** Lemmas *)

Lemma fnv1a_loop_ascii s h :
  Forall (fun c => 0 <= c < 128) s -> fnv1a_loop s h = reference_fnv1a s h.
Proof.
  intros Hs. revert h. induction Hs as [|c s Hc _ IH]; intros h; [done|]. cbn [fnv1a_loop reference_fnv1a].
  replace (u64 (schar c)) with c; [apply IH|]. unfold schar, to_signed, u64.
  rewrite (Z.mod_small c (2 ^ 8)) by lia. change (2 ^ (8 - 1)) with 128.
  rewrite (proj2 (Z.ltb_lt c 128)) by lia. by rewrite Z.mod_small by lia.
Qed.

Lemma fnv1a_loop_bound s h : 0 <= h < 2 ^ 64 -> 0 <= fnv1a_loop s h < 2 ^ 64.
Proof.
  revert h. induction s as [|c s IH]; intros h Hh; [done|]. cbn [fnv1a_loop]. apply IH.
  by apply Z.mod_pos_bound.
Qed.

Lemma load_slot_zero m p n i :
  mem_wf m -> owns m p (BPtrs (replicate n (Some 0))) -> (i < n)%nat -> load_slot p i m = Done 0 m.
Proof.
  intros Hwf Ho Hi. unfold load_slot, load_ptrs, bind. rewrite (load_owns m p _ Hwf Ho). cbn [ret].
  by rewrite lookup_replicate_2.
Qed.

Lemma string_map_init_serving m :
  mem_wf m -> mem_serving m ->
  connector_string_map_init m = Done (next_addr m)
    (alloc_with (BPtrs (replicate 1024 (Some 0)))
      (alloc_with (BMap (next_addr m + 1) 512 512) m)).
Proof.
  intros Hwf Hs. unfold connector_string_map_init, bind.
  rewrite connector_allocate_serving by done.
  rewrite (proj2 (Z.eqb_neq (next_addr m) 0)) by (destruct Hwf; lia). cbn [negb].
  rewrite connector_allocate_serving by done. cbn [next_addr alloc_with set_next_addr set_heap].
  unfold store. rewrite (proj2 (Z.eqb_neq (next_addr m) 0)) by (destruct Hwf; lia).
  rewrite (proj2 (Z.eqb_neq (next_addr m + 1) 0)) by (destruct Hwf; lia).
  cbn [alloc_with set_next_addr set_heap heap next_addr connector_memory_allocate].
  rewrite lookup_insert_ne, lookup_insert_eq by lia. cbn [heap set_heap owner].
  rewrite lookup_insert_ne, lookup_insert_eq by lia. cbn [owner ret].
  f_equal. unfold alloc_with, set_next_addr, set_heap. cbn. f_equal.
  rewrite (insert_insert_ne _ (next_addr m + 1) (next_addr m)) by lia.
  rewrite !insert_insert_eq, (insert_insert_ne _ (next_addr m) (next_addr m + 1)) by lia.
  by rewrite insert_insert_eq.
Qed.

(** ** Properties *)

(** On strings of ASCII characters the hash is FNV-1a with the 64-bit
    parameters, and the bucket it selects lies inside the table; a character
    above 127 is sign-extended and hashes differently. *)
Theorem fnv1a_matches_reference (s : list Z) (Hs : Forall (fun c => 0 <= c < 128) s) :
  compute_fnv1a_hash s = reference_fnv1a s CONNECTOR_FNV_OFFSET_BASIS /\
  0 <= hash_to_index (compute_fnv1a_hash s) 512 < 512 /\
  compute_fnv1a_hash [200] <> reference_fnv1a [200] CONNECTOR_FNV_OFFSET_BASIS.
Proof.
  split; [by apply fnv1a_loop_ascii|]. split; [by apply Z.mod_pos_bound | by vm_compute].
Qed.

Lemma fnv1a_matches_reference_witness :
  compute_fnv1a_hash [97; 98; 99] = reference_fnv1a [97; 98; 99] CONNECTOR_FNV_OFFSET_BASIS /\
  reference_fnv1a [97; 98; 99] CONNECTOR_FNV_OFFSET_BASIS = 0xe71fa2190541574b.
Proof.
  destruct (fnv1a_matches_reference [97; 98; 99] ltac:(repeat constructor; lia)) as [H _].
  split; [exact H | reflexivity].
Defined.

(** Inserting answers zero, which is [SUBSTANCE_CONNECTOR_SUCCESS], and stores
    nothing: whatever was inserted into a new map, a search finds NULL. *)
Lemma string_map_insert_is_lost (m : memory) (key val : Z) (k : list Z) :
  mem_wf m -> mem_serving m -> cstring k -> points_to_string m key k ->
  exists map m1, connector_string_map_init m = Done map m1 /\
    connector_string_map_insert map key val m1 = Done SUBSTANCE_CONNECTOR_SUCCESS m1 /\
    connector_string_map_search map key m1 = Done 0 m1.
Proof.
  intros Hwf Hs Hk Hkey. eexists _, _. split; [by apply string_map_init_serving|].
  set (m1 := alloc_with (BMap (next_addr m + 1) 512 512) m).
  assert (Hwf1 : mem_wf m1) by (by apply alloc_with_wf).
  set (m2 := alloc_with _ m1). assert (Hwf2 : mem_wf m2) by (by apply alloc_with_wf).
  assert (Hkey2 : points_to_string m2 key k) by (by do 2 (apply alloc_with_owns_other; [done|])).
  assert (Hmap : owns m2 (next_addr m) (BMap (next_addr m + 1) 512 512)).
  { apply alloc_with_owns_other; [done|]. by apply alloc_with_owns. }
  assert (Hkeys : owns m2 (next_addr m + 1) (BPtrs (replicate 1024 (Some 0)))).
  { by apply (alloc_with_owns _ m1). }
  assert (Hload : load_map (next_addr m) m2 = Done (next_addr m + 1, 512, 512) m2).
  { unfold load_map, bind. by rewrite (load_owns m2 _ _ Hwf2 Hmap). }
  split.
  - unfold connector_string_map_insert, bind. rewrite (read_cstr_string m2 key k) by done.
    by rewrite Hload.
  - unfold connector_string_map_search, bind. rewrite (owns_pos m2 key _ Hwf2 Hkey2).
    rewrite (owns_pos m2 (next_addr m) _ Hwf2 Hmap). cbn [negb andb].
    rewrite (read_cstr_string m2 key k) by done. rewrite Hload.
    rewrite (load_slot_zero m2 _ 1024); [done | done | done |].
    pose proof (Z.mod_pos_bound (compute_fnv1a_hash k) 512 ltac:(lia)). unfold hash_to_index. lia.
Qed.
