(* ===== verification/Connection.v ===== *)
(** * Connections

    [readwriteutils.c] (messages over a stream), [openconnectionimpl.c] and
    [connection_unix.c] (sockets), the polling function of [connection_utils.c]
    and the operation tables of [connection.c]. *)

From S2P Require Import Prelude Wire Memory Strings UintQueue LockedQueue Message World.
From S2P Require Import FileSystem.

Section connection.
Context {E : Type} {P : Platform E}.

(** The descriptor is kept as a [size_t] and passed on as an [int]. *)
Definition fd_of (c : context_struct) : Z := to_signed 32 (cx_fd c).

(** ** [readwriteutils.c] *)

Definition recv_fp : Type := Z -> Z -> M (world E) (Z * list Z).
Definition send_fp : Type := Z -> list Z -> M (world E) Z.

Definition message_header_of (x : message) : M (world E) message_header :=
  match msg_header x with Some h => ret h | None => stuck NullDeref end.

(** [message->header->message_length + 1u] is computed in 32 bits.  The bytes
    received overwrite the beginning of the cleared buffer. *)
Definition read_message_data (context : context_ref) (message : Z) (read_msg_fn : recv_fp) :
    M (world E) Z :=
  let* x := in_mem (load_message message) in
  let* h := message_header_of x in
  let length_ := u32 (message_length h + 1) in
  let* message_buffer := in_mem (connector_allocate length_) in
  let zeros := replicate (Z.to_nat length_) 0 in
  in_mem (store message_buffer (BStr zeros)) ;;;
  let* c := load_context context in
  let* rb := read_msg_fn (fd_of c) (u64 (length_ - 1)) in
  let '(result, bytes) := rb in
  if result <? 0 then
    in_mem (connector_free message_buffer) ;;;
    ret SUBSTANCE_CONNECTOR_READ_FAIL
  else
    match write_at 0 bytes zeros with
    | None => stuck OutOfBounds
    | Some buf =>
        in_mem (store message_buffer (BStr buf)) ;;;
        in_mem (store message (BMsg (Message (msg_header x) message_buffer (msg_context x)))) ;;;
        ret SUBSTANCE_CONNECTOR_SUCCESS
    end.

Definition connector_read_message_generic (context : context_ref) (message : Z)
    (read_msg_fn : recv_fp) : M (world E) Z :=
  if negb (message =? 0) && bool_decide (context <> None) then
    let* c := load_context context in
    let* rb := read_msg_fn (fd_of c) sizeof_header in
    let '(result, bytes) := rb in
    if result =? sizeof_header then
      let header := image_header host_order bytes in
      let* x := in_mem (load_message message) in
      let* _ := message_header_of x in
      let h := connector_ntohheader host_order header in
      in_mem (store message (BMsg (Message (Some h) (msg_text x) (msg_context x)))) ;;;
      if CONNECTOR_IDENTIFY_MESSAGE (description h) then
        read_message_data context message read_msg_fn
      else ret SUBSTANCE_CONNECTOR_READ_FAIL
    else ret SUBSTANCE_CONNECTOR_READ_FAIL
  else ret SUBSTANCE_CONNECTOR_ERROR.

(** The two bytes between the fields of the header are never written in the
    new buffer: they hold whatever the allocator left there. *)
Definition connector_send_message_generic (context : context_ref) (message : Z)
    (send_msg_fn : send_fp) : M (world E) Z :=
  if negb (message =? 0) && bool_decide (context <> None) then
    let* c := load_context context in
    let* x := in_mem (load_message message) in
    let* h := message_header_of x in
    let buffersize := u64 (sizeof_header + message_length h) in
    let* buffer := in_mem (connector_allocate buffersize) in
    let* text := in_mem (load_bytes (msg_text x)) in
    let n := Z.to_nat (message_length h) in
    if (length text <? n)%nat then stuck OutOfBounds
    else
      let* pad := gets (fun w => junk (mem w)) in
      let bytes := header_image host_order [pad; pad] (connector_htonheader host_order h)
                   ++ take n text in
      in_mem (store buffer (BStr bytes)) ;;;
      let* result := send_msg_fn (fd_of c) bytes in
      let retcode := if result <? 0 then SUBSTANCE_CONNECTOR_CONN_FAIL
                     else SUBSTANCE_CONNECTOR_SUCCESS in
      in_mem (connector_free buffer) ;;;
      ret retcode
  else ret SUBSTANCE_CONNECTOR_ERROR.

(** ** [openconnectionimpl.c] *)

Definition SUBSTANCE_CONNECTOR_SOCK_BACKLOG : Z := 10.

(** [set_default_fd] does nothing outside macOS. *)
Definition set_default_fd (fd : Z) : M (world E) unit := ret tt.

Definition connector_open_tcp_impl (context : context_ref) : M (world E) Z :=
  let* library_result := connector_ensure_default_tcp_directory in
  if bool_decide (context <> None) && (library_result =? SUBSTANCE_CONNECTOR_SUCCESS) then
    let* c := load_context context in
    let port := u16 (cx_port c) in
    let* sock := sys socket_inet in
    if sock <? 0 then ret SUBSTANCE_CONNECTOR_OPEN_FAIL
    else
      let* retcode :=
        (let* result := sys (bind_inet sock port) in
         if result <? 0 then ret SUBSTANCE_CONNECTOR_OPEN_FAIL
         else
           let* name := sys (getsockname sock) in
           update_context context (set_port (u16 (default port name))) ;;;
           set_default_fd sock ;;;
           let* result := sys (listen sock) in
           if result <? 0 then ret SUBSTANCE_CONNECTOR_OPEN_FAIL
           else
             let* c := load_context context in
             connector_commit_open_tcp_port (u32 (cx_port c)) ;;;
             update_context context (set_fd (u64 sock)) ;;;
             ret SUBSTANCE_CONNECTOR_SUCCESS) in
      when (negb (retcode =? SUBSTANCE_CONNECTOR_SUCCESS)) (sys (close sock) ;;; ret tt) ;;;
      ret retcode
  else ret SUBSTANCE_CONNECTOR_ERROR.

Definition connector_connect_tcp_impl (context : context_ref) : M (world E) Z :=
  if bool_decide (context <> None) then
    let* c := load_context context in
    let port := u16 (cx_port c) in
    let* sock := sys socket_inet in
    if sock <? 0 then ret SUBSTANCE_CONNECTOR_OPEN_FAIL
    else
      let* result := sys (connect_inet sock port) in
      if result <? 0 then
        sys (close sock) ;;;
        ret SUBSTANCE_CONNECTOR_OPEN_FAIL
      else
        update_context context (set_fd (u64 sock)) ;;;
        ret SUBSTANCE_CONNECTOR_SUCCESS
  else ret SUBSTANCE_CONNECTOR_ERROR.

(** ** [connection_unix.c] *)

Definition send_socket : send_fp := fun sock buffer => sys (send sock buffer).
Definition read_socket : recv_fp := fun fd len => sys (recv fd len).

Definition close_fd_connection (context : context_ref) : M (world E) Z :=
  if bool_decide (context <> None) then
    let* c := load_context context in
    let* retval := sys (close (fd_of c)) in
    if retval <? 0 then ret SUBSTANCE_CONNECTOR_ERROR else ret SUBSTANCE_CONNECTOR_SUCCESS
  else ret SUBSTANCE_CONNECTOR_ERROR.

Definition accept_socket (context : context_ref) : M (world E) Z :=
  let* c := load_context context in sys (accept (fd_of c)).

Definition connector_open_tcp (context : context_ref) : M (world E) Z :=
  connector_open_tcp_impl context.
Definition connector_accept_tcp (context : context_ref) : M (world E) Z := accept_socket context.
Definition connector_connect_tcp (context : context_ref) : M (world E) Z :=
  connector_connect_tcp_impl context.
Definition connector_read_tcp (context : context_ref) (message : Z) : M (world E) Z :=
  connector_read_message_generic context message read_socket.
Definition connector_write_tcp (context : context_ref) (message : Z) : M (world E) Z :=
  connector_send_message_generic context message send_socket.

Definition connector_close_tcp (context : context_ref) : M (world E) Z :=
  let* c := load_context context in
  when (negb (Z.land (configuration c) SUBSTANCE_CONNECTOR_CONN_OPEN =? 0))
    (connector_remove_open_tcp_port (u32 (cx_port c)) ;;; ret tt) ;;;
  close_fd_connection context.

(** The size of [sun_path] on Linux. *)
Definition sizeof_sun_path : Z := 108.

Definition connector_open_unix (context : context_ref) : M (world E) Z :=
  let* c := load_context context in
  let* local_result :=
    (if connection_data c =? 0 then
       let* r := connector_ensure_default_unix_directory in
       update_context context (set_connection_data connector_build_default_unix_path) ;;;
       ret r
     else ret SUBSTANCE_CONNECTOR_ERROR) in
  if negb (local_result =? SUBSTANCE_CONNECTOR_SUCCESS) then ret SUBSTANCE_CONNECTOR_INVALID
  else
    let* c := load_context context in
    let* filepath := in_mem (read_cstr (connection_data c)) in
    if sizeof_sun_path <=? Z.of_nat (length filepath) + 1 then ret SUBSTANCE_CONNECTOR_INVALID
    else
      let* sock := sys socket_unix in
      if sock <? 0 then ret SUBSTANCE_CONNECTOR_OPEN_FAIL
      else
        sys (unlink filepath) ;;;
        let* result := sys (bind_unix sock filepath) in
        let* retcode :=
          (if result <? 0 then ret SUBSTANCE_CONNECTOR_OPEN_FAIL
           else
             let* result := sys (listen sock) in
             if result <? 0 then
               sys (unlink filepath) ;;;
               ret SUBSTANCE_CONNECTOR_OPEN_FAIL
             else
               update_context context (set_fd (u64 sock)) ;;;
               ret SUBSTANCE_CONNECTOR_SUCCESS) in
        when (negb (retcode =? SUBSTANCE_CONNECTOR_SUCCESS)) (sys (close sock) ;;; ret tt) ;;;
        ret retcode.

Definition connector_connect_unix (context : context_ref) : M (world E) Z :=
  if bool_decide (context = None) then ret SUBSTANCE_CONNECTOR_INVALID
  else
    let* c := load_context context in
    if connection_data c =? 0 then ret SUBSTANCE_CONNECTOR_INVALID
    else
      let* filepath := in_mem (read_cstr (connection_data c)) in
      if sizeof_sun_path <=? Z.of_nat (length filepath) + 1 then ret SUBSTANCE_CONNECTOR_INVALID
      else
        let* sock := sys socket_unix in
        if sock <? 0 then ret SUBSTANCE_CONNECTOR_OPEN_FAIL
        else
          let* result := sys (connect_unix sock filepath) in
          if result <? 0 then
            sys (close sock) ;;;
            ret SUBSTANCE_CONNECTOR_OPEN_FAIL
          else
            update_context context (set_fd (u64 sock)) ;;;
            ret SUBSTANCE_CONNECTOR_SUCCESS.

Definition connector_accept_unix (context : context_ref) : M (world E) Z := accept_socket context.
Definition connector_read_unix (context : context_ref) (message : Z) : M (world E) Z :=
  connector_read_message_generic context message read_socket.
Definition connector_write_unix (context : context_ref) (message : Z) : M (world E) Z :=
  connector_send_message_generic context message send_socket.
Definition connector_close_unix (context : context_ref) : M (world E) Z :=
  close_fd_connection context.

(** ** [connection.c] *)

Definition default_context_operation (context : context_ref) : M (world E) Z :=
  ret SUBSTANCE_CONNECTOR_UNSUPPORTED.
Definition default_message_operation (context : context_ref) (message : Z) : M (world E) Z :=
  ret SUBSTANCE_CONNECTOR_UNSUPPORTED.
Definition default_accept_operation (context : context_ref) : M (world E) Z := ret (-1).

(** The connection type, clamped: [overflow] for one above the maximum. *)
Definition connection_index (c : context_struct) (overflow : Z) : nat :=
  let connection := Z.land (configuration c) SUBSTANCE_CONNECTOR_COMM_MASK in
  Z.to_nat (if SUBSTANCE_CONNECTOR_COMM_MAX <? connection then overflow else connection).

Definition message_operation (context : context_ref) (message : Z)
    (op_table : list (context_ref -> Z -> M (world E) Z)) : M (world E) Z :=
  if bool_decide (context <> None) && negb (message =? 0) then
    let* c := load_context context in
    nth (connection_index c 0) op_table (fun _ _ => stuck OutOfBounds) context message
  else ret SUBSTANCE_CONNECTOR_INVALID.

Definition context_operation (context : context_ref)
    (op_table : list (context_ref -> M (world E) Z)) : M (world E) Z :=
  if bool_decide (context <> None) then
    let* c := load_context context in
    nth (connection_index c 0) op_table (fun _ => stuck OutOfBounds) context
  else ret SUBSTANCE_CONNECTOR_INVALID.

Definition open_functions := [default_context_operation; connector_open_tcp; connector_open_unix].
Definition connect_functions :=
  [default_context_operation; connector_connect_tcp; connector_connect_unix].
Definition read_functions := [default_message_operation; connector_read_tcp; connector_read_unix].
Definition write_functions := [default_message_operation; connector_write_tcp; connector_write_unix].
Definition close_functions := [default_context_operation; connector_close_tcp; connector_close_unix].
Definition accept_functions := [default_accept_operation; connector_accept_tcp; connector_accept_unix].

Definition connector_open_connection (context : context_ref) : M (world E) Z :=
  context_operation context open_functions.
Definition connector_bridge_connection (context : context_ref) : M (world E) Z :=
  context_operation context connect_functions.
Definition connector_read_connection (context : context_ref) (message : Z) : M (world E) Z :=
  message_operation context message read_functions.
Definition connector_write_connection (context : context_ref) (message : Z) : M (world E) Z :=
  message_operation context message write_functions.
Definition connector_close_connection (context : context_ref) : M (world E) Z :=
  context_operation context close_functions.

Definition connector_accept_connection (context : context_ref) : M (world E) Z :=
  if bool_decide (context <> None) then
    let* c := load_context context in
    nth (connection_index c SUBSTANCE_CONNECTOR_COMM_MAX) accept_functions
      (fun _ => stuck OutOfBounds) context
  else ret (-1).

(** ** [connector_poll_contexts] of [connection_utils.c], the [poll] variant

    [contexts] are the (fd, events, revents) triples; the answer is the code and
    the triples after the call. *)
Definition SUBSTANCE_CONNECTOR_SELECT_ERROR : Z := -1.
Definition SUBSTANCE_CONNECTOR_SELECT_TIMEOUT : Z := 0.

Definition connector_poll_contexts (contexts : list (Z * Z * Z)) : M (world E) (Z * list (Z * Z * Z)) :=
  if (0 <? length contexts)%nat then
    let* rv := sys (poll (map fst contexts)) in
    let '(retval, revents) := rv in
    let contexts' := zip_with (fun c r => (fst c, r)) contexts revents in
    if retval =? SUBSTANCE_CONNECTOR_SELECT_ERROR then
      let* e := gets env in
      ret (convert_network_error (errno e), contexts')
    else if retval =? SUBSTANCE_CONNECTOR_SELECT_TIMEOUT then
      ret (SUBSTANCE_CONNECTOR_POLL_TIMEOUT, contexts')
    else ret (SUBSTANCE_CONNECTOR_POLL_ESUCCESS, contexts')
  else ret (SUBSTANCE_CONNECTOR_POLL_EUNKNOWN, contexts).

End connection.

(** The bytes a message travels as: the header in network order around two bytes
    of padding, and the text. *)
Definition message_bytes (e : endianness) (pad : list Z) (h : message_header) (s : list Z) : list Z :=
  header_image e pad (connector_htonheader e h) ++ s.

(** ** Lemmas *)

Section lemmas.
Context {E : Type} {P : Platform E}.
Implicit Types w : world E.

(** An operation that leaves everything but the environment and the memory. *)
Definition only_env_mem w w' : Prop := w' = set_env (env w') (set_mem (mem w') w).

Lemma message_length_nat h (s : list Z) :
  message_length h = Z.of_nat (length s) -> Z.to_nat (message_length h) = length s.
Proof. lia. Qed.

Lemma send_spec w i c p h q s ctx r env' :
  mem_wf (mem w) -> mem_serving (mem w) -> context_list w !! i = Some c ->
  owns (mem w) p (BMsg (Message (Some h) q ctx)) -> points_to_string (mem w) q s ->
  message_length h = Z.of_nat (length s) ->
  send (fd_of c) (message_bytes host_order [junk (mem w); junk (mem w)] h s) (env w) = (r, env') ->
  exists m', connector_send_message_generic (Some i) p send_socket w =
      Done (if r <? 0 then SUBSTANCE_CONNECTOR_CONN_FAIL else SUBSTANCE_CONNECTOR_SUCCESS)
        (set_env env' (set_mem m' w)) /\
    mem_wf m' /\ mem_config_eq (mem w) m' /\ heap m' = heap (mem w).
Proof.
  intros Hwf Hs Hi Hp Hq Hlen Hsend. unfold connector_send_message_generic.
  rewrite (owns_pos (mem w) p _ Hwf Hp). cbn [negb andb].
  rewrite bool_decide_eq_true_2 by done.
  rewrite (bind_done _ _ _ _ _ (load_context_some w i c Hi)).
  rewrite (bind_done _ _ w _ _ (in_mem_done _ _ _ _ (load_message_owns _ p _ Hwf Hp))), set_mem_id.
  rewrite (bind_done (message_header_of _) _ w h w) by done.
  rewrite (bind_done _ _ w _ _ (in_mem_done _ _ _ _ (connector_allocate_serving _ _ Hs))).
  set (m1 := alloc_with _ (mem w)). assert (Hwf1 : mem_wf m1) by (by apply alloc_with_wf).
  assert (Hq1 : points_to_string m1 q s) by (by apply alloc_with_owns_other).
  assert (Hn1 : owns m1 (next_addr (mem w)) (BRaw (u64 (sizeof_header + message_length h))))
    by (by apply alloc_with_owns).
  rewrite (bind_done _ _ (set_mem m1 w) (s ++ [0]) (set_mem m1 w))
    by (by apply (in_mem_done _ (set_mem m1 w)), load_bytes_string).
  rewrite (message_length_nat h s Hlen).
  rewrite length_app, (proj2 (Nat.ltb_ge _ _)) by lia.
  unfold bind at 1. cbn [gets mem set_mem].
  rewrite take_app_length. change (junk m1) with (junk (mem w)).
  fold (message_bytes host_order [junk (mem w); junk (mem w)] h s).
  set (bytes := message_bytes _ _ _ _) in *.
  rewrite (bind_done _ _ (set_mem m1 w) tt (set_mem (write_cell (next_addr (mem w)) (BStr bytes) m1) w))
    by (apply (in_mem_done _ (set_mem m1 w)); by eapply store_owns).
  set (m2 := write_cell _ _ m1). assert (Hwf2 : mem_wf m2) by (by eapply write_cell_wf).
  rewrite (bind_done (send_socket _ _) _ (set_mem m2 w) r (set_env env' (set_mem m2 w)))
    by (unfold send_socket, sys; cbn [env set_mem]; by rewrite Hsend).
  rewrite (bind_done _ _ (set_env env' (set_mem m2 w)) tt
      (set_env env' (set_mem (free_cell (next_addr (mem w)) m2) w)))
    by (apply (in_mem_done _ (set_env env' (set_mem m2 w)));
        eapply connector_free_owns; [done | apply write_cell_owns]).
  eexists. split; [reflexivity|]. split; [by apply free_cell_wf|]. split; [done|].
  apply map_eq. intros a. cbn. rewrite lookup_delete. case_decide as Ha.
  - subst a. symmetry. by apply mem_wf_fresh.
  - by rewrite !lookup_insert_ne.
Qed.

Lemma write_at_start (src : list Z) n :
  (length src <= n)%nat -> write_at 0 src (replicate n 0) = Some (src ++ replicate (n - length src) 0).
Proof.
  intros H. unfold write_at. rewrite length_replicate, (proj2 (Nat.ltb_ge _ _)) by lia.
  cbn [take app]. by rewrite drop_replicate.
Qed.

(** Reading the text behind a header: [bytes] arrive of the announced length. *)
Lemma read_data_spec w i c p h ctx result bytes env' :
  mem_wf (mem w) -> mem_serving (mem w) -> context_list w !! i = Some c ->
  owns (mem w) p (BMsg (Message (Some h) 0 ctx)) ->
  0 <= message_length h < 2 ^ 32 - 1 ->
  recv (fd_of c) (message_length h) (env w) = ((result, bytes), env') ->
  0 <= result -> Z.of_nat (length bytes) <= message_length h ->
  exists m', read_message_data (Some i) p read_socket w =
      Done SUBSTANCE_CONNECTOR_SUCCESS (set_env env' (set_mem m' w)) /\
    mem_wf m' /\ mem_config_eq (mem w) m' /\
    owns m' p (BMsg (Message (Some h) (next_addr (mem w)) ctx)) /\
    owns m' (next_addr (mem w))
      (BStr (bytes ++ replicate (Z.to_nat (message_length h) + 1 - length bytes) 0)) /\
    next_addr (mem w) <> p /\
    forall a, a <> p -> a <> next_addr (mem w) -> heap m' !! a = heap (mem w) !! a.
Proof.
  intros Hwf Hs Hi Hp Hlen Hrecv Hres Hb. unfold read_message_data.
  rewrite (bind_done _ _ w _ _ (in_mem_done _ _ _ _ (load_message_owns _ p _ Hwf Hp))), set_mem_id.
  rewrite (bind_done (message_header_of _) _ w h w) by done. cbn [msg_header msg_context].
  rewrite u32_small by lia.
  rewrite (bind_done _ _ w _ _ (in_mem_done _ _ _ _ (connector_allocate_serving _ _ Hs))).
  set (m1 := alloc_with _ (mem w)). assert (Hwf1 : mem_wf m1) by (by apply alloc_with_wf).
  set (a1 := next_addr (mem w)).
  assert (Hap : a1 <> p).
  { intros Heq. unfold owns in Hp. rewrite <- Heq in Hp. unfold a1 in Hp.
    by rewrite (mem_wf_fresh _ Hwf) in Hp. }
  assert (Hp1 : owns m1 p (BMsg (Message (Some h) 0 ctx))) by (by apply alloc_with_owns_other).
  assert (Hn1 : owns m1 a1 (BRaw (message_length h + 1))) by (by apply alloc_with_owns).
  set (zeros := replicate (Z.to_nat (message_length h + 1)) 0).
  rewrite (bind_done _ _ (set_mem m1 w) tt (set_mem (write_cell a1 (BStr zeros) m1) w))
    by (apply (in_mem_done _ (set_mem m1 w)); by eapply store_owns).
  set (m2 := write_cell a1 _ m1). assert (Hwf2 : mem_wf m2) by (by eapply write_cell_wf).
  rewrite (bind_done _ _ _ _ _ (load_context_some (set_mem m2 w) i c Hi)).
  replace (message_length h + 1 - 1) with (message_length h) by lia.
  replace (u64 (message_length h)) with (message_length h) by (symmetry; apply Z.mod_small; lia).
  rewrite (bind_done (read_socket _ _) _ (set_mem m2 w) (result, bytes) (set_env env' (set_mem m2 w)))
    by (unfold read_socket, sys; cbn [env set_mem]; by rewrite Hrecv).
  cbn beta iota. rewrite (proj2 (Z.ltb_ge result 0)) by done.
  unfold zeros at 1. rewrite write_at_start by lia.
  replace (Z.to_nat (message_length h + 1)) with (Z.to_nat (message_length h) + 1)%nat by lia.
  set (buf := bytes ++ _).
  assert (Hn2 : owns m2 a1 (BStr zeros)) by apply write_cell_owns.
  assert (Hp2 : owns m2 p (BMsg (Message (Some h) 0 ctx))) by (by apply write_cell_owns_other).
  rewrite (bind_done _ _ (set_env env' (set_mem m2 w)) tt
      (set_env env' (set_mem (write_cell a1 (BStr buf) m2) w)))
    by (apply (in_mem_done _ (set_env env' (set_mem m2 w))); by eapply store_owns).
  set (m3 := write_cell a1 _ m2). assert (Hwf3 : mem_wf m3) by (by eapply write_cell_wf).
  assert (Hp3 : owns m3 p (BMsg (Message (Some h) 0 ctx))) by (by apply write_cell_owns_other).
  rewrite (bind_done _ _ (set_env env' (set_mem m3 w)) tt
      (set_env env' (set_mem (write_cell p (BMsg (Message (Some h) a1 ctx)) m3) w)))
    by (apply (in_mem_done _ (set_env env' (set_mem m3 w))); by eapply store_owns).
  eexists. split; [reflexivity|]. split; [by eapply write_cell_wf|]. split; [done|].
  split; [apply write_cell_owns|]. split; [by apply write_cell_owns_other, write_cell_owns|].
  split; [done|]. intros a Ha Hl. cbn. by rewrite !lookup_insert_ne.
Qed.

(** Reading a whole message into a structure with a cleared header. *)
Lemma read_spec w i c p h h0 ctx hbytes env1 result bytes env2 :
  mem_wf (mem w) -> mem_serving (mem w) -> context_list w !! i = Some c ->
  owns (mem w) p (BMsg (Message (Some h0) 0 ctx)) ->
  recv (fd_of c) sizeof_header (env w) = ((sizeof_header, hbytes), env1) ->
  connector_ntohheader host_order (image_header host_order hbytes) = h ->
  CONNECTOR_IDENTIFY_MESSAGE (description h) = true ->
  0 <= message_length h < 2 ^ 32 - 1 ->
  recv (fd_of c) (message_length h) env1 = ((result, bytes), env2) ->
  0 <= result -> Z.of_nat (length bytes) <= message_length h ->
  exists m', connector_read_message_generic (Some i) p read_socket w =
      Done SUBSTANCE_CONNECTOR_SUCCESS (set_env env2 (set_mem m' w)) /\
    mem_wf m' /\ mem_config_eq (mem w) m' /\
    owns m' p (BMsg (Message (Some h) (next_addr (mem w)) ctx)) /\
    owns m' (next_addr (mem w))
      (BStr (bytes ++ replicate (Z.to_nat (message_length h) + 1 - length bytes) 0)) /\
    next_addr (mem w) <> p /\
    forall a, a <> p -> a <> next_addr (mem w) -> heap m' !! a = heap (mem w) !! a.
Proof.
  intros Hwf Hs Hi Hp Hrecv1 Hh Hid Hlen Hrecv2 Hres Hb. unfold connector_read_message_generic.
  rewrite (owns_pos (mem w) p _ Hwf Hp). cbn [negb andb].
  rewrite bool_decide_eq_true_2 by done.
  rewrite (bind_done _ _ _ _ _ (load_context_some w i c Hi)).
  rewrite (bind_done (read_socket _ _) _ w (sizeof_header, hbytes) (set_env env1 w))
    by (unfold read_socket, sys; by rewrite Hrecv1).
  cbn beta iota. rewrite Z.eqb_refl.
  rewrite (bind_done _ _ (set_env env1 w) (Message (Some h0) 0 ctx) (set_env env1 w))
    by (by apply (in_mem_done _ (set_env env1 w)), load_message_owns).
  rewrite (bind_done (message_header_of _) _ _ h0 (set_env env1 w)) by done.
  rewrite Hh. cbn [msg_text msg_context].
  set (m1 := write_cell p (BMsg (Message (Some h) 0 ctx)) (mem w)).
  rewrite (bind_done _ _ (set_env env1 w) tt (set_mem m1 (set_env env1 w)))
    by (apply (in_mem_done _ (set_env env1 w)); by eapply store_owns).
  rewrite Hid.
  destruct (read_data_spec (set_mem m1 (set_env env1 w)) i c p h ctx result bytes env2)
    as (m' & Hrun & Hwf' & Hc' & Hp' & Hn' & Hne & Hh'); try done.
  - by eapply write_cell_wf.
  - apply write_cell_owns.
  - exists m'. split; [exact Hrun|]. split; [done|]. split; [by destruct Hc'|]. split; [done|].
    split; [done|]. split; [done|]. intros a Ha Hl. cbn in Hh'.
    rewrite Hh'; rewrite ?lookup_insert_ne; done.
Qed.

End lemmas.

(** ** Properties *)

(** C1: A message that one side sends is the message the other side reads,
    whatever the byte orders of the two hosts and the bytes left in the padding:
    sending passes exactly the header in network order and the text to the
    socket and releases its buffer, and reading those bytes back gives the same
    header and a zero-terminated copy of the same text, and touches no other
    block. *)
Theorem send_receive_roundtrip {E1 E2 : Type} {P1 : Platform E1} {P2 : Platform E2}
    (w1 : world E1) (w2 : world E2) (i1 i2 : nat) (c1 c2 : context_struct) (p1 p2 q : Z)
    (h h0 : message_header) (s : list Z) (ctx1 ctx2 r : Z) (e1 : E1) (e2 e3 : E2)
    (Hwf1 : mem_wf (mem w1)) (Hs1 : mem_serving (mem w1)) (Hc1 : context_list w1 !! i1 = Some c1)
    (Hp1 : owns (mem w1) p1 (BMsg (Message (Some h) q ctx1)))
    (Hq : points_to_string (mem w1) q s)
    (Hh : header_wf h) (Hid : CONNECTOR_IDENTIFY_MESSAGE (description h) = true)
    (Hlen : message_length h = Z.of_nat (length s)) (Hlim : message_length h < 2 ^ 32 - 1)
    (Hwf2 : mem_wf (mem w2)) (Hs2 : mem_serving (mem w2)) (Hc2 : context_list w2 !! i2 = Some c2)
    (Hp2 : owns (mem w2) p2 (BMsg (Message (Some h0) 0 ctx2)))
    (Hsend : send (fd_of c1)
       (header_image (@host_order E1 P1) [junk (mem w1); junk (mem w1)] (connector_htonheader (@host_order E1 P1) h) ++ s)
       (env w1) = (r, e1)) (Hr : 0 <= r)
    (Hrecv1 : recv (fd_of c2) sizeof_header (env w2) = ((sizeof_header,
       header_image (@host_order E1 P1) [junk (mem w1); junk (mem w1)] (connector_htonheader (@host_order E1 P1) h)), e2))
    (Hrecv2 : recv (fd_of c2) (message_length h) e2 = ((message_length h, s), e3)) :
  (exists w1', connector_send_message_generic (Some i1) p1 send_socket w1 =
     Done SUBSTANCE_CONNECTOR_SUCCESS w1' /\ env w1' = e1 /\ heap (mem w1') = heap (mem w1)) /\
  (exists w2', connector_read_message_generic (Some i2) p2 read_socket w2 =
     Done SUBSTANCE_CONNECTOR_SUCCESS w2' /\ env w2' = e3 /\
     message_at (mem w2') p2 h s ctx2 /\
     forall a, a <> p2 -> heap (mem w2) !! a <> None -> heap (mem w2') !! a = heap (mem w2) !! a).
Proof.
  split.
  - destruct (send_spec w1 i1 c1 p1 h q s ctx1 r e1) as (m' & Hrun & _ & _ & Hheap); auto.
    exists (set_env e1 (set_mem m' w1)). split; [|done].
    by rewrite Hrun, (proj2 (Z.ltb_ge r 0)).
  - destruct (read_spec w2 i2 c2 p2 h h0 ctx2 _ e2 (message_length h) s e3
      Hwf2 Hs2 Hc2 Hp2 Hrecv1) as (m' & Hrun & _ & _ & Hm & Htext & Hne & Hheap);
      auto; [by apply ntoh_image_hton | destruct Hh; lia | destruct Hh; lia | lia |].
    exists (set_env e3 (set_mem m' w2)). split; [done|]. split; [done|].
    split; [|intros a Ha Hl; apply Hheap; [done | intros ->; by apply Hl, mem_wf_fresh]].
    exists (next_addr (mem w2)). split; [done|]. split; [|done].
    rewrite Hlen, Nat2Z.id, Nat.add_comm in Htext.
    by replace (1 + length s - length s)%nat with 1%nat in Htext by lia.
Qed.

(** A simulated peer that has sent a handshake, and a context connected to it. *)
Definition connected_world (inbox : list Z) (m : memory) : world simulation :=
  World _ (Simulation 3 false inbox [] [] []) m 0 0
    [ContextStruct (Z.lor SUBSTANCE_CONNECTOR_COMM_TCP SUBSTANCE_CONNECTOR_CONN_CONNECTED) 5 0 0 0 0]
    QNull QNull
    (MessageQueues (LockedQueue 0 0 handle_message false) (LockedQueue 0 0 handle_message false)
       MESSAGE_QUEUE_SHUTDOWN) 0 [].

Definition sample_header : message_header := Header 0x03db 2 connector_internal_handshake_uuid.

Definition sender_memory : memory :=
  alloc_with (BMsg (Message (Some sample_header) 1 0)) one_string_memory.
Definition receiver_memory : memory :=
  alloc_with (BMsg (Message (Some (Header 0 0 (Uuid [0; 0; 0; 0]))) 0 4)) initial_memory.
Definition sample_bytes : list Z :=
  header_image Little [0; 0] (connector_htonheader Little sample_header) ++ [97; 98].

Lemma send_receive_roundtrip_witness :
  (exists w1', connector_send_message_generic (Some 0%nat) 2 send_socket (connected_world [] sender_memory) =
     Done SUBSTANCE_CONNECTOR_SUCCESS w1' /\ sim_sent (env w1') = sample_bytes) /\
  (exists w2', connector_read_message_generic (Some 0%nat) 1 read_socket
       (connected_world sample_bytes receiver_memory) = Done SUBSTANCE_CONNECTOR_SUCCESS w2' /\
     message_at (mem w2') 1 sample_header [97; 98] 4).
Proof.
  assert (Hwf0 : mem_wf one_string_memory) by (apply alloc_with_wf, initial_memory_wf).
  assert (Hh : header_wf sample_header).
  { repeat split; try (cbn; lia). cbn. repeat constructor; lia. }
  destruct (send_receive_roundtrip (connected_world [] sender_memory)
    (connected_world sample_bytes receiver_memory) 0 0 _ _ 2 1 1 sample_header
    (Header 0 0 (Uuid [0; 0; 0; 0])) [97; 98] 0 4 26
    (Simulation 3 false [] sample_bytes [] []) (Simulation 3 false [97; 98] [] [] [])
    (Simulation 3 false [] [] [] [])
    (alloc_with_wf _ _ Hwf0) ltac:(split; reflexivity) eq_refl eq_refl eq_refl Hh eq_refl eq_refl
    ltac:(cbn; lia) (alloc_with_wf _ _ initial_memory_wf) ltac:(split; reflexivity) eq_refl eq_refl
    ltac:(vm_compute; reflexivity) ltac:(lia) ltac:(vm_compute; reflexivity)
    ltac:(vm_compute; reflexivity)) as [(w1' & R1 & H1 & _) (w2' & R2 & _ & H2 & _)].
  split; [exists w1' | exists w2']; split; [exact R1 | rewrite H1; reflexivity | exact R2 | exact H2].
Defined.

(** Whatever number of bytes the second read delivers, up to the announced
    length, the message is accepted and its text is those bytes followed by at
    least one zero: the buffer never overflows for announced lengths below
    [2^32 - 1], and a short read is not an error.  For the length [2^32 - 1] the
    size of the buffer wraps to zero while [2^64 - 1] bytes are requested, and
    any byte that arrives is written outside the buffer. *)
Theorem read_payload_bounds {E : Type} {P : Platform E} (w : world E) (i : nat) (c : context_struct)
    (p : Z) (h : message_header) (ctx : Z) (result : Z) (bytes : list Z) (env' : E)
    (Hwf : mem_wf (mem w)) (Hs : mem_serving (mem w)) (Hc : context_list w !! i = Some c)
    (Hp : owns (mem w) p (BMsg (Message (Some h) 0 ctx)))
    (Hlen : 0 <= message_length h < 2 ^ 32) (Hres : 0 <= result) :
  (message_length h < 2 ^ 32 - 1 -> Z.of_nat (length bytes) <= message_length h ->
   recv (fd_of c) (message_length h) (env w) = ((result, bytes), env') ->
   exists w' q k, read_message_data (Some i) p read_socket w = Done SUBSTANCE_CONNECTOR_SUCCESS w' /\
     owns (mem w') p (BMsg (Message (Some h) q ctx)) /\
     owns (mem w') q (BStr (bytes ++ 0 :: replicate k 0)) /\
     Z.of_nat (length (bytes ++ 0 :: replicate k 0)) = message_length h + 1) /\
  (message_length h = 2 ^ 32 - 1 -> bytes <> [] ->
   recv (fd_of c) (2 ^ 64 - 1) (env w) = ((result, bytes), env') ->
   read_message_data (Some i) p read_socket w = Stuck OutOfBounds).
Proof.
  split.
  - intros Hlt Hb Hrecv.
    destruct (read_data_spec w i c p h ctx result bytes env' Hwf Hs Hc Hp)
      as (m' & Hrun & _ & _ & Hm & Ht & _); [lia | done | done | done |].
    exists (set_env env' (set_mem m' w)), (next_addr (mem w)), (Z.to_nat (message_length h) - length bytes)%nat.
    split; [done|]. split; [done|]. rewrite length_app. cbn [length]. rewrite length_replicate.
    split; [|lia].
    by replace (Z.to_nat (message_length h) + 1 - length bytes)%nat
      with (S (Z.to_nat (message_length h) - length bytes)) in Ht by lia.
  - intros Heq Hb Hrecv. unfold read_message_data.
    rewrite (bind_done _ _ w _ _ (in_mem_done _ _ _ _ (load_message_owns _ p _ Hwf Hp))), set_mem_id.
    rewrite (bind_done (message_header_of _) _ w h w) by done. rewrite Heq.
    change (u32 (2 ^ 32 - 1 + 1)) with 0.
    rewrite (bind_done _ _ w _ _ (in_mem_done _ _ _ _ (connector_allocate_serving _ _ Hs))).
    set (m1 := alloc_with _ (mem w)).
    rewrite (bind_done _ _ (set_mem m1 w) tt (set_mem (alloc_with (BStr (replicate (Z.to_nat 0) 0)) (mem w)) w))
      by (by apply (in_mem_done _ (set_mem m1 w)), store_alloc_with).
    rewrite (bind_done _ _ _ _ _ (load_context_some (set_mem _ w) i c Hc)).
    change (u64 (0 - 1)) with (2 ^ 64 - 1).
    erewrite (bind_done (read_socket _ _)); [|unfold read_socket, sys; cbn [env set_mem]; by rewrite Hrecv].
    cbn beta iota. rewrite (proj2 (Z.ltb_ge result 0)) by done.
    destruct bytes; [done | reflexivity].
Qed.

(** A peer that announces five bytes and sends two. *)
Lemma read_payload_bounds_witness :
  exists w' q k, read_message_data (Some 0%nat) 1 read_socket
      (connected_world [97; 98] (alloc_with (BMsg (Message (Some (Header 0x03c9 5 (Uuid [0; 0; 0; 0]))) 0 4))
        initial_memory)) = Done SUBSTANCE_CONNECTOR_SUCCESS w' /\
    owns (mem w') q (BStr ([97; 98] ++ 0 :: replicate k 0)).
Proof.
  destruct (read_payload_bounds (connected_world [97; 98] (alloc_with (BMsg (Message
      (Some (Header 0x03c9 5 (Uuid [0; 0; 0; 0]))) 0 4)) initial_memory)) 0 _ 1 _ 4 2 [97; 98]
      (Simulation 3 false [] [] [] []) (alloc_with_wf _ _ initial_memory_wf) ltac:(split; reflexivity)
      eq_refl eq_refl ltac:(cbn; lia) ltac:(lia)) as [H _].
  destruct (H ltac:(cbn; lia) ltac:(cbn; lia) ltac:(vm_compute; reflexivity)) as (w' & q & k & Hrun & _ & Ho & _).
  exists w', q, k. split; [exact Hrun | exact Ho].
Defined.

Lemma test_file_type_env {E : Type} {P : Platform E} (w : world E) l flag :
  exists r e, test_file_type (PLit l) flag w = Done r (set_env e w).
Proof.
  unfold test_file_type, bind, in_mem, zoom, sys, read_path. cbn [ret mem set_mem env].
  rewrite set_mem_id. destruct (stat l (env w)) as [[mode|] e]; [|eauto].
  destruct (negb _); eauto.
Qed.

Lemma make_directory_env {E : Type} {P : Platform E} (w : world E) l :
  exists r e, connector_make_directory (PLit l) w = Done r (set_env e w).
Proof.
  unfold connector_make_directory, bind, in_mem, zoom, sys, read_path. cbn [ret mem set_mem env].
  rewrite set_mem_id. destruct (mkdir l (env w)) as [r e]. destruct (negb _); [eauto|].
  cbn [env set_env]. destruct (chmod l e) as [r' e']. exists (if r' =? 0 then SUBSTANCE_CONNECTOR_SUCCESS
    else SUBSTANCE_CONNECTOR_ERROR), e'. by destruct (r' =? 0).
Qed.

Lemma ensure_unix_directory_env {E : Type} {P : Platform E} (w : world E) :
  exists r e, connector_ensure_default_unix_directory w = Done r (set_env e w).
Proof.
  unfold connector_ensure_default_unix_directory, connector_get_default_unix_directory.
  destruct (make_directory_env w CONNECTOR_DEFAULT_UNIX_DIRECTORY) as (r & e & H).
  rewrite (bind_done _ _ _ _ _ H).
  destruct (test_file_type_env (set_env e w) CONNECTOR_DEFAULT_UNIX_DIRECTORY S_IFDIR) as (r' & e' & H').
  by exists r', e'.
Qed.

(** Opening a Unix socket never succeeds: with a path the function answers
    [SUBSTANCE_CONNECTOR_INVALID] without opening anything, and without one it
    either fails to find the default directory, with the same answer, or passes
    the NULL path of [connector_build_default_unix_path] to [strlen]. *)
Theorem open_unix_never_succeeds {E : Type} {P : Platform E} (w : world E) (i : nat)
    (c : context_struct) (Hc : context_list w !! i = Some c) :
  (connection_data c <> 0 ->
     connector_open_unix (Some i) w = Done SUBSTANCE_CONNECTOR_INVALID w) /\
  (connection_data c = 0 ->
     (exists w', connector_open_unix (Some i) w = Done SUBSTANCE_CONNECTOR_INVALID w') \/
     connector_open_unix (Some i) w = Stuck NullDeref).
Proof.
  unfold connector_open_unix. rewrite (bind_done _ _ _ _ _ (load_context_some w i c Hc)). split.
  - intros Hd. rewrite (proj2 (Z.eqb_neq _ 0)) by done. reflexivity.
  - intros Hd. rewrite Hd, Z.eqb_refl.
    destruct (ensure_unix_directory_env w) as (r & e & Hdir).
    rewrite (bind_done _ _ w r (set_context_list (<[i := set_connection_data 0 c]> (context_list w)) (set_env e w))).
    + destruct (Z.eqb_spec r SUBSTANCE_CONNECTOR_SUCCESS) as [->|Hr]; cbn [negb].
      * right. erewrite bind_done; [|apply load_context_some; apply list_lookup_insert_eq; by eapply lookup_lt_Some].
        reflexivity.
      * left. by eexists.
    + rewrite (bind_done _ _ _ _ _ Hdir).
      rewrite (bind_done _ _ _ _ _ (update_context_some (set_env e w) i c _ Hc)). done.
Qed.

Lemma open_unix_never_succeeds_witness :
  connector_open_unix (Some 0%nat) (connected_world [] initial_memory) = Stuck NullDeref \/
  exists w', connector_open_unix (Some 0%nat) (connected_world [] initial_memory) =
    Done SUBSTANCE_CONNECTOR_INVALID w'.
Proof.
  destruct (open_unix_never_succeeds (connected_world [] initial_memory) 0 _ eq_refl) as [_ H].
  destruct (H eq_refl) as [Hi|Hn]; [right; exact Hi | left; exact Hn].
Defined.
