(* ===== verification/SlotFrame.v ===== *)
(** * What the operations on a connection leave alone

    The socket operations of [Connection] act on one slot of the table: they
    finish, keep its type, state, name and data, and change otherwise only the
    environment. *)

From S2P Require Import Prelude Wire Memory Strings UintQueue LockedQueue Message World.
From S2P Require Import FileSystem Connection.

(** A file opened for writing is never NULL. *)
Class WritableFiles (E : Type) `{Platform E} : Prop :=
  files_open : forall p e, fst (fopen_write p e) = true.

#[export] Instance simulation_writable : WritableFiles simulation.
Proof. by intros p e. Qed.

(** Two states of a slot that differ at most in its descriptor and its port. *)
Record same_slot (c c' : context_struct) : Prop := {
  same_configuration : configuration c' = configuration c;
  same_data : connection_data c' = connection_data c;
  same_name : cx_application_name c' = cx_application_name c
}.

#[export] Instance same_slot_refl : Reflexive same_slot.
Proof. by intros c. Qed.
#[export] Instance same_slot_trans : Transitive same_slot.
Proof. intros c1 c2 c3 [] []. constructor; congruence. Qed.

Section frame.
Context {E : Type}.

(** From [w0], only the environment and slot [i] have changed. *)
Record slot_only (i : nat) (c0 : context_struct) (w0 w : world E) : Prop := {
  so_wf : mem_wf (mem w);
  so_serving : mem_serving (mem w);
  so_config : mem_config_eq (mem w0) (mem w);
  so_heap : heap (mem w) = heap (mem w0);
  so_rest : exists c, same_slot c0 c /\
    w = set_env (env w) (set_mem (mem w) (set_context_list (<[i := c]> (context_list w0)) w0));
  so_range : (i < length (context_list w0))%nat
}.

Lemma slot_only_refl i c w :
  mem_wf (mem w) -> mem_serving (mem w) -> context_list w !! i = Some c -> slot_only i c w w.
Proof.
  intros Hwf Hs Hc. constructor; try done; [|by eapply lookup_lt_Some].
  exists c. split; [done|]. rewrite list_insert_id by done. by destruct w.
Qed.

Lemma slot_only_lookup i c0 w0 w :
  slot_only i c0 w0 w -> exists c, context_list w !! i = Some c /\ same_slot c0 c.
Proof.
  intros [_ _ _ _ (c & Hs & ->) Hi]. exists c. split; [|done]. cbn.
  by apply list_lookup_insert_eq.
Qed.

Lemma slot_only_others i c0 w0 w j :
  slot_only i c0 w0 w -> j <> i -> context_list w !! j = context_list w0 !! j.
Proof. intros [_ _ _ _ (c & _ & ->) _] Hj. cbn. by apply list_lookup_insert_ne. Qed.

Lemma slot_only_env i c0 w0 w e : slot_only i c0 w0 w -> slot_only i c0 w0 (set_env e w).
Proof.
  intros [Hwf Hs Hc Hh (c & Hsame & Hw) Hi]. constructor; try done. exists c. split; [done|].
  rewrite Hw. done.
Qed.

Lemma keeps_sys {A} (f : E -> A * E) i c0 w0 : keeps (slot_only i c0 w0) (sys f).
Proof.
  intros w Hw. unfold sys. destruct (f (env w)) as [a e]. eexists _, _. split; [done|].
  by apply slot_only_env.
Qed.

Lemma keeps_load i c0 w0 : keeps (slot_only i c0 w0) (load_context (Some i)).
Proof.
  intros w Hw. destruct (slot_only_lookup _ _ _ _ Hw) as (c & Hc & _). exists c, w.
  split; [by apply load_context_some | done].
Qed.

Lemma keeps_update i c0 w0 f :
  (forall c, same_slot c (f c)) -> keeps (slot_only i c0 w0) (update_context (Some i) f).
Proof.
  intros Hf w Hw. destruct (slot_only_lookup _ _ _ _ Hw) as (c & Hc & Hsame).
  eexists _, _. split; [by apply update_context_some|].
  destruct Hw as [Hwf Hs Hcfg Hh (c1 & Hs1 & Hw1) Hi]. constructor; try done.
  exists (f c). split; [by transitivity c|]. rewrite Hw1. cbn. rewrite list_insert_insert_eq.
  done.
Qed.

Lemma keeps_env_moved {A} i c0 w0 (m : M (world E) A) :
  (forall w, mem_wf (mem w) -> mem_serving (mem w) -> exists a w', m w = Done a w' /\ env_moved w w') ->
  keeps (slot_only i c0 w0) m.
Proof.
  intros Hm w Hw. pose proof Hw as [Hwf Hs Hc Hh (c & Hsame & Hw1) Hi].
  destruct (Hm w Hwf Hs) as (a & w' & Hrun & e & m' & -> & Hwf' & Hc' & Hh').
  eexists _, _. split; [done|]. constructor; cbn; try done.
  - by eapply mem_serving_config.
  - by etransitivity.
  - by rewrite Hh'.
  - exists c. split; [done|]. rewrite Hw1. done.
Qed.

Lemma keeps_read_literal i c0 w0 s : keeps (slot_only i c0 w0) (in_mem (read_path (PLit s))).
Proof.
  intros w Hw. eexists _, _. split; [reflexivity|]. by rewrite set_mem_id.
Qed.

End frame.

#[export] Hint Resolve keeps_sys keeps_load keeps_read_literal : keeps.
#[export] Hint Extern 4 (keeps _ (update_context _ _)) => (apply keeps_update; by intros []) : keeps.

Section operations.
Context {E : Type} {P : Platform E}.

Lemma keeps_make_directory i c0 (w0 : world E) s :
  keeps (slot_only i c0 w0) (connector_make_directory (PLit s)).
Proof. unfold connector_make_directory. keeps_steps. Qed.

Lemma keeps_test_file_type i c0 (w0 : world E) s flag :
  keeps (slot_only i c0 w0) (test_file_type (PLit s) flag).
Proof. unfold test_file_type. keeps_steps. Qed.

Lemma keeps_ensure_tcp_directory i c0 (w0 : world E) :
  keeps (slot_only i c0 w0) connector_ensure_default_tcp_directory.
Proof.
  apply keeps_bind; [apply keeps_make_directory | intros _; apply keeps_test_file_type].
Qed.

Lemma keeps_commit_port {W : WritableFiles E} i c0 (w0 : world E) port :
  keeps (slot_only i c0 w0) (connector_commit_open_tcp_port port).
Proof.
  apply keeps_env_moved. intros w Hwf Hs.
  destruct (fopen_write (tcp_path port) (env w)) as [b e] eqn:Ho.
  assert (b = true) as -> by (change b with (fst (b, e)); rewrite <- Ho; apply files_open).
  destruct (commit_port_spec w port e Hwf Hs Ho) as (w' & Hrun & _ & Hm). eauto.
Qed.

Lemma keeps_remove_port i c0 (w0 : world E) port :
  keeps (slot_only i c0 w0) (connector_remove_open_tcp_port port).
Proof.
  apply keeps_env_moved. intros w Hwf Hs.
  destruct (remove_port_spec w port Hwf Hs) as (r & w' & Hrun & Hm & _). eauto.
Qed.

Hint Resolve keeps_ensure_tcp_directory keeps_commit_port keeps_remove_port : keeps.

Lemma keeps_open_tcp {W : WritableFiles E} i c0 (w0 : world E) :
  keeps (slot_only i c0 w0) (connector_open_tcp (Some i)).
Proof.
  unfold connector_open_tcp, connector_open_tcp_impl, set_default_fd. keeps_steps.
Qed.

Lemma keeps_connect_tcp i c0 (w0 : world E) :
  keeps (slot_only i c0 w0) (connector_connect_tcp (Some i)).
Proof. unfold connector_connect_tcp, connector_connect_tcp_impl. keeps_steps. Qed.

Lemma keeps_close_fd i c0 (w0 : world E) : keeps (slot_only i c0 w0) (close_fd_connection (Some i)).
Proof. unfold close_fd_connection. keeps_steps. Qed.

Lemma keeps_close_tcp i c0 (w0 : world E) : keeps (slot_only i c0 w0) (connector_close_tcp (Some i)).
Proof. unfold connector_close_tcp, close_fd_connection. keeps_steps. Qed.

Lemma keeps_accept_socket i c0 (w0 : world E) : keeps (slot_only i c0 w0) (accept_socket (Some i)).
Proof. unfold accept_socket. keeps_steps. Qed.

Hint Resolve keeps_open_tcp keeps_connect_tcp keeps_close_fd keeps_close_tcp keeps_accept_socket : keeps.

(** An operation chosen from a table by the type of the connection. *)
Lemma keeps_context_operation i c0 (w0 : world E) ops :
  (forall c, same_slot c0 c -> keeps (slot_only i c0 w0)
     (nth (connection_index c 0) ops (fun _ => stuck OutOfBounds) (Some i))) ->
  keeps (slot_only i c0 w0) (context_operation (Some i) ops).
Proof.
  intros Hops w Hw. unfold context_operation. cbn [bool_decide].
  destruct (slot_only_lookup _ _ _ _ Hw) as (c & Hc & Hsame).
  rewrite bool_decide_eq_true_2 by done.
  rewrite (bind_done _ _ _ _ _ (load_context_some w i c Hc)). by apply Hops.
Qed.

Lemma connection_index_same c c' o : same_slot c c' -> connection_index c' o = connection_index c o.
Proof. intros []. unfold connection_index. by rewrite same_configuration0. Qed.

Lemma keeps_tcp_operation i c0 (w0 : world E) o1 op o2 :
  connection_index c0 0 = 1%nat -> keeps (slot_only i c0 w0) (op (Some i)) ->
  keeps (slot_only i c0 w0) (context_operation (Some i) [o1; op; o2]).
Proof.
  intros Hi Hop. apply keeps_context_operation. intros c Hc.
  by rewrite (connection_index_same c0 c 0 Hc), Hi.
Qed.

End operations.
