(* ===== verification/ContextQueue.v ===== *)
(** * The table of contexts

    [context_queue.c]: the 32 contexts, the queue of the free ones, and every
    operation on them; [configuration.c]: the application's name and the
    configuration file; the signalling functions of [communication.c],
    [read_threads.c], [write_threads.c] and [dispatch.c] that the operations
    call. *)

From S2P Require Import Prelude Wire Memory Strings UintQueue LockedQueue Message World Callbacks.
From S2P Require Import FileSystem Connection.

Section contexts.
Context {E : Type} {P : Platform E} {B : Bindings E}.

(** ** [configuration.c] *)

Definition connector_parse_configuration_buffer (buffer : Z) : M (world E) Z :=
  if negb (buffer =? 0) then ret SUBSTANCE_CONNECTOR_SUCCESS else ret SUBSTANCE_CONNECTOR_ERROR.

(** The byte behind the contents is not written, and [fread] runs before the
    test for NULL. *)
Definition connector_parse_configuration_file (filepath : path) : M (world E) Z :=
  let* s := in_mem (read_path filepath) in
  match s with
  | Some s =>
      let* file := sys (fopen_read s) in
      match file with
      | Some contents =>
          let length_ := Z.of_nat (length contents) in
          let* buffer := in_mem (connector_allocate (length_ + 1)) in
          let* last := gets (fun w => junk (mem w)) in
          in_mem (store buffer (BStr (contents ++ [last]))) ;;;
          if negb (buffer =? 0) then
            let* retcode := connector_parse_configuration_buffer buffer in
            in_mem (connector_free buffer) ;;;
            ret retcode
          else ret SUBSTANCE_CONNECTOR_ERROR
      | None => ret SUBSTANCE_CONNECTOR_ERROR
      end
  | None => ret SUBSTANCE_CONNECTOR_ERROR
  end.

Definition connector_set_application_name (name : Z) : M (world E) Z :=
  let* old := gets application_name in
  in_mem (connector_free old) ;;;
  let* copy := in_mem (connector_strdup name) in
  modify (set_app_name copy) ;;;
  if negb (copy =? 0) then ret SUBSTANCE_CONNECTOR_SUCCESS else ret SUBSTANCE_CONNECTOR_ERROR.

Definition connector_get_application_name : M (world E) Z := gets application_name.

Definition connector_clear_application_name : M (world E) unit :=
  let* old := gets application_name in
  in_mem (connector_free old) ;;;
  modify (set_app_name 0).

(** ** Signals to the threads *)

Definition connector_flag_read_impl : M (world E) Z :=
  emit BroadcastInbound ;;; ret SUBSTANCE_CONNECTOR_SUCCESS.
Definition connector_flag_read : M (world E) Z := connector_flag_read_impl.
Definition connector_flag_write_impl : M (world E) Z :=
  emit SignalOutbound ;;; ret SUBSTANCE_CONNECTOR_SUCCESS.
Definition connector_flag_write : M (world E) Z := connector_flag_write_impl.
Definition connector_flag_dispatch : M (world E) Z :=
  emit SignalDispatch ;;; ret SUBSTANCE_CONNECTOR_SUCCESS.

(** ** Helpers of [context_queue.c] *)

Definition clear_context_struct (context : context_ref) : M (world E) unit :=
  let* c := load_context context in
  in_mem (connector_free (cx_application_name c)) ;;;
  in_mem (connector_free (connection_data c)) ;;;
  store_context context zero_context.

Definition append_available (context : Z) : M (world E) Z :=
  let* retcode := in_available (connector_available_queue_push context) in
  if retcode =? SUBSTANCE_CONNECTOR_SUCCESS then connector_flag_read else ret retcode.

(** [context_list + context]. *)
Definition slot (context : Z) : context_ref := Some (Z.to_nat context).

Definition context_op_generic (context : Z) (op : context_ref -> M (world E) Z) : M (world E) Z :=
  if context <? SUBSTANCE_CONNECTOR_CONTEXT_COUNT then op (slot context)
  else ret SUBSTANCE_CONNECTOR_ERROR.

Definition context_message_op_generic (context message : Z)
    (op : context_ref -> Z -> M (world E) Z) : M (world E) Z :=
  if (context <? SUBSTANCE_CONNECTOR_CONTEXT_COUNT) && negb (message =? 0) then
    let* c := load_context (slot context) in
    if Z.land (configuration c) SUBSTANCE_CONNECTOR_CONN_MASK =? SUBSTANCE_CONNECTOR_CONN_CONNECTED
    then op (slot context) message
    else ret SUBSTANCE_CONNECTOR_INVALID
  else ret SUBSTANCE_CONNECTOR_ERROR.

Definition context_configuration (context comm_mask : Z) : M (world E) Z :=
  if context <? SUBSTANCE_CONNECTOR_CONTEXT_COUNT then
    let* c := load_context (slot context) in
    ret (u32 (Z.land (configuration c) comm_mask))
  else ret UINT_MAX.

(** ** Accessors *)

Definition connector_context_state (context : Z) : M (world E) Z :=
  context_configuration context SUBSTANCE_CONNECTOR_CONN_MASK.
Definition connector_context_type (context : Z) : M (world E) Z :=
  context_configuration context SUBSTANCE_CONNECTOR_COMM_MASK.
Definition connector_context_port (context : Z) : M (world E) Z :=
  let* c := load_context (slot context) in ret (u32 (cx_port c)).
Definition connector_context_get_fd (context : Z) : M (world E) Z :=
  if context <? SUBSTANCE_CONNECTOR_CONTEXT_COUNT then
    let* c := load_context (slot context) in ret (fd_of c)
  else ret (-1).
Definition connector_context_get_application_name (context : Z) : M (world E) Z :=
  if context <? SUBSTANCE_CONNECTOR_CONTEXT_COUNT then
    let* c := load_context (slot context) in ret (cx_application_name c)
  else ret 0.

Definition connector_context_set_application_name (context name : Z) : M (world E) Z :=
  if (context <? SUBSTANCE_CONNECTOR_CONTEXT_COUNT) && negb (name =? 0) then
    let* c := load_context (slot context) in
    in_mem (connector_free (cx_application_name c)) ;;;
    let* copy := in_mem (connector_strdup name) in
    update_context (slot context) (set_context_name copy) ;;;
    ret SUBSTANCE_CONNECTOR_SUCCESS
  else ret SUBSTANCE_CONNECTOR_ERROR.

(** ** Opening *)

(** [connector_context_desc_t] *)
Record context_desc := ContextDesc {
  desc_configuration : Z;
  desc_port : Z;
  desc_connection_data : Z
}.

(** The slot for a new connection, as [connector_context_open] and
    [connector_context_connect] fill it. *)
Definition described_context (d : context_desc) (data : Z) : context_struct :=
  ContextStruct (Z.lor (Z.land (desc_configuration d) SUBSTANCE_CONNECTOR_COMM_MASK)
                       SUBSTANCE_CONNECTOR_CONN_OPEN) 0 (desc_port d) data 0 0.

(** The functions that return a context answer the code and what they store
    through [identifier]. *)
Definition connector_context_open (d : option context_desc) (identifier_given : bool) :
    M (world E) (Z * option Z) :=
  match d with
  | Some d =>
      if identifier_given then
        let* popped := in_free connector_uint_queue_pop in
        let '(retcode, context) := popped in
        if retcode =? SUBSTANCE_CONNECTOR_SUCCESS then
          let context := default 0 context in
          store_context (slot context) zero_context ;;;
          let* data := in_mem (connector_strdup (desc_connection_data d)) in
          store_context (slot context) (described_context d data) ;;;
          let* retcode := context_op_generic context connector_open_connection in
          if negb (retcode =? SUBSTANCE_CONNECTOR_SUCCESS) then
            store_context (slot context) zero_context ;;;
            in_free (connector_uint_queue_push context) ;;;
            ret (retcode, None)
          else
            append_available context ;;;
            ret (retcode, Some context)
        else ret (retcode, None)
      else ret (SUBSTANCE_CONNECTOR_ERROR, None)
  | None => ret (SUBSTANCE_CONNECTOR_ERROR, None)
  end.

Definition connector_context_open_tcp (port : Z) (identifier_given : bool) :=
  connector_context_open (Some (ContextDesc SUBSTANCE_CONNECTOR_COMM_TCP port 0)) identifier_given.
Definition connector_context_open_unix (filepath : Z) (identifier_given : bool) :=
  connector_context_open (Some (ContextDesc SUBSTANCE_CONNECTOR_COMM_UNIX 0 filepath)) identifier_given.

(** ** Connecting *)

(** The result of the pop is not looked at: without a free context [context]
    keeps its initial value zero. *)
Definition connector_context_connect (d : option context_desc) (identifier_given : bool) :
    M (world E) (Z * option Z) :=
  match d with
  | Some d =>
      if identifier_given then
        let* popped := in_free connector_uint_queue_pop in
        let context := default 0 (snd popped) in
        store_context (slot context) zero_context ;;;
        store_context (slot context) (described_context d (desc_connection_data d)) ;;;
        let* retcode := context_op_generic context connector_bridge_connection in
        if negb (retcode =? SUBSTANCE_CONNECTOR_SUCCESS) then
          in_free (connector_uint_queue_push context) ;;;
          ret (retcode, None)
        else
          update_context (slot context) (fun c =>
            set_connection_data 0 (set_configuration
              (Z.lor (Z.ldiff (configuration c) SUBSTANCE_CONNECTOR_CONN_MASK)
                     SUBSTANCE_CONNECTOR_CONN_CONNECTED) c)) ;;;
          append_available context ;;;
          ret (retcode, Some context)
      else ret (SUBSTANCE_CONNECTOR_ERROR, None)
  | None => ret (SUBSTANCE_CONNECTOR_ERROR, None)
  end.

Definition connector_context_connect_tcp (port : Z) (identifier_given : bool) :=
  connector_context_connect (Some (ContextDesc SUBSTANCE_CONNECTOR_COMM_TCP port 0)) identifier_given.
Definition connector_context_connect_unix (filepath : Z) (identifier_given : bool) :=
  connector_context_connect (Some (ContextDesc SUBSTANCE_CONNECTOR_COMM_UNIX 0 filepath)) identifier_given.

(** ** Closing *)

Definition connector_context_close (context : Z) : M (world E) Z :=
  if context <? SUBSTANCE_CONNECTOR_CONTEXT_COUNT then
    let* c := load_context (slot context) in
    let connection_state := Z.land (configuration c) SUBSTANCE_CONNECTOR_CONN_MASK in
    if negb (Z.land connection_state SUBSTANCE_CONNECTOR_CONN_OPEN =? 0)
       || negb (Z.land connection_state SUBSTANCE_CONNECTOR_CONN_CONNECTED =? 0) then
      store_context (slot context)
        (set_configuration (Z.lor (configuration c) SUBSTANCE_CONNECTOR_CONN_SHUTDOWN) c) ;;;
      ret SUBSTANCE_CONNECTOR_SUCCESS
    else ret SUBSTANCE_CONNECTOR_ERROR
  else ret SUBSTANCE_CONNECTOR_ERROR.

Definition connector_return_context (context : Z) : M (world E) Z :=
  in_free (connector_uint_queue_push context).

(** [connector_context_shutdown_from_read_thread] *)
Definition connector_context_shutdown_from_read_thread (context : Z) : M (world E) Z :=
  if context <? SUBSTANCE_CONNECTOR_CONTEXT_COUNT then
    let* retcode := connector_close_connection (slot context) in
    let* c := load_context (slot context) in
    when (negb (cx_application_name c =? 0))
      (connector_notify_trampolines context connector_internal_connection_closed_uuid
         (cx_application_name c) ;;; ret tt) ;;;
    clear_context_struct (slot context) ;;;
    in_free (connector_uint_queue_push context) ;;;
    ret retcode
  else ret SUBSTANCE_CONNECTOR_ERROR.

(** ** Accepting *)

(** The slot is not cleared, and the result of the pop is not looked at. *)
Definition connector_context_accept (context : Z) (identifier_given : bool) :
    M (world E) (Z * option Z) :=
  let* state := (if (context <? SUBSTANCE_CONNECTOR_CONTEXT_COUNT) && identifier_given
                 then connector_context_state context else ret (-1)) in
  if state =? SUBSTANCE_CONNECTOR_CONN_OPEN then
    let* fd := connector_accept_connection (slot context) in
    if 0 <=? fd then
      let* popped := in_free connector_uint_queue_pop in
      let context_id := default 0 (snd popped) in
      let* type := connector_context_type context in
      update_context (slot context_id) (fun c =>
        set_fd (u64 fd) (set_configuration (Z.lor type SUBSTANCE_CONNECTOR_CONN_CONNECTED) c)) ;;;
      append_available context_id ;;;
      ret (SUBSTANCE_CONNECTOR_SUCCESS, Some context_id)
    else ret (SUBSTANCE_CONNECTOR_OPEN_FAIL, None)
  else ret (SUBSTANCE_CONNECTOR_INVALID, None).

(** ** Messages *)

Definition connector_context_write (context message : Z) : M (world E) Z :=
  context_message_op_generic context message connector_write_connection.
Definition connector_context_read (context message : Z) : M (world E) Z :=
  context_message_op_generic context message connector_read_connection.

(** [message->header->description |= CONNECTOR_INTERNAL_IDENTIFIER] *)
Definition mark_internal (message : Z) : M (world E) unit :=
  let* x := in_mem (load_message message) in
  let* h := message_header_of x in
  in_mem (store message (BMsg (Message
    (Some (Header (Z.lor (description h) CONNECTOR_INTERNAL_IDENTIFIER) (message_length h) (message_id h)))
    (msg_text x) (msg_context x)))).

Definition connector_context_write_handshake (context : Z) : M (world E) Z :=
  if context <? SUBSTANCE_CONNECTOR_CONTEXT_COUNT then
    let* c := load_context (slot context) in
    if Z.land (configuration c) SUBSTANCE_CONNECTOR_HANDSHAKE_MASK =? SUBSTANCE_CONNECTOR_HANDSHAKE_SENT
    then ret SUBSTANCE_CONNECTOR_SUCCESS
    else if Z.land (configuration c) SUBSTANCE_CONNECTOR_CONN_MASK =? SUBSTANCE_CONNECTOR_CONN_CONNECTED
    then
      let* application_name := connector_get_application_name in
      let* message := in_mem (connector_build_message context
                                (Some connector_internal_handshake_uuid) application_name) in
      let* retcode :=
        (if negb (message =? 0) then
           mark_internal message ;;;
           let* retcode := context_message_op_generic context message connector_write_connection in
           when (retcode =? SUBSTANCE_CONNECTOR_SUCCESS)
             (update_context (slot context) (fun c =>
                set_configuration (Z.lor (configuration c) SUBSTANCE_CONNECTOR_HANDSHAKE_SENT) c)) ;;;
           ret retcode
         else ret SUBSTANCE_CONNECTOR_ERROR) in
      in_mem (connector_clear_message message) ;;;
      in_mem (connector_free message) ;;;
      ret retcode
    else ret SUBSTANCE_CONNECTOR_SUCCESS
  else ret SUBSTANCE_CONNECTOR_ERROR.

(** ** The subsystem *)

Fixpoint push_contexts (n : nat) (i : Z) : M (world E) unit :=
  match n with
  | O => ret tt
  | S n' => in_free (connector_uint_queue_push i) ;;; push_contexts n' (i + 1)
  end.

Definition connector_init_context_subsystem : M (world E) Z :=
  let n := Z.to_nat SUBSTANCE_CONNECTOR_CONTEXT_COUNT in
  modify (set_context_list (replicate n zero_context)) ;;;
  let* q := in_mem (connector_uint_queue_create SUBSTANCE_CONNECTOR_CONTEXT_COUNT) in
  modify (set_free_contexts q) ;;;
  match q with
  | QNull => ret SUBSTANCE_CONNECTOR_ERROR
  | _ => push_contexts n 0 ;;; ret SUBSTANCE_CONNECTOR_SUCCESS
  end.

Definition connector_shutdown_context_subsystem : M (world E) Z :=
  let* q := gets free_contexts in
  let* retcode := in_mem (connector_uint_queue_destroy q) in
  when (retcode =? SUBSTANCE_CONNECTOR_SUCCESS) (modify (set_free_contexts QNull)) ;;;
  ret retcode.

(** The calls of [available_queue.c] on the static variable. *)
Definition available_queue_init : M (world E) Z :=
  let* q := gets connection_queue in
  let* r := in_mem (connector_available_queue_init q) in
  modify (set_connection_queue (fst r)) ;;;
  ret (snd r).
Definition available_queue_shutdown : M (world E) Z :=
  let* q := gets connection_queue in
  let* r := in_mem (connector_available_queue_shutdown q) in
  modify (set_connection_queue (fst r)) ;;;
  ret (snd r).

End contexts.
