(* ===== verification/Windows.v ===== *)
(** * The Windows variants

    [connection_windows.c], and what [openconnectionimpl.c],
    [connectiondirectory.c], [fileutils.c], [pathutils.c] and [context_queue.c]
    become under [SUBSTANCE_CONNECTOR_WIN32]: sockets are 64-bit handles, paths
    wide strings, and the directory of the open ports is below a folder the
    system names.  Source text that is the same on both platforms is used as it
    is modelled elsewhere, over the instance of [Platform] that stands for its
    compilation on Windows. *)

From S2P Require Import Prelude Wire Memory Strings UintQueue LockedQueue Message World Callbacks.
From S2P Require Import FileSystem Connection ContextQueue.

(** ** The system

    A [SOCKET] is an unsigned 64-bit number, [INVALID_SOCKET] its largest value;
    an [int] function answers [SOCKET_ERROR], [-1], for a failure.  Paths are
    lists of 16-bit units. *)
Class Windows (W : Type) := {
  win_order : endianness;
  wsa_startup : Z -> W -> Z * W;                       (* version *)
  win_socket : W -> Z * W;
  win_bind : Z -> Z -> W -> Z * W;                     (* SOCKET, port *)
  win_getsockname : Z -> W -> option Z * W;            (* the bound port *)
  win_listen : Z -> W -> Z * W;
  win_accept : Z -> W -> Z * W;
  win_connect : Z -> Z -> W -> Z * W;                  (* SOCKET, port *)
  closesocket : Z -> W -> Z * W;
  win_send : Z -> list Z -> Z -> W -> Z * W;           (* SOCKET, buffer, int length *)
  win_recv : Z -> Z -> W -> (Z * list Z) * W;          (* SOCKET, int room *)
  wsa_poll : list (Z * Z) -> W -> (Z * list Z) * W;    (* SOCKET, events *)
  wsa_last_error : W -> Z;
  known_folder : W -> option (list Z) * W;             (* FOLDERID_RoamingAppData *)
  wmkdir : list Z -> W -> Z * W;
  wstat : list Z -> W -> option Z * W;
  wunlink : list Z -> W -> Z * W;
  wrmdir : list Z -> W -> Z * W;
  find_files : list Z -> W -> option (list (list Z)) * W;  (* None: INVALID_HANDLE_VALUE *)
  wfopen_write : list Z -> W -> bool * W;
  fopen_contents : list Z -> W -> option (list Z) * W
}.

Definition INVALID_SOCKET : Z := 2 ^ 64 - 1.
Definition SOCKET_ERROR : Z := -1.

(** The system, and the static variable [default_tcp_directory] of
    [connectiondirectory.c] that exists on Windows only. *)
Record win_env {W : Type} := WinEnv { os : W; default_tcp_directory : Z }.
Arguments win_env W : clear implicits.

Section windows.
Context {W : Type} {O : Windows W}.

Definition on_os {A} (f : W -> A * W) (e : win_env W) : A * win_env W :=
  let '(a, x) := f (os e) in (a, WinEnv _ x (default_tcp_directory e)).

(** A call whose result has the type [SOCKET]. *)
Definition as_socket (f : W -> Z * W) (e : win_env W) : Z * win_env W :=
  let '(s, e') := on_os f e in (u64 s, e').

(** The same call after the cast to [int]. *)
Definition as_int (f : W -> Z * W) (e : win_env W) : Z * win_env W :=
  let '(s, e') := as_socket f e in (to_signed 32 s, e').

(** The calls the shared source text makes, as it is compiled on Windows: a
    descriptor is converted to [SOCKET], a length to [int], and the macros put
    [closesocket], [WSAPoll], [WSAGetLastError] and the wide functions in place
    of their POSIX counterparts.  [names] tells the path a name stands for.
    Nothing compiled on Windows opens a Unix socket or changes a mode. *)
Definition windows_platform (names : list Z -> list Z) : Platform (win_env W) := {|
  host_order := win_order;
  socket_inet := as_socket win_socket;
  socket_unix e := (-1, e);
  bind_inet fd port := on_os (win_bind (u64 fd) port);
  bind_unix _ _ e := (-1, e);
  getsockname fd := on_os (win_getsockname (u64 fd));
  listen fd := on_os (win_listen (u64 fd));
  accept fd := as_int (win_accept (u64 fd));
  connect_inet fd port := on_os (win_connect (u64 fd) port);
  connect_unix _ _ e := (-1, e);
  close fd := on_os (closesocket (u64 fd));
  send fd bytes := on_os (win_send (u64 fd) bytes (to_signed 32 (Z.of_nat (length bytes))));
  recv fd room := on_os (win_recv (u64 fd) (to_signed 32 room));
  poll fds := on_os (wsa_poll (map (fun p => (u64 (fst p), snd p)) fds));
  errno e := wsa_last_error (os e);
  mkdir s := on_os (wmkdir (names s));
  chmod _ e := (0, e);
  stat s := on_os (wstat (names s));
  unlink s := on_os (wunlink (names s));
  rmdir s := on_os (wrmdir (names s));
  readdir s := on_os (find_files (names s ++ [92; 42]));
  fopen_write s := on_os (wfopen_write (names s));
  fopen_read s := on_os (fopen_contents (names s))
|}.

(** Shared text works on wide paths as they are. *)
Definition compiled : Platform (win_env W) := windows_platform (fun s => s).

Definition sys_os {A} (f : W -> A * W) : M (world (win_env W)) A := sys (on_os f).

(** ** [pathutils.c] and [fileutils.c] *)

Definition WIN_PATH_DELIM : Z := 92. (* '\\' *)
Definition sizeof_wchar : Z := 2.

Definition win_path_join : option (list (list Z)) -> bool -> M memory (Z * option Z) :=
  path_join_on WIN_PATH_DELIM sizeof_wchar.

Definition win_path_strdup (str : Z) : M memory Z :=
  if negb (str =? 0) then
    let* s := read_cstr str in
    let length_ := Z.of_nat (length s) + 1 in
    let* result := connector_allocate (u64 (sizeof_wchar * length_)) in
    store result (BStr (s ++ [0])) ;;;
    ret result
  else ret 0.

Definition win_is_unix_socket (p : path) : M (world (win_env W)) Z := ret SUBSTANCE_CONNECTOR_ERROR.

Definition win_make_directory (p : path) : M (world (win_env W)) Z :=
  let* s := in_mem (read_path p) in
  match s with
  | Some s =>
      let* result := sys_os (wmkdir s) in
      if result =? 0 then ret SUBSTANCE_CONNECTOR_SUCCESS else ret SUBSTANCE_CONNECTOR_ERROR
  | None => ret SUBSTANCE_CONNECTOR_ERROR
  end.

(** ** [connectiondirectory.c] *)

(** ["substanceconnectoropentcp"] *)
Definition CONNECTOR_DEFAULT_TCP_SUBDIRECTORY : list Z := substanceconnectoropen ++ [116; 99; 112].

Definition set_default_tcp_directory (p : Z) : M (world (win_env W)) unit :=
  modify (fun w => set_env (WinEnv _ (os (env w)) p) w).

(** [connector_path_join] stores through its second argument, also the NULL of a
    failed allocation. *)
Definition win_setup_default_tcp_directory : M (world (win_env W)) Z :=
  let* appdata_folder := sys_os known_folder in
  match appdata_folder with
  | Some folder =>
      let* r := in_mem (win_path_join (Some [folder; CONNECTOR_DEFAULT_TCP_SUBDIRECTORY]) true) in
      let '(retcode, result) := r in
      match result with
      | Some p => set_default_tcp_directory p ;;; ret retcode
      | None => ret retcode
      end
  | None => ret SUBSTANCE_CONNECTOR_ERROR
  end.

Definition win_cleanup_default_tcp_directory : M (world (win_env W)) Z :=
  let* e := gets env in
  in_mem (connector_free (default_tcp_directory e)) ;;;
  set_default_tcp_directory 0 ;;;
  ret SUBSTANCE_CONNECTOR_SUCCESS.

Definition win_get_default_unix_directory : path := PNull.
Definition win_get_default_tcp_directory : M (world (win_env W)) path :=
  let* e := gets env in ret (PPtr (default_tcp_directory e)).

(** A NULL directory ends the array of parts before the number. *)
Definition win_create_tcp_filepath (port : Z) : M (world (win_env W)) Z :=
  let buffer := take CONNECTOR_PORT_SPRINTF_SIZE (print_unsigned port) in
  let* directory := win_get_default_tcp_directory in
  let* s := in_mem (read_path directory) in
  let parts := match s with Some directory => [directory; buffer] | None => [] end in
  let* r := in_mem (win_path_join (Some parts) true) in
  ret (default 0 (snd r)).

Definition win_ensure_default_unix_directory : M (world (win_env W)) Z :=
  win_make_directory win_get_default_unix_directory ;;;
  connector_is_directory (P := compiled) win_get_default_unix_directory.

Definition win_ensure_default_tcp_directory : M (world (win_env W)) Z :=
  let* directory := win_get_default_tcp_directory in
  win_make_directory directory ;;;
  connector_is_directory (P := compiled) directory.

(** [_wfopen] of NULL and [fclose] of NULL are invalid. *)
Definition win_commit_open_tcp_port (port : Z) : M (world (win_env W)) Z :=
  let* location := win_create_tcp_filepath port in
  let* s := in_mem (read_path (PPtr location)) in
  match s with
  | Some s =>
      let* opened := sys_os (wfopen_write s) in
      if opened then
        in_mem (connector_free location) ;;;
        ret SUBSTANCE_CONNECTOR_SUCCESS
      else stuck NullDeref
  | None => stuck NullDeref
  end.

Definition win_remove_open_tcp_port (port : Z) : M (world (win_env W)) Z :=
  let* location := win_create_tcp_filepath port in
  let* is_file := connector_is_file (P := compiled) (PPtr location) in
  let* retcode :=
    (if is_file =? SUBSTANCE_CONNECTOR_SUCCESS then connector_remove_file (P := compiled) (PPtr location)
     else ret SUBSTANCE_CONNECTOR_ERROR) in
  in_mem (connector_free location) ;;;
  ret retcode.

(** ** [openconnectionimpl.c]

    [sock < 0] compares an unsigned number. *)
Definition win_open_tcp_impl (context : context_ref) : M (world (win_env W)) Z :=
  let* library_result := win_ensure_default_tcp_directory in
  if bool_decide (context <> None) && (library_result =? SUBSTANCE_CONNECTOR_SUCCESS) then
    let* c := load_context context in
    let port := u16 (cx_port c) in
    let* sock := sys (as_socket win_socket) in
    if sock <? 0 then ret SUBSTANCE_CONNECTOR_OPEN_FAIL
    else
      let* retcode :=
        (let* result := sys_os (win_bind sock port) in
         if result <? 0 then ret SUBSTANCE_CONNECTOR_OPEN_FAIL
         else
           let* name := sys_os (win_getsockname sock) in
           update_context context (set_port (u16 (default port name))) ;;;
           let* result := sys_os (win_listen sock) in
           if result <? 0 then ret SUBSTANCE_CONNECTOR_OPEN_FAIL
           else
             let* c := load_context context in
             win_commit_open_tcp_port (u32 (cx_port c)) ;;;
             update_context context (set_fd (u64 sock)) ;;;
             ret SUBSTANCE_CONNECTOR_SUCCESS) in
      when (negb (retcode =? SUBSTANCE_CONNECTOR_SUCCESS)) (sys_os (closesocket sock) ;;; ret tt) ;;;
      ret retcode
  else ret SUBSTANCE_CONNECTOR_ERROR.

Definition win_connect_tcp_impl (context : context_ref) : M (world (win_env W)) Z :=
  if bool_decide (context <> None) then
    let* c := load_context context in
    let port := u16 (cx_port c) in
    let* sock := sys (as_socket win_socket) in
    if sock <? 0 then ret SUBSTANCE_CONNECTOR_OPEN_FAIL
    else
      let* result := sys_os (win_connect sock port) in
      if result <? 0 then
        sys_os (closesocket sock) ;;;
        ret SUBSTANCE_CONNECTOR_OPEN_FAIL
      else
        update_context context (set_fd (u64 sock)) ;;;
        ret SUBSTANCE_CONNECTOR_SUCCESS
  else ret SUBSTANCE_CONNECTOR_ERROR.

(** ** [connection_windows.c]

    [recv] and [send] take the [int] where a [SOCKET] is expected. *)
Definition win_read_socket : recv_fp (E := win_env W) := fun fd len =>
  sys_os (win_recv (u64 fd) (to_signed 32 len)).
Definition win_send_socket : send_fp (E := win_env W) := fun fd buffer =>
  sys_os (win_send (u64 fd) buffer (to_signed 32 (Z.of_nat (length buffer)))).

Definition win_connector_open_tcp (context : context_ref) : M (world (win_env W)) Z :=
  win_open_tcp_impl context.
Definition win_connector_connect_tcp (context : context_ref) : M (world (win_env W)) Z :=
  win_connect_tcp_impl context.
Definition win_connector_read_tcp (context : context_ref) (message : Z) : M (world (win_env W)) Z :=
  connector_read_message_generic (P := compiled) context message win_read_socket.
Definition win_connector_write_tcp (context : context_ref) (message : Z) : M (world (win_env W)) Z :=
  connector_send_message_generic (P := compiled) context message win_send_socket.

Definition win_connector_close_tcp (context : context_ref) : M (world (win_env W)) Z :=
  let* c := load_context context in
  let local_retcode := SUBSTANCE_CONNECTOR_SUCCESS in
  when (negb (Z.land (configuration c) SUBSTANCE_CONNECTOR_CONN_OPEN =? 0))
    (win_remove_open_tcp_port (u32 (cx_port c)) ;;; ret tt) ;;;
  let* retval := sys_os (closesocket (u64 (cx_fd c))) in
  if (retval =? 0) && (local_retcode =? SUBSTANCE_CONNECTOR_SUCCESS) then
    ret SUBSTANCE_CONNECTOR_SUCCESS
  else if negb (local_retcode =? SUBSTANCE_CONNECTOR_SUCCESS) then ret local_retcode
  else ret SUBSTANCE_CONNECTOR_ERROR.

Definition win_connector_accept_tcp (context : context_ref) : M (world (win_env W)) Z :=
  let* c := load_context context in
  sys (as_int (win_accept (u64 (cx_fd c)))).

Definition win_connector_open_unix (context : context_ref) : M (world (win_env W)) Z :=
  ret SUBSTANCE_CONNECTOR_UNSUPPORTED.
Definition win_connector_connect_unix (context : context_ref) : M (world (win_env W)) Z :=
  ret SUBSTANCE_CONNECTOR_UNSUPPORTED.
Definition win_connector_accept_unix (context : context_ref) : M (world (win_env W)) Z := ret (-1).
Definition win_connector_read_unix (context : context_ref) (message : Z) : M (world (win_env W)) Z :=
  ret SUBSTANCE_CONNECTOR_UNSUPPORTED.
Definition win_connector_write_unix (context : context_ref) (message : Z) : M (world (win_env W)) Z :=
  ret SUBSTANCE_CONNECTOR_UNSUPPORTED.
Definition win_connector_close_unix (context : context_ref) : M (world (win_env W)) Z :=
  ret SUBSTANCE_CONNECTOR_UNSUPPORTED.

(** ** [connection.c] with these functions in its tables *)

Definition win_open_connection (context : context_ref) : M (world (win_env W)) Z :=
  context_operation context
    [default_context_operation; win_connector_open_tcp; win_connector_open_unix].
Definition win_bridge_connection (context : context_ref) : M (world (win_env W)) Z :=
  context_operation context
    [default_context_operation; win_connector_connect_tcp; win_connector_connect_unix].
Definition win_read_connection (context : context_ref) (message : Z) : M (world (win_env W)) Z :=
  message_operation context message
    [default_message_operation; win_connector_read_tcp; win_connector_read_unix].
Definition win_write_connection (context : context_ref) (message : Z) : M (world (win_env W)) Z :=
  message_operation context message
    [default_message_operation; win_connector_write_tcp; win_connector_write_unix].
Definition win_close_connection (context : context_ref) : M (world (win_env W)) Z :=
  context_operation context
    [default_context_operation; win_connector_close_tcp; win_connector_close_unix].
Definition win_accept_connection (context : context_ref) : M (world (win_env W)) Z :=
  if bool_decide (context <> None) then
    let* c := load_context context in
    nth (connection_index c SUBSTANCE_CONNECTOR_COMM_MAX)
      [default_accept_operation; win_connector_accept_tcp; win_connector_accept_unix]
      (fun _ => stuck OutOfBounds) context
  else ret (-1).

(** ** [context_queue.c]: Winsock 2.2 is started first *)

Definition MAKEWORD_2_2 : Z := 0x202.

Definition win_init_context_subsystem : M (world (win_env W)) Z :=
  let* result := sys_os (wsa_startup MAKEWORD_2_2) in
  if negb (result =? 0) then ret SUBSTANCE_CONNECTOR_ERROR
  else connector_init_context_subsystem.

End windows.

(** ** The correspondence with the Unix variants *)

(** Wide strings: units other than zero. *)
Definition wstring (s : list Z) : Prop := Forall (fun u => 0 < u < 2 ^ 16) s.

(** The Windows path that stands for a path of the Unix build: the default
    directory becomes [dir], the delimiters below it backslashes. *)
Definition windows_names (dir s : list Z) : list Z :=
  let n := length CONNECTOR_DEFAULT_TCP_DIRECTORY in
  if bool_decide (take n s = CONNECTOR_DEFAULT_TCP_DIRECTORY)
  then dir ++ map (fun c => if c =? CONNECTOR_PATH_DELIM then WIN_PATH_DELIM else c) (drop n s)
  else s.

Definition win_tcp_path (dir : list Z) (port : Z) : list Z :=
  dir ++ WIN_PATH_DELIM :: print_unsigned port.

(** The library has been set up: its directory is known to be [dir]. *)
Record directory_ready {W : Type} (dir : list Z) (w : world (win_env W)) : Prop := {
  ready_wf : mem_wf (mem w);
  ready_serving : mem_serving (mem w);
  ready_directory : points_to_string (mem w) (default_tcp_directory (env w)) dir;
  ready_wide : wstring dir;
  ready_short : Z.of_nat (length dir) < 2 ^ 32
}.

(** The same result from every state of [J], and [J] again after it. *)
Definition agree {S A : Type} (J : S -> Prop) (m1 m2 : M S A) : Prop :=
  forall w, J w -> m1 w = m2 w /\ forall a w', m1 w = Done a w' -> J w'.

Lemma agree_same {S A} (J : S -> Prop) (m : M S A) :
  (forall w a w', J w -> m w = Done a w' -> J w') -> agree J m m.
Proof. intros H w Hw. split; [done|]. intros a w' Hm. by eapply H. Qed.

Lemma agree_ret {S A} (J : S -> Prop) (a : A) : agree J (ret a) (ret a).
Proof. apply agree_same. intros w b w' Hw [= _ <-]. done. Qed.

Lemma agree_stuck {S A} (J : S -> Prop) u : agree J (@stuck S A u) (stuck u).
Proof. by apply agree_same. Qed.

Lemma agree_bind {S A B} (J : S -> Prop) (m1 m2 : M S A) (k1 k2 : A -> M S B) :
  agree J m1 m2 -> (forall a, agree J (k1 a) (k2 a)) -> agree J (bind m1 k1) (bind m2 k2).
Proof.
  intros Hm Hk w Hw. destruct (Hm w Hw) as [Heq HJ]. unfold bind. rewrite <- Heq.
  destruct (m1 w) as [a w'|u]; [|done]. by apply Hk, (HJ a).
Qed.

Lemma agree_ret_bind {S A B} (J : S -> Prop) (m : M S B) (a : A) k :
  agree J m (k a) -> agree J m (bind (ret a) k).
Proof. done. Qed.

Lemma agree_if {S A} (J : S -> Prop) (b : bool) (m1 m2 n1 n2 : M S A) :
  agree J m1 m2 -> agree J n1 n2 -> agree J (if b then m1 else n1) (if b then m2 else n2).
Proof. by destruct b. Qed.

Lemma agree_when {S} (J : S -> Prop) (b : bool) (m1 m2 : M S unit) :
  agree J m1 m2 -> agree J (when b m1) (when b m2).
Proof. intros H. apply agree_if; [done | apply agree_ret]. Qed.

(** Sequences, branches and calls that agree. *)
Create HintDb agree.
#[export] Hint Resolve agree_ret agree_stuck : agree.
Ltac agree_step :=
  first [ solve [eauto with agree] | apply agree_ret_bind | apply agree_when | apply agree_if
        | apply agree_bind; [|intros ?] ].
Ltac agree_steps := repeat (cbn beta zeta; agree_step).

Lemma u64_u64 x : u64 (u64 x) = u64 x.
Proof. unfold u64. apply Z.mod_mod. lia. Qed.

(** A wide string is read like a narrow one. *)
Lemma read_wide m p s :
  mem_wf m -> wstring s -> points_to_string m p s -> read_cstr p m = Done s m.
Proof.
  intros Hwf Hs Hp. unfold read_cstr, bind. rewrite (load_bytes_string m p s) by done.
  assert (cstr_prefix (s ++ [0]) = Some s) as -> ; [|done].
  clear Hp. induction Hs as [|u s Hu _ IH]; cbn; [done|].
  rewrite (proj2 (Z.eqb_neq u 0)) by lia. by rewrite IH.
Qed.

Lemma read_wide_path m p s :
  mem_wf m -> wstring s -> points_to_string m p s -> read_path (PPtr p) m = Done (Some s) m.
Proof.
  intros Hwf Hs Hp. cbn [read_path]. rewrite (owns_pos m p _ Hwf Hp).
  by rewrite (bind_done _ _ _ _ _ (read_wide m p s Hwf Hs Hp)).
Qed.

Lemma win_tcp_path_wide dir port : wstring dir -> wstring (win_tcp_path dir port).
Proof.
  intros Hd. apply Forall_app. split; [done|]. constructor; [unfold WIN_PATH_DELIM; lia|].
  eapply Forall_impl; [apply print_unsigned_cstring | cbn; lia].
Qed.

Lemma windows_names_directory dir : windows_names dir CONNECTOR_DEFAULT_TCP_DIRECTORY = dir.
Proof.
  unfold windows_names. rewrite bool_decide_eq_true_2 by done. cbn [length drop map]. apply app_nil_r.
Qed.

Lemma windows_names_port dir port : windows_names dir (tcp_path port) = win_tcp_path dir port.
Proof.
  unfold windows_names, tcp_path. rewrite take_app_length, bool_decide_eq_true_2 by done.
  rewrite drop_app_length. unfold win_tcp_path. f_equal. cbn [map]. rewrite Z.eqb_refl. f_equal.
  rewrite <- (map_id (print_unsigned port)) at 2. apply map_ext_in. intros c Hc.
  destruct (Z.eqb_spec c CONNECTOR_PATH_DELIM) as [->|]; [|done]. by apply print_unsigned_no_delim in Hc.
Qed.

Section correspondence.
Context {W : Type} {O : Windows W}.
Context (dir : list Z).
Let PU : Platform (win_env W) := windows_platform (windows_names dir).
#[local] Existing Instance PU.
#[local] Abbreviation ready := (directory_ready (W := W) dir).

(** A change of the environment that keeps the static variable. *)
Lemma ready_env w e :
  ready w -> default_tcp_directory e = default_tcp_directory (env w) -> ready (set_env e w).
Proof. intros [] He. constructor; try done. cbn. by rewrite He. Qed.

Lemma on_os_keeps {A} (f : W -> A * W) e : default_tcp_directory (snd (on_os f e)) = default_tcp_directory e.
Proof. unfold on_os. by destruct (f (os e)). Qed.

Lemma as_socket_keeps f (e : win_env W) :
  default_tcp_directory (snd (as_socket f e)) = default_tcp_directory e.
Proof. unfold as_socket. rewrite <- (on_os_keeps f e). by destruct (on_os f e). Qed.

Lemma agree_sys {A} (f : win_env W -> A * win_env W) :
  (forall e, default_tcp_directory (snd (f e)) = default_tcp_directory e) ->
  agree ready (sys f) (sys f).
Proof.
  intros Hf. apply agree_same. intros w a w' Hw. unfold sys. specialize (Hf (env w)).
  destruct (f (env w)) as [x e]. intros [= _ <-]. by apply ready_env.
Qed.

Lemma agree_os {A} (f : W -> A * W) : agree ready (sys_os f) (sys (on_os f)).
Proof. apply agree_sys, on_os_keeps. Qed.

Lemma agree_socket f : agree ready (sys (as_socket f)) (sys (as_socket f)).
Proof. apply agree_sys, as_socket_keeps. Qed.

Lemma agree_as_int f : agree ready (sys (as_int f)) (sys (as_int f)).
Proof.
  apply agree_sys. intros e. unfold as_int. rewrite <- (as_socket_keeps f e). by destruct (as_socket f e).
Qed.

Lemma agree_load p : agree ready (load_context p) (load_context p).
Proof.
  apply agree_same. intros w a w' Hw. unfold load_context. repeat case_match; try done. by intros [= _ <-].
Qed.

Lemma agree_update p f : agree ready (update_context p f) (update_context p f).
Proof.
  apply agree_bind; [apply agree_load|]. intros c. apply agree_same. intros w a w' Hw.
  unfold store_context. repeat case_match; try done. intros [= _ <-]. by destruct Hw.
Qed.

#[local] Hint Resolve agree_os agree_socket agree_as_int agree_load agree_update : agree.

(** A temporary path that has been released. *)
Definition released (m : memory) : memory := free_cell (next_addr m) (alloc_with (BStr []) m).

Lemma released_alloc b m : free_cell (next_addr m) (alloc_with b m) = released m.
Proof.
  unfold released, free_cell, alloc_with, set_next_addr, set_heap. cbn. f_equal.
  by rewrite !delete_insert_eq.
Qed.

Lemma ready_released w e :
  ready w -> default_tcp_directory e = default_tcp_directory (env w) ->
  ready (set_env e (set_mem (released (mem w)) w)).
Proof.
  intros Hw He. destruct (Hw) as [Hwf Hs Hd Hd' Hl]. constructor; cbn [mem set_env set_mem env]; try done.
  - by apply free_cell_wf, alloc_with_wf.
  - rewrite He. assert (next_addr (mem w) <> default_tcp_directory (env w)).
    { intros Heq. unfold points_to_string, owns in Hd. rewrite <- Heq, mem_wf_fresh in Hd; done. }
    apply free_cell_owns_other; [done|]. by apply alloc_with_owns_other.
Qed.

Lemma win_create_run w port :
  ready w -> win_create_tcp_filepath port w =
    Done (next_addr (mem w)) (set_mem (alloc_with (BStr (win_tcp_path dir port ++ [0])) (mem w)) w).
Proof.
  intros [Hwf Hs Hd Hd' Hl]. unfold win_create_tcp_filepath, CONNECTOR_PORT_SPRINTF_SIZE.
  pose proof (print_unsigned_length port). rewrite firstn_all2 by lia.
  rewrite (bind_done _ _ w (PPtr (default_tcp_directory (env w))) w) by done.
  rewrite (bind_done _ _ _ _ _ (in_mem_done _ w _ _ (read_wide_path _ _ _ Hwf Hd' Hd))), set_mem_id.
  unfold bind, in_mem, zoom, win_path_join. rewrite path_join_on_serving; [|done..|].
  - unfold win_tcp_path. cbn [ret default snd joined_by]. by rewrite <- app_assoc.
  - cbn [total_length length]. lia.
Qed.

(** The temporary path while it is in use. *)
Lemma temporary_path_read s m :
  mem_wf m -> mem_serving m -> wstring s ->
  let p := next_addr m in let m1 := alloc_with (BStr (s ++ [0])) m in
  read_cstr p m1 = Done s m1 /\ read_path (PPtr p) m1 = Done (Some s) m1 /\
  connector_free p m1 = Done tt (released m).
Proof.
  intros Hwf Hs Hw p m1. assert (Hwf1 : mem_wf m1) by (by apply alloc_with_wf).
  assert (Ho : points_to_string m1 p s) by (by apply alloc_with_owns).
  split; [by apply read_wide|]. split; [by apply read_wide_path|].
  erewrite connector_free_owns; [|done|exact Ho]. f_equal. apply released_alloc.
Qed.

Lemma tcp_path_wide port : wstring (tcp_path port).
Proof. eapply Forall_impl; [apply tcp_path_cstring | cbn; lia]. Qed.

(** What publishing and removing the path [s] does, on a platform [P]. *)
Definition commit_result (P : Platform (win_env W)) (s : list Z) (w : world (win_env W)) :=
  let '(opened, e) := fopen_write s (env w) in
  if opened then Done SUBSTANCE_CONNECTOR_SUCCESS (set_env e (set_mem (released (mem w)) w))
  else Stuck NullDeref.

Definition remove_result (P : Platform (win_env W)) (s : list Z) (w : world (win_env W)) :=
  let '(st, e1) := stat s (env w) in
  let w' e := set_env e (set_mem (released (mem w)) w) in
  match st with
  | Some mode =>
      if negb (Z.land mode S_IFREG =? 0) then
        let '(r, e2) := unlink s e1 in
        Done (if r =? 0 then SUBSTANCE_CONNECTOR_SUCCESS else SUBSTANCE_CONNECTOR_ERROR) (w' e2)
      else Done SUBSTANCE_CONNECTOR_ERROR (w' e1)
  | None => Done SUBSTANCE_CONNECTOR_ERROR (w' e1)
  end.

Lemma remove_body_run (P : Platform (win_env W)) w s :
  mem_wf (mem w) -> mem_serving (mem w) -> wstring s ->
  (let location := next_addr (mem w) in
   let* is_file := connector_is_file (PPtr location) in
   let* retcode :=
     (if is_file =? SUBSTANCE_CONNECTOR_SUCCESS then connector_remove_file (PPtr location)
      else ret SUBSTANCE_CONNECTOR_ERROR) in
   in_mem (connector_free location) ;;; ret retcode)
    (set_mem (alloc_with (BStr (s ++ [0])) (mem w)) w) = remove_result P s w.
Proof.
  intros Hwf Hs Hw. destruct (temporary_path_read s (mem w) Hwf Hs Hw) as (_ & Hread & Hfree).
  set (p := next_addr (mem w)) in *. set (m1 := alloc_with _ (mem w)) in *.
  assert (Hp : forall e, in_mem (read_path (PPtr p)) (set_env e (set_mem m1 w)) =
      Done (Some s) (set_env e (set_mem m1 w))) by (intros e; by rewrite (in_mem_done _ (set_env e (set_mem m1 w)) _ _ Hread)).
  assert (Hend : forall (r : Z) e, (in_mem (connector_free p) ;;; ret r) (set_env e (set_mem m1 w)) =
      Done r (set_env e (set_mem (released (mem w)) w))).
  { intros r e. by rewrite (bind_done _ _ _ _ _ (in_mem_done _ (set_env e (set_mem m1 w)) _ _ Hfree)). }
  change (set_mem m1 w) with (set_env (env w) (set_mem m1 w)). cbn zeta.
  unfold remove_result, connector_is_file, test_file_type, connector_remove_file.
  unfold bind at 1 2. rewrite Hp. unfold bind at 1, sys at 1. cbn [env set_env].
  destruct (stat s (env w)) as [[mode|] e1]; [|exact (Hend _ e1)].
  destruct (negb (Z.land mode S_IFREG =? 0)); [|exact (Hend _ e1)]. cbn [ret].
  rewrite Z.eqb_refl. unfold bind at 1 2.
  change (set_env e1 (set_env (env w) (set_mem m1 w))) with (set_env e1 (set_mem m1 w)).
  rewrite Hp. unfold bind at 1, sys. cbn [env set_env]. destruct (unlink s e1) as [r e2].
  destruct (r =? 0); exact (Hend _ e2).
Qed.

Lemma commit_runs w port :
  ready w ->
  win_commit_open_tcp_port port w = commit_result PU (tcp_path port) w /\
  connector_commit_open_tcp_port port w = commit_result PU (tcp_path port) w.
Proof.
  intros Hw. destruct (Hw) as [Hwf Hs _ Hd' _]. unfold commit_result. split.
  - destruct (temporary_path_read (win_tcp_path dir port) (mem w) Hwf Hs (win_tcp_path_wide dir port Hd'))
      as (_ & Hread & Hfree).
    unfold win_commit_open_tcp_port. rewrite (bind_done _ _ _ _ _ (win_create_run w port Hw)).
    rewrite (bind_done _ _ _ _ _ (in_mem_done _ (set_mem _ w) _ _ Hread)).
    unfold bind at 1, sys_os, sys. cbn [env set_mem PU windows_platform fopen_write].
    rewrite windows_names_port. destruct (on_os _ (env w)) as [[] e]; [|done].
    by rewrite (bind_done _ _ _ _ _ (in_mem_done _ (set_env e (set_mem _ w)) _ _ Hfree)).
  - destruct (temporary_path_read (tcp_path port) (mem w) Hwf Hs (tcp_path_wide port)) as (Hread & _ & Hfree).
    unfold connector_commit_open_tcp_port.
    rewrite (bind_done _ _ _ _ _ (in_mem_done _ w _ _ (create_tcp_filepath_serving port _ Hwf Hs))).
    rewrite (bind_done _ _ _ _ _ (in_mem_done _ (set_mem _ w) _ _ Hread)).
    unfold bind at 1, sys. cbn [env set_mem]. destruct (fopen_write _ (env w)) as [[] e]; [|done].
    by rewrite (bind_done _ _ _ _ _ (in_mem_done _ (set_env e (set_mem _ w)) _ _ Hfree)).
Qed.

Lemma agree_commit port : agree ready (win_commit_open_tcp_port port) (connector_commit_open_tcp_port port).
Proof.
  intros w Hw. destruct (commit_runs w port Hw) as [-> ->]. split; [done|]. intros a w'.
  unfold commit_result. cbn [PU windows_platform fopen_write].
  pose proof (on_os_keeps (wfopen_write (windows_names dir (tcp_path port))) (env w)) as Hk.
  destruct (on_os _ (env w)) as [[] e]; [|done]. intros [= _ <-]. by apply ready_released.
Qed.

Lemma remove_runs w port :
  ready w ->
  win_remove_open_tcp_port port w = remove_result PU (tcp_path port) w /\
  connector_remove_open_tcp_port port w = remove_result PU (tcp_path port) w.
Proof.
  intros Hw. destruct (Hw) as [Hwf Hs _ Hd' _]. split.
  - unfold win_remove_open_tcp_port. rewrite (bind_done _ _ _ _ _ (win_create_run w port Hw)).
    rewrite (remove_body_run compiled w _ Hwf Hs (win_tcp_path_wide dir port Hd')).
    unfold remove_result. cbn [PU compiled windows_platform stat unlink]. by rewrite windows_names_port.
  - unfold connector_remove_open_tcp_port.
    rewrite (bind_done _ _ _ _ _ (in_mem_done _ w _ _ (create_tcp_filepath_serving port _ Hwf Hs))).
    apply (remove_body_run PU w _ Hwf Hs (tcp_path_wide port)).
Qed.

Lemma agree_remove port : agree ready (win_remove_open_tcp_port port) (connector_remove_open_tcp_port port).
Proof.
  intros w Hw. destruct (remove_runs w port Hw) as [-> ->]. split; [done|]. intros a w'.
  unfold remove_result. cbn [PU windows_platform stat unlink]. set (s := windows_names _ _).
  pose proof (on_os_keeps (wstat s) (env w)) as Hk. destruct (on_os (wstat s) (env w)) as [[mode|] e].
  - destruct (negb _).
    + pose proof (on_os_keeps (wunlink s) e) as Hk'. destruct (on_os (wunlink s) e) as [r e2].
      intros [= _ <-]. apply ready_released; [done|]. cbn in *. congruence.
    + intros [= _ <-]. by apply ready_released.
  - intros [= _ <-]. by apply ready_released.
Qed.

Definition ensure_result (w : world (win_env W)) :=
  let '(_, e1) := on_os (wmkdir dir) (env w) in
  let '(st, e2) := on_os (wstat dir) e1 in
  Done (match st with
        | Some mode => if negb (Z.land mode S_IFDIR =? 0) then SUBSTANCE_CONNECTOR_SUCCESS
                       else SUBSTANCE_CONNECTOR_ERROR
        | None => SUBSTANCE_CONNECTOR_ERROR
        end) (set_env e2 w).

(** The directory is read by its pointer in any environment. *)
Lemma read_directory w e :
  ready w -> in_mem (read_path (PPtr (default_tcp_directory (env w)))) (set_env e w) =
    Done (Some dir) (set_env e w).
Proof.
  intros [Hwf _ Hd Hd' _].
  rewrite (in_mem_done _ (set_env e w) _ _ (read_wide_path _ _ _ Hwf Hd' Hd)). by destruct w.
Qed.

Lemma ensure_runs w :
  ready w ->
  win_ensure_default_tcp_directory w = ensure_result w /\
  connector_ensure_default_tcp_directory w = ensure_result w.
Proof.
  intros Hw. pose proof (read_directory w) as Hr. unfold ensure_result. split.
  - unfold win_ensure_default_tcp_directory.
    rewrite (bind_done _ _ w (PPtr (default_tcp_directory (env w))) w) by done.
    unfold win_make_directory, connector_is_directory, test_file_type, bind, sys_os, sys.
    pose proof (Hr (env w) Hw) as Hr0. replace (set_env (env w) w) with w in Hr0 by (by destruct w).
    rewrite Hr0.
    destruct (on_os (wmkdir dir) (env w)) as [r e1].
    destruct (r =? 0); cbn [ret]; rewrite (Hr e1 Hw); cbn [env set_env compiled windows_platform stat];
      destruct (on_os (wstat dir) e1) as [[mode|] e2]; try done; by destruct (negb _).
  - unfold connector_ensure_default_tcp_directory, connector_get_default_tcp_directory,
      connector_make_directory, connector_is_directory, test_file_type, bind, in_mem, zoom, sys.
    cbn [read_path ret]. rewrite set_mem_id.
    cbn [PU windows_platform mkdir chmod stat]. rewrite windows_names_directory.
    destruct (on_os (wmkdir dir) (env w)) as [r e1].
    destruct (r =? 0); cbn;
      destruct (on_os (wstat dir) e1) as [[mode|] e2]; cbn; try done; by destruct (negb _).
Qed.

Lemma agree_ensure : agree ready win_ensure_default_tcp_directory connector_ensure_default_tcp_directory.
Proof.
  intros w Hw. destruct (ensure_runs w Hw) as [-> ->]. split; [done|]. intros a w'.
  unfold ensure_result. pose proof (on_os_keeps (wmkdir dir) (env w)) as H1.
  destruct (on_os (wmkdir dir) (env w)) as [r e1]. pose proof (on_os_keeps (wstat dir) e1) as H2.
  destruct (on_os (wstat dir) e1) as [st e2]. intros [= _ <-]. apply ready_env; [done|]. cbn in *. congruence.
Qed.

#[local] Hint Resolve agree_commit agree_remove agree_ensure : agree.

(** ** The operations of [connection_windows.c] *)

Lemma u64_socket (f : W -> Z * W) k1 k2 :
  (forall s, u64 s = s -> agree ready (k1 s) (k2 s)) ->
  agree ready (bind (sys (as_socket f)) k1) (bind (sys (as_socket f)) (k2 : Z -> M (world (win_env W)) Z)).
Proof.
  intros Hk w Hw. pose proof (agree_socket f w Hw) as [_ HJ]. unfold bind.
  destruct (sys (as_socket f) w) as [s w'|u] eqn:E; [|done].
  assert (u64 s = s) as Hs.
  { unfold sys, as_socket in E. destruct (on_os f (env w)) as [x e]. injection E as <- _. apply u64_u64. }
  by apply (Hk s Hs), (HJ s).
Qed.

Lemma agree_open_tcp context :
  agree ready (win_connector_open_tcp context) (connector_open_tcp context).
Proof.
  unfold win_connector_open_tcp, win_open_tcp_impl, connector_open_tcp, connector_open_tcp_impl, set_default_fd.
  cbn [PU windows_platform socket_inet bind_inet getsockname listen close].
  apply agree_bind; [apply agree_ensure|]. intros r. apply agree_if; [|auto with agree].
  apply agree_bind; [apply agree_load|]. intros c. apply u64_socket. intros s Hs. rewrite Hs.
  agree_steps.
Qed.

Lemma agree_connect_tcp context :
  agree ready (win_connector_connect_tcp context) (connector_connect_tcp context).
Proof.
  unfold win_connector_connect_tcp, win_connect_tcp_impl, connector_connect_tcp, connector_connect_tcp_impl.
  cbn [PU windows_platform socket_inet connect_inet close].
  apply agree_if; [|auto with agree].
  apply agree_bind; [apply agree_load|]. intros c. apply u64_socket. intros s Hs. rewrite Hs.
  agree_steps.
Qed.

(** Reading and writing are the same text. *)
Lemma read_tcp_same context message w :
  win_connector_read_tcp context message w = connector_read_tcp context message w.
Proof. done. Qed.

Lemma write_tcp_same context message w :
  win_connector_write_tcp context message w = connector_write_tcp context message w.
Proof. done. Qed.

(** A handle that survives the conversion to [int] and back. *)
Definition short_handle (c : context_struct) : Prop := u64 (fd_of c) = cx_fd c.

Lemma short_handle_u64 c : short_handle c -> u64 (cx_fd c) = u64 (fd_of c).
Proof. unfold short_handle. intros <-. apply u64_u64. Qed.

Lemma close_tcp_same w i c :
  ready w -> context_list w !! i = Some c -> short_handle c ->
  (forall s x, fst (closesocket s x) = 0 \/ fst (closesocket s x) = SOCKET_ERROR) ->
  win_connector_close_tcp (Some i) w = connector_close_tcp (Some i) w.
Proof.
  intros Hw Hc Hh Hlaw. unfold win_connector_close_tcp, connector_close_tcp.
  rewrite !(bind_done _ _ _ _ _ (load_context_some w i c Hc)).
  assert (Hrem : agree (fun w => ready w /\ context_list w !! i = Some c)
      (win_remove_open_tcp_port (u32 (cx_port c))) (connector_remove_open_tcp_port (u32 (cx_port c)))).
  { intros v [Hv Hvc]. destruct (agree_remove (u32 (cx_port c)) v Hv) as [Heq HJ]. split; [done|].
    intros a v' Hrun. split; [by eapply HJ|]. revert Hrun. destruct (remove_runs v (u32 (cx_port c)) Hv) as [-> _].
    unfold remove_result. repeat case_match; by intros [= _ <-]. }
  refine (proj1 (agree_bind (fun w => ready w /\ context_list w !! i = Some c) _ _ _ _ _ _ w _)); [| |done].
  - apply agree_when, agree_bind; [done | intros ?; apply agree_ret].
  - intros _. clear w Hw Hc Hrem. intros v [Hv Hvc]. unfold close_fd_connection.
    rewrite bool_decide_eq_true_2, (bind_done _ _ _ _ _ (load_context_some v i c Hvc)) by done.
    cbn [PU windows_platform close]. rewrite (short_handle_u64 c Hh).
    unfold bind, sys_os, sys, on_os. specialize (Hlaw (u64 (fd_of c)) (os (env v))).
    destruct (closesocket _ _) as [r x]. cbn in Hlaw. split; [by destruct Hlaw as [-> | ->]|].
    intros a v'. destruct Hlaw as [-> | ->]; intros [= _ <-]; (split; [by apply ready_env | done]).
Qed.

Lemma accept_tcp_same w i c :
  context_list w !! i = Some c -> short_handle c ->
  win_connector_accept_tcp (Some i) w = connector_accept_tcp (Some i) w.
Proof.
  intros Hc Hh. unfold win_connector_accept_tcp, connector_accept_tcp, accept_socket.
  rewrite !(bind_done _ _ _ _ _ (load_context_some w i c Hc)).
  cbn [PU windows_platform accept]. by rewrite (short_handle_u64 c Hh).
Qed.

End correspondence.

#[export] Hint Resolve agree_os agree_socket agree_as_int agree_load agree_update : agree.

Lemma to_signed_mod x : to_signed 32 x mod 2 ^ 32 = x mod 2 ^ 32.
Proof.
  unfold to_signed. destruct (_ <? _); [by rewrite Z.mod_mod by lia|].
  replace (x mod 2 ^ 32 - 2 ^ 32) with (x mod 2 ^ 32 + (-1) * 2 ^ 32) by lia.
  by rewrite Z.mod_add, Z.mod_mod by lia.
Qed.

Lemma to_signed_idem x : to_signed 32 (to_signed 32 x) = to_signed 32 x.
Proof. unfold to_signed at 1. by rewrite to_signed_mod. Qed.

Lemma to_signed_u64 x : to_signed 32 (u64 x) = to_signed 32 x.
Proof.
  unfold to_signed. replace (u64 x mod 2 ^ 32) with (x mod 2 ^ 32); [done|].
  unfold u64. rewrite (Z.div_mod x (2 ^ 64)) at 1 by lia.
  replace (2 ^ 64 * (x / 2 ^ 64) + x mod 2 ^ 64) with (x mod 2 ^ 64 + (2 ^ 32 * (x / 2 ^ 64)) * 2 ^ 32) by lia.
  by rewrite Z.mod_add by lia.
Qed.

(** An operation of a table on a TCP context. *)
Lemma context_operation_tcp {E} (w : world E) i c a1 a2 b1 b2 (f g : context_ref -> M (world E) Z) :
  context_list w !! i = Some c -> connection_index c 0 = 1%nat -> f (Some i) w = g (Some i) w ->
  context_operation (Some i) [a1; f; b1] w = context_operation (Some i) [a2; g; b2] w.
Proof.
  intros Hc Hi Hfg. unfold context_operation. rewrite bool_decide_eq_true_2 by done.
  by rewrite !(bind_done _ _ _ _ _ (load_context_some w i c Hc)), Hi.
Qed.

Lemma message_operation_tcp {E} (w : world E) i c message a1 a2 b1 b2
    (f g : context_ref -> Z -> M (world E) Z) :
  context_list w !! i = Some c -> connection_index c 0 = 1%nat ->
  f (Some i) message w = g (Some i) message w ->
  message_operation (Some i) message [a1; f; b1] w = message_operation (Some i) message [a2; g; b2] w.
Proof.
  intros Hc Hi Hfg. unfold message_operation. destruct (negb (message =? 0)); [|by rewrite !andb_false_r].
  rewrite !bool_decide_eq_true_2 by done. cbn [andb].
  by rewrite !(bind_done _ _ _ _ _ (load_context_some w i c Hc)), Hi.
Qed.

(** ** A simulated system

    Winsock over the sockets and files of [simulation]; the known folder is
    [C:\u]. *)
Definition sim_folder : list Z := [67; 58; 92; 117].

#[export] Instance windows_simulation : Windows simulation := {
  win_order := Little;
  wsa_startup _ s := (0, s);
  win_socket := socket_inet;
  win_bind := bind_inet;
  win_getsockname := getsockname;
  win_listen := listen;
  win_accept := accept;
  win_connect := connect_inet;
  closesocket := close;
  win_send sock bytes n := send sock bytes;
  win_recv := recv;
  wsa_poll := poll;
  wsa_last_error := errno;
  known_folder s := (Some sim_folder, s);
  wmkdir := mkdir;
  wstat := stat;
  wunlink := unlink;
  wrmdir := rmdir;
  find_files := readdir;
  wfopen_write := fopen_write;
  fopen_contents := fopen_read
}.

(** The library after its directory has been found, with one context. *)
Definition windows_world (c : context_struct) : world (win_env simulation) :=
  World _ (WinEnv _ (Simulation 3 false [] [] [] []) 1) (alloc_with (BStr (sim_folder ++ [0])) initial_memory)
    0 0 [c] QNull QNull
    (MessageQueues (LockedQueue 0 0 handle_message false) (LockedQueue 0 0 handle_message false)
       MESSAGE_QUEUE_SHUTDOWN) 0 [].

Lemma windows_world_ready c : directory_ready sim_folder (windows_world c).
Proof.
  constructor; cbn.
  - apply alloc_with_wf, initial_memory_wf.
  - by split.
  - reflexivity.
  - repeat constructor; lia.
  - lia.
Qed.

(** ** Properties *)

(** C21: On Windows a TCP connection is the Unix implementation over Winsock:
    once the directory of the open ports is known, each of the six operations of
    [connection.c] on a TCP context gives the code, the state and the calls of
    the Unix build whose system calls are the Windows ones and whose default
    directory is the Windows one.  The handle has to fit an [int], and
    [closesocket] to answer zero or [SOCKET_ERROR]. *)
Theorem windows_tcp_is_unix {W : Type} {O : Windows W} (dir : list Z) (w : world (win_env W)) (i : nat)
    (c : context_struct) (message : Z)
    (Hw : directory_ready dir w) (Hc : context_list w !! i = Some c)
    (Htcp : Z.land (configuration c) SUBSTANCE_CONNECTOR_COMM_MASK = SUBSTANCE_CONNECTOR_COMM_TCP)
    (Hh : short_handle c)
    (Hclose : forall s x, fst (closesocket s x) = 0 \/ fst (closesocket s x) = SOCKET_ERROR) :
  let P := windows_platform (windows_names dir) in
  win_open_connection (Some i) w = connector_open_connection (P := P) (Some i) w /\
  win_bridge_connection (Some i) w = connector_bridge_connection (P := P) (Some i) w /\
  win_read_connection (Some i) message w = connector_read_connection (P := P) (Some i) message w /\
  win_write_connection (Some i) message w = connector_write_connection (P := P) (Some i) message w /\
  win_close_connection (Some i) w = connector_close_connection (P := P) (Some i) w /\
  win_accept_connection (Some i) w = connector_accept_connection (P := P) (Some i) w.
Proof.
  intros P. assert (Hi : forall o, connection_index c o = 1%nat).
  { intros o. unfold connection_index. by rewrite Htcp. }
  repeat split.
  - eapply context_operation_tcp; eauto. by apply (agree_open_tcp dir).
  - eapply context_operation_tcp; eauto. by apply (agree_connect_tcp dir).
  - eapply message_operation_tcp; eauto.
  - eapply message_operation_tcp; eauto.
  - eapply context_operation_tcp; eauto. by eapply (close_tcp_same dir).
  - unfold win_accept_connection, connector_accept_connection. rewrite bool_decide_eq_true_2 by done.
    rewrite !(bind_done _ _ _ _ _ (load_context_some w i c Hc)), Hi. by eapply (accept_tcp_same dir).
Qed.

(** A context about to be opened: the port is published below the folder. *)
Lemma windows_tcp_is_unix_witness :
  let c := ContextStruct SUBSTANCE_CONNECTOR_COMM_TCP 0 0 0 0 0 in
  exists w', win_open_connection (Some 0%nat) (windows_world c) = Done SUBSTANCE_CONNECTOR_SUCCESS w' /\
    connector_open_connection (P := windows_platform (windows_names sim_folder)) (Some 0%nat) (windows_world c) =
      Done SUBSTANCE_CONNECTOR_SUCCESS w' /\
    sim_files (os (env w')) = [(win_tcp_path sim_folder 40000, S_IFREG); (sim_folder, S_IFDIR)].
Proof.
  intros c.
  destruct (windows_tcp_is_unix sim_folder (windows_world c) 0 c 0 (windows_world_ready c) eq_refl eq_refl eq_refl
    ltac:(intros s x; left; reflexivity)) as (Hopen & _).
  eexists. split; [vm_compute; reflexivity|]. split; [rewrite <- Hopen; vm_compute; reflexivity|].
  vm_compute. reflexivity.
Defined.

(** A handle is kept as a [size_t] but read from and written to as an
    [int]: the two name the same socket exactly when the handle is the sign
    extension of its low 32 bits.  An accepted socket goes through [int] before
    it is kept, so its context always names one handle, and that is the socket's
    own under the same condition. *)
Theorem windows_handle_width {W : Type} {O : Windows W} (c : context_struct) (s : Z) (w : world (win_env W))
    (i : nat) (Hc : context_list w !! i = Some c) (Hs : 0 <= s < 2 ^ 64) :
  let fits := s < 2 ^ 31 \/ 2 ^ 64 - 2 ^ 31 <= s in
  (short_handle (set_fd s c) <-> fits) /\
  (forall x, win_accept (u64 (cx_fd c)) (os (env w)) = (s, x) ->
     exists fd w', win_connector_accept_tcp (Some i) w = Done fd w' /\ os (env w') = x /\
       short_handle (set_fd (u64 fd) c) /\ (cx_fd (set_fd (u64 fd) c) = s <-> fits)).
Proof.
  intros fits.
  assert (Hfit : u64 (to_signed 32 s) = s <-> fits).
  { subst fits. unfold u64, to_signed. pose proof (Z.mod_pos_bound s (2 ^ 32) ltac:(lia)).
    pose proof (Z.div_mod s (2 ^ 32) ltac:(lia)).
    destruct (Z.ltb_spec (s mod 2 ^ 32) (2 ^ (32 - 1))).
    - rewrite Z.mod_small by lia. lia.
    - rewrite <- (Z.mod_add _ 1) by lia. rewrite Z.mod_small by lia. lia. }
  split; [exact Hfit|]. intros x Hacc. exists (to_signed 32 s).
  exists (set_env (WinEnv _ x (default_tcp_directory (env w))) w).
  assert (Hu : u64 s = s) by (apply Z.mod_small; lia).
  split; [|split; [done|]; split].
  - unfold win_connector_accept_tcp. rewrite (bind_done _ _ _ _ _ (load_context_some w i c Hc)).
    unfold sys, as_int, as_socket, on_os. rewrite Hacc. by rewrite Hu.
  - unfold short_handle, fd_of. cbn [cx_fd set_fd]. by rewrite to_signed_u64, to_signed_idem.
  - exact Hfit.
Qed.

Lemma windows_handle_width_witness :
  let c := ContextStruct SUBSTANCE_CONNECTOR_COMM_TCP 0 0 0 0 0 in
  short_handle (set_fd 3 c) /\
  exists fd w', win_connector_accept_tcp (Some 0%nat) (windows_world c) = Done fd w' /\
    cx_fd (set_fd (u64 fd) c) = 3.
Proof.
  intros c. destruct (windows_handle_width c 3 (windows_world c) 0 eq_refl ltac:(lia)) as [H1 H2].
  split; [apply H1; lia|].
  destruct (H2 _ eq_refl) as (fd & w' & Hrun & _ & _ & H). exists fd, w'. split; [exact Hrun | apply H; lia].
Defined.

(** The Windows paths of the directory below [folder]. *)
Definition win_directory (folder : list Z) : list Z :=
  folder ++ WIN_PATH_DELIM :: CONNECTOR_DEFAULT_TCP_SUBDIRECTORY.

(** The state after the folder has been found. *)
Definition win_set_up {W} (w : world (win_env W)) (x : W) (folder : list Z) : world (win_env W) :=
  set_env (WinEnv _ x (next_addr (mem w)))
    (set_mem (alloc_with (BStr (win_directory folder ++ [0])) (mem w)) w).

Lemma win_setup_run {W} {O : Windows W} (w : world (win_env W)) x folder :
  mem_wf (mem w) -> mem_serving (mem w) -> known_folder (os (env w)) = (Some folder, x) ->
  Z.of_nat (length folder) < 2 ^ 31 ->
  win_setup_default_tcp_directory w = Done SUBSTANCE_CONNECTOR_SUCCESS (win_set_up w x folder).
Proof.
  intros Hwf Hs Hf Hl. unfold win_setup_default_tcp_directory.
  unfold bind at 1, sys_os, sys, on_os. rewrite Hf.
  erewrite (bind_done (in_mem _)); [|apply (in_mem_done _ (set_env _ w)), path_join_on_serving; try done].
  - done.
  - cbn [total_length length]. change (length CONNECTOR_DEFAULT_TCP_SUBDIRECTORY) with 25%nat. lia.
Qed.

Lemma win_set_up_ready {W} (w : world (win_env W)) x folder :
  mem_wf (mem w) -> mem_serving (mem w) -> wstring folder -> Z.of_nat (length folder) < 2 ^ 31 ->
  directory_ready (win_directory folder) (win_set_up w x folder).
Proof.
  intros Hwf Hs Hw Hl. constructor.
  - by apply alloc_with_wf.
  - done.
  - by apply alloc_with_owns.
  - apply Forall_app. split; [done|]. unfold WIN_PATH_DELIM, CONNECTOR_DEFAULT_TCP_SUBDIRECTORY.
    repeat constructor; lia.
  - unfold win_directory. rewrite length_app. cbn [length].
    change (length CONNECTOR_DEFAULT_TCP_SUBDIRECTORY) with 25%nat. lia.
Qed.

Lemma released_heap m : mem_wf m -> heap (released m) = heap m.
Proof.
  intros Hwf. unfold released, free_cell, alloc_with. cbn [heap set_heap set_next_addr].
  by rewrite delete_insert_id by (by apply mem_wf_fresh).
Qed.

(** C22: Setting up finds the folder of the user, and the library is then ready
    with the directory below it: a published port is the file of that number in
    it; cleaning up releases the path and nothing else.  When the folder is not
    known, setting up fails, and opening a connection fails before a socket is
    made. *)
Theorem windows_directory_roundtrip {W : Type} {O : Windows W} (w : world (win_env W)) (x : W)
    (Hwf : mem_wf (mem w)) (Hs : mem_serving (mem w)) (Hnone : default_tcp_directory (env w) = 0) :
  (forall folder, known_folder (os (env w)) = (Some folder, x) -> wstring folder ->
     Z.of_nat (length folder) < 2 ^ 31 ->
     exists w1, win_setup_default_tcp_directory w = Done SUBSTANCE_CONNECTOR_SUCCESS w1 /\
       os (env w1) = x /\ directory_ready (win_directory folder) w1 /\
       (forall port x', wfopen_write (win_tcp_path (win_directory folder) port) x = (true, x') ->
          exists w2, win_commit_open_tcp_port port w1 = Done SUBSTANCE_CONNECTOR_SUCCESS w2 /\
            os (env w2) = x' /\ heap (mem w2) = heap (mem w1)) /\
       exists w3, win_cleanup_default_tcp_directory w1 = Done SUBSTANCE_CONNECTOR_SUCCESS w3 /\
         heap (mem w3) = heap (mem w) /\ default_tcp_directory (env w3) = 0 /\ os (env w3) = x) /\
  (known_folder (os (env w)) = (None, x) ->
     let w1 := set_env (WinEnv _ x 0) w in
     win_setup_default_tcp_directory w = Done SUBSTANCE_CONNECTOR_ERROR w1 /\
     forall context, win_connector_open_tcp context w1 = Done SUBSTANCE_CONNECTOR_ERROR w1).
Proof.
  split.
  - intros folder Hf Hw Hl. pose proof (win_setup_run w x folder Hwf Hs Hf Hl) as Hrun.
    eexists. split; [exact Hrun|]. split; [done|].
    assert (Hr : directory_ready (win_directory folder) (win_set_up w x folder))
      by (by apply win_set_up_ready).
    split; [exact Hr|]. split.
    + intros port x' Hopen. destruct (commit_runs _ _ port Hr) as [Hc _].
      unfold commit_result in Hc. cbn [fopen_write windows_platform] in Hc.
      rewrite windows_names_port in Hc. unfold on_os in Hc. cbn [env set_env os win_set_up] in Hc.
      rewrite Hopen in Hc. eexists. split; [exact Hc|]. split; [done|].
      apply released_heap, Hr.
    + unfold win_cleanup_default_tcp_directory.
      rewrite (bind_done _ _ (win_set_up w x folder) (env (win_set_up w x folder)) (win_set_up w x folder)) by done.
      erewrite (bind_done (in_mem _)); [|apply (in_mem_done _ (win_set_up w x folder));
        eapply connector_free_owns; [apply Hr | apply (ready_directory _ _ Hr)]].
      eexists. split; [reflexivity|]. split; [|done].
      rewrite <- (released_heap (mem w) Hwf), <- (released_alloc (BStr (win_directory folder ++ [0]))). done.
  - intros Hf w1. split.
    + unfold win_setup_default_tcp_directory, bind, sys_os, sys, on_os. rewrite Hf, Hnone. done.
    + intros context. subst w1. by destruct w, context.
Qed.

Lemma windows_directory_roundtrip_witness :
  exists w1 w3, win_setup_default_tcp_directory (set_env (WinEnv _ (Simulation 3 false [] [] [] []) 0)
      (set_mem initial_memory (windows_world zero_context))) = Done SUBSTANCE_CONNECTOR_SUCCESS w1 /\
    directory_ready (win_directory sim_folder) w1 /\
    win_cleanup_default_tcp_directory w1 = Done SUBSTANCE_CONNECTOR_SUCCESS w3 /\ heap (mem w3) = ∅.
Proof.
  destruct (windows_directory_roundtrip (set_env (WinEnv _ (Simulation 3 false [] [] [] []) 0)
    (set_mem initial_memory (windows_world zero_context))) (Simulation 3 false [] [] [] [])
    initial_memory_wf ltac:(split; reflexivity) eq_refl) as [H _].
  destruct (H sim_folder eq_refl (ready_wide _ _ (windows_world_ready zero_context)) ltac:(cbn; lia))
    as (w1 & Hrun & _ & Hr & _ & w3 & Hclean & Hh & _).
  exists w1, w3. split; [exact Hrun|]. split; [exact Hr|]. split; [exact Hclean | exact Hh].
Defined.

(** Windows has no Unix sockets, whatever the state: every operation on a
    context of that type answers [SUBSTANCE_CONNECTOR_UNSUPPORTED], accepting
    answers [-1], their directory is never found, no file is one, and nothing
    changes. *)
Theorem windows_unix_unsupported {W : Type} {O : Windows W} (w : world (win_env W)) (i : nat)
    (c : context_struct) (message : Z) (p : path)
    (Hc : context_list w !! i = Some c) (Hm : message <> 0)
    (Hunix : Z.land (configuration c) SUBSTANCE_CONNECTOR_COMM_MASK = SUBSTANCE_CONNECTOR_COMM_UNIX) :
  Forall (fun op => op w = Done SUBSTANCE_CONNECTOR_UNSUPPORTED w)
    [win_open_connection (Some i); win_bridge_connection (Some i); win_read_connection (Some i) message;
     win_write_connection (Some i) message; win_close_connection (Some i)] /\
  win_accept_connection (Some i) w = Done (-1) w /\
  win_ensure_default_unix_directory w = Done SUBSTANCE_CONNECTOR_ERROR w /\
  win_is_unix_socket p w = Done SUBSTANCE_CONNECTOR_ERROR w.
Proof.
  assert (Hi : forall o, connection_index c o = 2%nat).
  { intros o. unfold connection_index. by rewrite Hunix. }
  assert (Hop : forall t1 t2 w', context_operation (Some i) [t1; t2; fun _ => ret SUBSTANCE_CONNECTOR_UNSUPPORTED] w = w' ->
    w' = Done SUBSTANCE_CONNECTOR_UNSUPPORTED w).
  { intros t1 t2 w' <-. unfold context_operation. rewrite bool_decide_eq_true_2 by done.
    by rewrite (bind_done _ _ _ _ _ (load_context_some w i c Hc)), Hi. }
  assert (Hmop : forall t1 t2 w', message_operation (Some i) message
      [t1; t2; fun _ _ => ret SUBSTANCE_CONNECTOR_UNSUPPORTED] w = w' ->
    w' = Done SUBSTANCE_CONNECTOR_UNSUPPORTED w).
  { intros t1 t2 w' <-. unfold message_operation. rewrite bool_decide_eq_true_2, (proj2 (Z.eqb_neq message 0)) by done.
    cbn [andb negb]. by rewrite (bind_done _ _ _ _ _ (load_context_some w i c Hc)), Hi. }
  split; [|split; [|split]].
  - repeat apply List.Forall_cons; try apply List.Forall_nil; first [by eapply Hop | by eapply Hmop].
  - unfold win_accept_connection. rewrite bool_decide_eq_true_2 by done.
    by rewrite (bind_done _ _ _ _ _ (load_context_some w i c Hc)), Hi.
  - by destruct w.
  - done.
Qed.

Lemma windows_unix_unsupported_witness :
  let c := ContextStruct SUBSTANCE_CONNECTOR_COMM_UNIX 0 0 0 0 0 in
  win_open_connection (Some 0%nat) (windows_world c) = Done SUBSTANCE_CONNECTOR_UNSUPPORTED (windows_world c) /\
  win_accept_connection (Some 0%nat) (windows_world c) = Done (-1) (windows_world c).
Proof.
  intros c. destruct (windows_unix_unsupported (windows_world c) 0 c 1 PNull eq_refl ltac:(lia) eq_refl)
    as (H & Hacc & _).
  split; [exact (Forall_inv H) | exact Hacc].
Defined.

(** A failed [socket] goes unnoticed, since a [SOCKET] is not negative: the
    library goes on to connect the invalid handle and closes it.  As Winsock
    refuses that handle, the answer is still the one for a failed opening. *)
Theorem windows_socket_failure {W : Type} {O : Windows W} (w : world (win_env W)) (i : nat)
    (c : context_struct) (x1 x2 x3 : W) (r : Z)
    (Hc : context_list w !! i = Some c)
    (Hsocket : win_socket (os (env w)) = (INVALID_SOCKET, x1))
    (Hconnect : win_connect INVALID_SOCKET (u16 (cx_port c)) x1 = (SOCKET_ERROR, x2))
    (Hclose : closesocket INVALID_SOCKET x2 = (r, x3)) :
  win_connector_connect_tcp (Some i) w =
    Done SUBSTANCE_CONNECTOR_OPEN_FAIL (set_env (WinEnv _ x3 (default_tcp_directory (env w))) w).
Proof.
  unfold win_connector_connect_tcp, win_connect_tcp_impl. rewrite bool_decide_eq_true_2 by done.
  rewrite (bind_done _ _ _ _ _ (load_context_some w i c Hc)).
  unfold bind at 1, sys at 1, as_socket, on_os. rewrite Hsocket.
  change (u64 INVALID_SOCKET) with INVALID_SOCKET. cbn beta iota.
  change (INVALID_SOCKET <? 0) with false. cbn iota.
  unfold bind, sys_os, sys, on_os. cbn [env set_env os default_tcp_directory]. rewrite Hconnect.
  change (SOCKET_ERROR <? 0) with true. cbn [env set_env os default_tcp_directory]. by rewrite Hclose.
Qed.

(** Each initialisation starts Winsock once more; nothing in the library ever
    calls [WSACleanup].  A failed start leaves the table of contexts alone. *)
Lemma windows_init_contexts {W : Type} {O : Windows W} (w : world (win_env W)) (r : Z) (x : W) :
  wsa_startup MAKEWORD_2_2 (os (env w)) = (r, x) ->
  let w1 := set_env (WinEnv _ x (default_tcp_directory (env w))) w in
  win_init_context_subsystem w =
    (if r =? 0 then connector_init_context_subsystem w1 else Done SUBSTANCE_CONNECTOR_ERROR w1).
Proof.
  intros Hr w1. unfold win_init_context_subsystem, bind, sys_os, sys, on_os. rewrite Hr. by destruct (r =? 0).
Qed.
