(* ===== verification/Contexts.v ===== *)
(** * The table of contexts: invariant and correctness

    Theorems on [ContextQueue]: the free queue holds exactly the cleared slots,
    opening and connecting take a slot and closing gives it back, and what
    happens where the code does not look at a result. *)

From S2P Require Import Prelude Wire Memory Strings UintQueue LockedQueue Message World Callbacks.
From S2P Require Import FileSystem Connection SlotFrame ContextQueue.

(** ** Bounded queues of contexts *)

(** [p] is a live queue of 34 slots that holds [l], and [n] more pushes are far
    from wrapping its counters. *)
Definition id_queue (p : queue_ptr) (l : list Z) (n : Z) : Prop :=
  exists q, p = QLive q /\ queue_repr q l /\ size q = 34 /\ 0 <= n /\ write_index q + n < 2 ^ 32 - 1.

Lemma id_queue_pop_nil p n :
  id_queue p [] n -> connector_uint_queue_pop p = Done (SUBSTANCE_CONNECTOR_ERROR, None) p.
Proof. intros (q & -> & Hq & _). by rewrite (pop_repr q []). Qed.

Lemma id_queue_pop p x l n :
  id_queue p (x :: l) n -> exists p', connector_uint_queue_pop p =
    Done (SUBSTANCE_CONNECTOR_SUCCESS, Some x) p' /\ id_queue p' l n.
Proof.
  intros (q & -> & Hq & Hs & Hn & Hw). exists (QLive (popped_queue q)).
  rewrite (pop_repr q (x :: l)) by done. split; [done|]. exists (popped_queue q).
  split; [done|]. split; [by eapply popped_queue_repr|]. done.
Qed.

Lemma id_queue_push p x l n :
  id_queue p l n -> 0 < n -> (length l < 33)%nat ->
  exists p', connector_uint_queue_push x p = Done SUBSTANCE_CONNECTOR_SUCCESS p' /\
    id_queue p' (l ++ [x]) (n - 1).
Proof.
  intros (q & -> & Hq & Hs & Hn & Hw) Hp Hl. exists (QLive (pushed_queue q x)).
  rewrite (push_repr q l x) by (done || lia).
  rewrite (proj2 (Z.ltb_lt _ _)) by lia. split; [done|]. exists (pushed_queue q x).
  split; [done|]. split; [apply pushed_queue_repr; [done | lia | lia]|]. split; [done|].
  cbn. lia.
Qed.

Lemma id_queue_live p l n : id_queue p l n -> exists q, p = QLive q.
Proof. intros (q & -> & _). eauto. Qed.

(** ** Invariant *)

Record contexts_inv {E} (w : world E) (free : list Z) (n : Z) : Prop := {
  ci_wf : mem_wf (mem w);
  ci_serving : mem_serving (mem w);
  ci_length : length (context_list w) = 32%nat;
  ci_queue : id_queue (free_contexts w) free n;
  ci_nodup : NoDup free;
  ci_range : Forall (fun i => 0 <= i < 32) free;
  ci_free : forall i, i ∈ free -> context_list w !! Z.to_nat i = Some zero_context;
  ci_used : forall i, 0 <= i < 32 -> i ∉ free -> exists c, context_list w !! Z.to_nat i = Some c /\
    Z.land (configuration c) SUBSTANCE_CONNECTOR_CONN_MASK <> SUBSTANCE_CONNECTOR_CONN_CLOSED
}.

Lemma free_length l : NoDup l -> Forall (fun i => 0 <= i < 32) l -> (length l <= 32)%nat.
Proof.
  intros Hnd Hr. change 32%nat with (length (seqZ 0 32)). apply submseteq_length, NoDup_submseteq; [done|].
  intros i Hi. rewrite Forall_forall in Hr. apply elem_of_seqZ. specialize (Hr i Hi). lia.
Qed.

Section invariant.
Context {E : Type}.
Implicit Types w : world E.

(** Taking the first free slot. *)
Lemma contexts_inv_take w w' i l n c :
  contexts_inv w (i :: l) n -> mem_wf (mem w') -> mem_serving (mem w') ->
  context_list w' = <[Z.to_nat i := c]> (context_list w) -> id_queue (free_contexts w') l n ->
  Z.land (configuration c) SUBSTANCE_CONNECTOR_CONN_MASK <> SUBSTANCE_CONNECTOR_CONN_CLOSED ->
  contexts_inv w' l n.
Proof.
  intros [_ _ Hlen _ Hnd Hr Hfree Hused] Hwf Hs Hl Hq Hc.
  apply NoDup_cons in Hnd as [Hi Hnd]. apply Forall_cons in Hr as [Hri Hr].
  assert (Hne : forall j, 0 <= j < 32 -> j <> i -> Z.to_nat i <> Z.to_nat j) by lia.
  constructor; auto; rewrite Hl.
  - by rewrite length_insert.
  - intros j Hj. assert (j <> i) by congruence.
    rewrite list_lookup_insert_ne by (apply Hne; [|done]; rewrite Forall_forall in Hr; auto).
    apply Hfree, elem_of_cons. by right.
  - intros j Hj Hnj. destruct (decide (j = i)) as [->|Hji].
    + exists c. split; [|done]. apply list_lookup_insert_eq. lia.
    + rewrite list_lookup_insert_ne by auto. apply Hused; [done|]. rewrite elem_of_cons. intuition.
Qed.

(** Giving a used slot back. *)
Lemma contexts_inv_return w w' i l n n' :
  contexts_inv w l n -> 0 <= i < 32 -> i ∉ l -> mem_wf (mem w') -> mem_serving (mem w') ->
  context_list w' = <[Z.to_nat i := zero_context]> (context_list w) ->
  id_queue (free_contexts w') (l ++ [i]) n' -> contexts_inv w' (l ++ [i]) n'.
Proof.
  intros [_ _ Hlen _ Hnd Hr Hfree Hused] Hi Hil Hwf Hs Hl Hq.
  constructor; auto; rewrite ?Hl.
  - by rewrite length_insert.
  - apply NoDup_app. split; [done|]. split; [|apply NoDup_singleton].
    intros x Hx Hx'. apply list_elem_of_singleton in Hx'. congruence.
  - apply List.Forall_app. split; [done|]. by constructor.
  - intros j Hj. destruct (decide (j = i)) as [->|Hji]; [apply list_lookup_insert_eq; lia|].
    rewrite elem_of_app, list_elem_of_singleton in Hj. destruct Hj as [Hj|]; [|done].
    rewrite list_lookup_insert_ne; [by apply Hfree|].
    rewrite Forall_forall in Hr. specialize (Hr j Hj). lia.
  - intros j Hj Hnj. rewrite elem_of_app, list_elem_of_singleton in Hnj.
    rewrite list_lookup_insert_ne by (intros ?; apply Hnj; right; lia). apply Hused; auto.
Qed.

Lemma in_free_done {A} (m : M queue_ptr A) w a p :
  m (free_contexts w) = Done a p -> in_free m w = Done a (set_free_contexts p w).
Proof. intros H. unfold in_free, zoom. by rewrite H. Qed.

Lemma append_available_done w l n i :
  id_queue (connection_queue w) l n -> 0 < n -> (length l < 33)%nat ->
  exists p, append_available i w = Done SUBSTANCE_CONNECTOR_SUCCESS
      (set_trace (trace w ++ [BroadcastInbound]) (set_connection_queue p w)) /\
    id_queue p (l ++ [i]) (n - 1).
Proof.
  intros Hq Hn Hl. destruct (id_queue_push _ i l n Hq Hn Hl) as (p & Hp & Hq').
  exists p. split; [|done]. destruct (id_queue_live _ _ _ Hq) as [q Hlive].
  unfold append_available, in_available, connector_available_queue_push, bind, zoom.
  rewrite Hlive in *. by rewrite Hp.
Qed.

End invariant.

(** ** Opening and connecting *)

Definition tcp_open_bits : Z := Z.lor SUBSTANCE_CONNECTOR_COMM_TCP SUBSTANCE_CONNECTOR_CONN_OPEN.
Definition tcp_connected_bits : Z :=
  Z.lor SUBSTANCE_CONNECTOR_COMM_TCP SUBSTANCE_CONNECTOR_CONN_CONNECTED.

Section lifecycle.
Context {E : Type} {P : Platform E} {B : Bindings E}.
Implicit Types w : world E.

(** The slot while the socket is being opened: everything but the environment,
    the popped queue and the slot is as before. *)
Lemma tcp_attempt (op : context_ref -> M (world E) Z) o1 o2 w i l n port p :
  contexts_inv w (i :: l) n -> id_queue p l n ->
  let c0 := ContextStruct tcp_open_bits 0 port 0 0 0 in
  keeps (slot_only (Z.to_nat i) c0
           (set_context_list (<[Z.to_nat i := c0]> (context_list w)) (set_free_contexts p w)))
    (op (slot i)) ->
  exists r e m c, context_op_generic i (fun x => context_operation x [o1; op; o2])
      (set_context_list (<[Z.to_nat i := c0]> (context_list w)) (set_free_contexts p w)) =
    Done r (set_env e (set_mem m (set_context_list (<[Z.to_nat i := c]> (context_list w))
             (set_free_contexts p w)))) /\
    same_slot c0 c /\ mem_wf m /\ mem_serving m /\ mem_config_eq (mem w) m /\ heap m = heap (mem w).
Proof.
  intros Hinv Hp c0 Hop. pose proof Hinv as [Hwf Hs Hlen Hq Hnd Hr Hfree Hused].
  apply Forall_cons in Hr as [Hi Hr].
  set (w3 := set_context_list _ _) in *. unfold context_op_generic, SUBSTANCE_CONNECTOR_CONTEXT_COUNT.
  rewrite (proj2 (Z.ltb_lt i 32)) by lia.
  assert (H3 : slot_only (Z.to_nat i) c0 w3 w3).
  { apply slot_only_refl; [done | done |]. cbn. apply list_lookup_insert_eq. lia. }
  destruct (keeps_tcp_operation (Z.to_nat i) c0 w3 o1 op o2 eq_refl Hop w3 H3) as (r & w4 & Hrun & H4).
  destruct H4 as [Hwf4 Hs4 Hc4 Hh4 (c & Hsame & Hw4) _].
  exists r, (env w4), (mem w4), c. split; [|done].
  etransitivity; [exact Hrun|]. f_equal. rewrite Hw4. cbn. by rewrite list_insert_insert_eq.
Qed.

Lemma pop_free w i l n :
  contexts_inv w (i :: l) n -> exists p, id_queue p l n /\
    in_free connector_uint_queue_pop w = Done (SUBSTANCE_CONNECTOR_SUCCESS, Some i) (set_free_contexts p w).
Proof.
  intros [_ _ _ Hq _ _ _ _]. destruct (id_queue_pop _ _ _ _ Hq) as (p & Hp & Hq').
  exists p. split; [done|]. by apply in_free_done.
Qed.

Lemma store_slot_done w i c c' :
  context_list w !! Z.to_nat i = Some c ->
  store_context (slot i) c' w = Done tt (set_context_list (<[Z.to_nat i := c']> (context_list w)) w).
Proof. intros H. by eapply store_context_some. Qed.

Lemma context_configuration_done w i c m :
  0 <= i < 32 -> context_list w !! Z.to_nat i = Some c -> 0 <= m < 2 ^ 32 ->
  context_configuration i m w = Done (Z.land (configuration c) m) w.
Proof.
  intros Hi Hc Hm. unfold context_configuration, SUBSTANCE_CONNECTOR_CONTEXT_COUNT.
  rewrite (proj2 (Z.ltb_lt i 32)) by lia.
  rewrite (bind_done _ _ _ _ _ (load_context_some w _ c Hc)). by rewrite land_mask_small.
Qed.

(** [set_context_list (...)] on a slot written twice. *)
Lemma store_slot_twice w i c c1 c2 :
  context_list w !! Z.to_nat i = Some c ->
  (store_context (slot i) c1 ;;; store_context (slot i) c2) w =
    Done tt (set_context_list (<[Z.to_nat i := c2]> (context_list w)) w).
Proof.
  intros H. rewrite (bind_done _ _ _ _ _ (store_slot_done w i c c1 H)).
  erewrite store_slot_done by (cbn; apply list_lookup_insert_eq; by eapply lookup_lt_Some).
  cbn. by rewrite list_insert_insert_eq.
Qed.

(** The state after an attempt to open the slot [i], which left [c] in it. *)
Definition attempted w (e : E) (m : memory) (p : queue_ptr) (i : Z) (c : context_struct) : world E :=
  set_env e (set_mem m (set_context_list (<[Z.to_nat i := c]> (context_list w)) (set_free_contexts p w))).

Lemma open_tcp_runs {W : WritableFiles E} w i l n port la k :
  contexts_inv w (i :: l) n -> 0 < n -> id_queue (connection_queue w) la k -> 0 < k ->
  (length la < 33)%nat ->
  exists r id w' e m c p, connector_context_open_tcp port true w = Done (r, id) w' /\
    id_queue p l n /\ same_slot (ContextStruct tcp_open_bits 0 port 0 0 0) c /\
    mem_wf m /\ mem_serving m /\ mem_config_eq (mem w) m /\ heap m = heap (mem w) /\
    ((r = SUBSTANCE_CONNECTOR_SUCCESS /\ id = Some i /\ exists pa, id_queue pa (la ++ [i]) (k - 1) /\
        w' = set_trace (trace w ++ [BroadcastInbound]) (set_connection_queue pa (attempted w e m p i c))) \/
     (r <> SUBSTANCE_CONNECTOR_SUCCESS /\ id = None /\ exists p', id_queue p' (l ++ [i]) (n - 1) /\
        w' = set_free_contexts p' (attempted w e m p i zero_context))).
Proof.
  intros Hinv Hn Hla Hk Hlla. pose proof Hinv as [Hwf Hs Hlen Hq Hnd Hr Hfree Hused].
  apply NoDup_cons in Hnd as [Hil Hnd]. apply Forall_cons in Hr as [Hi Hr].
  assert (Hzero : context_list w !! Z.to_nat i = Some zero_context)
    by (apply Hfree, elem_of_cons; by left).
  destruct (pop_free w i l n Hinv) as (p & Hp & Hpop).
  unfold connector_context_open_tcp, connector_context_open. rewrite (bind_done _ _ _ _ _ Hpop).
  cbn iota. rewrite Z.eqb_refl. cbn [default from_option id desc_connection_data].
  rewrite (bind_done _ _ _ _ _ (store_slot_done (set_free_contexts p w) i zero_context _ Hzero)).
  rewrite list_insert_id by done.
  set (c0 := ContextStruct tcp_open_bits 0 port 0 0 0).
  rewrite (bind_done (in_mem (connector_strdup 0)) _ _ 0 (set_free_contexts p w)) by (by destruct w).
  change (described_context _ 0) with c0.
  rewrite (bind_done _ _ _ _ _ (store_slot_done (set_free_contexts p w) i zero_context c0 Hzero)).
  cbn [context_list set_free_contexts].
  destruct (tcp_attempt connector_open_tcp default_context_operation connector_open_unix w i l n port p Hinv Hp)
    as (r & e & m & c & Hrun & Hsame & Hwfm & Hsm & Hcm & Hhm); [apply keeps_open_tcp|].
  change (fun x => context_operation x _) with (connector_open_connection (E := E)) in Hrun.
  rewrite (bind_done _ _ _ _ _ Hrun).
  change (set_env e _) with (attempted w e m p i c).
  destruct (Z.eqb_spec r SUBSTANCE_CONNECTOR_SUCCESS) as [->|Hr']; cbn [negb].
  - destruct (append_available_done (attempted w e m p i c) la k i Hla Hk Hlla) as (pa & Happ & Hpa).
    rewrite (bind_done _ _ _ _ _ Happ). eexists _, _, _, e, m, c, p. split; [reflexivity|].
    do 6 (split; [done|]). left. do 2 (split; [done|]). by exists pa.
  - rewrite (bind_done _ _ _ _ _ (store_slot_done (attempted w e m p i c) i c zero_context
      ltac:(cbn; apply list_lookup_insert_eq; lia))).
    destruct (id_queue_push p i l n Hp Hn) as (p' & Hpush & Hp').
    { pose proof (free_length l Hnd Hr). lia. }
    rewrite (bind_done _ _ _ _ _ (in_free_done _ (set_context_list _ (attempted w e m p i c)) _ _ Hpush)).
    eexists _, _, _, e, m, c, p. split; [reflexivity|]. do 6 (split; [done|]). right. do 2 (split; [done|]).
    exists p'. split; [done|]. unfold attempted. cbn. by rewrite list_insert_insert_eq.
Qed.

Lemma open_tcp_cases {W : WritableFiles E} w i l n port la k :
  contexts_inv w (i :: l) n -> 0 < n -> id_queue (connection_queue w) la k -> 0 < k ->
  (length la < 33)%nat ->
  exists r id w', connector_context_open_tcp port true w = Done (r, id) w' /\
    heap (mem w') = heap (mem w) /\
    (forall j, j <> Z.to_nat i -> context_list w' !! j = context_list w !! j) /\
    ((r = SUBSTANCE_CONNECTOR_SUCCESS /\ id = Some i /\ contexts_inv w' l n /\
      (exists c, context_list w' !! Z.to_nat i = Some c /\ configuration c = tcp_open_bits) /\
      id_queue (connection_queue w') (la ++ [i]) (k - 1) /\ trace w' = trace w ++ [BroadcastInbound]) \/
     (r <> SUBSTANCE_CONNECTOR_SUCCESS /\ id = None /\ contexts_inv w' (l ++ [i]) (n - 1) /\
      connection_queue w' = connection_queue w /\ trace w' = trace w)).
Proof.
  intros Hinv Hn Hla Hk Hlla. pose proof Hinv as [_ _ Hlen _ Hnd Hr _ _].
  apply NoDup_cons in Hnd as [Hil _]. apply Forall_cons in Hr as [Hi _].
  destruct (open_tcp_runs w i l n port la k Hinv Hn Hla Hk Hlla) as
    (r & id & w' & e & m & c & p & Hrun & Hp & Hsame & Hwfm & Hsm & Hcm & Hhm & Hcases).
  assert (Hc : Z.land (configuration c) SUBSTANCE_CONNECTOR_CONN_MASK <> SUBSTANCE_CONNECTOR_CONN_CLOSED)
    by (by rewrite (same_configuration _ _ Hsame)).
  exists r, id, w'. split; [exact Hrun|].
  destruct Hcases as [(-> & -> & pa & Hpa & ->)|(Hne & -> & p' & Hp' & ->)];
    (split; [done|]; split; [intros j Hj; cbn; by apply list_lookup_insert_ne|]).
  - left. do 2 (split; [done|]). split; [by apply (contexts_inv_take w _ i l n c)|]. split; [|done].
    exists c. split; [cbn; apply list_lookup_insert_eq; lia|]. by rewrite (same_configuration _ _ Hsame).
  - right. do 2 (split; [done|]). split; [|done].
    apply (contexts_inv_return (attempted w e m p i c) _ i l n); [by apply (contexts_inv_take w _ i l n c) | done..| | done].
    unfold attempted. cbn. by rewrite list_insert_insert_eq.
Qed.

Lemma connect_tcp_cases w i l n port la k :
  contexts_inv w (i :: l) n -> 0 < n -> id_queue (connection_queue w) la k -> 0 < k ->
  (length la < 33)%nat ->
  exists r id w', connector_context_connect_tcp port true w = Done (r, id) w' /\
    heap (mem w') = heap (mem w) /\
    (forall j, j <> Z.to_nat i -> context_list w' !! j = context_list w !! j) /\
    ((r = SUBSTANCE_CONNECTOR_SUCCESS /\ id = Some i /\ contexts_inv w' l n /\
      (exists c, context_list w' !! Z.to_nat i = Some c /\ configuration c = tcp_connected_bits /\
         connection_data c = 0 /\ cx_application_name c = 0) /\
      id_queue (connection_queue w') (la ++ [i]) (k - 1) /\ trace w' = trace w ++ [BroadcastInbound]) \/
     (r <> SUBSTANCE_CONNECTOR_SUCCESS /\ id = None /\ id_queue (free_contexts w') (l ++ [i]) (n - 1) /\
      (exists c, context_list w' !! Z.to_nat i = Some c /\ configuration c = tcp_open_bits) /\
      connection_queue w' = connection_queue w /\ trace w' = trace w)).
Proof.
  intros Hinv Hn Hla Hk Hlla. pose proof Hinv as [Hwf Hs Hlen Hq Hnd Hr Hfree Hused].
  apply NoDup_cons in Hnd as [Hil Hnd]. apply Forall_cons in Hr as [Hi Hr].
  assert (Hzero : context_list w !! Z.to_nat i = Some zero_context)
    by (apply Hfree, elem_of_cons; by left).
  destruct (pop_free w i l n Hinv) as (p & Hp & Hpop).
  unfold connector_context_connect_tcp, connector_context_connect. rewrite (bind_done _ _ _ _ _ Hpop).
  cbn [default from_option id snd desc_connection_data].
  rewrite (bind_done _ _ _ _ _ (store_slot_done (set_free_contexts p w) i zero_context _ Hzero)).
  rewrite list_insert_id by done.
  set (c0 := ContextStruct tcp_open_bits 0 port 0 0 0). change (described_context _ 0) with c0.
  rewrite (bind_done _ _ _ _ _ (store_slot_done (set_free_contexts p w) i zero_context c0 Hzero)).
  cbn [context_list set_free_contexts].
  destruct (tcp_attempt connector_connect_tcp default_context_operation connector_connect_unix w i l n port p Hinv Hp)
    as (r & e & m & c & Hrun & Hsame & Hwfm & Hsm & Hcm & Hhm); [apply keeps_connect_tcp|].
  change (fun x => context_operation x _) with (connector_bridge_connection (E := E)) in Hrun.
  rewrite (bind_done _ _ _ _ _ Hrun).
  set (w4 := set_env e _).
  assert (Hw4 : context_list w4 !! Z.to_nat i = Some c) by (cbn; apply list_lookup_insert_eq; lia).
  destruct (Z.eqb_spec r SUBSTANCE_CONNECTOR_SUCCESS) as [->|Hr']; cbn [negb].
  - rewrite (bind_done _ _ _ _ _ (update_context_some w4 _ c _ Hw4)).
    set (c' := set_connection_data 0 _). cbn [context_list set_env set_mem set_context_list w4].
    rewrite list_insert_insert_eq. set (w5 := set_context_list _ _).
    assert (Hc' : configuration c' = tcp_connected_bits)
      by (unfold c'; cbn; by rewrite (same_configuration _ _ Hsame)).
    assert (Htake : contexts_inv w5 l n)
      by (apply (contexts_inv_take w w5 i l n c'); try done; by rewrite Hc').
    destruct (append_available_done w5 la k i Hla Hk Hlla) as (pa & Happ & Hpa).
    rewrite (bind_done _ _ _ _ _ Happ). eexists _, _, _. split; [reflexivity|].
    split; [done|]. split; [intros j Hj; cbn; by apply list_lookup_insert_ne|].
    left. split; [done|]. split; [done|]. split; [by destruct Htake|].
    split; [|done]. exists c'. split; [cbn; apply list_lookup_insert_eq; lia|].
    split; [done|]. split; [done|]. unfold c'. cbn. by rewrite (same_name _ _ Hsame).
  - destruct (id_queue_push p i l n Hp Hn) as (p' & Hpush & Hp').
    { pose proof (free_length l Hnd Hr). lia. }
    rewrite (bind_done _ _ _ _ _ (in_free_done _ w4 _ _ Hpush)).
    eexists _, _, _. split; [reflexivity|]. split; [done|].
    split; [intros j Hj; cbn; by apply list_lookup_insert_ne|].
    right. split; [done|]. split; [done|]. split; [done|]. split; [|done].
    exists c. split; [done|]. by rewrite (same_configuration _ _ Hsame).
Qed.

End lifecycle.

(** ** Returning a context *)

Section returning.
Context {E : Type} {P : Platform E} {B : Bindings E} {Q : QuietBindings E}.
Implicit Types w : world E.

(** A block the slot owns: NULL or a live string. *)
Definition slot_string (m : memory) (p : Z) (s : option (list Z)) : Prop :=
  match s with
  | None => p = 0
  | Some s => cstring s /\ points_to_string m p s
  end.

Lemma free_slot_string m p s :
  mem_wf m -> slot_string m p s ->
  exists m', connector_free p m = Done tt m' /\ mem_wf m' /\ mem_config_eq m m' /\
    heap m' = match s with Some _ => delete p (heap m) | None => heap m end.
Proof.
  intros Hwf Hp. destruct s as [s|]; cbn in Hp.
  - destruct Hp as [_ Hp]. exists (free_cell p m). split; [by eapply connector_free_owns|].
    split; [by apply free_cell_wf|]. done.
  - subst p. by exists m.
Qed.

Lemma readable_slot_string m p s : mem_wf m -> slot_string m p s -> readable m p.
Proof.
  intros Hwf Hp. destruct s as [s|]; [|by left]. destruct Hp as [Hs Hp]. right. exists s.
  by apply read_cstr_string.
Qed.

Lemma slot_string_frame m m' p s :
  slot_string m p s -> mem_config_eq m m' -> heap m' = heap m -> slot_string m' p s.
Proof.
  intros Hp Hc Hh. destruct s as [s|]; [|done]. destruct Hp as [Hs Hp]. split; [done|].
  unfold points_to_string, owns in *. by rewrite Hh, (config_free _ _ Hc).
Qed.

(** Closing through the table of operations. *)
Lemma close_connection_tcp w i c :
  context_list w !! i = Some c -> connection_index c 0 = 1%nat ->
  connector_close_connection (Some i) w = connector_close_tcp (Some i) w.
Proof.
  intros Hc Hidx. unfold connector_close_connection, context_operation.
  rewrite bool_decide_eq_true_2 by done. by rewrite (bind_done _ _ _ _ _ (load_context_some w _ c Hc)), Hidx.
Qed.

(** The trampolines learn the name of the peer, if it is known. *)
Lemma notify_closed w i name s fs :
  mem_wf (mem w) -> slot_string (mem w) name s -> trampolines_repr w fs ->
  exists w', quiet w w' /\
    when (negb (name =? 0)) (connector_notify_trampolines i connector_internal_connection_closed_uuid name ;;; ret tt) w
      = Done tt w' /\
    (s <> None -> call_all fs i connector_internal_connection_closed_uuid name w = Done tt w').
Proof.
  intros Hwf Hname Htr.
  destruct (notify_quiet fs i connector_internal_connection_closed_uuid name w
    Htr (readable_slot_string _ _ _ Hwf Hname)) as (w' & Hn & Hcall & Hq).
  destruct s as [s|]; cbn in Hname.
  - destruct Hname as [_ Hname]. rewrite (owns_pos _ _ _ Hwf Hname). cbn [negb when].
    exists w'. split; [done|]. split; [by rewrite (bind_done _ _ _ _ _ Hn) | done].
  - rewrite Hname. exists w. split; [by destruct w | done].
Qed.

(** Clearing a slot without connection data releases its name. *)
Lemma clear_context_spec w i c s :
  mem_wf (mem w) -> context_list w !! i = Some c -> connection_data c = 0 ->
  slot_string (mem w) (cx_application_name c) s ->
  exists m', clear_context_struct (Some i) w =
      Done tt (set_context_list (<[i := zero_context]> (context_list w)) (set_mem m' w)) /\
    mem_wf m' /\ mem_config_eq (mem w) m' /\
    heap m' = match s with Some _ => delete (cx_application_name c) (heap (mem w)) | None => heap (mem w) end.
Proof.
  intros Hwf Hc Hd Hname.
  destruct (free_slot_string (mem w) (cx_application_name c) s) as (m' & Hf & Hwf' & Hcfg & Hh); [done | done |].
  exists m'. split; [|done]. unfold clear_context_struct.
  rewrite (bind_done _ _ _ _ _ (load_context_some w _ c Hc)).
  rewrite (bind_done _ _ _ _ _ (in_mem_done _ w _ _ Hf)), Hd.
  rewrite (bind_done (in_mem (connector_free 0)) _ (set_mem m' w) tt (set_mem m' w)) by (by destruct w).
  by apply (store_context_some (set_mem m' w) _ c).
Qed.

(** What [connector_context_shutdown_from_read_thread] does before it returns the
    identifier: it closes the socket, tells the trampolines and clears the
    slot. *)
Lemma shutdown_context_steps w i c s fs :
  mem_wf (mem w) -> mem_serving (mem w) -> 0 <= i < 32 ->
  context_list w !! Z.to_nat i = Some c -> connection_index c 0 = 1%nat ->
  connection_data c = 0 -> slot_string (mem w) (cx_application_name c) s -> trampolines_repr w fs ->
  exists r w1 w2 m3,
    connector_context_shutdown_from_read_thread i w =
      (in_free (connector_uint_queue_push i) ;;; ret r)
        (set_context_list (<[Z.to_nat i := zero_context]> (context_list w)) (set_mem m3 w2)) /\
    connector_close_tcp (slot i) w = Done r w1 /\
    (s <> None -> call_all fs i connector_internal_connection_closed_uuid (cx_application_name c) w1 = Done tt w2) /\
    (exists l, w2 = set_env (env w2) (set_trace (trace w2) (set_mem (mem w1) (set_context_list l w)))) /\
    mem_wf m3 /\ mem_config_eq (mem w) m3 /\
    heap m3 = match s with Some _ => delete (cx_application_name c) (heap (mem w)) | None => heap (mem w) end.
Proof.
  intros Hwf Hs Hi Hc Hidx Hd Hname Htr.
  unfold connector_context_shutdown_from_read_thread, SUBSTANCE_CONNECTOR_CONTEXT_COUNT.
  rewrite (proj2 (Z.ltb_lt i 32)) by lia.
  destruct (keeps_close_tcp (Z.to_nat i) c w w (slot_only_refl _ _ _ Hwf Hs Hc)) as (r & w1 & Hclose & H1).
  rewrite (bind_done _ _ _ _ _ (eq_trans (close_connection_tcp w _ c Hc Hidx) Hclose)).
  destruct (slot_only_lookup _ _ _ _ H1) as (c1 & Hc1 & Hsame).
  destruct H1 as [Hwf1 Hs1 Hcfg1 Hh1 (c1' & Hsame' & Hw1) _].
  assert (Hname1 : slot_string (mem w1) (cx_application_name c1) s)
    by (rewrite (same_name _ _ Hsame); by apply (slot_string_frame (mem w))).
  rewrite (bind_done _ _ _ _ _ (load_context_some w1 _ c1 Hc1)).
  assert (Htr1 : trampolines_repr w1 fs)
    by (apply (trampolines_repr_frame w); [done | done | done | done | by rewrite Hw1]).
  destruct (notify_closed w1 i (cx_application_name c1) s fs Hwf1 Hname1 Htr1) as (w2 & Hq2 & Hrun2 & Hcall).
  rewrite (bind_done _ _ _ _ _ Hrun2). rewrite (same_name _ _ Hsame) in Hcall.
  assert (Hm2 : mem w2 = mem w1) by (by rewrite Hq2).
  destruct (clear_context_spec w2 (Z.to_nat i) c1 s) as (m3 & Hclear & Hwf3 & Hcfg3 & Hh3);
    [by rewrite Hm2 | by rewrite Hq2 | by rewrite (same_data _ _ Hsame) | by rewrite Hm2 |].
  rewrite (bind_done _ _ _ _ _ Hclear). rewrite Hm2 in Hcfg3, Hh3.
  exists r, w1, w2, m3. split; [do 2 f_equal; rewrite Hq2, Hw1; cbn; by rewrite list_insert_insert_eq|].
  split; [done|]. split; [done|]. split; [eexists; by rewrite Hq2, Hw1|].
  split; [done|]. split; [by etransitivity|]. by rewrite Hh3, Hh1, (same_name _ _ Hsame).
Qed.

Lemma shutdown_context_cases w l n i c s fs :
  contexts_inv w l n -> 0 < n -> 0 <= i < 32 -> i ∉ l ->
  context_list w !! Z.to_nat i = Some c -> connection_index c 0 = 1%nat ->
  connection_data c = 0 -> slot_string (mem w) (cx_application_name c) s -> trampolines_repr w fs ->
  exists r w' w1, connector_context_shutdown_from_read_thread i w = Done r w' /\
    connector_close_tcp (slot i) w = Done r w1 /\
    (s <> None -> exists w2, call_all fs i connector_internal_connection_closed_uuid
                               (cx_application_name c) w1 = Done tt w2 /\
                    env w' = env w2 /\ trace w' = trace w2) /\
    contexts_inv w' (l ++ [i]) (n - 1) /\
    (forall j, j <> Z.to_nat i -> context_list w' !! j = context_list w !! j) /\
    heap (mem w') = match s with Some _ => delete (cx_application_name c) (heap (mem w))
                               | None => heap (mem w) end /\
    mem_config_eq (mem w) (mem w') /\ trampolines_repr w' fs.
Proof.
  intros Hinv Hn Hi Hil Hc Hidx Hd Hname Htr. pose proof Hinv as [Hwf Hs Hlen Hq Hnd Hr Hfree Hused].
  destruct (shutdown_context_steps w i c s fs) as (r & w1 & w2 & m3 & Hrun & Hclose & Hcall & (l2 & Hw2) & Hwf3 & Hcfg & Hheap);
    try done.
  destruct (id_queue_push (free_contexts w) i l n Hq Hn) as (p' & Hpush & Hp').
  { pose proof (free_length l Hnd Hr). lia. }
  set (w3 := set_context_list _ (set_mem m3 w2)) in *.
  rewrite (bind_done _ _ _ SUBSTANCE_CONNECTOR_SUCCESS _ (in_free_done _ w3 _ p' ltac:(cbn; rewrite Hw2; exact Hpush))) in Hrun.
  eexists r, _, w1. split; [exact Hrun|]. split; [done|].
  assert (Hfront : trampoline_front w2 = trampoline_front w) by (by rewrite Hw2).
  split; [|split; [|split; [|split; [|split]]]].
  - intros Hsn. exists w2. split; [by apply Hcall|]. by cbn.
  - eapply (contexts_inv_return w _ i l n); try done; cbn. by eapply mem_serving_config.
  - intros j Hj. cbn. by apply list_lookup_insert_ne.
  - exact Hheap.
  - exact Hcfg.
  - destruct s as [s|].
    + destruct Hname as [_ Hname]. by apply (trampolines_repr_release w _ fs (cx_application_name c) (s ++ [0])).
    + by apply (trampolines_repr_frame w).
Qed.

End returning.

(** ** Initialisation *)

Section initialisation.
Context {E : Type}.
Implicit Types w : world E.

Lemma push_contexts_spec w k i l n :
  id_queue (free_contexts w) l n -> Z.of_nat k <= n -> (length l + k <= 33)%nat ->
  exists p, push_contexts k i w = Done tt (set_free_contexts p w) /\
    id_queue p (l ++ seqZ i (Z.of_nat k)) (n - Z.of_nat k).
Proof.
  revert w i l n. induction k as [|k IH]; intros w i l n Hq Hn Hl.
  - exists (free_contexts w). split; [by destruct w|]. rewrite app_nil_r. by rewrite Z.sub_0_r.
  - destruct (id_queue_push _ i l n Hq) as (p & Hp & Hq'); [lia | lia |].
    cbn [push_contexts]. rewrite (bind_done _ _ _ _ _ (in_free_done _ w _ _ Hp)).
    destruct (IH (set_free_contexts p w) (i + 1) (l ++ [i]) (n - 1) Hq') as (p' & Hrun & Hq2);
      [lia | rewrite length_app; cbn; lia|].
    exists p'. split; [by rewrite Hrun|].
    rewrite <- app_assoc in Hq2. rewrite (seqZ_cons i) by lia.
    replace (Z.pred (Z.of_nat (S k))) with (Z.of_nat k) by lia.
    replace (n - Z.of_nat (S k)) with (n - 1 - Z.of_nat k) by lia.
    by replace (Z.succ i) with (i + 1) by lia.
Qed.

(** The addresses of the two blocks of a queue. *)
Definition queue_blocks (p : queue_ptr) : list Z :=
  match p with QLive q => [self q; array_ptr q] | _ => [] end.

Lemma push_queue_blocks x p r p' : connector_uint_queue_push x p = Done r p' -> queue_blocks p' = queue_blocks p.
Proof.
  unfold connector_uint_queue_push. destruct p as [|q|]; [by intros [= <- <-] | | done].
  repeat case_match; try discriminate; by intros [= <- <-].
Qed.

Lemma push_contexts_blocks k i w w' :
  push_contexts k i w = Done tt w' -> queue_blocks (free_contexts w') = queue_blocks (free_contexts w).
Proof.
  revert i w. induction k as [|k IH]; intros i w; cbn [push_contexts]; [by intros [= <-]|].
  unfold bind at 1, in_free, zoom. destruct (connector_uint_queue_push i (free_contexts w)) as [r p|] eqn:Hp; [|done].
  intros H. by rewrite (IH _ _ H), <- (push_queue_blocks _ _ _ _ Hp).
Qed.

Lemma create_id_queue m :
  mem_wf m -> mem_serving m ->
  exists q m', connector_uint_queue_create 32 m = Done (QLive q) m' /\ id_queue (QLive q) [] (2 ^ 32 - 2) /\
    added (queue_blocks (QLive q)) m m'.
Proof.
  intros Hwf Hs. rewrite queue_create_serving by (done || lia). eexists _, _. split; [reflexivity|]. split.
  - eexists. split; [reflexivity|]. split; [by apply new_queue_repr|]. split; [done|]. cbn. lia.
  - set (m1 := alloc_with (BRaw sizeof_uint_queue) m).
    change (added ([next_addr m] ++ [next_addr m1]) m (alloc_with (BRaw (4 * padded_size 32)) m1)).
    apply (added_trans _ _ _ m1); apply added_alloc; try done. by apply alloc_with_wf.
Qed.

Lemma init_contexts_spec w :
  mem_wf (mem w) -> mem_serving (mem w) ->
  exists p m', connector_init_context_subsystem w = Done SUBSTANCE_CONNECTOR_SUCCESS
      (set_free_contexts p (set_mem m' (set_context_list (replicate 32 zero_context) w))) /\
    id_queue p (seqZ 0 32) (2 ^ 32 - 34) /\ added (queue_blocks p) (mem w) m'.
Proof.
  intros Hwf Hs. unfold connector_init_context_subsystem, SUBSTANCE_CONNECTOR_CONTEXT_COUNT.
  destruct (create_id_queue (mem w) Hwf Hs) as (q & m' & Hc & Hq & Hadd).
  rewrite (bind_done _ _ w tt (set_context_list (replicate (Z.to_nat 32) zero_context) w)) by done.
  set (w1 := set_context_list _ w).
  rewrite (bind_done _ _ w1 (QLive q) (set_mem m' w1)) by (by apply (in_mem_done _ w1)).
  rewrite (bind_done _ _ _ tt (set_free_contexts (QLive q) (set_mem m' w1))) by done.
  destruct (push_contexts_spec (set_free_contexts (QLive q) (set_mem m' w1)) 32 0 [] (2 ^ 32 - 2) Hq)
    as (p' & Hpush & Hq'); [lia | cbn; lia |].
  change (Z.to_nat 32) with 32%nat. rewrite (bind_done _ _ _ _ _ Hpush).
  exists p', m'. split; [reflexivity|]. split; [exact Hq'|].
  by rewrite (push_contexts_blocks _ _ _ _ Hpush : queue_blocks p' = _).
Qed.

(** A table all of whose contexts are free satisfies the invariant. *)
Lemma fresh_contexts_inv w n :
  mem_wf (mem w) -> mem_serving (mem w) -> context_list w = replicate 32 zero_context ->
  id_queue (free_contexts w) (seqZ 0 32) n -> contexts_inv w (seqZ 0 32) n.
Proof.
  intros Hwf Hs Hl Hq. constructor; try done; rewrite ?Hl.
  - done.
  - apply NoDup_seqZ.
  - apply List.Forall_forall. intros i Hi. apply list_elem_of_In, elem_of_seqZ in Hi. lia.
  - intros i Hi. apply elem_of_seqZ in Hi. apply (lookup_replicate_2 32). lia.
  - intros i Hi Hni. exfalso. apply Hni, elem_of_seqZ. lia.
Qed.

Lemma available_init_spec w :
  mem_wf (mem w) -> mem_serving (mem w) -> connection_queue w = QNull ->
  exists p m', available_queue_init w =
      Done SUBSTANCE_CONNECTOR_SUCCESS (set_connection_queue p (set_mem m' w)) /\
    id_queue p [] (2 ^ 32 - 2) /\ added (queue_blocks p) (mem w) m'.
Proof.
  intros Hwf Hs Hn. destruct (create_id_queue (mem w) Hwf Hs) as (q & m' & Hc & Hq & Hadd).
  exists (QLive q), m'. split; [|done]. unfold available_queue_init, connector_available_queue_init.
  rewrite (bind_done _ _ w QNull w) by (by rewrite <- Hn).
  rewrite (bind_done _ _ w (QLive q, SUBSTANCE_CONNECTOR_SUCCESS) (set_mem m' w)); [done|].
  apply (in_mem_done _ w). unfold SUBSTANCE_CONNECTOR_CONTEXT_COUNT.
  by rewrite (bind_done _ _ _ _ _ Hc).
Qed.

End initialisation.

(** A library with both subsystems initialised, on the simulated system. *)
Lemma ready_world (s : simulation) :
  exists w, (connector_init_context_subsystem ;;; available_queue_init)
      (World _ s initial_memory 0 0 [] QNull QNull empty_message_queues 0 []) =
      Done SUBSTANCE_CONNECTOR_SUCCESS w /\
    contexts_inv w (seqZ 0 32) (2 ^ 32 - 34) /\ id_queue (connection_queue w) [] (2 ^ 32 - 2) /\
    env w = s /\ trampolines_repr w [] /\ trace w = [].
Proof.
  set (w0 := World _ s initial_memory 0 0 [] QNull QNull empty_message_queues 0 []).
  assert (Hs0 : mem_serving (mem w0)) by (split; reflexivity).
  destruct (init_contexts_spec w0 initial_memory_wf Hs0) as (p1 & m1 & H1 & Hq1 & Ha1).
  set (w1 := set_free_contexts p1 _) in H1. pose proof Ha1 as [Hwf1 Hc1 _ _ _ _].
  assert (Hs1 : mem_serving m1) by (by eapply mem_serving_config).
  destruct (available_init_spec w1 Hwf1 Hs1 eq_refl) as (p2 & m2 & H2 & Hq2 & [Hwf2 Hc2 _ _ _ _]).
  assert (Hs2 : mem_serving m2) by (by eapply mem_serving_config).
  exists (set_connection_queue p2 (set_mem m2 w1)). split; [by rewrite (bind_done _ _ _ _ _ H1)|].
  split; [by apply fresh_contexts_inv|]. split; [exact Hq2|]. split; [done|].
  split; [|done]. constructor; [exact Hwf2 | exact Hs2 |]. exists []. split; [done|]. split; [done | constructor].
Qed.

(** ** The handshake *)

Definition handshake_header (s : list Z) : message_header :=
  Header CONNECTOR_INTERNAL_IDENTIFIER (Z.of_nat (length s)) connector_internal_handshake_uuid.

Section handshake.
Context {E : Type} {P : Platform E}.
Implicit Types w : world E.

Lemma mark_internal_done w p h q ctx :
  mem_wf (mem w) -> owns (mem w) p (BMsg (Message (Some h) q ctx)) ->
  mark_internal p w = Done tt (set_mem (write_cell p (BMsg (Message
    (Some (Header (Z.lor (description h) CONNECTOR_INTERNAL_IDENTIFIER) (message_length h) (message_id h)))
    q ctx)) (mem w)) w).
Proof.
  intros Hwf Ho. unfold mark_internal.
  rewrite (bind_done _ _ w _ _ (in_mem_done _ _ _ _ (load_message_owns _ p _ Hwf Ho))), set_mem_id.
  rewrite (bind_done (message_header_of _) _ w h w) by done.
  apply (in_mem_done _ w). by eapply store_owns.
Qed.

(** Writing a message to a connected TCP context. *)
Lemma context_write_tcp w i c p h q s ctx r env' :
  mem_wf (mem w) -> mem_serving (mem w) -> 0 <= i < 32 -> context_list w !! Z.to_nat i = Some c ->
  connection_index c 0 = 1%nat ->
  Z.land (configuration c) SUBSTANCE_CONNECTOR_CONN_MASK = SUBSTANCE_CONNECTOR_CONN_CONNECTED ->
  owns (mem w) p (BMsg (Message (Some h) q ctx)) -> points_to_string (mem w) q s ->
  message_length h = Z.of_nat (length s) ->
  send (fd_of c) (message_bytes host_order [junk (mem w); junk (mem w)] h s) (env w) = (r, env') ->
  exists m', context_message_op_generic i p connector_write_connection w =
      Done (if r <? 0 then SUBSTANCE_CONNECTOR_CONN_FAIL else SUBSTANCE_CONNECTOR_SUCCESS)
        (set_env env' (set_mem m' w)) /\
    mem_wf m' /\ mem_config_eq (mem w) m' /\ heap m' = heap (mem w).
Proof.
  intros Hwf Hs Hi Hc Hidx Hconn Hp Hq Hlen Hsend.
  destruct (send_spec w (Z.to_nat i) c p h q s ctx r env' Hwf Hs Hc Hp Hq Hlen Hsend)
    as (m' & Hrun & Hrest).
  exists m'. split; [|done]. unfold context_message_op_generic, SUBSTANCE_CONNECTOR_CONTEXT_COUNT.
  rewrite (proj2 (Z.ltb_lt i 32)), (owns_pos _ _ _ Hwf Hp) by lia. cbn [negb andb].
  rewrite (bind_done _ _ _ _ _ (load_context_some w _ c Hc)), Hconn, Z.eqb_refl.
  unfold connector_write_connection, message_operation, slot.
  rewrite bool_decide_eq_true_2, (owns_pos _ _ _ Hwf Hp) by done. cbn [negb andb].
  rewrite (bind_done _ _ _ _ _ (load_context_some w _ c Hc)), Hidx. exact Hrun.
Qed.

(** Marking a built message as internal, sending it, and remembering that the
    handshake was sent. *)
Lemma mark_and_write w i c p q s r env' :
  mem_wf (mem w) -> mem_serving (mem w) -> 0 <= i < 32 -> context_list w !! Z.to_nat i = Some c ->
  connection_index c 0 = 1%nat ->
  Z.land (configuration c) SUBSTANCE_CONNECTOR_CONN_MASK = SUBSTANCE_CONNECTOR_CONN_CONNECTED ->
  owns (mem w) p (BMsg (Message (Some (Header 0x03c9 (Z.of_nat (length s))
                                         connector_internal_handshake_uuid)) q i)) ->
  points_to_string (mem w) q s -> q <> p -> Z.of_nat (length s) < 2 ^ 32 ->
  send (fd_of c) (message_bytes host_order [junk (mem w); junk (mem w)] (handshake_header s) s) (env w) =
    (r, env') ->
  exists m', let c' := if r <? 0 then c
                       else set_configuration (Z.lor (configuration c) SUBSTANCE_CONNECTOR_HANDSHAKE_SENT) c in
    (mark_internal p ;;;
     let* retcode := context_message_op_generic i p connector_write_connection in
     when (retcode =? SUBSTANCE_CONNECTOR_SUCCESS)
       (update_context (slot i) (fun c =>
          set_configuration (Z.lor (configuration c) SUBSTANCE_CONNECTOR_HANDSHAKE_SENT) c)) ;;;
     ret retcode) w =
      Done (if r <? 0 then SUBSTANCE_CONNECTOR_CONN_FAIL else SUBSTANCE_CONNECTOR_SUCCESS)
        (set_context_list (<[Z.to_nat i := c']> (context_list w)) (set_env env' (set_mem m' w))) /\
    mem_wf m' /\ mem_config_eq (mem w) m' /\ owns m' p (BMsg (Message (Some (handshake_header s)) q i)) /\
    points_to_string m' q s /\ forall a, a <> p -> heap m' !! a = heap (mem w) !! a.
Proof.
  intros Hwf Hs Hi Hc Hidx Hconn Hp Hq Hqp Hlen Hsend.
  pose proof (mark_internal_done w p _ _ _ Hwf Hp) as Hmark.
  cbn [description message_length message_id] in Hmark.
  change (Header _ _ _) with (handshake_header s) in Hmark.
  set (m2 := write_cell p _ (mem w)) in Hmark.
  assert (Hwf2 : mem_wf m2) by (by eapply write_cell_wf).
  assert (Hm2 : owns m2 p (BMsg (Message (Some (handshake_header s)) q i))) by apply write_cell_owns.
  assert (Hq2 : points_to_string m2 q s) by (by apply write_cell_owns_other).
  destruct (context_write_tcp (set_mem m2 w) i c p (handshake_header s) q s i r env')
    as (m3 & Hwrite & Hwf3 & Hc3 & Hh3); try done.
  exists m3. cbv zeta. set (c' := if r <? 0 then c else _). split.
  { rewrite (bind_done _ _ _ _ _ Hmark), (bind_done _ _ _ _ _ Hwrite). unfold c'.
    destruct (r <? 0).
    - rewrite list_insert_id by done. by destruct w.
    - change (SUBSTANCE_CONNECTOR_SUCCESS =? SUBSTANCE_CONNECTOR_SUCCESS) with true. cbn [when].
      by rewrite (bind_done _ _ _ _ _ (update_context_some (set_env env' (set_mem m3 w)) _ c _ Hc)). }
  split; [done|]. split; [transitivity m2; [done | exact Hc3]|].
  assert (Hsame : forall a b, owns m2 a b -> owns m3 a b)
    by (intros a b Ha; unfold owns in *; by rewrite Hh3, (config_free _ _ Hc3)).
  split; [by apply Hsame|]. split; [by apply Hsame|].
  intros a Ha. rewrite Hh3. cbn. by rewrite lookup_insert_ne.
Qed.

Lemma write_handshake_spec w i c a s r env' :
  mem_wf (mem w) -> mem_serving (mem w) -> 0 <= i < 32 -> context_list w !! Z.to_nat i = Some c ->
  connection_index c 0 = 1%nat ->
  Z.land (configuration c) SUBSTANCE_CONNECTOR_CONN_MASK = SUBSTANCE_CONNECTOR_CONN_CONNECTED ->
  Z.land (configuration c) SUBSTANCE_CONNECTOR_HANDSHAKE_MASK = SUBSTANCE_CONNECTOR_HANDSHAKE_NOT_SENT ->
  application_name w = a -> cstring s -> points_to_string (mem w) a s -> Z.of_nat (length s) < 2 ^ 32 ->
  send (fd_of c) (message_bytes host_order [junk (mem w); junk (mem w)] (handshake_header s) s) (env w) =
    (r, env') ->
  exists m', let c' := if r <? 0 then c
                       else set_configuration (Z.lor (configuration c) SUBSTANCE_CONNECTOR_HANDSHAKE_SENT) c in
    connector_context_write_handshake i w =
      Done (if r <? 0 then SUBSTANCE_CONNECTOR_CONN_FAIL else SUBSTANCE_CONNECTOR_SUCCESS)
        (set_context_list (<[Z.to_nat i := c']> (context_list w)) (set_env env' (set_mem m' w))) /\
    mem_wf m' /\ mem_config_eq (mem w) m' /\ heap m' = heap (mem w).
Proof.
  intros Hwf Hs Hi Hc Hidx Hconn Hnot Ha Hcs Hname Hlen Hsend.
  unfold connector_context_write_handshake, SUBSTANCE_CONNECTOR_CONTEXT_COUNT.
  rewrite (proj2 (Z.ltb_lt i 32)) by lia.
  rewrite (bind_done _ _ _ _ _ (load_context_some w _ c Hc)), Hnot, Hconn, Z.eqb_refl.
  change (SUBSTANCE_CONNECTOR_HANDSHAKE_NOT_SENT =? SUBSTANCE_CONNECTOR_HANDSHAKE_SENT) with false.
  cbn iota.
  rewrite (bind_done _ _ w a w) by (by rewrite <- Ha).
  destruct (build_message_blocks (mem w) i connector_internal_handshake_uuid a s Hwf Hs Hcs Hname Hlen)
    as (m1 & Hbuild & Hwf1 & Hc1 & Hm1 & Hq1 & Hh1).
  rewrite (bind_done _ _ _ _ _ (in_mem_done _ w _ _ Hbuild)).
  set (p := next_addr (mem w)) in *. rewrite (owns_pos _ _ _ Hwf1 Hm1). cbn [negb].
  destruct (mark_and_write (set_mem m1 w) i c p (p + 1) s r env')
    as (m3 & Hinner & Hwf3 & Hc3 & Hm3 & Hq3 & Hh3); try done.
  { by apply (mem_serving_config (mem w)). }
  { lia. }
  { cbn [mem set_mem env]. by rewrite (config_junk _ _ Hc1). }
  set (c' := if r <? 0 then c else _) in *.
  rewrite (bind_done _ _ _ _ _ Hinner). set (w4 := set_context_list _ _).
  destruct (discard_message m3 p _ (p + 1) i _ Hwf3 Hm3 Hq3 ltac:(lia)) as (m4 & m5 & Hclear & Hfree & [Hwf5 Hc5 _ Hh5]).
  rewrite (bind_done _ _ _ _ _ (in_mem_done _ w4 _ _ Hclear)).
  rewrite (bind_done _ _ _ _ _ (in_mem_done _ (set_mem m4 w4) _ _ Hfree)).
  exists m5. cbv zeta. split; [done|]. split; [done|].
  split; [transitivity m3; [by transitivity m1 | done]|].
  apply map_eq. intros x. rewrite Hh5. case_decide as Hx.
  - symmetry. rewrite elem_of_cons, list_elem_of_singleton in Hx. by destruct Hx as [->| ->]; [apply mem_wf_fresh | apply mem_wf_beyond; [|lia]].
  - rewrite elem_of_cons, list_elem_of_singleton in Hx. rewrite Hh3 by auto. apply Hh1; intros ->; auto.
Qed.

End handshake.

(** ** Properties *)

Section properties.
Context {E : Type} {P : Platform E} {B : Bindings E}.
Implicit Types w : world E.

(** Opening a TCP socket takes the first free context: on success the
    identifier of that context is returned, its slot is open, it leaves the free
    queue and is announced to the read threads; on failure the slot is cleared
    and goes back to the end of the free queue.  Without a free context the call
    fails and changes nothing.  No other slot and no block of memory changes, and
    the free queue again holds exactly the cleared slots. *)
Theorem open_tcp_allocates {W : WritableFiles E} w (free : list Z) (n port : Z) (la : list Z) (k : Z)
    (Hinv : contexts_inv w free n) (Hn : 0 < n) (Hla : id_queue (connection_queue w) la k)
    (Hk : 0 < k) (Hroom : (length la < 33)%nat) :
  match free with
  | [] => connector_context_open_tcp port true w = Done (SUBSTANCE_CONNECTOR_ERROR, None) w
  | i :: l => exists r id w', connector_context_open_tcp port true w = Done (r, id) w' /\
      heap (mem w') = heap (mem w) /\
      (forall j, j <> Z.to_nat i -> context_list w' !! j = context_list w !! j) /\
      ((r = SUBSTANCE_CONNECTOR_SUCCESS /\ id = Some i /\ contexts_inv w' l n /\
        (exists c, context_list w' !! Z.to_nat i = Some c /\ configuration c = tcp_open_bits) /\
        id_queue (connection_queue w') (la ++ [i]) (k - 1) /\ trace w' = trace w ++ [BroadcastInbound]) \/
       (r <> SUBSTANCE_CONNECTOR_SUCCESS /\ id = None /\ contexts_inv w' (l ++ [i]) (n - 1) /\
        connection_queue w' = connection_queue w /\ trace w' = trace w))
  end.
Proof.
  destruct free as [|i l]; [|by apply open_tcp_cases].
  unfold connector_context_open_tcp, connector_context_open.
  rewrite (bind_done _ _ _ _ _ (in_free_done _ w _ _ (id_queue_pop_nil _ _ (ci_queue _ _ _ Hinv)))).
  by destruct w.
Qed.

(** Connecting to a TCP port takes the first free context and, when the
    system connects, returns it connected, out of the free queue and announced
    to the read threads.  When the connection is refused the identifier goes back
    to the free queue, but its slot is not cleared: it stays marked as an open
    TCP context with the port of the attempt. *)
Theorem connect_tcp_allocates w (i : Z) (l : list Z) (n port : Z) (la : list Z) (k : Z)
    (Hinv : contexts_inv w (i :: l) n) (Hn : 0 < n) (Hla : id_queue (connection_queue w) la k)
    (Hk : 0 < k) (Hroom : (length la < 33)%nat) :
  exists r id w', connector_context_connect_tcp port true w = Done (r, id) w' /\
    heap (mem w') = heap (mem w) /\
    (forall j, j <> Z.to_nat i -> context_list w' !! j = context_list w !! j) /\
    ((r = SUBSTANCE_CONNECTOR_SUCCESS /\ id = Some i /\ contexts_inv w' l n /\
      (exists c, context_list w' !! Z.to_nat i = Some c /\ configuration c = tcp_connected_bits) /\
      id_queue (connection_queue w') (la ++ [i]) (k - 1)) \/
     (r <> SUBSTANCE_CONNECTOR_SUCCESS /\ id = None /\ id_queue (free_contexts w') (l ++ [i]) (n - 1) /\
      exists c, context_list w' !! Z.to_nat i = Some c /\ configuration c = tcp_open_bits)).
Proof.
  destruct (connect_tcp_cases w i l n port la k Hinv Hn Hla Hk Hroom)
    as (r & id & w' & Hrun & Hh & Hj & Hcases).
  exists r, id, w'. split; [done|]. split; [done|]. split; [done|].
  destruct Hcases as [(? & ? & ? & (c & ? & ? & _) & ? & _)|(? & ? & ? & (c & ? & ?) & _)]; eauto 12.
Qed.

(** Returning a TCP context from a read thread closes its socket, tells
    every trampoline once with the identifier of a closed connection and the
    name of the peer (if the name is known), releases the name, clears the slot
    and appends the identifier to the free queue; nothing else is released and no
    other slot changes, and the free queue again holds exactly the cleared
    slots. *)
Theorem shutdown_returns_context {Q : QuietBindings E} w (l : list Z) (n i : Z) (c : context_struct)
    (s : option (list Z)) (fs : list Z)
    (Hinv : contexts_inv w l n) (Hn : 0 < n) (Hi : 0 <= i < 32) (Hused : i ∉ l)
    (Hc : context_list w !! Z.to_nat i = Some c)
    (Htcp : Z.land (configuration c) SUBSTANCE_CONNECTOR_COMM_MASK = SUBSTANCE_CONNECTOR_COMM_TCP)
    (Hdata : connection_data c = 0) (Hname : slot_string (mem w) (cx_application_name c) s)
    (Htr : trampolines_repr w fs) :
  exists r w' w1, connector_context_shutdown_from_read_thread i w = Done r w' /\
    connector_close_tcp (slot i) w = Done r w1 /\
    (s <> None -> exists w2, call_all fs i connector_internal_connection_closed_uuid
                               (cx_application_name c) w1 = Done tt w2 /\
                    env w' = env w2 /\ trace w' = trace w2) /\
    contexts_inv w' (l ++ [i]) (n - 1) /\
    (forall j, j <> Z.to_nat i -> context_list w' !! j = context_list w !! j) /\
    heap (mem w') = match s with Some _ => delete (cx_application_name c) (heap (mem w))
                               | None => heap (mem w) end.
Proof.
  destruct (shutdown_context_cases w l n i c s fs) as (r & w' & w1 & H); auto.
  { unfold connection_index. by rewrite Htcp. }
  exists r, w', w1. intuition.
Qed.

(** Operations on a context check it first: an identifier outside the table
    or a NULL message is [SUBSTANCE_CONNECTOR_ERROR], a context that is not
    connected (or is being shut down) is [SUBSTANCE_CONNECTOR_INVALID] for both
    reading and writing, closing it succeeds exactly when it is open or
    connected, and none of the refused calls changes anything. *)
Theorem context_guards w (context message : Z) (c : context_struct)
    (Hrange : 0 <= context < 32) (Hc : context_list w !! Z.to_nat context = Some c)
    (Hm : message <> 0)
    (Hstate : Z.land (configuration c) SUBSTANCE_CONNECTOR_CONN_MASK <> SUBSTANCE_CONNECTOR_CONN_CONNECTED) :
  (forall big, 32 <= big ->
     connector_context_write big message w = Done SUBSTANCE_CONNECTOR_ERROR w /\
     connector_context_read big message w = Done SUBSTANCE_CONNECTOR_ERROR w /\
     connector_context_close big w = Done SUBSTANCE_CONNECTOR_ERROR w /\
     connector_context_state big w = Done UINT_MAX w) /\
  connector_context_write context 0 w = Done SUBSTANCE_CONNECTOR_ERROR w /\
  connector_context_write context message w = Done SUBSTANCE_CONNECTOR_INVALID w /\
  connector_context_read context message w = Done SUBSTANCE_CONNECTOR_INVALID w /\
  (Z.land (configuration c) SUBSTANCE_CONNECTOR_CONN_MASK = SUBSTANCE_CONNECTOR_CONN_CLOSED ->
     connector_context_close context w = Done SUBSTANCE_CONNECTOR_ERROR w) /\
  (Z.land (configuration c) SUBSTANCE_CONNECTOR_CONN_MASK = SUBSTANCE_CONNECTOR_CONN_OPEN ->
     exists w', connector_context_close context w = Done SUBSTANCE_CONNECTOR_SUCCESS w' /\
       connector_context_write context message w' = Done SUBSTANCE_CONNECTOR_INVALID w').
Proof.
  assert (Hop : forall op w1 c1, context_list w1 !! Z.to_nat context = Some c1 ->
    Z.land (configuration c1) SUBSTANCE_CONNECTOR_CONN_MASK <> SUBSTANCE_CONNECTOR_CONN_CONNECTED ->
    context_message_op_generic context message op w1 = Done SUBSTANCE_CONNECTOR_INVALID w1).
  { intros op w1 c1 H1 Hs1. unfold context_message_op_generic, SUBSTANCE_CONNECTOR_CONTEXT_COUNT.
    rewrite (proj2 (Z.ltb_lt context 32)), (proj2 (Z.eqb_neq message 0)) by (done || lia).
    cbn [negb andb]. rewrite (bind_done _ _ _ _ _ (load_context_some w1 _ c1 H1)).
    by rewrite (proj2 (Z.eqb_neq _ _) Hs1). }
  unfold connector_context_write, connector_context_read, connector_context_close,
    connector_context_state, context_configuration.
  split; [|split; [|split; [|split; [|split]]]].
  - intros big Hbig. unfold context_message_op_generic, SUBSTANCE_CONNECTOR_CONTEXT_COUNT.
    by rewrite (proj2 (Z.ltb_ge big 32)) by lia.
  - unfold context_message_op_generic. by rewrite andb_false_r.
  - by apply (Hop _ w c).
  - by apply (Hop _ w c).
  - intros Hclosed. unfold SUBSTANCE_CONNECTOR_CONTEXT_COUNT.
    rewrite (proj2 (Z.ltb_lt context 32)) by lia.
    by rewrite (bind_done _ _ _ _ _ (load_context_some w _ c Hc)), Hclosed.
  - intros Hopen. unfold SUBSTANCE_CONNECTOR_CONTEXT_COUNT.
    rewrite (proj2 (Z.ltb_lt context 32)) by lia.
    rewrite (bind_done _ _ _ _ _ (load_context_some w _ c Hc)), Hopen.
    eexists. split; [match goal with |- context [if ?b then _ else _] => change b with true end; cbn iota;
      by rewrite (bind_done _ _ _ _ _ (store_slot_done w context c _ Hc))|].
    eapply Hop; [cbn; apply list_lookup_insert_eq; by eapply lookup_lt_Some|].
    cbn [configuration set_configuration]. rewrite Z.land_lor_distr_l, Hopen. done.
Qed.

(** On a connected TCP context the handshake sends one internal message
    that carries the application's name, frees everything it allocated, and marks
    the context when the system accepted the bytes; when sending fails the
    context stays unmarked.  Once marked, writing the handshake again succeeds
    without sending anything. *)
Theorem handshake_sent_once w (i : Z) (c : context_struct) (a : Z) (s : list Z) (r : Z) (env' : E)
    (Hwf : mem_wf (mem w)) (Hs : mem_serving (mem w)) (Hi : 0 <= i < 32)
    (Hc : context_list w !! Z.to_nat i = Some c) (Hcfg : configuration c = tcp_connected_bits)
    (Ha : application_name w = a) (Hcs : cstring s) (Hname : points_to_string (mem w) a s)
    (Hlen : Z.of_nat (length s) < 2 ^ 32)
    (Hsend : send (fd_of c) (message_bytes host_order [junk (mem w); junk (mem w)]
       (handshake_header s) s) (env w) = (r, env')) :
  exists w', connector_context_write_handshake i w =
      Done (if r <? 0 then SUBSTANCE_CONNECTOR_CONN_FAIL else SUBSTANCE_CONNECTOR_SUCCESS) w' /\
    env w' = env' /\ heap (mem w') = heap (mem w) /\
    (r < 0 -> context_list w' = context_list w) /\
    (0 <= r -> connector_context_write_handshake i w' = Done SUBSTANCE_CONNECTOR_SUCCESS w').
Proof.
  destruct (write_handshake_spec w i c a s r env') as (m' & Hrun & _ & _ & Hh);
    try (done || by rewrite Hcfg); [unfold connection_index; by rewrite Hcfg|].
  eexists. split; [exact Hrun|]. split; [done|]. split; [done|]. split.
  - intros Hr. rewrite (proj2 (Z.ltb_lt r 0)) by done. cbn. by apply list_insert_id.
  - intros Hr. rewrite (proj2 (Z.ltb_ge r 0)) by done. unfold connector_context_write_handshake at 1.
    unfold SUBSTANCE_CONNECTOR_CONTEXT_COUNT. rewrite (proj2 (Z.ltb_lt i 32)) by lia.
    erewrite bind_done; [|apply load_context_some; cbn; apply list_lookup_insert_eq;
      by eapply lookup_lt_Some].
    cbn [configuration set_configuration]. by rewrite Hcfg.
Qed.

(** When every context is in use, connecting does not fail: the failed pop
    is ignored and context 0 is used, whatever it was.  If the system connects,
    identifier 0 is returned for the new connection and the old descriptor and
    name of context 0 are lost without being closed or released; if it does not,
    identifier 0 is put into the free queue.  Opening, in contrast, fails
    cleanly. *)
Theorem connect_without_free_context w (n port : Z) (la : list Z) (k : Z)
    (Hinv : contexts_inv w [] n) (Hn : 0 < n) (Hla : id_queue (connection_queue w) la k)
    (Hk : 0 < k) (Hroom : (length la < 33)%nat) :
  (exists r id w' c', connector_context_connect_tcp port true w = Done (r, id) w' /\
     heap (mem w') = heap (mem w) /\
     context_list w' = <[0%nat := c']> (context_list w) /\ cx_application_name c' = 0 /\
     ((r = SUBSTANCE_CONNECTOR_SUCCESS /\ id = Some 0 /\ configuration c' = tcp_connected_bits /\
       free_contexts w' = free_contexts w) \/
      (r <> SUBSTANCE_CONNECTOR_SUCCESS /\ id = None /\ id_queue (free_contexts w') [0] (n - 1)))) /\
  connector_context_open_tcp port true w = Done (SUBSTANCE_CONNECTOR_ERROR, None) w.
Proof.
  pose proof Hinv as [Hwf Hs Hlen Hq _ _ _ Hused].
  pose proof (in_free_done _ w _ _ (id_queue_pop_nil _ _ Hq)) as Hpop.
  assert (Hid : set_free_contexts (free_contexts w) w = w) by (by destruct w). rewrite Hid in Hpop.
  split; [|unfold connector_context_open_tcp, connector_context_open; by rewrite (bind_done _ _ _ _ _ Hpop)].
  destruct (Hused 0 ltac:(lia) ltac:(apply not_elem_of_nil)) as (cold & Hold & _).
  unfold connector_context_connect_tcp, connector_context_connect. rewrite (bind_done _ _ _ _ _ Hpop).
  cbn [default from_option id snd desc_connection_data].
  set (c0 := ContextStruct tcp_open_bits 0 port 0 0 0). change (described_context _ 0) with c0.
  rewrite (bind_done _ _ _ _ _ (store_slot_done w 0 cold zero_context Hold)).
  set (w2 := set_context_list _ w).
  rewrite (bind_done _ _ _ _ _ (store_slot_done w2 0 zero_context c0
    ltac:(cbn; apply list_lookup_insert_eq; rewrite Hlen; lia))).
  cbn [context_list set_context_list w2]. rewrite list_insert_insert_eq.
  set (w3 := set_context_list (<[Z.to_nat 0 := c0]> (context_list w)) w2).
  assert (H3 : slot_only 0 c0 w3 w3).
  { apply slot_only_refl; [done | done |]. cbn. apply list_lookup_insert_eq. lia. }
  destruct (keeps_tcp_operation 0 c0 w3 default_context_operation connector_connect_tcp
    connector_connect_unix eq_refl (keeps_connect_tcp 0 c0 w3) w3 H3) as (r & w4 & Hrun & H4).
  assert (Hop : context_op_generic 0 connector_bridge_connection w3 = Done r w4) by exact Hrun.
  rewrite (bind_done _ _ _ _ _ Hop).
  destruct H4 as [Hwf4 Hs4 Hc4 Hh4 (c & Hsame & Hw4) _].
  assert (Hl4 : context_list w4 = <[0%nat := c]> (context_list w))
    by (rewrite Hw4; cbn; by rewrite list_insert_insert_eq).
  assert (Hl40 : context_list w4 !! 0%nat = Some c) by (rewrite Hl4; apply list_lookup_insert_eq; lia).
  destruct (Z.eqb_spec r SUBSTANCE_CONNECTOR_SUCCESS) as [->|Hr']; cbn [negb].
  - rewrite (bind_done _ _ _ _ _ (update_context_some w4 _ c _ Hl40)).
    set (c' := set_connection_data 0 _). set (w5 := set_context_list _ w4).
    destruct (append_available_done w5 la k 0) as (pa & Happ & _); [by cbn; rewrite Hw4 | done | done |].
    rewrite (bind_done _ _ _ _ _ Happ). eexists _, _, _, c'. split; [reflexivity|].
    split; [exact Hh4|]. split; [cbn; by rewrite Hl4, list_insert_insert_eq|].
    split; [unfold c'; cbn; by rewrite (same_name _ _ Hsame)|].
    left. split; [done|]. split; [done|]. split; [|by cbn; rewrite Hw4].
    unfold c'. cbn. by rewrite (same_configuration _ _ Hsame).
  - destruct (id_queue_push (free_contexts w) 0 [] n Hq Hn) as (p' & Hpush & Hp'); [cbn; lia|].
    rewrite (bind_done _ _ _ SUBSTANCE_CONNECTOR_SUCCESS _ (in_free_done _ w4 _ p'
      ltac:(rewrite Hw4; exact Hpush))).
    eexists _, _, _, c. split; [reflexivity|]. split; [exact Hh4|]. split; [done|].
    split; [by rewrite (same_name _ _ Hsame)|]. right. done.
Qed.

End properties.

Lemma open_tcp_allocates_witness :
  exists (w : world simulation) r id w', connector_context_open_tcp 0 true w = Done (r, id) w' /\
    contexts_inv w (seqZ 0 32) (2 ^ 32 - 34) /\ heap (mem w') = heap (mem w).
Proof.
  destruct (ready_world (Simulation 3 false [] [] [] [])) as (w & _ & Hinv & Hq & _ & _).
  destruct (open_tcp_allocates w (seqZ 0 32) (2 ^ 32 - 34) 0 [] (2 ^ 32 - 2) Hinv ltac:(lia) Hq
    ltac:(lia) ltac:(cbn; lia)) as (r & id & w' & Hrun & Hh & _).
  exists w, r, id, w'. split; [exact Hrun|]. split; [exact Hinv | exact Hh].
Defined.

Lemma connect_tcp_allocates_witness :
  exists (w : world simulation) r id w', connector_context_connect_tcp 4000 true w = Done (r, id) w' /\
    heap (mem w') = heap (mem w).
Proof.
  destruct (ready_world (Simulation 3 false [] [] [] [])) as (w & _ & Hinv & Hq & _ & _).
  destruct (connect_tcp_allocates w 0 (seqZ 1 31) (2 ^ 32 - 34) 4000 [] (2 ^ 32 - 2) Hinv ltac:(lia) Hq
    ltac:(lia) ltac:(cbn; lia)) as (r & id & w' & Hrun & Hh & _).
  exists w, r, id, w'. split; [exact Hrun | exact Hh].
Defined.

(** A context that was connected, and is closed and returned. *)
Lemma connected_context (s : simulation) :
  sim_refuse s = false ->
  exists (w : world simulation) c, contexts_inv w (seqZ 1 31) (2 ^ 32 - 34) /\ context_list w !! 0%nat = Some c /\
    configuration c = tcp_connected_bits /\ connection_data c = 0 /\ cx_application_name c = 0 /\
    trampolines_repr w [].
Proof.
  intros Hs. destruct (ready_world s) as (w & _ & Hinv & Hq & He & Htr & Ht).
  set (c := ContextStruct tcp_connected_bits 3 0 0 0 0).
  destruct (pop_free w 0 (seqZ 1 31) (2 ^ 32 - 34) Hinv) as (p & Hp & _).
  exists (set_context_list (<[0%nat := c]> (context_list w)) (set_free_contexts p w)), c.
  pose proof Hinv as [Hwf Hsv Hlen Hfq Hnd Hr Hfree Hused].
  split; [by apply (contexts_inv_take w _ 0 (seqZ 1 31) (2 ^ 32 - 34) c)|].
  split; [cbn; apply list_lookup_insert_eq; lia|].
  split; [done|]. split; [done|]. split; [done|].
  apply (trampolines_repr_frame w); done.
Qed.

Lemma shutdown_returns_context_witness :
  exists (w : world simulation) r w', connector_context_shutdown_from_read_thread 0 w = Done r w' /\
    contexts_inv w' (seqZ 1 31 ++ [0]) (2 ^ 32 - 34 - 1).
Proof.
  destruct (connected_context (Simulation 3 false [] [] [] []) eq_refl)
    as (w & c & Hinv & Hc & Hcfg & Hd & Hname & Htr).
  assert (Hni : 0 ∉ seqZ 1 31) by (rewrite elem_of_seqZ; lia).
  assert (Htcp : Z.land (configuration c) SUBSTANCE_CONNECTOR_COMM_MASK = SUBSTANCE_CONNECTOR_COMM_TCP)
    by (rewrite Hcfg; reflexivity).
  destruct (shutdown_returns_context w (seqZ 1 31) (2 ^ 32 - 34) 0 c None [] Hinv ltac:(lia) ltac:(lia)
    Hni Hc Htcp Hd Hname Htr) as (r & w' & w1 & Hrun & _ & _ & Hinv' & _).
  exists w, r, w'. split; [exact Hrun | exact Hinv'].
Defined.

Lemma context_guards_witness :
  exists w : world simulation, connector_context_write 3 9 w = Done SUBSTANCE_CONNECTOR_INVALID w /\
    connector_context_close 3 w = Done SUBSTANCE_CONNECTOR_ERROR w.
Proof.
  destruct (ready_world (Simulation 3 false [] [] [] [])) as (w & _ & Hinv & _).
  assert (H3 : context_list w !! Z.to_nat 3 = Some zero_context)
    by (apply (ci_free _ _ _ Hinv), elem_of_seqZ; lia).
  destruct (context_guards w 3 9 zero_context ltac:(lia) H3 ltac:(lia) ltac:(discriminate))
    as (_ & _ & Hw & _ & Hcl & _).
  exists w. split; [exact Hw | exact (Hcl eq_refl)].
Defined.

Definition handshake_world : world simulation :=
  World _ (Simulation 3 false [] [] [] []) one_string_memory 0 1
    [ContextStruct tcp_connected_bits 5 0 0 0 0] QNull QNull empty_message_queues 0 [].

Lemma handshake_sent_once_witness :
  exists w', connector_context_write_handshake 0 handshake_world = Done SUBSTANCE_CONNECTOR_SUCCESS w' /\
    sim_sent (env w') = message_bytes Little [0; 0] (handshake_header [97; 98]) [97; 98].
Proof.
  assert (Hwf : mem_wf one_string_memory) by (apply alloc_with_wf, initial_memory_wf).
  destruct (handshake_sent_once handshake_world 0 _ 1 [97; 98] 26
    (Simulation 3 false [] (message_bytes Little [0; 0] (handshake_header [97; 98]) [97; 98]) [] [])
    Hwf ltac:(split; reflexivity) ltac:(lia) eq_refl eq_refl eq_refl ltac:(repeat constructor; lia) eq_refl
    ltac:(cbn; lia) ltac:(vm_compute; reflexivity)) as (w' & Hrun & He & _).
  exists w'. split; [exact Hrun | rewrite He; reflexivity].
Defined.

(** A library whose 32 contexts are all connected. *)
Definition full_world : world simulation :=
  World _ (Simulation 40 false [] [] [] []) initial_memory 0 0
    (replicate 32 (ContextStruct tcp_connected_bits 5 0 0 0 0))
    (QLive (UintQueue 32 32 32 34 (replicate 34 0) 1 2))
    (QLive (UintQueue 0 0 0 34 (replicate 34 0) 3 4)) empty_message_queues 0 [].

Lemma connect_without_free_context_witness :
  exists r id w' c', connector_context_connect_tcp 4000 true full_world = Done (r, id) w' /\
    context_list w' = <[0%nat := c']> (context_list full_world).
Proof.
  assert (Hinv : contexts_inv full_world [] 5).
  { constructor; try done; [apply initial_memory_wf | | constructor | intros i Hi; by apply elem_of_nil in Hi |].
    - eexists. split; [reflexivity|]. split; [|split; [done | cbn; lia]].
      constructor; cbn; try lia; done.
    - intros i Hi _. eexists. split; [apply (lookup_replicate_2 32); lia | by vm_compute]. }
  assert (Hq : id_queue (connection_queue full_world) [] 5).
  { eexists. split; [reflexivity|]. split; [by apply new_queue_repr | split; [done | cbn; lia]]. }
  destruct (connect_without_free_context full_world 5 4000 [] 5 Hinv ltac:(lia) Hq ltac:(lia)
    ltac:(cbn; lia)) as [(r & id & w' & c' & Hrun & _ & Hl & _) _].
  exists r, id, w', c'. split; [exact Hrun | exact Hl].
Defined.
