(* ===== verification/AutoConnect.v ===== *)
(** * Connecting to everything that is published

    [autoconnect.c]: the default socket directories are listed and every entry
    of the right type is connected to. *)

From S2P Require Import Prelude Wire Memory Strings UintQueue LockedQueue Message World Callbacks.
From S2P Require Import FileSystem Connection SlotFrame ContextQueue Contexts.

Section autoconnect.
Context {E : Type} {P : Platform E} {B : Bindings E}.

(** ** Operations *)

(** One entry: the name behind the pointer [name_ptr] in the directory [dir]. *)
Definition broadcast_entry (dir : list Z) (test connect : path -> M (world E) Z) (name_ptr : Z) :
    M (world E) unit :=
  let* name := in_mem (read_cstr name_ptr) in
  let* joined := in_mem (connector_path_join (Some [dir; name]) true) in
  let filepath := PPtr (default 0 (snd joined)) in
  let* is_type := test filepath in
  when (is_type =? SUBSTANCE_CONNECTOR_SUCCESS)
    (let* retcode := connect filepath in
     when (negb (retcode =? SUBSTANCE_CONNECTOR_SUCCESS))
       (connector_remove_file filepath ;;; ret tt)) ;;;
  in_mem (connector_free (default 0 (snd joined))).

(** The loop over the array; it has at most [fuel - 1] more slots. *)
Fixpoint broadcast_loop (fuel : nat) (dir : list Z) (test connect : path -> M (world E) Z)
    (elements : Z) (i : nat) : M (world E) unit :=
  match fuel with
  | O => stuck NoFuel
  | S n =>
      let* x := in_mem (load_slot elements i) in
      if negb (x =? 0) then
        broadcast_entry dir test connect x ;;;
        broadcast_loop n dir test connect elements (S i)
      else ret tt
  end.

Definition broadcast_connect_impl (socket_dir : path) (test connect : path -> M (world E) Z) :
    M (world E) Z :=
  let* is_dir := connector_is_directory socket_dir in
  if is_dir =? SUBSTANCE_CONNECTOR_SUCCESS then
    let* listed := connector_list_directory socket_dir None (Some 0) in
    if fst listed =? SUBSTANCE_CONNECTOR_SUCCESS then
      let elements := default 0 (snd listed) in
      if negb (elements =? 0) then
        let* dir := in_mem (read_path socket_dir) in
        let* slots := in_mem (load_ptrs elements) in
        broadcast_loop (S (length slots)) (default [] dir) test connect elements 0 ;;;
        in_mem (connector_clear_directory_list (Some elements)) ;;;
        ret SUBSTANCE_CONNECTOR_SUCCESS
      else ret SUBSTANCE_CONNECTOR_ERROR
    else ret SUBSTANCE_CONNECTOR_ERROR
  else ret SUBSTANCE_CONNECTOR_ERROR.

(** The loop of [test_tcp_validity] over [n] contexts from [i] on. *)
Fixpoint tcp_validity_loop (n : nat) (i port : Z) : M (world E) Z :=
  match n with
  | O => ret SUBSTANCE_CONNECTOR_SUCCESS
  | S n' =>
      let* state := connector_context_state i in
      let* type := connector_context_type i in
      if negb (state =? SUBSTANCE_CONNECTOR_CONN_CLOSED) && (type =? SUBSTANCE_CONNECTOR_COMM_TCP) then
        let* p := connector_context_port i in
        if port =? p then ret SUBSTANCE_CONNECTOR_ERROR else tcp_validity_loop n' (i + 1) port
      else tcp_validity_loop n' (i + 1) port
  end.

Definition test_tcp_validity (port : Z) : M (world E) Z :=
  if port <=? 65535 then tcp_validity_loop (Z.to_nat SUBSTANCE_CONNECTOR_CONTEXT_COUNT) 0 port
  else ret SUBSTANCE_CONNECTOR_ERROR.

(** A path without a delimiter makes [strrchr] answer NULL, which is read. *)
Definition connect_tcp_path_impl (p : path) : M (world E) Z :=
  let* s := in_mem (read_path p) in
  match s with
  | None => stuck NullDeref
  | Some s =>
      match strrchr s CONNECTOR_PATH_DELIM with
      | None => stuck NullDeref
      | Some filename =>
          let filename := match filename with [] => [] | _ :: rest => rest end in
          let port := u32 (atoi filename) in
          let* valid := test_tcp_validity port in
          if valid =? SUBSTANCE_CONNECTOR_SUCCESS then
            let* r := connector_context_connect_tcp port true in ret (fst r)
          else ret SUBSTANCE_CONNECTOR_SUCCESS
      end
  end.

(** The path is handed to the new context as its connection data. *)
Definition connect_unix_path (p : path) : M (world E) Z :=
  let* r := connector_context_connect_unix (match p with PPtr a => a | _ => 0 end) true in ret (fst r).

Definition connector_broadcast_connect_unix : M (world E) Z :=
  broadcast_connect_impl connector_get_default_unix_directory connector_is_unix_socket connect_unix_path.
Definition connector_broadcast_connect_tcp : M (world E) Z :=
  broadcast_connect_impl connector_get_default_tcp_directory connector_is_file connect_tcp_path_impl.
Definition connector_broadcast_connect_default : M (world E) Z := connector_broadcast_connect_unix.

Definition connector_open_default_tcp (identifier_given : bool) : M (world E) (Z * option Z) :=
  connector_context_open_tcp 0 identifier_given.
Definition connector_open_default_unix (identifier_given : bool) : M (world E) (Z * option Z) :=
  connector_context_open_unix 0 identifier_given.
Definition connector_open_default_connection (identifier_given : bool) : M (world E) (Z * option Z) :=
  connector_open_default_unix identifier_given.

(** ** Specification *)

(** The slots that occupy a TCP port, as [test_tcp_validity] sees them. *)
Definition occupies (port : Z) (c : context_struct) : Prop :=
  Z.land (configuration c) SUBSTANCE_CONNECTOR_CONN_MASK <> SUBSTANCE_CONNECTOR_CONN_CLOSED /\
  Z.land (configuration c) SUBSTANCE_CONNECTOR_COMM_MASK = SUBSTANCE_CONNECTOR_COMM_TCP /\
  u32 (cx_port c) = port.

(** ** Lemmas *)

Implicit Types w : world E.

Lemma tcp_validity_loop_spec w k i port :
  length (context_list w) = 32%nat -> 0 <= i -> i + Z.of_nat k = 32 ->
  exists r, tcp_validity_loop k i port w = Done r w /\
    ((r = SUBSTANCE_CONNECTOR_SUCCESS /\
      forall j c, (Z.to_nat i <= j)%nat -> context_list w !! j = Some c -> ~ occupies port c) \/
     (r = SUBSTANCE_CONNECTOR_ERROR /\ exists j c, context_list w !! j = Some c /\ occupies port c)).
Proof.
  intros Hlen. revert i. induction k as [|k IH]; intros i Hi Hk.
  - exists SUBSTANCE_CONNECTOR_SUCCESS. split; [done|]. left. split; [done|].
    intros j c Hj Hc. apply lookup_lt_Some in Hc. lia.
  - destruct (lookup_lt_is_Some_2 (context_list w) (Z.to_nat i)) as [c Hc]; [lia|].
    cbn [tcp_validity_loop]. unfold connector_context_state, connector_context_type, connector_context_port.
    rewrite (bind_done _ _ _ _ _ (context_configuration_done w i c SUBSTANCE_CONNECTOR_CONN_MASK
      ltac:(lia) Hc ltac:(done))).
    rewrite (bind_done _ _ _ _ _ (context_configuration_done w i c SUBSTANCE_CONNECTOR_COMM_MASK
      ltac:(lia) Hc ltac:(done))).
    destruct (IH (i + 1) ltac:(lia) ltac:(lia)) as (r & Hrun & Hr).
    assert (Hskip : ~ occupies port c -> exists r, tcp_validity_loop k (i + 1) port w = Done r w /\
      ((r = SUBSTANCE_CONNECTOR_SUCCESS /\
        forall j c, (Z.to_nat i <= j)%nat -> context_list w !! j = Some c -> ~ occupies port c) \/
       (r = SUBSTANCE_CONNECTOR_ERROR /\ exists j c, context_list w !! j = Some c /\ occupies port c))).
    { intros Hno. exists r. split; [done|]. destruct Hr as [[-> Hr]|Hr]; [left|by right].
      split; [done|]. intros j c' Hj Hc'. destruct (decide (j = Z.to_nat i)) as [->|Hne].
      - congruence.
      - apply (Hr j); [lia | done]. }
    destruct (Z.eqb_spec (Z.land (configuration c) SUBSTANCE_CONNECTOR_CONN_MASK) SUBSTANCE_CONNECTOR_CONN_CLOSED)
      as [Hs|Hs]; cbn [negb andb]; [apply Hskip; intros (? & _); done|].
    destruct (Z.eqb_spec (Z.land (configuration c) SUBSTANCE_CONNECTOR_COMM_MASK) SUBSTANCE_CONNECTOR_COMM_TCP)
      as [Ht|Ht]; [|apply Hskip; intros (_ & ? & _); done].
    rewrite (bind_done _ _ _ (u32 (cx_port c)) w)
      by (by rewrite (bind_done _ _ _ _ _ (load_context_some w _ c Hc))).
    destruct (Z.eqb_spec port (u32 (cx_port c))) as [Hp|Hp]; [|apply Hskip; intros (_ & _ & ?); congruence].
    exists SUBSTANCE_CONNECTOR_ERROR. split; [done|]. right. split; [done|]. exists (Z.to_nat i), c.
    split; [done|]. split; [done|]. split; [done|]. done.
Qed.

Lemma tcp_validity_cases w port :
  length (context_list w) = 32%nat ->
  exists r, test_tcp_validity port w = Done r w /\
    (r = SUBSTANCE_CONNECTOR_SUCCESS <->
       port <= 65535 /\ Forall (fun c => ~ occupies port c) (context_list w)) /\
    (r = SUBSTANCE_CONNECTOR_SUCCESS \/ r = SUBSTANCE_CONNECTOR_ERROR).
Proof.
  intros Hlen. unfold test_tcp_validity, SUBSTANCE_CONNECTOR_CONTEXT_COUNT.
  destruct (Z.leb_spec port 65535) as [Hp|Hp].
  - destruct (tcp_validity_loop_spec w 32 0 port Hlen) as (r & Hrun & Hr); [lia | lia |].
    exists r. split; [exact Hrun|]. destruct Hr as [[-> Hall]|[-> (j & c & Hc & Ho)]].
    + split; [|by left]. split; [|done]. intros _. split; [done|]. apply Forall_lookup.
      intros j c Hc. apply (Hall j); [lia | done].
    + split; [|by right]. split; [done|]. intros [_ Hall]. exfalso.
      rewrite Forall_lookup in Hall. by apply (Hall j c).
  - exists SUBSTANCE_CONNECTOR_ERROR. split; [done|]. split; [|by right]. split; [done | lia].
Qed.

(** What a refused connection leaves behind. *)
Lemma connect_refused w i l n port sock e1 r e2 rc e3 :
  contexts_inv w (i :: l) n -> 0 < n -> 0 <= port < 65536 ->
  socket_inet (env w) = (sock, e1) -> 0 <= sock -> connect_inet sock port e1 = (r, e2) -> r < 0 ->
  close sock e2 = (rc, e3) ->
  exists w', connector_context_connect_tcp port true w = Done (SUBSTANCE_CONNECTOR_OPEN_FAIL, None) w' /\
    context_list w' = <[Z.to_nat i := ContextStruct tcp_open_bits 0 port 0 0 0]> (context_list w) /\
    id_queue (free_contexts w') (l ++ [i]) (n - 1) /\ env w' = e3 /\ mem w' = mem w.
Proof.
  intros Hinv Hn Hport Hsock Hs0 Hconn Hr Hclose. pose proof Hinv as [Hwf Hs Hlen Hq Hnd Hrg Hfree Hused].
  apply NoDup_cons in Hnd as [Hil Hnd]. apply Forall_cons in Hrg as [Hi Hrg].
  assert (Hzero : context_list w !! Z.to_nat i = Some zero_context)
    by (apply Hfree, elem_of_cons; by left).
  destruct (pop_free w i l n Hinv) as (p & Hp & Hpop).
  unfold connector_context_connect_tcp, connector_context_connect. rewrite (bind_done _ _ _ _ _ Hpop).
  cbn [default from_option id snd desc_connection_data].
  rewrite (bind_done _ _ _ _ _ (store_slot_done (set_free_contexts p w) i zero_context _ Hzero)).
  rewrite list_insert_id by done.
  set (c0 := ContextStruct tcp_open_bits 0 port 0 0 0). change (described_context _ 0) with c0.
  rewrite (bind_done _ _ _ _ _ (store_slot_done (set_free_contexts p w) i zero_context c0 Hzero)).
  cbn [context_list set_free_contexts]. set (w3 := set_context_list _ _).
  assert (Hc3 : context_list w3 !! Z.to_nat i = Some c0) by (cbn; apply list_lookup_insert_eq; lia).
  assert (Hop : context_op_generic i connector_bridge_connection w3 =
    Done SUBSTANCE_CONNECTOR_OPEN_FAIL (set_env e3 w3)).
  { unfold context_op_generic, SUBSTANCE_CONNECTOR_CONTEXT_COUNT. rewrite (proj2 (Z.ltb_lt i 32)) by lia.
    unfold connector_bridge_connection, context_operation, slot. rewrite bool_decide_eq_true_2 by done.
    rewrite (bind_done _ _ _ _ _ (load_context_some w3 _ c0 Hc3)).
    change (connection_index c0 0) with 1%nat. cbn [nth connect_functions].
    unfold connector_connect_tcp, connector_connect_tcp_impl. rewrite bool_decide_eq_true_2 by done.
    rewrite (bind_done _ _ _ _ _ (load_context_some w3 _ c0 Hc3)). cbn [cx_port c0].
    rewrite u16_small by lia. unfold bind, sys. cbn [env w3 set_context_list set_free_contexts].
    rewrite Hsock. rewrite (proj2 (Z.ltb_ge sock 0)) by done. cbn [env set_env]. rewrite Hconn.
    rewrite (proj2 (Z.ltb_lt r 0)) by done. cbn [env set_env]. by rewrite Hclose. }
  rewrite (bind_done _ _ _ _ _ Hop).
  change (SUBSTANCE_CONNECTOR_OPEN_FAIL =? SUBSTANCE_CONNECTOR_SUCCESS) with false. cbn [negb].
  destruct (id_queue_push p i l n Hp Hn) as (p' & Hpush & Hp').
  { pose proof (free_length l Hnd Hrg). lia. }
  rewrite (bind_done _ _ _ _ _ (in_free_done _ (set_env e3 w3) _ _ Hpush)).
  eexists. split; [reflexivity|]. done.
Qed.

(** ** Properties *)

(** A published port is worth a connection exactly when it is a port number
    and no context that is open, connected or shutting down uses it over TCP. *)
Theorem tcp_validity_spec w (port : Z) (Hlen : length (context_list w) = 32%nat) :
  exists r, test_tcp_validity port w = Done r w /\
    (r = SUBSTANCE_CONNECTOR_SUCCESS <->
       port <= 65535 /\ Forall (fun c => ~ occupies port c) (context_list w)) /\
    (r = SUBSTANCE_CONNECTOR_SUCCESS \/ r = SUBSTANCE_CONNECTOR_ERROR).
Proof. by apply tcp_validity_cases. Qed.

(** After a refused connection the library never tries that port again while
    the slot is not reused: the abandoned slot still counts as an open TCP
    context with that port, so the published path is skipped and the attempt is
    reported as a success, without a call to the system. *)
Theorem refused_port_is_skipped w (i : Z) (l : list Z) (n port sock : Z) (e1 : E) (r : Z) (e2 : E)
    (rc : Z) (e3 : E)
    (Hinv : contexts_inv w (i :: l) n) (Hn : 0 < n) (Hport : 0 <= port < 65536)
    (Hsock : socket_inet (env w) = (sock, e1)) (Hs0 : 0 <= sock)
    (Hconn : connect_inet sock port e1 = (r, e2)) (Hr : r < 0) (Hclose : close sock e2 = (rc, e3)) :
  exists w', connector_context_connect_tcp port true w = Done (SUBSTANCE_CONNECTOR_OPEN_FAIL, None) w' /\
    connect_tcp_path_impl (PLit (tcp_path port)) w' = Done SUBSTANCE_CONNECTOR_SUCCESS w'.
Proof.
  destruct (connect_refused w i l n port sock e1 r e2 rc e3) as (w' & Hrun & Hl & _); auto.
  exists w'. split; [done|]. pose proof (ci_length _ _ _ Hinv) as Hlen.
  assert (Hi : 0 <= i < 32) by (pose proof (ci_range _ _ _ Hinv) as H; by apply Forall_cons in H as [? _]).
  unfold connect_tcp_path_impl, tcp_path.
  rewrite (bind_done _ _ w' (Some (CONNECTOR_DEFAULT_TCP_DIRECTORY ++ CONNECTOR_PATH_DELIM :: print_unsigned port)) w')
    by (unfold in_mem, zoom; cbn [read_path ret]; by rewrite set_mem_id).
  rewrite strrchr_last by apply print_unsigned_no_delim.
  rewrite atoi_print_unsigned, u32_small by lia.
  destruct (tcp_validity_cases w' port) as (r' & Hv & Hiff & Hor); [by rewrite Hl, length_insert|].
  rewrite (bind_done _ _ _ _ _ Hv).
  destruct Hor as [->| ->]; [|done]. exfalso. destruct (proj1 Hiff eq_refl) as [_ Hall].
  rewrite Forall_lookup in Hall. refine (Hall (Z.to_nat i) (ContextStruct tcp_open_bits 0 port 0 0 0) _ _).
  - rewrite Hl. apply list_lookup_insert_eq. lia.
  - split; [done|]. split; [done|]. by apply u32_small; lia.
Qed.

End autoconnect.

(** ** A broadcast releases what it allocates *)

Section broadcast.
Context {E : Type} {P : Platform E} {B : Bindings E}.
Implicit Types w : world E.

(** The same live blocks, in a well-formed memory. *)
Definition same_blocks w w' : Prop :=
  mem_wf (mem w') /\ mem_config_eq (mem w) (mem w') /\ heap (mem w') = heap (mem w).

Lemma same_blocks_trans w1 w2 w3 : same_blocks w1 w2 -> same_blocks w2 w3 -> same_blocks w1 w3.
Proof.
  intros (_ & C1 & H1) (W2 & C2 & H2). split; [done|]. split; [by etransitivity | congruence].
Qed.

Lemma same_blocks_owns w w' p b : same_blocks w w' -> owns (mem w) p b -> owns (mem w') p b.
Proof. intros (_ & C & H). unfold owns. by rewrite H, (config_free _ _ C). Qed.

(** [J] is an assertion about everything but the environment and the memory;
    an operation on a path acts within it if it finishes, keeps it and gives
    back every block it allocated. *)
Variable J : world E -> Prop.
Hypothesis J_env : forall w e, J w -> J (set_env e w).
Hypothesis J_mem : forall w m, J w -> J (set_mem m w).

Definition acts_on_paths (f : path -> M (world E) Z) : Prop :=
  forall w a s, J w -> mem_wf (mem w) -> mem_serving (mem w) -> cstring s ->
    points_to_string (mem w) a s ->
    exists r w', f (PPtr a) w = Done r w' /\ J w' /\ same_blocks w w'.

Lemma read_pointer m a s :
  mem_wf m -> cstring s -> points_to_string m a s -> read_path (PPtr a) m = Done (Some s) m.
Proof.
  intros Hwf Hs Ha. unfold read_path. rewrite (owns_pos m a _ Hwf Ha).
  by rewrite (bind_done _ _ _ _ _ (read_cstr_string m a s Hwf Hs Ha)).
Qed.

Lemma acts_test_file_type flag : acts_on_paths (fun p => test_file_type p flag).
Proof.
  intros w a s HJ Hwf Hs Hcs Ha. unfold test_file_type.
  rewrite (bind_done _ _ w _ _ (in_mem_done _ w _ _ (read_pointer _ _ _ Hwf Hcs Ha))), set_mem_id.
  unfold bind, sys. destruct (stat s (env w)) as [[mode|] e];
    [destruct (negb _)|]; eexists _, _; (split; [reflexivity|]); (split; [by apply J_env | done]).
Qed.

Lemma acts_remove_file : acts_on_paths connector_remove_file.
Proof.
  intros w a s HJ Hwf Hs Hcs Ha. unfold connector_remove_file.
  rewrite (bind_done _ _ w _ _ (in_mem_done _ w _ _ (read_pointer _ _ _ Hwf Hcs Ha))), set_mem_id.
  unfold bind, sys. destruct (unlink s (env w)) as [r e].
  destruct (r =? 0); eexists _, _; (split; [reflexivity|]); (split; [by apply J_env | done]).
Qed.

Lemma joined_cstring dir name : cstring dir -> cstring name -> cstring (joined [dir; name]).
Proof.
  intros Hd Hn. cbn [joined_by]. apply List.Forall_app. split; [done|].
  constructor; [unfold CONNECTOR_PATH_DELIM; lia | done].
Qed.

Variables test connect : path -> M (world E) Z.
Hypothesis test_acts : acts_on_paths test.
Hypothesis connect_acts : acts_on_paths connect.

Lemma broadcast_entry_spec dir w p name :
  J w -> mem_wf (mem w) -> mem_serving (mem w) -> cstring dir -> cstring name ->
  Z.of_nat (length dir) < 2 ^ 32 -> Z.of_nat (length name) < 2 ^ 32 -> points_to_string (mem w) p name ->
  exists w', broadcast_entry dir test connect p w = Done tt w' /\ J w' /\ same_blocks w w'.
Proof.
  intros HJ Hwf Hs Hdir Hname Hld Hln Hp. unfold broadcast_entry.
  rewrite (bind_done _ _ w _ _ (in_mem_done _ w _ _ (read_cstr_string _ _ _ Hwf Hname Hp))), set_mem_id.
  set (a := next_addr (mem w)). set (full := joined [dir; name]).
  set (m1 := alloc_with (BStr (full ++ [0])) (mem w)).
  assert (Hjoin : connector_path_join (Some [dir; name]) true (mem w) =
    Done (SUBSTANCE_CONNECTOR_SUCCESS, Some a) m1).
  { apply connector_path_join_serving; try done. cbn [total_length length]. lia. }
  rewrite (bind_done _ _ _ _ _ (in_mem_done _ w _ _ Hjoin)). cbn [snd default from_option id].
  assert (Hwf1 : mem_wf m1) by (by apply alloc_with_wf).
  assert (Ha1 : points_to_string m1 a full) by (by apply alloc_with_owns).
  assert (Hfull : cstring full) by (by apply joined_cstring).
  set (w1 := set_mem m1 w).
  (* the test, the attempt and the removal keep the blocks of [w1] *)
  assert (Hbody : exists w2, (let* is_type := test (PPtr a) in
      when (is_type =? SUBSTANCE_CONNECTOR_SUCCESS)
        (let* retcode := connect (PPtr a) in
         when (negb (retcode =? SUBSTANCE_CONNECTOR_SUCCESS))
           (connector_remove_file (PPtr a) ;;; ret tt))) w1 = Done tt w2 /\ J w2 /\ same_blocks w1 w2).
  { destruct (test_acts w1 a full (J_mem _ _ HJ) Hwf1 Hs Hfull Ha1) as (r & w2 & E2 & J2 & B2).
    rewrite (bind_done _ _ _ _ _ E2). destruct (r =? SUBSTANCE_CONNECTOR_SUCCESS); cbn [when]; [|by exists w2].
    assert (Hs2 : mem_serving (mem w2)) by (by eapply mem_serving_config; [apply B2 |]).
    destruct (connect_acts w2 a full J2 (proj1 B2) Hs2 Hfull (same_blocks_owns _ _ _ _ B2 Ha1))
      as (r3 & w3 & E3 & J3 & B3).
    pose proof (same_blocks_trans _ _ _ B2 B3) as B13.
    rewrite (bind_done _ _ _ _ _ E3). destruct (r3 =? SUBSTANCE_CONNECTOR_SUCCESS); cbn [negb when]; [by exists w3|].
    assert (Hs3 : mem_serving (mem w3)) by (by eapply mem_serving_config; [apply B3 |]).
    destruct (acts_remove_file w3 a full J3 (proj1 B3) Hs3 Hfull (same_blocks_owns _ _ _ _ B13 Ha1))
      as (r4 & w4 & E4 & J4 & B4).
    exists w4. split; [by rewrite (bind_done _ _ _ _ _ E4)|]. split; [done|]. by eapply same_blocks_trans. }
  destruct Hbody as (w2 & Hrun & J2 & B2).
  unfold bind in Hrun |- *. destruct (test (PPtr a) w1) as [r wt|]; [|done]. rewrite Hrun.
  pose proof (same_blocks_owns _ _ _ _ B2 Ha1) as Ha2. destruct B2 as (Hwf2 & Hc2 & Hh2).
  rewrite (in_mem_done _ w2 _ _ (connector_free_owns _ _ _ Hwf2 Ha2)).
  eexists. split; [reflexivity|]. split; [by apply J_mem|]. split; [by apply free_cell_wf|].
  split; [by destruct Hc2|]. apply map_eq. intros x. cbn. rewrite Hh2, lookup_delete.
  case_decide as Hx; [subst x; symmetry; by apply mem_wf_fresh|]. by apply lookup_insert_ne.
Qed.

Lemma broadcast_loop_spec dir fuel e rest done todo names w :
  J w -> mem_wf (mem w) -> mem_serving (mem w) -> cstring dir -> Z.of_nat (length dir) < 2 ^ 32 ->
  Forall (fun s => cstring s /\ Z.of_nat (length s) < 2 ^ 32) names ->
  owns (mem w) e (BPtrs (map Some (done ++ todo) ++ Some 0 :: rest)) ->
  Forall (fun p => p <> 0) todo -> Forall2 (fun p s => points_to_string (mem w) p s) todo names ->
  (length todo < fuel)%nat ->
  exists w', broadcast_loop fuel dir test connect e (length done) w = Done tt w' /\ J w' /\ same_blocks w w'.
Proof.
  intros HJ Hwf Hs Hdir Hld Hnames He Hnz H2 Hf. revert fuel done w HJ Hwf Hs He H2 Hf Hnames.
  revert names. induction todo as [|p todo IH]; intros names fuel dn w HJ Hwf Hs He H2 Hf Hnames;
    (destruct fuel as [|fuel]; [cbn in Hf; lia|]); cbn [broadcast_loop].
  - rewrite app_nil_r in He.
    rewrite (bind_done _ _ w 0 w); [by exists w|]. rewrite (in_mem_done _ w 0 (mem w)), set_mem_id; [done|].
    eapply load_slot_owns; [done | exact He |].
    rewrite <- (length_map Some dn). by apply list_lookup_middle.
  - apply Forall2_cons_inv_l in H2 as (s & names' & Hp & H2' & ->). apply Forall_cons in Hnames as [[Hcs Hls] Hnames].
    apply Forall_cons in Hnz as [Hp0 Hnz].
    rewrite (bind_done _ _ w p w).
    2: { rewrite (in_mem_done _ w p (mem w)), set_mem_id; [done|].
         eapply load_slot_owns; [done | exact He |]. rewrite map_app, <- app_assoc.
         rewrite <- (length_map Some dn). by apply list_lookup_middle. }
    rewrite (proj2 (Z.eqb_neq p 0)) by done. cbn [negb].
    destruct (broadcast_entry_spec dir w p s) as (w1 & E1 & J1 & B1); auto.
    rewrite (bind_done _ _ _ _ _ E1).
    destruct (IH Hnz names' fuel (dn ++ [p]) w1) as (w' & Hrun & J' & B'); auto.
    + apply B1.
    + eapply mem_serving_config; [apply B1 | done].
    + rewrite <- app_assoc. by apply (same_blocks_owns w).
    + apply (points_to_strings_frame (mem w)); [done | by destruct B1 as (_ & [] & _) |].
      intros q _. by destruct B1 as (_ & _ & ->).
    + cbn in Hf. lia.
    + exists w'. rewrite length_app, Nat.add_comm in Hrun. split; [exact Hrun|]. split; [done|].
      by eapply same_blocks_trans.
Qed.

(** Broadcasting to a directory of at most fifteen published names succeeds
    and leaves no block behind, whatever the attempts answer, as long as the
    test and the connection routine give back what they allocate: the list, its
    names and every joined path are released, and an assertion that both routines
    keep still holds. *)
Theorem broadcast_releases_everything w (dir : list Z) (names : list (list Z)) (env1 env2 : E)
    (HJ : J w) (Hwf : mem_wf (mem w)) (Hs : mem_serving (mem w)) (Hdir : cstring dir)
    (Hld : Z.of_nat (length dir) < 2 ^ 32)
    (Hnames : Forall (fun s => cstring s /\ Z.of_nat (length s) < 2 ^ 32) (accepted names))
    (Hshort : (1 <= length (accepted names) <= 15)%nat)
    (Hstat : stat dir (env w) = (Some S_IFDIR, env1)) (Hread : readdir dir env1 = (Some names, env2)) :
  exists w', broadcast_connect_impl (PLit dir) test connect w = Done SUBSTANCE_CONNECTOR_SUCCESS w' /\
    J w' /\ heap (mem w') = heap (mem w).
Proof.
  unfold broadcast_connect_impl.
  assert (Hlit : forall w0, in_mem (read_path (PLit dir)) w0 = Done (Some dir) w0)
    by (intros w0; unfold in_mem, zoom; cbn [read_path ret]; by rewrite set_mem_id).
  rewrite (bind_done _ _ w SUBSTANCE_CONNECTOR_SUCCESS (set_env env1 w)).
  2: { unfold connector_is_directory, test_file_type. rewrite (bind_done _ _ _ _ _ (Hlit w)).
       unfold bind, sys. by rewrite Hstat. }
  rewrite Z.eqb_refl.
  destruct (list_loop_from_empty names (mem w) Hwf Hs Hshort)
    as (e & m1 & cap & slots & ps & E1 & He & Hl & Hsh & Hnz).
  set (w1 := set_mem m1 (set_env env2 w)).
  rewrite (bind_done _ _ (set_env env1 w) (SUBSTANCE_CONNECTOR_SUCCESS, Some e) w1).
  2: { unfold connector_list_directory. cbn [default from_option id].
       rewrite (bind_done _ _ _ _ _ (Hlit _)).
       rewrite (bind_done (sys _) _ _ (Some names) (set_env env2 w)) by (unfold sys; cbn [env set_env]; by rewrite Hread).
       by rewrite (bind_done _ _ _ _ _ (in_mem_done _ (set_env env2 w) _ _ E1)). }
  cbn [fst snd default from_option id]. rewrite Z.eqb_refl, (proj2 (Z.eqb_neq e 0)) by done. cbn [negb].
  rewrite (bind_done _ _ _ _ _ (Hlit w1)).
  destruct (short_list_ends _ _ _ Hsh) as [rest Hrest].
  pose proof Hl as [Hwf1 Hc1 Ho1 Hn1 Hnd1 Hold1 Hfr1].
  rewrite (bind_done _ _ w1 slots w1)
    by (rewrite (in_mem_done _ w1 _ _ (load_ptrs_owns _ _ _ Hwf1 Ho1)); reflexivity).
  destruct (broadcast_loop_spec dir (S (length slots)) e rest [] ps (accepted names) w1)
    as (w2 & E2 & J2 & Hwf2 & Hc2 & Hh2); auto.
  - apply J_mem, J_env, HJ.
  - by eapply mem_serving_config.
  - cbn [app]; by rewrite <- Hrest.
  - rewrite Hrest, length_app, length_map. cbn. lia.
  - change (length (@nil Z)) with 0%nat in E2. rewrite (bind_done _ _ _ _ _ E2).
    assert (Hl2 : listing (mem w) (mem w2) e slots ps (accepted names)).
    { constructor; try done.
      - by transitivity m1.
      - unfold owns in *. by rewrite Hh2, (config_free _ _ Hc2).
      - apply (points_to_strings_frame m1); [done | by destruct Hc2 |]. intros q _. by rewrite Hh2.
      - intros a Ha. rewrite Hh2. by apply Hold1. }
    destruct (clear_directory_list_spec _ _ _ _ _ _ _ He Hl2 Hsh Hnz) as (m3 & E3 & _ & _ & Hh3).
    rewrite (bind_done _ _ _ _ _ (in_mem_done _ w2 _ _ E3)).
    eexists. split; [reflexivity|]. split; [by apply J_mem | exact Hh3].
Qed.

End broadcast.

Lemma broadcast_releases_everything_witness :
  exists w', broadcast_connect_impl (PLit [47; 100]) (fun p => test_file_type p S_IFREG)
      connector_remove_file (simulated_world small_directory) = Done SUBSTANCE_CONNECTOR_SUCCESS w' /\
    heap (mem w') = heap initial_memory.
Proof.
  destruct (broadcast_releases_everything (fun _ => True) (fun _ _ _ => I) (fun _ _ _ => I)
    (fun p => test_file_type p S_IFREG) connector_remove_file
    (acts_test_file_type _ (fun _ _ _ => I) S_IFREG) (acts_remove_file _ (fun _ _ _ => I))
    (simulated_world small_directory) [47; 100] [[97]; [46; 104]; [98]]
    (env (simulated_world small_directory)) (env (simulated_world small_directory)) I initial_memory_wf
    ltac:(split; reflexivity) ltac:(repeat constructor; lia) ltac:(cbn; lia)
    ltac:(repeat constructor; cbn; lia) ltac:(vm_compute; lia) eq_refl eq_refl)
    as (w' & Hrun & _ & Hh).
  exists w'. split; [exact Hrun | exact Hh].
Defined.

(** An existing directory without entries is reported as an error. *)
Lemma broadcast_of_empty_directory :
  exists w', broadcast_connect_impl (PLit [47; 100]) connector_is_file connect_tcp_path_impl
      (simulated_world [([47; 100], S_IFDIR)]) = Done SUBSTANCE_CONNECTOR_ERROR w'.
Proof. eexists. vm_compute. reflexivity. Qed.

Lemma tcp_validity_spec_witness :
  exists w : world simulation, test_tcp_validity 4000 w = Done SUBSTANCE_CONNECTOR_SUCCESS w.
Proof.
  destruct (ready_world (Simulation 3 false [] [] [] [])) as (w & _ & Hinv & _).
  destruct (tcp_validity_spec w 4000 (ci_length _ _ _ Hinv)) as (r & Hrun & Hiff & _).
  exists w. rewrite Hrun. f_equal. apply Hiff. split; [lia|]. apply Forall_lookup. intros j c Hc (Ho & _).
  apply Ho. assert (Hj : (j < 32)%nat) by (rewrite <- (ci_length _ _ _ Hinv); by eapply lookup_lt_Some).
  pose proof (ci_free _ _ _ Hinv (Z.of_nat j) ltac:(apply elem_of_seqZ; lia)) as Hz.
  rewrite Nat2Z.id, Hc in Hz. by injection Hz as ->.
Defined.

Lemma refused_port_is_skipped_witness :
  exists w w' : world simulation,
    connector_context_connect_tcp 4000 true w = Done (SUBSTANCE_CONNECTOR_OPEN_FAIL, None) w' /\
    connect_tcp_path_impl (PLit (tcp_path 4000)) w' = Done SUBSTANCE_CONNECTOR_SUCCESS w'.
Proof.
  destruct (ready_world (Simulation 3 true [] [] [] [])) as (w & _ & Hinv & _ & He & _).
  destruct (refused_port_is_skipped w 0 (seqZ 1 31) (2 ^ 32 - 34) 4000 3 (Simulation 4 true [] [] [] [])
    (-1) (Simulation 4 true [] [] [] []) 0 (Simulation 4 true [] [] [3] []) Hinv ltac:(lia) ltac:(lia)
    ltac:(rewrite He; reflexivity) ltac:(lia) eq_refl ltac:(lia) eq_refl) as (w' & H1 & H2).
  exists w, w'. split; [exact H1 | exact H2].
Defined.
