(* ===== verification/ReadThread.v ===== *)
(** * Read threads

    [readstructimpl.c] (the contexts a thread polls), [readthreadimpl.c] (what
    it does with an event), [disconnect_message.c] and the routine of
    [read_threads.c]. *)

From S2P Require Import Prelude Wire Memory Strings UintQueue LockedQueue Message World Callbacks.
From S2P Require Import FileSystem Connection SlotFrame ContextQueue Contexts.

Definition SUBSTANCE_CONNECTOR_INBOUND_COUNT : Z := 2.
Definition SUBSTANCE_CONNECTOR_READ_CONTEXTS : nat := 17. (* 32 / 2 + 1 *)

(** The values of <poll.h> on Linux. *)
Definition POLLIN : Z := 0x001.
Definition SUBSTANCE_CONNECTOR_POLLIN : Z := POLLIN.
Definition SUBSTANCE_CONNECTOR_POLLERR : Z := 0x008.
Definition SUBSTANCE_CONNECTOR_POLLHUP : Z := 0x010.

(** [connector_read_thread_t]; a [struct pollfd] is the triple of [fd],
    [events] and [revents]. *)
Record read_thread := ReadThread {
  thread_id : Z;
  contexts : list (Z * Z * Z);
  context_ids : list Z;
  assigned_contexts : nat
}.

Definition new_thread (id : Z) : read_thread :=
  ReadThread id (replicate SUBSTANCE_CONNECTOR_READ_CONTEXTS (0, 0, 0))
    (replicate SUBSTANCE_CONNECTOR_READ_CONTEXTS 0) 0.

(** ** [readstructimpl.c] *)

Definition connector_read_thread_remove_context (thread : read_thread) (index : nat) :
    Z * read_thread :=
  if (index <? assigned_contexts thread)%nat then
    let n := (assigned_contexts thread - 1)%nat in
    let thread' :=
      if (0 <? n)%nat then
        ReadThread (thread_id thread)
          (<[index := nth n (contexts thread) (0, 0, 0)]> (contexts thread))
          (<[index := nth n (context_ids thread) 0]> (context_ids thread)) n
      else ReadThread (thread_id thread) (contexts thread) (context_ids thread) n in
    (SUBSTANCE_CONNECTOR_SUCCESS, thread')
  else (SUBSTANCE_CONNECTOR_ERROR, thread).

Definition connector_read_thread_check_load (thread : read_thread) : Z :=
  if (assigned_contexts thread <? SUBSTANCE_CONNECTOR_READ_CONTEXTS)%nat
  then SUBSTANCE_CONNECTOR_TRUE else SUBSTANCE_CONNECTOR_FALSE.

Section threads.
Context {E : Type} {P : Platform E} {B : Bindings E}.

(** The new state of the thread and the code. *)
Definition connector_read_thread_try_acquire (thread : read_thread) : M (world E) (read_thread * Z) :=
  let* popped := in_available (connector_available_queue_pop true) in
  let '(retcode, context) := popped in
  if retcode =? SUBSTANCE_CONNECTOR_SUCCESS then
    let context := default 0 context in
    let index := assigned_contexts thread in
    let* fd := connector_context_get_fd context in
    match contexts thread !! index, context_ids thread !! index with
    | Some (_, _, revents), Some _ =>
        let thread' := ReadThread (thread_id thread)
          (<[index := (fd, POLLIN, revents)]> (contexts thread))
          (<[index := context]> (context_ids thread)) (S index) in
        let* retcode := connector_context_write_handshake context in
        ret (thread', retcode)
    | _, _ => stuck OutOfBounds
    end
  else ret (thread, retcode).

(** The loop with [i] contexts still to look at. *)
Fixpoint cleanup_loop (i : nat) (thread : read_thread) (retcode : Z) : M (world E) (read_thread * Z) :=
  match i with
  | O => ret (thread, retcode)
  | S i =>
      let context := nth i (context_ids thread) 0 in
      let* context_state := connector_context_state context in
      if negb (Z.land context_state SUBSTANCE_CONNECTOR_CONN_SHUTDOWN =? 0) then
        let '(retcode, thread') := connector_read_thread_remove_context thread i in
        if retcode =? SUBSTANCE_CONNECTOR_SUCCESS then
          let* retcode := connector_context_shutdown_from_read_thread context in
          cleanup_loop i thread' retcode
        else cleanup_loop i thread' retcode
      else cleanup_loop i thread retcode
  end.

Definition connector_read_thread_cleanup_connections (thread : read_thread) :
    M (world E) (read_thread * Z) :=
  cleanup_loop (assigned_contexts thread) thread SUBSTANCE_CONNECTOR_ERROR.

(** ** [disconnect_message.c] *)

Definition connector_handle_error_disconnect (context : Z) : M (world E) Z :=
  let* application_name := connector_context_get_application_name context in
  let* name := in_mem (connector_strdup application_name) in
  if negb (name =? 0) then
    in_mem (connector_free name) ;;;
    ret SUBSTANCE_CONNECTOR_SUCCESS
  else ret SUBSTANCE_CONNECTOR_ERROR.

(** ** [readthreadimpl.c] *)

Definition connector_read_thread_handle_open (context : Z) : M (world E) Z :=
  let* r := connector_context_accept context true in
  when (fst r =? SUBSTANCE_CONNECTOR_SUCCESS) (connector_flag_read_impl ;;; ret tt) ;;;
  ret (fst r).

Definition zero_header : message_header := Header 0 0 (Uuid [0; 0; 0; 0]).

Definition connector_read_thread_handle_connected (context : Z) : M (world E) Z :=
  let* message := in_mem (connector_allocate (sizeof_message + sizeof_header)) in
  in_mem (store message (BMsg (Message (Some zero_header) 0 context))) ;;;
  let* retcode := connector_context_read context message in
  if retcode =? SUBSTANCE_CONNECTOR_SUCCESS then
    in_queues (fun qs => let* qs' := connector_enqueue_inbound_message message qs in ret (tt, qs')) ;;;
    connector_flag_dispatch ;;;
    ret retcode
  else
    in_mem (connector_free message) ;;;
    ret retcode.

(** The answers [awoken] of the successive waits on the condition: the value of
    the shutdown flag after each of them.  The thread is blocked when they are
    exhausted. *)
Fixpoint await_loop (awoken : list bool) (thread : read_thread) : M (world E) read_thread :=
  if (assigned_contexts thread =? 0)%nat then
    match awoken with
    | [] => stuck Deadlock
    | true :: _ => ret thread
    | false :: awoken' =>
        let* r := connector_read_thread_try_acquire thread in
        await_loop awoken' (fst r)
    end
  else ret thread.

Definition connector_read_thread_await_condition (thread : read_thread) (shutdown_flag : bool)
    (awoken : list bool) : M (world E) (read_thread * Z) :=
  let* thread' := (if shutdown_flag then ret thread else await_loop awoken thread) in
  ret (thread', if (0 <? assigned_contexts thread')%nat then SUBSTANCE_CONNECTOR_SUCCESS
                else SUBSTANCE_CONNECTOR_ERROR).

Definition connector_read_thread_handle_context (context : Z) : M (world E) Z :=
  let* context_state := connector_context_state context in
  if context_state =? SUBSTANCE_CONNECTOR_CONN_OPEN then connector_read_thread_handle_open context
  else if context_state =? SUBSTANCE_CONNECTOR_CONN_CONNECTED then
    connector_read_thread_handle_connected context
  else ret SUBSTANCE_CONNECTOR_INVALID.

(** The contexts of a thread that are assigned, with their events. *)
Definition assigned (thread : read_thread) : list (Z * Z) :=
  zip (take (assigned_contexts thread) (context_ids thread))
      (map snd (take (assigned_contexts thread) (contexts thread))).

Fixpoint handle_poll_loop (l : list (Z * Z)) (retcode : Z) : M (world E) Z :=
  match l with
  | [] => ret retcode
  | (context, revents) :: l' =>
      if negb (Z.land revents SUBSTANCE_CONNECTOR_POLLERR =? 0)
         || negb (Z.land revents SUBSTANCE_CONNECTOR_POLLHUP =? 0) then
        let* r := connector_context_close context in handle_poll_loop l' r
      else handle_poll_loop l' retcode
  end.
Definition connector_read_thread_handle_poll (thread : read_thread) : M (world E) Z :=
  handle_poll_loop (assigned thread) SUBSTANCE_CONNECTOR_ERROR.

(** ** [read_threads.c] *)

(** One round of polling: [flags] are the values of the shutdown flag before the
    successive polls; the answer is [None] when the thread is to exit. *)
Fixpoint poll_loop (flags : list bool) (thread : read_thread) :
    M (world E) (read_thread * option Z) :=
  match flags with
  | [] => stuck NoFuel
  | flag :: flags' =>
      let* cleaned := connector_read_thread_cleanup_connections thread in
      let thread := fst cleaned in
      if flag then ret (thread, None)
      else
        let n := assigned_contexts thread in
        let* r := connector_poll_contexts (take n (contexts thread)) in
        let '(retcode, polled) := r in
        let thread := ReadThread (thread_id thread) (polled ++ drop n (contexts thread))
                        (context_ids thread) n in
        if retcode =? SUBSTANCE_CONNECTOR_POLL_TIMEOUT then poll_loop flags' thread
        else ret (thread, Some retcode)
  end.

(** The loop over the events after a poll. *)
Fixpoint handle_events (l : list (Z * Z)) : M (world E) unit :=
  match l with
  | [] => ret tt
  | (context, revents) :: l' =>
      (if negb (Z.land revents SUBSTANCE_CONNECTOR_POLLERR =? 0) then
         connector_handle_error_disconnect context ;;;
         connector_context_close context ;;; ret tt
       else if negb (Z.land revents SUBSTANCE_CONNECTOR_POLLHUP =? 0) then
         connector_handle_error_disconnect context ;;;
         connector_context_close context ;;; ret tt
       else when (negb (Z.land revents SUBSTANCE_CONNECTOR_POLLIN =? 0))
         (connector_read_thread_handle_context context ;;; ret tt)) ;;;
      handle_events l'
  end.

(** The body of the main loop after the wait; [None] when the thread is to exit.
    The flags before the polls are [flags]. *)
Definition read_thread_round (flags : list bool) (thread : read_thread) :
    M (world E) (read_thread * bool) :=
  let* thread :=
    (if connector_read_thread_check_load thread =? SUBSTANCE_CONNECTOR_TRUE then
       let* r := connector_read_thread_try_acquire thread in ret (fst r)
     else ret thread) in
  let* polled :=
    (if (0 <? assigned_contexts thread)%nat then poll_loop flags thread
     else ret (thread, Some SUBSTANCE_CONNECTOR_SUCCESS)) in
  match polled with
  | (thread, None) => ret (thread, false)
  | (thread, Some _) =>
      handle_events (assigned thread) ;;;
      let* cleaned := connector_read_thread_cleanup_connections thread in
      ret (fst cleaned, true)
  end.

Fixpoint close_all (ids : list Z) : M (world E) unit :=
  match ids with
  | [] => ret tt
  | context :: ids' => connector_context_close context ;;; close_all ids'
  end.

(** What the thread does behind the label [thread_exit]. *)
Definition read_thread_exit (thread : read_thread) : M (world E) read_thread :=
  close_all (take (assigned_contexts thread) (context_ids thread)) ;;;
  let* cleaned := connector_read_thread_cleanup_connections thread in
  ret (fst cleaned).

(** What one round of the main loop sees: the shutdown flag when it starts, when
    it begins to wait, after each wait, behind the wait, and before each poll. *)
Record read_view := ReadView {
  rv_flag : bool;
  rv_waiting : bool;
  rv_awoken : list bool;
  rv_behind : bool;
  rv_polls : list bool
}.

Fixpoint read_thread_routine (rounds : list read_view) (thread : read_thread) : M (world E) read_thread :=
  match rounds with
  | [] => stuck NoFuel
  | v :: rounds' =>
      if rv_flag v then read_thread_exit thread
      else
        let* r := connector_read_thread_await_condition thread (rv_waiting v) (rv_awoken v) in
        if rv_behind v then read_thread_exit (fst r)
        else
          let* r := read_thread_round (rv_polls v) (fst r) in
          if snd r then read_thread_routine rounds' (fst r) else read_thread_exit (fst r)
  end.

End threads.

(** ** The contexts of a thread *)

Record thread_wf (thread : read_thread) : Prop := {
  tw_contexts : length (contexts thread) = SUBSTANCE_CONNECTOR_READ_CONTEXTS;
  tw_ids : length (context_ids thread) = SUBSTANCE_CONNECTOR_READ_CONTEXTS;
  tw_assigned : (assigned_contexts thread <= SUBSTANCE_CONNECTOR_READ_CONTEXTS)%nat
}.

(** The assigned identifiers with their poll structures. *)
Definition entries (thread : read_thread) : list (Z * (Z * Z * Z)) :=
  zip (take (assigned_contexts thread) (context_ids thread))
      (take (assigned_contexts thread) (contexts thread)).

Lemma new_thread_wf id : thread_wf (new_thread id).
Proof. constructor; cbn; unfold SUBSTANCE_CONNECTOR_READ_CONTEXTS; lia. Qed.

Lemma entries_length thread : thread_wf thread -> length (entries thread) = assigned_contexts thread.
Proof. intros [H1 H2 H3]. unfold entries. rewrite length_zip_with, !length_take. lia. Qed.

Lemma lookup_nth {A} (l : list A) i d : (i < length l)%nat -> l !! i = Some (nth i l d).
Proof. intros H. destruct (nth_lookup_or_length l i d); [done | lia]. Qed.

Lemma entries_lookup thread i :
  thread_wf thread -> (i < assigned_contexts thread)%nat ->
  entries thread !! i = Some (nth i (context_ids thread) 0, nth i (contexts thread) (0, 0, 0)).
Proof.
  intros [H1 H2 H3] Hi. apply lookup_zip_Some.
  rewrite !lookup_take_lt by done. split; apply lookup_nth; lia.
Qed.

Lemma remove_context_entries thread i :
  thread_wf thread -> (i < assigned_contexts thread)%nat ->
  exists thread', connector_read_thread_remove_context thread i = (SUBSTANCE_CONNECTOR_SUCCESS, thread') /\
    thread_wf thread' /\ entries thread' = swap_remove i (entries thread).
Proof.
  intros Hwf Hi. pose proof Hwf as [H1 H2 H3]. unfold connector_read_thread_remove_context.
  rewrite (proj2 (Nat.ltb_lt _ _)) by done. eexists. split; [reflexivity|].
  set (n := (assigned_contexts thread - 1)%nat).
  assert (Hlast : last (entries thread) =
    Some (nth n (context_ids thread) 0, nth n (contexts thread) (0, 0, 0))).
  { rewrite last_lookup, entries_length by done. replace (pred _) with n by lia.
    apply entries_lookup; [done | lia]. }
  unfold swap_remove. rewrite Hlast, entries_length by done. fold n.
  destruct (Nat.ltb_spec 0 n).
  - split; [by constructor; cbn; rewrite ?length_insert; lia|].
    unfold entries at 1. cbn [context_ids contexts assigned_contexts].
    apply list_eq. intros j. destruct (decide (j < n)%nat) as [Hj|Hj].
    + rewrite lookup_take_lt by done. unfold entries.
      destruct (decide (j = i)) as [->|Hji].
      * rewrite list_lookup_insert_eq by (fold (entries thread); rewrite entries_length by done; lia).
        apply lookup_zip_Some. rewrite !lookup_take_lt by done.
        rewrite !list_lookup_insert_eq by lia. done.
      * rewrite list_lookup_insert_ne by done. fold (entries thread).
        rewrite entries_lookup by (done || lia). apply lookup_zip_Some.
        rewrite !lookup_take_lt, !list_lookup_insert_ne by done.
        split; apply lookup_nth; lia.
    + rewrite !lookup_ge_None_2; [done | rewrite length_take; lia |].
      rewrite length_zip_with, !length_take. lia.
  - split; [by constructor; cbn; lia|]. replace n with 0%nat by lia. done.
Qed.

(** ** Cleaning up *)

Section cleanup.
Context {E : Type}.
Implicit Types w : world E.

(** The context is marked for shutdown. *)
Definition is_shutdown w (i : Z) : bool :=
  match context_list w !! Z.to_nat i with
  | Some c => negb (Z.land (configuration c) SUBSTANCE_CONNECTOR_CONN_SHUTDOWN =? 0)
  | None => false
  end.

(** The address of the name of its peer. *)
Definition peer_name w (i : Z) : Z := default 0 (cx_application_name <$> context_list w !! Z.to_nat i).

(** A TCP context in use that owns its name. *)
Definition served w (i : Z) : Prop :=
  0 <= i < 32 /\ exists c s, context_list w !! Z.to_nat i = Some c /\ connection_index c 0 = 1%nat /\
    connection_data c = 0 /\ slot_string (mem w) (cx_application_name c) s.

(** The contexts [ids] are different, in use, and share no name; [l] are the
    free ones. *)
Record all_served w (l ids : list Z) : Prop := {
  as_nodup : NoDup ids;
  as_served : forall i, i ∈ ids -> served w i;
  as_used : forall i, i ∈ ids -> i ∉ l;
  as_names : forall i j, i ∈ ids -> j ∈ ids -> peer_name w i = peer_name w j -> peer_name w i <> 0 -> i = j
}.

Lemma state_is_shutdown w i c :
  0 <= i < 32 -> context_list w !! Z.to_nat i = Some c ->
  exists s, connector_context_state i w = Done s w /\
    negb (Z.land s SUBSTANCE_CONNECTOR_CONN_SHUTDOWN =? 0) = is_shutdown w i.
Proof.
  intros Hi Hc. unfold connector_context_state, context_configuration, SUBSTANCE_CONNECTOR_CONTEXT_COUNT.
  rewrite (proj2 (Z.ltb_lt i 32)) by lia.
  rewrite (bind_done _ _ _ _ _ (load_context_some w _ c Hc)). eexists. split; [reflexivity|].
  unfold is_shutdown. rewrite Hc. unfold u32. rewrite <- Z.land_ones by lia.
  by rewrite <- !Z.land_assoc.
Qed.

Lemma all_served_perm w l ids ids' : ids ≡ₚ ids' -> all_served w l ids -> all_served w l ids'.
Proof.
  intros Hp [H1 H2 H3 H4]. constructor; [by rewrite <- Hp | | |]; intros *; rewrite <- !Hp; eauto.
Qed.

(** Shutting one context down keeps the others. *)
Lemma all_served_rest w w' l i ids :
  all_served w l (i :: ids) -> (forall j, j <> Z.to_nat i -> context_list w' !! j = context_list w !! j) ->
  mem_wf (mem w) -> mem_config_eq (mem w) (mem w') ->
  (forall a, a <> 0 -> a <> peer_name w i -> heap (mem w') !! a = heap (mem w) !! a) ->
  all_served w' (l ++ [i]) ids /\ (forall j, j ∈ ids -> is_shutdown w' j = is_shutdown w j /\
                                     peer_name w' j = peer_name w j).
Proof.
  intros [H1 H2 H3 H4] Hrest Hwf Hcfg Hh. apply NoDup_cons in H1 as [Hi H1].
  assert (Hin : forall j, j ∈ ids -> j ∈ i :: ids) by (intros j Hj; apply elem_of_cons; auto).
  assert (Hsame : forall j, j ∈ ids -> context_list w' !! Z.to_nat j = context_list w !! Z.to_nat j).
  { intros j Hj. apply Hrest. assert (j <> i) by congruence.
    destruct (H2 j) as [? _]; [auto|]. destruct (H2 i) as [? _]; [apply elem_of_cons; auto|]. lia. }
  assert (Hname : forall j, j ∈ ids -> peer_name w' j = peer_name w j)
    by (intros j Hj; unfold peer_name; by rewrite Hsame).
  split; [|intros j Hj; unfold is_shutdown; rewrite Hsame by done; auto].
  constructor; [done | | |].
  - intros j Hj. destruct (H2 j) as (Hr & c & s & Hc & Hidx & Hd & Hs); [auto|]. split; [done|].
    exists c, s. rewrite Hsame by done. split; [done|]. split; [done|]. split; [done|].
    destruct s as [s|]; [|done]. destruct Hs as [Hcs Hp]. split; [done|].
    unfold points_to_string, owns in *. rewrite (config_free _ _ Hcfg). rewrite Hh; [done | |].
    + apply (mem_wf_pos (mem w)); [done | by eexists].
    + intros Heq. assert (Hpj : peer_name w j = cx_application_name c) by (unfold peer_name; by rewrite Hc).
      assert (j = i); [|congruence]. apply H4; [auto | apply elem_of_cons; auto | congruence |].
      rewrite Hpj. apply (mem_wf_pos (mem w)); [done | by eexists].
  - intros j Hj. rewrite elem_of_app, list_elem_of_singleton. intros [Hl|Hji]; [by apply (H3 j); auto|].
    congruence.
  - intros j1 j2 Hj1 Hj2. rewrite !Hname by done. auto.
Qed.

End cleanup.

Section cleanup_loop.
Context {E : Type} {P : Platform E} {B : Bindings E} {Q : QuietBindings E}.
Implicit Types w : world E.

Lemma shutdown_served w l n i ids fs :
  contexts_inv w l n -> 0 < n -> all_served w l (i :: ids) -> trampolines_repr w fs ->
  exists r w', connector_context_shutdown_from_read_thread i w = Done r w' /\
    contexts_inv w' (l ++ [i]) (n - 1) /\ all_served w' (l ++ [i]) ids /\ trampolines_repr w' fs /\
    (forall j, j ∈ ids -> is_shutdown w' j = is_shutdown w j /\ peer_name w' j = peer_name w j) /\
    (forall j, j <> Z.to_nat i -> context_list w' !! j = context_list w !! j) /\
    (forall a, heap (mem w') !! a = if decide (a = peer_name w i) then None else heap (mem w) !! a).
Proof.
  intros Hinv Hn Hall Htr. pose proof Hall as [_ Hserved Hused _].
  destruct (Hserved i) as (Hi & c & s & Hc & Hidx & Hd & Hs); [apply elem_of_cons; auto|].
  destruct (shutdown_context_cases w l n i c s fs) as (r & w' & w1 & Hrun & _ & _ & Hinv' & Hrest & Hh & Hcfg & Htr');
    auto; [apply Hused, elem_of_cons; auto|].
  assert (Hname : peer_name w i = cx_application_name c) by (unfold peer_name; by rewrite Hc).
  assert (Hheap : forall a, heap (mem w') !! a = if decide (a = peer_name w i) then None else heap (mem w) !! a).
  { intros a. rewrite Hh, Hname. destruct s as [s|]; cbn in Hs.
    - rewrite lookup_delete. repeat case_decide; congruence.
    - case_decide as Ha; [|done]. rewrite Ha, Hs.
      destruct (heap (mem w) !! 0) eqn:E0; [|done].
      by destruct (mem_wf_pos (mem w) 0); [apply (ci_wf _ _ _ Hinv) | eexists | ]. }
  destruct (all_served_rest w w' l i ids) as [Hall' Hsame]; auto.
  { by destruct Hinv. }
  { intros a _ Ha. rewrite Hheap. by case_decide. }
  exists r, w'. auto 10.
Qed.

(** What is to go is the same in a state that agrees on the remaining contexts. *)
Lemma same_gone w w' ids :
  (forall j, j ∈ ids -> is_shutdown w' j = is_shutdown w j /\ peer_name w' j = peer_name w j) ->
  List.filter (is_shutdown w') (reverse ids) = List.filter (is_shutdown w) (reverse ids) /\
  map (peer_name w') (List.filter (is_shutdown w) (reverse ids)) =
    map (peer_name w) (List.filter (is_shutdown w) (reverse ids)).
Proof.
  intros H. split.
  - apply filter_ext_in. intros j Hj. rewrite <- list_elem_of_In, elem_of_reverse in Hj. by destruct (H j Hj).
  - apply map_ext_in. intros j Hj. apply filter_In in Hj as [Hj _].
    rewrite <- list_elem_of_In, elem_of_reverse in Hj. by destruct (H j Hj).
Qed.

(** The state of the last context of [pre], which the loop looks at. *)
Lemma cleanup_looks_at pre i fds post thread w l :
  thread_wf thread -> entries thread = pre ++ (i, fds) :: post -> all_served w l (i :: map fst pre) ->
  (length pre < assigned_contexts thread)%nat /\ nth (length pre) (context_ids thread) 0 = i /\
  exists st, connector_context_state i w = Done st w /\
    negb (Z.land st SUBSTANCE_CONNECTOR_CONN_SHUTDOWN =? 0) = is_shutdown w i.
Proof.
  intros Hwf He Hall.
  destruct (as_served _ _ _ Hall i) as (Hi & c & s & Hc & _); [apply elem_of_cons; auto|].
  assert (Hlen : (length pre < assigned_contexts thread)%nat)
    by (rewrite <- entries_length, He, !length_app by done; cbn; lia).
  split; [done|]. split; [|by apply (state_is_shutdown w i c)].
  pose proof (entries_lookup thread (length pre) Hwf Hlen) as Hid. rewrite He in Hid.
  rewrite list_lookup_middle in Hid by done. by injection Hid as ->.
Qed.

Lemma cleanup_loop_spec pre post thread w l n r fs :
  thread_wf thread -> entries thread = pre ++ post -> contexts_inv w l n -> Z.of_nat (length pre) <= n ->
  all_served w l (map fst pre) -> trampolines_repr w fs ->
  let gone := List.filter (is_shutdown w) (reverse (map fst pre)) in
  exists thread' r' w', cleanup_loop (length pre) thread r w = Done (thread', r') w' /\
    thread_wf thread' /\
    entries thread' ≡ₚ List.filter (fun e => negb (is_shutdown w (fst e))) pre ++ post /\
    contexts_inv w' (l ++ gone) (n - Z.of_nat (length gone)) /\ trampolines_repr w' fs /\
    (forall j, j ∉ map Z.to_nat gone -> context_list w' !! j = context_list w !! j) /\
    (forall a, heap (mem w') !! a =
       if decide (a ∈ map (peer_name w) gone) then None else heap (mem w) !! a).
Proof.
  revert post thread w l n r.
  induction pre as [|[i fds] pre IH] using rev_ind; intros post thread w l n r Hwf He Hinv Hn Hall Htr gone.
  { exists thread, r, w. cbn in *. rewrite He, app_nil_r, Z.sub_0_r. repeat (split; [done|]). done. }
  rewrite length_app in *. cbn [length] in *. rewrite Nat.add_1_r in *. cbn [cleanup_loop].
  assert (Hall1 : all_served w l (i :: map fst pre)).
  { eapply all_served_perm; [|exact Hall]. rewrite map_app. cbn. symmetry. apply Permutation_cons_append. }
  rewrite <- app_assoc in He. cbn [app] in He.
  destruct (cleanup_looks_at pre i fds post thread w l Hwf He Hall1) as (Hlen & -> & st & Hst & Hflag).
  rewrite (bind_done _ _ _ _ _ Hst), Hflag.
  assert (Hgone : gone = (if is_shutdown w i then [i] else []) ++
                         List.filter (is_shutdown w) (reverse (map fst pre))).
  { unfold gone. rewrite map_app, reverse_app. cbn. by destruct (is_shutdown w i). }
  rewrite Hgone. clear Hgone gone.
  destruct (is_shutdown w i) eqn:Esd; cbn [negb].
  - destruct (remove_context_entries thread (length pre) Hwf Hlen) as (t1 & Hrm & Hwf1 & He1).
    rewrite Hrm. change (SUBSTANCE_CONNECTOR_SUCCESS =? SUBSTANCE_CONNECTOR_SUCCESS) with true. cbn iota.
    destruct (shutdown_served w l n i (map fst pre) fs) as (r1 & w1 & Hsd & Hinv1 & Hs1 & Htr1 & Hsame & Hrest1 & Hh1);
      auto; [lia|]. rewrite (bind_done _ _ _ _ _ Hsd).
    destruct (swap_remove_perm pre (i, fds) post) as (post' & Hsr & Hp).
    rewrite He, Hsr in He1.
    destruct (IH post' t1 w1 (l ++ [i]) (n - 1) r1) as (t2 & r2 & w2 & Hrun & Hwf2 & He2 & Hinv2 & Htr2 & Hrest2 & Hh2);
      auto; [lia|].
    assert (Hf : forall e, e ∈ pre -> is_shutdown w1 (fst e) = is_shutdown w (fst e)).
    { intros e Hin. apply Hsame, list_elem_of_In, in_map, list_elem_of_In, Hin. }
    destruct (same_gone w w1 (map fst pre) Hsame) as [Hg Hm].
    rewrite Hg in *. rewrite Hm in *. set (g := List.filter _ (reverse _)) in *.
    exists t2, r2, w2. split; [exact Hrun|]. split; [done|].
    split; [|split; [|split; [done|split]]].
    + rewrite He2, Hp, List.filter_app. cbn [List.filter fst]. rewrite Esd. cbn [negb].
      rewrite app_nil_r. erewrite filter_ext_in; [done|].
      intros e Hin. cbn. by rewrite Hf by (by apply list_elem_of_In).
    + rewrite <- app_assoc in Hinv2. cbn [app] in *. rewrite length_cons.
      by replace (n - Z.of_nat (S (length g))) with (n - 1 - Z.of_nat (length g)) by lia.
    + cbn. intros j Hj. rewrite elem_of_cons in Hj. rewrite Hrest2, Hrest1 by intuition. done.
    + intros a. rewrite Hh2, Hh1. cbn [app map].
      assert (Ha : a ∈ peer_name w i :: map (peer_name w) g <-> a = peer_name w i \/ a ∈ map (peer_name w) g)
        by apply elem_of_cons.
      repeat case_decide; intuition.
  - destruct (IH ((i, fds) :: post) thread w l n r) as (t2 & r2 & w2 & Hrun & Hwf2 & He2 & Hrest); auto; [lia | |].
    + destruct Hall1 as [H1 H2 H3 H4]. apply NoDup_cons in H1 as [_ H1].
      constructor; [done | | |]; intros; [apply H2 | apply H3 | apply H4]; try apply elem_of_cons; auto.
    + exists t2, r2, w2. split; [exact Hrun|]. split; [done|]. split; [|exact Hrest].
      rewrite He2, List.filter_app. cbn [List.filter fst]. rewrite Esd. by rewrite <- app_assoc.
Qed.

End cleanup_loop.

Lemma id_queue_pop_available p x l n :
  id_queue p (x :: l) n -> exists p', connector_available_queue_pop true p =
    Done (SUBSTANCE_CONNECTOR_SUCCESS, Some x) p' /\ id_queue p' l n.
Proof.
  intros (q & -> & Hq & Hs & Hn & Hw). exists (QLive (popped_queue q)).
  rewrite (available_pop_repr q (x :: l)) by done. split; [done|]. exists (popped_queue q).
  split; [done|]. split; [by eapply popped_queue_repr|]. done.
Qed.

(** ** Reading a message *)

Section reading.
Context {E : Type} {P : Platform E} {B : Bindings E}.
Implicit Types w : world E.

(** Reading from a connected TCP context is reading from its socket. *)
Lemma context_read_tcp w i c p :
  0 <= i < 32 -> context_list w !! Z.to_nat i = Some c -> connection_index c 0 = 1%nat ->
  Z.land (configuration c) SUBSTANCE_CONNECTOR_CONN_MASK = SUBSTANCE_CONNECTOR_CONN_CONNECTED -> p <> 0 ->
  connector_context_read i p w = connector_read_message_generic (slot i) p read_socket w.
Proof.
  intros Hi Hc Hidx Hconn Hp.
  unfold connector_context_read, context_message_op_generic, SUBSTANCE_CONNECTOR_CONTEXT_COUNT.
  rewrite (proj2 (Z.ltb_lt i 32)), (proj2 (Z.eqb_neq p 0)) by (done || lia). cbn [negb andb].
  rewrite (bind_done _ _ _ _ _ (load_context_some w _ c Hc)), Hconn, Z.eqb_refl.
  unfold connector_read_connection, message_operation, slot.
  rewrite bool_decide_eq_true_2, (proj2 (Z.eqb_neq p 0)) by done. cbn [negb andb].
  by rewrite (bind_done _ _ _ _ _ (load_context_some w _ c Hc)), Hidx.
Qed.

(** The state in which the read starts: a fresh message with a zeroed header. *)
Definition fresh_message (m : memory) (i : Z) : memory :=
  alloc_with (BMsg (Message (Some zero_header) 0 i)) m.

(** Queueing a received message. *)
Lemma enqueue_inbound_done w q' x m' :
  enqueue_message (inbound_queue (queues w)) x (mem w) = Done q' m' ->
  in_queues (fun qs => let* qs' := connector_enqueue_inbound_message x qs in ret (tt, qs')) w =
    Done tt (set_queues (set_inbound q' (queues w)) (set_mem m' w)).
Proof.
  intros H. unfold in_queues. rewrite (bind_done (gets queues) _ w (queues w) w) by done.
  rewrite (bind_done _ _ w (tt, set_inbound q' (queues w)) (set_mem m' w)); [done|].
  apply (in_mem_done _ w).
  by rewrite (bind_done _ _ (mem w) (set_inbound q' (queues w)) m') by (unfold connector_enqueue_inbound_message, bind; by rewrite H).
Qed.

(** A peer that has closed its end delivers no bytes. *)
Lemma read_nothing w i c p b e1 :
  mem_wf (mem w) -> owns (mem w) p b -> context_list w !! i = Some c ->
  recv (fd_of c) sizeof_header (env w) = ((0, []), e1) ->
  connector_read_message_generic (Some i) p read_socket w = Done SUBSTANCE_CONNECTOR_READ_FAIL (set_env e1 w).
Proof.
  intros Hwf Hp Hc Hr. unfold connector_read_message_generic. rewrite (owns_pos _ p _ Hwf Hp). cbn [negb andb].
  rewrite bool_decide_eq_true_2 by done. rewrite (bind_done _ _ _ _ _ (load_context_some w _ c Hc)).
  by rewrite (bind_done (read_socket _ _) _ w (0, []) (set_env e1 w)) by (unfold read_socket, sys; by rewrite Hr).
Qed.

Lemma handle_context_connected w i c :
  mem_wf (mem w) -> mem_serving (mem w) ->
  0 <= i < 32 -> context_list w !! Z.to_nat i = Some c -> connection_index c 0 = 1%nat ->
  Z.land (configuration c) SUBSTANCE_CONNECTOR_CONN_MASK = SUBSTANCE_CONNECTOR_CONN_CONNECTED ->
  connector_read_thread_handle_context i w =
    (let* retcode := connector_read_message_generic (slot i) (next_addr (mem w)) read_socket in
     if retcode =? SUBSTANCE_CONNECTOR_SUCCESS then
       in_queues (fun qs => let* qs' := connector_enqueue_inbound_message (next_addr (mem w)) qs in ret (tt, qs')) ;;;
       connector_flag_dispatch ;;; ret retcode
     else in_mem (connector_free (next_addr (mem w))) ;;; ret retcode) (set_mem (fresh_message (mem w) i) w).
Proof.
  intros Hwf Hs Hi Hc Hidx Hconn. unfold connector_read_thread_handle_context.
  assert (Hst : connector_context_state i w = Done SUBSTANCE_CONNECTOR_CONN_CONNECTED w).
  { unfold connector_context_state, context_configuration, SUBSTANCE_CONNECTOR_CONTEXT_COUNT.
    rewrite (proj2 (Z.ltb_lt i 32)) by lia.
    by rewrite (bind_done _ _ _ _ _ (load_context_some w _ c Hc)), Hconn. }
  rewrite (bind_done _ _ _ _ _ Hst). cbn [Z.eqb SUBSTANCE_CONNECTOR_CONN_CONNECTED
    SUBSTANCE_CONNECTOR_CONN_OPEN Pos.eqb]. unfold connector_read_thread_handle_connected.
  rewrite (bind_done _ _ _ _ _ (in_mem_done _ w _ _ (connector_allocate_serving _ _ Hs))).
  set (w1 := set_mem _ w).
  rewrite (bind_done _ _ w1 tt (set_mem (fresh_message (mem w) i) w))
    by (apply (in_mem_done _ w1); by apply store_alloc_with).
  unfold bind at 1. unfold bind at 2.
  rewrite (context_read_tcp (set_mem (fresh_message (mem w) i) w) i c) by (done || (destruct Hwf; lia)).
  done.
Qed.

(** Handling input on a connected context: the blocks of the new message (its
    node, its structure and its text) are new, and apart from the nodes of the
    queue nothing else changes. *)
Lemma handle_context_receives w (i : Z) (c : context_struct) (ns : list (Z * Z)) o pad h s e1 e2 :
  mem_wf (mem w) -> mem_serving (mem w) -> 0 <= i < 32 -> context_list w !! Z.to_nat i = Some c ->
  connection_index c 0 = 1%nat ->
  Z.land (configuration c) SUBSTANCE_CONNECTOR_CONN_MASK = SUBSTANCE_CONNECTOR_CONN_CONNECTED ->
  lq_repr (mem w) (inbound_queue (queues w)) ns ->
  header_wf h -> length pad = 2%nat -> CONNECTOR_IDENTIFY_MESSAGE (description h) = true ->
  message_length h = Z.of_nat (length s) -> message_length h < 2 ^ 32 - 1 ->
  recv (fd_of c) sizeof_header (env w) =
    ((sizeof_header, header_image o pad (connector_htonheader o h)), e1) ->
  recv (fd_of c) (message_length h) e1 = ((message_length h, s), e2) ->
  exists m' q' node msg text, connector_read_thread_handle_context i w =
      Done SUBSTANCE_CONNECTOR_SUCCESS (set_trace (trace w ++ [SignalDispatch])
        (set_queues (set_inbound q' (queues w)) (set_mem m' (set_env e2 w)))) /\
    mem_wf m' /\ mem_config_eq (mem w) m' /\ lq_repr m' q' (ns ++ [(node, msg)]) /\
    owns m' msg (BMsg (Message (Some h) text i)) /\ points_to_string m' text s /\ NoDup [node; msg; text] /\
    (forall a, a ∈ [node; msg; text] -> heap (mem w) !! a = None) /\
    (forall a, a ∉ [node; msg; text] -> a ∉ map fst ns -> heap m' !! a = heap (mem w) !! a).
Proof.
  intros Hwf Hs Hi Hc Hidx Hconn Hq Hh Hpad Hid Hlen Hlim Hr1 Hr2.
  set (p := next_addr (mem w)). set (m1 := fresh_message (mem w) i). set (w1 := set_mem m1 w).
  assert (Hwf1 : mem_wf m1) by (by apply alloc_with_wf).
  assert (Ho1 : owns m1 p (BMsg (Message (Some zero_header) 0 i))) by (by apply alloc_with_owns).
  destruct (read_spec w1 (Z.to_nat i) c p h zero_header i _ e1 (message_length h) s e2 Hwf1 Hs Hc Ho1 Hr1)
    as (m2 & Hrun & Hwf2 & Hcfg2 & Hm2 & Ht2 & Hne & Hh2); auto;
    [by apply ntoh_image_hton | destruct Hh; lia | destruct Hh; lia | lia |].
  rewrite (handle_context_connected w i c) by done. fold p. rewrite (bind_done _ _ _ _ _ Hrun).
  change (SUBSTANCE_CONNECTOR_SUCCESS =? SUBSTANCE_CONNECTOR_SUCCESS) with true. cbn iota.
  set (t := next_addr (mem w1)) in *.
  assert (Hnd : NoDup [p; t]) by (constructor; [rewrite list_elem_of_singleton; congruence | apply NoDup_singleton]).
  assert (Hadd : added [p; t] (mem w) m2).
  { constructor; [done | by transitivity m1 | done | | |]; intros a; rewrite elem_of_cons, list_elem_of_singleton.
    - intros [->| ->]; [by apply mem_wf_fresh | apply mem_wf_beyond; [done | unfold t; cbn; lia]].
    - intros [->| ->]; eauto.
    - intros Ha. rewrite Hh2 by (intros ->; auto). cbn. rewrite lookup_insert_ne by (intros <-; auto). done. }
  destruct (enqueue_new_message (mem w) m2 (inbound_queue (queues w)) ns p t Hs Hq Hadd)
    as (q' & m3 & node & Eq & Hq3 & Hwf3 & Hcfg3 & Hnd3 & Hf3 & Hh3 & Hkeep).
  set (w2 := set_env e2 (set_mem m2 w1)) in *.
  rewrite (bind_done _ _ _ _ _ (enqueue_inbound_done w2 q' p m3 Eq)).
  exists m3, q', node, p, t. split; [reflexivity|]. do 3 (split; [done|]).
  split; [apply Hkeep; [rewrite elem_of_cons; auto | done]|]. split; [|done].
  apply Hkeep; [rewrite !elem_of_cons; auto|]. unfold points_to_string. rewrite Hlen, Nat2Z.id in Ht2.
  by replace (length s + 1 - length s)%nat with 1%nat in Ht2 by lia.
Qed.

End reading.

(** ** Properties *)

Section properties.
Context {E : Type} {P : Platform E} {B : Bindings E}.
Implicit Types w : world E.

(** C6: Input on a connected context becomes a queued message.  When the peer
    sent a message (in any byte order, with anything in the padding), handling
    the context queues at the end of the inbound queue one new message with the
    header, the text and the context it came from, and signals the dispatch
    threads.  When the peer has closed its end (nothing can be read), handling
    it fails, releases the message and changes nothing at all: the context
    stays connected, so the thread will poll it again for ever. *)
Theorem received_message_is_queued w (i : Z) (c : context_struct) (ns : list (Z * Z))
    (Hwf : mem_wf (mem w)) (Hs : mem_serving (mem w)) (Hi : 0 <= i < 32)
    (Hc : context_list w !! Z.to_nat i = Some c)
    (Htcp : Z.land (configuration c) SUBSTANCE_CONNECTOR_COMM_MASK = SUBSTANCE_CONNECTOR_COMM_TCP)
    (Hconn : Z.land (configuration c) SUBSTANCE_CONNECTOR_CONN_MASK = SUBSTANCE_CONNECTOR_CONN_CONNECTED)
    (Hq : lq_repr (mem w) (inbound_queue (queues w)) ns) :
  (forall o pad h s e1 e2, header_wf h -> length pad = 2%nat ->
     CONNECTOR_IDENTIFY_MESSAGE (description h) = true ->
     message_length h = Z.of_nat (length s) -> message_length h < 2 ^ 32 - 1 ->
     recv (fd_of c) sizeof_header (env w) =
       ((sizeof_header, header_image o pad (connector_htonheader o h)), e1) ->
     recv (fd_of c) (message_length h) e1 = ((message_length h, s), e2) ->
     exists msg w', connector_read_thread_handle_context i w = Done SUBSTANCE_CONNECTOR_SUCCESS w' /\
       queue_holds (mem w') (inbound_queue (queues w')) (map snd ns ++ [msg]) /\
       message_at (mem w') msg h s i /\ env w' = e2 /\ trace w' = trace w ++ [SignalDispatch] /\
       context_list w' = context_list w /\ heap (mem w) !! msg = None /\
       forall a, heap (mem w) !! a <> None -> a ∉ map fst ns -> heap (mem w') !! a = heap (mem w) !! a) /\
  (forall e1, recv (fd_of c) sizeof_header (env w) = ((0, []), e1) ->
     exists m', connector_read_thread_handle_context i w =
         Done SUBSTANCE_CONNECTOR_READ_FAIL (set_env e1 (set_mem m' w)) /\ heap m' = heap (mem w)).
Proof.
  assert (Hidx : connection_index c 0 = 1%nat) by (unfold connection_index; by rewrite Htcp).
  split.
  - intros o pad h s e1 e2 Hh Hpad Hid Hlen Hlim Hr1 Hr2.
    destruct (handle_context_receives w i c ns o pad h s e1 e2) as
      (m' & q' & node & msg & text & Hrun & _ & _ & Hq' & Hm & Ht & Hnd & Hf & Hh'); auto.
    eexists msg, _. split; [exact Hrun|]. cbn. split; [exists (ns ++ [(node, msg)]); split; [done | by rewrite map_app]|].
    split; [|split; [done|split; [done|split; [done|split; [apply Hf; rewrite !elem_of_cons; auto|]]]]].
    + exists text. split; [done|]. split; [done|]. intros ->. by do 2 apply NoDup_cons in Hnd as [? Hnd]; set_solver.
    + intros a Ha Hin. apply Hh'; [|done]. intros Hin'. by apply Ha, Hf.
  - set (p := next_addr (mem w)). set (m1 := fresh_message (mem w) i). set (w1 := set_mem m1 w).
    assert (Hwf1 : mem_wf m1) by (by apply alloc_with_wf).
    assert (Ho1 : owns m1 p (BMsg (Message (Some zero_header) 0 i))) by (by apply alloc_with_owns).
    assert (Hfresh : heap (mem w) !! p = None) by (by apply mem_wf_fresh).
    intros e1 Hr. rewrite (handle_context_connected w i c) by done.
    rewrite (bind_done _ _ _ _ _ (read_nothing w1 _ c p _ e1 Hwf1 Ho1 Hc Hr)). cbn [Z.eqb SUBSTANCE_CONNECTOR_READ_FAIL SUBSTANCE_CONNECTOR_SUCCESS].
    rewrite (bind_done _ _ _ _ _ (in_mem_done _ (set_env e1 w1) _ _ (connector_free_owns _ _ _ Hwf1 Ho1))).
    exists (free_cell p m1). split; [done|]. cbn. by rewrite delete_insert_id.
Qed.

(** Cleaning up a thread takes away exactly the contexts that are marked for
    shutdown: every other context stays with its poll structure (possibly in
    another place), the marked ones are shut down in turn from the last to the
    first and appended to the free queue, the names of their peers are released
    and no other block is, no other slot changes, and the free queue again holds
    exactly the cleared slots. *)
Theorem cleanup_releases_shutdown {Q : QuietBindings E} (thread : read_thread) w (l : list Z) (n : Z)
    (fs : list Z) (Hwf : thread_wf thread) (Hinv : contexts_inv w l n) (Hn : 17 <= n)
    (Hall : all_served w l (map fst (entries thread))) (Htr : trampolines_repr w fs) :
  let gone := List.filter (is_shutdown w) (reverse (map fst (entries thread))) in
  exists thread' r w', connector_read_thread_cleanup_connections thread w = Done (thread', r) w' /\
    thread_wf thread' /\
    entries thread' ≡ₚ List.filter (fun e => negb (is_shutdown w (fst e))) (entries thread) /\
    contexts_inv w' (l ++ gone) (n - Z.of_nat (length gone)) /\
    (forall j, j ∉ map Z.to_nat gone -> context_list w' !! j = context_list w !! j) /\
    (forall a, heap (mem w') !! a =
       if decide (a ∈ map (peer_name w) gone) then None else heap (mem w) !! a).
Proof.
  intros gone. pose proof (entries_length _ Hwf) as Hlen. pose proof Hwf as [_ _ Hmax].
  unfold SUBSTANCE_CONNECTOR_READ_CONTEXTS in Hmax.
  destruct (cleanup_loop_spec (entries thread) [] thread w l n SUBSTANCE_CONNECTOR_ERROR fs)
    as (t & r & w' & Hrun & Hwf' & He & Hinv' & _ & Hrest); auto.
  - by rewrite app_nil_r.
  - lia.
  - rewrite app_nil_r in He. rewrite Hlen in Hrun. exists t, r, w'. auto.
Qed.

(** A thread acquires contexts within its arrays.  Its load is acceptable
    exactly when fewer than 17 contexts are assigned; then, if a context is
    available, acquiring appends it with its descriptor and the event for input
    and sends the handshake, and if none is, nothing changes.  The 17 places of
    the two threads suffice for the 32 contexts of the table. *)
Theorem acquire_within_bounds (thread : read_thread) w (la : list Z) (k : Z)
    (Hwf : thread_wf thread) (Hq : id_queue (connection_queue w) la k)
    (Hla : Forall (fun x => 0 <= x < 32) la) (Hlen : length (context_list w) = 32%nat) :
  (connector_read_thread_check_load thread = SUBSTANCE_CONNECTOR_TRUE ->
   match la with
   | [] => connector_read_thread_try_acquire thread w = Done (thread, SUBSTANCE_CONNECTOR_ERROR) w
   | x :: la' => exists p thread' c revents,
       connector_read_thread_try_acquire thread w =
         (let* r := connector_context_write_handshake x in ret (thread', r)) (set_connection_queue p w) /\
       id_queue p la' k /\ context_list w !! Z.to_nat x = Some c /\ thread_wf thread' /\
       entries thread' = entries thread ++ [(x, (fd_of c, POLLIN, revents))]
   end) /\
  (connector_read_thread_check_load thread = SUBSTANCE_CONNECTOR_FALSE ->
   length (entries thread) = SUBSTANCE_CONNECTOR_READ_CONTEXTS) /\
  SUBSTANCE_CONNECTOR_CONTEXT_COUNT <=
    SUBSTANCE_CONNECTOR_INBOUND_COUNT * Z.of_nat SUBSTANCE_CONNECTOR_READ_CONTEXTS.
Proof.
  pose proof Hwf as [H1 H2 H3]. unfold connector_read_thread_check_load.
  destruct (Nat.ltb_spec (assigned_contexts thread) SUBSTANCE_CONNECTOR_READ_CONTEXTS) as [Hlt|Hge].
  2:{ split; [done|]. split; [|by vm_compute]. intros _. rewrite entries_length by done. lia. }
  split; [intros _ | split; [done | by vm_compute]].
  unfold connector_read_thread_try_acquire. destruct la as [|x la'].
  - rewrite (bind_done _ _ w (SUBSTANCE_CONNECTOR_ERROR, None) w); [done|].
    destruct Hq as (q & Hlive & Hr & _). unfold in_available, zoom.
    rewrite Hlive, (available_pop_repr q [] Hr), <- Hlive. by destruct w.
  - destruct (id_queue_pop_available _ _ _ _ Hq) as (p & Hpop & Hq').
    apply Forall_cons in Hla as [Hx _].
    destruct (lookup_lt_is_Some_2 (context_list w) (Z.to_nat x)) as [c Hc]; [lia|].
    destruct (lookup_lt_is_Some_2 (contexts thread) (assigned_contexts thread)) as [[[fd ev] rev] Hfd]; [lia|].
    destruct (lookup_lt_is_Some_2 (context_ids thread) (assigned_contexts thread)) as [x0 Hid]; [lia|].
    eexists p, _, c, rev. rewrite (bind_done _ _ w (SUBSTANCE_CONNECTOR_SUCCESS, Some x) (set_connection_queue p w)).
    2:{ unfold in_available, zoom. by rewrite Hpop. }
    cbn [fst snd default from_option id]. rewrite Z.eqb_refl.
    rewrite (bind_done _ _ _ (fd_of c) (set_connection_queue p w)).
    2:{ unfold connector_context_get_fd, SUBSTANCE_CONNECTOR_CONTEXT_COUNT. rewrite (proj2 (Z.ltb_lt x 32)) by lia.
        by rewrite (bind_done _ _ _ _ _ (load_context_some (set_connection_queue p w) _ c Hc)). }
    rewrite Hfd, Hid. split; [reflexivity|]. split; [done|]. split; [done|].
    split; [by constructor; cbn [contexts context_ids assigned_contexts]; rewrite ?length_insert|].
    unfold entries. cbn [contexts context_ids assigned_contexts].
    erewrite !take_S_r by (apply list_lookup_insert_eq; lia). rewrite !take_insert_ge by lia.
    rewrite zip_with_app by (rewrite !length_take; lia). done.
Qed.

End properties.

Lemma received_message_is_queued_witness :
  (exists msg w', connector_read_thread_handle_context 0 (connected_world sample_bytes initial_memory) =
      Done SUBSTANCE_CONNECTOR_SUCCESS w' /\ message_at (mem w') msg sample_header [97; 98] 0) /\
  (exists w', connector_read_thread_handle_context 0 (connected_world [] initial_memory) =
      Done SUBSTANCE_CONNECTOR_READ_FAIL w' /\ heap (mem w') = heap initial_memory).
Proof.
  assert (Hs : mem_serving initial_memory) by (split; reflexivity).
  assert (Hq : lq_repr initial_memory (LockedQueue 0 0 handle_message false) [])
    by (constructor; try reflexivity; constructor).
  split.
  - destruct (received_message_is_queued (connected_world sample_bytes initial_memory) 0 _ []
      initial_memory_wf Hs ltac:(lia) eq_refl eq_refl eq_refl Hq) as [H _].
    destruct (H Little [0; 0] sample_header [97; 98] (Simulation 3 false [97; 98] [] [] [])
      (Simulation 3 false [] [] [] [])) as (msg & w' & Hrun & _ & Hm & _);
      [by repeat constructor; cbn; lia | done | done | done | by cbn; lia | by vm_compute | by vm_compute |].
    exists msg, w'. split; [exact Hrun | exact Hm].
  - destruct (received_message_is_queued (connected_world [] initial_memory) 0 _ []
      initial_memory_wf Hs ltac:(lia) eq_refl eq_refl eq_refl Hq) as [_ H].
    destruct (H (Simulation 3 false [] [] [] [])) as (m' & Hrun & Hh); [by vm_compute|].
    eexists. split; [exact Hrun | exact Hh].
Defined.

(** A thread that polls context zero only. *)
Definition one_context_thread : read_thread :=
  ReadThread 0 (replicate SUBSTANCE_CONNECTOR_READ_CONTEXTS (3, POLLIN, 0))
    (replicate SUBSTANCE_CONNECTOR_READ_CONTEXTS 0) 1.

Lemma cleanup_releases_shutdown_witness :
  exists (w : world simulation) thread' r w',
    connector_read_thread_cleanup_connections one_context_thread w = Done (thread', r) w' /\
    length (entries thread') = 0%nat /\ contexts_inv w' (seqZ 1 31 ++ [0]) (2 ^ 32 - 34 - 1).
Proof.
  destruct (ready_world (Simulation 3 false [] [] [] [])) as (w & _ & Hinv & Hq & He & Htr & Ht).
  set (c := ContextStruct (Z.lor tcp_connected_bits SUBSTANCE_CONNECTOR_CONN_SHUTDOWN) 3 0 0 0 0).
  destruct (pop_free w 0 (seqZ 1 31) (2 ^ 32 - 34) Hinv) as (p & Hp & _).
  set (w0 := set_context_list (<[0%nat := c]> (context_list w)) (set_free_contexts p w)).
  pose proof (ci_length _ _ _ Hinv) as Hlen.
  assert (Hinv0 : contexts_inv w0 (seqZ 1 31) (2 ^ 32 - 34)).
  { apply (contexts_inv_take w _ 0 (seqZ 1 31) (2 ^ 32 - 34) c); [done | by destruct Hinv | by destruct Hinv | done | done | done]. }
  assert (Hc : context_list w0 !! 0%nat = Some c) by (cbn; apply list_lookup_insert_eq; lia).
  assert (Hwf : thread_wf one_context_thread)
    by (constructor; cbn; unfold SUBSTANCE_CONNECTOR_READ_CONTEXTS; lia).
  assert (Hall : all_served w0 (seqZ 1 31) (map fst (entries one_context_thread))).
  { cbn -[w0 seqZ]. constructor; [apply NoDup_singleton | | |].
    - intros i ->%list_elem_of_singleton. split; [lia|]. exists c, None.
      change (Z.to_nat 0) with 0%nat. by rewrite Hc.
    - intros i ->%list_elem_of_singleton. rewrite elem_of_seqZ. lia.
    - by intros i j ->%list_elem_of_singleton ->%list_elem_of_singleton. }
  assert (Htr0 : trampolines_repr w0 []) by (apply (trampolines_repr_frame w); by destruct Hinv).
  destruct (cleanup_releases_shutdown one_context_thread w0 (seqZ 1 31) (2 ^ 32 - 34) []
    Hwf Hinv0 ltac:(lia) Hall Htr0) as (t & r & w' & Hrun & _ & Hperm & Hinv' & _).
  assert (Hsd : is_shutdown w0 0 = true) by (unfold is_shutdown; change (Z.to_nat 0) with 0%nat; by rewrite Hc).
  exists w0, t, r, w'. split; [exact Hrun|]. split.
  - apply Permutation_length in Hperm. rewrite Hperm. cbn -[w0 is_shutdown]. by rewrite Hsd.
  - assert (Hgone : List.filter (is_shutdown w0) (reverse (map fst (entries one_context_thread))) = [0])
      by (cbn -[w0 is_shutdown]; by rewrite Hsd).
    rewrite Hgone in Hinv'. exact Hinv'.
Defined.

Lemma acquire_within_bounds_witness :
  exists w : world simulation,
    connector_read_thread_try_acquire one_context_thread w =
      Done (one_context_thread, SUBSTANCE_CONNECTOR_ERROR) w.
Proof.
  destruct (ready_world (Simulation 3 false [] [] [] [])) as (w & _ & Hinv & Hq & _).
  assert (Hwf : thread_wf one_context_thread)
    by (constructor; cbn; unfold SUBSTANCE_CONNECTOR_READ_CONTEXTS; lia).
  destruct (acquire_within_bounds one_context_thread w [] _ Hwf Hq ltac:(constructor) (ci_length _ _ _ Hinv))
    as [H _]. exists w. exact (H eq_refl).
Defined.
