(* ===== verification/Accept.v ===== *)
(** * How a connection comes about

    The two ends of a new TCP connection: a read thread that finds input on an open
    context accepts, and an application connects.  Both take the first free slot of
    the table, exactly as described here; [Contexts] has what holds whatever the
    system answers. *)

From S2P Require Import Prelude Wire Memory Strings UintQueue LockedQueue Message World Callbacks.
From S2P Require Import FileSystem Connection SlotFrame ContextQueue Contexts ReadThread.

(** A connected TCP context with the descriptor [fd], from or for the port [port]. *)
Definition connected_slot (fd port : Z) : context_struct := ContextStruct tcp_connected_bits (u64 fd) port 0 0 0.

Section connecting.
Context {E : Type} {P : Platform E}.
Implicit Types w : world E.

(** The slot [i] was taken from the free queue, which is now [p], filled with [c]
    and announced through the available queue, which is now [pa]. *)
Definition taken w (e : E) (p pa : queue_ptr) (i : Z) (c : context_struct) : world E :=
  set_trace (trace w ++ [BroadcastInbound]) (set_connection_queue pa
    (set_context_list (<[Z.to_nat i := c]> (context_list w)) (set_env e (set_free_contexts p w)))).

Lemma taken_inv w e p pa i l n c :
  contexts_inv w (i :: l) n -> id_queue p l n ->
  Z.land (configuration c) SUBSTANCE_CONNECTOR_CONN_MASK <> SUBSTANCE_CONNECTOR_CONN_CLOSED ->
  contexts_inv (taken w e p pa i c) l n.
Proof. intros Hinv Hp Hc. pose proof Hinv as []. by apply (contexts_inv_take w _ i l n c). Qed.

(** ** Accepting *)

Lemma accept_connection_tcp w i c fd e :
  context_list w !! i = Some c -> Z.land (configuration c) SUBSTANCE_CONNECTOR_COMM_MASK = SUBSTANCE_CONNECTOR_COMM_TCP ->
  accept (fd_of c) (env w) = (fd, e) -> connector_accept_connection (Some i) w = Done fd (set_env e w).
Proof.
  intros Hc Htcp Hacc. unfold connector_accept_connection. rewrite bool_decide_eq_true_2 by done.
  rewrite (bind_done _ _ _ _ _ (load_context_some w _ c Hc)). unfold connection_index. rewrite Htcp.
  change (accept_socket (Some i) w = Done fd (set_env e w)). unfold accept_socket.
  rewrite (bind_done _ _ _ _ _ (load_context_some w _ c Hc)). unfold sys, zoom. by rewrite Hacc.
Qed.

(** The slot that is taken, or slot 0 when nothing could be popped, is changed in
    two of its fields. *)
Lemma accept_takes w j c fd e p r d :
  0 <= j < 32 -> context_list w !! Z.to_nat j = Some c ->
  Z.land (configuration c) SUBSTANCE_CONNECTOR_CONN_MASK = SUBSTANCE_CONNECTOR_CONN_OPEN ->
  Z.land (configuration c) SUBSTANCE_CONNECTOR_COMM_MASK = SUBSTANCE_CONNECTOR_COMM_TCP ->
  accept (fd_of c) (env w) = (fd, e) -> 0 <= fd ->
  in_free connector_uint_queue_pop w = Done r (set_free_contexts p w) ->
  let i := default 0 (snd r) in context_list w !! Z.to_nat i = Some d ->
  connector_context_accept j true w =
    (append_available i ;;; ret (SUBSTANCE_CONNECTOR_SUCCESS, Some i))
      (set_context_list (<[Z.to_nat i := set_fd (u64 fd) (set_configuration tcp_connected_bits d)]> (context_list w))
         (set_env e (set_free_contexts p w))).
Proof.
  intros Hj Hc Hopen Htcp Hacc Hfd Hpop i Hd. unfold connector_context_accept, SUBSTANCE_CONNECTOR_CONTEXT_COUNT.
  rewrite (proj2 (Z.ltb_lt j 32)) by lia. cbn [andb].
  rewrite (bind_done _ _ _ _ _ (context_configuration_done w j c SUBSTANCE_CONNECTOR_CONN_MASK Hj Hc ltac:(done))), Hopen.
  rewrite Z.eqb_refl, (bind_done _ _ _ _ _ (accept_connection_tcp w _ c fd e Hc Htcp Hacc)).
  rewrite (proj2 (Z.leb_le 0 fd)) by lia.
  assert (Hpop' : in_free connector_uint_queue_pop (set_env e w) = Done r (set_free_contexts p (set_env e w))).
  { unfold in_free, zoom in *. cbn [free_contexts set_env]. destruct (connector_uint_queue_pop _) as [r' p'|]; [|done].
    by injection Hpop as -> ->. }
  rewrite (bind_done _ _ _ _ _ Hpop'). fold i.
  rewrite (bind_done _ _ _ _ _ (context_configuration_done (set_free_contexts p (set_env e w)) j c SUBSTANCE_CONNECTOR_COMM_MASK
    Hj Hc ltac:(done))), Htcp.
  by rewrite (bind_done _ _ _ _ _ (update_context_some (set_free_contexts p (set_env e w)) _ d _ Hd)).
Qed.

Lemma announced w e p i c la k :
  id_queue (connection_queue w) la k -> 0 < k -> (length la < 33)%nat ->
  exists pa, id_queue pa (la ++ [i]) (k - 1) /\
    append_available i (set_context_list (<[Z.to_nat i := c]> (context_list w)) (set_env e (set_free_contexts p w))) =
      Done SUBSTANCE_CONNECTOR_SUCCESS (taken w e p pa i c).
Proof.
  intros Hla Hk Hroom.
  destruct (append_available_done (set_context_list (<[Z.to_nat i := c]> (context_list w)) (set_env e (set_free_contexts p w)))
    la k i Hla Hk Hroom) as (pa & Happ & Hpa). by exists pa.
Qed.

Lemma accept_free w j c fd e i l n la k :
  contexts_inv w (i :: l) n -> id_queue (connection_queue w) la k -> 0 < k -> (length la < 33)%nat ->
  0 <= j < 32 -> context_list w !! Z.to_nat j = Some c ->
  Z.land (configuration c) SUBSTANCE_CONNECTOR_CONN_MASK = SUBSTANCE_CONNECTOR_CONN_OPEN ->
  Z.land (configuration c) SUBSTANCE_CONNECTOR_COMM_MASK = SUBSTANCE_CONNECTOR_COMM_TCP ->
  accept (fd_of c) (env w) = (fd, e) -> 0 <= fd ->
  exists p pa, id_queue p l n /\ id_queue pa (la ++ [i]) (k - 1) /\
    connector_context_accept j true w = Done (SUBSTANCE_CONNECTOR_SUCCESS, Some i) (taken w e p pa i (connected_slot fd 0)).
Proof.
  intros Hinv Hla Hk Hroom Hj Hc Hopen Htcp Hacc Hfd.
  destruct (pop_free w i l n Hinv) as (p & Hp & Hpop).
  assert (Hd : context_list w !! Z.to_nat i = Some zero_context) by (apply (ci_free _ _ _ Hinv); by left).
  destruct (announced w e p i (connected_slot fd 0) la k Hla Hk Hroom) as (pa & Hpa & Happ).
  exists p, pa. split; [done|]. split; [done|].
  rewrite (accept_takes w j c fd e p _ zero_context Hj Hc Hopen Htcp Hacc Hfd Hpop Hd).
  cbn [snd default from_option id]. by rewrite (bind_done _ _ _ _ _ Happ).
Qed.

(** ** Connecting *)

Lemma bridge_tcp w i c sock e1 r e2 :
  context_list w !! i = Some c -> connection_index c 0 = 1%nat ->
  socket_inet (env w) = (sock, e1) -> 0 <= sock -> connect_inet sock (u16 (cx_port c)) e1 = (r, e2) -> 0 <= r ->
  connector_bridge_connection (Some i) w =
    Done SUBSTANCE_CONNECTOR_SUCCESS (set_context_list (<[i := set_fd (u64 sock) c]> (context_list w)) (set_env e2 w)).
Proof.
  intros Hc Hidx Hsock H0 Hconn Hr. unfold connector_bridge_connection, context_operation.
  rewrite bool_decide_eq_true_2 by done. rewrite (bind_done _ _ _ _ _ (load_context_some w _ c Hc)), Hidx.
  change (connector_connect_tcp_impl (Some i) w = Done SUBSTANCE_CONNECTOR_SUCCESS
    (set_context_list (<[i := set_fd (u64 sock) c]> (context_list w)) (set_env e2 w))).
  unfold connector_connect_tcp_impl. rewrite bool_decide_eq_true_2 by done.
  rewrite (bind_done _ _ _ _ _ (load_context_some w _ c Hc)).
  rewrite (bind_done (sys socket_inet) _ w sock (set_env e1 w)) by (unfold sys; by rewrite Hsock).
  rewrite (proj2 (Z.ltb_ge sock 0)) by lia.
  rewrite (bind_done (sys (connect_inet sock (u16 (cx_port c)))) _ _ r (set_env e2 w)) by (unfold sys; cbn; by rewrite Hconn).
  rewrite (proj2 (Z.ltb_ge r 0)) by lia. by rewrite (bind_done _ _ _ _ _ (update_context_some (set_env e2 w) _ c _ Hc)).
Qed.

Lemma connect_free w i l n la k port sock e1 r e2 :
  contexts_inv w (i :: l) n -> id_queue (connection_queue w) la k -> 0 < k -> (length la < 33)%nat ->
  socket_inet (env w) = (sock, e1) -> 0 <= sock -> connect_inet sock (u16 port) e1 = (r, e2) -> 0 <= r ->
  exists p pa, id_queue p l n /\ id_queue pa (la ++ [i]) (k - 1) /\
    connector_context_connect_tcp port true w = Done (SUBSTANCE_CONNECTOR_SUCCESS, Some i) (taken w e2 p pa i (connected_slot sock port)).
Proof.
  intros Hinv Hla Hk Hroom Hsock H0 Hconn Hr. pose proof Hinv as [Hwf Hs Hlen Hq Hnd Hrange Hfree Hused].
  destruct (pop_free w i l n Hinv) as (p & Hp & Hpop). apply Forall_cons in Hrange as [Hi _].
  assert (Hzero : context_list w !! Z.to_nat i = Some zero_context) by (apply Hfree; by left).
  destruct (announced w e2 p i (connected_slot sock port) la k Hla Hk Hroom) as (pa & Hpa & Happ).
  exists p, pa. split; [done|]. split; [done|].
  unfold connector_context_connect_tcp, connector_context_connect. rewrite (bind_done _ _ _ _ _ Hpop).
  cbn [default from_option id snd desc_connection_data].
  rewrite (bind_done _ _ _ _ _ (store_slot_done (set_free_contexts p w) i zero_context _ Hzero)).
  rewrite list_insert_id by done. set (c0 := ContextStruct tcp_open_bits 0 port 0 0 0). change (described_context _ 0) with c0.
  rewrite (bind_done _ _ _ _ _ (store_slot_done (set_free_contexts p w) i zero_context c0 Hzero)).
  cbn [context_list set_free_contexts]. set (w3 := set_context_list _ _).
  assert (H3 : context_list w3 !! Z.to_nat i = Some c0) by (cbn; apply list_lookup_insert_eq; lia).
  assert (Hop : context_op_generic i connector_bridge_connection w3 = Done SUBSTANCE_CONNECTOR_SUCCESS
    (set_context_list (<[Z.to_nat i := set_fd (u64 sock) c0]> (context_list w)) (set_env e2 w3))).
  { unfold context_op_generic, SUBSTANCE_CONNECTOR_CONTEXT_COUNT. rewrite (proj2 (Z.ltb_lt i 32)) by lia.
    unfold slot. rewrite (bridge_tcp w3 (Z.to_nat i) c0 sock e1 r e2) by done. cbn. by rewrite list_insert_insert_eq. }
  rewrite (bind_done _ _ _ _ _ Hop). rewrite Z.eqb_refl. cbn [negb]. set (w4 := set_context_list _ _).
  assert (H4 : context_list w4 !! Z.to_nat i = Some (set_fd (u64 sock) c0)) by (cbn; apply list_lookup_insert_eq; lia).
  rewrite (bind_done _ _ _ _ _ (update_context_some w4 _ _ _ H4)). cbn [w4 context_list set_context_list].
  rewrite list_insert_insert_eq. by rewrite (bind_done _ _ _ _ _ Happ).
Qed.

(** ** Properties *)

(** C7: Input on an open TCP context is a connection to be accepted.  When the
    system accepts it, the first free slot becomes a connected TCP context with the
    new descriptor, without a name or a sent handshake, leaves the free queue and
    is announced to the read threads; the open context and all other slots, and
    memory, stay as they are, and the free queue again holds exactly the cleared
    slots.  When the system does not, the call fails and changes nothing.  When no
    slot is free the connection is nevertheless accepted: slot 0 gets its
    descriptor, whatever it was, keeps the name it had and is announced a second
    time.  A context that is not open is refused. *)
Theorem accepting_takes_a_slot w (j : Z) (c : context_struct) (fd : Z) (e : E) (free : list Z) (n : Z) (la : list Z) (k : Z)
    (Hinv : contexts_inv w free n) (Hla : id_queue (connection_queue w) la k) (Hk : 0 < k) (Hroom : (length la < 33)%nat)
    (Hj : 0 <= j < 32) (Hc : context_list w !! Z.to_nat j = Some c)
    (Htcp : Z.land (configuration c) SUBSTANCE_CONNECTOR_COMM_MASK = SUBSTANCE_CONNECTOR_COMM_TCP)
    (Hacc : accept (fd_of c) (env w) = (fd, e)) :
  let state := Z.land (configuration c) SUBSTANCE_CONNECTOR_CONN_MASK in
  (state <> SUBSTANCE_CONNECTOR_CONN_OPEN ->
     connector_read_thread_handle_open j w = Done SUBSTANCE_CONNECTOR_INVALID w) /\
  (state = SUBSTANCE_CONNECTOR_CONN_OPEN -> fd < 0 ->
     connector_read_thread_handle_open j w = Done SUBSTANCE_CONNECTOR_OPEN_FAIL (set_env e w)) /\
  (state = SUBSTANCE_CONNECTOR_CONN_OPEN -> 0 <= fd ->
     exists w', connector_read_thread_handle_open j w = Done SUBSTANCE_CONNECTOR_SUCCESS w' /\
       env w' = e /\ mem w' = mem w /\ trace w' = trace w ++ [BroadcastInbound; BroadcastInbound] /\
       match free with
       | i :: l => contexts_inv w' l n /\ id_queue (connection_queue w') (la ++ [i]) (k - 1) /\
           context_list w' = <[Z.to_nat i := ContextStruct tcp_connected_bits (u64 fd) 0 0 0 0]> (context_list w)
       | [] => free_contexts w' = free_contexts w /\ id_queue (connection_queue w') (la ++ [0]) (k - 1) /\
           exists d, context_list w !! 0%nat = Some d /\
             context_list w' = <[0%nat := ContextStruct tcp_connected_bits (u64 fd) (cx_port d) (connection_data d)
                                            (cx_application_name d) (cx_identifier d)]> (context_list w)
       end).
Proof.
  intros state. unfold connector_read_thread_handle_open.
  assert (Hstate : connector_context_state j w = Done state w) by (by apply (context_configuration_done w j c)).
  split; [|split].
  - intros Hne. rewrite (bind_done (connector_context_accept j true) _ w (SUBSTANCE_CONNECTOR_INVALID, None) w); [done|].
    unfold connector_context_accept, SUBSTANCE_CONNECTOR_CONTEXT_COUNT. rewrite (proj2 (Z.ltb_lt j 32)) by lia. cbn [andb].
    by rewrite (bind_done _ _ _ _ _ Hstate), (proj2 (Z.eqb_neq _ _) Hne).
  - intros Hopen Hfd. rewrite (bind_done (connector_context_accept j true) _ w (SUBSTANCE_CONNECTOR_OPEN_FAIL, None) (set_env e w)); [done|].
    unfold connector_context_accept, SUBSTANCE_CONNECTOR_CONTEXT_COUNT. rewrite (proj2 (Z.ltb_lt j 32)) by lia. cbn [andb].
    rewrite (bind_done _ _ _ _ _ Hstate), Hopen, Z.eqb_refl.
    by rewrite (bind_done _ _ _ _ _ (accept_connection_tcp w _ c fd e Hc Htcp Hacc)), (proj2 (Z.leb_gt 0 fd)) by lia.
  - intros Hopen Hfd. destruct free as [|i l].
    + pose proof (in_free_done _ w _ _ (id_queue_pop_nil _ _ (ci_queue _ _ _ Hinv))) as Hpop.
      destruct (ci_used _ _ _ Hinv 0 ltac:(lia) ltac:(apply not_elem_of_nil)) as (d & Hd & _).
      pose proof (accept_takes w j c fd e _ _ d Hj Hc Hopen Htcp Hacc Hfd Hpop Hd) as Hrun. cbn [snd default] in Hrun.
      destruct (announced w e (free_contexts w) 0 (set_fd (u64 fd) (set_configuration tcp_connected_bits d)) la k Hla Hk Hroom)
        as (pa & Hpa & Happ).
      rewrite (bind_done _ _ _ _ _ Happ) in Hrun. rewrite (bind_done _ _ _ _ _ Hrun). eexists. split; [reflexivity|].
      do 2 (split; [done|]). split; [cbn; by rewrite <- app_assoc|]. do 2 (split; [done|]). by exists d.
    + destruct (accept_free w j c fd e i l n la k) as (p & pa & Hp & Hpa & Hrun); try done.
      rewrite (bind_done _ _ _ _ _ Hrun). eexists. split; [reflexivity|]. split; [done|]. split; [done|].
      split; [cbn; by rewrite <- app_assoc|]. split; [|done]. pose proof (taken_inv w e p pa i l n (connected_slot fd 0) Hinv Hp) as [];
        [done | by constructor].
Qed.

End connecting.

Lemma accepting_takes_a_slot_witness :
  exists w w' : world simulation, connector_read_thread_handle_open 0 w = Done SUBSTANCE_CONNECTOR_SUCCESS w' /\
    context_list w' !! 1%nat = Some (ContextStruct tcp_connected_bits 3 0 0 0 0).
Proof.
  destruct (ready_world (Simulation 3 false [] [] [] [])) as (w & _ & Hinv & Hq & He & _).
  destruct (pop_free w 0 (seqZ 1 31) (2 ^ 32 - 34) Hinv) as (p & Hp & _).
  pose proof Hinv as [Hwf Hs Hlen _ _ _ _ _]. set (c := ContextStruct tcp_open_bits 7 4000 0 0 0).
  set (w1 := set_context_list (<[0%nat := c]> (context_list w)) (set_free_contexts p w)).
  assert (Hinv1 : contexts_inv w1 (seqZ 1 31) (2 ^ 32 - 34)) by (by apply (contexts_inv_take w w1 0 (seqZ 1 31) (2 ^ 32 - 34) c)).
  assert (Hc : context_list w1 !! Z.to_nat 0 = Some c) by (cbn; apply list_lookup_insert_eq; lia).
  assert (Hacc : accept (fd_of c) (env w1) = (3, Simulation 4 false [] [] [] [])) by (cbn; by rewrite He).
  destruct (accepting_takes_a_slot w1 0 c 3 _ (seqZ 1 31) (2 ^ 32 - 34) [] (2 ^ 32 - 2) Hinv1 Hq ltac:(lia) ltac:(cbn; lia)
    ltac:(lia) Hc eq_refl Hacc) as (_ & _ & Hok).
  destruct (Hok eq_refl ltac:(lia)) as (w' & Hrun & _ & _ & _ & _ & _ & Hl).
  exists w1, w'. split; [exact Hrun|]. rewrite Hl. apply list_lookup_insert_eq. cbn. rewrite length_insert. lia.
Defined.
