(* ===== verification/Select.v ===== *)
(** * Waiting for input with [select]

    The variant of [connector_poll_contexts] ([connection_utils.c]) that is built
    with [SUBSTANCE_CONNECTOR_FORCE_SELECT]; the code keeps to [poll] "because
    select does not work", and the theorems show why. *)

From S2P Require Import Prelude Wire Memory Message World Connection ReadThread.

(** ** What is used of the operating system

    [select] gets the number of descriptors and the three sets, and answers the
    number of ready descriptors and what is left of the sets. *)
Definition fd_set : Type := gset Z.
Definition FD_SETSIZE : Z := 1024.

Class Select (E : Type) := {
  select : Z -> fd_set -> fd_set -> fd_set -> E -> (Z * (fd_set * fd_set * fd_set)) * E
}.

(** When descriptors are ready, the sets keep some of those they had, and only the
    descriptors below the number are looked at. *)
Class SelectLaws (E : Type) `{Select E} := {
  select_ready n r w x e c r' w' x' e' :
    select n r w x e = ((c, (r', w', x')), e') -> 0 < c ->
    forall fd, (fd ∈ r' -> fd ∈ r /\ fd < n) /\ (fd ∈ x' -> fd ∈ x /\ fd < n);
  select_result n r w x e c s e' : select n r w x e = ((c, s), e') -> -1 <= c
}.

Section select.
Context {E : Type} {P : Platform E} {S : Select E}.

(** The macros; [FD_SET] writes outside the set when the descriptor is too
    large. *)
Definition FD_ZERO : fd_set := ∅.
Definition FD_SET (fd : Z) (s : fd_set) : M (world E) fd_set :=
  if (0 <=? fd) && (fd <? FD_SETSIZE) then ret ({[fd]} ∪ s) else stuck OutOfBounds.
Definition FD_ISSET (fd : Z) (s : fd_set) : bool := bool_decide (fd ∈ s).

(** The loop that adds the contexts to two sets. *)
Fixpoint add_contexts (contexts : list (Z * Z * Z)) (readfds exceptfds : fd_set) : M (world E) (fd_set * fd_set) :=
  match contexts with
  | [] => ret (readfds, exceptfds)
  | (fd, _, _) :: contexts' =>
      let* readfds := FD_SET fd readfds in
      let* exceptfds := FD_SET fd exceptfds in
      add_contexts contexts' readfds exceptfds
  end.

(** The loop that appends the flags. *)
Definition append_flags (readfds exceptfds : fd_set) (c : Z * Z * Z) : Z * Z * Z :=
  let '(fd, events, revents) := c in
  let revents := if FD_ISSET fd readfds then Z.lor revents SUBSTANCE_CONNECTOR_POLLIN else revents in
  let revents := if FD_ISSET fd exceptfds then Z.lor revents SUBSTANCE_CONNECTOR_POLLERR else revents in
  (fd, events, revents).

Definition connector_select_contexts (contexts : list (Z * Z * Z)) : M (world E) (Z * list (Z * Z * Z)) :=
  let retcode := SUBSTANCE_CONNECTOR_POLL_EUNKNOWN in
  if (0 <? length contexts)%nat then
    let* sets := add_contexts contexts FD_ZERO FD_ZERO in
    let '(readfds, exceptfds) := sets in
    let* r := sys (select (Z.of_nat (length contexts)) readfds FD_ZERO exceptfds) in
    let '(retval, (readfds, writefds, exceptfds)) := r in
    if retval =? SUBSTANCE_CONNECTOR_SELECT_ERROR then
      let* e := gets env in
      ret (convert_network_error (errno e), contexts)
    else if retval =? SUBSTANCE_CONNECTOR_SELECT_TIMEOUT then
      ret (SUBSTANCE_CONNECTOR_POLL_TIMEOUT, contexts)
    else ret (retcode, map (append_flags readfds exceptfds) contexts)
  else ret (retcode, contexts).

(** ** Lemmas *)

Definition representable (c : Z * Z * Z) : Prop := 0 <= fst (fst c) < FD_SETSIZE.

Lemma add_contexts_done contexts : forall r x (w : world E),
  Forall representable contexts ->
  exists r' x', add_contexts contexts r x w = Done (r', x') w /\
    (forall fd, fd ∈ r' <-> fd ∈ r \/ fd ∈ map (fun c => fst (fst c)) contexts) /\
    (forall fd, fd ∈ x' <-> fd ∈ x \/ fd ∈ map (fun c => fst (fst c)) contexts).
Proof.
  induction contexts as [|[[fd ev] rev] contexts IH]; intros r x w Hc; cbn [add_contexts map].
  - exists r, x. split; [done|]. split; intros fd; rewrite elem_of_nil; tauto.
  - apply Forall_cons in Hc as [[H1 H2] Hc]. cbn [fst] in H1, H2.
    assert (Hset : forall s, FD_SET fd s w = Done ({[fd]} ∪ s) w).
    { intros s. unfold FD_SET. by rewrite (proj2 (Z.leb_le _ _)), (proj2 (Z.ltb_lt _ _)). }
    rewrite (bind_done _ _ _ _ _ (Hset r)), (bind_done _ _ _ _ _ (Hset x)).
    destruct (IH ({[fd]} ∪ r) ({[fd]} ∪ x) w Hc) as (r' & x' & Hrun & Hr & Hx).
    exists r', x'. split; [done|]. cbn [fst].
    split; intros fd'; [rewrite Hr | rewrite Hx]; rewrite elem_of_union, elem_of_singleton, elem_of_cons; tauto.
Qed.

Lemma append_flags_keeps r x fd ev rev :
  exists rev', append_flags r x (fd, ev, rev) = (fd, ev, rev') /\ Z.land rev' rev = rev.
Proof.
  assert (Hlor : forall a b, Z.land (Z.lor a b) a = a).
  { intros a b. apply Z.bits_inj'. intros n Hn. rewrite Z.land_spec, Z.lor_spec. by destruct (Z.testbit a n), (Z.testbit b n). }
  unfold append_flags. eexists. split; [reflexivity|].
  destruct (FD_ISSET fd r), (FD_ISSET fd x); rewrite <- ?Z.lor_assoc, ?Hlor; try done; by rewrite Z.land_diag.
Qed.

Lemma convert_error_unknown e : convert_network_error e = SUBSTANCE_CONNECTOR_POLL_EUNKNOWN.
Proof. unfold convert_network_error, convert_network_error_locals. by repeat case_match. Qed.

End select.

(** ** Properties *)

Section properties.
Context {E : Type} {P : Platform E} {S : Select E} {L : SelectLaws E}.

(** Why [select] does not work.  Whatever is ready, the function never answers
    that it was successful: its code is the one for an unknown error or for a
    timeout.  It passes the number of contexts where the greatest descriptor is
    asked for, so contexts whose descriptors are not smaller than that number are
    never seen to be ready.  And the events it finds are added to those of the
    earlier calls, which are never taken away.  A descriptor too large for a set
    is written outside it. *)
Theorem select_does_not_work (w : world E) (contexts : list (Z * Z * Z)) (Hc : contexts <> []) :
  (Forall representable contexts ->
   exists code contexts' w', connector_select_contexts contexts w = Done (code, contexts') w' /\
     (code = SUBSTANCE_CONNECTOR_POLL_EUNKNOWN \/ code = SUBSTANCE_CONNECTOR_POLL_TIMEOUT) /\
     code <> SUBSTANCE_CONNECTOR_POLL_ESUCCESS /\
     Forall2 (fun c c' => fst c' = fst c /\ Z.land (snd c') (snd c) = snd c) contexts contexts' /\
     (Forall (fun c => Z.of_nat (length contexts) <= fst (fst c)) contexts -> contexts' = contexts)) /\
  (forall c rest, contexts = c :: rest -> FD_SETSIZE <= fst (fst c) ->
     connector_select_contexts contexts w = Stuck OutOfBounds).
Proof.
  assert (Hlen : (0 <? length contexts)%nat = true) by (by destruct contexts).
  unfold connector_select_contexts. rewrite Hlen. split.
  - intros Hrep. destruct (add_contexts_done contexts FD_ZERO FD_ZERO w Hrep) as (r & x & Hadd & Hr & Hx).
    rewrite (bind_done _ _ _ _ _ Hadd). set (n := Z.of_nat (length contexts)).
    destruct (select n r FD_ZERO x (env w)) as [[c [[r' w'] x']] e'] eqn:Hsel.
    pose proof (select_result _ _ _ _ _ _ _ _ Hsel) as Hres.
    rewrite (bind_done _ _ w (c, (r', w', x')) (set_env e' w)) by (unfold sys; by rewrite Hsel).
    assert (Hsame : Forall2 (fun c c' : Z * Z * Z => fst c' = fst c /\ Z.land (snd c') (snd c) = snd c) contexts contexts).
    { clear. induction contexts as [|c l IH]; constructor; [|done]. by rewrite Z.land_diag. }
    destruct (Z.eqb_spec c SUBSTANCE_CONNECTOR_SELECT_ERROR) as [He|He].
    { eexists _, contexts, _. split; [reflexivity|]. rewrite convert_error_unknown. auto. }
    destruct (Z.eqb_spec c SUBSTANCE_CONNECTOR_SELECT_TIMEOUT) as [Ht|Ht].
    { eexists _, contexts, _. split; [reflexivity|]. auto. }
    eexists _, _, _. split; [reflexivity|]. split; [by left|]. split; [done|]. split.
    + clear. induction contexts as [|[[fd ev] rev] l IH]; constructor; [|done].
      destruct (append_flags_keeps r' x' fd ev rev) as (rev' & -> & Hk). done.
    + intros Hbig. assert (Hc0 : 0 < c).
      { unfold SUBSTANCE_CONNECTOR_SELECT_ERROR in He. unfold SUBSTANCE_CONNECTOR_SELECT_TIMEOUT in Ht. lia. }
      pose proof (select_ready _ _ _ _ _ _ _ _ _ _ Hsel Hc0) as Hlaw.
      transitivity (map id contexts); [|apply map_id]. apply map_ext_in. intros [[fd ev] rev] Hin.
      apply list_elem_of_In in Hin. rewrite Forall_forall in Hbig. specialize (Hbig _ Hin). cbn [fst] in Hbig.
      destruct (Hlaw fd) as [Hl1 Hl2]. unfold append_flags, FD_ISSET.
      rewrite !bool_decide_eq_false_2; [done | |]; intros Hfd; [destruct (Hl1 Hfd) | destruct (Hl2 Hfd)]; unfold n in *; lia.
  - intros [[fd ev] rev] rest -> Hbig. cbn [fst] in Hbig. cbn [add_contexts]. apply bind_stuck, bind_stuck.
    unfold FD_SET. by rewrite (proj2 (Z.ltb_ge fd FD_SETSIZE)), andb_false_r.
Qed.

End properties.

(** A system on which everything below the number is readable. *)
#[export] Instance simulated_select : Select simulation := {
  select n r w x e :=
    let ready := filter (fun fd => fd < n) r in
    ((Z.of_nat (size ready), (ready, ∅, ∅)), e)
}.

#[export] Instance simulated_select_laws : SelectLaws simulation.
Proof.
  constructor.
  - intros n r w x e c r' w' x' e' [= _ <- <- <-] _ fd. rewrite elem_of_filter.
    split; [tauto | by intros ?%elem_of_empty].
  - intros n r w x e c s e' [= <- _ _]. lia.
Qed.

(** One context with descriptor 5, on which there is input. *)
Lemma select_does_not_work_witness :
  exists code w', connector_select_contexts [(5, POLLIN, 0)] (connected_world [1] initial_memory) =
      Done (code, [(5, POLLIN, 0)]) w' /\ code <> SUBSTANCE_CONNECTOR_POLL_ESUCCESS.
Proof.
  destruct (select_does_not_work (connected_world [1] initial_memory) [(5, POLLIN, 0)] ltac:(done)) as [H _].
  destruct (H ltac:(repeat constructor; cbn; lia)) as (code & l & w' & Hrun & _ & Hne & _ & Hsame).
  rewrite (Hsame ltac:(repeat constructor; cbn; lia)) in Hrun.
  exists code, w'. split; [exact Hrun | exact Hne].
Defined.
