(* ===== verification/Dispatch.v ===== *)
(** * The dispatch threads and the write threads

    [internal_messages.c], the routine of [dispatch.c] and the routine of
    [write_threads.c], as the calls one thread makes; how the threads wait for
    each other is in [ThreadModel]. *)

From S2P Require Import Prelude Wire Memory Strings UintQueue LockedQueue Message World Callbacks.
From S2P Require Import FileSystem Connection SlotFrame ContextQueue Contexts.

(** ** [bsearch] of <stdlib.h>

    [compare] is the comparison of the key with an element; [lo] and [hi] bound
    the part of the table still to search. *)
Fixpoint bsearch_loop {A} (fuel : nat) (compare : A -> Z) (table : list A) (lo hi : nat) : option A :=
  match fuel with
  | O => None
  | S fuel =>
      if (lo <? hi)%nat then
        let mid := ((lo + hi) / 2)%nat in
        match table !! mid with
        | Some x =>
            let c := compare x in
            if c <? 0 then bsearch_loop fuel compare table lo mid
            else if 0 <? c then bsearch_loop fuel compare table (S mid) hi
            else Some x
        | None => None
        end
      else None
  end.
Definition bsearch {A} (compare : A -> Z) (table : list A) : option A :=
  bsearch_loop (S (length table)) compare table 0 (length table).

Section threads.
Context {E : Type} {P : Platform E} {B : Bindings E}.

(** ** [internal_messages.c] *)

Definition connector_callback_fp : Type := Z -> uuid -> Z -> M (world E) unit.

Record intern_callback := InternCallback { key : uuid; callback : connector_callback_fp }.

Definition connector_enqueue_outbound (message : Z) : M (world E) unit :=
  in_queues (fun qs => let* qs' := connector_enqueue_outbound_message message qs in ret (tt, qs')).

Definition internal_handshake_callback : connector_callback_fp := fun context type message =>
  let* application_name := connector_get_application_name in
  let* out_message := in_mem (connector_build_message context
                                (Some connector_internal_handshake_uuid) application_name) in
  let* in_message := in_mem (connector_build_message context
                               (Some connector_internal_handshake_uuid) message) in
  when (negb (out_message =? 0))
    (connector_enqueue_outbound out_message ;;;
     connector_flag_write ;;; ret tt) ;;;
  when (negb (in_message =? 0))
    (connector_context_set_application_name context message ;;;
     in_mem (connector_clear_message in_message) ;;;
     in_mem (connector_free in_message)).

Definition CONNECTOR_MAX_INTERN_CALLBACKS : nat := 1.
Definition internal_messages : list intern_callback :=
  [InternCallback connector_internal_handshake_uuid internal_handshake_callback].

Definition compare_callback (uid : uuid) (callback_struct : intern_callback) : Z :=
  connector_compare_uuid (key callback_struct) uid.

(** [find_callback], for any table of callbacks. *)
Definition find_callback_in (table : list intern_callback) (type : uuid) : option connector_callback_fp :=
  callback <$> bsearch (compare_callback type) table.
Definition find_callback (type : uuid) : option connector_callback_fp :=
  find_callback_in internal_messages type.

Definition connector_call_internal_message (context : Z) (type : uuid) (message : Z) : M (world E) Z :=
  match find_callback type with
  | Some callback => callback context type message ;;; ret SUBSTANCE_CONNECTOR_SUCCESS
  | None => ret SUBSTANCE_CONNECTOR_ERROR
  end.

(** ** [dispatch.c]

    The flag [dispatch_signal_main] is set at most once, when the subsystem is
    initialised. *)

Definition dispatch_signal_main_condition (dispatch_signal_main : bool) : M (world E) unit :=
  when dispatch_signal_main (emit BroadcastDispatchMain).

Definition acquire_inbound : M (world E) Z := in_queues connector_acquire_inbound_message.
Definition acquire_outbound : M (world E) Z := in_queues connector_acquire_outbound_message.

(** Clearing and freeing a processed message. *)
Definition delete_message (message : Z) : M (world E) unit :=
  in_mem (connector_clear_message message) ;;;
  in_mem (connector_free message).

(** Handing one message to the internal callback or to the trampolines. *)
Definition dispatch_message (message : Z) : M (world E) unit :=
  let* x := in_mem (load_message message) in
  let* h := message_header_of x in
  if CONNECTOR_IDENTIFY_INTERNAL (description h) then
    connector_call_internal_message (msg_context x) (message_id h) (msg_text x) ;;; ret tt
  else
    connector_notify_trampolines (msg_context x) (message_id h) (msg_text x) ;;; ret tt.

(** The inner loop: [codes] are the values of the shutdown code at its
    successive tests.  The answer is the message the thread still holds. *)
Fixpoint dispatch_loop (codes : list bool) (message : Z) : M (world E) Z :=
  if message =? 0 then ret 0
  else
    match codes with
    | [] => stuck NoFuel
    | true :: _ => ret message
    | false :: codes' =>
        dispatch_message message ;;;
        delete_message message ;;;
        let* message := acquire_inbound in
        dispatch_loop codes' message
    end.

(** The waiting loop: [tests] are the values of the shutdown code before and
    after the successive waits.  The answer is [None] when the thread is to exit
    at once. *)
Fixpoint dispatch_wait (signal_main : bool) (tests : list (bool * bool)) (message : Z) :
    M (world E) (option Z) :=
  if message =? 0 then
    match tests with
    | [] => stuck Deadlock
    | (true, _) :: _ => ret (Some 0)
    | (false, true) :: _ => ret None
    | (false, false) :: tests' =>
        let* message := acquire_inbound in
        when (message =? 0) (dispatch_signal_main_condition signal_main) ;;;
        dispatch_wait signal_main tests' message
    end
  else ret (Some message).

(** One round of the main loop; [false] when the thread leaves it, with what
    follows the label [thread_exit]. *)
Definition dispatch_round (signal_main : bool) (tests : list (bool * bool)) (codes : list bool) :
    M (world E) bool :=
  let* message := acquire_inbound in
  let* awake := dispatch_wait signal_main tests message in
  match awake with
  | None => ret false
  | Some message =>
      let* held := dispatch_loop codes message in
      dispatch_signal_main_condition signal_main ;;;
      if held =? 0 then ret true
      else delete_message held ;;; ret false
  end.

(** What one round sees: the shutdown code when it starts, before and after its
    waits, and in its inner loop. *)
Record dispatch_view := DispatchView {
  dv_code : bool;
  dv_tests : list (bool * bool);
  dv_codes : list bool
}.

Fixpoint dispatch_routine (signal_main : bool) (rounds : list dispatch_view) : M (world E) unit :=
  match rounds with
  | [] => stuck NoFuel
  | v :: rounds' =>
      if dv_code v then ret tt
      else
        let* more := dispatch_round signal_main (dv_tests v) (dv_codes v) in
        if more then dispatch_routine signal_main rounds' else ret tt
  end.

(** What it does up to and behind the wait for [dispatch_main_condition]. *)
Definition connector_await_dispatch (signal_main : bool) : M (world E) Z :=
  if signal_main then connector_flag_dispatch ;;; ret SUBSTANCE_CONNECTOR_SUCCESS
  else ret SUBSTANCE_CONNECTOR_ERROR.

(** ** [write_threads.c] *)

(** Reading [message->context] and sending. *)
Definition write_message (message : Z) : M (world E) Z :=
  let* x := in_mem (load_message message) in
  connector_context_write (msg_context x) message.

(** The inner loop does not look at the shutdown flag; [fuel] bounds the number
    of messages. *)
Fixpoint write_loop (fuel : nat) (message : Z) : M (world E) unit :=
  if message =? 0 then ret tt
  else
    match fuel with
    | O => stuck NoFuel
    | S fuel =>
        write_message message ;;;
        delete_message message ;;;
        let* message := acquire_outbound in
        write_loop fuel message
    end.

(** The thread always waits at least once: the queue is not looked at before. *)
Fixpoint write_wait (awoken : list bool) : M (world E) (option Z) :=
  match awoken with
  | [] => stuck Deadlock
  | true :: _ => ret None
  | false :: awoken' =>
      let* message := acquire_outbound in
      if message =? 0 then write_wait awoken' else ret (Some message)
  end.

(** One round of the main loop of [write_thread_routine]. *)
Definition write_round (awoken : list bool) (fuel : nat) : M (world E) bool :=
  let* awake := write_wait awoken in
  match awake with
  | None => ret false
  | Some message => write_loop fuel message ;;; ret true
  end.

Fixpoint write_thread_routine (rounds : list (bool * list bool * nat)) : M (world E) unit :=
  match rounds with
  | [] => stuck NoFuel
  | (shutdown_flag, awoken, fuel) :: rounds' =>
      if shutdown_flag : bool then ret tt
      else
        let* more := write_round awoken fuel in
        if more then write_thread_routine rounds' else ret tt
  end.

End threads.
Arguments intern_callback E : clear implicits.

(** ** Queued messages

    A message waiting in a queue: the addresses of its node, of its structure and
    of its text, its header, the text and the context. *)
Record queued := Queued {
  qm_node : Z;
  qm_message : Z;
  qm_text : Z;
  qm_header : message_header;
  qm_string : list Z;
  qm_context : Z
}.

Definition queued_at (m : memory) (r : queued) : Prop :=
  owns m (qm_message r) (BMsg (Message (Some (qm_header r)) (qm_text r) (qm_context r))) /\
  points_to_string m (qm_text r) (qm_string r).

(** The queue [q] holds exactly the messages [rs], whose structures and texts
    are pairwise different blocks. *)
Record all_queued (m : memory) (q : locked_queue) (rs : list queued) : Prop := {
  aq_repr : lq_repr m q (map (fun r => (qm_node r, qm_message r)) rs);
  aq_at : Forall (queued_at m) rs;
  aq_messages : NoDup (map qm_message rs);
  aq_texts : NoDup (map qm_text rs)
}.

Definition queued_blocks (r : queued) : list Z := [qm_node r; qm_message r; qm_text r].

Lemma queued_released ps m m' r :
  released ps m m' -> queued_at m r -> qm_message r ∉ ps -> qm_text r ∉ ps -> queued_at m' r.
Proof. intros Hrel [Hm Ht] H1 H2. split; by apply (released_owns ps m). Qed.

(** Taking the oldest message off the queue. *)
Lemma acquire_queued m q r rs :
  mem_wf m -> all_queued m q (r :: rs) ->
  exists q', dequeue_message q m = Done (qm_message r, q') (free_cell (qm_node r) m) /\
    released [qm_node r] m (free_cell (qm_node r) m) /\
    all_queued (free_cell (qm_node r) m) q' rs /\ queued_at (free_cell (qm_node r) m) r /\
    (qm_message r ∉ map qm_message rs) /\ (qm_text r ∉ map qm_text rs).
Proof.
  intros Hwf [Hr Hat Hm Ht]. destruct (dequeue_message_spec m q _ Hwf Hr) as (q' & H & _).
  cbn [map] in H. destruct H as [Hrun Hr']. exists q'. split; [exact Hrun|].
  cbn [map] in *. apply NoDup_cons in Hm as [Hm0 Hm]. apply NoDup_cons in Ht as [Ht0 Ht].
  destruct Hr as [_ Hch _ _]. destruct Hch as (_ & next & Ho & _). cbn in Ho.
  assert (Hrel : released [qm_node r] m (free_cell (qm_node r) m)) by (by apply released_free_cell).
  assert (Hq : forall r', queued_at m r' -> queued_at (free_cell (qm_node r) m) r').
  { intros r' Hr1. apply (queued_released _ _ _ _ Hrel Hr1); rewrite list_elem_of_singleton;
      intros Heq; destruct Hr1 as [H1 H2]; unfold points_to_string, owns in *; congruence. }
  apply Forall_cons in Hat as [Hr0 Hat].
  split; [done|]. split; [|auto]. constructor; try done. by eapply Forall_impl.
Qed.

Lemma acquire_none m q :
  mem_wf m -> all_queued m q [] -> exists q', dequeue_message q m = Done (0, q') m /\ all_queued m q' [].
Proof.
  intros Hwf [Hr Hat Hm Ht]. destruct (dequeue_message_spec m q _ Hwf Hr) as (q' & [Hrun Hr'] & _).
  exists q'. split; [done|]. by constructor.
Qed.

(** Deleting a message that was taken off the queue. *)
Lemma delete_queued {E} (w : world E) r q rs :
  mem_wf (mem w) -> queued_at (mem w) r -> all_queued (mem w) q rs ->
  qm_message r ∉ map qm_message rs -> qm_text r ∉ map qm_text rs ->
  exists m', delete_message (qm_message r) w = Done tt (set_mem m' w) /\
    released [qm_message r; qm_text r] (mem w) m' /\ all_queued m' q rs.
Proof.
  intros Hwf [Hm Ht] [Hr Hat Hnd1 Hnd2] Hr1 Hr2.
  assert (Hne : qm_text r <> qm_message r) by (intros Heq; unfold points_to_string, owns in *; congruence).
  destruct (discard_message (mem w) (qm_message r) _ (qm_text r) _ _ Hwf Hm Ht Hne) as (m1 & m' & E1 & E2 & Hrel).
  exists m'. split; [|split; [done|]].
  - unfold delete_message. rewrite (bind_done _ _ _ _ _ (in_mem_done _ w _ _ E1)).
    by rewrite (in_mem_done _ (set_mem m1 w) _ _ E2).
  - constructor; try done.
    + apply (lq_repr_frame (mem w)); [done | by destruct Hrel |]. intros a n c _ Ha.
      apply (released_heap_other _ _ _ _ Hrel). rewrite elem_of_cons, list_elem_of_singleton.
      intros [->| ->]; unfold points_to_string, owns in *; congruence.
    + rewrite Forall_forall in Hat |- *. intros r' Hin. pose proof (Hat r' Hin) as [Hm' Ht'].
      apply (queued_released _ _ _ _ Hrel); [by split | |]; rewrite elem_of_cons, list_elem_of_singleton; intros [Heq|Heq].
      * apply Hr1. rewrite <- Heq. by apply list_elem_of_fmap_2.
      * unfold points_to_string, owns in *; congruence.
      * unfold points_to_string, owns in *; congruence.
      * apply Hr2. rewrite <- Heq. by apply list_elem_of_fmap_2.
Qed.

Lemma queued_live m q rs a :
  all_queued m q rs -> a ∈ concat (map queued_blocks rs) -> exists b, owns m a b.
Proof.
  intros [Hr Hat _ _] Ha. apply list_elem_of_In, in_concat in Ha as (bl & Hbl & Ha).
  apply in_map_iff in Hbl as (r & <- & Hin). rewrite Forall_forall in Hat.
  destruct (Hat r) as [Hm Ht]; [by apply list_elem_of_In|].
  destruct Ha as [<-|[<-|[<-|[]]]]; [|by eexists ..].
  destruct (chain_owned _ _ _ (qm_node r) (qm_message r) (lq_chain _ _ _ Hr)) as [n Hn]; [|by eexists].
  apply in_map_iff. by exists r.
Qed.

Lemma node_in_blocks r rs : r ∈ rs -> forall a, a ∈ queued_blocks r -> a ∈ concat (map queued_blocks rs).
Proof.
  intros Hr a Ha. apply list_elem_of_In, in_concat. exists (queued_blocks r).
  split; [by apply in_map, list_elem_of_In | by apply list_elem_of_In].
Qed.

Lemma map_queued_nodes rs : map fst (map (fun r => (qm_node r, qm_message r)) rs) = map qm_node rs.
Proof. by rewrite map_map. Qed.

(** Messages stay queued when only nodes change. *)
Lemma queued_at_kept m m' q rs r :
  all_queued m q rs -> mem_config_eq m m' -> r ∈ rs ->
  (forall a, a ∈ concat (map queued_blocks rs) -> a ∉ map qm_node rs -> heap m' !! a = heap m !! a) ->
  queued_at m' r.
Proof.
  intros [Hr Hat _ _] Hc Hin Hh. rewrite Forall_forall in Hat. destruct (Hat r Hin) as [Hm Ht].
  assert (Hkeep : forall a b, a ∈ queued_blocks r -> owns m a b -> (forall n c, b <> BNode n c) -> owns m' a b).
  { intros a b Hbl Ha Hb. unfold owns in *. rewrite (config_free _ _ Hc), Hh; [done | by apply (node_in_blocks r) |].
    intros Hn. apply list_elem_of_In, in_map_iff in Hn as (r' & <- & Hn).
    destruct (chain_owned _ _ _ (qm_node r') (qm_message r') (lq_chain _ _ _ Hr)) as [n Ho].
    - apply in_map_iff. by exists r'.
    - unfold owns in Ho. apply (Hb n (qm_message r')). congruence. }
  unfold queued_blocks in Hkeep. split; apply Hkeep; try done; rewrite !elem_of_cons; auto.
Qed.

(** A new message at the end of the queue. *)
Lemma all_queued_snoc m m' q q' rs r :
  all_queued m q rs -> mem_config_eq m m' ->
  lq_repr m' q' (map (fun r => (qm_node r, qm_message r)) rs ++ [(qm_node r, qm_message r)]) ->
  queued_at m' r ->
  (forall a, a ∈ queued_blocks r -> heap m !! a = None) ->
  (forall a, a ∈ concat (map queued_blocks rs) -> a ∉ map qm_node rs -> heap m' !! a = heap m !! a) ->
  all_queued m' q' (rs ++ [r]).
Proof.
  intros Hq Hc Hr Hat' Hf Hh. pose proof Hq as [_ Hat Hnd1 Hnd2].
  assert (Hnot : forall f : queued -> Z, (forall r', f r' ∈ queued_blocks r') -> f r ∉ map f rs).
  { intros f Hb (r' & Heq & Hin)%list_elem_of_fmap. pose proof (node_in_blocks r' rs Hin _ (Hb r')) as Hx.
    destruct (queued_live _ _ _ _ Hq Hx) as [b Ho]. unfold owns in Ho. rewrite <- Heq, Hf in Ho; done. }
  assert (Hsnoc : forall f : queued -> Z, (forall r', f r' ∈ queued_blocks r') ->
    NoDup (map f rs) -> NoDup (map f (rs ++ [r]))).
  { intros f Hb Hnd. rewrite map_app. apply NoDup_app. split; [done|]. split; [|apply NoDup_singleton].
    intros a Ha ->%list_elem_of_singleton. by apply (Hnot f). }
  constructor.
  - by rewrite map_app.
  - apply Forall_app. split; [|by apply Forall_singleton].
    apply Forall_forall. intros r' Hin. by apply (queued_at_kept m m' q rs r').
  - apply Hsnoc; [|done]. intros r'. unfold queued_blocks. rewrite !elem_of_cons. auto.
  - apply Hsnoc; [|done]. intros r'. unfold queued_blocks. rewrite !elem_of_cons. auto.
Qed.

(** [m'] is [m] without the blocks [ps]; it may have handed out other
    addresses meanwhile. *)
Record heap_without (ps : list Z) (m m' : memory) : Prop := {
  hw_wf : mem_wf m';
  hw_config : mem_config_eq m m';
  hw_heap : forall a, heap m' !! a = if decide (a ∈ ps) then None else heap m !! a
}.

Lemma heap_without_same m m' : mem_wf m' -> mem_config_eq m m' -> heap m' = heap m -> heap_without [] m m'.
Proof. intros Hwf Hc Hh. constructor; [done | done |]. intros a. rewrite Hh. by case_decide as H; [apply elem_of_nil in H|]. Qed.

Lemma heap_without_released ps m m' : released ps m m' -> heap_without ps m m'.
Proof. by intros []. Qed.

Lemma heap_without_trans ps1 ps2 m1 m2 m3 :
  heap_without ps1 m1 m2 -> heap_without ps2 m2 m3 -> heap_without (ps1 ++ ps2) m1 m3.
Proof.
  intros [Hw1 Hc1 Hh1] [Hw2 Hc2 Hh2]. constructor; [done | by etransitivity |].
  intros a. rewrite Hh2, Hh1. pose proof (elem_of_app ps1 ps2 a). repeat case_decide; intuition.
Qed.

Lemma heap_without_serving ps m m' : heap_without ps m m' -> mem_serving m -> mem_serving m'.
Proof. intros [_ Hc _]. by apply mem_serving_config. Qed.

Lemma queued_same m m' r : mem_config_eq m m' -> heap m' = heap m -> queued_at m r -> queued_at m' r.
Proof.
  intros Hc Hh [Hm Ht]. unfold queued_at, points_to_string, owns in *.
  by rewrite Hh, (config_free _ _ Hc).
Qed.

Lemma all_queued_frame m m' q rs :
  all_queued m q rs -> mem_config_eq m m' ->
  (forall a, a ∈ concat (map queued_blocks rs) -> heap m' !! a = heap m !! a) -> all_queued m' q rs.
Proof.
  intros Hq Hc Hh. pose proof Hq as [Hr _ Hm Ht]. constructor; try done.
  - apply (lq_repr_frame m); [done | done |]. intros a n x Ha _. apply Hh.
    rewrite map_queued_nodes in Ha. apply in_map_iff in Ha as (r & <- & Hin%list_elem_of_In).
    apply (node_in_blocks r); [done|]. unfold queued_blocks. rewrite elem_of_cons. auto.
  - apply Forall_forall. intros r Hin. apply (queued_at_kept m m' q rs r); auto.
Qed.

Lemma all_queued_same m m' q rs :
  mem_config_eq m m' -> heap m' = heap m -> all_queued m q rs -> all_queued m' q rs.
Proof.
  intros Hc Hh [Hr Hat Hm Ht]. constructor; auto.
  - apply (lq_repr_frame m); [done | done | by rewrite Hh].
  - eapply Forall_impl; [exact Hat|]. intros r. by apply queued_same.
Qed.

(** ** Writing what is queued *)

Section writing.
Context {E : Type} {P : Platform E}.
Implicit Types w : world E.

(** The environment after a queued message was written: it was passed to the
    socket of its context if that is connected, and otherwise dropped. *)
Definition send_queued (cl : list context_struct) (pad : Z) (r : queued) (e : E) : E :=
  match cl !! Z.to_nat (qm_context r) with
  | Some c =>
      if (qm_context r <? SUBSTANCE_CONNECTOR_CONTEXT_COUNT) &&
         (Z.land (configuration c) SUBSTANCE_CONNECTOR_CONN_MASK =? SUBSTANCE_CONNECTOR_CONN_CONNECTED)
      then snd (send (fd_of c) (message_bytes host_order [pad; pad] (qm_header r) (qm_string r)) e)
      else e
  | None => e
  end.

(** The header tells the length of the text, and the context is not of the
    table or is a TCP context. *)
Definition writable (cl : list context_struct) (r : queued) : Prop :=
  message_length (qm_header r) = Z.of_nat (length (qm_string r)) /\
  (32 <= qm_context r \/
   0 <= qm_context r < 32 /\ exists c, cl !! Z.to_nat (qm_context r) = Some c /\ connection_index c 0 = 1%nat).

Lemma write_message_spec w r :
  mem_wf (mem w) -> mem_serving (mem w) -> length (context_list w) = 32%nat ->
  queued_at (mem w) r -> writable (context_list w) r ->
  exists code m', write_message (qm_message r) w =
      Done code (set_env (send_queued (context_list w) (junk (mem w)) r (env w)) (set_mem m' w)) /\
    heap_without [] (mem w) m' /\ heap m' = heap (mem w).
Proof.
  intros Hwf Hs Hl [Hm Ht] [Hlen Hctx]. unfold write_message.
  rewrite (bind_done _ _ w _ _ (in_mem_done _ _ _ _ (load_message_owns _ _ _ Hwf Hm))), set_mem_id.
  cbn [msg_context]. unfold send_queued, connector_context_write.
  destruct Hctx as [Hbig|(Hr & c & Hc & Hidx)].
  - unfold context_message_op_generic, SUBSTANCE_CONNECTOR_CONTEXT_COUNT.
    rewrite lookup_ge_None_2, (proj2 (Z.ltb_ge (qm_context r) 32)) by lia. cbn [andb].
    exists SUBSTANCE_CONNECTOR_ERROR, (mem w). split; [by destruct w|].
    split; [by apply heap_without_same | done].
  - rewrite Hc. unfold SUBSTANCE_CONNECTOR_CONTEXT_COUNT. rewrite (proj2 (Z.ltb_lt _ _)) by lia. cbn [andb].
    destruct (Z.eqb_spec (Z.land (configuration c) SUBSTANCE_CONNECTOR_CONN_MASK)
                SUBSTANCE_CONNECTOR_CONN_CONNECTED) as [Hconn|Hconn].
    + destruct (send (fd_of c) (message_bytes host_order [junk (mem w); junk (mem w)] (qm_header r) (qm_string r))
                  (env w)) as [res e'] eqn:Hsend.
      destruct (context_write_tcp w (qm_context r) c (qm_message r) (qm_header r) (qm_text r) (qm_string r)
        (qm_context r) res e') as (m' & Hrun & Hwf' & Hc' & Hh'); auto.
      eexists _, m'. split; [exact Hrun|]. split; [by apply heap_without_same | done].
    + unfold context_message_op_generic, SUBSTANCE_CONNECTOR_CONTEXT_COUNT.
      rewrite (proj2 (Z.ltb_lt _ _)), (owns_pos _ _ _ Hwf Hm) by lia. cbn [negb andb].
      rewrite (bind_done _ _ _ _ _ (load_context_some w _ c Hc)), (proj2 (Z.eqb_neq _ _) Hconn).
      exists SUBSTANCE_CONNECTOR_INVALID, (mem w). split; [by destruct w|].
      split; [by apply heap_without_same | done].
Qed.

(** Acquiring from the outbound queue. *)
Lemma acquire_outbound_done w x q' m' :
  dequeue_message (outbound_queue (queues w)) (mem w) = Done (x, q') m' ->
  acquire_outbound w = Done x (set_queues (set_outbound q' (queues w)) (set_mem m' w)).
Proof.
  intros H. unfold acquire_outbound, in_queues.
  rewrite (bind_done (gets queues) _ w (queues w) w) by done.
  rewrite (bind_done _ _ w (x, set_outbound q' (queues w)) (set_mem m' w)); [done|].
  apply (in_mem_done _ w). unfold connector_acquire_outbound_message. by rewrite (bind_done _ _ _ _ _ H).
Qed.

Lemma write_loop_spec rs : forall r w fuel,
  (length rs < fuel)%nat -> mem_wf (mem w) -> mem_serving (mem w) -> length (context_list w) = 32%nat ->
  queued_at (mem w) r -> all_queued (mem w) (outbound_queue (queues w)) rs ->
  qm_message r ∉ map qm_message rs -> qm_text r ∉ map qm_text rs ->
  Forall (writable (context_list w)) (r :: rs) ->
  exists m' q', write_loop fuel (qm_message r) w =
      Done tt (set_queues (set_outbound q' (queues w))
        (set_env (fold_left (fun e r => send_queued (context_list w) (junk (mem w)) r e) (r :: rs) (env w))
           (set_mem m' w))) /\
    heap_without ([qm_message r; qm_text r] ++ concat (map queued_blocks rs)) (mem w) m' /\
    all_queued m' q' [].
Proof.
  induction rs as [|r' rs IH]; intros r w fuel Hf Hwf Hs Hl Hr Hq Hm Ht Hw;
    (destruct fuel as [|fuel]; [cbn in Hf; lia|]); cbn [write_loop];
    apply Forall_cons in Hw as [Hw0 Hw];
    rewrite (owns_pos _ _ _ Hwf (proj1 Hr)).
  - destruct (write_message_spec w r Hwf Hs Hl Hr Hw0) as (code & m1 & Hrun & H1 & Hh1).
    pose proof H1 as [Hwf1 Hc1 _].
    rewrite (bind_done _ _ _ _ _ Hrun). set (w1 := set_env _ _).
    destruct (delete_queued w1 r (outbound_queue (queues w)) [] Hwf1) as (m2 & Hdel & Hrel & Hq2);
      [by apply (queued_same (mem w)) | by apply (all_queued_same (mem w)) | done | done |].
    rewrite (bind_done _ _ _ _ _ Hdel).
    destruct (acquire_none m2 (outbound_queue (queues w))) as (q' & Hacq & Hq'); [by destruct Hrel | done |].
    rewrite (bind_done _ _ _ _ _ (acquire_outbound_done (set_mem m2 w1) 0 q' m2 Hacq)).
    exists m2, q'. split; [destruct fuel; reflexivity|]. split; [|done].
    rewrite app_nil_r. change [qm_message r; qm_text r] with ([] ++ [qm_message r; qm_text r]).
    eapply heap_without_trans; [exact H1 | by apply heap_without_released].
  - destruct (write_message_spec w r Hwf Hs Hl Hr Hw0) as (code & m1 & Hrun & H1 & Hh1).
    pose proof H1 as [Hwf1 Hc1 _].
    rewrite (bind_done _ _ _ _ _ Hrun). set (w1 := set_env _ _).
    destruct (delete_queued w1 r (outbound_queue (queues w)) (r' :: rs) Hwf1) as (m2 & Hdel & Hrel & Hq2);
      [by apply (queued_same (mem w)) | by apply (all_queued_same (mem w)) | done | done |].
    rewrite (bind_done _ _ _ _ _ Hdel). pose proof Hrel as [Hwf2 Hc2 _ _].
    destruct (acquire_queued m2 (outbound_queue (queues w)) r' rs Hwf2 Hq2)
      as (q' & Hacq & Hrel3 & Hq3 & Hr3 & Hm3 & Ht3).
    rewrite (bind_done _ _ _ _ _ (acquire_outbound_done (set_mem m2 w1) _ q' _ Hacq)).
    set (w3 := set_queues _ _).
    assert (Hc3 : mem_config_eq (mem w) (mem w3))
      by (transitivity m1; [done | transitivity m2; [exact Hc2 | by destruct Hrel3]]).
    destruct (IH r' w3 fuel) as (m4 & q4 & Hloop & H4 & Hq4);
      [cbn in Hf; lia | by destruct Hrel3 | by apply (mem_serving_config (mem w)) | done | done | done | done | done | done |].
    exists m4, q4. rewrite Hloop. split; [|split; [|done]].
    + by rewrite (config_junk _ _ Hc3).
    + change (heap_without ([] ++ [qm_message r; qm_text r] ++ [qm_node r'] ++
        ([qm_message r'; qm_text r'] ++ concat (map queued_blocks rs))) (mem w) m4).
      eapply heap_without_trans; [exact H1|]. eapply heap_without_trans; [by apply heap_without_released|].
      eapply heap_without_trans; [by apply heap_without_released | exact H4].
Qed.

(** One round of a write thread over a queue that is not empty. *)
Lemma write_round_spec w r rs fuel :
  mem_wf (mem w) -> mem_serving (mem w) -> length (context_list w) = 32%nat ->
  all_queued (mem w) (outbound_queue (queues w)) (r :: rs) ->
  Forall (writable (context_list w)) (r :: rs) -> (length rs < fuel)%nat ->
  exists m' q', write_round [false] fuel w =
      Done true (set_queues (set_outbound q' (queues w))
        (set_env (fold_left (fun e r => send_queued (context_list w) (junk (mem w)) r e) (r :: rs) (env w))
           (set_mem m' w))) /\
    heap_without (concat (map queued_blocks (r :: rs))) (mem w) m' /\ all_queued m' q' [].
Proof.
  intros Hwf Hs Hl Hq Hw Hfuel. unfold write_round.
  destruct (acquire_queued (mem w) _ r rs Hwf Hq) as (q' & Hacq & Hrel & Hq1 & Hr1 & Hm1 & Ht1).
  set (w1 := set_queues (set_outbound q' (queues w)) (set_mem (free_cell (qm_node r) (mem w)) w)).
  rewrite (bind_done _ _ w (Some (qm_message r)) w1).
  2:{ cbn [write_wait]. rewrite (bind_done _ _ _ _ _ (acquire_outbound_done w _ q' _ Hacq)).
      by rewrite (owns_pos _ _ _ (released_wf _ _ _ Hrel) (proj1 Hr1)). }
  destruct (write_loop_spec rs r w1 fuel) as (m2 & q2 & Hloop & H2 & Hq2); auto.
  { by destruct Hrel. }
  rewrite (bind_done _ _ _ _ _ Hloop). exists m2, q2. split; [done|]. split; [|done].
  change (heap_without ([qm_node r] ++ ([qm_message r; qm_text r] ++ concat (map queued_blocks rs))) (mem w) m2).
  eapply heap_without_trans; [by apply heap_without_released | exact H2].
Qed.

End writing.

(** ** Dispatching what is queued *)

Section dispatching.
Context {E : Type} {P : Platform E}.
Implicit Types w : world E.

(** Releasing blocks that are no trampolines. *)
Lemma trampolines_without w w' ps fs :
  trampolines_repr w fs -> heap_without ps (mem w) (mem w') -> trampoline_front w' = trampoline_front w ->
  (forall p f n, p ∈ ps -> ~ owns (mem w) p (BTramp f n)) -> trampolines_repr w' fs.
Proof.
  intros Htr [Hwf' Hcfg Hh] Hf Hps. apply (trampolines_frame w w'); try done. intros a f n Ha.
  rewrite Hh. case_decide as Hin; [|done]. by destruct (Hps a f n Hin).
Qed.

(** The trampolines [recording_bindings] see the text itself. *)
Definition deliveries (fs : list Z) (r : queued) : list event :=
  map (fun f => TrampolineCall f (qm_context r) (message_id (qm_header r)) (Some (qm_string r))) fs.

Lemma call_all_records fs context type text s w :
  read_cstr text (mem w) = Done s (mem w) -> text <> 0 ->
  call_all (H := recording_bindings E) fs context type text w =
    Done tt (set_trace (trace w ++ map (fun f => TrampolineCall f context type (Some s)) fs) w).
Proof.
  revert w. induction fs as [|f fs IH]; intros w Hr Ht.
  - cbn. rewrite app_nil_r. by destruct w.
  - cbn [call_all]. rewrite (bind_done _ _ w tt (set_trace (trace w ++ [TrampolineCall f context type (Some s)]) w)).
    2:{ unfold trampoline_body, recording_bindings. rewrite (proj2 (Z.eqb_neq text 0)) by done.
        rewrite (bind_done _ _ _ _ _ (in_mem_done _ w _ _ Hr)), set_mem_id. done. }
    rewrite IH by done. cbn. by rewrite <- app_assoc.
Qed.

Lemma dispatch_message_user w r fs :
  trampolines_repr w fs -> queued_at (mem w) r -> cstring (qm_string r) ->
  CONNECTOR_IDENTIFY_INTERNAL (description (qm_header r)) = false ->
  dispatch_message (B := recording_bindings E) (qm_message r) w =
    Done tt (set_trace (trace w ++ deliveries fs r) w).
Proof.
  intros Htr [Hm Ht] Hcs Hu. pose proof Htr as [Hwf Hs _]. unfold dispatch_message.
  rewrite (bind_done _ _ w _ _ (in_mem_done _ _ _ _ (load_message_owns _ _ _ Hwf Hm))), set_mem_id.
  rewrite (bind_done (message_header_of _) _ w (qm_header r) w) by done. rewrite Hu.
  cbn [msg_context msg_text].
  pose proof (read_cstr_string (mem w) (qm_text r) (qm_string r) Hwf Hcs Ht) as Hread.
  pose proof (owns_pos _ _ _ Hwf Ht) as Hne. apply Z.eqb_neq in Hne.
  destruct (notify_quiet (H := recording_bindings E) fs (qm_context r) (message_id (qm_header r)) (qm_text r) w Htr)
    as (w' & Hrun & Hcall & _); [right; eauto|].
  rewrite (call_all_records _ _ _ _ (qm_string r)) in Hcall by done. injection Hcall as <-.
  by rewrite (bind_done _ _ _ _ _ Hrun).
Qed.

(** Acquiring from the inbound queue. *)
Lemma acquire_inbound_done w x q' m' :
  dequeue_message (inbound_queue (queues w)) (mem w) = Done (x, q') m' ->
  acquire_inbound w = Done x (set_queues (set_inbound q' (queues w)) (set_mem m' w)).
Proof.
  intros H. unfold acquire_inbound, in_queues.
  rewrite (bind_done (gets queues) _ w (queues w) w) by done.
  rewrite (bind_done _ _ w (x, set_inbound q' (queues w)) (set_mem m' w)); [done|].
  apply (in_mem_done _ w). unfold connector_acquire_inbound_message. by rewrite (bind_done _ _ _ _ _ H).
Qed.

Definition user_message (r : queued) : Prop :=
  cstring (qm_string r) /\ CONNECTOR_IDENTIFY_INTERNAL (description (qm_header r)) = false.

(** Neither blocks of messages nor nodes are trampolines. *)
Lemma message_not_trampoline m r p f n :
  queued_at m r -> p ∈ [qm_message r; qm_text r] -> ~ owns m p (BTramp f n).
Proof.
  intros [Hm Ht] Hp Ho. rewrite elem_of_cons, list_elem_of_singleton in Hp.
  unfold points_to_string, owns in *. destruct Hp; subst; congruence.
Qed.

Lemma dispatch_loop_spec rs : forall r w codes fs,
  (length rs < length codes)%nat -> Forall (fun b => b = false) codes ->
  trampolines_repr w fs -> queued_at (mem w) r -> all_queued (mem w) (inbound_queue (queues w)) rs ->
  qm_message r ∉ map qm_message rs -> qm_text r ∉ map qm_text rs -> Forall user_message (r :: rs) ->
  exists m' q', dispatch_loop (B := recording_bindings E) codes (qm_message r) w =
      Done 0 (set_queues (set_inbound q' (queues w))
        (set_trace (trace w ++ concat (map (deliveries fs) (r :: rs))) (set_mem m' w))) /\
    heap_without ([qm_message r; qm_text r] ++ concat (map queued_blocks rs)) (mem w) m' /\
    all_queued m' q' [].
Proof.
  induction rs as [|r' rs IH]; intros r w codes fs Hf Hcodes Htr Hr Hq Hm Ht Hu;
    (destruct codes as [|b codes]; [cbn in Hf; lia|]); apply Forall_cons in Hcodes as [-> Hcodes];
    cbn [dispatch_loop]; apply Forall_cons in Hu as [[Hu1 Hu2] Hu]; pose proof Htr as [Hwf Hs _];
    rewrite (owns_pos _ _ _ Hwf (proj1 Hr)), (bind_done _ _ _ _ _ (dispatch_message_user w r fs Htr Hr Hu1 Hu2));
    set (w1 := set_trace _ w).
  - destruct (delete_queued w1 r (inbound_queue (queues w)) [] Hwf Hr Hq Hm Ht) as (m2 & Hdel & Hrel & Hq2).
    rewrite (bind_done _ _ _ _ _ Hdel).
    destruct (acquire_none m2 (inbound_queue (queues w))) as (q' & Hacq & Hq'); [by destruct Hrel | done |].
    rewrite (bind_done _ _ _ _ _ (acquire_inbound_done (set_mem m2 w1) 0 q' m2 Hacq)).
    exists m2, q'. split; [cbn [map concat]; rewrite app_nil_r; by destruct codes|]. split; [|done].
    rewrite app_nil_r. by apply heap_without_released.
  - destruct (delete_queued w1 r (inbound_queue (queues w)) (r' :: rs) Hwf Hr Hq Hm Ht) as (m2 & Hdel & Hrel & Hq2).
    rewrite (bind_done _ _ _ _ _ Hdel). pose proof Hrel as [Hwf2 Hc2 _ _].
    destruct (acquire_queued m2 (inbound_queue (queues w)) r' rs Hwf2 Hq2)
      as (q' & Hacq & Hrel3 & Hq3 & Hr3 & Hm3 & Ht3).
    rewrite (bind_done _ _ _ _ _ (acquire_inbound_done (set_mem m2 w1) _ q' _ Hacq)).
    set (w3 := set_queues _ _).
    assert (Htr2 : trampolines_repr (set_mem m2 w1) fs).
    { apply (trampolines_without w _ [qm_message r; qm_text r]); [done | by apply heap_without_released | done |].
      intros p f n Hp. by eapply message_not_trampoline. }
    assert (Htr3 : trampolines_repr w3 fs).
    { apply (trampolines_without (set_mem m2 w1) _ [qm_node r']); [done | by apply heap_without_released | done |].
      intros p f n Hp Ho. apply list_elem_of_singleton in Hp. subst p.
      destruct (aq_repr _ _ _ Hq2) as [_ (_ & next & Hn & _) _ _]. unfold owns in *. cbn in *. congruence. }
    destruct (IH r' w3 codes fs) as (m4 & q4 & Hloop & H4 & Hq4); try done; [cbn in Hf; lia|].
    exists m4, q4. rewrite Hloop. split; [|split; [|done]].
    + cbn [map concat]. unfold w3. cbn [trace set_queues set_mem w1 set_trace]. by rewrite <- app_assoc.
    + change (heap_without ([qm_message r; qm_text r] ++ [qm_node r'] ++
        ([qm_message r'; qm_text r'] ++ concat (map queued_blocks rs))) (mem w) m4).
      eapply heap_without_trans; [by apply heap_without_released|].
      eapply heap_without_trans; [by apply heap_without_released | exact H4].
Qed.

(** One round of a dispatch thread over a queue that is not empty. *)
Lemma dispatch_round_spec w r rs fs signal_main codes :
  all_queued (mem w) (inbound_queue (queues w)) (r :: rs) -> trampolines_repr w fs ->
  Forall user_message (r :: rs) -> Forall (fun b => b = false) codes -> (length rs < length codes)%nat ->
  exists m' q', dispatch_round (B := recording_bindings E) signal_main [] codes w =
      Done true (set_queues (set_inbound q' (queues w))
        (set_trace (trace w ++ concat (map (deliveries fs) (r :: rs)) ++
                    (if signal_main then [BroadcastDispatchMain] else [])) (set_mem m' w))) /\
    heap_without (concat (map queued_blocks (r :: rs))) (mem w) m' /\ all_queued m' q' [].
Proof.
  intros Hq Htr Hu Hcodes Hlen. pose proof Htr as [Hwf Hs _]. unfold dispatch_round.
  destruct (acquire_queued (mem w) _ r rs Hwf Hq) as (q' & Hacq & Hrel & Hq1 & Hr1 & Hm1 & Ht1).
  rewrite (bind_done _ _ _ _ _ (acquire_inbound_done w _ q' _ Hacq)). set (w1 := set_queues _ _).
  assert (Htr1 : trampolines_repr w1 fs).
  { apply (trampolines_without w _ [qm_node r]); [done | by apply heap_without_released | done |].
    intros p f n Hp Ho. apply list_elem_of_singleton in Hp. subst p.
    destruct (aq_repr _ _ _ Hq) as [_ (_ & next & Hn & _) _ _]. unfold owns in *. cbn in *. congruence. }
  rewrite (bind_done _ _ w1 (Some (qm_message r)) w1).
  2:{ cbn [dispatch_wait]. by rewrite (owns_pos _ _ _ (released_wf _ _ _ Hrel) (proj1 Hr1)). }
  destruct (dispatch_loop_spec rs r w1 codes fs Hlen Hcodes Htr1 Hr1 Hq1 Hm1 Ht1 Hu) as (m2 & q2 & Hloop & H2 & Hq2).
  rewrite (bind_done _ _ _ _ _ Hloop). exists m2, q2. split; [|split].
  - unfold dispatch_signal_main_condition. destruct signal_main; cbn; rewrite ?app_nil_r; [|done].
    unfold emit, bind, modify. cbn. by rewrite <- !app_assoc.
  - change (heap_without ([qm_node r] ++ ([qm_message r; qm_text r] ++ concat (map queued_blocks rs))) (mem w) m2).
    eapply heap_without_trans; [by apply heap_without_released | exact H2].
  - done.
Qed.

End dispatching.

(** ** The handshake of a peer *)

Section handshakes.
Context {E : Type} {P : Platform E} {B : Bindings E}.
Implicit Types w : world E.

Lemma free_name_released m p s :
  mem_wf m -> slot_string m p s -> exists m', connector_free p m = Done tt m' /\ released [p] m m'.
Proof.
  intros Hwf Hp. destruct s as [s|]; cbn in Hp.
  - destruct Hp as [_ Hp]. exists (free_cell p m). split; [by eapply connector_free_owns|].
    by apply released_free_cell.
  - subst p. exists m. split; [done|]. constructor; try done. intros a.
    case_decide as Ha; [|done]. apply list_elem_of_singleton in Ha. subst a.
    destruct (heap m !! 0) eqn:E0; [|done]. by destruct (mem_wf_pos m 0 Hwf); [eexists|].
Qed.

(** Setting the name of a context releases the old name and copies the new. *)
Lemma set_context_name_spec w i c old q s :
  mem_wf (mem w) -> mem_serving (mem w) -> 0 <= i < 32 -> context_list w !! Z.to_nat i = Some c ->
  slot_string (mem w) (cx_application_name c) old -> cstring s -> points_to_string (mem w) q s ->
  cx_application_name c <> q ->
  exists m', connector_context_set_application_name i q w = Done SUBSTANCE_CONNECTOR_SUCCESS
      (set_context_list (<[Z.to_nat i := set_context_name (next_addr (mem w)) c]> (context_list w)) (set_mem m' w)) /\
    mem_wf m' /\ mem_config_eq (mem w) m' /\ points_to_string m' (next_addr (mem w)) s /\
    forall a, a <> next_addr (mem w) ->
      heap m' !! a = if decide (a = cx_application_name c) then None else heap (mem w) !! a.
Proof.
  intros Hwf Hs Hi Hc Hold Hcs Hq Hne.
  unfold connector_context_set_application_name, SUBSTANCE_CONNECTOR_CONTEXT_COUNT.
  rewrite (proj2 (Z.ltb_lt i 32)), (owns_pos _ _ _ Hwf Hq) by lia. cbn [negb andb].
  rewrite (bind_done _ _ _ _ _ (load_context_some w _ c Hc)).
  destruct (free_name_released (mem w) (cx_application_name c) old Hwf Hold) as (m1 & Hf & Hrel).
  pose proof Hrel as [Hwf1 Hc1 Hn1 _].
  rewrite (bind_done _ _ _ _ _ (in_mem_done _ w _ _ Hf)).
  assert (Hs1 : mem_serving m1) by (by apply (mem_serving_config (mem w))).
  assert (Hq1 : points_to_string m1 q s)
    by (apply (released_owns _ _ _ _ _ Hrel); [by rewrite list_elem_of_singleton | done]).
  rewrite (bind_done _ _ _ _ _ (in_mem_done _ (set_mem m1 w) _ _ (connector_strdup_string m1 q s Hwf1 Hs1 Hcs Hq1))).
  set (m2 := alloc_with (BStr (s ++ [0])) m1). set (w2 := set_mem m2 _).
  rewrite (bind_done _ _ _ _ _ (update_context_some w2 _ c _ Hc)).
  exists m2. rewrite <- Hn1. split; [done|]. split; [by apply alloc_with_wf|].
  split; [transitivity m1; [exact Hc1 | apply alloc_with_config]|].
  split; [by apply alloc_with_owns|]. intros a Ha. cbn.
  rewrite lookup_insert_ne, (released_heap _ _ _ Hrel) by congruence.
  pose proof (list_elem_of_singleton a (cx_application_name c)). by repeat case_decide; intuition.
Qed.

Definition reply_header (name : list Z) : message_header :=
  Header (Z.lor CONNECTOR_HEADER_R1 CONNECTOR_MESSAGE_IDENTIFIER) (Z.of_nat (length name))
    connector_internal_handshake_uuid.

Lemma enqueue_outbound_done w q' x m' :
  enqueue_message (outbound_queue (queues w)) x (mem w) = Done q' m' ->
  connector_enqueue_outbound x w = Done tt (set_queues (set_outbound q' (queues w)) (set_mem m' w)).
Proof.
  intros H. unfold connector_enqueue_outbound, in_queues.
  rewrite (bind_done (gets queues) _ w (queues w) w) by done.
  rewrite (bind_done _ _ w (tt, set_outbound q' (queues w)) (set_mem m' w)); [done|].
  apply (in_mem_done _ w). unfold connector_enqueue_outbound_message.
  rewrite (bind_done _ _ (mem w) (set_outbound q' (queues w)) m'); [done|].
  by rewrite (bind_done _ _ _ _ _ H).
Qed.

(** The memory after the two messages were built: [p1] is the answer, [p2] the
    copy of what came in. *)
Lemma handshake_messages m i a name q s :
  mem_wf m -> mem_serving m -> cstring name -> points_to_string m a name -> Z.of_nat (length name) < 2 ^ 32 ->
  cstring s -> points_to_string m q s -> Z.of_nat (length s) < 2 ^ 32 ->
  exists p1 p2 m1 m2,
    connector_build_message i (Some connector_internal_handshake_uuid) a m = Done p1 m1 /\
    connector_build_message i (Some connector_internal_handshake_uuid) q m1 = Done p2 m2 /\
    mem_wf m2 /\ mem_config_eq m m2 /\
    owns m2 p1 (BMsg (Message (Some (reply_header name)) (p1 + 1) i)) /\ points_to_string m2 (p1 + 1) name /\
    owns m2 p2 (BMsg (Message (Some (reply_header s)) (p2 + 1) i)) /\ points_to_string m2 (p2 + 1) s /\
    NoDup [p1; p1 + 1; p2; p2 + 1] /\ (forall x, x ∈ [p1; p1 + 1; p2; p2 + 1] -> heap m !! x = None) /\
    (forall x, x ∉ [p1; p1 + 1; p2; p2 + 1] -> heap m2 !! x = heap m !! x).
Proof.
  intros Hwf Hs Hcn Ha Hln Hcs Hq Hls.
  destruct (build_message_blocks m i connector_internal_handshake_uuid a name Hwf Hs Hcn Ha Hln)
    as (m1 & H1 & Hwf1 & Hc1 & Ho1 & Ht1 & Hh1).
  set (p1 := next_addr m) in *.
  assert (Hq1 : points_to_string m1 q s).
  { unfold points_to_string, owns in *. rewrite (config_free _ _ Hc1).
    assert (q < p1) by (apply Hwf; by eexists). rewrite Hh1 by lia. done. }
  destruct (build_message_blocks m1 i connector_internal_handshake_uuid q s Hwf1) as (m2 & H2 & Hwf2 & Hc2 & Ho2 & Ht2 & Hh2);
    [by apply (mem_serving_config m) | done | done | done |].
  set (p2 := next_addr m1) in *. exists p1, p2, m1, m2.
  assert (p1 < p2 /\ p1 + 1 < p2) by (split; apply Hwf1; eexists; [exact Ho1 | exact Ht1]).
  split; [done|]. split; [done|]. split; [done|]. split; [by transitivity m1|].
  assert (Hkeep : forall x b, owns m1 x b -> x < p2 -> owns m2 x b).
  { intros x b Hx Hlt. unfold owns in *. rewrite (config_free _ _ Hc2), Hh2 by lia. done. }
  split; [apply Hkeep; [exact Ho1 | lia]|]. split; [apply Hkeep; [exact Ht1 | lia]|].
  split; [done|]. split; [done|]. split; [|split].
  - repeat (constructor; [rewrite ?elem_of_cons, ?elem_of_nil; lia|]). constructor.
  - intros x Hx. rewrite !elem_of_cons, elem_of_nil in Hx. apply (mem_wf_beyond m x Hwf). fold p1. lia.
  - intros x Hx. rewrite !elem_of_cons in Hx. rewrite Hh2, Hh1 by intuition. done.
Qed.

(** Registering the name of the peer and releasing the copy of its message. *)
Lemma record_peer w i c old q s p h b :
  mem_wf (mem w) -> mem_serving (mem w) -> 0 <= i < 32 -> context_list w !! Z.to_nat i = Some c ->
  slot_string (mem w) (cx_application_name c) old -> cstring s -> points_to_string (mem w) q s ->
  cx_application_name c <> q -> owns (mem w) p (BMsg (Message h (p + 1) i)) -> owns (mem w) (p + 1) b ->
  cx_application_name c <> p -> cx_application_name c <> p + 1 ->
  exists m' new, (connector_context_set_application_name i q ;;;
      in_mem (connector_clear_message p) ;;; in_mem (connector_free p)) w =
      Done tt (set_mem m' (set_context_list (<[Z.to_nat i := set_context_name new c]> (context_list w)) w)) /\
    mem_wf m' /\ mem_config_eq (mem w) m' /\ points_to_string m' new s /\ heap (mem w) !! new = None /\
    forall a, a <> new ->
      heap m' !! a = if decide (a ∈ [cx_application_name c; p; p + 1]) then None else heap (mem w) !! a.
Proof.
  intros Hwf Hs Hi Hc Hold Hcs Hq Hne Hp Ht Hcp Hct.
  destruct (set_context_name_spec w i c old q s) as (m1 & Hset & Hwf1 & Hc1 & Hnew & Hh1); auto.
  rewrite (bind_done _ _ _ _ _ Hset). set (w1 := set_context_list _ _).
  pose proof (mem_wf_fresh _ Hwf) as Hfresh.
  assert (Hkeep : forall a b, owns (mem w) a b -> a <> cx_application_name c -> owns m1 a b).
  { intros a b' Ha Han. unfold owns in *. rewrite (config_free _ _ Hc1), Hh1; [by case_decide | by intros ->; rewrite Ha in Hfresh]. }
  destruct (discard_message m1 p h (p + 1) i b Hwf1) as (m2 & m3 & E1 & E2 & Hrel); [by apply Hkeep | by apply Hkeep | lia |].
  rewrite (bind_done _ _ _ _ _ (in_mem_done _ w1 _ _ E1)), (in_mem_done _ (set_mem m2 w1) _ _ E2).
  pose proof Hrel as [Hwf3 Hc3 _ Hh3].
  exists m3, (next_addr (mem w)). split; [done|]. split; [done|]. split; [by transitivity m1|].
  split; [|split; [done|]].
  - apply (released_owns _ _ _ _ _ Hrel); [|done]. rewrite elem_of_cons, list_elem_of_singleton.
    intros [Heq|Heq]; rewrite Heq in Hfresh; unfold owns in *; congruence.
  - intros a Ha. rewrite Hh3, Hh1 by done. pose proof (elem_of_cons [p; p + 1] a (cx_application_name c)).
    repeat case_decide; intuition.
Qed.

(** What is not a node of a queue is none of its nodes. *)
Lemma not_a_node m q ns a b : lq_repr m q ns -> owns m a b -> (forall n x, b <> BNode n x) -> ~ In a (map fst ns).
Proof.
  intros Hq Ha Hb Hin. apply in_map_iff in Hin as ([a' x] & Heq & Hin). cbn in Heq. subst a'.
  destruct (chain_owned _ _ _ _ _ (lq_chain _ _ _ Hq) Hin) as [n Hn]. unfold owns in *. apply (Hb n x). congruence.
Qed.

Lemma node_live m q ns a : lq_repr m q ns -> In a (map fst ns) -> heap m !! a <> None.
Proof.
  intros Hq Hin. apply in_map_iff in Hin as ([a' x] & <- & Hin).
  destruct (chain_owned _ _ _ _ _ (lq_chain _ _ _ Hq) Hin) as [n Hn]. unfold owns in Hn. cbn. by rewrite Hn.
Qed.

Lemma slot_not_node m p old q ns :
  mem_wf m -> slot_string m p old -> lq_repr m q ns -> ~ In p (map fst ns).
Proof.
  intros Hwf Hp Hq Hin. destruct old as [o|]; cbn in Hp.
  - destruct Hp as [_ Hp]. by apply (not_a_node m q ns p _ Hq Hp).
  - subst p. apply (node_live m q ns 0 Hq) in Hin. destruct (heap m !! 0) eqn:E0; [|done]. by destruct (mem_wf_pos m 0 Hwf).
Qed.

(** The blocks the callback leaves behind: the answer [p1] and the copy [p2] of
    the message are built in [m2], the answer is queued in [m3], and in [m4] the
    name [old] is replaced by [new] and the copy released. *)
Section frame.
Variables (m m2 m3 m4 : memory) (q q' : locked_queue) (ns : list (Z * Z)) (node p1 p2 new old : Z).
Hypotheses (Hc2 : mem_config_eq m m2) (Hc3 : mem_config_eq m2 m3) (Hc4 : mem_config_eq m3 m4) (Hq : lq_repr m q ns).
Hypothesis Hf2 : forall x, x ∈ [p1; p1 + 1; p2; p2 + 1] -> heap m !! x = None.
Hypothesis Hh2 : forall x, x ∉ [p1; p1 + 1; p2; p2 + 1] -> heap m2 !! x = heap m !! x.
Hypotheses (Hnd : NoDup [p1; p1 + 1; p2; p2 + 1]) (Hlq3 : lq_repr m3 q' (ns ++ [(node, p1)])).
Hypotheses (Hnode : heap m2 !! node = None) (Hnew : heap m3 !! new = None).
Hypothesis Hh3 : forall a, a <> node -> ~ In a (map fst ns) -> heap m3 !! a = heap m2 !! a.
Hypothesis Hlive2 : forall a, a ∈ [p1; p1 + 1; p2; p2 + 1] -> heap m2 !! a <> None.
Hypotheses (Hold : old ∉ [p1; p1 + 1; p2; p2 + 1]) (Holdn : ~ In old (map fst (ns ++ [(node, p1)]))).
Hypothesis Hh4 : forall a, a <> new -> heap m4 !! a = if decide (a ∈ [old; p2; p2 + 1]) then None else heap m3 !! a.

Lemma built_members a : a ∈ [p1; p1 + 1; p2; p2 + 1] <-> a = p1 \/ a = p1 + 1 \/ a = p2 \/ a = p2 + 1.
Proof. rewrite !elem_of_cons, elem_of_nil. intuition. Qed.
Lemma gone_members a : a ∈ [old; p2; p2 + 1] <-> a = old \/ a = p2 \/ a = p2 + 1.
Proof. rewrite !elem_of_cons, elem_of_nil. intuition. Qed.
Lemma left_members a : a ∈ [node; p1; p1 + 1; new] <-> a = node \/ a = p1 \/ a = p1 + 1 \/ a = new.
Proof. rewrite !elem_of_cons, elem_of_nil. intuition. Qed.

Lemma built_kept a : a ∈ [p1; p1 + 1; p2; p2 + 1] ->
  a <> node /\ ~ In a (map fst ns) /\ heap m3 !! a = heap m2 !! a /\ a <> new.
Proof.
  intros Ha. assert (Han : a <> node) by (intros ->; by apply (Hlive2 node)).
  assert (Hai : ~ In a (map fst ns)) by (intros Hin; by apply (node_live m q ns a Hq Hin), Hf2).
  assert (Heq : heap m3 !! a = heap m2 !! a) by auto. repeat (split; [done|]).
  intros ->. apply (Hlive2 new Ha). by rewrite <- Heq.
Qed.

Lemma new_not_node : ~ In new (map fst (ns ++ [(node, p1)])).
Proof. intros Hin. by apply (node_live _ _ _ _ Hlq3 Hin). Qed.

Lemma answer_kept a b : a = p1 \/ a = p1 + 1 -> owns m2 a b -> owns m4 a b.
Proof.
  intros Ha Hb. destruct (built_kept a) as (_ & _ & Heq & Han); [rewrite built_members; intuition|].
  pose proof Hnd as Hnd'. rewrite !NoDup_cons, !elem_of_cons, elem_of_nil in Hnd'. pose proof Hold as Hold'. rewrite built_members in Hold'.
  unfold owns in *. rewrite (config_free _ _ Hc4), (config_free _ _ Hc3), Hh4 by done.
  rewrite decide_False, Heq by (rewrite gone_members; intuition congruence). done.
Qed.

Lemma answer_queued : lq_repr m4 q' (ns ++ [(node, p1)]).
Proof.
  apply (lq_repr_frame m3); [done | done |]. intros a n x Ha _. rewrite Hh4 by (intros ->; by apply new_not_node).
  rewrite decide_False; [done|]. rewrite gone_members.
  assert (Hb : forall b, b ∈ [p1; p1 + 1; p2; p2 + 1] -> a <> b).
  { intros b Hb ->. destruct (built_kept b Hb) as (Hb1 & Hb2 & _). rewrite map_app, in_app_iff in Ha. cbn in Ha. intuition. }
  intros [-> | [-> | ->]]; [done | |]; eapply Hb; try reflexivity; rewrite built_members; auto.
Qed.

Lemma left_distinct : NoDup [node; p1; p1 + 1; new].
Proof.
  pose proof new_not_node as Hnn. rewrite map_app, in_app_iff in Hnn. cbn in Hnn.
  rewrite !NoDup_cons, !elem_of_cons, !elem_of_nil. destruct (built_kept p1) as (? & _ & _ & ?); [rewrite built_members; auto|].
  destruct (built_kept (p1 + 1)) as (? & _ & _ & ?); [rewrite built_members; auto|].
  repeat split; [intuition | intuition lia | intuition | intuition | apply NoDup_nil_2].
Qed.

Lemma left_fresh a : a ∈ [node; p1; p1 + 1; new] -> heap m !! a = None.
Proof.
  intros Ha%left_members. destruct (decide (a ∈ [p1; p1 + 1; p2; p2 + 1])) as [Hin|Hin]; [by apply Hf2|].
  destruct Ha as [-> | [-> | [-> | ->]]]; [by rewrite <- Hh2 | destruct Hin; rewrite built_members; auto .. |].
  pose proof new_not_node as Hnn. rewrite map_app, in_app_iff in Hnn. cbn in Hnn.
  rewrite <- Hh2, <- Hh3; intuition.
Qed.

Lemma left_frame a : a ∉ [node; p1; p1 + 1; new] -> a ∉ map fst ns ->
  heap m4 !! a = if decide (a = old) then None else heap m !! a.
Proof.
  intros Ha Hi. rewrite left_members in Ha. rewrite list_elem_of_In in Hi. rewrite Hh4 by intuition.
  destruct (decide (a = old)) as [->|Hao]; [rewrite decide_True by (rewrite gone_members; auto); done|].
  destruct (decide (a ∈ [old; p2; p2 + 1])) as [Hd|Hd]; rewrite gone_members in Hd.
  - rewrite Hf2; [done|]. rewrite built_members. intuition.
  - rewrite Hh3, Hh2; [done | rewrite built_members; intuition | intuition | done].
Qed.

Lemma handshake_frame b1 b2 : owns m2 p1 b1 -> owns m2 (p1 + 1) b2 ->
  mem_config_eq m m4 /\ lq_repr m4 q' (ns ++ [(node, p1)]) /\ owns m4 p1 b1 /\ owns m4 (p1 + 1) b2 /\
  NoDup [node; p1; p1 + 1; new] /\ (forall a, a ∈ [node; p1; p1 + 1; new] -> heap m !! a = None) /\
  (forall a, a ∉ [node; p1; p1 + 1; new] -> a ∉ map fst ns ->
     heap m4 !! a = if decide (a = old) then None else heap m !! a).
Proof.
  intros Ho1 Ho2. split; [transitivity m2; [done | by transitivity m3]|]. split; [apply answer_queued|].
  split; [apply answer_kept; auto|]. split; [apply answer_kept; auto|]. split; [apply left_distinct|].
  split; [apply left_fresh | apply left_frame].
Qed.

End frame.

(** A name that was there before is none of the blocks that were built. *)
Lemma name_not_built m m2 (ps : list Z) p old :
  mem_wf m2 -> mem_config_eq m m2 -> (forall x, x ∈ ps -> heap m !! x = None) ->
  (forall x, x ∉ ps -> heap m2 !! x = heap m !! x) -> (forall x, x ∈ ps -> heap m2 !! x <> None) ->
  slot_string m p old -> slot_string m2 p old /\ p ∉ ps.
Proof.
  intros Hwf Hc Hf Hh Hl Hp. destruct old as [o|]; cbn in Hp |- *.
  - destruct Hp as [Hs Hp]. unfold points_to_string, owns in *.
    assert (Hps : p ∉ ps) by (intros Hin; by rewrite Hf in Hp). by rewrite Hh, (config_free _ _ Hc).
  - subst p. split; [done|]. intros Hin. apply (Hl 0 Hin). destruct (heap m2 !! 0) eqn:E0; [|done]. by destruct (mem_wf_pos m2 0 Hwf).
Qed.

Lemma handshake_callback_spec w i c old name q s ns :
  mem_wf (mem w) -> mem_serving (mem w) -> 0 <= i < 32 -> context_list w !! Z.to_nat i = Some c ->
  slot_string (mem w) (cx_application_name c) old -> cstring name ->
  points_to_string (mem w) (application_name w) name -> Z.of_nat (length name) < 2 ^ 32 ->
  cstring s -> points_to_string (mem w) q s -> Z.of_nat (length s) < 2 ^ 32 ->
  cx_application_name c <> q -> lq_repr (mem w) (outbound_queue (queues w)) ns ->
  exists p node m' q' new, internal_handshake_callback i connector_internal_handshake_uuid q w =
      Done tt (set_mem m' (set_context_list (<[Z.to_nat i := set_context_name new c]> (context_list w))
        (set_trace (trace w ++ [SignalOutbound]) (set_queues (set_outbound q' (queues w)) w)))) /\
    mem_wf m' /\ mem_config_eq (mem w) m' /\ lq_repr m' q' (ns ++ [(node, p)]) /\
    owns m' p (BMsg (Message (Some (reply_header name)) (p + 1) i)) /\ points_to_string m' (p + 1) name /\
    points_to_string m' new s /\ NoDup [node; p; p + 1; new] /\
    (forall a, a ∈ [node; p; p + 1; new] -> heap (mem w) !! a = None) /\
    (forall a, a ∉ [node; p; p + 1; new] -> a ∉ map fst ns ->
       heap m' !! a = if decide (a = cx_application_name c) then None else heap (mem w) !! a).
Proof.
  intros Hwf Hs Hi Hc Hold Hcn Ha Hln Hcs Hq Hls Hne Hlq. unfold internal_handshake_callback.
  destruct (handshake_messages (mem w) i (application_name w) name q s)
    as (p1 & p2 & m1 & m2 & H1 & H2 & Hwf2 & Hc2 & Ho1 & Ht1 & Ho2 & Ht2 & Hnd & Hf2 & Hh2); auto.
  assert (Hcons : forall a, a ∈ [p1; p1 + 1; p2; p2 + 1] <-> a = p1 \/ a = p1 + 1 \/ a = p2 \/ a = p2 + 1)
    by (intros a; rewrite !elem_of_cons, elem_of_nil; intuition).
  assert (Hlive : forall a b, owns (mem w) a b -> owns m2 a b /\ a ∉ [p1; p1 + 1; p2; p2 + 1]).
  { intros a b Hab. assert (Hout : a ∉ [p1; p1 + 1; p2; p2 + 1]) by (intros Hin; unfold owns in Hab; by rewrite Hf2 in Hab).
    split; [|done]. unfold owns in *. by rewrite (config_free _ _ Hc2), Hh2. }
  rewrite (bind_done _ _ w (application_name w) w) by done.
  rewrite (bind_done _ _ _ _ _ (in_mem_done _ w _ _ H1)).
  rewrite (bind_done _ _ _ _ _ (in_mem_done _ (set_mem m1 w) _ _ H2)).
  rewrite (owns_pos _ _ _ Hwf2 Ho1), (owns_pos _ _ _ Hwf2 Ho2). cbn [negb when].
  assert (Hlq2 : lq_repr m2 (outbound_queue (queues w)) ns).
  { apply (lq_repr_frame (mem w)); [done | done |]. intros x n y _ Hx. by apply Hh2, (Hlive x (BNode n y)). }
  assert (Hs2 : mem_serving m2) by (by apply (mem_serving_config (mem w))).
  destruct (enqueue_message_spec m2 (outbound_queue (queues w)) ns p1 Hwf2 Hs2 Hlq2)
    as (q' & m3 & node & He & Hlq3 & _ & Hwf3 & Hc3 & Hnode & Hh3).
  assert (Hkeep3 : forall a b, owns m2 a b -> (forall n x, b <> BNode n x) -> owns m3 a b).
  { intros a b Hab Hb. pose proof (not_a_node _ _ _ _ _ Hlq2 Hab Hb) as Hin. unfold owns in *.
    rewrite (config_free _ _ Hc3), Hh3; [done | congruence | done]. }
  pose proof (enqueue_outbound_done (set_mem m2 (set_mem m1 w)) q' p1 m3 He) as Henq.
  set (w2 := set_mem m2 (set_mem m1 w)) in *.
  set (w3 := set_trace (trace w ++ [SignalOutbound]) (set_queues (set_outbound q' (queues w)) (set_mem m3 w2))).
  rewrite (bind_done (connector_enqueue_outbound p1 ;;; connector_flag_write ;;; ret tt) _ w2 tt w3)
    by (by rewrite (bind_done _ _ _ _ _ Henq)).
  assert (Hlive2 : forall a, a ∈ [p1; p1 + 1; p2; p2 + 1] -> heap m2 !! a <> None).
  { intros a Hin. rewrite Hcons in Hin. unfold points_to_string, owns in *. destruct Hin as [-> | [-> | [-> | ->]]]; congruence. }
  destruct (name_not_built _ m2 _ _ old Hwf2 Hc2 Hf2 Hh2 Hlive2 Hold) as [Hold2 Hnot]. rewrite Hcons in Hnot.
  assert (Hold3 : slot_string m3 (cx_application_name c) old)
    by (destruct old as [o|]; [destruct Hold2; split; [done | by apply Hkeep3] | done]).
  destruct (record_peer w3 i c old q s p2 (Some (reply_header s)) (BStr (s ++ [0])))
    as (m4 & new & Hrun & Hwf4 & Hc4 & Hnew & Hnewf & Hh4); auto;
    [by apply (mem_serving_config m2) | by apply Hkeep3; [apply Hlive|] | intuition | intuition |].
  exists p1, node, m4, q', new. split; [exact Hrun|].
  destruct (handshake_frame (mem w) m2 m3 m4 (outbound_queue (queues w)) q' ns node p1 p2 new (cx_application_name c)
    Hc2 Hc3 Hc4 Hlq Hf2 Hh2 Hnd Hlq3 Hnode Hnewf Hh3) with (b1 := BMsg (Message (Some (reply_header name)) (p1 + 1) i))
    (b2 := BStr (name ++ [0])) as (? & ? & ? & ? & ? & ? & ?); auto.
  - by rewrite Hcons.
  - by apply (slot_not_node m3 _ old q').
  - do 8 (split; [done|]); done.
Qed.

(** Only the handshake is in the table. *)
Lemma internal_refused w i type q :
  uuid_wf type -> type <> connector_internal_handshake_uuid ->
  connector_call_internal_message i type q w = Done SUBSTANCE_CONNECTOR_ERROR w.
Proof.
  intros Ht Hneq. unfold connector_call_internal_message, find_callback, find_callback_in, bsearch,
    internal_messages. cbn [length bsearch_loop Nat.ltb Nat.leb Nat.add Nat.div Nat.divmod fst list_lookup lookup].
  unfold compare_callback at 1 2. cbn [key].
  destruct (Z.ltb_spec (connector_compare_uuid connector_internal_handshake_uuid type) 0); [done|].
  destruct (Z.ltb_spec 0 (connector_compare_uuid connector_internal_handshake_uuid type)); [done|].
  exfalso. apply Hneq. symmetry. apply compare_uuid_zero; [apply handshake_uuid_wf | done | lia].
Qed.

End handshakes.

(** ** Properties *)

Section properties.
Context {E : Type} {P : Platform E}.
Implicit Types w : world E.

(** A dispatch thread that finds messages delivers all of them, once each and
    in the order they were received: for every queued user message, in order,
    every registered trampoline is called, in the order of the list, with the
    context, the identifier and the text of the message.  Afterwards the inbound
    queue is empty, every node, structure and text of these messages is
    released, and nothing else is. *)
Theorem dispatch_delivers_in_order w (r : queued) (rs : list queued) (fs : list Z)
    (signal_main : bool) (codes : list bool)
    (Hq : all_queued (mem w) (inbound_queue (queues w)) (r :: rs)) (Htr : trampolines_repr w fs)
    (Hu : Forall user_message (r :: rs))
    (Hcodes : Forall (fun b => b = false) codes) (Hlen : (length rs < length codes)%nat) :
  exists m' q', dispatch_round (B := recording_bindings E) signal_main [] codes w =
      Done true (set_queues (set_inbound q' (queues w))
        (set_trace (trace w ++ concat (map (deliveries fs) (r :: rs)) ++
                    (if signal_main then [BroadcastDispatchMain] else [])) (set_mem m' w))) /\
    heap_without (concat (map queued_blocks (r :: rs))) (mem w) m' /\ queue_holds m' q' [].
Proof.
  destruct (dispatch_round_spec w r rs fs signal_main codes) as (m' & q' & Hrun & Hh & Hq'); auto.
  exists m', q'. split; [exact Hrun|]. split; [done|]. exists []. by destruct Hq'.
Qed.

(** A write thread that is woken sends everything that is queued, in the order
    it was queued: each message goes, as one network-order header and its text,
    to the socket of its context if that context is connected, and is dropped
    silently otherwise.  Afterwards the outbound queue is empty and the blocks of
    these messages and no others are released.  A thread that is woken for
    shutdown leaves without sending. *)
Theorem write_thread_sends_in_order w (r : queued) (rs : list queued) (fuel : nat)
    (Hwf : mem_wf (mem w)) (Hs : mem_serving (mem w)) (Hl : length (context_list w) = 32%nat)
    (Hq : all_queued (mem w) (outbound_queue (queues w)) (r :: rs))
    (Hw : Forall (writable (context_list w)) (r :: rs)) (Hfuel : (length rs < fuel)%nat) :
  (exists m' q', write_round [false] fuel w =
      Done true (set_queues (set_outbound q' (queues w))
        (set_env (fold_left (fun e r => send_queued (context_list w) (junk (mem w)) r e) (r :: rs) (env w))
           (set_mem m' w))) /\
    heap_without (concat (map queued_blocks (r :: rs))) (mem w) m' /\ queue_holds m' q' []) /\
  write_round [true] fuel w = Done false w.
Proof.
  split; [|done]. destruct (write_round_spec w r rs fuel) as (m' & q' & Hrun & Hh & Hq'); auto.
  exists m', q'. split; [exact Hrun|]. split; [done|]. exists []. by destruct Hq'.
Qed.

(** The internal handshake of a peer is answered once and names the context:
    one message with this application's own name is queued for the same context
    and the write threads are signalled, the answer is not itself an internal
    message (so it cannot be answered in turn), the old name of the context is
    replaced by a copy of the received one, and no trampoline is called.
    Internal messages with any other identifier are refused and change
    nothing. *)
Theorem handshake_is_answered w (i : Z) (c : context_struct) (old : option (list Z))
    (name s : list Z) (q : Z) (ns : list (Z * Z))
    (Hwf : mem_wf (mem w)) (Hs : mem_serving (mem w)) (Hi : 0 <= i < 32)
    (Hc : context_list w !! Z.to_nat i = Some c) (Hold : slot_string (mem w) (cx_application_name c) old)
    (Hcn : cstring name) (Hname : points_to_string (mem w) (application_name w) name)
    (Hln : Z.of_nat (length name) < 2 ^ 32)
    (Hcs : cstring s) (Hq : points_to_string (mem w) q s) (Hls : Z.of_nat (length s) < 2 ^ 32)
    (Hne : cx_application_name c <> q) (Hlq : lq_repr (mem w) (outbound_queue (queues w)) ns) :
  (exists answer m' q' new,
     connector_call_internal_message i connector_internal_handshake_uuid q w =
       Done SUBSTANCE_CONNECTOR_SUCCESS
         (set_mem m' (set_context_list (<[Z.to_nat i := set_context_name new c]> (context_list w))
            (set_trace (trace w ++ [SignalOutbound]) (set_queues (set_outbound q' (queues w)) w)))) /\
     queue_holds m' q' (map snd ns ++ [answer]) /\ message_at m' answer (reply_header name) name i /\
     points_to_string m' new s) /\
  CONNECTOR_IDENTIFY_INTERNAL (description (reply_header name)) = false /\
  (forall type, uuid_wf type -> type <> connector_internal_handshake_uuid ->
     connector_call_internal_message i type q w = Done SUBSTANCE_CONNECTOR_ERROR w).
Proof.
  split; [|split; [done|]].
  - destruct (handshake_callback_spec w i c old name q s ns)
      as (p & node & m' & q' & new & Hrun & _ & _ & Hlq' & Hat & Ht & Hnew & Hnd & _); auto.
    exists p, m', q', new. split; [|split; [|split; [|done]]].
    2:{ exists (ns ++ [(node, p)]). split; [done | by rewrite map_app]. }
    2:{ exists (p + 1). split; [done|]. split; [done | lia]. }
    unfold connector_call_internal_message.
    change (find_callback connector_internal_handshake_uuid) with (Some (internal_handshake_callback (E := E))).
    cbn iota. by rewrite (bind_done _ _ _ _ _ Hrun).
  - intros type Ht Hneq. by apply internal_refused.
Qed.

End properties.

(** A message waiting in a queue, and a trampoline. *)
Definition user_header : message_header := Header 0x03c9 2 connector_internal_log_uuid.
Definition waiting : queued := Queued 3 2 1 user_header [97; 98] 0.
Definition waiting_memory : memory :=
  alloc_with (BTramp 50 0) (alloc_with (BNode 0 2)
    (alloc_with (BMsg (Message (Some user_header) 1 0)) one_string_memory)).
Definition waiting_queue : locked_queue := LockedQueue 3 3 handle_message false.
Definition empty_queue : locked_queue := LockedQueue 0 0 handle_message false.

Definition waiting_world (inbound outbound : locked_queue) : world simulation :=
  World _ (Simulation 9 false [] [] [] []) waiting_memory 0 1
    (replicate 32 (ContextStruct tcp_connected_bits 5 0 0 0 0)) QNull QNull
    (MessageQueues inbound outbound MESSAGE_QUEUE_INITIALIZED) 4 [].

Lemma waiting_memory_wf : mem_wf waiting_memory.
Proof. do 4 apply alloc_with_wf. apply initial_memory_wf. Qed.

Lemma waiting_queued : all_queued waiting_memory waiting_queue [waiting].
Proof.
  constructor; [| by repeat constructor | apply NoDup_singleton | apply NoDup_singleton].
  constructor; [done | | done | apply NoDup_singleton]. split; [done|]. exists 0. done.
Qed.

Lemma waiting_trampolines inbound outbound : trampolines_repr (waiting_world inbound outbound) [50].
Proof.
  constructor; [apply waiting_memory_wf | by split |]. exists [(4, 50)].
  split; [|split; [done | apply NoDup_singleton]]. split; [done|]. split; [done|]. by exists 0.
Qed.

Lemma dispatch_delivers_in_order_witness :
  exists w', dispatch_round (B := recording_bindings simulation) false [] [false; false]
      (waiting_world waiting_queue empty_queue) = Done true w' /\
    trace w' = [TrampolineCall 50 0 connector_internal_log_uuid (Some [97; 98])].
Proof.
  destruct (dispatch_delivers_in_order (waiting_world waiting_queue empty_queue) waiting [] [50] false
    [false; false] waiting_queued (waiting_trampolines _ _)) as (m' & q' & Hrun & _ & _).
  - repeat constructor; cbn; lia.
  - by repeat constructor.
  - cbn. lia.
  - eexists. split; [exact Hrun | reflexivity].
Defined.

Lemma write_thread_sends_in_order_witness :
  exists w', write_round [false] 1 (waiting_world empty_queue waiting_queue) = Done true w' /\
    sim_sent (env w') = message_bytes Little [0; 0] user_header [97; 98].
Proof.
  destruct (write_thread_sends_in_order (waiting_world empty_queue waiting_queue) waiting [] 1 waiting_memory_wf
    ltac:(by split) eq_refl waiting_queued) as [(m' & q' & Hrun & _) _].
  - apply Forall_cons. split; [|constructor]. split; [done|]. right. split; [cbn; lia|].
    eexists. split; reflexivity.
  - cbn. lia.
  - eexists. split; [exact Hrun | vm_compute; reflexivity].
Defined.

Lemma handshake_is_answered_witness :
  exists w', connector_call_internal_message 0 connector_internal_handshake_uuid 1
      (waiting_world empty_queue empty_queue) = Done SUBSTANCE_CONNECTOR_SUCCESS w' /\
    trace w' = [SignalOutbound].
Proof.
  assert (Hq : lq_repr waiting_memory empty_queue []) by (constructor; try reflexivity; constructor).
  assert (Hcs : cstring [97; 98]) by (repeat constructor; lia).
  destruct (handshake_is_answered (waiting_world empty_queue empty_queue) 0
    (ContextStruct tcp_connected_bits 5 0 0 0 0) None [97; 98] [97; 98] 1 [] waiting_memory_wf
    ltac:(by split) ltac:(lia) eq_refl eq_refl Hcs eq_refl ltac:(cbn; lia) Hcs eq_refl ltac:(cbn; lia)
    ltac:(done) Hq) as [(answer & m' & q' & new & Hrun & _) _].
  eexists. split; [exact Hrun | reflexivity].
Defined.

(** The comparison passes its arguments in the opposite order to the one
    [bsearch] expects.  With the single entry the table has today this cannot be
    noticed; with two entries sorted by their keys, as the comment on the table
    asks for, the first would not be found. *)
Lemma sorted_table_is_searched_backwards :
  let f : connector_callback_fp := fun _ _ _ => ret tt in
  let table := [InternCallback connector_internal_handshake_uuid f;
                InternCallback connector_internal_log_uuid f] in
  connector_compare_uuid connector_internal_handshake_uuid connector_internal_log_uuid = -1 /\
  find_callback_in (E := simulation) table connector_internal_handshake_uuid = None /\
  is_Some (find_callback_in (E := simulation) (rev table) connector_internal_handshake_uuid).
Proof. split; [reflexivity|]. split; [reflexivity | by eexists]. Qed.
