(* ===== verification/MixedDispatch.v ===== *)
(** * Dispatching handshakes and messages

    What a dispatch thread does with a queue in which the handshakes of peers and
    the messages of applications follow each other in any order: the trampolines
    see the messages, the handshakes are answered and name their contexts, and
    everything else in memory stays as it is. *)

From S2P Require Import Prelude Wire Memory Strings UintQueue LockedQueue Message World Callbacks.
From S2P Require Import Connection SlotFrame ContextQueue Contexts Dispatch.

(** ** What a queued message is *)

Definition is_user (r : queued) : bool := negb (CONNECTOR_IDENTIFY_INTERNAL (description (qm_header r))).
Definition is_handshake (r : queued) : bool :=
  CONNECTOR_IDENTIFY_INTERNAL (description (qm_header r)) &&
  bool_decide (message_id (qm_header r) = connector_internal_handshake_uuid).

(** As the read threads queue it: for a context of the table. *)
Record message_ok (r : queued) : Prop := {
  mo_string : cstring (qm_string r);
  mo_length : Z.of_nat (length (qm_string r)) < 2 ^ 32;
  mo_uuid : uuid_wf (message_id (qm_header r));
  mo_context : 0 <= qm_context r < 32
}.

(** The events of one message, for the trampolines [fs]. *)
Definition dispatch_events (fs : list Z) (r : queued) : list event :=
  if is_user r then deliveries fs r else if is_handshake r then [SignalOutbound] else [].

(** The names of the contexts after one message. *)
Definition name_peer (names : list (option (list Z))) (r : queued) : list (option (list Z)) :=
  if is_handshake r then <[Z.to_nat (qm_context r) := Some (qm_string r)]> names else names.

(** [a] answers the handshake [r] with the application's own name. *)
Definition answers (name : list Z) (r a : queued) : Prop :=
  qm_header a = reply_header name /\ qm_string a = name /\ qm_context a = qm_context r.

(** ** The state of a dispatching process *)

Section state.
Context {E : Type}.
Implicit Types w : world E.

(** The strings the library keeps: the application's name and those of the peers. *)
Definition strings w : list Z := application_name w :: map cx_application_name (context_list w).

(** The blocks of the messages: those in hand, in the inbound queue, and in the
    outbound queue. *)
Definition blocks (hand : list Z) (ins outs : list queued) : list Z :=
  hand ++ concat (map queued_blocks ins) ++ concat (map queued_blocks outs).

Record dispatching (hand : list Z) w (fs : list Z) (name : list Z) (names : list (option (list Z)))
    (ins outs : list queued) : Prop := {
  ds_trampolines : trampolines_repr w fs;
  ds_cstring : cstring name;
  ds_name : points_to_string (mem w) (application_name w) name;
  ds_name_length : Z.of_nat (length name) < 2 ^ 32;
  ds_contexts : length (context_list w) = 32%nat;
  ds_names : Forall2 (fun c o => slot_string (mem w) (cx_application_name c) o) (context_list w) names;
  ds_in : all_queued (mem w) (inbound_queue (queues w)) ins;
  ds_out : all_queued (mem w) (outbound_queue (queues w)) outs;
  ds_blocks : NoDup (blocks hand ins outs);
  ds_separate a : a ∈ blocks hand ins outs -> a ∉ strings w;
  ds_own c : c ∈ context_list w -> cx_application_name c <> application_name w;
  ds_distinct i j c d : context_list w !! i = Some c -> context_list w !! j = Some d -> i <> j ->
    cx_application_name c <> 0 -> cx_application_name c <> cx_application_name d
}.

(** What is in memory besides. *)
Definition others (hand : list Z) w (ins outs : list queued) (a : Z) : option cell :=
  if decide (a ∈ blocks hand ins outs ++ strings w) then None else heap (mem w) !! a.

(** [w'] differs from [w] in the messages, the heap, the events and the names of
    the peers only. *)
Record dispatched w w' : Prop := {
  dd_env : env w' = env w;
  dd_config : mem_config_eq (mem w) (mem w');
  dd_state : module_state w' = module_state w;
  dd_front : trampoline_front w' = trampoline_front w;
  dd_name : application_name w' = application_name w;
  dd_free : free_contexts w' = free_contexts w;
  dd_available : connection_queue w' = connection_queue w;
  dd_slots : map (set_context_name 0) (context_list w') = map (set_context_name 0) (context_list w)
}.

#[export] Instance dispatched_refl : Reflexive dispatched.
Proof. by intros w. Qed.
#[export] Instance dispatched_trans : Transitive dispatched.
Proof. intros w1 w2 w3 [] []. constructor; try congruence. by transitivity (mem w2). Qed.

End state.
Arguments blocks hand ins outs : simpl never.

(** ** Lemmas *)

Section memory.
Context {E : Type}.
Implicit Types w : world E.

Lemma elem_of_strings w a :
  a ∈ strings w <->
  a = application_name w \/ exists j c, context_list w !! j = Some c /\ cx_application_name c = a.
Proof.
  unfold strings. rewrite elem_of_cons. apply or_iff_compat_l. split.
  - intros (c & -> & Hin)%list_elem_of_fmap. apply list_elem_of_lookup in Hin as [j Hj]. eauto.
  - intros (j & c & Hj & <-). apply list_elem_of_fmap_2. by eapply list_elem_of_lookup_2.
Qed.

Lemma slot_kept m m' p o :
  mem_config_eq m m' -> (heap m !! p <> None -> heap m' !! p = heap m !! p) ->
  slot_string m p o -> slot_string m' p o.
Proof.
  intros Hc Hh. destruct o as [s|]; [|done]. intros [Hs Hp]. split; [done|].
  unfold points_to_string, owns in *. rewrite (config_free _ _ Hc), Hh; [done | by rewrite Hp].
Qed.

Lemma slots_kept m m' cl names :
  mem_config_eq m m' ->
  (forall c, c ∈ cl -> heap m !! cx_application_name c <> None ->
     heap m' !! cx_application_name c = heap m !! cx_application_name c) ->
  Forall2 (fun c o => slot_string m (cx_application_name c) o) cl names ->
  Forall2 (fun c o => slot_string m' (cx_application_name c) o) cl names.
Proof.
  intros Hc Hh Hn. induction Hn as [|c o cl names Ho _ IH]; constructor.
  - apply (slot_kept m); [done | apply Hh; by left | done].
  - apply IH. intros d Hd. apply Hh. by right.
Qed.

(** Comparing what is besides two sets of blocks. *)
Lemma besides_same (xs ys : list Z) (h h' : gmap Z cell) a :
  (a ∈ ys -> a ∉ xs -> h !! a = None) -> (a ∈ xs -> a ∉ ys -> h' !! a = None) ->
  (a ∉ xs -> a ∉ ys -> h' !! a = h !! a) ->
  (if decide (a ∈ ys) then None else h' !! a) = (if decide (a ∈ xs) then None else h !! a).
Proof. intros H1 H2 H3. repeat case_decide; [done | symmetry; auto | auto | auto]. Qed.

Lemma blocks_app gone hand (ins outs : list queued) : blocks (gone ++ hand) ins outs = gone ++ blocks hand ins outs.
Proof. unfold blocks. by rewrite <- app_assoc. Qed.

Lemma blocks_cons hand (r : queued) ins outs :
  blocks hand (r :: ins) outs ≡ₚ qm_node r :: blocks (qm_message r :: qm_text r :: hand) ins outs.
Proof. unfold blocks, queued_blocks. cbn [map concat app]. solve_Permutation. Qed.

Lemma blocks_snoc hand ins outs (r : queued) :
  blocks hand ins (outs ++ [r]) = blocks hand ins outs ++ queued_blocks r.
Proof. unfold blocks. rewrite map_app, concat_app. cbn [map concat]. by rewrite app_nil_r, <- !app_assoc. Qed.

(** A state in which only blocks that are [gone] have changed. *)
Lemma dispatching_frame hand w m' fs name names ins outs gone :
  dispatching (gone ++ hand) w fs name names ins outs -> heap_without gone (mem w) m' ->
  (forall p f n, p ∈ gone -> ~ owns (mem w) p (BTramp f n)) ->
  dispatching hand (set_mem m' w) fs name names ins outs /\
  forall a, others hand (set_mem m' w) ins outs a = others (gone ++ hand) w ins outs a.
Proof.
  intros [Htr Hcs Hn Hlen Hcl Hnames Hin Hout Hnd Hsep Hown Hdist] Hrel Htn.
  pose proof Hrel as [Hwf' Hcfg Hh]. rewrite blocks_app in *.
  pose proof Hnd as (_ & Hdisj & Hnd')%NoDup_app. setoid_rewrite elem_of_app in Hsep.
  assert (Hkeep : forall a, a ∉ gone -> heap m' !! a = heap (mem w) !! a) by (intros a Ha; by rewrite Hh, decide_False).
  assert (Hstr : forall a, a ∈ strings w -> a ∉ gone) by (intros a Ha Hg; by apply (Hsep a); auto).
  assert (Hbl : forall a, a ∈ blocks hand ins outs -> a ∉ gone) by (intros a Ha Hg; by apply (Hdisj a)).
  split.
  - constructor; try done.
    + apply (trampolines_frame w); try done. intros a f n Ha. apply Hkeep. intros Hg. by apply (Htn a f n).
    + unfold points_to_string, owns in *. cbn. rewrite (config_free _ _ Hcfg), Hkeep; [done|].
      apply Hstr, elem_of_strings. by left.
    + apply (slots_kept (mem w)); [done | | done]. intros c Hc _. apply Hkeep, Hstr. right. by apply list_elem_of_fmap_2.
    + apply (all_queued_frame (mem w)); [done | done |]. intros a Ha. apply Hkeep, Hbl. unfold blocks. rewrite !elem_of_app. auto.
    + apply (all_queued_frame (mem w)); [done | done |]. intros a Ha. apply Hkeep, Hbl. unfold blocks. rewrite !elem_of_app. auto.
    + intros a Ha. apply Hsep. by right.
  - intros a. unfold others. change (strings (set_mem m' w)) with (strings w). cbn [mem set_mem].
    rewrite blocks_app. apply besides_same.
    + intros Ha Hna. destruct Hna. rewrite <- app_assoc. apply elem_of_app. by right.
    + rewrite <- app_assoc, elem_of_app. intros [Ha|Ha] Hna; [|done]. by rewrite Hh, decide_True.
    + rewrite <- app_assoc, elem_of_app. intros Ha _. apply Hkeep. intuition.
Qed.

Lemma others_permuted hand hand' w w' ins ins' outs a :
  blocks hand ins outs ≡ₚ blocks hand' ins' outs -> strings w' = strings w -> heap (mem w') = heap (mem w) ->
  others hand' w' ins' outs a = others hand w ins outs a.
Proof.
  intros Hp Hs Hh. unfold others. rewrite Hs, Hh. assert (a ∈ blocks hand ins outs <-> a ∈ blocks hand' ins' outs) by (by rewrite Hp).
  pose proof (elem_of_app (blocks hand ins outs) (strings w) a). pose proof (elem_of_app (blocks hand' ins' outs) (strings w) a).
  repeat case_decide; intuition.
Qed.

(** Releasing the message in hand. *)
Lemma delete_step w fs name names ins outs r :
  dispatching [qm_message r; qm_text r] w fs name names ins outs -> queued_at (mem w) r ->
  exists m', delete_message (qm_message r) w = Done tt (set_mem m' w) /\
    dispatching [] (set_mem m' w) fs name names ins outs /\ dispatched w (set_mem m' w) /\
    forall a, others [] (set_mem m' w) ins outs a = others [qm_message r; qm_text r] w ins outs a.
Proof.
  intros Hd [Hm Ht]. pose proof (tr_wf _ _ (ds_trampolines _ _ _ _ _ _ _ Hd)) as Hwf.
  assert (Hne : qm_text r <> qm_message r) by (intros Heq; unfold points_to_string, owns in *; congruence).
  destruct (discard_message (mem w) (qm_message r) _ (qm_text r) _ _ Hwf Hm Ht Hne) as (m1 & m' & E1 & E2 & Hrel).
  exists m'. split.
  - unfold delete_message. rewrite (bind_done _ _ _ _ _ (in_mem_done _ w _ _ E1)).
    by rewrite (in_mem_done _ (set_mem m1 w) _ _ E2).
  - pose proof (heap_without_released _ _ _ Hrel) as Hout. destruct (dispatching_frame [] w m' fs name names ins outs [qm_message r; qm_text r] Hd Hout)
      as [Hd' Ho]; [intros p f n Hp; by eapply message_not_trampoline|].
    split; [done|]. split; [constructor; try done; by destruct Hout | done].
Qed.

(** The message [r] leaves the queue; its node is about to be released. *)
Lemma dispatching_acquired w fs name names ins outs r q' :
  dispatching [] w fs name names (r :: ins) outs -> all_queued (mem w) q' ins ->
  dispatching ([qm_node r] ++ [qm_message r; qm_text r]) (set_queues (set_inbound q' (queues w)) w) fs name names ins outs.
Proof.
  intros [Htr Hcs Hn Hlen Hcl Hnames Hin Hout Hnd Hsep Hown Hdist] Hq'.
  constructor; try done. by destruct Htr.
Qed.

Lemma acquire_step w fs name names ins outs r :
  dispatching [] w fs name names (r :: ins) outs ->
  exists w', acquire_inbound w = Done (qm_message r) w' /\
    dispatching [qm_message r; qm_text r] w' fs name names ins outs /\ queued_at (mem w') r /\
    dispatched w w' /\ trace w' = trace w /\
    forall a, others [qm_message r; qm_text r] w' ins outs a = others [] w (r :: ins) outs a.
Proof.
  intros Hd. pose proof (tr_wf _ _ (ds_trampolines _ _ _ _ _ _ _ Hd)) as Hwf.
  destruct (acquire_queued (mem w) _ r ins Hwf (ds_in _ _ _ _ _ _ _ Hd)) as (q' & Hacq & Hrel & Hq1 & Hr1 & _).
  pose proof Hrel as [_ [Ha Hf Ho Hj] _ Hh].
  assert (Hq : all_queued (mem w) q' ins).
  { apply (all_queued_frame _ _ _ _ Hq1); [by constructor|]. intros a Hin. symmetry. apply (released_heap_other _ _ _ _ Hrel).
    intros ->%list_elem_of_singleton. destruct (queued_live _ _ _ _ Hq1 Hin) as [b Hb]. unfold owns in Hb.
    rewrite Hh, decide_True in Hb by (by left). done. }
  eexists. split; [by apply acquire_inbound_done|].
  pose proof (dispatching_acquired w fs name names ins outs r q' Hd Hq) as Hd'.
  destruct (dispatching_frame [qm_message r; qm_text r] _ (free_cell (qm_node r) (mem w)) fs name names ins outs [qm_node r] Hd'
    (heap_without_released _ _ _ Hrel)) as [Hd2 Hoth].
  { intros p f n ->%list_elem_of_singleton Hp. destruct (aq_repr _ _ _ (ds_in _ _ _ _ _ _ _ Hd)) as [_ (_ & next & Hn & _) _ _].
    unfold owns in *. cbn in *. congruence. }
  split; [exact Hd2|]. split; [done|]. split; [done|]. split; [done|].
  intros a. etransitivity; [apply Hoth|]. apply others_permuted; [|done | done]. apply blocks_cons.
Qed.

Lemma acquire_nothing w fs name names outs :
  dispatching [] w fs name names [] outs ->
  exists w', acquire_inbound w = Done 0 w' /\ dispatching [] w' fs name names [] outs /\ dispatched w w' /\
    trace w' = trace w /\ forall a, others [] w' [] outs a = others [] w [] outs a.
Proof.
  intros Hd. pose proof (tr_wf _ _ (ds_trampolines _ _ _ _ _ _ _ Hd)) as Hwf.
  destruct (acquire_none (mem w) _ Hwf (ds_in _ _ _ _ _ _ _ Hd)) as (q' & Hacq & Hq').
  eexists. split; [by apply acquire_inbound_done|]. rewrite set_mem_id.
  split; [|done]. destruct Hd as [Htr ? ? ? ? ? ? ? ? ? ? ?]. constructor; try done. by destruct Htr.
Qed.

End memory.

(** ** A handshake is answered *)

Section answering.
Context {E : Type} {P : Platform E}.
Implicit Types w : world E.

(** The handshake [r] of the context [c], in a dispatching process [w]. *)
Variables (w : world E) (fs name : list Z) (names : list (option (list Z))) (ins outs : list queued).
Variables (r : queued) (c : context_struct) (old : option (list Z)).
Let hand := [qm_message r; qm_text r].
Let i := Z.to_nat (qm_context r).
Hypotheses (Hd : dispatching hand w fs name names ins outs) (Hr : queued_at (mem w) r) (Hok : message_ok r).
Hypotheses (Hc : context_list w !! i = Some c) (Hold : slot_string (mem w) (cx_application_name c) old).

(** What the callback leaves: the answer [p] in the node [node], the new name, the
    memory and the outbound queue. *)
Variables (p node new : Z) (m' : memory) (q' : locked_queue).
Let answer := Queued node p (p + 1) (reply_header name) name (qm_context r).
Let w' : world E := set_mem m' (set_context_list (<[i := set_context_name new c]> (context_list w))
  (set_trace (trace w ++ [SignalOutbound]) (set_queues (set_outbound q' (queues w)) w))).
Hypotheses (Hwf' : mem_wf m') (Hcfg : mem_config_eq (mem w) m').
Hypothesis Hlq : lq_repr m' q' (map (fun r => (qm_node r, qm_message r)) outs ++ [(node, p)]).
Hypotheses (Hanswer : queued_at m' answer) (Hnew : points_to_string m' new (qm_string r)).
Hypothesis Hnd : NoDup [node; p; p + 1; new].
Hypothesis Hfresh : forall a, a ∈ [node; p; p + 1; new] -> heap (mem w) !! a = None.
Hypothesis Hheap : forall a, a ∉ [node; p; p + 1; new] -> a ∉ map qm_node outs ->
  heap m' !! a = if decide (a = cx_application_name c) then None else heap (mem w) !! a.

Lemma hand_live a : a ∈ blocks hand ins outs -> heap (mem w) !! a <> None.
Proof.
  assert (Hown : forall a, (exists b, owns (mem w) a b) -> heap (mem w) !! a <> None).
  { intros a' [b Hb]. unfold owns in Hb. by rewrite Hb. }
  intros Ha. apply Hown. unfold blocks in Ha. rewrite !elem_of_app in Ha. destruct Ha as [Ha|[Ha|Ha]].
  - destruct Hr as [Hm Ht]. unfold hand in Ha. rewrite elem_of_cons, list_elem_of_singleton in Ha.
    destruct Ha as [-> | ->]; by eexists.
  - apply (queued_live _ _ _ _ (ds_in _ _ _ _ _ _ _ Hd) Ha).
  - apply (queued_live _ _ _ _ (ds_out _ _ _ _ _ _ _ Hd) Ha).
Qed.

Lemma strings_live a : a ∈ strings w -> a = 0 \/ exists s, owns (mem w) a (BStr s).
Proof.
  intros [-> | (j & d & Hj & <-)]%elem_of_strings; [right; eexists; apply (ds_name _ _ _ _ _ _ _ Hd)|].
  destruct (Forall2_lookup_l _ _ _ _ _ (ds_names _ _ _ _ _ _ _ Hd) Hj) as (o & _ & Ho).
  destruct o as [s|]; [|by left]. right. destruct Ho as [_ Ho]. by eexists.
Qed.

Lemma name_is_string : cx_application_name c ∈ strings w.
Proof. apply elem_of_strings. right. by exists i, c. Qed.

(** Everything but the nodes of the outbound queue and the old name is kept. *)
Lemma answer_keeps a b :
  owns (mem w) a b -> (forall n x, b <> BNode n x) -> a <> cx_application_name c -> heap m' !! a = heap (mem w) !! a.
Proof.
  intros Ha Hb Hne. unfold owns in Ha. rewrite Hheap; [by rewrite decide_False | |].
  - intros Hin. by rewrite (Hfresh a Hin) in Ha.
  - rewrite list_elem_of_In, <- map_queued_nodes.
    by apply (not_a_node _ _ _ _ b (aq_repr _ _ _ (ds_out _ _ _ _ _ _ _ Hd))).
Qed.

Lemma strings_kept a : a ∈ strings w -> a <> cx_application_name c -> heap (mem w) !! a <> None ->
  heap m' !! a = heap (mem w) !! a.
Proof.
  intros Ha Hne Hl. destruct (strings_live a Ha) as [->|[s Hs]]; [|by eapply answer_keeps].
  destruct (heap (mem w) !! 0) eqn:E0; [|done].
  by destruct (mem_wf_pos (mem w) 0 (tr_wf _ _ (ds_trampolines _ _ _ _ _ _ _ Hd))).
Qed.

Lemma fresh_positive a : a ∈ [node; p; p + 1; new] -> a <> 0.
Proof.
  assert (Hpos : forall a b, owns m' a b -> a <> 0) by (intros a' b Hb; by apply Z.eqb_neq, (owns_pos m' a' b)).
  destruct Hanswer as [Hm Ht]. rewrite !elem_of_cons, elem_of_nil.
  intros [-> | [-> | [-> | [-> | []]]]]; [|by apply (Hpos _ _ Hm) | by apply (Hpos _ _ Ht) | by apply (Hpos _ _ Hnew)].
  destruct (chain_owned _ _ _ node p (lq_chain _ _ _ Hlq)) as [n Hn]; [apply in_app_iff; right; by left | by apply (Hpos _ _ Hn)].
Qed.

Lemma string_not_fresh a : a ∈ strings w -> a ∉ [node; p; p + 1; new].
Proof.
  intros Ha Hin. destruct (strings_live a Ha) as [->|[s Hs]]; [by apply (fresh_positive 0)|].
  unfold owns in Hs. by rewrite (Hfresh a Hin) in Hs.
Qed.

Lemma block_not_fresh a : a ∈ blocks hand ins outs -> a ∉ [node; p; p + 1; new].
Proof. intros Ha Hin. by apply (hand_live a Ha), Hfresh. Qed.

Lemma answer_strings a : a ∈ strings w' -> a = new \/ a ∈ strings w.
Proof.
  rewrite !elem_of_strings. cbn [w' application_name context_list set_mem set_context_list set_trace set_queues].
  intros [->|(j & d & Hj & <-)]; [by right; left|].
  apply list_lookup_insert_Some in Hj as [(<- & <- & _)|[_ Hj]]; [by left | right; right; eauto].
Qed.

Lemma strings_answer a : a ∈ strings w -> a ∈ strings w' \/ a = cx_application_name c.
Proof.
  rewrite !elem_of_strings. cbn [w' application_name context_list set_mem set_context_list set_trace set_queues].
  intros [->|(j & d & Hj & <-)]; [by left; left|]. destruct (decide (i = j)) as [<-|Hne].
  - right. congruence.
  - left. right. exists j, d. by rewrite list_lookup_insert_ne.
Qed.

Lemma new_is_string : new ∈ strings w'.
Proof.
  apply elem_of_strings. right. exists i, (set_context_name new c). split; [|done].
  cbn [w' context_list set_mem set_context_list]. apply list_lookup_insert_eq. by eapply lookup_lt_Some.
Qed.

Lemma answer_names :
  Forall2 (fun d o => slot_string m' (cx_application_name d) o) (<[i := set_context_name new c]> (context_list w))
    (<[i := Some (qm_string r)]> names).
Proof.
  pose proof (ds_names _ _ _ _ _ _ _ Hd) as Hn. apply Forall2_same_length_lookup.
  split; [rewrite !length_insert; by eapply Forall2_length|]. intros j d o Hj Ho.
  apply list_lookup_insert_Some in Hj as [(<- & <- & _)|[Hne Hj]].
  - apply list_lookup_insert_Some in Ho as [(_ & <- & _)|[? _]]; [|done]. split; [apply Hok | exact Hnew].
  - rewrite list_lookup_insert_ne in Ho by done.
    apply (slot_kept (mem w)); [done | | by apply (Forall2_lookup_lr _ _ _ _ _ _ Hn Hj)].
    intros Hl. apply strings_kept; [apply elem_of_strings; right; eauto | | done].
    intros Heq. destruct (decide (cx_application_name d = 0)) as [H0|H0].
    + apply Hl. rewrite H0. destruct (heap (mem w) !! 0) eqn:E0; [|done].
      by destruct (mem_wf_pos (mem w) 0 (tr_wf _ _ (ds_trampolines _ _ _ _ _ _ _ Hd))).
    + by apply (ds_distinct _ _ _ _ _ _ _ Hd j i d c Hj Hc).
Qed.

Lemma answer_queues : all_queued m' (inbound_queue (queues w)) ins /\ all_queued m' q' (outs ++ [answer]).
Proof.
  assert (Hbl : forall a, a ∈ blocks hand ins outs -> a ∉ map qm_node outs -> heap m' !! a = heap (mem w) !! a).
  { intros a Ha Hn. rewrite Hheap; [|by apply block_not_fresh | done]. rewrite decide_False; [done|]. intros ->.
    apply (ds_separate _ _ _ _ _ _ _ Hd _ Ha), name_is_string. }
  pose proof (ds_blocks _ _ _ _ _ _ _ Hd) as (_ & _ & (_ & Hdisj & _)%NoDup_app)%NoDup_app. split.
  - apply (all_queued_frame (mem w)); [apply Hd | done |]. intros a Ha. apply Hbl; [unfold blocks; rewrite !elem_of_app; auto|].
    intros (r' & -> & Hin)%list_elem_of_fmap. apply (Hdisj _ Ha), (node_in_blocks r'); [done|].
    unfold queued_blocks. rewrite elem_of_cons. auto.
  - apply (all_queued_snoc (mem w) m' (outbound_queue (queues w)) q' outs answer); try done; [apply Hd | |].
    + intros a Ha. apply Hfresh. cbn in Ha. set_solver.
    + intros a Ha Hn. apply Hbl; [unfold blocks; rewrite !elem_of_app; auto | done].
Qed.

Lemma answer_blocks : NoDup (blocks hand ins (outs ++ [answer])) /\
  forall a, a ∈ blocks hand ins (outs ++ [answer]) -> a ∉ strings w'.
Proof.
  rewrite blocks_snoc. cbn [queued_blocks qm_node qm_message qm_text answer]. pose proof Hnd as Hnd'.
  change [node; p; p + 1; new] with ([node; p; p + 1] ++ [new]) in Hnd'. apply NoDup_app in Hnd' as (Hnd3 & Hnew3 & _).
  assert (Hin4 : forall a, a ∈ [node; p; p + 1] -> a ∈ [node; p; p + 1; new]) by set_solver. split.
  - apply NoDup_app. split; [apply Hd|]. split; [|done]. intros a Ha Hin. by apply (block_not_fresh a Ha), Hin4.
  - intros a Ha Hs. apply answer_strings in Hs. apply elem_of_app in Ha as [Ha|Ha]; destruct Hs as [->|Hs].
    + apply (block_not_fresh _ Ha). set_solver.
    + by apply (ds_separate _ _ _ _ _ _ _ Hd a Ha).
    + apply (Hnew3 _ Ha). by left.
    + by apply (string_not_fresh a Hs), Hin4.
Qed.

Lemma node_is_block a : a ∈ map qm_node outs -> a ∈ blocks hand ins outs.
Proof.
  intros (r' & -> & Hin)%list_elem_of_fmap. unfold blocks. rewrite !elem_of_app. right. right.
  apply (node_in_blocks r'); [done|]. unfold queued_blocks. rewrite elem_of_cons. auto.
Qed.

Lemma answered_dispatching : dispatching hand w' fs name (<[i := Some (qm_string r)]> names) ins (outs ++ [answer]).
Proof.
  pose proof answer_queues as [Hin Hout]. pose proof answer_blocks as [Hb Hsep].
  pose proof Hd as [Htr Hcs Hn Hlen Hcl Hnames _ _ _ Hsep0 Hown Hdist].
  assert (Hnews : forall d, d ∈ strings w -> d <> new) by (intros d Hs ->; apply (string_not_fresh new Hs); set_solver).
  assert (Happ : application_name w ∈ strings w) by (by left).
  constructor; try done.
  - apply (trampolines_frame w); try done. intros a f n Ha. apply (answer_keeps a _ Ha); [done|].
    intros ->. destruct old as [o|]; cbn in Hold; [destruct Hold as [_ Hx]; unfold points_to_string, owns in *; congruence|].
    rewrite Hold in Ha. by pose proof (owns_pos _ _ _ (tr_wf _ _ Htr) Ha).
  - unfold points_to_string, owns in *. cbn. rewrite (config_free _ _ Hcfg), (answer_keeps _ _ Hn); [done | done |].
    intros Heq. apply (Hown c); [by eapply list_elem_of_lookup_2 | done].
  - cbn. by rewrite length_insert.
  - apply answer_names.
  - intros d Hd'. apply list_elem_of_lookup in Hd' as [j Hj]. cbn in Hj |- *.
    apply list_lookup_insert_Some in Hj as [(<- & <- & _)|[_ Hj]]; [|apply Hown; by eapply list_elem_of_lookup_2].
    intros Heq. by apply (Hnews _ Happ).
  - cbn. intros j k d e Hj Hk Hne H0.
    apply list_lookup_insert_Some in Hj as [(<- & <- & _)|[Hji Hj]];
      apply list_lookup_insert_Some in Hk as [(<- & <- & _)|[Hki Hk]]; [done | | |by apply (Hdist j k)].
    + intros Heq. apply (Hnews (cx_application_name e)); [apply elem_of_strings; right; eauto | done].
    + apply Hnews, elem_of_strings. right. eauto.
Qed.

Lemma answered_others a : others hand w' ins (outs ++ [answer]) a = others hand w ins outs a.
Proof.
  pose proof (ds_separate _ _ _ _ _ _ _ Hd) as Hsep0.
  unfold others. cbn [mem set_mem w']. rewrite blocks_snoc. apply besides_same; rewrite !elem_of_app.
  - intros [[Ha|Ha]|Ha] Hna; [intuition | apply Hfresh; cbn in Ha; set_solver |].
    apply answer_strings in Ha as [->|Ha]; [apply Hfresh; set_solver | intuition].
  - intros [Ha|Ha] Hna; [intuition|]. destruct (strings_answer a Ha) as [Ha'| ->]; [intuition|].
    rewrite Hheap, decide_True; [done | done | by apply string_not_fresh |].
    intros Hn%node_is_block. by apply (Hsep0 _ Hn).
  - intros Ha Hna. rewrite Hheap, decide_False; [done | | |].
    + intros ->. pose proof name_is_string. intuition.
    + intros Hin'. pose proof new_is_string as Hns. apply Hna.
      rewrite !elem_of_cons, elem_of_nil in Hin'. destruct Hin' as [-> | [-> | [-> | [-> | []]]]]; [..|by right];
        left; right; cbn; set_solver.
    + intros Hn%node_is_block. intuition.
Qed.

Lemma answered_hand : queued_at (mem w') r.
Proof.
  destruct Hr as [Hm Ht]. assert (Hne : forall a, a ∈ hand -> a <> cx_application_name c).
  { intros a Ha ->. apply (ds_separate _ _ _ _ _ _ _ Hd (cx_application_name c)); [|apply name_is_string].
    unfold blocks. rewrite elem_of_app. by left. }
  unfold queued_at, points_to_string, owns in *. cbn. rewrite (config_free _ _ Hcfg).
  rewrite (answer_keeps _ _ Hm), (answer_keeps _ _ Ht); auto; apply Hne; unfold hand; set_solver.
Qed.

Lemma answered_elsewhere : dispatched w w'.
Proof. constructor; try done. cbn. rewrite list_fmap_insert. cbn. apply list_insert_id. by rewrite list_lookup_fmap, Hc. Qed.

End answering.

(** ** One message, and all of them *)

Section rounds.
Context {E : Type} {P : Platform E}.
Implicit Types w : world E.

(** From [w], with [hand] and [ins], to [w'], with [hand'] and [ins']: the messages
    [rs] were dispatched and answered by [news]. *)
Record dispatches (fs name : list Z) (rs news : list queued) (names : list (option (list Z))) (outs : list queued)
    (hand : list Z) (ins : list queued) w (hand' : list Z) (ins' : list queued) w' : Prop := {
  dp_state : dispatching hand' w' fs name (fold_left name_peer rs names) ins' (outs ++ news);
  dp_answers : Forall2 (answers name) (List.filter is_handshake rs) news;
  dp_trace : trace w' = trace w ++ concat (map (dispatch_events fs) rs);
  dp_elsewhere : dispatched w w';
  dp_others a : others hand' w' ins' (outs ++ news) a = others hand w ins outs a
}.

Lemma dispatches_trans fs name rs1 rs2 n1 n2 names outs h i w h1 i1 w1 h2 i2 w2 :
  dispatches fs name rs1 n1 names outs h i w h1 i1 w1 ->
  dispatches fs name rs2 n2 (fold_left name_peer rs1 names) (outs ++ n1) h1 i1 w1 h2 i2 w2 ->
  dispatches fs name (rs1 ++ rs2) (n1 ++ n2) names outs h i w h2 i2 w2.
Proof.
  intros [_ Ha1 Ht1 He1 Ho1] [Hs2 Ha2 Ht2 He2 Ho2]. constructor.
  - by rewrite fold_left_app, app_assoc.
  - rewrite List.filter_app. by apply Forall2_app.
  - by rewrite Ht2, Ht1, map_app, concat_app, app_assoc.
  - by transitivity w1.
  - intros a. by rewrite app_assoc, Ho2, Ho1.
Qed.

(** A step that dispatches nothing. *)
Lemma dispatches_none fs name names outs h i w h' i' w' :
  dispatching h' w' fs name names i' outs -> dispatched w w' -> trace w' = trace w ->
  (forall a, others h' w' i' outs a = others h w i outs a) -> dispatches fs name [] [] names outs h i w h' i' w'.
Proof.
  intros Hd He Ht Ho. constructor; rewrite ?app_nil_r; cbn; rewrite ?app_nil_r; try done.
Qed.

Lemma dispatching_traced hand w fs name names ins outs tr :
  dispatching hand w fs name names ins outs -> dispatching hand (set_trace tr w) fs name names ins outs.
Proof. intros [Htr ? ? ? ? ? ? ? ? ? ? ?]. constructor; try done. by destruct Htr. Qed.

(** A handshake: the answer is queued and the context named. *)
Lemma dispatch_handshake w fs name names ins outs r :
  dispatching [qm_message r; qm_text r] w fs name names ins outs -> queued_at (mem w) r -> message_ok r ->
  is_handshake r = true ->
  exists w' news, dispatch_message (B := recording_bindings E) (qm_message r) w = Done tt w' /\ queued_at (mem w') r /\
    dispatches fs name [r] news names outs [qm_message r; qm_text r] ins w [qm_message r; qm_text r] ins w'.
Proof.
  intros Hd Hr Hok Hh. pose proof Hd as [[Hwf Hs _] Hcs Hn Hlen Hcl Hnames _ Hout _ Hsep _ _].
  pose proof (mo_context _ Hok) as Hi. pose proof Hr as [Hm Ht].
  destruct (lookup_lt_is_Some_2 (context_list w) (Z.to_nat (qm_context r))) as [c Hc]; [lia|].
  destruct (Forall2_lookup_l _ _ _ _ _ Hnames Hc) as (old & Hio & Hold).
  destruct (handshake_callback_spec w (qm_context r) c old name (qm_text r) (qm_string r)
      (map (fun r => (qm_node r, qm_message r)) outs))
    as (p & node & m' & q' & new & Hrun & Hwf' & Hcfg & Hlq & Hp & Hpt & Hnew & Hnd & Hf & Hheap);
    [done | done | done | done | done | done | done | done | apply Hok | done | apply Hok | | by destruct Hout |].
  { intros Heq. apply (Hsep (qm_text r)); [unfold blocks; rewrite elem_of_app; left; by right; left|].
    apply elem_of_strings. right. eauto. }
  rewrite map_queued_nodes in Hheap. pose proof Hh as [Hint Hid]%andb_prop. apply bool_decide_eq_true in Hid.
  set (answer := Queued node p (p + 1) (reply_header name) name (qm_context r)).
  assert (Hq : queued_at m' answer) by done.
  match type of Hrun with _ = Done _ ?x => set (w1 := x) in Hrun end.
  exists w1, [answer]. split; [|split].
  - unfold dispatch_message.
    rewrite (bind_done _ _ w _ _ (in_mem_done _ _ _ _ (load_message_owns _ _ _ Hwf Hm))), set_mem_id.
    rewrite (bind_done (message_header_of _) _ w (qm_header r) w) by done. rewrite Hint, Hid. cbn [msg_context msg_text].
    unfold connector_call_internal_message.
    change (find_callback connector_internal_handshake_uuid) with
      (Some (internal_handshake_callback (E := E))). cbn iota.
    rewrite (bind_done _ _ w SUBSTANCE_CONNECTOR_SUCCESS w1); [done | by rewrite (bind_done _ _ _ _ _ Hrun)].
  - by apply (answered_hand w fs name names ins outs r c old Hd Hr Hok Hc Hold p node new m' q').
  - constructor; cbn [fold_left List.filter]; unfold name_peer; rewrite ?Hh.
    + by apply (answered_dispatching w fs name names ins outs r c old Hd Hr Hok Hc Hold p node new m' q').
    + constructor; [done | constructor].
    + cbn. unfold dispatch_events, is_user. by rewrite Hint, Hh.
    + by apply answered_elsewhere.
    + intros a. by apply (answered_others w fs name names ins outs r c old Hd Hr Hok Hc Hold p node new m' q').
Qed.

Lemma dispatch_one w fs name names ins outs r :
  dispatching [qm_message r; qm_text r] w fs name names ins outs -> queued_at (mem w) r -> message_ok r ->
  exists w' news, dispatch_message (B := recording_bindings E) (qm_message r) w = Done tt w' /\ queued_at (mem w') r /\
    dispatches fs name [r] news names outs [qm_message r; qm_text r] ins w [qm_message r; qm_text r] ins w'.
Proof.
  intros Hd Hr Hok. destruct (is_handshake r) eqn:Hh; [by apply dispatch_handshake|].
  assert (Hnone : dispatches fs name [r] [] names outs [qm_message r; qm_text r] ins w
      [qm_message r; qm_text r] ins (set_trace (trace w ++ dispatch_events fs r) w)).
  { constructor; cbn [fold_left List.filter map concat]; unfold name_peer; rewrite ?Hh, ?app_nil_r; try done.
    by apply dispatching_traced. }
  destruct (CONNECTOR_IDENTIFY_INTERNAL (description (qm_header r))) eqn:Hint.
  - exists w, []. assert (Hev : dispatch_events fs r = []) by (unfold dispatch_events, is_user; by rewrite Hint, Hh).
    split; [|split; [done|]].
    + unfold dispatch_message. destruct Hr as [Hm _]. pose proof (tr_wf _ _ (ds_trampolines _ _ _ _ _ _ _ Hd)) as Hwf.
      rewrite (bind_done _ _ w _ _ (in_mem_done _ _ _ _ (load_message_owns _ _ _ Hwf Hm))), set_mem_id.
      rewrite (bind_done (message_header_of _) _ w (qm_header r) w) by done. rewrite Hint.
      assert (Hne : message_id (qm_header r) <> connector_internal_handshake_uuid)
        by (intros Hid; unfold is_handshake in Hh; by rewrite Hint, bool_decide_eq_true_2 in Hh).
      by rewrite (bind_done _ _ _ _ _ (internal_refused w _ _ _ (mo_uuid _ Hok) Hne)).
    + rewrite Hev, app_nil_r in Hnone. by destruct w.
  - exists (set_trace (trace w ++ dispatch_events fs r) w), []. split; [|by split].
    assert (Hev : dispatch_events fs r = deliveries fs r) by (unfold dispatch_events, is_user; by rewrite Hint).
    rewrite Hev. apply dispatch_message_user; [apply Hd | done | apply Hok | done].
Qed.

Lemma dispatch_all fs name rs : forall r w names outs codes,
  dispatching [qm_message r; qm_text r] w fs name names rs outs -> queued_at (mem w) r -> Forall message_ok (r :: rs) ->
  Forall (fun b => b = false) codes -> (length rs < length codes)%nat ->
  exists w' news, dispatch_loop (B := recording_bindings E) codes (qm_message r) w = Done 0 w' /\
    dispatches fs name (r :: rs) news names outs [qm_message r; qm_text r] rs w [] [] w'.
Proof.
  induction rs as [|r' rs IH]; intros r w names outs codes Hd Hr Hok Hcodes Hlen;
    (destruct codes as [|b codes]; [cbn in Hlen; lia|]); apply Forall_cons in Hcodes as [-> Hcodes];
    apply Forall_cons in Hok as [Hok Hoks]; cbn [dispatch_loop];
    rewrite (owns_pos _ _ _ (tr_wf _ _ (ds_trampolines _ _ _ _ _ _ _ Hd)) (proj1 Hr));
    destruct (dispatch_one w fs name names _ outs r Hd Hr Hok) as (w1 & n1 & Hone & Hr1 & Hd1);
    rewrite (bind_done _ _ _ _ _ Hone);
    destruct (delete_step w1 fs name _ _ _ r (dp_state _ _ _ _ _ _ _ _ _ _ _ _ Hd1) Hr1) as (m2 & Hdel & Hd2 & He2 & Ho2);
    rewrite (bind_done _ _ _ _ _ Hdel);
    pose proof (dispatches_none fs name _ _ _ _ w1 [] _ (set_mem m2 w1) Hd2 He2 ltac:(done) Ho2) as Hdel';
    pose proof (dispatches_trans _ _ _ _ _ _ _ _ _ _ _ _ _ _ _ _ _ Hd1 Hdel') as Hd12; rewrite !app_nil_r in Hd12.
  - destruct (acquire_nothing _ fs name _ _ Hd2) as (w3 & Hacq & Hd3 & He3 & Ht3 & Ho3).
    rewrite (bind_done _ _ _ _ _ Hacq). exists w3, n1. split; [by destruct codes|].
    pose proof (dispatches_none fs name _ _ _ _ _ [] [] w3 Hd3 He3 Ht3 Ho3) as Hacq'.
    pose proof (dispatches_trans _ _ _ _ _ _ _ _ _ _ _ _ _ _ _ _ _ Hd12 Hacq') as H. by rewrite !app_nil_r in H.
  - destruct (acquire_step _ fs name _ _ _ r' Hd2) as (w3 & Hacq & Hd3 & Hr3 & He3 & Ht3 & Ho3).
    rewrite (bind_done _ _ _ _ _ Hacq).
    destruct (IH r' w3 _ _ codes Hd3 Hr3 Hoks Hcodes) as (w4 & n2 & Hloop & Hd4); [cbn in Hlen; lia|].
    exists w4, (n1 ++ n2). split; [exact Hloop|].
    pose proof (dispatches_none fs name _ _ _ _ _ _ _ w3 Hd3 He3 Ht3 Ho3) as Hacq'.
    pose proof (dispatches_trans _ _ _ _ _ _ _ _ _ _ _ _ _ _ _ _ _ Hd12 Hacq') as H. rewrite !app_nil_r in H.
    by apply (dispatches_trans _ _ _ _ _ _ _ _ _ _ _ _ _ _ _ _ _ H Hd4).
Qed.

(** A round of a dispatch thread over a queue that is not empty. *)
Lemma round_dispatches w fs name names r rs outs signal_main codes :
  dispatching [] w fs name names (r :: rs) outs -> Forall message_ok (r :: rs) ->
  Forall (fun b => b = false) codes -> (length rs < length codes)%nat ->
  exists w' news, dispatch_round (B := recording_bindings E) signal_main [] codes w =
      Done true (set_trace (trace w' ++ (if signal_main then [BroadcastDispatchMain] else [])) w') /\
    dispatches fs name (r :: rs) news names outs [] (r :: rs) w [] [] w'.
Proof.
  intros Hd Hok Hcodes Hlen. unfold dispatch_round.
  destruct (acquire_step w fs name names rs outs r Hd) as (w1 & Hacq & Hd1 & Hr1 & He1 & Ht1 & Ho1).
  rewrite (bind_done _ _ _ _ _ Hacq), (bind_done _ _ w1 (Some (qm_message r)) w1).
  2:{ cbn [dispatch_wait]. by rewrite (owns_pos _ _ _ (tr_wf _ _ (ds_trampolines _ _ _ _ _ _ _ Hd1)) (proj1 Hr1)). }
  destruct (dispatch_all fs name rs r w1 names outs codes Hd1 Hr1 Hok Hcodes Hlen) as (w2 & news & Hloop & Hd2).
  rewrite (bind_done _ _ _ _ _ Hloop). exists w2, news. split.
  - unfold dispatch_signal_main_condition. destruct signal_main; cbn; [done|]. rewrite app_nil_r. by destruct w2.
  - apply (dispatches_trans fs name [] (r :: rs) [] news _ outs [] (r :: rs) w [qm_message r; qm_text r] rs w1); rewrite ?app_nil_r; [|done].
    by apply dispatches_none.
Qed.

(** ** Properties *)

(** C4: A dispatch thread handles whatever is queued, in the order it was received:
    a message of an application reaches every trampoline, a handshake is answered
    with one message to its context, signals the write threads and names the
    context, any other internal message is dropped.  Afterwards the inbound queue
    is empty; the outbound queue holds what it held, then the answers; each name
    is that of the last handshake, if any, and a block of its own; and of all
    other memory nothing was released or changed and nothing is left behind. *)
Theorem mixed_queue_is_dispatched w (fs name : list Z) (names : list (option (list Z))) (r : queued)
    (rs outs : list queued) (signal_main : bool) (codes : list bool)
    (Hd : dispatching [] w fs name names (r :: rs) outs) (Hok : Forall message_ok (r :: rs))
    (Hcodes : Forall (fun b => b = false) codes) (Hlen : (length rs < length codes)%nat) :
  exists w' news, dispatch_round (B := recording_bindings E) signal_main [] codes w = Done true w' /\
    trace w' = trace w ++ concat (map (dispatch_events fs) (r :: rs)) ++
      (if signal_main then [BroadcastDispatchMain] else []) /\
    dispatching [] w' fs name (fold_left name_peer (r :: rs) names) [] (outs ++ news) /\
    Forall2 (answers name) (List.filter is_handshake (r :: rs)) news /\ dispatched w w' /\
    forall a, others [] w' [] (outs ++ news) a = others [] w (r :: rs) outs a.
Proof.
  destruct (round_dispatches w fs name names r rs outs signal_main codes Hd Hok Hcodes Hlen)
    as (w' & news & Hrun & [Hd' Ha Ht He Ho]).
  eexists _, news. split; [exact Hrun|]. split; [cbn [trace set_trace]; by rewrite Ht, app_assoc|].
  split; [by apply dispatching_traced|]. split; [done|]. split; [by destruct He | done].
Qed.

End rounds.

(** ** An example *)

(** A handshake and a message wait in the queue. *)
Definition peer_name : list Z := [112; 101; 101; 114].
Definition hello_header : message_header := handshake_header peer_name.
Definition mixed_memory : memory :=
  alloc_with (BTramp 50 0) (alloc_with (BNode 0 5) (alloc_with (BNode 7 3)
  (alloc_with (BMsg (Message (Some user_header) 4 0)) (alloc_with (BStr ([104; 105] ++ [0]))
  (alloc_with (BMsg (Message (Some hello_header) 2 0)) (alloc_with (BStr (peer_name ++ [0]))
  (alloc_with (BStr ([109; 101] ++ [0])) initial_memory))))))).
Definition mixed_queue : list queued :=
  [Queued 6 3 2 hello_header peer_name 0; Queued 7 5 4 user_header [104; 105] 0].
Definition mixed_world : world simulation :=
  World _ (Simulation 9 false [] [] [] []) mixed_memory 0 1
    (replicate 32 (ContextStruct tcp_connected_bits 5 0 0 0 0)) QNull QNull
    (MessageQueues (LockedQueue 6 7 handle_message false) empty_queue MESSAGE_QUEUE_INITIALIZED) 8 [].

Lemma mixed_dispatching :
  dispatching [] mixed_world [50] [109; 101] (replicate 32 None) mixed_queue [].
Proof.
  assert (Hwf : mem_wf mixed_memory) by (do 8 apply alloc_with_wf; apply initial_memory_wf).
  constructor; try done.
  - constructor; [done | by split |]. exists [(8, 50)]. split; [|split; [done | apply NoDup_singleton]].
    split; [done|]. split; [done|]. by exists 0.
  - repeat constructor.
  - apply Forall2_replicate. done.
  - constructor.
    + constructor; [done | | done | apply (bool_decide_unpack _); by vm_compute].
      split; [done|]. exists 7. split; [done|]. split; [done|]. exists 0. done.
    + repeat constructor.
    + apply (bool_decide_unpack _). by vm_compute.
    + apply (bool_decide_unpack _). by vm_compute.
  - constructor; [by repeat constructor | constructor | apply NoDup_nil_2 | apply NoDup_nil_2].
  - apply (bool_decide_unpack _). by vm_compute.
  - intros a Ha Hs. revert Ha. apply elem_of_strings in Hs as [-> | (j & c & Hj & <-)].
    + apply (bool_decide_unpack _). by vm_compute.
    + apply lookup_replicate in Hj as [-> _]. apply (bool_decide_unpack _). by vm_compute.
  - intros c Hc. apply list_elem_of_lookup in Hc as [j Hj]. by apply lookup_replicate in Hj as [-> _].
  - intros i j c d Hi Hj _ H0. by apply lookup_replicate in Hi as [-> _].
Qed.

Lemma mixed_queue_is_dispatched_witness :
  exists w', dispatch_round (B := recording_bindings simulation) true [] [false; false] mixed_world = Done true w' /\
    trace w' = [SignalOutbound; TrampolineCall 50 0 connector_internal_log_uuid (Some [104; 105]); BroadcastDispatchMain] /\
    exists a, dispatching [] w' [50] [109; 101] (<[0%nat := Some peer_name]> (replicate 32 None)) [] [a].
Proof.
  destruct (mixed_queue_is_dispatched mixed_world [50] [109; 101] (replicate 32 None)
    (Queued 6 3 2 hello_header peer_name 0) [Queued 7 5 4 user_header [104; 105] 0] [] true [false; false]
    mixed_dispatching) as (w' & news & Hrun & Ht & Hd & Ha & _).
  - repeat constructor; cbn; lia.
  - by repeat constructor.
  - cbn. lia.
  - exists w'. split; [exact Hrun|]. split; [rewrite Ht; by vm_compute|].
    change (List.filter is_handshake _) with [Queued 6 3 2 hello_header peer_name 0] in Ha.
    apply Forall2_cons_inv_l in Ha as (a & tail & _ & Htail & ->). apply Forall2_nil_inv_l in Htail as ->.
    exists a. exact Hd.
Defined.
