(* ===== verification/ThreadModel.v ===== *)
(** * How the threads wait for each other

    The write threads ([write_threads.c]) and the dispatch threads ([dispatch.c])
    as machines whose steps interleave: each thread is at one place of its
    routine, the producers enqueue a message and later signal the condition, the
    main thread shuts the threads down.  What the threads do with a message is
    in [Dispatch]; here a message is only its number. *)

From S2P Require Import Prelude.

(** ** Machines *)

(** Where the main thread is in the shutdown function. *)
Inductive main_pc :=
  | M_idle                 (* the function has not been called *)
  | M_flagged              (* the flag is set, the condition not yet broadcast *)
  | M_join (k : nat)       (* joining thread k *)
  | M_done.

(** What the threads share. *)
Record shared := Shared {
  sh_queue : list Z;       (* the locked queue of messages *)
  sh_code : bool;          (* the shutdown flag *)
  sh_pending : nat;        (* producers between their enqueue and their signal *)
  sh_main : main_pc;
  sh_enqueued : list Z;    (* every message so far *)
  sh_done : list Z;        (* the messages that were processed *)
  sh_dropped : list Z      (* the messages deleted unprocessed by an exiting thread *)
}.

Definition set_queue (q : list Z) (sh : shared) : shared :=
  Shared q (sh_code sh) (sh_pending sh) (sh_main sh) (sh_enqueued sh) (sh_done sh) (sh_dropped sh).
Definition set_code (b : bool) (sh : shared) : shared :=
  Shared (sh_queue sh) b (sh_pending sh) (sh_main sh) (sh_enqueued sh) (sh_done sh) (sh_dropped sh).
Definition set_pending (n : nat) (sh : shared) : shared :=
  Shared (sh_queue sh) (sh_code sh) n (sh_main sh) (sh_enqueued sh) (sh_done sh) (sh_dropped sh).
Definition set_main (m : main_pc) (sh : shared) : shared :=
  Shared (sh_queue sh) (sh_code sh) (sh_pending sh) m (sh_enqueued sh) (sh_done sh) (sh_dropped sh).
Definition processed (m : Z) (sh : shared) : shared :=
  Shared (sh_queue sh) (sh_code sh) (sh_pending sh) (sh_main sh) (sh_enqueued sh) (sh_done sh ++ [m]) (sh_dropped sh).
Definition dropped (m : Z) (sh : shared) : shared :=
  Shared (sh_queue sh) (sh_code sh) (sh_pending sh) (sh_main sh) (sh_enqueued sh) (sh_done sh) (sh_dropped sh ++ [m]).
Definition enqueue (m : Z) (sh : shared) : shared :=
  Shared (sh_queue sh ++ [m]) (sh_code sh) (S (sh_pending sh)) (sh_main sh) (sh_enqueued sh ++ [m])
    (sh_done sh) (sh_dropped sh).

(** Taking the oldest message, if any. *)
Definition take_message (sh : shared) : option Z * shared :=
  match sh_queue sh with
  | [] => (None, sh)
  | m :: q => (Some m, set_queue q sh)
  end.

Inductive action :=
  | Run (i : nat)          (* thread i makes a step *)
  | Enqueue (m : Z)        (* a producer enqueues a message *)
  | Signal (i : nat)       (* a producer signals; thread i is woken if any waits *)
  | Spurious (i : nat)     (* the wait of thread i ends without a signal *)
  | Shutdown.              (* the main thread makes a step of the shutdown function *)

(** A kind of thread: its places, which of them hold the lock of the condition,
    the place inside the wait, the one after being woken, the end, and a step,
    given whether the lock is free. *)
Class routine (pc : Type) := Routine {
  pc_eq_dec :: EqDecision pc;
  holds : pc -> bool;
  pc_wait : pc;
  pc_wake : pc;
  pc_exit : pc;
  held : pc -> list Z;                (* the message the thread has taken *)
  local : bool -> pc -> shared -> option (pc * shared);
  broadcast_with_flag : bool          (* the flag is set under the lock *)
}.

Section machine.
Context {pc : Type} `{routine pc}.

Definition state : Type := shared * list pc.

(** Nobody holds the lock of the condition. *)
Definition lock_free (s : state) : bool := forallb (fun p => negb (holds p)) (snd s).

Definition is_waiting (p : pc) : bool := bool_decide (p = pc_wait).
Definition wake_all (ps : list pc) : list pc :=
  map (fun p => if is_waiting p then pc_wake else p) ps.

Definition run_thread (i : nat) (s : state) : option state :=
  p ← snd s !! i;
  r ← local (lock_free s) p (fst s);
  Some (snd r, <[i := fst r]> (snd s)).

(** [connector_condition_signal] between locking and unlocking. *)
Definition signal (i : nat) (s : state) : option state :=
  let '(sh, ps) := s in
  if lock_free s && (0 <? sh_pending sh)%nat then
    let sh' := set_pending (sh_pending sh - 1) sh in
    match ps !! i with
    | Some p =>
        if is_waiting p then Some (sh', <[i := pc_wake]> ps)
        else if existsb is_waiting ps then None else Some (sh', ps)
    | None => None
    end
  else None.

(** POSIX lets [pthread_cond_wait] return without a signal. *)
Definition wake_spuriously (i : nat) (s : state) : option state :=
  p ← snd s !! i;
  if is_waiting p then Some (fst s, <[i := pc_wake]> (snd s)) else None.

Definition main_step (s : state) : option state :=
  let '(sh, ps) := s in
  match sh_main sh with
  | M_idle =>
      if broadcast_with_flag then
        if lock_free s then Some (set_main (M_join 0) (set_code true sh), wake_all ps) else None
      else Some (set_main M_flagged (set_code true sh), ps)
  | M_flagged => if lock_free s then Some (set_main (M_join 0) sh, wake_all ps) else None
  | M_join k =>
      match ps !! k with
      | Some p => if bool_decide (p = pc_exit) then Some (set_main (M_join (S k)) sh, ps) else None
      | None => Some (set_main M_done (set_code false sh), ps)
      end
  | M_done => None
  end.

Definition step (a : action) (s : state) : option state :=
  match a with
  | Run i => run_thread i s
  | Enqueue m => Some (enqueue m (fst s), snd s)
  | Signal i => signal i s
  | Spurious i => wake_spuriously i s
  | Shutdown => main_step s
  end.

Fixpoint run (actions : list action) (s : state) : option state :=
  match actions with
  | [] => Some s
  | a :: actions' => s' ← step a s; run actions' s'
  end.

Definition fresh_shared : shared := Shared [] false 0 M_idle [] [] [].

(** The states reached from [n] threads at the place [p]. *)
Definition reachable (p : pc) (n : nat) (s : state) : Prop :=
  exists actions, run actions (fresh_shared, replicate n p) = Some s.

End machine.
Arguments state : clear implicits.

(** ** [write_thread_routine] *)

Inductive write_pc :=
  | W_test                 (* while (write_thread_shutdown_flag == 0u ...) *)
  | W_lock                 (* connector_mutex_lock (&outbound_lock) *)
  | W_null                 (* while (message == NULL), the lock is held *)
  | W_wait                 (* in connector_condition_wait, the lock is released *)
  | W_wake                 (* woken, the lock is to be taken again *)
  | W_flag                 (* if (write_thread_shutdown_flag != 0u), the lock is held *)
  | W_acquire              (* connector_acquire_outbound_message, the lock is held *)
  | W_have (m : Z)         (* connector_mutex_unlock (&outbound_lock) *)
  | W_write (m : Z)        (* sending and deleting the message *)
  | W_next                 (* the acquire of the inner loop *)
  | W_exit.

#[export] Instance write_pc_eq_dec : EqDecision write_pc.
Proof. solve_decision. Defined.

Definition write_holds (p : write_pc) : bool :=
  match p with W_null | W_flag | W_acquire | W_have _ => true | _ => false end.
Definition write_held (p : write_pc) : list Z :=
  match p with W_have m | W_write m => [m] | _ => [] end.

Definition write_local (free : bool) (p : write_pc) (sh : shared) : option (write_pc * shared) :=
  match p with
  | W_test => Some (if sh_code sh then W_exit else W_lock, sh)
  | W_lock => if free then Some (W_null, sh) else None
  | W_null => Some (W_wait, sh)
  | W_wait => None
  | W_wake => if free then Some (W_flag, sh) else None
  | W_flag => Some (if sh_code sh then W_exit else W_acquire, sh)
  | W_acquire =>
      match take_message sh with
      | (None, sh') => Some (W_null, sh')
      | (Some m, sh') => Some (W_have m, sh')
      end
  | W_have m => Some (W_write m, sh)
  | W_write m => Some (W_next, processed m sh)
  | W_next =>
      match take_message sh with
      | (None, sh') => Some (W_test, sh')
      | (Some m, sh') => Some (W_write m, sh')
      end
  | W_exit => None
  end.

#[export] Instance write_thread : routine write_pc := {
  holds := write_holds;
  pc_wait := W_wait;
  pc_wake := W_wake;
  pc_exit := W_exit;
  held := write_held;
  local := write_local;
  broadcast_with_flag := false
}.

(** ** [dispatch_routine] *)

Inductive dispatch_pc :=
  | D_test                        (* while (dispatch_shutdown_code == 0u ...) *)
  | D_acquire                     (* connector_acquire_inbound_message, no lock is held *)
  | D_lock (m : option Z)         (* connector_mutex_lock (&dispatch_lock) *)
  | D_check (m : option Z)        (* while (message == NULL && code == 0u), the lock is held *)
  | D_wait                        (* in connector_condition_wait, the lock is released *)
  | D_wake                        (* woken, the lock is to be taken again *)
  | D_unlock                      (* connector_mutex_unlock after the wait *)
  | D_code                        (* if (dispatch_shutdown_code != 0u) *)
  | D_again                       (* the acquire of the waiting loop *)
  | D_loop (m : option Z)         (* while (message != NULL && code == 0u) *)
  | D_next                        (* the acquire of the inner loop *)
  | D_drop (m : Z)                (* deleting the message behind thread_exit *)
  | D_exit.

#[export] Instance dispatch_pc_eq_dec : EqDecision dispatch_pc.
Proof. solve_decision. Defined.

Definition dispatch_holds (p : dispatch_pc) : bool :=
  match p with D_check _ | D_unlock => true | _ => false end.
Definition dispatch_held (p : dispatch_pc) : list Z :=
  match p with
  | D_lock m | D_check m | D_loop m => option_list m
  | D_drop m => [m]
  | _ => []
  end.

Definition dispatch_local (free : bool) (p : dispatch_pc) (sh : shared) : option (dispatch_pc * shared) :=
  match p with
  | D_test => Some (if sh_code sh then D_exit else D_acquire, sh)
  | D_acquire => let '(m, sh') := take_message sh in Some (D_lock m, sh')
  | D_lock m => if free then Some (D_check m, sh) else None
  | D_check m =>
      match m with
      | None => Some (if sh_code sh then D_loop None else D_wait, sh)
      | Some _ => Some (D_loop m, sh)
      end
  | D_wait => None
  | D_wake => if free then Some (D_unlock, sh) else None
  | D_unlock => Some (D_code, sh)
  | D_code => Some (if sh_code sh then D_exit else D_again, sh)
  | D_again => let '(m, sh') := take_message sh in Some (D_lock m, sh')
  | D_loop m =>
      match m with
      | None => Some (D_test, sh)
      | Some x => if sh_code sh then Some (D_drop x, sh) else Some (D_next, processed x sh)
      end
  | D_next => let '(m, sh') := take_message sh in Some (D_loop m, sh')
  | D_drop x => Some (D_exit, dropped x sh)
  | D_exit => None
  end.

#[export] Instance dispatch_thread : routine dispatch_pc := {
  holds := dispatch_holds;
  pc_wait := D_wait;
  pc_wake := D_wake;
  pc_exit := D_exit;
  held := dispatch_held;
  local := dispatch_local;
  broadcast_with_flag := true
}.

(** ** Messages are conserved *)

(** What a routine promises about the messages. *)
Class conserving (pc : Type) `{routine pc} : Prop := {
  held_wait : held pc_wait = [] /\ held pc_wake = [];
  local_conserves : forall free p sh p' sh', local free p sh = Some (p', sh') ->
    sh_enqueued sh' = sh_enqueued sh /\
    sh_done sh' ++ sh_dropped sh' ++ held p' ++ sh_queue sh' ≡ₚ
      sh_done sh ++ sh_dropped sh ++ held p ++ sh_queue sh
}.

Ltac run_local :=
  unfold take_message in *;
  repeat match goal with
  | |- context [match sh_queue ?x with _ => _ end] => destruct (sh_queue x) eqn:?
  | |- context [if ?b then _ else _] => destruct b
  end.

#[export] Instance write_conserving : conserving write_pc.
Proof.
  constructor; [done|]. intros free p sh p' sh'. cbn [local write_thread].
  destruct p; cbn [write_local]; run_local; intros [= <- <-]; cbn; split; try done;
    try solve_Permutation.
  all: by rewrite ?Heql, <- ?app_assoc.
Qed.

#[export] Instance dispatch_conserving : conserving dispatch_pc.
Proof.
  constructor; [done|]. intros free p sh p' sh'. cbn [local dispatch_thread].
  destruct p as [| |m|m| | | | | |m| |m|]; try (destruct m as [m|]); cbn [dispatch_local]; run_local; intros [= <- <-]; cbn; split; try done;
    try solve_Permutation.
  all: by rewrite ?Heql, <- ?app_assoc.
Qed.

Section conservation.
Context {pc : Type} `{conserving pc}.
Implicit Types s : state pc.

(** The messages the threads have in hand. *)
Definition in_hand (ps : list pc) : list Z := concat (map held ps).
#[local] Arguments in_hand ps : simpl never.

(** Every message is in exactly one place. *)
Definition conserved s : Prop :=
  sh_done (fst s) ++ sh_dropped (fst s) ++ in_hand (snd s) ++ sh_queue (fst s) ≡ₚ sh_enqueued (fst s).

Lemma in_hand_insert ps i p p' :
  ps !! i = Some p -> exists rest, in_hand ps ≡ₚ held p ++ rest /\ in_hand (<[i := p']> ps) ≡ₚ held p' ++ rest.
Proof.
  intros Hi. exists (in_hand (take i ps ++ drop (S i) ps)). unfold in_hand.
  rewrite (insert_take_drop ps i p') by (by eapply lookup_lt_Some).
  rewrite <- (take_drop_middle ps i p Hi) at 1.
  rewrite !map_app, !concat_app. cbn [map concat]. split; solve_Permutation.
Qed.

Lemma in_hand_wake ps : in_hand (wake_all ps) = in_hand ps.
Proof.
  unfold in_hand, wake_all. rewrite map_map. f_equal. apply map_ext. intros p. unfold is_waiting.
  case_bool_decide as Hp; [|done]. subst p. by destruct held_wait as [-> ->].
Qed.

Lemma in_hand_wake_one ps i : ps !! i = Some pc_wait -> in_hand (<[i := pc_wake]> ps) ≡ₚ in_hand ps.
Proof.
  intros Hi. destruct (in_hand_insert ps i pc_wait pc_wake Hi) as (rest & H1 & H2).
  rewrite H1, H2. by destruct held_wait as [-> ->].
Qed.

Lemma step_conserved a s s' : conserved s -> step a s = Some s' -> conserved s'.
Proof.
  unfold conserved. destruct s as [sh ps]. destruct a as [i|m|i|i|]; cbn [step fst snd].
  - intros Hs. unfold run_thread. destruct (ps !! i) as [p|] eqn:Hi; [|by cbn; rewrite Hi]. cbn. rewrite Hi. cbn.
    destruct (local _ p sh) as [[p' sh']|] eqn:Hl; [|done]. intros [= <-]. cbn.
    destruct (local_conserves _ _ _ _ _ Hl) as [He Hp].
    destruct (in_hand_insert ps i p p' Hi) as (rest & H1 & H2).
    rewrite He, <- Hs, H1, H2. transitivity (rest ++ (sh_done sh' ++ sh_dropped sh' ++ held p' ++ sh_queue sh')).
    { solve_Permutation. } rewrite Hp. solve_Permutation.
  - intros Hs [= <-]. cbn. rewrite <- Hs. solve_Permutation.
  - intros Hs. unfold signal. destruct (lock_free _ && _); [|done].
    destruct (ps !! i) as [p|] eqn:Hi; [|done]. unfold is_waiting at 1.
    case_bool_decide as Hp; [|destruct (existsb _ _); [done|]]; intros [= <-]; cbn; [|done].
    subst p. by rewrite in_hand_wake_one.
  - intros Hs. unfold wake_spuriously. cbn [fst snd]. destruct (ps !! i) as [p|] eqn:Hi; [|done]. cbn.
    unfold is_waiting. case_bool_decide as Hp; [|done]. intros [= <-]. cbn. subst p. by rewrite in_hand_wake_one.
  - intros Hs. unfold main_step. destruct (sh_main sh) as [| |k|]; [| | |done].
    + destruct broadcast_with_flag; [destruct (lock_free _); [|done]|]; intros [= <-]; cbn; [|done].
      by rewrite in_hand_wake.
    + destruct (lock_free _); [|done]. intros [= <-]. cbn. by rewrite in_hand_wake.
    + destruct (ps !! k) as [p|]; [case_bool_decide; [|done]|]; by intros [= <-].
Qed.

Lemma run_conserved actions s s' : conserved s -> run actions s = Some s' -> conserved s'.
Proof.
  revert s. induction actions as [|a actions IH]; intros s Hs; cbn [run]; [by intros [= <-]|].
  destruct (step a s) as [s1|] eqn:E; cbn; [|done]. apply IH. by apply (step_conserved a s).
Qed.

Lemma reachable_conserved p n s : held p = [] -> reachable p n s -> conserved s.
Proof.
  intros Hp [actions Hrun]. apply run_conserved in Hrun; [done|].
  unfold conserved, in_hand. cbn. rewrite app_nil_r. clear -Hp.
  induction n as [|n IH]; [done|]. cbn. by rewrite Hp.
Qed.

End conservation.

(** ** The shutdown of the dispatch threads *)

(** How many steps a thread still makes once the shutdown code is set. *)
Definition dispatch_rank (p : dispatch_pc) : nat :=
  match p with
  | D_exit | D_wait => 0
  | D_drop _ | D_test | D_code => 1
  | D_loop _ | D_unlock => 2
  | D_next | D_check _ | D_wake => 3
  | D_lock _ => 4
  | D_acquire | D_again => 5
  end.
Definition shutdown_measure (s : state dispatch_pc) : nat := sum_list (map dispatch_rank (snd s)).

Section dispatch_shutdown.
Implicit Types s : state dispatch_pc.

Definition none_waits s : Prop := sh_code (fst s) = true -> Forall (fun p => p <> D_wait) (snd s).

Lemma take_message_code sh : sh_code (snd (take_message sh)) = sh_code sh.
Proof. unfold take_message. by destruct (sh_queue sh). Qed.

Lemma dispatch_local_code free p sh p' sh' :
  dispatch_local free p sh = Some (p', sh') ->
  sh_code sh' = sh_code sh /\
  (sh_code sh = true -> p' <> D_wait /\ (dispatch_rank p' < dispatch_rank p)%nat).
Proof.
  pose proof (take_message_code sh) as Ht. destruct (take_message sh) as [m' sh1] eqn:Em. cbn in Ht.
  destruct p as [| |m|m| | | | | |m| |m|]; cbn [dispatch_local]; rewrite ?Em;
    try (destruct m as [m|]); destruct free; destruct (sh_code sh) eqn:Ec; intros [= <- <-]; cbn;
    (split; [congruence|]); intros ?; (split; [done | lia]).
Qed.

Lemma wake_all_none ps : Forall (fun p => p <> D_wait) (wake_all ps).
Proof.
  apply Forall_forall. intros p Hp. apply list_elem_of_In, in_map_iff in Hp as (p' & <- & _).
  unfold is_waiting. by case_bool_decide.
Qed.

Lemma step_none_waits a s s' : none_waits s -> step a s = Some s' -> none_waits s'.
Proof.
  unfold none_waits. destruct s as [sh ps]. destruct a as [i|m|i|i|]; cbn [step fst snd].
  - intros Hs. unfold run_thread. cbn [fst snd]. destruct (ps !! i) as [p|] eqn:Hi; [|done]. cbn.
    destruct (dispatch_local _ p sh) as [[p' sh']|] eqn:Hl; [|done]. intros [= <-] Hc. cbn in *.
    apply dispatch_local_code in Hl as [Heq Hl]. rewrite Heq in Hc.
    apply Forall_insert; [by apply Hs | by apply Hl].
  - by intros Hs [= <-].
  - intros Hs. unfold signal. destruct (lock_free _ && _); [|done].
    destruct (ps !! i) as [p|] eqn:Hi; [|done].
    destruct (is_waiting p); [|destruct (existsb _ _); [done|]]; intros [= <-] Hc; cbn in *; [|by apply Hs].
    apply Forall_insert; [by apply Hs | done].
  - intros Hs. unfold wake_spuriously. cbn [fst snd]. destruct (ps !! i) as [p|]; [|done]. cbn.
    destruct (is_waiting p); [|done]. intros [= <-] Hc. apply Forall_insert; [by apply Hs | done].
  - intros Hs. unfold main_step. destruct (sh_main sh) as [| |k|]; [| | |done].
    + cbn [broadcast_with_flag dispatch_thread]. destruct (lock_free _); [|done]. intros [= <-] _. apply wake_all_none.
    + destruct (lock_free _); [|done]. intros [= <-] _. apply wake_all_none.
    + destruct (ps !! k) as [p|]; [case_bool_decide; [|done]|]; intros [= <-]; cbn; [done | discriminate].
Qed.

Lemma run_none_waits actions s s' : none_waits s -> run actions s = Some s' -> none_waits s'.
Proof.
  revert s. induction actions as [|a actions IH]; intros s Hs; cbn [run]; [by intros [= <-]|].
  destruct (step a s) as [s1|] eqn:E; cbn; [|done]. apply IH. by apply (step_none_waits a s).
Qed.

Lemma run_thread_shutdown i s s' :
  sh_code (fst s) = true -> run_thread i s = Some s' ->
  sh_code (fst s') = true /\ (shutdown_measure s' < shutdown_measure s)%nat.
Proof.
  destruct s as [sh ps]. intros Hc. unfold run_thread. cbn [fst snd] in *.
  destruct (ps !! i) as [p|] eqn:Hi; [|done]. cbn.
  destruct (dispatch_local _ p sh) as [[p' sh']|] eqn:Hl; [|done]. intros [= <-]. cbn.
  apply dispatch_local_code in Hl as [Heq Hl]. split; [congruence|].
  apply (sum_list_insert_lt dispatch_rank ps i p p' Hi). by apply Hl.
Qed.

(** A thread that holds the lock, or needs none, can go on. *)
Lemma dispatch_local_enabled free p sh :
  p <> D_exit -> p <> D_wait -> (free = true \/ dispatch_holds p = true) ->
  is_Some (dispatch_local free p sh).
Proof.
  intros He Hw Hf. destruct p as [| |m|m| | | | | |m| |m|]; cbn in *; try done.
  all: try (destruct (take_message sh); done). all: try (by destruct Hf as [-> |]).
  all: by destruct m, (sh_code sh).
Qed.

Lemma run_thread_progress s :
  Forall (fun p => p <> D_wait) (snd s) -> ~ Forall (fun p => p = D_exit) (snd s) ->
  exists i s', run_thread i s = Some s'.
Proof.
  destruct s as [sh ps]. cbn [snd]. intros Hw He.
  assert (Hgo : exists i p, ps !! i = Some p /\ p <> D_exit /\
    (lock_free (sh, ps) = true \/ dispatch_holds p = true)).
  { destruct (lock_free (sh, ps)) eqn:Hf.
    - apply (not_Forall_Exists _) in He.
      apply Exists_exists in He as (p & Hin & Hp). apply list_elem_of_lookup in Hin as [i Hi]. eauto 6.
    - unfold lock_free in Hf. cbn [snd] in Hf. apply not_true_iff_false in Hf.
      rewrite forallb_forall in Hf.
      destruct (decide (Exists (fun p => dispatch_holds p = true) ps)) as [Hex|Hno].
      + apply Exists_exists in Hex as (p & Hin & Hp). apply list_elem_of_lookup in Hin as [i Hi].
        exists i, p. split; [done|]. split; [by intros ->|]. auto.
      + destruct Hf. intros p Hin. cbn. destruct (dispatch_holds p) eqn:Hp; [|done].
        destruct Hno. apply Exists_exists. exists p. split; [by apply list_elem_of_In | done]. }
  destruct Hgo as (i & p & Hi & Hp & Hl).
  assert (Hpw : p <> D_wait) by (rewrite Forall_forall in Hw; apply Hw; by eapply list_elem_of_lookup_2).
  destruct (dispatch_local_enabled (lock_free (sh, ps)) p sh Hp Hpw Hl) as [[p' sh'] Hr].
  exists i. eexists. unfold run_thread. cbn [fst snd]. rewrite Hi. cbn -[lock_free]. by rewrite Hr.
Qed.

Lemma run_threads_bounded schedule s s' :
  sh_code (fst s) = true -> run (map Run schedule) s = Some s' ->
  sh_code (fst s') = true /\ (length schedule + shutdown_measure s' <= shutdown_measure s)%nat.
Proof.
  revert s. induction schedule as [|i schedule IH]; intros s Hc; cbn; [by intros [= <-]|].
  destruct (run_thread i s) as [s1|] eqn:E; cbn; [|done]. intros Hrun.
  destruct (run_thread_shutdown i s s1 Hc E) as [Hc1 Hm]. destruct (IH s1 Hc1 Hrun). split; [done | lia].
Qed.

Lemma run_threads_finish n s :
  (shutdown_measure s <= n)%nat -> sh_code (fst s) = true -> none_waits s ->
  exists schedule s', run (map Run schedule) s = Some s' /\ Forall (fun p => p = D_exit) (snd s').
Proof.
  revert s. induction n as [|n IH]; intros s Hm Hc Hw;
    (destruct (decide (Forall (fun p => p = D_exit) (snd s))) as [He|He]; [by exists [], s|]);
    destruct (run_thread_progress s (Hw Hc) He) as (i & s1 & Hs1);
    destruct (run_thread_shutdown i s s1 Hc Hs1) as [Hc1 Hm1]; [lia|].
  destruct (IH s1) as (schedule & s' & Hrun & Hs'); [lia | done | by apply (step_none_waits (Run i) s)|].
  exists (i :: schedule), s'. cbn. rewrite Hs1. done.
Qed.

End dispatch_shutdown.

(** ** Properties *)

(** C14: However the threads, the producers and the shutdown interleave, no message
    is lost or handled twice: in every reachable state, with any number of write
    threads or of dispatch threads, every message ever enqueued is exactly once
    either processed, or deleted by an exiting thread, or in the hands of one
    thread, or still queued. *)
Theorem messages_are_conserved (n : nat) (ws : state write_pc) (ds : state dispatch_pc)
    (Hw : reachable W_test n ws) (Hd : reachable D_test n ds) :
  conserved ws /\ conserved ds.
Proof. split; eapply reachable_conserved; eauto; done. Qed.

Definition start_write : state write_pc := (fresh_shared, replicate 2 W_test).
Definition start_dispatch : state dispatch_pc := (fresh_shared, replicate 2 D_test).

(** Two write threads that go to sleep right after a message was signalled. *)
Definition lost_write : list action :=
  [Enqueue 7; Signal 0; Run 0; Run 0; Run 0; Run 1; Run 1; Run 1].

(** Two dispatch threads wait, each is woken for one message and processes it,
    finds the queue empty, and goes back to sleep right after a third message
    was signalled. *)
Definition lost_dispatch : list action :=
  replicate 4 (Run 0) ++ replicate 4 (Run 1) ++
  [Enqueue 1; Signal 0] ++ replicate 11 (Run 0) ++ [Enqueue 2; Signal 1] ++ replicate 11 (Run 1) ++
  [Enqueue 7; Signal 0; Run 0; Run 0; Run 1; Run 1].

(** The first write thread has looked at the flag just before it was set. *)
Definition hanging_shutdown : list action :=
  [Run 0; Run 1; Run 1; Run 1; Shutdown; Shutdown; Run 0; Run 0; Run 1; Run 1].

Lemma messages_are_conserved_witness :
  exists ws ds, run lost_write start_write = Some ws /\ conserved ws /\
    run lost_dispatch start_dispatch = Some ds /\ conserved ds.
Proof.
  destruct (run lost_write start_write) as [ws|] eqn:Ew; [|by vm_compute in Ew].
  destruct (run lost_dispatch start_dispatch) as [ds|] eqn:Ed; [|by vm_compute in Ed].
  destruct (messages_are_conserved 2 ws ds ltac:(by exists lost_write) ltac:(by exists lost_dispatch)) as [Hw Hd].
  exists ws, ds. auto.
Defined.

(** No thread can go on, and nobody is about to signal. *)
Definition asleep {pc} `{routine pc} (s : state pc) : Prop :=
  sh_code (fst s) = false /\ sh_pending (fst s) = 0%nat /\ Forall (fun p => p = pc_wait) (snd s) /\
  forall i, run_thread i s = None.

(** A wakeup can be lost.  Neither routine looks at its queue between taking
    the lock and waiting: two write threads, and two dispatch threads that are
    running normally, can each reach a state in which a message is queued, its
    producer has already signalled the condition, and every thread is asleep;
    the message then stays queued until a later message is signalled (or a wait
    ends by itself). *)
Theorem wakeups_can_be_lost :
  (exists s, run lost_write start_write = Some s /\ sh_queue (fst s) = [7] /\ asleep s) /\
  (exists s, run lost_dispatch start_dispatch = Some s /\ sh_queue (fst s) = [7] /\
     sh_done (fst s) = [1; 2] /\ asleep s).
Proof.
  split; (eexists; split; [vm_compute; reflexivity|]); repeat (split; [by repeat constructor|]).
  all: intros [|[|i]]; by cbn.
Qed.

(** Shutting the write threads down can block for ever.  The flag is set and
    broadcast without regard to a thread that has tested the flag but not yet
    reached its wait: a state is reachable in which the main thread is joining a
    write thread that waits for a signal nobody will send, and no step at all is
    possible except enqueueing yet another message and a wait that ends by
    itself. *)
Theorem write_shutdown_can_hang :
  exists s, run hanging_shutdown start_write = Some s /\ sh_main (fst s) = M_join 0 /\
    snd s !! 0%nat = Some W_wait /\
    forall a s', step a s = Some s' -> (exists m, a = Enqueue m) \/ a = Spurious 0.
Proof.
  eexists. split; [vm_compute; reflexivity|]. split; [done|]. split; [done|].
  intros [[|[|i]]|m|i|[|[|i]]|] s'; cbn; try discriminate; eauto.
Qed.

(** C13: Shutting the dispatch threads down always succeeds.  In every reachable
    state in which the shutdown code is set no dispatch thread sleeps; from
    there the threads make at most [shutdown_measure] more steps in any order,
    they can always reach their ends, and wherever they cannot go on all of them
    have exited, so that joining them terminates. *)
Theorem dispatch_shutdown_terminates (n : nat) (s : state dispatch_pc)
    (Hs : reachable D_test n s) (Hcode : sh_code (fst s) = true) :
  Forall (fun p => p <> D_wait) (snd s) /\
  (forall schedule s', run (map Run schedule) s = Some s' ->
     (length schedule <= shutdown_measure s)%nat /\
     ((forall i, run_thread i s' = None) -> Forall (fun p => p = D_exit) (snd s'))) /\
  (exists schedule s', run (map Run schedule) s = Some s' /\ Forall (fun p => p = D_exit) (snd s')).
Proof.
  destruct Hs as [actions Hrun].
  assert (Hw : none_waits s) by (apply (run_none_waits actions _ s) in Hrun; [done | discriminate]).
  split; [by apply Hw|]. split.
  - intros schedule s' Hs'. destruct (run_threads_bounded schedule s s' Hcode Hs') as [Hc' Hm].
    split; [lia|]. intros Hstuck.
    assert (Hw' : none_waits s') by (by apply (run_none_waits (map Run schedule) s)).
    destruct (decide (Forall (fun p => p = D_exit) (snd s'))) as [|He]; [done|].
    destruct (run_thread_progress s' (Hw' Hc') He) as (i & s2 & Hi). by rewrite Hstuck in Hi.
  - by apply (run_threads_finish (shutdown_measure s)).
Qed.

Lemma dispatch_shutdown_terminates_witness :
  exists s, run (lost_dispatch ++ [Shutdown]) start_dispatch = Some s /\
    Forall (fun p => p <> D_wait) (snd s).
Proof.
  destruct (run (lost_dispatch ++ [Shutdown]) start_dispatch) as [s|] eqn:E; [|by vm_compute in E].
  exists s. split; [reflexivity|].
  apply (dispatch_shutdown_terminates 2 s); [by exists (lost_dispatch ++ [Shutdown])|].
  vm_compute in E. injection E as <-. reflexivity.
Defined.
