(* ===== verification/DispatchStart.v ===== *)
(** * The start of the dispatch threads

    [connector_init_dispatch_subsystem] ([dispatch.c]) creates the threads and spins
    until each has set its flag [initialized], which it does right before it goes
    to sleep.  The machine is that of [ThreadModel] with the flags and the place of
    the thread that initialises. *)

From S2P Require Import Prelude ThreadModel.

(** ** The machine *)

Definition SUBSTANCE_CONNECTOR_DISPATCH_COUNT : nat := 2.

(** Where the thread that initialises is: creating thread [i], spinning, or back
    with its caller. *)
Inductive start_pc := S_create (i : nat) | S_spin | S_returned.

(** [initialized] of each element of [dispatch_threads]. *)
Record starting := Starting {
  st_shared : shared;
  st_threads : list dispatch_pc;
  st_initialized : list bool;
  st_main : start_pc
}.

Inductive start_action :=
  | Create                 (* connector_thread_create *)
  | Spin                   (* one pass of the spinning loop *)
  | Thread (a : action).   (* a thread or a producer makes a step *)

(** Thread [i] enters the body of its waiting loop. *)
Definition enters_wait (a : action) (s : starting) : option nat :=
  match a with
  | Run i =>
      if bool_decide (st_threads s !! i = Some (D_check None)) && negb (sh_code (st_shared s)) then Some i else None
  | _ => None
  end.

Definition start_step (a : start_action) (s : starting) : option starting :=
  match a, st_main s with
  | Create, S_create i =>
      Some (Starting (st_shared s) (st_threads s ++ [D_test]) (<[i := false]> (st_initialized s))
              (if (S i <? SUBSTANCE_CONNECTOR_DISPATCH_COUNT)%nat then S_create (S i) else S_spin))
  | Spin, S_spin =>
      if lock_free (st_shared s, st_threads s) then
        Some (Starting (st_shared s) (st_threads s) (st_initialized s)
                (if forallb id (st_initialized s) then S_returned else S_spin))
      else None
  | Thread a, _ =>
      r ← step a (st_shared s, st_threads s);
      Some (Starting (fst r) (snd r)
              (match enters_wait a s with Some i => <[i := true]> (st_initialized s) | None => st_initialized s end)
              (st_main s))
  | _, _ => None
  end.

Fixpoint start_run (actions : list start_action) (s : starting) : option starting :=
  match actions with
  | [] => Some s
  | a :: actions' => s' ← start_step a s; start_run actions' s'
  end.

(** The flags are those of the structures of an earlier cycle, if any. *)
Definition before_start (flags : list bool) : starting := Starting fresh_shared [] flags (S_create 0).

(** While the subsystem starts, the threads only run. *)
Definition quiet_action (a : start_action) : Prop :=
  match a with Create | Spin | Thread (Run _) => True | _ => False end.

(** ** Lemmas *)

(** How many steps a thread still makes before it sleeps. *)
Definition start_rank (p : dispatch_pc) : nat :=
  match p with D_test => 4 | D_acquire => 3 | D_lock _ => 2 | D_check _ => 1 | _ => 0 end.

(** Threads on the way to their first wait, or in it, with the flag to match. *)
Definition on_the_way (p : dispatch_pc) (flag : bool) : Prop :=
  (p = D_wait /\ flag = true) \/
  ((p = D_test \/ p = D_acquire \/ p = D_lock None \/ p = D_check None) /\ flag = false).

(** How many threads there are at this place of the start. *)
Definition created (m : start_pc) : nat :=
  match m with S_create i => i | _ => SUBSTANCE_CONNECTOR_DISPATCH_COUNT end.

Record start_inv (s : starting) : Prop := {
  si_shared : st_shared s = fresh_shared;
  si_created : length (st_threads s) = created (st_main s);
  si_flags : length (st_initialized s) = SUBSTANCE_CONNECTOR_DISPATCH_COUNT;
  si_main : match st_main s with S_create i => (i < SUBSTANCE_CONNECTOR_DISPATCH_COUNT)%nat | _ => True end;
  si_threads i p : st_threads s !! i = Some p ->
    exists flag, st_initialized s !! i = Some flag /\ on_the_way p flag;
  si_returned : st_main s = S_returned -> forallb id (st_initialized s) = true
}.

Lemma before_start_inv flags :
  length flags = SUBSTANCE_CONNECTOR_DISPATCH_COUNT -> start_inv (before_start flags).
Proof. intros Hf. constructor; cbn; try done. unfold SUBSTANCE_CONNECTOR_DISPATCH_COUNT. lia. Qed.

(** A step of a thread on its way. *)
Lemma on_the_way_step free p flag p' sh' :
  on_the_way p flag -> dispatch_local free p fresh_shared = Some (p', sh') ->
  sh' = fresh_shared /\ (start_rank p' < start_rank p)%nat /\
  on_the_way p' (if bool_decide (p = D_check None) then true else flag).
Proof.
  intros Hp. destruct Hp as [[-> ->]|[[->|[->|[->| ->]]] ->]]; cbn; try (by intros [= <- <-]);
    [intros [= <- <-] | intros [= <- <-] | destruct free; [intros [= <- <-]|done] | intros [= <- <-]];
    (split; [done|]); (split; [cbn; lia|]); unfold on_the_way; cbn; auto 10.
Qed.

Lemma forallb_id_insert i l : forallb id l = true -> forallb id (<[i := true]> l) = true.
Proof.
  rewrite !forallb_forall. intros Hl x Hx. apply list_elem_of_In, list_elem_of_lookup in Hx as [j Hj].
  apply list_lookup_insert_Some in Hj as [(_ & <- & _)|[_ Hj]]; [done|].
  apply Hl, list_elem_of_In. by eapply list_elem_of_lookup_2.
Qed.

(** What a step of thread [i] does while the subsystem starts. *)
Lemma start_thread_step i s s' :
  start_inv s -> start_step (Thread (Run i)) s = Some s' ->
  exists p p', st_threads s !! i = Some p /\ st_initialized s !! i = Some false /\ (start_rank p' < start_rank p)%nat /\
    on_the_way p' (bool_decide (p = D_check None)) /\
    s' = Starting fresh_shared (<[i := p']> (st_threads s))
           (if bool_decide (p = D_check None) then <[i := true]> (st_initialized s) else st_initialized s) (st_main s).
Proof.
  intros [Hsh _ _ _ Hth _]. destruct s as [sh ps flags m]. cbn [st_shared st_threads] in *. subst sh.
  assert (Hst : start_step (Thread (Run i)) (Starting fresh_shared ps flags m) =
    r ← run_thread i (fresh_shared, ps);
    Some (Starting (fst r) (snd r)
      (match enters_wait (Run i) (Starting fresh_shared ps flags m) with Some i => <[i := true]> flags | None => flags end) m))
    by (by destruct m).
  rewrite Hst. clear Hst. unfold run_thread, enters_wait. cbn [fst snd st_threads st_shared fresh_shared sh_code].
  destruct (ps !! i) as [p|] eqn:Hp; cbn -[lock_free]; rewrite ?Hp; cbn -[lock_free]; [|done].
  destruct (dispatch_local _ p _) as [[p' sh']|] eqn:Hl; cbn; [|done]. intros [= <-].
  destruct (Hth i p Hp) as (flag & Hin & Hway).
  destruct (on_the_way_step _ _ _ _ _ Hway Hl) as (-> & Hr & Hw).
  assert (Hflag : flag = false) by (destruct Hway as [[-> _]|[_ ?]]; [by cbn in Hl | done]). subst flag.
  exists p, p'. do 3 (split; [done|]). split; [by case_bool_decide|].
  case_bool_decide as H1; case_bool_decide as H2; try done; congruence.
Qed.

Lemma start_step_thread_inv i s s' :
  start_inv s -> start_step (Thread (Run i)) s = Some s' -> start_inv s'.
Proof.
  intros Hi Hs. destruct (start_thread_step i s s' Hi Hs) as (p & p' & Hp & Hin & _ & Hw & ->).
  destruct Hi as [_ Hlen Hfl Hm Hth Hret]. constructor; cbn [st_shared st_threads st_initialized st_main].
  - done.
  - by rewrite length_insert.
  - case_bool_decide; [by rewrite length_insert | done].
  - done.
  - intros j q Hj. apply list_lookup_insert_Some in Hj as [(<- & <- & _)|[Hne Hj]].
    + case_bool_decide; [|by exists false].
      exists true. by rewrite list_lookup_insert_eq by (by eapply lookup_lt_Some).
    + destruct (Hth j q Hj) as (flag & Hf & Hway). exists flag. split; [|done].
      case_bool_decide; [by rewrite list_lookup_insert_ne | done].
  - intros Hr. specialize (Hret Hr). case_bool_decide; [by apply forallb_id_insert | done].
Qed.

Lemma start_step_inv a s s' :
  quiet_action a -> start_inv s -> start_step a s = Some s' -> start_inv s'.
Proof.
  intros Ha Hi. destruct a as [| |[i| | | |]]; try done; [| |by apply start_step_thread_inv].
  all: destruct Hi as [Hsh Hlen Hfl Hm Hth Hret]; cbn [start_step].
  - destruct (st_main s) as [i| |] eqn:Em; [|done|done]. intros [= <-]. cbn [created] in Hlen.
    constructor; cbn [st_shared st_threads st_initialized st_main].
    + done.
    + rewrite length_app, Hlen. unfold created. cbn [length].
      destruct (Nat.ltb_spec (S i) SUBSTANCE_CONNECTOR_DISPATCH_COUNT); lia.
    + by rewrite length_insert.
    + by destruct (Nat.ltb_spec (S i) SUBSTANCE_CONNECTOR_DISPATCH_COUNT).
    + intros j p Hj. destruct (decide (j = i)) as [->|Hne].
      * rewrite lookup_app_r, Hlen, Nat.sub_diag in Hj by lia. injection Hj as <-.
        exists false. rewrite list_lookup_insert_eq by lia. split; [done|]. right. auto.
      * rewrite list_lookup_insert_ne by done. apply Hth.
        apply lookup_app_Some in Hj as [Hj|[Hge Hj]]; [done|].
        apply lookup_lt_Some in Hj as Hlt. cbn in Hlt. lia.
    + by destruct (_ <? _)%nat.
  - destruct (st_main s) as [i| |] eqn:Em; [done| |done]. destruct (lock_free _); [|done]. intros [= <-].
    destruct (forallb id (st_initialized s)) eqn:Ef; constructor; cbn; auto; done.
Qed.

(** How many steps are left that are not a pass of the spinning loop. *)
Definition start_measure (s : starting) : nat :=
  sum_list (map start_rank (st_threads s)) + 5 * (SUBSTANCE_CONNECTOR_DISPATCH_COUNT - created (st_main s)).
Definition is_spin (a : start_action) : bool := match a with Spin => true | _ => false end.

Lemma start_step_measure a s s' :
  quiet_action a -> start_inv s -> start_step a s = Some s' ->
  (start_measure s' + (if is_spin a then 0 else 1) <= start_measure s)%nat.
Proof.
  intros Ha Hi Hs. destruct a as [| |[i| | | |]]; try done; cbn [is_spin].
  - destruct Hi as [_ Hlen _ Hm _ _]. cbn [start_step] in Hs.
    destruct (st_main s) as [i| |] eqn:Em; [|done|done]. injection Hs as <-.
    unfold start_measure. cbn [st_threads st_main]. rewrite Em, map_app, sum_list_with_app. cbn [map start_rank sum_list_with created].
    destruct (Nat.ltb_spec (S i) SUBSTANCE_CONNECTOR_DISPATCH_COUNT); unfold id; cbn [created]; lia.
  - cbn [start_step] in Hs. destruct (st_main s) as [i| |] eqn:Em; [done| |done].
    destruct (lock_free _); [|done]. injection Hs as <-. unfold start_measure. cbn [st_threads st_main]. rewrite Em.
    destruct (forallb _ _); cbn [created]; lia.
  - destruct (start_thread_step i s s' Hi Hs) as (p & p' & Hp & _ & Hr & _ & ->).
    unfold start_measure. cbn [st_threads st_main].
    pose proof (sum_list_insert_lt start_rank (st_threads s) i p p' Hp Hr). lia.
Qed.

Lemma start_run_inv actions s s' :
  Forall quiet_action actions -> start_inv s -> start_run actions s = Some s' ->
  start_inv s' /\ (start_measure s' + length (filter (fun a => is_spin a = false) actions) <= start_measure s)%nat.
Proof.
  revert s. induction actions as [|a actions IH]; intros s Ha Hi; cbn [start_run].
  { intros [= <-]. cbn. split; [done | lia]. }
  apply Forall_cons in Ha as [Ha Has]. destruct (start_step a s) as [s1|] eqn:E; cbn [mbind option_bind]; [|done]. intros Hr.
  pose proof (start_step_measure a s s1 Ha Hi E) as Hm.
  destruct (IH s1 Has (start_step_inv a s s1 Ha Hi E) Hr) as [Hi' Hm']. split; [done|].
  rewrite filter_cons. destruct (is_spin a); [rewrite decide_False by done|rewrite decide_True by done; cbn [length]]; lia.
Qed.

(** Only sleeping threads have set their flag. *)
Lemma all_flags_all_wait s :
  start_inv s -> forallb id (st_initialized s) = true ->
  Forall (fun p => p = D_wait) (st_threads s).
Proof.
  intros Hi Hf. apply Forall_lookup. intros i p Hp.
  destruct (si_threads s Hi i p Hp) as (flag & Hl & [[-> _]|[_ ->]]); [done|].
  rewrite forallb_forall in Hf. apply list_elem_of_lookup_2, list_elem_of_In, Hf in Hl. done.
Qed.

(** A thread that is not asleep: one of them can run. *)
Lemma start_thread_progress s :
  start_inv s -> ~ Forall (fun p => p = D_wait) (st_threads s) ->
  exists i, is_Some (start_step (Thread (Run i)) s).
Proof.
  intros [Hsh _ _ _ Hth _] Hw. destruct s as [sh ps flags m]. cbn [st_shared st_threads] in *. subst sh.
  assert (Hgo : exists i s', run_thread i (fresh_shared, ps) = Some s').
  { assert (exists i p, ps !! i = Some p /\ p <> D_wait /\
      (lock_free (fresh_shared, ps) = true \/ dispatch_holds p = true)) as (i & p & Hi & Hp & Hl).
    { destruct (decide (Exists (fun p => dispatch_holds p = true) ps)) as [Hex|Hno].
      - apply Exists_exists in Hex as (p & Hin & Hp). apply list_elem_of_lookup in Hin as [i Hi].
        exists i, p. split; [done|]. split; [by intros ->|]. auto.
      - apply (not_Forall_Exists _) in Hw. apply Exists_exists in Hw as (p & Hin & Hp).
        apply list_elem_of_lookup in Hin as [i Hi]. exists i, p. split; [done|]. split; [done|]. left.
        unfold lock_free. apply forallb_forall. intros q Hq. cbn. destruct (dispatch_holds q) eqn:Eq; [|done].
        destruct Hno. apply Exists_exists. exists q. split; [by apply list_elem_of_In | done]. }
    assert (He : p <> D_exit).
    { intros ->. destruct (Hth i _ Hi) as (? & _ & [[? _]|[[?|[?|[?|?]]] _]]); done. }
    destruct (dispatch_local_enabled (lock_free (fresh_shared, ps)) p fresh_shared He Hp Hl) as [[p' sh'] Hr].
    exists i. eexists. unfold run_thread. cbn [fst snd]. rewrite Hi. cbn -[lock_free]. by rewrite Hr. }
  destruct Hgo as (i & s' & Hs'). exists i.
  eexists. destruct m; cbn [start_step st_shared st_threads step]; by rewrite Hs'.
Qed.

(** When all sleep the next pass of the spinning loop is the last. *)
Lemma start_spin_returns s :
  start_inv s -> st_main s = S_spin -> Forall (fun p => p = D_wait) (st_threads s) ->
  exists s', start_step Spin s = Some s' /\ st_main s' = S_returned.
Proof.
  intros Hi Hm Hw. cbn [start_step]. rewrite Hm.
  assert (Hfree : lock_free (st_shared s, st_threads s) = true).
  { unfold lock_free. apply forallb_forall. intros p Hp. apply list_elem_of_In in Hp.
    rewrite Forall_forall in Hw. by rewrite (Hw p Hp). }
  rewrite Hfree. eexists. split; [done|]. cbn.
  assert (Hf : forallb id (st_initialized s) = true); [|by rewrite Hf].
  apply forallb_forall. intros b Hb. apply list_elem_of_In, list_elem_of_lookup in Hb as [i Hb].
  assert (Hlt : (i < length (st_threads s))%nat).
  { rewrite (si_created s Hi), Hm. cbn. apply lookup_lt_Some in Hb. by rewrite (si_flags s Hi) in Hb. }
  apply lookup_lt_is_Some in Hlt as [p Hp]. destruct (si_threads s Hi i p Hp) as (flag & Hl & Hway).
  rewrite Forall_forall in Hw. pose proof (Hw p ltac:(by eapply list_elem_of_lookup_2)) as ->.
  destruct Hway as [[_ ->]|[[?|[?|[?|?]]] _]]; [unfold id; congruence | done..].
Qed.

(** The threads once the subsystem has started. *)
Definition started : state dispatch_pc := (fresh_shared, replicate SUBSTANCE_CONNECTOR_DISPATCH_COUNT D_wait).

Lemma started_of s :
  start_inv s -> st_main s = S_returned -> (st_shared s, st_threads s) = started.
Proof.
  intros Hi Hm. unfold started. rewrite (si_shared s Hi). f_equal.
  assert (Hlen : length (st_threads s) = SUBSTANCE_CONNECTOR_DISPATCH_COUNT) by (by rewrite (si_created s Hi), Hm).
  rewrite <- Hlen. symmetry. apply replicate_as_elem_of. split; [done|]. intros p Hp.
  assert (Hw : Forall (fun p => p = D_wait) (st_threads s)).
  { by apply (all_flags_all_wait s Hi), (si_returned s Hi). }
  rewrite Forall_forall in Hw. by apply Hw.
Qed.

(** Every schedule of the threads, step by step, while only one of them can run. *)
Ltac each_schedule :=
  match goal with
  | |- run (map Run ?l) _ = Some _ -> _ => destruct l as [|[|[|?]] l]; cbn; try done; try each_schedule
  end.

(** ** Properties *)

(** C17: Starting the dispatch threads terminates, with both asleep.  Whatever the
    flags were before, in every interleaving of the thread that initialises and
    the threads it creates at most ten steps are made that are not passes of the
    spinning loop; until the function returns either such a step is possible or
    the very next pass of the loop returns; and when it has returned, both threads
    wait for the condition and nothing else has happened. *)
Theorem dispatch_start_terminates (flags : list bool) (actions : list start_action) (s : starting)
    (Hflags : length flags = SUBSTANCE_CONNECTOR_DISPATCH_COUNT) (Hquiet : Forall quiet_action actions)
    (Hrun : start_run actions (before_start flags) = Some s) :
  (length (filter (fun a => is_spin a = false) actions) <= 10)%nat /\
  (st_main s <> S_returned ->
     (exists a, quiet_action a /\ is_spin a = false /\ is_Some (start_step a s)) \/
     (exists s', start_step Spin s = Some s' /\ st_main s' = S_returned)) /\
  (st_main s = S_returned -> (st_shared s, st_threads s) = started).
Proof.
  destruct (start_run_inv actions _ s Hquiet (before_start_inv flags Hflags) Hrun) as [Hi Hm].
  split; [unfold start_measure at 2 in Hm; cbn in Hm; lia|]. split; [|by apply started_of].
  intros Hne. destruct (st_main s) as [i| |] eqn:Em; [| |done].
  - left. exists Create. cbn [start_step]. rewrite Em. by repeat split.
  - destruct (decide (Forall (fun p => p = D_wait) (st_threads s))) as [Hw|Hw].
    + right. by apply start_spin_returns.
    + left. destruct (start_thread_progress s Hi Hw) as [i Hs]. by exists (Thread (Run i)).
Qed.

(** Both threads are created; the second reaches its wait first. *)
Definition a_start : list start_action :=
  [Create; Create; Spin] ++ replicate 4 (Thread (Run 1)) ++ [Spin] ++ replicate 4 (Thread (Run 0)) ++ [Spin].

Lemma dispatch_start_terminates_witness :
  exists s, start_run a_start (before_start [true; true]) = Some s /\ (st_shared s, st_threads s) = started.
Proof.
  destruct (start_run a_start (before_start [true; true])) as [s|] eqn:E; [|by vm_compute in E].
  exists s. split; [reflexivity|].
  destruct (dispatch_start_terminates [true; true] a_start s) as (_ & _ & H); [done | by repeat constructor | done |].
  apply H. vm_compute in E. injection E as <-. reflexivity.
Defined.

(** C18: The first message is handled.  When the subsystem has started, a message
    that is enqueued and signalled is processed: whichever thread the signal
    wakes, every further run of the threads has at most thirteen steps, and when
    none can go on the message has been processed, the queue is empty and both
    threads sleep again. *)
Theorem first_message_is_processed (m : Z) (i : nat) (s : state dispatch_pc)
    (Hsignalled : run [Enqueue m; Signal i] started = Some s) :
  forall schedule s', run (map Run schedule) s = Some s' ->
    (length schedule <= 13)%nat /\
    ((forall j, run_thread j s' = None) ->
     sh_done (fst s') = [m] /\ sh_queue (fst s') = [] /\ Forall (fun p => p = D_wait) (snd s')).
Proof.
  assert (Hi : (i < 2)%nat) by (destruct i as [|[|i]]; [lia | lia | by cbn in Hsignalled]).
  intros schedule s'. revert Hsignalled.
  destruct i as [|[|i]]; [| |lia]; intros [= <-]; revert schedule; intros schedule; each_schedule;
    intros [= <-]; cbn; (split; [lia|]); intros Hstuck.
  all: first [by specialize (Hstuck 0%nat) | by specialize (Hstuck 1%nat) | by repeat constructor].
Qed.

Lemma first_message_is_processed_witness :
  exists s s', run [Enqueue 5; Signal 1] started = Some s /\
    run (map Run (replicate 13 1%nat)) s = Some s' /\ sh_done (fst s') = [5].
Proof.
  destruct (run [Enqueue 5; Signal 1] started) as [s|] eqn:E; [|by vm_compute in E].
  destruct (run (map Run (replicate 13 1%nat)) s) as [s'|] eqn:E'; [|by vm_compute in E; injection E as <-; vm_compute in E'].
  exists s, s'. do 2 (split; [done|]).
  destruct (first_message_is_processed 5 1 s E (replicate 13 1%nat) s' E') as [_ H].
  apply H. vm_compute in E. injection E as <-. vm_compute in E'. injection E' as <-.
  by intros [|[|[|j]]].
Defined.
