(* ===== verification/ReadModel.v ===== *)
(** * How the read threads share the contexts

    The read threads ([read_threads.c], [readthreadimpl.c]) as machines whose
    steps interleave with their creation and shutdown by the main thread and with
    other threads that open contexts ([context_queue.c]).  What a thread does
    with a message is in [ReadThread]; here a context is only its identifier,
    and the question is who has it. *)

From S2P Require Import Prelude.

(** ** Machines *)

(** Where the main thread is: in [connector_init_read_threads], between the two
    functions, or in [substance_connector_shutdown], which destroys the queue of
    free contexts first and then calls [connector_shutdown_read_threads]. *)
Inductive read_main :=
  | RM_create (k : nat)    (* thread k is to be created, read_main_lock is held *)
  | RM_wait (k : nat)      (* in connector_condition_wait, read_main_lock is released *)
  | RM_running
  | RM_closing             (* connector_shutdown_context_subsystem has returned *)
  | RM_flagged             (* the flag is set, the condition not yet broadcast *)
  | RM_join (k : nat)      (* joining thread k *)
  | RM_done.

(** What the threads share.  [rs_free] are the identifiers that are not in use, in
    [free_contexts], which is NULL after the queue was destroyed; [rs_opening] are
    those a caller has taken but not handed over yet. *)
Record read_shared := ReadShared {
  rs_flag : bool;          (* read_thread_shutdown_flag *)
  rs_main : read_main;
  rs_free : option (list Z);   (* free_contexts *)
  rs_opening : list Z;
  rs_available : list Z;   (* connection_queue *)
  rs_signals : nat         (* callers between handing over and the broadcast *)
}.

Definition set_rs_flag (b : bool) (sh : read_shared) : read_shared :=
  ReadShared b (rs_main sh) (rs_free sh) (rs_opening sh) (rs_available sh) (rs_signals sh).
Definition set_rs_main (m : read_main) (sh : read_shared) : read_shared :=
  ReadShared (rs_flag sh) m (rs_free sh) (rs_opening sh) (rs_available sh) (rs_signals sh).
Definition set_rs_free (l : option (list Z)) (sh : read_shared) : read_shared :=
  ReadShared (rs_flag sh) (rs_main sh) l (rs_opening sh) (rs_available sh) (rs_signals sh).
Definition set_rs_opening (l : list Z) (sh : read_shared) : read_shared :=
  ReadShared (rs_flag sh) (rs_main sh) (rs_free sh) l (rs_available sh) (rs_signals sh).
Definition set_rs_available (l : list Z) (sh : read_shared) : read_shared :=
  ReadShared (rs_flag sh) (rs_main sh) (rs_free sh) (rs_opening sh) l (rs_signals sh).
Definition set_rs_signals (n : nat) (sh : read_shared) : read_shared :=
  ReadShared (rs_flag sh) (rs_main sh) (rs_free sh) (rs_opening sh) (rs_available sh) n.

(** The places of [read_thread_routine]; [cs] are the assigned contexts. *)
Inductive read_pc :=
  | R_new                         (* not created yet *)
  | R_test (cs : list Z)          (* while (read_thread_shutdown_flag == 0u ...) *)
  | R_lock (cs : list Z)          (* connector_mutex_lock (lock) *)
  | R_notify (cs : list Z)        (* notify (), the lock is held *)
  | R_check (cs : list Z)         (* while (assigned_contexts == 0u ...), the lock is held *)
  | R_wait                        (* in connector_condition_wait, the lock is released *)
  | R_wake                        (* woken, the lock is to be taken again *)
  | R_woken                       (* if ( *shutdown_flag != 0u), the lock is held *)
  | R_acquire                     (* connector_read_thread_try_acquire, the lock is held *)
  | R_unlock (cs : list Z)        (* connector_mutex_unlock (lock) *)
  | R_behind (cs : list Z)        (* if (read_thread_shutdown_flag != 0) break *)
  | R_load (cs : list Z)          (* check_load and try_acquire *)
  | R_clean (cs : list Z)         (* the cleanup before a poll *)
  | R_flag (cs : list Z)          (* if (read_thread_shutdown_flag != 0u) goto thread_exit *)
  | R_poll (cs : list Z)          (* connector_poll_contexts *)
  | R_events (cs : list Z) (k : nat)            (* the loop over the events, k are left *)
  | R_append (cs : list Z) (k : nat) (c : Z)    (* append_available of an accepted context *)
  | R_signal (cs : list Z) (k n : nat)          (* n broadcasts of connector_flag_read are left *)
  | R_cleanup (cs : list Z)       (* the cleanup behind the events *)
  | R_exit (cs : list Z)          (* thread_exit *)
  | R_done.

#[export] Instance read_pc_eq_dec : EqDecision read_pc.
Proof. solve_decision. Defined.

(** Who holds the lock of the condition. *)
Definition read_holds (p : read_pc) : bool :=
  match p with R_notify _ | R_check _ | R_woken | R_acquire | R_unlock _ => true | _ => false end.

(** The contexts a thread has, an accepted one until it is handed over included. *)
Definition read_held (p : read_pc) : list Z :=
  match p with
  | R_test cs | R_lock cs | R_notify cs | R_check cs | R_unlock cs | R_behind cs | R_load cs | R_clean cs
  | R_flag cs | R_poll cs | R_events cs _ | R_signal cs _ _ | R_cleanup cs | R_exit cs => cs
  | R_append cs _ c => c :: cs
  | _ => []
  end.

(** What the environment decides in a step: which contexts are marked for
    shutdown when a cleanup looks, whether a poll times out, and whether an event
    is a connection to be accepted. *)
Inductive choice :=
  | Marked (marked : list Z)
  | Timeout
  | Accept
  | Nothing.

Definition marked_by (ch : choice) : list Z := match ch with Marked l => l | _ => [] end.

(** [connector_read_thread_cleanup_connections]: from the last to the first, the
    marked contexts are taken out, where the last one takes the place of the one
    taken out ([connector_read_thread_remove_context]), and go back to the free
    queue.  The contexts that are left, and those that were returned. *)
Fixpoint cleanup (marked : list Z) (i : nat) (cs : list Z) : list Z * list Z :=
  match i with
  | O => (cs, [])
  | S i' =>
      match cs !! i' with
      | Some c =>
          if bool_decide (c ∈ marked) then
            let '(rest, gone) := cleanup marked i' (swap_remove i' cs) in (rest, c :: gone)
          else cleanup marked i' cs
      | None => cleanup marked i' cs
      end
  end.
Definition kept (marked cs : list Z) : list Z := fst (cleanup marked (length cs) cs).
Definition returned (marked cs : list Z) : list Z := snd (cleanup marked (length cs) cs).

(** [connector_uint_queue_push (free_contexts, context)] for each of the contexts:
    a push to NULL answers INVALID, which no caller looks at, so that the
    identifiers are lost once the queue is destroyed. *)
Definition give_back (l : list Z) (sh : read_shared) : read_shared :=
  match rs_free sh with
  | Some free => set_rs_free (Some (free ++ l)) sh
  | None => sh
  end.

(** [connector_read_thread_try_acquire] *)
Definition acquire_context (cs : list Z) (sh : read_shared) : list Z * read_shared :=
  match rs_available sh with
  | [] => (cs, sh)
  | c :: l => (cs ++ [c], set_rs_available l sh)
  end.

(** [connector_uint_queue_pop (free_contexts, &context)] where the result is not
    looked at and [context] is initialised to zero.  Unlike the push, the pop has no
    test for NULL: it reads [queue->read_index], so that it does not return once the
    queue is destroyed. *)
Definition pop_free_context (sh : read_shared) : option (Z * read_shared) :=
  match rs_free sh with
  | Some [] => Some (0, sh)
  | Some (c :: l) => Some (c, set_rs_free (Some l) sh)
  | None => None
  end.

(** The test of the load and the branch on [assigned_contexts] before the polls. *)
Definition after_load (cs : list Z) : read_pc :=
  match cs with [] => R_events [] 0 | _ => R_clean cs end.

(** A step of a thread, given whether the lock is free: its next place, the
    shared state, and whether it broadcasts.  [None] is a thread that cannot go on:
    it sleeps, is blocked or has ended, or it dereferences NULL ([faults] below
    tells this apart). *)
Definition read_local (ch : choice) (free : bool) (p : read_pc) (sh : read_shared) :
    option (read_pc * read_shared * bool) :=
  match p with
  | R_new | R_wait | R_done => None
  | R_test cs => Some (if rs_flag sh then R_exit cs else R_lock cs, sh, false)
  | R_lock cs => if free then Some (R_notify cs, sh, false) else None
  | R_notify cs =>
      match rs_main sh with
      | RM_create _ => None
      | RM_wait k => Some (R_check cs, set_rs_main (RM_create (S k)) sh, false)
      | _ => Some (R_check cs, sh, false)
      end
  | R_check cs =>
      Some (match cs with [] => if rs_flag sh then R_unlock [] else R_wait | _ => R_unlock cs end, sh, false)
  | R_wake => if free then Some (R_woken, sh, false) else None
  | R_woken => Some (if rs_flag sh then R_unlock [] else R_acquire, sh, false)
  | R_acquire => let '(cs, sh') := acquire_context [] sh in Some (R_check cs, sh', false)
  | R_unlock cs => Some (R_behind cs, sh, false)
  | R_behind cs => Some (if rs_flag sh then R_exit cs else R_load cs, sh, false)
  | R_load cs =>
      if (length cs <? 17)%nat then
        let '(cs', sh') := acquire_context cs sh in Some (after_load cs', sh', false)
      else Some (after_load cs, sh, false)
  | R_clean cs => Some (R_flag (kept (marked_by ch) cs), give_back (returned (marked_by ch) cs) sh, false)
  | R_flag cs => Some (if rs_flag sh then R_exit cs else R_poll cs, sh, false)
  | R_poll cs =>
      Some (match cs, ch with
            | _ :: _, Timeout => R_clean cs
            | _, _ => R_events cs (length cs)
            end, sh, false)
  | R_events cs k =>
      match k with
      | O => Some (R_cleanup cs, sh, false)
      | S k' =>
          match ch with
          | Accept => '(c, sh') ← pop_free_context sh; Some (R_append cs k' c, sh', false)
          | _ => Some (R_events cs k', sh, false)
          end
      end
  | R_append cs k c => Some (R_signal cs k 2, set_rs_available (rs_available sh ++ [c]) sh, false)
  | R_signal cs k n =>
      match n with
      | O => Some (R_events cs k, sh, false)
      | S n' => if free then Some (R_signal cs k n', sh, true) else None
      end
  | R_cleanup cs => Some (R_test (kept (marked_by ch) cs), give_back (returned (marked_by ch) cs) sh, false)
  | R_exit cs => Some (R_done, give_back (returned cs cs) sh, false)
  end.

Definition read_state : Type := read_shared * list read_pc.

Definition inbound_free (s : read_state) : bool := forallb (fun p => negb (read_holds p)) (snd s).

Definition wake (p : read_pc) : read_pc := if bool_decide (p = R_wait) then R_wake else p.

Inductive read_action :=
  | Thread (i : nat) (ch : choice)   (* thread i makes a step *)
  | Spurious (i : nat)               (* thread i wakes for no reason *)
  | Main                             (* the main thread makes a step *)
  | Take                             (* connector_context_open takes an identifier *)
  | TakeBlindly                      (* connector_context_connect does so without a test *)
  | Refuse (c : Z)                   (* opening failed, the identifier is returned *)
  | HandOver (c : Z)                 (* append_available pushes the identifier *)
  | Flag.                            (* connector_flag_read *)

Definition read_thread_step (i : nat) (ch : choice) (s : read_state) : option read_state :=
  p ← snd s !! i;
  r ← read_local ch (inbound_free s) p (fst s);
  let '(p', sh', signalled) := r in
  Some (sh', <[i := p']> (if signalled : bool then map wake (snd s) else snd s)).

(** The step from [RM_running] is [connector_shutdown_context_subsystem]: the queue
    is destroyed, and then [free_contexts] is NULL; the moment in between, in which
    the pointer dangles, is left out.  [connector_shutdown_comm_subsystem] follows,
    which sets the flag after it has shut down the write threads. *)
Definition read_main_step (s : read_state) : option read_state :=
  let '(sh, ps) := s in
  match rs_main sh with
  | RM_create k =>
      match ps !! k with
      | Some _ => Some (set_rs_main (RM_wait k) sh, <[k := R_test []]> ps)
      | None => Some (set_rs_main RM_running sh, ps)
      end
  | RM_wait _ => None
  | RM_running => Some (set_rs_main RM_closing (set_rs_free None sh), ps)
  | RM_closing => Some (set_rs_main RM_flagged (set_rs_flag true sh), ps)
  | RM_flagged => if inbound_free s then Some (set_rs_main (RM_join 0) sh, map wake ps) else None
  | RM_join k =>
      match ps !! k with
      | Some p => if bool_decide (p = R_done) then Some (set_rs_main (RM_join (S k)) sh, ps) else None
      | None => Some (set_rs_main RM_done (set_rs_flag false sh), ps)
      end
  | RM_done => None
  end.

(** Take one occurrence out of a list. *)
Fixpoint take_out (c : Z) (l : list Z) : option (list Z) :=
  match l with
  | [] => None
  | d :: l' => if d =? c then Some l' else cons d <$> take_out c l'
  end.

(** The other threads' calls; they are refused before the initialisation is
    finished and once the shutdown has started.  A caller that was let in before can
    come to its pop later, and faults then. *)
Definition read_step (a : read_action) (s : read_state) : option read_state :=
  let '(sh, ps) := s in
  match a with
  | Thread i ch => read_thread_step i ch s
  | Spurious i => if bool_decide (ps !! i = Some R_wait) then Some (sh, <[i := R_wake]> ps) else None
  | Main => read_main_step s
  | Take =>
      match rs_main sh, rs_free sh with
      | RM_running, Some (c :: l) => Some (set_rs_opening (c :: rs_opening sh) (set_rs_free (Some l) sh), ps)
      | _, _ => None
      end
  | TakeBlindly =>
      match rs_main sh with
      | RM_running => '(c, sh') ← pop_free_context sh; Some (set_rs_opening (c :: rs_opening sh) sh', ps)
      | _ => None
      end
  | Refuse c => l ← take_out c (rs_opening sh); Some (give_back [c] (set_rs_opening l sh), ps)
  | HandOver c =>
      l ← take_out c (rs_opening sh);
      Some (set_rs_signals (S (rs_signals sh)) (set_rs_available (rs_available sh ++ [c]) (set_rs_opening l sh)), ps)
  | Flag =>
      if (0 <? rs_signals sh)%nat && inbound_free s
      then Some (set_rs_signals (rs_signals sh - 1) sh, map wake ps) else None
  end.

(** The steps that dereference NULL: to accept a connection, or to open a context
    as a caller that was let in before, when the queue is destroyed. *)
Definition faults (a : read_action) (s : read_state) : bool :=
  match a with
  | Take | TakeBlindly => negb (bool_decide (is_Some (rs_free (fst s))))
  | Thread i Accept =>
      match snd s !! i with
      | Some (R_events _ (S _)) => negb (bool_decide (is_Some (rs_free (fst s))))
      | _ => false
      end
  | _ => false
  end.

Fixpoint read_run (actions : list read_action) (s : read_state) : option read_state :=
  match actions with
  | [] => Some s
  | a :: actions' => s' ← read_step a s; read_run actions' s'
  end.

(** [connector_init_read_threads] is called: nothing is created, every context is
    free. *)
Definition read_start (n : nat) : read_state :=
  (ReadShared false (RM_create 0) (Some (seqZ 0 32)) [] [] 0, replicate n R_new).

(** The states reached from [n] threads by steps that satisfy [ok]. *)
Inductive reaches (ok : read_state -> read_action -> Prop) (n : nat) : read_state -> Prop :=
  | reaches_start : reaches ok n (read_start n)
  | reaches_step a s s' : reaches ok n s -> ok s a -> read_step a s = Some s' -> reaches ok n s'.

Lemma reaches_invariant (J : read_state -> Prop) ok n s :
  J (read_start n) -> (forall a s1 s2, J s1 -> ok s1 a -> read_step a s1 = Some s2 -> J s2) ->
  reaches ok n s -> J s.
Proof. intros H0 Hstep. induction 1; eauto. Qed.

Lemma reaches_run ok n actions s s' :
  reaches ok n s -> (forall s a, a ∈ actions -> ok s a) -> read_run actions s = Some s' -> reaches ok n s'.
Proof.
  revert s. induction actions as [|a actions IH]; intros s Hs Hok; cbn [read_run]; [by intros [= <-]|].
  destruct (read_step a s) as [s1|] eqn:E; cbn; [|done]. apply IH.
  - eapply reaches_step; [exact Hs | | exact E]. apply Hok, elem_of_cons. by left.
  - intros s2 b Hb. apply Hok, elem_of_cons. by right.
Qed.

(** ** Lemmas *)

Lemma cleanup_perm marked i cs rest gone : cleanup marked i cs = (rest, gone) -> rest ++ gone ≡ₚ cs.
Proof.
  revert cs rest gone. induction i as [|i IH]; intros cs rest gone; cbn [cleanup].
  - intros [= <- <-]. by rewrite app_nil_r.
  - destruct (cs !! i) as [c|] eqn:Hc; [|apply IH]. case_bool_decide; [|apply IH].
    destruct (cleanup marked i (swap_remove i cs)) as [l g] eqn:E. intros [= <- <-]. apply IH in E.
    rewrite <- Permutation_middle, E. rewrite <- (take_drop_middle cs i c Hc) at 2.
    pose proof (lookup_lt_Some _ _ _ Hc) as Hi.
    destruct (swap_remove_perm (take i cs) c (drop (S i) cs)) as (post & Hrm & Hpost).
    rewrite length_take_le, take_drop_middle in Hrm by (done || lia). rewrite Hrm, Hpost. by rewrite Permutation_middle.
Qed.

Lemma kept_returned marked cs : kept marked cs ++ returned marked cs ≡ₚ cs.
Proof. apply (cleanup_perm marked (length cs)). apply surjective_pairing. Qed.

(** When all are marked, nothing is left. *)
Lemma cleanup_all_marked marked cs : Forall (fun c => c ∈ marked) cs -> cleanup marked (length cs) cs = ([], reverse cs).
Proof.
  induction cs as [|c cs IH] using rev_ind; intros Hall; [done|].
  apply Forall_app in Hall as [Hall [Hc _]%Forall_cons].
  rewrite length_app, Nat.add_1_r. cbn [cleanup]. rewrite list_lookup_middle by done.
  rewrite bool_decide_eq_true_2 by done. unfold swap_remove. rewrite last_snoc, length_app, Nat.add_sub.
  rewrite take_insert_ge, take_app_length, (IH Hall) by done. by rewrite reverse_app.
Qed.

Lemma returned_all cs : returned cs cs = reverse cs.
Proof. unfold returned. rewrite cleanup_all_marked; [done|]. apply Forall_forall. auto. Qed.

Lemma kept_length marked cs : (length (kept marked cs) <= length cs)%nat.
Proof. rewrite <- (Permutation_length (kept_returned marked cs)), length_app. lia. Qed.

Lemma wake_held p : read_held (wake p) = read_held p.
Proof. unfold wake. by case_bool_decide as Hp; [subst p|]. Qed.

Lemma wake_not_waiting ps : Forall (fun p => p <> R_wait) (map wake ps).
Proof.
  apply Forall_forall. intros p Hp. apply list_elem_of_fmap in Hp as (q & -> & _). unfold wake.
  by case_bool_decide.
Qed.

Lemma take_out_perm c l l' : take_out c l = Some l' -> l ≡ₚ c :: l'.
Proof.
  revert l'. induction l as [|d l IH]; intros l'; cbn; [done|]. destruct (Z.eqb_spec d c) as [->|Hd].
  - by intros [= <-].
  - destruct (take_out c l) as [l1|]; cbn; [|done]. intros [= <-]. rewrite (IH l1 eq_refl). apply perm_swap.
Qed.

(** ** Who has a context *)

(** The contexts that a thread polls. *)
Definition assigned_to (p : read_pc) : list Z :=
  match p with R_append cs _ _ => cs | _ => read_held p end.

(** The identifiers in the free queue. *)
Definition free_identifiers (sh : read_shared) : list Z := default [] (rs_free sh).

(** The identifiers of the table, wherever they are. *)
Definition identifiers (s : read_state) : list Z :=
  free_identifiers (fst s) ++ rs_opening (fst s) ++ rs_available (fst s) ++ concat (map read_held (snd s)).

Record one_owner (s : read_state) : Prop := {
  oo_within : identifiers s ⊆+ seqZ 0 32;
  oo_identifiers : rs_free (fst s) <> None -> identifiers s ≡ₚ seqZ 0 32;
  oo_load : Forall (fun p => (length (assigned_to p) <= 17)%nat) (snd s)
}.

(** The steps that take an identifier without looking find one, while there is a
    queue. *)
Definition finds_free (s : read_state) (a : read_action) : Prop :=
  match a with
  | TakeBlindly => rs_free (fst s) <> Some []
  | Thread i Accept => forall cs k, snd s !! i = Some (R_events cs (S k)) -> rs_free (fst s) <> Some []
  | _ => True
  end.

Definition owned_with (sh : read_shared) (held : list Z) : list Z :=
  free_identifiers sh ++ rs_opening sh ++ rs_available sh ++ held.

(** Identifiers only move, and none is lost while there is a queue. *)
Record moves (sh : read_shared) (held : list Z) (sh' : read_shared) (held' : list Z) : Prop := {
  mv_within : owned_with sh' held' ⊆+ owned_with sh held;
  mv_all : rs_free sh' <> None -> rs_free sh <> None /\ owned_with sh' held' ≡ₚ owned_with sh held
}.

Lemma moves_perm sh held sh' held' :
  (rs_free sh' <> None -> rs_free sh <> None) -> owned_with sh' held' ≡ₚ owned_with sh held -> moves sh held sh' held'.
Proof. intros Hf Hp. split; [by rewrite Hp | auto]. Qed.

Lemma acquire_owned cs sh cs' sh' :
  acquire_context cs sh = (cs', sh') -> moves sh cs sh' cs' /\ (length cs' <= S (length cs))%nat.
Proof.
  unfold acquire_context. destruct (rs_available sh) as [|c l] eqn:E; intros [= <- <-].
  - split; [by apply moves_perm | auto].
  - split; [apply moves_perm; [done|] | rewrite length_app; cbn; lia].
    unfold owned_with, free_identifiers. cbn. rewrite E. solve_Permutation.
Qed.

Lemma give_back_moves gone rest held sh : rest ++ gone ≡ₚ held -> moves sh held (give_back gone sh) rest.
Proof.
  intros Hp. unfold give_back. destruct (rs_free sh) as [free|] eqn:E.
  - apply moves_perm; [by rewrite E|]. unfold owned_with, free_identifiers. cbn. rewrite E, <- Hp. cbn. solve_Permutation.
  - split; [|by rewrite E]. unfold owned_with. rewrite <- Hp. do 3 apply submseteq_skips_l.
    by apply submseteq_inserts_r.
Qed.

Lemma after_load_held cs : read_held (after_load cs) = cs /\ assigned_to (after_load cs) = cs.
Proof. by destruct cs. Qed.

Lemma pop_free_moves sh c sh' held :
  rs_free sh <> Some [] -> pop_free_context sh = Some (c, sh') -> moves sh held sh' (c :: held).
Proof.
  unfold pop_free_context. destruct (rs_free sh) as [[|d l]|] eqn:E; [done| |done]. intros _ [= <- <-].
  apply moves_perm; [by rewrite E|]. unfold owned_with, free_identifiers. cbn. rewrite E. cbn. solve_Permutation.
Qed.

Lemma read_local_owned ch free p sh p' sh' b :
  (forall cs k, p = R_events cs (S k) -> ch = Accept -> rs_free sh <> Some []) ->
  read_local ch free p sh = Some (p', sh', b) ->
  moves sh (read_held p) sh' (read_held p') /\
  ((length (assigned_to p) <= 17)%nat -> (length (assigned_to p') <= 17)%nat).
Proof.
  intros Hfree. assert (Hsame : forall l, moves sh l sh l) by (intros; by apply moves_perm).
  destruct p as [|cs|cs|cs|cs| | | | |cs|cs|cs|cs|cs|cs|cs k|cs k c|cs k n|cs|cs|]; cbn [read_local]; try done.
  - destruct (rs_flag sh); by intros [= <- <- <-].
  - destruct free; [|done]. by intros [= <- <- <-].
  - destruct (rs_main sh); try done; intros [= <- <- <-]; (split; [by apply moves_perm | done]).
  - destruct cs; [destruct (rs_flag sh)|]; by intros [= <- <- <-].
  - destruct free; [|done]. by intros [= <- <- <-].
  - destruct (rs_flag sh); by intros [= <- <- <-].
  - destruct (acquire_context [] sh) as [cs sh1] eqn:E. apply acquire_owned in E as [E El]. intros [= <- <- <-].
    split; [done|]. cbn in *. lia.
  - by intros [= <- <- <-].
  - destruct (rs_flag sh); by intros [= <- <- <-].
  - destruct (Nat.ltb_spec (length cs) 17).
    + destruct (acquire_context cs sh) as [cs1 sh1] eqn:E. apply acquire_owned in E as [E El]. intros [= <- <- <-].
      destruct (after_load_held cs1) as [-> ->]. split; [done | cbn; lia].
    + intros [= <- <- <-]. destruct (after_load_held cs) as [-> ->]. done.
  - intros [= <- <- <-]. split; [apply give_back_moves, kept_returned|]. cbn. pose proof (kept_length (marked_by ch) cs). lia.
  - destruct (rs_flag sh); by intros [= <- <- <-].
  - destruct cs; [|destruct ch]; by intros [= <- <- <-].
  - destruct k as [|k]; [by intros [= <- <- <-]|]. destruct ch; try by intros [= <- <- <-].
    destruct (pop_free_context sh) as [[c sh1]|] eqn:E; cbn; [|done]. intros [= <- <- <-].
    split; [|done]. apply pop_free_moves; [by apply (Hfree cs k) | done].
  - intros [= <- <- <-]. split; [|done]. apply moves_perm; [done|]. unfold owned_with, free_identifiers. cbn. solve_Permutation.
  - destruct n; [by intros [= <- <- <-]|]. destruct free; [|done]. by intros [= <- <- <-].
  - intros [= <- <- <-]. split; [apply give_back_moves, kept_returned|]. cbn. pose proof (kept_length (marked_by ch) cs). lia.
  - intros [= <- <- <-]. split; [|cbn; lia]. apply give_back_moves. by rewrite returned_all, reverse_Permutation.
Qed.

(** All contexts of the threads. *)
Definition in_threads (ps : list read_pc) : list Z := concat (map read_held ps).

Lemma identifiers_alt s : identifiers s = owned_with (fst s) (in_threads (snd s)).
Proof. done. Qed.

Lemma in_threads_insert ps i p p' :
  ps !! i = Some p -> exists rest, in_threads ps ≡ₚ read_held p ++ rest /\ in_threads (<[i := p']> ps) ≡ₚ read_held p' ++ rest.
Proof.
  intros Hi. exists (in_threads (take i ps ++ drop (S i) ps)). unfold in_threads.
  rewrite (insert_take_drop ps i p') by (by eapply lookup_lt_Some).
  rewrite <- (take_drop_middle ps i p Hi) at 1.
  rewrite !map_app, !concat_app. cbn [map concat]. split; solve_Permutation.
Qed.

Lemma in_threads_wake ps : in_threads (map wake ps) = in_threads ps.
Proof. unfold in_threads. rewrite map_map. f_equal. apply map_ext, wake_held. Qed.

Lemma assigned_wake p : assigned_to (wake p) = assigned_to p.
Proof. unfold wake. by case_bool_decide as Hp; [subst p|]. Qed.

Lemma load_wake ps :
  Forall (fun p => (length (assigned_to p) <= 17)%nat) ps ->
  Forall (fun p => (length (assigned_to p) <= 17)%nat) (map wake ps).
Proof. intros H. apply Forall_map. eapply Forall_impl; [exact H|]. intros p. cbn. by rewrite assigned_wake. Qed.

(** A move of one thread, or of none, is a move of the whole. *)
Lemma moves_frame sh held sh' held' rest : moves sh held sh' held' -> moves sh (held ++ rest) sh' (held' ++ rest).
Proof.
  assert (E : forall sh l, owned_with sh (l ++ rest) ≡ₚ owned_with sh l ++ rest)
    by (intros; unfold owned_with; solve_Permutation).
  intros [Hw Ha]. split; rewrite !E.
  - by apply submseteq_skips_r.
  - intros Hf. destruct (Ha Hf) as [? ->]. done.
Qed.

Lemma moves_one_owner sh held sh' held' ps ps' :
  one_owner (sh, ps) -> moves sh held sh' held' -> in_threads ps ≡ₚ held -> in_threads ps' ≡ₚ held' ->
  Forall (fun p => (length (assigned_to p) <= 17)%nat) ps' -> one_owner (sh', ps').
Proof.
  intros [Hw Hi _] [Hm Ha] Hh Hh' Hl.
  assert (E : forall sh l l', l ≡ₚ l' -> owned_with sh l ≡ₚ owned_with sh l') by (intros ? ? ? Hp; unfold owned_with; by rewrite Hp).
  constructor; [| |done]; rewrite !identifiers_alt in *; cbn [fst snd] in *; rewrite (E sh' _ _ Hh').
  - rewrite Hm, <- (E sh _ _ Hh). done.
  - intros Hf. destruct (Ha Hf) as [Hs ->]. rewrite <- (E sh _ _ Hh). auto.
Qed.

Lemma thread_moves sh sh' ps i p p' :
  one_owner (sh, ps) -> ps !! i = Some p -> moves sh (read_held p) sh' (read_held p') ->
  (length (assigned_to p') <= 17)%nat -> one_owner (sh', <[i := p']> ps).
Proof.
  intros Hs Hi Hp Hl. destruct (in_threads_insert ps i p p' Hi) as (rest & H1 & H2).
  eapply moves_one_owner; [exact Hs | apply (moves_frame _ _ _ _ rest Hp) | done..|].
  destruct Hs as [_ _ Hload]. by apply Forall_insert.
Qed.

Lemma shared_owned sh sh' ps ps' :
  one_owner (sh, ps) -> ps' = ps \/ ps' = map wake ps ->
  (forall l, moves sh l sh' l) -> one_owner (sh', ps').
Proof.
  intros Hs Hps Hsh. destruct Hs as [Hw Hi Hload]. eapply moves_one_owner; [by constructor | apply Hsh | done | |];
    destruct Hps as [->| ->]; [done | by rewrite in_threads_wake | done | by apply load_wake].
Qed.

Lemma thread_step_owned i ch s s' :
  finds_free s (Thread i ch) -> one_owner s -> read_thread_step i ch s = Some s' -> one_owner s'.
Proof.
  destruct s as [sh ps]. intros Hfree Hs. unfold read_thread_step. cbn [fst snd].
  destruct (ps !! i) as [p|] eqn:Hi; [|done]. cbn.
  destruct (read_local ch _ p sh) as [[[p' sh'] b]|] eqn:Hl; [|done]. cbn. intros [= <-].
  apply read_local_owned in Hl as [Hp Hlen]; [|intros cs k -> ->; by apply (Hfree cs k)].
  assert (Hload : (length (assigned_to p) <= 17)%nat).
  { destruct Hs as [_ _ Hl]. rewrite Forall_forall in Hl. apply Hl. by eapply list_elem_of_lookup_2. }
  destruct b; [|by apply (thread_moves sh _ _ _ p); auto].
  apply (thread_moves sh _ _ _ (wake p)); [| |by rewrite wake_held | auto].
  - apply (shared_owned sh _ ps); [done | by right | intros; by apply moves_perm].
  - by rewrite list_lookup_fmap, Hi.
Qed.

Lemma main_step_owned s s' :
  (forall k p, rs_main (fst s) = RM_create k -> snd s !! k = Some p -> p = R_new) ->
  one_owner s -> read_main_step s = Some s' -> one_owner s'.
Proof.
  destruct s as [sh ps]. intros Hnew Hs. unfold read_main_step. cbn [fst snd] in Hnew.
  assert (Hsame : forall m f l, moves sh l (set_rs_main m (set_rs_flag f sh)) l) by (intros; by apply moves_perm).
  destruct (rs_main sh) as [k|k| | | |k|] eqn:Em; try done.
  - destruct (ps !! k) as [p|] eqn:Hk; intros [= <-].
    + pose proof (Hnew k p eq_refl Hk) as ->. apply (thread_moves sh _ _ _ R_new); [done | done | by apply moves_perm | cbn; lia].
    + apply (shared_owned sh _ ps); [done | by left | intros; by apply moves_perm].
  - intros [= <-]. apply (shared_owned sh _ ps); [done | by left |]. intros l. split; [|done].
    unfold owned_with at 2. by apply submseteq_inserts_l.
  - intros [= <-]. apply (shared_owned sh _ ps); [done | by left | done].
  - destruct (inbound_free _); [|done]. intros [= <-]. apply (shared_owned sh _ ps); [done | by right | intros; by apply moves_perm].
  - destruct (ps !! k) as [p|]; [case_bool_decide; [|done]|]; intros [= <-];
      (apply (shared_owned sh _ ps); [done | by left | intros; by apply moves_perm]).
Qed.

(** ** Which threads exist, and who may sleep *)

(** Exactly the threads before [k] were created. *)
Definition created (ps : list read_pc) (k : nat) : Prop := forall j p, ps !! j = Some p -> (p = R_new <-> (k <= j)%nat).

Definition phase (s : read_state) : Prop :=
  let '(sh, ps) := s in
  match rs_main sh with
  | RM_create k => rs_flag sh = false /\ created ps k
  | RM_wait k => rs_flag sh = false /\ created ps (S k)
  | RM_running | RM_closing => rs_flag sh = false /\ created ps (length ps)
  | RM_flagged => rs_flag sh = true /\ created ps (length ps)
  | RM_join _ => rs_flag sh = true /\ created ps (length ps) /\ Forall (fun p => p <> R_wait) ps
  | RM_done => rs_flag sh = false /\ created ps (length ps)
  end.

(** What a step of a thread leaves alone. *)
Record same_phase (p : read_pc) (sh : read_shared) (p' : read_pc) (sh' : read_shared) : Prop := {
  sp_old : p <> R_new /\ p <> R_wait;
  sp_new : p' <> R_new;
  sp_flag : rs_flag sh' = rs_flag sh;
  sp_main : rs_main sh' = rs_main sh \/
    exists k, rs_main sh = RM_wait k /\ rs_main sh' = RM_create (S k) /\ exists cs, p = R_notify cs /\ p' = R_check cs;
  sp_wait : rs_flag sh = true -> p' <> R_wait
}.

Lemma acquire_phase cs sh cs' sh' :
  acquire_context cs sh = (cs', sh') -> rs_flag sh' = rs_flag sh /\ rs_main sh' = rs_main sh.
Proof. unfold acquire_context. destruct (rs_available sh); by intros [= <- <-]. Qed.

Lemma pop_free_phase sh c sh' :
  pop_free_context sh = Some (c, sh') -> rs_flag sh' = rs_flag sh /\ rs_main sh' = rs_main sh.
Proof. unfold pop_free_context. destruct (rs_free sh) as [[|d l]|]; [..|done]; by intros [= <- <-]. Qed.

Lemma give_back_phase l sh : rs_flag (give_back l sh) = rs_flag sh /\ rs_main (give_back l sh) = rs_main sh.
Proof. unfold give_back. by destruct (rs_free sh). Qed.

(** The cases of a step. *)
Ltac step_cases :=
  repeat match goal with
  | |- context [match rs_main ?sh with RM_create _ => _ | _ => _ end] => destruct (rs_main sh) eqn:?
  | |- context [pop_free_context ?sh] => destruct (pop_free_context sh) as [[? ?]|] eqn:?; cbn [mbind option_bind]
  | |- context [acquire_context ?cs ?sh] => destruct (acquire_context cs sh) eqn:?
  | |- context [if (?n <? ?m)%nat then _ else _] => destruct (Nat.ltb_spec n m)
  | |- context [if rs_flag ?sh then _ else _] => destruct (rs_flag sh) eqn:?
  | |- context [match ?x with _ => _ end] => is_var x; destruct x
  end.

Lemma read_local_phase ch free p sh p' sh' b :
  read_local ch free p sh = Some (p', sh', b) -> same_phase p sh p' sh'.
Proof.
  destruct p; cbn [read_local]; unfold after_load; step_cases; try done; intros [= <- <- <-];
    repeat match goal with
    | H : acquire_context _ _ = _ |- _ => apply acquire_phase in H as [? ?]
    | H : pop_free_context _ = _ |- _ => apply pop_free_phase in H as [? ?]
    | |- context [give_back ?l ?sh] => destruct (give_back_phase l sh) as [? ?]; generalize dependent (give_back l sh); intros
    end; constructor; cbn; try done; try congruence; try (left; congruence).
  all: try (right; eexists; eauto 6).
Qed.

Lemma created_insert ps k i p p' :
  created ps k -> ps !! i = Some p -> p <> R_new -> p' <> R_new -> created (<[i := p']> ps) k.
Proof.
  intros Hc Hi Hp Hp' j q Hj. destruct (decide (j = i)) as [->|Hji].
  - rewrite list_lookup_insert_eq in Hj by (by eapply lookup_lt_Some). injection Hj as <-.
    rewrite <- (Hc i p Hi). tauto.
  - rewrite list_lookup_insert_ne in Hj by done. by apply Hc.
Qed.

Lemma created_wake ps k : created ps k -> created (map wake ps) k.
Proof.
  intros Hc j p Hj. rewrite list_lookup_fmap in Hj. destruct (ps !! j) as [q|] eqn:Hq; [|done]. injection Hj as <-.
  rewrite <- (Hc j q Hq). unfold wake. by case_bool_decide as Hw; [subst q|].
Qed.

Lemma created_all ps k : created ps k -> ps !! k = None -> created ps (length ps).
Proof.
  intros Hc Hk j p Hj. rewrite (Hc j p Hj). apply lookup_ge_None in Hk. pose proof (lookup_lt_Some _ _ _ Hj). lia.
Qed.

(** The threads after a step of thread [i], which may have woken others. *)
Lemma created_step ps k i (b : bool) p p' :
  created ps k -> ps !! i = Some p -> p <> R_new -> p' <> R_new ->
  created (<[i := p']> (if b then map wake ps else ps)) k.
Proof.
  intros Hc Hi Hp Hp'. destruct b; [|by apply (created_insert _ _ _ p)].
  apply (created_insert _ _ _ (wake p)); [by apply created_wake | by rewrite list_lookup_fmap, Hi | | done].
  unfold wake. by case_bool_decide.
Qed.

Lemma not_waiting_step ps i (b : bool) p' :
  Forall (fun p => p <> R_wait) ps -> p' <> R_wait -> Forall (fun p => p <> R_wait) (<[i := p']> (if b then map wake ps else ps)).
Proof. intros Hps Hp'. apply Forall_insert; [|done]. destruct b; [apply wake_not_waiting | done]. Qed.

Lemma thread_step_phase i ch s s' : phase s -> read_thread_step i ch s = Some s' -> phase s'.
Proof.
  destruct s as [sh ps]. unfold read_thread_step. cbn [fst snd]. intros Hph.
  destruct (ps !! i) as [p|] eqn:Hi; [|done]. cbn.
  destruct (read_local ch _ p sh) as [[[p' sh'] b]|] eqn:Hl; [|done]. cbn. intros [= <-].
  destruct (read_local_phase _ _ _ _ _ _ _ Hl) as [[Hnew Hnw] Hnew' Hflag Hmain Hwait].
  assert (Hlen : length (<[i := p']> (if b then map wake ps else ps)) = length ps)
    by (rewrite length_insert; destruct b; [apply length_map | done]).
  unfold phase in *. destruct Hmain as [->|(k & E1 & E2 & _)].
  - rewrite Hflag, ?Hlen. destruct (rs_main sh); try (destruct Hph as [? Hc]); (split; [done|]);
      try (by apply (created_step _ _ _ _ p)).
    destruct Hc as [Hc Hw]. split; [by apply (created_step _ _ _ _ p)|]. apply not_waiting_step; [done|]. by apply Hwait.
  - rewrite E1 in Hph. rewrite E2, Hflag. destruct Hph as [? Hc]. split; [done|]. by apply (created_step _ _ _ _ p).
Qed.

Lemma main_step_phase s s' : phase s -> read_main_step s = Some s' -> phase s'.
Proof.
  destruct s as [sh ps]. unfold read_main_step, phase. destruct (rs_main sh) as [k|k| | | |k|] eqn:Em; intros Hph; try done.
  - destruct (ps !! k) as [p|] eqn:Hk; intros [= <-]; cbn; destruct Hph as [Hf Hc]; (split; [done|]).
    + intros j q Hj. destruct (decide (j = k)) as [->|Hjk].
      * rewrite list_lookup_insert_eq in Hj by (by eapply lookup_lt_Some). injection Hj as <-. split; [done | lia].
      * rewrite list_lookup_insert_ne in Hj by done. rewrite (Hc j q Hj). lia.
    + by apply (created_all _ k).
  - intros [= <-]. by destruct Hph.
  - intros [= <-]. by destruct Hph.
  - destruct (inbound_free _); [|done]. intros [= <-]. cbn. rewrite length_map. destruct Hph as [? Hc].
    split; [done|]. split; [by apply created_wake | apply wake_not_waiting].
  - destruct (ps !! k) as [p|]; [case_bool_decide; [|done]|]; intros [= <-]; cbn; [done|]. by destruct Hph as (_ & ? & _).
Qed.

Lemma phase_same sh sh' ps : rs_flag sh' = rs_flag sh -> rs_main sh' = rs_main sh -> phase (sh, ps) -> phase (sh', ps).
Proof. unfold phase. by intros -> ->. Qed.

Lemma read_step_phase a s s' : phase s -> read_step a s = Some s' -> phase s'.
Proof.
  destruct s as [sh ps]. destruct a as [i ch|i| | | |c|c|]; cbn [read_step].
  - apply thread_step_phase.
  - case_bool_decide as Hi; [|done]. intros Hph [= <-]. unfold phase in *.
    assert (Hc : forall k, created ps k -> created (<[i := R_wake]> ps) k) by (intros k Hc; by apply (created_insert _ _ _ R_wait)).
    rewrite length_insert. destruct (rs_main sh); naive_solver (by apply Forall_insert).
  - apply main_step_phase.
  - destruct (rs_main sh), (rs_free sh) as [[|? ?]|]; try done. intros Hph [= <-]. by apply (phase_same sh).
  - destruct (rs_main sh) eqn:Em; try done. destruct (pop_free_context sh) as [[c sh1]|] eqn:E; cbn; [|done].
    apply pop_free_phase in E as [Ef Em1]. intros Hph [= <-]. by apply (phase_same sh).
  - destruct (take_out c _) as [l|]; cbn; [|done]. intros Hph [= <-].
    apply (phase_same sh); [apply (give_back_phase [c] (set_rs_opening l sh))..|done].
  - destruct (take_out c _); cbn; [|done]. intros Hph [= <-]. exact Hph.
  - destruct (_ && _); [|done]. intros Hph [= <-]. unfold phase in *. cbn.
    pose proof (fun k => created_wake ps k) as Hc. pose proof (wake_not_waiting ps). rewrite length_map.
    destruct (rs_main sh); naive_solver.
Qed.

Lemma start_phase n : phase (read_start n).
Proof.
  unfold read_start, phase. cbn. split; [done|]. intros j p Hj. apply lookup_replicate in Hj as [-> _].
  split; [lia | done].
Qed.

Lemma reaches_phase ok n s : reaches ok n s -> phase s.
Proof. apply reaches_invariant; [apply start_phase|]. intros a s1 s2 Hs _. by apply read_step_phase. Qed.

Lemma phase_creates s k p : phase s -> rs_main (fst s) = RM_create k -> snd s !! k = Some p -> p = R_new.
Proof.
  destruct s as [sh ps]. unfold phase. cbn. intros Hph Hm Hk. rewrite Hm in Hph. destruct Hph as [_ Hc].
  by apply (Hc k p Hk).
Qed.

(** Whether [free_contexts] is not NULL yet. *)
Definition queue_exists (m : read_main) : bool :=
  match m with RM_create _ | RM_wait _ | RM_running => true | _ => false end.

Definition queue_phase (s : read_state) : Prop := is_Some (rs_free (fst s)) <-> queue_exists (rs_main (fst s)) = true.

Lemma give_back_free l sh : is_Some (rs_free (give_back l sh)) <-> is_Some (rs_free sh).
Proof. unfold give_back. destruct (rs_free sh) eqn:E; [|by rewrite E]. cbn. split; eauto. Qed.

Lemma pop_free_free sh c sh' : pop_free_context sh = Some (c, sh') -> is_Some (rs_free sh') <-> is_Some (rs_free sh).
Proof.
  unfold pop_free_context. destruct (rs_free sh) as [[|d l]|] eqn:E; [..|done]; intros [= <- <-]; [by rewrite E|].
  cbn. split; eauto.
Qed.

Lemma acquire_free cs sh cs' sh' : acquire_context cs sh = (cs', sh') -> rs_free sh' = rs_free sh.
Proof. unfold acquire_context. destruct (rs_available sh); by intros [= <- <-]. Qed.

Lemma read_local_free ch free p sh p' sh' b :
  read_local ch free p sh = Some (p', sh', b) -> is_Some (rs_free sh') <-> is_Some (rs_free sh).
Proof.
  destruct p; cbn [read_local]; unfold after_load; step_cases; try done; intros [= <- <- <-]; try done;
    first [apply give_back_free | by eapply pop_free_free | by erewrite acquire_free].
Qed.

Lemma read_step_queue a s s' : queue_phase s -> read_step a s = Some s' -> queue_phase s'.
Proof.
  unfold queue_phase. destruct s as [sh ps]. cbn [fst]. intros Hq. destruct a as [i ch|i| | | |c|c|]; cbn [read_step].
  - unfold read_thread_step. cbn [fst snd]. destruct (ps !! i) as [p|]; [|done]. cbn.
    destruct (read_local ch _ p sh) as [[[p' sh'] b]|] eqn:Hl; [|done]. cbn. intros [= <-]. cbn [fst].
    rewrite (read_local_free _ _ _ _ _ _ _ Hl), Hq.
    destruct (read_local_phase _ _ _ _ _ _ _ Hl) as [_ _ _ [->|(k & -> & -> & _)] _]; done.
  - case_bool_decide; [|done]. by intros [= <-].
  - unfold read_main_step. destruct (rs_main sh) as [k|k| | | |k|]; try done.
    + destruct (ps !! k); by intros [= <-].
    + intros [= <-]. cbn. split; [by intros [? ?] | done].
    + by intros [= <-].
    + destruct (inbound_free _); [|done]. by intros [= <-].
    + destruct (ps !! k); [case_bool_decide; [|done]|]; by intros [= <-].
  - destruct (rs_main sh) eqn:Em, (rs_free sh) as [[|? ?]|]; try done. intros [= <-]. cbn. rewrite Em. split; eauto.
  - destruct (rs_main sh) eqn:Em; try done. destruct (pop_free_context sh) as [[c sh1]|] eqn:E; cbn; [|done].
    intros [= <-]. cbn. rewrite (pop_free_free _ _ _ E). by rewrite (proj2 (pop_free_phase _ _ _ E)), Em.
  - destruct (take_out c _) as [l|]; cbn; [|done]. intros [= <-]. cbn [fst].
    rewrite give_back_free, (proj2 (give_back_phase [c] (set_rs_opening l sh))). exact Hq.
  - destruct (take_out c _); cbn; [|done]. by intros [= <-].
  - destruct (_ && _); [|done]. by intros [= <-].
Qed.

Lemma reaches_queue ok n s : reaches ok n s -> queue_phase s.
Proof.
  apply reaches_invariant; [|intros a s1 s2 Hs _; by apply read_step_queue].
  unfold queue_phase. cbn. split; eauto.
Qed.

Lemma read_step_owned a s s' :
  phase s -> one_owner s -> finds_free s a -> read_step a s = Some s' -> one_owner s'.
Proof.
  intros Hph Hs Hfree. destruct s as [sh ps].
  assert (Hshare : forall sh', (forall l, moves sh l sh' l) -> one_owner (sh', ps))
    by (intros sh' Hm; apply (shared_owned sh _ ps); [done | by left | done]).
  destruct a as [i ch|i| | | |c|c|]; cbn [read_step].
  - by apply thread_step_owned.
  - case_bool_decide as Hi; [|done]. intros [= <-]. apply (thread_moves sh _ _ _ R_wait); [done | done | by apply moves_perm | cbn; lia].
  - apply main_step_owned; [|done]. intros k p. by apply (phase_creates (sh, ps)).
  - destruct (rs_main sh); try done. destruct (rs_free sh) as [[|c l]|] eqn:E; try done. intros [= <-].
    apply Hshare. intros held. apply moves_perm; [by rewrite E|]. unfold owned_with, free_identifiers. cbn. rewrite E. cbn. solve_Permutation.
  - destruct (rs_main sh); try done. destruct (pop_free_context sh) as [[c sh1]|] eqn:E; cbn; [|done]. intros [= <-].
    apply Hshare. intros held. destruct (pop_free_moves sh c sh1 held Hfree E) as [Hw Ha].
    assert (Ho : rs_opening sh1 = rs_opening sh)
      by (unfold pop_free_context in E; destruct (rs_free sh) as [[|? ?]|]; [..|done]; by injection E as _ <-).
    assert (Hp : owned_with (set_rs_opening (c :: rs_opening sh) sh1) held ≡ₚ owned_with sh1 (c :: held))
      by (unfold owned_with, free_identifiers; cbn; rewrite Ho; solve_Permutation).
    split; rewrite Hp; [exact Hw | exact Ha].
  - destruct (take_out c (rs_opening sh)) as [l|] eqn:E; cbn; [|done]. intros [= <-]. apply take_out_perm in E.
    apply Hshare. intros held. destruct (give_back_moves [c] held (c :: held) (set_rs_opening l sh)) as [Hw Ha];
      [solve_Permutation|].
    assert (Hp : owned_with (set_rs_opening l sh) (c :: held) ≡ₚ owned_with sh held)
      by (unfold owned_with, free_identifiers; cbn; rewrite E; solve_Permutation).
    rewrite Hp in Hw, Ha. split; [exact Hw | exact Ha].
  - destruct (take_out c (rs_opening sh)) as [l|] eqn:E; cbn; [|done]. intros [= <-]. apply take_out_perm in E.
    apply Hshare. intros held. apply moves_perm; [done|]. unfold owned_with, free_identifiers. cbn. rewrite E. solve_Permutation.
  - destruct (_ && _); [|done]. intros [= <-]. apply (shared_owned sh _ ps); [done | by right | intros; by apply moves_perm].
Qed.

Lemma start_owned n : one_owner (read_start n).
Proof.
  assert (Hids : identifiers (read_start n) = seqZ 0 32).
  { assert (Hh : concat (map read_held (replicate n R_new)) = []) by (induction n; done).
    unfold identifiers, free_identifiers. cbn -[seqZ]. by rewrite Hh, app_nil_r. }
  constructor; [by rewrite Hids | by rewrite Hids |]. cbn -[seqZ].
  - apply Forall_forall. intros p Hp. apply elem_of_replicate in Hp as [-> _]. cbn. lia.
Qed.

(** ** Starting up *)

(** A thread that has notified the main thread and has seen no context: it waits,
    or it has the lock until it waits again, or it was woken for no reason. *)
Definition listening (p : read_pc) : Prop :=
  p = R_wait \/ p = R_wake \/ p = R_woken \/ p = R_acquire \/ p = R_check [].

(** A new thread before it has notified the main thread. *)
Definition announcing (p : read_pc) : Prop := p = R_test [] \/ p = R_lock [] \/ p = R_notify [].

Definition not_handed (s : read_state) (a : read_action) : Prop := forall c, a <> HandOver c.

(** Before anything was handed over. *)
Definition starting (s : read_state) : Prop :=
  let '(sh, ps) := s in
  match rs_main sh with
  | RM_create k => rs_available sh = [] /\ rs_signals sh = 0%nat /\
      forall j p, ps !! j = Some p -> (j < k)%nat -> listening p
  | RM_wait k => rs_available sh = [] /\ rs_signals sh = 0%nat /\
      forall j p, ps !! j = Some p -> ((j < k)%nat -> listening p) /\
        (j = k -> announcing p)
  | RM_running => rs_available sh = [] /\ rs_signals sh = 0%nat /\ Forall listening ps
  | _ => True
  end.

(** A listening thread keeps listening as long as no context is available. *)
Lemma listening_step ch free p sh p' sh' b :
  listening p -> rs_available sh = [] -> rs_flag sh = false -> read_local ch free p sh = Some (p', sh', b) ->
  listening p' /\ sh' = sh /\ b = false.
Proof.
  unfold listening. intros Hp Ha Hf. destruct Hp as [->|[->|[->|[->| ->]]]]; cbn [read_local]; rewrite ?Hf; try done.
  - destruct free; [|done]. intros [= <- <- <-]. auto.
  - intros [= <- <- <-]. auto 10.
  - unfold acquire_context. rewrite Ha. intros [= <- <- <-]. auto 10.
  - intros [= <- <- <-]. auto.
Qed.

Lemma announcing_step ch free p sh p' sh' b k :
  announcing p -> rs_main sh = RM_wait k -> rs_flag sh = false -> read_local ch free p sh = Some (p', sh', b) ->
  b = false /\ ((announcing p' /\ sh' = sh) \/ (p' = R_check [] /\ sh' = set_rs_main (RM_create (S k)) sh)).
Proof.
  unfold announcing. intros Hp Hm Hf. destruct Hp as [->|[->| ->]]; cbn [read_local]; rewrite ?Hf, ?Hm.
  - intros [= <- <- <-]. auto 6.
  - destruct free; [|done]. intros [= <- <- <-]. auto 6.
  - intros [= <- <- <-]. auto.
Qed.

Lemma starting_thread_step i ch s s' :
  phase s -> starting s -> read_thread_step i ch s = Some s' -> starting s'.
Proof.
  destruct s as [sh ps]. unfold read_thread_step. cbn [fst snd]. intros Hph Hst.
  destruct (ps !! i) as [p|] eqn:Hi; [|done]. cbn.
  destruct (read_local ch _ p sh) as [[[p' sh'] b]|] eqn:Hl; [|done]. cbn. intros [= <-].
  pose proof (lookup_lt_Some _ _ _ Hi) as Hlt.
  destruct (read_local_phase _ _ _ _ _ _ _ Hl) as [[Hnew _] _ _ Hmain _]. unfold starting, phase in *.
  assert (Hlisten : rs_available sh = [] -> rs_flag sh = false -> listening p -> listening p' /\ sh' = sh /\ b = false)
    by (intros; by apply (listening_step ch (inbound_free (sh, ps)) p)).
  destruct (rs_main sh) as [k|k| | | |k|] eqn:Em;
    try (by destruct Hmain as [->|(? & ? & _)]); destruct Hst as (Hav & Hsig & Hst); destruct Hph as [Hf Hc].
  - assert (Hik : (i < k)%nat) by (pose proof (Hc i p Hi); destruct (decide (k <= i)%nat); [tauto | lia]).
    destruct (Hlisten Hav Hf (Hst i p Hi Hik)) as (Hp' & -> & ->). rewrite Em. split; [done|]. split; [done|].
    intros j q Hj Hjk. apply list_lookup_insert_Some in Hj as [(_ & <- & _)|[_ Hj]]; [done | by apply (Hst j)].
  - assert (Hik : (i <= k)%nat) by (pose proof (Hc i p Hi); destruct (decide (S k <= i)%nat); [tauto | lia]).
    destruct (decide (i = k)) as [->|Hne].
    + destruct (Hst k p Hi) as [_ Hp].
      destruct (announcing_step ch _ p sh p' sh' b k (Hp eq_refl) Em Hf Hl) as [-> [[Hp' ->]|[-> ->]]]; rewrite ?Em; cbn;
        (split; [done|]); (split; [done|]); intros j q Hj.
      * apply list_lookup_insert_Some in Hj as [(<- & <- & _)|[? Hj]]; [split; [lia | done] | by apply Hst].
      * intros Hjk. apply list_lookup_insert_Some in Hj as [(<- & <- & _)|[? Hj]]; [unfold listening; auto|].
        apply (Hst j q Hj). lia.
    + destruct (Hlisten Hav Hf) as (Hp' & -> & ->); [apply (Hst i p Hi); lia|]. rewrite Em. split; [done|]. split; [done|].
      intros j q Hj. apply list_lookup_insert_Some in Hj as [(<- & <- & _)|[_ Hj]]; [split; [done | lia] | by apply Hst].
  - destruct (Hlisten Hav Hf) as (Hp' & -> & ->); [rewrite Forall_forall in Hst; apply Hst; by eapply list_elem_of_lookup_2|].
    rewrite Em. split; [done|]. split; [done|]. by apply Forall_insert.
Qed.

Lemma starting_main_step s s' : phase s -> starting s -> read_main_step s = Some s' -> starting s'.
Proof.
  destruct s as [sh ps]. unfold starting, phase, read_main_step. intros Hph Hst.
  destruct (rs_main sh) as [k|k| | | |k|] eqn:Em; try done.
  - destruct Hst as (Hav & Hsig & Hst). destruct (ps !! k) as [p|] eqn:Hk; intros [= <-]; cbn; (split; [done|]); (split; [done|]).
    + intros j q Hj. apply list_lookup_insert_Some in Hj as [(<- & <- & _)|[? Hj]].
      * split; [lia|]. unfold announcing. auto.
      * split; [by apply Hst | congruence].
    + apply Forall_lookup_2. intros j q Hj. apply (Hst j q Hj). apply lookup_ge_None in Hk.
      pose proof (lookup_lt_Some _ _ _ Hj). lia.
  - by intros [= <-].
  - by intros [= <-].
  - destruct (inbound_free _); [|done]. by intros [= <-].
  - destruct (ps !! k) as [p|]; [case_bool_decide; [|done]|]; by intros [= <-].
Qed.

Lemma listening_wake p : listening p -> listening (wake p).
Proof. unfold wake. case_bool_decide; [unfold listening; auto | done]. Qed.

Lemma starting_step a s s' :
  phase s -> starting s -> not_handed s a -> read_step a s = Some s' -> starting s'.
Proof.
  intros Hph Hst Hno. destruct s as [sh ps]. destruct a as [i ch|i| | | |c|c|]; cbn [read_step].
  - by apply starting_thread_step.
  - case_bool_decide as Hi; [|done]. intros [= <-]. unfold starting in *.
    assert (Hw : listening R_wake) by (unfold listening; auto).
    destruct (rs_main sh) as [k|k| | | |k|]; try done; destruct Hst as (? & ? & Hst); (split; [done|]); (split; [done|]).
    + intros j q Hj Hjk. apply list_lookup_insert_Some in Hj as [(<- & <- & _)|[? Hj]]; [done | by apply (Hst j)].
    + intros j q Hj. apply list_lookup_insert_Some in Hj as [(<- & <- & _)|[? Hj]]; [|by apply Hst].
      split; [done|]. intros ->. destruct (Hst k R_wait Hi) as [_ Ha]. by destruct (Ha eq_refl) as [?|[?|?]].
    + by apply Forall_insert.
  - by apply starting_main_step.
  - destruct (rs_main sh), (rs_free sh) as [[|? ?]|]; try done. intros [= <-]. exact Hst.
  - destruct (rs_main sh) eqn:Em; try done. unfold pop_free_context. destruct (rs_free sh) as [[|? ?]|]; [..|done];
      intros [= <-]; exact Hst.
  - destruct (take_out c _); cbn; [|done]. intros [= <-]. unfold give_back. cbn. destruct (rs_free sh); exact Hst.
  - by destruct (Hno c).
  - destruct (Nat.ltb_spec 0 (rs_signals sh)) as [Hlt|]; [|done]. cbn [andb]. destruct (inbound_free _); [|done]. intros [= <-].
    unfold starting in *. cbn. destruct (rs_main sh); try done; destruct Hst as (? & Hs & _); lia.
Qed.

Lemma start_starting n : starting (read_start n).
Proof. unfold starting. cbn. split; [done|]. split; [done|]. intros j p _ Hj. lia. Qed.

Lemma reaches_starting n s : reaches not_handed n s -> starting s.
Proof.
  intros Hr. assert (H : phase s /\ starting s); [|by destruct H].
  revert Hr. apply (reaches_invariant (fun s => phase s /\ starting s) not_handed n); [split; [apply start_phase | apply start_starting]|].
  intros a s1 s2 [Hph Hst] Hok Hstep. split; [by apply (read_step_phase a s1) | by apply (starting_step a s1)].
Qed.

(** ** Shutting down *)

(** How many steps a thread still makes once the flag is set; a sleeping thread
    counts as if it were about to be woken. *)
Definition read_rank (p : read_pc) : nat :=
  match p with
  | R_done => 0
  | R_exit _ => 1
  | R_test _ | R_behind _ | R_flag _ => 2
  | R_clean _ | R_cleanup _ | R_unlock _ => 3
  | R_check _ | R_woken => 4
  | R_notify _ | R_acquire | R_wake | R_load _ => 5
  | R_lock _ | R_wait => 6
  | R_new => 7
  | R_events _ k => 4 + 5 * k
  | R_signal _ k n => 5 + 5 * k + n
  | R_append _ k _ => 8 + 5 * k
  | R_poll cs => 5 + 5 * length cs
  end.
Definition read_measure (s : read_state) : nat := sum_list (map read_rank (snd s)).

Definition shutting_down (s : read_state) : Prop :=
  rs_main (fst s) = RM_flagged \/ exists k, rs_main (fst s) = RM_join k.

Lemma shutting_down_flag s : phase s -> shutting_down s -> rs_flag (fst s) = true.
Proof. destruct s as [sh ps]. unfold phase, shutting_down. cbn. intros Hph [Hm|[k Hm]]; rewrite Hm in Hph; by destruct Hph. Qed.

Lemma read_local_rank ch free p sh p' sh' b :
  rs_flag sh = true -> read_local ch free p sh = Some (p', sh', b) -> (read_rank p' < read_rank p)%nat.
Proof.
  intros Hf. destruct p; cbn [read_local]; unfold after_load; rewrite ?Hf; step_cases; try done;
    intros [= <- <- <-]; cbn; lia.
Qed.

Lemma wake_rank p : (read_rank (wake p) <= read_rank p)%nat.
Proof. unfold wake. case_bool_decide as Hp; [subst p; cbn; lia | lia]. Qed.

Lemma wake_measure ps : (sum_list (map read_rank (map wake ps)) <= sum_list (map read_rank ps))%nat.
Proof. induction ps as [|p ps IH]; [done|]. cbn. pose proof (wake_rank p). lia. Qed.

Lemma thread_step_measure i ch s s' :
  rs_flag (fst s) = true -> read_thread_step i ch s = Some s' -> (read_measure s' < read_measure s)%nat.
Proof.
  destruct s as [sh ps]. unfold read_thread_step, read_measure. cbn [fst snd]. intros Hf.
  destruct (ps !! i) as [p|] eqn:Hi; [|done]. cbn.
  destruct (read_local ch _ p sh) as [[[p' sh'] b]|] eqn:Hl; [|done]. cbn. intros [= <-]. cbn [snd].
  pose proof (read_local_rank _ _ _ _ _ _ _ Hf Hl) as Hr.
  destruct (read_local_phase _ _ _ _ _ _ _ Hl) as [[_ Hw] _ _ _ _].
  destruct b; [|by apply (sum_list_insert_lt _ ps i p)].
  eapply Nat.lt_le_trans; [|apply wake_measure]. apply (sum_list_insert_lt _ _ i p); [|done].
  rewrite list_lookup_fmap, Hi. cbn. f_equal. unfold wake. by case_bool_decide.
Qed.

Lemma thread_step_shutting_down i ch s s' :
  phase s -> shutting_down s -> read_thread_step i ch s = Some s' ->
  rs_main (fst s') = rs_main (fst s) /\ length (snd s') = length (snd s).
Proof.
  destruct s as [sh ps]. unfold read_thread_step, shutting_down. cbn [fst snd]. intros Hph Hm.
  destruct (ps !! i) as [p|] eqn:Hi; [|done]. cbn.
  destruct (read_local ch _ p sh) as [[[p' sh'] b]|] eqn:Hl; [|done]. cbn. intros [= <-]. cbn.
  destruct (read_local_phase _ _ _ _ _ _ _ Hl) as [_ _ _ [Hmain|(k & Hk & _)] _].
  - split; [done|]. rewrite length_insert. destruct b; [apply length_map | done].
  - rewrite Hk in Hm. by destruct Hm as [?|[? ?]].
Qed.

(** A schedule of the threads. *)
Definition threads_only (schedule : list (nat * choice)) : list read_action :=
  map (fun ic => Thread (fst ic) (snd ic)) schedule.

Lemma schedule_bounded schedule s s' :
  phase s -> shutting_down s -> read_run (threads_only schedule) s = Some s' ->
  phase s' /\ rs_main (fst s') = rs_main (fst s) /\ length (snd s') = length (snd s) /\
  (length schedule + read_measure s' <= read_measure s)%nat.
Proof.
  revert s. induction schedule as [|[i ch] schedule IH]; intros s Hph Hsd; cbn [threads_only map read_run];
    [intros [= <-]; cbn; auto with lia|]. cbn [read_step fst snd].
  destruct (read_step (Thread i ch) s) as [s1|] eqn:E; cbn; [|done]. intros Hrun.
  pose proof (read_step_phase _ _ _ Hph E) as Hph1.
  assert (E1 : read_thread_step i ch s = Some s1) by (by destruct s).
  destruct (thread_step_shutting_down i ch s s1 Hph Hsd E1) as [Hm Hlen].
  pose proof (thread_step_measure i ch s s1 (shutting_down_flag s Hph Hsd) E1) as Hmeas.
  destruct (IH s1 Hph1) as (Hph' & Hm' & Hlen' & Hmeas'); [unfold shutting_down in *; by rewrite Hm | exact Hrun|].
  split; [done|]. split; [congruence|]. split; [congruence | cbn; lia].
Qed.

(** A thread that has the lock, or needs none, can go on, unless it faults. *)
Lemma read_local_enabled ch free p sh :
  (ch = Accept -> is_Some (rs_free sh)) ->
  p <> R_new -> p <> R_wait -> p <> R_done -> (forall k, rs_main sh <> RM_create k) ->
  free = true \/ read_holds p = true -> is_Some (read_local ch free p sh).
Proof.
  intros Hq Hn Hw Hd Hm Hf. destruct p; cbn in *; try done; unfold after_load; step_cases; try done;
    first [by destruct Hf | by destruct (_ <=? 16)%nat | idtac].
  - edestruct Hm. reflexivity.
  - destruct Hq as [l Hl]; [done|]. unfold pop_free_context in *. rewrite Hl in *. by destruct l.
Qed.

Definition finished_or_asleep (p : read_pc) : Prop := p = R_done \/ p = R_wait.

#[export] Instance finished_or_asleep_dec p : Decision (finished_or_asleep p).
Proof. unfold finished_or_asleep. apply _. Defined.

Lemma threads_progress s ch :
  (ch = Accept -> is_Some (rs_free (fst s))) -> phase s -> shutting_down s ->
  ~ Forall finished_or_asleep (snd s) -> exists i s', read_thread_step i ch s = Some s'.
Proof.
  destruct s as [sh ps]. cbn [fst snd]. intros Hq Hph Hsd He.
  assert (Hcr : forall i p, ps !! i = Some p -> p <> R_new).
  { intros i p Hi. unfold phase, shutting_down in *. cbn in Hsd.
    assert (Hc : created ps (length ps)) by (destruct Hsd as [Hm|[k Hm]]; rewrite Hm in Hph; tauto).
    rewrite (Hc i p Hi). apply lookup_lt_Some in Hi. lia. }
  assert (Hm : forall k, rs_main sh <> RM_create k) by (intros k Hk; destruct Hsd as [Hs|[? Hs]]; cbn in Hs; congruence).
  assert (Hgo : exists i p, ps !! i = Some p /\ ~ finished_or_asleep p /\ (inbound_free (sh, ps) = true \/ read_holds p = true)).
  { destruct (inbound_free (sh, ps)) eqn:Hf.
    - apply not_Forall_Exists in He; [|apply _].
      apply Exists_exists in He as (p & Hin & Hp). apply list_elem_of_lookup in Hin as [i Hi]. eauto 6.
    - unfold inbound_free in Hf. cbn [snd] in Hf. apply not_true_iff_false in Hf. rewrite forallb_forall in Hf.
      destruct (decide (Exists (fun p => read_holds p = true) ps)) as [Hex|Hno].
      + apply Exists_exists in Hex as (p & Hin & Hp). apply list_elem_of_lookup in Hin as [i Hi].
        exists i, p. split; [done|]. split; [by intros [->| ->]|]. auto.
      + destruct Hf. intros p Hin. cbn. destruct (read_holds p) eqn:Hp; [|done].
        destruct Hno. apply Exists_exists. exists p. split; [by apply list_elem_of_In | done]. }
  destruct Hgo as (i & p & Hi & Hp & Hl). unfold finished_or_asleep in Hp.
  destruct (read_local_enabled ch (inbound_free (sh, ps)) p sh) as [[[p' sh'] b] Hr]; [done | by apply (Hcr i) | tauto | tauto | done | done |].
  exists i. eexists. unfold read_thread_step. cbn [fst snd]. rewrite Hi. cbn -[inbound_free]. rewrite Hr. reflexivity.
Qed.

(** The threads can always run until all of them are finished or asleep. *)
Lemma threads_settle n s :
  (read_measure s <= n)%nat -> phase s -> shutting_down s ->
  exists schedule s', read_run (threads_only schedule) s = Some s' /\ Forall finished_or_asleep (snd s').
Proof.
  revert s. induction n as [|n IH]; intros s Hm Hph Hsd;
    (destruct (decide (Forall finished_or_asleep (snd s))) as [He|He]; [by exists [], s|]);
    destruct (threads_progress s Nothing ltac:(done) Hph Hsd He) as (i & s1 & Hs1);
    pose proof (thread_step_measure i Nothing s s1 (shutting_down_flag s Hph Hsd) Hs1); [lia|].
  destruct (thread_step_shutting_down i Nothing s s1 Hph Hsd Hs1) as [Hmain _].
  assert (E : read_step (Thread i Nothing) s = Some s1) by (by destruct s).
  destruct (IH s1) as (schedule & s' & Hrun & Hs'); [lia | by apply (read_step_phase _ _ _ Hph E) | unfold shutting_down in *; by rewrite Hmain |].
  exists ((i, Nothing) :: schedule), s'. cbn [threads_only map read_run fst snd]. by rewrite E.
Qed.

(** ** What holds of all schedules *)

Lemma reaches_phase_owned n s : reaches finds_free n s -> phase s /\ one_owner s.
Proof.
  apply (reaches_invariant (fun s => phase s /\ one_owner s)); [split; [apply start_phase | apply start_owned]|].
  intros a s1 s2 [Hph Hs] Hok Hstep. split; [by apply (read_step_phase a s1) | by apply (read_step_owned a s1)].
Qed.

(** The steps that pop an identifier from the free queue. *)
Definition takes_identifier (s : read_state) (a : read_action) : Prop :=
  a = Take \/ a = TakeBlindly \/ exists i cs k, a = Thread i Accept /\ snd s !! i = Some (R_events cs (S k)).

Lemma submseteq_seqZ_NoDup l lo n : l ⊆+ seqZ lo n -> NoDup l.
Proof.
  intros [k Hk]%submseteq_Permutation. pose proof (NoDup_seqZ lo n) as H. rewrite Hk in H. by apply NoDup_app in H as [? _].
Qed.

(** C15: However the read threads, the main thread and the callers that open
    contexts interleave, as long as an identifier is free whenever one is taken
    without a test: until the shutdown destroys the free queue, and no longer, each
    of the 32 contexts of the table is at exactly one place: free, being opened,
    handed over and waiting, or with exactly one thread.  From then on each is at
    one place at most, since what is given back is lost, and no thread and no caller
    can take one: a thread that accepts a connection then dereferences NULL, as the
    read threads are flagged and joined only later.  No thread polls more than its
    17 contexts, and the queue of handed over contexts never holds more than the
    table has. *)
Theorem contexts_have_one_owner n s (Hr : reaches finds_free n s) :
  NoDup (identifiers s) /\ (forall c, c ∈ identifiers s -> 0 <= c < 32) /\
  (if queue_exists (rs_main (fst s))
   then (forall c, 0 <= c < 32 -> c ∈ identifiers s) /\ forall a, faults a s = false
   else (forall gone, give_back gone (fst s) = fst s) /\
     forall a, takes_identifier s a -> faults a s = true /\ read_step a s = None) /\
  Forall (fun p => (length (assigned_to p) <= 17)%nat) (snd s) /\ (length (rs_available (fst s)) <= 32)%nat.
Proof.
  destruct (reaches_phase_owned n s Hr) as [_ [Hw Hids Hload]]. pose proof (reaches_queue _ _ _ Hr) as Hq.
  destruct s as [sh ps]. unfold queue_phase in Hq. cbn [fst snd] in *.
  assert (Hin : forall c, c ∈ identifiers (sh, ps) -> 0 <= c < 32).
  { intros c Hc. pose proof (elem_of_submseteq _ _ c Hc Hw) as H. apply elem_of_seqZ in H. lia. }
  split; [by apply submseteq_seqZ_NoDup in Hw|]. split; [done|]. split; [|split; [done|]].
  - destruct (queue_exists (rs_main sh)) eqn:Em.
    + destruct (proj2 Hq eq_refl) as [l Hl]. split.
      * intros c Hc. rewrite Hids by (by rewrite Hl). apply elem_of_seqZ. lia.
      * intros [i [| | |]|i| | | |c|c|]; cbn; rewrite ?Hl; try done. by repeat case_match.
    + assert (Hf : rs_free sh = None) by (destruct (rs_free sh); [|done]; destruct Hq as [Hq _]; by discriminate Hq).
      split; [intros gone; unfold give_back; by rewrite Hf|]. intros a Ha.
      destruct Ha as [->|[->|(i & cs & k & -> & Hi)]]; cbn; rewrite ?Hf; [by destruct (rs_main sh)..|].
      cbn in Hi. rewrite Hi. unfold read_thread_step. cbn. rewrite Hi. cbn. unfold pop_free_context. by rewrite Hf.
  - apply submseteq_length in Hw. unfold identifiers in Hw. rewrite !length_app, length_seqZ in Hw. cbn in Hw. lia.
Qed.

(** A run whose steps satisfy a condition that can be evaluated. *)
Fixpoint run_reaches (ok : read_state -> read_action -> bool) (actions : list read_action) (s : read_state) :
    option read_state :=
  match actions with
  | [] => Some s
  | a :: actions' => if ok s a then s' ← read_step a s; run_reaches ok actions' s' else None
  end.

Lemma run_reaches_sound (ok : read_state -> read_action -> Prop) okb n actions s s' :
  (forall s a, okb s a = true -> ok s a) -> reaches ok n s -> run_reaches okb actions s = Some s' -> reaches ok n s'.
Proof.
  intros Hok. revert s. induction actions as [|a actions IH]; intros s Hs; cbn [run_reaches]; [by intros [= <-]|].
  destruct (okb s a) eqn:Ha; [|done]. destruct (read_step a s) as [s1|] eqn:E; cbn; [|done].
  apply IH. by eapply reaches_step; [|apply Hok|].
Qed.

(** ** The lock *)

(** At most one thread has the lock. *)
Definition exclusive (s : read_state) : Prop :=
  forall i j p q, snd s !! i = Some p -> snd s !! j = Some q -> read_holds p = true -> read_holds q = true -> i = j.

Lemma read_local_holds ch free p sh p' sh' b :
  read_local ch free p sh = Some (p', sh', b) -> read_holds p' = true -> read_holds p = true \/ free = true.
Proof. destruct p; cbn [read_local]; unfold after_load; step_cases; try done; intros [= <- <- <-]; cbn; auto. Qed.

Lemma wake_holds p : read_holds (wake p) = read_holds p.
Proof. unfold wake. by case_bool_decide as Hp; [subst p|]. Qed.

Lemma exclusive_insert sh sh' ps i p' :
  exclusive (sh, ps) ->
  (read_holds p' = true -> inbound_free (sh, ps) = true \/ exists p, ps !! i = Some p /\ read_holds p = true) ->
  exclusive (sh', <[i := p']> ps).
Proof.
  unfold exclusive. cbn. intros Hex Hp j k q r Hj Hk Hq Hr.
  assert (Hfree : inbound_free (sh, ps) = true -> forall m t, ps !! m = Some t -> read_holds t = true -> False).
  { unfold inbound_free. cbn. intros Hf m t Hm Ht. rewrite forallb_forall in Hf.
    apply list_elem_of_lookup_2, list_elem_of_In, Hf in Hm. by rewrite Ht in Hm. }
  apply list_lookup_insert_Some in Hj as [(<- & <- & _)|[Hne Hj]];
    apply list_lookup_insert_Some in Hk as [(<- & <- & _)|[Hne' Hk]]; [done | | |by apply (Hex j k q r)].
  - destruct (Hp Hq) as [Hf|(p & Hi & Hh)]; [by destruct (Hfree Hf k r Hk Hr) | by apply (Hex i k p r)].
  - destruct (Hp Hr) as [Hf|(p & Hi & Hh)]; [by destruct (Hfree Hf j q Hj Hq) | by apply (Hex j i q p)].
Qed.

Lemma exclusive_wake sh sh' ps : exclusive (sh, ps) -> exclusive (sh', map wake ps).
Proof.
  unfold exclusive. cbn. intros Hex i j p q Hi Hj Hp Hq. rewrite list_lookup_fmap in Hi, Hj.
  apply fmap_Some in Hi as (p0 & Hi & ->). apply fmap_Some in Hj as (q0 & Hj & ->). rewrite wake_holds in Hp, Hq.
  by apply (Hex i j p0 q0).
Qed.

Lemma inbound_free_wake sh sh' ps : inbound_free (sh', map wake ps) = inbound_free (sh, ps).
Proof.
  unfold inbound_free. cbn. induction ps as [|p ps IH]; [done|]. cbn. by rewrite wake_holds, IH.
Qed.

Lemma read_step_exclusive a s s' : exclusive s -> read_step a s = Some s' -> exclusive s'.
Proof.
  intros Hex. destruct s as [sh ps]. assert (Hsh : forall sh', exclusive (sh', ps)) by exact (fun _ => Hex).
  destruct a as [i ch|i| | | |c|c|]; cbn [read_step].
  - unfold read_thread_step. cbn [fst snd]. destruct (ps !! i) as [p|] eqn:Hi; [|done]. cbn -[inbound_free].
    destruct (read_local ch _ p sh) as [[[p' sh'] b]|] eqn:Hl; [|done]. cbn. intros [= <-].
    pose proof (read_local_holds _ _ _ _ _ _ _ Hl) as Hp. destruct b.
    + apply (exclusive_insert sh); [by apply (exclusive_wake sh)|]. intros Hh. rewrite (inbound_free_wake sh).
      destruct (Hp Hh) as [Hh'|]; [right|by left]. exists (wake p). by rewrite list_lookup_fmap, Hi, wake_holds.
    + apply (exclusive_insert sh); [done|]. intros Hh. destruct (Hp Hh); eauto.
  - case_bool_decide; [|done]. intros [= <-]. by apply (exclusive_insert sh).
  - unfold read_main_step. destruct (rs_main sh) as [k|k| | | |k|]; try done.
    + destruct (ps !! k); intros [= <-]; [by apply (exclusive_insert sh) | done].
    + by intros [= <-].
    + by intros [= <-].
    + destruct (inbound_free _); [|done]. intros [= <-]. by apply (exclusive_wake sh).
    + destruct (ps !! k); [case_bool_decide; [|done]|]; by intros [= <-].
  - destruct (rs_main sh), (rs_free sh) as [[|? ?]|]; try done; by intros [= <-].
  - destruct (rs_main sh); try done. destruct (pop_free_context sh) as [[? ?]|]; cbn; [|done]. by intros [= <-].
  - destruct (take_out c _); cbn; [|done]. by intros [= <-].
  - destruct (take_out c _); cbn; [|done]. by intros [= <-].
  - destruct (_ && _); [|done]. intros [= <-]. by apply (exclusive_wake sh).
Qed.

Lemma reaches_exclusive ok n s : reaches ok n s -> exclusive s.
Proof.
  apply reaches_invariant; [|intros a s1 s2 Hs _; by apply read_step_exclusive].
  intros i j p q Hi Hj Hp. cbn in Hi. apply lookup_replicate in Hi as [-> _]. done.
Qed.

Lemma inbound_free_spec s : inbound_free s = true <-> Forall (fun p => read_holds p = false) (snd s).
Proof.
  unfold inbound_free. rewrite forallb_forall, Forall_forall. split; intros H p Hp.
  - apply list_elem_of_In, H in Hp. by destruct (read_holds p).
  - apply list_elem_of_In, H in Hp. by rewrite Hp.
Qed.

Lemma inbound_held s : inbound_free s = false -> exists i p, snd s !! i = Some p /\ read_holds p = true.
Proof.
  intros Hf. destruct (decide (Forall (fun p => read_holds p = false) (snd s))) as [H|H].
  - apply inbound_free_spec in H. congruence.
  - apply not_Forall_Exists, Exists_exists in H as (p & Hin & Hp); [|apply _].
    apply list_elem_of_lookup in Hin as [i Hi]. cbn in Hp.
    exists i, p. split; [done | by destruct (read_holds p)].
Qed.

(** A step that leaves what is shared alone. *)
Lemma quiet_thread_step i ch sh ps p p' :
  ps !! i = Some p -> read_local ch (inbound_free (sh, ps)) p sh = Some (p', sh, false) ->
  read_step (Thread i ch) (sh, ps) = Some (sh, <[i := p']> ps).
Proof. intros Hi Hl. cbn [read_step]. unfold read_thread_step. cbn [fst snd]. rewrite Hi. cbn -[inbound_free]. by rewrite Hl. Qed.

Lemma read_run_app actions1 actions2 s :
  read_run (actions1 ++ actions2) s = s' ← read_run actions1 s; read_run actions2 s'.
Proof.
  revert s. induction actions1 as [|a actions1 IH]; intros s; [done|]. cbn [read_run app].
  destruct (read_step a s) as [s1|]; cbn; [apply IH | done].
Qed.

(** While nothing was handed over, a thread that has the lock lets it go in at
    most three steps, and changes nothing that is shared. *)
Lemma lock_let_go sh ps i p :
  rs_available sh = [] -> rs_flag sh = false -> ps !! i = Some p -> listening p -> read_holds p = true ->
  exists k, (k <= 3)%nat /\ read_run (replicate k (Thread i Nothing)) (sh, ps) = Some (sh, <[i := R_wait]> ps).
Proof.
  intros Ha Hf Hi Hp Hh. pose proof (lookup_lt_Some _ _ _ Hi) as Hlt.
  assert (H1 : forall ps0, ps0 !! i = Some (R_check []) ->
    read_run (replicate 1 (Thread i Nothing)) (sh, ps0) = Some (sh, <[i := R_wait]> ps0)).
  { intros ps0 H0. cbn [replicate read_run]. rewrite (quiet_thread_step i _ _ _ (R_check []) R_wait); [done..|].
    cbn [read_local]. by rewrite Hf. }
  assert (H2 : forall ps0, ps0 !! i = Some R_acquire -> length ps0 = length ps ->
    read_run (replicate 2 (Thread i Nothing)) (sh, ps0) = Some (sh, <[i := R_wait]> ps0)).
  { intros ps0 H0 Hlen. rewrite (replicate_S 1). cbn [read_run].
    rewrite (quiet_thread_step i _ _ _ R_acquire (R_check [])); [|done| cbn [read_local]; unfold acquire_context; by rewrite Ha].
    cbn [mbind option_bind]. rewrite H1 by (apply list_lookup_insert_eq; rewrite Hlen; done). by rewrite list_insert_insert_eq. }
  destruct Hp as [->|[->|[->|[->| ->]]]]; try done.
  - exists 3%nat. split; [done|]. rewrite (replicate_S 2). cbn [read_run].
    rewrite (quiet_thread_step i _ _ _ R_woken R_acquire); [|done| cbn [read_local]; by rewrite Hf]. cbn [mbind option_bind].
    rewrite H2 by (by rewrite ?length_insert, ?list_lookup_insert_eq). by rewrite list_insert_insert_eq.
  - exists 2%nat. split; [lia | by apply H2].
  - exists 1%nat. split; [lia | by apply H1].
Qed.

(** While nothing was handed over, the lock becomes free in at most three steps of
    one thread, which leave all threads listening. *)
Lemma lock_becomes_free n s :
  reaches not_handed n s -> rs_main (fst s) = RM_running ->
  exists i k s', (k <= 3)%nat /\ read_run (replicate k (Thread i Nothing)) s = Some s' /\ fst s' = fst s /\
    length (snd s') = length (snd s) /\ inbound_free s' = true /\ Forall listening (snd s').
Proof.
  intros Hr Hm. pose proof (reaches_phase _ _ _ Hr) as Hph. pose proof (reaches_starting _ _ Hr) as Hst.
  pose proof (reaches_exclusive _ _ _ Hr) as Hex. destruct s as [sh ps]. cbn in Hm. unfold phase, starting in *.
  rewrite Hm in Hph, Hst. destruct Hst as (Ha & _ & Hl). destruct Hph as [Hf _].
  destruct (inbound_free (sh, ps)) eqn:Hfree; [exists 0%nat, 0%nat, (sh, ps); repeat split; [lia|done|done]|].
  apply inbound_held in Hfree as (i & p & Hi & Hh). cbn [snd] in Hi.
  destruct (lock_let_go sh ps i p Ha Hf Hi) as (k & Hk & Hrun); [|done|].
  { rewrite Forall_forall in Hl. apply Hl. by eapply list_elem_of_lookup_2. }
  exists i, k, (sh, <[i := R_wait]> ps). cbn [fst snd]. split; [done|]. split; [done|]. split; [done|].
  split; [apply length_insert|]. split; [|by apply Forall_insert; [|left]].
  apply inbound_free_spec. cbn [snd]. apply Forall_lookup_2. intros j q Hj.
  apply list_lookup_insert_Some in Hj as [(_ & <- & _)|[Hne Hj]]; [done|].
  destruct (read_holds q) eqn:Hq; [|done]. destruct Hne. by apply (Hex i j p q).
Qed.

Lemma listening_all_woken ps :
  Forall listening ps -> Forall (fun p => read_holds p = false) ps -> map wake ps = replicate (length ps) R_wake.
Proof.
  induction ps as [|p ps IH]; [done|]. intros [Hp Hl]%Forall_cons [Hh Hf]%Forall_cons. cbn. rewrite (IH Hl Hf).
  f_equal. by destruct Hp as [->|[->|[->|[->| ->]]]].
Qed.

(** A woken thread takes the context that is available. *)
Lemma woken_thread_acquires sh n i c ch :
  (i < n)%nat -> rs_flag sh = false -> rs_available sh = [c] ->
  read_run [Thread i ch; Thread i ch; Thread i ch] (sh, replicate n R_wake) =
    Some (set_rs_available [] sh, <[i := R_check [c]]> (replicate n R_wake)).
Proof.
  intros Hi Hf Ha. set (ps := replicate n R_wake).
  assert (Hlen : length ps = n) by apply length_replicate.
  assert (Hw : ps !! i = Some R_wake) by (by apply lookup_replicate).
  assert (Hfree : inbound_free (sh, ps) = true)
    by (apply inbound_free_spec, Forall_forall; intros p [-> _]%elem_of_replicate; done).
  cbn [read_run]. rewrite (quiet_thread_step i _ _ _ R_wake R_woken); [|done| cbn [read_local]; by rewrite Hfree].
  cbn [mbind option_bind]. rewrite (quiet_thread_step i _ _ _ R_woken R_acquire);
    [|apply list_lookup_insert_eq; by rewrite Hlen | cbn [read_local]; by rewrite Hf].
  cbn [mbind option_bind read_step]. unfold read_thread_step. cbn [fst snd]. rewrite list_insert_insert_eq.
  rewrite list_lookup_insert_eq by (by rewrite Hlen). cbn -[inbound_free]. unfold acquire_context. rewrite Ha. cbn.
  by rewrite list_insert_insert_eq.
Qed.

(** C19: The first context that is handed over is not missed.  However the threads
    were created and whatever they and the callers did since, if no context was
    handed over before: at most three steps of one thread free the lock; after the
    context is queued and [connector_flag_read] called then, every thread is awake,
    and whichever runs first has the context after three steps.  The comment in
    [communication.h] speaks of waking any single sleeping read thread; the function
    broadcasts, and wakes them all. *)
Theorem first_handover_is_heard n s c (Hr : reaches not_handed n s) (Hm : rs_main (fst s) = RM_running)
    (Hc : c ∈ rs_opening (fst s)) :
  exists i k s1, (k <= 3)%nat /\
    read_run (replicate k (Thread i Nothing) ++ [HandOver c; Flag]) s = Some s1 /\
    snd s1 = replicate (length (snd s)) R_wake /\ rs_available (fst s1) = [c] /\
    forall j ch, (j < length (snd s))%nat -> exists s2,
      read_run [Thread j ch; Thread j ch; Thread j ch] s1 = Some s2 /\
      snd s2 !! j = Some (R_check [c]) /\ rs_available (fst s2) = [].
Proof.
  destruct (lock_becomes_free n s Hr Hm) as (i & k & [sh ps] & Hk & Hrun & Hsh & Hlen & Hfree & Hl).
  cbn [fst snd] in *. subst sh.
  pose proof (reaches_phase _ _ _ Hr) as Hph. pose proof (reaches_starting _ _ Hr) as Hst.
  destruct s as [sh ps0]. unfold phase, starting in *. cbn [fst snd] in *. rewrite Hm in Hph, Hst.
  destruct Hst as (Ha & Hs & _). destruct Hph as [Hf _].
  assert (Hout : exists l, take_out c (rs_opening sh) = Some l).
  { clear -Hc. induction (rs_opening sh) as [|d l IH]; [by apply elem_of_nil in Hc|]. cbn.
    destruct (Z.eqb_spec d c) as [|Hne]; [eauto|]. apply elem_of_cons in Hc as [->|Hc]; [done|].
    destruct (IH Hc) as [l' ->]. cbn. eauto. }
  destruct Hout as [l Hout].
  set (sh1 := set_rs_signals 0 (set_rs_available [c] (set_rs_opening l sh))).
  exists i, k, (sh1, map wake ps). split; [done|].
  assert (Hw : map wake ps = replicate (length ps) R_wake)
    by (apply listening_all_woken; [done | by apply (inbound_free_spec (sh, ps))]).
  split; [|cbn [fst snd]; rewrite Hw, Hlen; split; [done|]; split; [done|]].
  - rewrite read_run_app, Hrun. cbn [mbind option_bind read_run read_step]. rewrite Hout. cbn [mbind option_bind].
    rewrite Hs, Ha. cbn -[inbound_free]. change (inbound_free _) with (inbound_free (sh, ps)). by rewrite Hfree.
  - intros j ch Hj. exists (set_rs_available [] sh1, <[j := R_check [c]]> (replicate (length ps0) R_wake)).
    split; [by apply woken_thread_acquires|]. cbn [fst snd]. split; [|done].
    apply list_lookup_insert_eq. by rewrite length_replicate.
Qed.

(** Starting [n] threads: for each, the main thread creates it and waits, and the
    thread notifies it and goes to sleep. *)
Definition start_up (n : nat) : list read_action :=
  concat (map (fun i => Main :: replicate 4 (Thread i Nothing)) (seq 0 n)) ++ [Main].

Definition not_handed_b (s : read_state) (a : read_action) : bool := match a with HandOver _ => false | _ => true end.

Lemma not_handed_sound s a : not_handed_b s a = true -> not_handed s a.
Proof. intros H c ->. done. Qed.

Definition started : read_state := (ReadShared false RM_running (Some (seqZ 1 31)) [0] [] 0, [R_wait; R_wait]).

Lemma started_reached : reaches not_handed 2 started.
Proof.
  apply (run_reaches_sound not_handed not_handed_b 2 (start_up 2 ++ [Take]) (read_start 2) started);
    [apply not_handed_sound | apply reaches_start | vm_compute; reflexivity].
Qed.

Lemma first_handover_is_heard_witness :
  exists i k s1, (k <= 3)%nat /\
    read_run (replicate k (Thread i Nothing) ++ [HandOver 0; Flag]) started = Some s1 /\
    snd s1 = replicate 2 R_wake /\ rs_available (fst s1) = [0] /\
    forall j ch, (j < 2)%nat -> exists s2,
      read_run [Thread j ch; Thread j ch; Thread j ch] s1 = Some s2 /\
      snd s2 !! j = Some (R_check [0]) /\ rs_available (fst s2) = [].
Proof. apply (first_handover_is_heard 2 started 0 started_reached); [reflexivity | by left]. Defined.

(** ** Runs *)

Definition finds_free_b (s : read_state) (a : read_action) : bool :=
  match a with
  | TakeBlindly => negb (bool_decide (rs_free (fst s) = Some []))
  | Thread i Accept =>
      match snd s !! i with Some (R_events _ (S _)) => negb (bool_decide (rs_free (fst s) = Some [])) | _ => true end
  | _ => true
  end.

Lemma finds_free_sound s a : finds_free_b s a = true -> finds_free s a.
Proof.
  destruct a as [i [| | |]|i| | | |c|c|]; cbn; try done.
  - intros H cs k E. rewrite E in H. by apply negb_true_iff, bool_decide_eq_false in H.
  - intros H. by apply negb_true_iff, bool_decide_eq_false in H.
Qed.

Definition steps (i : nat) (ch : choice) (k : nat) : list read_action := replicate k (Thread i ch).
Definition hand_over (c : Z) : list read_action := [Take; HandOver c; Flag].

(** From the queue to polling: a woken thread acquires, leaves the lock, looks for
    another context, cleans up and polls. *)
Definition to_poll (i : nat) : list read_action := steps i Nothing 9.

(** Behind a poll: the event, the cleanup with the context marked, and back to
    waiting. *)
Definition back_to_wait (i : nat) (c : Z) : list read_action :=
  steps i Nothing 2 ++ [Thread i (Marked [c])] ++ steps i Nothing 4.

(** The first thread polls context 0, the second was woken in vain. *)
Definition first_polls : list read_action :=
  start_up 2 ++ hand_over 0 ++ to_poll 0 ++ steps 1 Nothing 4.

(** Later the shutdown begins, and the free queue is destroyed, while an event on
    the context has been polled and another caller has taken context 1. *)
Definition closing_while_read : list read_action := first_polls ++ [Take; Thread 0 Nothing; Main].

Definition polling : read_state := (ReadShared false RM_running (Some (seqZ 1 31)) [] [] 0, [R_poll [0]; R_wait]).
Definition closing : read_state := (ReadShared false RM_closing None [1] [] 0, [R_events [0] 1; R_wait]).

Lemma contexts_have_one_owner_witness :
  (NoDup (identifiers polling) /\ forall c, 0 <= c < 32 -> c ∈ identifiers polling) /\
  NoDup (identifiers closing) /\ give_back [1] (fst closing) = fst closing /\
  faults (Thread 0 Accept) closing = true.
Proof.
  assert (H1 : reaches finds_free 2 polling).
  { apply (run_reaches_sound _ finds_free_b 2 first_polls (read_start 2));
      [apply finds_free_sound | apply reaches_start | vm_compute; reflexivity]. }
  assert (H2 : reaches finds_free 2 closing).
  { apply (run_reaches_sound _ finds_free_b 2 closing_while_read (read_start 2));
      [apply finds_free_sound | apply reaches_start | vm_compute; reflexivity]. }
  destruct (contexts_have_one_owner 2 polling H1) as (Hn & _ & [Hall _] & _).
  destruct (contexts_have_one_owner 2 closing H2) as (Hn' & _ & [Hlost Hfault] & _).
  split; [done|]. split; [done|]. split; [apply Hlost|]. apply Hfault. right. right. exists 0%nat, [0], 0%nat. done.
Defined.

(** Both threads poll; both polls return; a context is handed over; and the
    contexts of both threads turn out to be closed. *)
Definition missed_handover : list read_action :=
  first_polls ++ hand_over 1 ++ to_poll 1 ++ [Thread 0 Nothing; Thread 1 Nothing] ++ hand_over 2 ++
  back_to_wait 0 0 ++ back_to_wait 1 1.

(** A later context can be missed.  A thread that comes back from a poll with
    no contexts left goes to wait without looking at the queue, and the broadcast
    of a context that was handed over while both threads were busy is not
    repeated: both threads sleep while the context waits, no caller is about to
    broadcast, and no thread can make a step until something else is handed over
    or a sleeping thread is woken for no reason. *)
Theorem handover_can_be_missed :
  exists s, reaches finds_free 2 s /\ rs_main (fst s) = RM_running /\ snd s = [R_wait; R_wait] /\
    rs_available (fst s) = [2] /\ rs_opening (fst s) = [] /\ rs_signals (fst s) = 0%nat /\
    (forall i ch, read_step (Thread i ch) s = None) /\ read_step Flag s = None.
Proof.
  assert (H : run_reaches finds_free_b missed_handover (read_start 2) =
    Some (ReadShared false RM_running (Some (seqZ 3 29 ++ [0; 1])) [] [2] 0, [R_wait; R_wait])) by (vm_compute; reflexivity).
  eexists (_, _). split.
  - eapply run_reaches_sound; [apply finds_free_sound | apply reaches_start | exact H].
  - repeat (split; [reflexivity|]). split; [|reflexivity]. by intros [|[|i]] ch.
Qed.

(** All contexts are taken, context 0 is handed over and polled, and then an event
    on it is a connection to be accepted. *)
Definition accept_without_free : list read_action :=
  start_up 2 ++ replicate 32 Take ++ [HandOver 0; Flag] ++ to_poll 0 ++ [Thread 0 Nothing; Thread 0 Accept].

(** Accepting a connection does not look whether a context was free: with all 32
    in use, context 0, which the thread polls itself, is taken a second time. *)
Theorem accept_can_take_a_used_context :
  exists s, reaches (fun _ _ => True) 2 s /\ snd s !! 0%nat = Some (R_append [0] 0 0) /\ ~ NoDup (identifiers s).
Proof.
  assert (H : read_run accept_without_free (read_start 2) =
    Some (ReadShared false RM_running (Some []) (reverse (seqZ 1 31)) [] 0, [R_append [0] 0 0; R_wake])) by (vm_compute; reflexivity).
  eexists (_, _). split.
  - eapply reaches_run; [apply reaches_start | done | exact H].
  - split; [reflexivity|]. unfold identifiers. cbn -[seqZ reverse]. rewrite NoDup_app. intros (_ & _ & Hd).
    rewrite NoDup_cons in Hd. destruct Hd as [Hno _]. apply Hno. by left.
Qed.

(** ** The end of a shutdown *)

Lemma settled_free s : Forall finished_or_asleep (snd s) -> inbound_free s = true.
Proof. intros H. apply inbound_free_spec. eapply Forall_impl; [exact H|]. by intros p [->| ->]. Qed.

(** Joining threads that are all finished. *)
Lemma join_finished k sh ps :
  rs_main sh = RM_join (length ps - k) -> (k <= length ps)%nat -> Forall (fun p => p = R_done) ps ->
  read_run (replicate (S k) Main) (sh, ps) = Some (set_rs_main RM_done (set_rs_flag false sh), ps).
Proof.
  intros Hm Hk Hd. revert sh Hm. induction k as [|k IH]; intros sh Hm.
  - cbn [replicate read_run read_step]. unfold read_main_step. rewrite Hm, lookup_ge_None_2 by lia. reflexivity.
  - rewrite (replicate_S (S k)). cbn [read_run read_step]. unfold read_main_step. rewrite Hm.
    destruct (lookup_lt_is_Some_2 ps (length ps - S k)) as [p Hp]; [lia|]. rewrite Hp.
    rewrite Forall_forall in Hd. rewrite (Hd p) by (by eapply list_elem_of_lookup_2).
    rewrite bool_decide_eq_true_2 by done. cbn [mbind option_bind].
    change (Main :: replicate k Main) with (replicate (S k) Main).
    rewrite IH; [done | lia |]. cbn. f_equal. lia.
Qed.

Definition thread_or_main (a : read_action) : Prop := a = Main \/ exists i ch, a = Thread i ch.

Lemma threads_only_ok schedule : Forall thread_or_main (threads_only schedule).
Proof. apply Forall_forall. intros a (ic & -> & _)%list_elem_of_fmap. right. eauto. Qed.

(** While the main thread joins, the threads finish, and then it does. *)
Lemma join_terminates s :
  phase s -> rs_main (fst s) = RM_join 0 ->
  exists actions s', Forall thread_or_main actions /\ read_run actions s = Some s' /\
    rs_main (fst s') = RM_done /\ rs_flag (fst s') = false /\ Forall (fun p => p = R_done) (snd s').
Proof.
  intros Hph Hm. assert (Hsd : shutting_down s) by (right; eauto).
  destruct (threads_settle (read_measure s) s) as (schedule & [sh ps] & Hrun & Hset); [done..|].
  destruct (schedule_bounded _ _ _ Hph Hsd Hrun) as (Hph' & Hm' & Hlen & _). cbn [fst snd] in *.
  assert (Hd : Forall (fun p => p = R_done) ps).
  { unfold phase in Hph'. rewrite Hm', Hm in Hph'. destruct Hph' as (_ & _ & Hw).
    rewrite Forall_forall in *. intros p Hp. by destruct (Hset p Hp) as [?|Hwait]; [|destruct (Hw p Hp)]. }
  exists (threads_only schedule ++ replicate (S (length ps)) Main). eexists. split; [|split].
  - apply Forall_app. split; [apply threads_only_ok|]. apply Forall_replicate. by left.
  - rewrite read_run_app, Hrun. cbn [mbind option_bind]. apply join_finished; [|lia | done].
    by rewrite Hm', Hm, Nat.sub_diag.
  - done.
Qed.

(** C16: Shutting down the read threads terminates.  Once the flag is set, from any
    state that can be reached: no schedule of the threads is longer than the
    measure of the state; and from the state in which the condition is still to be
    broadcast, the threads can run, the main thread can broadcast, join and finish;
    then every thread is finished and holds no context, and the flag is cleared. *)
Theorem read_shutdown_terminates ok n s (Hr : reaches ok n s) :
  (shutting_down s -> forall schedule s', read_run (threads_only schedule) s = Some s' ->
    (length schedule <= read_measure s)%nat) /\
  (rs_main (fst s) = RM_flagged -> exists actions s',
    Forall thread_or_main actions /\ read_run actions s = Some s' /\ rs_main (fst s') = RM_done /\
    rs_flag (fst s') = false /\ Forall (fun p => p = R_done) (snd s') /\ in_threads (snd s') = []).
Proof.
  pose proof (reaches_phase _ _ _ Hr) as Hph. split.
  - intros Hsd schedule s' Hrun. destruct (schedule_bounded _ _ _ Hph Hsd Hrun) as (_ & _ & _ & H). lia.
  - intros Hm. assert (Hsd : shutting_down s) by (by left).
    destruct (threads_settle (read_measure s) s) as (schedule & [sh ps] & Hrun & Hset); [done..|].
    destruct (schedule_bounded _ _ _ Hph Hsd Hrun) as (Hph' & Hm' & _). cbn [fst] in Hm'. rewrite Hm in Hm'.
    set (s1 := (set_rs_main (RM_join 0) sh, map wake ps)).
    assert (Hmain : read_step Main (sh, ps) = Some s1).
    { cbn [read_step]. unfold read_main_step. rewrite Hm', settled_free by done. reflexivity. }
    pose proof (read_step_phase _ _ _ Hph' Hmain) as Hph1.
    destruct (join_terminates s1 Hph1) as (actions & s' & Hok & Hrun' & Hd & Hf & Hall); [done..|].
    exists (threads_only schedule ++ Main :: actions), s'. split; [|split].
    + apply Forall_app. split; [apply threads_only_ok|]. apply Forall_cons. split; [by left | done].
    + rewrite read_run_app, Hrun. cbn [mbind option_bind read_run]. by rewrite Hmain.
    + repeat (split; [done|]). clear -Hall. unfold in_threads. by induction Hall as [|p l -> _ IH].
Qed.

Definition flagged : read_state := (ReadShared true RM_flagged None [] [] 0, [R_poll [0]; R_wait]).

Lemma read_shutdown_terminates_witness :
  (forall schedule s', read_run (threads_only schedule) flagged = Some s' -> (length schedule <= 16)%nat) /\
  exists actions s',
    Forall thread_or_main actions /\ read_run actions flagged = Some s' /\ rs_main (fst s') = RM_done /\
    rs_flag (fst s') = false /\ Forall (fun p => p = R_done) (snd s') /\ in_threads (snd s') = [].
Proof.
  assert (H : reaches finds_free 2 flagged).
  { apply (run_reaches_sound _ finds_free_b 2 (first_polls ++ [Main; Main]) (read_start 2));
      [apply finds_free_sound | apply reaches_start | vm_compute; reflexivity]. }
  destruct (read_shutdown_terminates _ _ _ H) as [Hb He]. split; [|by apply He].
  intros schedule s'. apply Hb. by left.
Defined.
