(* ===== verification/Lifecycle.v ===== *)
(** * The library's life cycle and its external interface

    [communication.c], the initialisation and shutdown functions of
    [read_threads.c], [write_threads.c] and [dispatch.c], and [external_api.c]. *)

From S2P Require Import Prelude Wire Memory Strings UintQueue LockedQueue Message World Callbacks.
From S2P Require Import FileSystem Connection SlotFrame ContextQueue Contexts AutoConnect.
From S2P Require Import ReadThread Dispatch.

(** ** The state machine of the module ([state.h]) *)

Definition SUBSTANCE_CONNECTOR_STATE_SHUTDOWN : Z := 0x0.
Definition SUBSTANCE_CONNECTOR_STATE_INIT_STARTED : Z := 0x1.
Definition SUBSTANCE_CONNECTOR_STATE_INIT_FINISHED : Z := 0x2.
Definition SUBSTANCE_CONNECTOR_STATE_SHUTDOWN_STARTED : Z := 0x3.
Definition SUBSTANCE_CONNECTOR_STATE_ALLOCATOR_STARTED : Z := 0x4.
Definition SUBSTANCE_CONNECTOR_STATE_INTERNAL_ERROR : Z := 0x128.

(** The static variables of the files with threads: the shutdown flags, the
    flag that the main thread is signalled, and the read threads. *)
Record threads := Threads {
  write_thread_shutdown_flag : Z;
  read_thread_shutdown_flag : Z;
  dispatch_shutdown_code : Z;
  dispatch_signal_main : bool;
  read_threads : list read_thread
}.

Section lifecycle.
Context {E : Type} {P : Platform E} {B : Bindings E}.

(** The compare-and-exchange on [connector_module_state.state]: the value it
    found. *)
Definition exchange_state (x y : Z) : M (world E) Z :=
  let* st := gets module_state in
  let '(st', found) := CONNECTOR_ATOMIC_COMPARE_EXCHANGE st x y in
  modify (set_module_state st') ;;;
  ret found.

(** ** Starting and joining threads

    Creating a thread is the system's work; a thread that is joined has run to
    its end, which for a read thread is [read_thread_exit]. *)

Definition connector_init_write_threads : M (world E) Z := ret SUBSTANCE_CONNECTOR_SUCCESS.

Definition connector_shutdown_write_threads (ts : threads) : M (world E) (threads * Z) :=
  let '(flag, shutdown) := CONNECTOR_ATOMIC_COMPARE_EXCHANGE (write_thread_shutdown_flag ts) 0 1 in
  if shutdown =? 0 then
    emit BroadcastOutbound ;;;
    let '(flag, _) := CONNECTOR_ATOMIC_COMPARE_EXCHANGE flag 1 0 in
    ret (Threads flag (read_thread_shutdown_flag ts) (dispatch_shutdown_code ts) (dispatch_signal_main ts)
           (read_threads ts), SUBSTANCE_CONNECTOR_SUCCESS)
  else ret (Threads flag (read_thread_shutdown_flag ts) (dispatch_shutdown_code ts) (dispatch_signal_main ts)
              (read_threads ts), SUBSTANCE_CONNECTOR_ERROR).

(** The arrays keep what an earlier thread left in them. *)
Definition init_read_thread (i : nat) (thread : read_thread) : read_thread :=
  ReadThread (Z.of_nat i) (contexts thread) (context_ids thread) 0.

Definition connector_init_read_threads (ts : threads) : threads * Z :=
  (Threads (write_thread_shutdown_flag ts) (read_thread_shutdown_flag ts) (dispatch_shutdown_code ts)
     (dispatch_signal_main ts) (imap init_read_thread (read_threads ts)), SUBSTANCE_CONNECTOR_SUCCESS).

Fixpoint join_read_threads (l : list read_thread) : M (world E) (list read_thread) :=
  match l with
  | [] => ret []
  | thread :: l' =>
      let* thread' := read_thread_exit thread in
      let* rest := join_read_threads l' in
      ret (thread' :: rest)
  end.

Definition connector_shutdown_read_threads (ts : threads) : M (world E) (threads * Z) :=
  let '(flag, shutdown) := CONNECTOR_ATOMIC_COMPARE_EXCHANGE (read_thread_shutdown_flag ts) 0 1 in
  if shutdown =? 0 then
    emit BroadcastInbound ;;;
    let* joined := join_read_threads (read_threads ts) in
    let '(flag, _) := CONNECTOR_ATOMIC_COMPARE_EXCHANGE flag 1 0 in
    ret (Threads (write_thread_shutdown_flag ts) flag (dispatch_shutdown_code ts) (dispatch_signal_main ts)
           joined, SUBSTANCE_CONNECTOR_SUCCESS)
  else ret (Threads (write_thread_shutdown_flag ts) flag (dispatch_shutdown_code ts) (dispatch_signal_main ts)
              (read_threads ts), SUBSTANCE_CONNECTOR_ERROR).

Definition connector_init_dispatch_subsystem (signal_main : bool) (ts : threads) : threads * Z :=
  (Threads (write_thread_shutdown_flag ts) (read_thread_shutdown_flag ts) (dispatch_shutdown_code ts)
     (if signal_main then true else dispatch_signal_main ts) (read_threads ts),
   SUBSTANCE_CONNECTOR_SUCCESS).

Definition terminate_dispatch (ts : threads) : M (world E) (threads * Z) :=
  let '(code, _) := CONNECTOR_ATOMIC_COMPARE_EXCHANGE (dispatch_shutdown_code ts) 0 1 in
  emit BroadcastDispatch ;;;
  let '(code, _) := CONNECTOR_ATOMIC_COMPARE_EXCHANGE code 1 0 in
  ret (Threads (write_thread_shutdown_flag ts) (read_thread_shutdown_flag ts) code (dispatch_signal_main ts)
         (read_threads ts), SUBSTANCE_CONNECTOR_SUCCESS).
Definition connector_shutdown_dispatch_subsystem (ts : threads) : M (world E) (threads * Z) :=
  terminate_dispatch ts.

(** ** [communication.c] *)

Definition connector_terminate_comm (ts : threads) : M (world E) (threads * Z) :=
  let* w := connector_shutdown_write_threads ts in
  let '(ts, retcode) := w in
  let* r := connector_shutdown_read_threads ts in
  let '(ts, read_retcode) := r in
  ret (ts, if retcode =? SUBSTANCE_CONNECTOR_SUCCESS then read_retcode else retcode).

(** The results of the three calls are not looked at. *)
Definition connector_init_comm_subsystem (ts : threads) : M (world E) (threads * Z) :=
  available_queue_init ;;;
  connector_init_write_threads ;;;
  let '(ts, _) := connector_init_read_threads ts in
  ret (ts, SUBSTANCE_CONNECTOR_SUCCESS).

(** The result of terminating the threads is overwritten. *)
Definition connector_shutdown_comm_subsystem (ts : threads) : M (world E) (threads * Z) :=
  let* r := connector_terminate_comm ts in
  let* retcode := available_queue_shutdown in
  ret (fst r, retcode).

(** ** [external_api.c] *)

Definition in_static_queues (f : message_queues -> M memory (message_queues * Z)) : M (world E) Z :=
  in_queues (fun qs => let* r := f qs in ret (snd r, fst r)).

(** [if (retcode == SUBSTANCE_CONNECTOR_SUCCESS) { retcode = m; }] *)
Definition and_then (retcode : Z) (m : M (world E) Z) : M (world E) Z :=
  if retcode =? SUBSTANCE_CONNECTOR_SUCCESS then m else ret retcode.
Definition and_then_threads (retcode : Z) (ts : threads) (m : threads -> M (world E) (threads * Z)) :
    M (world E) (threads * Z) :=
  if retcode =? SUBSTANCE_CONNECTOR_SUCCESS then m ts else ret (ts, retcode).

Definition substance_connector_init (name : Z) (ts : threads) : M (world E) (threads * Z) :=
  let* initialized := exchange_state SUBSTANCE_CONNECTOR_STATE_SHUTDOWN
                                     SUBSTANCE_CONNECTOR_STATE_INIT_STARTED in
  if initialized =? SUBSTANCE_CONNECTOR_STATE_SHUTDOWN then
    let* retcode := connector_set_application_name name in
    let* retcode := and_then retcode connector_setup_default_tcp_directory in
    let* retcode := and_then retcode connector_init_context_subsystem in
    let* retcode := and_then retcode (in_static_queues connector_init_message_queue_subsystem) in
    let* retcode := and_then retcode connector_init_trampoline_subsystem in
    let* r := and_then_threads retcode ts (fun ts => ret (connector_init_dispatch_subsystem false ts)) in
    let* r := and_then_threads (snd r) (fst r) connector_init_comm_subsystem in
    (if snd r =? SUBSTANCE_CONNECTOR_SUCCESS then
       exchange_state SUBSTANCE_CONNECTOR_STATE_INIT_STARTED SUBSTANCE_CONNECTOR_STATE_INIT_FINISHED
     else
       exchange_state SUBSTANCE_CONNECTOR_STATE_INIT_STARTED SUBSTANCE_CONNECTOR_STATE_INTERNAL_ERROR) ;;;
    ret r
  else ret (ts, SUBSTANCE_CONNECTOR_ERROR).

(** [if (retcode == SUBSTANCE_CONNECTOR_SUCCESS) { retcode = sub_retcode; }] *)
Definition combine_codes (retcode sub_retcode : Z) : Z :=
  if retcode =? SUBSTANCE_CONNECTOR_SUCCESS then sub_retcode else retcode.

(** The last exchange is outside the test of the first. *)
Definition substance_connector_shutdown (ts : threads) : M (world E) (threads * Z) :=
  let* initialized := exchange_state SUBSTANCE_CONNECTOR_STATE_INIT_FINISHED
                                     SUBSTANCE_CONNECTOR_STATE_SHUTDOWN_STARTED in
  let* r :=
    (if initialized =? SUBSTANCE_CONNECTOR_STATE_INIT_FINISHED then
       let* retcode := connector_shutdown_context_subsystem in
       let* c := connector_shutdown_comm_subsystem ts in
       let retcode := combine_codes retcode (snd c) in
       let* d := connector_shutdown_dispatch_subsystem (fst c) in
       let '(ts, sub_retcode) := d in
       let retcode := combine_codes retcode sub_retcode in
       let* sub_retcode := in_static_queues connector_shutdown_message_queue_subsystem in
       let retcode := combine_codes retcode sub_retcode in
       let* sub_retcode := connector_shutdown_trampoline_subsystem in
       let retcode := combine_codes retcode sub_retcode in
       let* sub_retcode := connector_cleanup_default_tcp_directory in
       let retcode := combine_codes retcode sub_retcode in
       let* sub_retcode := in_mem connector_clear_allocators in
       ret (ts, combine_codes retcode sub_retcode)
     else ret (ts, SUBSTANCE_CONNECTOR_ERROR)) in
  exchange_state SUBSTANCE_CONNECTOR_STATE_SHUTDOWN_STARTED SUBSTANCE_CONNECTOR_STATE_SHUTDOWN ;;;
  ret r.

Definition substance_connector_set_allocators (allocator deallocator : option Z) : M (world E) Z :=
  let* initialized := exchange_state SUBSTANCE_CONNECTOR_STATE_SHUTDOWN
                                     SUBSTANCE_CONNECTOR_STATE_ALLOCATOR_STARTED in
  if initialized =? SUBSTANCE_CONNECTOR_STATE_SHUTDOWN then
    let* retcode :=
      match allocator, deallocator with
      | Some a, Some d =>
          in_mem (connector_set_allocator a) ;;;
          in_mem (connector_set_deallocator d) ;;;
          ret SUBSTANCE_CONNECTOR_SUCCESS
      | _, _ => ret SUBSTANCE_CONNECTOR_INVALID
      end in
    exchange_state SUBSTANCE_CONNECTOR_STATE_ALLOCATOR_STARTED SUBSTANCE_CONNECTOR_STATE_SHUTDOWN ;;;
    ret retcode
  else ret SUBSTANCE_CONNECTOR_INVALID.

(** The test [connector_module_state.state == SUBSTANCE_CONNECTOR_STATE_INIT_FINISHED]. *)
Definition when_initialised {A} (refused : A) (m : M (world E) A) : M (world E) A :=
  let* st := gets module_state in
  if st =? SUBSTANCE_CONNECTOR_STATE_INIT_FINISHED then m else ret refused.

Definition substance_connector_write_message (context : Z) (type : option uuid) (message : Z) :
    M (world E) Z :=
  when_initialised SUBSTANCE_CONNECTOR_INVALID
    (let* connector_message := in_mem (connector_build_message context type message) in
     if negb (connector_message =? 0) then
       in_mem (let* x := load_message connector_message in
               store connector_message (BMsg (Message (msg_header x) (msg_text x) context))) ;;;
       connector_enqueue_outbound connector_message ;;;
       connector_flag_write ;;;
       ret SUBSTANCE_CONNECTOR_SUCCESS
     else ret SUBSTANCE_CONNECTOR_INVALID).

Definition substance_connector_add_trampoline (trampoline : Z) : M (world E) Z :=
  when_initialised SUBSTANCE_CONNECTOR_ERROR (connector_add_trampoline trampoline).
Definition substance_connector_remove_trampoline (trampoline : Z) : M (world E) Z :=
  when_initialised SUBSTANCE_CONNECTOR_ERROR (connector_remove_trampoline trampoline).

Definition refused_context : Z * option Z := (SUBSTANCE_CONNECTOR_ERROR, None).

Definition substance_connector_open_tcp (port : Z) (context_given : bool) : M (world E) (Z * option Z) :=
  when_initialised refused_context
    (if context_given then connector_context_open_tcp port context_given else ret refused_context).
Definition substance_connector_open_unix (filepath : Z) (context_given : bool) : M (world E) (Z * option Z) :=
  when_initialised refused_context
    (if context_given then connector_context_open_unix filepath context_given else ret refused_context).
(** The state is not tested. *)
Definition substance_connector_close_context (context : Z) : M (world E) Z :=
  connector_context_close context.
Definition substance_connector_connect_tcp (port : Z) (context_given : bool) : M (world E) (Z * option Z) :=
  when_initialised refused_context
    (if context_given then connector_context_connect_tcp port context_given else ret refused_context).
Definition substance_connector_connect_unix (filepath : Z) (context_given : bool) :
    M (world E) (Z * option Z) :=
  when_initialised refused_context
    (if context_given then connector_context_connect_unix filepath context_given else ret refused_context).
Definition substance_connector_broadcast_tcp : M (world E) Z :=
  when_initialised SUBSTANCE_CONNECTOR_ERROR connector_broadcast_connect_tcp.
Definition substance_connector_broadcast_unix : M (world E) Z :=
  when_initialised SUBSTANCE_CONNECTOR_ERROR connector_broadcast_connect_unix.
Definition substance_connector_broadcast_default : M (world E) Z :=
  when_initialised SUBSTANCE_CONNECTOR_ERROR connector_broadcast_connect_default.
Definition substance_connector_open_default_tcp (context_given : bool) : M (world E) (Z * option Z) :=
  when_initialised refused_context (connector_open_default_tcp context_given).
Definition substance_connector_open_default_unix (context_given : bool) : M (world E) (Z * option Z) :=
  when_initialised refused_context (connector_open_default_unix context_given).
Definition substance_connector_open_default (context_given : bool) : M (world E) (Z * option Z) :=
  when_initialised refused_context (connector_open_default_connection context_given).

End lifecycle.

(** ** The guards *)

Section guards.
Context {E : Type} {P : Platform E} {B : Bindings E}.
Implicit Types w : world E.

Lemma exchange_state_hit w x y :
  module_state w = x -> exchange_state x y w = Done x (set_module_state y w).
Proof.
  intros Hx. unfold exchange_state, bind, gets, modify, ret, CONNECTOR_ATOMIC_COMPARE_EXCHANGE.
  by rewrite Hx, Z.eqb_refl.
Qed.

Lemma exchange_state_miss w x y :
  module_state w <> x -> exchange_state x y w = Done (module_state w) w.
Proof.
  intros Hx. unfold exchange_state, bind, gets, modify, ret, CONNECTOR_ATOMIC_COMPARE_EXCHANGE.
  rewrite (proj2 (Z.eqb_neq _ _) Hx). by destruct w.
Qed.

Lemma when_initialised_refuses {A} w (r : A) m :
  module_state w <> SUBSTANCE_CONNECTOR_STATE_INIT_FINISHED -> when_initialised r m w = Done r w.
Proof.
  intros Hs. unfold when_initialised, bind, gets. by rewrite (proj2 (Z.eqb_neq _ _) Hs).
Qed.

Lemma when_initialised_passes {A} w (r : A) m :
  module_state w = SUBSTANCE_CONNECTOR_STATE_INIT_FINISHED -> when_initialised r m w = m w.
Proof. intros Hs. unfold when_initialised, bind, gets. by rewrite Hs. Qed.

End guards.

(** ** Destroying what was created *)

Lemma destroy_queue_spec p m :
  p <> QNull -> p <> QDangling -> mem_wf m -> NoDup (queue_blocks p) ->
  (forall a, a ∈ queue_blocks p -> exists b, owns m a b) ->
  exists m', connector_uint_queue_destroy p m = Done SUBSTANCE_CONNECTOR_SUCCESS m' /\
    released (queue_blocks p) m m'.
Proof.
  destruct p as [|q|]; [done | | done]. cbn [queue_blocks]. intros _ _ Hwf Hnd Hown.
  apply NoDup_cons in Hnd as [Hne _]. rewrite list_elem_of_singleton in Hne.
  destruct (Hown (array_ptr q)) as [ba Hba]; [apply elem_of_cons; right; by apply list_elem_of_singleton|].
  destruct (Hown (self q)) as [bs Hbs]; [apply elem_of_cons; by left|].
  exists (free_cell (self q) (free_cell (array_ptr q) m)). split.
  - cbn [connector_uint_queue_destroy]. rewrite (bind_done _ _ _ _ _ (connector_free_owns _ _ _ Hwf Hba)).
    rewrite (bind_done _ _ _ tt (free_cell (self q) (free_cell (array_ptr q) m))); [done|].
    apply (connector_free_owns _ _ bs); [by apply free_cell_wf | by apply free_cell_owns_other].
  - pose proof (released_free_cell (array_ptr q) m Hwf) as H1.
    pose proof (released_free_cell (self q) _ (released_wf _ _ _ H1)) as H2.
    destruct (released_trans _ _ _ _ _ H1 H2) as [Hw Hc Hn Hh]. constructor; try done. intros a.
    rewrite Hh. assert (a ∈ [array_ptr q] ++ [self q] <-> a ∈ [self q; array_ptr q])
      by (cbn [app]; rewrite !elem_of_cons; intuition). repeat case_decide; intuition.
Qed.

(** Releasing what was added gives the old heap back. *)
Lemma added_released ps m m1 m2 : added ps m m1 -> released ps m1 m2 -> heap m2 = heap m.
Proof.
  intros [_ _ _ Hf _ Ho] [_ _ _ Hh]. apply map_eq. intros a. rewrite Hh. case_decide as Ha.
  - symmetry. by apply Hf.
  - by apply Ho.
Qed.

(** ** Initialising and shutting down *)

Section init_shutdown.
Context {E : Type} {P : Platform E} {B : Bindings E}.
Implicit Types w : world E.

(** The library right after a successful initialisation: [e] the environment,
    [n] the copy of the name, [p1] the free contexts and [p2] the available
    connections. *)
Definition initialised_world (e : E) (m : memory) (n : Z) (p1 p2 : queue_ptr) (tr : list event) : world E :=
  World _ e m SUBSTANCE_CONNECTOR_STATE_INIT_FINISHED n (replicate 32 zero_context) p1 p2
    (MessageQueues empty_queue empty_queue MESSAGE_QUEUE_INITIALIZED) 0 tr.

Definition idle_threads (ts : threads) : threads :=
  Threads (write_thread_shutdown_flag ts) (read_thread_shutdown_flag ts) (dispatch_shutdown_code ts)
    (dispatch_signal_main ts) (imap init_read_thread (read_threads ts)).

(** A library that was never initialised, or was shut down. *)
Record shut_down w (old : option (list Z)) : Prop := {
  sd_wf : mem_wf (mem w);
  sd_serving : mem_serving (mem w);
  sd_state : module_state w = SUBSTANCE_CONNECTOR_STATE_SHUTDOWN;
  sd_queues : message_queue_state (queues w) = MESSAGE_QUEUE_SHUTDOWN;
  sd_available : connection_queue w = QNull;
  sd_name : slot_string (mem w) (application_name w) old
}.

Lemma set_application_name_spec w old name s :
  mem_wf (mem w) -> mem_serving (mem w) -> slot_string (mem w) (application_name w) old ->
  cstring s -> points_to_string (mem w) name s -> application_name w <> name ->
  exists m1, released [application_name w] (mem w) m1 /\
    connector_set_application_name name w =
      Done SUBSTANCE_CONNECTOR_SUCCESS
        (set_app_name (next_addr m1) (set_mem (alloc_with (BStr (s ++ [0])) m1) w)).
Proof.
  intros Hwf Hs Hold Hcs Hp Hne. unfold connector_set_application_name.
  destruct (free_name_released (mem w) (application_name w) old Hwf Hold) as (m1 & Hf & Hrel).
  exists m1. split; [done|].
  rewrite (bind_done _ _ w (application_name w) w) by done.
  rewrite (bind_done _ _ _ _ _ (in_mem_done _ w _ _ Hf)).
  pose proof Hrel as [Hwf1 Hc1 _ _].
  assert (Hs1 : mem_serving m1) by (by apply (mem_serving_config (mem w))).
  assert (Hp1 : points_to_string m1 name s)
    by (apply (released_owns _ _ _ _ _ Hrel); [by rewrite list_elem_of_singleton | done]).
  rewrite (bind_done _ _ _ _ _ (in_mem_done _ (set_mem m1 w) _ _ (connector_strdup_string m1 name s Hwf1 Hs1 Hcs Hp1))).
  rewrite (bind_done _ _ _ tt (set_app_name (next_addr m1) (set_mem (alloc_with (BStr (s ++ [0])) m1) w))) by done.
  rewrite (proj2 (Z.eqb_neq (next_addr m1) 0)) by (destruct Hwf1; lia). done.
Qed.

Lemma init_spec w ts old name s :
  shut_down w old -> cstring s -> points_to_string (mem w) name s -> application_name w <> name ->
  exists m1 p1 p2 m, substance_connector_init name ts w =
      Done (idle_threads ts, SUBSTANCE_CONNECTOR_SUCCESS)
        (initialised_world (env w) m (next_addr m1) p1 p2 (trace w)) /\
    released [application_name w] (mem w) m1 /\
    id_queue p1 (seqZ 0 32) (2 ^ 32 - 34) /\ id_queue p2 [] (2 ^ 32 - 2) /\
    added (queue_blocks p1 ++ queue_blocks p2) (alloc_with (BStr (s ++ [0])) m1) m.
Proof.
  intros [Hwf Hs Hst Hqs Hav Hold] Hcs Hp Hne. unfold substance_connector_init.
  rewrite (bind_done _ _ _ _ _ (exchange_state_hit w _ _ Hst)).
  rewrite Z.eqb_refl. set (w1 := set_module_state _ w).
  destruct (set_application_name_spec w1 old name s Hwf Hs Hold Hcs Hp Hne) as (m1 & Hrel & Hname).
  rewrite (bind_done _ _ _ _ _ Hname). set (m2 := alloc_with (BStr (s ++ [0])) m1).
  set (w2 := set_app_name _ _). pose proof Hrel as [Hwf1 Hc1 _ _].
  assert (Hwf2 : mem_wf m2) by (by apply alloc_with_wf).
  assert (Hs2 : mem_serving m2) by exact (mem_serving_config _ _ Hc1 Hs).
  rewrite (bind_done _ _ w2 SUBSTANCE_CONNECTOR_SUCCESS w2) by done.
  destruct (init_contexts_spec w2 Hwf2 Hs2) as (p1 & m3 & Hctx & Hq1 & Ha1).
  pose proof Ha1 as [Hwf3 Hc3 _ _ _ _]. assert (Hs3 : mem_serving m3) by (by apply (mem_serving_config m2)).
  unfold and_then at 1. rewrite Z.eqb_refl, (bind_done _ _ _ _ _ Hctx). set (w3 := set_free_contexts _ _).
  set (qs := MessageQueues empty_queue empty_queue MESSAGE_QUEUE_INITIALIZED).
  unfold and_then at 1. rewrite Z.eqb_refl.
  rewrite (bind_done _ _ w3 SUBSTANCE_CONNECTOR_SUCCESS (set_queues qs w3)).
  2:{ unfold in_static_queues, in_queues. rewrite (bind_done (gets queues) _ w3 (queues w3) w3) by done.
      rewrite (bind_done _ _ w3 (SUBSTANCE_CONNECTOR_SUCCESS, qs) w3); [done|].
      unfold in_mem, zoom, connector_init_message_queue_subsystem, bind, CONNECTOR_ATOMIC_COMPARE_EXCHANGE.
      change (queues w3) with (queues w). rewrite Hqs. cbn. by destruct w. }
  unfold and_then. rewrite Z.eqb_refl.
  rewrite (bind_done connector_init_trampoline_subsystem _ _ SUBSTANCE_CONNECTOR_SUCCESS
    (set_trampoline_front 0 (set_queues qs w3))) by done.
  unfold and_then_threads. rewrite Z.eqb_refl.
  rewrite (bind_done (ret _) _ _ (connector_init_dispatch_subsystem false ts) _ eq_refl).
  cbn [connector_init_dispatch_subsystem fst snd]. rewrite Z.eqb_refl.
  set (w4 := set_trampoline_front 0 (set_queues qs w3)).
  destruct (available_init_spec w4 Hwf3 Hs3 Hav) as (p2 & m5 & Hinit & Hq2 & Ha2).
  unfold connector_init_comm_subsystem at 1. unfold bind at 1. rewrite (bind_done _ _ _ _ _ Hinit).
  exists m1, p1, p2, m5. split; [|split; [exact Hrel|split; [exact Hq1|split; [exact Hq2|]]]].
  - reflexivity.
  - by apply (added_trans _ _ _ m3).
Qed.

Lemma clear_empty_queue m : connector_locked_queue_clear empty_queue m = Done empty_queue m.
Proof.
  unfold connector_locked_queue_clear, bind. cbn. by destruct (stdpp.base.size (heap m)).
Qed.

(** Shutting down a library in which nothing is open. *)
Lemma join_idle_threads (l : list read_thread) w :
  Forall (fun thread => assigned_contexts thread = 0%nat) l -> join_read_threads l w = Done l w.
Proof.
  induction 1 as [|thread l Ht _ IH]; [done|]. cbn [join_read_threads].
  assert (Hexit : read_thread_exit thread w = Done thread w).
  { unfold read_thread_exit, connector_read_thread_cleanup_connections. by rewrite Ht. }
  rewrite (bind_done _ _ _ _ _ Hexit). by rewrite (bind_done _ _ _ _ _ IH).
Qed.

Lemma init_read_threads_idle l :
  Forall (fun thread => assigned_contexts thread = 0%nat) (imap init_read_thread l).
Proof.
  apply Forall_lookup_2. intros i thread Hi. rewrite list_lookup_imap in Hi.
  destruct (l !! i); [|done]. by injection Hi as <-.
Qed.

Lemma shutdown_comm_idle w p m' ts :
  write_thread_shutdown_flag ts = 0 -> read_thread_shutdown_flag ts = 0 ->
  connection_queue w = p -> connector_uint_queue_destroy p (mem w) = Done SUBSTANCE_CONNECTOR_SUCCESS m' ->
  connector_shutdown_comm_subsystem (idle_threads ts) w =
    Done (idle_threads ts, SUBSTANCE_CONNECTOR_SUCCESS)
      (set_connection_queue QNull (set_mem m' (set_trace (trace w ++ [BroadcastOutbound; BroadcastInbound]) w))).
Proof.
  intros Hf1 Hf2 Hp Hd. unfold connector_shutdown_comm_subsystem.
  rewrite (bind_done _ _ w (idle_threads ts, SUBSTANCE_CONNECTOR_SUCCESS)
    (set_trace (trace w ++ [BroadcastOutbound; BroadcastInbound]) w)).
  2:{ destruct ts as [f1 f2 c d l]. cbn in Hf1, Hf2. subst f1 f2.
      unfold connector_terminate_comm, bind. cbn. unfold bind. cbn.
      rewrite (join_idle_threads _ _ (init_read_threads_idle l)). cbn. by rewrite <- app_assoc. }
  set (w2 := set_trace _ w).
  assert (Hav : available_queue_shutdown w2 =
    Done SUBSTANCE_CONNECTOR_SUCCESS (set_connection_queue QNull (set_mem m' w2))); [|by rewrite (bind_done _ _ _ _ _ Hav)].
  unfold available_queue_shutdown. rewrite (bind_done _ _ w2 p w2) by (by rewrite <- Hp).
  rewrite (bind_done _ _ w2 (QNull, SUBSTANCE_CONNECTOR_SUCCESS) (set_mem m' w2)); [done|].
  apply (in_mem_done _ w2). unfold connector_available_queue_shutdown. by rewrite (bind_done _ _ _ _ _ Hd).
Qed.

Lemma shutdown_empty_queues w :
  queues w = MessageQueues empty_queue empty_queue MESSAGE_QUEUE_INITIALIZED ->
  in_static_queues connector_shutdown_message_queue_subsystem w =
    Done SUBSTANCE_CONNECTOR_SUCCESS (set_queues (MessageQueues empty_queue empty_queue MESSAGE_QUEUE_SHUTDOWN) w).
Proof.
  intros Hq. unfold in_static_queues, in_queues. rewrite (bind_done (gets queues) _ w (queues w) w) by done. rewrite Hq.
  rewrite (bind_done _ _ w (SUBSTANCE_CONNECTOR_SUCCESS, MessageQueues empty_queue empty_queue MESSAGE_QUEUE_SHUTDOWN) w);
    [done|].
  unfold in_mem, zoom, connector_shutdown_message_queue_subsystem. cbn. unfold bind. rewrite !clear_empty_queue.
  by destruct w.
Qed.

Lemma shutdown_idle e m n p1 p2 tr ts :
  write_thread_shutdown_flag ts = 0 -> read_thread_shutdown_flag ts = 0 ->
  mem_wf m -> (exists q1, p1 = QLive q1) -> (exists q2, p2 = QLive q2) ->
  NoDup (queue_blocks p1 ++ queue_blocks p2) ->
  (forall a, a ∈ queue_blocks p1 ++ queue_blocks p2 -> exists b, owns m a b) ->
  exists ts' m' m2, substance_connector_shutdown (idle_threads ts) (initialised_world e m n p1 p2 tr) =
      Done (ts', SUBSTANCE_CONNECTOR_SUCCESS)
        (World _ e m2 SUBSTANCE_CONNECTOR_STATE_SHUTDOWN n (replicate 32 zero_context) QNull QNull
           (MessageQueues empty_queue empty_queue MESSAGE_QUEUE_SHUTDOWN) 0
           (tr ++ [BroadcastOutbound; BroadcastInbound; BroadcastDispatch])) /\
    connector_clear_allocators m' = Done SUBSTANCE_CONNECTOR_SUCCESS m2 /\
    released (queue_blocks p1 ++ queue_blocks p2) m m'.
Proof.
  intros Hf1 Hf2 Hwf [q1 Hq1] [q2 Hq2] Hnd Hown. apply NoDup_app in Hnd as (Hnd1 & Hdis & Hnd2).
  destruct (destroy_queue_spec p1 m) as (m1 & Hd1 & Hr1); try (by rewrite Hq1); [done | done | |].
  { intros a Ha. apply Hown, elem_of_app. by left. }
  destruct (destroy_queue_spec p2 m1) as (m2 & Hd2 & Hr2); try (by rewrite Hq2); [by destruct Hr1 | done | |].
  { intros a Ha. destruct (Hown a) as [b Hb]; [apply elem_of_app; by right|]. exists b.
    apply (released_owns _ _ _ _ _ Hr1); [|done]. intros Hin. by apply (Hdis a). }
  set (w0 := initialised_world e m n p1 p2 tr).
  set (w1 := set_module_state SUBSTANCE_CONNECTOR_STATE_SHUTDOWN_STARTED w0).
  set (w2 := set_free_contexts QNull (set_mem m1 w1)).
  assert (H2 : connector_shutdown_context_subsystem w1 = Done SUBSTANCE_CONNECTOR_SUCCESS w2).
  { unfold connector_shutdown_context_subsystem. rewrite (bind_done _ _ w1 p1 w1) by done.
    by rewrite (bind_done _ _ _ _ _ (in_mem_done _ w1 _ _ Hd1)). }
  set (w3 := set_connection_queue QNull (set_mem m2
               (set_trace (tr ++ [BroadcastOutbound; BroadcastInbound]) w2))).
  assert (H3 : connector_shutdown_comm_subsystem (idle_threads ts) w2 =
    Done (idle_threads ts, SUBSTANCE_CONNECTOR_SUCCESS) w3) by (by apply (shutdown_comm_idle w2 p2)).
  set (w4 := set_trace (tr ++ [BroadcastOutbound; BroadcastInbound; BroadcastDispatch]) w3).
  assert (H4 : exists ts', connector_shutdown_dispatch_subsystem (idle_threads ts) w3 =
    Done (ts', SUBSTANCE_CONNECTOR_SUCCESS) w4).
  { unfold connector_shutdown_dispatch_subsystem, terminate_dispatch, CONNECTOR_ATOMIC_COMPARE_EXCHANGE.
    repeat case_match; eexists; cbn; by rewrite <- app_assoc. }
  destruct H4 as [ts' H4].
  set (w5 := set_queues (MessageQueues empty_queue empty_queue MESSAGE_QUEUE_SHUTDOWN) w4).
  pose proof (shutdown_empty_queues w4 eq_refl) as H5. fold w5 in H5.
  unfold substance_connector_shutdown.
  rewrite (bind_done _ _ _ _ _ (exchange_state_hit w0 SUBSTANCE_CONNECTOR_STATE_INIT_FINISHED
    SUBSTANCE_CONNECTOR_STATE_SHUTDOWN_STARTED eq_refl)), Z.eqb_refl. fold w1.
  eexists _, m2, _. split; [|split; [reflexivity | by apply (released_trans _ _ _ m1)]].
  rewrite (bind_done _ _ w1 (ts', SUBSTANCE_CONNECTOR_SUCCESS)
    (set_mem (Memory (heap m2) (next_addr m2) malloc_id malloc_id (oracle m2) (junk m2)) w5)); [done|].
  rewrite (bind_done _ _ _ _ _ H2), (bind_done _ _ _ _ _ H3). cbn [fst snd].
  rewrite (bind_done _ _ _ _ _ H4). cbn iota.
  rewrite (bind_done _ _ _ _ _ H5). reflexivity.
Qed.

End init_shutdown.

(** ** Concurrent callers

    Several application threads call the three functions that drive the state
    machine; each call is its first exchange, its body, and its last exchange. *)

Inductive api_pc :=
  | A_idle
  | A_init                 (* between the exchanges of [substance_connector_init] *)
  | A_shutdown             (* in the body of [substance_connector_shutdown] *)
  | A_skipped              (* behind that body, which was skipped *)
  | A_allocators.          (* between the exchanges of [substance_connector_set_allocators] *)

#[export] Instance api_pc_eq_dec : EqDecision api_pc.
Proof. solve_decision. Defined.

Inductive api_action :=
  | CallInit (i : nat)
  | CallShutdown (i : nat)
  | CallAllocators (i : nat)
  | Finish (i : nat) (ok : bool).   (* the last exchange of the call of thread [i] *)

Definition api_state : Type := Z * list api_pc.

Definition exchange (st x y : Z) : Z * Z := CONNECTOR_ATOMIC_COMPARE_EXCHANGE st x y.

Definition api_step (a : api_action) (s : api_state) : option api_state :=
  let '(st, ps) := s in
  match a with
  | CallInit i =>
      if bool_decide (ps !! i = Some A_idle) then
        let '(st', found) := exchange st SUBSTANCE_CONNECTOR_STATE_SHUTDOWN SUBSTANCE_CONNECTOR_STATE_INIT_STARTED in
        Some (st', <[i := if found =? SUBSTANCE_CONNECTOR_STATE_SHUTDOWN then A_init else A_idle]> ps)
      else None
  | CallShutdown i =>
      if bool_decide (ps !! i = Some A_idle) then
        let '(st', found) := exchange st SUBSTANCE_CONNECTOR_STATE_INIT_FINISHED
                               SUBSTANCE_CONNECTOR_STATE_SHUTDOWN_STARTED in
        Some (st', <[i := if found =? SUBSTANCE_CONNECTOR_STATE_INIT_FINISHED then A_shutdown else A_skipped]> ps)
      else None
  | CallAllocators i =>
      if bool_decide (ps !! i = Some A_idle) then
        let '(st', found) := exchange st SUBSTANCE_CONNECTOR_STATE_SHUTDOWN
                               SUBSTANCE_CONNECTOR_STATE_ALLOCATOR_STARTED in
        Some (st', <[i := if found =? SUBSTANCE_CONNECTOR_STATE_SHUTDOWN then A_allocators else A_idle]> ps)
      else None
  | Finish i ok =>
      match ps !! i with
      | Some A_init =>
          Some (fst (exchange st SUBSTANCE_CONNECTOR_STATE_INIT_STARTED
                       (if ok : bool then SUBSTANCE_CONNECTOR_STATE_INIT_FINISHED
                        else SUBSTANCE_CONNECTOR_STATE_INTERNAL_ERROR)), <[i := A_idle]> ps)
      | Some A_shutdown | Some A_skipped =>
          Some (fst (exchange st SUBSTANCE_CONNECTOR_STATE_SHUTDOWN_STARTED
                       SUBSTANCE_CONNECTOR_STATE_SHUTDOWN), <[i := A_idle]> ps)
      | Some A_allocators =>
          Some (fst (exchange st SUBSTANCE_CONNECTOR_STATE_ALLOCATOR_STARTED
                       SUBSTANCE_CONNECTOR_STATE_SHUTDOWN), <[i := A_idle]> ps)
      | _ => None
      end
  end.

Fixpoint api_run (actions : list api_action) (s : api_state) : option api_state :=
  match actions with
  | [] => Some s
  | a :: actions' => s' ← api_step a s; api_run actions' s'
  end.

(** The state a thread in a body relies on. *)
Definition body_state (p : api_pc) : option Z :=
  match p with
  | A_init => Some SUBSTANCE_CONNECTOR_STATE_INIT_STARTED
  | A_shutdown => Some SUBSTANCE_CONNECTOR_STATE_SHUTDOWN_STARTED
  | A_allocators => Some SUBSTANCE_CONNECTOR_STATE_ALLOCATOR_STARTED
  | _ => None
  end.

(** Every body runs alone, and the state says which. *)
Record exclusive (s : api_state) : Prop := {
  ex_state : forall i p st, snd s !! i = Some p -> body_state p = Some st -> fst s = st;
  ex_alone : forall i j p q, snd s !! i = Some p -> snd s !! j = Some q ->
    body_state p <> None -> body_state q <> None -> i = j
}.

(** Only thread zero calls the shutdown function. *)
Definition one_shutter (a : api_action) : Prop :=
  match a with CallShutdown i => i = 0%nat | _ => True end.

Record exclusive_inv (s : api_state) : Prop := {
  ei_exclusive : exclusive s;
  ei_others : forall i, snd s !! i = Some A_shutdown \/ snd s !! i = Some A_skipped -> i = 0%nat;
  ei_started : fst s = SUBSTANCE_CONNECTOR_STATE_SHUTDOWN_STARTED -> snd s !! 0%nat = Some A_shutdown
}.

(** A thread without a body changes nothing of the state. *)
Lemma exclusive_replace st st' ps i p p' :
  exclusive (st, ps) -> ps !! i = Some p ->
  (forall j q x, j <> i -> ps !! j = Some q -> body_state q = Some x -> st' = x) ->
  (forall x, body_state p' = Some x -> st' = x /\ forall j q, j <> i -> ps !! j = Some q -> body_state q = None) ->
  exclusive (st', <[i := p']> ps).
Proof.
  intros [Hst Hal] Hi Hothers Hnew. assert (Hlt : (i < length ps)%nat) by (by eapply lookup_lt_Some).
  constructor; cbn [fst snd].
  - intros j q x Hj Hq. destruct (decide (j = i)) as [->|Hji].
    + rewrite list_lookup_insert_eq in Hj by done. injection Hj as <-. by apply Hnew.
    + rewrite list_lookup_insert_ne in Hj by done. by apply (Hothers j q).
  - intros j k q r Hj Hk Hq Hr.
    destruct (decide (j = i)) as [->|Hji], (decide (k = i)) as [->|Hki]; auto.
    + rewrite list_lookup_insert_eq in Hj by done. rewrite list_lookup_insert_ne in Hk by done. injection Hj as <-.
      destruct (body_state p') as [x|] eqn:Ex; [|done]. destruct (Hnew x eq_refl) as [_ Hn].
      by rewrite (Hn k r Hki Hk) in Hr.
    + rewrite list_lookup_insert_eq in Hk by done. rewrite list_lookup_insert_ne in Hj by done. injection Hk as <-.
      destruct (body_state p') as [x|] eqn:Ex; [|done]. destruct (Hnew x eq_refl) as [_ Hn].
      by rewrite (Hn j q Hji Hj) in Hq.
    + rewrite list_lookup_insert_ne in Hj, Hk by done. by apply (Hal j k q r).
Qed.

Lemma exchange_hit x y : exchange x x y = (y, x).
Proof. unfold exchange, CONNECTOR_ATOMIC_COMPARE_EXCHANGE. by rewrite Z.eqb_refl. Qed.
Lemma exchange_miss st x y : st <> x -> exchange st x y = (st, st).
Proof. intros H. unfold exchange, CONNECTOR_ATOMIC_COMPARE_EXCHANGE. by rewrite (proj2 (Z.eqb_neq _ _) H). Qed.

(** The others of a thread in a body have none. *)
Lemma exclusive_others st ps i p j q :
  exclusive (st, ps) -> ps !! i = Some p -> body_state p <> None -> j <> i -> ps !! j = Some q ->
  body_state q = None.
Proof.
  intros [_ Hal] Hi Hp Hj Hq. destruct (body_state q) eqn:Eq; [|done]. destruct Hj.
  by apply (Hal j i q p Hq Hi); [rewrite Eq|].
Qed.

(** A call whose first exchange succeeds finds nobody in a body. *)
Lemma exclusive_free st ps j q :
  exclusive (st, ps) -> st = SUBSTANCE_CONNECTOR_STATE_SHUTDOWN \/ st = SUBSTANCE_CONNECTOR_STATE_INIT_FINISHED ->
  ps !! j = Some q -> body_state q = None.
Proof.
  intros [Hst _] Hs Hq. destruct (body_state q) as [x|] eqn:Eq; [|done].
  pose proof (Hst j q x Hq Eq) as Hx. cbn in Hx. subst st. destruct q; try discriminate; injection Eq as <-;
    by destruct Hs.
Qed.

Lemma insert_others (ps : list api_pc) (i : nat) (p' : api_pc) :
  (forall j, ps !! j = Some A_shutdown \/ ps !! j = Some A_skipped -> j = 0%nat) ->
  (p' = A_shutdown \/ p' = A_skipped -> i = 0%nat) ->
  forall j, <[i := p']> ps !! j = Some A_shutdown \/ <[i := p']> ps !! j = Some A_skipped -> j = 0%nat.
Proof.
  intros Hps Hp' j Hj. destruct (decide (j = i)) as [->|Hji].
  - destruct (decide (i < length ps)%nat) as [Hlt|Hge].
    + rewrite list_lookup_insert_eq in Hj by done. apply Hp'. destruct Hj as [[= <-]|[= <-]]; auto.
    + rewrite list_insert_ge in Hj by lia. by apply Hps.
  - rewrite list_lookup_insert_ne in Hj by done. by apply Hps.
Qed.

(** A call by an idle thread: the exchange from [x] to [y], where [x] is a state
    in which nobody is in a body and [p1] is the body it enters. *)
Lemma call_inv st ps i x y p1 p0 :
  exclusive_inv (st, ps) -> ps !! i = Some A_idle ->
  x = SUBSTANCE_CONNECTOR_STATE_SHUTDOWN \/ x = SUBSTANCE_CONNECTOR_STATE_INIT_FINISHED ->
  body_state p1 = Some y -> body_state p0 = None ->
  (p1 = A_shutdown \/ p0 = A_skipped -> i = 0%nat) -> p0 <> A_shutdown -> p1 <> A_skipped ->
  (y = SUBSTANCE_CONNECTOR_STATE_SHUTDOWN_STARTED -> p1 = A_shutdown) ->
  exclusive_inv (let '(st', found) := exchange st x y in (st', <[i := if found =? x then p1 else p0]> ps)).
Proof.
  intros [He Ho Hstart] Hi Hx Hp1 Hp0 Hzero Hn0 Hn1 Hy. cbn [fst snd] in *.
  assert (Hlt : (i < length ps)%nat) by (by eapply lookup_lt_Some).
  destruct (decide (st = x)) as [->|Hne].
  - rewrite exchange_hit, Z.eqb_refl. constructor; cbn [fst snd].
    + apply (exclusive_replace x _ _ i A_idle); try done.
      * intros j q z Hj Hq Hz. by rewrite (exclusive_free x ps j q He Hx Hq) in Hz.
      * intros z Hz. split; [congruence|]. intros j q Hj Hq. by apply (exclusive_free x ps j q).
    + apply insert_others; [done|]. intros [?|?]; [auto | done].
    + intros Hs. assert (p1 = A_shutdown) as -> by auto. rewrite Hzero by auto.
      rewrite Hzero in Hlt by auto. by apply list_lookup_insert_eq.
  - rewrite exchange_miss by done. rewrite (proj2 (Z.eqb_neq _ _) Hne). constructor; cbn [fst snd].
    + apply (exclusive_replace st _ _ i A_idle); try done; [|by rewrite Hp0].
      intros j q z _ Hq Hz. by apply (ex_state _ He j q z).
    + apply insert_others; [done|]. intros [?|?]; [done | auto].
    + intros Hs. specialize (Hstart Hs). rewrite list_lookup_insert_ne; [done|]. intros ->. congruence.
Qed.

Lemma finish_inv st ps i p x y :
  exclusive_inv (st, ps) -> ps !! i = Some p -> body_state p = Some x ->
  y <> SUBSTANCE_CONNECTOR_STATE_SHUTDOWN_STARTED ->
  exclusive_inv (fst (exchange st x y), <[i := A_idle]> ps).
Proof.
  intros [He Ho Hstart] Hi Hp Hy. assert (st = x) as -> by (by apply (ex_state _ He i p)).
  rewrite exchange_hit. constructor; cbn [fst snd]; [|by apply insert_others; [|intros [?|?]] | done].
  apply (exclusive_replace x _ _ i p); try done.
  intros j q z Hj Hq Hz. rewrite (exclusive_others x ps i p j q) in Hz; try done. by rewrite Hp.
Qed.

Lemma api_step_inv a s s' :
  exclusive_inv s -> one_shutter a -> api_step a s = Some s' -> exclusive_inv s'.
Proof.
  destruct s as [st ps]. intros Hinv Hone. destruct a as [i|i|i|i ok]; cbn [api_step].
  - case_bool_decide as Hi; [|done].
    pose proof (call_inv st ps i _ _ A_init A_idle Hinv Hi (or_introl eq_refl) eq_refl eq_refl
      ltac:(by intros [?|?]) ltac:(done) ltac:(done) ltac:(done)) as H.
    destruct (exchange _ _ _). intros [= <-]. exact H.
  - case_bool_decide as Hi; [|done].
    pose proof (call_inv st ps i _ _ A_shutdown A_skipped Hinv Hi (or_intror eq_refl) eq_refl eq_refl
      ltac:(done) ltac:(done) ltac:(done) ltac:(done)) as H.
    destruct (exchange _ _ _). intros [= <-]. exact H.
  - case_bool_decide as Hi; [|done].
    pose proof (call_inv st ps i _ _ A_allocators A_idle Hinv Hi (or_introl eq_refl) eq_refl eq_refl
      ltac:(by intros [?|?]) ltac:(done) ltac:(done) ltac:(done)) as H.
    destruct (exchange _ _ _). intros [= <-]. exact H.
  - destruct (ps !! i) as [p|] eqn:Hi; [|done]. destruct p; [done | | | |]; intros [= <-].
    + apply (finish_inv st ps i A_init); [done | done | done | by destruct ok].
    + by apply (finish_inv st ps i A_shutdown).
    + destruct Hinv as [He Ho Hstart]. cbn [fst snd] in *.
      assert (Hst : st <> SUBSTANCE_CONNECTOR_STATE_SHUTDOWN_STARTED).
      { intros Hs. specialize (Hstart Hs). assert (i = 0%nat) as -> by (apply Ho; auto). congruence. }
      change (exclusive_inv (fst (exchange st SUBSTANCE_CONNECTOR_STATE_SHUTDOWN_STARTED
        SUBSTANCE_CONNECTOR_STATE_SHUTDOWN), <[i := A_idle]> ps)).
      rewrite exchange_miss by done. constructor; cbn [fst snd];
        [| by apply insert_others; [|intros [?|?]] | done].
      apply (exclusive_replace st _ _ i A_skipped); try done.
      intros j q z _ Hq Hz. by apply (ex_state _ He j q z).
    + by apply (finish_inv st ps i A_allocators).
Qed.

Lemma api_run_inv actions s s' :
  exclusive_inv s -> Forall one_shutter actions -> api_run actions s = Some s' -> exclusive_inv s'.
Proof.
  revert s. induction actions as [|a actions IH]; intros s Hs Hall; cbn [api_run]; [by intros [= <-]|].
  apply Forall_cons in Hall as [Ha Hall]. destruct (api_step a s) as [s1|] eqn:E; cbn; [|done].
  apply IH; [|done]. by apply (api_step_inv a s).
Qed.

Definition all_idle (n : nat) : api_state := (SUBSTANCE_CONNECTOR_STATE_SHUTDOWN, replicate n A_idle).

Lemma all_idle_inv n : exclusive_inv (all_idle n).
Proof.
  assert (Hidle : forall i p, replicate n A_idle !! i = Some p -> p = A_idle)
    by (intros i p H; by apply lookup_replicate in H as [? _]).
  constructor; [constructor| |]; cbn.
  - intros i p st Hi Hp. apply Hidle in Hi. by subst p.
  - intros i j p q Hi _ Hp. apply Hidle in Hi. by subst p.
  - by intros i [H|H]; apply Hidle in H.
  - done.
Qed.

(** ** Properties *)

Section properties.
Context {E : Type} {P : Platform E} {B : Bindings E}.
Implicit Types w : world E.

(** C11: A library that is shut down can be initialised, and initialising and
    shutting down gives everything back but the name.  From a shut-down library
    and a name, initialising succeeds and reaches the initialised state with all
    32 contexts free, no connection waiting, both message queues and the list of
    trampolines empty; shutting that down again succeeds, reaches the shut-down
    state with no queue left, and the heap is the old one with the old name
    replaced by one copy of the new name, which is never released. *)
Theorem init_shutdown_roundtrip w (ts : threads) (old : option (list Z)) (name : Z) (s : list Z)
    (Hw : shut_down w old) (Hcs : cstring s) (Hname : points_to_string (mem w) name s)
    (Hne : application_name w <> name)
    (Hf1 : write_thread_shutdown_flag ts = 0) (Hf2 : read_thread_shutdown_flag ts = 0) :
  exists w1, substance_connector_init name ts w = Done (idle_threads ts, SUBSTANCE_CONNECTOR_SUCCESS) w1 /\
    module_state w1 = SUBSTANCE_CONNECTOR_STATE_INIT_FINISHED /\ env w1 = env w /\
    contexts_inv w1 (seqZ 0 32) (2 ^ 32 - 34) /\ id_queue (connection_queue w1) [] (2 ^ 32 - 2) /\
    queue_holds (mem w1) (inbound_queue (queues w1)) [] /\ queue_holds (mem w1) (outbound_queue (queues w1)) [] /\
    trampolines_repr w1 [] /\ points_to_string (mem w1) (application_name w1) s /\
    exists ts' w2, substance_connector_shutdown (idle_threads ts) w1 =
        Done (ts', SUBSTANCE_CONNECTOR_SUCCESS) w2 /\
      module_state w2 = SUBSTANCE_CONNECTOR_STATE_SHUTDOWN /\ env w2 = env w /\
      message_queue_state (queues w2) = MESSAGE_QUEUE_SHUTDOWN /\
      free_contexts w2 = QNull /\ connection_queue w2 = QNull /\
      heap (mem w2) = <[application_name w2 := Cell (connector_memory_free (mem w)) (BStr (s ++ [0]))]>
                        (delete (application_name w) (heap (mem w))).
Proof.
  pose proof Hw as [Hwf Hs _ _ _ _].
  destruct (init_spec w ts old name s Hw Hcs Hname Hne) as (m1 & p1 & p2 & m & Hinit & Hrel & Hq1 & Hq2 & Hadd).
  set (w1 := initialised_world _ _ _ _ _ _) in *. pose proof Hrel as [Hwf1 Hc1 _ Hh1].
  pose proof Hadd as [Hwfm Hcm Hnd Hfresh Hown Hother].
  assert (Hs1 : mem_serving m1) by exact (mem_serving_config _ _ Hc1 Hs).
  assert (Hsm : mem_serving m) by (apply (mem_serving_config _ _ Hcm); exact Hs1).
  exists w1. split; [exact Hinit|]. split; [done|]. split; [done|]. split; [by apply fresh_contexts_inv|].
  split; [exact Hq2|].
  assert (Hempty : lq_repr m empty_queue []) by (constructor; try reflexivity; constructor).
  split; [by exists []|]. split; [by exists []|].
  split; [constructor; [done | done |]; exists []; split; [done|]; split; [done | constructor]|].
  split.
  { assert (Ho : owns (alloc_with (BStr (s ++ [0])) m1) (next_addr m1) (BStr (s ++ [0]))) by (by apply alloc_with_owns).
    change (owns m (next_addr m1) (BStr (s ++ [0]))). unfold owns in *. rewrite (config_free _ _ Hcm), <- Ho.
    apply (added_live _ _ _ _ Hadd). by rewrite Ho. }
  destruct (shutdown_idle (env w) m (next_addr m1) p1 p2 (trace w) ts Hf1 Hf2 Hwfm) as (ts' & m' & m2 & Hrun & Hclr & Hrel2).
  { destruct Hq1 as (q1 & -> & _). eauto. }
  { destruct Hq2 as (q2 & -> & _). eauto. }
  { exact Hnd. }
  { exact Hown. }
  eexists ts', _. split; [exact Hrun|]. repeat (split; [done|]). cbn [mem application_name].
  assert (Hm2 : heap m2 = heap m').
  { unfold connector_clear_allocators, bind, modify, ret in Hclr. by injection Hclr as <-. }
  rewrite Hm2, (added_released _ _ _ _ Hadd Hrel2). cbn.
  rewrite (config_alloc _ _ Hc1), (proj2 Hs). f_equal. apply map_eq. intros a. rewrite Hh1, lookup_delete.
  destruct (decide (application_name w = a)) as [<-|Ha]; case_decide as Hin; try done.
  - destruct Hin. by apply list_elem_of_singleton.
  - apply list_elem_of_singleton in Hin. congruence.
Qed.

(** The external interface is guarded by the state of the module.  While the
    library is not (or not completely) initialised, every function of the
    interface that works on contexts, messages or trampolines refuses and
    changes nothing; initialising is refused unless it is shut down, shutting
    down is refused unless it is initialised (except that it may overwrite a
    shutdown in progress), and allocators can be exchanged
    only while it is shut down. *)
Theorem interface_is_guarded w (ts : threads)
    (Hstate : module_state w <> SUBSTANCE_CONNECTOR_STATE_INIT_FINISHED) :
  (forall context type message,
     substance_connector_write_message context type message w = Done SUBSTANCE_CONNECTOR_INVALID w) /\
  (forall f, substance_connector_add_trampoline f w = Done SUBSTANCE_CONNECTOR_ERROR w /\
             substance_connector_remove_trampoline f w = Done SUBSTANCE_CONNECTOR_ERROR w) /\
  (forall port given, substance_connector_open_tcp port given w = Done refused_context w /\
     substance_connector_connect_tcp port given w = Done refused_context w) /\
  (forall filepath given, substance_connector_open_unix filepath given w = Done refused_context w /\
     substance_connector_connect_unix filepath given w = Done refused_context w) /\
  substance_connector_broadcast_tcp w = Done SUBSTANCE_CONNECTOR_ERROR w /\
  substance_connector_broadcast_unix w = Done SUBSTANCE_CONNECTOR_ERROR w /\
  substance_connector_broadcast_default w = Done SUBSTANCE_CONNECTOR_ERROR w /\
  (forall given, substance_connector_open_default_tcp given w = Done refused_context w /\
     substance_connector_open_default_unix given w = Done refused_context w /\
     substance_connector_open_default given w = Done refused_context w) /\
  (module_state w <> SUBSTANCE_CONNECTOR_STATE_SHUTDOWN ->
     (forall name, substance_connector_init name ts w = Done (ts, SUBSTANCE_CONNECTOR_ERROR) w) /\
     (forall a d, substance_connector_set_allocators a d w = Done SUBSTANCE_CONNECTOR_INVALID w)) /\
  (module_state w <> SUBSTANCE_CONNECTOR_STATE_SHUTDOWN_STARTED ->
     substance_connector_shutdown ts w = Done (ts, SUBSTANCE_CONNECTOR_ERROR) w).
Proof.
  repeat match goal with |- _ /\ _ => split end; intros; repeat match goal with |- _ /\ _ => split end;
    try (by apply when_initialised_refuses).
  - intros name. unfold substance_connector_init. rewrite (bind_done _ _ _ _ _ (exchange_state_miss w _ _ H)).
    by rewrite (proj2 (Z.eqb_neq _ _) H).
  - intros a d. unfold substance_connector_set_allocators.
    rewrite (bind_done _ _ _ _ _ (exchange_state_miss w _ _ H)).
    by rewrite (proj2 (Z.eqb_neq _ _) H).
  - unfold substance_connector_shutdown. rewrite (bind_done _ _ _ _ _ (exchange_state_miss w _ _ Hstate)).
    rewrite (proj2 (Z.eqb_neq _ _) Hstate). unfold bind at 1. cbn [ret].
    by rewrite (bind_done _ _ _ _ _ (exchange_state_miss w _ _ H)).
Qed.

(** A failed initialisation is final.  Initialising a shut-down library
    without a name (or when its copy cannot be allocated) answers
    [SUBSTANCE_CONNECTOR_ERROR] and leaves the module in the internal-error
    state, in which initialising, shutting down and exchanging the allocators
    are all refused without leaving that state: the process cannot use the
    library any more. *)
Theorem failed_init_is_final w (ts : threads) (old : option (list Z)) (Hw : shut_down w old) :
  exists w', substance_connector_init 0 ts w = Done (ts, SUBSTANCE_CONNECTOR_ERROR) w' /\
    module_state w' = SUBSTANCE_CONNECTOR_STATE_INTERNAL_ERROR /\
    forall w'', module_state w'' = SUBSTANCE_CONNECTOR_STATE_INTERNAL_ERROR ->
      (forall name, substance_connector_init name ts w'' = Done (ts, SUBSTANCE_CONNECTOR_ERROR) w'') /\
      substance_connector_shutdown ts w'' = Done (ts, SUBSTANCE_CONNECTOR_ERROR) w'' /\
      (forall a d, substance_connector_set_allocators a d w'' = Done SUBSTANCE_CONNECTOR_INVALID w'').
Proof.
  destruct Hw as [Hwf Hs Hst Hqs Hav Hold].
  destruct (free_name_released (mem w) (application_name w) old Hwf Hold) as (m1 & Hf & Hrel).
  exists (set_module_state SUBSTANCE_CONNECTOR_STATE_INTERNAL_ERROR (set_app_name 0 (set_mem m1 w))).
  split; [|split; [done|]].
  - unfold substance_connector_init. rewrite (bind_done _ _ _ _ _ (exchange_state_hit w _ _ Hst)), Z.eqb_refl.
    set (w1 := set_module_state _ w).
    assert (Hname : connector_set_application_name 0 w1 =
      Done SUBSTANCE_CONNECTOR_ERROR (set_app_name 0 (set_mem m1 w1))).
    { unfold connector_set_application_name. rewrite (bind_done _ _ w1 (application_name w) w1) by done.
      by rewrite (bind_done _ _ _ _ _ (in_mem_done _ w1 _ _ Hf)). }
    by rewrite (bind_done _ _ _ _ _ Hname).
  - intros w'' Hs''. split; [|split].
    + intros name. unfold substance_connector_init. rewrite (bind_done _ _ w'' SUBSTANCE_CONNECTOR_STATE_INTERNAL_ERROR w'');
        [done|]. rewrite <- Hs''. by apply exchange_state_miss; rewrite Hs''.
    + unfold substance_connector_shutdown.
      rewrite (bind_done _ _ _ _ _ (exchange_state_miss w'' SUBSTANCE_CONNECTOR_STATE_INIT_FINISHED _ ltac:(by rewrite Hs''))).
      rewrite Hs''. unfold bind at 1. cbn [ret Z.eqb SUBSTANCE_CONNECTOR_STATE_INTERNAL_ERROR
        SUBSTANCE_CONNECTOR_STATE_INIT_FINISHED Pos.eqb].
      by rewrite (bind_done _ _ _ _ _ (exchange_state_miss w'' SUBSTANCE_CONNECTOR_STATE_SHUTDOWN_STARTED _
        ltac:(by rewrite Hs''))).
    + intros a d. unfold substance_connector_set_allocators.
      rewrite (bind_done _ _ w'' SUBSTANCE_CONNECTOR_STATE_INTERNAL_ERROR w''); [done|].
      rewrite <- Hs''. by apply exchange_state_miss; rewrite Hs''.
Qed.

(** The header of a message an application writes. *)
Definition user_header_of (type : uuid) (s : list Z) : message_header :=
  Header (Z.lor CONNECTOR_HEADER_R1 CONNECTOR_MESSAGE_IDENTIFIER) (Z.of_nat (length s)) type.

(** Writing a message: the blocks of the queued message are new, and apart from
    the nodes of the queue nothing else changes. *)
Lemma write_message_adds w (context : Z) (type : uuid) (text : Z) (s : list Z) (ns : list (Z * Z)) :
  module_state w = SUBSTANCE_CONNECTOR_STATE_INIT_FINISHED ->
  mem_wf (mem w) -> mem_serving (mem w) -> cstring s -> points_to_string (mem w) text s ->
  Z.of_nat (length s) < 2 ^ 32 -> lq_repr (mem w) (outbound_queue (queues w)) ns ->
  exists m' q' node p, substance_connector_write_message context (Some type) text w =
      Done SUBSTANCE_CONNECTOR_SUCCESS
        (set_trace (trace w ++ [SignalOutbound]) (set_queues (set_outbound q' (queues w)) (set_mem m' w))) /\
    mem_wf m' /\ mem_config_eq (mem w) m' /\ lq_repr m' q' (ns ++ [(node, p)]) /\
    owns m' p (BMsg (Message (Some (user_header_of type s)) (p + 1) context)) /\
    points_to_string m' (p + 1) s /\ NoDup [node; p; p + 1] /\
    (forall a, a ∈ [node; p; p + 1] -> heap (mem w) !! a = None) /\
    (forall a, a ∉ [node; p; p + 1] -> a ∉ map fst ns -> heap m' !! a = heap (mem w) !! a).
Proof.
  intros Hstate Hwf Hs Hcs Htext Hlen Hq. unfold substance_connector_write_message.
  rewrite !when_initialised_passes by done.
  destruct (build_message_blocks (mem w) context type text s Hwf Hs Hcs Htext Hlen)
    as (m1 & Hbuild & Hwf1 & Hc1 & Ho1 & Ht1 & Hh1).
  set (p := next_addr (mem w)) in *. set (x := Message _ (p + 1) context) in *.
  rewrite (bind_done _ _ _ _ _ (in_mem_done _ w _ _ Hbuild)), (owns_pos _ _ _ Hwf1 Ho1). cbn [negb].
  set (m2 := write_cell p (BMsg x) m1).
  assert (Hstore : (let* y := load_message p in
      store p (BMsg (Message (msg_header y) (msg_text y) context))) m1 = Done tt m2).
  { rewrite (bind_done _ _ _ _ _ (load_message_owns _ _ _ Hwf1 Ho1)). by apply (store_owns _ _ (BMsg x)). }
  rewrite (bind_done _ _ _ _ _ (in_mem_done _ (set_mem m1 w) _ _ Hstore)).
  assert (Ho2 : owns m2 p (BMsg x)) by apply write_cell_owns.
  assert (Ht2 : points_to_string m2 (p + 1) s) by (apply write_cell_owns_other; [lia | exact Ht1]).
  assert (Hadd : added [p; p + 1] (mem w) m2).
  { constructor; [by apply (write_cell_wf _ (BMsg x)) | by destruct Hc1 | | | |];
      [constructor; [rewrite list_elem_of_singleton; lia | apply NoDup_singleton] | ..];
      intros a; rewrite elem_of_cons, list_elem_of_singleton.
    - intros [->| ->]; apply mem_wf_beyond; try done; lia.
    - intros [->| ->]; eauto.
    - intros Ha. cbn. rewrite lookup_insert_ne by (intros <-; auto). apply Hh1; intros ->; auto. }
  destruct (enqueue_new_message (mem w) m2 (outbound_queue (queues w)) ns p (p + 1) Hs Hq Hadd)
    as (q' & m3 & node & He & Hq3 & Hwf3 & Hcfg3 & Hnd3 & Hf3 & Hh3 & Hkeep).
  rewrite (bind_done _ _ _ _ _ (enqueue_outbound_done (set_mem m2 (set_mem m1 w)) q' p m3 He)).
  exists m3, q', node, p. split; [reflexivity|]. do 3 (split; [done|]).
  split; [apply Hkeep; [rewrite !elem_of_cons; auto | done]|].
  split; [apply Hkeep; [rewrite !elem_of_cons; auto | done] | done].
Qed.

(** A message that the application writes is queued for the write threads: in
    the initialised state the call succeeds, appends one message with the given
    context and identifier and its own copy of the text to the outbound queue
    and signals the write threads; a NULL identifier or text is refused and
    changes nothing. *)
Theorem write_message_queues w (context : Z) (type : uuid) (text : Z) (s : list Z) (ns : list (Z * Z))
    (Hstate : module_state w = SUBSTANCE_CONNECTOR_STATE_INIT_FINISHED)
    (Hwf : mem_wf (mem w)) (Hs : mem_serving (mem w)) (Hcs : cstring s)
    (Htext : points_to_string (mem w) text s) (Hlen : Z.of_nat (length s) < 2 ^ 32)
    (Hq : lq_repr (mem w) (outbound_queue (queues w)) ns) :
  (exists message m' q', substance_connector_write_message context (Some type) text w =
      Done SUBSTANCE_CONNECTOR_SUCCESS
        (set_trace (trace w ++ [SignalOutbound]) (set_queues (set_outbound q' (queues w)) (set_mem m' w))) /\
     queue_holds m' q' (map snd ns ++ [message]) /\
     message_at m' message (Header (Z.lor CONNECTOR_HEADER_R1 CONNECTOR_MESSAGE_IDENTIFIER)
                              (Z.of_nat (length s)) type) s context /\
     points_to_string m' text s) /\
  substance_connector_write_message context None text w = Done SUBSTANCE_CONNECTOR_INVALID w /\
  substance_connector_write_message context (Some type) 0 w = Done SUBSTANCE_CONNECTOR_INVALID w.
Proof.
  split; [|unfold substance_connector_write_message; rewrite !when_initialised_passes by done; split; by destruct w].
  destruct (write_message_adds w context type text s ns) as
    (m' & q' & node & p & Hrun & _ & Hc & Hq' & Hm & Ht & Hnd & Hf & Hh); auto.
  exists p, m', q'. split; [exact Hrun|]. split; [exists (ns ++ [(node, p)]); split; [done | by rewrite map_app]|].
  split; [exists (p + 1); split; [done|]; split; [done | lia]|].
  unfold points_to_string, owns in *. rewrite (config_free _ _ Hc), Hh; [done | |].
  - intros Hin. by rewrite (Hf text Hin) in Htext.
  - intros ([a n] & Ha & Hin)%list_elem_of_In%in_map_iff. cbn in Ha. subst a.
    destruct (chain_owned _ _ _ _ _ (lq_chain _ _ _ Hq) Hin) as [k Hk]. unfold owns in Hk. congruence.
Qed.

End properties.

(** C20: With a single thread that shuts down, the calls exclude each other: for
    any number of threads that initialise and exchange allocators, in any
    interleaving, at most one of them is in the body of an initialisation, a
    shutdown or an exchange of allocators, and the state of the module is the
    one that body has set. *)
Theorem lifecycle_is_exclusive (n : nat) (actions : list api_action) (s : api_state)
    (Hrun : api_run actions (all_idle n) = Some s) (Hone : Forall one_shutter actions) :
  exclusive s.
Proof. exact (ei_exclusive _ (api_run_inv actions _ _ (all_idle_inv n) Hone Hrun)). Qed.

Definition one_cycle : list api_action :=
  [CallInit 1; Finish 1 true; CallShutdown 0].

Lemma lifecycle_is_exclusive_witness :
  exists s, api_run one_cycle (all_idle 2) = Some s /\ exclusive s /\
    fst s = SUBSTANCE_CONNECTOR_STATE_SHUTDOWN_STARTED.
Proof.
  destruct (api_run one_cycle (all_idle 2)) as [s|] eqn:Hs; [|by vm_compute in Hs].
  exists s. split; [reflexivity|]. split.
  - apply (lifecycle_is_exclusive 2 one_cycle s Hs). by repeat constructor.
  - vm_compute in Hs. by injection Hs as <-.
Defined.

(** A second call of the shutdown function breaks the exclusion.  Its first
    exchange is refused, but its last exchange is made nevertheless and declares
    the module shut down while the first call is still releasing everything; the
    next initialisation is then let in.  The reached state has one thread in the
    body of the shutdown and one in the body of the initialisation. *)
Theorem shutdown_race :
  exists s, api_run [CallInit 0; Finish 0 true; CallShutdown 0; CallShutdown 1; Finish 1 true; CallInit 1]
      (all_idle 2) = Some s /\
    snd s !! 0%nat = Some A_shutdown /\ snd s !! 1%nat = Some A_init /\ ~ exclusive s.
Proof.
  eexists. split; [vm_compute; reflexivity|]. split; [done|]. split; [done|].
  intros [_ Hal]. by specialize (Hal 0%nat 1%nat A_shutdown A_init eq_refl eq_refl ltac:(done) ltac:(done)).
Qed.

(** A library that was never initialised, and a name in its memory. *)
Definition uninitialised_world : world simulation :=
  World _ (Simulation 3 false [] [] [] []) one_string_memory SUBSTANCE_CONNECTOR_STATE_SHUTDOWN 0 [] QNull QNull
    (MessageQueues empty_queue empty_queue MESSAGE_QUEUE_SHUTDOWN) 0 [].
Definition no_threads : threads :=
  Threads 0 0 0 false (replicate (Z.to_nat SUBSTANCE_CONNECTOR_INBOUND_COUNT) (new_thread 0)).

Lemma uninitialised_shut_down : shut_down uninitialised_world None.
Proof. constructor; try done. apply alloc_with_wf, initial_memory_wf. Qed.

Lemma init_shutdown_roundtrip_witness :
  exists w1 ts' w2, substance_connector_init 1 no_threads uninitialised_world =
      Done (idle_threads no_threads, SUBSTANCE_CONNECTOR_SUCCESS) w1 /\
    substance_connector_shutdown (idle_threads no_threads) w1 = Done (ts', SUBSTANCE_CONNECTOR_SUCCESS) w2 /\
    module_state w2 = SUBSTANCE_CONNECTOR_STATE_SHUTDOWN.
Proof.
  destruct (init_shutdown_roundtrip uninitialised_world no_threads None 1 [97; 98] uninitialised_shut_down
    ltac:(repeat constructor; lia) ltac:(reflexivity) ltac:(done) eq_refl eq_refl)
    as (w1 & Hi & _ & _ & _ & _ & _ & _ & _ & _ & ts' & w2 & Hsd & Hst & _).
  exists w1, ts', w2. auto.
Defined.

Lemma interface_is_guarded_witness :
  substance_connector_open_tcp 0 true uninitialised_world = Done refused_context uninitialised_world.
Proof.
  destruct (interface_is_guarded uninitialised_world no_threads ltac:(done)) as (_ & _ & H & _).
  exact (proj1 (H 0 true)).
Defined.

Lemma failed_init_is_final_witness :
  exists w', substance_connector_init 0 no_threads uninitialised_world =
      Done (no_threads, SUBSTANCE_CONNECTOR_ERROR) w' /\
    module_state w' = SUBSTANCE_CONNECTOR_STATE_INTERNAL_ERROR.
Proof.
  destruct (failed_init_is_final uninitialised_world no_threads None uninitialised_shut_down)
    as (w' & H & Hs & _). exists w'. auto.
Defined.

Lemma write_message_queues_witness :
  exists w', substance_connector_write_message 5 (Some connector_internal_log_uuid) 1
      (set_module_state SUBSTANCE_CONNECTOR_STATE_INIT_FINISHED uninitialised_world) =
    Done SUBSTANCE_CONNECTOR_SUCCESS w' /\ trace w' = [SignalOutbound].
Proof.
  assert (Hq : lq_repr one_string_memory empty_queue []) by (constructor; try reflexivity; constructor).
  destruct (write_message_queues (set_module_state SUBSTANCE_CONNECTOR_STATE_INIT_FINISHED uninitialised_world)
    5 connector_internal_log_uuid 1 [97; 98] [] eq_refl ltac:(apply alloc_with_wf, initial_memory_wf)
    ltac:(by split) ltac:(repeat constructor; lia) ltac:(reflexivity) ltac:(cbn; lia) Hq)
    as [(message & m' & q' & Hrun & _) _].
  eexists. split; [exact Hrun | reflexivity].
Defined.

(** After a shutdown under a custom allocator, initialising again passes the
    kept name to [free]. *)
Lemma custom_allocators_break_reinit :
  (substance_connector_set_allocators (Some 7) (Some 7) ;;;
   let* first := substance_connector_init 1 no_threads in
   let* down := substance_connector_shutdown (fst first) in
   substance_connector_init 1 (fst down)) uninitialised_world = Stuck InvalidFree.
Proof. vm_compute. reflexivity. Qed.
