(* ===== verification/UnitTests.v ===== *)
(** * The unit tests of the core

    The programs of [core/test/unit_test] as definitions over the model: each
    answers zero when it passes and the number of the first failed check
    otherwise, as the C functions do.  Their success ties the model to the
    behaviour its authors rely on. *)

From S2P Require Import Prelude Wire Memory Strings Cpp UintQueue LockedQueue Message World Callbacks.
From S2P Require Import FileSystem Connection ContextQueue Contexts ReadThread Dispatch Lifecycle.

(** ** What the programs are written with *)

(** [if (c1) { result = n1; } else if (c2) { result = n2; } ... else { k }] *)
Fixpoint else_if {S : Type} (checks : list (M S bool * Z)) (k : M S Z) : M S Z :=
  match checks with
  | [] => k
  | (failed, result) :: checks' =>
      let* b := failed in
      if b then ret result else else_if checks' k
  end.
Definition pass {S : Type} : M S Z := ret 0.

(** [f (...) != SUBSTANCE_CONNECTOR_SUCCESS] and [f (...) == ...]. *)
Definition fails {S} (m : M S Z) : M S bool :=
  let* r := m in ret (negb (r =? SUBSTANCE_CONNECTOR_SUCCESS)).
Definition passes {S} (m : M S Z) : M S bool :=
  let* r := m in ret (r =? SUBSTANCE_CONNECTOR_SUCCESS).

(** The [main] of every program ([test_common.h]): the tests in their order, each
    from the state the ones before have left. *)
Definition EXIT_SUCCESS : Z := 0.
Definition EXIT_FAILURE : Z := 1.
Fixpoint test_main {S : Type} (tests : list (M S Z)) (retcode : Z) : M S Z :=
  match tests with
  | [] => ret retcode
  | test :: tests' =>
      let* test_result := test in
      test_main tests' (if negb (test_result =? 0) then EXIT_FAILURE else retcode)
  end.
Definition CONNECTOR_TEST_MAIN {S : Type} (tests : list (M S Z)) : M S Z := test_main tests EXIT_SUCCESS.

(** Storage of the program: no deallocator of the library owns it. *)
Definition program_storage : Z := -1.
Definition place (b : block) : M memory Z := fun m =>
  Done (next_addr m) (set_next_addr (next_addr m + 1)
    (set_heap (<[next_addr m := Cell program_storage b]> (heap m)) m)).
Definition literal (s : list Z) : M memory Z := place (BStr (s ++ [0])).

Fixpoint strcmp (s t : list Z) : Z :=
  match s, t with
  | [], [] => 0
  | [], _ => -1
  | _, [] => 1
  | a :: s', b :: t' => if a =? b then strcmp s' t' else if a <? b then -1 else 1
  end.

(** ** [02_test_uuid], [05_test_network_utils], [17_test_context_state] *)

Definition connector_test_compare : Z :=
  let id0 := Uuid [0x94ff9731; 0x08f44942; 0x8973d1e0; 0xba164294] in
  let id1 := Uuid [0xb80fe03c; 0x7f9a42d8; 0x9d467f8f; 0x43550a1b] in
  if negb (connector_compare_uuid id0 id0 =? 0) then 1
  else if negb (connector_compare_uuid id0 id1 =? -1) then 2
  else if negb (connector_compare_uuid id1 id0 =? 1) then 3
  else 0.

Definition compare_headers (h0 h1 : message_header) : Z :=
  if negb (description h0 =? description h1) then 1
  else if negb (message_length h0 =? message_length h1) then 2
  else if negb (connector_compare_uuid (message_id h0) (message_id h1) =? 0) then 3
  else 0.

(** The table of errors has a message for a second check that is not made. *)
Definition connector_test_byte_conversions (e : endianness) : Z :=
  let uid := Uuid [0xb058d3a8; 0x4c154981; 0x9ec45343; 0xa32483e4] in
  let header_host := Header CONNECTOR_MESSAGE_IDENTIFIER 19273 uid in
  let header_network := connector_htonheader e header_host in
  let header_host_2 := connector_ntohheader e header_network in
  if negb (compare_headers header_host_2 header_host =? 0) then 1 else 0.

Definition connector_test_bitfield_conflicts : Z :=
  if negb (Z.land SUBSTANCE_CONNECTOR_COMM_MASK SUBSTANCE_CONNECTOR_CONN_MASK =? 0) then 1
  else if negb (Z.land SUBSTANCE_CONNECTOR_COMM_MASK SUBSTANCE_CONNECTOR_HANDSHAKE_MASK =? 0) then 2
  else if negb (Z.land SUBSTANCE_CONNECTOR_CONN_MASK SUBSTANCE_CONNECTOR_HANDSHAKE_MASK =? 0) then 3
  else 0.

(** The values of [for (v = first; v <= mask; v <<= 1u)]; 32 bits can be doubled
    at most 32 times. *)
Fixpoint doublings (fuel : nat) (v mask : Z) : list Z :=
  match fuel with
  | O => []
  | S f => if v <=? mask then v :: doublings f (u32 (Z.shiftl v 1)) mask else []
  end.
Definition bits_of (first mask : Z) : list Z := doublings 33 first mask.

Definition comm_bits : list Z := bits_of SUBSTANCE_CONNECTOR_COMM_TCP SUBSTANCE_CONNECTOR_COMM_MASK.
Definition conn_bits : list Z := bits_of SUBSTANCE_CONNECTOR_CONN_OPEN SUBSTANCE_CONNECTOR_CONN_MASK.
Definition handshake_bits : list Z :=
  bits_of SUBSTANCE_CONNECTOR_HANDSHAKE_SENT SUBSTANCE_CONNECTOR_HANDSHAKE_MASK.

(** The two inner loops: [result] after comparing [value] with both lists. *)
Definition compare_bits (value : Z) (l1 l2 : list Z) (n1 n2 result : Z) : Z :=
  let result := if existsb (Z.eqb value) l1 then n1 else result in
  if existsb (Z.eqb value) l2 then n2 else result.
Fixpoint conflict_loop (values l1 l2 : list Z) (n1 n2 result : Z) : Z :=
  match values with
  | [] => result
  | value :: values' =>
      let result := compare_bits value l1 l2 n1 n2 result in
      if negb (result =? 0) then result else conflict_loop values' l1 l2 n1 n2 result
  end.

Definition connector_test_configuration_enum_conflicts : Z :=
  let result := conflict_loop handshake_bits comm_bits conn_bits 1 2 0 in
  let result := if result =? 0 then conflict_loop conn_bits comm_bits handshake_bits 3 4 result else result in
  conflict_loop comm_bits conn_bits handshake_bits 5 6 result.

(** ** [11_test_uint_queue], [12_test_available_queue]

    The local or static queue is part of the state. *)

Definition queue_state : Type := memory * queue_ptr.
Definition in_heap {A} (m : M memory A) : M queue_state A := zoom fst (fun h s => (h, snd s)) m.
Definition in_queue {A} (m : M queue_ptr A) : M queue_state A := zoom snd (fun q s => (fst s, q)) m.

(** A call on NULL, not on the queue. *)
Definition on_null {A} (m : M queue_ptr A) : M queue_state A := zoom (fun _ => QNull) (fun _ s => s) m.

Definition create_queue (size : Z) : M queue_state bool :=
  let* q := in_heap (connector_uint_queue_create size) in
  modify (fun s => (fst s, q)) ;;;
  ret (match q with QNull => true | _ => false end).
Definition destroy_queue : M queue_state Z :=
  let* s := get in in_heap (connector_uint_queue_destroy (snd s)).

(** The last two checks look at the value the second [pop] stored. *)
Definition connector_test_uint_queue_usage : M queue_state Z :=
  let queue_test_value := 0x12 in
  else_if
    [(create_queue 64, 1);
     (passes (let* r := in_queue connector_uint_queue_pop in ret (fst r)), 2);
     (passes (on_null (connector_uint_queue_push 0x00)), 3);
     (passes (in_heap (connector_uint_queue_destroy QNull)), 4);
     (fails (in_queue (connector_uint_queue_push queue_test_value)), 5)]
    (let* r := in_queue connector_uint_queue_pop in
     else_if
       [(ret (negb (fst r =? SUBSTANCE_CONNECTOR_SUCCESS)), 6);
        (ret (negb (default 0 (snd r) =? queue_test_value)), 7);
        (fails destroy_queue, 8)] pass).

Section world_tests.
Context {E : Type} {P : Platform E} {B : Bindings E}.

(** The code of [connector_available_queue_pop (&v)] and the new value of [v]. *)
Definition available_pop_into (v : Z) : M (world E) (Z * Z) :=
  let* r := in_available (connector_available_queue_pop true) in
  ret (fst r, default v (snd r)).
Definition available_push (v : Z) : M (world E) Z := in_available (connector_available_queue_push v).

Definition connector_test_available_queue_usage : M (world E) Z :=
  let original_value := 0x12875 in
  else_if
    [(passes available_queue_shutdown, 1);
     (passes (available_push 12), 2)]
    (let* r := available_pop_into original_value in
     else_if
       [(ret (fst r =? SUBSTANCE_CONNECTOR_SUCCESS), 3);
        (ret (negb (snd r =? original_value)), 4);
        (fails available_queue_init, 5);
        (passes available_queue_init, 6);
        (passes (let* r := available_pop_into 0 in ret (fst r)), 7);
        (fails (available_push original_value), 8)]
       (let* r := available_pop_into 0 in
        else_if
          [(ret (negb (fst r =? SUBSTANCE_CONNECTOR_SUCCESS)), 9);
           (ret (negb (snd r =? original_value)), 10);
           (fails available_queue_shutdown, 11)] pass)).

(** The loops with [i] calls made, of which [successes] were right. *)
Fixpoint capacity_load_loop (n : nat) (i successes : Z) : M (world E) Z :=
  match n with
  | O => ret successes
  | S n' =>
      let* result := available_push i in
      capacity_load_loop n' (i + 1)
        (if result =? SUBSTANCE_CONNECTOR_SUCCESS then successes + 1 else successes)
  end.
Fixpoint capacity_clear_loop (n : nat) (i successes : Z) : M (world E) Z :=
  match n with
  | O => ret successes
  | S n' =>
      let* r := available_pop_into 0 in
      capacity_clear_loop n' (i + 1)
        (if (fst r =? SUBSTANCE_CONNECTOR_SUCCESS) && (snd r =? i) then successes + 1 else successes)
  end.

Definition all_succeeded (successes : Z) : Z :=
  if successes =? SUBSTANCE_CONNECTOR_CONTEXT_COUNT then SUBSTANCE_CONNECTOR_SUCCESS
  else SUBSTANCE_CONNECTOR_ERROR.
Definition test_capacity_load : M (world E) Z :=
  let* n := capacity_load_loop (Z.to_nat SUBSTANCE_CONNECTOR_CONTEXT_COUNT) 0 0 in ret (all_succeeded n).
Definition test_capacity_clear : M (world E) Z :=
  let* n := capacity_clear_loop (Z.to_nat SUBSTANCE_CONNECTOR_CONTEXT_COUNT) 0 0 in ret (all_succeeded n).

Definition connector_test_available_queue_capacity : M (world E) Z :=
  else_if
    [(fails available_queue_init, 1);
     (fails test_capacity_load, 2);
     (fails test_capacity_clear, 3);
     (fails test_capacity_load, 4);
     (fails test_capacity_clear, 5);
     (fails available_queue_shutdown, 6)] pass.

(** ** [04_test_create_message], [13_test_message_queue] *)

(** The payload is not compared, nor is there a check numbered three. *)
Definition connector_test_create_message : M memory Z :=
  let context := 2 in
  let uid := Uuid [0xdc52784e; 0x62d14731; 0xa8cfa4cf; 0xfbb718b8] in
  let* payload := literal (text "test_message") in
  let* message := connector_build_message context (Some uid) payload in
  if message =? 0 then ret 1
  else
    let* x := load_message message in
    match msg_header x with
    | None => stuck NullDeref
    | Some h =>
        if negb (connector_compare_uuid uid (message_id h) =? 0) then ret 2
        else if negb (msg_context x =? context) then ret 4
        else ret 0
    end.

Definition test_message_uuid : uuid := Uuid [0x659adc0c; 0x50834db7; 0x8feaae3d; 0x3024c3d3].

Definition enqueue_inbound (message : Z) : M (world E) unit :=
  in_queues (fun qs => let* qs' := connector_enqueue_inbound_message message qs in ret (tt, qs')).

Definition test_retrieve_message : M (world E) Z :=
  let* message := acquire_inbound in
  if negb (message =? 0) then
    in_mem (connector_clear_message message) ;;;
    in_mem (connector_free message) ;;;
    ret SUBSTANCE_CONNECTOR_SUCCESS
  else ret SUBSTANCE_CONNECTOR_ERROR.

Definition test_add_retrieve_message : M (world E) Z :=
  let* payload := in_mem (literal (text "Test Payload")) in
  let* message := in_mem (connector_build_message 0 (Some test_message_uuid) payload) in
  if negb (message =? 0) then
    enqueue_inbound message ;;;
    let* retrieved := acquire_inbound in
    let retcode := if retrieved =? message then SUBSTANCE_CONNECTOR_SUCCESS else SUBSTANCE_CONNECTOR_ERROR in
    in_mem (connector_clear_message retrieved) ;;;
    in_mem (connector_free retrieved) ;;;
    ret retcode
  else ret SUBSTANCE_CONNECTOR_ERROR.

Definition connector_test_message_queue_usage : M (world E) Z :=
  else_if
    [(passes (in_static_queues connector_shutdown_message_queue_subsystem), 1);
     (fails (in_static_queues connector_init_message_queue_subsystem), 2);
     (passes (in_static_queues connector_init_message_queue_subsystem), 3);
     (passes test_retrieve_message, 4);
     (fails test_add_retrieve_message, 5);
     (fails (in_static_queues connector_shutdown_message_queue_subsystem), 6)] pass.

(** ** [08_test_configuration] *)

Definition test_application_name : list Z := text "Test Application".

Definition connector_test_application_name : M (world E) Z :=
  let* name := in_mem (literal test_application_name) in
  else_if
    [(passes (connector_set_application_name 0), 1);
     (fails (connector_set_application_name name), 2);
     ((let* p := connector_get_application_name in
       let* s := in_mem (read_cstr p) in
       ret (negb (strcmp s test_application_name =? 0))), 3)] pass.

(** ** [01_test_init], [03_test_allocator], [14_test_allocator_details] *)

Definition connector_test_init (ts : threads) : M (world E) Z :=
  let* name := in_mem (literal (text "test")) in
  let* r := substance_connector_init name ts in
  if negb (snd r =? SUBSTANCE_CONNECTOR_SUCCESS) then ret 1
  else
    let* r := substance_connector_shutdown (fst r) in
    if negb (snd r =? SUBSTANCE_CONNECTOR_SUCCESS) then ret 2 else ret 0.

(** The number of the test's own allocator and deallocator, which count their
    calls and pass them on to [malloc] and [free]. *)
Definition test_alloc : Z := 1.
Definition test_dealloc : Z := 1.

Definition connector_test_set_alloc : M (world E) Z :=
  else_if [(fails (substance_connector_set_allocators (Some test_alloc) (Some test_dealloc)), 1)] pass.

End world_tests.

(** The counters [_test_alloc_flag] and [_test_dealloc_flag]: a call through the
    library counts when the test's function is the registered one. *)
Definition counting_allocate (size flag : Z) : M memory (Z * Z) :=
  let* m := get in
  let* p := connector_allocate size in
  ret (p, if connector_memory_allocate m =? test_alloc then flag + 1 else flag).
Definition counting_free (p flag : Z) : M memory Z :=
  let* m := get in
  connector_free p ;;;
  ret (if connector_memory_free m =? test_dealloc then flag + 1 else flag).

Definition sizeof_unsigned : Z := 4.

Definition connector_test_internal_allocator : M memory Z :=
  connector_set_allocator test_alloc ;;;
  let* r := counting_allocate sizeof_unsigned 0 in
  let '(block, alloc_flag) := r in
  if block =? 0 then ret 1
  else if negb (alloc_flag =? 1) then ret 2
  else
    connector_set_deallocator test_dealloc ;;;
    let* dealloc_flag := counting_free block 0 in
    if negb (dealloc_flag =? 1) then ret 3
    else else_if [(fails connector_clear_allocators, 4)] pass.

Definition connector_test_clear_allocator : M memory Z :=
  connector_set_allocator test_alloc ;;;
  connector_set_deallocator test_dealloc ;;;
  else_if
    [(fails connector_clear_allocators, 1)]
    (let* r := counting_allocate sizeof_unsigned 0 in
     let '(block, alloc_flag) := r in
     if block =? 0 then ret 2
     else if negb (alloc_flag =? 0) then ret 3
     else
       let* dealloc_flag := counting_free block 0 in
       if negb (dealloc_flag =? 0) then ret 4 else ret 0).

(** ** [09_test_trampoline]

    The results of the comparisons the trampoline makes are the static variables
    of the test; they take the place of the system. *)

Definition test_message : list Z := text "Test Message".
Definition test_trampoline_uuid : uuid := Uuid [0x4a731ec7; 0x82544ebe; 0xa54ffa1f; 0x3ae9d981].

Definition test_trampoline : Bindings (Z * Z) := {|
  trampoline_body f context type message :=
    let* s := in_mem (read_cstr message) in
    modify (set_env (strcmp test_message s, connector_compare_uuid test_trampoline_uuid type))
|}.

Section trampoline_tests.
#[local] Existing Instance test_trampoline.

Definition connector_test_trampoline_init : M (world (Z * Z)) Z :=
  else_if
    [(fails connector_init_trampoline_subsystem, 1);
     (fails connector_shutdown_trampoline_subsystem, 2)] pass.

Definition connector_test_trampoline_call : M (world (Z * Z)) Z :=
  let* message := in_mem (literal test_message) in
  else_if
    [(fails connector_init_trampoline_subsystem, 1);
     (passes (connector_add_trampoline 0), 2);
     (fails (connector_add_trampoline 1), 3);
     (fails (connector_notify_trampolines 0 test_trampoline_uuid message), 4);
     ((let* e := gets env in ret (negb (fst e =? 0) || negb (snd e =? 0))), 5);
     (fails connector_shutdown_trampoline_subsystem, 6)] pass.

End trampoline_tests.

(** ** [06_test_locked_queue]

    The nodes are an array of the program; the handler is never called, so it does
    not matter whose blocks they are. *)

Definition node_count : nat := 50.
Fixpoint place_nodes (n : nat) : M memory (list Z) :=
  match n with
  | O => ret []
  | S n' =>
      let* node := (fun m => Done (next_addr m) (alloc_with (BNode (junk m) (junk m)) m)) in
      let* nodes := place_nodes n' in
      ret (node :: nodes)
  end.

Fixpoint enqueue_nodes (q : locked_queue) (nodes : list Z) : M memory locked_queue :=
  match nodes with
  | [] => ret q
  | node :: nodes' => let* q' := connector_locked_enqueue q node in enqueue_nodes q' nodes'
  end.

(** Dequeue one node for each check; a check that fails makes the result 1. *)
Fixpoint dequeue_nodes (q : locked_queue) (checks : list (Z -> bool)) (result : Z) : M memory Z :=
  match checks with
  | [] => ret result
  | expected :: checks' =>
      let* r := connector_locked_dequeue q in
      dequeue_nodes (snd r) checks' (if expected (fst r) then result else 1)
  end.

Definition connector_test_single_threaded : M memory Z :=
  let* q := connector_locked_queue_init (Some dummy_handler) in
  let* nodes := place_nodes node_count in
  let* q := enqueue_nodes q nodes in
  dequeue_nodes q (map Z.eqb nodes) 0.

(** Each producer enqueues one node under the lock, so the threads amount to one
    order of the nodes, here any function of the array. *)
Definition connector_test_multi_threaded_producer (order : list Z -> list Z) : M memory Z :=
  let* q := connector_locked_queue_init (Some dummy_handler) in
  let* nodes := place_nodes node_count in
  let* q := enqueue_nodes q (order nodes) in
  dequeue_nodes q (map (fun _ node => bool_decide (node ∈ nodes)) nodes) 0.

(** ** [15_test_file_utils], [16_test_ensure_directories] *)

Section file_tests.
Context {E : Type} {P : Platform E}.

Definition test_directory : list Z := text "./substance_connector_test_dir".
Definition test_filenames : list (list Z) :=
  [text "file0.txt"; text "file1.txt"; text "file2.txt"; text "file3.txt"].

Definition connector_test_create_directory : M (world E) Z :=
  let test_path := PLit test_directory in
  else_if
    [(passes (connector_make_directory PNull), 1);
     (fails (connector_make_directory test_path), 2);
     (fails (connector_is_directory test_path), 3);
     (fails (connector_remove_directory test_path), 4);
     (passes (connector_is_directory test_path), 5)] pass.

(** The loops over the names; a failure leaves its path allocated. *)
Fixpoint test_create_files (directory : list Z) (filenames : list (list Z)) : M (world E) Z :=
  match filenames with
  | [] => ret SUBSTANCE_CONNECTOR_SUCCESS
  | name :: filenames' =>
      let* r := in_mem (connector_path_join (Some [directory; name]) true) in
      if negb (fst r =? SUBSTANCE_CONNECTOR_SUCCESS) then ret SUBSTANCE_CONNECTOR_ERROR
      else
        let path := default 0 (snd r) in
        let* s := in_mem (read_cstr path) in
        let* opened := sys (fopen_write s) in
        if negb opened then ret SUBSTANCE_CONNECTOR_ERROR
        else in_mem (connector_free path) ;;; test_create_files directory filenames'
  end.

Fixpoint test_remove_files (directory : list Z) (filenames : list (list Z)) : M (world E) Z :=
  match filenames with
  | [] => ret SUBSTANCE_CONNECTOR_SUCCESS
  | name :: filenames' =>
      let* r := in_mem (connector_path_join (Some [directory; name]) true) in
      if negb (fst r =? SUBSTANCE_CONNECTOR_SUCCESS) then ret SUBSTANCE_CONNECTOR_ERROR
      else
        let path := default 0 (snd r) in
        let* removed := connector_remove_file (PPtr path) in
        if negb (removed =? SUBSTANCE_CONNECTOR_SUCCESS) then ret SUBSTANCE_CONNECTOR_ERROR
        else in_mem (connector_free path) ;;; test_remove_files directory filenames'
  end.

(** Is [name] in the NULL-terminated array, from slot [i]; at most [fuel] slots. *)
Fixpoint listing_contains (fuel : nat) (elements : Z) (i : nat) (name : list Z) : M memory bool :=
  match fuel with
  | O => stuck NoFuel
  | S n =>
      let* x := load_slot elements i in
      if x =? 0 then ret false
      else
        let* s := read_cstr x in
        if strcmp s name =? 0 then ret true else listing_contains n elements (S i) name
  end.
Definition contains_file (elements : Z) (name : list Z) : M memory bool :=
  let* slots := load_ptrs elements in listing_contains (length slots) elements 0 name.

Fixpoint test_compare_files (returned_files : Z) (originals : list (list Z)) : M memory Z :=
  match originals with
  | [] => ret SUBSTANCE_CONNECTOR_SUCCESS
  | name :: originals' =>
      let* found := contains_file returned_files name in
      if found then test_compare_files returned_files originals' else ret SUBSTANCE_CONNECTOR_ERROR
  end.

(** The list is cleared whatever the result. *)
Definition connector_test_list_directory : M (world E) Z :=
  let test_path := PLit test_directory in
  else_if
    [(fails (connector_make_directory test_path), 1);
     (fails (connector_is_directory test_path), 2);
     (fails (test_create_files test_directory test_filenames), 3)]
    (let* r := connector_list_directory test_path None (Some 0) in
     let elements := default 0 (snd r) in
     let* result := else_if
       [(fails (ret (fst r)), 4);
        (fails (in_mem (test_compare_files elements test_filenames)), 5);
        (fails (test_remove_files test_directory test_filenames), 6);
        (fails (connector_remove_directory test_path), 7)] pass in
     in_mem (connector_clear_directory_list (Some elements)) ;;;
     ret result).

Definition is_null (p : path) : bool :=
  match p with PNull => true | PLit _ => false | PPtr a => a =? 0 end.

Definition connector_test_ensure_unix_directory : M (world E) Z :=
  else_if
    [(ret (is_null connector_get_default_unix_directory), 1);
     (fails connector_ensure_default_unix_directory, 2)] pass.

Definition connector_test_ensure_tcp_directory : M (world E) Z :=
  else_if
    [(fails connector_setup_default_tcp_directory, 1);
     (ret (is_null connector_get_default_tcp_directory), 2);
     (fails connector_ensure_default_tcp_directory, 3);
     (fails connector_cleanup_default_tcp_directory, 4)] pass.

Definition test_find_port_file (port_string directory : list Z) : M (world E) Z :=
  let* r := connector_list_directory (PLit directory) None (Some 0) in
  let elements := default 0 (snd r) in
  if negb (elements =? 0) then
    let* found := in_mem (contains_file elements port_string) in
    in_mem (connector_clear_directory_list (Some elements)) ;;;
    let* j := in_mem (connector_path_join (Some [directory; port_string]) true) in
    let path := default 0 (snd j) in
    connector_remove_file (PPtr path) ;;;
    in_mem (connector_free path) ;;;
    ret (if found then SUBSTANCE_CONNECTOR_SUCCESS else SUBSTANCE_CONNECTOR_ERROR)
  else ret SUBSTANCE_CONNECTOR_ERROR.

Definition connector_test_open_tcp_port_file : M (world E) Z :=
  else_if
    [(fails connector_setup_default_tcp_directory, 1);
     (fails connector_ensure_default_tcp_directory, 2);
     (fails (connector_commit_open_tcp_port 40021), 3);
     (fails (test_find_port_file (text "40021") CONNECTOR_DEFAULT_TCP_DIRECTORY), 4);
     (fails connector_cleanup_default_tcp_directory, 5)] pass.

End file_tests.

(** ** [18_test_read_thread_utilities] *)

(** The numbers [0] to [n - 1] in the first slots of the array. *)
Definition numbered (n : nat) (thread : read_thread) : read_thread :=
  ReadThread (thread_id thread) (contexts thread) (map Z.of_nat (seq 0 n) ++ drop n (context_ids thread)) n.

Definition connector_test_remove_context : Z :=
  let context_count := 5%nat in
  let test_thread := numbered context_count (new_thread 0) in
  let '(retcode, test_thread) := connector_read_thread_remove_context test_thread 0 in
  if negb (retcode =? SUBSTANCE_CONNECTOR_SUCCESS) then 1
  else if negb (nth 0 (context_ids test_thread) 0 =? Z.of_nat context_count - 1) then 2
  else if negb (assigned_contexts test_thread =? context_count - 1)%nat then 3
  else 0.

Section connection_tests.
Context {E : Type} {P : Platform E} {B : Bindings E}.

Definition connector_test_try_acquire : M (world E) Z :=
  let* name := in_mem (literal test_application_name) in
  let* result := else_if
    [(fails available_queue_init, 1);
     (fails (available_push 12), 2);
     (fails (connector_set_application_name name), 3);
     (fails (let* r := connector_read_thread_try_acquire (new_thread 0) in ret (snd r)), 4);
     (fails available_queue_shutdown, 5)] pass in
  connector_clear_application_name ;;;
  ret result.

(** Only the structure is cleared. *)
Definition connector_test_cleanup_connections : Z := 0.

(** ** [20_test_open_tcp]

    The local [context] is put behind the table of contexts. *)
Definition connector_test_open_close_tcp : M (world E) Z :=
  let context := Some (Z.to_nat SUBSTANCE_CONNECTOR_CONTEXT_COUNT) in
  else_if
    [(fails connector_init_context_subsystem, 1);
     (fails connector_setup_default_tcp_directory, 2);
     (fails (modify (fun w => set_context_list (context_list w ++ [zero_context]) w) ;;;
             connector_open_tcp_impl context), 3);
     (fails (connector_close_tcp context), 4);
     (fails connector_cleanup_default_tcp_directory, 5);
     (fails connector_shutdown_context_subsystem, 6)] pass.

End connection_tests.

(** ** The nodes and the queue of the producers *)

Lemma place_nodes_spec n m :
  mem_wf m -> mem_serving m ->
  exists nodes m', place_nodes n m = Done nodes m' /\ mem_wf m' /\ length nodes = n /\ NoDup nodes /\
    (forall p, p ∈ nodes -> heap m !! p = None /\ exists a b, owns m' p (BNode a b)) /\
    forall p b, owns m p b -> owns m' p b.
Proof.
  revert m. induction n as [|n IH]; intros m Hwf Hs.
  - exists [], m. split; [done|]. split; [done|]. split; [done|]. split; [constructor|].
    split; [by intros p ?%elem_of_nil | done].
  - cbn [place_nodes]. set (m1 := alloc_with (BNode (junk m) (junk m)) m).
    destruct (IH m1) as (nodes & m' & Hrun & Hwf' & Hlen & Hnd & Hnodes & Hkeep);
      [by apply alloc_with_wf | done |].
    exists (next_addr m :: nodes), m'. unfold bind at 1. fold m1. rewrite (bind_done _ _ _ _ _ Hrun).
    split; [done|]. split; [done|]. split; [cbn; lia|]. split; [|split].
    + constructor; [|done]. intros Hin. destruct (Hnodes _ Hin) as [Hnone _].
      cbn in Hnone. by rewrite lookup_insert_eq in Hnone.
    + intros p [->|Hp]%elem_of_cons.
      * split; [by apply mem_wf_fresh|]. eexists _, _. apply Hkeep. by apply alloc_with_owns.
      * destruct (Hnodes p Hp) as [Hnone Hown]. split; [|done]. cbn in Hnone.
        destruct (decide (next_addr m = p)) as [<-|Hne]; [by rewrite lookup_insert_eq in Hnone|].
        by rewrite lookup_insert_ne in Hnone.
    + intros p b Hp. apply Hkeep. by apply alloc_with_owns_other.
Qed.

Lemma enqueue_nodes_spec nodes m q ns :
  mem_wf m -> lq_repr m q ns -> NoDup (map fst ns ++ nodes) ->
  (forall p, p ∈ nodes -> exists a b, owns m p (BNode a b)) ->
  exists q' m' ns', enqueue_nodes q nodes m = Done q' m' /\ mem_wf m' /\ lq_repr m' q' ns' /\
    map fst ns' = map fst ns ++ nodes.
Proof.
  revert m q ns. induction nodes as [|p nodes IH]; intros m q ns Hwf Hq Hnd Hown; cbn [enqueue_nodes].
  - exists q, m, ns. by rewrite app_nil_r.
  - destruct (Hown p ltac:(apply elem_of_cons; by left)) as (a & b & Ho).
    assert (Hp : (p ∉ map fst ns ++ nodes) /\ NoDup (map fst ns ++ nodes)).
    { apply NoDup_cons. by rewrite Permutation_middle. }
    destruct Hp as [Hp Hnd'].
    destruct (enqueue_repr m q ns p a b Hwf Hq Ho) as (q1 & m1 & Hrun & Hq1 & _ & [Hc _ Hh] & Hwf1).
    { rewrite <- list_elem_of_In. intros ?. apply Hp, elem_of_app. by left. }
    destruct (IH m1 q1 (ns ++ [(p, b)]) Hwf1 Hq1) as (q2 & m2 & ns' & Hrun2 & Hwf2 & Hq2 & Hns).
    + by rewrite map_app, <- app_assoc.
    + intros x Hx. destruct (Hown x ltac:(apply elem_of_cons; by right)) as (a' & b' & Hx').
      exists a', b'. unfold owns in *. rewrite Hh, (config_free _ _ Hc); [done|].
      rewrite <- list_elem_of_In, elem_of_app, list_elem_of_singleton.
      apply NoDup_app in Hnd as (_ & Hdis & Hnd2).
      intros [Hin| ->]; [by apply (Hdis x Hin), elem_of_cons; right | by apply NoDup_cons in Hnd2 as [? _]].
    + exists q2, m2, ns'. rewrite (bind_done _ _ _ _ _ Hrun). split; [done|]. split; [done|]. split; [done|].
      rewrite Hns, map_app, <- app_assoc. done.
Qed.

Lemma dequeue_nodes_spec checks m q ns result :
  mem_wf m -> lq_repr m q ns -> Forall2 (fun (c : Z -> bool) n => c (fst n) = true) checks ns ->
  dequeue_nodes q checks result m = Done result m.
Proof.
  intros Hwf Hq H. revert q Hq. induction H as [|c n checks ns Hc _ IH]; intros q Hq; [done|].
  cbn [dequeue_nodes]. destruct (dequeue_repr m q _ Hwf Hq) as (q' & Hrun & Hq' & _).
  rewrite (bind_done _ _ _ _ _ Hrun). destruct n as [p d]. cbn [fst snd tail] in *. rewrite Hc. by apply IH.
Qed.

(** Filling a queue with nodes in an order and emptying it again. *)
Lemma queue_test_run m nodes checks :
  mem_wf m -> NoDup nodes -> (forall p, p ∈ nodes -> exists a b, owns m p (BNode a b)) ->
  Forall2 (fun (c : Z -> bool) p => c p = true) checks nodes ->
  exists m', (let* q := connector_locked_queue_init (Some dummy_handler) in
              let* q := enqueue_nodes q nodes in dequeue_nodes q checks 0) m = Done 0 m'.
Proof.
  intros Hwf Hnd Hown Hc. unfold connector_locked_queue_init.
  rewrite (bind_done _ _ m (LockedQueue 0 0 dummy_handler false) m) by done.
  destruct (enqueue_nodes_spec nodes m (LockedQueue 0 0 dummy_handler false) [] Hwf)
    as (q & m' & ns & Hrun & Hwf' & Hq & Hns); [constructor; done || constructor | done | done |].
  rewrite (bind_done _ _ _ _ _ Hrun). exists m'. apply (dequeue_nodes_spec _ _ _ ns); [done..|].
  cbn in Hns. subst nodes. by apply Forall2_fmap_r in Hc.
Qed.

(** ** Properties *)

(** The static variables before anything has run: all zero. *)
Definition static_world : world simulation :=
  set_context_list (replicate (Z.to_nat SUBSTANCE_CONNECTOR_CONTEXT_COUNT) zero_context) initial_world.

(** The static variables of [09_test_trampoline]. *)
Definition trampoline_world : world (Z * Z) :=
  World _ (-1, -1) initial_memory 0 0 [] QNull QNull (queues initial_world) 0 [].

Definition succeeds_from {S} (s : S) (program : M S Z) : Prop := exists s', program s = Done EXIT_SUCCESS s'.

(** The programs that compute with values only. *)
Definition pure_programs : list (list Z) :=
  [[connector_test_compare]; [connector_test_byte_conversions Little]; [connector_test_byte_conversions Big];
   [connector_test_bitfield_conflicts; connector_test_configuration_enum_conflicts]].

(** The programs that use one library on a simulated system. *)
Definition world_programs : list (M (world simulation) Z) :=
  [CONNECTOR_TEST_MAIN [connector_test_init no_threads];
   CONNECTOR_TEST_MAIN [connector_test_set_alloc];
   CONNECTOR_TEST_MAIN [connector_test_application_name];
   CONNECTOR_TEST_MAIN [connector_test_available_queue_usage; connector_test_available_queue_capacity];
   CONNECTOR_TEST_MAIN [connector_test_message_queue_usage];
   CONNECTOR_TEST_MAIN [connector_test_create_directory; connector_test_list_directory];
   CONNECTOR_TEST_MAIN [connector_test_ensure_unix_directory; connector_test_ensure_tcp_directory;
                        connector_test_open_tcp_port_file];
   CONNECTOR_TEST_MAIN [ret connector_test_remove_context; connector_test_try_acquire;
                        ret connector_test_cleanup_connections];
   CONNECTOR_TEST_MAIN [connector_test_open_close_tcp]].

(** The repository's own unit tests pass: the programs listed here end with
    [EXIT_SUCCESS], their tests run one after the other from the zeroed static
    variables of a new process on a simulated system.  Program 06 is the theorem
    below, and program 10 is in [Atomic]. *)
Theorem unit_tests_pass :
  Forall (fun tests => CONNECTOR_TEST_MAIN (map ret tests) tt = Done EXIT_SUCCESS tt) pure_programs /\
  Forall (succeeds_from static_world) world_programs /\
  Forall (succeeds_from initial_memory)
    [CONNECTOR_TEST_MAIN [connector_test_create_message];
     CONNECTOR_TEST_MAIN [connector_test_internal_allocator; connector_test_clear_allocator]] /\
  succeeds_from (initial_memory, QNull) (CONNECTOR_TEST_MAIN [connector_test_uint_queue_usage]) /\
  succeeds_from trampoline_world
    (CONNECTOR_TEST_MAIN [connector_test_trampoline_init; connector_test_trampoline_call]).
Proof.
  split; [repeat constructor|]. split; [|split; [|split]].
  - repeat constructor; eexists; vm_compute; reflexivity.
  - repeat constructor; eexists; vm_compute; reflexivity.
  - eexists. vm_compute. reflexivity.
  - eexists. vm_compute. reflexivity.
Qed.

(** The program that tests the locked queue passes from every memory and for
    every order in which its fifty producers take the lock: no node is lost, and
    none is invented. *)
Theorem locked_queue_tests_pass (m : memory) (order : list Z -> list Z)
    (Hwf : mem_wf m) (Hs : mem_serving m) (Horder : forall nodes, Permutation (order nodes) nodes) :
  (exists m', connector_test_single_threaded m = Done 0 m') /\
  exists m', connector_test_multi_threaded_producer order m = Done 0 m'.
Proof.
  destruct (place_nodes_spec node_count m Hwf Hs) as (nodes & m1 & Hrun & Hwf1 & Hlen & Hnd & Hown & _).
  split.
  - destruct (queue_test_run m1 nodes (map Z.eqb nodes) Hwf1 Hnd) as [m' H].
    + intros p Hp. by apply Hown.
    + apply Forall2_fmap_l, Forall_Forall2_diag, Forall_forall. intros p _. apply Z.eqb_refl.
    + exists m'. unfold connector_test_single_threaded. rewrite <- H.
      unfold connector_locked_queue_init. unfold bind at 1. cbn [ret].
      by rewrite (bind_done _ _ _ _ _ Hrun).
  - destruct (queue_test_run m1 (order nodes) (map (fun _ node => bool_decide (node ∈ nodes)) nodes) Hwf1)
      as [m' H].
    + by rewrite Horder.
    + intros p Hp. apply Hown. by rewrite <- Horder.
    + apply Forall2_fmap_l, Forall2_same_length_lookup_2; [by rewrite Horder|].
      intros i x y _ Hy. apply bool_decide_eq_true_2. rewrite <- Horder.
      by eapply list_elem_of_lookup_2.
    + exists m'. unfold connector_test_multi_threaded_producer. rewrite <- H.
      unfold connector_locked_queue_init. unfold bind at 1. cbn [ret].
      by rewrite (bind_done _ _ _ _ _ Hrun).
Qed.

Lemma locked_queue_tests_pass_witness :
  exists m', connector_test_multi_threaded_producer (@rev Z) initial_memory = Done 0 m'.
Proof.
  destruct (locked_queue_tests_pass initial_memory (@rev Z) initial_memory_wf ltac:(split; reflexivity)
    (fun nodes => Permutation_sym (Permutation_rev nodes))) as [_ H]. exact H.
Defined.
