(* ===== verification/Delivery.v ===== *)
(** * Two connectors and the stream between them

    What the write thread, the read thread and the dispatch thread of [Dispatch],
    [ReadThread] and [Lifecycle] achieve together: one process writes messages,
    another is connected to it, and the steps of their threads interleave with
    each other and with the network.  The specification is a queue: messages come
    out on the other side once each, in the order they were written. *)

From S2P Require Import Prelude Wire Memory Strings UintQueue LockedQueue Message World Callbacks.
From S2P Require Import Connection ContextQueue Contexts ReadThread Dispatch Lifecycle.

(** ** The stream between the two sockets

    The bytes that are on their way from descriptor [fd1] of the first process to
    descriptor [fd2] of the second, as a reliable byte stream moves them while
    the connection lasts: what is sent is appended, [link_carry] moves bytes from
    the one end to the other, and reading takes bytes that have arrived. *)
Class Link (E1 E2 : Type) {P1 : Platform E1} {P2 : Platform E2} (fd1 fd2 : Z) := {
  link_out : E1 -> list Z;
  link_in : E2 -> list Z;
  link_carry : nat -> E1 -> E2 -> E1 * E2;
  link_send bs e : exists r e', send fd1 bs e = (r, e') /\ link_out e' = link_out e ++ bs;
  link_recv (n : nat) e : (n <= length (link_in e))%nat ->
    exists e', recv fd2 (Z.of_nat n) e = ((Z.of_nat n, take n (link_in e)), e') /\
      link_in e' = drop n (link_in e);
  link_carry_out n e1 e2 : link_out (fst (link_carry n e1 e2)) = drop n (link_out e1);
  link_carry_in n e1 e2 : link_in (snd (link_carry n e1 e2)) = link_in e2 ++ take n (link_out e1)
}.

(** ** The specification *)

(** What an application sends: an identifier and a text. *)
Record note := Note { note_type : uuid; note_string : list Z }.

(** Such an identifier and text as the library sends them. *)
Definition note_ok (n : note) : Prop :=
  uuid_wf (note_type n) /\ cstring (note_string n) /\ Z.of_nat (length (note_string n)) < 2 ^ 32 - 1.
Definition note_size (n : note) : nat := (24 + length (note_string n))%nat.
Definition total_size (ns : list note) : nat := foldr (fun n k => (note_size n + k)%nat) 0%nat ns.

(** Messages in the queue of the sender, sent but not read, in the queue of the
    receiver, and delivered; [ch_arrived] bytes of those that were sent have
    arrived. *)
Record channel := Channel {
  ch_queued : list note;
  ch_flying : list note;
  ch_arrived : nat;
  ch_received : list note;
  ch_delivered : list note
}.

Definition empty_channel : channel := Channel [] [] 0 [] [].

(** The application writes; a write thread runs a round, in which it may take up
    to [fuel] messages; [n] bytes arrive; a read thread reads a message; a
    dispatch thread runs a round, likewise. *)
Inductive link_action :=
  | Write (type : uuid) (text : Z) (s : list Z)
  | Flush (fuel : nat)
  | Carry (n : nat)
  | Receive
  | Deliver (fuel : nat).

(** The threads run when there is something to do for them; a message is read
    when all of it has arrived. *)
Definition channel_step (a : link_action) (c : channel) : option channel :=
  let '(Channel q f k r d) := c in
  match a with
  | Write type _ s => Some (Channel (q ++ [Note type s]) f k r d)
  | Flush fuel =>
      if (0 <? length q)%nat && (length q <=? fuel)%nat then Some (Channel [] (f ++ q) k r d) else None
  | Carry n => if (k + n <=? total_size f)%nat then Some (Channel q f (k + n) r d) else None
  | Receive =>
      match f with
      | n :: f' => if (note_size n <=? k)%nat then Some (Channel q f' (k - note_size n) (r ++ [n]) d) else None
      | [] => None
      end
  | Deliver fuel =>
      if (0 <? length r)%nat && (length r <=? fuel)%nat then Some (Channel q f k [] (d ++ r)) else None
  end.

Fixpoint channel_run (l : list link_action) (c : channel) : option channel :=
  match l with
  | [] => Some c
  | a :: l => match channel_step a c with Some c' => channel_run l c' | None => None end
  end.

(** What the application has written. *)
Definition written (l : list link_action) : list note :=
  omap (fun a => match a with Write type _ s => Some (Note type s) | _ => None end) l.

(** What the application may write: a text that is in memory all the time. *)
Definition action_ok (m : memory) (a : link_action) : Prop :=
  match a with
  | Write type text s => note_ok (Note type s) /\ points_to_string m text s
  | _ => True
  end.

(** All the messages of a channel, in the order they were written. *)
Definition contents (c : channel) : list note :=
  ch_delivered c ++ ch_received c ++ ch_flying c ++ ch_queued c.

Lemma channel_step_contents a c c' :
  channel_step a c = Some c' -> contents c' = contents c ++ written [a].
Proof.
  destruct c as [q f k r d]. unfold contents.
  destruct a as [type text s|fuel|n| |fuel]; cbn [channel_step].
  - intros [= <-]. cbn. by rewrite <- !app_assoc.
  - destruct (_ && _); [intros [= <-]|done]. cbn. by rewrite !app_nil_r.
  - destruct (_ <=? _)%nat; [intros [= <-]|done]. cbn. by rewrite app_nil_r.
  - destruct f as [|n f]; [done|]. destruct (_ <=? _)%nat; [intros [= <-]|done].
    cbn. by rewrite app_nil_r, <- !app_assoc.
  - destruct (_ && _); [intros [= <-]|done]. cbn. by rewrite app_nil_r, <- !app_assoc.
Qed.

Lemma channel_run_contents l : forall c c',
  channel_run l c = Some c' -> contents c' = contents c ++ written l.
Proof.
  induction l as [|a l IH]; cbn [channel_run]; intros c c'.
  - intros [= <-]. by rewrite app_nil_r.
  - destruct (channel_step a c) as [c1|] eqn:E; [|done]. intros H.
    rewrite (IH _ _ H), (channel_step_contents _ _ _ E), <- app_assoc. f_equal. by destruct a.
Qed.

Lemma channel_run_app l1 l2 c c1 :
  channel_run l1 c = Some c1 -> channel_run (l1 ++ l2) c = channel_run l2 c1.
Proof.
  revert c. induction l1 as [|a l1 IH]; cbn; intros c; [by intros [= ->]|].
  destruct (channel_step a c); [apply IH | done].
Qed.

Lemma total_size_app l1 l2 : total_size (l1 ++ l2) = (total_size l1 + total_size l2)%nat.
Proof. unfold total_size. induction l1 as [|n l1 IH]; [done|]. cbn [app foldr]. rewrite IH. lia. Qed.

(** ** A queue of notes *)

(** The message [r] is the note [n] for the context [ctx]. *)
Definition holds_note (ctx : Z) (n : note) (r : queued) : Prop :=
  qm_header r = user_header_of (note_type n) (note_string n) /\ qm_string r = note_string n /\
  qm_context r = ctx.

(** The queue [q] in [m] holds these notes, and [m] is [m0] with their blocks. *)
Definition queued_notes (m0 m : memory) (ctx : Z) (q : locked_queue) (notes : list note) : Prop :=
  exists rs, all_queued m q rs /\ added (concat (map queued_blocks rs)) m0 m /\
    Forall2 (holds_note ctx) notes rs.

Lemma queued_notes_snoc m0 m m' ctx q q' notes rs r n :
  all_queued m q rs -> added (concat (map queued_blocks rs)) m0 m -> Forall2 (holds_note ctx) notes rs ->
  mem_wf m' -> mem_config_eq m m' ->
  lq_repr m' q' (map (fun r => (qm_node r, qm_message r)) rs ++ [(qm_node r, qm_message r)]) ->
  queued_at m' r -> holds_note ctx n r -> NoDup (queued_blocks r) ->
  (forall a, a ∈ queued_blocks r -> heap m !! a = None) ->
  (forall a, a ∉ queued_blocks r -> a ∉ map qm_node rs -> heap m' !! a = heap m !! a) ->
  queued_notes m0 m' ctx q' (notes ++ [n]).
Proof.
  intros Hq [_ Hc0 Hnd0 Hf0 _ Hh0] Hn Hwf Hc Hr Hat Hrn Hnd Hf Hh.
  assert (Hnew : forall a, a ∈ queued_blocks r -> a ∉ concat (map queued_blocks rs)).
  { intros a Ha Hin. destruct (queued_live _ _ _ _ Hq Hin) as [b Hb]. unfold owns in Hb. by rewrite Hf in Hb. }
  assert (Hq' : all_queued m' q' (rs ++ [r])).
  { apply (all_queued_snoc m m' q q' rs r); try done. intros a Ha Hin. apply Hh; [|done].
    intros Hbl. by apply (Hnew a). }
  assert (Hbl : concat (map queued_blocks (rs ++ [r])) = concat (map queued_blocks rs) ++ queued_blocks r)
    by (rewrite map_app, concat_app; cbn [map concat]; by rewrite app_nil_r).
  exists (rs ++ [r]). split; [done|]. split; [|apply Forall2_app; [done | by constructor]].
  constructor; [done | by transitivity m | rewrite Hbl .. ].
  - apply NoDup_app. split; [done|]. split; [|done]. intros a Ha Hin. by apply (Hnew a Hin).
  - intros a. rewrite elem_of_app. intros [Ha|Ha]; [by apply Hf0|].
    rewrite <- Hh0; [by apply Hf | by apply Hnew].
  - intros a. rewrite <- Hbl. by apply queued_live with (q := q').
  - intros a. rewrite elem_of_app. intros Ha. rewrite Hh, Hh0; [done | by intuition | by intuition |].
    intros (r' & -> & Hin)%list_elem_of_fmap. apply Ha. left. apply (node_in_blocks r'); [done|].
    unfold queued_blocks. rewrite elem_of_cons. auto.
Qed.

(** Taking all messages off the queue. *)
Lemma queued_notes_drained m0 m m' ctx q' rs :
  added (concat (map queued_blocks rs)) m0 m -> heap_without (concat (map queued_blocks rs)) m m' ->
  all_queued m' q' [] -> queued_notes m0 m' ctx q' [] /\ heap m' = heap m0.
Proof.
  intros [_ Hc0 _ Hf0 _ Hh0] [Hwf Hc Hh] Hq.
  assert (Heq : forall a, heap m' !! a = heap m0 !! a)
    by (intros a; rewrite Hh; case_decide as Ha; [by rewrite Hf0 | by apply Hh0]).
  split; [|by apply map_eq]. exists []. split; [done|]. split; [|done]. cbn. constructor; try done.
  - by transitivity m.
  - apply NoDup_nil_2.
  - by intros a ?%elem_of_nil.
  - by intros a ?%elem_of_nil.
Qed.

Lemma queued_notes_empty m0 m ctx q : queued_notes m0 m ctx q [] -> heap m = heap m0.
Proof.
  intros (rs & _ & [_ _ _ _ _ Hh] & Hn). apply Forall2_nil_inv_l in Hn as ->.
  apply map_eq. intros a. apply Hh. cbn. by intros ?%elem_of_nil.
Qed.

(** ** Draining the specification *)

Lemma channel_step_arrived a c c' :
  channel_step a c = Some c' -> (ch_arrived c <= total_size (ch_flying c))%nat ->
  (ch_arrived c' <= total_size (ch_flying c'))%nat.
Proof.
  destruct c as [q f k r d]. destruct a as [type text s|fuel|n| |fuel]; cbn [channel_step].
  - by intros [= <-].
  - destruct (_ && _); [intros [= <-]|done]. cbn [ch_arrived ch_flying]. rewrite total_size_app. lia.
  - destruct (Nat.leb_spec (k + n) (total_size f)); [intros [= <-]|done]. done.
  - destruct f as [|n f]; [done|]. destruct (_ <=? _)%nat; [intros [= <-]|done]. cbn [ch_arrived ch_flying].
    unfold total_size. cbn [foldr]. lia.
  - destruct (_ && _); [intros [= <-]|done]. done.
Qed.

Lemma channel_run_arrived l : forall c c',
  channel_run l c = Some c' -> (ch_arrived c <= total_size (ch_flying c))%nat ->
  (ch_arrived c' <= total_size (ch_flying c'))%nat.
Proof.
  induction l as [|a l IH]; cbn [channel_run]; intros c c'; [by intros [= ->]|].
  destruct (channel_step a c) as [c1|] eqn:E; [|done]. intros H Hc.
  eapply IH; [exact H | by eapply channel_step_arrived].
Qed.

Lemma receive_all q f d : forall r,
  channel_run (replicate (length f) Receive) (Channel q f (total_size f) r d) = Some (Channel q [] 0 (r ++ f) d).
Proof.
  induction f as [|n f IH]; intros r; [by rewrite app_nil_r|]. cbn [length replicate channel_run channel_step].
  unfold total_size. cbn [foldr]. fold (total_size f). rewrite (proj2 (Nat.leb_le _ _)) by lia.
  replace (note_size n + total_size f - note_size n)%nat with (total_size f) by lia. by rewrite IH, <- app_assoc.
Qed.

(** What is left to do so that nothing is left. *)
Definition drain (c : channel) : list link_action :=
  let sent := ch_flying c ++ ch_queued c in
  let waiting := ch_received c ++ sent in
  (if ch_queued c is [] then [] else [Flush (length (ch_queued c))]) ++
  [Carry (total_size sent - ch_arrived c)] ++ replicate (length sent) Receive ++
  (if waiting is [] then [] else [Deliver (length waiting)]).

Lemma drain_runs c :
  (ch_arrived c <= total_size (ch_flying c))%nat ->
  channel_run (drain c) c = Some (Channel [] [] 0 [] (contents c)).
Proof.
  destruct c as [q f k r d]. unfold drain, contents. cbn [ch_queued ch_flying ch_arrived ch_received ch_delivered].
  intros Hk. pose proof (total_size_app f q) as Htot.
  rewrite (channel_run_app _ _ _ (Channel [] (f ++ q) k r d)).
  2:{ destruct q as [|n q]; cbn [channel_run channel_step]; [by rewrite app_nil_r|].
      by rewrite (proj2 (Nat.ltb_lt _ _)), (proj2 (Nat.leb_le _ _)) by (cbn; lia). }
  rewrite (channel_run_app [_] _ _ (Channel [] (f ++ q) (total_size (f ++ q)) r d)).
  2:{ cbn [channel_run channel_step]. rewrite (proj2 (Nat.leb_le _ _)) by lia.
      by replace (k + (total_size (f ++ q) - k))%nat with (total_size (f ++ q)) by lia. }
  rewrite (channel_run_app _ _ _ (Channel [] [] 0 (r ++ f ++ q) d)) by apply receive_all.
  destruct (r ++ f ++ q) as [|n l]; cbn [channel_run channel_step]; [by rewrite app_nil_r|].
  by rewrite (proj2 (Nat.ltb_lt _ _)), (proj2 (Nat.leb_le _ _)) by (cbn; lia).
Qed.

Lemma drain_writes_nothing m c : Forall (action_ok m) (drain c) /\ written (drain c) = [].
Proof.
  assert (Hrep : forall n, Forall (action_ok m) (replicate n Receive) /\ written (replicate n Receive) = []).
  { intros n. split; [by apply Forall_replicate|]. induction n as [|n IH]; [done | exact IH]. }
  unfold drain, written in *. destruct (Hrep (length (ch_flying c ++ ch_queued c))) as [H1 H2].
  rewrite !omap_app, H2. split; [rewrite !Forall_app|]; repeat case_match;
    repeat split; try done; by repeat constructor.
Qed.

(** ** The two processes *)

Section system.
Context {E1 E2 : Type} {P1 : Platform E1} {P2 : Platform E2} {fd1 fd2 : Z} {L : Link E1 E2 fd1 fd2}.
(** The context of the connection in the one process and in the other. *)
Context (ctx1 ctx2 : Z).

Definition succeeds {E} (r : outcome (world E) Z) : option (world E) :=
  match r with
  | Done code w => if code =? SUBSTANCE_CONNECTOR_SUCCESS then Some w else None
  | Stuck _ => None
  end.
Definition goes_on {E} (r : outcome (world E) bool) : option (world E) :=
  match r with Done true w => Some w | _ => None end.

(** One step of the pair: the call of the application succeeds, the round of the
    thread ends and the thread goes on. *)
Definition connectors_step (a : link_action) (s : world E1 * world E2) : option (world E1 * world E2) :=
  let '(w1, w2) := s in
  match a with
  | Write type text _ =>
      w1' ← succeeds (substance_connector_write_message ctx1 (Some type) text w1); Some (w1', w2)
  | Flush fuel => w1' ← goes_on (write_round [false] fuel w1); Some (w1', w2)
  | Carry n =>
      let '(e1, e2) := link_carry (fd1 := fd1) (fd2 := fd2) n (env w1) (env w2) in
      Some (set_env e1 w1, set_env e2 w2)
  | Receive =>
      w2' ← succeeds (connector_read_thread_handle_context ctx2 w2); Some (w1, w2')
  | Deliver fuel =>
      w2' ← goes_on (dispatch_round (B := recording_bindings E2) false [] (replicate fuel false) w2);
      Some (w1, w2')
  end.

Fixpoint connectors_run (l : list link_action) (s : world E1 * world E2) : option (world E1 * world E2) :=
  match l with
  | [] => Some s
  | a :: l => s' ← connectors_step a s; connectors_run l s'
  end.

(** The calls of trampolines among the events. *)
Definition is_call (e : event) : bool := match e with TrampolineCall _ _ _ _ => true | _ => false end.
Definition calls (tr : list event) : list event := List.filter is_call tr.

(** Every trampoline is called with the note. *)
Definition note_calls (fs : list Z) (n : note) : list event :=
  map (fun f => TrampolineCall f ctx2 (note_type n) (Some (note_string n))) fs.

(** Context [i] is a TCP context that is connected, with descriptor [fd]. *)
Definition peer_context {E} (w : world E) (i fd : Z) : Prop :=
  0 <= i < 32 /\ length (context_list w) = 32%nat /\
  exists c, context_list w !! Z.to_nat i = Some c /\ connection_index c 0 = 1%nat /\
    Z.land (configuration c) SUBSTANCE_CONNECTOR_CONN_MASK = SUBSTANCE_CONNECTOR_CONN_CONNECTED /\
    fd_of c = fd.

(** The two processes when the connection is up and nothing is on its way. *)
Record connected (w1 : world E1) (w2 : world E2) (fs : list Z) : Prop := {
  cn_state : module_state w1 = SUBSTANCE_CONNECTOR_STATE_INIT_FINISHED;
  cn_peer1 : peer_context w1 ctx1 fd1;
  cn_peer2 : peer_context w2 ctx2 fd2;
  cn_wf : mem_wf (mem w1);
  cn_serving : mem_serving (mem w1);
  cn_trampolines : trampolines_repr w2 fs;
  cn_outbound : all_queued (mem w1) (outbound_queue (queues w1)) [];
  cn_inbound : all_queued (mem w2) (inbound_queue (queues w2)) [];
  cn_out : link_out (env w1) = [];
  cn_in : link_in (env w2) = []
}.

(** The bytes of a note on the wire. *)
Definition note_bytes (pad : Z) (n : note) : list Z :=
  message_bytes (@host_order E1 P1) [pad; pad] (user_header_of (note_type n) (note_string n)) (note_string n).

Lemma note_header_wf n : note_ok n -> header_wf (user_header_of (note_type n) (note_string n)).
Proof. intros (Hu & _ & Hl). split; [by vm_compute|]. split; [cbn [user_header_of message_length]; lia | done]. Qed.

Lemma note_bytes_size pad n : note_ok n -> length (note_bytes pad n) = note_size n.
Proof.
  intros Hn. unfold note_bytes, message_bytes, note_size.
  by rewrite length_app, length_network_header by (done || by apply note_header_wf).
Qed.

Lemma total_bytes pad ns :
  Forall note_ok ns -> length (concat (map (note_bytes pad) ns)) = total_size ns.
Proof.
  unfold total_size. induction 1 as [|n ns Hn _ IH]; [done|]. cbn [map concat foldr].
  by rewrite length_app, IH, note_bytes_size.
Qed.

(** The specification's channel and the two processes, for processes that started
    as [u1] and [u2]. *)
Record simulates (u1 : world E1) (u2 : world E2) (fs : list Z) (c : channel)
    (w1 : world E1) (w2 : world E2) : Prop := {
  cs_contexts1 : context_list w1 = context_list u1;
  cs_state1 : module_state w1 = module_state u1;
  cs_outbound : queued_notes (mem u1) (mem w1) ctx1 (outbound_queue (queues w1)) (ch_queued c);
  cs_contexts2 : context_list w2 = context_list u2;
  cs_front2 : trampoline_front w2 = trampoline_front u2;
  cs_inbound : queued_notes (mem u2) (mem w2) ctx2 (inbound_queue (queues w2)) (ch_received c);
  cs_stream : link_in (env w2) ++ link_out (env w1) = concat (map (note_bytes (junk (mem u1))) (ch_flying c));
  cs_arrived : length (link_in (env w2)) = ch_arrived c;
  cs_calls : calls (trace w2) = calls (trace u2) ++ concat (map (note_calls fs) (ch_delivered c));
  cs_ok : Forall note_ok (contents c)
}.

(** ** Every step of the specification is one of the processes *)

Lemma peer_same {E} (w w' : world E) i fd :
  context_list w' = context_list w -> peer_context w i fd -> peer_context w' i fd.
Proof. intros Heq. unfold peer_context. by rewrite Heq. Qed.

Lemma calls_app tr tr' : calls (tr ++ tr') = calls tr ++ calls tr'.
Proof. apply List.filter_app. Qed.

Lemma write_simulated u1 u2 fs c w1 w2 type text s :
  connected u1 u2 fs -> simulates u1 u2 fs c w1 w2 -> action_ok (mem u1) (Write type text s) ->
  exists w1', connectors_step (Write type text s) (w1, w2) = Some (w1', w2) /\
    simulates u1 u2 fs (Channel (ch_queued c ++ [Note type s]) (ch_flying c) (ch_arrived c)
      (ch_received c) (ch_delivered c)) w1' w2.
Proof.
  intros Hu Hsim [Hn Htext]. pose proof Hsim as [Hc1 Hst (rs & Hq & Hadd & Hnotes) _ _ _ Hb _ _ Hok].
  pose proof Hn as (_ & Hcs & Hlen). pose proof Hadd as [Hwf Hcfg _ _ _ _].
  destruct (write_message_adds w1 ctx1 type text s (map (fun r => (qm_node r, qm_message r)) rs))
    as (m' & q' & node & p & Hrun & Hwf' & Hcfg' & Hq' & Hm & Ht & Hnd & Hf & Hh); auto.
  - rewrite Hst. apply (cn_state _ _ _ Hu).
  - apply (mem_serving_config (mem u1)); [done | apply (cn_serving _ _ _ Hu)].
  - by apply (added_owns _ _ _ _ _ Hadd).
  - cbn in Hlen. lia.
  - by destruct Hq.
  - cbn [connectors_step]. rewrite Hrun. eexists. split; [reflexivity|].
    destruct Hsim. constructor; try done; cbn [ch_queued ch_flying ch_arrived ch_received ch_delivered].
    + apply (queued_notes_snoc (mem u1) (mem w1) m' ctx1 (outbound_queue (queues w1)) q' _ rs
        (Queued node p (p + 1) (user_header_of type s) s ctx1)); auto.
      * by split.
      * by repeat split.
      * by rewrite <- map_queued_nodes.
    + unfold contents in *. cbn [ch_queued ch_flying ch_arrived ch_received ch_delivered].
      rewrite !Forall_app in Hok |- *. destruct Hok as (? & ? & ? & ?). repeat split; auto.
      apply Forall_app. split; [done | by apply Forall_singleton].
Qed.

(** The write thread passes the bytes of every message to the socket. *)
Lemma send_queued_bytes (cl : list context_struct) pad c notes rs : forall e : E1,
  0 <= ctx1 < 32 -> cl !! Z.to_nat ctx1 = Some c ->
  Z.land (configuration c) SUBSTANCE_CONNECTOR_CONN_MASK = SUBSTANCE_CONNECTOR_CONN_CONNECTED ->
  fd_of c = fd1 -> Forall2 (holds_note ctx1) notes rs ->
  link_out (fold_left (fun e r => send_queued cl pad r e) rs e) =
    link_out e ++ concat (map (note_bytes pad) notes).
Proof.
  intros e Hi Hc Hconn Hfd Hn. revert e. induction Hn as [|n r notes rs (Hh & Hs & Hx) _ IH]; intros e.
  - by rewrite app_nil_r.
  - cbn [fold_left map concat]. rewrite IH, app_assoc. f_equal.
    unfold send_queued. rewrite Hx, Hc, Hconn, Z.eqb_refl.
    unfold SUBSTANCE_CONNECTOR_CONTEXT_COUNT. rewrite (proj2 (Z.ltb_lt _ _)) by lia. cbn [andb].
    rewrite Hfd, Hh, Hs. destruct (link_send (message_bytes (@host_order E1 P1) [pad; pad]
      (user_header_of (note_type n) (note_string n)) (note_string n)) e) as (r' & e' & Hsend & He').
    by rewrite Hsend.
Qed.

Lemma flush_simulated u1 u2 fs c w1 w2 fuel :
  connected u1 u2 fs -> simulates u1 u2 fs c w1 w2 -> ch_queued c <> [] ->
  (length (ch_queued c) <= fuel)%nat ->
  exists w1', connectors_step (Flush fuel) (w1, w2) = Some (w1', w2) /\
    simulates u1 u2 fs (Channel [] (ch_flying c ++ ch_queued c) (ch_arrived c)
      (ch_received c) (ch_delivered c)) w1' w2.
Proof.
  intros Hu Hsim Hne Hfuel. pose proof Hsim as [Hc1 _ (rs & Hq & Hadd & Hnotes) _ _ _ Hb _ _ Hok].
  pose proof Hadd as [Hwf Hcfg _ _ _ _].
  destruct (peer_same u1 w1 _ _ Hc1 (cn_peer1 _ _ _ Hu)) as (Hi & Hl & cx & Hcx & Hidx & Hconn & Hfd).
  pose proof (Forall2_length _ _ _ Hnotes) as Hlen.
  destruct rs as [|r rs]; [by apply Forall2_nil_inv_r in Hnotes|].
  destruct (write_round_spec w1 r rs fuel) as (m' & q' & Hrun & Hh & Hq'); auto; [..| cbn in Hlen; lia |].
  - apply (mem_serving_config (mem u1)); [done | apply (cn_serving _ _ _ Hu)].
  - apply (Forall2_Forall_r _ _ _ _ Hnotes), Forall_forall. intros n _ r' (Hhd & Hs & Hx).
    unfold writable. rewrite Hhd, Hs, Hx. split; [done|]. right. eauto.
  - cbn [connectors_step]. rewrite Hrun. eexists. split; [reflexivity|].
    destruct Hsim. constructor; try done; cbn [ch_queued ch_flying ch_arrived ch_received ch_delivered].
    + by destruct (queued_notes_drained _ _ _ ctx1 q' _ Hadd Hh Hq').
    + cbn [env set_queues set_env]. erewrite send_queued_bytes by done.
      rewrite map_app, concat_app, app_assoc, cs_stream0. by rewrite (config_junk _ _ Hcfg).
    + unfold contents in *. cbn [ch_queued ch_flying ch_arrived ch_received ch_delivered] in *.
      by rewrite app_nil_r.
Qed.

Lemma carry_simulated u1 u2 fs c w1 w2 n :
  simulates u1 u2 fs c w1 w2 -> (ch_arrived c + n <= total_size (ch_flying c))%nat ->
  exists w1' w2', connectors_step (Carry n) (w1, w2) = Some (w1', w2') /\
    simulates u1 u2 fs (Channel (ch_queued c) (ch_flying c) (ch_arrived c + n)
      (ch_received c) (ch_delivered c)) w1' w2'.
Proof.
  intros Hsim Hn. cbn [connectors_step].
  pose proof (link_carry_out (fd1 := fd1) (fd2 := fd2) n (env w1) (env w2)) as Ho.
  pose proof (link_carry_in (fd1 := fd1) (fd2 := fd2) n (env w1) (env w2)) as Hi.
  destruct (link_carry n (env w1) (env w2)) as [e1 e2]. cbn in Ho, Hi.
  exists (set_env e1 w1), (set_env e2 w2). split; [done|]. destruct Hsim.
  assert (Hlen : (n <= length (link_out (env w1)))%nat).
  { apply (f_equal length) in cs_stream0. rewrite length_app, total_bytes, cs_arrived0 in cs_stream0; [lia|].
    unfold contents in cs_ok0. rewrite !Forall_app in cs_ok0. intuition. }
  constructor; try done; cbn [env set_env ch_queued ch_flying ch_arrived ch_received ch_delivered].
  - by rewrite Ho, Hi, <- app_assoc, take_drop.
  - rewrite Hi, length_app, length_take. lia.
Qed.

(** Reading the oldest message of the stream, when all of it has arrived. *)
Lemma recv_message pad h s rest (e : E2) :
  header_wf h -> (24 + length s <= length (link_in e))%nat ->
  (exists tail, link_in e ++ tail = message_bytes (@host_order E1 P1) [pad; pad] h s ++ rest) ->
  exists e1 e2, recv fd2 sizeof_header e =
      ((sizeof_header, header_image (@host_order E1 P1) [pad; pad] (connector_htonheader (@host_order E1 P1) h)), e1) /\
    recv fd2 (Z.of_nat (length s)) e1 = ((Z.of_nat (length s), s), e2) /\
    link_in e = message_bytes (@host_order E1 P1) [pad; pad] h s ++ link_in e2.
Proof.
  intros Hn Hle (tail & Heq). unfold message_bytes in *. set (hd := header_image _ _ _) in *.
  assert (Hhd : length hd = 24%nat) by (by apply length_network_header).
  assert (Hin : link_in e = hd ++ s ++ drop (24 + length s) (link_in e)).
  { rewrite <- (take_drop (24 + length s) (link_in e)) at 1. rewrite app_assoc. f_equal.
    apply (f_equal (take (24 + length s))) in Heq. rewrite take_app_le in Heq by done. rewrite Heq, <- Hhd, <- length_app.
    apply take_app_length. }
  destruct (link_recv (fd1 := fd1) (fd2 := fd2) 24 e) as (e1 & Hr1 & He1); [lia|].
  rewrite Hin, take_app_le, take_ge in Hr1 by lia. rewrite Hin, drop_app_length' in He1 by done.
  destruct (link_recv (fd1 := fd1) (fd2 := fd2) (length s) e1) as (e2 & Hr2 & He2); [rewrite He1, length_app; lia|].
  rewrite He1, take_app_length in Hr2. rewrite He1, drop_app_length in He2.
  exists e1, e2. split; [exact Hr1|]. split; [exact Hr2|]. by rewrite He2, <- app_assoc.
Qed.

Lemma receive_simulated u1 u2 fs q n f k r d w1 w2 :
  connected u1 u2 fs -> simulates u1 u2 fs (Channel q (n :: f) k r d) w1 w2 -> (note_size n <= k)%nat ->
  exists w2', connectors_step Receive (w1, w2) = Some (w1, w2') /\
    simulates u1 u2 fs (Channel q f (k - note_size n) (r ++ [n]) d) w1 w2'.
Proof.
  intros Hu Hsim Hk. pose proof Hsim as [_ _ _ Hc2 _ (rs & Hq & Hadd & Hnotes) Hb Ha _ Hok].
  cbn [ch_queued ch_flying ch_arrived ch_received ch_delivered] in *. pose proof Hadd as [Hwf Hcfg _ _ _ _].
  destruct (peer_same u2 w2 _ _ Hc2 (cn_peer2 _ _ _ Hu)) as (Hi & _ & cx & Hcx & Hidx & Hconn & Hfd).
  assert (Hn : note_ok n).
  { unfold contents in Hok. cbn in Hok. rewrite !Forall_app, Forall_cons in Hok. intuition. }
  cbn [map concat] in Hb. destruct (recv_message (junk (mem u1)) _ (note_string n) (concat (map (note_bytes (junk (mem u1))) f)) (env w2)
    (note_header_wf n Hn)) as (e1 & e2 & Hr1 & Hr2 & Hin); [unfold note_size in Hk; lia | by exists (link_out (env w1)) |].
  destruct (handle_context_receives w2 ctx2 cx (map (fun r => (qm_node r, qm_message r)) rs) (@host_order E1 P1)
      [junk (mem u1); junk (mem u1)] (user_header_of (note_type n) (note_string n)) (note_string n) e1 e2)
    as (m' & q' & node & p & t & Hrun & Hwf' & Hcfg' & Hq' & Hm & Ht & Hnd & Hf & Hh); rewrite ?Hfd; auto.
  - apply (mem_serving_config (mem u2)); [done | by destruct (cn_trampolines _ _ _ Hu)].
  - by destruct Hq.
  - by apply note_header_wf.
  - by destruct Hn as (_ & _ & Hlt).
  - cbn [connectors_step]. rewrite Hrun. eexists. split; [reflexivity|].
    destruct Hsim. constructor; try done; cbn [ch_queued ch_flying ch_arrived ch_received ch_delivered].
    + apply (queued_notes_snoc (mem u2) (mem w2) m' ctx2 (inbound_queue (queues w2)) q' _ rs
        (Queued node p t (user_header_of (note_type n) (note_string n)) (note_string n) ctx2)); auto;
        [by split | by repeat split | by rewrite <- map_queued_nodes].
    + cbn [env set_trace set_queues set_mem set_env]. unfold note_bytes at 1 in Hb. rewrite Hin, <- !app_assoc in Hb.
      by apply app_inv_head in Hb.
    + cbn [env set_trace set_queues set_mem set_env]. apply (f_equal length) in Hin.
      rewrite length_app in Hin. pose proof (note_bytes_size (junk (mem u1)) n Hn) as Hsz. unfold note_bytes in Hsz. lia.
    + cbn [trace set_trace]. rewrite calls_app, app_nil_r. exact cs_calls0.
    + unfold contents in *. cbn [ch_queued ch_flying ch_arrived ch_received ch_delivered] in *.
      by rewrite <- app_assoc.
Qed.

(** Trampolines are not among the blocks of the messages. *)
Lemma trampolines_added {E} (w w' : world E) fs ps :
  trampolines_repr w fs -> added ps (mem w) (mem w') -> trampoline_front w' = trampoline_front w ->
  trampolines_repr w' fs.
Proof.
  intros Htr Hadd Hf. apply (trampolines_frame w w'); try done; [by destruct Hadd ..|]. intros a f n Ha.
  apply (added_live _ _ _ _ Hadd). unfold owns in Ha. by rewrite Ha.
Qed.

Lemma deliveries_calls fs notes rs :
  Forall2 (holds_note ctx2) notes rs ->
  calls (concat (map (deliveries fs) rs) ++ []) = concat (map (note_calls fs) notes).
Proof.
  rewrite app_nil_r. induction 1 as [|n r notes rs (Hh & Hs & Hx) _ IH]; [done|].
  cbn [map concat]. rewrite calls_app, IH. f_equal. unfold deliveries, note_calls. rewrite Hx, Hs, Hh.
  clear. induction fs as [|f fs IH]; [done|]. cbn. f_equal. exact IH.
Qed.

Lemma deliver_simulated u1 u2 fs c w1 w2 fuel :
  connected u1 u2 fs -> simulates u1 u2 fs c w1 w2 -> ch_received c <> [] ->
  (length (ch_received c) <= fuel)%nat ->
  exists w2', connectors_step (Deliver fuel) (w1, w2) = Some (w1, w2') /\
    simulates u1 u2 fs (Channel (ch_queued c) (ch_flying c) (ch_arrived c) []
      (ch_delivered c ++ ch_received c)) w1 w2'.
Proof.
  intros Hu Hsim Hne Hfuel. pose proof Hsim as [_ _ _ _ Hfr (rs & Hq & Hadd & Hnotes) _ _ Ht Hok].
  pose proof (Forall2_length _ _ _ Hnotes) as Hlen.
  destruct rs as [|r rs]; [by apply Forall2_nil_inv_r in Hnotes|].
  destruct (dispatch_round_spec w2 r rs fs false (replicate fuel false)) as (m' & q' & Hrun & Hh & Hq'); auto.
  - by apply (trampolines_added u2 w2 fs _ (cn_trampolines _ _ _ Hu) Hadd).
  - unfold contents in Hok. rewrite !Forall_app in Hok. destruct Hok as (_ & Hok & _).
    apply (Forall2_Forall_r _ _ _ _ Hnotes). eapply Forall_impl; [exact Hok|].
    intros n (_ & Hcs & _) r' (Hhd & Hs & _). split; [by rewrite Hs | by rewrite Hhd].
  - by apply Forall_replicate.
  - rewrite length_replicate. cbn in Hlen. lia.
  - cbn [connectors_step]. rewrite Hrun. eexists. split; [reflexivity|].
    destruct Hsim. constructor; try done; cbn [ch_queued ch_flying ch_arrived ch_received ch_delivered].
    + by destruct (queued_notes_drained _ _ _ ctx2 q' _ Hadd Hh Hq').
    + cbn [trace set_trace set_queues]. rewrite calls_app, (deliveries_calls fs _ _ Hnotes), map_app, concat_app.
      rewrite app_assoc. by rewrite cs_calls0.
    + unfold contents in *. cbn [ch_queued ch_flying ch_arrived ch_received ch_delivered app] in *.
      by rewrite <- app_assoc.
Qed.

Lemma step_simulated u1 u2 fs a c c' w1 w2 :
  connected u1 u2 fs -> simulates u1 u2 fs c w1 w2 -> action_ok (mem u1) a -> channel_step a c = Some c' ->
  exists w1' w2', connectors_step a (w1, w2) = Some (w1', w2') /\ simulates u1 u2 fs c' w1' w2'.
Proof.
  intros Hu Hsim Hok. destruct c as [q f k r d]. destruct a as [type text s|fuel|n| |fuel]; cbn [channel_step].
  - intros [= <-]. destruct (write_simulated u1 u2 fs _ w1 w2 type text s Hu Hsim Hok) as (w1' & H1 & H2). eauto.
  - destruct (Nat.ltb_spec 0 (length q)); [|done]. destruct (Nat.leb_spec (length q) fuel); [|done]. intros [= <-].
    destruct (flush_simulated u1 u2 fs _ w1 w2 fuel Hu Hsim) as (w1' & H1 & H2); [by destruct q; [cbn in *; lia|] | done |].
    eauto.
  - destruct (Nat.leb_spec (k + n) (total_size f)); [|done]. intros [= <-]. by apply (carry_simulated u1 u2 fs _ w1 w2 n Hsim).
  - destruct f as [|n f]; [done|]. destruct (Nat.leb_spec (note_size n) k); [|done]. intros [= <-].
    destruct (receive_simulated u1 u2 fs q n f k r d w1 w2 Hu Hsim) as (w2' & H1 & H2); [done|]. eauto.
  - destruct (Nat.ltb_spec 0 (length r)); [|done]. destruct (Nat.leb_spec (length r) fuel); [|done]. intros [= <-].
    destruct (deliver_simulated u1 u2 fs _ w1 w2 fuel Hu Hsim) as (w2' & H1 & H2); [by destruct r; [cbn in *; lia|] | done |].
    eauto.
Qed.

Lemma run_simulated u1 u2 fs l : forall c c' w1 w2,
  connected u1 u2 fs -> simulates u1 u2 fs c w1 w2 -> Forall (action_ok (mem u1)) l -> channel_run l c = Some c' ->
  exists w1' w2', connectors_run l (w1, w2) = Some (w1', w2') /\ simulates u1 u2 fs c' w1' w2'.
Proof.
  induction l as [|a l IH]; intros c c' w1 w2 Hu Hsim Hok; cbn [channel_run connectors_run].
  - intros [= <-]. eauto.
  - apply Forall_cons in Hok as [Ha Hok]. destruct (channel_step a c) as [c1|] eqn:Hstep; [|done]. intros Hrun.
    destruct (step_simulated u1 u2 fs a c c1 w1 w2 Hu Hsim Ha Hstep) as (w1' & w2' & H1 & Hsim').
    rewrite H1. cbn. by apply (IH c1).
Qed.

Lemma connected_simulates u1 u2 fs : connected u1 u2 fs -> simulates u1 u2 fs empty_channel u1 u2.
Proof.
  intros Hu. pose proof Hu as [Hst Hp1 Hp2 Hwf Hs Htr Ho Hi Hout Hin].
  assert (Hempty : forall m ctx q, mem_wf m -> all_queued m q [] -> queued_notes m m ctx q []).
  { intros m ctx q Hm Hq. exists []. split; [done|]. split; [|done]. cbn. constructor; try done;
      [apply NoDup_nil_2 | by intros a ?%elem_of_nil ..]. }
  constructor; try done.
  - by apply Hempty.
  - apply Hempty; [by destruct Htr | done].
  - by rewrite Hout, Hin.
  - by rewrite Hin.
  - cbn. by rewrite app_nil_r.
Qed.

(** ** Properties *)

(** C23: The threads of two connected processes implement a queue of messages.
    Take any sequence of steps that the queue allows - the application of the one
    process writes, its write thread runs a round, bytes move along the stream, a
    read thread of the other process reads a message, its dispatch thread runs a
    round, in any order and number.  Then every one of these calls succeeds, and
    at the end the trampolines of the receiver have been called with exactly the
    messages the queue has delivered, once each and in the order they were
    written, whatever the byte orders of the two hosts; the other messages that
    were written wait, in order, in the queue of the receiver, in the stream and
    in the queue of the sender.  Where a queue is empty the heap of its process is
    the one it started with. *)
Theorem connectors_refine_queue (u1 : world E1) (u2 : world E2) (fs : list Z)
    (l : list link_action) (c : channel) (Hu : connected u1 u2 fs)
    (Hok : Forall (action_ok (mem u1)) l) (Hrun : channel_run l empty_channel = Some c) :
  exists (w1 : world E1) (w2 : world E2), connectors_run l (u1, u2) = Some (w1, w2) /\
    calls (trace w2) = calls (trace u2) ++ concat (map (note_calls fs) (ch_delivered c)) /\
    written l = ch_delivered c ++ ch_received c ++ ch_flying c ++ ch_queued c /\
    queued_notes (mem u2) (mem w2) ctx2 (inbound_queue (queues w2)) (ch_received c) /\
    link_in (env w2) ++ link_out (env w1) = concat (map (note_bytes (junk (mem u1))) (ch_flying c)) /\
    queued_notes (mem u1) (mem w1) ctx1 (outbound_queue (queues w1)) (ch_queued c) /\
    (ch_received c = [] -> heap (mem w2) = heap (mem u2)) /\
    (ch_queued c = [] -> heap (mem w1) = heap (mem u1)).
Proof.
  destruct (run_simulated u1 u2 fs l _ c u1 u2 Hu (connected_simulates _ _ _ Hu) Hok Hrun)
    as (w1 & w2 & Hsys & Hsim).
  exists w1, w2. split; [done|]. destruct Hsim. pose proof (channel_run_contents l _ _ Hrun) as Hw.
  split; [done|]. split; [by symmetry|]. do 3 (split; [done|]).
  split; intros Heq; rewrite Heq in *; by eapply queued_notes_empty.
Qed.

(** Nothing that was written is lost.  Whatever the threads of two connected
    processes have done so far, they can go on, without the application writing
    any more, until every message it has written has been delivered to every
    trampoline of the other process, in order; then both queues are empty, nothing
    is on its way, and both heaps are the ones the processes started with. *)
Theorem written_messages_arrive (u1 : world E1) (u2 : world E2) (fs : list Z)
    (l : list link_action) (c : channel) (Hu : connected u1 u2 fs)
    (Hok : Forall (action_ok (mem u1)) l) (Hrun : channel_run l empty_channel = Some c) :
  exists (rest : list link_action) (w1 : world E1) (w2 : world E2),
    connectors_run (l ++ rest) (u1, u2) = Some (w1, w2) /\ written rest = [] /\
    calls (trace w2) = calls (trace u2) ++ concat (map (note_calls fs) (written l)) /\
    all_queued (mem w1) (outbound_queue (queues w1)) [] /\ all_queued (mem w2) (inbound_queue (queues w2)) [] /\
    link_out (env w1) = [] /\ link_in (env w2) = [] /\
    heap (mem w1) = heap (mem u1) /\ heap (mem w2) = heap (mem u2).
Proof.
  pose proof (channel_run_contents l _ _ Hrun) as Hw. destruct (drain_writes_nothing (mem u1) c) as [Hd1 Hd2].
  assert (Hall : channel_run (l ++ drain c) empty_channel = Some (Channel [] [] 0 [] (written l))).
  { rewrite (channel_run_app _ _ _ _ Hrun), drain_runs; [by rewrite Hw|].
    by apply (channel_run_arrived _ _ _ Hrun). }
  assert (Hok' : Forall (action_ok (mem u1)) (l ++ drain c)) by (by apply Forall_app).
  destruct (run_simulated u1 u2 fs _ _ _ u1 u2 Hu (connected_simulates _ _ _ Hu) Hok' Hall) as (w1 & w2 & Hsys & [_ _ Hq1 _ _ Hq2 Hs _ Hc _]).
  cbn [ch_queued ch_flying ch_received ch_delivered map concat] in *. apply app_nil in Hs as [Hs1 Hs2].
  exists (drain c), w1, w2. do 3 (split; [done|]).
  assert (Hno : forall m0 m ctx q, queued_notes m0 m ctx q [] -> all_queued m q []).
  { intros m0 m ctx q (rs & Hrs & _ & Hn). by apply Forall2_nil_inv_l in Hn as ->. }
  split; [by eapply Hno|]. split; [by eapply Hno|]. do 2 (split; [done|]).
  split; by eapply queued_notes_empty.
Qed.

End system.

(** ** Two simulated processes *)

Definition sim_carry (n : nat) (s1 s2 : simulation) : simulation * simulation :=
  (Simulation (sim_next_fd s1) (sim_refuse s1) (sim_inbox s1) (drop n (sim_sent s1)) (sim_closed s1) (sim_files s1),
   Simulation (sim_next_fd s2) (sim_refuse s2) (sim_inbox s2 ++ take n (sim_sent s1)) (sim_sent s2)
     (sim_closed s2) (sim_files s2)).

#[export] Instance simulated_link (fd1 fd2 : Z) : Link simulation simulation fd1 fd2.
Proof.
  refine {| link_out := sim_sent; link_in := sim_inbox; link_carry := sim_carry |}; try done.
  - intros bs e. by do 2 eexists.
  - intros n e Hn. cbn [recv simulation_platform]. rewrite Z.min_l, Nat2Z.id by lia. by eexists.
Defined.

(** A process whose context 0 is connected through descriptor 5. *)
Definition link_world (m : memory) (front : Z) : world simulation :=
  World _ (Simulation 9 false [] [] [] []) m SUBSTANCE_CONNECTOR_STATE_INIT_FINISHED 0
    (replicate 32 (ContextStruct tcp_connected_bits 5 0 0 0 0)) QNull QNull
    (MessageQueues empty_queue empty_queue MESSAGE_QUEUE_INITIALIZED) front [].

(** The one has a text at address 1, the other a trampoline. *)
Definition link_sender : world simulation := link_world one_string_memory 0.
Definition link_receiver : world simulation := link_world (alloc_with (BTramp 50 0) initial_memory) 1.

Lemma empty_all_queued m : all_queued m empty_queue [].
Proof. constructor; [|done|apply NoDup_nil_2 ..]. constructor; try done. apply NoDup_nil_2. Qed.

Lemma link_connected : connected (fd1 := 5) (fd2 := 5) 0 0 link_sender link_receiver [50].
Proof.
  assert (Hpeer : forall m front, peer_context (link_world m front) 0 5).
  { intros m front. split; [lia|]. split; [done|]. by eexists. }
  constructor; try done; try apply empty_all_queued; try apply Hpeer.
  - apply alloc_with_wf, initial_memory_wf.
  - constructor; [apply alloc_with_wf, initial_memory_wf | done |]. exists [(1, 50)].
    split; [|split; [done | apply NoDup_singleton]]. split; [done|]. split; [done|]. by exists 0.
Qed.

(** Two messages are sent, thirty bytes arrive, and the first is delivered. *)
Definition link_schedule : list link_action :=
  [Write connector_internal_log_uuid 1 [97; 98]; Write connector_internal_log_uuid 1 [97; 98];
   Flush 2; Carry 30; Receive; Deliver 1].

Lemma link_schedule_ok : Forall (action_ok (mem link_sender)) link_schedule.
Proof.
  assert (Hn : note_ok (Note connector_internal_log_uuid [97; 98])).
  { split; [|split; [repeat constructor; lia | cbn; lia]]. repeat constructor; cbn; lia. }
  by repeat (apply Forall_cons; split; [done|]).
Qed.

Lemma connectors_refine_queue_witness :
  exists w1 w2, connectors_run (fd1 := 5) (fd2 := 5) 0 0 link_schedule (link_sender, link_receiver) = Some (w1, w2) /\
    calls (trace w2) = [TrampolineCall 50 0 connector_internal_log_uuid (Some [97; 98])].
Proof.
  destruct (connectors_refine_queue (fd1 := 5) (fd2 := 5) 0 0 link_sender link_receiver [50] link_schedule _
    link_connected link_schedule_ok eq_refl) as (w1 & w2 & Hrun & Hc & _).
  exists w1, w2. split; [exact Hrun | rewrite Hc; reflexivity].
Defined.

Lemma written_messages_arrive_witness :
  exists rest w1 w2, connectors_run (fd1 := 5) (fd2 := 5) 0 0 (link_schedule ++ rest) (link_sender, link_receiver) =
      Some (w1, w2) /\
    calls (trace w2) = [TrampolineCall 50 0 connector_internal_log_uuid (Some [97; 98]);
                        TrampolineCall 50 0 connector_internal_log_uuid (Some [97; 98])].
Proof.
  destruct (written_messages_arrive (fd1 := 5) (fd2 := 5) 0 0 link_sender link_receiver [50] link_schedule _
    link_connected link_schedule_ok eq_refl) as (rest & w1 & w2 & Hrun & _ & Hc & _).
  exists rest, w1, w2. split; [exact Hrun | rewrite Hc; reflexivity].
Defined.

(** The message has to have arrived as a whole: a read thread that finds a part of
    a header takes it off the stream, reports a failure and looks for the next
    header in the middle of the message. *)
Lemma split_header_is_lost :
  (s ← connectors_run (fd1 := 5) (fd2 := 5) 0 0
      [Write connector_internal_log_uuid 1 [97; 98]; Flush 1; Carry 10] (link_sender, link_receiver);
   match connector_read_thread_handle_context 0 (snd s) with
   | Done code w2 =>
       t ← connectors_run (fd1 := 5) (fd2 := 5) 0 0 [Carry 16] (fst s, w2);
       match connector_read_thread_handle_context 0 (snd t) with
       | Done code' w2' => Some (code, code', sim_inbox (env w2'), lq_front (inbound_queue (queues w2')))
       | Stuck _ => None
       end
   | Stuck _ => None
   end) = Some (SUBSTANCE_CONNECTOR_READ_FAIL, SUBSTANCE_CONNECTOR_READ_FAIL, [], 0).
Proof. vm_compute. reflexivity. Qed.
