(* ===== verification/Session.v ===== *)
(** * Two connected processes that introduce themselves

    Both directions of a connection together: each process sends a handshake and
    messages, each process answers the handshake of the other, and the steps of all
    their threads interleave with each other and with the network.  The
    specification is a pair of queues in which a handshake that is handled becomes
    an answer; the implementation are the rounds of the threads of [Dispatch],
    [ReadThread] and [Lifecycle]. *)

From S2P Require Import Prelude Wire Memory Strings UintQueue LockedQueue Message World Callbacks.
From S2P Require Import Connection ContextQueue Contexts ReadThread Dispatch MixedDispatch Lifecycle Delivery.

(** ** Adding messages to a process and taking them away *)

Section process.
Context {E : Type}.
Implicit Types w : world E.

Lemma same_name_lookup w w' j d :
  map cx_application_name (context_list w') = map cx_application_name (context_list w) ->
  context_list w' !! j = Some d ->
  exists c, context_list w !! j = Some c /\ cx_application_name c = cx_application_name d.
Proof.
  intros Heq Hj. assert (H : map cx_application_name (context_list w') !! j = Some (cx_application_name d))
    by (by rewrite list_lookup_fmap, Hj).
  rewrite Heq, list_lookup_fmap in H. destruct (context_list w !! j) as [c|]; [|done]. injection H as H. by exists c.
Qed.

Lemma blocks_live w fs name names ins outs a :
  dispatching [] w fs name names ins outs -> a ∈ blocks [] ins outs -> heap (mem w) !! a <> None.
Proof.
  intros Hd Ha. unfold blocks in Ha. cbn [app] in Ha.
  apply elem_of_app in Ha as [Ha|Ha]; [apply (queued_live (mem w) (inbound_queue (queues w)) ins) in Ha
    | apply (queued_live (mem w) (outbound_queue (queues w)) outs) in Ha]; try apply Hd;
    destruct Ha as [b Hb]; unfold owns in Hb; by rewrite Hb.
Qed.

(** [w'] is [w] with the blocks [fresh], and with changes to the nodes of its
    queues. *)
Lemma dispatching_added w w' fs name names ins outs ins' outs' (fresh nodes : list Z) :
  dispatching [] w fs name names ins outs -> mem_wf (mem w') -> mem_config_eq (mem w) (mem w') ->
  (forall a, a ∈ fresh -> heap (mem w) !! a = None) -> NoDup fresh -> (forall a, a ∈ fresh -> a <> 0) ->
  (forall a, a ∈ nodes -> a ∈ blocks [] ins outs /\ exists n x, owns (mem w) a (BNode n x)) ->
  (forall a, a ∉ fresh -> a ∉ nodes -> heap (mem w') !! a = heap (mem w) !! a) ->
  all_queued (mem w') (inbound_queue (queues w')) ins' -> all_queued (mem w') (outbound_queue (queues w')) outs' ->
  blocks [] ins' outs' ≡ₚ blocks [] ins outs ++ fresh ->
  application_name w' = application_name w -> trampoline_front w' = trampoline_front w ->
  map cx_application_name (context_list w') = map cx_application_name (context_list w) ->
  dispatching [] w' fs name names ins' outs' /\ forall a, others [] w' ins' outs' a = others [] w ins outs a.
Proof.
  intros Hd Hwf' Hcfg Hf Hndf Hf0 Hnodes Hh Hin Hout Hp Happ Hfront Hcl.
  pose proof Hd as [Htr Hcs Hn Hlen Hl Hnames Hin0 Hout0 Hnd Hsep Hown Hdist].
  assert (Hstr : strings w' = strings w) by (unfold strings; by rewrite Happ, Hcl).
  assert (Hkeep : forall a b, owns (mem w) a b -> (forall n x, b <> BNode n x) -> heap (mem w') !! a = heap (mem w) !! a).
  { intros a b Ha Hb. unfold owns in Ha. apply Hh; [intros Hin1; by rewrite Hf in Ha|].
    intros (_ & n & x & Hx)%Hnodes. unfold owns in Hx. apply (Hb n x). congruence. }
  assert (Hlive : forall a, a ∈ strings w -> (a ∉ fresh) /\ (a ∉ nodes)).
  { intros a Ha. split; [|intros [Hb _]%Hnodes; by apply (Hsep a)]. intros Hin1.
    apply elem_of_strings in Ha as [->|(j & c & Hj & <-)]; [unfold points_to_string, owns in Hn; by rewrite Hf in Hn|].
    destruct (Forall2_lookup_l _ _ _ _ _ Hnames Hj) as ([s|] & _ & Ho); [|by apply (Hf0 _ Hin1)].
    destruct Ho as [_ Ho]. unfold points_to_string, owns in Ho. by rewrite Hf in Ho. }
  split.
  - constructor; try done.
    + apply (trampolines_frame w); try done. intros a f n Ha. by apply (Hkeep a _ Ha).
    + rewrite Happ. unfold points_to_string, owns in *. rewrite (config_free _ _ Hcfg), (Hkeep _ _ Hn); done.
    + rewrite <- (length_map cx_application_name), Hcl. by rewrite length_map.
    + apply Forall2_same_length_lookup. rewrite <- (length_map cx_application_name), Hcl, length_map.
      split; [by eapply Forall2_length|]. intros j d o Hj Ho. destruct (same_name_lookup w w' j d Hcl Hj) as (c & Hc & Heq).
      rewrite <- Heq. apply (slot_kept (mem w)); [done | | by apply (Forall2_lookup_lr _ _ _ _ _ _ Hnames Hc)].
      intros _. apply Hh; apply Hlive, elem_of_strings; right; eauto.
    + rewrite Hp. apply NoDup_app. split; [done|]. split; [|done]. intros a Ha Hin1.
      apply (blocks_live w fs name names ins outs a Hd Ha), Hf, Hin1.
    + intros a. rewrite Hp, Hstr, elem_of_app. intros [Ha|Ha] Hs; [by apply (Hsep a) | by destruct (Hlive a Hs)].
    + intros d Hd'. apply list_elem_of_lookup in Hd' as [j Hj]. destruct (same_name_lookup w w' j d Hcl Hj) as (c & Hc & <-).
      rewrite Happ. apply Hown. by eapply list_elem_of_lookup_2.
    + intros j k c d Hj Hk. destruct (same_name_lookup w w' j c Hcl Hj) as (c0 & Hc & <-).
      destruct (same_name_lookup w w' k d Hcl Hk) as (d0 & Hd0 & <-). by apply (Hdist j k).
  - intros a. unfold others. rewrite Hstr. apply besides_same; rewrite Hp, !elem_of_app.
    + intros [[Ha|Ha]|Ha]; intuition.
    + intuition.
    + intros Ha Hna. apply Hh; [intuition|]. intros [Hb _]%Hnodes. intuition.
Qed.

(** Nothing that matters changes. *)
Lemma dispatching_same w w' fs name names ins outs :
  dispatching [] w fs name names ins outs -> mem_wf (mem w') -> mem_config_eq (mem w) (mem w') ->
  heap (mem w') = heap (mem w) -> queues w' = queues w -> application_name w' = application_name w ->
  trampoline_front w' = trampoline_front w ->
  map cx_application_name (context_list w') = map cx_application_name (context_list w) ->
  dispatching [] w' fs name names ins outs /\ forall a, others [] w' ins outs a = others [] w ins outs a.
Proof.
  intros Hd Hwf Hcfg Hh Hq Happ Hfront Hcl.
  destruct (dispatching_added w w' fs name names ins outs ins outs [] [] Hd) as [Hd' Ho']; try done;
    try (by intros a ?%elem_of_nil); [apply NoDup_nil_2 | by intros a _ _; rewrite Hh | | | by rewrite app_nil_r].
  - rewrite Hq. apply (all_queued_same (mem w)); [done | done | apply Hd].
  - rewrite Hq. apply (all_queued_same (mem w)); [done | done | apply Hd].
Qed.

(** The nodes of one queue are not blocks of the other. *)
Lemma node_of_queue (q : locked_queue) m rs a :
  all_queued m q rs -> a ∈ map qm_node rs -> a ∈ concat (map queued_blocks rs) /\ exists n x, owns m a (BNode n x).
Proof.
  intros [Hq _ _ _] (r & -> & Hin)%list_elem_of_fmap. split.
  - apply (node_in_blocks r); [done|]. unfold queued_blocks. rewrite elem_of_cons. auto.
  - destruct (chain_owned _ _ _ (qm_node r) (qm_message r) (lq_chain _ _ _ Hq)) as [n Hn]; [|by eexists _, _].
    apply in_map_iff. exists r. split; [done | by apply list_elem_of_In].
Qed.

Lemma queues_apart w fs name names ins outs a :
  dispatching [] w fs name names ins outs ->
  a ∈ concat (map queued_blocks ins) -> a ∈ concat (map queued_blocks outs) -> False.
Proof.
  intros Hd Hi Ho. pose proof (ds_blocks _ _ _ _ _ _ _ Hd) as Hnd. unfold blocks in Hnd. cbn [app] in Hnd.
  apply NoDup_app in Hnd as (_ & Hnd & _). by apply (Hnd a).
Qed.

Lemma queued_nonzero m q ns r a :
  mem_wf m -> lq_repr m q (ns ++ [(qm_node r, qm_message r)]) -> queued_at m r -> a ∈ queued_blocks r -> a <> 0.
Proof.
  intros Hwf Hlq [Hm Ht] Ha. assert (Hpos : forall b, owns m a b -> a <> 0) by (intros b Hb; by apply Z.eqb_neq, (owns_pos m a b)).
  apply list_elem_of_In in Ha. destruct Ha as [<-|[<-|[<-|[]]]]; [|by apply (Hpos _ Hm) | by apply (Hpos _ Ht)].
  destruct (chain_owned _ _ _ (qm_node r) (qm_message r) (lq_chain _ _ _ Hlq)) as [n Hn];
    [apply in_app_iff; right; by left | by apply (Hpos _ Hn)].
Qed.

(** A new message at the end of the outbound queue. *)
Lemma dispatching_out w w' fs name names ins outs r :
  dispatching [] w fs name names ins outs -> mem_wf (mem w') -> mem_config_eq (mem w) (mem w') ->
  lq_repr (mem w') (outbound_queue (queues w')) (map (fun r => (qm_node r, qm_message r)) outs ++ [(qm_node r, qm_message r)]) ->
  inbound_queue (queues w') = inbound_queue (queues w) -> queued_at (mem w') r -> NoDup (queued_blocks r) ->
  (forall a, a ∈ queued_blocks r -> heap (mem w) !! a = None) ->
  (forall a, a ∉ queued_blocks r -> a ∉ map qm_node outs -> heap (mem w') !! a = heap (mem w) !! a) ->
  application_name w' = application_name w -> trampoline_front w' = trampoline_front w ->
  context_list w' = context_list w ->
  dispatching [] w' fs name names ins (outs ++ [r]) /\
  forall a, others [] w' ins (outs ++ [r]) a = others [] w ins outs a.
Proof.
  intros Hd Hwf' Hcfg Hlq Hinq Hr Hnd Hf Hh Happ Hfront Hcl. pose proof (ds_out _ _ _ _ _ _ _ Hd) as Hout.
  assert (Hlive : forall a, a ∈ blocks [] ins outs -> a ∉ queued_blocks r)
    by (intros a Ha Hin; by apply (blocks_live w fs name names ins outs a Hd Ha), Hf).
  apply (dispatching_added w w' fs name names ins outs ins (outs ++ [r]) (queued_blocks r) (map qm_node outs)); try done.
  - intros a. by apply (queued_nonzero _ _ _ _ _ Hwf' Hlq Hr).
  - intros a Ha. destruct (node_of_queue _ _ _ a Hout Ha) as [Hb Hn]. split; [|done]. unfold blocks. rewrite !elem_of_app. auto.
  - rewrite Hinq. apply (all_queued_frame (mem w)); [apply Hd | done |]. intros a Ha. apply Hh.
    + apply Hlive. unfold blocks. rewrite !elem_of_app. auto.
    + intros Hn. destruct (node_of_queue _ _ _ a Hout Hn) as [Hb _]. by apply (queues_apart w fs name names ins outs a Hd).
  - apply (all_queued_snoc (mem w) _ (outbound_queue (queues w))); try done. intros a Ha Hn. apply Hh; [|done].
    apply Hlive. unfold blocks. rewrite !elem_of_app. auto.
  - by rewrite blocks_snoc.
  - by rewrite Hcl.
Qed.

(** A new message at the end of the inbound queue. *)
Lemma dispatching_in w w' fs name names ins outs r :
  dispatching [] w fs name names ins outs -> mem_wf (mem w') -> mem_config_eq (mem w) (mem w') ->
  lq_repr (mem w') (inbound_queue (queues w')) (map (fun r => (qm_node r, qm_message r)) ins ++ [(qm_node r, qm_message r)]) ->
  outbound_queue (queues w') = outbound_queue (queues w) -> queued_at (mem w') r -> NoDup (queued_blocks r) ->
  (forall a, a ∈ queued_blocks r -> heap (mem w) !! a = None) ->
  (forall a, a ∉ queued_blocks r -> a ∉ map qm_node ins -> heap (mem w') !! a = heap (mem w) !! a) ->
  application_name w' = application_name w -> trampoline_front w' = trampoline_front w ->
  context_list w' = context_list w ->
  dispatching [] w' fs name names (ins ++ [r]) outs /\
  forall a, others [] w' (ins ++ [r]) outs a = others [] w ins outs a.
Proof.
  intros Hd Hwf' Hcfg Hlq Houtq Hr Hnd Hf Hh Happ Hfront Hcl. pose proof (ds_in _ _ _ _ _ _ _ Hd) as Hin.
  assert (Hlive : forall a, a ∈ blocks [] ins outs -> a ∉ queued_blocks r)
    by (intros a Ha Hin'; by apply (blocks_live w fs name names ins outs a Hd Ha), Hf).
  apply (dispatching_added w w' fs name names ins outs (ins ++ [r]) outs (queued_blocks r) (map qm_node ins)); try done.
  - intros a. by apply (queued_nonzero _ _ _ _ _ Hwf' Hlq Hr).
  - intros a Ha. destruct (node_of_queue _ _ _ a Hin Ha) as [Hb Hn]. split; [|done]. unfold blocks. rewrite !elem_of_app. auto.
  - apply (all_queued_snoc (mem w) _ (inbound_queue (queues w))); try done. intros a Ha Hn. apply Hh; [|done].
    apply Hlive. unfold blocks. rewrite !elem_of_app. auto.
  - rewrite Houtq. apply (all_queued_frame (mem w)); [apply Hd | done |]. intros a Ha. apply Hh.
    + apply Hlive. unfold blocks. rewrite !elem_of_app. auto.
    + intros Hn. destruct (node_of_queue _ _ _ a Hin Hn) as [Hb _]. by apply (queues_apart w fs name names ins outs a Hd).
  - unfold blocks. cbn [app]. rewrite map_app, concat_app. cbn [map concat]. rewrite app_nil_r. solve_Permutation.
  - by rewrite Hcl.
Qed.

(** The outbound queue is emptied. *)
Lemma dispatching_flushed w m' q' fs name names ins outs :
  dispatching [] w fs name names ins outs -> heap_without (concat (map queued_blocks outs)) (mem w) m' ->
  all_queued m' q' [] ->
  let w' := set_queues (set_outbound q' (queues w)) (set_mem m' w) in
  dispatching [] w' fs name names ins [] /\ forall a, others [] w' ins [] a = others [] w ins outs a.
Proof.
  intros Hd Hw Hq' w'. set (gone := concat (map queued_blocks outs)) in *.
  assert (Hp : blocks [] ins outs ≡ₚ blocks (gone ++ []) ins []).
  { unfold blocks. cbn [app map concat]. rewrite !app_nil_r. apply Permutation_app_comm. }
  assert (Hq : all_queued (mem w) q' []).
  { destruct Hw as [_ [Ha Hf Ho Hj] _]. apply (all_queued_frame m'); [done | by constructor | by intros a ?%elem_of_nil]. }
  assert (Hd1 : dispatching (gone ++ []) (set_queues (set_outbound q' (queues w)) w) fs name names ins []).
  { destruct Hd as [Htr ? ? ? ? ? ? ? Hnd Hsep ? ?]. constructor; try done; [by destruct Htr | by rewrite <- Hp |].
    intros a. rewrite <- Hp. apply Hsep. }
  destruct (dispatching_frame [] _ m' fs name names ins [] gone Hd1) as [Hd2 Ho]; [done | |].
  - intros a f n Ha Ht. cbn in Ht. apply list_elem_of_In in Ha. unfold gone in Ha.
    apply in_concat in Ha as (bl & Hbl & Ha). apply in_map_iff in Hbl as (r & <- & Hin%list_elem_of_In).
    pose proof (ds_out _ _ _ _ _ _ _ Hd) as [Hlq Hat _ _]. rewrite Forall_forall in Hat. destruct (Hat r Hin) as [Hm Hx].
    destruct (chain_owned _ _ _ (qm_node r) (qm_message r) (lq_chain _ _ _ Hlq)) as [k Hk].
    { apply in_map_iff. exists r. split; [done | by apply list_elem_of_In]. }
    unfold points_to_string, owns in *. destruct Ha as [<-|[<-|[<-|[]]]]; congruence.
  - split; [exact Hd2|]. intros a. etransitivity; [apply Ho|].
    unfold others. cbn [mem set_queues]. change (strings (set_queues _ w)) with (strings w).
    assert (Hiff : a ∈ blocks (gone ++ []) ins [] ++ strings w <-> a ∈ blocks [] ins outs ++ strings w) by (by rewrite Hp).
    repeat case_decide; intuition.
Qed.

End process.

(** ** The specification *)

(** What travels: the handshake with a name, or an identifier and a text. *)
Inductive packet :=
  | Hello (name : list Z)
  | Letter (type : uuid) (text : list Z).

Definition packet_header (p : packet) : message_header :=
  match p with Hello name => handshake_header name | Letter type text => user_header_of type text end.
Definition packet_string (p : packet) : list Z := match p with Hello s | Letter _ s => s end.
Definition packet_size (p : packet) : nat := (24 + length (packet_string p))%nat.
Definition packets_size (l : list packet) : nat := foldr (fun p n => (packet_size p + n)%nat) 0%nat l.
Definition packet_ok (p : packet) : Prop :=
  cstring (packet_string p) /\ Z.of_nat (length (packet_string p)) < 2 ^ 32 - 1 /\
  match p with Hello _ => True | Letter type _ => uuid_wf type end.

(** One process: whether it has sent its handshake, what waits in its outbound
    queue, what it has sent that the other has not read, with the number of bytes
    that have arrived there, what waits in its inbound queue, and what it has
    handled. *)
Record endpoint := Endpoint {
  ep_introduced : bool;
  ep_queued : list packet;
  ep_flying : list packet;
  ep_arrived : nat;
  ep_received : list packet;
  ep_handled : list packet
}.

Definition fresh_endpoint : endpoint := Endpoint false [] [] 0 [] [].

(** The answer to a handshake carries the own name. *)
Definition answer_to (name : list Z) (p : packet) : list packet :=
  match p with Hello _ => [Letter connector_internal_handshake_uuid name] | Letter _ _ => [] end.

(** The steps of one process; [Carry] is the network's, away from it. *)
Inductive endpoint_action :=
  | Write (type : uuid) (text : Z) (s : list Z)
  | Introduce
  | Flush (fuel : nat)
  | Carry (n : nat)
  | Receive
  | Handle (fuel : nat).

(** A step of the process [e] with the name [name], [e'] being the other. *)
Definition endpoint_step (name : list Z) (a : endpoint_action) (e e' : endpoint) : option (endpoint * endpoint) :=
  let '(Endpoint i q f k r h) := e in
  match a with
  | Write type _ s => Some (Endpoint i (q ++ [Letter type s]) f k r h, e')
  | Introduce => Some (Endpoint true q (if i then f else f ++ [Hello name]) k r h, e')
  | Flush fuel =>
      if (0 <? length q)%nat && (length q <=? fuel)%nat then Some (Endpoint i [] (f ++ q) k r h, e') else None
  | Carry n => if (k + n <=? packets_size f)%nat then Some (Endpoint i q f (k + n) r h, e') else None
  | Receive =>
      match ep_flying e' with
      | p :: f' =>
          if (packet_size p <=? ep_arrived e')%nat then
            Some (Endpoint i q f k (r ++ [p]) h,
                  Endpoint (ep_introduced e') (ep_queued e') f' (ep_arrived e' - packet_size p) (ep_received e') (ep_handled e'))
          else None
      | [] => None
      end
  | Handle fuel =>
      if (0 <? length r)%nat && (length r <=? fuel)%nat then
        Some (Endpoint i (q ++ concat (map (answer_to name) r)) f k [] (h ++ r), e')
      else None
  end.

(** A session: the names of the two processes, and steps of either. *)
Definition session_step (names : list Z * list Z) (a : bool * endpoint_action) (s : endpoint * endpoint) :
    option (endpoint * endpoint) :=
  if fst a then endpoint_step (fst names) (snd a) (fst s) (snd s)
  else prod_swap <$> endpoint_step (snd names) (snd a) (snd s) (fst s).

Fixpoint session_run (names : list Z * list Z) (l : list (bool * endpoint_action)) (s : endpoint * endpoint) :
    option (endpoint * endpoint) :=
  match l with
  | [] => Some s
  | a :: l => s' ← session_step names a s; session_run names l s'
  end.

(** ** What the specification keeps *)

(** What [e] has sent and will send, when [e'] is the other. *)
Definition sent (e e' : endpoint) : list packet := ep_handled e' ++ ep_received e' ++ ep_flying e ++ ep_queued e.

(** Three kinds of packets: the messages of the application, the handshakes, and
    the answers to handshakes. *)
Definition is_mail (p : packet) : bool :=
  match p with Letter type _ => negb (bool_decide (type = connector_internal_handshake_uuid)) | Hello _ => false end.
Definition is_hello (p : packet) : bool := match p with Hello _ => true | Letter _ _ => false end.
Definition is_answer (p : packet) : bool :=
  match p with Letter type _ => bool_decide (type = connector_internal_handshake_uuid) | Hello _ => false end.

(** What a step writes. *)
Definition writes (a : endpoint_action) : list packet := match a with Write type _ s => [Letter type s] | _ => [] end.

(** What the process with the name [name] has sent, if the application has written
    the messages [mail]: them in order, one handshake once it has introduced
    itself, and one answer for each handshake it has handled. *)
Record exchanged (name : list Z) (mail : list packet) (e e' : endpoint) : Prop := {
  ex_mail : List.filter is_mail (sent e e') = mail;
  ex_hello : List.filter is_hello (sent e e') = if ep_introduced e then [Hello name] else [];
  ex_answers : List.filter is_answer (sent e e') = concat (map (answer_to name) (ep_handled e));
  ex_arrived : (ep_arrived e <= packets_size (ep_flying e))%nat
}.

Lemma packets_size_app l1 l2 : packets_size (l1 ++ l2) = (packets_size l1 + packets_size l2)%nat.
Proof. unfold packets_size. induction l1 as [|p l1 IH]; [done|]. cbn [app foldr]. rewrite IH. lia. Qed.

Lemma answers_kind name l :
  List.filter is_mail (concat (map (answer_to name) l)) = [] /\ List.filter is_hello (concat (map (answer_to name) l)) = [] /\
  List.filter is_answer (concat (map (answer_to name) l)) = concat (map (answer_to name) l).
Proof. induction l as [|[s|type s] l (IH1 & IH2 & IH3)]; [done | | done]. cbn. by rewrite IH1, IH2, IH3. Qed.

Lemma answers_to_hellos name l :
  concat (map (answer_to name) l) = map (fun _ => Letter connector_internal_handshake_uuid name) (List.filter is_hello l).
Proof. induction l as [|[s|type s] l IH]; [done | | done]. cbn. by rewrite IH. Qed.

(** A step as the other process sees it. *)
Lemma step_exchanged_other name name' mail' a e e' t t' :
  endpoint_step name a e e' = Some (t, t') -> exchanged name' mail' e' e -> exchanged name' mail' t' t.
Proof.
  destruct e as [i q f k r h], e' as [i' q' f' k' r' h']. intros Hstep [Hm Hh Ha Hk]. unfold sent in *.
  cbn [ep_introduced ep_queued ep_flying ep_arrived ep_received ep_handled] in *.
  destruct a as [type text s| |fuel|n| |fuel]; cbn [endpoint_step ep_flying ep_arrived] in Hstep.
  - by injection Hstep as <- <-.
  - by injection Hstep as <- <-.
  - destruct (_ && _); [|done]. by injection Hstep as <- <-.
  - destruct (_ <=? _)%nat; [|done]. by injection Hstep as <- <-.
  - destruct f' as [|x f']; [done|]. destruct (_ <=? _)%nat; [|done]. injection Hstep as <- <-.
    constructor; unfold sent; cbn [ep_introduced ep_queued ep_flying ep_arrived ep_received ep_handled];
      try (by rewrite <- (app_assoc r [x])). unfold packets_size in *. cbn [foldr] in Hk. lia.
  - destruct (_ && _); [|done]. injection Hstep as <- <-.
    constructor; unfold sent; cbn [ep_introduced ep_queued ep_flying ep_arrived ep_received ep_handled app];
      try (by rewrite <- (app_assoc h r)). done.
Qed.

(** A step as the process itself sees it. *)
Lemma step_exchanged name mail a e e' t t' :
  endpoint_step name a e e' = Some (t, t') -> Forall (fun p => is_mail p = true) (writes a) ->
  exchanged name mail e e' -> exchanged name (mail ++ writes a) t t'.
Proof.
  destruct e as [i q f k r h], e' as [i' q' f' k' r' h']. intros Hstep Hw [Hm Hh Ha Hk]. unfold sent in *.
  cbn [ep_introduced ep_queued ep_flying ep_arrived ep_received ep_handled] in *.
  destruct a as [type text s| |fuel|n| |fuel]; cbn [endpoint_step ep_flying ep_arrived writes] in *; rewrite ?app_nil_r.
  - injection Hstep as <- <-. apply Forall_cons in Hw as [Hw _]. pose proof Hw as Hw'. apply negb_true_iff in Hw'.
    assert (Heq : forall g, List.filter g (h' ++ r' ++ f ++ q ++ [Letter type s]) =
      List.filter g (h' ++ r' ++ f ++ q) ++ List.filter g [Letter type s]) by (intros g; by rewrite <- List.filter_app, <- !app_assoc).
    constructor; unfold sent; cbn [ep_introduced ep_queued ep_flying ep_arrived ep_received ep_handled]; try done; rewrite Heq.
    + rewrite Hm. cbn [List.filter]. by rewrite Hw.
    + rewrite Hh. cbn. by rewrite app_nil_r.
    + rewrite Ha. cbn [List.filter is_answer]. by rewrite Hw', app_nil_r.
  - injection Hstep as <- <-. destruct i; [done|].
    constructor; unfold sent; cbn [ep_introduced ep_queued ep_flying ep_arrived ep_received ep_handled];
      rewrite ?List.filter_app, ?packets_size_app in *; cbn [List.filter is_mail is_hello is_answer]; rewrite ?app_nil_r; try done; [|lia].
    apply app_nil in Hh as [-> Hh]. apply app_nil in Hh as [-> Hh]. by apply app_nil in Hh as [-> ->].
  - destruct (_ && _); [|done]. injection Hstep as <- <-.
    constructor; unfold sent; cbn [ep_introduced ep_queued ep_flying ep_arrived ep_received ep_handled];
      rewrite ?app_nil_r; try done. rewrite packets_size_app. lia.
  - destruct (Nat.leb_spec (k + n) (packets_size f)); [|done]. by injection Hstep as <- <-.
  - destruct f' as [|x f']; [done|]. destruct (_ <=? _)%nat; [|done]. by injection Hstep as <- <-.
  - destruct (_ && _); [|done]. injection Hstep as <- <-. destruct (answers_kind name r) as (H1 & H2 & H3).
    assert (Heq : forall g, List.filter g (h' ++ r' ++ f ++ q ++ concat (map (answer_to name) r)) =
      List.filter g (h' ++ r' ++ f ++ q) ++ List.filter g (concat (map (answer_to name) r)))
      by (intros g; by rewrite <- List.filter_app, <- !app_assoc).
    constructor; unfold sent; cbn [ep_introduced ep_queued ep_flying ep_arrived ep_received ep_handled]; try done; rewrite Heq.
    + by rewrite H1, app_nil_r.
    + by rewrite H2, app_nil_r.
    + by rewrite H3, Ha, map_app, concat_app.
Qed.

(** What the application of the one or the other process writes in a session. *)
Definition written (b : bool) (l : list (bool * endpoint_action)) : list packet :=
  concat (map (fun a => if Bool.eqb (fst a) b then writes (snd a) else []) l).

(** The application does not use the identifier of the handshake. *)
Definition only_mail (l : list (bool * endpoint_action)) : Prop :=
  Forall (fun a => Forall (fun p => is_mail p = true) (writes (snd a))) l.

Lemma fresh_exchanged name : exchanged name [] fresh_endpoint fresh_endpoint.
Proof. constructor; try done. Qed.

Lemma run_exchanged names l : forall s s' t t' m m',
  session_run names l (s, s') = Some (t, t') -> only_mail l ->
  exchanged (fst names) m s s' -> exchanged (snd names) m' s' s ->
  exchanged (fst names) (m ++ written true l) t t' /\ exchanged (snd names) (m' ++ written false l) t' t.
Proof.
  induction l as [|[b a] l IH]; intros s s' t t' m m'; cbn [session_run].
  - intros [= <- <-] _ H1 H2. by rewrite !app_nil_r.
  - destruct (session_step names (b, a) (s, s')) as [[v v']|] eqn:Hstep; [|done]. intros Hrun Hw H1 H2.
    apply Forall_cons in Hw as [Hw Hws]. unfold written. cbn [map concat fst snd] in *. rewrite !app_assoc.
    apply (IH v v'); try done; destruct b; cbn in Hstep |- *; rewrite ?app_nil_r.
    + by apply (step_exchanged _ _ a s s').
    + destruct (endpoint_step _ _ _ _) as [[x x']|] eqn:Ho; [|done]. injection Hstep as <- <-.
      by apply (step_exchanged_other (snd names) _ _ a s' s x x').
    + by apply (step_exchanged_other (fst names) _ _ a s s').
    + destruct (endpoint_step _ _ _ _) as [[x x']|] eqn:Ho; [|done]. injection Hstep as <- <-.
      by apply (step_exchanged _ _ a s' s x x').
Qed.

(** ** Emptying the queues *)

Lemma session_run_app names l1 l2 s t :
  session_run names l1 s = Some t -> session_run names (l1 ++ l2) s = session_run names l2 t.
Proof.
  revert s. induction l1 as [|a l1 IH]; cbn [app session_run]; intros s; [by intros [= ->]|].
  destruct (session_step names a s) as [v|]; [apply IH | done].
Qed.

(** The same session with the processes exchanged. *)
Definition flip_action (a : bool * endpoint_action) : bool * endpoint_action := (negb (fst a), snd a).

Lemma session_step_flip names a s s' t t' :
  session_step (prod_swap names) a (s', s) = Some (t', t) -> session_step names (flip_action a) (s, s') = Some (t, t').
Proof.
  destruct a as [[] a], names as [n n']; unfold session_step; cbn [flip_action fst snd negb prod_swap].
  - by intros ->.
  - destruct (endpoint_step n a s s') as [[x x']|]; [|done]. cbn. by intros [= -> ->].
Qed.

Lemma session_run_flip names l : forall s s' t t',
  session_run (prod_swap names) l (s', s) = Some (t', t) -> session_run names (map flip_action l) (s, s') = Some (t, t').
Proof.
  induction l as [|a l IH]; intros s s' t t'; cbn [map session_run]; [by intros [= -> ->]|].
  destruct (session_step (prod_swap names) a (s', s)) as [[v' v]|] eqn:Hstep; [|done]. intros Hrun.
  rewrite (session_step_flip _ _ _ _ _ _ Hstep). by apply IH.
Qed.

(** Nothing is written. *)
Definition silent (l : list (bool * endpoint_action)) : Prop := Forall (fun a => writes (snd a) = []) l.

Lemma silent_writes_nothing l : silent l -> only_mail l /\ forall b, written b l = [].
Proof.
  intros Hl. split; [eapply Forall_impl; [exact Hl|]; cbn; intros a Ha; by rewrite Ha|]. intros b. unfold written.
  induction Hl as [|a l Ha _ IH]; [done|]. cbn [map concat]. rewrite Ha, IH. by destruct (Bool.eqb _ _).
Qed.

Lemma silent_flip l : silent l -> silent (map flip_action l).
Proof. unfold silent. by rewrite Forall_map. Qed.

(** The other process reads all that has arrived. *)
Lemma receive_packets names i q r h i' q' f' k' h' : forall f r',
  session_run names (replicate (length f) (false, Receive))
    (Endpoint i q f (packets_size f) r h, Endpoint i' q' f' k' r' h') =
  Some (Endpoint i q [] 0 r h, Endpoint i' q' f' k' (r' ++ f) h').
Proof.
  induction f as [|x f IH]; intros r'; [by rewrite app_nil_r|]. cbn [length replicate session_run].
  unfold session_step. cbn [fst snd endpoint_step ep_introduced ep_queued ep_flying ep_arrived ep_received ep_handled].
  unfold packets_size at 1 2. cbn [foldr]. fold (packets_size f). rewrite (proj2 (Nat.leb_le _ _)) by lia.
  replace (packet_size x + packets_size f - packet_size x)%nat with (packets_size f) by lia.
  cbn [fmap option_fmap option_map prod_swap mbind option_bind fst snd]. by rewrite IH, <- app_assoc.
Qed.

(** All that the one process has sent is handled by the other. *)
Lemma drain_direction names i q f k r h i' q' f' k' r' h' :
  (k <= packets_size f)%nat -> exists l, silent l /\
  session_run names l (Endpoint i q f k r h, Endpoint i' q' f' k' r' h') =
    Some (Endpoint i [] [] 0 r h,
      Endpoint i' (q' ++ concat (map (answer_to (snd names)) (r' ++ f ++ q))) f' k' [] (h' ++ r' ++ f ++ q)).
Proof.
  intros Hk. pose proof (packets_size_app f q) as Hsz. set (all := r' ++ f ++ q) in *.
  exists ((if q is [] then [] else [(true, Flush (length q))]) ++ [(true, Carry (packets_size (f ++ q) - k))] ++
    replicate (length (f ++ q)) (false, Receive) ++ (if all is [] then [] else [(false, Handle (length all))])).
  split.
  { unfold silent. rewrite !Forall_app. repeat split; repeat case_match; repeat constructor. by apply Forall_replicate. }
  rewrite (session_run_app _ _ _ _ (Endpoint i [] (f ++ q) k r h, Endpoint i' q' f' k' r' h')).
  2:{ destruct q as [|x q]; [by rewrite app_nil_r|]. cbn [session_run]. unfold session_step. cbn [fst snd endpoint_step].
      by rewrite (proj2 (Nat.ltb_lt _ _)), (proj2 (Nat.leb_le _ _)) by (cbn; lia). }
  rewrite (session_run_app _ [_] _ _ (Endpoint i [] (f ++ q) (packets_size (f ++ q)) r h, Endpoint i' q' f' k' r' h')).
  2:{ cbn [session_run]. unfold session_step. cbn [fst snd endpoint_step]. rewrite (proj2 (Nat.leb_le _ _)) by lia.
      by replace (k + (packets_size (f ++ q) - k))%nat with (packets_size (f ++ q)) by lia. }
  rewrite (session_run_app _ _ _ _ _ (receive_packets names i [] r h i' q' f' k' h' (f ++ q) r')). fold all. destruct all as [|x l]; cbn [session_run].
  - cbn. by rewrite !app_nil_r.
  - unfold session_step. cbn [fst snd endpoint_step].
    by rewrite (proj2 (Nat.ltb_lt _ _)), (proj2 (Nat.leb_le _ _)) by (cbn; lia).
Qed.
(** Introduced, with nothing left to do. *)
Definition settled (e : endpoint) : Prop := exists h, e = Endpoint true [] [] 0 [] h.

Lemma answers_to_answers name name' l : concat (map (answer_to name) (concat (map (answer_to name') l))) = [].
Proof. rewrite answers_to_hellos. by destruct (answers_kind name' l) as (_ & -> & _). Qed.

(** Whatever has happened, both processes can introduce themselves and go on until
    nothing is left to do. *)
Lemma session_settles names s s' :
  (ep_arrived s <= packets_size (ep_flying s))%nat -> (ep_arrived s' <= packets_size (ep_flying s'))%nat ->
  exists l t t', silent l /\ session_run names l (s, s') = Some (t, t') /\ settled t /\ settled t'.
Proof.
  destruct s as [i q f k r h], s' as [i' q' f' k' r' h']. cbn [ep_arrived ep_flying]. intros Hk Hk'.
  set (g := if i then f else f ++ [Hello (fst names)]). set (g' := if i' then f' else f' ++ [Hello (snd names)]).
  assert (Hg : (k <= packets_size g)%nat) by (unfold g; destruct i; [done | rewrite packets_size_app; lia]).
  assert (Hg' : (k' <= packets_size g')%nat) by (unfold g'; destruct i'; [done | rewrite packets_size_app; lia]).
  destruct (drain_direction names true q g k r h true q' g' k' r' h' Hg) as (l1 & Hs1 & H1).
  set (q1 := q' ++ _) in H1. set (h1 := h' ++ _) in H1.
  destruct (drain_direction (prod_swap names) true q1 g' k' [] h1 true [] [] 0 r h Hg') as (l2 & Hs2 & H2).
  apply session_run_flip in H2. set (h2 := h ++ _) in H2. cbn [app snd prod_swap] in H2.
  destruct (drain_direction names true (concat (map (answer_to (fst names)) (r ++ g' ++ q1))) [] 0 [] h2 true [] [] 0 [] h1 ltac:(lia))
    as (l3 & Hs3 & H3). cbn [app] in H3. rewrite answers_to_answers in H3.
  eexists ([(true, Introduce); (false, Introduce)] ++ l1 ++ map flip_action l2 ++ l3), _, _.
  split; [|split; [|by split; eexists]].
  - unfold silent in *. rewrite !Forall_app. repeat split; try done; [by repeat constructor | by apply silent_flip].
  - rewrite (session_run_app _ _ _ _ (Endpoint true q g k r h, Endpoint true q' g' k' r' h')) by done.
    by rewrite (session_run_app _ _ _ _ _ H1), (session_run_app _ _ _ _ _ H2).
Qed.

(** ** One of the two processes *)

Definition holds_packet (ctx : Z) (p : packet) (r : queued) : Prop :=
  qm_header r = packet_header p /\ qm_string r = packet_string p /\ qm_context r = ctx.

(** What handling a packet of the context [ctx] does to the names of the peers, and
    the calls it makes of the trampolines. *)
Definition name_after (ctx : Z) (names : list (option (list Z))) (p : packet) : list (option (list Z)) :=
  match p with Hello name => <[Z.to_nat ctx := Some name]> names | Letter _ _ => names end.
Definition packet_calls (fs : list Z) (ctx : Z) (p : packet) : list event :=
  match p with Hello _ => [] | Letter type text => map (fun f => TrampolineCall f ctx type (Some text)) fs end.

Lemma packet_header_wf p : packet_ok p -> header_wf (packet_header p).
Proof.
  intros (_ & Hl & Hu). destruct p as [name|type text]; cbn [packet_header packet_string] in *;
    (split; [by vm_compute|]; split; [cbn [handshake_header user_header_of message_length]; lia|]);
    [apply handshake_uuid_wf | exact Hu].
Qed.

Lemma packet_identified p :
  CONNECTOR_IDENTIFY_MESSAGE (description (packet_header p)) = true /\
  message_length (packet_header p) = Z.of_nat (length (packet_string p)).
Proof. by destruct p. Qed.

Lemma packet_message_ok ctx p r : 0 <= ctx < 32 -> packet_ok p -> holds_packet ctx p r -> message_ok r.
Proof.
  intros Hi Hp (Hh & Hs & Hx). pose proof (packet_header_wf p Hp) as (_ & _ & Hu). destruct Hp as (Hcs & Hl & _).
  constructor; rewrite ?Hs, ?Hh, ?Hx; (done || lia).
Qed.

Lemma packet_names ctx ps rs :
  Forall2 (holds_packet ctx) ps rs -> forall names, fold_left name_peer rs names = fold_left (name_after ctx) ps names.
Proof.
  induction 1 as [|p r ps rs (Hh & Hs & Hx) _ IH]; intros names; [done|]. cbn [fold_left]. rewrite IH. f_equal.
  unfold name_peer, is_handshake. rewrite Hh, Hs, Hx. by destruct p.
Qed.

Lemma packet_answers ctx name ps rs :
  Forall2 (holds_packet ctx) ps rs -> forall news, Forall2 (answers name) (List.filter is_handshake rs) news ->
  Forall2 (holds_packet ctx) (concat (map (answer_to name) ps)) news.
Proof.
  induction 1 as [|p r ps rs (Hh & Hs & Hx) _ IH]; intros news; cbn [map concat List.filter].
  - by intros ->%Forall2_nil_inv_l.
  - assert (Hi : is_handshake r = match p with Hello _ => true | Letter _ _ => false end)
      by (unfold is_handshake; rewrite Hh; by destruct p).
    rewrite Hi. destruct p; [|apply IH]. intros (a & tail & (Ha & Hn & Hc) & Htail & ->)%Forall2_cons_inv_l.
    constructor; [|by apply IH]. by rewrite Hx in Hc.
Qed.

Lemma packet_events fs ctx ps rs :
  Forall2 (holds_packet ctx) ps rs ->
  calls (concat (map (dispatch_events fs) rs)) = concat (map (packet_calls fs ctx) ps).
Proof.
  induction 1 as [|p r ps rs (Hh & Hs & Hx) _ IH]; [done|]. cbn [map concat]. rewrite calls_app, IH. f_equal.
  unfold dispatch_events, is_user, is_handshake, deliveries. rewrite Hh, Hs, Hx. destruct p as [name|type text]; [done|].
  cbn [packet_header user_header_of description]. change (negb _) with true. cbn iota.
  clear. induction fs as [|f fs IH]; [done|]. cbn. f_equal. exact IH.
Qed.

(** ** The connection

    The socket of a process: sending appends to what is on its way out and never
    fails, receiving takes bytes that have arrived, and neither touches the other
    direction.  The network moves bytes from the one socket to the other. *)
Class Socket (E : Type) {P : Platform E} (fd : Z) := {
  sk_out : E -> list Z;
  sk_in : E -> list Z;
  sk_send bs e : exists r e', send fd bs e = (r, e') /\ 0 <= r /\ sk_out e' = sk_out e ++ bs /\ sk_in e' = sk_in e;
  sk_recv (n : nat) e : (n <= length (sk_in e))%nat ->
    exists e', recv fd (Z.of_nat n) e = ((Z.of_nat n, take n (sk_in e)), e') /\ sk_in e' = drop n (sk_in e);
  sk_recv_out n e : sk_out (snd (recv fd n e)) = sk_out e
}.

Class Network (E E' : Type) {P : Platform E} {P' : Platform E'} (fd fd' : Z) {S : Socket E fd} {S' : Socket E' fd'} := {
  carry : nat -> E -> E' -> E * E';
  carry_from n e e' : sk_out (fst (carry n e e')) = drop n (sk_out e) /\ sk_in (fst (carry n e e')) = sk_in e;
  carry_to n e e' : sk_in (snd (carry n e e')) = sk_in e' ++ take n (sk_out e) /\ sk_out (snd (carry n e e')) = sk_out e'
}.

Definition network_link {E E' P P' fd fd' S S'} (N : @Network E E' P P' fd fd' S S') : Link E E' fd fd'.
Proof.
  refine {| link_out := sk_out; link_in := sk_in; link_carry := carry |}.
  - intros bs e. destruct (sk_send bs e) as (r & e' & Hs & _ & Ho & _). eauto.
  - apply sk_recv.
  - intros n e e'. apply carry_from.
  - intros n e e'. apply carry_to.
Defined.

(** The bytes of a packet on the wire. *)
Definition packet_bytes {E} {P : Platform E} (pad : Z) (p : packet) : list Z :=
  message_bytes (@host_order E P) [pad; pad] (packet_header p) (packet_string p).

Section side.
Context {E : Type} {P : Platform E} (ctx fd : Z).
Implicit Types w u : world E.

(** The bit of the configuration that says the handshake was sent. *)
Definition marked (introduced : bool) : Z :=
  if introduced then SUBSTANCE_CONNECTOR_HANDSHAKE_SENT else SUBSTANCE_CONNECTOR_HANDSHAKE_NOT_SENT.

(** The context is a TCP context that is connected, with descriptor [fd]. *)
Definition linked (introduced : bool) w : Prop :=
  exists c, context_list w !! Z.to_nat ctx = Some c /\ connection_index c 0 = 1%nat /\
    Z.land (configuration c) SUBSTANCE_CONNECTOR_CONN_MASK = SUBSTANCE_CONNECTOR_CONN_CONNECTED /\
    fd_of c = fd /\ Z.land (configuration c) SUBSTANCE_CONNECTOR_HANDSHAKE_MASK = marked introduced.

(** The state of the process that was [u] before the session, with the trampolines
    [fs] and the name [name], its queues holding [queued] and [received], having
    handled [handled]. *)
Record side u (fs name : list Z) (names : list (option (list Z))) (introduced : bool)
    (queued received handled : list packet) w : Prop := {
  sd_range : 0 <= ctx < 32;
  sd_state : module_state w = SUBSTANCE_CONNECTOR_STATE_INIT_FINISHED;
  sd_config : mem_config_eq (mem u) (mem w);
  sd_context : linked introduced w;
  sd_queues : exists ins outs,
    dispatching [] w fs name (fold_left (name_after ctx) handled names) ins outs /\
    Forall2 (holds_packet ctx) received ins /\ Forall2 (holds_packet ctx) queued outs /\
    forall a, others [] w ins outs a = others [] u [] [] a;
  sd_calls : calls (trace w) = calls (trace u) ++ concat (map (packet_calls fs ctx) handled)
}.

(** A text that the application has in memory. *)
Definition given u (text : Z) (s : list Z) : Prop := (text ∉ strings u) /\ points_to_string (mem u) text s.

Lemma given_others u w ins outs text s :
  given u text s -> mem_config_eq (mem u) (mem w) -> others [] w ins outs text = others [] u [] [] text ->
  points_to_string (mem w) text s.
Proof.
  intros [Hs Hp] Hc Ho. unfold points_to_string, owns in *. rewrite (config_free _ _ Hc), <- Hp.
  unfold others in Ho. change (blocks [] [] [] ++ strings u) with (strings u) in Ho.
  rewrite (decide_False (P := text ∈ strings u)) in Ho by done. rewrite Hp in Ho |- *.
  case_decide; [done | exact Ho].
Qed.

Lemma side_writes u fs name names i q r h w type text s :
  side u fs name names i q r h w -> packet_ok (Letter type s) -> given u text s ->
  exists w', succeeds (substance_connector_write_message ctx (Some type) text w) = Some w' /\
    side u fs name names i (q ++ [Letter type s]) r h w' /\ env w' = env w.
Proof.
  intros [Hi Hst Hcfg Hl (ins & outs & Hd & Hr & Hq & Ho) Hc] Hp Hg. pose proof Hp as (Hcs & Hlen & _).
  pose proof Hd as [[Hwf Hs _] _ _ _ _ _ _ [Hlq _ _ _] _ _ _ _].
  destruct (write_message_adds w ctx type text s (map (fun r => (qm_node r, qm_message r)) outs) Hst Hwf Hs Hcs
      (given_others u w ins outs text s Hg Hcfg (Ho text)))
    as (m' & q' & node & p & Hrun & Hwf' & Hcfg' & Hq' & Hm & Ht & Hnd & Hf & Hh); [cbn in Hlen; lia | done |].
  rewrite Hrun. eexists. split; [reflexivity|]. split; [|done].
  destruct (dispatching_out w (set_trace (trace w ++ [SignalOutbound]) (set_queues (set_outbound q' (queues w)) (set_mem m' w)))
    fs name _ ins outs (Queued node p (p + 1) (user_header_of type s) s ctx) Hd) as [Hd' Ho']; try done.
  - by rewrite <- map_queued_nodes.
  - constructor; try done; [by transitivity (mem w) | | by cbn [trace set_trace]; rewrite calls_app, app_nil_r].
    exists ins, (outs ++ [Queued node p (p + 1) (user_header_of type s) s ctx]). split; [done|]. split; [done|].
    split; [apply Forall2_app; [done | by repeat constructor]|]. intros a. by rewrite Ho'.
Qed.

Lemma side_receives u fs name names i q r h w p o pad e1 e2 :
  side u fs name names i q r h w -> packet_ok p -> length pad = 2%nat ->
  recv fd sizeof_header (env w) =
    ((sizeof_header, header_image o pad (connector_htonheader o (packet_header p))), e1) ->
  recv fd (Z.of_nat (length (packet_string p))) e1 = ((Z.of_nat (length (packet_string p)), packet_string p), e2) ->
  exists w', succeeds (connector_read_thread_handle_context ctx w) = Some w' /\
    side u fs name names i q (r ++ [p]) h w' /\ env w' = e2.
Proof.
  intros [Hi Hst Hcfg Hl (ins & outs & Hd & Hr & Hq & Ho) Hc] Hp Hpad Hr1 Hr2.
  destruct (packet_identified p) as [Hid Hlen]. pose proof Hp as (_ & Hlim & _).
  pose proof Hd as [[Hwf Hs _] _ _ _ _ _ [Hlq _ _ _] _ _ _ _ _]. pose proof Hl as (c & Hcx & Hidx & Hconn & Hfd & _).
  rewrite <- Hlen in Hr2.
  destruct (handle_context_receives w ctx c (map (fun r => (qm_node r, qm_message r)) ins) o pad (packet_header p)
      (packet_string p) e1 e2) as (m' & q' & node & x & t & Hrun & Hwf' & Hcfg' & Hq' & Hm & Ht & Hnd & Hf & Hh);
    rewrite ?Hfd; try done; [by apply packet_header_wf | lia |].
  rewrite Hrun. eexists. split; [reflexivity|]. split; [|done]. set (y := Queued node x t (packet_header p) (packet_string p) ctx).
  destruct (dispatching_in w (set_trace (trace w ++ [SignalDispatch])
        (set_queues (set_inbound q' (queues w)) (set_mem m' (set_env e2 w))))
    fs name _ ins outs y Hd) as [Hd' Ho']; try done.
  - by rewrite <- map_queued_nodes.
  - constructor; try done; [by transitivity (mem w) | | by cbn [trace set_trace]; rewrite calls_app, app_nil_r].
    exists (ins ++ [y]), outs. split; [done|]. split; [apply Forall2_app; [done | by repeat constructor]|].
    split; [done|]. intros a. by rewrite Ho'.
Qed.

Lemma linked_dispatched i w w' : dispatched w w' -> linked i w -> linked i w'.
Proof.
  intros [_ _ _ _ _ _ _ Heq] (c & Hc & Hidx & Hconn & Hfd & Hm). unfold linked.
  assert (Hl : map (set_context_name 0) (context_list w') !! Z.to_nat ctx = Some (set_context_name 0 c))
    by (by rewrite Heq, list_lookup_fmap, Hc).
  rewrite list_lookup_fmap in Hl. destruct (context_list w' !! Z.to_nat ctx) as [d|]; [|done].
  destruct c, d. injection Hl as -> -> -> -> ->. by eexists.
Qed.

Lemma side_handles u fs name names i q r h w fuel :
  side u fs name names i q r h w -> Forall packet_ok r -> r <> [] -> (length r <= fuel)%nat ->
  exists w', goes_on (dispatch_round (B := recording_bindings E) false [] (replicate fuel false) w) = Some w' /\
    side u fs name names i (q ++ concat (map (answer_to name) r)) [] (h ++ r) w' /\ env w' = env w.
Proof.
  intros [Hi Hst Hcfg Hl (ins & outs & Hd & Hr & Hq & Ho) Hc] Hp Hne Hfuel.
  pose proof (Forall2_length _ _ _ Hr) as Hlen.
  assert (Hok : Forall message_ok ins).
  { apply (Forall2_Forall_r _ _ _ _ Hr). eapply Forall_impl; [exact Hp|]. intros p Hpp x Hx. by apply (packet_message_ok ctx p). }
  destruct ins as [|x ins]; [by apply Forall2_nil_inv_r in Hr|].
  destruct (round_dispatches w fs name _ x ins outs false (replicate fuel false) Hd Hok) as (w1 & news & Hrun & [Hd1 Ha Ht He Ho1]).
  { by apply Forall_replicate. }
  { rewrite length_replicate. cbn in Hlen. lia. }
  rewrite Hrun. eexists. split; [reflexivity|]. rewrite app_nil_r. pose proof He as [Henv Hcfg1 Hst1 _ _ _ _ _].
  split; [|exact Henv]. constructor; try done.
  - cbn [module_state set_trace]. congruence.
  - by transitivity (mem w).
  - exact (linked_dispatched i w w1 He Hl).
  - rewrite (packet_names ctx _ _ Hr) in Hd1. rewrite fold_left_app.
    exists [], (outs ++ news). split; [by apply dispatching_traced|]. split; [done|].
    split; [apply Forall2_app; [done | by eapply packet_answers]|]. intros a. etransitivity; [apply Ho1 | apply Ho].
  - cbn [trace set_trace]. rewrite Ht, !calls_app, (packet_events fs ctx _ _ Hr), Hc, map_app, concat_app. by rewrite app_assoc.
Qed.

Lemma side_env u fs name names i q r h w e :
  side u fs name names i q r h w -> side u fs name names i q r h (set_env e w).
Proof.
  intros [Hi Hst Hcfg Hl (ins & outs & Hd & Hrest) Hc]. constructor; try done. exists ins, outs. split; [|done].
  destruct Hd as [[] ? ? ? ? ? ? ? ? ? ? ?]. by constructor.
Qed.

Context {S : Socket E fd}.

(** The write thread passes the bytes of every packet to the socket. *)
Lemma send_packets cl pad c ps rs : 0 <= ctx < 32 -> cl !! Z.to_nat ctx = Some c ->
  Z.land (configuration c) SUBSTANCE_CONNECTOR_CONN_MASK = SUBSTANCE_CONNECTOR_CONN_CONNECTED ->
  fd_of c = fd -> Forall2 (holds_packet ctx) ps rs -> forall e : E,
  let e' := fold_left (fun e r => send_queued cl pad r e) rs e in
  sk_out e' = sk_out e ++ concat (map (packet_bytes pad) ps) /\ sk_in e' = sk_in e.
Proof.
  intros Hi Hc Hconn Hfd Hn. induction Hn as [|p r ps rs (Hh & Hs & Hx) _ IH]; intros e; [by rewrite app_nil_r|].
  cbn [fold_left map concat]. destruct (IH (send_queued cl pad r e)) as [Ho Hin]. cbn zeta. rewrite Ho, Hin, app_assoc.
  unfold send_queued. rewrite Hx, Hc, Hconn, Z.eqb_refl. unfold SUBSTANCE_CONNECTOR_CONTEXT_COUNT.
  rewrite (proj2 (Z.ltb_lt _ _)) by lia. cbn [andb]. rewrite Hfd, Hh, Hs. fold (packet_bytes pad p).
  destruct (sk_send (packet_bytes pad p) e) as (x & e' & Hsend & _ & Ho' & Hin'). by rewrite Hsend, <- Ho'.
Qed.

Lemma side_flushes u fs name names i q r h w fuel :
  side u fs name names i q r h w -> q <> [] -> (length q <= fuel)%nat ->
  exists w', goes_on (write_round [false] fuel w) = Some w' /\ side u fs name names i [] r h w' /\
    sk_out (env w') = sk_out (env w) ++ concat (map (packet_bytes (junk (mem u))) q) /\ sk_in (env w') = sk_in (env w).
Proof.
  intros [Hi Hst Hcfg Hl (ins & outs & Hd & Hr & Hq & Ho) Hc] Hne Hfuel.
  pose proof (Forall2_length _ _ _ Hq) as Hlen. pose proof Hl as (c & Hcx & Hidx & Hconn & Hfd & _).
  pose proof (send_packets (context_list w) (junk (mem w)) c q outs Hi Hcx Hconn Hfd Hq (env w)) as [Hout Hin].
  destruct outs as [|x outs]; [by apply Forall2_nil_inv_r in Hq|].
  pose proof Hd as [[Hwf Hs _] _ _ _ Hcl _ _ Hqq _ _ _ _].
  destruct (write_round_spec w x outs fuel) as (m' & q' & Hrun & Hh & Hq'); try done; [| cbn in Hlen; lia |].
  { apply (Forall2_Forall_r _ _ _ _ Hq), Forall_forall. intros p _ y (Hhd & Hsy & Hx). destruct (packet_identified p) as [_ Hlp].
    unfold writable. rewrite Hhd, Hsy, Hx. split; [done|]. right. eauto. }
  rewrite Hrun. eexists. split; [reflexivity|]. rewrite <- (config_junk _ _ Hcfg). split; [|by split].
  destruct (dispatching_flushed w m' q' fs name _ ins (x :: outs) Hd Hh Hq') as [Hd' Ho'].
  constructor; try done; [destruct Hh; by transitivity (mem w)|].
  exists ins, []. split; [destruct Hd' as [[] ? ? ? ? ? ? ? ? ? ? ?]; constructor; try done|].
  split; [done|]. split; [done|]. intros a. by rewrite <- Ho, <- Ho'.
Qed.
(** Setting the bit of the handshake. *)
Lemma linked_marked w w' c :
  context_list w !! Z.to_nat ctx = Some c -> linked false w ->
  context_list w' = <[Z.to_nat ctx := set_configuration (Z.lor (configuration c) SUBSTANCE_CONNECTOR_HANDSHAKE_SENT) c]> (context_list w) ->
  linked true w'.
Proof.
  intros Hc (d & Hd & Hidx & Hconn & Hfd & _) Heq. assert (d = c) as -> by congruence.
  eexists. rewrite Heq. split; [apply list_lookup_insert_eq; by eapply lookup_lt_Some|].
  unfold connection_index in *. cbn [configuration set_configuration]. rewrite !Z.land_lor_distr_l.
  assert (Hor : forall mask, Z.land SUBSTANCE_CONNECTOR_HANDSHAKE_SENT mask = 0 ->
    Z.lor (Z.land (configuration c) mask) (Z.land SUBSTANCE_CONNECTOR_HANDSHAKE_SENT mask) = Z.land (configuration c) mask)
    by (intros mask ->; apply Z.lor_0_r).
  rewrite (Hor SUBSTANCE_CONNECTOR_COMM_MASK), (Hor SUBSTANCE_CONNECTOR_CONN_MASK) by done. split; [done|]. split; [done|].
  split; [done|]. apply Z.bits_inj'. intros n Hn. rewrite Z.lor_spec, !Z.land_spec. cbn [marked].
  unfold SUBSTANCE_CONNECTOR_HANDSHAKE_SENT, SUBSTANCE_CONNECTOR_HANDSHAKE_MASK.
  destruct (Z.testbit 2048 n), (Z.testbit (configuration c) n); done.
Qed.

Lemma side_introduces u fs name names i q r h w :
  side u fs name names i q r h w ->
  exists w', succeeds (connector_context_write_handshake ctx w) = Some w' /\ side u fs name names true q r h w' /\
    sk_out (env w') = sk_out (env w) ++ (if i then [] else packet_bytes (junk (mem u)) (Hello name)) /\
    sk_in (env w') = sk_in (env w).
Proof.
  intros Hside. pose proof Hside as [Hi Hst Hcfg Hl (ins & outs & Hd & Hr & Hq & Ho) Hc].
  pose proof Hl as (c & Hcx & Hidx & Hconn & Hfd & Hm). destruct i.
  - exists w. rewrite app_nil_r. split; [|by split].
    unfold connector_context_write_handshake, SUBSTANCE_CONNECTOR_CONTEXT_COUNT. rewrite (proj2 (Z.ltb_lt ctx 32)) by lia.
    by rewrite (bind_done _ _ _ _ _ (load_context_some w _ c Hcx)), Hm.
  - pose proof Hd as [[Hwf Hs _] Hcs Hn Hlen Hcl Hnames Hin Hout _ _ _ _]. rewrite <- (config_junk _ _ Hcfg).
    set (bs := packet_bytes (junk (mem w)) (Hello name)).
    destruct (sk_send bs (env w)) as (x & e' & Hsend & Hx & Hso & Hsi).
    destruct (write_handshake_spec w ctx c (application_name w) name x e') as (m' & Hrun & Hwf' & Hcfg' & Hh);
      try done; [by rewrite Hfd|].
    cbv zeta in Hrun. rewrite (proj2 (Z.ltb_ge x 0)) in Hrun by lia. rewrite Hrun. eexists. split; [reflexivity|].
    split; [|by split]. match goal with |- side _ _ _ _ _ _ _ _ ?x => set (w' := x) end.
    destruct (dispatching_same w w' fs name _ ins outs Hd) as [Hd' Ho']; try done.
    + cbn. rewrite list_fmap_insert. apply list_insert_id. by rewrite list_lookup_fmap, Hcx.
    + constructor; try done; [by transitivity (mem w) | by apply (linked_marked w w' c)|].
      exists ins, outs. do 3 (split; [done|]). intros a. by rewrite Ho', Ho.
Qed.
End side.

(** ** The two processes together *)

(** A step of a process, [w'] being the other: the call succeeds, the round of the
    thread ends and the thread goes on. *)
Definition process_step {E E' P P' fd fd'} {S : @Socket E P fd} {S' : @Socket E' P' fd'} {N : Network E E' fd fd'}
    (ctx : Z) (a : endpoint_action) (w : world E) (w' : world E') : option (world E * world E') :=
  match a with
  | Write type text _ => v ← succeeds (substance_connector_write_message ctx (Some type) text w); Some (v, w')
  | Introduce => v ← succeeds (connector_context_write_handshake ctx w); Some (v, w')
  | Flush fuel => v ← goes_on (write_round [false] fuel w); Some (v, w')
  | Carry n => let '(e, e') := carry n (env w) (env w') in Some (set_env e w, set_env e' w')
  | Receive => v ← succeeds (connector_read_thread_handle_context ctx w); Some (v, w')
  | Handle fuel =>
      v ← goes_on (dispatch_round (B := recording_bindings E) false [] (replicate fuel false) w); Some (v, w')
  end.

(** What is known of a process before the session: its state, trampolines and name,
    and the names of its peers. *)
Record party (E : Type) := Party {
  pt_start : world E;
  pt_trampolines : list Z;
  pt_name : list Z;
  pt_names : list (option (list Z))
}.
Arguments Party {E}.
Arguments pt_start {E}.
Arguments pt_trampolines {E}.
Arguments pt_name {E}.
Arguments pt_names {E}.

Definition party_side {E} {P : Platform E} (ctx fd : Z) (p : party E) (s : endpoint) (w : world E) : Prop :=
  side ctx fd (pt_start p) (pt_trampolines p) (pt_name p) (pt_names p)
    (ep_introduced s) (ep_queued s) (ep_received s) (ep_handled s) w.

(** The bytes between the two sockets, from [e] to [e']. *)
Definition wire {E E' P P' fd fd'} {S : @Socket E P fd} {S' : @Socket E' P' fd'} (pad : Z) (s : endpoint) (e : E) (e' : E') : Prop :=
  sk_in e' ++ sk_out e = concat (map (packet_bytes (P := P) pad) (ep_flying s)) /\ length (sk_in e') = ep_arrived s.

Definition endpoint_ok (s : endpoint) : Prop := Forall packet_ok (ep_queued s ++ ep_flying s ++ ep_received s).

(** What an application may write: texts it has in memory all the time. *)
Definition action_ok {E} (p : party E) (a : endpoint_action) : Prop :=
  match a with
  | Write type text s => packet_ok (Letter type s) /\ given (pt_start p) text s
  | _ => True
  end.

Lemma length_packet_bytes {E} {P : Platform E} pad p : packet_ok p -> length (packet_bytes pad p) = packet_size p.
Proof.
  intros Hp. unfold packet_bytes, message_bytes, packet_size.
  by rewrite length_app, length_network_header by (done || by apply packet_header_wf).
Qed.

Lemma length_packets {E} {P : Platform E} pad ps :
  Forall packet_ok ps -> length (concat (map (packet_bytes pad) ps)) = packets_size ps.
Proof.
  unfold packets_size. induction 1 as [|p ps Hp _ IH]; [done|]. cbn [map concat foldr].
  by rewrite length_app, IH, length_packet_bytes.
Qed.

Section together.
Context {E E' : Type} {P : Platform E} {P' : Platform E'} {fd fd' : Z} {S : Socket E fd} {S' : Socket E' fd'}.
Context (ctx ctx' : Z).

(** The two endpoints of the specification and the two processes. *)
Record together (p : party E) (p' : party E') (s s' : endpoint) (w : world E) (w' : world E') : Prop := {
  tg_side : party_side ctx fd p s w;
  tg_side' : party_side ctx' fd' p' s' w';
  tg_wire : wire (junk (mem (pt_start p))) s (env w) (env w');
  tg_wire' : wire (junk (mem (pt_start p'))) s' (env w') (env w);
  tg_ok : endpoint_ok s;
  tg_ok' : endpoint_ok s';
  tg_name : packet_ok (Hello (pt_name p));
  tg_name' : packet_ok (Hello (pt_name p'))
}.
End together.

Lemma together_swap {E E'} {P : Platform E} {P' : Platform E'} {fd fd'} {S : Socket E fd} {S' : Socket E' fd'} ctx ctx'
    (p : party E) (p' : party E') s s' w w' :
  together ctx ctx' p p' s s' w w' -> together ctx' ctx p' p s' s w' w.
Proof. by intros []. Qed.

Section wires.
Context {E E' : Type} {P : Platform E} {P' : Platform E'} {fd fd' : Z} {S : Socket E fd} {S' : Socket E' fd'}.

(** A step that leaves what has arrived as it is and sends [new]. *)
Lemma wire_sends pad s t (e e1 : E) (e' : E') new :
  wire pad s e e' -> ep_flying t = ep_flying s ++ new -> ep_arrived t = ep_arrived s ->
  sk_out e1 = sk_out e ++ concat (map (packet_bytes (P := P) pad) new) -> wire pad t e1 e'.
Proof.
  intros [Hb Hl] Hf Ha He. split; [|congruence]. by rewrite He, app_assoc, Hb, Hf, map_app, concat_app.
Qed.

Lemma wire_same pad s t (e e1 : E) (e' e1' : E') :
  wire pad s e e' -> ep_flying t = ep_flying s -> ep_arrived t = ep_arrived s ->
  sk_out e1 = sk_out e -> sk_in e1' = sk_in e' -> wire pad t e1 e1'.
Proof. intros [Hb Hl] Hf Ha Ho Hi. split; congruence. Qed.

End wires.

Section steps.
Context {E E' : Type} {P : Platform E} {P' : Platform E'} {fd fd' : Z} {S : Socket E fd} {S' : Socket E' fd'}.
Context {N : Network E E' fd fd'} {N' : Network E' E fd' fd} (ctx ctx' : Z) (p : party E) (p' : party E').

Lemma carry_together n s s' w w' :
  together ctx ctx' p p' s s' w w' -> (ep_arrived s + n <= packets_size (ep_flying s))%nat ->
  let t := Endpoint (ep_introduced s) (ep_queued s) (ep_flying s) (ep_arrived s + n) (ep_received s) (ep_handled s) in
  exists v v', process_step ctx (Carry n) w w' = Some (v, v') /\ together ctx ctx' p p' t s' v v'.
Proof.
  intros [Hs Hs' [Hb Hl] Hw' Hok Hok' Hn Hn'] Hle t. cbn [process_step].
  destruct (carry_from n (env w) (env w')) as [Ho Hi]. destruct (carry_to n (env w) (env w')) as [Hi' Ho'].
  destruct (carry n (env w) (env w')) as [e e']. cbn [fst snd] in *. do 2 eexists. split; [reflexivity|].
  assert (Hlen : (n <= length (sk_out (env w)))%nat).
  { unfold endpoint_ok in Hok. rewrite !Forall_app in Hok. destruct Hok as (_ & Hok & _).
    apply (f_equal length) in Hb. rewrite length_app, length_packets in Hb by done. lia. }
  constructor; try done.
  - by apply side_env.
  - by apply side_env.
  - split; cbn; [by rewrite Ho, Hi', <- app_assoc, take_drop | rewrite Hi', length_app, length_take; lia].
  - by apply (wire_same _ s' s' (env w') e' (env w) e).
Qed.

(** Reading the oldest packet of the other process. *)
Lemma receive_together s s' x f w w' :
  together ctx ctx' p p' s s' w w' -> ep_flying s' = x :: f -> (packet_size x <= ep_arrived s')%nat ->
  let t := Endpoint (ep_introduced s) (ep_queued s) (ep_flying s) (ep_arrived s) (ep_received s ++ [x]) (ep_handled s) in
  let t' := Endpoint (ep_introduced s') (ep_queued s') f (ep_arrived s' - packet_size x) (ep_received s') (ep_handled s') in
  exists v v', process_step ctx Receive w w' = Some (v, v') /\ together ctx ctx' p p' t t' v v'.
Proof.
  intros [Hs Hs' Hw [Hb Hl] Hok Hok' Hn Hn'] Hf Hle t t'. unfold endpoint_ok in Hok, Hok'. rewrite Hf in Hb, Hok'.
  rewrite !Forall_app, Forall_cons in Hok'. destruct Hok' as (Hq' & [Hx Hf'] & Hr').
  pose proof (length_packet_bytes (P := P') (junk (mem (pt_start p'))) x Hx) as Hlen.
  destruct (recv_message (L := network_link N') (junk (mem (pt_start p'))) (packet_header x) (packet_string x)
    (concat (map (packet_bytes (P := P') (junk (mem (pt_start p')))) f)) (env w) (packet_header_wf x Hx))
    as (e1 & e2 & Hr1 & Hr2 & Hin); [cbn [link_in network_link]; unfold packet_size in Hle; lia | by exists (sk_out (env w')) |].
  cbn [link_in network_link] in Hin. change (message_bytes _ _ _ _) with (packet_bytes (P := P') (junk (mem (pt_start p'))) x) in Hin.
  destruct (side_receives ctx fd _ _ _ _ _ _ _ _ w x _ [_; _] e1 e2 Hs Hx eq_refl Hr1 Hr2) as (v & Hrun & Hv & He).
  cbn [process_step]. rewrite Hrun. do 2 eexists. split; [reflexivity|].
  assert (Ho : sk_out e2 = sk_out (env w)).
  { pose proof (sk_recv_out sizeof_header (env w)) as H1. rewrite Hr1 in H1.
    pose proof (sk_recv_out (Z.of_nat (length (packet_string x))) e1) as H2. rewrite Hr2 in H2. cbn in H1, H2. congruence. }
  constructor; try done.
  - apply (wire_same _ s t (env w) (env v) (env w') (env w')); try done. by rewrite He.
  - rewrite He. rewrite Hin, <- app_assoc in Hb. cbn [map concat] in Hb. apply app_inv_head in Hb.
    apply (f_equal length) in Hin. rewrite length_app, Hlen in Hin. split; [done | cbn [t' ep_arrived]; lia].
  - unfold endpoint_ok, t. cbn [ep_queued ep_flying ep_received]. by rewrite !app_assoc, (Forall_app _ _ [x]), <- app_assoc, Forall_singleton.
  - unfold endpoint_ok. cbn. by rewrite !Forall_app.
Qed.

(** The steps that concern one process only: what it sends is [new]. *)
Lemma alone_together s s' t w w' v new :
  together ctx ctx' p p' s s' w w' -> party_side ctx fd p t v ->
  sk_out (env v) = sk_out (env w) ++ concat (map (packet_bytes (P := P) (junk (mem (pt_start p)))) new) ->
  sk_in (env v) = sk_in (env w) -> ep_flying t = ep_flying s ++ new -> ep_arrived t = ep_arrived s -> endpoint_ok t ->
  together ctx ctx' p p' t s' v w'.
Proof.
  intros [Hs Hs' Hw Hw' Hok Hok' Hn Hn'] Hv Ho Hi Hf Ha Ht. constructor; try done.
  - by apply (wire_sends _ s t (env w) (env v) (env w') new).
  - by apply (wire_same _ s' s' (env w') (env w') (env w) (env v)).
Qed.

Lemma answers_ok l : packet_ok (Hello (pt_name p)) -> Forall packet_ok (concat (map (answer_to (pt_name p)) l)).
Proof.
  intros (Hcs & Hl & _). induction l as [|[name|type text] l IH]; [done | | exact IH].
  cbn [map concat answer_to app]. constructor; [|exact IH]. split; [done|]. split; [done | apply handshake_uuid_wf].
Qed.

Lemma step_together a s s' t t' w w' :
  together ctx ctx' p p' s s' w w' -> action_ok p a -> endpoint_step (pt_name p) a s s' = Some (t, t') ->
  exists v v', process_step ctx a w w' = Some (v, v') /\ together ctx ctx' p p' t t' v v'.
Proof.
  intros Htog Ha. pose proof Htog as [Hs _ _ _ Hok _ Hn _]. destruct s as [i q f k r h]. unfold party_side, endpoint_ok in Hs, Hok.
  cbn [ep_introduced ep_queued ep_flying ep_arrived ep_received ep_handled] in *.
  pose proof Hok as (Hq & (Hf & Hr)%Forall_app)%Forall_app.
  destruct a as [type text str| |fuel|n| |fuel]; cbn [endpoint_step process_step].
  - intros [= <- <-]. destruct Ha as [Hp Hg].
    destruct (side_writes ctx fd _ _ _ _ _ _ _ _ w type text str Hs Hp Hg) as (v & Hrun & Hv & He). rewrite Hrun.
    exists v, w'. split; [done|]. apply (alone_together _ _ _ w w' v [] Htog); rewrite ?He, ?app_nil_r; try done.
    unfold endpoint_ok. cbn. rewrite <- app_assoc, Forall_app. cbn [app]. by rewrite Forall_cons, Forall_app.
  - intros [= <- <-]. destruct (side_introduces ctx fd _ _ _ _ _ _ _ _ w Hs) as (v & Hrun & Hv & Ho & Hi). rewrite Hrun.
    exists v, w'. split; [done|].
    apply (alone_together _ _ _ w w' v (if i then [] else [Hello (pt_name p)]) Htog); try done.
    + rewrite Ho. by destruct i; [|cbn; rewrite app_nil_r].
    + by destruct i; [rewrite app_nil_r|].
    + unfold endpoint_ok. cbn. rewrite !Forall_app. destruct i; [done|]. rewrite Forall_app, Forall_singleton. done.
  - destruct (Nat.ltb_spec 0 (length q)); [|done]. destruct (Nat.leb_spec (length q) fuel); [|done]. intros [= <- <-].
    destruct (side_flushes ctx fd _ _ _ _ _ _ _ _ w fuel Hs) as (v & Hrun & Hv & Ho & Hi); [by destruct q; [cbn in *; lia|] | done |].
    rewrite Hrun. exists v, w'. split; [done|]. apply (alone_together _ _ _ w w' v q Htog); try done.
    unfold endpoint_ok. cbn. by rewrite !Forall_app.
  - destruct (Nat.leb_spec (k + n) (packets_size f)); [|done]. intros [= <- <-]. by apply (carry_together n _ s' w w' Htog).
  - destruct (ep_flying s') as [|x f'] eqn:Hfl; [done|]. destruct (Nat.leb_spec (packet_size x) (ep_arrived s')); [|done].
    intros [= <- <-]. by apply (receive_together _ s' x f' w w' Htog).
  - destruct (Nat.ltb_spec 0 (length r)); [|done]. destruct (Nat.leb_spec (length r) fuel); [|done]. intros [= <- <-].
    destruct (side_handles ctx fd _ _ _ _ _ _ _ _ w fuel Hs) as (v & Hrun & Hv & He); [done | by destruct r; [cbn in *; lia|] | done |].
    rewrite Hrun. exists v, w'. split; [done|]. apply (alone_together _ _ _ w w' v [] Htog); rewrite ?He, ?app_nil_r; try done.
    unfold endpoint_ok. cbn. rewrite app_nil_r, !Forall_app. split; [|done]. split; [done | by apply answers_ok].
Qed.
End steps.

Section session.
Context {E E' : Type} {P : Platform E} {P' : Platform E'} {fd fd' : Z} {S : Socket E fd} {S' : Socket E' fd'}.
Context {N : Network E E' fd fd'} {N' : Network E' E fd' fd} (ctx ctx' : Z) (p : party E) (p' : party E').

(** A step of the one process or of the other. *)
Definition processes_step (a : bool * endpoint_action) (s : world E * world E') : option (world E * world E') :=
  if fst a then process_step ctx (snd a) (fst s) (snd s)
  else prod_swap <$> process_step ctx' (snd a) (snd s) (fst s).

Fixpoint processes_run (l : list (bool * endpoint_action)) (s : world E * world E') : option (world E * world E') :=
  match l with
  | [] => Some s
  | a :: l => s' ← processes_step a s; processes_run l s'
  end.

Definition names_of : list Z * list Z := (pt_name p, pt_name p').
Definition actions_ok (l : list (bool * endpoint_action)) : Prop :=
  Forall (fun a : bool * endpoint_action => if fst a then action_ok p (snd a) else action_ok p' (snd a)) l.

Lemma run_together l : forall s s' t t' w w',
  together ctx ctx' p p' s s' w w' -> actions_ok l -> session_run names_of l (s, s') = Some (t, t') ->
  exists v v', processes_run l (w, w') = Some (v, v') /\ together ctx ctx' p p' t t' v v'.
Proof.
  induction l as [|[b a] l IH]; intros s s' t t' w w' Htog Hok; cbn [session_run processes_run].
  - intros [= <- <-]. eauto.
  - apply Forall_cons in Hok as [Ha Hok]. destruct (session_step names_of (b, a) (s, s')) as [[x x']|] eqn:Hstep; [|done].
    cbn [mbind option_bind]. intros Hrun.
    assert (Hone : exists v v', processes_step (b, a) (w, w') = Some (v, v') /\ together ctx ctx' p p' x x' v v').
    { destruct b; unfold session_step in Hstep; unfold processes_step; cbn [fst snd names_of] in *.
      - by apply (step_together ctx ctx' p p' a s s').
      - destruct (endpoint_step _ _ _ _) as [[y' y]|] eqn:Ho; [|done]. injection Hstep as -> ->.
        destruct (step_together ctx' ctx p' p a s' s x' x w' w) as (v' & v & Hv & Ht); [by apply together_swap | done | done |].
        exists v, v'. rewrite Hv. split; [done | by apply together_swap]. }
    destruct Hone as (v & v' & Hv & Ht). rewrite Hv. cbn. by apply (IH x x').
Qed.

(** A process with an open connection that has not introduced itself: nothing is
    queued and nothing is on its way. *)
Record ready {E0} {P0 : Platform E0} {fd0} {S0 : Socket E0 fd0} (ctx0 : Z) (p0 : party E0) : Prop := {
  rd_range : 0 <= ctx0 < 32;
  rd_state : module_state (pt_start p0) = SUBSTANCE_CONNECTOR_STATE_INIT_FINISHED;
  rd_linked : linked ctx0 fd0 false (pt_start p0);
  rd_dispatching : dispatching [] (pt_start p0) (pt_trampolines p0) (pt_name p0) (pt_names p0) [] [];
  rd_name : packet_ok (Hello (pt_name p0));
  rd_out : sk_out (env (pt_start p0)) = [];
  rd_in : sk_in (env (pt_start p0)) = []
}.

Lemma ready_side {E0} {P0 : Platform E0} {fd0} {S0 : Socket E0 fd0} ctx0 (p0 : party E0) :
  ready ctx0 p0 -> party_side ctx0 fd0 p0 fresh_endpoint (pt_start p0).
Proof. intros []. constructor; try done; [by exists [], [] | cbn; by rewrite app_nil_r]. Qed.

Lemma ready_together :
  ready ctx p -> ready ctx' p' -> together ctx ctx' p p' fresh_endpoint fresh_endpoint (pt_start p) (pt_start p').
Proof.
  intros Hp Hp'. pose proof (ready_side _ _ Hp). pose proof (ready_side _ _ Hp').
  destruct Hp as [_ _ _ _ ? Ho Hi], Hp' as [_ _ _ _ ? Ho' Hi'].
  constructor; try done; try apply Forall_nil_2; split; cbn; by rewrite ?Ho, ?Hi, ?Ho', ?Hi'.
Qed.

(** What a session leads to, on the one side: [handled] has made the calls of the
    trampolines, the peer is known by its name, the queues are empty, and nothing
    else in memory has changed. *)
Record acquainted {E0} {P0 : Platform E0} (ctx0 : Z) (p0 : party E0) (peer : list Z) (mail : list packet)
    (w : world E0) : Prop := {
  ac_calls : exists handled,
    calls (trace w) = calls (trace (pt_start p0)) ++ concat (map (packet_calls (pt_trampolines p0) ctx0) handled) /\
    List.filter is_mail handled = mail /\ List.filter is_hello handled = [Hello peer] /\
    List.filter is_answer handled = [Letter connector_internal_handshake_uuid peer];
  ac_name : exists c, context_list w !! Z.to_nat ctx0 = Some c /\ points_to_string (mem w) (cx_application_name c) peer;
  ac_inbound : all_queued (mem w) (inbound_queue (queues w)) [];
  ac_outbound : all_queued (mem w) (outbound_queue (queues w)) [];
  ac_others a : others [] w [] [] a = others [] (pt_start p0) [] [] a
}.

Lemma name_after_hellos ctx0 handled : forall names,
  fold_left (name_after ctx0) handled names = fold_left (name_after ctx0) (List.filter is_hello handled) names.
Proof. induction handled as [|[s|type s] handled IH]; intros names; [done | apply IH | apply IH]. Qed.

Lemma settled_acquainted {E0} {P0 : Platform E0} ctx0 fd0 (p0 : party E0) name peer mail mail' h h' w :
  party_side ctx0 fd0 p0 (Endpoint true [] [] 0 [] h) w ->
  exchanged peer mail (Endpoint true [] [] 0 [] h') (Endpoint true [] [] 0 [] h) ->
  exchanged name mail' (Endpoint true [] [] 0 [] h) (Endpoint true [] [] 0 [] h') -> acquainted ctx0 p0 peer mail w.
Proof.
  intros [Hi _ _ _ (ins & outs & Hd & Hins & Houts & Ho) Hc] [Hm Hh Ha _] [_ Hh' _ _].
  unfold sent in *. cbn [ep_introduced ep_queued ep_flying ep_arrived ep_received ep_handled app] in *. rewrite app_nil_r in *.
  apply Forall2_nil_inv_l in Hins as ->. apply Forall2_nil_inv_l in Houts as ->.
  rewrite answers_to_hellos, Hh' in Ha. rewrite name_after_hellos, Hh in Hd. cbn [fold_left name_after] in Hd.
  pose proof (ds_names _ _ _ _ _ _ _ Hd) as Hn. pose proof (ds_contexts _ _ _ _ _ _ _ Hd) as Hlen.
  pose proof (Forall2_length _ _ _ Hn) as Hl. rewrite length_insert in Hl.
  destruct (lookup_lt_is_Some_2 (context_list w) (Z.to_nat ctx0)) as [c Hcx]; [lia|].
  constructor; try done; [by exists h | | by destruct Hd | by destruct Hd].
  exists c. split; [done|].
  assert (Hs : <[Z.to_nat ctx0:=Some peer]> (pt_names p0) !! Z.to_nat ctx0 = Some (Some peer)) by (apply list_lookup_insert_eq; lia).
  apply (Forall2_lookup_lr _ _ _ _ _ _ Hn Hcx Hs).
Qed.

Lemma processes_run_app l1 l2 s t : processes_run l1 s = Some t -> processes_run (l1 ++ l2) s = processes_run l2 t.
Proof.
  revert s. induction l1 as [|a l1 IH]; cbn [app processes_run]; intros s; [by intros [= ->]|].
  destruct (processes_step a s) as [v|]; [apply IH | done].
Qed.

(** Two processes that are as the specification says can settle. *)
Lemma together_settle s s' w w' m m' :
  together ctx ctx' p p' s s' w w' -> exchanged (pt_name p) m s s' -> exchanged (pt_name p') m' s' s ->
  exists rest v v', silent rest /\ processes_run rest (w, w') = Some (v, v') /\
    acquainted ctx p (pt_name p') m' v /\ acquainted ctx' p' (pt_name p) m v'.
Proof.
  intros Htog He He'.
  destruct (session_settles names_of s s') as (rest & t & t' & Hsil & Hrest & [h ->] & [h' ->]); [by destruct He | by destruct He' |].
  destruct (silent_writes_nothing rest Hsil) as [Hm Hw].
  destruct (run_exchanged names_of rest _ _ _ _ _ _ Hrest Hm He He') as [Ht Ht']. rewrite !Hw, !app_nil_r in Ht, Ht'.
  assert (Hok : actions_ok rest) by (eapply Forall_impl; [exact Hsil|]; intros [[] []]; cbn; try done).
  destruct (run_together _ _ _ _ _ _ _ Htog Hok Hrest) as (v & v' & Hr & [Hs Hs' _ _ _ _ _ _]).
  exists rest, v, v'. split; [done|]. split; [done|]. split; by eapply settled_acquainted.
Qed.

(** Whatever they do first, they can settle afterwards. *)
Lemma run_settle l s s' t t' w w' m m' :
  together ctx ctx' p p' s s' w w' -> exchanged (pt_name p) m s s' -> exchanged (pt_name p') m' s' s ->
  actions_ok l -> only_mail l -> session_run names_of l (s, s') = Some (t, t') ->
  exists rest v v', silent rest /\ processes_run (l ++ rest) (w, w') = Some (v, v') /\
    acquainted ctx p (pt_name p') (m' ++ written false l) v /\ acquainted ctx' p' (pt_name p) (m ++ written true l) v'.
Proof.
  intros Htog He He' Hok Hmail Hrun.
  destruct (run_exchanged names_of l _ _ t t' m m' Hrun Hmail He He') as [Ht Ht'].
  destruct (run_together _ _ _ _ _ _ _ Htog Hok Hrun) as (x & x' & Hx & Htog').
  destruct (together_settle t t' x x' _ _ Htog' Ht Ht') as (rest & v & v' & Hsil & Hrest & H1 & H2).
  exists rest, v, v'. split; [done|]. split; [by rewrite (processes_run_app _ _ _ _ Hx) | done].
Qed.

(** ** Properties *)

(** C2: The threads of two connected processes implement a session between them.
    Take any sequence of steps that the specification allows - either application
    writes, either process introduces itself, the write thread, the read thread or
    the dispatch thread of either runs a round, bytes move in either direction, in
    any order and number.  Then every one of these calls succeeds, and the two
    processes are as the specification says: the trampolines of each have been
    called with exactly the messages it has handled, in order; its queues hold
    what waits there, the answers to the handshakes included; its context has the
    name of the last handshake; nothing else in memory has changed; and the bytes
    between the sockets are those of the packets on their way. *)
Theorem threads_implement_session (l : list (bool * endpoint_action)) (s s' : endpoint)
    (Hp : ready ctx p) (Hp' : ready ctx' p') (Hok : actions_ok l)
    (Hrun : session_run names_of l (fresh_endpoint, fresh_endpoint) = Some (s, s')) :
  exists (w : world E) (w' : world E'), processes_run l (pt_start p, pt_start p') = Some (w, w') /\
    calls (trace w) = calls (trace (pt_start p)) ++ concat (map (packet_calls (pt_trampolines p) ctx) (ep_handled s)) /\
    calls (trace w') = calls (trace (pt_start p')) ++ concat (map (packet_calls (pt_trampolines p') ctx') (ep_handled s')) /\
    party_side ctx fd p s w /\ party_side ctx' fd' p' s' w' /\
    wire (junk (mem (pt_start p))) s (env w) (env w') /\ wire (junk (mem (pt_start p'))) s' (env w') (env w).
Proof.
  destruct (run_together l _ _ _ _ _ _ (ready_together Hp Hp') Hok Hrun) as (w & w' & Hw & [Hs Hs' H1 H2 _ _ _ _]).
  exists w, w'. split; [done|]. split; [apply Hs|]. by split; [apply Hs'|].
Qed.

(** C3: Two connected processes get to know each other, and no message is lost.
    Whatever the two have done so far, they can go on, without the applications
    writing any more, until each context has the name of the other application,
    the trampolines of each process have been called with exactly the messages the
    other application has written, in order, and with one message under the
    handshake's identifier that carries the other's name; both queues of both
    processes are empty, and in memory only the names have changed. *)
Theorem peers_become_acquainted (l : list (bool * endpoint_action)) (s s' : endpoint)
    (Hp : ready ctx p) (Hp' : ready ctx' p') (Hok : actions_ok l) (Hmail : only_mail l)
    (Hrun : session_run names_of l (fresh_endpoint, fresh_endpoint) = Some (s, s')) :
  exists (rest : list (bool * endpoint_action)) (w : world E) (w' : world E'), silent rest /\
    processes_run (l ++ rest) (pt_start p, pt_start p') = Some (w, w') /\
    acquainted ctx p (pt_name p') (written false l) w /\ acquainted ctx' p' (pt_name p) (written true l) w'.
Proof.
  destruct (run_settle l _ _ s s' _ _ [] [] (ready_together Hp Hp') (fresh_exchanged _) (fresh_exchanged _) Hok Hmail Hrun)
    as (rest & w & w' & H). by exists rest, w, w'.
Qed.
End session.

(** ** Two simulated processes *)

#[export] Instance simulated_socket (fd : Z) : Socket simulation fd.
Proof.
  refine {| sk_out := sim_sent; sk_in := sim_inbox |}; try done.
  - intros bs e. do 2 eexists. split; [reflexivity|]. split; [cbn; lia | done].
  - intros n e Hn. cbn [recv simulation_platform]. rewrite Z.min_l, Nat2Z.id by lia. by eexists.
Defined.

#[export] Instance simulated_network (fd fd' : Z) : Network simulation simulation fd fd'.
Proof. by refine {| carry := sim_carry |}. Defined.

(** A process with the name "a" or "b", the text "hi" and a trampoline, whose
    context 0 is connected through descriptor 5. *)
Definition session_memory (name : list Z) : memory :=
  alloc_with (BTramp 50 0) (alloc_with (BStr [104; 105; 0]) (alloc_with (BStr (name ++ [0])) initial_memory)).
Definition session_world (name : list Z) : world simulation :=
  World _ (Simulation 9 false [] [] [] []) (session_memory name) SUBSTANCE_CONNECTOR_STATE_INIT_FINISHED 1
    (replicate 32 (ContextStruct tcp_connected_bits 5 0 0 0 0)) QNull QNull
    (MessageQueues empty_queue empty_queue MESSAGE_QUEUE_INITIALIZED) 3 [].
Definition session_party (name : list Z) : party simulation := Party (session_world name) [50] name (replicate 32 None).

(** A process that has no peers yet and nothing queued. *)
Lemma idle_dispatching {E} (w : world E) fs name :
  trampolines_repr w fs -> cstring name -> Z.of_nat (length name) < 2 ^ 32 ->
  points_to_string (mem w) (application_name w) name -> length (context_list w) = 32%nat ->
  Forall (fun c => cx_application_name c = 0) (context_list w) ->
  all_queued (mem w) (inbound_queue (queues w)) [] -> all_queued (mem w) (outbound_queue (queues w)) [] ->
  dispatching [] w fs name (replicate 32 None) [] [].
Proof.
  intros Htr Hcs Hlen Hn Hl Hz Hin Hout. rewrite Forall_lookup in Hz. constructor; try done.
  - rewrite <- Hl. clear -Hz. induction (context_list w) as [|c cl IH]; [constructor|]. cbn [length replicate].
    constructor; [by apply (Hz 0%nat) | apply IH; intros i d Hd; by apply (Hz (S i))].
  - apply NoDup_nil_2.
  - by intros a ?%elem_of_nil.
  - intros c [j Hc]%list_elem_of_lookup Heq. rewrite (Hz j c Hc) in Heq. rewrite <- Heq in Hn.
    by destruct (mem_wf_pos (mem w) 0 (tr_wf _ _ Htr)).
  - intros i j c d Hc _ _ H0. by rewrite (Hz i c Hc) in H0.
Qed.

Lemma session_ready name : cstring name -> Z.of_nat (length name) < 2 ^ 32 - 1 ->
  ready (fd0 := 5) 0 (session_party name).
Proof.
  intros Hcs Hl. assert (Hwf : mem_wf (session_memory name)) by (do 3 apply alloc_with_wf; apply initial_memory_wf).
  constructor; try done; [by eexists|]. apply idle_dispatching; try done; try apply empty_all_queued; [|cbn; lia | by apply Forall_replicate].
  constructor; [done | by split |]. exists [(3, 50)]. split; [|split; [done | apply NoDup_singleton]].
  split; [done|]. split; [done|]. by exists 0.
Qed.

(** The one introduces itself and writes; the other answers its handshake. *)
Definition session_schedule : list (bool * endpoint_action) :=
  [(true, Introduce); (true, Write connector_internal_log_uuid 2 [104; 105]); (true, Carry 25); (false, Receive);
   (true, Flush 1); (false, Handle 1)].

Lemma session_schedule_ok :
  actions_ok (session_party [97]) (session_party [98]) session_schedule /\ only_mail session_schedule.
Proof.
  assert (Hu : uuid_wf connector_internal_log_uuid) by (split; [done | repeat constructor; cbn; lia]).
  split; [|by repeat constructor]. unfold actions_ok, session_schedule. rewrite !Forall_cons.
  cbn [fst snd action_ok]. split_and!; try done.
  - split; [by repeat constructor|]. split; [cbn; lia | exact Hu].
  - split; [|done]. intros [? | (j & c & Hj & Hc)]%elem_of_strings; [done|]. by apply lookup_replicate in Hj as [-> _].
Qed.

Lemma threads_implement_session_witness :
  exists w w', processes_run (fd := 5) (fd' := 5) 0 0 session_schedule (session_world [97], session_world [98]) = Some (w, w') /\
    sk_in (Socket := simulated_socket 5) (env w') = [] /\
    exists c, context_list w' !! 0%nat = Some c /\ points_to_string (mem w') (cx_application_name c) [97].
Proof.
  destruct session_schedule_ok as [Hok _].
  destruct (threads_implement_session (fd := 5) (fd' := 5) 0 0 (session_party [97]) (session_party [98]) session_schedule
    (Endpoint true [] [Letter connector_internal_log_uuid [104; 105]] 0 [] [])
    (Endpoint false [Letter connector_internal_handshake_uuid [98]] [] 0 [] [Hello [97]])) as (w & w' & Hrun & _ & _ & _ & Hs & Hw & _).
  - apply session_ready; [repeat constructor; lia | cbn; lia].
  - apply session_ready; [repeat constructor; lia | cbn; lia].
  - exact Hok.
  - reflexivity.
  - exists w, w'. split; [exact Hrun|]. split; [apply length_zero_iff_nil, Hw|].
    destruct Hs as [_ _ _ _ (ins & outs & Hd & _) _]. pose proof (ds_names _ _ _ _ _ _ _ Hd) as Hn.
    destruct (Forall2_lookup_r _ _ _ 0%nat (Some [97]) Hn eq_refl) as (c & Hc & Hp). exists c. split; [exact Hc | exact (proj2 Hp)].
Defined.

Lemma peers_become_acquainted_witness :
  exists rest w w', processes_run (fd := 5) (fd' := 5) 0 0 (session_schedule ++ rest) (session_world [97], session_world [98]) =
      Some (w, w') /\
    acquainted 0 (session_party [97]) [98] [] w /\
    acquainted 0 (session_party [98]) [97] [Letter connector_internal_log_uuid [104; 105]] w'.
Proof.
  destruct session_schedule_ok as [Hok Hmail].
  destruct (peers_become_acquainted (fd := 5) (fd' := 5) 0 0 (session_party [97]) (session_party [98]) session_schedule
    (Endpoint true [] [Letter connector_internal_log_uuid [104; 105]] 0 [] [])
    (Endpoint false [Letter connector_internal_handshake_uuid [98]] [] 0 [] [Hello [97]]))
    as (rest & w & w' & _ & Hrun & H1 & H2).
  - apply session_ready; [repeat constructor; lia | cbn; lia].
  - apply session_ready; [repeat constructor; lia | cbn; lia].
  - exact Hok.
  - exact Hmail.
  - reflexivity.
  - exists rest, w, w'. split; [exact Hrun|]. by split.
Defined.
