(* ===== verification/Meeting.v ===== *)
(** * Two processes that meet

    The composition of [Accept] and [Session]: a process with an open port and one
    that connects to it, up to the point where each knows the other's name. *)

From S2P Require Import Prelude Wire Memory Strings UintQueue LockedQueue Message World Callbacks.
From S2P Require Import FileSystem Connection SlotFrame ContextQueue Contexts ReadThread Accept Dispatch MixedDispatch Lifecycle.
From S2P Require Import Delivery Session.

(** A running process with the trampolines [fs] and the name [name] that has
    nothing queued, whose next free slot is [i], and that has room for another
    context to be announced. *)
Record running {E} (i : Z) (p : party E) : Prop := {
  rn_state : module_state (pt_start p) = SUBSTANCE_CONNECTOR_STATE_INIT_FINISHED;
  rn_dispatching : dispatching [] (pt_start p) (pt_trampolines p) (pt_name p) (pt_names p) [] [];
  rn_name : packet_ok (Hello (pt_name p));
  rn_contexts : exists l n, contexts_inv (pt_start p) (i :: l) n;
  rn_available : exists la k, id_queue (connection_queue (pt_start p)) la k /\ 0 < k /\ (length la < 33)%nat
}.

(** The same process later. *)
Definition party_at {E} (w : world E) (p : party E) : party E := Party w (pt_trampolines p) (pt_name p) (pt_names p).

(** The context [j] is an open TCP context, and accepting on it gives the
    descriptor [fd] of a connection on which nothing has been sent or received. *)
Definition awaits {E} {P : Platform E} {fd} {S : Socket E fd} (j : Z) (w : world E) : Prop :=
  0 <= j < 32 /\ exists c e, context_list w !! Z.to_nat j = Some c /\
    Z.land (configuration c) SUBSTANCE_CONNECTOR_CONN_MASK = SUBSTANCE_CONNECTOR_CONN_OPEN /\
    Z.land (configuration c) SUBSTANCE_CONNECTOR_COMM_MASK = SUBSTANCE_CONNECTOR_COMM_TCP /\
    accept (fd_of c) (env w) = (fd, e) /\ sk_out e = [] /\ sk_in e = [].

(** The system connects the descriptor [fd] to the port. *)
Definition reaches {E} {P : Platform E} {fd} {S : Socket E fd} (port : Z) (w : world E) : Prop :=
  exists e1 r e2, socket_inet (env w) = (fd, e1) /\ connect_inet fd (u16 port) e1 = (r, e2) /\ 0 <= r /\
    sk_out e2 = [] /\ sk_in e2 = [].

Lemma descriptor_kept fd : 0 <= fd < 2 ^ 31 -> to_signed 32 (u64 fd) = fd.
Proof.
  intros H. unfold to_signed, u64. rewrite (Z.mod_small fd (2 ^ 64)) by lia. rewrite Z.mod_small by lia.
  by rewrite (proj2 (Z.ltb_lt _ _)) by lia.
Qed.

Section meeting.
Context {E : Type} {P : Platform E} {fd : Z} {S : Socket E fd}.

(** The new connection has no name. *)
Lemma taken_strings (i : Z) (p : party E) e q qa port :
  running i p -> strings (taken (pt_start p) e q qa i (connected_slot fd port)) = strings (pt_start p).
Proof.
  intros [_ _ _ (l & n & [_ _ _ _ _ _ Hfree _]) _]. unfold strings. cbn. f_equal.
  rewrite list_fmap_insert. apply list_insert_id. by rewrite list_lookup_fmap, (Hfree i) by (by left).
Qed.

(** Taking the slot for a connection makes the process ready. *)
Lemma taken_ready (i : Z) (p : party E) e q qa port tr :
  running i p -> 0 <= fd < 2 ^ 31 -> sk_out e = [] -> sk_in e = [] ->
  ready i (party_at (set_trace tr (taken (pt_start p) e q qa i (connected_slot fd port))) p).
Proof.
  intros [Hst Hd Hn (l & n & [Hwf Hs Hlen _ Hnd Hr Hfree _]) _] Hfd Ho Hi. apply Forall_cons in Hr as [Hi32 _].
  assert (Hzero : context_list (pt_start p) !! Z.to_nat i = Some zero_context) by (apply Hfree; by left).
  constructor; try done.
  - exists (connected_slot fd port). split; [cbn; apply list_lookup_insert_eq; lia|]. split; [done|]. split; [done|].
    split; [|done]. by apply descriptor_kept.
  - apply (dispatching_same (pt_start p)); try done. cbn. rewrite list_fmap_insert. apply list_insert_id.
    by rewrite list_lookup_fmap, Hzero.
Qed.

Lemma accept_ready (i j : Z) (p : party E) :
  running i p -> awaits (fd := fd) j (pt_start p) -> 0 <= fd < 2 ^ 31 ->
  exists v, connector_read_thread_handle_open j (pt_start p) = Done SUBSTANCE_CONNECTOR_SUCCESS v /\
    ready i (party_at v p) /\ mem v = mem (pt_start p) /\ strings v = strings (pt_start p).
Proof.
  intros Hp (Hj & c & e & Hc & Hopen & Htcp & Hacc & Ho & Hi) Hfd.
  pose proof Hp as [_ _ _ (l & n & Hinv) (la & k & Hla & Hk & Hroom)].
  destruct (accept_free (pt_start p) j c fd e i l n la k) as (q & qa & _ & _ & Hrun); try done; [lia|].
  eexists. split; [unfold connector_read_thread_handle_open; rewrite (bind_done _ _ _ _ _ Hrun); reflexivity|].
  split; [by apply taken_ready | split; [done | by apply taken_strings]].
Qed.

Lemma connect_ready (i port : Z) (p : party E) :
  running i p -> reaches (fd := fd) port (pt_start p) -> 0 <= fd < 2 ^ 31 ->
  exists v, substance_connector_connect_tcp port true (pt_start p) = Done (SUBSTANCE_CONNECTOR_SUCCESS, Some i) v /\
    ready i (party_at v p) /\ mem v = mem (pt_start p) /\ strings v = strings (pt_start p).
Proof.
  intros Hp (e1 & r & e2 & Hsock & Hconn & Hr & Ho & Hi) Hfd.
  pose proof Hp as [Hst _ _ (l & n & Hinv) (la & k & Hla & Hk & Hroom)].
  destruct (connect_free (pt_start p) i l n la k port fd e1 r e2) as (q & qa & _ & _ & Hrun); try done; [lia|].
  eexists. split; [unfold substance_connector_connect_tcp; rewrite when_initialised_passes by done; exact Hrun|].
  split; [by apply taken_ready | split; [done | by apply taken_strings]].
Qed.

End meeting.

(** ** Properties *)

Section strangers.
Context {E E' : Type} {P : Platform E} {P' : Platform E'} {fd fd' : Z} {S : Socket E fd} {S' : Socket E' fd'}.
Context {N : Network E E' fd fd'} {N' : Network E' E fd' fd}.

(** Two processes that have never met can meet.  The one has an open TCP
    context on which a read thread finds a connection, the application of the other
    connects to the port; both calls succeed and take the first free slot.  From
    there the threads of the two can go on, without any application doing anything,
    until each knows the other by its name: the new context of each carries it, the
    trampolines of each have been called once, under the handshake's identifier,
    with the other's name and with nothing else, the queues are empty, and nothing
    but the names has changed in memory. *)
Theorem strangers_become_acquainted (p : party E) (p' : party E') (i i' j port : Z)
    (Hp : running i p) (Hp' : running i' p') (Hfd : 0 <= fd < 2 ^ 31) (Hfd' : 0 <= fd' < 2 ^ 31)
    (Hopen : awaits (fd := fd) j (pt_start p)) (Hport : reaches (fd := fd') port (pt_start p')) :
  exists v v' rest w w',
    substance_connector_connect_tcp port true (pt_start p') = Done (SUBSTANCE_CONNECTOR_SUCCESS, Some i') v' /\
    connector_read_thread_handle_open j (pt_start p) = Done SUBSTANCE_CONNECTOR_SUCCESS v /\
    mem v = mem (pt_start p) /\ mem v' = mem (pt_start p') /\
    silent rest /\ processes_run (fd := fd) (fd' := fd') i i' rest (v, v') = Some (w, w') /\
    acquainted i (party_at v p) (pt_name p') [] w /\ acquainted i' (party_at v' p') (pt_name p) [] w'.
Proof.
  destruct (accept_ready i j p Hp Hopen Hfd) as (v & Hv & Hr & Hm & _).
  destruct (connect_ready i' port p' Hp' Hport Hfd') as (v' & Hv' & Hr' & Hm' & _).
  destruct (together_settle i i' (party_at v p) (party_at v' p') fresh_endpoint fresh_endpoint v v' [] [])
    as (rest & w & w' & Hsil & Hrun & Ha & Ha'); [by apply ready_together | apply fresh_exchanged .. |].
  exists v, v', rest, w, w'. do 6 (split; [done|]). by split.
Qed.

End strangers.

(** ** An example *)

(** A library that was just initialised with the name "ab", before and after it
    has opened a port. *)
Lemma initialised_running :
  exists w : world simulation, (exists ts, substance_connector_init 1 no_threads uninitialised_world =
      Done (ts, SUBSTANCE_CONNECTOR_SUCCESS) w) /\
    env w = env uninitialised_world /\ contexts_inv w (seqZ 0 32) (2 ^ 32 - 34) /\
    forall cl q l n i, contexts_inv (set_context_list cl (set_free_contexts q w)) (i :: l) n ->
      Forall (fun c => cx_application_name c = 0) cl ->
      running i (Party (set_context_list cl (set_free_contexts q w)) [] [97; 98] (replicate 32 None)).
Proof.
  destruct (init_spec uninitialised_world no_threads None 1 [97; 98] uninitialised_shut_down) as
    (m1 & p1 & p2 & m & Hrun & Hrel & Hq1 & Hq2 & Hadd); [repeat constructor; lia | done | done |].
  pose proof Hrel as [Hwf1 Hc1 _ _]. pose proof Hadd as [Hwf Hc _ _ _ _].
  set (w := initialised_world _ m _ p1 p2 _) in Hrun.
  assert (Hs : mem_serving m) by (apply (mem_serving_config _ _ Hc); exact (mem_serving_config _ _ Hc1 ltac:(by split))).
  assert (Hname : points_to_string m (next_addr m1) [97; 98])
    by (apply (added_owns _ _ _ _ _ Hadd), alloc_with_owns, (mem_serving_config _ _ Hc1 ltac:(by split))).
  exists w. split; [eexists; exact Hrun|]. split; [reflexivity|].
  split; [apply fresh_contexts_inv; [exact Hwf | exact Hs | reflexivity | exact Hq1]|].
  intros cl q l n i Hinv Hz. constructor;
    [reflexivity | | | exists l, n; exact Hinv | exists [], (2 ^ 32 - 2); split; [exact Hq2 | split; [lia | cbn; lia]]].
  - apply idle_dispatching; [| repeat constructor; lia | cbn; lia | exact Hname | apply Hinv | exact Hz | apply empty_all_queued ..].
    constructor; [exact Hwf | exact Hs |]. exists []. split; [done|]. split; [done | apply NoDup_nil_2].
  - split; [repeat constructor; lia | split; [cbn; lia | done]].
Qed.

Lemma strangers_become_acquainted_witness :
  exists (p p' : party simulation) v v' rest w w',
    connector_read_thread_handle_open 0 (pt_start p) = Done SUBSTANCE_CONNECTOR_SUCCESS v /\
    processes_run (fd := 3) (fd' := 3) 1 0 rest (v, v') = Some (w, w') /\
    acquainted 1 (party_at v p) [97; 98] [] w /\ acquainted 0 (party_at v' p') [97; 98] [] w'.
Proof.
  destruct initialised_running as (w0 & _ & Henv & Hinv & Hrun). pose proof Hinv as [Hwf Hs Hlen Hq Hnd Hr Hfree Hused].
  destruct (pop_free w0 0 (seqZ 1 31) (2 ^ 32 - 34) Hinv) as (q & Hq' & _).
  set (c := ContextStruct tcp_open_bits 7 4000 0 0 0).
  assert (Hz : Forall (fun c => cx_application_name c = 0) (context_list w0)).
  { apply Forall_lookup. intros i d Hd. assert (Hi : (i < 32)%nat) by (rewrite <- Hlen; by eapply lookup_lt_Some).
    pose proof (Hfree (Z.of_nat i) ltac:(apply elem_of_seqZ; lia)) as Hf. rewrite Nat2Z.id, Hd in Hf. by injection Hf as ->. }
  assert (Hid : set_context_list (context_list w0) (set_free_contexts (free_contexts w0) w0) = w0) by (by destruct w0).
  pose proof (Hrun (context_list w0) (free_contexts w0) (seqZ 1 31) (2 ^ 32 - 34) 0 ltac:(rewrite Hid; exact Hinv) Hz) as Hp'.
  rewrite Hid in Hp'.
  pose proof (Hrun (<[0%nat := c]> (context_list w0)) q (seqZ 2 30) (2 ^ 32 - 34) 1
    ltac:(by apply (contexts_inv_take w0 _ 0 (seqZ 1 31) (2 ^ 32 - 34) c)) ltac:(by apply Forall_insert)) as Hp.
  set (p := Party (set_context_list _ _) _ _ _) in Hp. set (p' := Party w0 _ _ _) in Hp'.
  destruct (strangers_become_acquainted (fd := 3) (fd' := 3) p p' 1 0 0 4000 Hp Hp')
    as (v & v' & rest & w & w' & _ & Hv & _ & _ & _ & Hrest & H1 & H2).
  - lia.
  - lia.
  - split; [lia|]. exists c. eexists. split; [cbn; apply list_lookup_insert_eq; lia|]. do 2 (split; [done|]).
    split; [cbn; rewrite Henv; reflexivity | by split].
  - do 3 eexists. split; [cbn; rewrite Henv; reflexivity|]. split; [reflexivity|]. split; [cbn; lia | by split].
  - exists p, p', v, v', rest, w, w'. split; [exact Hv|]. split; [exact Hrest|]. by split.
Defined.
