(* ===== verification/Encounter.v ===== *)
(** * Two programs, from their first call on

    The composition of [Lifecycle], [Callbacks], [Contexts] and [Meeting]: a program
    that initialises the library, registers its trampolines and opens a port, and one
    that initialises it, registers its own and connects. *)

From S2P Require Import Prelude Wire Memory Strings UintQueue LockedQueue Message World Callbacks.
From S2P Require Import FileSystem Connection SlotFrame ContextQueue Contexts ReadThread Accept Dispatch MixedDispatch.
From S2P Require Import Lifecycle Delivery Session Meeting.

(** ** The programs *)

Section programs.
Context {E : Type} {P : Platform E}.

Fixpoint add_trampolines (fs : list Z) : M (world E) unit :=
  match fs with
  | [] => ret tt
  | f :: fs' => substance_connector_add_trampoline f ;;; add_trampolines fs'
  end.

Definition start_library (name : Z) (fs : list Z) (ts : threads) : M (world E) unit :=
  substance_connector_init name ts ;;; add_trampolines fs.

Definition serve (name : Z) (fs : list Z) (port : Z) (ts : threads) : M (world E) (Z * option Z) :=
  start_library name fs ts ;;; substance_connector_open_tcp port true.

Definition visit (name : Z) (fs : list Z) (port : Z) (ts : threads) : M (world E) (Z * option Z) :=
  start_library name fs ts ;;; substance_connector_connect_tcp port true.

(** ** Starting *)

(** A text that the program had in memory before it called the library, other than
    the name of an earlier initialisation, which is released. *)
Definition known (w0 : world E) (text : Z) (s : list Z) : Prop :=
  text <> application_name w0 /\ points_to_string (mem w0) text s.

(** The library [w0] after it was initialised with the name [name] and the functions
    [fs] were registered, the last one first. *)
Record fresh_library (fs name : list Z) (w0 w : world E) : Prop := {
  fl_state : module_state w = SUBSTANCE_CONNECTOR_STATE_INIT_FINISHED;
  fl_env : env w = env w0;
  fl_trampolines : trampolines_repr w fs;
  fl_name : points_to_string (mem w) (application_name w) name;
  fl_contexts : context_list w = replicate 32 zero_context;
  fl_free : id_queue (free_contexts w) (seqZ 0 32) (2 ^ 32 - 34);
  fl_available : id_queue (connection_queue w) [] (2 ^ 32 - 2);
  fl_queues : queues w = MessageQueues empty_queue empty_queue MESSAGE_QUEUE_INITIALIZED;
  fl_known : forall text s, known w0 text s -> given w text s
}.

Lemma init_fresh w ts old name s :
  shut_down w old -> cstring s -> points_to_string (mem w) name s -> application_name w <> name ->
  exists w', substance_connector_init name ts w = Done (idle_threads ts, SUBSTANCE_CONNECTOR_SUCCESS) w' /\
    fresh_library [] s w w'.
Proof.
  intros Hw Hcs Hp Hne. pose proof Hw as [_ Hs _ _ _ _].
  destruct (init_spec w ts old name s Hw Hcs Hp Hne) as (m1 & p1 & p2 & m & Hrun & Hrel & Hq1 & Hq2 & Hadd).
  pose proof Hrel as [Hwf1 Hc1 _ _].
  pose proof (mem_serving_config _ _ Hc1 Hs) as Hs1. pose proof Hadd as [Hwf Hc _ _ _ _].
  eexists. split; [exact Hrun|]. constructor; try done.
  - constructor; [exact Hwf | by apply (mem_serving_config (alloc_with (BStr (s ++ [0])) m1)) |].
    exists []. split; [done|]. split; [done | apply NoDup_nil_2].
  - by apply (added_owns _ _ _ _ _ Hadd), alloc_with_owns.
  - intros text s0 [Hold Ho].
    assert (Ho1 : owns m1 text (BStr (s0 ++ [0])))
      by (apply (released_owns _ _ _ _ _ Hrel); [by rewrite list_elem_of_singleton | done]).
    split; [|by apply (added_owns _ _ _ _ _ Hadd), alloc_with_owns_other].
    unfold strings. cbn [application_name context_list initialised_world]. rewrite elem_of_cons.
    intros [->|(c & -> & Hin)%list_elem_of_fmap].
    + unfold owns in Ho1. by rewrite (mem_wf_fresh _ Hwf1) in Ho1.
    + apply elem_of_replicate in Hin as [-> _]. by apply (mem_wf_pos m1 0 Hwf1); [by eexists|].
Qed.

Lemma add_fresh fs s w0 w f :
  fresh_library fs s w0 w -> f <> 0 ->
  exists w', substance_connector_add_trampoline f w = Done SUBSTANCE_CONNECTOR_SUCCESS w' /\
    fresh_library (f :: fs) s w0 w'.
Proof.
  intros [Hst He Htr Hname Hcl Hfree Hav Hqs Hkn] Hf. pose proof Htr as [Hwf Hs _].
  destruct (add_trampoline_repr w fs f Htr) as (w' & Hrun & Htr'). cbn [spec_trampoline_op] in *.
  rewrite (proj2 (Z.eqb_neq f 0) Hf) in *. cbn [fst snd] in *.
  exists w'. split; [unfold substance_connector_add_trampoline; by rewrite when_initialised_passes|].
  rewrite (add_trampoline_done w f Hwf Hs Hf) in Hrun. injection Hrun as <-.
  constructor; try done; cbn -[alloc_with]; [by apply alloc_with_owns_other|].
  intros text s0 Hk. destruct (Hkn text s0 Hk) as [Hns Ho]. split; [exact Hns | by apply alloc_with_owns_other].
Qed.

Lemma add_all_fresh gs : forall fs s w0 w,
  fresh_library fs s w0 w -> Forall (fun f => f <> 0) gs ->
  exists w', add_trampolines gs w = Done tt w' /\ fresh_library (rev gs ++ fs) s w0 w'.
Proof.
  induction gs as [|f gs IH]; intros fs s w0 w Hw Hgs; [by exists w|].
  apply Forall_cons in Hgs as [Hf Hgs]. destruct (add_fresh fs s w0 w f Hw Hf) as (w1 & Hrun & Hw1).
  destruct (IH (f :: fs) s w0 w1 Hw1 Hgs) as (w' & Hrest & Hw'). exists w'.
  cbn [add_trampolines rev]. rewrite (bind_done _ _ _ _ _ Hrun). split; [done|]. by rewrite <- app_assoc.
Qed.

Lemma start_fresh w ts old name s fs :
  shut_down w old -> cstring s -> points_to_string (mem w) name s -> application_name w <> name ->
  Forall (fun f => f <> 0) fs ->
  exists w', start_library name fs ts w = Done tt w' /\ fresh_library (rev fs) s w w'.
Proof.
  intros Hw Hcs Hp Hne Hfs. destruct (init_fresh w ts old name s Hw Hcs Hp Hne) as (w1 & Hrun & Hw1).
  destruct (add_all_fresh fs [] s w w1 Hw1 Hfs) as (w' & Hrest & Hw'). exists w'.
  unfold start_library. rewrite (bind_done _ _ _ _ _ Hrun). split; [done|]. by rewrite app_nil_r in Hw'.
Qed.

Lemma fresh_contexts fs s w0 w : fresh_library fs s w0 w -> contexts_inv w (seqZ 0 32) (2 ^ 32 - 34).
Proof. intros [_ _ [Hwf Hs _] _ Hcl Hfree _ _ _]. by apply fresh_contexts_inv. Qed.

(** A program that knows nobody: no slot of its table has a name. *)
Definition unacquainted (s : list Z) (fs : list Z) (w : world E) : party E := Party w fs s (replicate 32 None).

Lemma fresh_running fs s w0 w :
  fresh_library fs s w0 w -> packet_ok (Hello s) -> running 0 (unacquainted s fs w).
Proof.
  intros Hw (Hcs & Hlen & _). pose proof Hw as [Hst He Htr Hname Hcl Hfree Hav Hqs _]. cbn [packet_string] in *.
  constructor; cbn [unacquainted pt_start pt_trampolines pt_name pt_names].
  - done.
  - apply idle_dispatching; try done; [lia | by rewrite Hcl | rewrite Hcl; by apply Forall_replicate | |];
      rewrite Hqs; apply empty_all_queued.
  - done.
  - exists (seqZ 1 31), (2 ^ 32 - 34). exact (fresh_contexts _ _ _ _ Hw).
  - exists [], (2 ^ 32 - 2). split; [done|]. split; [lia | cbn; lia].
Qed.

(** ** Opening the port *)

Lemma open_running {F : WritableFiles E} fs s w0 w port :
  fresh_library fs s w0 w -> packet_ok (Hello s) ->
  exists r id w', substance_connector_open_tcp port true w = Done (r, id) w' /\ heap (mem w') = heap (mem w) /\
    (r = SUBSTANCE_CONNECTOR_SUCCESS -> id = Some 0 /\ running 1 (unacquainted s fs w') /\
       (forall text s, known w0 text s -> given w' text s) /\
       exists c, context_list w' !! 0%nat = Some c /\ configuration c = tcp_open_bits).
Proof.
  intros Hw Hs. pose proof (fresh_running _ _ _ _ Hw Hs) as [Hst Hd Hn _ _].
  pose proof (fresh_contexts _ _ _ _ Hw) as Hinv. pose proof Hw as [_ _ _ _ Hcl _ Hav _ Hkn].
  destruct (open_tcp_runs w 0 (seqZ 1 31) (2 ^ 32 - 34) port [] (2 ^ 32 - 2)) as
    (r & id & w' & e' & m & c & p & Hrun & Hp & Hsame & Hwfm & Hsm & Hcm & Hhm & Hcases);
    [exact Hinv | lia | exact Hav | lia | cbn; lia |].
  exists r, id, w'. unfold substance_connector_open_tcp. rewrite when_initialised_passes by done.
  split; [exact Hrun|]. destruct Hcases as [(-> & -> & pa & Hpa & ->)|(Hne & -> & p' & Hp' & ->)];
    (split; [done|]); [intros _|done].
  assert (Hc : context_list w !! 0%nat = Some zero_context) by (by rewrite Hcl).
  split; [done|]. split.
  - constructor; cbn [unacquainted pt_start pt_trampolines pt_name pt_names] in *; try done.
    + apply (dispatching_same w); try done. cbn. rewrite list_fmap_insert. apply list_insert_id.
      rewrite list_lookup_fmap, (same_name _ _ Hsame). by replace (context_list w !! Z.to_nat 0) with (Some zero_context).
    + exists (seqZ 2 30), (2 ^ 32 - 34). apply (contexts_inv_take w _ 0 (seqZ 1 31) _ c); try done.
      by rewrite (same_configuration _ _ Hsame).
    + exists [0], (2 ^ 32 - 2 - 1). split; [exact Hpa|]. split; [lia | cbn; lia].
  - split.
    + intros text s0 Hk. destruct (Hkn text s0 Hk) as [Hns Ho]. split.
      * unfold strings in *. cbn. rewrite list_fmap_insert, list_insert_id; [done|].
        rewrite list_lookup_fmap, (same_name _ _ Hsame). by replace (context_list w !! Z.to_nat 0) with (Some zero_context).
      * unfold points_to_string, owns in *. cbn. by rewrite Hhm, (config_free _ _ Hcm).
    + exists c. cbn. rewrite Hcl. split; [done|]. by rewrite (same_configuration _ _ Hsame).
Qed.

(** The system accepts the connection [fd] on the context [0], and nothing was sent
    or received on it. *)
Definition offers (fd : Z) {S : Socket E fd} (w : world E) : Prop :=
  exists c e, context_list w !! 0%nat = Some c /\ accept (fd_of c) (env w) = (fd, e) /\ sk_out e = [] /\ sk_in e = [].

End programs.

(** ** Properties *)

Section encounter.
Context {E E' : Type} {P : Platform E} {P' : Platform E'} {F : WritableFiles E} {fd fd' : Z}.
Context {S : Socket E fd} {S' : Socket E' fd'} {N : Network E E' fd fd'} {N' : Network E' E fd' fd}.

(** What the two programs write are texts that they have had in memory from the
    beginning. *)
Definition texts_known (w : world E) (w' : world E') (l : list (bool * endpoint_action)) : Prop :=
  Forall (fun a : bool * endpoint_action =>
    match snd a with
    | Write type text s => packet_ok (Letter type s) /\ (if fst a then known w text s else known w' text s)
    | _ => True
    end) l.

Lemma texts_known_ok (w v : world E) (w' v' : world E') (fs fs' s s' : list Z) l :
  texts_known w w' l -> (forall text s, known w text s -> given v text s) ->
  (forall text s, known w' text s -> given v' text s) ->
  actions_ok (unacquainted s fs v) (unacquainted s' fs' v') l.
Proof.
  intros Hl Hv Hv'. eapply Forall_impl; [exact Hl|]. intros [[] []] Ha; cbn in *; try done.
  - destruct Ha as [Hp Hk]. split; [exact Hp | by apply Hv].
  - destruct Ha as [Hp Hk]. split; [exact Hp | by apply Hv'].
Qed.

Lemma given_same {A} (v w : world A) text (s : list Z) :
  mem v = mem w -> strings v = strings w -> given w text s -> given v text s.
Proof. intros Hm Hs [H1 H2]. split; [by rewrite Hs | by rewrite Hm]. Qed.

(** C5: Two programs that start from nothing get to know each other, and no message
    is lost.  Each has a library that was never used, or was shut down; the one
    initialises it, registers its trampolines and opens a port, the other
    initialises its own, registers its trampolines and connects.  Whatever the
    system answers to the first, provided a file can be opened for writing, its
    calls return.  When the port was opened, a connection that a read thread finds
    there is accepted.  From there, whatever messages the programs write and
    however the threads of the two libraries run meanwhile, the threads can go on
    until each knows the other by the name it was initialised with: the context of
    each, the first one that was free, carries that name, and the trampolines of
    each, the last registered first, were called with exactly the messages the
    other has written, in order, and once under the handshake's identifier with the
    other's name. *)
Theorem programs_become_acquainted (w : world E) (w' : world E') (ts ts' : threads) (old old' : option (list Z))
    (name name' : Z) (s s' : list Z) (fs fs' : list Z) (port port' : Z)
    (Hw : shut_down w old) (Hw' : shut_down w' old')
    (Hs : packet_ok (Hello s)) (Hs' : packet_ok (Hello s'))
    (Hp : points_to_string (mem w) name s) (Hp' : points_to_string (mem w') name' s')
    (Hne : application_name w <> name) (Hne' : application_name w' <> name')
    (Hfs : Forall (fun f => f <> 0) fs) (Hfs' : Forall (fun f => f <> 0) fs')
    (Hfd : 0 <= fd < 2 ^ 31) (Hfd' : 0 <= fd' < 2 ^ 31) (Hport : reaches (fd := fd') port' w') :
  exists r id u, serve name fs port ts w = Done (r, id) u /\
    (r = SUBSTANCE_CONNECTOR_SUCCESS -> offers fd u ->
     exists u' v, id = Some 0 /\
       visit name' fs' port' ts' w' = Done (SUBSTANCE_CONNECTOR_SUCCESS, Some 0) u' /\
       connector_read_thread_handle_open 0 u = Done SUBSTANCE_CONNECTOR_SUCCESS v /\
       forall l t t', texts_known w w' l -> only_mail l ->
         session_run (s, s') l (fresh_endpoint, fresh_endpoint) = Some (t, t') ->
         exists rest x x', silent rest /\
           processes_run (fd := fd) (fd' := fd') 1 0 (l ++ rest) (v, u') = Some (x, x') /\
           acquainted 1 (unacquainted s (rev fs) v) s' (written false l) x /\
           acquainted 0 (unacquainted s' (rev fs') u') s (written true l) x').
Proof.
  destruct (start_fresh w ts old name s fs Hw (proj1 Hs) Hp Hne Hfs) as (w1 & Hrun & Hw1).
  destruct (start_fresh w' ts' old' name' s' fs' Hw' (proj1 Hs') Hp' Hne' Hfs') as (w1' & Hrun' & Hw1').
  destruct (open_running (rev fs) s w w1 port Hw1 Hs) as (r & id & u & Hopen & _ & Hok).
  exists r, id, u. unfold serve. rewrite (bind_done _ _ _ _ _ Hrun). split; [exact Hopen|].
  intros Hr (c & e & Hc & Hacc & Ho & Hi). destruct (Hok Hr) as (-> & Hu & Hkn & d & Hd & Hbits).
  rewrite Hc in Hd. injection Hd as <-.
  destruct (accept_ready (fd := fd) 1 0 (unacquainted s (rev fs) u) Hu) as (v & Hv & Hready & Hm & Hst); [|done|].
  { split; [lia|]. exists c, e. split; [exact Hc|]. by rewrite !Hbits. }
  destruct (connect_ready (fd := fd') 0 port' (unacquainted s' (rev fs') w1') (fresh_running _ _ _ _ Hw1' Hs'))
    as (u' & Hvisit & Hready' & Hm' & Hst'); [|done|].
  { unfold reaches. cbn [unacquainted pt_start]. by rewrite (fl_env _ _ _ _ Hw1'). }
  exists u', v. unfold visit. rewrite (bind_done _ _ _ _ _ Hrun'). do 3 (split; [done|]). intros l t t' Hl Hmail Hsess.
  apply (run_settle 1 0 (unacquainted s (rev fs) v) (unacquainted s' (rev fs') u') l fresh_endpoint fresh_endpoint t t'
    v u' [] []); [by apply ready_together | apply fresh_exchanged | apply fresh_exchanged | | done | done].
  apply (texts_known_ok w v w' u'); [done | |]; intros text str Hk.
  - apply (given_same v u); [exact Hm | exact Hst | by apply Hkn].
  - apply (given_same u' w1'); [exact Hm' | exact Hst' | by apply (fl_known _ _ _ _ Hw1')].
Qed.

End encounter.

(** The one that listens sends its own name as a log message once it has been
    greeted; both are named "ab". *)
Definition greeting : list (bool * endpoint_action) :=
  [(false, Introduce); (true, Write connector_internal_log_uuid 1 [97; 98])].

Lemma programs_become_acquainted_witness :
  exists (u u' v : world simulation) rest x x',
    serve 1 [50] 40000 no_threads uninitialised_world = Done (SUBSTANCE_CONNECTOR_SUCCESS, Some 0) u /\
    visit 1 [60; 70] 40000 no_threads uninitialised_world = Done (SUBSTANCE_CONNECTOR_SUCCESS, Some 0) u' /\
    processes_run (fd := 4) (fd' := 3) 1 0 (greeting ++ rest) (v, u') = Some (x, x') /\
    acquainted 1 (unacquainted [97; 98] [50] v) [97; 98] [] x /\
    acquainted 0 (unacquainted [97; 98] [70; 60] u') [97; 98] [Letter connector_internal_log_uuid [97; 98]] x'.
Proof.
  assert (Hs : packet_ok (Hello [97; 98])) by (split; [repeat constructor; lia | split; [cbn; lia | exact I]]).
  assert (Hp : points_to_string (mem uninitialised_world) 1 [97; 98]) by reflexivity.
  assert (Hne : application_name uninitialised_world <> 1) by discriminate.
  assert (Hport : reaches (fd := 3) 40000 uninitialised_world).
  { do 3 eexists. split; [reflexivity|]. split; [reflexivity|]. split; [cbn; lia | split; reflexivity]. }
  destruct (programs_become_acquainted (fd := 4) (fd' := 3) uninitialised_world uninitialised_world no_threads no_threads
    None None 1 1 [97; 98] [97; 98] [50] [60; 70] 40000 40000 uninitialised_shut_down uninitialised_shut_down Hs Hs Hp Hp
    Hne Hne ltac:(repeat constructor; lia) ltac:(repeat constructor; lia) ltac:(lia) ltac:(lia) Hport)
    as (r & id & u & Hserve & Hok).
  assert (Hu : match serve 1 [50] 40000 no_threads uninitialised_world with
               | Done (r, _) u => r = SUBSTANCE_CONNECTOR_SUCCESS /\
                   (c ← context_list u !! 0%nat;
                    let '(fd, e) := accept (fd_of c) (env u) in
                    Some (fd, sk_out (fd := 4) e, sk_in (fd := 4) e)) = Some (4, [], [])
               | Stuck _ => False
               end) by (vm_compute; split; reflexivity).
  rewrite Hserve in Hu. destruct Hu as [Hr (c & Hc & Hacc)%bind_Some].
  destruct (accept (fd_of c) (env u)) as [fd e] eqn:Ha. injection Hacc as -> Ho Hi.
  destruct (Hok Hr ltac:(exists c, e; auto)) as (u' & v & -> & Hvisit & _ & Hl).
  assert (Hlog : packet_ok (Letter connector_internal_log_uuid [97; 98]))
    by (split; [exact (proj1 Hs) | split; [exact (proj1 (proj2 Hs)) | split; [done | repeat constructor; cbn; lia]]]).
  assert (Hknown : texts_known uninitialised_world uninitialised_world greeting)
    by (constructor; [exact I | constructor; [split; [exact Hlog | split; [discriminate | exact Hp]] | constructor]]).
  assert (Hmail : only_mail greeting) by (repeat constructor).
  destruct (Hl greeting (Endpoint false [Letter connector_internal_log_uuid [97; 98]] [] 0 [] [])
    (Endpoint true [] [Hello [97; 98]] 0 [] []) Hknown Hmail eq_refl) as (rest & x & x' & _ & Hrun & Hx & Hx').
  subst r. exists u, u', v, rest, x, x'. split; [exact Hserve|]. split; [exact Hvisit|]. split; [exact Hrun|].
  split; [exact Hx | exact Hx'].
Defined.
