(* ===== verification/Shutdown.v ===== *)
(** * Shutting down a library in use

    [substance_connector_shutdown] on a library with open contexts, waiting
    messages and registered trampolines: what every part gives back, and that
    nothing of it is left. *)

From S2P Require Import Prelude Wire Memory Strings UintQueue LockedQueue Message World Callbacks.
From S2P Require Import FileSystem Connection SlotFrame ContextQueue Contexts.
From S2P Require Import ReadThread Dispatch Lifecycle.

(** ** States that have given something back *)

Section torn.
Context {E : Type}.
Implicit Types w : world E.

(** From [w], the slots [ids] were cleared and the blocks [ps] released; besides
    this only the environment and the trace have changed. *)
Record torn_down (ids ps : list Z) w w' : Prop := {
  td_wf : mem_wf (mem w');
  td_config : mem_config_eq (mem w) (mem w');
  td_heap : forall a, heap (mem w') !! a = if decide (a ∈ ps) then None else heap (mem w) !! a;
  td_slots : forall j, context_list w' !! j =
    if decide (j ∈ map Z.to_nat ids) then (fun _ => zero_context) <$> context_list w !! j else context_list w !! j;
  td_rest : w' = set_env (env w') (set_trace (trace w') (set_mem (mem w') (set_context_list (context_list w') w)))
}.

Lemma torn_down_nil w : mem_wf (mem w) -> torn_down [] [] w w.
Proof.
  intros Hwf. constructor; [done | done | | | by destruct w]; intros x; by rewrite decide_False by apply not_elem_of_nil.
Qed.

Lemma torn_down_trans ids1 ids2 ps1 ps2 w1 w2 w3 :
  torn_down ids1 ps1 w1 w2 -> torn_down ids2 ps2 w2 w3 -> torn_down (ids1 ++ ids2) (ps1 ++ ps2) w1 w3.
Proof.
  intros [W1 C1 H1 S1 R1] [W2 C2 H2 S2 R2]. constructor; [done | by etransitivity | | |].
  - intros a. rewrite H2, H1. repeat case_decide; try done; set_solver.
  - intros j. rewrite S2, S1, map_app. generalize (map Z.to_nat ids1) (map Z.to_nat ids2). intros js1 js2.
    repeat case_decide; try done; try set_solver; by destruct (context_list w1 !! j).
  - rewrite R2. cbn. rewrite R1. by destruct w1.
Qed.

Lemma torn_down_same ids ids' ps ps' w w' :
  torn_down ids ps w w' -> (forall i, i ∈ ids <-> i ∈ ids') -> (forall a, a ∈ ps <-> a ∈ ps') ->
  torn_down ids' ps' w w'.
Proof.
  intros [W C H S R] Hids Hps. constructor; try done.
  - intros a. rewrite H. by apply decide_ext.
  - intros j. rewrite S. apply decide_ext.
    rewrite !list_elem_of_fmap. by setoid_rewrite Hids.
Qed.

Lemma torn_down_other ids ps w w' a :
  torn_down ids ps w w' -> a ∉ ps -> heap (mem w') !! a = heap (mem w) !! a.
Proof. intros [_ _ H _ _] Ha. rewrite H. by case_decide. Qed.

Lemma torn_down_trampolines ids ps w w' ns :
  torn_down ids ps w w' -> tseg (mem w) (trampoline_front w) ns 0 -> (forall p, p ∈ map fst ns -> p ∉ ps) ->
  tseg (mem w') (trampoline_front w') ns 0.
Proof.
  intros Ht Hns Hps. pose proof Ht as [_ C _ _ R]. replace (trampoline_front w') with (trampoline_front w) by (by rewrite R).
  apply (tseg_frame (mem w)); [done | by destruct C |]. intros p Hp. by apply (torn_down_other _ _ _ _ _ Ht), Hps.
Qed.

End torn.

(** ** Closing the contexts of a read thread

    By the time the read threads are joined, the queue of free contexts is
    gone. *)

Section exits.
Context {E : Type} {P : Platform E} {B : Bindings E} {Q : QuietBindings E}.
Implicit Types w : world E.

(** The trampolines [ns] do not share a block with the names of [ids]. *)
Record notifying w (ids : list Z) (ns : list (Z * Z)) : Prop := {
  nf_wf : mem_wf (mem w);
  nf_serving : mem_serving (mem w);
  nf_chain : tseg (mem w) (trampoline_front w) ns 0;
  nf_nodup : NoDup (map fst ns);
  nf_names : forall i p, i ∈ ids -> p ∈ map fst ns -> p <> peer_name w i
}.

Lemma notifying_repr w ids ns : notifying w ids ns -> trampolines_repr w (map snd ns).
Proof. intros [Hwf Hs Hc Hnd _]. constructor; [done | done |]. eauto. Qed.

(** Shutting a context down closes its socket, tells the trampolines, releases
    the name of the peer and clears the slot; the identifier is lost. *)
Lemma shutdown_context_lost w i ids ns :
  free_contexts w = QNull -> served w i -> i ∈ ids -> notifying w ids ns ->
  exists r w', connector_context_shutdown_from_read_thread i w = Done r w' /\
    torn_down [i] [peer_name w i] w w' /\ mem_serving (mem w').
Proof.
  intros Hfree (Hi & c & s & Hc & Hidx & Hd & Hname) Hin Hnf. pose proof Hnf as [Hwf Hs Hch Hnd Hdis].
  assert (Hpeer : peer_name w i = cx_application_name c) by (unfold peer_name; by rewrite Hc).
  destruct (shutdown_context_steps w i c s (map snd ns)) as (r & w1 & w2 & m3 & Hrun & _ & _ & (l2 & Hw2) & Hwf3 & Hcfg & Hh3);
    try done; [by eapply notifying_repr|]. set (w3 := set_context_list _ (set_mem m3 w2)) in *.
  rewrite (bind_done _ _ _ SUBSTANCE_CONNECTOR_INVALID _ (in_free_done (connector_uint_queue_push i) w3 _ QNull
    ltac:(cbn; rewrite Hw2; cbn; by rewrite Hfree))) in Hrun.
  eexists r, _. split; [exact Hrun|]. split; [|by apply (mem_serving_config (mem w))].
  constructor; cbn; [done | done | | |].
  - intros a. rewrite Hh3, Hpeer. destruct s as [s|]; cbn in Hname.
    + rewrite lookup_delete. apply decide_ext. rewrite list_elem_of_singleton. split; congruence.
    + case_decide as Ha; [|done]. rewrite list_elem_of_singleton in Ha. rewrite Ha, Hname.
      destruct (heap (mem w) !! 0) eqn:E0; [|done]. by destruct (mem_wf_pos (mem w) 0); [done | eexists | ].
  - intros j. assert (Hlt : (Z.to_nat i < length (context_list w))%nat) by (by eapply lookup_lt_Some).
    case_decide as Hj.
    + apply list_elem_of_singleton in Hj as ->. by rewrite list_lookup_insert_eq, Hc by done.
    + rewrite list_elem_of_singleton in Hj. by apply list_lookup_insert_ne.
  - unfold w3. rewrite Hw2. unfold set_free_contexts. cbn. rewrite <- Hfree. by destruct w.
Qed.

End exits.

(** ** The contexts that remain *)

Section remaining.
Context {E : Type}.
Implicit Types w : world E.

Lemma served_slot_other w l ids1 ids2 j :
  all_served w l (ids1 ++ ids2) -> j ∈ ids2 -> Z.to_nat j ∉ map Z.to_nat ids1.
Proof.
  intros [Hnd Hserved _ _] Hj Hin. apply list_elem_of_fmap in Hin as (i & Heq & Hi).
  apply NoDup_app in Hnd as (_ & Hd & _). apply (Hd i Hi).
  destruct (Hserved i) as [Hri _]; [apply elem_of_app; by left|].
  destruct (Hserved j) as [Hrj _]; [apply elem_of_app; by right|].
  by replace i with j by lia.
Qed.

Lemma served_name_other w l ids1 ids2 j :
  all_served w l (ids1 ++ ids2) -> j ∈ ids2 -> peer_name w j <> 0 -> peer_name w j ∉ map (peer_name w) ids1.
Proof.
  intros [Hnd _ _ Hnames] Hj Hn Hin. apply list_elem_of_fmap in Hin as (i & Heq & Hi).
  apply NoDup_app in Hnd as (_ & Hd & _). apply (Hd i Hi).
  replace i with j; [done|]. apply Hnames; [..| done | done]; apply elem_of_app; auto.
Qed.

(** Contexts that are not torn down stay as they are. *)
Lemma torn_down_served w w' ids1 ids2 :
  mem_wf (mem w) -> all_served w [] (ids1 ++ ids2) -> torn_down ids1 (map (peer_name w) ids1) w w' ->
  all_served w' [] ids2 /\
  (forall j, j ∈ ids2 -> context_list w' !! Z.to_nat j = context_list w !! Z.to_nat j /\ peer_name w' j = peer_name w j).
Proof.
  intros Hwf Hall Ht.
  assert (Hslot : forall j, j ∈ ids2 -> context_list w' !! Z.to_nat j = context_list w !! Z.to_nat j).
  { intros j Hj. rewrite (td_slots _ _ _ _ Ht). apply decide_False. by eapply served_slot_other. }
  assert (Hpeer : forall j, j ∈ ids2 -> peer_name w' j = peer_name w j)
    by (intros j Hj; unfold peer_name; by rewrite Hslot).
  split; [|auto]. pose proof Hall as [Hnd Hserved _ Hnames].
  assert (Hin : forall j, j ∈ ids2 -> j ∈ ids1 ++ ids2) by (intros j Hj; apply elem_of_app; auto).
  constructor; [by apply NoDup_app in Hnd as (_ & _ & ?) | | |].
  - intros j Hj. destruct (Hserved j (Hin j Hj)) as (Hr & c & s & Hc & Hidx & Hd & Hs).
    split; [done|]. exists c, s. rewrite Hslot by done. repeat (split; [done|]).
    destruct s as [s|]; [|done]. destruct Hs as [Hcs Hp]. split; [done|].
    assert (Hname : peer_name w j = cx_application_name c) by (unfold peer_name; by rewrite Hc).
    unfold points_to_string, owns in *. rewrite (config_free _ _ (td_config _ _ _ _ Ht)).
    rewrite (torn_down_other _ _ _ _ _ Ht), Hp; [done|]. rewrite <- Hname.
    eapply served_name_other; [done | done |]. rewrite Hname. apply (mem_wf_pos (mem w)); [done | by eexists].
  - intros j _. apply not_elem_of_nil.
  - intros i j Hi Hj. rewrite !Hpeer by done. auto.
Qed.

Lemma torn_down_notifying w w' ids1 ids2 ns :
  all_served w [] (ids1 ++ ids2) -> notifying w (ids1 ++ ids2) ns ->
  torn_down ids1 (map (peer_name w) ids1) w w' -> mem_serving (mem w') -> notifying w' ids2 ns.
Proof.
  intros Hall [Hwf Hs Hc Hnd Hnames] Ht Hs'.
  destruct (torn_down_served _ _ _ _ Hwf Hall Ht) as [_ Hsame].
  constructor; [by destruct Ht | done | | done |].
  - apply (torn_down_trampolines ids1 (map (peer_name w) ids1) w); [done | done |].
    intros p Hp Hin. apply list_elem_of_fmap in Hin as (i & -> & Hi).
    apply (Hnames i _ ltac:(apply elem_of_app; by left) Hp eq_refl).
  - intros j p Hj. destruct (Hsame j Hj) as [_ ->]. apply Hnames, elem_of_app. by right.
Qed.

Lemma torn_down_free w w' ids ps : torn_down ids ps w w' -> free_contexts w' = free_contexts w.
Proof. intros [_ _ _ _ ->]. done. Qed.

End remaining.

(** ** Leaving the loop of a read thread *)

Section leaving.
Context {E : Type} {P : Platform E} {B : Bindings E} {Q : QuietBindings E}.
Implicit Types w : world E.

(** A context that is open or connected, marked for shutdown or not. *)
Definition active w (i : Z) : Prop :=
  0 <= i < 32 /\ exists c, context_list w !! Z.to_nat i = Some c /\
    (Z.land (configuration c) SUBSTANCE_CONNECTOR_CONN_OPEN <> 0 \/
     Z.land (configuration c) SUBSTANCE_CONNECTOR_CONN_CONNECTED <> 0).

Definition mark_shutdown (c : context_struct) : context_struct :=
  set_configuration (Z.lor (configuration c) SUBSTANCE_CONNECTOR_CONN_SHUTDOWN) c.

Lemma mark_shutdown_twice c : mark_shutdown (mark_shutdown c) = mark_shutdown c.
Proof. unfold mark_shutdown. destruct c. cbn. by rewrite <- Z.lor_assoc. Qed.

Lemma close_active w i c :
  0 <= i < 32 -> context_list w !! Z.to_nat i = Some c ->
  Z.land (configuration c) SUBSTANCE_CONNECTOR_CONN_OPEN <> 0 \/
  Z.land (configuration c) SUBSTANCE_CONNECTOR_CONN_CONNECTED <> 0 ->
  connector_context_close i w =
    Done SUBSTANCE_CONNECTOR_SUCCESS (set_context_list (<[Z.to_nat i := mark_shutdown c]> (context_list w)) w).
Proof.
  intros Hi Hc Hact. unfold connector_context_close, SUBSTANCE_CONNECTOR_CONTEXT_COUNT.
  rewrite (proj2 (Z.ltb_lt i 32)) by lia. rewrite (bind_done _ _ _ _ _ (load_context_some w _ c Hc)).
  rewrite <- !Z.land_assoc.
  change (Z.land SUBSTANCE_CONNECTOR_CONN_MASK SUBSTANCE_CONNECTOR_CONN_OPEN) with SUBSTANCE_CONNECTOR_CONN_OPEN.
  change (Z.land SUBSTANCE_CONNECTOR_CONN_MASK SUBSTANCE_CONNECTOR_CONN_CONNECTED) with SUBSTANCE_CONNECTOR_CONN_CONNECTED.
  assert (Hb : negb (Z.land (configuration c) SUBSTANCE_CONNECTOR_CONN_OPEN =? 0)
            || negb (Z.land (configuration c) SUBSTANCE_CONNECTOR_CONN_CONNECTED =? 0) = true).
  { apply orb_true_iff. rewrite !negb_true_iff, !Z.eqb_neq. done. }
  rewrite Hb. by rewrite (bind_done _ _ _ _ _ (store_slot_done w i c _ Hc)).
Qed.

Lemma close_all_marks ids w :
  Forall (active w) ids ->
  exists l, close_all ids w = Done tt (set_context_list l w) /\
    forall j, l !! j = if decide (j ∈ map Z.to_nat ids) then mark_shutdown <$> context_list w !! j
                       else context_list w !! j.
Proof.
  revert w. induction ids as [|i ids IH]; intros w Hall; cbn [close_all].
  - exists (context_list w). split; [by rewrite set_context_list_id|]. intros j. by rewrite decide_False by apply not_elem_of_nil.
  - apply Forall_cons in Hall as [(Hi & c & Hc & Hact) Hall].
    rewrite (bind_done _ _ _ _ _ (close_active w i c Hi Hc Hact)). set (w1 := set_context_list _ w).
    assert (Hlt : (Z.to_nat i < length (context_list w))%nat) by (by eapply lookup_lt_Some).
    destruct (IH w1) as (l & Hrun & Hl).
    { eapply Forall_impl; [exact Hall|]. intros j (Hj & d & Hd & Had). split; [done|].
      destruct (decide (Z.to_nat j = Z.to_nat i)) as [Heq|Hne].
      - exists (mark_shutdown d). rewrite Heq in *. assert (d = c) as -> by congruence.
        split; [by apply list_lookup_insert_eq|]. cbn. rewrite !Z.land_lor_distr_l, !Z.lor_0_r. done.
      - exists d. split; [by rewrite <- Hd; apply list_lookup_insert_ne | done]. }
    exists l. split; [exact Hrun|]. intros j. rewrite Hl. cbn [context_list set_context_list w1 map].
    destruct (decide (j = Z.to_nat i)) as [->|Hne].
    + rewrite list_lookup_insert_eq, Hc by done. cbn. rewrite mark_shutdown_twice.
      rewrite (decide_True (P := Z.to_nat i ∈ _ :: _)) by (apply elem_of_cons; by left). by case_decide.
    + rewrite list_lookup_insert_ne by done. apply decide_ext. rewrite elem_of_cons. naive_solver.
Qed.

(** [l] is the table of [w] with the slots of [ids] marked. *)
Definition marks (ids : list Z) w (l : list context_struct) : Prop :=
  forall j, l !! j = if decide (j ∈ map Z.to_nat ids) then mark_shutdown <$> context_list w !! j
                     else context_list w !! j.

Lemma marks_lookup ids w l i c :
  marks ids w l -> i ∈ ids -> context_list w !! Z.to_nat i = Some c -> l !! Z.to_nat i = Some (mark_shutdown c).
Proof. intros Hl Hi Hc. rewrite Hl, decide_True, Hc; [done|]. apply list_elem_of_fmap. by exists i. Qed.

Lemma marks_peer ids w l i :
  marks ids w l -> peer_name (set_context_list l w) i = peer_name w i.
Proof.
  intros Hl. unfold peer_name. cbn. rewrite Hl. case_decide; [|done]. by destruct (context_list w !! Z.to_nat i).
Qed.

Lemma connection_index_mark c : connection_index (mark_shutdown c) 0 = connection_index c 0.
Proof.
  unfold connection_index, mark_shutdown. destruct c. cbn. by rewrite Z.land_lor_distr_l, Z.lor_0_r.
Qed.

Lemma marks_served ids w l :
  marks ids w l -> all_served w [] ids -> all_served (set_context_list l w) [] ids.
Proof.
  intros Hl [Hnd Hserved Hfree Hnames]. constructor; [done | | done |].
  - intros i Hi. destruct (Hserved i Hi) as (Hr & c & s & Hc & Hidx & Hd & Hs). split; [done|].
    exists (mark_shutdown c), s. split; [by apply (marks_lookup ids w)|].
    split; [by rewrite connection_index_mark|]. by destruct c.
  - intros i j. rewrite !(marks_peer ids w l) by done. auto.
Qed.

Lemma marks_shutdown ids w l i :
  marks ids w l -> all_served w [] ids -> i ∈ ids -> is_shutdown (set_context_list l w) i = true.
Proof.
  intros Hl [_ Hserved _ _] Hi. destruct (Hserved i Hi) as (_ & c & _ & Hc & _).
  unfold is_shutdown. cbn [context_list set_context_list]. rewrite (marks_lookup ids w l i c) by done.
  destruct c. cbn. rewrite Z.land_lor_distr_l. apply negb_true_iff, Z.eqb_neq. intros H.
  by apply Z.lor_eq_0_iff in H as [_ ?].
Qed.

Lemma torn_down_marked ids ps w w' l :
  marks ids w l -> torn_down ids ps (set_context_list l w) w' -> torn_down ids ps w w'.
Proof.
  intros Hl [W C H S R]. constructor; [done | done | done | | exact R].
  intros j. rewrite S. cbn. rewrite Hl. case_decide; [|done]. by destruct (context_list w !! j).
Qed.

(** The loop of the cleanup, when every context is marked. *)
Lemma cleanup_all pre thread w r ns :
  thread_wf thread -> entries thread = pre -> free_contexts w = QNull -> all_served w [] (map fst pre) ->
  (forall i, i ∈ map fst pre -> is_shutdown w i = true) -> notifying w (map fst pre) ns ->
  exists thread' r' w', cleanup_loop (length pre) thread r w = Done (thread', r') w' /\
    assigned_contexts thread' = 0%nat /\ thread_wf thread' /\
    torn_down (map fst pre) (map (peer_name w) (map fst pre)) w w' /\ mem_serving (mem w').
Proof.
  revert thread w r. induction pre as [|[i fds] pre IH] using rev_ind; intros thread w r Hwf He Hfree Hall Hmark Hnf.
  { exists thread, r, w. split; [done|]. pose proof (entries_length _ Hwf) as Hlen. rewrite He in Hlen.
    repeat (split; [done|]). split; [|by destruct Hnf]. apply torn_down_nil. by destruct Hnf. }
  rewrite length_app, Nat.add_1_r. cbn [cleanup_loop length].
  assert (Hperm : i :: map fst pre ≡ₚ map fst (pre ++ [(i, fds)])) by (rewrite map_app; apply Permutation_cons_append).
  assert (Hall1 : all_served w [] ([i] ++ map fst pre)) by (by eapply all_served_perm; [symmetry|]).
  assert (Hnf1 : notifying w ([i] ++ map fst pre) ns)
    by (destruct Hnf as [? ? ? ? Hn]; constructor; try done; intros j p Hj; apply Hn; by rewrite <- Hperm).
  assert (Hi : i ∈ map fst (pre ++ [(i, fds)])) by (rewrite <- Hperm; apply elem_of_cons; by left).
  destruct (cleanup_looks_at pre i fds [] thread w [] Hwf He Hall1) as (Hlen & -> & st & Hst & Hflag).
  rewrite (bind_done _ _ _ _ _ Hst), Hflag, (Hmark i Hi).
  destruct (remove_context_entries thread (length pre) Hwf Hlen) as (t1 & Hrm & Hwf1 & He1).
  rewrite Hrm. change (SUBSTANCE_CONNECTOR_SUCCESS =? SUBSTANCE_CONNECTOR_SUCCESS) with true. cbn iota.
  destruct (shutdown_context_lost w i _ ns Hfree (as_served _ _ _ Hall i Hi) Hi Hnf) as (r1 & w1 & Hsd & Ht1 & Hs1).
  rewrite (bind_done _ _ _ _ _ Hsd).
  destruct (swap_remove_perm pre (i, fds) []) as (post' & Hsr & Hp). apply Permutation_nil_r in Hp as ->.
  rewrite He, Hsr, app_nil_r in He1.
  destruct (torn_down_served w w1 [i] (map fst pre)) as [Hall2 Hsame]; [by destruct Hnf | done | done |].
  destruct (IH t1 w1 r1) as (t2 & r2 & w2 & Hrun & H0 & Hwf2 & Ht2 & Hs2); auto.
  - by rewrite (torn_down_free _ _ _ _ Ht1).
  - intros j Hj. unfold is_shutdown. destruct (Hsame j Hj) as [-> _]. apply Hmark. rewrite <- Hperm.
    apply elem_of_cons. by right.
  - by apply (torn_down_notifying w w1 [i]).
  - exists t2, r2, w2. split; [exact Hrun|]. split; [done|]. split; [done|]. split; [|done].
    assert (Heq : map (peer_name w1) (map fst pre) = map (peer_name w) (map fst pre)).
    { apply map_ext_in. intros j Hj. apply Hsame, list_elem_of_In, Hj. }
    rewrite Heq in Ht2. pose proof (torn_down_trans _ _ _ _ _ _ _ Ht1 Ht2) as Ht.
    eapply torn_down_same; [exact Ht | |]; intros x; rewrite <- ?Hperm; [done|].
    change ([peer_name w i] ++ map (peer_name w) (map fst pre)) with (map (peer_name w) (i :: map fst pre)).
    by rewrite Hperm.
Qed.

(** A joined thread has closed all its contexts. *)
Lemma read_thread_exit_tears thread w ns :
  let ids := map fst (entries thread) in
  thread_wf thread -> free_contexts w = QNull -> all_served w [] ids -> Forall (active w) ids -> notifying w ids ns ->
  exists thread' w', read_thread_exit thread w = Done thread' w' /\ assigned_contexts thread' = 0%nat /\
    thread_wf thread' /\ torn_down ids (map (peer_name w) ids) w w' /\ mem_serving (mem w').
Proof.
  intros ids Hwf Hfree Hall Hact Hnf. unfold read_thread_exit.
  assert (Hids : take (assigned_contexts thread) (context_ids thread) = ids).
  { unfold ids, entries. destruct Hwf as [H1 H2 H3]. symmetry. apply fst_zip. rewrite !length_take. lia. }
  rewrite Hids. destruct (close_all_marks ids w Hact) as (l & Hrun & Hl). rewrite (bind_done _ _ _ _ _ Hrun).
  set (w1 := set_context_list l w). fold (marks ids w l) in Hl.
  assert (Hnames : map (peer_name w1) ids = map (peer_name w) ids)
    by (apply map_ext; intros i; by apply (marks_peer ids)).
  destruct (cleanup_all (entries thread) thread w1 SUBSTANCE_CONNECTOR_ERROR ns) as (t & r & w' & Hclean & H0 & Hwf' & Ht & Hs);
    [done | done | done | by apply marks_served | by intros i Hi; apply (marks_shutdown ids) | |].
  { destruct Hnf as [? ? ? ? Hn]. constructor; try done. intros i p Hi. unfold w1. rewrite (marks_peer ids) by done. by apply Hn. }
  fold ids in Ht. rewrite Hnames in Ht. unfold connector_read_thread_cleanup_connections.
  rewrite <- (entries_length _ Hwf), (bind_done _ _ _ _ _ Hclean).
  exists t, w'. split; [done|]. repeat (split; [done|]). split; [|done]. by apply (torn_down_marked ids _ w w' l).
Qed.

(** All contexts of the threads. *)
Definition assigned_ids (ts : list read_thread) : list Z := concat (map (fun t => map fst (entries t)) ts).

Lemma join_read_threads_tears ts w ns :
  Forall thread_wf ts -> free_contexts w = QNull -> all_served w [] (assigned_ids ts) ->
  Forall (active w) (assigned_ids ts) -> notifying w (assigned_ids ts) ns ->
  exists ts' w', join_read_threads ts w = Done ts' w' /\
    Forall (fun t => assigned_contexts t = 0%nat /\ thread_wf t) ts' /\ length ts' = length ts /\
    torn_down (assigned_ids ts) (map (peer_name w) (assigned_ids ts)) w w' /\ mem_serving (mem w').
Proof.
  revert w. induction ts as [|t ts IH]; intros w Hwf Hfree Hall Hact Hnf; cbn [join_read_threads].
  { exists [], w. repeat (split; [done|]). split; [|by destruct Hnf]. apply torn_down_nil. by destruct Hnf. }
  apply Forall_cons in Hwf as [Hwf1 Hwf]. change (assigned_ids (t :: ts)) with (map fst (entries t) ++ assigned_ids ts) in *.
  set (ids := map fst (entries t)) in *. apply Forall_app in Hact as [Hact1 Hact].
  assert (Hall1 : all_served w [] ids).
  { destruct Hall as [Hnd Hsv _ Hnm]. apply NoDup_app in Hnd as (Hnd & _).
    constructor; [done | | by intros; apply not_elem_of_nil |]; intros; [apply Hsv | apply Hnm]; try done; apply elem_of_app; auto. }
  assert (Hnf1 : notifying w ids ns)
    by (destruct Hnf as [? ? ? ? Hn]; constructor; try done; intros i p Hi; apply Hn, elem_of_app; auto).
  destruct (read_thread_exit_tears t w ns) as (t' & w1 & Hrun & H0 & Hwf' & Ht1 & Hs1); try done. fold ids in Ht1.
  rewrite (bind_done _ _ _ _ _ Hrun).
  destruct (torn_down_served w w1 ids (assigned_ids ts)) as [Hall2 Hsame]; [by destruct Hnf | done | done |].
  destruct (IH w1) as (ts' & w2 & Hjoin & Hts & Hlen & Ht2 & Hs2); auto.
  - by rewrite (torn_down_free _ _ _ _ Ht1).
  - apply Forall_forall. intros j Hj. rewrite Forall_forall in Hact. destruct (Hact j Hj) as (Hr & c & Hc & Ha).
    split; [done|]. exists c. by destruct (Hsame j Hj) as [-> _].
  - by apply (torn_down_notifying w w1 ids).
  - rewrite (bind_done _ _ _ _ _ Hjoin). exists (t' :: ts'), w2. split; [done|].
    split; [by constructor|]. split; [cbn; by rewrite Hlen|]. split; [|done].
    assert (Heq : map (peer_name w1) (assigned_ids ts) = map (peer_name w) (assigned_ids ts)).
    { apply map_ext_in. intros j Hj. apply Hsame, list_elem_of_In, Hj. }
    rewrite map_app, <- Heq. by apply (torn_down_trans _ _ _ _ w w1 w2).
Qed.

End leaving.

(** ** Memory that has lost some blocks *)

(** Like [released], but blocks may have been allocated and released since. *)
Record gone (ps : list Z) (m m' : memory) : Prop := {
  gone_wf : mem_wf m';
  gone_config : mem_config_eq m m';
  gone_heap : forall a, heap m' !! a = if decide (a ∈ ps) then None else heap m !! a
}.

Lemma released_gone ps m m' : released ps m m' -> gone ps m m'.
Proof. by intros []. Qed.

Lemma torn_down_gone {E} ids ps (w w' : world E) : torn_down ids ps w w' -> gone ps (mem w) (mem w').
Proof. by intros []. Qed.

Lemma gone_trans ps qs m1 m2 m3 : gone ps m1 m2 -> gone qs m2 m3 -> gone (ps ++ qs) m1 m3.
Proof.
  intros [W1 C1 H1] [W2 C2 H2]. constructor; [done | by etransitivity |].
  intros a. rewrite H2, H1. repeat case_decide; try done; set_solver.
Qed.

Lemma gone_other ps m m' a : gone ps m m' -> a ∉ ps -> heap m' !! a = heap m !! a.
Proof. intros [_ _ H] Ha. rewrite H. by case_decide. Qed.

Lemma gone_owns ps m m' a b : gone ps m m' -> a ∉ ps -> owns m a b -> owns m' a b.
Proof.
  intros H Ha. unfold owns. by rewrite (gone_other ps m m'), (config_free _ _ (gone_config _ _ _ H)).
Qed.

Lemma gone_serving ps m m' : gone ps m m' -> mem_serving m -> mem_serving m'.
Proof. intros [_ C _]. by apply mem_serving_config. Qed.

Lemma gone_queue ps m m' q ns :
  gone ps m m' -> lq_repr m q ns -> (forall p, p ∈ map fst ns -> p ∉ ps) -> lq_repr m' q ns.
Proof.
  intros Hg Hq Hd. apply (lq_repr_frame m); [done | by destruct Hg |]. intros p n x Hin Ho.
  by apply (gone_other ps), Hd, list_elem_of_In.
Qed.

Lemma gone_messages ps m m' (ns : list (Z * Z)) fps :
  gone ps m m' -> Forall2 (fun pc qs => message_blocks m (snd pc) qs) ns fps ->
  (forall p, p ∈ concat fps -> p ∉ ps) -> Forall2 (fun pc qs => message_blocks m' (snd pc) qs) ns fps.
Proof.
  intros Hg Hm Hd. induction Hm as [|pc qs ns fps Hb _ IH]; constructor.
  - apply (message_blocks_frame m); [done | by destruct Hg |]. intros a Ha. apply (gone_other ps); [done|].
    apply Hd. cbn. apply elem_of_app. by left.
  - apply IH. intros p Hp. apply Hd. cbn. apply elem_of_app. by right.
Qed.

Lemma gone_chain ps m m' front ns :
  gone ps m m' -> tseg m front ns 0 -> (forall p, p ∈ map fst ns -> p ∉ ps) -> tseg m' front ns 0.
Proof.
  intros Hg Hc Hd. apply (tseg_frame m); [done | by destruct Hg as [_ [] _] |]. intros p Hp. by apply (gone_other ps), Hd.
Qed.

Lemma gone_string ps m m' p s : gone ps m m' -> slot_string m p s -> (s <> None -> p ∉ ps) -> slot_string m' p s.
Proof.
  intros Hg Hs Hp. destruct s as [s|]; [|done]. destruct Hs as [Hc Ho]. split; [done|]. by apply (gone_owns ps m); auto.
Qed.

Lemma live_queue_owned p m m' ps :
  (forall a, a ∈ queue_blocks p -> exists b, owns m a b) -> gone ps m m' ->
  (forall a, a ∈ queue_blocks p -> a ∉ ps) -> forall a, a ∈ queue_blocks p -> exists b, owns m' a b.
Proof. intros Ho Hg Hd a Ha. destruct (Ho a Ha) as [b Hb]. exists b. apply (gone_owns ps m); auto. Qed.

(** ** The communication subsystem *)

Section comm.
Context {E : Type} {P : Platform E} {B : Bindings E} {Q : QuietBindings E}.
Implicit Types w : world E.

(** Threads that are not working and not told to stop. *)
Definition joined (ts : threads) : Prop :=
  write_thread_shutdown_flag ts = 0 /\ read_thread_shutdown_flag ts = 0 /\
  Forall (fun t => assigned_contexts t = 0%nat /\ thread_wf t) (read_threads ts).

Lemma torn_down_trace tr ids ps w w' : torn_down ids ps (set_trace tr w) w' -> torn_down ids ps w w'.
Proof. by intros [W C H S R]. Qed.

Lemma shutdown_comm_joins ts w ns :
  let ids := assigned_ids (read_threads ts) in
  let names := map (peer_name w) ids in
  write_thread_shutdown_flag ts = 0 -> read_thread_shutdown_flag ts = 0 ->
  Forall thread_wf (read_threads ts) -> free_contexts w = QNull -> all_served w [] ids ->
  Forall (active w) ids -> notifying w ids ns ->
  (exists q, connection_queue w = QLive q) -> NoDup (queue_blocks (connection_queue w)) ->
  (forall a, a ∈ queue_blocks (connection_queue w) -> (a ∉ names) /\ exists b, owns (mem w) a b) ->
  exists ts' w1 m', connector_shutdown_comm_subsystem ts w =
      Done (ts', SUBSTANCE_CONNECTOR_SUCCESS) (set_connection_queue QNull (set_mem m' w1)) /\
    joined ts' /\ length (read_threads ts') = length (read_threads ts) /\
    torn_down ids names w w1 /\ released (queue_blocks (connection_queue w)) (mem w1) m'.
Proof.
  intros ids names Hf1 Hf2 Hwf Hfree Hall Hact Hnf [q Hq] Hnd Hown.
  set (w0 := set_trace (trace w ++ [BroadcastOutbound; BroadcastInbound]) w).
  destruct (join_read_threads_tears (read_threads ts) w0 ns) as (rs & w1 & Hjoin & Hrs & Hlen & Ht & Hs1); try done.
  { by destruct Hall; constructor. }
  { by destruct Hnf; constructor. }
  fold ids in Ht. change (map (peer_name w0) ids) with names in Ht. apply torn_down_trace in Ht.
  destruct (destroy_queue_spec (connection_queue w) (mem w1)) as (m' & Hd & Hrel); try (by rewrite Hq).
  { by destruct Ht. }
  { done. }
  { apply (live_queue_owned _ (mem w) _ names); [by intros; apply Hown | by eapply torn_down_gone | by intros; apply Hown]. }
  destruct ts as [f1 f2 c d l]. cbn in Hf1, Hf2. subst f1 f2.
  exists (Threads 0 0 c d rs), w1, m'. split; [|split; [by split|]; done].
  unfold connector_shutdown_comm_subsystem.
  rewrite (bind_done _ _ w (Threads 0 0 c d rs, SUBSTANCE_CONNECTOR_SUCCESS) w1).
  2:{ unfold connector_terminate_comm, bind. cbn. unfold bind. cbn. rewrite <- app_assoc. cbn.
      change (set_trace _ (set_trace _ w)) with w0. cbn in Hjoin. by rewrite Hjoin. }
  assert (Hav : available_queue_shutdown w1 =
    Done SUBSTANCE_CONNECTOR_SUCCESS (set_connection_queue QNull (set_mem m' w1))); [|by rewrite (bind_done _ _ _ _ _ Hav)].
  unfold available_queue_shutdown.
  assert (Hq1 : connection_queue w1 = connection_queue w) by (by rewrite (td_rest _ _ _ _ Ht)).
  rewrite (bind_done (gets connection_queue) _ w1 (connection_queue w) w1) by (unfold gets; by rewrite Hq1).
  rewrite (bind_done _ _ w1 (QNull, SUBSTANCE_CONNECTOR_SUCCESS) (set_mem m' w1)); [done|].
  apply (in_mem_done _ w1). unfold connector_available_queue_shutdown. by rewrite (bind_done _ _ _ _ _ Hd).
Qed.

End comm.

(** ** A library in use *)

(** What the dynamic structures hold: the nodes of the trampolines with their
    functions, the nodes of the two queues with their messages, and the blocks of
    each message. *)
Record holdings := Holdings {
  hd_trampolines : list (Z * Z);
  hd_inbound : list (Z * Z);
  hd_inbound_blocks : list (list Z);
  hd_outbound : list (Z * Z);
  hd_outbound_blocks : list (list Z)
}.

Section in_use.
Context {E : Type} {P : Platform E} {B : Bindings E}.
Implicit Types w : world E.

Definition context_blocks w : list Z := queue_blocks (free_contexts w).
Definition available_blocks w : list Z := queue_blocks (connection_queue w).
Definition message_queue_blocks (k : holdings) : list Z :=
  (map fst (hd_inbound k) ++ concat (hd_inbound_blocks k)) ++
  (map fst (hd_outbound k) ++ concat (hd_outbound_blocks k)).
Definition held_blocks w (k : holdings) : list Z :=
  context_blocks w ++ available_blocks w ++ message_queue_blocks k ++ map fst (hd_trampolines k).

(** An initialised library between two calls, with the threads [ts]: its
    structures are well-formed and share no block, every context of a read
    thread is open or connected, and no thread is being stopped. *)
Record in_use w (ts : threads) (k : holdings) (name : option (list Z)) : Prop := {
  iu_state : module_state w = SUBSTANCE_CONNECTOR_STATE_INIT_FINISHED;
  iu_write_flag : write_thread_shutdown_flag ts = 0;
  iu_read_flag : read_thread_shutdown_flag ts = 0;
  iu_threads : Forall thread_wf (read_threads ts);
  iu_served : all_served w [] (assigned_ids (read_threads ts));
  iu_active : Forall (active w) (assigned_ids (read_threads ts));
  iu_notifying : notifying w (assigned_ids (read_threads ts)) (hd_trampolines k);
  iu_free : exists q, free_contexts w = QLive q;
  iu_available : exists q, connection_queue w = QLive q;
  iu_owned : forall a, a ∈ context_blocks w ++ available_blocks w -> exists b, owns (mem w) a b;
  iu_queue_state : message_queue_state (queues w) = MESSAGE_QUEUE_INITIALIZED;
  iu_in_handler : lq_handler (inbound_queue (queues w)) = handle_message;
  iu_out_handler : lq_handler (outbound_queue (queues w)) = handle_message;
  iu_inbound : lq_repr (mem w) (inbound_queue (queues w)) (hd_inbound k);
  iu_outbound : lq_repr (mem w) (outbound_queue (queues w)) (hd_outbound k);
  iu_in_messages : Forall2 (fun pc ps => message_blocks (mem w) (snd pc) ps) (hd_inbound k) (hd_inbound_blocks k);
  iu_out_messages : Forall2 (fun pc ps => message_blocks (mem w) (snd pc) ps) (hd_outbound k) (hd_outbound_blocks k);
  iu_distinct : NoDup (held_blocks w k);
  iu_names : forall i, i ∈ assigned_ids (read_threads ts) -> peer_name w i ∉ held_blocks w k;
  iu_name : slot_string (mem w) (application_name w) name;
  iu_own_name : name <> None ->
    application_name w ∉ map (peer_name w) (assigned_ids (read_threads ts)) ++ held_blocks w k
}.

#[local] Ltac part_of H := intros ? ?; apply H, elem_of_app; rewrite !elem_of_app; auto.

Lemma destroy_contexts w ts k name :
  in_use w ts k name ->
  let w1 := set_module_state SUBSTANCE_CONNECTOR_STATE_SHUTDOWN_STARTED w in
  exists m, connector_shutdown_context_subsystem w1 =
      Done SUBSTANCE_CONNECTOR_SUCCESS (set_free_contexts QNull (set_mem m w1)) /\
    released (context_blocks w) (mem w) m.
Proof.
  intros H w1. destruct (iu_free _ _ _ _ H) as [q Hq]. pose proof (iu_distinct _ _ _ _ H) as Hnd.
  apply NoDup_app in Hnd as (Hnd & _ & _).
  destruct (destroy_queue_spec (free_contexts w) (mem w)) as (m & Hd & Hrel); try (by rewrite Hq); try done.
  { by destruct (iu_notifying _ _ _ _ H). }
  { intros a Ha. apply (iu_owned _ _ _ _ H), elem_of_app. by left. }
  exists m. split; [|done]. unfold connector_shutdown_context_subsystem.
  rewrite (bind_done (gets free_contexts) _ w1 (free_contexts w) w1) by done.
  by rewrite (bind_done _ _ _ _ _ (in_mem_done _ w1 _ _ Hd)).
Qed.

(** Contexts and trampolines keep their sense when blocks of others go. *)
Lemma all_served_frame w w' ids ps :
  all_served w [] ids -> gone ps (mem w) (mem w') -> context_list w' = context_list w ->
  (forall i, i ∈ ids -> peer_name w i ∉ ps) -> all_served w' [] ids.
Proof.
  intros [Hnd Hserved Hfree Hnames] Hg Hl Hps. constructor; [done | | done |].
  - intros i Hi. destruct (Hserved i Hi) as (Hr & c & s & Hc & Hidx & Hd & Hs). split; [done|].
    exists c, s. rewrite Hl. repeat (split; [done|]). apply (gone_string ps (mem w)); [done | done |]. intros _.
    replace (cx_application_name c) with (peer_name w i) by (unfold peer_name; by rewrite Hc). auto.
  - intros i j. unfold peer_name. rewrite Hl. apply Hnames.
Qed.

Lemma notifying_frame w w' ids ns ps :
  notifying w ids ns -> gone ps (mem w) (mem w') -> context_list w' = context_list w ->
  trampoline_front w' = trampoline_front w -> (forall p, p ∈ map fst ns -> p ∉ ps) -> notifying w' ids ns.
Proof.
  intros [Hwf Hs Hc Hnd Hn] Hg Hl Hf Hps. constructor; [by destruct Hg | by eapply gone_serving | | done |].
  - rewrite Hf. by apply (gone_chain ps (mem w)).
  - intros i p. unfold peer_name. rewrite Hl. apply Hn.
Qed.

(** The message queues, after [ps] is gone. *)
Lemma shutdown_queues_in_use w w1 ts k name ps :
  in_use w ts k name -> gone ps (mem w) (mem w1) -> queues w1 = queues w ->
  (forall a, a ∈ message_queue_blocks k -> a ∉ ps) ->
  exists m, in_static_queues connector_shutdown_message_queue_subsystem w1 =
      Done SUBSTANCE_CONNECTOR_SUCCESS (set_queues (shut_queues (queues w)) (set_mem m w1)) /\
    released (message_queue_blocks k) (mem w1) m.
Proof.
  intros H Hg Hq Hps. pose proof (iu_distinct _ _ _ _ H) as Hnd.
  apply NoDup_app in Hnd as (_ & _ & Hnd). apply NoDup_app in Hnd as (_ & _ & Hnd). apply NoDup_app in Hnd as (Hnd & _ & _).
  destruct (shutdown_queues_releases (mem w1) (queues w) (hd_inbound k) (hd_outbound k)
    (hd_inbound_blocks k) (hd_outbound_blocks k)) as (m & Hrun & Hrel); try done; try by destruct H.
  - by destruct Hg.
  - apply (gone_queue ps (mem w)); [done | by destruct H | part_of Hps].
  - apply (gone_queue ps (mem w)); [done | by destruct H | part_of Hps].
  - apply (gone_messages ps (mem w)); [done | by destruct H | part_of Hps].
  - apply (gone_messages ps (mem w)); [done | by destruct H | part_of Hps].
  - exists m. split; [|done]. unfold in_static_queues, in_queues.
    rewrite (bind_done (gets queues) _ w1 (queues w) w1) by (unfold gets; by rewrite Hq).
    rewrite (bind_done _ _ w1 (SUBSTANCE_CONNECTOR_SUCCESS, shut_queues (queues w)) (set_mem m w1)); [done|].
    apply (in_mem_done _ w1). by rewrite (bind_done _ _ _ _ _ Hrun).
Qed.

End in_use.

(** ** Properties *)

Section properties.
Context {E : Type} {P : Platform E} {B : Bindings E} {Q : QuietBindings E}.
Implicit Types w : world E.

(** The parts of the library are disjoint. *)
Lemma in_use_disjoint w ts k name :
  in_use w ts k name ->
  let names := map (peer_name w) (assigned_ids (read_threads ts)) in
  (forall a, a ∈ available_blocks w -> (a ∉ context_blocks w) /\ (a ∉ names)) /\
  (forall a, a ∈ message_queue_blocks k -> a ∉ (context_blocks w ++ names) ++ available_blocks w) /\
  (forall a, a ∈ map fst (hd_trampolines k) ->
     a ∉ ((context_blocks w ++ names) ++ available_blocks w) ++ message_queue_blocks k) /\
  NoDup (available_blocks w).
Proof.
  intros H names. pose proof (iu_distinct _ _ _ _ H) as Hnd. unfold held_blocks in Hnd.
  assert (Hn : forall a, a ∈ names -> a ∉ held_blocks w k).
  { intros a Ha. apply list_elem_of_fmap in Ha as (i & -> & Hi). by apply (iu_names _ _ _ _ H). }
  unfold held_blocks in Hn. generalize dependent names. intros names Hn.
  repeat (apply NoDup_app in Hnd as (? & ? & Hnd)).
  split; [|split; [|split; [|done]]]; intros a Ha; rewrite ?not_elem_of_app; set_solver.
Qed.

(** The first part: the queue of free contexts, the threads and the queue of
    available connections. *)
Lemma shutdown_threads_in_use w ts k name :
  in_use w ts k name ->
  let ids := assigned_ids (read_threads ts) in
  let w1 := set_module_state SUBSTANCE_CONNECTOR_STATE_SHUTDOWN_STARTED w in
  exists m1 ts' w3 m4, let w2 := set_free_contexts QNull (set_mem m1 w1) in
    connector_shutdown_context_subsystem w1 = Done SUBSTANCE_CONNECTOR_SUCCESS w2 /\
    connector_shutdown_comm_subsystem ts w2 =
      Done (ts', SUBSTANCE_CONNECTOR_SUCCESS) (set_connection_queue QNull (set_mem m4 w3)) /\
    joined ts' /\ length (read_threads ts') = length (read_threads ts) /\
    torn_down ids (map (peer_name w) ids) w2 w3 /\
    gone ((context_blocks w ++ map (peer_name w) ids) ++ available_blocks w) (mem w) m4.
Proof.
  intros H ids w1. destruct (in_use_disjoint _ _ _ _ H) as (Hd1 & _ & Hd3 & Hnd). cbn zeta in Hd1, Hd3.
  destruct (destroy_contexts _ _ _ _ H) as (m1 & Hctx & Hrel1). cbn zeta in Hctx. fold w1 in Hctx.
  set (w2 := set_free_contexts QNull (set_mem m1 w1)) in *. pose proof (released_gone _ _ _ Hrel1) as G1.
  destruct (shutdown_comm_joins ts w2 (hd_trampolines k)) as (ts' & w3 & m4 & Hcomm & Hjoined & Hlen & Htorn & Hrel4);
    try by destruct H.
  { apply (all_served_frame w _ _ (context_blocks w)); [by destruct H | done | done |].
    intros i Hi Hin. apply (iu_names _ _ _ _ H i Hi), elem_of_app. by left. }
  { apply (notifying_frame w _ _ _ (context_blocks w)); [by destruct H | done | done | done |].
    intros p Hp Hin. apply (Hd3 p Hp). rewrite !elem_of_app. auto. }
  { intros a Ha. destruct (Hd1 a Ha) as [Hn1 Hn2]. split; [exact Hn2|].
    destruct (iu_owned _ _ _ _ H a) as [b Hb]; [apply elem_of_app; by right|]. exists b. by apply (gone_owns _ _ _ _ _ G1). }
  exists m1, ts', w3, m4. repeat (split; [done|]).
  apply (gone_trans _ _ _ (mem w3)); [|by apply released_gone].
  by apply (gone_trans _ _ _ m1); [|apply (torn_down_gone ids _ w2)].
Qed.

(** The state after the shutdown, where [w3] is the state with the threads
    joined and [m] the memory at the end. *)
Definition after_shutdown w w3 (m : memory) (tr : list event) : world E :=
  World _ (env w3) (Memory (heap m) (next_addr m) malloc_id malloc_id (oracle m) (junk m))
    SUBSTANCE_CONNECTOR_STATE_SHUTDOWN (application_name w) (context_list w3) QNull QNull
    (shut_queues (queues w)) (trampoline_front w) tr.

Lemma shutdown_in_use_run w ts k name :
  in_use w ts k name ->
  let ids := assigned_ids (read_threads ts) in
  exists ts' w3 m tr, substance_connector_shutdown ts w = Done (ts', SUBSTANCE_CONNECTOR_SUCCESS) (after_shutdown w w3 m tr) /\
    joined ts' /\ length (read_threads ts') = length (read_threads ts) /\
    (forall j, context_list w3 !! j =
       if decide (j ∈ map Z.to_nat ids) then (fun _ => zero_context) <$> context_list w !! j else context_list w !! j) /\
    gone ((((context_blocks w ++ map (peer_name w) ids) ++ available_blocks w) ++ message_queue_blocks k) ++
          map fst (hd_trampolines k)) (mem w) m.
Proof.
  intros H ids. destruct (in_use_disjoint _ _ _ _ H) as (_ & Hd2 & Hd3 & _). cbn zeta in Hd2, Hd3.
  destruct (shutdown_threads_in_use _ _ _ _ H) as (m1 & ts' & w3 & m4 & Hctx & Hcomm & Hjoined & Hlen & Htorn & G4).
  set (w1 := set_module_state _ w) in *. set (w2 := set_free_contexts QNull (set_mem m1 w1)) in *.
  set (w4 := set_connection_queue QNull (set_mem m4 w3)) in *.
  set (w5 := set_trace (trace w4 ++ [BroadcastDispatch]) w4).
  assert (Hdisp : exists ts2, connector_shutdown_dispatch_subsystem ts' w4 = Done (ts2, SUBSTANCE_CONNECTOR_SUCCESS) w5 /\
    joined ts2 /\ read_threads ts2 = read_threads ts').
  { unfold connector_shutdown_dispatch_subsystem, terminate_dispatch, CONNECTOR_ATOMIC_COMPARE_EXCHANGE.
    repeat case_match; try discriminate; by eexists. }
  destruct Hdisp as (ts2 & Hdisp & Hjoined2 & Hts2). pose proof (td_rest _ _ _ _ Htorn) as Hw3.
  assert (Hq5 : queues w5 = queues w) by (cbn; by rewrite Hw3).
  destruct (shutdown_queues_in_use w w5 ts k name _ H G4 Hq5 Hd2) as (m6 & Hqueues & Hrel6).
  pose proof (gone_trans _ _ _ _ _ G4 (released_gone _ _ _ Hrel6)) as G6.
  set (w6 := set_queues (shut_queues (queues w)) (set_mem m6 w5)) in *.
  assert (Hf6 : trampoline_front w6 = trampoline_front w) by (cbn; by rewrite Hw3).
  destruct (iu_notifying _ _ _ _ H) as [_ _ Hc Hnd _].
  destruct (shutdown_trampolines_releases w6 (hd_trampolines k)) as (m7 & Htramp & Hrel7); [by destruct G6 | | done |].
  { rewrite Hf6. by apply (gone_chain _ (mem w) _ _ _ G6). }
  set (w7 := set_mem (Memory (heap m7) (next_addr m7) malloc_id malloc_id (oracle m7) (junk m7)) w6).
  assert (Hst : module_state w7 = SUBSTANCE_CONNECTOR_STATE_SHUTDOWN_STARTED) by (cbn; by rewrite Hw3).
  exists ts2, w3, m7, (trace w5). split.
  { unfold substance_connector_shutdown.
    rewrite (bind_done _ _ _ _ _ (exchange_state_hit w _ _ (iu_state _ _ _ _ H))), Z.eqb_refl. fold w1.
    rewrite (bind_done _ _ w1 (ts2, SUBSTANCE_CONNECTOR_SUCCESS) w7).
    2:{ rewrite (bind_done _ _ _ _ _ Hctx), (bind_done _ _ _ _ _ Hcomm). cbn [fst snd].
        rewrite (bind_done _ _ _ _ _ Hdisp). cbn iota. rewrite (bind_done _ _ _ _ _ Hqueues).
        by rewrite (bind_done _ _ _ _ _ Htramp). }
    rewrite (bind_done _ _ _ _ _ (exchange_state_hit w7 _ _ Hst)). unfold w7, w6, w5, w4, after_shutdown. cbn. by rewrite Hw3. }
  split; [done|]. split; [by rewrite Hts2|]. split; [by apply (td_slots _ _ _ _ Htorn)|].
  by apply (gone_trans _ _ _ m6); [|apply released_gone].
Qed.

Lemma after_shutdown_down w ts k name w3 m tr ps :
  in_use w ts k name -> gone ps (mem w) m -> (name <> None -> application_name w ∉ ps) ->
  connector_memory_free (mem w) = malloc_id -> shut_down (after_shutdown w w3 m tr) name.
Proof.
  intros H Hgone Hps Hmalloc. pose proof Hgone as [Hwf Hcfg _].
  destruct (iu_notifying _ _ _ _ H) as [_ [Hor _] _ _ _].
  constructor; try done; cbn; [by split; [rewrite (config_oracle _ _ Hcfg)|]|].
  pose proof (gone_string ps (mem w) m (application_name w) name Hgone (iu_name _ _ _ _ H) Hps) as Hname.
  destruct name as [s|]; [|done]. destruct Hname as [Hcs Hp]. split; [done|].
  unfold points_to_string, owns in *. cbn. by rewrite Hp, (config_free _ _ Hcfg), Hmalloc.
Qed.

(** C9: Shutting down a library in use.  From an initialised library with open and
    connected contexts in its read threads, messages waiting in both queues and
    registered trampolines, the shutdown finishes and succeeds: the threads are
    joined with no context left, the module, the queues of identifiers and the
    message queues are shut down, the slots of the contexts are cleared, and of
    the heap exactly the blocks that these structures held are gone: both queues
    of identifiers, the names of the peers, the nodes and the messages with their
    texts, and the nodes of the trampolines.  With the standard allocator, the
    library can then be initialised like one that never was. *)
Theorem shutdown_releases_everything w (ts : threads) (k : holdings) (name : option (list Z))
    (H : in_use w ts k name) :
  let ids := assigned_ids (read_threads ts) in
  exists ts' w', substance_connector_shutdown ts w = Done (ts', SUBSTANCE_CONNECTOR_SUCCESS) w' /\
    joined ts' /\ length (read_threads ts') = length (read_threads ts) /\
    module_state w' = SUBSTANCE_CONNECTOR_STATE_SHUTDOWN /\
    free_contexts w' = QNull /\ connection_queue w' = QNull /\ queues w' = shut_queues (queues w) /\
    application_name w' = application_name w /\
    (forall j, context_list w' !! j =
       if decide (j ∈ map Z.to_nat ids) then (fun _ => zero_context) <$> context_list w !! j else context_list w !! j) /\
    (forall a, heap (mem w') !! a =
       if decide (a ∈ map (peer_name w) ids ++ held_blocks w k) then None else heap (mem w) !! a) /\
    (connector_memory_free (mem w) = malloc_id -> shut_down w' name).
Proof.
  intros ids. destruct (shutdown_in_use_run _ _ _ _ H) as (ts' & w3 & m & tr & Hrun & Hjoined & Hlen & Hslots & Hgone).
  exists ts', (after_shutdown w w3 m tr). split; [exact Hrun|]. repeat (split; [done|]).
  assert (Hheap : forall a, heap m !! a =
    if decide (a ∈ map (peer_name w) ids ++ held_blocks w k) then None else heap (mem w) !! a).
  { intros a. rewrite (gone_heap _ _ _ Hgone). apply decide_ext. unfold held_blocks. rewrite !elem_of_app. tauto. }
  split; [exact Hheap|]. intros Hmalloc. apply (after_shutdown_down w ts k name w3 m tr _ H Hgone); [|done].
  intros Hn. pose proof (iu_own_name _ _ _ _ H Hn) as Hno. unfold held_blocks in Hno. rewrite !elem_of_app in *. tauto.
Qed.

End properties.

(** ** A library in use, concretely

    One read thread serves the connected context 3, whose peer is called "p"; one
    message waits in the inbound queue; one trampoline is registered. *)

Definition busy_memory : memory :=
  Memory (foldr (fun pb h => <[fst pb := Cell malloc_id (snd pb)]> h) ∅
    [(1, BStr [109; 0]); (2, BRaw 40); (3, BRaw 136); (4, BRaw 40); (5, BRaw 136); (6, BStr [112; 0]);
     (7, BTramp 1000 0); (8, BNode 0 9); (9, BMsg (Message (Some zero_header) 10 3)); (10, BStr [104; 105; 0])])
    11 malloc_id malloc_id [] 0.

Definition busy_world : world simulation :=
  World _ (Simulation 3 false [] [] [] []) busy_memory SUBSTANCE_CONNECTOR_STATE_INIT_FINISHED 1
    (<[3%nat := ContextStruct tcp_connected_bits 3 0 0 6 0]> (replicate 32 zero_context))
    (QLive (UintQueue 0 0 0 34 (replicate 34 0) 2 3)) (QLive (UintQueue 0 0 0 34 (replicate 34 0) 4 5))
    (MessageQueues (LockedQueue 8 8 handle_message false) (LockedQueue 0 0 handle_message false)
       MESSAGE_QUEUE_INITIALIZED) 7 [].

Definition busy_threads : threads :=
  Threads 0 0 0 false
    [ReadThread 0 (replicate SUBSTANCE_CONNECTOR_READ_CONTEXTS (3, POLLIN, 0))
       (replicate SUBSTANCE_CONNECTOR_READ_CONTEXTS 3) 1; new_thread 1].

Definition busy_holdings : holdings := Holdings [(7, 1000)] [(8, 9)] [[9; 10]] [] [].

Lemma busy_memory_wf : mem_wf busy_memory.
Proof.
  split; [done|]. intros p [c Hc]. cbn [heap busy_memory foldr fst snd next_addr] in *.
  repeat (apply lookup_insert_Some in Hc as [[<- _]|[_ Hc]]; [lia|]). done.
Qed.

Lemma busy_in_use : in_use busy_world busy_threads busy_holdings (Some [109]).
Proof.
  assert (Hids : assigned_ids (read_threads busy_threads) = [3]) by done.
  constructor; rewrite ?Hids; try done.
  - repeat constructor; cbn; unfold SUBSTANCE_CONNECTOR_READ_CONTEXTS; lia.
  - constructor; [apply NoDup_singleton | | |].
    + intros i ->%list_elem_of_singleton. split; [lia|]. eexists _, (Some [112]). split; [reflexivity|].
      repeat (split; [done|]). split; [by repeat constructor|reflexivity].
    + intros i _. apply not_elem_of_nil.
    + by intros i j ->%list_elem_of_singleton ->%list_elem_of_singleton.
  - constructor; [|constructor]. split; [lia|]. eexists. split; [reflexivity|]. by right.
  - constructor; [apply busy_memory_wf | done | | apply NoDup_singleton |].
    + split; [done|]. split; [done|]. by exists 0.
    + intros i p ->%list_elem_of_singleton ->%list_elem_of_singleton. done.
  - by eexists.
  - by eexists.
  - intros a Ha. change (a ∈ [2; 3] ++ [4; 5]) in Ha. cbn in Ha. rewrite !elem_of_cons in Ha.
    destruct Ha as [->|[->|[->|[->|Ha]]]]; [by eexists..|]. by apply elem_of_nil in Ha.
  - constructor; try done; [|apply NoDup_singleton]. split; [done|]. by exists 0.
  - constructor; try done. constructor.
  - constructor; [|constructor]. eexists. split; [reflexivity|]. right. split; [done|]. split; [done|]. by eexists.
  - apply (bool_decide_unpack _). by vm_compute.
  - intros i ->%list_elem_of_singleton. apply (bool_decide_unpack _). by vm_compute.
  - by repeat constructor.
  - intros _. apply (bool_decide_unpack _). by vm_compute.
Qed.

Lemma shutdown_releases_everything_witness :
  exists ts' w', substance_connector_shutdown busy_threads busy_world = Done (ts', SUBSTANCE_CONNECTOR_SUCCESS) w' /\
    joined ts' /\ context_list w' !! 3%nat = Some zero_context /\ shut_down w' (Some [109]) /\
    heap (mem w') = {[1 := Cell malloc_id (BStr [109; 0])]}.
Proof.
  destruct (shutdown_releases_everything busy_world busy_threads busy_holdings (Some [109]) busy_in_use)
    as (ts' & w' & Hrun & Hj & _ & _ & _ & _ & _ & _ & Hslots & Hheap & Hsd).
  exists ts', w'. split; [exact Hrun|]. split; [exact Hj|]. split; [exact (Hslots 3%nat)|]. split; [exact (Hsd eq_refl)|].
  apply map_eq. intros a. rewrite Hheap. destruct (decide (a = 1)) as [->|Ha]; [reflexivity|].
  rewrite lookup_singleton_ne by done. case_decide as Hin; [done|]. change (a ∉ [6; 2; 3; 4; 5; 8; 9; 10; 7]) in Hin.
  rewrite !not_elem_of_cons in Hin. cbn. rewrite !lookup_insert_ne by lia. reflexivity.
Defined.
