(* ===== verification/Hangup.v ===== *)
(** * When a peer hangs up

    One round of a read thread in which the system reports errors or hang-ups: from
    the poll to the contexts that are given back. *)

From S2P Require Import Prelude Wire Memory Strings UintQueue LockedQueue Message World Callbacks.
From S2P Require Import FileSystem Connection SlotFrame ContextQueue Contexts ReadThread Accept Lifecycle Shutdown.

(** The events for which a context is disconnected. *)
Definition hangs (revents : Z) : bool :=
  negb (Z.land revents SUBSTANCE_CONNECTOR_POLLERR =? 0) || negb (Z.land revents SUBSTANCE_CONNECTOR_POLLHUP =? 0).

(** The contexts of a list of events that are disconnected. *)
Definition hung (events : list (Z * Z)) : list Z := map fst (List.filter (fun p => hangs (snd p)) events).

(** Memory in which something was allocated and released. *)
Record same_memory (m m' : memory) : Prop := {
  same_wf : mem_wf m';
  same_config : mem_config_eq m m';
  same_heap : heap m' = heap m
}.

Lemma same_memory_refl m : mem_wf m -> same_memory m m.
Proof. by constructor. Qed.

Lemma same_memory_trans m1 m2 m3 : same_memory m1 m2 -> same_memory m2 m3 -> same_memory m1 m3.
Proof. intros [W1 C1 H1] [W2 C2 H2]. constructor; [done | by etransitivity | by rewrite H2]. Qed.

Section hangup.
Context {E : Type} {P : Platform E} {B : Bindings E}.
Implicit Types w : world E.

(** ** Handling the events *)

(** The name is copied and the copy released: nothing else is done with it. *)
Lemma error_disconnect_done w i :
  mem_wf (mem w) -> mem_serving (mem w) -> served w i ->
  exists r m, connector_handle_error_disconnect i w = Done r (set_mem m w) /\ same_memory (mem w) m.
Proof.
  intros Hwf Hs (Hi & c & s & Hc & _ & _ & Hname).
  unfold connector_handle_error_disconnect, connector_context_get_application_name, SUBSTANCE_CONNECTOR_CONTEXT_COUNT.
  rewrite (proj2 (Z.ltb_lt i 32)) by lia.
  rewrite (bind_done _ _ w (cx_application_name c) w) by (by rewrite (bind_done _ _ _ _ _ (load_context_some w _ c Hc))).
  destruct s as [s|]; cbn [slot_string] in Hname.
  - destruct Hname as [Hcs Hp]. set (m1 := alloc_with (BStr (s ++ [0])) (mem w)).
    rewrite (bind_done _ _ _ _ _ (in_mem_done _ w _ _ (connector_strdup_string _ _ _ Hwf Hs Hcs Hp))). fold m1.
    rewrite (proj2 (Z.eqb_neq (next_addr (mem w)) 0)) by (destruct Hwf; lia). cbn [negb].
    assert (Hwf1 : mem_wf m1) by (by apply alloc_with_wf).
    assert (Ho : owns m1 (next_addr (mem w)) (BStr (s ++ [0]))) by (by apply alloc_with_owns).
    rewrite (bind_done _ _ _ _ _ (in_mem_done _ (set_mem m1 w) _ _ (connector_free_owns _ _ _ Hwf1 Ho))).
    exists SUBSTANCE_CONNECTOR_SUCCESS, (free_cell (next_addr (mem w)) m1). split; [done|].
    constructor; [by apply free_cell_wf | by etransitivity; [apply alloc_with_config | apply free_cell_config] |].
    cbn. by rewrite delete_insert_id by (by apply mem_wf_fresh).
  - rewrite Hname. rewrite (bind_done _ _ w 0 w) by (by destruct w).
    exists SUBSTANCE_CONNECTOR_ERROR, (mem w). split; [by destruct w | by apply same_memory_refl].
Qed.

(** A context that is polled: it is in use and open or connected. *)
Definition polled w (i : Z) : Prop := served w i /\ active w i.

(** Marking one context keeps the others in order. *)
Lemma polled_after w m i c j :
  polled w j -> context_list w !! Z.to_nat i = Some c -> same_memory (mem w) m ->
  polled (set_context_list (<[Z.to_nat i := mark_shutdown c]> (context_list w)) (set_mem m w)) j.
Proof.
  intros [(Hj & d & s & Hd & Hidx & Hdata & Hs) (_ & d' & Hd' & Hact)] Hc [_ Hcfg Hh].
  rewrite Hd in Hd'. injection Hd' as <-.
  assert (Hs' : slot_string m (cx_application_name d) s) by (by apply (slot_string_frame (mem w))).
  destruct (decide (Z.to_nat j = Z.to_nat i)) as [Heq|Hne].
  - rewrite Heq in *. rewrite Hc in Hd. injection Hd as ->.
    assert (Hl : <[Z.to_nat i := mark_shutdown d]> (context_list w) !! Z.to_nat i = Some (mark_shutdown d))
      by (apply list_lookup_insert_eq; by eapply lookup_lt_Some).
    split; (split; [done|]); [|exists (mark_shutdown d)]; cbn [context_list set_context_list]; rewrite Heq.
    + exists (mark_shutdown d), s. split; [done|]. split; [by rewrite connection_index_mark|]. by destruct d.
    + split; [done|]. cbn. rewrite !Z.land_lor_distr_l, !Z.lor_0_r. done.
  - split; (split; [done|]); [exists d, s|exists d]; cbn [context_list set_context_list];
      by rewrite list_lookup_insert_ne.
Qed.

Lemma marks_cons i w m c l ids :
  context_list w !! Z.to_nat i = Some c ->
  marks ids (set_context_list (<[Z.to_nat i := mark_shutdown c]> (context_list w)) (set_mem m w)) l ->
  marks (i :: ids) w l.
Proof.
  intros Hc Hl j. rewrite Hl. cbn [context_list set_context_list map].
  destruct (decide (j = Z.to_nat i)) as [->|Hne].
  - rewrite list_lookup_insert_eq, Hc by (by eapply lookup_lt_Some). cbn. rewrite mark_shutdown_twice.
    rewrite (decide_True (P := Z.to_nat i ∈ _ :: _)) by (apply elem_of_cons; by left). by case_decide.
  - rewrite list_lookup_insert_ne by done. apply decide_ext. rewrite elem_of_cons. naive_solver.
Qed.

(** What the loop does for one event that is not input. *)
Lemma handle_event w i revents l :
  mem_wf (mem w) -> mem_serving (mem w) -> polled w i ->
  if hangs revents then exists c m, context_list w !! Z.to_nat i = Some c /\ same_memory (mem w) m /\
    handle_events ((i, revents) :: l) w =
    handle_events l (set_context_list (<[Z.to_nat i := mark_shutdown c]> (context_list w)) (set_mem m w))
  else Z.land revents SUBSTANCE_CONNECTOR_POLLIN = 0 -> handle_events ((i, revents) :: l) w = handle_events l w.
Proof.
  intros Hwf Hs [Hserved (Hi & c & Hc & Hact)]. unfold hangs. cbn [handle_events].
  destruct (error_disconnect_done w i Hwf Hs Hserved) as (r & m & Hrun & Hm).
  assert (Hclose : (connector_handle_error_disconnect i ;;; connector_context_close i ;;; ret tt) w =
    Done tt (set_context_list (<[Z.to_nat i := mark_shutdown c]> (context_list w)) (set_mem m w))).
  { rewrite (bind_done _ _ _ _ _ Hrun). by rewrite (bind_done _ _ _ _ _ (close_active (set_mem m w) i c Hi Hc Hact)). }
  destruct (Z.land revents SUBSTANCE_CONNECTOR_POLLERR =? 0) eqn:He; cbn [negb orb];
    [destruct (Z.land revents SUBSTANCE_CONNECTOR_POLLHUP =? 0) eqn:Hh; cbn [negb]|].
  - intros Hin. by rewrite Hin.
  - exists c, m. split; [done|]. split; [done|]. by rewrite (bind_done _ _ _ _ _ Hclose).
  - exists c, m. split; [done|]. split; [done|]. by rewrite (bind_done _ _ _ _ _ Hclose).
Qed.

(** Input that is reported together with a hang-up is not read: no message is
    queued and no system call is made. *)
Lemma input_with_hangup_is_dropped w i :
  mem_wf (mem w) -> mem_serving (mem w) -> polled w i ->
  exists w', handle_events [(i, Z.lor SUBSTANCE_CONNECTOR_POLLIN SUBSTANCE_CONNECTOR_POLLHUP)] w = Done tt w' /\
    queues w' = queues w /\ env w' = env w /\ heap (mem w') = heap (mem w).
Proof.
  intros Hwf Hs Hp.
  destruct (handle_event w i (Z.lor SUBSTANCE_CONNECTOR_POLLIN SUBSTANCE_CONNECTOR_POLLHUP) [] Hwf Hs Hp)
    as (c & m & _ & Hm & ->). eexists. split; [reflexivity|]. split; [done|]. split; [done | apply Hm].
Qed.

Lemma handle_events_marks events : forall w,
  mem_wf (mem w) -> mem_serving (mem w) -> Forall (fun p => polled w (fst p)) events ->
  Forall (fun p => hangs (snd p) = true \/ Z.land (snd p) SUBSTANCE_CONNECTOR_POLLIN = 0) events ->
  exists cl m, handle_events events w = Done tt (set_context_list cl (set_mem m w)) /\
    marks (hung events) w cl /\ same_memory (mem w) m.
Proof.
  induction events as [|[i revents] events IH]; intros w Hwf Hs Hp Hev.
  { exists (context_list w), (mem w). split; [by destruct w|]. split; [|by apply same_memory_refl].
    intros j. by rewrite decide_False by apply not_elem_of_nil. }
  apply Forall_cons in Hp as [Hi Hp]. apply Forall_cons in Hev as [Hr Hev]. cbn [fst snd] in *.
  pose proof (handle_event w i revents events Hwf Hs Hi) as Hrun. unfold hung. cbn [List.filter snd].
  destruct (hangs revents).
  - destruct Hrun as (c & m1 & Hc & Hm1 & ->). cbn [map fst]. fold (hung events). set (w1 := set_context_list _ _).
    destruct (IH w1) as (cl & m & Hrest & Hl & Hm);
      [apply Hm1 | by apply (mem_serving_config (mem w)), Hs; destruct Hm1 | | done |].
    { eapply Forall_impl; [exact Hp|]. intros p Hpp. by apply polled_after. }
    exists cl, m. split; [exact Hrest|]. split; [by apply (marks_cons i w m1 c)|]. by eapply same_memory_trans.
  - rewrite Hrun by (by destruct Hr). by apply IH.
Qed.

(** ** Around the poll *)

(** Nothing is cleaned up when nothing is marked. *)
Lemma cleanup_nothing n thread w r :
  (forall i, (i < n)%nat -> served w (nth i (context_ids thread) 0) /\ is_shutdown w (nth i (context_ids thread) 0) = false) ->
  cleanup_loop n thread r w = Done (thread, r) w.
Proof.
  induction n as [|n IH]; intros H; [done|]. cbn [cleanup_loop].
  destruct (H n ltac:(lia)) as [(Hi & c & s & Hc & _) Hsd].
  destruct (state_is_shutdown w _ c Hi Hc) as (st & Hst & Hflag).
  rewrite (bind_done _ _ _ _ _ Hst), Hflag, Hsd. cbn iota. apply IH. intros i Hi'. apply H. lia.
Qed.

(** The thread after the poll that reported [revents]. *)
Definition polled_thread (thread : read_thread) (revents : list Z) : read_thread :=
  ReadThread (thread_id thread)
    (zip_with (fun c r => (fst c, r)) (take (assigned_contexts thread) (contexts thread)) revents ++
       drop (assigned_contexts thread) (contexts thread))
    (context_ids thread) (assigned_contexts thread).

Lemma entries_ids thread : thread_wf thread -> map fst (entries thread) = take (assigned_contexts thread) (context_ids thread).
Proof. intros [H1 H2 H3]. unfold entries. apply fst_zip. rewrite !length_take. lia. Qed.

Lemma polled_thread_wf thread revents :
  thread_wf thread -> length revents = assigned_contexts thread ->
  thread_wf (polled_thread thread revents) /\
  map fst (entries (polled_thread thread revents)) = map fst (entries thread) /\
  ReadThread.assigned (polled_thread thread revents) = zip (map fst (entries thread)) revents.
Proof.
  intros Hwf Hlen. pose proof Hwf as [H1 H2 H3].
  set (l := zip_with (fun c r => (fst c, r)) (take (assigned_contexts thread) (contexts thread)) revents).
  assert (Hl : length l = assigned_contexts thread) by (unfold l; rewrite length_zip_with, length_take; lia).
  assert (Hwf' : thread_wf (polled_thread thread revents)).
  { constructor; [|done|done]. cbn. fold l. rewrite length_app, length_drop. lia. }
  split; [done|]. split; [by rewrite !entries_ids|].
  unfold ReadThread.assigned. cbn [polled_thread assigned_contexts context_ids contexts]. fold l.
  rewrite <- (entries_ids thread) by done. rewrite take_app_length' by done. f_equal.
  assert (Hfst : length (take (assigned_contexts thread) (contexts thread)) = length revents)
    by (rewrite length_take; lia).
  unfold l. clear -Hfst. revert revents Hfst. generalize (take (assigned_contexts thread) (contexts thread)). intros cs.
  induction cs as [|c cs IH]; intros [|r revents] Hlen; try done. cbn. f_equal. apply IH. by injection Hlen.
Qed.

(** ** The table when some contexts are marked *)

(** [w] with the slots of [ids] marked, after the poll and the events. *)
Definition marked_world w (e : E) (m : memory) (cl : list context_struct) : world E :=
  set_context_list cl (set_mem m (set_env e w)).

Lemma marks_peer_after w e m cl (hs : list Z) : marks hs w cl -> forall i, peer_name (marked_world w e m cl) i = peer_name w i.
Proof.
  intros Hcl i. unfold peer_name. cbn. rewrite Hcl. case_decide; [|done]. by destruct (context_list w !! Z.to_nat i).
Qed.

Lemma marked_served w e m cl (ids hs l : list Z) :
  marks hs w cl -> same_memory (mem w) m -> all_served w l ids -> all_served (marked_world w e m cl) l ids.
Proof.
  intros Hcl [_ Hcfg Hh] [Hnd Hserved Hused Hnames].
  pose proof (marks_peer_after w e m cl hs Hcl) as Hpeer.
  constructor; [done | | done | intros i j; rewrite !Hpeer; auto].
  intros i Hi. destruct (Hserved i Hi) as (Hr & c & s & Hc & Hidx & Hd & Hs). split; [done|].
  assert (Hs' : slot_string m (cx_application_name c) s) by (by apply (slot_string_frame (mem w))).
  cbn [marked_world context_list set_context_list mem set_mem]. rewrite Hcl, Hc.
  case_decide; [exists (mark_shutdown c), s | by exists c, s].
  split; [done|]. split; [by rewrite connection_index_mark|]. by destruct c.
Qed.

Lemma marked_inv w e m cl (hs l : list Z) n :
  marks hs w cl -> same_memory (mem w) m -> (forall i, i ∈ hs -> 0 <= i < 32 /\ i ∉ l) ->
  contexts_inv w l n -> contexts_inv (marked_world w e m cl) l n.
Proof.
  intros Hcl [Hwf Hcfg Hh] Hhs [_ Hs Hlen Hq Hnd Hr Hfree Hused]. pose proof Hr as Hr'. rewrite Forall_forall in Hr'.
  assert (Hsame : forall i, 0 <= i < 32 -> i ∉ hs -> cl !! Z.to_nat i = context_list w !! Z.to_nat i).
  { intros i Hi Hni. rewrite Hcl. apply decide_False. intros (j & Heq & Hj)%list_elem_of_fmap.
    destruct (Hhs j Hj) as [? _]. by replace i with j in Hni by lia. }
  constructor; cbn [marked_world context_list set_context_list mem set_mem free_contexts set_env]; try done.
  - by apply (mem_serving_config (mem w)).
  - rewrite <- Hlen. assert (Hsome : forall j, is_Some (cl !! j) <-> is_Some (context_list w !! j)).
    { intros j. rewrite Hcl. case_decide; [|done]. apply fmap_is_Some. }
    destruct (Nat.lt_trichotomy (length cl) (length (context_list w))) as [Hlt|[?|Hlt]]; [|done|]; exfalso.
    + apply lookup_lt_is_Some_2, Hsome, lookup_lt_is_Some_1 in Hlt. lia.
    + apply lookup_lt_is_Some_2, Hsome, lookup_lt_is_Some_1 in Hlt. lia.
  - intros i Hi. rewrite Hsame; [by apply Hfree | by apply Hr' |].
    intros Hin. by destruct (Hhs i Hin).
  - intros i Hi Hni. destruct (Hused i Hi Hni) as (c & Hc & Hconn). rewrite Hcl, Hc.
    case_decide; [exists (mark_shutdown c) | by exists c]. split; [done|]. cbn. rewrite Z.land_lor_distr_l.
    intros Heq. apply Z.lor_eq_0_iff in Heq as [_ Heq]. discriminate Heq.
Qed.

Lemma marked_shutdown w e m cl (hs ids : list Z) i :
  marks hs w cl -> (forall i, i ∈ ids -> served w i /\ is_shutdown w i = false) -> (forall i, i ∈ hs -> i ∈ ids) ->
  i ∈ ids -> is_shutdown (marked_world w e m cl) i = bool_decide (i ∈ hs).
Proof.
  intros Hcl Hids Hsub Hi. destruct (Hids i Hi) as [(Hr & c & s & Hc & _) Hsd].
  unfold is_shutdown in *. cbn [marked_world context_list set_context_list]. rewrite Hc in Hsd. rewrite Hcl, Hc.
  assert (Hdec : Z.to_nat i ∈ map Z.to_nat hs <-> i ∈ hs).
  { rewrite list_elem_of_fmap. split; [|by exists i]. intros (j & Heq & Hj).
    destruct (Hids j (Hsub j Hj)) as [(Hrj & _) _]. by replace i with j by lia. }
  case_decide as Hin; rewrite Hdec in Hin.
  - rewrite bool_decide_eq_true_2 by done. cbn. rewrite Z.land_lor_distr_l. apply negb_true_iff, Z.eqb_neq.
    intros Heq. apply Z.lor_eq_0_iff in Heq as [_ Heq]. discriminate Heq.
  - by rewrite bool_decide_eq_false_2 by done.
Qed.

(** ** The contexts that go *)

Lemma hung_incl ids revents : incl (hung (zip ids revents)) ids.
Proof.
  intros i (p & <- & [Hp _]%filter_In)%in_map_iff. destruct p as [j r]. by apply in_combine_l in Hp.
Qed.

Lemma hung_cons i ids r revents :
  hung (zip (i :: ids) (r :: revents)) = (if hangs r then [i] else []) ++ hung (zip ids revents).
Proof. unfold hung. cbn [zip_with zip List.filter snd]. by destruct (hangs r). Qed.

Lemma filter_hung ids : forall revents,
  NoDup ids -> length revents = length ids ->
  List.filter (fun i => bool_decide (i ∈ hung (zip ids revents))) ids = hung (zip ids revents).
Proof.
  induction ids as [|i ids IH]; intros [|r revents] Hnd Hlen; try done. injection Hlen as Hlen.
  apply NoDup_cons in Hnd as [Hi Hnd]. specialize (IH revents Hnd Hlen).
  assert (Hni : i ∉ hung (zip ids revents)).
  { intros Hin. apply Hi, list_elem_of_In, (hung_incl ids revents), list_elem_of_In, Hin. }
  rewrite hung_cons. cbn [List.filter].
  rewrite (filter_ext_in _ (fun j => bool_decide (j ∈ hung (zip ids revents))) ids), IH.
  - destruct (hangs r); cbn [app].
    + rewrite bool_decide_eq_true_2; [done|]. apply elem_of_cons. by left.
    + by rewrite bool_decide_eq_false_2.
  - intros j Hj%list_elem_of_In. apply bool_decide_ext. destruct (hangs r); [|done]. cbn [app].
    rewrite elem_of_cons. split; [intros [->|]; done | auto].
Qed.

Lemma filter_reverse {A} (f : A -> bool) l : List.filter f (reverse l) = reverse (List.filter f l).
Proof.
  induction l as [|x l IH]; [done|]. rewrite reverse_cons, List.filter_app, IH. cbn [List.filter].
  destruct (f x); [by rewrite reverse_cons | by rewrite app_nil_r].
Qed.

(** ** The steps of a round *)

Lemma acquires_nothing thread w k :
  thread_wf thread -> id_queue (connection_queue w) [] k -> length (context_list w) = 32%nat ->
  (if connector_read_thread_check_load thread =? SUBSTANCE_CONNECTOR_TRUE then
     let* r := connector_read_thread_try_acquire thread in ret (fst r)
   else ret thread) w = Done thread w.
Proof.
  intros Hwf Hq Hlen. destruct (acquire_within_bounds thread w [] k Hwf Hq ltac:(constructor) Hlen) as [H _].
  destruct (Z.eqb_spec (connector_read_thread_check_load thread) SUBSTANCE_CONNECTOR_TRUE) as [Ht|]; [|done].
  by rewrite (bind_done _ _ _ _ _ (H Ht)).
Qed.

Lemma poll_once thread w retval revents e :
  thread_wf thread ->
  (forall i, i ∈ map fst (entries thread) -> served w i /\ is_shutdown w i = false) ->
  (0 < assigned_contexts thread)%nat ->
  poll (map fst (take (assigned_contexts thread) (contexts thread))) (env w) = ((retval, revents), e) -> 0 < retval ->
  poll_loop [false] thread w =
    Done (polled_thread thread revents, Some SUBSTANCE_CONNECTOR_POLL_ESUCCESS) (set_env e w).
Proof.
  intros Hwf Hids Hsome Hpoll Hret. pose proof Hwf as [H1 H2 H3]. cbn [poll_loop].
  rewrite (bind_done (connector_read_thread_cleanup_connections thread) _ w (thread, SUBSTANCE_CONNECTOR_ERROR) w).
  2:{ apply cleanup_nothing. intros i Hi. apply Hids. rewrite entries_ids by done.
      apply (list_elem_of_lookup_2 _ i). rewrite lookup_take_lt by done. apply lookup_nth. lia. }
  cbn [fst]. unfold connector_poll_contexts.
  rewrite (proj2 (Nat.ltb_lt 0 _)) by (rewrite length_take; lia).
  unfold bind at 1 2. unfold sys at 1. rewrite Hpoll.
  rewrite (proj2 (Z.eqb_neq retval SUBSTANCE_CONNECTOR_SELECT_ERROR)) by (unfold SUBSTANCE_CONNECTOR_SELECT_ERROR; lia).
  by rewrite (proj2 (Z.eqb_neq retval SUBSTANCE_CONNECTOR_SELECT_TIMEOUT)) by (unfold SUBSTANCE_CONNECTOR_SELECT_TIMEOUT; lia).
Qed.

Lemma Forall_snd_zip {A B'} (Q : B' -> Prop) (l : list A) (k : list B') : Forall Q k -> Forall (fun p => Q (snd p)) (zip l k).
Proof.
  intros H. apply Forall_forall. intros [a b] Hp. apply list_elem_of_In, in_combine_r, list_elem_of_In in Hp.
  rewrite Forall_forall in H. by apply H.
Qed.

Lemma polled_events w e ids (revents : list Z) :
  (forall i, i ∈ ids -> served w i) -> (forall i, i ∈ ids -> active w i) ->
  Forall (fun p => polled (set_env e w) (fst p)) (zip ids revents).
Proof.
  intros Hs Ha. apply Forall_forall. intros [i r] Hp. apply list_elem_of_In, in_combine_l, list_elem_of_In in Hp.
  split; [exact (Hs i Hp) | exact (Ha i Hp)].
Qed.

Lemma map_fst_filter {A B'} (f : A -> bool) (l : list (A * B')) :
  map fst (List.filter (fun p => f (fst p)) l) = List.filter f (map fst l).
Proof. induction l as [|[a b] l IH]; [done|]. cbn. destruct (f a); cbn; by rewrite IH. Qed.

End hangup.

(** ** Properties *)

Section round.
Context {E : Type} {P : Platform E} {B : Bindings E} {Q : QuietBindings E}.

(** C12: A peer that hangs up is let go.  In a round in which there is nothing to
    acquire and the system reports, for each context of a read thread, an error, a
    hang-up (whatever else with it) or no input, the thread takes off exactly the
    contexts with an error or a hang-up and keeps the others.  Their slots are
    cleared and appended to the free queue, the last first, the names of their peers
    are released and no other block is, no other slot changes, and the free queue
    again holds exactly the cleared slots, so that they can be given to new
    connections. *)
Theorem hung_up_contexts_return (thread : read_thread) (w : world E) (l : list Z) (n k : Z) (fs : list Z)
    (retval : Z) (revents : list Z) (e : E)
    (Hwf : thread_wf thread) (Hsome : (0 < assigned_contexts thread)%nat)
    (Hinv : contexts_inv w l n) (Hn : 17 <= n) (Htr : trampolines_repr w fs) (Hq : id_queue (connection_queue w) [] k)
    (Hall : all_served w l (map fst (entries thread)))
    (Hact : forall i, i ∈ map fst (entries thread) -> active w i /\ is_shutdown w i = false)
    (Hpoll : poll (map fst (take (assigned_contexts thread) (contexts thread))) (env w) = ((retval, revents), e))
    (Hret : 0 < retval) (Hlen : length revents = assigned_contexts thread)
    (Hev : Forall (fun r => hangs r = true \/ Z.land r SUBSTANCE_CONNECTOR_POLLIN = 0) revents) :
  let ids := map fst (entries thread) in
  let gone := hung (zip ids revents) in
  exists thread' w', read_thread_round [false] thread w = Done (thread', true) w' /\
    thread_wf thread' /\
    map fst (entries thread') ≡ₚ List.filter (fun i => negb (bool_decide (i ∈ gone))) ids /\
    contexts_inv w' (l ++ reverse gone) (n - Z.of_nat (length gone)) /\
    (forall j, j ∉ map Z.to_nat gone -> context_list w' !! j = context_list w !! j) /\
    (forall a, heap (mem w') !! a = if decide (a ∈ map (peer_name w) gone) then None else heap (mem w) !! a).
Proof.
  intros ids gone. pose proof (as_nodup _ _ _ Hall) as Hnd. fold ids in Hnd.
  destruct (polled_thread_wf thread revents Hwf Hlen) as (Hwf2 & Hids & Hassigned).
  assert (Hserved : forall i, i ∈ ids -> served w i /\ is_shutdown w i = false)
    by (intros i Hi; split; [by apply Hall | by apply Hact]).
  assert (Hlids : length revents = length ids) by (unfold ids; by rewrite length_map, entries_length).
  assert (Hsub : forall i, i ∈ gone -> i ∈ ids)
    by (intros i Hi; by apply list_elem_of_In, (hung_incl ids revents), list_elem_of_In).
  unfold read_thread_round. rewrite (bind_done _ _ _ _ _ (acquires_nothing thread w k Hwf Hq (ci_length _ _ _ Hinv))).
  rewrite (proj2 (Nat.ltb_lt 0 _)) by done.
  rewrite (bind_done _ _ _ _ _ (poll_once thread w retval revents e Hwf Hserved Hsome Hpoll Hret)).
  destruct (handle_events_marks (zip ids revents) (set_env e w)) as (cl & m & Hrun & Hcl & Hm);
    [apply Hinv | apply Hinv | apply polled_events; intros i Hi; [by apply Hserved | by apply Hact] |
     exact (Forall_snd_zip _ _ _ Hev) |].
  rewrite Hassigned. fold ids. rewrite (bind_done _ _ _ _ _ Hrun). fold gone in Hcl.
  change (set_context_list cl (set_mem m (set_env e w))) with (marked_world w e m cl).
  change (marks gone w cl) in Hcl. set (w1 := marked_world w e m cl).
  destruct (cleanup_loop_spec (entries (polled_thread thread revents)) [] (polled_thread thread revents) w1 l n
    SUBSTANCE_CONNECTOR_ERROR fs) as (t & r & w' & Hclean & Hwf' & He & Hinv' & _ & Hslots & Hheap).
  - done.
  - by rewrite app_nil_r.
  - apply (marked_inv w e m cl gone); try done. intros i Hi. destruct (Hserved i (Hsub i Hi)) as [[? _] _].
    split; [done | by apply Hall, Hsub].
  - rewrite entries_length by done. cbn. destruct Hwf as [_ _ H]. unfold SUBSTANCE_CONNECTOR_READ_CONTEXTS in H. lia.
  - rewrite Hids. by apply (marked_served w e m cl ids gone).
  - apply (trampolines_repr_frame w); [done | apply Hm ..| done].
  - assert (Hmark : forall i, i ∈ ids -> is_shutdown w1 i = bool_decide (i ∈ gone))
      by (intros i Hi; by apply (marked_shutdown w e m cl gone ids)).
    assert (Hgone : List.filter (is_shutdown w1) (reverse ids) = reverse gone).
    { rewrite filter_reverse. f_equal. transitivity (List.filter (fun i => bool_decide (i ∈ gone)) ids);
        [|by apply filter_hung]. apply filter_ext_in. intros i Hi. by apply Hmark, list_elem_of_In. }
    rewrite Hids in *. fold ids in Hinv', Hslots, Hheap. rewrite Hgone in *.
    exists t, w'. unfold connector_read_thread_cleanup_connections. rewrite entries_length in Hclean by done.
    rewrite (bind_done _ _ _ _ _ Hclean). split; [done|]. split; [done|].
    pose proof (marks_peer_after w e m cl gone Hcl : forall i, peer_name w1 i = peer_name w i) as Hnames.
    assert (Hperm : forall (x : Z), x ∈ reverse gone <-> x ∈ gone) by (intros x; apply elem_of_reverse).
    split; [|split; [by rewrite length_reverse in Hinv'|split]].
    + rewrite He, app_nil_r, (map_fst_filter (fun i => negb (is_shutdown w1 i))), Hids. apply Permutation_refl', filter_ext_in.
      intros i Hi. by rewrite Hmark by (by apply list_elem_of_In).
    + intros j Hj. rewrite Hslots; [change (cl !! j = context_list w !! j); by rewrite Hcl, decide_False|].
      intros (i & -> & Hi)%list_elem_of_fmap. apply Hj, list_elem_of_fmap. exists i. by rewrite <- Hperm.
    + intros a. rewrite Hheap. cbn [marked_world w1 mem set_mem set_context_list]. rewrite (same_heap _ _ Hm).
      apply decide_ext. rewrite !list_elem_of_fmap. setoid_rewrite Hperm. by setoid_rewrite Hnames.
Qed.

End round.

(** ** An example *)

(** A system on which every peer has hung up. *)
Definition deserted : Platform simulation := {|
  host_order := host_order; socket_inet := socket_inet; socket_unix := socket_unix;
  bind_inet := bind_inet; bind_unix := bind_unix; getsockname := getsockname;
  listen := listen; accept := accept; connect_inet := connect_inet;
  connect_unix := connect_unix; close := close; send := send;
  recv := recv; poll := fun fds s => ((1, map (fun _ => SUBSTANCE_CONNECTOR_POLLHUP) fds), s); errno := errno;
  mkdir := mkdir; chmod := chmod; stat := stat;
  unlink := unlink; rmdir := rmdir; readdir := readdir;
  fopen_write := fopen_write; fopen_read := fopen_read
|}.

(** The one context of the thread goes back to the free queue. *)
Lemma hung_up_contexts_return_witness :
  exists (w : world simulation) thread' w',
    read_thread_round (P := deserted) [false] one_context_thread w = Done (thread', true) w' /\
    length (entries thread') = 0%nat /\ contexts_inv w' (seqZ 1 31 ++ [0]) (2 ^ 32 - 34 - 1).
Proof.
  set (s := Simulation 4 false [] [] [] []).
  destruct (ready_world s) as (w & _ & Hinv & Hq & He & Htr & _).
  destruct (pop_free w 0 (seqZ 1 31) (2 ^ 32 - 34) Hinv) as (p & Hp & _). set (c := connected_slot 3 4000).
  set (w0 := set_context_list (<[0%nat := c]> (context_list w)) (set_free_contexts p w)).
  pose proof Hinv as [Hwf Hs Hlen _ _ _ _ _].
  assert (Hinv0 : contexts_inv w0 (seqZ 1 31) (2 ^ 32 - 34))
    by (by apply (contexts_inv_take w _ 0 (seqZ 1 31) (2 ^ 32 - 34) c)).
  assert (Hc : context_list w0 !! 0%nat = Some c) by (cbn; apply list_lookup_insert_eq; lia).
  assert (Hall : all_served w0 (seqZ 1 31) [0]).
  { constructor; [apply NoDup_singleton | | |].
    - intros i ->%list_elem_of_singleton. split; [lia|]. by exists c, None.
    - intros i ->%list_elem_of_singleton. rewrite elem_of_seqZ. lia.
    - by intros i j ->%list_elem_of_singleton ->%list_elem_of_singleton. }
  assert (Ht : thread_wf one_context_thread) by (constructor; cbn; unfold SUBSTANCE_CONNECTOR_READ_CONTEXTS; lia).
  destruct (hung_up_contexts_return (P := deserted) one_context_thread w0 (seqZ 1 31) (2 ^ 32 - 34) (2 ^ 32 - 2) [] 1
    [SUBSTANCE_CONNECTOR_POLLHUP] s Ht) as (t & w' & Hrun & _ & Hids & Hinv' & _);
    [cbn; lia | exact Hinv0 | lia | by apply (trampolines_repr_frame w) | exact Hq | exact Hall | |
     cbn -[w0]; by rewrite <- He | lia | done | repeat constructor |].
  - intros i Hi. change (i ∈ [0]) in Hi. apply list_elem_of_singleton in Hi as ->.
    split; [split; [lia|]; exists c; split; [done|]; right; done|].
    unfold is_shutdown. change (Z.to_nat 0) with 0%nat. by rewrite Hc.
  - exists w0, t, w'. split; [exact Hrun|]. split; [|exact Hinv'].
    apply Permutation_length in Hids. by rewrite length_map in Hids.
Defined.
