(* ===== verification/FunctionTable.v ===== *)
(** * The table of the library's functions

    [substance_connector_function_table] ([connector.h]) is how other modules
    see the library: a record of its functions.  The framework is written
    against the record; [substance_connector_module_table] is the record that
    the library exports ([external_api.c]).  The state [C] is all that the
    functions work on. *)

From S2P Require Import Prelude Wire Memory World ReadThread Dispatch Lifecycle.

(** Strings are passed by value, a pointer through which a context is returned
    by whether it is given. *)
Record substance_connector_function_table (C : Type) := FunctionTable {
  ft_version : M C (list Z);
  ft_init : list Z -> M C Z;
  ft_shutdown : M C Z;
  ft_set_allocators : option Z -> option Z -> M C Z;
  ft_write_message : Z -> option uuid -> list Z -> M C Z;
  ft_add_trampoline : Z -> M C Z;
  ft_remove_trampoline : Z -> M C Z;
  ft_open_tcp : Z -> bool -> M C (Z * option Z);
  ft_open_unix : list Z -> bool -> M C (Z * option Z);
  ft_close_context : Z -> M C Z;
  ft_connect_tcp : Z -> bool -> M C (Z * option Z);
  ft_connect_unix : list Z -> bool -> M C (Z * option Z);
  ft_broadcast_tcp : M C Z;
  ft_broadcast_unix : M C Z;
  ft_broadcast_default : M C Z;
  ft_open_default_tcp : bool -> M C (Z * option Z);
  ft_open_default_unix : bool -> M C (Z * option Z);
  ft_open_default : bool -> M C (Z * option Z)
}.
Arguments ft_version {C}.
Arguments ft_init {C}.
Arguments ft_shutdown {C}.
Arguments ft_set_allocators {C}.
Arguments ft_write_message {C}.
Arguments ft_add_trampoline {C}.
Arguments ft_remove_trampoline {C}.
Arguments ft_open_tcp {C}.
Arguments ft_open_unix {C}.
Arguments ft_close_context {C}.
Arguments ft_connect_tcp {C}.
Arguments ft_connect_unix {C}.
Arguments ft_broadcast_tcp {C}.
Arguments ft_broadcast_unix {C}.
Arguments ft_broadcast_default {C}.
Arguments ft_open_default_tcp {C}.
Arguments ft_open_default_unix {C}.
Arguments ft_open_default {C}.

Section module_table.
Context {E : Type} {P : Platform E} {B : Bindings E}.

(** The library's statics and the structures of its threads. *)
Definition library : Type := world E * threads.

Definition on_world {A} (m : M (world E) A) : M library A := zoom fst (fun w c => (w, snd c)) m.
Definition with_threads (m : threads -> M (world E) (threads * Z)) : M library Z := fun c =>
  match m (snd c) (fst c) with
  | Done (ts, r) w => Done r (w, ts)
  | Stuck u => Stuck u
  end.

(** The caller's string is in a block of the caller's while the call runs. *)
Definition with_c_str {A} (s : list Z) (k : Z -> M (world E) A) : M (world E) A :=
  let* p := in_mem (fun m => Done (next_addr m) (alloc_with (BStr (s ++ [0])) m)) in
  let* a := k p in
  in_mem (modify (free_cell p)) ;;;
  ret a.

(** The version is a macro that the build defines. *)
Definition substance_connector_version (SUBSTANCE_CONNECTOR_VERSION : list Z) : list Z :=
  SUBSTANCE_CONNECTOR_VERSION.

Definition substance_connector_module_table (version : list Z) : substance_connector_function_table library := {|
  ft_version := ret (substance_connector_version version);
  ft_init name := with_threads (fun ts => with_c_str name (fun p => substance_connector_init p ts));
  ft_shutdown := with_threads substance_connector_shutdown;
  ft_set_allocators a d := on_world (substance_connector_set_allocators a d);
  ft_write_message context type message :=
    on_world (with_c_str message (substance_connector_write_message context type));
  ft_add_trampoline f := on_world (substance_connector_add_trampoline f);
  ft_remove_trampoline f := on_world (substance_connector_remove_trampoline f);
  ft_open_tcp port given := on_world (substance_connector_open_tcp port given);
  ft_open_unix path given := on_world (with_c_str path (fun p => substance_connector_open_unix p given));
  ft_close_context context := on_world (substance_connector_close_context context);
  ft_connect_tcp port given := on_world (substance_connector_connect_tcp port given);
  ft_connect_unix path given := on_world (with_c_str path (fun p => substance_connector_connect_unix p given));
  ft_broadcast_tcp := on_world substance_connector_broadcast_tcp;
  ft_broadcast_unix := on_world substance_connector_broadcast_unix;
  ft_broadcast_default := on_world substance_connector_broadcast_default;
  ft_open_default_tcp given := on_world (substance_connector_open_default_tcp given);
  ft_open_default_unix given := on_world (substance_connector_open_default_unix given);
  ft_open_default given := on_world (substance_connector_open_default given)
|}.

End module_table.
Arguments library E : clear implicits.
