(* ===== verification/Applications.v ===== *)
(** * Applications of the framework

    The callback registry ([details/callbacks.cpp]), the base class of
    applications ([application.cpp]) and the classes of the framework
    ([system.cpp], [features/*.cpp]), with the state of the framework's core on
    which they work. *)

From S2P Require Import Prelude Wire Cpp Uuid Json Schemas MeshSchema FunctionTable.

(** ** Data *)

(** [MessageCallback]: a function pointer.  [ConnectionEstablished] is the static
    member function [System::connectionEstablished], the others belong to the
    program that uses the framework. *)
Inductive callback : Set :=
  | NullCallback
  | ConnectionEstablished
  | UserCallback (f : Z).

#[export] Instance callback_eq_dec : EqDecision callback.
Proof. solve_decision. Defined.

Abbreviation CallbackPair := (uuid * list callback)%type.

(** The classes derived from [Application] with the data members that matter.
    [Livelink] does not implement [getFeatureIds]: only a class that derives from
    it can be instantiated, and answers the identifiers in [feature_ids].  The
    same holds of the program's own classes, which bring their own pairs. *)
Inductive app_class : Type :=
  | System (mRecvConnectionEstablished mRecvConnectionClosed mRecvConnectionContext : callback)
  | Livelink (mUpdateImage : callback) (feature_ids : list uuid)
  | MeshApplication (mRecvLoadMesh mRecvUpdateMesh mRecvMeshConfig mRecvMeshConfigRequest : callback)
  | SbsarApplication (mRecvLoadSbsar mRecvUpdateSbsar : callback)
  | UserApplication (own : list CallbackPair) (feature_ids : list uuid).

Record application := Application {
  app_members : app_class;
  mCallbacks : list CallbackPair
}.

Definition set_mCallbacks (x : list CallbackPair) (a : application) : application :=
  Application (app_members a) x.

(** [StartupState]. *)
Inductive StartupState : Set :=
  | CONNECTOR_SHUTDOWN
  | CONNECTOR_INIT_STARTED
  | CONNECTOR_INITIALIZED
  | CONNECTOR_SHUTDOWN_STARTED
  | CONNECTOR_ADDING_APPLICATION.

#[export] Instance StartupState_eq_dec : EqDecision StartupState.
Proof. solve_decision. Defined.

(** The static variables of the framework, the objects of the program by their
    address, and the state of the C library.  [applications] lists the pointers
    of a [std::set] in its order. *)
Record framework {C : Type} := MkFramework {
  connector : C;
  objects : gmap Z application;
  callbackMap : gmap uuid (list callback);
  applications : list Z;
  startupState : StartupState;
  featureLevel : list uuid;
  connectionDisplayName : list Z;
  connectionId : list Z
}.
Arguments framework C : clear implicits.
Arguments MkFramework {C}.

Section updates.
Context {C : Type}.
Implicit Types s : framework C.

Definition set_connector x s : framework C := MkFramework x (objects s) (callbackMap s) (applications s)
  (startupState s) (featureLevel s) (connectionDisplayName s) (connectionId s).
Definition set_objects x s : framework C := MkFramework (connector s) x (callbackMap s) (applications s)
  (startupState s) (featureLevel s) (connectionDisplayName s) (connectionId s).
Definition set_callbackMap x s : framework C := MkFramework (connector s) (objects s) x (applications s)
  (startupState s) (featureLevel s) (connectionDisplayName s) (connectionId s).
Definition set_applications x s : framework C := MkFramework (connector s) (objects s) (callbackMap s) x
  (startupState s) (featureLevel s) (connectionDisplayName s) (connectionId s).
Definition set_startupState x s : framework C := MkFramework (connector s) (objects s) (callbackMap s)
  (applications s) x (featureLevel s) (connectionDisplayName s) (connectionId s).
Definition set_featureLevel x s : framework C := MkFramework (connector s) (objects s) (callbackMap s)
  (applications s) (startupState s) x (connectionDisplayName s) (connectionId s).
Definition set_connectionDisplayName x s : framework C := MkFramework (connector s) (objects s) (callbackMap s)
  (applications s) (startupState s) (featureLevel s) x (connectionId s).
Definition set_connectionId x s : framework C := MkFramework (connector s) (objects s) (callbackMap s)
  (applications s) (startupState s) (featureLevel s) (connectionDisplayName s) x.

(** [CONNECTOR_FRAMEWORK_CALL (f)]. *)
Definition call {A} (m : M C A) : M (framework C) A := zoom connector set_connector m.

(** Dereferencing an [Application *]. *)
Definition load_app (this : Z) : M (framework C) application := fun s =>
  if this =? 0 then Stuck NullDeref
  else match objects s !! this with Some a => Done a s | None => Stuck UseAfterFree end.
Definition store_app (this : Z) (a : application) : M (framework C) unit :=
  modify (fun s => set_objects (<[this := a]> (objects s)) s).

(** ** [details/callbacks.cpp] *)

Definition bindCallback (messageType : uuid) (callbacks : list callback) : M (framework C) bool :=
  let* callback_map := gets callbackMap in
  match callback_map !! messageType with
  | None => modify (set_callbackMap (<[messageType := callbacks]> callback_map)) ;;; ret true
  | Some _ => ret false
  end.

Definition unbindCallback (messageType : uuid) : M (framework C) bool :=
  let* callback_map := gets callbackMap in
  match callback_map !! messageType with
  | Some _ => modify (set_callbackMap (delete messageType callback_map)) ;;; ret true
  | None => ret false
  end.

Definition findCallbacks (messageType : uuid) : M (framework C) (list callback) :=
  let* callback_map := gets callbackMap in
  ret (default [] (callback_map !! messageType)).

(** ** [application.cpp]

    The loops go over [mCallbacks]; their bodies drop the results. *)

Fixpoint registerCallbacks (pairs : list CallbackPair) : M (framework C) unit :=
  match pairs with
  | [] => ret tt
  | p :: pairs' => bindCallback (fst p) (snd p) ;;; registerCallbacks pairs'
  end.

Fixpoint unregisterCallbacks (pairs : list CallbackPair) : M (framework C) unit :=
  match pairs with
  | [] => ret tt
  | p :: pairs' => unbindCallback (fst p) ;;; unregisterCallbacks pairs'
  end.

Definition Application_preInit (this : Z) : M (framework C) unit :=
  let* a := load_app this in
  registerCallbacks (mCallbacks a).

Definition Application_preShutdown (this : Z) : M (framework C) unit :=
  let* a := load_app this in
  unregisterCallbacks (mCallbacks a) ;;;
  store_app this (set_mCallbacks [] a).

(** [mCallbacks.push_back (...)], for each pair in turn. *)
Definition push_callbacks (this : Z) (pairs : list CallbackPair) : M (framework C) unit :=
  let* a := load_app this in
  store_app this (set_mCallbacks (mCallbacks a ++ pairs) a).

End updates.

(** ** Identifiers ([system.cpp], [features/*.cpp]) *)

Definition sConnectionEstablishedId : uuid := Uuid [0x02572bc5; 0x2d84450a; 0x9e01d22c; 0x66b1abb1].
Definition sConnectionClosedId : uuid := Uuid [0x04705ddf; 0x16d44489; 0xaf6c6e3a; 0x93f1959d].
Definition sConnectionUpdateContextId : uuid := Uuid [0x39b07a67; 0x49964b62; 0xa340908a; 0x81f66562].
Definition updateImageId : uuid := Uuid [0xfc6491a3; 0x5d594a59; 0xaa0889f5; 0x26958f17].
Definition sLoadMeshId : uuid := Uuid [0xfad67b5b; 0xe1414be7; 0xb27ad6f6; 0xa4f89424].
Definition sUpdateMeshId : uuid := Uuid [0x7c3e3c65; 0x0c1641d5; 0x808b9537; 0x59930ffe].
Definition sRequestMeshConfigId : uuid := Uuid [0x685dd700; 0x9d31455d; 0x98a4431b; 0xb039819a].
Definition sRecMeshConfigId : uuid := Uuid [0x0b6d7b54; 0xa90b4c05; 0xb0f93592; 0x71b2efbc].
Definition sLoadSbsarId : uuid := Uuid [0x91e3dfbc; 0x80b84b1a; 0x92d563ec; 0x09ac641a].
Definition sUpdateSbsarId : uuid := Uuid [0x1643e0bf; 0x73444314; 0x9cbf6107; 0xe30e5ed7].

(** ** The classes *)

(** The pairs that the overrides of [preInit] push. *)
Definition System_callbacks (established closed context : callback) : list CallbackPair :=
  [(sConnectionEstablishedId, [ConnectionEstablished; established]);
   (sConnectionClosedId, [closed]);
   (sConnectionUpdateContextId, [context])].
Definition Livelink_callbacks (updateImage : callback) : list CallbackPair :=
  [(updateImageId, [updateImage])].
Definition Mesh_callbacks (loadMesh updateMesh meshConfig meshConfigRequest : callback) : list CallbackPair :=
  [(sLoadMeshId, [loadMesh]);
   (sUpdateMeshId, [updateMesh]);
   (sRecMeshConfigId, [meshConfig]);
   (sRequestMeshConfigId, [meshConfigRequest])].
Definition Sbsar_callbacks (loadSbsar updateSbsar : callback) : list CallbackPair :=
  [(sLoadSbsarId, [loadSbsar]);
   (sUpdateSbsarId, [updateSbsar])].

(** The constructors leave the callbacks null. *)
Definition new_System : application := Application (System NullCallback NullCallback NullCallback) [].
Definition new_MeshApplication : application :=
  Application (MeshApplication NullCallback NullCallback NullCallback NullCallback) [].
Definition new_SbsarApplication : application := Application (SbsarApplication NullCallback NullCallback) [].

Definition class_callbacks (c : app_class) : list CallbackPair :=
  match c with
  | System established closed context => System_callbacks established closed context
  | Livelink updateImage _ => Livelink_callbacks updateImage
  | MeshApplication load update config request => Mesh_callbacks load update config request
  | SbsarApplication load update => Sbsar_callbacks load update
  | UserApplication own _ => own
  end.

(** The overrides of [getFeatureIds]. *)
Definition System_getFeatureIds : list uuid :=
  [sConnectionUpdateContextId; sConnectionEstablishedId; sConnectionClosedId].
Definition Mesh_getFeatureIds : list uuid :=
  [sLoadMeshId; sUpdateMeshId; sRecMeshConfigId; sRequestMeshConfigId].
Definition Sbsar_getFeatureIds : list uuid := [sLoadSbsarId; sUpdateSbsarId].

Definition class_features (c : app_class) : list uuid :=
  match c with
  | System _ _ _ => System_getFeatureIds
  | MeshApplication _ _ _ _ => Mesh_getFeatureIds
  | SbsarApplication _ _ => Sbsar_getFeatureIds
  | Livelink _ feature_ids | UserApplication _ feature_ids => feature_ids
  end.

Section methods.
Context {C : Type} (table : substance_connector_function_table C).
Context {V : Type} {J : Json V}.

(** The virtual methods, called through a pointer.  The framework's own classes
    do nothing in [postInit] and [postShutdown]. *)
Definition app_preInit (this : Z) : M (framework C) unit :=
  let* a := load_app this in
  push_callbacks this (class_callbacks (app_members a)) ;;;
  Application_preInit this.
Definition app_postInit (this : Z) : M (framework C) unit := load_app this ;;; ret tt.
Definition app_preShutdown (this : Z) : M (framework C) unit := Application_preShutdown this.
Definition app_postShutdown (this : Z) : M (framework C) unit := load_app this ;;; ret tt.
Definition app_getFeatureIds (this : Z) : M (framework C) (list uuid) :=
  let* a := load_app this in ret (class_features (app_members a)).

(** *** Sending

    The answer of [write_message] is dropped: the methods return [void]. *)
Definition write_and_forget (context : Z) (type : uuid) (message : list Z) : X (framework C) unit :=
  lift (call (ft_write_message table context (Some type) message) ;;; ret tt).

Definition sendRequestMeshConfig (context : Z) (message : list Z) : X (framework C) unit :=
  write_and_forget context sRequestMeshConfigId message.
Definition sendMeshExportConfig (context : Z) (message : list Z) : X (framework C) unit :=
  write_and_forget context sRecMeshConfigId message.
Definition sendLoadMesh (context : Z) (message : list Z) : X (framework C) unit :=
  write_and_forget context sLoadMeshId message.
Definition sendLoadSbsar (context : Z) (message : list Z) : X (framework C) unit :=
  write_and_forget context sLoadSbsarId message.

(** The overloads on schemas serialise them first. *)
Definition sendRequestMeshConfig_schema (context : Z) (schema : send_mesh_config_request_schema) :
    X (framework C) unit :=
  let? output := GetJsonString (mesh_request_Serialize schema) in
  sendRequestMeshConfig context output.
Definition sendLoadMesh_schema (context : Z) (schema : send_to_schema) : X (framework C) unit :=
  let? output := GetJsonString (send_to_Serialize schema) in
  sendLoadMesh context output.
Definition sendMeshExportConfig_schema (context : Z) (schema : mesh_export_schema) : X (framework C) unit :=
  let? output := GetJsonString (mesh_export_Serialize schema) in
  sendMeshExportConfig context output.
Definition sendLoadSbsar_schema (context : Z) (schema : send_to_schema) : X (framework C) unit :=
  let? output := GetJsonString (send_to_Serialize schema) in
  sendLoadSbsar context output.

End methods.
