(* ===== verification/Framework.v ===== *)
(** * The core of the framework

    [module-cpp/src/framework/core.cpp]: the registration of applications, the
    start and the end of the framework around those of the library, the function
    through which the library delivers messages, and the description that a
    program gives of itself to those that connect to it. *)

From Stdlib Require Import Sorted.
From S2P Require Import Prelude Wire Cpp Uuid Json Schemas MeshSchema FunctionTable Applications.

(** ** Operations *)

Section core.
Context {C : Type} (table : substance_connector_function_table C).
Context {V : Type} {J : Json V}.

(** [startupState.compare_exchange_strong (expected, desired)]. *)
Definition exchange_startup (expected desired : StartupState) : M (framework C) bool :=
  let* st := gets startupState in
  if bool_decide (st = expected) then modify (set_startupState desired) ;;; ret true else ret false.

(** The loops over [applications]. *)
Fixpoint for_applications (method : Z -> M (framework C) unit) (apps : list Z) : M (framework C) unit :=
  match apps with
  | [] => ret tt
  | a :: apps' => method a ;;; for_applications method apps'
  end.
Definition preInit : M (framework C) unit := let* apps := gets applications in for_applications app_preInit apps.
Definition postInit : M (framework C) unit := let* apps := gets applications in for_applications app_postInit apps.
Definition preShutdown : M (framework C) unit := let* apps := gets applications in for_applications app_preShutdown apps.
Definition postShutdown : M (framework C) unit := let* apps := gets applications in for_applications app_postShutdown apps.

Definition version : M (framework C) (list Z) := call (ft_version table).

(** [applications.insert (application)] of a pointer that is not in the set. *)
Fixpoint set_insert (a : Z) (apps : list Z) : list Z :=
  match apps with
  | [] => [a]
  | b :: apps' => if a <? b then a :: apps else b :: set_insert a apps'
  end.

Definition registerApplication (app : Z) : M (framework C) bool :=
  let* swapped := exchange_startup CONNECTOR_SHUTDOWN CONNECTOR_ADDING_APPLICATION in
  if swapped then
    let* apps := gets applications in
    let* result :=
      (if negb (app =? 0) && negb (bool_decide (app ∈ apps)) then
         modify (set_applications (set_insert app apps)) ;;;
         let* featureIds := app_getFeatureIds app in
         modify (fun s => set_featureLevel (featureLevel s ++ featureIds) s) ;;;
         ret true
       else ret false) in
    modify (set_startupState CONNECTOR_SHUTDOWN) ;;;
    ret result
  else ret false.

(** The address of [connector_cpp_trampoline]. *)
Definition cpp_trampoline_address : Z := 1.

(** Without dynamic loading [initDynamicLoad] does nothing and answers false,
    which is dropped. *)
Definition init (display_name id : list Z) : M (framework C) bool :=
  modify (set_connectionDisplayName display_name) ;;;
  modify (set_connectionId id) ;;;
  let* swapped := exchange_startup CONNECTOR_SHUTDOWN CONNECTOR_INIT_STARTED in
  if swapped then
    preInit ;;;
    let* name := gets connectionId in
    let* code := call (ft_init table name) in
    let result := code =? SUBSTANCE_CONNECTOR_SUCCESS in
    when result
      (call (ft_add_trampoline table cpp_trampoline_address) ;;;
       postInit ;;;
       modify (set_startupState CONNECTOR_INITIALIZED)) ;;;
    ret result
  else ret false.

(** The overload with one name. *)
Definition init_one_name (display_name : list Z) : M (framework C) bool := init display_name display_name.

Definition shutdown : M (framework C) bool :=
  let* swapped := exchange_startup CONNECTOR_INITIALIZED CONNECTOR_SHUTDOWN_STARTED in
  if swapped then
    preShutdown ;;;
    let* code := call (ft_shutdown table) in
    let result := code =? SUBSTANCE_CONNECTOR_SUCCESS in
    when result
      (postShutdown ;;;
       modify (set_startupState CONNECTOR_SHUTDOWN) ;;;
       modify (set_applications []) ;;;
       modify (set_featureLevel [])) ;;;
    ret result
  else ret false.

Definition getConnectionContext : X (framework C) (list Z) :=
  let? connector_version := lift version in
  let? s := lift get in
  GetJsonString (connection_Serialize
    (ConnectionSchema (connectionDisplayName s) (connectionId s) connector_version (featureLevel s))).

(** [f (...) == SUBSTANCE_CONNECTOR_SUCCESS], with what is written through the
    pointer. *)
Definition succeeded {A} (m : M C (Z * A)) : M (framework C) (bool * A) :=
  let* r := call m in ret (fst r =? SUBSTANCE_CONNECTOR_SUCCESS, snd r).
Definition succeeds (m : M C Z) : M (framework C) bool :=
  let* code := call m in ret (code =? SUBSTANCE_CONNECTOR_SUCCESS).

Definition openTcpConnection (port : Z) (given : bool) : M (framework C) (bool * option Z) :=
  succeeded (ft_open_tcp table port given).
Definition establishTcpConnection (port : Z) (given : bool) : M (framework C) (bool * option Z) :=
  succeeded (ft_connect_tcp table port given).
Definition openDefaultTcp (given : bool) : M (framework C) (bool * option Z) := succeeded (ft_open_default_tcp table given).
Definition broadcastTcp : M (framework C) bool := succeeds (ft_broadcast_tcp table).
Definition openDefaultUnix (given : bool) : M (framework C) (bool * option Z) := succeeded (ft_open_default_unix table given).
Definition broadcastUnix : M (framework C) bool := succeeds (ft_broadcast_unix table).
Definition openDefault (given : bool) : M (framework C) (bool * option Z) := succeeded (ft_open_default table given).
Definition broadcastDefault : M (framework C) bool := succeeds (ft_broadcast_default table).

(** [System::connectionEstablished] ([system.cpp]). *)
Definition connectionEstablished (incoming_connection_context : Z) (type : uuid) (message : list Z) : X (framework C) unit :=
  let? context_message := getConnectionContext in
  write_and_forget table incoming_connection_context sConnectionUpdateContextId context_message.

(** What the program's callbacks do is its own affair. *)
Context (user_callback : Z -> Z -> uuid -> list Z -> X (framework C) unit).

Definition call_callback (f : callback) (context : Z) (type : uuid) (message : list Z) : X (framework C) unit :=
  match f with
  | NullCallback => lift (stuck NullDeref)
  | ConnectionEstablished => connectionEstablished context type message
  | UserCallback f => user_callback f context type message
  end.

(** The trampoline, which the library calls for every message; it has a copy of
    the vector. *)
Definition connector_cpp_trampoline (context : Z) (messageType : uuid) (message : list Z) : X (framework C) unit :=
  let? callbacks := lift (findCallbacks messageType) in
  xwhen (0 <? length callbacks)%nat
    (for_each callbacks (fun callbackItr =>
       xwhen (negb (bool_decide (callbackItr = NullCallback)))
         (call_callback callbackItr context messageType message))).

End core.

(** ** Calls of the core *)

Inductive fw_op : Type :=
  | Register (app : Z)
  | Init (display_name id : list Z)
  | Shutdown.

Definition do_op {C} (table : substance_connector_function_table C) (op : fw_op) : M (framework C) bool :=
  match op with
  | Register app => registerApplication app
  | Init display_name id => init table display_name id
  | Shutdown => shutdown table
  end.

Fixpoint do_ops {C} (table : substance_connector_function_table C) (ops : list fw_op) :
    M (framework C) (list bool) :=
  match ops with
  | [] => ret []
  | op :: ops' => let* r := do_op table op in let* rs := do_ops table ops' in ret (r :: rs)
  end.

(** ** What a state of the framework is *)

Definition class_at (objs : gmap Z application) (a : Z) : app_class :=
  match objs !! a with Some o => app_members o | None => UserApplication [] [] end.

(** The bindings of registered applications: the first in the order of the
    addresses has the say over an identifier. *)
Definition bindings (objs : gmap Z application) (apps : list Z) : gmap uuid (list callback) :=
  list_to_map (concat (map (fun a => class_callbacks (class_at objs a)) apps)).

Definition features_at (objs : gmap Z application) (a : Z) : list uuid := class_features (class_at objs a).

(** Whether callbacks are bound in a state. *)
Definition bound_in (st : StartupState) : bool :=
  match st with CONNECTOR_INIT_STARTED | CONNECTOR_INITIALIZED => true | _ => false end.

Record framework_inv {C} (s : framework C) : Prop := {
  fi_sorted : StronglySorted Z.lt (applications s);
  fi_objects a : a ∈ applications s -> a <> 0 /\ is_Some (objects s !! a);
  fi_idle : startupState s <> CONNECTOR_ADDING_APPLICATION;
  fi_features : featureLevel s ≡ₚ concat (map (features_at (objects s)) (applications s));
  fi_callbacks : callbackMap s = if bound_in (startupState s) then bindings (objects s) (applications s) else ∅;
  fi_pairs a o : objects s !! a = Some o ->
    mCallbacks o = if bound_in (startupState s) && bool_decide (a ∈ applications s)
                   then class_callbacks (app_members o) else []
}.

(** ** Lemmas *)

(** Applying a function to the objects of a list. *)
Definition alter_all (f : application -> application) (apps : list Z) (objs : gmap Z application) :
    gmap Z application :=
  fold_left (fun m a => alter f a m) apps objs.

Lemma lookup_alter_all f apps objs k :
  NoDup apps ->
  alter_all f apps objs !! k = if bool_decide (k ∈ apps) then f <$> objs !! k else objs !! k.
Proof.
  unfold alter_all. revert objs. induction apps as [|a apps IH]; intros objs Hnd; [done|].
  apply NoDup_cons in Hnd as [Ha Hnd]. cbn [fold_left]. rewrite IH by done.
  destruct (decide (k = a)) as [->|Hk].
  - rewrite bool_decide_false by done. rewrite bool_decide_true by (by left). by rewrite lookup_alter_eq.
  - rewrite lookup_alter_ne by done. case_bool_decide as H1; case_bool_decide as H2; try done.
    + destruct H2. by right.
    + by apply elem_of_cons in H2 as [].
Qed.

Lemma class_at_alter_all f apps objs a :
  (forall o, app_members (f o) = app_members o) -> NoDup apps ->
  class_at (alter_all f apps objs) a = class_at objs a.
Proof.
  intros Hf Hnd. unfold class_at. rewrite lookup_alter_all by done.
  case_bool_decide; [|done]. destruct (objs !! a); cbn; auto.
Qed.

Lemma bindings_ext objs objs' apps :
  (forall a, class_at objs' a = class_at objs a) -> bindings objs' apps = bindings objs apps.
Proof. intros H. unfold bindings. f_equal. f_equal. apply map_ext. intros a. by rewrite H. Qed.

Lemma features_ext objs objs' apps :
  (forall a, class_at objs' a = class_at objs a) ->
  map (features_at objs') apps = map (features_at objs) apps.
Proof. intros H. apply map_ext. intros a. unfold features_at. by rewrite H. Qed.

Lemma sorted_NoDup apps : StronglySorted Z.lt apps -> NoDup apps.
Proof.
  induction 1 as [|a apps _ IH Ha]; constructor; [|done].
  intros Hin. rewrite Forall_forall in Ha. specialize (Ha a Hin). lia.
Qed.

Lemma set_insert_perm a apps : set_insert a apps ≡ₚ a :: apps.
Proof.
  induction apps as [|b apps IH]; cbn; [done|]. destruct (a <? b); [done|]. rewrite IH. apply Permutation_swap.
Qed.

Lemma set_insert_sorted a apps :
  StronglySorted Z.lt apps -> a ∉ apps -> StronglySorted Z.lt (set_insert a apps).
Proof.
  induction 1 as [|b apps Hs IH Hb]; intros Hn; cbn; [repeat constructor|].
  apply not_elem_of_cons in Hn as [Hab Hn]. destruct (Z.ltb_spec a b).
  - constructor; [by constructor|]. constructor; [done|].
    eapply Forall_impl; [exact Hb|]. intros c Hc. cbn in Hc. lia.
  - constructor; [by apply IH|]. rewrite set_insert_perm. constructor; [lia | done].
Qed.

Section proofs.
Context {C : Type}.
Implicit Types s : framework C.

Lemma load_app_done s a o : a <> 0 -> objects s !! a = Some o -> load_app a s = Done o s.
Proof. intros Ha Ho. unfold load_app. by rewrite (proj2 (Z.eqb_neq a 0)), Ho by done. Qed.

Lemma registerCallbacks_done pairs s :
  registerCallbacks pairs s = Done tt (set_callbackMap (callbackMap s ∪ list_to_map pairs) s).
Proof.
  revert s. induction pairs as [|[k v] pairs IH]; intros s; cbn [registerCallbacks].
  - rewrite list_to_map_nil, (right_id_L ∅ (∪)). by destruct s.
  - rewrite list_to_map_cons. cbn [fst snd].
    assert (bindCallback k v s = Done (bool_decide (callbackMap s !! k = None))
      (set_callbackMap (callbackMap s ∪ {[k := v]}) s)) as E.
    { unfold bindCallback, bind. cbn. destruct (callbackMap s !! k) eqn:Hk; cbn.
      - f_equal. transitivity (set_callbackMap (callbackMap s) s); [by destruct s|]. f_equal.
        apply map_eq. intros k'. rewrite lookup_union. destruct (decide (k' = k)) as [->|Hne].
        + by rewrite Hk, lookup_singleton_eq.
        + rewrite lookup_singleton_ne by done. by destruct (callbackMap s !! k').
      - f_equal. f_equal. by rewrite insert_union_singleton_r by done. }
    rewrite (bind_done _ _ _ _ _ E), IH. f_equal. unfold set_callbackMap. cbn. f_equal.
    by rewrite <- (assoc_L (∪)), <- insert_union_singleton_l.
Qed.

Lemma unregisterCallbacks_done pairs s :
  unregisterCallbacks pairs s =
    Done tt (set_callbackMap (filter (fun e => e.1 ∉ map fst pairs) (callbackMap s)) s).
Proof.
  revert s. induction pairs as [|[k v] pairs IH]; intros s; cbn [unregisterCallbacks map fst].
  - f_equal. transitivity (set_callbackMap (callbackMap s) s); [by destruct s|]. f_equal.
    symmetry. apply map_filter_id. intros. apply not_elem_of_nil.
  - assert (unbindCallback k s = Done (bool_decide (is_Some (callbackMap s !! k)))
      (set_callbackMap (delete k (callbackMap s)) s)) as E.
    { unfold unbindCallback, bind. cbn. destruct (callbackMap s !! k) eqn:Hk; cbn; [done|].
      f_equal. rewrite delete_id by done. by destruct s. }
    rewrite (bind_done _ _ _ _ _ E), IH. f_equal. unfold set_callbackMap. cbn. f_equal.
    apply map_eq. intros k'. apply option_eq. intros v'. rewrite !map_lookup_filter_Some, lookup_delete_Some.
    cbn. rewrite not_elem_of_cons. naive_solver.
Qed.

(** The pairs that applications hold. *)
Definition fill (o : application) : application := set_mCallbacks (class_callbacks (app_members o)) o.
Definition clear (o : application) : application := set_mCallbacks [] o.

Lemma app_preInit_done s a o :
  a <> 0 -> objects s !! a = Some o -> mCallbacks o = [] ->
  app_preInit a s =
    Done tt (set_callbackMap (callbackMap s ∪ list_to_map (class_callbacks (app_members o)))
               (set_objects (alter fill a (objects s)) s)).
Proof.
  intros Ha Ho Hm. unfold app_preInit. rewrite (bind_done _ _ _ _ _ (load_app_done s a o Ha Ho)).
  set (s1 := set_objects (alter fill a (objects s)) s).
  assert (push_callbacks a (class_callbacks (app_members o)) s = Done tt s1) as E.
  { unfold push_callbacks. rewrite (bind_done _ _ _ _ _ (load_app_done s a o Ha Ho)).
    unfold store_app, modify. f_equal. unfold s1. f_equal. apply map_eq. intros k.
    destruct (decide (k = a)) as [->|Hk].
    - rewrite lookup_insert_eq, lookup_alter_eq, Ho, Hm. done.
    - by rewrite lookup_insert_ne, lookup_alter_ne. }
  rewrite (bind_done _ _ _ _ _ E). unfold Application_preInit.
  rewrite (bind_done _ _ s1 (fill o) s1)
    by (apply load_app_done; [done|]; cbn; by rewrite lookup_alter_eq, Ho).
  rewrite registerCallbacks_done. done.
Qed.

Lemma preInit_done s apps :
  NoDup apps -> (forall a, a ∈ apps -> a <> 0 /\ exists o, objects s !! a = Some o /\ mCallbacks o = []) ->
  for_applications app_preInit apps s =
    Done tt (set_callbackMap (callbackMap s ∪ bindings (objects s) apps)
               (set_objects (alter_all fill apps (objects s)) s)).
Proof.
  revert s. induction apps as [|a apps IH]; intros s Hnd Hok; cbn [for_applications].
  - unfold bindings. cbn [map concat]. rewrite list_to_map_nil, (right_id_L ∅ (∪)). by destruct s.
  - apply NoDup_cons in Hnd as [Hna Hnd]. destruct (Hok a ltac:(by left)) as (Ha & o & Ho & Hm).
    rewrite (bind_done _ _ _ _ _ (app_preInit_done s a o Ha Ho Hm)). rewrite IH; [|done|].
    + unfold set_callbackMap, set_objects. cbn. do 2 f_equal.
      * rewrite <- (assoc_L (∪)). f_equal. rewrite (bindings_ext (objects s)).
        -- unfold bindings. cbn [map concat]. rewrite list_to_map_app. unfold class_at at 2. by rewrite Ho.
        -- intros b. unfold class_at. destruct (decide (b = a)) as [->|];
             [by rewrite lookup_alter_eq, Ho | by rewrite lookup_alter_ne].
    + intros b Hb. destruct (Hok b ltac:(by right)) as (Hb0 & o' & Ho' & Hm'). split; [done|]. exists o'. cbn.
      rewrite lookup_alter_ne by (by intros <-). done.
Qed.

(** Running [preShutdown] on every application. *)
Lemma preShutdown_done s apps :
  NoDup apps -> (forall a, a ∈ apps -> a <> 0 /\ is_Some (objects s !! a)) ->
  exists m, for_applications app_preShutdown apps s =
      Done tt (set_callbackMap m (set_objects (alter_all clear apps (objects s)) s)) /\
    forall k v, m !! k = Some v <-> callbackMap s !! k = Some v /\
      (forall a o, a ∈ apps -> objects s !! a = Some o -> k ∉ map fst (mCallbacks o)).
Proof.
  revert s. induction apps as [|a apps IH]; intros s Hnd Hok; cbn [for_applications].
  - exists (callbackMap s). split; [by destruct s|]. intros k v. split; [|by intros []].
    intros H. split; [done|]. intros a o Ha. by apply elem_of_nil in Ha.
  - apply NoDup_cons in Hnd as [Hna Hnd]. destruct (Hok a ltac:(by left)) as (Ha & o & Ho).
    set (m1 := filter (fun e => e.1 ∉ map fst (mCallbacks o)) (callbackMap s)).
    assert (app_preShutdown a s =
      Done tt (set_callbackMap m1 (set_objects (alter clear a (objects s)) s))) as E.
    { unfold app_preShutdown, Application_preShutdown. rewrite (bind_done _ _ _ _ _ (load_app_done s a o Ha Ho)).
      rewrite (bind_done _ _ _ _ _ (unregisterCallbacks_done (mCallbacks o) s)).
      unfold store_app, modify. f_equal. unfold set_objects, set_callbackMap. cbn. f_equal.
      apply map_eq. intros k. destruct (decide (k = a)) as [->|Hk].
      - by rewrite lookup_insert_eq, lookup_alter_eq, Ho.
      - by rewrite lookup_insert_ne, lookup_alter_ne. }
    rewrite (bind_done _ _ _ _ _ E).
    set (s1 := set_callbackMap m1 (set_objects (alter clear a (objects s)) s)).
    assert (Hother : forall b, b ∈ apps -> objects s1 !! b = objects s !! b).
    { intros b Hb. cbn. apply lookup_alter_ne. by intros <-. }
    destruct (IH s1 Hnd) as (m & Hrun & Hm).
    { intros b Hb. rewrite Hother by done. apply Hok. by right. }
    exists m. split; [exact Hrun|]. intros k v. rewrite Hm. cbn. unfold m1. rewrite map_lookup_filter_Some. cbn.
    split.
    + intros [[H1 H2] H3]. split; [done|]. intros b ob Hb Hob. apply elem_of_cons in Hb as [->|Hb]; [by simplify_eq|].
      apply (H3 b); [done|]. by rewrite <- Hob, <- (Hother b).
    + intros [H1 H2]. split; [split; [done|]|].
      * apply (H2 a); [by left | done].
      * intros b ob Hb Hob. apply (H2 b); [by right|]. rewrite <- (Hother b) by done. exact Hob.
Qed.

(** The methods that do nothing still go through the pointers. *)
Lemma for_applications_idle (method : Z -> M (framework C) unit) s apps :
  (forall a, a ∈ apps -> method a s = Done tt s) -> for_applications method apps s = Done tt s.
Proof.
  induction apps as [|a apps IH]; intros H; [done|]. cbn [for_applications].
  rewrite (bind_done _ _ s tt s) by (apply H; by left). apply IH. intros b Hb. apply H. by right.
Qed.

Lemma app_postInit_done s a : a <> 0 -> is_Some (objects s !! a) -> app_postInit a s = Done tt s.
Proof.
  intros Ha [o Ho]. unfold app_postInit. by rewrite (bind_done _ _ _ _ _ (load_app_done s a o Ha Ho)).
Qed.

Lemma app_postShutdown_done s a : a <> 0 -> is_Some (objects s !! a) -> app_postShutdown a s = Done tt s.
Proof.
  intros Ha [o Ho]. unfold app_postShutdown. by rewrite (bind_done _ _ _ _ _ (load_app_done s a o Ha Ho)).
Qed.

Lemma exchange_startup_hit s x y :
  startupState s = x -> exchange_startup x y s = Done true (set_startupState y s).
Proof. intros H. unfold exchange_startup, bind. cbn. by rewrite bool_decide_true. Qed.

Lemma exchange_startup_miss s x y : startupState s <> x -> exchange_startup x y s = Done false s.
Proof. intros H. unfold exchange_startup, bind. cbn. by rewrite bool_decide_false. Qed.

Lemma is_Some_alter_all_iff f apps (objs : gmap Z application) a :
  NoDup apps -> is_Some (objs !! a) <-> is_Some (alter_all f apps objs !! a).
Proof.
  intros Hnd. rewrite lookup_alter_all by done. case_bool_decide; [by rewrite fmap_is_Some | done].
Qed.

Lemma is_Some_alter_all f apps (objs : gmap Z application) a :
  NoDup apps -> is_Some (objs !! a) -> is_Some (alter_all f apps objs !! a).
Proof. intros Hnd. by apply is_Some_alter_all_iff. Qed.

End proofs.

(** ** What the calls do *)

Section calls.
Context {C : Type} (table : substance_connector_function_table C).
Implicit Types s : framework C.

Lemma init_refused s d i :
  startupState s <> CONNECTOR_SHUTDOWN ->
  init table d i s = Done false (set_connectionId i (set_connectionDisplayName d s)).
Proof.
  intros H. unfold init. rewrite (bind_done _ _ s tt (set_connectionDisplayName d s)) by done.
  rewrite (bind_done _ _ _ tt (set_connectionId i (set_connectionDisplayName d s))) by done.
  by rewrite (bind_done _ _ _ _ _ (exchange_startup_miss
    (set_connectionId i (set_connectionDisplayName d s)) CONNECTOR_SHUTDOWN CONNECTOR_INIT_STARTED H)).
Qed.

(** The framework while the library initialises: [c] is its state. *)
Definition started (c : C) (st : StartupState) (d i : list Z) s : framework C :=
  MkFramework c (alter_all fill (applications s) (objects s)) (bindings (objects s) (applications s))
    (applications s) st (featureLevel s) d i.

Lemma init_prefix s d i :
  framework_inv s -> startupState s = CONNECTOR_SHUTDOWN ->
  init table d i s =
    (let* code := call (ft_init table i) in
     let result := code =? SUBSTANCE_CONNECTOR_SUCCESS in
     when result (call (ft_add_trampoline table cpp_trampoline_address) ;;; postInit ;;;
                  modify (set_startupState CONNECTOR_INITIALIZED)) ;;;
     ret result) (started (connector s) CONNECTOR_INIT_STARTED d i s).
Proof.
  intros Hi Hst. unfold init. rewrite (bind_done _ _ s tt (set_connectionDisplayName d s)) by done.
  set (s1 := set_connectionId i (set_connectionDisplayName d s)).
  rewrite (bind_done _ _ _ tt s1) by done.
  rewrite (bind_done _ _ _ _ _ (exchange_startup_hit s1 CONNECTOR_SHUTDOWN CONNECTOR_INIT_STARTED Hst)).
  set (s2 := set_startupState CONNECTOR_INIT_STARTED s1).
  assert (preInit s2 = Done tt (started (connector s) CONNECTOR_INIT_STARTED d i s)) as E.
  { unfold preInit. rewrite (bind_done _ _ s2 (applications s) s2) by done.
    rewrite preInit_done; [| by apply sorted_NoDup, Hi |].
    - f_equal. unfold started, set_callbackMap, set_objects. cbn. f_equal.
      rewrite (fi_callbacks _ Hi), Hst. cbn. apply (left_id_L ∅ (∪)).
    - intros a Ha. destruct (fi_objects _ Hi a Ha) as [H0 [o Ho]]. split; [done|]. exists o. split; [done|].
      rewrite (fi_pairs _ Hi a o Ho), Hst. done. }
  rewrite (bind_done _ _ _ _ _ E). done.
Qed.

Lemma init_fails s d i code c1 :
  framework_inv s -> startupState s = CONNECTOR_SHUTDOWN ->
  ft_init table i (connector s) = Done code c1 -> code <> SUBSTANCE_CONNECTOR_SUCCESS ->
  init table d i s = Done false (started c1 CONNECTOR_INIT_STARTED d i s).
Proof.
  intros Hi Hst Hc Hne. rewrite init_prefix by done.
  rewrite (bind_done _ _ _ code (started c1 CONNECTOR_INIT_STARTED d i s))
    by (unfold call, zoom; cbn; by rewrite Hc).
  rewrite (proj2 (Z.eqb_neq _ _) Hne). done.
Qed.

Lemma init_succeeds s d i c1 r c2 :
  framework_inv s -> startupState s = CONNECTOR_SHUTDOWN ->
  ft_init table i (connector s) = Done SUBSTANCE_CONNECTOR_SUCCESS c1 ->
  ft_add_trampoline table cpp_trampoline_address c1 = Done r c2 ->
  init table d i s = Done true (started c2 CONNECTOR_INITIALIZED d i s).
Proof.
  intros Hi Hst Hc Ht. rewrite init_prefix by done.
  rewrite (bind_done _ _ _ SUBSTANCE_CONNECTOR_SUCCESS (started c1 CONNECTOR_INIT_STARTED d i s))
    by (unfold call, zoom; cbn; by rewrite Hc).
  rewrite Z.eqb_refl. cbn [when].
  set (s2 := started c2 CONNECTOR_INIT_STARTED d i s).
  assert ((call (ft_add_trampoline table cpp_trampoline_address) ;;; postInit ;;;
    modify (set_startupState CONNECTOR_INITIALIZED)) (started c1 CONNECTOR_INIT_STARTED d i s) =
    Done tt (started c2 CONNECTOR_INITIALIZED d i s)) as E; [|by rewrite (bind_done _ _ _ _ _ E)].
  rewrite (bind_done _ _ _ r s2) by (unfold call, zoom; cbn; by rewrite Ht).
  assert (postInit s2 = Done tt s2) as E; [|by rewrite (bind_done _ _ _ _ _ E)].
  unfold postInit. rewrite (bind_done _ _ s2 (applications s) s2) by done. apply for_applications_idle.
  intros a Ha. destruct (fi_objects _ Hi a Ha) as [H0 Ho]. apply app_postInit_done; [done|].
  apply is_Some_alter_all; [by apply sorted_NoDup, Hi | done].
Qed.

Lemma shutdown_refused s : startupState s <> CONNECTOR_INITIALIZED -> shutdown table s = Done false s.
Proof. intros H. unfold shutdown. by rewrite (bind_done _ _ _ _ _ (exchange_startup_miss s _ _ H)). Qed.

(** The framework after its callbacks were unbound. *)
Definition unbound (c : C) s : framework C :=
  MkFramework c (alter_all clear (applications s) (objects s)) ∅ (applications s)
    CONNECTOR_SHUTDOWN_STARTED (featureLevel s) (connectionDisplayName s) (connectionId s).

Lemma bindings_bound s k :
  framework_inv s -> bound_in (startupState s) = true -> is_Some (bindings (objects s) (applications s) !! k) ->
  exists a o, a ∈ applications s /\ objects s !! a = Some o /\ k ∈ map fst (mCallbacks o).
Proof.
  intros Hi Hb [v Hv]. apply elem_of_list_to_map_2, list_elem_of_In, in_concat in Hv as (ps & Hps & Hin).
  apply in_map_iff in Hps as (a & <- & Ha). apply list_elem_of_In in Ha.
  destruct (fi_objects _ Hi a Ha) as [_ [o Ho]]. exists a, o. split; [done|]. split; [done|].
  rewrite (fi_pairs _ Hi a o Ho), Hb, bool_decide_true by done. cbn. unfold class_at in Hin. rewrite Ho in Hin.
  apply list_elem_of_In. apply (in_map fst) in Hin. done.
Qed.

Lemma shutdown_prefix s :
  framework_inv s -> startupState s = CONNECTOR_INITIALIZED ->
  shutdown table s =
    (let* code := call (ft_shutdown table) in
     let result := code =? SUBSTANCE_CONNECTOR_SUCCESS in
     when result (postShutdown ;;; modify (set_startupState CONNECTOR_SHUTDOWN) ;;;
                  modify (set_applications []) ;;; modify (set_featureLevel [])) ;;;
     ret result) (unbound (connector s) s).
Proof.
  intros Hi Hst. unfold shutdown.
  rewrite (bind_done _ _ _ _ _ (exchange_startup_hit s CONNECTOR_INITIALIZED CONNECTOR_SHUTDOWN_STARTED Hst)).
  set (s1 := set_startupState CONNECTOR_SHUTDOWN_STARTED s).
  assert (preShutdown s1 = Done tt (unbound (connector s) s)) as E; [|by rewrite (bind_done _ _ _ _ _ E)].
  unfold preShutdown. rewrite (bind_done _ _ s1 (applications s) s1) by done.
  destruct (preShutdown_done s1 (applications s)) as (m & Hrun & Hm);
    [by apply sorted_NoDup, Hi | apply (fi_objects _ Hi) |].
  rewrite Hrun. f_equal. unfold unbound, set_callbackMap, set_objects. cbn. f_equal.
  apply map_eq. intros k. rewrite lookup_empty. apply eq_None_not_Some. intros [v Hv].
  apply Hm in Hv as [Hv Hnone]. cbn in Hv. rewrite (fi_callbacks _ Hi), Hst in Hv. cbn in Hv.
  destruct (bindings_bound s k Hi) as (a & o & Ha & Ho & Hin); [by rewrite Hst | by eexists |].
  by apply (Hnone a o).
Qed.

Lemma shutdown_fails s code c1 :
  framework_inv s -> startupState s = CONNECTOR_INITIALIZED ->
  ft_shutdown table (connector s) = Done code c1 -> code <> SUBSTANCE_CONNECTOR_SUCCESS ->
  shutdown table s = Done false (unbound c1 s).
Proof.
  intros Hi Hst Hc Hne. rewrite shutdown_prefix by done.
  rewrite (bind_done _ _ _ code (unbound c1 s)) by (unfold call, zoom; cbn; by rewrite Hc).
  rewrite (proj2 (Z.eqb_neq _ _) Hne). done.
Qed.

Lemma shutdown_succeeds s c1 :
  framework_inv s -> startupState s = CONNECTOR_INITIALIZED ->
  ft_shutdown table (connector s) = Done SUBSTANCE_CONNECTOR_SUCCESS c1 ->
  shutdown table s =
    Done true (MkFramework c1 (alter_all clear (applications s) (objects s)) ∅ [] CONNECTOR_SHUTDOWN []
                 (connectionDisplayName s) (connectionId s)).
Proof.
  intros Hi Hst Hc. rewrite shutdown_prefix by done.
  rewrite (bind_done _ _ _ SUBSTANCE_CONNECTOR_SUCCESS (unbound c1 s))
    by (unfold call, zoom; cbn; by rewrite Hc).
  rewrite Z.eqb_refl. cbn [when].
  assert (postShutdown (unbound c1 s) = Done tt (unbound c1 s)) as E.
  { unfold postShutdown. rewrite (bind_done _ _ _ (applications s) (unbound c1 s)) by done.
    apply for_applications_idle. intros a Ha. destruct (fi_objects _ Hi a Ha) as [H0 Ho].
    apply app_postShutdown_done; [done|]. apply is_Some_alter_all; [by apply sorted_NoDup, Hi | done]. }
  unfold bind at 1. unfold bind at 1. by rewrite E.
Qed.

Lemma register_refused s app :
  startupState s <> CONNECTOR_SHUTDOWN -> registerApplication app s = Done false s.
Proof. intros H. unfold registerApplication. by rewrite (bind_done _ _ _ _ _ (exchange_startup_miss s _ _ H)). Qed.

Lemma register_again s app :
  startupState s = CONNECTOR_SHUTDOWN -> app = 0 \/ app ∈ applications s ->
  registerApplication app s = Done false s.
Proof.
  intros Hst Ha. unfold registerApplication.
  rewrite (bind_done _ _ _ _ _ (exchange_startup_hit s CONNECTOR_SHUTDOWN CONNECTOR_ADDING_APPLICATION Hst)).
  set (s1 := set_startupState _ s). rewrite (bind_done _ _ s1 (applications s) s1) by done.
  assert (negb (app =? 0) && negb (bool_decide (app ∈ applications s)) = false) as ->.
  { destruct Ha as [->|Ha]; [done|]. by rewrite (bool_decide_true _ Ha), andb_false_r. }
  unfold bind, modify. cbn. f_equal. destruct s; cbn in *. by rewrite Hst.
Qed.

Lemma register_new s app o :
  startupState s = CONNECTOR_SHUTDOWN -> app <> 0 -> app ∉ applications s -> objects s !! app = Some o ->
  registerApplication app s =
    Done true (set_applications (set_insert app (applications s))
                 (set_featureLevel (featureLevel s ++ class_features (app_members o)) s)).
Proof.
  intros Hst H0 Ha Ho. unfold registerApplication.
  rewrite (bind_done _ _ _ _ _ (exchange_startup_hit s CONNECTOR_SHUTDOWN CONNECTOR_ADDING_APPLICATION Hst)).
  set (s1 := set_startupState _ s). rewrite (bind_done _ _ s1 (applications s) s1) by done.
  rewrite (proj2 (Z.eqb_neq app 0)), bool_decide_false by done. cbn [negb andb].
  set (s2 := set_applications (set_insert app (applications s)) s1).
  unfold bind at 1. unfold bind at 1. cbn [modify]. fold s2.
  assert (app_getFeatureIds app s2 = Done (class_features (app_members o)) s2) as E.
  { unfold app_getFeatureIds. by rewrite (bind_done _ _ _ _ _ (load_app_done s2 app o H0 Ho)). }
  rewrite (bind_done _ _ _ _ _ E). unfold bind, modify. cbn. f_equal. destruct s; cbn in *. by rewrite Hst.
Qed.

End calls.

(** ** The invariant is kept *)

Section invariant.
Context {C : Type}.
Implicit Types s : framework C.

(** Changing the objects without changing their classes. *)
Lemma framework_inv_alter s f (c : C) st d i m :
  framework_inv s -> st <> CONNECTOR_ADDING_APPLICATION ->
  (forall o, app_members (f o) = app_members o) ->
  (forall o, mCallbacks (f o) = if bound_in st then class_callbacks (app_members o) else []) ->
  m = (if bound_in st then bindings (objects s) (applications s) else ∅) ->
  framework_inv (MkFramework c (alter_all f (applications s) (objects s)) m (applications s) st
                   (featureLevel s) d i).
Proof.
  intros Hi Hst Hf Hm ->. pose proof (sorted_NoDup _ (fi_sorted _ Hi)) as Hnd.
  assert (Hc : forall a, class_at (alter_all f (applications s) (objects s)) a = class_at (objects s) a)
    by (intros; by apply class_at_alter_all).
  constructor; cbn -[bindings].
  - apply Hi.
  - intros a Ha. destruct (fi_objects _ Hi a Ha) as [H0 Ho]. split; [done|]. by apply is_Some_alter_all.
  - done.
  - rewrite (features_ext _ _ _ Hc). apply Hi.
  - by rewrite (bindings_ext _ _ _ Hc).
  - intros a o Ho. rewrite lookup_alter_all in Ho by done. case_bool_decide as Ha.
    + apply fmap_Some in Ho as (o' & _ & ->). rewrite Hm, Hf, andb_true_r. done.
    + rewrite andb_false_r. rewrite (fi_pairs _ Hi a o Ho), (bool_decide_false _ Ha), andb_false_r. done.
Qed.

Lemma started_inv (c : C) st d i s :
  framework_inv s -> startupState s = CONNECTOR_SHUTDOWN -> bound_in st = true ->
  framework_inv (started c st d i s).
Proof.
  intros Hi Hst Hb. apply framework_inv_alter; try done; [by destruct st | by rewrite Hb | by rewrite Hb].
Qed.

Lemma unbound_inv (c : C) s : framework_inv s -> framework_inv (unbound c s).
Proof. intros Hi. by apply (framework_inv_alter s clear). Qed.

Lemma emptied_inv (c : C) s :
  framework_inv s ->
  framework_inv (MkFramework c (alter_all clear (applications s) (objects s)) ∅ [] CONNECTOR_SHUTDOWN []
                   (connectionDisplayName s) (connectionId s)).
Proof.
  intros Hi. constructor; cbn; try done; try (by constructor).
  - intros a Ha. by apply elem_of_nil in Ha.
  - intros a o Ho. rewrite lookup_alter_all in Ho by apply sorted_NoDup, Hi.
    case_bool_decide as Ha; [by apply fmap_Some in Ho as (? & _ & ->)|].
    by rewrite (fi_pairs _ Hi a o Ho), (bool_decide_false _ Ha), andb_false_r.
Qed.

Lemma names_inv d i s : framework_inv s -> framework_inv (set_connectionId i (set_connectionDisplayName d s)).
Proof. by intros []. Qed.

Lemma registered_inv s app o :
  framework_inv s -> startupState s = CONNECTOR_SHUTDOWN -> app <> 0 -> app ∉ applications s ->
  objects s !! app = Some o ->
  framework_inv (set_applications (set_insert app (applications s))
                   (set_featureLevel (featureLevel s ++ class_features (app_members o)) s)).
Proof.
  intros Hi Hst H0 Ha Ho. constructor; cbn.
  - apply set_insert_sorted; [apply Hi | done].
  - intros b Hb. rewrite set_insert_perm in Hb. apply elem_of_cons in Hb as [->|Hb]; [by split; eauto|].
    by apply (fi_objects _ Hi).
  - by rewrite Hst.
  - assert (concat (map (features_at (objects s)) (set_insert app (applications s))) ≡ₚ
      concat (map (features_at (objects s)) (app :: applications s))) as ->.
    { rewrite <- !List.flat_map_concat_map. apply Permutation_flat_map, set_insert_perm. }
    cbn. rewrite (fi_features _ Hi), (Permutation_app_comm _ (class_features _)).
    unfold features_at at 2, class_at. by rewrite Ho.
  - by rewrite (fi_callbacks _ Hi), Hst.
  - intros b ob Hob. rewrite (fi_pairs _ Hi b ob Hob), Hst. done.
Qed.

(** The table's functions finish and keep what the library needs. *)
Record library_ok (table : substance_connector_function_table C) (I : C -> Prop) : Prop := {
  lo_init name : keeps I (ft_init table name);
  lo_shutdown : keeps I (ft_shutdown table);
  lo_add_trampoline f : keeps I (ft_add_trampoline table f)
}.

(** The objects that are there stay there. *)
Definition op_valid (objs : gmap Z application) (op : fw_op) : Prop :=
  match op with Register app => app = 0 \/ is_Some (objs !! app) | _ => True end.

Lemma do_op_inv table (I : C -> Prop) op s :
  library_ok table I -> framework_inv s -> I (connector s) -> op_valid (objects s) op ->
  exists r s', do_op table op s = Done r s' /\ framework_inv s' /\ I (connector s') /\
    (forall a, class_at (objects s') a = class_at (objects s) a) /\
    (forall a, is_Some (objects s !! a) <-> is_Some (objects s' !! a)).
Proof.
  intros Hl Hi HI Hv. pose proof (sorted_NoDup _ (fi_sorted _ Hi)) as Hnd. destruct op as [app|d i|]; cbn [do_op].
  - destruct (decide (startupState s = CONNECTOR_SHUTDOWN)) as [Hst|Hst];
      [|exists false, s; by rewrite register_refused].
    destruct (decide (app = 0 \/ app ∈ applications s)) as [Ha|Ha];
      [exists false, s; by rewrite register_again|].
    destruct Hv as [->|[o Ho]]; [tauto|].
    eexists _, _. split; [apply (register_new s app o); tauto|].
    split; [apply registered_inv; tauto|]. done.
  - destruct (decide (startupState s = CONNECTOR_SHUTDOWN)) as [Hst|Hst];
      [|eexists false, _; rewrite init_refused by done; split; [done|]; split; [by apply names_inv | done]].
    destruct (lo_init _ _ Hl i _ HI) as (code & c1 & Hc & HI1).
    assert (Hclass : forall st c a, class_at (objects (started c st d i s)) a = class_at (objects s) a).
    { intros. by apply class_at_alter_all. }
    assert (Hsome : forall st c a, is_Some (objects s !! a) <-> is_Some (objects (started c st d i s) !! a)).
    { intros. by apply is_Some_alter_all_iff. }
    destruct (decide (code = SUBSTANCE_CONNECTOR_SUCCESS)) as [->|Hne].
    + destruct (lo_add_trampoline _ _ Hl cpp_trampoline_address _ HI1) as (r & c2 & Ht & HI2).
      eexists _, _. split; [by eapply init_succeeds|]. split; [by apply started_inv|]. auto.
    + eexists _, _. split; [by eapply init_fails|]. split; [by apply started_inv|]. auto.
  - destruct (decide (startupState s = CONNECTOR_INITIALIZED)) as [Hst|Hst];
      [|exists false, s; by rewrite shutdown_refused].
    destruct (lo_shutdown _ _ Hl _ HI) as (code & c1 & Hc & HI1).
    destruct (decide (code = SUBSTANCE_CONNECTOR_SUCCESS)) as [->|Hne].
    + eexists _, _. split; [by eapply shutdown_succeeds|]. split; [by apply emptied_inv|]. split; [done|].
      split; intros a; [by apply class_at_alter_all | by apply is_Some_alter_all_iff].
    + eexists _, _. split; [by eapply shutdown_fails|]. split; [by apply unbound_inv|]. split; [done|].
      split; intros a; [by apply class_at_alter_all | by apply is_Some_alter_all_iff].
Qed.

End invariant.

(** Calls in a state that is neither shut down nor initialised. *)
Lemma calls_refused {C} (table : substance_connector_function_table C) ops (s : framework C) :
  startupState s <> CONNECTOR_SHUTDOWN -> startupState s <> CONNECTOR_INITIALIZED ->
  exists s2, do_ops table ops s = Done (replicate (length ops) false) s2 /\
    s2 = set_connectionId (connectionId s2) (set_connectionDisplayName (connectionDisplayName s2) s).
Proof.
  revert s. induction ops as [|op ops IH]; intros s H1 H2; [exists s; by destruct s|].
  assert (exists s1, do_op table op s = Done false s1 /\
    s1 = set_connectionId (connectionId s1) (set_connectionDisplayName (connectionDisplayName s1) s))
    as (s1 & Hrun & Hs1).
  { destruct op as [app|d i|]; cbn [do_op].
    - exists s. rewrite register_refused by done. by destruct s.
    - eexists. rewrite init_refused by done. done.
    - exists s. rewrite shutdown_refused by done. by destruct s. }
  destruct (IH s1) as (s2 & Hrest & Hs2); [by rewrite Hs1 | by rewrite Hs1 |].
  exists s2. cbn [do_ops length replicate]. rewrite (bind_done _ _ _ _ _ Hrun), (bind_done _ _ _ _ _ Hrest).
  split; [done|]. rewrite Hs2 at 1. by rewrite Hs1.
Qed.

(** ** Delivering messages *)

Section delivery.
Context {C : Type} (table : substance_connector_function_table C).
Context {V : Type} {J : Json V}.
Context (user_callback : Z -> Z -> uuid -> list Z -> X (framework C) unit).
Implicit Types s : framework C.

Lemma for_each_skips_null (fs : list callback) (f : callback -> X (framework C) unit) s :
  for_each fs (fun c => xwhen (negb (bool_decide (c = NullCallback))) (f c)) s =
  for_each (List.filter (fun c => negb (bool_decide (c = NullCallback))) fs) f s.
Proof.
  revert s. induction fs as [|c fs IH]; intros s; [done|]. cbn [for_each List.filter].
  destruct (negb (bool_decide (c = NullCallback))); cbn [xwhen for_each].
  - unfold xbind, bind. destruct (f c s) as [[e|[]] s'|u]; [done | apply IH | done].
  - by rewrite (xbind_done _ _ s tt s).
Qed.

Lemma trampoline_calls context type message s :
  connector_cpp_trampoline table user_callback context type message s =
  for_each (List.filter (fun c => negb (bool_decide (c = NullCallback))) (default [] (callbackMap s !! type)))
    (fun c => call_callback table user_callback c context type message) s.
Proof.
  unfold connector_cpp_trampoline. rewrite (xbind_done _ _ s (default [] (callbackMap s !! type)) s) by done.
  destruct (default [] (callbackMap s !! type)) as [|c cs]; [done|]. cbn [length Nat.ltb Nat.leb xwhen].
  apply for_each_skips_null.
Qed.

(** The description, when asking the library for its version changes nothing. *)
Lemma connectionContext_done s v :
  ft_version table (connector s) = Done v (connector s) ->
  getConnectionContext table s =
    GetJsonString (connection_Serialize (ConnectionSchema (connectionDisplayName s) (connectionId s) v (featureLevel s))) s.
Proof.
  intros Hv. unfold getConnectionContext, version, call, zoom.
  rewrite (xbind_done _ _ s v s); [by rewrite (xbind_done _ _ s s s)|].
  unfold lift, bind. rewrite Hv. by destruct s.
Qed.

End delivery.

(** The first pair of an identifier among the pairs of an application. *)
Definition declares (objs : gmap Z application) (a : Z) (type : uuid) : option (list callback) :=
  list_to_map (M:=gmap uuid (list callback)) (class_callbacks (class_at objs a)) !! type.

Lemma bindings_first objs pre a post type cbs :
  (forall b, b ∈ pre -> declares objs b type = None) -> declares objs a type = Some cbs ->
  bindings objs (pre ++ a :: post) !! type = Some cbs.
Proof.
  intros Hpre Ha. unfold bindings. induction pre as [|b pre IH]; cbn [map concat app]; rewrite list_to_map_app.
  - rewrite lookup_union. unfold declares in Ha. rewrite Ha. by apply union_Some_l.
  - rewrite lookup_union_r by (apply Hpre; by left). apply IH. intros c Hc. apply Hpre. by right.
Qed.

Lemma bindings_none objs apps type :
  (forall b, b ∈ apps -> declares objs b type = None) -> bindings objs apps !! type = None.
Proof.
  intros H. unfold bindings. induction apps as [|b apps IH]; cbn [map concat]; [by rewrite list_to_map_nil|].
  rewrite list_to_map_app, lookup_union_r by (apply H; by left). apply IH. intros c Hc. apply H. by right.
Qed.

Section cycle.
Context {C : Type} (table : substance_connector_function_table C).
Implicit Types s : framework C.

(** A start and a stop of which the library says that they succeeded. *)
Lemma cycle_run s (d i : list Z) (c1 c2 c3 : C) (r : Z) :
  framework_inv s -> startupState s = CONNECTOR_SHUTDOWN ->
  ft_init table i (connector s) = Done SUBSTANCE_CONNECTOR_SUCCESS c1 ->
  ft_add_trampoline table cpp_trampoline_address c1 = Done r c2 ->
  ft_shutdown table c2 = Done SUBSTANCE_CONNECTOR_SUCCESS c3 ->
  init table d i s = Done true (started c2 CONNECTOR_INITIALIZED d i s) /\
  shutdown table (started c2 CONNECTOR_INITIALIZED d i s) =
    Done true (MkFramework c3 (objects s) ∅ [] CONNECTOR_SHUTDOWN [] d i).
Proof.
  intros Hinv Hst Hinit Htramp Hshut. split; [by eapply init_succeeds|].
  rewrite (shutdown_succeeds table _ c3); [|by apply started_inv | done | done].
  cbn -[alter_all]. f_equal. f_equal. apply map_eq. intros a.
  pose proof (sorted_NoDup _ (fi_sorted _ Hinv)) as Hnd. rewrite !lookup_alter_all by done.
  case_bool_decide as Ha; [|done]. destruct (objects s !! a) as [o|] eqn:Ho; [|done]. cbn. f_equal.
  pose proof (fi_pairs _ Hinv a o Ho) as Hp. rewrite Hst in Hp. cbn in Hp. destruct o. cbn in *. by subst.
Qed.

End cycle.

(** ** Properties *)

Section properties.
Context {C : Type} (table : substance_connector_function_table C).
Implicit Types s : framework C.

(** C24: The framework's invariant.  Whatever sequence of registrations, starts and
    stops a program makes, with pointers to objects that exist, and whatever the
    library answers, the calls finish and the invariant holds: the registered
    applications are a set in the order of their addresses, the feature level
    consists of their features, and callbacks are bound exactly from a start on
    to the next stop, each identifier to the callbacks of the first application
    that declares it. *)
Theorem framework_keeps_invariant (I : C -> Prop) (ops : list fw_op) s
    (Hlib : library_ok table I) (Hinv : framework_inv s) (HI : I (connector s))
    (Hvalid : Forall (op_valid (objects s)) ops) :
  exists rs s', do_ops table ops s = Done rs s' /\ length rs = length ops /\
    framework_inv s' /\ I (connector s').
Proof.
  revert s Hinv HI Hvalid. induction ops as [|op ops IH]; intros s Hinv HI Hvalid; [by eexists [], s|].
  apply Forall_cons in Hvalid as [Hv Hvalid].
  destruct (do_op_inv table I op s Hlib Hinv HI Hv) as (r & s1 & Hrun & Hi1 & HI1 & _ & Hsome).
  destruct (IH s1 Hi1 HI1) as (rs & s2 & Hrest & Hlen & Hi2 & HI2).
  { eapply Forall_impl; [exact Hvalid|]. intros [app|d i|]; cbn; [|done|done]. by rewrite Hsome. }
  exists (r :: rs), s2. split; [|split; [by cbn; rewrite Hlen | done]].
  cbn [do_ops]. by rewrite (bind_done _ _ _ _ _ Hrun), (bind_done _ _ _ _ _ Hrest).
Qed.

(** Starting and stopping.  From a framework that is shut down, [init] runs the
    library's initialisation under the given name, binds the callbacks of the
    registered applications, hands the library its trampoline and answers true;
    the following [shutdown] unbinds them all, forgets the applications and their
    features and leaves every object as it was before, so that the framework is
    as it was before the applications were registered, except for its names and
    the state of the library. *)
Theorem framework_cycle s (d i : list Z) (c1 c2 c3 : C) (r : Z)
    (Hinv : framework_inv s) (Hst : startupState s = CONNECTOR_SHUTDOWN)
    (Hinit : ft_init table i (connector s) = Done SUBSTANCE_CONNECTOR_SUCCESS c1)
    (Htramp : ft_add_trampoline table cpp_trampoline_address c1 = Done r c2)
    (Hshut : ft_shutdown table c2 = Done SUBSTANCE_CONNECTOR_SUCCESS c3) :
  exists s1, init table d i s = Done true s1 /\ startupState s1 = CONNECTOR_INITIALIZED /\
    connector s1 = c2 /\ callbackMap s1 = bindings (objects s) (applications s) /\
    shutdown table s1 =
      Done true (MkFramework c3 (objects s) ∅ [] CONNECTOR_SHUTDOWN [] d i).
Proof.
  destruct (cycle_run table s d i c1 c2 c3 r) as [Hrun Hstop]; try done.
  exists (started c2 CONNECTOR_INITIALIZED d i s). auto.
Qed.

(** A failed start or stop is final.  When the library refuses to initialise, the
    framework stays in [CONNECTOR_INIT_STARTED] with the callbacks bound, when it
    fails to shut down, in [CONNECTOR_SHUTDOWN_STARTED]; from then on every
    registration, start and stop answers false, and all that the calls still
    change is the names. *)
Theorem framework_failure_is_final s (op : fw_op) (d i : list Z) (code : Z) (c1 : C) (ops : list fw_op)
    (Hinv : framework_inv s) (Hcode : code <> SUBSTANCE_CONNECTOR_SUCCESS)
    (Hfail : (op = Init d i /\ startupState s = CONNECTOR_SHUTDOWN /\
                ft_init table i (connector s) = Done code c1) \/
             (op = Shutdown /\ startupState s = CONNECTOR_INITIALIZED /\
                ft_shutdown table (connector s) = Done code c1)) :
  exists s1 s2, do_op table op s = Done false s1 /\ connector s1 = c1 /\
    startupState s1 = match op with Init _ _ => CONNECTOR_INIT_STARTED | _ => CONNECTOR_SHUTDOWN_STARTED end /\
    callbackMap s1 = match op with Init _ _ => bindings (objects s) (applications s) | _ => ∅ end /\
    do_ops table ops s1 = Done (replicate (length ops) false) s2 /\
    s2 = set_connectionId (connectionId s2) (set_connectionDisplayName (connectionDisplayName s2) s1).
Proof.
  destruct Hfail as [(-> & Hst & Hc)|(-> & Hst & Hc)].
  - destruct (calls_refused table ops (started c1 CONNECTOR_INIT_STARTED d i s)) as (s2 & Hrun & Hs2); [done | done |].
    eexists _, s2. split; [by eapply init_fails|]. done.
  - destruct (calls_refused table ops (unbound c1 s)) as (s2 & Hrun & Hs2); [done | done |].
    eexists _, s2. split; [by eapply shutdown_fails|]. done.
Qed.

Context {V : Type} {J : Json V}.
Context (user_callback : Z -> Z -> uuid -> list Z -> X (framework C) unit).

(** A refused start still renames the program: it answers false and changes
    nothing else, but the description that the framework gives of itself to the
    programs it is connected with has the new names, while the library runs
    under the old one. *)
Theorem refused_init_renames s (d i v : list Z) (Hst : startupState s <> CONNECTOR_SHUTDOWN)
    (Hversion : ft_version table (connector s) = Done v (connector s)) :
  exists s1, init table d i s = Done false s1 /\ connector s1 = connector s /\
    startupState s1 = startupState s /\ callbackMap s1 = callbackMap s /\
    getConnectionContext table s1 =
      GetJsonString (connection_Serialize (ConnectionSchema d i v (featureLevel s))) s1.
Proof.
  eexists. split; [by apply init_refused|]. do 3 (split; [done|]).
  by rewrite (connectionContext_done table _ v).
Qed.

(** C26: Delivering a message.  While callbacks are bound, the trampoline that the
    library calls passes a message to the callbacks that the first application
    (in the order of the addresses) declares for its identifier, in their order
    and without the null ones; a message that no application declares changes
    nothing. *)
Theorem trampoline_dispatches s (context : Z) (type : uuid) (message : list Z)
    (Hinv : framework_inv s) (Hbound : bound_in (startupState s) = true) :
  (forall pre a post cbs, applications s = pre ++ a :: post ->
     (forall b, b ∈ pre -> declares (objects s) b type = None) -> declares (objects s) a type = Some cbs ->
     connector_cpp_trampoline table user_callback context type message s =
       for_each (List.filter (fun c => negb (bool_decide (c = NullCallback))) cbs)
         (fun c => call_callback table user_callback c context type message) s) /\
  ((forall b, b ∈ applications s -> declares (objects s) b type = None) ->
     connector_cpp_trampoline table user_callback context type message s = Done (inr tt) s).
Proof.
  pose proof (fi_callbacks _ Hinv) as Hmap. rewrite Hbound in Hmap. split.
  - intros pre a post cbs Happs Hpre Ha. rewrite trampoline_calls, Hmap, Happs.
    by rewrite (bindings_first _ pre a post type cbs).
  - intros Hnone. by rewrite trampoline_calls, Hmap, bindings_none.
Qed.

Context {L : JsonLaws V}.

(** Introducing oneself.  When the library delivers the answer to a handshake (the
    identifiers of the framework for an established and a closed connection are
    those of the library's internal messages) and a [System] application is the
    first to declare it, the framework writes one message to the same context:
    under the identifier for connection contexts, a text from which the receiver
    reads the program's two names, the library's version and the features of all
    registered applications.  Then the application's own callback is called. *)
Theorem connection_is_described s (context : Z) (message : list Z) (pre post : list Z) (a : Z)
    (established closed updated : callback) (other : connection_schema) (v : list Z)
    (Hversion : ft_version table (connector s) = Done v (connector s))
    (Hinv : framework_inv s) (Hbound : bound_in (startupState s) = true)
    (Happs : applications s = pre ++ a :: post) (Ha : class_at (objects s) a = System established closed updated)
    (Hpre : forall b, b ∈ pre -> declares (objects s) b connector_internal_handshake_uuid = None)
    (Hfeatures : Forall uuid_wf (featureLevel s))
    (Hjson : forall root, connection_Serialize (ConnectionSchema (connectionDisplayName s) (connectionId s)
                v (featureLevel s)) json_null = Done (inr tt) root -> text_survives root)
    (Hwrite : forall text, exists code c1,
                ft_write_message table context (Some sConnectionUpdateContextId) text (connector s) = Done code c1) :
  exists json code c1, getConnectionContext table s = Done (inr json) s /\
    connection_Deserialize json other =
      Done (inr tt) (ConnectionSchema (connectionDisplayName s) (connectionId s) v (featureLevel s)) /\
    ft_write_message table context (Some sConnectionUpdateContextId) json (connector s) = Done code c1 /\
    connector_cpp_trampoline table user_callback context connector_internal_handshake_uuid message s =
      xwhen (negb (bool_decide (established = NullCallback)))
        (call_callback table user_callback established context connector_internal_handshake_uuid message)
        (set_connector c1 s).
Proof.
  set (schema := ConnectionSchema _ _ _ _) in *.
  destruct (connection_value_roundtrip schema other Hfeatures) as (root & HS & HD).
  destruct (text_roundtrip _ _ root other schema tt HS (Hjson root HS) HD) as [_ HT].
  set (json := json_write root) in *.
  assert (Hctx : getConnectionContext table s = Done (inr json) s).
  { rewrite (connectionContext_done table s v) by done. unfold GetJsonString. fold schema. by rewrite HS. }
  destruct (Hwrite json) as (code & c1 & Hc).
  assert (Hw : write_and_forget table context sConnectionUpdateContextId json s = Done (inr tt) (set_connector c1 s)).
  { unfold write_and_forget, lift, bind, call, zoom. by rewrite Hc. }
  exists json, code, c1. split; [done|]. split; [exact HT|]. split; [done|].
  pose proof (fi_callbacks _ Hinv) as Hmap. rewrite Hbound in Hmap.
  rewrite trampoline_calls, Hmap, Happs, (bindings_first _ pre a post _ [ConnectionEstablished; established] Hpre)
    by (unfold declares; rewrite Ha; by vm_compute).
  cbn [default from_option id].
  cbn [List.filter]. rewrite (bool_decide_false (ConnectionEstablished = NullCallback)) by done. cbn [negb for_each].
  rewrite (xbind_done _ _ s tt (set_connector c1 s)).
  - destruct (negb (bool_decide (established = NullCallback))); cbn [for_each xwhen]; [|done].
    unfold xbind, bind. by destruct (call_callback _ _ _ _ _ _ _) as [[|[]]|].
  - cbn [call_callback]. unfold connectionEstablished. by rewrite (xbind_done _ _ _ _ _ Hctx).
Qed.

(** Sending structured messages.  The overloads on schemas write one message to
    the context, under the identifier of their kind, with a text from which the
    receiver reads the schema again; whatever the library answers, also that the
    message was refused, the methods report nothing and change nothing else. *)
Theorem schemas_are_sent s (context : Z) (asset other : send_to_schema)
    (request other_request : send_mesh_config_request_schema)
    (Hjson : forall root, send_to_Serialize asset json_null = Done (inr tt) root \/
                          mesh_request_Serialize request json_null = Done (inr tt) root -> text_survives root)
    (Hwrite : forall type text, exists code c1,
                ft_write_message table context (Some type) text (connector s) = Done code c1) :
  (exists json, send_to_Deserialize json other = Done (inr tt) asset /\
     (exists code c1, ft_write_message table context (Some sLoadMeshId) json (connector s) = Done code c1 /\
        sendLoadMesh_schema table context asset s = Done (inr tt) (set_connector c1 s)) /\
     (exists code c1, ft_write_message table context (Some sLoadSbsarId) json (connector s) = Done code c1 /\
        sendLoadSbsar_schema table context asset s = Done (inr tt) (set_connector c1 s))) /\
  (exists json, mesh_request_Deserialize json other_request =
       Done (inr tt) (MeshRequest (mr_assetName request)
                        (or_old (mr_assetUuid request) (mr_assetUuid other_request))) /\
     exists code c1, ft_write_message table context (Some sRequestMeshConfigId) json (connector s) = Done code c1 /\
       sendRequestMeshConfig_schema table context request s = Done (inr tt) (set_connector c1 s)).
Proof.
  assert (Hsend : forall type json, exists code c1,
    ft_write_message table context (Some type) json (connector s) = Done code c1 /\
    write_and_forget table context type json s = Done (inr tt) (set_connector c1 s)).
  { intros type json. destruct (Hwrite type json) as (code & c1 & Hc). exists code, c1. split; [done|].
    unfold write_and_forget, lift, bind, call, zoom. by rewrite Hc. }
  split.
  - destruct (send_to_value_roundtrip asset other) as (root & HS & HD).
    destruct (text_roundtrip _ _ root other asset s HS (Hjson root (or_introl HS)) HD) as [HG HT].
    exists (json_write root). split; [exact HT|].
    split; [destruct (Hsend sLoadMeshId (json_write root)) as (code & c1 & Hc & Hw)
           |destruct (Hsend sLoadSbsarId (json_write root)) as (code & c1 & Hc & Hw)];
      exists code, c1; (split; [done|]); [unfold sendLoadMesh_schema | unfold sendLoadSbsar_schema];
      by rewrite (xbind_done _ _ _ _ _ HG).
  - destruct (mesh_request_value_roundtrip request other_request) as (root & HS & HD).
    destruct (text_roundtrip _ _ root other_request _ s HS (Hjson root (or_intror HS)) HD) as [HG HT].
    exists (json_write root). split; [exact HT|].
    destruct (Hsend sRequestMeshConfigId (json_write root)) as (code & c1 & Hc & Hw). exists code, c1.
    split; [done|]. unfold sendRequestMeshConfig_schema. by rewrite (xbind_done _ _ _ _ _ HG).
Qed.

End properties.

(** ** Examples *)

(** A library that records what it is given. *)
Definition recorded : Type := list (Z * option uuid * list Z).
Definition recording_table : substance_connector_function_table recorded := {|
  ft_version := ret (text "1.0");
  ft_init _ := ret SUBSTANCE_CONNECTOR_SUCCESS;
  ft_shutdown := ret SUBSTANCE_CONNECTOR_SUCCESS;
  ft_set_allocators _ _ := ret SUBSTANCE_CONNECTOR_SUCCESS;
  ft_write_message context type message :=
    modify (fun l => l ++ [(context, type, message)]) ;;; ret SUBSTANCE_CONNECTOR_SUCCESS;
  ft_add_trampoline _ := ret SUBSTANCE_CONNECTOR_SUCCESS;
  ft_remove_trampoline _ := ret SUBSTANCE_CONNECTOR_SUCCESS;
  ft_open_tcp _ _ := ret (SUBSTANCE_CONNECTOR_SUCCESS, Some 0);
  ft_open_unix _ _ := ret (SUBSTANCE_CONNECTOR_SUCCESS, Some 0);
  ft_close_context _ := ret SUBSTANCE_CONNECTOR_SUCCESS;
  ft_connect_tcp _ _ := ret (SUBSTANCE_CONNECTOR_SUCCESS, Some 0);
  ft_connect_unix _ _ := ret (SUBSTANCE_CONNECTOR_SUCCESS, Some 0);
  ft_broadcast_tcp := ret SUBSTANCE_CONNECTOR_SUCCESS;
  ft_broadcast_unix := ret SUBSTANCE_CONNECTOR_SUCCESS;
  ft_broadcast_default := ret SUBSTANCE_CONNECTOR_SUCCESS;
  ft_open_default_tcp _ := ret (SUBSTANCE_CONNECTOR_SUCCESS, Some 0);
  ft_open_default_unix _ := ret (SUBSTANCE_CONNECTOR_SUCCESS, Some 0);
  ft_open_default _ := ret (SUBSTANCE_CONNECTOR_SUCCESS, Some 0)
|}.

(** Callbacks that record themselves. *)
Definition recording_callback (f context : Z) (type : uuid) (message : list Z) : X (framework recorded) unit :=
  lift (modify (fun s => set_connector (connector s ++ [(f, Some type, message)]) s)).

(** Two objects of the program; both framework classes declare connections. *)
Definition two_objects : gmap Z application :=
  <[100 := Application (System (UserCallback 7) NullCallback (UserCallback 8)) []]>
  (<[50 := Application (MeshApplication (UserCallback 9) NullCallback NullCallback NullCallback) []]> ∅).

Definition idle_framework : framework recorded := MkFramework [] two_objects ∅ [] CONNECTOR_SHUTDOWN [] [] [].

Lemma idle_framework_inv : framework_inv idle_framework.
Proof.
  constructor; cbn -[two_objects]; try done; try (by constructor).
  - intros a Ha. by apply elem_of_nil in Ha.
  - intros a o Ho. unfold two_objects in Ho. apply lookup_insert_Some in Ho as [[_ <-]|[_ Ho]]; [done|].
    by apply lookup_insert_Some in Ho as [[_ <-]|[_ Ho]].
Qed.

Lemma recording_table_ok : library_ok recording_table (fun _ => True).
Proof. split; intros; intros c _; by eexists _, c. Qed.

Definition some_calls : list fw_op :=
  [Register 100; Register 50; Register 50; Init (text "A") (text "a"); Register 50; Shutdown; Shutdown].

Lemma framework_keeps_invariant_witness :
  exists s', do_ops recording_table some_calls idle_framework =
      Done [true; true; false; true; false; true; false] s' /\ framework_inv s'.
Proof.
  destruct (framework_keeps_invariant recording_table (fun _ => True) some_calls idle_framework recording_table_ok
    idle_framework_inv I) as (rs & s' & Hrun & _ & Hi & _).
  { repeat (apply Forall_cons; split; [first [exact I | right; eexists; vm_compute; reflexivity]|]). constructor. }
  exists s'. split; [|exact Hi]. rewrite Hrun. vm_compute in Hrun. by injection Hrun as <- _.
Defined.

(** The framework with both applications registered. *)
Definition registered_framework : framework recorded :=
  match do_ops recording_table [Register 100; Register 50] idle_framework with
  | Done _ s => s
  | Stuck _ => idle_framework
  end.

Lemma registered_run : do_ops recording_table [Register 100; Register 50] idle_framework =
  Done [true; true] registered_framework.
Proof. by vm_compute. Qed.

Lemma registered_framework_inv : framework_inv registered_framework.
Proof.
  destruct (do_op_inv recording_table (fun _ => True) (Register 100) idle_framework recording_table_ok
    idle_framework_inv I) as (r1 & s1 & H1 & Hi1 & _ & _ & Ho1); [right; eexists; vm_compute; reflexivity|].
  destruct (do_op_inv recording_table (fun _ => True) (Register 50) s1 recording_table_ok
    Hi1 I) as (r2 & s2 & H2 & Hi2 & _); [right; apply Ho1; eexists; vm_compute; reflexivity|].
  assert (E : do_ops recording_table [Register 100; Register 50] idle_framework = Done [r1; r2] s2)
    by (cbn [do_ops]; unfold bind; by rewrite H1, H2).
  rewrite registered_run in E. by injection E as _ _ <-.
Qed.

Lemma framework_cycle_witness :
  exists s1, init recording_table (text "A") (text "a") registered_framework = Done true s1 /\
    shutdown recording_table s1 =
      Done true (MkFramework [] (objects registered_framework) ∅ [] CONNECTOR_SHUTDOWN [] (text "A") (text "a")).
Proof.
  destruct (framework_cycle recording_table registered_framework (text "A") (text "a") [] [] [] SUBSTANCE_CONNECTOR_SUCCESS
    registered_framework_inv ltac:(by vm_compute) ltac:(by vm_compute) ltac:(by vm_compute) ltac:(by vm_compute))
    as (s1 & H1 & _ & _ & _ & H2). exists s1. auto.
Defined.

(** A library that refuses to initialise. *)
Definition refusing_table : substance_connector_function_table recorded :=
  FunctionTable _ (ret []) (fun _ => ret SUBSTANCE_CONNECTOR_ERROR) (ft_shutdown recording_table)
    (ft_set_allocators recording_table) (ft_write_message recording_table) (ft_add_trampoline recording_table)
    (ft_remove_trampoline recording_table) (ft_open_tcp recording_table) (ft_open_unix recording_table)
    (ft_close_context recording_table) (ft_connect_tcp recording_table) (ft_connect_unix recording_table)
    (ft_broadcast_tcp recording_table) (ft_broadcast_unix recording_table) (ft_broadcast_default recording_table)
    (ft_open_default_tcp recording_table) (ft_open_default_unix recording_table) (ft_open_default recording_table).

Lemma framework_failure_is_final_witness :
  exists s1 s2, init refusing_table (text "A") (text "a") registered_framework = Done false s1 /\
    do_ops refusing_table some_calls s1 = Done (replicate 7 false) s2.
Proof.
  destruct (framework_failure_is_final refusing_table registered_framework (Init (text "A") (text "a"))
    (text "A") (text "a") SUBSTANCE_CONNECTOR_ERROR [] some_calls registered_framework_inv ltac:(done)
    ltac:(left; split; [reflexivity | split; by vm_compute])) as (s1 & s2 & H1 & _ & _ & _ & H2 & _).
  exists s1, s2. split; [exact H1 | exact H2].
Defined.

(** The framework while it runs. *)
Definition running_framework : framework recorded :=
  started [] CONNECTOR_INITIALIZED (text "A") (text "a") registered_framework.

Lemma running_framework_inv : framework_inv running_framework.
Proof. apply started_inv; [apply registered_framework_inv | by vm_compute | done]. Qed.

Lemma refused_init_renames_witness :
  exists s1, init recording_table (text "B") (text "b") running_framework = Done false s1 /\
    getConnectionContext (V:=Json.json) recording_table s1 =
      GetJsonString (connection_Serialize (ConnectionSchema (text "B") (text "b") (text "1.0")
        (featureLevel running_framework))) s1.
Proof.
  destruct (refused_init_renames (V:=Json.json) recording_table running_framework (text "B") (text "b") (text "1.0")
    ltac:(done) eq_refl)
    as (s1 & H1 & _ & _ & _ & H2). exists s1. split; [exact H1 | exact H2].
Defined.

Lemma trampoline_dispatches_witness :
  connector_cpp_trampoline (V:=Json.json) recording_table recording_callback 3 sLoadMeshId (text "m") running_framework =
    Done (inr tt) (set_connector [(9, Some sLoadMeshId, text "m")] running_framework).
Proof.
  rewrite (proj1 (trampoline_dispatches (V:=Json.json) recording_table recording_callback running_framework 3
    sLoadMeshId (text "m") running_framework_inv eq_refl) [] 50 [100] [UserCallback 9]);
    [by vm_compute | by vm_compute | intros b Hb; by apply elem_of_nil in Hb | by vm_compute].
Defined.

Lemma connection_is_described_witness :
  exists json, getConnectionContext (V:=Json.json) recording_table running_framework = Done (inr json) running_framework /\
    connection_Deserialize (V:=Json.json) json (ConnectionSchema [] [] [] []) =
      Done (inr tt) (ConnectionSchema (text "A") (text "a") (text "1.0") (featureLevel running_framework)).
Proof.
  destruct (connection_is_described (V:=Json.json) recording_table recording_callback running_framework 3 (text "peer")
    [50] [] 100 (UserCallback 7) NullCallback (UserCallback 8) (ConnectionSchema [] [] [] []) (text "1.0") eq_refl running_framework_inv eq_refl)
    as (json & code & c1 & H1 & H2 & _).
  - by vm_compute.
  - by vm_compute.
  - intros b Hb. apply list_elem_of_singleton in Hb as ->. by vm_compute.
  - by repeat constructor.
  - intros root HS. vm_compute in HS. injection HS as <-. split; by vm_compute.
  - intros t. by eexists _, _.
  - exists json. split; [exact H1 | exact H2].
Defined.

Lemma schemas_are_sent_witness :
  exists json, send_to_Deserialize (V:=Json.json) json previous_asset = Done (inr tt) sent_asset /\
    exists c1, sendLoadMesh_schema (V:=Json.json) recording_table 3 sent_asset running_framework =
      Done (inr tt) (set_connector c1 running_framework).
Proof.
  destruct (schemas_are_sent (V:=Json.json) recording_table running_framework 3 sent_asset previous_asset
    (MeshRequest (text "chair") None) (MeshRequest [] None)) as ((json & Hj & (code & c1 & _ & Hs) & _) & _).
  - intros root [HS|HS]; vm_compute in HS; injection HS as <-; split; by vm_compute.
  - intros type t. by eexists _, _.
  - exists json. split; [exact Hj|]. exists c1. exact Hs.
Defined.
