(* ===== verification/FrameworkThreads.v ===== *)
(** * The framework called by several threads

    [registerApplication], [init] and [shutdown] of [core.cpp] as the steps that
    other threads can come between: every access to the state variable, to a name
    and, outside the section it guards, to the set of applications and the list of
    features is one step, as is each loop over the applications and each call of
    the library.  [registerApplication] inserts into the set and the list in one
    step. *)

From S2P Require Import Prelude Wire Cpp Uuid FunctionTable Applications Framework.

(** ** Calls as machines *)

(** Where a call is; it is named after the step that comes next. *)
Inductive fw_pc : Type :=
  | I_display_name (display_name id : list Z)
  | I_id (id : list Z)
  | I_exchange
  | I_preInit
  | I_init
  | I_add_trampoline
  | I_postInit
  | I_store
  | S_exchange
  | S_preShutdown
  | S_shutdown
  | S_postShutdown
  | S_store
  | S_clear_applications
  | S_clear_features
  | R_exchange (app : Z)
  | R_insert (app : Z)
  | R_store (result : bool)
  | Returned (result : bool).

Section machine.
Context {C : Type} (table : substance_connector_function_table C).

Definition start_call (op : fw_op) : fw_pc :=
  match op with
  | Register app => R_exchange app
  | Init display_name id => I_display_name display_name id
  | Shutdown => S_exchange
  end.

Definition fw_step (p : fw_pc) : M (framework C) fw_pc :=
  match p with
  | I_display_name display_name id => modify (set_connectionDisplayName display_name) ;;; ret (I_id id)
  | I_id id => modify (set_connectionId id) ;;; ret I_exchange
  | I_exchange =>
      let* swapped := exchange_startup CONNECTOR_SHUTDOWN CONNECTOR_INIT_STARTED in
      ret (if swapped then I_preInit else Returned false)
  | I_preInit => preInit ;;; ret I_init
  | I_init =>
      let* name := gets connectionId in
      let* code := call (ft_init table name) in
      ret (if code =? SUBSTANCE_CONNECTOR_SUCCESS then I_add_trampoline else Returned false)
  | I_add_trampoline => call (ft_add_trampoline table cpp_trampoline_address) ;;; ret I_postInit
  | I_postInit => postInit ;;; ret I_store
  | I_store => modify (set_startupState CONNECTOR_INITIALIZED) ;;; ret (Returned true)
  | S_exchange =>
      let* swapped := exchange_startup CONNECTOR_INITIALIZED CONNECTOR_SHUTDOWN_STARTED in
      ret (if swapped then S_preShutdown else Returned false)
  | S_preShutdown => preShutdown ;;; ret S_shutdown
  | S_shutdown =>
      let* code := call (ft_shutdown table) in
      ret (if code =? SUBSTANCE_CONNECTOR_SUCCESS then S_postShutdown else Returned false)
  | S_postShutdown => postShutdown ;;; ret S_store
  | S_store => modify (set_startupState CONNECTOR_SHUTDOWN) ;;; ret S_clear_applications
  | S_clear_applications => modify (set_applications []) ;;; ret S_clear_features
  | S_clear_features => modify (set_featureLevel []) ;;; ret (Returned true)
  | R_exchange app =>
      let* swapped := exchange_startup CONNECTOR_SHUTDOWN CONNECTOR_ADDING_APPLICATION in
      ret (if swapped then R_insert app else Returned false)
  | R_insert app =>
      let* apps := gets applications in
      let* result :=
        (if negb (app =? 0) && negb (bool_decide (app ∈ apps)) then
           modify (set_applications (set_insert app apps)) ;;;
           let* featureIds := app_getFeatureIds app in
           modify (fun s => set_featureLevel (featureLevel s ++ featureIds) s) ;;;
           ret true
         else ret false) in
      ret (R_store result)
  | R_store result => modify (set_startupState CONNECTOR_SHUTDOWN) ;;; ret (Returned result)
  | Returned result => ret (Returned result)
  end.

(** A call that nobody disturbs; eight steps are the most a call takes. *)
Fixpoint run_alone (n : nat) (p : fw_pc) : M (framework C) fw_pc :=
  match n with
  | O => ret p
  | S n' => let* p' := fw_step p in run_alone n' p'
  end.

(** ** Several threads *)

Definition fw_threads : Type := framework C * list fw_pc.

(** What a thread does: its next step, or a new call when it has none. *)
Inductive fw_move : Type := Step (i : nat) | Call (i : nat) (op : fw_op).

Definition fw_threads_step (a : fw_move) (t : fw_threads) : option fw_threads :=
  let '(s, ps) := t in
  match a with
  | Step i =>
      p ← ps !! i;
      match fw_step p s with
      | Done p' s' => Some (s', <[i := p']> ps)
      | Stuck _ => None
      end
  | Call i op =>
      match ps !! i with
      | Some (Returned _) => Some (s, <[i := start_call op]> ps)
      | _ => None
      end
  end.

Fixpoint fw_threads_run (moves : list fw_move) (t : fw_threads) : option fw_threads :=
  match moves with
  | [] => Some t
  | a :: moves' => t' ← fw_threads_step a t; fw_threads_run moves' t'
  end.

End machine.

(** The state that the owner of a body keeps it in. *)
Definition fw_body (p : fw_pc) : option StartupState :=
  match p with
  | I_preInit | I_init | I_add_trampoline | I_postInit | I_store => Some CONNECTOR_INIT_STARTED
  | S_preShutdown | S_shutdown | S_postShutdown | S_store => Some CONNECTOR_SHUTDOWN_STARTED
  | R_insert _ | R_store _ => Some CONNECTOR_ADDING_APPLICATION
  | _ => None
  end.

(** At most one thread is in a body, and the state variable says which body. *)
Record fw_exclusive {C} (t : framework C * list fw_pc) : Prop := {
  fe_state i p st : snd t !! i = Some p -> fw_body p = Some st -> startupState (fst t) = st;
  fe_alone i j p q : snd t !! i = Some p -> snd t !! j = Some q ->
    fw_body p <> None -> fw_body q <> None -> i = j
}.

(** ** Lemmas *)

(** Operations that leave the state variable alone. *)
Definition same_startup {C A} (m : M (framework C) A) : Prop :=
  forall s a s', m s = Done a s' -> startupState s' = startupState s.

Section lemmas.
Context {C : Type} (table : substance_connector_function_table C).

Lemma same_startup_ret {A} (a : A) : same_startup (C := C) (ret a).
Proof. by intros s b s' [= _ <-]. Qed.

Lemma same_startup_bind {A B} (m : M (framework C) A) (k : A -> M (framework C) B) :
  same_startup m -> (forall a, same_startup (k a)) -> same_startup (bind m k).
Proof.
  intros Hm Hk s b s'. unfold bind. destruct (m s) as [a s1|u] eqn:E; [|done]. intros H.
  rewrite (Hk a s1 b s' H). by eapply Hm.
Qed.

Lemma same_startup_gets {A} (f : framework C -> A) : same_startup (gets f).
Proof. by intros s a s' [= _ <-]. Qed.

Lemma same_startup_modify (f : framework C -> framework C) :
  (forall s, startupState (f s) = startupState s) -> same_startup (modify f).
Proof. intros Hf s a s' [= _ <-]. apply Hf. Qed.

Lemma same_startup_call {A} (m : M C A) : same_startup (call m).
Proof. intros s a s'. unfold call, zoom. destruct (m _); [|done]. by intros [= _ <-]. Qed.

Lemma same_startup_load a : same_startup (C := C) (load_app a).
Proof. intros s o s'. unfold load_app. repeat case_match; try done. by intros [= _ <-]. Qed.

Lemma same_startup_if {A} (b : bool) (m1 m2 : M (framework C) A) :
  same_startup m1 -> same_startup m2 -> same_startup (if b then m1 else m2).
Proof. by destruct b. Qed.

Lemma same_startup_option {A B} (o : option A) (k : A -> M (framework C) B) (m : M (framework C) B) :
  (forall a, same_startup (k a)) -> same_startup m ->
  same_startup (match o with Some a => k a | None => m end).
Proof. by destruct o. Qed.

Lemma same_startup_apps method apps :
  (forall a, same_startup (C := C) (method a)) -> same_startup (for_applications method apps).
Proof.
  intros Hm. induction apps as [|a apps IH]; cbn [for_applications]; [apply same_startup_ret|].
  apply same_startup_bind; [apply Hm | done].
Qed.

End lemmas.

Create HintDb startup.
#[export] Hint Resolve same_startup_ret same_startup_gets same_startup_call same_startup_load : startup.
#[export] Hint Extern 3 (same_startup (modify _)) => (apply same_startup_modify; by intros []) : startup.
Ltac startup_steps :=
  repeat first [ solve [eauto with startup] | apply same_startup_if | apply same_startup_apps; intros ?
               | apply same_startup_bind; [|intros ?] ].

Section steps.
Context {C : Type} (table : substance_connector_function_table C).
Implicit Types s : framework C.

Lemma same_startup_bindCallback id cs : same_startup (C := C) (bindCallback id cs).
Proof.
  apply same_startup_bind; [apply same_startup_gets|]. intros m. destruct (m !! id); startup_steps.
Qed.
Lemma same_startup_unbindCallback id : same_startup (C := C) (unbindCallback id).
Proof.
  apply same_startup_bind; [apply same_startup_gets|]. intros m. destruct (m !! id); startup_steps.
Qed.
Hint Resolve same_startup_bindCallback same_startup_unbindCallback : startup.

Lemma same_startup_register pairs : same_startup (C := C) (registerCallbacks pairs).
Proof. induction pairs; cbn [registerCallbacks]; startup_steps. Qed.
Lemma same_startup_unregister pairs : same_startup (C := C) (unregisterCallbacks pairs).
Proof. induction pairs; cbn [unregisterCallbacks]; startup_steps. Qed.
Hint Resolve same_startup_register same_startup_unregister : startup.

Lemma same_startup_preInit : same_startup (C := C) preInit.
Proof. unfold preInit, app_preInit, push_callbacks, Application_preInit, store_app. startup_steps. Qed.
Lemma same_startup_postInit : same_startup (C := C) postInit.
Proof. unfold postInit, app_postInit. startup_steps. Qed.
Lemma same_startup_preShutdown : same_startup (C := C) preShutdown.
Proof. unfold preShutdown, app_preShutdown, Application_preShutdown, store_app. startup_steps. Qed.
Lemma same_startup_postShutdown : same_startup (C := C) postShutdown.
Proof. unfold postShutdown, app_postShutdown. startup_steps. Qed.

(** States in which no body runs. *)
Definition between (st : StartupState) : Prop := st = CONNECTOR_SHUTDOWN \/ st = CONNECTOR_INITIALIZED.

Lemma body_not_between p st : fw_body p = Some st -> ~ between st.
Proof. destruct p; intros [= <-] [?|?]; done. Qed.

(** A step that keeps the state variable. *)
Lemma same_step {A} (m : M (framework C) A) (k : A -> fw_pc) s p' s' :
  same_startup m -> (let* a := m in ret (k a)) s = Done p' s' ->
  exists a, p' = k a /\ startupState s' = startupState s.
Proof.
  intros Hm. unfold bind. destruct (m s) as [a s1|] eqn:E; [|done]. intros [= <- <-].
  exists a. split; [done|]. by eapply Hm.
Qed.

(** What a step does to the state variable and to the body its thread is in. *)
Definition step_effect (p p' : fw_pc) s s' : Prop :=
  (startupState s' = startupState s /\ (fw_body p' = None \/ fw_body p' = fw_body p)) \/
  (fw_body p <> None /\ fw_body p' = None) \/
  (fw_body p = None /\ between (startupState s) /\ fw_body p' = Some (startupState s')).

Lemma exchange_effect p p1 p2 x y s p' s' :
  fw_body p = None -> between x -> fw_body p1 = Some y -> fw_body p2 = None ->
  (let* swapped := exchange_startup x y in ret (if swapped then p1 else p2)) s = Done p' s' ->
  step_effect p p' s s'.
Proof.
  intros Hp Hx Hp1 Hp2. unfold exchange_startup, bind. cbn [gets].
  destruct (bool_decide _) eqn:E; intros [= <- <-].
  - apply bool_decide_eq_true in E. right. right. split; [done|]. split; [by rewrite E | done].
  - left. auto.
Qed.

Lemma fw_step_effect p s p' s' : fw_step table p s = Done p' s' -> step_effect p p' s s'.
Proof.
  assert (Hsame : forall A (m : M (framework C) A) (k : A -> fw_pc),
    same_startup m -> (forall a, fw_body (k a) = None \/ fw_body (k a) = fw_body p) ->
    (let* a := m in ret (k a)) s = Done p' s' -> step_effect p p' s s').
  { intros A m k Hm Hk H. destruct (same_step m k s p' s' Hm H) as (a & -> & Hs). left. split; [done | apply Hk]. }
  destruct p; cbn [fw_step]; intros H;
    try (eapply exchange_effect; [.. | exact H]; first [done | by left | by right]);
    try (injection H as <- <-; first [by left; auto | by right; left]).
  - revert H. apply Hsame; [apply same_startup_preInit | auto].
  - refine (Hsame _ (let* name := gets connectionId in call (ft_init table name))
      (fun code => if code =? SUBSTANCE_CONNECTOR_SUCCESS then I_add_trampoline else Returned false) _ _ H);
      [startup_steps|]. intros a. destruct (a =? _); auto.
  - revert H. apply Hsame; [startup_steps | auto].
  - revert H. apply Hsame; [apply same_startup_postInit | auto].
  - revert H. apply Hsame; [apply same_startup_preShutdown | auto].
  - revert H. apply Hsame; [startup_steps|]. intros a. destruct (a =? _); auto.
  - revert H. apply Hsame; [apply same_startup_postShutdown | auto].
  - refine (Hsame _ (let* apps := gets applications in
        if negb (app =? 0) && negb (bool_decide (app ∈ apps)) then
          modify (set_applications (set_insert app apps)) ;;;
          let* featureIds := app_getFeatureIds app in
          modify (fun s => set_featureLevel (featureLevel s ++ featureIds) s) ;;;
          ret true
        else ret false) R_store _ _ H); [|auto]. unfold app_getFeatureIds. startup_steps.
Qed.

Lemma exclusive_step i p p' s s' ps :
  fw_exclusive (s, ps) -> ps !! i = Some p -> step_effect p p' s s' -> fw_exclusive (s', <[i := p']> ps).
Proof.
  intros [Hst Hal] Hi Heff. cbn in Hst, Hal.
  assert (Hlook : forall j q, <[i := p']> ps !! j = Some q -> j = i /\ q = p' \/ j <> i /\ ps !! j = Some q).
  { intros j q Hj. destruct (decide (j = i)) as [->|Hne]; [left | right].
    - rewrite list_lookup_insert_eq in Hj by (by eapply lookup_lt_Some). by injection Hj.
    - by rewrite list_lookup_insert_ne in Hj. }
  destruct Heff as [[Hs Hp]|[[Hp Hp']|(Hp & Hbetween & Hp')]].
  - constructor; cbn.
    + intros j q st [[-> ->]|[Hne Hj]]%Hlook Hq; rewrite Hs; [|by eapply Hst].
      destruct Hp as [Hp|Hp]; [congruence|]. eapply Hst; [exact Hi | congruence].
    + intros j k q r [[-> ->]|[Hne Hj]]%Hlook [[-> ->]|[Hne' Hk]]%Hlook Hq Hr; try done.
      * destruct Hp as [Hp|Hp]; [done|]. eapply Hal; [exact Hi | exact Hk | congruence | done].
      * destruct Hp as [Hp|Hp]; [done|]. eapply Hal; [exact Hj | exact Hi | done | congruence].
      * by eapply Hal.
  - constructor; cbn.
    + intros j q st [[-> ->]|[Hne Hj]]%Hlook Hq; [congruence|]. exfalso. apply Hne.
      eapply Hal; [exact Hj | exact Hi | congruence | done].
    + intros j k q r [[-> ->]|[Hne Hj]]%Hlook [[-> ->]|[Hne' Hk]]%Hlook Hq Hr; try done. by eapply Hal.
  - assert (Hnone : forall j q, ps !! j = Some q -> fw_body q = None).
    { intros j q Hj. destruct (fw_body q) as [st|] eqn:E; [|done]. exfalso.
      apply (body_not_between q st E). by rewrite <- (Hst j q st Hj E). }
    constructor; cbn.
    + intros j q st [[-> ->]|[Hne Hj]]%Hlook Hq; [congruence|]. by rewrite (Hnone j q Hj) in Hq.
    + intros j k q r [[-> ->]|[Hne Hj]]%Hlook [[-> ->]|[Hne' Hk]]%Hlook Hq Hr; try done;
        exfalso; first [by apply Hq, (Hnone j) | by apply Hr, (Hnone k)].
Qed.

Lemma exclusive_run moves t t' :
  fw_exclusive t -> fw_threads_run table moves t = Some t' -> fw_exclusive t'.
Proof.
  revert t. induction moves as [|a moves IH]; intros t Ht H; cbn [fw_threads_run] in H.
  - by injection H as <-.
  - apply bind_Some in H as (t1 & H1 & H2). eapply IH; [|exact H2]. clear IH H2.
    destruct t as [s ps]. destruct a as [i|i op]; cbn [fw_threads_step] in H1.
    + apply bind_Some in H1 as (p & Hi & H1). destruct (fw_step table p s) as [p' s'|] eqn:E; [|done].
      injection H1 as <-. eapply exclusive_step; [done | exact Hi | by apply fw_step_effect].
    + destruct (ps !! i) as [p|] eqn:Hi; [|done]. destruct p; try done. injection H1 as <-.
      eapply exclusive_step; [done | exact Hi |]. left. split; [done|]. left. by destruct op.
Qed.

(** A call that is left alone is the definition of the sequential model. *)
Lemma run_returned n b s : run_alone table n (Returned b) s = Done (Returned b) s.
Proof. induction n as [|n IH]; [done|]. cbn [run_alone fw_step]. unfold bind. cbn. exact IH. Qed.

Lemma run_step n p s p' s' :
  fw_step table p s = Done p' s' -> run_alone table (S n) p s = run_alone table n p' s'.
Proof. intros H. cbn [run_alone]. by rewrite (bind_done _ _ _ _ _ H). Qed.

(** A step that is one operation, and what follows it. *)
Lemma run_bind {A} n p (m : M (framework C) A) (k : A -> fw_pc) (f : A -> M (framework C) bool) s :
  (forall s, fw_step table p s = (let* a := m in ret (k a)) s) ->
  (forall a s, run_alone table n (k a) s = (let* b := f a in ret (Returned b)) s) ->
  run_alone table (S n) p s = (let* b := bind m f in ret (Returned b)) s.
Proof.
  intros Hp Hk. cbn [run_alone]. unfold bind at 1. rewrite Hp. unfold bind at 1 2.
  unfold bind at 1. destruct (m s) as [a s1|u]; [|done]. cbn [ret]. apply Hk.
Qed.

Lemma rebracket {A B} (m : M (framework C) A) (k : A -> M (framework C) B) (f : B -> M (framework C) bool) s :
  (let* b := (let* a := m in let* b := k a in f b) in ret (Returned b)) s =
  (let* b := (let* b := (let* a := m in k a) in f b) in ret (Returned b)) s.
Proof. unfold bind. by destruct (m s). Qed.

(** A call that nobody disturbs is the definition of the sequential model. *)
Lemma call_alone op (s : framework C) :
  run_alone table 8 (start_call op) s = (let* b := do_op table op in ret (Returned b)) s.
Proof.
  destruct op as [app|d i|]; cbn [start_call do_op].
  - apply (run_bind _ _ _ (fun b : bool => if b then R_insert app else Returned false)); [done|].
    intros [] s1; [|apply run_returned]. rewrite rebracket.
    apply (run_bind _ _ _ R_store); [done|]. intros r s2.
    apply (run_bind _ _ _ (fun _ => Returned r)); [done|]. intros _ s3. apply run_returned.
  - apply (run_bind _ _ _ (fun _ => I_id i)); [done|]. intros _ s1.
    apply (run_bind _ _ _ (fun _ => I_exchange)); [done|]. intros _ s2.
    apply (run_bind _ _ _ (fun b : bool => if b then I_preInit else Returned false)); [done|].
    intros [] s3; [|apply run_returned].
    apply (run_bind _ _ _ (fun _ => I_init)); [done|]. intros _ s4. rewrite rebracket.
    apply (run_bind _ _ _ (fun code => if code =? SUBSTANCE_CONNECTOR_SUCCESS then I_add_trampoline else Returned false));
      [done|].
    intros code s5. destruct (code =? SUBSTANCE_CONNECTOR_SUCCESS); [|apply run_returned].
    cbn [when]. rewrite <- rebracket.
    apply (run_bind _ _ _ (fun _ => I_postInit)); [done|]. intros _ s6. rewrite <- rebracket.
    apply (run_bind _ _ _ (fun _ => I_store)); [done|]. intros _ s7.
    apply (run_bind _ _ _ (fun _ => Returned true)); done.
  - apply (run_bind _ _ _ (fun b : bool => if b then S_preShutdown else Returned false)); [done|].
    intros [] s1; [|apply run_returned].
    apply (run_bind _ _ _ (fun _ => S_shutdown)); [done|]. intros _ s2.
    apply (run_bind _ _ _ (fun code => if code =? SUBSTANCE_CONNECTOR_SUCCESS then S_postShutdown else Returned false));
      [done|].
    intros code s3. destruct (code =? SUBSTANCE_CONNECTOR_SUCCESS); [|apply run_returned].
    cbn [when]. rewrite <- rebracket.
    apply (run_bind _ _ _ (fun _ => S_store)); [done|]. intros _ s4. rewrite <- rebracket.
    apply (run_bind _ _ _ (fun _ => S_clear_applications)); [done|]. intros _ s5. rewrite <- rebracket.
    apply (run_bind _ _ _ (fun _ => S_clear_features)); [done|]. intros _ s6.
    apply (run_bind _ _ _ (fun _ => Returned true)); [done|]. intros _ s7. apply run_returned.
Qed.

End steps.

(** ** Properties *)

(** C25: Whatever threads call the framework and however their steps interleave,
    at most one of them is between the exchange that lets it in and the store that
    gives the state back, and the state variable says which call that is; a call
    that no other thread disturbs does what the sequential definitions say.  The
    writes outside are the two names, which [init] stores before its exchange,
    and the sets that [shutdown] clears after its store. *)
Theorem framework_calls_are_exclusive {C : Type} (table : substance_connector_function_table C)
    (s : framework C) (n : nat) :
  (forall moves t', fw_threads_run table moves (s, replicate n (Returned false)) = Some t' -> fw_exclusive t') /\
  forall op, run_alone table 8 (start_call op) s = (let* b := do_op table op in ret (Returned b)) s.
Proof.
  split; [|intros op; apply call_alone].
  intros moves t'. apply exclusive_run. constructor; cbn.
  - intros i p st [-> _]%lookup_replicate Hst. discriminate Hst.
  - intros i j p q [-> _]%lookup_replicate _ Hp. by destruct Hp.
Qed.

Lemma framework_calls_are_exclusive_witness :
  exists t', fw_threads_run recording_table
      (Call 0 (Register 50) :: Call 1 (Init (text "B") (text "b")) :: [Step 0; Step 1; Step 1; Step 1; Step 0])
      (idle_framework, replicate 2 (Returned false)) = Some t' /\ fw_exclusive t'.
Proof.
  set (moves := _ :: _). destruct (fw_threads_run recording_table moves _) as [t'|] eqn:E; [|by vm_compute in E].
  exists t'. split; [done|].
  exact (proj1 (framework_calls_are_exclusive recording_table idle_framework 2) moves t' E).
Defined.

(** A library that records the names it is initialised with. *)
Definition naming_table : substance_connector_function_table recorded :=
  FunctionTable _ (ret []) (fun name => modify (fun l => l ++ [(0, None, name)]) ;;; ret SUBSTANCE_CONNECTOR_SUCCESS)
    (ft_shutdown recording_table) (ft_set_allocators recording_table) (ft_write_message recording_table)
    (ft_add_trampoline recording_table) (ft_remove_trampoline recording_table) (ft_open_tcp recording_table)
    (ft_open_unix recording_table) (ft_close_context recording_table) (ft_connect_tcp recording_table)
    (ft_connect_unix recording_table) (ft_broadcast_tcp recording_table) (ft_broadcast_unix recording_table)
    (ft_broadcast_default recording_table) (ft_open_default_tcp recording_table)
    (ft_open_default_unix recording_table) (ft_open_default recording_table).

Definition steps_of (i n : nat) : list fw_move := replicate n (Step i).

(** [init] stores the names before it knows whether it is let in: while one thread
    is in [preInit], another's call is refused, and the library is then
    initialised with the name of the refused one. *)
Lemma refused_init_names_library :
  exists s', fw_threads_run naming_table
      (Call 0 (Init (text "A") (text "a")) :: steps_of 0 3 ++ Call 1 (Init (text "B") (text "b")) :: steps_of 1 3 ++
       steps_of 0 5) (idle_framework, replicate 2 (Returned false)) = Some (s', [Returned true; Returned false]) /\
    connector s' = [(0, None, text "b")] /\ connectionDisplayName s' = text "B".
Proof. eexists. split; [vm_compute; reflexivity|]. split; reflexivity. Qed.

(** [shutdown] gives the state back before it clears the set of applications: an
    application that another thread registers in between is accepted and then
    forgotten. *)
Lemma late_clear_forgets_application :
  exists s', fw_threads_run naming_table
      (Call 0 Shutdown :: steps_of 0 5 ++ Call 1 (Register 50) :: steps_of 1 3 ++ steps_of 0 2)
      (set_startupState CONNECTOR_INITIALIZED idle_framework, replicate 2 (Returned false)) =
        Some (s', [Returned true; Returned true]) /\
    startupState s' = CONNECTOR_SHUTDOWN /\ applications s' = [] /\ featureLevel s' = [].
Proof. eexists. split; [vm_compute; reflexivity|]. split; [|split]; reflexivity. Qed.
