(* ===== verification/FrameworkTests.v ===== *)
(** * The unit tests of the C++ framework

    The programs of [module-cpp/tests], but for the one that counts the calls of
    an application's virtual methods, as definitions over the model of the
    framework. *)

From S2P Require Import Prelude Wire Memory Cpp Uuid Json Schemas MeshSchema FunctionTable Applications.
From S2P Require Import Framework UnitTests.

(** ** [01_test_uuid_compare] *)

Definition connector_fw_test_less_than : Z :=
  let uuid0 := Uuid [0x4d7b79b5; 0xa6bc4a0f; 0xbe84462e; 0x148cf29c] in
  let uuid1 := Uuid [0xedb81e21; 0x11fc434d; 0xaa4c316a; 0xccbd1451] in
  if negb (uuid_less uuid0 uuid1) then 1
  else if uuid_less uuid0 uuid0 then 2
  else if uuid_less uuid1 uuid0 then 3
  else 0.

Definition connector_fw_test_equals : Z :=
  let uuid0 := Uuid [0x7eb8029f; 0x103d407c; 0x9d8de02d; 0xe1d55ca5] in
  let uuid1 := Uuid [0xed9916a6; 0x6cba43cf; 0x8bfc85ad; 0x6f5669c7] in
  let uuid2 := Uuid [0xed9916a6; 0x6cba43cf; 0x8bfc85ad; 0xe1d55ca5] in
  if negb (uuid_equal uuid0 uuid0) then 1
  else if uuid_equal uuid0 uuid1 then 2
  else if uuid_equal uuid1 uuid2 then 3
  else 0.

(** ** [05_test_uuid_string]: the last failure is the result *)

Definition last_failure (checks : list (bool * Z)) : Z :=
  List.fold_left (fun (result : Z) (check : bool * Z) => if fst check then snd check else result) checks 0.

Definition prints_as (u : uuid) (s : list Z) : bool := bool_decide (uuidToString u = s).

Definition connector_fw_test_uuid_to_string : Z :=
  last_failure
    [(negb (prints_as (Uuid [0x4d7b79b5; 0xa6bc4a0f; 0xbe84462e; 0x148cf29c])
              (text "4d7b79b5-a6bc-4a0f-be84-462e148cf29c")), 1);
     (negb (prints_as (Uuid [0x0; 0x0; 0x0; 0x0]) (text "00000000-0000-0000-0000-000000000000")), 2);
     (negb (prints_as (Uuid [0x0000000f; 0xf0000000; 0xf0001000; 0x00000001])
              (text "0000000f-f000-0000-f000-100000000001")), 2)].

(** The left arrow in the source is three bytes. *)
Definition left_arrow : list Z := [226; 134; 144].

Definition reads_as (s : list Z) (u : uuid) : M unit bool :=
  let* v := uuidFromString s in ret (negb (uuid_equal v u)).

Definition connector_fw_test_string_to_uuid : M unit Z :=
  let* r1 := reads_as (text "4d7b79b5-a6bc4a0f-be84462e-148cf29c")
               (Uuid [0x4d7b79b5; 0xa6bc4a0f; 0xbe84462e; 0x148cf29c]) in
  let* r2 := reads_as [] (Uuid [0x0; 0x0; 0x0; 0x0]) in
  let* r3 := reads_as (text "12345678123456781234567812345678")
               (Uuid [0x12345678; 0x12345678; 0x12345678; 0x12345678]) in
  let* r4 := reads_as (text "91e3dfbc-80b8-4b1a-92d5-63ec09ac641a")
               (Uuid [0x91e3dfbc; 0x80b84b1a; 0x92d563ec; 0x09ac641a]) in
  let* r5 := reads_as (text "91e3dfbc-80b8-4b1a-92d5-63ec09ac641a-auiernstauie")
               (Uuid [0x91e3dfbc; 0x80b84b1a; 0x92d563ec; 0x09ac641a]) in
  let* r6 := reads_as (text "91e3dfbc-80b8-4b1a-92d5-63") (Uuid [0x91e3dfbc; 0x80b84b1a; 0x0; 0x0]) in
  let* r7 := reads_as (text "91jjdf" ++ left_arrow ++ text "c-80b8-4b1a-92d5-63ec09ac641a")
               (Uuid [0x91; 0x0; 0x1a92d563; 0xec09ac64]) in
  ret (last_failure [(r1, 1); (r2, 2); (r3, 3); (r4, 4); (r5, 5); (r6, 6); (r7, 7)]).

(** ** [02_test_find_callback], [03_test_register_export] *)

(** [!f (...)] for a function that answers a [bool]. *)
Definition refused {S} (m : M S bool) : M S bool := let* b := m in ret (negb b).

Section callback_tests.
Context {C : Type} {V : Type} {J : Json V}.

(** The address of the test's callback. *)
Definition test_callback : callback := UserCallback 1.

Definition connector_fw_test_add_callback : M (framework C) Z :=
  let id := Uuid [0xe890d6e1; 0xb903421b; 0xb4535127; 0xe6efa174] in
  else_if
    [(refused (bindCallback id [test_callback]), 1);
     (bindCallback id [test_callback], 2);
     (refused (unbindCallback id), 3)] pass.

Definition connector_fw_test_find_callback : M (framework C) Z :=
  let uuid0 := Uuid [0xbabff00d; 0x26f24591; 0xba581d9c; 0x23ffba38] in
  else_if
    [((let* found := findCallbacks uuid0 in ret (negb (length found =? 0)%nat)), 1);
     (refused (bindCallback uuid0 [test_callback]), 2);
     ((let* found := findCallbacks uuid0 in ret (length found =? 0)%nat), 3);
     (refused (unbindCallback uuid0), 4)] pass.

(** [findCallbacks (...)[0]] of an empty vector is undefined. *)
Definition first_callback (id : uuid) : M (framework C) callback :=
  let* found := findCallbacks id in
  match found with f :: _ => ret f | [] => stuck OutOfBounds end.

(** [sbsarApplication] is the object at [this]. *)
Definition connector_fw_test_register_export (this : Z) : M (framework C) Z :=
  let import_callback := UserCallback 2 in
  let update_callback := UserCallback 3 in
  let* a := load_app this in
  store_app this (Application (SbsarApplication import_callback update_callback) (mCallbacks a)) ;;;
  app_preInit this ;;;
  else_if
    [((let* f := first_callback sLoadSbsarId in ret (negb (bool_decide (f = import_callback)))), 1);
     ((let* f := first_callback sUpdateSbsarId in ret (negb (bool_decide (f = update_callback)))), 2);
     (refused (unbindCallback sLoadSbsarId), 3);
     (refused (unbindCallback sUpdateSbsarId), 4)] pass.

End callback_tests.

(** ** Properties *)

Lemma refused_done {S} (m : M S bool) s b s' : m s = Done b s' -> refused m s = Done (negb b) s'.
Proof. intros H. unfold refused. by rewrite (bind_done _ _ _ _ _ H). Qed.

Section runs.
Context {C : Type}.
Implicit Types s : framework C.

Lemma bind_fresh_run s id cs :
  callbackMap s !! id = None ->
  bindCallback id cs s = Done true (set_callbackMap (<[id := cs]> (callbackMap s)) s).
Proof. intros H. unfold bindCallback, bind. cbn [gets]. by rewrite H. Qed.

Lemma bind_used_run s id cs ds : callbackMap s !! id = Some ds -> bindCallback id cs s = Done false s.
Proof. intros H. unfold bindCallback, bind. cbn [gets]. by rewrite H. Qed.

Lemma unbind_used_run s id ds :
  callbackMap s !! id = Some ds ->
  unbindCallback id s = Done true (set_callbackMap (delete id (callbackMap s)) s).
Proof. intros H. unfold unbindCallback, bind. cbn [gets]. by rewrite H. Qed.

Lemma find_run s id : findCallbacks id s = Done (default [] (callbackMap s !! id)) s.
Proof. done. Qed.

Lemma set_callbackMap_twice s m1 m2 : set_callbackMap m2 (set_callbackMap m1 s) = set_callbackMap m2 s.
Proof. done. Qed.
Lemma set_callbackMap_id s : set_callbackMap (callbackMap s) s = s.
Proof. by destruct s. Qed.

(** Binding and unbinding a new identifier leaves nothing behind. *)
Lemma rebound_id s id cs : callbackMap s !! id = None ->
  set_callbackMap (delete id (<[id := cs]> (callbackMap s))) s = s.
Proof. intros H. rewrite delete_insert_id by done. apply set_callbackMap_id. Qed.

Lemma add_callback_run s :
  callbackMap s !! Uuid [0xe890d6e1; 0xb903421b; 0xb4535127; 0xe6efa174] = None ->
  connector_fw_test_add_callback s = Done 0 s.
Proof.
  unfold connector_fw_test_add_callback. set (id := Uuid _). intros H. cbn [else_if].
  set (s1 := set_callbackMap (<[id := [test_callback]]> (callbackMap s)) s).
  assert (H1 : callbackMap s1 !! id = Some [test_callback]) by apply lookup_insert_eq.
  rewrite (bind_done _ _ _ _ _ (refused_done _ _ _ _ (bind_fresh_run s id [test_callback] H))). cbn [negb].
  rewrite (bind_done _ _ _ _ _ (bind_used_run s1 id [test_callback] _ H1)). cbn iota.
  rewrite (bind_done _ _ _ _ _ (refused_done _ _ _ _ (unbind_used_run s1 id _ H1))). cbn [negb].
  unfold s1. cbn [callbackMap set_callbackMap]. by rewrite set_callbackMap_twice, rebound_id.
Qed.

Lemma find_callback_run s :
  callbackMap s !! Uuid [0xbabff00d; 0x26f24591; 0xba581d9c; 0x23ffba38] = None ->
  connector_fw_test_find_callback s = Done 0 s.
Proof.
  unfold connector_fw_test_find_callback. set (id := Uuid _). intros H. cbn [else_if].
  set (s1 := set_callbackMap (<[id := [test_callback]]> (callbackMap s)) s).
  assert (H1 : callbackMap s1 !! id = Some [test_callback]) by apply lookup_insert_eq.
  unfold bind at 1 2. rewrite find_run, H. cbn [default from_option id length negb Nat.eqb ret].
  rewrite (bind_done _ _ _ _ _ (refused_done _ _ _ _ (bind_fresh_run s id [test_callback] H))). cbn [negb].
  unfold bind at 1 2. fold s1. rewrite find_run, H1. cbn [default from_option Datatypes.id length Nat.eqb ret].
  rewrite (bind_done _ _ _ _ _ (refused_done _ _ _ _ (unbind_used_run s1 id _ H1))). cbn [negb].
  unfold s1. cbn [callbackMap set_callbackMap]. by rewrite set_callbackMap_twice, rebound_id.
Qed.

(** The pairs of an application are bound, then taken away again. *)
Lemma register_export_run s this a :
  this <> 0 -> objects s !! this = Some a -> mCallbacks a = [] ->
  callbackMap s !! sLoadSbsarId = None -> callbackMap s !! sUpdateSbsarId = None ->
  exists s', connector_fw_test_register_export this s = Done 0 s' /\ callbackMap s' = callbackMap s.
Proof.
  intros Hthis Ha Hm Hl Hu. unfold connector_fw_test_register_export.
  rewrite (bind_done _ _ _ _ _ (load_app_done s this a Hthis Ha)).
  set (o := Application (SbsarApplication (UserCallback 2) (UserCallback 3)) (mCallbacks a)).
  set (s1 := set_objects (<[this := o]> (objects s)) s).
  rewrite (bind_done (store_app this o) _ s tt s1) by done.
  rewrite (bind_done _ _ _ _ _ (app_preInit_done s1 this o Hthis (lookup_insert_eq _ _ _) Hm)).
  set (m := callbackMap s1 ∪ _). set (s2 := set_callbackMap m _).
  assert (Hm1 : m !! sLoadSbsarId = Some [UserCallback 2])
    by (unfold m; rewrite lookup_union_r by done; reflexivity).
  assert (Hm2 : m !! sUpdateSbsarId = Some [UserCallback 3])
    by (unfold m; rewrite lookup_union_r by done; reflexivity).
  assert (Hfirst : forall id f, m !! id = Some [f] -> first_callback id s2 = Done f s2).
  { intros id f H. unfold first_callback, bind. rewrite find_run. cbn [s2 callbackMap set_callbackMap].
    by rewrite H. }
  cbn [else_if]. unfold bind at 1 2. rewrite (Hfirst _ _ Hm1), bool_decide_eq_true_2 by done. cbn [negb ret].
  unfold bind at 1 2. rewrite (Hfirst _ _ Hm2), bool_decide_eq_true_2 by done. cbn [negb ret].
  rewrite (bind_done _ _ _ _ _ (refused_done _ _ _ _ (unbind_used_run s2 sLoadSbsarId _ Hm1))). cbn [negb].
  set (s3 := set_callbackMap (delete sLoadSbsarId (callbackMap s2)) s2).
  assert (H3 : callbackMap s3 !! sUpdateSbsarId = Some [UserCallback 3])
    by (cbn; rewrite lookup_delete_ne by done; exact Hm2).
  rewrite (bind_done _ _ _ _ _ (refused_done _ _ _ _ (unbind_used_run s3 sUpdateSbsarId _ H3))). cbn [negb].
  eexists. split; [reflexivity|]. cbn [callbackMap set_callbackMap s3 s2].
  apply map_eq. intros k. rewrite !lookup_delete. repeat case_decide; subst; try done.
  unfold m. rewrite lookup_union_l; [done|]. cbn.
  by rewrite !lookup_insert_ne, lookup_empty by done.
Qed.

End runs.

(** The framework's own tests pass: those that compare, print and read
    identifiers, and, from every state of the framework in which their identifiers
    are free, those that bind and find callbacks, which leave the registry as it
    was; a bound identifier is refused a second time, and an application finds
    its callbacks under its own identifiers. *)
Theorem framework_tests_pass {C : Type} (s : framework C) (this : Z) (a : application)
    (Hadd : callbackMap s !! Uuid [0xe890d6e1; 0xb903421b; 0xb4535127; 0xe6efa174] = None)
    (Hfind : callbackMap s !! Uuid [0xbabff00d; 0x26f24591; 0xba581d9c; 0x23ffba38] = None)
    (Hload : callbackMap s !! sLoadSbsarId = None) (Hupdate : callbackMap s !! sUpdateSbsarId = None)
    (Hthis : this <> 0) (Ha : objects s !! this = Some a) (Hnew : mCallbacks a = []) :
  CONNECTOR_TEST_MAIN [ret connector_fw_test_less_than; ret connector_fw_test_equals] tt = Done EXIT_SUCCESS tt /\
  CONNECTOR_TEST_MAIN [ret connector_fw_test_uuid_to_string; connector_fw_test_string_to_uuid] tt =
    Done EXIT_SUCCESS tt /\
  CONNECTOR_TEST_MAIN [connector_fw_test_add_callback; connector_fw_test_find_callback] s = Done EXIT_SUCCESS s /\
  exists s', CONNECTOR_TEST_MAIN [connector_fw_test_register_export this] s = Done EXIT_SUCCESS s' /\
    callbackMap s' = callbackMap s.
Proof.
  split; [reflexivity|]. split; [reflexivity|]. split.
  - assert (E1 : connector_fw_test_add_callback s = Done 0 s) by (by apply add_callback_run).
    assert (E2 : connector_fw_test_find_callback s = Done 0 s) by (by apply find_callback_run).
    unfold CONNECTOR_TEST_MAIN. cbn [test_main].
    rewrite (bind_done _ _ _ _ _ E1), (bind_done _ _ _ _ _ E2). done.
  - destruct (register_export_run s this a) as (s' & E & Hm); [done..|].
    exists s'. split; [|done]. unfold CONNECTOR_TEST_MAIN. cbn [test_main].
    by rewrite (bind_done _ _ _ _ _ E).
Qed.

(** An application object of the program, in an idle framework. *)
Lemma framework_tests_pass_witness :
  exists s', CONNECTOR_TEST_MAIN [connector_fw_test_register_export 100] idle_framework = Done EXIT_SUCCESS s' /\
    callbackMap s' = ∅.
Proof.
  destruct (framework_tests_pass idle_framework 100 (Application (System (UserCallback 7) NullCallback (UserCallback 8)) [])
    eq_refl eq_refl eq_refl eq_refl ltac:(lia) ltac:(reflexivity) eq_refl) as (_ & _ & _ & s' & E & H).
  exists s'. split; [exact E | exact H].
Defined.
