(* ===== verification/DynamicLoad.v ===== *)
(** * Loading the library at run time

    [module-cpp/src/framework/details/dynamicload.cpp], as it is built with
    [SUBSTANCE_CONNECTOR_FRAMEWORK_DYNAMIC_LOAD]: the framework does not link the
    library but finds its function table in a module that the program has
    loaded, and calls through it. *)

From S2P Require Import Prelude Wire Cpp Uuid FunctionTable Applications Framework.

(** ** State

    The library's own state, the static pointer, and what the dynamic loader has
    mapped: the tables by their address. *)
Record loaded {C : Type} := Loaded {
  dl_library : C;
  connectorFunctionTable : Z;
  mapped : gmap Z (substance_connector_function_table C)
}.
Arguments loaded C : clear implicits.
Arguments Loaded {C}.

Section loading.
Context {C : Type}.
(** [dlsym]: the address of a name in a loaded module, null when it has none. *)
Context (dlsym : Z -> list Z -> Z).
Abbreviation process := (framework (loaded C)).

Definition set_library (x : C) (l : loaded C) : loaded C := Loaded x (connectorFunctionTable l) (mapped l).
Definition set_table (x : Z) (l : loaded C) : loaded C := Loaded (dl_library l) x (mapped l).
Definition set_mapped (x : gmap Z (substance_connector_function_table C)) (l : loaded C) : loaded C :=
  Loaded (dl_library l) (connectorFunctionTable l) x.

(** ** [dynamicload.cpp] *)

Definition connectorDynamicLoadAcquireSymbol (module : Z) (name : list Z) : Z := dlsym module name.

Definition initDynamicLoad (module : Z) : M (loaded C) bool :=
  if negb (module =? 0) then
    let symbol := connectorDynamicLoadAcquireSymbol module (text "substance_connector_module_table") in
    if negb (symbol =? 0) then modify (set_table symbol) ;;; ret true
    else ret false
  else ret false.

Definition shutdownDynamicLoad : M (loaded C) bool := modify (set_table 0) ;;; ret true.

(** [CONNECTOR_FRAMEWORK_CALL (fn)]: the member [fn] of what the pointer points
    to. *)
Definition CONNECTOR_FRAMEWORK_CALL {A} (fn : substance_connector_function_table C -> M C A) : M (loaded C) A :=
  fun l =>
    if connectorFunctionTable l =? 0 then Stuck NullDeref
    else match mapped l !! connectorFunctionTable l with
         | Some t => zoom dl_library set_library (fn t) l
         | None => Stuck UseAfterFree
         end.

(** The functions as the framework calls them. *)
Definition dynamic_table : substance_connector_function_table (loaded C) := {|
  ft_version := CONNECTOR_FRAMEWORK_CALL ft_version;
  ft_init name := CONNECTOR_FRAMEWORK_CALL (fun t => ft_init t name);
  ft_shutdown := CONNECTOR_FRAMEWORK_CALL ft_shutdown;
  ft_set_allocators a d := CONNECTOR_FRAMEWORK_CALL (fun t => ft_set_allocators t a d);
  ft_write_message context type message := CONNECTOR_FRAMEWORK_CALL (fun t => ft_write_message t context type message);
  ft_add_trampoline f := CONNECTOR_FRAMEWORK_CALL (fun t => ft_add_trampoline t f);
  ft_remove_trampoline f := CONNECTOR_FRAMEWORK_CALL (fun t => ft_remove_trampoline t f);
  ft_open_tcp port given := CONNECTOR_FRAMEWORK_CALL (fun t => ft_open_tcp t port given);
  ft_open_unix path given := CONNECTOR_FRAMEWORK_CALL (fun t => ft_open_unix t path given);
  ft_close_context context := CONNECTOR_FRAMEWORK_CALL (fun t => ft_close_context t context);
  ft_connect_tcp port given := CONNECTOR_FRAMEWORK_CALL (fun t => ft_connect_tcp t port given);
  ft_connect_unix path given := CONNECTOR_FRAMEWORK_CALL (fun t => ft_connect_unix t path given);
  ft_broadcast_tcp := CONNECTOR_FRAMEWORK_CALL ft_broadcast_tcp;
  ft_broadcast_unix := CONNECTOR_FRAMEWORK_CALL ft_broadcast_unix;
  ft_broadcast_default := CONNECTOR_FRAMEWORK_CALL ft_broadcast_default;
  ft_open_default_tcp given := CONNECTOR_FRAMEWORK_CALL (fun t => ft_open_default_tcp t given);
  ft_open_default_unix given := CONNECTOR_FRAMEWORK_CALL (fun t => ft_open_default_unix t given);
  ft_open_default given := CONNECTOR_FRAMEWORK_CALL (fun t => ft_open_default t given)
|}.

(** [init] of [core.cpp], where loading is not empty: its answer is dropped. *)
Definition init_dynamic (display_name id : list Z) (module : Z) : M process bool :=
  modify (set_connectionDisplayName display_name) ;;;
  modify (set_connectionId id) ;;;
  let* swapped := exchange_startup CONNECTOR_SHUTDOWN CONNECTOR_INIT_STARTED in
  if swapped then
    call (initDynamicLoad module) ;;;
    preInit ;;;
    let* name := gets connectionId in
    let* code := call (ft_init dynamic_table name) in
    let result := code =? SUBSTANCE_CONNECTOR_SUCCESS in
    when result
      (call (ft_add_trampoline dynamic_table cpp_trampoline_address) ;;;
       postInit ;;;
       modify (set_startupState CONNECTOR_INITIALIZED)) ;;;
    ret result
  else ret false.

Definition do_dynamic (module : Z) (op : fw_op) : M process bool :=
  match op with
  | Register app => registerApplication app
  | Init display_name id => init_dynamic display_name id module
  | Shutdown => shutdown dynamic_table
  end.

Fixpoint do_dynamics (module : Z) (ops : list fw_op) : M process (list bool) :=
  match ops with
  | [] => ret []
  | op :: ops' => let* r := do_dynamic module op in let* rs := do_dynamics module ops' in ret (r :: rs)
  end.

(** ** Lemmas *)

Implicit Types s : process.

(** The framework without the loader. *)
Definition erase s : framework C :=
  MkFramework (dl_library (connector s)) (objects s) (callbackMap s) (applications s) (startupState s)
    (featureLevel s) (connectionDisplayName s) (connectionId s).

Lemma erase_inv s : framework_inv (erase s) <-> framework_inv s.
Proof. split; intros []; by constructor. Qed.

Lemma framework_call_done {A} (fn : substance_connector_function_table C -> M C A) l t a c :
  connectorFunctionTable l <> 0 -> mapped l !! connectorFunctionTable l = Some t ->
  fn t (dl_library l) = Done a c -> CONNECTOR_FRAMEWORK_CALL fn l = Done a (set_library c l).
Proof.
  intros H0 Ht Hf. unfold CONNECTOR_FRAMEWORK_CALL, zoom. rewrite (proj2 (Z.eqb_neq _ _) H0), Ht. by rewrite Hf.
Qed.

(** The pointer after loading. *)
Definition table_of (module : Z) (l : loaded C) : Z :=
  if negb (module =? 0) && negb (dlsym module (text "substance_connector_module_table") =? 0)
  then dlsym module (text "substance_connector_module_table") else connectorFunctionTable l.

Lemma init_dynamic_loads s d i module :
  startupState s = CONNECTOR_SHUTDOWN ->
  init_dynamic d i module s =
    init dynamic_table d i (set_connector (set_table (table_of module (connector s)) (connector s)) s).
Proof.
  intros Hst. unfold init_dynamic, init. set (s' := set_connector _ s).
  rewrite (bind_done _ _ s tt (set_connectionDisplayName d s)) by done.
  rewrite (bind_done _ _ s' tt (set_connectionDisplayName d s')) by done.
  set (s1 := set_connectionId i (set_connectionDisplayName d s)).
  set (s1' := set_connectionId i (set_connectionDisplayName d s')).
  rewrite (bind_done _ _ _ tt s1), (bind_done _ _ _ tt s1') by done.
  rewrite (bind_done _ _ _ _ _ (exchange_startup_hit s1 CONNECTOR_SHUTDOWN CONNECTOR_INIT_STARTED Hst)).
  rewrite (bind_done _ _ _ _ _ (exchange_startup_hit s1' CONNECTOR_SHUTDOWN CONNECTOR_INIT_STARTED Hst)).
  assert (Hl : exists b, initDynamicLoad module (connector s) =
    Done b (set_table (table_of module (connector s)) (connector s))).
  { unfold initDynamicLoad, table_of, connectorDynamicLoadAcquireSymbol.
    destruct (negb (module =? 0)); [|exists false; by destruct (connector s)].
    destruct (negb (dlsym _ _ =? 0)); [by exists true | exists false; by destruct (connector s)]. }
  destruct Hl as [b Hl]. rewrite (bind_done _ _ _ b (set_startupState CONNECTOR_INIT_STARTED s1')); [done|].
  unfold call, zoom. cbn. by rewrite Hl.
Qed.

(** ** The two builds *)

(** The program passes [module], which exports the table [t], and the framework
    has loaded it or will do so before it calls anything. *)
Record ready (module : Z) (t : substance_connector_function_table C) (I : C -> Prop) s : Prop := {
  rd_module : module <> 0;
  rd_symbol : dlsym module (text "substance_connector_module_table") <> 0;
  rd_mapped : mapped (connector s) !! dlsym module (text "substance_connector_module_table") = Some t;
  rd_pointer : startupState s = CONNECTOR_SHUTDOWN \/
    connectorFunctionTable (connector s) = dlsym module (text "substance_connector_module_table");
  rd_inv : framework_inv s;
  rd_library : I (dl_library (connector s))
}.

(** Both builds answer the same, and what is left of the one without the loader is
    the other. *)
Definition agrees (module : Z) (t : substance_connector_function_table C) (op : fw_op) s
    (r : bool) (s' : process) : Prop :=
  do_dynamic module op s = Done r s' /\ do_op t op (erase s) = Done r (erase s').

Lemma agree_init module t (I : C -> Prop) d i s :
  library_ok t I -> ready module t I s ->
  exists r s', agrees module t (Init d i) s r s' /\ ready module t I s' /\
    forall a, is_Some (objects s !! a) <-> is_Some (objects s' !! a).
Proof.
  intros [Hl1 _ Hl3] [Hm Hsym Hmap Hptr Hi HI]. pose proof (sorted_NoDup _ (fi_sorted _ Hi)) as Hnd.
  pose proof (proj2 (erase_inv s) Hi) as Hie. unfold agrees. cbn [do_dynamic do_op].
  set (p := dlsym module _) in *.
  destruct (decide (startupState s = CONNECTOR_SHUTDOWN)) as [Hst|Hst].
  2:{ exists false, (set_connectionId i (set_connectionDisplayName d s)).
      split; [split|]; [|by rewrite init_refused|split; [constructor; try done; by apply names_inv | done]].
      unfold init_dynamic. rewrite (bind_done _ _ s tt (set_connectionDisplayName d s)) by done.
      rewrite (bind_done _ _ _ tt (set_connectionId i (set_connectionDisplayName d s))) by done.
      by rewrite (bind_done _ _ _ _ _ (exchange_startup_miss (set_connectionId i (set_connectionDisplayName d s)) _ _ Hst)). }
  rewrite init_dynamic_loads by done.
  assert (Ht : table_of module (connector s) = p).
  { unfold table_of. fold p. by rewrite (proj2 (Z.eqb_neq _ _) Hm), (proj2 (Z.eqb_neq _ _) Hsym). }
  rewrite Ht. set (s0 := set_connector _ s). assert (Hi0 : framework_inv s0) by (by destruct Hi; constructor).
  destruct (Hl1 i _ HI) as (code & c1 & Hc & HI1).
  assert (Hdc : ft_init dynamic_table i (connector s0) = Done code (set_library c1 (connector s0)))
    by (by apply (framework_call_done _ _ t)).
  assert (Hsome : forall st c a, is_Some (objects s !! a) <-> is_Some (objects (started c st d i s0) !! a)).
  { intros. by apply is_Some_alter_all_iff. }
  destruct (decide (code = SUBSTANCE_CONNECTOR_SUCCESS)) as [->|Hne].
  - destruct (Hl3 cpp_trampoline_address _ HI1) as (r & c2 & Htr & HI2).
    assert (Hdt : ft_add_trampoline dynamic_table cpp_trampoline_address (set_library c1 (connector s0)) =
      Done r (set_library c2 (set_library c1 (connector s0)))) by (by apply (framework_call_done _ _ t)).
    eexists _, _. split; [split; [by eapply init_succeeds | exact (init_succeeds t (erase s) d i c1 r c2 Hie Hst Hc Htr)]|].
    split; [|by apply Hsome]. constructor; try done; [by right | by apply started_inv].
  - eexists _, _. split; [split; [by eapply init_fails | exact (init_fails t (erase s) d i code c1 Hie Hst Hc Hne)]|].
    split; [|by apply Hsome]. constructor; try done; [by right | by apply started_inv].
Qed.

Lemma agree_shutdown module t (I : C -> Prop) s :
  library_ok t I -> ready module t I s ->
  exists r s', agrees module t Shutdown s r s' /\ ready module t I s' /\
    forall a, is_Some (objects s !! a) <-> is_Some (objects s' !! a).
Proof.
  intros [_ Hl2 _] [Hm Hsym Hmap Hptr Hi HI]. pose proof (sorted_NoDup _ (fi_sorted _ Hi)) as Hnd.
  pose proof (proj2 (erase_inv s) Hi) as Hie. unfold agrees. cbn [do_dynamic do_op].
  set (p := dlsym module _) in *.
  destruct (decide (startupState s = CONNECTOR_INITIALIZED)) as [Hst|Hst].
  2:{ exists false, s. split; [by split; apply shutdown_refused|]. split; [by constructor | done]. }
  assert (Hp : connectorFunctionTable (connector s) = p) by (destruct Hptr; [congruence | done]).
  destruct (Hl2 _ HI) as (code & c1 & Hc & HI1).
  assert (Hdc : ft_shutdown dynamic_table (connector s) = Done code (set_library c1 (connector s)))
    by (apply (framework_call_done _ _ t); by rewrite ?Hp).
  destruct (decide (code = SUBSTANCE_CONNECTOR_SUCCESS)) as [->|Hne].
  - eexists _, _. split; [split; [by eapply shutdown_succeeds | exact (shutdown_succeeds t (erase s) c1 Hie Hst Hc)]|].
    split; [|by intros a; apply is_Some_alter_all_iff]. constructor; try done; [by left | by apply emptied_inv].
  - eexists _, _. split; [split; [by eapply shutdown_fails | exact (shutdown_fails t (erase s) code c1 Hie Hst Hc Hne)]|].
    split; [|by intros a; apply is_Some_alter_all_iff]. constructor; try done; [by right | by apply unbound_inv].
Qed.

Lemma agree_register module t (I : C -> Prop) app s :
  ready module t I s -> app = 0 \/ is_Some (objects s !! app) ->
  exists r s', agrees module t (Register app) s r s' /\ ready module t I s' /\
    forall a, is_Some (objects s !! a) <-> is_Some (objects s' !! a).
Proof.
  intros Hr Hv. pose proof Hr as [Hm Hsym Hmap Hptr Hi HI]. unfold agrees. cbn [do_dynamic do_op].
  destruct (decide (startupState s = CONNECTOR_SHUTDOWN)) as [Hst|Hst].
  2:{ exists false, s. split; [by split; apply register_refused|]. done. }
  destruct (decide (app = 0 \/ app ∈ applications s)) as [Ha|Ha].
  { exists false, s. split; [by split; apply register_again|]. done. }
  destruct Hv as [->|[o Ho]]; [tauto|].
  eexists _, _. split; [split|]; [apply (register_new s app o); tauto | apply (register_new (erase s) app o); tauto |].
  split; [|done]. constructor; try done. apply registered_inv; tauto.
Qed.

Lemma agree_step module t (I : C -> Prop) op s :
  library_ok t I -> ready module t I s -> op_valid (objects s) op ->
  exists r s', agrees module t op s r s' /\ ready module t I s' /\
    forall a, is_Some (objects s !! a) <-> is_Some (objects s' !! a).
Proof.
  intros Hl Hr Hv. destruct op as [app|d i|]; [by apply agree_register | by apply agree_init | by apply agree_shutdown].
Qed.

(** ** A pointer that leads nowhere *)

(** The pointer is null, or its module is no longer mapped. *)
Definition broken_pointer (l : loaded C) (e : ub) : Prop :=
  (connectorFunctionTable l = 0 /\ e = NullDeref) \/
  (connectorFunctionTable l <> 0 /\ mapped l !! connectorFunctionTable l = None /\ e = UseAfterFree).

Lemma broken_call s e A (fn : substance_connector_function_table C -> M C A) :
  broken_pointer (connector s) e -> call (CONNECTOR_FRAMEWORK_CALL fn) s = Stuck e.
Proof.
  unfold call, zoom, CONNECTOR_FRAMEWORK_CALL. intros [[H0 ->]|(H0 & Hm & ->)]; [by rewrite H0|].
  by rewrite (proj2 (Z.eqb_neq _ _) H0), Hm.
Qed.

Lemma broken_init s d i module e :
  framework_inv s -> startupState s = CONNECTOR_SHUTDOWN ->
  module = 0 \/ dlsym module (text "substance_connector_module_table") = 0 ->
  broken_pointer (connector s) e -> init_dynamic d i module s = Stuck e.
Proof.
  intros Hi Hst Hno Hp. rewrite init_dynamic_loads by done.
  assert (table_of module (connector s) = connectorFunctionTable (connector s)) as ->.
  { destruct Hno as [-> | Hz]; [done|]. unfold table_of. by rewrite Hz, andb_false_r. }
  replace (set_connector _ s) with s by (by destruct s as [[] ? ? ? ? ? ? ?]).
  rewrite init_prefix by done. by apply bind_stuck, broken_call.
Qed.

Lemma call_keeps_pointer {A} (fn : substance_connector_function_table C -> M C A) l a l' :
  CONNECTOR_FRAMEWORK_CALL fn l = Done a l' -> connectorFunctionTable l' = connectorFunctionTable l.
Proof.
  unfold CONNECTOR_FRAMEWORK_CALL, zoom. destruct (_ =? 0); [done|]. destruct (mapped l !! _) as [t|]; [|done].
  destruct (fn t (dl_library l)); [|done]. by intros [= _ <-].
Qed.

(** Stopping the framework does not reset the pointer. *)
Lemma shutdown_keeps_pointer s r s' :
  framework_inv s -> shutdown dynamic_table s = Done r s' ->
  connectorFunctionTable (connector s') = connectorFunctionTable (connector s).
Proof.
  intros Hi. destruct (decide (startupState s = CONNECTOR_INITIALIZED)) as [Hst|Hst];
    [|rewrite shutdown_refused by done; by intros [= _ <-]].
  destruct (ft_shutdown dynamic_table (connector s)) as [code l'|u] eqn:Hc.
  - pose proof (call_keeps_pointer _ _ _ _ Hc) as Hp. destruct (decide (code = SUBSTANCE_CONNECTOR_SUCCESS)) as [->|Hne].
    + rewrite (shutdown_succeeds dynamic_table s l') by done. by intros [= _ <-].
    + rewrite (shutdown_fails dynamic_table s code l') by done. by intros [= _ <-].
  - rewrite shutdown_prefix by done. unfold bind at 1. unfold call, zoom. cbn [connector unbound]. by rewrite Hc.
Qed.

(** ** Properties *)

(** C27: Loading the library at run time makes no difference.  When the program
    passes a module that exports the library's table, every sequence of
    registrations, starts and stops answers exactly what the build that is linked
    with that library answers, and leaves the framework and the library in the
    same state; while the framework runs, so does every function that is called
    through the pointer. *)
Theorem dynamic_build_is_static module t (I : C -> Prop) (ops : list fw_op) s
    (Hlib : library_ok t I) (Hready : ready module t I s) (Hvalid : Forall (op_valid (objects s)) ops) :
  exists rs s', do_dynamics module ops s = Done rs s' /\ do_ops t ops (erase s) = Done rs (erase s') /\
    (startupState s' <> CONNECTOR_SHUTDOWN ->
     forall A (fn : substance_connector_function_table C -> M C A) a c,
       fn t (dl_library (connector s')) = Done a c ->
       CONNECTOR_FRAMEWORK_CALL fn (connector s') = Done a (set_library c (connector s'))).
Proof.
  revert s Hready Hvalid. induction ops as [|op ops IH]; intros s Hready Hvalid.
  - exists [], s. split; [done|]. split; [done|]. intros Hst A fn a c Hfn.
    destruct Hready as [_ Hsym Hmap [H|Hptr] _ _]; [done|].
    apply (framework_call_done _ _ t); by rewrite ?Hptr.
  - apply Forall_cons in Hvalid as [Hv Hvalid].
    destruct (agree_step module t I op s Hlib Hready Hv) as (r & s1 & [H1 H2] & Hready1 & Hsome).
    destruct (IH s1 Hready1) as (rs & s2 & H3 & H4 & H5).
    { eapply Forall_impl; [exact Hvalid|]. intros [app|d i|]; cbn; [|done|done]. by rewrite Hsome. }
    exists (r :: rs), s2. split; [|split; [|done]].
    + cbn [do_dynamics]. by rewrite (bind_done _ _ _ _ _ H1), (bind_done _ _ _ _ _ H3).
    + cbn [do_ops]. by rewrite (bind_done _ _ _ _ _ H2), (bind_done _ _ _ _ _ H4).
Qed.

(** C28: Loading that fails is not reported.  When no module is given, or one without
    the table, the pointer stays what it was.  If nothing was loaded before, that is
    null; and as stopping the framework does not reset it, it dangles once the
    program has unloaded the module it was found in.  In both cases [init] does
    not answer false but calls through the pointer, as does each of the other
    functions that need the library, and any call of a member of the table.  What
    needs no library still answers: an application can be registered, and
    [shutdown], with nothing started, answers false. *)
Theorem failed_load_is_fatal s (d i : list Z) (module : Z) (e : ub)
    (Hinv : framework_inv s) (Hst : startupState s = CONNECTOR_SHUTDOWN)
    (Hno : module = 0 \/ dlsym module (text "substance_connector_module_table") = 0)
    (Hptr : broken_pointer (connector s) e) :
  init_dynamic d i module s = Stuck e /\
  version dynamic_table s = Stuck e /\
  (forall port given, openTcpConnection dynamic_table port given s = Stuck e /\
     establishTcpConnection dynamic_table port given s = Stuck e) /\
  (forall given, openDefaultTcp dynamic_table given s = Stuck e /\
     openDefaultUnix dynamic_table given s = Stuck e /\ openDefault dynamic_table given s = Stuck e) /\
  broadcastTcp dynamic_table s = Stuck e /\ broadcastUnix dynamic_table s = Stuck e /\
  broadcastDefault dynamic_table s = Stuck e /\
  (forall A (fn : substance_connector_function_table C -> M C A), call (CONNECTOR_FRAMEWORK_CALL fn) s = Stuck e) /\
  shutdown dynamic_table s = Done false s /\
  (forall app, app = 0 \/ is_Some (objects s !! app) -> exists s',
     registerApplication app s = Done (negb (bool_decide (app = 0 \/ app ∈ applications s))) s' /\
     connector s' = connector s) /\
  (forall s0 r s1, framework_inv s0 -> shutdown dynamic_table s0 = Done r s1 ->
     connectorFunctionTable (connector s1) = connectorFunctionTable (connector s0)).
Proof.
  assert (Hcall : forall A (fn : substance_connector_function_table C -> M C A), call (CONNECTOR_FRAMEWORK_CALL fn) s = Stuck e)
    by (intros; by apply broken_call).
  split; [by apply broken_init|].
  unfold openTcpConnection, establishTcpConnection, openDefaultTcp, openDefaultUnix, openDefault,
    broadcastTcp, broadcastUnix, broadcastDefault, succeeded, succeeds.
  repeat split; try (intros; apply bind_stuck); try apply Hcall.
  - apply shutdown_refused. congruence.
  - intros app Hv. case_bool_decide as Ha; [exists s; split; [by apply register_again | done]|].
    destruct Hv as [->|[o Ho]]; [tauto|]. eexists. split; [apply (register_new s app o); tauto | done].
  - intros s0 r s1. apply shutdown_keeps_pointer.
Qed.

End loading.

(** ** An example *)

(** Module 9 exports the table at address 900. *)
Definition sample_dlsym (module : Z) (name : list Z) : Z := if module =? 9 then 900 else 0.

Definition loading_process (pointer : Z) : framework (loaded recorded) :=
  MkFramework (Loaded [] pointer {[900 := recording_table]}) two_objects ∅ [] CONNECTOR_SHUTDOWN [] [] [].

Lemma loading_process_inv pointer : framework_inv (loading_process pointer).
Proof. apply erase_inv. exact idle_framework_inv. Qed.

Lemma loading_process_ready pointer : ready sample_dlsym 9 recording_table (fun _ => True) (loading_process pointer).
Proof. constructor; try done; [by left | apply loading_process_inv]. Qed.

Lemma dynamic_build_is_static_witness :
  exists s', do_dynamics sample_dlsym 9 some_calls (loading_process 0) =
      Done [true; true; false; true; false; true; false] s' /\
    do_ops recording_table some_calls idle_framework = Done [true; true; false; true; false; true; false] (erase s').
Proof.
  destruct (dynamic_build_is_static sample_dlsym 9 recording_table (fun _ => True) some_calls (loading_process 0)
    recording_table_ok (loading_process_ready 0)) as (rs & s' & H1 & H2 & _).
  { repeat (apply Forall_cons; split; [first [exact I | right; eexists; vm_compute; reflexivity]|]). constructor. }
  exists s'. assert (rs = [true; true; false; true; false; true; false]) as ->; [|by split].
  vm_compute in H2. by injection H2 as <- _.
Defined.

(** The state after a module was loaded and unloaded again. *)
Definition unloaded_process : framework (loaded recorded) :=
  set_connector (set_mapped ∅ (connector (loading_process 900))) (loading_process 900).

Lemma failed_load_is_fatal_witness :
  init_dynamic sample_dlsym (text "A") (text "a") 0 (loading_process 0) = Stuck NullDeref /\
  broadcastUnix dynamic_table (loading_process 0) = Stuck NullDeref /\
  version dynamic_table unloaded_process = Stuck UseAfterFree /\
  shutdown dynamic_table unloaded_process = Done false unloaded_process.
Proof.
  destruct (failed_load_is_fatal sample_dlsym (loading_process 0) (text "A") (text "a") 0 NullDeref
    (loading_process_inv 0) eq_refl (or_introl eq_refl) (or_introl (conj eq_refl eq_refl)))
    as (Hi & _ & _ & _ & _ & Hb & _).
  assert (Hu : framework_inv unloaded_process) by (apply erase_inv; exact idle_framework_inv).
  destruct (failed_load_is_fatal sample_dlsym unloaded_process (text "A") (text "a") 0 UseAfterFree
    Hu eq_refl (or_introl eq_refl)) as (_ & Hv & _ & _ & _ & _ & _ & _ & Hs & _); [right; by repeat split|].
  split; [exact Hi|]. split; [exact Hb|]. split; [exact Hv | exact Hs].
Defined.
