(* ===== verification/Integration.v ===== *)
(** * The framework on the library

    The core of the C++ framework ([Framework]) with the library's own functions
    behind the function table ([FunctionTable]): what a program that starts and
    stops the framework does to the library. *)

From S2P Require Import Prelude Wire Memory Strings UintQueue LockedQueue Message World Callbacks.
From S2P Require Import ContextQueue Contexts ReadThread Dispatch Lifecycle Shutdown.
From S2P Require Import Cpp FunctionTable Applications Framework.

Section integration.
Context {E : Type} {P : Platform E} {B : Bindings E}.
Implicit Types w : world E.

(** ** The library after a start through the table *)

(** [m] is [m0] with the block [old] of the old name gone, and with a copy of the
    name [s] at [n] and the two queues of identifiers. *)
Record started_memory (m0 : memory) (old : Z) (s : list Z) (m : memory) (n : Z) (p1 p2 : queue_ptr) : Prop := {
  sm_wf : mem_wf m;
  sm_config : mem_config_eq m0 m;
  sm_contexts : id_queue p1 (seqZ 0 32) (2 ^ 32 - 34);
  sm_available : id_queue p2 [] (2 ^ 32 - 2);
  sm_name : owns m n (BStr (s ++ [0]));
  sm_nodup : NoDup (n :: queue_blocks p1 ++ queue_blocks p2);
  sm_owned : forall a, a ∈ queue_blocks p1 ++ queue_blocks p2 -> exists b, owns m a b;
  sm_fresh : forall a, a ∈ n :: queue_blocks p1 ++ queue_blocks p2 -> delete old (heap m0) !! a = None;
  sm_other : forall a, a ∉ n :: queue_blocks p1 ++ queue_blocks p2 -> heap m !! a = delete old (heap m0) !! a
}.

(** The caller's copy of the name is there during the call only. *)
Lemma table_init w ts old s (v : list Z) :
  shut_down w old -> cstring s ->
  exists m n p1 p2, ft_init (substance_connector_module_table v) s (w, ts) =
      Done SUBSTANCE_CONNECTOR_SUCCESS (initialised_world (env w) m n p1 p2 (trace w), idle_threads ts) /\
    started_memory (mem w) (application_name w) s m n p1 p2.
Proof.
  intros [Hwf Hs Hst Hqs Hav Hold] Hcs. set (p := next_addr (mem w)).
  set (m0 := alloc_with (BStr (s ++ [0])) (mem w)). set (w0 := set_mem m0 w).
  assert (Hwf0 : mem_wf m0) by (by apply alloc_with_wf).
  pose proof (mem_wf_fresh _ Hwf) as Hfresh. fold p in Hfresh.
  assert (Hne : application_name w <> p).
  { intros Heq. destruct old as [o|]; cbn in Hold; [|destruct Hwf; lia]. destruct Hold as [_ Ho].
    unfold points_to_string, owns in Ho. by rewrite Heq, Hfresh in Ho. }
  assert (Hold0 : slot_string m0 (application_name w) old).
  { destruct old as [o|]; [|done]. destruct Hold as [Ho Hp]. split; [done|]. by apply alloc_with_owns_other. }
  assert (Hp0 : owns m0 p (BStr (s ++ [0]))) by (by apply alloc_with_owns).
  destruct (init_spec w0 ts old p s) as (m1 & p1 & p2 & m & Hinit & Hrel & Hq1 & Hq2 & Hadd); try done.
  pose proof Hrel as [Hwf1 Hc1 Hn1 Hh1]. set (n := next_addr m1) in *.
  pose proof (added_trans _ _ _ _ _ (added_alloc (BStr (s ++ [0])) m1 Hwf1 (mem_serving_config _ _ Hc1 Hs)) Hadd) as Hadd1.
  cbn [app] in Hadd1. fold n in Hadd1. set (blocks := n :: queue_blocks p1 ++ queue_blocks p2) in *.
  assert (Hp1 : owns m1 p (BStr (s ++ [0])))
    by (apply (released_owns _ _ _ _ _ Hrel); [intros Hin%list_elem_of_singleton; by apply Hne | done]).
  assert (Hpb : p ∉ blocks)
    by (intros Hin; unfold owns in Hp1; by rewrite (added_fresh _ _ _ Hadd1 p Hin) in Hp1).
  assert (Hm1 : forall a, heap m1 !! a = delete (application_name w) (<[p := Cell (connector_memory_allocate (mem w)) (BStr (s ++ [0]))]> (heap (mem w))) !! a).
  { intros a. rewrite Hh1, lookup_delete. apply decide_ext. rewrite list_elem_of_singleton. split; [by intros -> | by intros <-]. }
  exists (free_cell p m), n, p1, p2. split.
  - cbn. unfold with_threads, with_c_str. cbn [fst snd].
    rewrite (bind_done _ _ w p w0) by done. rewrite (bind_done _ _ _ _ _ Hinit). done.
  - constructor; try done.
    + apply free_cell_wf. by destruct Hadd1.
    + etransitivity; [apply (alloc_with_config (BStr (s ++ [0])))|]. etransitivity; [exact Hc1|]. transitivity m; [by destruct Hadd1 | done].
    + apply free_cell_owns_other; [intros ->; apply Hpb, elem_of_cons; by left|].
      apply (added_owns _ _ _ _ _ Hadd), alloc_with_owns, (mem_serving_config _ _ Hc1 Hs).
    + by destruct Hadd1.
    + intros a Ha. destruct (added_owned _ _ _ Hadd a Ha) as [b Hb]. exists b. apply free_cell_owns_other; [|done].
      intros ->. apply Hpb, elem_of_cons. by right.
    + intros a Ha. pose proof (added_fresh _ _ _ Hadd1 a Ha) as Hf. rewrite Hm1 in Hf.
      rewrite lookup_delete in *. case_decide; [done|]. rewrite lookup_insert_ne in Hf by (intros ->; done). done.
    + intros a Ha. cbn. rewrite lookup_delete. case_decide as Hpa.
      * subst a. rewrite lookup_delete_ne by done. by rewrite Hfresh.
      * rewrite (added_other _ _ _ Hadd1) by done. rewrite Hm1, !lookup_delete. case_decide; [done|].
        by apply lookup_insert_ne.
Qed.

(** ** The library while the framework runs *)

Lemma idle_threads_assigned ts : assigned_ids (read_threads (idle_threads ts)) = [].
Proof.
  cbn. generalize 0%nat. unfold assigned_ids. induction (read_threads ts) as [|t l IH] using rev_ind; intros k; [done|].
  rewrite imap_app, map_app, concat_app. cbn. by rewrite (IH k), app_nil_r.
Qed.

Lemma idle_threads_wf ts : Forall thread_wf (read_threads ts) -> Forall thread_wf (read_threads (idle_threads ts)).
Proof.
  intros H. apply Forall_lookup_2. intros i t Ht. cbn in Ht. rewrite list_lookup_imap in Ht.
  destruct (read_threads ts !! i) as [t0|] eqn:E0; [|done]. injection Ht as <-.
  destruct (Forall_lookup_1 _ _ _ _ H E0). by constructor; cbn; [| | lia].
Qed.

(** The initialised library with the one trampoline [f]. *)
Definition hooked_world w (f : Z) (m : memory) (n : Z) (p1 p2 : queue_ptr) : world E :=
  set_trampoline_front (next_addr m)
    (set_mem (alloc_with (BTramp f 0) m) (initialised_world (env w) m n p1 p2 (trace w))).

Definition hooked (f : Z) (m : memory) : holdings := Holdings [(next_addr m, f)] [] [] [] [].

Lemma hooked_in_use w ts m0 old s m n p1 p2 f :
  started_memory m0 old s m n p1 p2 -> mem_serving m0 -> cstring s -> f <> 0 ->
  Forall thread_wf (read_threads ts) -> write_thread_shutdown_flag ts = 0 -> read_thread_shutdown_flag ts = 0 ->
  in_use (hooked_world w f m n p1 p2) (idle_threads ts) (hooked f m) (Some s).
Proof.
  intros [Hwf Hcfg Hq1 Hq2 Hname Hnd Hown _ _] Hs Hcs Hf Hts Hf1 Hf2. set (w2 := hooked_world w f m n p1 p2).
  assert (Hsm : mem_serving m) by (by apply (mem_serving_config m0)).
  pose proof (mem_wf_fresh _ Hwf) as Hfresh. set (node := next_addr m) in *.
  assert (Hne : forall a b, owns m a b -> a <> node) by (intros a b Ho ->; unfold owns in Ho; by rewrite Hfresh in Ho).
  assert (Hkeep : forall a b, owns m a b -> owns (mem w2) a b) by (intros a b Ho; by apply alloc_with_owns_other).
  apply NoDup_cons in Hnd as [Hn Hnd].
  assert (Hheld : held_blocks w2 (hooked f m) = (queue_blocks p1 ++ queue_blocks p2) ++ [node])
    by (unfold held_blocks; by rewrite <- app_assoc).
  assert (Hempty : lq_repr (mem w2) empty_queue []) by (constructor; try reflexivity; constructor).
  constructor; rewrite ?idle_threads_assigned, ?Hheld; try done.
  - by apply idle_threads_wf.
  - constructor; [constructor | by intros i ?%elem_of_nil | by intros i ?%elem_of_nil | by intros i j ?%elem_of_nil].
  - constructor; cbn [hd_trampolines hooked map fst].
    + by apply alloc_with_wf.
    + done.
    + split; [done|]. split; [done|]. exists 0. split; [by apply alloc_with_owns | done].
    + apply NoDup_singleton.
    + intros i p Hi. by apply elem_of_nil in Hi.
  - destruct Hq1 as (q & -> & _). by exists q.
  - destruct Hq2 as (q & -> & _). by exists q.
  - intros a Ha. destruct (Hown a Ha) as [b Hb]. eauto.
  - apply NoDup_app. split; [done|]. split; [|apply NoDup_singleton]. intros a Ha ->%list_elem_of_singleton.
    destruct (Hown _ Ha) as [b Hb]. by apply (Hne _ _ Hb).
  - intros i Hi. by apply elem_of_nil in Hi.
  - split; [done|]. apply (Hkeep _ _ Hname).
  - intros _. cbn. rewrite elem_of_app, list_elem_of_singleton. intros [?|Heq]; [done|]. by apply (Hne _ _ Hname).
Qed.

(** What is left of the heap when the library is shut down again. *)
Lemma hooked_gone w f m0 old s m n p1 p2 m2 ps :
  started_memory m0 old s m n p1 p2 ->
  gone ps (mem (hooked_world w f m n p1 p2)) m2 ->
  (forall a, a ∈ ps <-> a ∈ queue_blocks p1 ++ queue_blocks p2 \/ a = next_addr m) ->
  heap m2 = <[n := Cell (connector_memory_free m0) (BStr (s ++ [0]))]> (delete old (heap m0)).
Proof.
  intros Hm [_ _ Hh] Hps. pose proof (mem_wf_fresh _ (sm_wf _ _ _ _ _ _ _ Hm)) as Hfresh.
  pose proof (sm_nodup _ _ _ _ _ _ _ Hm) as Hnd. apply NoDup_cons in Hnd as [Hn _].
  pose proof (sm_name _ _ _ _ _ _ _ Hm) as Hname. unfold owns in Hname.
  rewrite (config_free _ _ (sm_config _ _ _ _ _ _ _ Hm)) in Hname.
  assert (Hnn : n <> next_addr m) by congruence.
  apply map_eq. intros a. rewrite Hh, lookup_insert. case_decide as Ha; rewrite Hps in Ha.
  - rewrite decide_False by (intros ->; tauto). symmetry. destruct Ha as [Ha| ->].
    + apply (sm_fresh _ _ _ _ _ _ _ Hm), elem_of_cons. by right.
    + rewrite <- Hfresh. destruct (decide (next_addr m ∈ n :: queue_blocks p1 ++ queue_blocks p2)) as [Hin|Hno];
        [|symmetry; by apply (sm_other _ _ _ _ _ _ _ Hm)].
      rewrite (sm_fresh _ _ _ _ _ _ _ Hm) by done. by rewrite Hfresh.
  - cbn. rewrite lookup_insert_ne by (intros Heq; apply Ha; auto). case_decide as Hna; [by subst|].
    apply (sm_other _ _ _ _ _ _ _ Hm). rewrite elem_of_cons. intros [?|?]; [congruence | tauto].
Qed.

Context {Q : QuietBindings E}.

(** C10: The framework drives the library.  A framework whose library is shut down (or
    was never initialised) starts: the library is initialised under the
    framework's name, with all contexts free and the framework's trampoline as its
    only one.  Stopping it again gives a library that is shut down as before, so
    that the two can be repeated for ever: all threads are joined, and the heap is
    the old one with the name of the last start replaced by one copy of the
    name. *)
Theorem framework_drives_library (s : framework (library E)) (v d i : list Z) w (ts : threads) (old : option (list Z))
    (Hinv : framework_inv s) (Hst : startupState s = CONNECTOR_SHUTDOWN) (Hlib : connector s = (w, ts))
    (Hdown : shut_down w old) (Hname : cstring i) (Hmalloc : connector_memory_free (mem w) = malloc_id)
    (Hts : Forall thread_wf (read_threads ts))
    (Hflags : write_thread_shutdown_flag ts = 0 /\ read_thread_shutdown_flag ts = 0) :
  let table := substance_connector_module_table v in
  exists s1 w1 w2 ts2, init table d i s = Done true s1 /\ connector s1 = (w1, idle_threads ts) /\
    module_state w1 = SUBSTANCE_CONNECTOR_STATE_INIT_FINISHED /\ contexts_inv w1 (seqZ 0 32) (2 ^ 32 - 34) /\
    trampolines_repr w1 [cpp_trampoline_address] /\ points_to_string (mem w1) (application_name w1) i /\
    shutdown table s1 = Done true (MkFramework (w2, ts2) (objects s) ∅ [] CONNECTOR_SHUTDOWN [] d i) /\
    shut_down w2 (Some i) /\ joined ts2 /\
    heap (mem w2) = <[application_name w2 := Cell malloc_id (BStr (i ++ [0]))]>
                      (delete (application_name w) (heap (mem w))).
Proof.
  intros table. destruct Hflags as [Hf1 Hf2]. pose proof (sd_serving _ _ Hdown) as Hs.
  destruct (table_init w ts old i v Hdown Hname) as (m & n & p1 & p2 & Hinit & Hm). fold table in Hinit.
  assert (Hsm : mem_serving m) by (by apply (mem_serving_config (mem w)); [apply (sm_config _ _ _ _ _ _ _ Hm)|]).
  set (f := cpp_trampoline_address). set (w1 := hooked_world w f m n p1 p2).
  pose proof (hooked_in_use w ts _ _ _ _ _ _ _ f Hm Hs Hname ltac:(done) Hts Hf1 Hf2) as Huse. fold w1 in Huse.
  assert (Hadd : ft_add_trampoline table f (initialised_world (env w) m n p1 p2 (trace w), idle_threads ts) =
    Done SUBSTANCE_CONNECTOR_SUCCESS (w1, idle_threads ts)).
  { cbn. unfold on_world, zoom. cbn [fst snd]. unfold substance_connector_add_trampoline.
    rewrite when_initialised_passes by done. by rewrite add_trampoline_done by (done || apply Hm). }
  destruct (shutdown_in_use_run _ _ _ _ Huse) as (ts2 & w3 & m2 & tr & Hrun & Hjoined & _ & _ & Hgone).
  rewrite idle_threads_assigned in Hgone. cbn [map] in Hgone. rewrite app_nil_r in Hgone.
  set (w2 := after_shutdown w1 w3 m2 tr) in *.
  assert (Hshut : ft_shutdown table (w1, idle_threads ts) = Done SUBSTANCE_CONNECTOR_SUCCESS (w2, ts2))
    by (cbn; unfold with_threads; cbn [fst snd]; by rewrite Hrun).
  rewrite <- Hlib in Hinit.
  destruct (cycle_run table s d i _ _ _ _ Hinv Hst Hinit Hadd Hshut) as [Hstart Hstop].
  exists (started (w1, idle_threads ts) CONNECTOR_INITIALIZED d i s), w1, w2, ts2.
  pose proof (iu_notifying _ _ _ _ Huse) as Hnf. pose proof (iu_name _ _ _ _ Huse) as [_ Hown].
  split; [exact Hstart|]. split; [done|]. split; [done|].
  split; [apply fresh_contexts_inv; [apply Hnf | done | done | apply Hm]|].
  split; [exact (notifying_repr w1 _ _ Hnf)|]. split; [exact Hown|]. split; [exact Hstop|].
  assert (Hps : forall a, a ∈ ((context_blocks w1 ++ []) ++ available_blocks w1) ++ map fst (hd_trampolines (hooked f m)) <->
    a ∈ queue_blocks p1 ++ queue_blocks p2 \/ a = next_addr m).
  { intros a. change (map fst (hd_trampolines (hooked f m))) with [next_addr m].
    by rewrite app_nil_r, elem_of_app, list_elem_of_singleton. }
  assert (Hfree : connector_memory_free (mem w1) = malloc_id)
    by (rewrite <- Hmalloc; apply (sm_config _ _ _ _ _ _ _ Hm)).
  split; [|split; [done|]].
  - apply (after_shutdown_down w1 _ _ _ _ _ _ _ Huse Hgone); [|done]. intros Hn Hin. apply Hps in Hin.
    apply (iu_own_name _ _ _ _ Huse Hn). unfold held_blocks. rewrite idle_threads_assigned. cbn [map].
    rewrite !elem_of_app in *. cbn. rewrite list_elem_of_singleton. tauto.
  - rewrite <- Hmalloc. exact (hooked_gone _ _ _ _ _ _ _ _ _ _ _ Hm Hgone Hps).
Qed.

End integration.

(** ** A concrete program

    The two registered applications of [Framework], on a library that was never
    initialised, in the simulated environment. *)

Definition attached_framework : framework (library simulation) :=
  MkFramework (uninitialised_world, no_threads) (objects registered_framework) (callbackMap registered_framework)
    (applications registered_framework) (startupState registered_framework) (featureLevel registered_framework)
    (connectionDisplayName registered_framework) (connectionId registered_framework).

Lemma attached_framework_inv : framework_inv attached_framework.
Proof. destruct registered_framework_inv. by constructor. Qed.

Lemma framework_drives_library_witness :
  exists s1 w1 s2 w2 ts2, init (substance_connector_module_table (text "1.0")) (text "A") (text "a") attached_framework = Done true s1 /\
    connector s1 = (w1, idle_threads no_threads) /\ trampolines_repr w1 [cpp_trampoline_address] /\
    shutdown (substance_connector_module_table (text "1.0")) s1 = Done true s2 /\
    connector s2 = (w2, ts2) /\ shut_down w2 (Some (text "a")).
Proof.
  destruct (framework_drives_library attached_framework (text "1.0") (text "A") (text "a") uninitialised_world no_threads None
    attached_framework_inv eq_refl eq_refl uninitialised_shut_down ltac:(repeat constructor; lia) eq_refl
    ltac:(repeat constructor; cbn; unfold SUBSTANCE_CONNECTOR_READ_CONTEXTS; lia) (conj eq_refl eq_refl))
    as (s1 & w1 & w2 & ts2 & Hinit & Hc & _ & _ & Htr & _ & Hshut & Hdown & _).
  exists s1, w1. eexists _, w2, ts2. split; [exact Hinit|]. split; [exact Hc|]. split; [exact Htr|].
  split; [exact Hshut|]. split; [reflexivity | exact Hdown].
Defined.
