(* ===== verification/Qt.v ===== *)
(** * The module for Qt

    [src/module-qt]: the classes [ConnectorSystem], [MeshApplication] and
    [SbsarApplication], which wrap the applications of the framework in objects
    of Qt, and [ConnectorModule], which wraps its core.  Of each class one object
    at a time is the instance that emits signals for the messages of the
    framework. *)

From S2P Require Import Prelude Wire Cpp Uuid Json Schemas MeshSchema FunctionTable Applications Framework.

(** ** What is used of Qt

    A [QString] is made of a C string, and gives its text as a byte array. *)
Class QtStrings (Q : Type) := {
  QString : list Z -> Q;
  toUtf8 : Q -> list Z
}.

(** Text in UTF-8 survives the conversion. *)
Class QtStringLaws (Q : Type) `{QtStrings Q} := {
  utf8 : list Z -> Prop;
  utf8_kept s : utf8 s -> toUtf8 (QString s) = s
}.

(** A [std::string] made of the pointer that [constData] answers. *)
Fixpoint constData (bytes : list Z) : list Z :=
  match bytes with
  | [] => []
  | b :: bytes' => if b =? 0 then [] else b :: constData bytes'
  end.

(** ** Data *)

(** The classes, all derived from [ConnectorApplication]. *)
Inductive qt_class : Set := ConnectorSystem | QtMeshApplication | QtSbsarApplication.

#[export] Instance qt_class_eq_dec : EqDecision qt_class.
Proof. solve_decision. Defined.

(** [mApplication] is the pointer of the [std::unique_ptr]. *)
Record qt_object := QtObject { qt_kind : qt_class; mApplication : Z }.

Inductive qt_signal : Set :=
  | recvConnectionEstablished | recvConnectionClosed | updateConnectionContext
  | recvLoadMesh | mRecvMeshConfigRequest | recvMeshExportConfig
  | recvLoadSbsar | recvUpdateSbsar.

(** The objects of Qt by their address, the static variable [instance] of each
    class, the next address at which [std::make_unique] puts an object, and the
    signals so far, oldest first: the object, the signal and its arguments. *)
Record qt_state {Q : Type} := QtState {
  widgets : gmap Z qt_object;
  system_instance : Z;
  mesh_instance : Z;
  sbsar_instance : Z;
  next_application : Z;
  emitted : list (Z * qt_signal * Z * Q)
}.
Arguments qt_state Q : clear implicits.

Definition instance_of {Q} (k : qt_class) (q : qt_state Q) : Z :=
  match k with
  | ConnectorSystem => system_instance q
  | QtMeshApplication => mesh_instance q
  | QtSbsarApplication => sbsar_instance q
  end.

Definition set_instance {Q} (k : qt_class) (x : Z) (q : qt_state Q) : qt_state Q :=
  match k with
  | ConnectorSystem => QtState _ (widgets q) x (mesh_instance q) (sbsar_instance q) (next_application q) (emitted q)
  | QtMeshApplication => QtState _ (widgets q) (system_instance q) x (sbsar_instance q) (next_application q) (emitted q)
  | QtSbsarApplication => QtState _ (widgets q) (system_instance q) (mesh_instance q) x (next_application q) (emitted q)
  end.
Definition set_widgets {Q} (x : gmap Z qt_object) (q : qt_state Q) : qt_state Q :=
  QtState _ x (system_instance q) (mesh_instance q) (sbsar_instance q) (next_application q) (emitted q).
Definition set_next_application {Q} (x : Z) (q : qt_state Q) : qt_state Q :=
  QtState _ (widgets q) (system_instance q) (mesh_instance q) (sbsar_instance q) x (emitted q).
Definition set_emitted {Q} (x : list (Z * qt_signal * Z * Q)) (q : qt_state Q) : qt_state Q :=
  QtState _ (widgets q) (system_instance q) (mesh_instance q) (sbsar_instance q) (next_application q) x.

(** The static functions that are installed as callbacks, and their addresses. *)
Inductive qt_callback : Set :=
  | recvConnectionEstablishedCallback | recvConnectionClosedCallback | updateConnectionContextCallback
  | recvLoadMeshCallback | recvRequestMeshConfigCallback | recvMeshConfigCallback
  | recvLoadSbsarCallback | recvUpdateSbsarCallback.

Definition qt_callbacks : list qt_callback :=
  [recvConnectionEstablishedCallback; recvConnectionClosedCallback; updateConnectionContextCallback;
   recvLoadMeshCallback; recvRequestMeshConfigCallback; recvMeshConfigCallback;
   recvLoadSbsarCallback; recvUpdateSbsarCallback].

Definition address_of (f : qt_callback) : Z :=
  match f with
  | recvConnectionEstablishedCallback => 1
  | recvConnectionClosedCallback => 2
  | updateConnectionContextCallback => 3
  | recvLoadMeshCallback => 4
  | recvRequestMeshConfigCallback => 5
  | recvMeshConfigCallback => 6
  | recvLoadSbsarCallback => 7
  | recvUpdateSbsarCallback => 8
  end.
Definition callback_at (a : Z) : option qt_callback :=
  List.find (fun f => address_of f =? a) qt_callbacks.
Definition static_callback (f : qt_callback) : callback := UserCallback (address_of f).

(** ** The state beside the library's

    The statics of the module lie beside the state [C] of the library, whose
    functions do not touch them. *)
Section beside.
Context {C Q : Type}.

Definition on_connector {A} (m : M C A) : M (C * qt_state Q) A := zoom fst (fun c p => (c, snd p)) m.

Definition beside (t : substance_connector_function_table C) :
    substance_connector_function_table (C * qt_state Q) := {|
  ft_version := on_connector (ft_version t);
  ft_init name := on_connector (ft_init t name);
  ft_shutdown := on_connector (ft_shutdown t);
  ft_set_allocators a d := on_connector (ft_set_allocators t a d);
  ft_write_message context type message := on_connector (ft_write_message t context type message);
  ft_add_trampoline f := on_connector (ft_add_trampoline t f);
  ft_remove_trampoline f := on_connector (ft_remove_trampoline t f);
  ft_open_tcp port given := on_connector (ft_open_tcp t port given);
  ft_open_unix path given := on_connector (ft_open_unix t path given);
  ft_close_context context := on_connector (ft_close_context t context);
  ft_connect_tcp port given := on_connector (ft_connect_tcp t port given);
  ft_connect_unix path given := on_connector (ft_connect_unix t path given);
  ft_broadcast_tcp := on_connector (ft_broadcast_tcp t);
  ft_broadcast_unix := on_connector (ft_broadcast_unix t);
  ft_broadcast_default := on_connector (ft_broadcast_default t);
  ft_open_default_tcp given := on_connector (ft_open_default_tcp t given);
  ft_open_default_unix given := on_connector (ft_open_default_unix t given);
  ft_open_default given := on_connector (ft_open_default t given)
|}.

End beside.

(** ** The objects *)

Section objects.
Context {C Q : Type} {S : QtStrings Q}.
Abbreviation process := (framework (C * qt_state Q)).

Definition qt (s : process) : qt_state Q := snd (connector s).
Definition set_qt (q : qt_state Q) (s : process) : process := set_connector (fst (connector s), q) s.
Definition modify_qt (f : qt_state Q -> qt_state Q) : M process unit := modify (fun s => set_qt (f (qt s)) s).

(** Dereferencing a [ConnectorApplication *]. *)
Definition load_widget (this : Z) : M process qt_object := fun s =>
  if this =? 0 then Stuck NullDeref
  else match widgets (qt s) !! this with Some o => Done o s | None => Stuck UseAfterFree end.
Definition store_widget (this : Z) (o : qt_object) : M process unit :=
  modify_qt (fun q => set_widgets (<[this := o]> (widgets q)) q).

Definition load_instance (k : qt_class) : M process Z := gets (fun s => instance_of k (qt s)).
(** [instance.compare_exchange_strong (expected, desired)]. *)
Definition exchange_instance (k : qt_class) (expected desired : Z) : M process bool :=
  let* current := load_instance k in
  if current =? expected then modify_qt (set_instance k desired) ;;; ret true else ret false.

(** [std::make_unique<...> ()]. *)
Definition make_unique (a : application) : M process Z :=
  let* p := gets (fun s => next_application (qt s)) in
  modify_qt (set_next_application (p + 1)) ;;;
  store_app p a ;;;
  ret p.
(** The destructors of the applications do nothing; a null pointer is not
    deleted. *)
Definition delete_application (p : Z) : M process unit :=
  if p =? 0 then ret tt
  else load_app p ;;; modify (fun s => set_objects (delete p (objects s)) s).

(** [mApplication = ...]: the pointer changes before the old object is
    deleted. *)
Definition assign_mApplication (this p : Z) : M process unit :=
  let* o := load_widget this in
  store_widget this (QtObject (qt_kind o) p) ;;;
  delete_application (mApplication o).

(** The constructors pass [parent] on, and that of the base class drops it. *)
Definition ConnectorApplication_new (k : qt_class) (parent : Z) : qt_object := QtObject k 0.

(** [delete this]: the destructors of the classes are empty, that of the base
    class destroys [mApplication]. *)
Definition destroy (this : Z) : M process unit :=
  let* o := load_widget this in
  delete_application (mApplication o) ;;;
  modify_qt (fun q => set_widgets (delete this (widgets q)) q).

(** ** Signals *)

(** [Q_EMIT this->signal (context, text)]. *)
Definition Q_EMIT (this : Z) (signal : qt_signal) (context : Z) (t : Q) : M process unit :=
  load_widget this ;;;
  modify_qt (fun q => set_emitted (emitted q ++ [(this, signal, context, t)]) q).

(** The test of a static callback, and what it does when the test succeeds: the
    variable is read a second time. *)
Definition has_instance (k : qt_class) : M process bool :=
  let* i := load_instance k in ret (negb (i =? 0)).
Definition emit_on_instance (k : qt_class) (signal : qt_signal) (context : Z) (message : list Z) : M process unit :=
  let* i := load_instance k in
  Q_EMIT i signal context (QString message).

Definition callback_class (f : qt_callback) : qt_class :=
  match f with
  | recvConnectionEstablishedCallback | recvConnectionClosedCallback
  | updateConnectionContextCallback => ConnectorSystem
  | recvLoadMeshCallback | recvRequestMeshConfigCallback | recvMeshConfigCallback => QtMeshApplication
  | recvLoadSbsarCallback | recvUpdateSbsarCallback => QtSbsarApplication
  end.
Definition callback_signal (f : qt_callback) : qt_signal :=
  match f with
  | recvConnectionEstablishedCallback => recvConnectionEstablished
  | recvConnectionClosedCallback => recvConnectionClosed
  | updateConnectionContextCallback => updateConnectionContext
  | recvLoadMeshCallback => recvLoadMesh
  | recvRequestMeshConfigCallback => mRecvMeshConfigRequest
  | recvMeshConfigCallback => recvMeshExportConfig
  | recvLoadSbsarCallback => recvLoadSbsar
  | recvUpdateSbsarCallback => recvUpdateSbsar
  end.

(** The body that the eight static callbacks share; the identifier is not
    used. *)
Definition static_callback_body (f : qt_callback) (context : Z) (uuid : uuid) (message : list Z) : M process unit :=
  let* there := has_instance (callback_class f) in
  when there (emit_on_instance (callback_class f) (callback_signal f) context message).

(** The functions behind the pointers of the process: those of this module, and
    the others of the program. *)
Definition qt_user_callback (other : Z -> Z -> uuid -> list Z -> X process unit)
    (f context : Z) (type : uuid) (message : list Z) : X process unit :=
  match callback_at f with
  | Some cb => lift (static_callback_body cb context type message)
  | None => other f context type message
  end.

(** ** The methods *)

(** Writing the members of the framework's object, through the pointer that
    [static_cast] answers. *)
Definition set_members (p : Z) (f : app_class -> app_class) : M process unit :=
  let* a := load_app p in
  store_app p (Application (f (app_members a)) (mCallbacks a)).

Definition ConnectorSystem_initialize (this : Z) : M process unit :=
  let* swapped := exchange_instance ConnectorSystem 0 this in
  when swapped
    (let* p := make_unique new_System in
     assign_mApplication this p ;;;
     let* o := load_widget this in
     set_members (mApplication o) (fun _ =>
       System (static_callback recvConnectionEstablishedCallback) (static_callback recvConnectionClosedCallback)
         (static_callback updateConnectionContextCallback))).

(** [mRecvUpdateMesh] is not set. *)
Definition MeshApplication_initialize (this : Z) : M process unit :=
  let* swapped := exchange_instance QtMeshApplication 0 this in
  when swapped
    (let* p := make_unique new_MeshApplication in
     assign_mApplication this p ;;;
     let* o := load_widget this in
     set_members (mApplication o) (fun c =>
       let updateMesh := match c with MeshApplication _ u _ _ => u | _ => NullCallback end in
       MeshApplication (static_callback recvLoadMeshCallback) updateMesh
         (static_callback recvMeshConfigCallback) (static_callback recvRequestMeshConfigCallback))).

Definition SbsarApplication_initialize (this : Z) : M process unit :=
  let* swapped := exchange_instance QtSbsarApplication 0 this in
  when swapped
    (let* p := make_unique new_SbsarApplication in
     assign_mApplication this p ;;;
     let* o := load_widget this in
     set_members (mApplication o) (fun _ =>
       SbsarApplication (static_callback recvLoadSbsarCallback) (static_callback recvUpdateSbsarCallback))).

Definition ConnectorSystem_shutdown (this : Z) : M process unit :=
  let* i := load_instance ConnectorSystem in
  when (i =? this)
    (assign_mApplication this 0 ;;;
     exchange_instance ConnectorSystem this 0 ;;; ret tt).
Definition MeshApplication_shutdown (this : Z) : M process unit :=
  let* i := load_instance QtMeshApplication in
  when (i =? this)
    (assign_mApplication this 0 ;;;
     exchange_instance QtMeshApplication this 0 ;;; ret tt).
Definition SbsarApplication_shutdown (this : Z) : M process unit :=
  let* i := load_instance QtSbsarApplication in
  when (i =? this)
    (assign_mApplication this 0 ;;;
     exchange_instance QtSbsarApplication this 0 ;;; ret tt).

(** The virtual methods, called through a pointer. *)
Definition qt_initialize (this : Z) : M process unit :=
  let* o := load_widget this in
  match qt_kind o with
  | ConnectorSystem => ConnectorSystem_initialize this
  | QtMeshApplication => MeshApplication_initialize this
  | QtSbsarApplication => SbsarApplication_initialize this
  end.
Definition qt_shutdown (this : Z) : M process unit :=
  let* o := load_widget this in
  match qt_kind o with
  | ConnectorSystem => ConnectorSystem_shutdown this
  | QtMeshApplication => MeshApplication_shutdown this
  | QtSbsarApplication => SbsarApplication_shutdown this
  end.

(** *** Sending *)

Context (table : substance_connector_function_table C).
Context {V : Type} {J : Json V}.

(** [if (application != nullptr) ...] *)
Definition with_application (this : Z) (m : X process unit) : X process unit :=
  let? o := lift (load_widget this) in
  xwhen (negb (mApplication o =? 0)) m.

Definition qt_sendLoadMesh (this context : Z) (message : Q) : X process unit :=
  with_application this (sendLoadMesh (beside table) context (constData (toUtf8 message))).
Definition qt_sendLoadMesh_schema (this context : Z) (schema : send_to_schema) : X process unit :=
  with_application this (sendLoadMesh_schema (beside table) context schema).
Definition qt_sendRequestMeshConfig (this context : Z) (message : Q) : X process unit :=
  with_application this (sendRequestMeshConfig (beside table) context (constData (toUtf8 message))).
Definition qt_sendRequestMeshConfig_schema (this context : Z) (schema : send_mesh_config_request_schema) :
    X process unit :=
  with_application this (sendRequestMeshConfig_schema (beside table) context schema).
Definition qt_sendMeshExportConfig (this context : Z) (message : Q) : X process unit :=
  with_application this (sendMeshExportConfig (beside table) context (constData (toUtf8 message))).
Definition qt_sendMeshExportConfig_schema (this context : Z) (schema : mesh_export_schema) : X process unit :=
  with_application this (sendMeshExportConfig_schema (beside table) context schema).
Definition qt_sendLoadSbsar_schema (this context : Z) (schema : send_to_schema) : X process unit :=
  with_application this (sendLoadSbsar_schema (beside table) context schema).
Definition qt_sendLoadSbsar (this context : Z) (message : Q) : X process unit :=
  with_application this (sendLoadSbsar (beside table) context (constData (toUtf8 message))).

(** ** [ConnectorModule] *)

Definition ConnectorModule_version : M process Q :=
  let* v := version (beside table) in ret (QString v).
Definition ConnectorModule_init (applicationName : list Z) : M process bool :=
  init_one_name (beside table) applicationName.
Definition ConnectorModule_shutdown : M process bool := shutdown (beside table).
Definition ConnectorModule_registerApplication (application : Z) : M process bool :=
  let* o := load_widget application in
  registerApplication (mApplication o).
Definition ConnectorModule_openTcpConnection (port : Z) (given : bool) : M process (bool * option Z) :=
  openTcpConnection (beside table) port given.
Definition ConnectorModule_openDefaultTcp (given : bool) : M process (bool * option Z) :=
  openDefaultTcp (beside table) given.
Definition ConnectorModule_broadcastTcp : M process bool := broadcastTcp (beside table).

(** ** What a program does with the module *)

Inductive qt_op : Type :=
  | Construct (k : qt_class) (this parent : Z)
  | Initialize (this : Z)
  | ShutDown (this : Z)
  | Destroy (this : Z)
  | RegisterApplication (this : Z)
  | ModuleInit (applicationName : list Z)
  | ModuleShutdown.

Definition do_qt (op : qt_op) : M process bool :=
  match op with
  | Construct k this parent => store_widget this (ConnectorApplication_new k parent) ;;; ret true
  | Initialize this => qt_initialize this ;;; ret true
  | ShutDown this => qt_shutdown this ;;; ret true
  | Destroy this => destroy this ;;; ret true
  | RegisterApplication this => ConnectorModule_registerApplication this
  | ModuleInit name => ConnectorModule_init name
  | ModuleShutdown => ConnectorModule_shutdown
  end.

End objects.

(** ** What a state of the module is *)

(** The members of the framework's object behind an initialised object. *)
Definition qt_members (k : qt_class) : app_class :=
  match k with
  | ConnectorSystem =>
      System (static_callback recvConnectionEstablishedCallback) (static_callback recvConnectionClosedCallback)
        (static_callback updateConnectionContextCallback)
  | QtMeshApplication =>
      MeshApplication (static_callback recvLoadMeshCallback) NullCallback
        (static_callback recvMeshConfigCallback) (static_callback recvRequestMeshConfigCallback)
  | QtSbsarApplication =>
      SbsarApplication (static_callback recvLoadSbsarCallback) (static_callback recvUpdateSbsarCallback)
  end.

Lemma qt_members_inj k k' : qt_members k = qt_members k' -> k = k'.
Proof. by destruct k, k'. Qed.

Section invariant.
Context {C Q : Type} {S : QtStrings Q}.
Abbreviation process := (framework (C * qt_state Q)).
Implicit Types s : process.

(** Of each class at most one object has an application; it is the instance, and
    its callbacks are those of the module.  There is no instance without. *)
Record qt_inv s : Prop := {
  qi_next : 0 < next_application (qt s);
  qi_fresh p : is_Some (objects s !! p) -> p < next_application (qt s);
  qi_null : widgets (qt s) !! 0 = None;
  qi_instance k : instance_of k (qt s) = 0 \/
    exists p, widgets (qt s) !! instance_of k (qt s) = Some (QtObject k p) /\ p <> 0;
  qi_owner this k p : widgets (qt s) !! this = Some (QtObject k p) -> p <> 0 ->
    instance_of k (qt s) = this /\ is_Some (objects s !! p) /\ class_at (objects s) p = qt_members k
}.

Lemma load_widget_done s this o :
  qt_inv s -> widgets (qt s) !! this = Some o -> load_widget this s = Done o s.
Proof.
  intros Hi Ho. unfold load_widget. destruct (Z.eqb_spec this 0) as [->|_]; [|by rewrite Ho].
  by rewrite (qi_null _ Hi) in Ho.
Qed.

Lemma widget_not_null s this o : qt_inv s -> widgets (qt s) !! this = Some o -> this <> 0.
Proof. intros Hi Ho ->. by rewrite (qi_null _ Hi) in Ho. Qed.

Lemma set_instance_same k x (q : qt_state Q) : instance_of k (set_instance k x q) = x.
Proof. by destruct k. Qed.
Lemma set_instance_other k k' x (q : qt_state Q) :
  k <> k' -> instance_of k' (set_instance k x q) = instance_of k' q.
Proof. by destruct k, k'. Qed.
Lemma set_instance_widgets k x (q : qt_state Q) : widgets (set_instance k x q) = widgets q.
Proof. by destruct k. Qed.
Lemma set_instance_next k x (q : qt_state Q) : next_application (set_instance k x q) = next_application q.
Proof. by destruct k. Qed.

(** The state after an object became the instance. *)
Definition initialised (k : qt_class) (this : Z) s : process :=
  let p := next_application (qt s) in
  set_objects (<[p := Application (qt_members k) []]> (objects s))
    (set_qt (set_instance k this (set_next_application (p + 1)
              (set_widgets (<[this := QtObject k p]> (widgets (qt s))) (qt s)))) s).

Lemma initialize_done s this k p :
  qt_inv s -> widgets (qt s) !! this = Some (QtObject k p) ->
  qt_initialize this s = Done tt (if instance_of k (qt s) =? 0 then initialised k this s else s).
Proof.
  intros Hi Ho. pose proof (widget_not_null _ _ _ Hi Ho) as H0. pose proof (qi_next _ Hi) as Hnext.
  unfold qt_initialize. rewrite (bind_done _ _ _ _ _ (load_widget_done _ _ _ Hi Ho)). cbn [qt_kind].
  destruct (Z.eqb_spec (instance_of k (qt s)) 0) as [Hinst|Hinst].
  - assert (p = 0) as ->.
    { destruct (Z.eq_dec p 0) as [|Hp]; [done|]. destruct (qi_owner _ Hi _ _ _ Ho Hp) as [Heq _]. congruence. }
    destruct s as [[c [ws i1 i2 i3 n em]] objs cm apps st fl d i]. cbn in Hinst, Ho, Hnext.
    assert (Hn : (n =? 0) = false) by lia. apply Z.eqb_neq in H0.
    destruct k; cbn in Hinst; subst; unfold ConnectorSystem_initialize, MeshApplication_initialize,
      SbsarApplication_initialize, exchange_instance, load_instance, make_unique, assign_mApplication, set_members,
      store_app, store_widget, modify_qt, load_widget, load_app, when, bind, modify, gets; cbn;
      rewrite H0, Ho; cbn; rewrite lookup_insert_eq; cbn; rewrite Hn, lookup_insert_eq; cbn;
      by rewrite insert_insert_eq.
  - assert (Hx : forall k', k' = k -> exchange_instance k' 0 this s = Done false s).
    { intros k' ->. unfold exchange_instance, bind, load_instance, gets. by rewrite (proj2 (Z.eqb_neq _ _) Hinst). }
    destruct k; unfold ConnectorSystem_initialize, MeshApplication_initialize, SbsarApplication_initialize;
      by rewrite (bind_done _ _ _ _ _ (Hx _ eq_refl)).
Qed.

(** The state after an instance gave up its application. *)
Definition given_up (k : qt_class) (this p : Z) s : process :=
  set_objects (delete p (objects s))
    (set_qt (set_instance k 0 (set_widgets (<[this := QtObject k 0]> (widgets (qt s))) (qt s))) s).

Lemma shutdown_done s this k p :
  qt_inv s -> widgets (qt s) !! this = Some (QtObject k p) ->
  qt_shutdown this s = Done tt (if instance_of k (qt s) =? this then given_up k this p s else s).
Proof.
  intros Hi Ho. pose proof (widget_not_null _ _ _ Hi Ho) as H0.
  unfold qt_shutdown. rewrite (bind_done _ _ _ _ _ (load_widget_done _ _ _ Hi Ho)). cbn [qt_kind].
  destruct (Z.eqb_spec (instance_of k (qt s)) this) as [Hinst|Hinst].
  - assert (Hp : p <> 0).
    { destruct (qi_instance _ Hi k) as [Hz|(p' & Hw & Hp')]; [congruence|]. rewrite Hinst, Ho in Hw. by injection Hw as <-. }
    destruct (qi_owner _ Hi _ _ _ Ho Hp) as (_ & [a Ha] & _).
    destruct s as [[c [ws i1 i2 i3 n em]] objs cm apps st fl d i]. cbn in Hinst, Ho, Ha.
    apply Z.eqb_neq in H0. apply Z.eqb_neq in Hp.
    destruct k; cbn in Hinst; subst; unfold ConnectorSystem_shutdown, MeshApplication_shutdown,
      SbsarApplication_shutdown, exchange_instance, load_instance, assign_mApplication, delete_application,
      store_widget, modify_qt, load_widget, load_app, when, bind, modify, gets; cbn; rewrite Z.eqb_refl; cbn; rewrite H0, Ho; cbn;
      rewrite Hp; cbn; rewrite Ha; cbn; by rewrite Z.eqb_refl.
  - assert (Hx : forall k', k' = k -> load_instance k' s = Done (instance_of k (qt s)) s) by (by intros k' ->).
    apply Z.eqb_neq in Hinst.
    destruct k; unfold ConnectorSystem_shutdown, MeshApplication_shutdown, SbsarApplication_shutdown;
      rewrite (bind_done _ _ _ _ _ (Hx _ eq_refl)); by rewrite Hinst.
Qed.

(** The framework does not notice objects that are not registered. *)
Lemma framework_inv_objects s objs q :
  framework_inv s -> (forall a, a ∈ applications s -> objs !! a = objects s !! a) ->
  (forall a o, objs !! a = Some o -> a ∉ applications s -> mCallbacks o = []) ->
  framework_inv (set_objects objs (set_qt q s)).
Proof.
  intros Hi Hin Hout.
  assert (Hclass : forall a, a ∈ applications s -> class_at objs a = class_at (objects s) a)
    by (intros a Ha; unfold class_at; by rewrite Hin).
  assert (Hb : bindings objs (applications s) = bindings (objects s) (applications s)).
  { unfold bindings. do 2 f_equal. apply map_ext_in. intros a Ha. by rewrite Hclass by (by apply list_elem_of_In). }
  constructor; cbn -[bindings].
  - apply Hi.
  - intros a Ha. rewrite Hin by done. by apply (fi_objects _ Hi).
  - apply Hi.
  - rewrite (fi_features _ Hi). apply reflexive_eq. f_equal. apply map_ext_in. intros a Ha. unfold features_at.
    by rewrite Hclass by (by apply list_elem_of_In).
  - by rewrite Hb, (fi_callbacks _ Hi).
  - intros a o Ho. destruct (decide (a ∈ applications s)) as [Ha|Ha].
    + apply (fi_pairs _ Hi a o). by rewrite <- Hin.
    + rewrite (bool_decide_false _ Ha), andb_false_r. by apply (Hout a).
Qed.

Lemma fresh_not_registered s a :
  qt_inv s -> framework_inv s -> next_application (qt s) <= a -> a ∉ applications s.
Proof.
  intros Hq Hi Ha Hin. destruct (fi_objects _ Hi a Hin) as [_ Hs]. pose proof (qi_fresh _ Hq a Hs). lia.
Qed.

Lemma initialised_inv s this k p :
  qt_inv s -> framework_inv s -> widgets (qt s) !! this = Some (QtObject k p) -> instance_of k (qt s) = 0 ->
  qt_inv (initialised k this s) /\ framework_inv (initialised k this s).
Proof.
  intros Hq Hi Ho Hinst. pose proof (widget_not_null _ _ _ Hq Ho) as H0. pose proof (qi_next _ Hq) as Hn.
  set (n := next_application (qt s)) in *. split.
  - constructor; unfold initialised; cbn [qt connector set_objects set_qt set_connector snd objects]; fold n;
      rewrite ?set_instance_next, ?set_instance_widgets; cbn [next_application set_next_application set_widgets widgets].
    + lia.
    + intros a. rewrite lookup_insert_is_Some. intros [<-|[_ Ha]]; [lia|]. pose proof (qi_fresh _ Hq a Ha). unfold n. lia.
    + by rewrite lookup_insert_ne, (qi_null _ Hq).
    + intros k'. destruct (decide (k = k')) as [<-|Hk].
      * rewrite set_instance_same, lookup_insert_eq. right. exists n. split; [done | lia].
      * rewrite set_instance_other by done. destruct (qi_instance _ Hq k') as [Hz|(p' & Hw & Hp')]; [by left|].
        right. exists p'. split; [|done]. change (instance_of k' _) with (instance_of k' (qt s)).
        rewrite lookup_insert_ne; [done|]. intros Heq. rewrite <- Heq, Ho in Hw. congruence.
    + intros this' k' p' Hw Hp'. apply lookup_insert_Some in Hw as [[<- Heq]|[Hne Hw]].
      * injection Heq as <- <-. rewrite set_instance_same. split; [done|]. unfold class_at.
        rewrite lookup_insert_eq. split; [by eexists | done].
      * destruct (qi_owner _ Hq _ _ _ Hw Hp') as (Hi' & Hs & Hc). pose proof (qi_fresh _ Hq _ Hs).
        rewrite set_instance_other by (intros <-; rewrite Hinst in Hi'; subst this'; by rewrite (qi_null _ Hq) in Hw).
        split; [done|]. unfold class_at in *. rewrite lookup_insert_ne by (unfold n; lia). done.
  - apply framework_inv_objects; [done | |].
    + intros a Ha. apply lookup_insert_ne. intros <-. revert Ha. apply fresh_not_registered; [done | done | lia].
    + intros a o Ha Hreg. apply lookup_insert_Some in Ha as [[_ <-]|[_ Ha]]; [done|].
      by rewrite (fi_pairs _ Hi a o Ha), (bool_decide_false _ Hreg), andb_false_r.
Qed.

Lemma given_up_inv s this k p :
  qt_inv s -> framework_inv s -> widgets (qt s) !! this = Some (QtObject k p) ->
  instance_of k (qt s) = this -> p ∉ applications s ->
  qt_inv (given_up k this p s) /\ framework_inv (given_up k this p s).
Proof.
  intros Hq Hi Ho Hinst Hreg. pose proof (widget_not_null _ _ _ Hq Ho) as H0. split.
  - constructor; unfold given_up; cbn [qt connector set_objects set_qt set_connector snd objects];
      rewrite ?set_instance_next, ?set_instance_widgets; cbn [next_application set_widgets widgets].
    + apply Hq.
    + intros a Ha. apply (qi_fresh _ Hq). by apply lookup_delete_is_Some in Ha as [_ Ha].
    + by rewrite lookup_insert_ne, (qi_null _ Hq).
    + intros k'. destruct (decide (k = k')) as [<-|Hk]; [left; by rewrite set_instance_same|].
      rewrite set_instance_other by done. destruct (qi_instance _ Hq k') as [Hz|(p' & Hw & Hp')]; [by left|].
      right. exists p'. split; [|done]. change (instance_of k' _) with (instance_of k' (qt s)).
      rewrite lookup_insert_ne; [done|]. intros Heq. rewrite <- Heq, Ho in Hw. congruence.
    + intros this' k' p' Hw Hp'. apply lookup_insert_Some in Hw as [[<- Heq]|[Hne Hw]]; [by injection Heq as <- <-|].
      destruct (qi_owner _ Hq _ _ _ Hw Hp') as (Hi' & Hs & Hc).
      assert (Hk : k <> k') by (intros <-; congruence).
      rewrite set_instance_other by done. split; [done|].
      assert (Hpp : p <> p').
      { intros <-. destruct (qi_owner _ Hq _ _ _ Ho Hp') as (_ & _ & Hc'). apply Hk, qt_members_inj. congruence. }
      unfold class_at in *. by rewrite lookup_delete_ne.
  - apply framework_inv_objects; [done | |].
    + intros a Ha. apply lookup_delete_ne. by intros <-.
    + intros a o Ha Hna. apply lookup_delete_Some in Ha as [_ Ha].
      by rewrite (fi_pairs _ Hi a o Ha), (bool_decide_false _ Hna), andb_false_r.
Qed.

Lemma constructed_inv s this k parent :
  qt_inv s -> framework_inv s -> this <> 0 -> widgets (qt s) !! this = None ->
  exists s', store_widget this (ConnectorApplication_new k parent) s = Done tt s' /\ qt_inv s' /\ framework_inv s'.
Proof.
  intros Hq Hi H0 Hnone. eexists. split; [reflexivity|]. split; [|by destruct Hi; constructor].
  destruct Hq as [Hn Hf Hz Hinst Hown]. constructor; cbn [qt connector set_qt set_connector snd objects]; try done.
  - cbn. by rewrite lookup_insert_ne.
  - intros k'. destruct (Hinst k') as [H|(p & Hw & Hp)]; [by left|]. right. exists p. split; [|done].
    change (instance_of k' _) with (instance_of k' (qt s)). cbn.
    rewrite lookup_insert_ne; [done|]. intros Heq. by rewrite <- Heq, Hnone in Hw.
  - intros this' k' p Hw Hp. cbn in Hw. apply lookup_insert_Some in Hw as [[_ Heq]|[_ Hw]];
      [by injection Heq as _ <- | by apply Hown].
Qed.

Lemma destroyed_inv s this k :
  qt_inv s -> framework_inv s -> widgets (qt s) !! this = Some (QtObject k 0) ->
  exists s', destroy this s = Done tt s' /\ qt_inv s' /\ framework_inv s'.
Proof.
  intros Hq Hi Ho. unfold destroy. rewrite (bind_done _ _ _ _ _ (load_widget_done _ _ _ Hq Ho)).
  eexists. split; [reflexivity|]. split; [|by destruct Hi; constructor].
  destruct Hq as [Hn Hf Hz Hinst Hown]. constructor; cbn [qt connector set_qt set_connector snd objects]; try done.
  - cbn. rewrite lookup_delete_None. by right.
  - intros k'. destruct (Hinst k') as [H|(p & Hw & Hp)]; [by left|]. right. exists p. split; [|done].
    change (instance_of k' _) with (instance_of k' (qt s)). cbn.
    rewrite lookup_delete_ne; [done|]. intros Heq. rewrite <- Heq, Ho in Hw. by injection Hw as _ <-.
  - intros this' k' p Hw Hp. cbn in Hw. apply lookup_delete_Some in Hw as [_ Hw]. by apply Hown.
Qed.

(** What the framework does leaves the module alone. *)
Lemma qt_inv_same s s' :
  qt_inv s -> qt s' = qt s -> (forall a, class_at (objects s') a = class_at (objects s) a) ->
  (forall a, is_Some (objects s !! a) <-> is_Some (objects s' !! a)) -> qt_inv s'.
Proof.
  intros [Hn Hf Hz Hinst Hown] Hqt Hc Hs. constructor; rewrite Hqt; try done.
  - intros p Hp. apply Hf. by apply Hs.
  - intros this k p Hw Hp. rewrite <- Hs, Hc. by apply Hown.
Qed.

Lemma beside_ok (table : substance_connector_function_table C) (I : C -> Prop) (q : qt_state Q) :
  library_ok table I -> library_ok (beside table) (fun c => I (fst c) /\ snd c = q).
Proof.
  assert (Hk : forall A (m : M C A), keeps I m -> keeps (fun c => I (fst c) /\ snd c = q) (on_connector m)).
  { intros A m Hm [c q'] [HI Hq]. cbn in HI, Hq. destruct (Hm c HI) as (r & c' & Hrun & HI').
    exists r, (c', q'). unfold on_connector, zoom. cbn. by rewrite Hrun. }
  intros [H1 H2 H3]. constructor; intros; cbn; by apply Hk.
Qed.

Lemma framework_op_inv table (I : C -> Prop) op s :
  library_ok table I -> I (fst (connector s)) -> qt_inv s -> framework_inv s -> op_valid (objects s) op ->
  exists r s', do_op (beside table) op s = Done r s' /\ I (fst (connector s')) /\ qt_inv s' /\ framework_inv s'.
Proof.
  intros Hl HI Hq Hi Hv.
  destruct (do_op_inv (beside table) (fun c => I (fst c) /\ snd c = qt s) op s) as (r & s' & Hrun & Hi' & [HI' Hq'] & Hc & Hs);
    [by apply beside_ok | done | done | done |].
  exists r, s'. split; [done|]. split; [done|]. split; [|done]. by apply (qt_inv_same s).
Qed.

(** How the module is meant to be used: an object is constructed at an address
    that is free, it is shut down when the framework does not know its
    application (any more), and destroyed when it has none. *)
Definition qt_valid s (op : qt_op) : Prop :=
  match op with
  | Construct _ this _ => this <> 0 /\ widgets (qt s) !! this = None
  | Initialize this | RegisterApplication this => is_Some (widgets (qt s) !! this)
  | ShutDown this => exists o, widgets (qt s) !! this = Some o /\ mApplication o ∉ applications s
  | Destroy this => exists k, widgets (qt s) !! this = Some (QtObject k 0)
  | ModuleInit _ | ModuleShutdown => True
  end.

Lemma qt_step_inv table (I : C -> Prop) op s :
  library_ok table I -> I (fst (connector s)) -> qt_inv s -> framework_inv s -> qt_valid s op ->
  exists r s', do_qt table op s = Done r s' /\ I (fst (connector s')) /\ qt_inv s' /\ framework_inv s'.
Proof.
  intros Hl HI Hq Hi Hv. destruct op as [k this parent|this|this|this|this|name|]; cbn [qt_valid do_qt] in *.
  - destruct (constructed_inv s this k parent Hq Hi (proj1 Hv) (proj2 Hv)) as (s' & Hrun & H).
    exists true, s'. rewrite (bind_done _ _ _ _ _ Hrun). split; [done|]. split; [|done].
    by injection Hrun as <-.
  - destruct Hv as [[k p] Ho]. exists true. eexists.
    rewrite (bind_done _ _ _ _ _ (initialize_done s this k p Hq Ho)). split; [reflexivity|].
    destruct (Z.eqb_spec (instance_of k (qt s)) 0); [|done]. split; [done | by apply (initialised_inv s this k p)].
  - destruct Hv as ([k p] & Ho & Hreg). exists true. eexists.
    rewrite (bind_done _ _ _ _ _ (shutdown_done s this k p Hq Ho)). split; [reflexivity|].
    destruct (Z.eqb_spec (instance_of k (qt s)) this); [|done]. split; [done | by apply (given_up_inv s this k p)].
  - destruct Hv as [k Ho]. destruct (destroyed_inv s this k Hq Hi Ho) as (s' & Hrun & H).
    exists true, s'. rewrite (bind_done _ _ _ _ _ Hrun). split; [done|]. split; [|done].
    unfold destroy in Hrun. rewrite (bind_done _ _ _ _ _ (load_widget_done _ _ _ Hq Ho)) in Hrun.
    by injection Hrun as <-.
  - destruct Hv as [[k p] Ho]. unfold ConnectorModule_registerApplication.
    rewrite (bind_done _ _ _ _ _ (load_widget_done _ _ _ Hq Ho)).
    apply (framework_op_inv table I (Register p)); [done | done | done | done |].
    cbn. destruct (Z.eq_dec p 0) as [->|Hp]; [by left|]. right. by apply (qi_owner _ Hq this k).
  - by apply (framework_op_inv table I (Init name name)).
  - by apply (framework_op_inv table I Shutdown).
Qed.

End invariant.

(** ** What the callbacks do *)

Section callbacks.
Context {C Q : Type} {S : QtStrings Q}.
Context (table : substance_connector_function_table C).
Context {V : Type} {J : Json V}.
Abbreviation process := (framework (C * qt_state Q)).
Context (other : Z -> Z -> uuid -> list Z -> X process unit).
Implicit Types s : process.

(** The identifier under which a callback is installed. *)
Definition callback_type (f : qt_callback) : uuid :=
  match f with
  | recvConnectionEstablishedCallback => sConnectionEstablishedId
  | recvConnectionClosedCallback => sConnectionClosedId
  | updateConnectionContextCallback => sConnectionUpdateContextId
  | recvLoadMeshCallback => sLoadMeshId
  | recvRequestMeshConfigCallback => sRequestMeshConfigId
  | recvMeshConfigCallback => sRecMeshConfigId
  | recvLoadSbsarCallback => sLoadSbsarId
  | recvUpdateSbsarCallback => sUpdateSbsarId
  end.

(** What each identifier is to the module: the class whose instance emits, and the
    signal. *)
Definition qt_protocol : list (uuid * qt_class * qt_signal) :=
  [(sConnectionEstablishedId, ConnectorSystem, recvConnectionEstablished);
   (sConnectionClosedId, ConnectorSystem, recvConnectionClosed);
   (sConnectionUpdateContextId, ConnectorSystem, updateConnectionContext);
   (sLoadMeshId, QtMeshApplication, recvLoadMesh);
   (sRequestMeshConfigId, QtMeshApplication, mRecvMeshConfigRequest);
   (sRecMeshConfigId, QtMeshApplication, recvMeshExportConfig);
   (sLoadSbsarId, QtSbsarApplication, recvLoadSbsar);
   (sUpdateSbsarId, QtSbsarApplication, recvUpdateSbsar)].

Lemma qt_protocol_callback type k signal :
  (type, k, signal) ∈ qt_protocol ->
  exists f, callback_type f = type /\ callback_class f = k /\ callback_signal f = signal.
Proof.
  unfold qt_protocol. rewrite !elem_of_cons, elem_of_nil. intros H.
  repeat (destruct H as [[= -> -> ->]|H]; [|]); [..|done].
  - by exists recvConnectionEstablishedCallback.
  - by exists recvConnectionClosedCallback.
  - by exists updateConnectionContextCallback.
  - by exists recvLoadMeshCallback.
  - by exists recvRequestMeshConfigCallback.
  - by exists recvMeshConfigCallback.
  - by exists recvLoadSbsarCallback.
  - by exists recvUpdateSbsarCallback.
Qed.

(** The state after an object emitted a signal. *)
Definition signalled (this : Z) (signal : qt_signal) (context : Z) (message : list Z) s : process :=
  set_qt (set_emitted (emitted (qt s) ++ [(this, signal, context, QString message)]) (qt s)) s.

Lemma callback_at_address f : callback_at (address_of f) = Some f.
Proof. by destruct f. Qed.

Lemma static_callback_done f context type message s :
  qt_inv s -> static_callback_body f context type message s =
    Done tt (if instance_of (callback_class f) (qt s) =? 0 then s
             else signalled (instance_of (callback_class f) (qt s)) (callback_signal f) context message s).
Proof.
  intros Hq. unfold static_callback_body. set (k := callback_class f). set (i := instance_of k (qt s)).
  rewrite (bind_done _ _ s (negb (i =? 0)) s) by done.
  destruct (Z.eqb_spec i 0) as [Hz|Hz]; [done|]. cbn [negb when].
  unfold emit_on_instance. rewrite (bind_done _ _ s i s) by done.
  destruct (qi_instance _ Hq k) as [H|(p & Hw & _)]; [done|].
  unfold Q_EMIT. by rewrite (bind_done _ _ _ _ _ (load_widget_done _ _ _ Hq Hw)).
Qed.

Lemma qt_callback_done f context type message s :
  qt_inv s -> instance_of (callback_class f) (qt s) <> 0 ->
  call_callback (beside table) (qt_user_callback other) (static_callback f) context type message s =
    Done (inr tt) (signalled (instance_of (callback_class f) (qt s)) (callback_signal f) context message s).
Proof.
  intros Hq Hi. cbn [call_callback static_callback]. unfold qt_user_callback. rewrite callback_at_address.
  apply lift_done. rewrite static_callback_done by done. by rewrite (proj2 (Z.eqb_neq _ _) Hi).
Qed.

(** Introducing itself, the framework leaves the module alone. *)
Lemma connectionEstablished_quiet context type message s s1 :
  qt_inv s -> connectionEstablished (beside table) context type message s = Done (inr tt) s1 ->
  qt_inv s1 /\ qt s1 = qt s.
Proof.
  intros Hq. unfold connectionEstablished, getConnectionContext, version, GetJsonString, xbind, lift, get, call, zoom, bind.
  cbn. unfold on_connector, zoom. destruct (ft_version table (fst (connector s))) as [v c0|]; [|done]. cbn.
  destruct (connection_Serialize _ _) as [[e|[]] w|]; [done | | done].
  unfold write_and_forget, lift, call, zoom, bind. cbn. unfold on_connector, zoom.
  destruct (ft_write_message _ _ _ _ _) as [code c1|]; [|done]. intros [= <-].
  split; [by apply (qt_inv_same s) | done].
Qed.

(** What the module's applications declare. *)
Lemma qt_declares objs p f :
  class_at objs p = qt_members (callback_class f) ->
  declares objs p (callback_type f) =
    Some (match f with
          | recvConnectionEstablishedCallback => [ConnectionEstablished; static_callback f]
          | _ => [static_callback f]
          end).
Proof. intros Hc. unfold declares. rewrite Hc. by destruct f; vm_compute. Qed.

End callbacks.

(** ** A framework that looks for an application that is gone *)

Section dangling.
Context {C : Type}.
Implicit Types s : framework C.

Lemma for_applications_stuck (method : Z -> M (framework C) unit) pre p post s s1 u :
  for_applications method pre s = Done tt s1 -> method p s1 = Stuck u ->
  for_applications method (pre ++ p :: post) s = Stuck u.
Proof.
  revert s. induction pre as [|a pre IH]; cbn [app for_applications]; intros s.
  - intros [= <-] H. by rewrite (bind_stuck _ _ _ _ H).
  - unfold bind. destruct (method a s) as [[] s2|]; [apply IH | done].
Qed.

Lemma load_app_gone p s : p <> 0 -> objects s !! p = None -> load_app p s = Stuck UseAfterFree.
Proof. intros Hp Hn. unfold load_app. by rewrite (proj2 (Z.eqb_neq _ _) Hp), Hn. Qed.

(** [s'] is [s] without the object [p], which is registered. *)
Lemma gone_split s p :
  framework_inv s -> p ∈ applications s ->
  p <> 0 /\ exists pre post, applications s = pre ++ p :: post /\ NoDup pre /\ (p ∉ pre) /\
    forall a, a ∈ pre -> a <> 0 /\ is_Some (objects s !! a) /\ (delete p (objects s)) !! a = objects s !! a.
Proof.
  intros Hi Hp. split; [by apply (fi_objects _ Hi)|].
  apply list_elem_of_split in Hp as (pre & post & Heq). exists pre, post. split; [done|].
  pose proof (sorted_NoDup _ (fi_sorted _ Hi)) as Hnd. rewrite Heq in Hnd.
  apply NoDup_app in Hnd as (Hnd & Hdisj & _).
  assert (Hnot : p ∉ pre) by (intros Hin; apply (Hdisj p Hin); by left).
  split; [done|]. split; [done|]. intros a Ha.
  destruct (fi_objects _ Hi a) as [Ha0 Hs]; [rewrite Heq, elem_of_app; by left|].
  split; [done|]. split; [done|]. apply lookup_delete_ne. by intros ->.
Qed.

Lemma preShutdown_gone s s' p :
  framework_inv s -> p ∈ applications s -> objects s' = delete p (objects s) ->
  applications s' = applications s -> preShutdown s' = Stuck UseAfterFree.
Proof.
  intros Hi Hp Ho Happs. destruct (gone_split s p Hi Hp) as (Hp0 & pre & post & Heq & Hnd & Hnot & Hpre).
  unfold preShutdown. rewrite (bind_done _ _ s' (applications s') s') by done. rewrite Happs, Heq.
  destruct (preShutdown_done s' pre Hnd) as (m & Hrun & _).
  { intros a Ha. rewrite Ho. destruct (Hpre a Ha) as (H1 & H2 & H3). by rewrite H3. }
  apply (for_applications_stuck _ _ _ _ _ _ _ Hrun). unfold app_preShutdown, Application_preShutdown.
  apply bind_stuck, load_app_gone; [done|]. cbn.
  rewrite lookup_alter_all, bool_decide_false, Ho by done. apply lookup_delete_eq.
Qed.

Lemma preInit_gone s s' p :
  framework_inv s -> startupState s = CONNECTOR_SHUTDOWN -> p ∈ applications s ->
  objects s' = delete p (objects s) -> applications s' = applications s -> preInit s' = Stuck UseAfterFree.
Proof.
  intros Hi Hst Hp Ho Happs. destruct (gone_split s p Hi Hp) as (Hp0 & pre & post & Heq & Hnd & Hnot & Hpre).
  unfold preInit. rewrite (bind_done _ _ s' (applications s') s') by done. rewrite Happs, Heq.
  assert (Hrun : for_applications app_preInit pre s' = Done tt (set_callbackMap (callbackMap s' ∪ bindings (objects s') pre)
      (set_objects (alter_all fill pre (objects s')) s'))).
  { apply preInit_done; [done|]. intros a Ha. destruct (Hpre a Ha) as (H1 & [o H2] & H3). split; [done|].
    exists o. rewrite Ho, H3. split; [done|]. by rewrite (fi_pairs _ Hi a o H2), Hst. }
  apply (for_applications_stuck _ _ _ _ _ _ _ Hrun). unfold app_preInit.
  apply bind_stuck, load_app_gone; [done|]. cbn.
  rewrite lookup_alter_all, bool_decide_false, Ho by done. apply lookup_delete_eq.
Qed.

End dangling.

(** ** Properties *)

Section properties.
Context {C Q : Type} {S : QtStrings Q}.
Context (table : substance_connector_function_table C).
Context {V : Type} {J : Json V}.
Abbreviation process := (framework (C * qt_state Q)).
Implicit Types s : process.

Fixpoint do_qts (ops : list qt_op) : M process (list bool) :=
  match ops with
  | [] => ret []
  | op :: ops' => let* r := do_qt table op in let* rs := do_qts ops' in ret (r :: rs)
  end.

(** Every call is valid in the state in which it is made. *)
Fixpoint qt_valids s (ops : list qt_op) : Prop :=
  match ops with
  | [] => True
  | op :: ops' => qt_valid s op /\ forall r s', do_qt table op s = Done r s' -> qt_valids s' ops'
  end.

Lemma do_qts_inv (I : C -> Prop) (ops : list qt_op) s :
  library_ok table I -> I (fst (connector s)) -> qt_inv s -> framework_inv s -> qt_valids s ops ->
  exists rs s', do_qts ops s = Done rs s' /\ length rs = length ops /\ qt_inv s' /\ framework_inv s'.
Proof.
  intros Hlib. revert s. induction ops as [|op ops IH]; intros s HI Hq Hinv Hvalid; [by eexists [], s|].
  destruct Hvalid as [Hv Hvalid].
  destruct (qt_step_inv table I op s Hlib HI Hq Hinv Hv) as (r & s1 & Hrun & HI1 & Hq1 & Hi1).
  destruct (IH s1 HI1 Hq1 Hi1 (Hvalid _ _ Hrun)) as (rs & s2 & Hrest & Hlen & H).
  exists (r :: rs), s2. cbn [do_qts length]. by rewrite (bind_done _ _ _ _ _ Hrun), (bind_done _ _ _ _ _ Hrest), Hlen.
Qed.

(** C29: The objects of the module.  Whatever a program does with objects of its
    three classes and with the framework - as long as an object is shut down only
    when the framework does not know its application (any more), and destroyed
    only when it has none - every call finishes, and at the end the framework is
    well-formed and of each class at most one object has an application: it is
    the instance of its class, and the application has the callbacks of that class
    and exists. *)
Theorem qt_keeps_invariant (I : C -> Prop) (ops : list qt_op) s
    (Hlib : library_ok table I) (HI : I (fst (connector s))) (Hq : qt_inv s) (Hinv : framework_inv s)
    (Hvalid : qt_valids s ops) :
  exists rs s', do_qts ops s = Done rs s' /\ length rs = length ops /\ qt_inv s' /\ framework_inv s' /\
    forall k this1 this2 p1 p2, widgets (qt s') !! this1 = Some (QtObject k p1) -> p1 <> 0 ->
      widgets (qt s') !! this2 = Some (QtObject k p2) -> p2 <> 0 -> this1 = this2.
Proof.
  destruct (do_qts_inv I ops s Hlib HI Hq Hinv Hvalid) as (rs & s' & Hrun & Hlen & Hq' & Hi').
  exists rs, s'. do 4 (split; [done|]).
  intros k this1 this2 p1 p2 H1 Hp1 H2 Hp2.
  destruct (qi_owner _ Hq' _ _ _ H1 Hp1) as [<- _]. by destruct (qi_owner _ Hq' _ _ _ H2 Hp2) as [<- _].
Qed.

(** C30: Messages become signals.  When an instance is registered, the framework
    runs, and no application before it declares the identifier, then each of the
    eight messages that the module knows makes the instance emit exactly one
    signal, the one that belongs to the identifier, with the context and the text
    of the message; for an established connection the framework first introduces
    itself.  A message to update a mesh is dropped. *)
Theorem qt_messages_become_signals s (other : Z -> Z -> uuid -> list Z -> X process unit)
    (type : uuid) (k : qt_class) (signal : qt_signal) (this p : Z) (pre post : list Z) (context : Z) (message : list Z)
    (Hq : qt_inv s) (Hinv : framework_inv s) (Hbound : bound_in (startupState s) = true)
    (Htype : (type, k, signal) ∈ qt_protocol)
    (Hthis : widgets (qt s) !! this = Some (QtObject k p)) (Hp : p <> 0)
    (Happs : applications s = pre ++ p :: post)
    (Hpre : forall b, b ∈ pre -> declares (objects s) b type = None /\ declares (objects s) b sUpdateMeshId = None) :
  (type <> sConnectionEstablishedId ->
     connector_cpp_trampoline (beside table) (qt_user_callback other) context type message s =
       Done (inr tt) (signalled this signal context message s)) /\
  (type = sConnectionEstablishedId ->
     forall s1, connectionEstablished (beside table) context type message s = Done (inr tt) s1 ->
       connector_cpp_trampoline (beside table) (qt_user_callback other) context type message s =
         Done (inr tt) (signalled this signal context message s1)) /\
  (k = QtMeshApplication ->
     connector_cpp_trampoline (beside table) (qt_user_callback other) context sUpdateMeshId message s =
       Done (inr tt) s).
Proof.
  destruct (qt_protocol_callback _ _ _ Htype) as (f & <- & <- & <-). pose proof (fi_callbacks _ Hinv) as Hmap. rewrite Hbound in Hmap.
  destruct (qi_owner _ Hq _ _ _ Hthis Hp) as (Hi & _ & Hc).
  pose proof (widget_not_null _ _ _ Hq Hthis) as H0.
  assert (Hlook : callbackMap s !! callback_type f = declares (objects s) p (callback_type f)).
  { rewrite Hmap, Happs, (qt_declares _ _ _ Hc). apply bindings_first; [apply Hpre | by apply qt_declares]. }
  rewrite (qt_declares _ _ _ Hc) in Hlook. split; [|split].
  - intros Hne. rewrite trampoline_calls, Hlook.
    assert (Hcall := qt_callback_done table other f context (callback_type f) message s Hq). rewrite Hi in Hcall.
    destruct f; try done; cbn [default from_option id List.filter];
      rewrite bool_decide_false by done; cbn [negb for_each]; by rewrite (xbind_done _ _ _ _ _ (Hcall H0)).
  - intros Heq s1 Hs1. rewrite trampoline_calls, Hlook.
    destruct f; try done; cbn [default from_option id List.filter];
      rewrite !bool_decide_false by done; cbn [negb for_each].
    rewrite (xbind_done _ _ s tt s1) by exact Hs1.
    destruct (connectionEstablished_quiet table context (callback_type recvConnectionEstablishedCallback) message s s1 Hq Hs1) as [Hq1 Hqt].
    assert (Hcall := qt_callback_done table other recvConnectionEstablishedCallback context sConnectionEstablishedId message s1 Hq1).
    rewrite Hqt, Hi in Hcall. by rewrite (xbind_done _ _ _ _ _ (Hcall H0)).
  - intros Hk. rewrite Hk in Hc. rewrite trampoline_calls, Hmap, Happs.
    rewrite (bindings_first _ _ _ _ _ [NullCallback]); [done | apply Hpre |].
    unfold declares. rewrite Hc. by vm_compute.
Qed.

(** Sending.  An object without an application sends nothing; one with an
    application hands the library one message for the context, under the
    identifier of the method, whose text is the UTF-8 form of the string up to its
    first zero.  So text that arrived as a signal and is sent on is sent as it
    arrived, if it was UTF-8. *)
Theorem qt_text_roundtrip {L : QtStringLaws Q} s (this context : Z) (k : qt_class) (p : Z) (t : Q) (text : list Z)
    (Hq : qt_inv s) (Hthis : widgets (qt s) !! this = Some (QtObject k p))
    (Htext : utf8 text) (Hcs : Forall (fun b => b <> 0) text)
    (Hwrite : forall type t, exists code c1,
       ft_write_message table context (Some type) t (fst (connector s)) = Done code c1) :
  let sends (m : Q -> X process unit) type :=
    (p = 0 -> m t s = Done (inr tt) s) /\
    (p <> 0 -> forall t', exists code c1,
       ft_write_message table context (Some type) (constData (toUtf8 t')) (fst (connector s)) = Done code c1 /\
       m t' s = Done (inr tt) (set_connector (c1, qt s) s)) in
  sends (qt_sendLoadMesh table this context) sLoadMeshId /\
  sends (qt_sendRequestMeshConfig table this context) sRequestMeshConfigId /\
  sends (qt_sendMeshExportConfig table this context) sRecMeshConfigId /\
  sends (qt_sendLoadSbsar table this context) sLoadSbsarId /\
  constData (toUtf8 (QString text)) = text.
Proof.
  intros sends.
  assert (Hall : forall m type, (forall t', m t' = with_application this
      (write_and_forget (beside table) context type (constData (toUtf8 t')))) -> sends m type).
  { intros m type Hm.
    assert (Hmt : forall t', m t' s = xwhen (negb (p =? 0))
        (write_and_forget (beside table) context type (constData (toUtf8 t'))) s).
    { intros t'. rewrite Hm. unfold with_application.
      by rewrite (xbind_done _ _ _ _ _ (lift_done _ _ _ _ (load_widget_done _ _ _ Hq Hthis))). }
    split; [intros ->; by rewrite Hmt|]. intros Hp t'. rewrite Hmt, (proj2 (Z.eqb_neq _ _) Hp). cbn [negb xwhen].
    destruct (Hwrite type (constData (toUtf8 t'))) as (code & c1 & Hc). exists code, c1. split; [done|].
    unfold write_and_forget, lift, bind, call, zoom. cbn. unfold on_connector, zoom. by rewrite Hc. }
  do 4 (split; [by apply Hall|]). rewrite utf8_kept by done.
  clear -Hcs. induction Hcs as [|b l Hb _ IH]; [done|]. cbn. apply Z.eqb_neq in Hb. by rewrite Hb, IH.
Qed.

(** C31: What may not be done, and two threads.  Shutting down an object whose
    application is registered leaves its pointer with the framework: stopping a
    framework that runs, and starting one that does not, dereferences it.  The
    static callbacks test the instance and load it again: when the object is shut
    down in between, they dereference null.  Destroying an object that is the
    instance does not take it off: the next message dereferences it. *)
Theorem qt_shutdown_dangles s (this p : Z) (f : qt_callback) (context : Z) (type : uuid) (message name : list Z)
    (Hq : qt_inv s) (Hinv : framework_inv s)
    (Hthis : widgets (qt s) !! this = Some (QtObject (callback_class f) p)) (Hp : p <> 0) :
  (p ∈ applications s -> exists s', do_qt table (ShutDown this) s = Done true s' /\
     (startupState s = CONNECTOR_INITIALIZED -> do_qt table ModuleShutdown s' = Stuck UseAfterFree) /\
     (startupState s = CONNECTOR_SHUTDOWN -> do_qt table (ModuleInit name) s' = Stuck UseAfterFree)) /\
  (let* there := has_instance (callback_class f) in
   do_qt table (ShutDown this) ;;;
   when there (emit_on_instance (callback_class f) (callback_signal f) context message)) s = Stuck NullDeref /\
  (exists s', do_qt table (Destroy this) s = Done true s' /\
     static_callback_body f context type message s' = Stuck UseAfterFree).
Proof.
  pose proof (widget_not_null _ _ _ Hq Hthis) as H0. set (k := callback_class f) in *.
  destruct (qi_owner _ Hq _ _ _ Hthis Hp) as (Hi & [a Ha] & _).
  assert (Hdown : do_qt table (ShutDown this) s = Done true (given_up k this p s)).
  { cbn [do_qt]. rewrite (bind_done _ _ _ _ _ (shutdown_done s this k p Hq Hthis)). by rewrite Hi, Z.eqb_refl. }
  split; [|split].
  - intros Hreg. exists (given_up k this p s). split; [done|]. split; intros Hst; cbn [do_qt].
    + unfold ConnectorModule_shutdown, shutdown.
      rewrite (bind_done _ _ _ _ _ (exchange_startup_hit (given_up k this p s) CONNECTOR_INITIALIZED _ Hst)).
      apply bind_stuck. by apply (preShutdown_gone s _ p).
    + unfold ConnectorModule_init, init_one_name, init.
      set (s1 := set_connectionId name (set_connectionDisplayName name (given_up k this p s))).
      rewrite (bind_done _ _ _ tt (set_connectionDisplayName name (given_up k this p s))) by done.
      rewrite (bind_done _ _ _ tt s1) by done.
      rewrite (bind_done _ _ _ _ _ (exchange_startup_hit s1 CONNECTOR_SHUTDOWN _ Hst)).
      apply bind_stuck. by apply (preInit_gone s _ p).
  - rewrite (bind_done _ _ s true s).
    2:{ unfold has_instance. rewrite (bind_done _ _ s this s) by (by unfold load_instance, gets; rewrite Hi).
        by rewrite (proj2 (Z.eqb_neq _ _) H0). }
    rewrite (bind_done _ _ _ _ _ Hdown). cbn [when]. unfold emit_on_instance.
    rewrite (bind_done _ _ _ 0 (given_up k this p s)); [done|].
    unfold load_instance, gets. cbn [qt given_up connector set_objects set_qt set_connector snd].
    by rewrite set_instance_same.
  - set (s' := set_qt (set_widgets (delete this (widgets (qt s))) (qt s)) (set_objects (delete p (objects s)) s)).
    exists s'. split.
    + cbn [do_qt]. rewrite (bind_done _ _ s tt s'); [done|]. unfold destroy.
      rewrite (bind_done _ _ _ _ _ (load_widget_done _ _ _ Hq Hthis)). unfold delete_application. cbn [mApplication].
      rewrite (proj2 (Z.eqb_neq _ _) Hp). unfold bind. by rewrite (load_app_done s p a Hp Ha).
    + unfold static_callback_body. rewrite (bind_done _ _ s' true s').
      2:{ unfold has_instance. rewrite (bind_done _ _ s' this s') by (by unfold load_instance, gets; rewrite <- Hi).
          by rewrite (proj2 (Z.eqb_neq _ _) H0). }
      cbn [when]. unfold emit_on_instance. rewrite (bind_done _ _ s' this s') by (by unfold load_instance, gets; rewrite <- Hi).
      unfold Q_EMIT. apply bind_stuck. unfold load_widget. rewrite (proj2 (Z.eqb_neq _ _) H0). cbn.
      by rewrite lookup_delete_eq.
Qed.

End properties.

(** ** An example *)

(** Strings that are kept as they are. *)
#[export] Instance byte_strings : QtStrings (list Z) := {| QString := id; toUtf8 := id |}.
#[export] Instance byte_string_laws : QtStringLaws (list Z) := {| utf8 := fun _ => True; utf8_kept s _ := eq_refl |}.

Definition idle_process : framework (recorded * qt_state (list Z)) :=
  MkFramework ([], QtState _ ∅ 0 0 0 1 []) ∅ ∅ [] CONNECTOR_SHUTDOWN [] [] [].

Lemma idle_process_inv : qt_inv idle_process /\ framework_inv idle_process.
Proof.
  split; constructor; cbn; try done; try (by constructor).
  - intros p [x Hx]. by rewrite lookup_empty in Hx.
  - intros k. by left; destruct k.
  - intros a Ha. by apply elem_of_nil in Ha.
Qed.

(** Two objects for meshes, of which the first becomes the instance. *)
Definition qt_calls : list qt_op :=
  [Construct QtMeshApplication 10 0; Construct QtMeshApplication 20 10; Initialize 10; Initialize 20;
   RegisterApplication 10; RegisterApplication 20; ModuleInit (text "A")].

Definition run_process (ops : list qt_op) : framework (recorded * qt_state (list Z)) :=
  match do_qts recording_table ops idle_process with Done _ s => s | Stuck _ => idle_process end.

Lemma step_valids {C Q} (table : substance_connector_function_table C) (s : framework (C * qt_state Q)) op ops r s' :
  do_qt table op s = Done r s' -> qt_valid s op -> qt_valids table s' ops -> qt_valids table s (op :: ops).
Proof. intros Hrun Hv H. split; [done|]. intros r2 s2 Hrun2. rewrite Hrun in Hrun2. by injection Hrun2 as _ <-. Qed.

Lemma qt_calls_valid ops :
  ops = [ModuleShutdown; ShutDown 10; Destroy 20; Initialize 10] \/ ops = [] ->
  qt_valids recording_table idle_process (qt_calls ++ ops).
Proof.
  intros Hops. unfold qt_calls. cbn [app].
  do 7 (eapply step_valids; [vm_compute; reflexivity | first [done | by eexists | (split; done)] |]).
  destruct Hops as [-> | ->]; [|exact I].
  eapply step_valids; [vm_compute; reflexivity | done |].
  eapply step_valids; [vm_compute; reflexivity | eexists; split; [reflexivity | cbn; by intros ?%elem_of_nil] |].
  eapply step_valids; [vm_compute; reflexivity | by eexists |].
  eapply step_valids; [vm_compute; reflexivity | by eexists |]. exact I.
Qed.

Lemma qt_keeps_invariant_witness :
  exists s', do_qts recording_table (qt_calls ++ [ModuleShutdown; ShutDown 10; Destroy 20; Initialize 10]) idle_process =
      Done [true; true; true; true; true; false; true; true; true; true; true] s' /\ qt_inv s'.
Proof.
  destruct (qt_keeps_invariant recording_table (fun _ => True) _ idle_process recording_table_ok I
    (proj1 idle_process_inv) (proj2 idle_process_inv) (qt_calls_valid _ (or_introl eq_refl)))
    as (rs & s' & Hrun & _ & Hq & _).
  exists s'. split; [|exact Hq]. rewrite Hrun. vm_compute in Hrun. by injection Hrun as <- _.
Defined.

(** The process after these calls. *)
Definition running_process : framework (recorded * qt_state (list Z)) := run_process qt_calls.

Lemma running_process_inv : qt_inv running_process /\ framework_inv running_process.
Proof.
  pose proof (qt_calls_valid [] (or_intror eq_refl)) as Hv. rewrite app_nil_r in Hv.
  destruct (do_qts_inv recording_table (fun _ => True) _ idle_process recording_table_ok I
    (proj1 idle_process_inv) (proj2 idle_process_inv) Hv) as (rs & s' & Hrun & _ & Hinv).
  unfold running_process, run_process. by rewrite Hrun.
Qed.

Lemma qt_messages_become_signals_witness :
  exists s', connector_cpp_trampoline (V := Json.json) (beside recording_table) (qt_user_callback (fun _ _ _ _ => xret tt))
      5 sLoadMeshId (text "mesh") running_process = Done (inr tt) s' /\
    emitted (qt s') = [(10, recvLoadMesh, 5, text "mesh")].
Proof.
  destruct (qt_messages_become_signals (V := Json.json) recording_table running_process (fun _ _ _ _ => xret tt)
    sLoadMeshId QtMeshApplication recvLoadMesh 10 1 [] [] 5 (text "mesh") (proj1 running_process_inv)
    (proj2 running_process_inv) ltac:(by vm_compute) ltac:(unfold qt_protocol; set_solver) ltac:(by vm_compute) ltac:(done)
    ltac:(by vm_compute)
    ltac:(by intros b ?%elem_of_nil)) as [H _].
  eexists. split; [exact (H ltac:(done)) | vm_compute; reflexivity].
Defined.

Lemma qt_text_roundtrip_witness :
  exists s', qt_sendLoadMesh recording_table 10 5 (QString (text "mesh")) running_process = Done (inr tt) s' /\
    fst (connector s') = [(5, Some sLoadMeshId, text "mesh")].
Proof.
  destruct (qt_text_roundtrip recording_table running_process 10 5 QtMeshApplication 1 (text "mesh") (text "mesh")
    (proj1 running_process_inv) ltac:(by vm_compute) I ltac:(by repeat constructor)
    ltac:(intros; do 2 eexists; reflexivity)) as ((_ & H) & _).
  destruct (H ltac:(done) (QString (text "mesh"))) as (code & c1 & Hw & Hrun).
  eexists. split; [exact Hrun|]. injection Hw as _ <-. vm_compute. reflexivity.
Defined.

Lemma qt_shutdown_dangles_witness :
  (exists s', do_qt recording_table (ShutDown 10) running_process = Done true s' /\
     do_qt recording_table ModuleShutdown s' = Stuck UseAfterFree) /\
  exists s', do_qt recording_table (Destroy 10) running_process = Done true s' /\
     static_callback_body recvLoadMeshCallback 5 sLoadMeshId (text "mesh") s' = Stuck UseAfterFree.
Proof.
  destruct (qt_shutdown_dangles recording_table running_process 10 1 recvLoadMeshCallback 5 sLoadMeshId (text "mesh") []
    (proj1 running_process_inv) (proj2 running_process_inv) ltac:(by vm_compute) ltac:(done)) as (H1 & _ & H2).
  destruct (H1 ltac:(vm_compute; by left)) as (s' & Hd & Hs & _). split; [|exact H2].
  exists s'. split; [exact Hd | exact (Hs ltac:(by vm_compute))].
Defined.
