(* ===== verification/Python.v ===== *)
(** * The Python module

    The functions of [src/module-python] through which a Python program uses the
    library.  CPython is not part of the repository: [Python] has the functions of
    its C interface that are called, [PythonLaws] what its documentation says of
    them, above all which references a caller owns.  A Python object is a pointer,
    zero is NULL. *)

From S2P Require Import Prelude Wire Cpp FunctionTable Framework.

(** ** CPython *)

Inductive py_exception := PyExc_ConnectionError | PyExc_TypeError.

(** [parse_k], [parse_s], [parse_O] and [parse_kOs] are [PyArg_ParseTuple] with
    these formats: what is stored, where the optional arguments may be missing, or
    [None] when an exception is set. *)
Class Python (I : Type) := {
  Py_None : Z;
  PyLong_FromUnsignedLong : Z -> M I Z;
  PyLong_AsUnsignedLong : Z -> M I Z;
  PyUnicode_FromString : list Z -> M I Z;
  PyList_New : Z -> M I Z;
  PyList_GetItem : Z -> Z -> M I Z;
  PyList_Append : Z -> Z -> M I Z;
  Py_INCREF : Z -> M I unit;
  Py_DECREF : Z -> M I unit;
  PyErr_SetString : py_exception -> list Z -> M I unit;
  PyGILState_Ensure : M I Z;
  PyGILState_Release : Z -> M I unit;
  parse_k : Z -> M I (option Z);
  parse_s : Z -> M I (option (list Z));
  parse_O : Z -> M I (option Z);
  parse_kOs : Z -> M I (option (Z * option Z * option (list Z)))
}.

(** What an object is, as far as the module looks. *)
Inductive pyval :=
  | PyInt (n : Z)
  | PyStr (s : list Z)
  | PyList (l : list Z)
  | PyOther.

(** ** State *)

(** The library, the interpreter and the static variable [trampoline]. *)
Record py_module (C I : Type) := PyModule {
  py_lib : C;
  py_interp : I;
  py_trampoline : Z
}.
Arguments PyModule {C I} _ _ _.
Arguments py_lib {C I} _.
Arguments py_interp {C I} _.
Arguments py_trampoline {C I} _.

Section module.
Context {C I : Type} {P : Python I}.
(** The library's functions, the address of [connector_python_trampoline], and the
    width of [unsigned long]: 64 where long is 64 bits wide, 32 on Windows. *)
Variables (table : substance_connector_function_table C) (trampoline_address ulong_bits : Z).
(** [PyObject_CallFunctionObjArgs]: whatever the Python function does, which may
    call this module. *)
Variable call_object : Z -> list Z -> M (py_module C I) Z.

Definition set_py_trampoline (o : Z) (s : py_module C I) : py_module C I := PyModule (py_lib s) (py_interp s) o.
Definition in_py {A} (m : M I A) : M (py_module C I) A :=
  zoom py_interp (fun i s => PyModule (py_lib s) i (py_trampoline s)) m.
Definition in_lib {A} (m : M C A) : M (py_module C I) A :=
  zoom py_lib (fun c s => PyModule c (py_interp s) (py_trampoline s)) m.

(** The macros follow the pointer; [Py_XDECREF] tests it first. *)
Definition py_incref (o : Z) : M I unit := if o =? 0 then stuck NullDeref else Py_INCREF o.
Definition py_decref (o : Z) : M I unit := if o =? 0 then stuck NullDeref else Py_DECREF o.
Definition py_xdecref (o : Z) : M I unit := when (negb (o =? 0)) (py_decref o).

(** ** [uuid.c] *)

(** The elements that were assigned. *)
Fixpoint assemble_uuid_from (n i : nat) (l : Z) (uuid : list (option Z)) : M I (list (option Z)) :=
  match n with
  | O => ret uuid
  | S n' =>
      let* element := PyList_GetItem l (Z.of_nat i) in
      if element =? 0 then ret uuid
      else
        let* v := PyLong_AsUnsignedLong element in
        assemble_uuid_from n' (S i) l (<[i := Some (u32 v)]> uuid)
  end.
Definition connector_python_assemble_uuid (l : Z) (uuid : list (option Z)) :
    M I (list (option Z)) :=
  if l =? 0 then stuck NullDeref else assemble_uuid_from 4 0 l uuid.

Fixpoint split_uuid_from (n i : nat) (u : uuid) (l : Z) : M I unit :=
  match n with
  | O => ret tt
  | S n' =>
      let* object := PyLong_FromUnsignedLong (nth i (elements u) 0) in
      let* _ := PyList_Append l object in
      py_decref object ;;;
      split_uuid_from n' (S i) u l
  end.
Definition connector_python_split_uuid (u : uuid) (l : Z) : M I unit := split_uuid_from 4 0 u l.

(** ** [trampoline.c] *)

(** The objects before the NULL that ends the argument list. *)
Fixpoint until_null (l : list Z) : list Z :=
  match l with [] => [] | o :: l' => if o =? 0 then [] else o :: until_null l' end.

Definition connector_python_trampoline (context : Z) (message_type : uuid) (message : list Z) :
    M (py_module C I) unit :=
  let* gil_state := in_py PyGILState_Ensure in
  let* trampoline := gets py_trampoline in
  when (negb (trampoline =? 0))
    (let* context_obj := in_py (PyLong_FromUnsignedLong context) in
     let* message_obj := in_py (PyUnicode_FromString message) in
     let* uuid_obj := in_py (PyList_New 0) in
     in_py (connector_python_split_uuid message_type uuid_obj) ;;;
     let* result := call_object trampoline (until_null [context_obj; uuid_obj; message_obj]) in
     in_py (py_xdecref result) ;;;
     in_py (py_decref context_obj) ;;;
     in_py (py_decref message_obj) ;;;
     in_py (py_decref uuid_obj)) ;;;
  in_py (PyGILState_Release gil_state).

Definition connector_python_register_trampoline (args : Z) : M (py_module C I) Z :=
  let* parsed := in_py (parse_O args) in
  match parsed with
  | Some callback =>
      let* trampoline := gets py_trampoline in
      when (negb (trampoline =? 0)) (in_py (py_decref trampoline) ;;; modify (set_py_trampoline 0)) ;;;
      in_py (py_incref callback) ;;;
      modify (set_py_trampoline callback)
  | None => ret tt
  end ;;;
  in_py (py_incref Py_None) ;;;
  ret Py_None.

Definition connector_python_shutdown_trampoline : M (py_module C I) unit :=
  let* trampoline := gets py_trampoline in
  in_py (py_xdecref trampoline) ;;;
  modify (set_py_trampoline 0).

(** ** [initshutdown.c] *)

Definition connector_python_init (args : Z) : M (py_module C I) Z :=
  let* parsed := in_py (parse_s args) in
  let* errorcode :=
    match parsed with
    | Some name =>
        let* errorcode := in_lib (ft_init table name) in
        in_lib (ft_add_trampoline table trampoline_address) ;;;
        ret errorcode
    | None => ret 0
    end in
  in_py (PyLong_FromUnsignedLong errorcode).

Definition connector_python_shutdown (args : Z) : M (py_module C I) Z :=
  in_lib (ft_remove_trampoline table trampoline_address) ;;;
  connector_python_shutdown_trampoline ;;;
  let* errorcode := in_lib (ft_shutdown table) in
  in_py (PyLong_FromUnsignedLong errorcode).

(** ** [connection.c], [broadcast.c] and [version.c], under Python 3 *)

(** The result of an attempt to open a context. *)
Definition opened (errorcode : Z) (context : option Z) : M (py_module C I) Z :=
  if errorcode =? SUBSTANCE_CONNECTOR_SUCCESS then in_py (PyLong_FromUnsignedLong (default 0 context))
  else in_py (PyErr_SetString PyExc_ConnectionError (text "Failed to open TCP connection.")) ;;; ret 0.

Definition connector_python_open_tcp (args : Z) : M (py_module C I) Z :=
  let* parsed := in_py (parse_k args) in
  match parsed with
  | Some port =>
      let* r := in_lib (ft_open_tcp table (u32 port) true) in
      opened (fst r) (snd r)
  | None => in_py (PyErr_SetString PyExc_TypeError (text "A port number must be passed in")) ;;; ret 0
  end.

Definition connector_python_open_default_tcp (args : Z) : M (py_module C I) Z :=
  let* r := in_lib (ft_open_default_tcp table true) in
  opened (fst r) (snd r).

Definition connector_python_broadcast_tcp (args : Z) : M (py_module C I) Z :=
  let* errorcode := in_lib (ft_broadcast_tcp table) in
  in_py (PyLong_FromUnsignedLong errorcode).

(** The identifier on the stack, whose elements must have been assigned. *)
Definition assigned_uuid (l : list (option Z)) : M (py_module C I) uuid :=
  match mapM id l with Some xs => ret (Uuid xs) | None => stuck Uninitialised end.

(** The format [k] stores an unsigned long, but [context] is an unsigned int.  A
    message that is missing is the NULL pointer, which the library answers like a
    missing type. *)
Definition connector_python_write_message (args : Z) : M (py_module C I) Z :=
  let* parsed := in_py (parse_kOs args) in
  match parsed with
  | Some (context, uuid, message) =>
      if negb (ulong_bits =? 32) then stuck OutOfBounds
      else
        let* message_type := in_py (connector_python_assemble_uuid (default 0 uuid) [None; None; None; None]) in
        let* errorcode :=
          match message with
          | Some message =>
              let* type := assigned_uuid message_type in
              in_lib (ft_write_message table context (Some type) message)
          | None => in_lib (ft_write_message table context None [])
          end in
        in_py (PyLong_FromUnsignedLong errorcode)
  | None => ret 0
  end.

Definition connector_python_version (args : Z) : M (py_module C I) Z :=
  let* version := in_lib (ft_version table) in
  in_py (PyUnicode_FromString version).

(** ** [methodtable.c] *)

Definition connector_python_module_methods : list (list Z * (Z -> M (py_module C I) Z)) :=
  [(text "version", connector_python_version);
   (text "init", connector_python_init);
   (text "shutdown", connector_python_shutdown);
   (text "register_trampoline", connector_python_register_trampoline);
   (text "write_message", connector_python_write_message);
   (text "open_tcp", connector_python_open_tcp);
   (text "open_default_tcp", connector_python_open_default_tcp);
   (text "broadcast_tcp", connector_python_broadcast_tcp)].

End module.

(** ** What is documented of CPython *)

(** Views of an interpreter: what an object is, while it exists; how many references
    to it the module owns; which objects the running caller keeps for the module
    (its arguments and what they hold); whether this thread holds the interpreter
    lock, now and when a token of [PyGILState_Ensure] was given; and which texts
    are valid UTF-8. *)
Class PyView (I : Type) := {
  value : I -> Z -> option pyval;
  refs : I -> Z -> Z;
  lent : I -> Z -> Prop;
  gil : I -> bool;
  gil_of : Z -> bool;
  valid_utf8 : list Z -> bool
}.

(** Nothing is given or taken and no object changes. *)
Record same {I} {V : PyView I} (s s' : I) : Prop := {
  same_value o : value s' o = value s o;
  same_refs o : refs s' o = refs s o;
  same_lent o : lent s o -> lent s' o;
  same_gil : gil s' = gil s
}.

(** The caller gets a new reference to [o], which is [v]. *)
Record new_reference {I} {V : PyView I} (s s' : I) (o : Z) (v : pyval) : Prop := {
  new_null : o <> 0;
  new_value : value s' o = Some v;
  new_others p w : value s p = Some w -> value s' p = Some w;
  new_refs p : refs s' p = refs s p + (if decide (p = o) then 1 else 0);
  new_lent p : lent s p -> lent s' p;
  new_gil : gil s' = gil s
}.

(** Memory does not run out in these laws. *)
Class PythonLaws (I : Type) {P : Python I} {V : PyView I} := {
  refs_law s o : 0 <= refs s o;
  null_law s : value s 0 = None;
  none_law s : Py_None <> 0 /\ value s Py_None <> None;
  long_law n s : gil s = true -> 0 <= n < 2 ^ 64 ->
    exists o s', PyLong_FromUnsignedLong n s = Done o s' /\ new_reference s s' o (PyInt n);
  as_long_law o s : gil s = true -> value s o <> None ->
    exists n s', PyLong_AsUnsignedLong o s = Done n s' /\ same s s' /\ 0 <= n < 2 ^ 64 /\
      (forall m, value s o = Some (PyInt m) -> 0 <= m < 2 ^ 64 -> n = m);
  unicode_law t s : gil s = true ->
    exists o s', PyUnicode_FromString t s = Done o s' /\
      (if valid_utf8 t then new_reference s s' o (PyStr t) else o = 0 /\ same s s');
  list_law s : gil s = true ->
    exists l s', PyList_New 0 s = Done l s' /\ new_reference s s' l (PyList []) /\ value s l = None;
  append_law l o s els : gil s = true -> value s l = Some (PyList els) -> value s o <> None ->
    exists s', PyList_Append l o s = Done 0 s' /\ value s' l = Some (PyList (els ++ [o])) /\
      (forall p, p <> l -> value s' p = value s p) /\ (forall p, refs s' p = refs s p) /\
      (forall p, lent s p -> lent s' p) /\ gil s' = gil s;
  item_law l i s : gil s = true -> value s l <> None -> 0 <= i ->
    exists o s', PyList_GetItem l i s = Done o s' /\ same s s' /\
      (forall els o', value s l = Some (PyList els) -> els !! Z.to_nat i = Some o' -> value s o' <> None -> o = o');
  incref_law o s : gil s = true -> value s o <> None ->
    exists s', Py_INCREF o s = Done tt s' /\ (forall p, value s' p = value s p) /\
      (forall p, refs s' p = refs s p + (if decide (p = o) then 1 else 0)) /\
      (forall p, lent s p -> lent s' p) /\ gil s' = gil s;
  decref_law o s : gil s = true -> 0 < refs s o ->
    exists s', Py_DECREF o s = Done tt s' /\
      (forall p, refs s' p = refs s p - (if decide (p = o) then 1 else 0)) /\
      (forall p, 0 < refs s' p \/ lent s p \/
         (exists l els, 0 < refs s' l /\ value s l = Some (PyList els) /\ p ∈ els) -> value s' p = value s p) /\
      (forall p, lent s p -> lent s' p) /\ gil s' = gil s;
  error_law e t s : gil s = true -> exists s', PyErr_SetString e t s = Done tt s' /\ same s s';
  ensure_law s : exists t s', PyGILState_Ensure s = Done t s' /\ gil_of t = gil s /\ gil s' = true /\
    (forall o, value s' o = value s o) /\ (forall o, refs s' o = refs s o) /\ (forall o, lent s o -> lent s' o);
  release_law t s : gil s = true -> exists s', PyGILState_Release t s = Done tt s' /\ gil s' = gil_of t /\
    (forall o, value s' o = value s o) /\ (forall o, refs s' o = refs s o) /\ (forall o, lent s o -> lent s' o);
  parse_k_law args s : gil s = true -> exists r s', parse_k args s = Done r s' /\ same s s';
  parse_s_law args s : gil s = true -> exists r s', parse_s args s = Done r s' /\ same s s';
  parse_O_law args s : gil s = true -> exists r s', parse_O args s = Done r s' /\ same s s' /\
    forall o, r = Some o -> o <> 0 /\ value s o <> None /\ lent s' o;
  parse_kOs_law args s : gil s = true -> exists r s', parse_kOs args s = Done r s' /\ same s s'
}.

(** ** Lemmas *)

Section lemmas.
Context {C I : Type} {P : Python I} {V : PyView I} {L : PythonLaws I}.
Implicit Types s : I.

Lemma same_refl s : same s s.
Proof. by constructor. Qed.

(** The module's references are the same, those that it owns, and those that are
    lent to it, stay what they are. *)
Record balanced (s s' : I) : Prop := {
  bal_refs o : refs s' o = refs s o;
  bal_value o v : value s o = Some v -> 0 < refs s o \/ lent s o -> value s' o = Some v;
  bal_lent o : lent s o -> lent s' o;
  bal_gil : gil s' = gil s
}.

(** The elements of a list are the numbers. *)
Definition numbers (s : I) (els xs : list Z) : Prop := Forall2 (fun o x => value s o = Some (PyInt x)) els xs.

Lemma py_decref_owned o s :
  gil s = true -> o <> 0 -> 0 < refs s o ->
  exists s', py_decref o s = Done tt s' /\
    (forall p, refs s' p = refs s p - (if decide (p = o) then 1 else 0)) /\
    (forall p, 0 < refs s' p \/ lent s p \/
       (exists l els, 0 < refs s' l /\ value s l = Some (PyList els) /\ p ∈ els) -> value s' p = value s p) /\
    (forall p, lent s p -> lent s' p) /\ gil s' = gil s.
Proof. intros Hg Ho Hr. unfold py_decref. rewrite (proj2 (Z.eqb_neq o 0) Ho). by apply decref_law. Qed.

(** A step of [connector_python_split_uuid]: the number is at the end of the list, and
    its own reference is given back. *)
Lemma split_step x l els xs s :
  gil s = true -> 0 <= x < 2 ^ 32 -> 0 < refs s l -> value s l = Some (PyList els) -> numbers s els xs ->
  exists o s1 s2 s3, PyLong_FromUnsignedLong x s = Done o s1 /\ PyList_Append l o s1 = Done 0 s2 /\
    py_decref o s2 = Done tt s3 /\ gil s3 = true /\ (forall p, refs s3 p = refs s p) /\
    value s3 l = Some (PyList (els ++ [o])) /\ numbers s3 (els ++ [o]) (xs ++ [x]) /\
    (forall p v, p <> l -> value s p = Some v -> 0 < refs s p \/ lent s p -> value s3 p = Some v) /\
    (forall p, lent s p -> lent s3 p).
Proof.
  intros Hg Hx Hl Hv Hn. destruct (long_law x s Hg) as (o & s1 & E1 & [N1 N2 N3 N4 N5 N6]); [lia|].
  rewrite Hg in N6. pose proof (N3 _ _ Hv) as Hv1.
  destruct (append_law l o s1 els N6 Hv1) as (s2 & E2 & A1 & A2 & A3 & A4 & A5); [congruence|]. rewrite N6 in A5.
  pose proof (refs_law s o) as Hpos. pose proof (refs_law s l) as Hposl.
  assert (Hol : l <> o) by congruence.
  assert (Ho : 0 < refs s2 o) by (rewrite A3, N4, decide_True by done; lia).
  destruct (py_decref_owned o s2 A5 N1 Ho) as (s3 & E3 & D1 & D2 & D3 & D4). rewrite A5 in D4.
  assert (Hrefs : forall p, refs s3 p = refs s p) by (intros p; rewrite D1, A3, N4; lia).
  assert (Hl3 : value s3 l = Some (PyList (els ++ [o]))).
  { rewrite D2; [done|]. left. by rewrite Hrefs. }
  assert (Hin : forall p v, p <> l -> value s1 p = Some v -> p ∈ els ++ [o] -> value s3 p = Some v).
  { intros p v Hp Hv2 Hin. rewrite D2, A2; [done..|]. right. right. exists l, (els ++ [o]). by rewrite Hrefs. }
  exists o, s1, s2, s3. split; [done|]. split; [done|]. split; [done|]. split; [done|]. split; [done|]. split; [done|].
  split; [|split; [|by auto]].
  - apply Forall2_app; [|constructor; [|done]].
    + apply Forall2_same_length_lookup_2; [by apply (Forall2_length _ _ _ Hn)|]. intros k p y Hk Hy.
      pose proof (Forall2_lookup_lr _ _ _ _ _ _ Hn Hk Hy) as Hp. cbn in Hp.
      apply Hin; [congruence | by apply N3 |]. apply elem_of_app. left. by eapply list_elem_of_lookup_2.
    + apply Hin; [congruence | done |]. apply elem_of_app. right. by left.
  - intros p v Hp Hv2 Hlive. rewrite D2, A2; [by apply N3 | done |].
    rewrite Hrefs. destruct Hlive; auto.
Qed.

(** Splitting an identifier into a list that the module owns. *)
Lemma split_spec n u l els s :
  uuid_wf u -> (n + length els = 4)%nat -> gil s = true -> 0 < refs s l -> value s l = Some (PyList els) ->
  numbers s els (take (length els) (elements u)) ->
  exists els' s', split_uuid_from n (length els) u l s = Done tt s' /\ gil s' = true /\
    (forall p, refs s' p = refs s p) /\ value s' l = Some (PyList els') /\ numbers s' els' (elements u) /\
    (forall p v, p <> l -> value s p = Some v -> 0 < refs s p \/ lent s p -> value s' p = Some v) /\
    (forall p, lent s p -> lent s' p).
Proof.
  intros [Hlen Hall]. revert els s. induction n as [|n IH]; intros els s Hn Hg Hl Hv Hnum.
  - exists els, s. rewrite take_ge in Hnum by lia. by auto 10.
  - cbn [split_uuid_from]. destruct (lookup_lt_is_Some_2 (elements u) (length els)) as [x Hx]; [lia|].
    assert (Hb : 0 <= x < 2 ^ 32) by (rewrite Forall_forall in Hall; apply Hall; by eapply list_elem_of_lookup_2).
    rewrite (nth_lookup_Some _ _ _ _ Hx).
    destruct (split_step x l els _ s Hg Hb Hl Hv Hnum) as (o & s1 & s2 & s3 & E1 & E2 & E3 & Hg3 & Hr3 & Hv3 & Hn3 & Hval3 & Hlent3).
    rewrite (bind_done _ _ _ _ _ E1), (bind_done _ _ _ _ _ E2), (bind_done _ _ _ _ _ E3).
    assert (Hlen' : length (els ++ [o]) = S (length els)) by (rewrite length_app; cbn; lia).
    destruct (IH (els ++ [o]) s3) as (els' & s' & E & Hg' & Hr' & Hv' & Hn' & Hval' & Hlent');
      [lia | done | by rewrite Hr3 | done | rewrite Hlen', (take_S_r _ _ x) by done; exact Hn3|].
    rewrite Hlen' in E. exists els', s'. split; [done|]. split; [done|]. split; [intros p; by rewrite Hr', Hr3|].
    split; [done|]. split; [done|]. split; [|auto].
    intros p v Hp Hvp Hlive. apply Hval'; [done | by apply Hval3 |]. rewrite Hr3. destruct Hlive; auto.
Qed.

Lemma same_trans s1 s2 s3 : same s1 s2 -> same s2 s3 -> same s1 s3.
Proof. intros [V1 R1 L1 G1] [V2 R2 L2 G2]. constructor; intros; [by rewrite V2 | by rewrite R2 | auto | by rewrite G2]. Qed.

Lemma numbers_same s s' els xs : same s s' -> numbers s els xs -> numbers s' els xs.
Proof. intros [Hv _ _ _] Hn. eapply Forall2_impl; [exact Hn|]. intros o x H. cbn. by rewrite Hv. Qed.

(** Assembling an identifier from a list of its four numbers. *)
Lemma assemble_spec n i u l els uu s :
  uuid_wf u -> (n + i = 4)%nat -> gil s = true -> value s l = Some (PyList els) -> numbers s els (elements u) ->
  length uu = 4%nat -> take i uu = map Some (take i (elements u)) ->
  exists s', assemble_uuid_from n i l uu s = Done (map Some (elements u)) s' /\ same s s'.
Proof.
  intros Hwf. pose proof Hwf as [Hlen Hall]. revert i uu s. induction n as [|n IH]; intros i uu s Hn Hg Hv Hnum Huu Htake.
  - exists s. split; [|by constructor]. rewrite !take_ge in Htake by lia. by rewrite Htake.
  - cbn [assemble_uuid_from]. destruct (lookup_lt_is_Some_2 (elements u) i) as [x Hx]; [lia|].
    destruct (lookup_lt_is_Some_2 els i) as [o Ho]; [rewrite (Forall2_length _ _ _ Hnum); lia|].
    destruct (item_law l (Z.of_nat i) s Hg) as (o' & s1 & E1 & S1 & Hitem); [congruence | lia|].
    pose proof (Forall2_lookup_lr _ _ _ _ _ _ Hnum Ho Hx) as Hval. cbn in Hval.
    rewrite (Hitem els o Hv) in E1 by (rewrite ?Nat2Z.id; congruence).
    rewrite (bind_done _ _ _ _ _ E1).
    rewrite (proj2 (Z.eqb_neq o 0)) by (intros ->; by rewrite null_law in Hval).
    assert (Hb : 0 <= x < 2 ^ 32) by (rewrite Forall_forall in Hall; apply Hall; by eapply list_elem_of_lookup_2).
    assert (Hval1 : value s1 o = Some (PyInt x)) by (by rewrite (same_value _ _ S1)).
    destruct (as_long_law o s1) as (m & s2 & E2 & S2 & _ & Hm); [by rewrite (same_gil _ _ S1) | congruence|].
    rewrite (Hm x Hval1) in E2 by lia. rewrite (bind_done _ _ _ _ _ E2), u32_small by done.
    pose proof (same_trans _ _ _ S1 S2) as S12.
    destruct (IH (S i) (<[i := Some x]> uu) s2) as (s' & E & S'); try done; try lia.
    + by rewrite (same_gil _ _ S12).
    + by rewrite (same_value _ _ S12).
    + by apply (numbers_same s).
    + by rewrite length_insert.
    + rewrite (take_S_r _ _ (Some x)), (take_S_r (elements u) _ x), map_app, take_insert_ge, Htake by
        (done || lia || (apply list_lookup_insert_eq; lia)). done.
    + exists s'. split; [done|]. by apply (same_trans _ s2).
Qed.

End lemmas.

(** ** References *)

Section references.
Context {C I : Type} {P : Python I} {V : PyView I} {L : PythonLaws I}.
Implicit Types s : py_module C I.

(** The references that the module owns besides the one to the registered
    function. *)
Definition balance (s : py_module C I) (o : Z) : Z :=
  refs (py_interp s) o - (if decide (o = py_trampoline s /\ o <> 0) then 1 else 0).

(** This thread holds the interpreter lock, and the module owns the registered
    function. *)
Record module_inv (s : py_module C I) : Prop := {
  mi_gil : gil (py_interp s) = true;
  mi_trampoline : py_trampoline s <> 0 -> 0 < refs (py_interp s) (py_trampoline s)
}.

(** An operation finishes, keeps the invariant, and leaves the caller with the
    references that [d] says. *)
Definition gives {A} (d : A -> Z -> Z) (m : M (py_module C I) A) : Prop :=
  forall s, module_inv s -> exists a s', m s = Done a s' /\ module_inv s' /\
    forall o, balance s' o = balance s o + d a o.

Definition nothing {A} (a : A) (o : Z) : Z := 0.
Definition its_result (r o : Z) : Z := if decide (o = r /\ o <> 0) then 1 else 0.

Lemma gives_ret {A} (a : A) d : (forall o, d a o = 0) -> gives d (ret a).
Proof. intros Hd s Hs. exists a, s. split; [done|]. split; [done|]. intros o. rewrite Hd. lia. Qed.

Lemma gives_bind {A B} (m : M (py_module C I) A) (k : A -> M (py_module C I) B) d :
  gives nothing m -> (forall a, gives d (k a)) -> gives d (bind m k).
Proof.
  intros Hm Hk s Hs. destruct (Hm s Hs) as (a & s1 & E1 & H1 & B1). destruct (Hk a s1 H1) as (b & s2 & E2 & H2 & B2).
  exists b, s2. rewrite (bind_done _ _ _ _ _ E1). split; [done|]. split; [done|]. intros o.
  rewrite B2, B1. unfold nothing. lia.
Qed.

Lemma in_py_done {A} (m : M I A) s a i :
  m (py_interp s) = Done a i -> in_py m s = Done a (PyModule (py_lib s) i (py_trampoline s)).
Proof. intros H. unfold in_py, zoom. by rewrite H. Qed.

(** An operation of the interpreter that leaves the references alone. *)
Lemma gives_same {A} (m : M I A) :
  (forall i, gil i = true -> exists a i', m i = Done a i' /\ same i i') -> gives nothing (in_py m).
Proof.
  intros H s [Hg Ht]. destruct (H (py_interp s) Hg) as (a & i & E & [_ R _ G]).
  exists a, (PyModule (py_lib s) i (py_trampoline s)). split; [by apply in_py_done|]. split.
  - constructor; cbn; [by rewrite G|]. intros H0. rewrite R. auto.
  - intros o. unfold balance, nothing. cbn. rewrite R. lia.
Qed.

Lemma gives_new i i' o v s :
  py_interp s = i -> module_inv s -> new_reference i i' o v ->
  module_inv (PyModule (py_lib s) i' (py_trampoline s)) /\
  forall p, balance (PyModule (py_lib s) i' (py_trampoline s)) p = balance s p + its_result o p.
Proof.
  intros <- [Hg Ht] [N1 N2 N3 N4 N5 N6]. split.
  - constructor; cbn; [by rewrite N6|]. intros H0. rewrite N4. specialize (Ht H0). case_decide; lia.
  - intros p. unfold balance, its_result. cbn. rewrite N4. repeat case_decide; try lia; naive_solver.
Qed.

Lemma gives_long n : 0 <= n < 2 ^ 64 -> gives its_result (in_py (PyLong_FromUnsignedLong n)).
Proof.
  intros Hn s Hs. destruct (long_law n (py_interp s) (mi_gil _ Hs) Hn) as (o & i & E & N).
  exists o, (PyModule (py_lib s) i (py_trampoline s)). split; [by apply in_py_done|]. by apply (gives_new _ _ _ _ s eq_refl Hs N).
Qed.

Lemma gives_text t : gives its_result (in_py (PyUnicode_FromString t)).
Proof.
  intros s Hs. destruct (unicode_law t (py_interp s) (mi_gil _ Hs)) as (o & i & E & N).
  exists o, (PyModule (py_lib s) i (py_trampoline s)). split; [by apply in_py_done|].
  destruct (valid_utf8 t); [by apply (gives_new _ _ _ _ s eq_refl Hs N)|].
  destruct N as [-> [_ R _ G]]. destruct Hs as [Hg Ht]. split.
  - constructor; cbn; [by rewrite G|]. intros H0. rewrite R. auto.
  - intros p. unfold balance, its_result. cbn. rewrite R.
    rewrite (decide_False (P := p = 0 /\ p <> 0)) by tauto. lia.
Qed.

Lemma gives_assoc {A B D} (m : M (py_module C I) A) (k : A -> M (py_module C I) B) (h : B -> M (py_module C I) D) d :
  gives d (let* a := m in let* b := k a in h b) -> gives d (let* b := (let* a := m in k a) in h b).
Proof. intros H s Hs. destruct (H s Hs) as (a & s' & E & Hr). exists a, s'. split; [|done]. unfold bind in *. by destruct (m s). Qed.

(** The library's functions finish. *)
Lemma gives_lib {A} (m : M C A) : (forall c, exists a c', m c = Done a c') -> gives nothing (in_lib m).
Proof.
  intros H s Hs. destruct (H (py_lib s)) as (a & c & E). exists a, (PyModule c (py_interp s) (py_trampoline s)).
  split; [unfold in_lib, zoom; by rewrite E|]. split; [by destruct Hs|]. intros o. unfold nothing, balance. cbn. lia.
Qed.

(** Giving up the registered function. *)
Lemma gives_release : gives nothing connector_python_shutdown_trampoline.
Proof.
  intros s [Hg Ht]. unfold connector_python_shutdown_trampoline. cbn [bind gets].
  unfold py_xdecref, when. destruct (Z.eqb_spec (py_trampoline s) 0) as [E0|E0]; cbn [negb].
  - exists tt, (set_py_trampoline 0 s). split; [done|]. split; [by constructor|]. intros o. unfold balance, nothing. cbn.
    rewrite E0. lia.
  - destruct (py_decref_owned (py_trampoline s) (py_interp s) Hg E0 (Ht E0)) as (i & E & R & _ & _ & G).
    exists tt, (PyModule (py_lib s) i 0). split; [|split].
    + by rewrite (bind_done _ _ _ _ _ (in_py_done _ _ _ _ E)).
    + constructor; cbn; [congruence | done].
    + intros o. unfold balance, nothing. cbn. rewrite R. repeat case_decide; try lia; naive_solver.
Qed.

(** Keeping a function that the caller lends, in an interpreter without a
    registered one. *)
Lemma keep_function callback i (c : C) :
  gil i = true -> callback <> 0 -> value i callback <> None ->
  exists i', py_incref callback i = Done tt i' /\
    module_inv (PyModule c i' callback) /\
    forall o, balance (PyModule c i' callback) o = refs i o.
Proof.
  intros Hg Hc Hv. destruct (incref_law callback i Hg Hv) as (i' & E & _ & R & _ & G).
  exists i'. split; [unfold py_incref; by rewrite (proj2 (Z.eqb_neq callback 0) Hc)|]. split.
  - constructor; cbn; [congruence|]. intros _. rewrite R, decide_True by done. pose proof (refs_law i callback). lia.
  - intros o. unfold balance. cbn. rewrite R. pose proof (refs_law i o). repeat case_decide; try lia; naive_solver.
Qed.

Lemma gives_none : gives its_result (in_py (py_incref Py_None) ;;; ret Py_None).
Proof.
  intros s [Hg Ht]. destruct (none_law (py_interp s)) as [Hn Hv].
  destruct (incref_law Py_None (py_interp s) Hg Hv) as (i & E & _ & R & _ & G).
  exists Py_None, (PyModule (py_lib s) i (py_trampoline s)). split; [|split].
  - unfold bind, in_py, zoom, py_incref. rewrite (proj2 (Z.eqb_neq _ 0) Hn). by rewrite E.
  - constructor; cbn; [congruence|]. intros H0. rewrite R. specialize (Ht H0). case_decide; lia.
  - intros o. unfold balance, its_result. cbn. rewrite R. repeat case_decide; try lia; naive_solver.
Qed.

Lemma gives_register args : gives its_result (connector_python_register_trampoline args).
Proof.
  intros s Hs. pose proof Hs as [Hg Ht]. destruct (parse_O_law args (py_interp s) Hg) as (r & i & E & S & Hr).
  unfold connector_python_register_trampoline. rewrite (bind_done _ _ _ _ _ (in_py_done _ s _ _ E)).
  destruct S as [SV SR SL SG]. rewrite Hg in SG.
  assert (Hb : forall o, refs i o = refs (py_interp s) o) by done.
  destruct r as [callback|].
  - destruct (Hr callback eq_refl) as (Hc & Hv & Hl). cbn [bind gets py_trampoline].
    destruct (Z.eqb_spec (py_trampoline s) 0) as [E0|E0]; cbn [negb when].
    + destruct (keep_function callback i (py_lib s) SG Hc) as (i' & E' & Hinv & Hbal); [by rewrite SV|].
      destruct (gives_none _ Hinv) as (a & s' & E3 & H3 & B3). exists a, s'. split; [|split; [done|]].
      * rewrite <- E3. unfold bind, ret, in_py, zoom, modify. cbn -[py_incref]. rewrite E0. cbn -[py_incref]. by rewrite E'.
      * intros o. rewrite B3, Hbal, Hb. unfold balance. rewrite (decide_False (P := o = py_trampoline s /\ o <> 0)) by lia. lia.
    + destruct (py_decref_owned (py_trampoline s) i SG E0) as (i1 & E1 & R1 & V1 & _ & G1); [rewrite Hb; auto|].
      destruct (keep_function callback i1 (py_lib s)) as (i' & E' & Hinv & Hbal); [congruence | done | |].
      { rewrite V1 by auto. by rewrite SV. }
      destruct (gives_none _ Hinv) as (a & s' & E3 & H3 & B3). exists a, s'. split; [|split; [done|]].
      * rewrite <- E3. unfold bind, ret, in_py, zoom, modify. cbn -[py_incref py_decref].
        rewrite (proj2 (Z.eqb_neq _ 0) E0). cbn -[py_incref py_decref]. rewrite E1. cbn -[py_incref]. by rewrite E'.
      * intros o. rewrite B3, Hbal, R1, Hb. unfold balance. repeat case_decide; try lia; naive_solver.
  - cbn [bind ret]. destruct (gives_none (PyModule (py_lib s) i (py_trampoline s))) as (a & s' & E3 & H3 & B3).
    { constructor; cbn; [done|]. intros H0. rewrite Hb. auto. }
    exists a, s'. split; [exact E3|]. split; [done|]. intros o. rewrite B3. unfold balance. cbn. by rewrite Hb.
Qed.

Lemma gives_opened code context : (forall c, context = Some c -> 0 <= c < 2 ^ 32) -> gives its_result (opened (C := C) code context).
Proof.
  intros Hc. unfold opened. destruct (code =? SUBSTANCE_CONNECTOR_SUCCESS).
  - apply gives_long. destruct context as [c|]; cbn; [specialize (Hc c eq_refl)|]; lia.
  - apply gives_bind; [|intros a; by apply gives_ret; intros o; unfold its_result; rewrite decide_False by tauto].
    apply gives_same. intros i Hi. destruct (error_law PyExc_ConnectionError (text "Failed to open TCP connection.") i Hi)
      as (i' & E & S). by exists tt, i'.
Qed.

(** The functions of the library that the module calls finish with codes. *)
Record library_answers (table : substance_connector_function_table C) : Prop := {
  la_version c : exists v c', ft_version table c = Done v c';
  la_init n c : exists r c', ft_init table n c = Done r c' /\ 0 <= r < 2 ^ 32;
  la_shutdown c : exists r c', ft_shutdown table c = Done r c' /\ 0 <= r < 2 ^ 32;
  la_add f c : exists r c', ft_add_trampoline table f c = Done r c';
  la_remove f c : exists r c', ft_remove_trampoline table f c = Done r c';
  la_broadcast c : exists r c', ft_broadcast_tcp table c = Done r c' /\ 0 <= r < 2 ^ 32;
  la_open p c : exists r k c', ft_open_tcp table p true c = Done (r, k) c' /\ forall x, k = Some x -> 0 <= x < 2 ^ 32;
  la_open_default c : exists r k c', ft_open_default_tcp table true c = Done (r, k) c' /\
    forall x, k = Some x -> 0 <= x < 2 ^ 32
}.

(** As [gives_bind], for an operation of the library whose answer has a
    property. *)
Lemma gives_lib_bind {A B} (m : M C A) (Q : A -> Prop) (k : A -> M (py_module C I) B) d :
  (forall c, exists a c', m c = Done a c' /\ Q a) -> (forall a, Q a -> gives d (k a)) -> gives d (bind (in_lib m) k).
Proof.
  intros Hm Hk s Hs. destruct (Hm (py_lib s)) as (a & c & E & Ha).
  destruct (Hk a Ha (PyModule c (py_interp s) (py_trampoline s))) as (b & s2 & E2 & H2 & B2); [by destruct Hs|].
  exists b, s2. split; [|by split]. unfold bind, in_lib, zoom in *. by rewrite E.
Qed.

Lemma its_result_self o : o <> 0 -> its_result o o = 1.
Proof. intros H. unfold its_result. by rewrite decide_True. Qed.

Lemma its_result_bound o p : 0 <= its_result o p <= 1.
Proof. unfold its_result. case_decide; lia. Qed.

Lemma new_result i i' o v : new_reference i i' o v -> forall p, refs i' p = refs i p + its_result o p.
Proof.
  intros [N1 _ _ N4 _ _] p. rewrite N4. unfold its_result. repeat case_decide; try lia; naive_solver.
Qed.

Lemma release_reference o i :
  gil i = true -> o <> 0 -> 0 < refs i o ->
  exists i', py_decref o i = Done tt i' /\ gil i' = true /\ forall p, refs i' p = refs i p - its_result o p.
Proof.
  intros Hg Ho Hr. destruct (py_decref_owned o i Hg Ho Hr) as (i' & E & R & _ & _ & G). exists i'.
  split; [done|]. split; [congruence|]. intros p. rewrite R. unfold its_result. repeat case_decide; try lia; naive_solver.
Qed.

Lemma release_result r i :
  gil i = true -> (r <> 0 -> 0 < refs i r) ->
  exists i', py_xdecref r i = Done tt i' /\ gil i' = true /\ forall p, refs i' p = refs i p - its_result r p.
Proof.
  intros Hg Hr. unfold py_xdecref, when. destruct (Z.eqb_spec r 0) as [->|Hne]; cbn [negb].
  - exists i. split; [done|]. split; [done|]. intros p. unfold its_result. rewrite decide_False by tauto. lia.
  - apply release_reference; auto.
Qed.

(** The objects that the trampoline makes of its arguments; a text that is not
    UTF-8 gives no object. *)
Lemma build_arguments context type message i :
  gil i = true -> 0 <= context < 2 ^ 32 -> uuid_wf type ->
  exists c m u els i2 i3 i4 i5,
    PyLong_FromUnsignedLong context i = Done c i2 /\ PyUnicode_FromString message i2 = Done m i3 /\
    PyList_New 0 i3 = Done u i4 /\ connector_python_split_uuid type u i4 = Done tt i5 /\
    gil i5 = true /\ c <> 0 /\ u <> 0 /\ value i5 c = Some (PyInt context) /\
    value i5 u = Some (PyList els) /\ numbers i5 els (elements type) /\
    (if valid_utf8 message then m <> 0 /\ value i5 m = Some (PyStr message) else m = 0) /\
    forall p, refs i5 p = refs i p + its_result c p + its_result u p + its_result m p.
Proof.
  intros Hg Hc Hwf. destruct (long_law context i Hg) as (c & i2 & E2 & N2); [lia|].
  pose proof (new_gil _ _ _ _ N2) as G2. rewrite Hg in G2.
  destruct (unicode_law message i2 G2) as (m & i3 & E3 & N3).
  assert (H3 : gil i3 = true /\ (forall p v, value i2 p = Some v -> value i3 p = Some v) /\
    (forall p, refs i3 p = refs i2 p + its_result m p) /\
    (if valid_utf8 message then m <> 0 /\ value i3 m = Some (PyStr message) else m = 0)).
  { destruct (valid_utf8 message).
    - pose proof (new_result _ _ _ _ N3). destruct N3 as [A1 A2 A3 _ _ A6]. rewrite A6. auto.
    - destruct N3 as [-> [A1 A2 _ A4]]. rewrite A4. split; [done|]. split; [intros p v; by rewrite A1|]. split; [|done].
      intros p. rewrite A2. unfold its_result. rewrite decide_False by tauto. lia. }
  destruct H3 as (G3 & V3 & R3 & Hm). destruct (list_law i3 G3) as (u & i4 & E4 & N4 & Hfresh).
  pose proof (new_gil _ _ _ _ N4) as G4. rewrite G3 in G4. pose proof (new_result _ _ _ _ N4) as R4.
  pose proof (new_result _ _ _ _ N2) as R2. pose proof (new_null _ _ _ _ N2) as Hc0. pose proof (new_null _ _ _ _ N4) as Hu0.
  pose proof (V3 _ _ (new_value _ _ _ _ N2)) as Hv3.
  pose proof (refs_law i) as Hpos. pose proof (its_result_bound c) as Bc. pose proof (its_result_bound m) as Bm.
  pose proof (its_result_bound u) as Bu. pose proof (its_result_self c Hc0) as Sc. pose proof (its_result_self u Hu0) as Su.
  assert (R : forall p, refs i4 p = refs i p + its_result c p + its_result u p + its_result m p).
  { intros p. rewrite R4, R3, R2. lia. }
  destruct (split_spec 4 type u [] i4 Hwf) as (els & i5 & E5 & G5 & R5 & V5 & Hn & K5 & _);
    [done | done | | by apply (new_value _ _ _ _ N4) | constructor |].
  { rewrite R. specialize (Hpos u). specialize (Bc u). specialize (Bm u). lia. }
  exists c, m, u, els, i2, i3, i4, i5. repeat (split; [done|]). split; [|split; [done|split; [done|split]]].
  - apply K5; [congruence | by apply (new_others _ _ _ _ N4) |]. left. rewrite R.
    specialize (Hpos c). specialize (Bu c). specialize (Bm c). lia.
  - destruct (valid_utf8 message); [|done]. destruct Hm as [Hm0 Hmv]. split; [done|].
    apply K5; [congruence | by apply (new_others _ _ _ _ N4) |]. left. rewrite R, (its_result_self m) by done.
    specialize (Hpos m). specialize (Bu m). specialize (Bc m). lia.
  - intros p. by rewrite R5, R.
Qed.

End references.

(** Run an operation of the module, of which the hypothesis says what the next
    call gives. *)
Ltac py_start E :=
  unfold when, bind, gets, in_py, in_lib, zoom, ret;
  cbn -[until_null py_incref py_decref py_xdecref connector_python_split_uuid connector_python_assemble_uuid]; rewrite E;
  cbn -[until_null py_incref py_decref py_xdecref connector_python_split_uuid connector_python_assemble_uuid].
Ltac py_run E :=
  cbn -[until_null py_incref py_decref py_xdecref connector_python_split_uuid connector_python_assemble_uuid]; rewrite E;
  cbn -[until_null py_incref py_decref py_xdecref connector_python_split_uuid connector_python_assemble_uuid].

(** ** What the module does *)

Section properties.
Context {C I : Type} {P : Python I} {V : PyView I} {L : PythonLaws I}.
Variables (table : substance_connector_function_table C) (trampoline_address ulong_bits : Z).

Lemma gives_code {A} (m : M C A) (code : A -> Z) :
  (forall c, exists a c', m c = Done a c' /\ 0 <= code a < 2 ^ 32) ->
  gives its_result (let* a := in_lib m in in_py (I := I) (PyLong_FromUnsignedLong (code a))).
Proof. intros H. apply (gives_lib_bind m (fun a => 0 <= code a < 2 ^ 32)); [done|]. intros a Ha. apply gives_long. lia. Qed.

Lemma gives_open (m : M C (Z * option Z)) :
  (forall c, exists r k c', m c = Done (r, k) c' /\ forall x, k = Some x -> 0 <= x < 2 ^ 32) ->
  gives its_result (let* r := in_lib m in opened (I := I) (fst r) (snd r)).
Proof.
  intros H. apply (gives_lib_bind m (fun a => forall x, snd a = Some x -> 0 <= x < 2 ^ 32)).
  - intros c. destruct (H c) as (r & k & c' & E & Hk). by exists (r, k), c'.
  - intros [r k] Hk. by apply gives_opened.
Qed.

(** C34: Every method of the module but the sending of messages, called by the
    interpreter with any arguments: it returns; what it hands to Python is one
    reference to its result (none for NULL); and otherwise the module owns the
    references that it owned, and exactly one to the function that is registered
    then, whatever was registered before. *)
Theorem python_methods_are_balanced (Hlib : library_answers table) name m args (s : py_module C I)
    (Hm : (name, m) ∈ connector_python_module_methods table trampoline_address ulong_bits)
    (Hname : name <> text "write_message") (Hs : module_inv s) :
  exists r s', m args s = Done r s' /\ module_inv s' /\ forall o, balance s' o = balance s o + its_result r o.
Proof.
  destruct Hlib as [H0 H1 H2 H3 H4 H5 H6 H7].
  assert (Hnone : forall o, its_result 0 o = 0) by (intros o; unfold its_result; by rewrite decide_False by tauto).
  revert s Hs. change (gives its_result (m args)).
  assert (Hcases : name = text "write_message" \/ m ∈ [connector_python_version table;
      connector_python_init table trampoline_address; connector_python_shutdown table trampoline_address;
      connector_python_register_trampoline; connector_python_open_tcp table;
      connector_python_open_default_tcp table; connector_python_broadcast_tcp table]).
  { unfold connector_python_module_methods in Hm. rewrite !elem_of_cons, elem_of_nil in Hm. rewrite !elem_of_cons.
    repeat destruct Hm as [Hm|Hm]; try (injection Hm as -> ->; tauto). done. }
  destruct Hcases as [->|Hc]; [done|]. rewrite !elem_of_cons, elem_of_nil in Hc.
  destruct Hc as [->|[->|[->|[->|[->|[->|[->|[]]]]]]]].
  - apply gives_bind; [apply gives_lib, H0 | intros v; apply gives_text].
  - unfold connector_python_init. apply gives_bind; [apply gives_same; intros i; apply parse_s_law|].
    intros [n|]; [|exact (gives_long 0 ltac:(lia))]. apply gives_assoc, (gives_lib_bind _ (fun r => 0 <= r < 2 ^ 32)); [apply H1|].
    intros r Hr. apply gives_assoc, gives_bind; [apply gives_lib, H3|]. intros _. exact (gives_long r ltac:(lia)).
  - apply gives_bind; [apply gives_lib, H4|]. intros _. apply gives_bind; [apply gives_release|]. intros _.
    exact (gives_code _ id H2).
  - apply gives_register.
  - apply gives_bind; [apply gives_same; intros i; apply parse_k_law|]. intros [p|]; [by apply gives_open|].
    apply gives_bind; [|intros []; by apply gives_ret].
    apply gives_same. intros i Hi. destruct (error_law PyExc_TypeError (text "A port number must be passed in") i Hi)
      as (i' & E & S). by exists tt, i'.
  - by apply gives_open.
  - exact (gives_code _ id H5).
Qed.

(** An identifier survives the way into Python and back: the list that the
    trampoline makes of it has four elements, from which sending a message
    assembles the same identifier, with every element assigned; the module is left
    with the list as its only new reference. *)
Theorem python_uuid_roundtrip u (i : I) (Hu : uuid_wf u) (Hg : gil i = true) :
  exists l i1 i2 i3, PyList_New 0 i = Done l i1 /\ connector_python_split_uuid u l i1 = Done tt i2 /\
    connector_python_assemble_uuid l [None; None; None; None] i2 = Done (map Some (elements u)) i3 /\
    forall o, refs i3 o = refs i o + its_result l o.
Proof.
  destruct (list_law i Hg) as (l & i1 & E1 & N & _). pose proof (new_result _ _ _ _ N) as R.
  destruct N as [N1 N2 _ _ _ N6]. rewrite Hg in N6.
  destruct (split_spec 4 u l [] i1 Hu) as (els & i2 & E2 & G2 & R2 & V2 & Hn & _);
    [done | done | | done | constructor |].
  { rewrite R, its_result_self by done. pose proof (refs_law i l). lia. }
  destruct (assemble_spec 4 0 u l els [None; None; None; None] i2) as (i3 & E3 & [_ R3 _ _]); try done.
  exists l, i1, i2, i3. split; [done|]. split; [done|]. split.
  - unfold connector_python_assemble_uuid. by rewrite (proj2 (Z.eqb_neq l 0) N1).
  - intros o. by rewrite R3, R2, R.
Qed.

(** Sending a message from Python.  Where [unsigned long] has 32 bits, a call
    with a number, a list of four numbers and a text forwards exactly these to the
    library and answers the library's code, with the references balanced as for
    the other methods.  Where it has 64, the same call writes past
    the variable that holds the number of the context. *)
Theorem python_write_forwards args context l els u message code (c' : C) (s : py_module C I) i
    (Hargs : parse_kOs args (py_interp s) = Done (Some (context, Some l, Some message)) i)
    (Hs : module_inv s) (Hl : value (py_interp s) l = Some (PyList els)) (Hu : uuid_wf u)
    (Hels : numbers (py_interp s) els (elements u))
    (Hlib : ft_write_message table context (Some u) message (py_lib s) = Done code c') (Hcode : 0 <= code < 2 ^ 32) :
  (ulong_bits = 32 -> exists r s', connector_python_write_message table ulong_bits args s = Done r s' /\
     py_lib s' = c' /\ value (py_interp s') r = Some (PyInt code) /\ module_inv s' /\
     forall o, balance s' o = balance s o + its_result r o) /\
  (ulong_bits = 64 -> connector_python_write_message table ulong_bits args s = Stuck OutOfBounds).
Proof.
  destruct (parse_kOs_law args (py_interp s) (mi_gil _ Hs)) as (r & i0 & E & S).
  rewrite Hargs in E. injection E as <- <-. split; intros ->.
  2:{ unfold connector_python_write_message. py_start Hargs. reflexivity. }
  assert (Hl0 : l <> 0) by (intros ->; by rewrite null_law in Hl).
  destruct (assemble_spec 4 0 u l els [None; None; None; None] i) as (i2 & E2 & S2); try done.
  { by rewrite (same_gil _ _ S), (mi_gil _ Hs). }
  { by rewrite (same_value _ _ S). }
  { by apply (numbers_same (py_interp s)). }
  pose proof (same_trans _ _ _ S S2) as S02.
  destruct (long_law code i2) as (o & i3 & E3 & N); [by rewrite (same_gil _ _ S02), (mi_gil _ Hs) | lia |].
  assert (Hinv : module_inv (PyModule c' i2 (py_trampoline s))).
  { destruct Hs as [Hg Ht], S02 as [_ R _ G]. constructor; cbn; [congruence|]. intros H0. rewrite R. auto. }
  destruct (gives_new _ _ _ _ _ eq_refl Hinv N) as [Hinv' Hbal].
  exists o, (PyModule c' i3 (py_trampoline s)). split; [|split; [done|split; [by apply N|split; [exact Hinv'|]]]].
  - unfold connector_python_write_message. py_start Hargs.
    assert (E2' : connector_python_assemble_uuid l [None; None; None; None] i = Done (map Some (elements u)) i2)
      by (unfold connector_python_assemble_uuid; by rewrite (proj2 (Z.eqb_neq l 0) Hl0)).
    py_run E2'. unfold assigned_uuid.
    assert (Hm : mapM id (map Some (elements u)) = Some (elements u)).
    { clear. induction (elements u) as [|x l IH]; [done|]. cbn. cbn in IH. by rewrite IH. }
    rewrite Hm. unfold ret. destruct u as [xs]. cbn in Hlib |- *. rewrite Hlib. cbn. by rewrite E3.
  - intros p. rewrite Hbal. unfold balance. cbn. by rewrite (same_refs _ _ S02).
Qed.

(** Starting reports success when it did nothing: called with arguments that
    are not a name, the library is not touched and the result is the number of
    success. *)
Theorem python_init_hides_failure args (s : py_module C I) i (Hg : gil (py_interp s) = true)
    (Hargs : parse_s args (py_interp s) = Done None i) :
  exists r s', connector_python_init table trampoline_address args s = Done r s' /\ py_lib s' = py_lib s /\
    value (py_interp s') r = Some (PyInt SUBSTANCE_CONNECTOR_SUCCESS).
Proof.
  destruct (parse_s_law args (py_interp s) Hg) as (x & i0 & E & [_ _ _ G]). rewrite Hargs in E. injection E as <- <-.
  rewrite Hg in G. destruct (long_law 0 i G) as (o & i1 & E1 & N); [lia|].
  exists o, (PyModule (py_lib s) i1 (py_trampoline s)). split; [|split; [done | by apply N]].
  unfold connector_python_init. py_start Hargs. py_run E1. reflexivity.
Qed.

(** The trampoline is registered with the library whether or not the library was
    started, so once more with every refused start. *)
Theorem python_init_registers_always args name code added (c1 c2 : C) (s : py_module C I) i
    (Hg : gil (py_interp s) = true) (Hargs : parse_s args (py_interp s) = Done (Some name) i)
    (Hinit : ft_init table name (py_lib s) = Done code c1) (Hcode : 0 <= code < 2 ^ 32)
    (Hadd : ft_add_trampoline table trampoline_address c1 = Done added c2) :
  exists r s', connector_python_init table trampoline_address args s = Done r s' /\ py_lib s' = c2 /\
    value (py_interp s') r = Some (PyInt code).
Proof.
  destruct (parse_s_law args (py_interp s) Hg) as (x & i0 & E & [_ _ _ G]). rewrite Hargs in E. injection E as <- <-.
  rewrite Hg in G. destruct (long_law code i G) as (o & i1 & E1 & N); [lia|].
  exists o, (PyModule c2 i1 (py_trampoline s)). split; [|split; [done | by apply N]].
  unfold connector_python_init. py_start Hargs. py_run Hinit. py_run Hadd. py_run E1. reflexivity.
Qed.

End properties.

Section calls.
Context {C I : Type} {P : Python I} {V : PyView I} {L : PythonLaws I}.
Variable call_object : Z -> list Z -> M (py_module C I) Z.

(** The call of the registered function finishes, leaves the caller with its
    result, and keeps the interpreter lock. *)
Definition call_returns (f : Z) (args : list Z) (s1 : py_module C I) : Prop :=
  exists r s2, call_object f args s1 = Done r s2 /\ gil (py_interp s2) = true /\
    forall o, refs (py_interp s2) o = refs (py_interp s1) o + its_result r o.

(** Giving back the objects behind the call. *)
Lemma release_all r c m u (base : Z -> Z) i :
  gil i = true -> c <> 0 -> m <> 0 -> u <> 0 -> (forall o, 0 <= base o) ->
  (forall o, refs i o = base o + its_result c o + its_result u o + its_result m o + its_result r o) ->
  exists i1 i2 i3 i4, py_xdecref r i = Done tt i1 /\ py_decref c i1 = Done tt i2 /\ py_decref m i2 = Done tt i3 /\
    py_decref u i3 = Done tt i4 /\ gil i4 = true /\ forall o, refs i4 o = base o.
Proof.
  intros Hg Hc Hm Hu Hb Hr.
  assert (Hpos : forall o, 0 <= base o /\ 0 <= its_result c o /\ 0 <= its_result u o /\ 0 <= its_result m o)
    by (intros o; pose proof (its_result_bound c o); pose proof (its_result_bound u o); pose proof (its_result_bound m o);
        specialize (Hb o); lia).
  destruct (release_result r i Hg) as (i1 & E1 & G1 & R1).
  { intros H0. rewrite Hr, (its_result_self r) by done. specialize (Hpos r). lia. }
  destruct (release_reference c i1 G1 Hc) as (i2 & E2 & G2 & R2).
  { rewrite R1, Hr, (its_result_self c) by done. specialize (Hpos c). lia. }
  destruct (release_reference m i2 G2 Hm) as (i3 & E3 & G3 & R3).
  { rewrite R2, R1, Hr, (its_result_self m) by done. specialize (Hpos m). lia. }
  destruct (release_reference u i3 G3 Hu) as (i4 & E4 & G4 & R4).
  { rewrite R3, R2, R1, Hr, (its_result_self u) by done. specialize (Hpos u). lia. }
  exists i1, i2, i3, i4. repeat (split; [done|]). intros o. rewrite R4, R3, R2, R1, Hr. lia.
Qed.

Lemma until_null_objects l : Forall (fun o => o <> 0) l -> until_null l = l.
Proof. induction 1 as [|o l Ho _ IH]; [done|]. cbn. by rewrite (proj2 (Z.eqb_neq o 0) Ho), IH. Qed.

(** C33: A message reaches the registered Python function.  Called by any thread of
    the library, with a text that is UTF-8, the trampoline takes the interpreter
    lock, calls the function once with the number of the context, a list of the
    four numbers of the identifier and the text, and returns with the lock as it
    was and with exactly the references that the module had before. *)
Theorem trampoline_calls_python context type message (s : py_module C I) (Hc : 0 <= context < 2 ^ 32)
    (Htype : uuid_wf type) (Htext : valid_utf8 message = true) (Hf : py_trampoline s <> 0)
    (Hcall : forall args s1, gil (py_interp s1) = true -> call_returns (py_trampoline s) args s1) :
  exists c u m els s1 r s2 s',
    call_object (py_trampoline s) [c; u; m] s1 = Done r s2 /\ gil (py_interp s1) = true /\ py_lib s1 = py_lib s /\
    value (py_interp s1) c = Some (PyInt context) /\ value (py_interp s1) u = Some (PyList els) /\
    numbers (py_interp s1) els (elements type) /\ value (py_interp s1) m = Some (PyStr message) /\
    connector_python_trampoline call_object context type message s = Done tt s' /\
    (forall o, refs (py_interp s') o = refs (py_interp s) o) /\ gil (py_interp s') = gil (py_interp s) /\
    py_lib s' = py_lib s2 /\ py_trampoline s' = py_trampoline s2.
Proof.
  destruct (ensure_law (py_interp s)) as (t & i1 & E1 & Ht & G1 & _ & R1 & _).
  destruct (build_arguments context type message i1 G1 Hc Htype)
    as (c & m & u & els & i2 & i3 & i4 & i5 & E2 & E3 & E4 & E5 & G5 & Hc0 & Hu0 & Vc & Vu & Vn & Hm & R5).
  rewrite Htext in Hm. destruct Hm as [Hm0 Vm].
  set (s1 := PyModule (py_lib s) i5 (py_trampoline s)).
  destruct (Hcall [c; u; m] s1 G5) as (r & s2 & Er & Gr & Rr).
  destruct (release_all r c m u (refs (py_interp s)) (py_interp s2) Gr Hc0 Hm0 Hu0) as (j1 & j2 & j3 & j4 & D1 & D2 & D3 & D4 & G4 & R4);
    [apply refs_law | intros o; by rewrite Rr; cbn; rewrite R5, R1|].
  destruct (release_law t j4 G4) as (j5 & D5 & G6 & _ & R6 & _).
  exists c, u, m, els, s1, r, s2, (PyModule (py_lib s2) j5 (py_trampoline s2)). repeat (split; [done|]).
  split; [|split; [|split; [cbn; congruence|done]]].
  - unfold connector_python_trampoline. py_start E1. rewrite (proj2 (Z.eqb_neq _ 0) Hf). py_run E2. py_run E3. py_run E4.
    py_run E5. rewrite until_null_objects by (repeat constructor; done). fold s1. py_run Er. py_run D1. py_run D2.
    py_run D3. py_run D4. py_run D5. reflexivity.
  - intros o. cbn. by rewrite R6, R4.
Qed.

(** A peer can bring a Python program down: for a message whose text is not
    UTF-8 no object is made of the text, the call gets its argument list cut off
    there, and then the reference of the object that does not exist is given back,
    through a NULL pointer. *)
Theorem undecodable_message_crashes context type message (s : py_module C I) (Hc : 0 <= context < 2 ^ 32)
    (Htype : uuid_wf type) (Htext : valid_utf8 message = false) (Hf : py_trampoline s <> 0)
    (Hcall : forall args s1, gil (py_interp s1) = true -> call_returns (py_trampoline s) args s1) :
  connector_python_trampoline call_object context type message s = Stuck NullDeref.
Proof.
  destruct (ensure_law (py_interp s)) as (t & i1 & E1 & Ht & G1 & _ & R1 & _).
  destruct (build_arguments context type message i1 G1 Hc Htype)
    as (c & m & u & els & i2 & i3 & i4 & i5 & E2 & E3 & E4 & E5 & G5 & Hc0 & Hu0 & Vc & Vu & Vn & Hm & R5).
  rewrite Htext in Hm. subst m. set (s1 := PyModule (py_lib s) i5 (py_trampoline s)).
  destruct (Hcall [c; u] s1 G5) as (r & s2 & Er & Gr & Rr).
  assert (Hr : forall o, 0 <= refs (py_interp s) o /\ 0 <= its_result c o /\ 0 <= its_result u o /\ 0 <= its_result r o)
    by (intros o; pose proof (its_result_bound c o); pose proof (its_result_bound u o); pose proof (its_result_bound r o);
        pose proof (refs_law (py_interp s) o); lia).
  assert (R : forall o, refs (py_interp s2) o = refs (py_interp s) o + its_result c o + its_result u o + its_result r o).
  { intros o. rewrite Rr. cbn. rewrite R5, R1. unfold its_result at 3. rewrite decide_False by tauto. lia. }
  destruct (release_result r _ Gr) as (j1 & D1 & G2 & R2).
  { intros H0. rewrite R, (its_result_self r) by done. specialize (Hr r). lia. }
  destruct (release_reference c j1 G2 Hc0) as (j2 & D2 & _ & _).
  { rewrite R2, R, (its_result_self c) by done. specialize (Hr c). lia. }
  unfold connector_python_trampoline. py_start E1. rewrite (proj2 (Z.eqb_neq _ 0) Hf). py_run E2. py_run E3. py_run E4.
  py_run E5.
  assert (Hcut : until_null [c; u; 0] = [c; u])
    by (cbn; by rewrite (proj2 (Z.eqb_neq c 0) Hc0), (proj2 (Z.eqb_neq u 0) Hu0)).
  rewrite Hcut. fold s1. py_run Er. py_run D1. py_run D2. reflexivity.
Qed.

End calls.

(** ** An interpreter for the examples *)

(** It never frees an object, and decodes ASCII only.  Object 1 is None, the others
    are numbered from 2. *)
Record sim := Sim { sim_objects : list pyval; sim_counts : gmap Z nat; sim_gil : bool }.

Definition find_object (objects : list pyval) (o : Z) : option pyval :=
  if o =? 1 then Some PyOther else if 1 <? o then objects !! Z.to_nat (o - 2) else None.
Definition sim_value (s : sim) : Z -> option pyval := find_object (sim_objects s).
Definition sim_count (s : sim) (o : Z) : nat := default 0%nat (sim_counts s !! o).
Definition sim_new (v : pyval) : M sim Z := fun s =>
  let o := Z.of_nat (length (sim_objects s)) + 2 in
  Done o (Sim (sim_objects s ++ [v]) (<[o := S (sim_count s o)]> (sim_counts s)) (sim_gil s)).
Definition sim_items (s : sim) (o : Z) : list Z := match sim_value s o with Some (PyList l) => l | _ => [] end.
Definition ascii_text (t : list Z) : bool := forallb (fun c => (0 <=? c) && (c <? 128)) t.

#[export] Instance sim_python : Python sim := {
  Py_None := 1;
  PyLong_FromUnsignedLong n := sim_new (PyInt n);
  PyLong_AsUnsignedLong o s := Done (match sim_value s o with Some (PyInt n) => u64 n | _ => 2 ^ 64 - 1 end) s;
  PyUnicode_FromString t := if ascii_text t then sim_new (PyStr t) else ret 0;
  PyList_New _ := sim_new (PyList []);
  PyList_GetItem l i s := Done (default 0 (sim_items s l !! Z.to_nat i)) s;
  PyList_Append l o s :=
    match sim_value s l with
    | Some (PyList els) =>
        Done 0 (Sim (<[Z.to_nat (l - 2) := PyList (els ++ [o])]> (sim_objects s)) (sim_counts s) (sim_gil s))
    | _ => Done (-1) s
    end;
  Py_INCREF o s := Done tt (Sim (sim_objects s) (<[o := S (sim_count s o)]> (sim_counts s)) (sim_gil s));
  Py_DECREF o s :=
    match sim_count s o with
    | S n => Done tt (Sim (sim_objects s) (<[o := n]> (sim_counts s)) (sim_gil s))
    | O => Stuck InvalidFree
    end;
  PyErr_SetString _ _ := ret tt;
  PyGILState_Ensure s := Done (Z.b2z (sim_gil s)) (Sim (sim_objects s) (sim_counts s) true);
  PyGILState_Release t s := Done tt (Sim (sim_objects s) (sim_counts s) (t =? 1));
  parse_k args s :=
    Done (match sim_value s <$> sim_items s args with [Some (PyInt n)] => Some (u64 n) | _ => None end) s;
  parse_s args s := Done (match sim_value s <$> sim_items s args with [Some (PyStr t)] => Some t | _ => None end) s;
  parse_O args s :=
    Done (match sim_items s args with [o] => match sim_value s o with Some _ => Some o | None => None end | _ => None end) s;
  parse_kOs args s :=
    Done (match sim_items s args with
          | [k; o; m] =>
              match sim_value s k, sim_value s m with
              | Some (PyInt n), Some (PyStr t) => Some (u64 n, Some o, Some t)
              | _, _ => None
              end
          | _ => None
          end) s
}.

#[export] Instance sim_view : PyView sim := {
  value := sim_value;
  refs s o := Z.of_nat (sim_count s o);
  lent _ _ := True;
  gil := sim_gil;
  gil_of t := t =? 1;
  valid_utf8 := ascii_text
}.

Lemma find_new objects v :
  find_object (objects ++ [v]) (Z.of_nat (length objects) + 2) = Some v /\
  find_object objects (Z.of_nat (length objects) + 2) = None.
Proof.
  unfold find_object. set (o := Z.of_nat (length objects) + 2).
  rewrite (proj2 (Z.eqb_neq o 1)), (proj2 (Z.ltb_lt 1 o)) by lia.
  replace (Z.to_nat (o - 2)) with (length objects) by lia.
  split; [by rewrite list_lookup_middle | by apply lookup_ge_None_2].
Qed.

Lemma find_kept objects l o w : find_object objects o = Some w -> find_object (objects ++ l) o = Some w.
Proof. unfold find_object. case_match; [done|]. case_match; [apply lookup_app_l_Some | done]. Qed.

Lemma sim_count_insert s s' o n p :
  sim_counts s' = <[o := n]> (sim_counts s) -> sim_count s' p = if decide (p = o) then n else sim_count s p.
Proof.
  unfold sim_count. intros ->. case_decide as Hp; [subst p; by rewrite lookup_insert_eq | by rewrite lookup_insert_ne].
Qed.

Lemma sim_new_value v s : exists o s', sim_new v s = Done o s' /\ new_reference s s' o v /\ sim_value s o = None.
Proof.
  destruct (find_new (sim_objects s) v) as [H1 H2]. eexists _, _. split; [reflexivity|]. split; [|done].
  constructor; cbn; try done; [lia | intros p w; apply find_kept |].
  intros p. erewrite sim_count_insert by reflexivity. case_decide; [subst p|]; lia.
Qed.

Lemma sim_items_value s l els : sim_value s l = Some (PyList els) -> sim_items s l = els.
Proof. unfold sim_items. by intros ->. Qed.

(** A list that is changed in place. *)
Lemma find_changed objects l v w o :
  find_object objects l = Some (PyList w) ->
  find_object (<[Z.to_nat (l - 2) := v]> objects) o = if decide (o = l) then Some v else find_object objects o.
Proof.
  unfold find_object. destruct (Z.eqb_spec l 1); [done|]. destruct (Z.ltb_spec 1 l); [|done]. intros Hl.
  apply lookup_lt_Some in Hl. case_decide as Ho.
  - subst o. rewrite (proj2 (Z.eqb_neq l 1)), (proj2 (Z.ltb_lt 1 l)) by lia. by rewrite list_lookup_insert_eq.
  - case_match; [done|]. destruct (Z.ltb_spec 1 o); [|done]. rewrite list_lookup_insert_ne; [done | lia].
Qed.

#[export] Instance sim_laws : PythonLaws sim.
Proof.
  constructor; cbn.
  - intros s o. lia.
  - done.
  - done.
  - intros n s _ _. destruct (sim_new_value (PyInt n) s) as (o & s' & E & N & _). eauto.
  - intros o s _ _. exists (match sim_value s o with Some (PyInt n) => u64 n | _ => 2 ^ 64 - 1 end), s.
    split; [done|]. split; [apply same_refl|]. split.
    + destruct (sim_value s o) as [[]|]; try lia. by apply Z.mod_pos_bound.
    + intros m -> Hm. by apply Z.mod_small.
  - intros t s _. destruct (ascii_text t); [|exists 0, s; split; [done|]; split; [done | apply same_refl]].
    destruct (sim_new_value (PyStr t) s) as (o & s' & E & N & _). eauto.
  - intros s _. destruct (sim_new_value (PyList []) s) as (o & s' & E & N & H). eauto 6.
  - intros l o s els _ Hl _. rewrite Hl. eexists. split; [reflexivity|]. cbn. unfold sim_value in *. cbn. split; [|split; [|done]].
    + by rewrite (find_changed _ _ _ els), decide_True.
    + intros p Hp. by rewrite (find_changed _ _ _ els), decide_False.
  - intros l i s _ _ Hi. eexists _, s. split; [reflexivity|]. split; [apply same_refl|].
    intros els o' Hl Ho _. by rewrite (sim_items_value s l els Hl), Ho.
  - intros o s _ _. eexists. split; [reflexivity|]. split; [done|]. split; [|done].
    intros p. erewrite sim_count_insert by reflexivity. case_decide; [subst p|]; lia.
  - intros o s _ Ho. destruct (sim_count s o) as [|n] eqn:En; [lia|]. eexists. split; [reflexivity|]. split; [|done].
    intros p. erewrite sim_count_insert by reflexivity. case_decide; [subst p|]; lia.
  - intros e t s _. exists s. split; [done | apply same_refl].
  - intros s. eexists _, _. split; [reflexivity|]. cbn. by destruct (sim_gil s).
  - intros t s _. by eexists.
  - intros args s _. eexists _, s. split; [reflexivity | apply same_refl].
  - intros args s _. eexists _, s. split; [reflexivity | apply same_refl].
  - intros args s _. eexists _, s. split; [reflexivity|]. split; [apply same_refl|]. intros o.
    destruct (sim_items s args) as [|x [|]]; [done| |done]. destruct (sim_value s x) eqn:Ex; [|done]. intros [= <-].
    split; [|by rewrite Ex]. intros ->. done.
  - intros args s _. eexists _, s. split; [reflexivity | apply same_refl].
Qed.

(** ** Examples *)

(** A Python function that is recorded as a message and returns None. *)
Definition recording_call (f : Z) (args : list Z) : M (py_module recorded sim) Z :=
  in_lib (modify (fun l => l ++ [(f, None, args)])) ;;;
  in_py (py_incref Py_None) ;;;
  ret Py_None.

Lemma recording_call_returns f args (s1 : py_module recorded sim) :
  gil (py_interp s1) = true -> call_returns recording_call f args s1.
Proof.
  intros Hg. eexists 1, _. split; [reflexivity|]. split; [exact Hg|]. cbn. intros o.
  erewrite sim_count_insert by reflexivity. unfold its_result.
  repeat case_decide; subst; try (exfalso; lia); [by rewrite Nat2Z.inj_succ | by rewrite Z.add_0_r].
Qed.

(** Two functions (2 and 3), the tuple (3), a number, a text, the list of an
    identifier, and the tuple of a message. *)
Definition some_objects : list pyval :=
  [PyOther; PyOther; PyList [3]; PyInt 5; PyStr (text "hi"); PyInt 0x02572bc5; PyInt 0x2d84450a; PyInt 0x9e01d22c;
   PyInt 0x66b1abb1; PyList [7; 8; 9; 10]; PyList [5; 11; 6]].
Definition some_interpreter : sim := Sim some_objects {[2 := 1%nat]} true.
(** Function 2 is registered. *)
Definition some_module : py_module recorded sim := PyModule [] some_interpreter 2.

Lemma some_module_inv : module_inv some_module.
Proof. constructor; [reflexivity|]. intros _. vm_compute. reflexivity. Qed.

Lemma recording_library_answers : library_answers recording_table.
Proof.
  constructor; intros; try (eexists _, _; split; [reflexivity | lia]); try (by eexists _, _);
    eexists _, _, _; (split; [reflexivity|]); intros x [= <-]; lia.
Qed.

(** Registering function 3 in place of function 2. *)
Lemma python_methods_are_balanced_witness :
  exists s', connector_python_register_trampoline 4 some_module = Done 1 s' /\ py_trampoline s' = 3 /\
    refs (py_interp s') 2 = 0 /\ refs (py_interp s') 3 = 1 /\ refs (py_interp s') 1 = 1.
Proof.
  destruct (python_methods_are_balanced recording_table 77 64 recording_library_answers (text "register_trampoline")
    connector_python_register_trampoline 4 some_module) as (r & s' & E & _ & Hb);
    [unfold connector_python_module_methods; rewrite !elem_of_cons; auto 10 | done | apply some_module_inv |].
  vm_compute in E. injection E as <- <-. eexists. split; [vm_compute; reflexivity|]. split; [reflexivity|].
  pose proof (Hb 2) as H2. pose proof (Hb 3) as H3. pose proof (Hb 1) as H1. vm_compute in H1, H2, H3.
  by vm_compute.
Defined.

Lemma trampoline_calls_python_witness :
  exists c u m els s1 r s2 s',
    recording_call 2 [c; u; m] s1 = Done r s2 /\ gil (py_interp s1) = true /\ py_lib s1 = py_lib some_module /\
    value (py_interp s1) c = Some (PyInt 5) /\ value (py_interp s1) u = Some (PyList els) /\
    numbers (py_interp s1) els (elements connector_internal_handshake_uuid) /\
    value (py_interp s1) m = Some (PyStr (text "hi")) /\
    connector_python_trampoline recording_call 5 connector_internal_handshake_uuid (text "hi") some_module = Done tt s' /\
    (forall o, refs (py_interp s') o = refs (py_interp some_module) o) /\
    gil (py_interp s') = gil (py_interp some_module) /\ py_lib s' = py_lib s2 /\ py_trampoline s' = py_trampoline s2.
Proof.
  apply (trampoline_calls_python recording_call 5 connector_internal_handshake_uuid (text "hi") some_module);
    [lia | apply handshake_uuid_wf | reflexivity | done | intros; by apply recording_call_returns].
Defined.

Lemma undecodable_message_crashes_witness :
  connector_python_trampoline recording_call 5 connector_internal_handshake_uuid [255] some_module = Stuck NullDeref.
Proof.
  apply undecodable_message_crashes;
    [lia | apply handshake_uuid_wf | reflexivity | done | intros; by apply recording_call_returns].
Defined.

Lemma python_uuid_roundtrip_witness :
  exists l i1 i2 i3, PyList_New 0 some_interpreter = Done l i1 /\
    connector_python_split_uuid connector_internal_handshake_uuid l i1 = Done tt i2 /\
    connector_python_assemble_uuid l [None; None; None; None] i2 =
      Done (map Some (elements connector_internal_handshake_uuid)) i3 /\
    forall o, refs i3 o = refs some_interpreter o + its_result l o.
Proof. apply python_uuid_roundtrip; [apply handshake_uuid_wf | reflexivity]. Defined.

Lemma python_write_forwards_witness :
  (exists r s', connector_python_write_message recording_table 32 12 some_module = Done r s' /\
    py_lib s' = [(5, Some connector_internal_handshake_uuid, text "hi")] /\
    value (py_interp s') r = Some (PyInt SUBSTANCE_CONNECTOR_SUCCESS) /\ module_inv s' /\
    forall o, balance s' o = balance some_module o + its_result r o) /\
  connector_python_write_message recording_table 64 12 some_module = Stuck OutOfBounds.
Proof.
  assert (H : forall bits, _) by (intros bits; exact (python_write_forwards recording_table bits 12 5 11 [7; 8; 9; 10]
    connector_internal_handshake_uuid (text "hi") SUBSTANCE_CONNECTOR_SUCCESS
    [(5, Some connector_internal_handshake_uuid, text "hi")] some_module some_interpreter eq_refl some_module_inv eq_refl
    handshake_uuid_wf ltac:(repeat constructor) eq_refl ltac:(unfold SUBSTANCE_CONNECTOR_SUCCESS; lia))).
  split; [by apply (H 32) | by apply (H 64)].
Defined.

Lemma python_init_hides_failure_witness :
  exists r s', connector_python_init recording_table 77 4 some_module = Done r s' /\ py_lib s' = [] /\
    value (py_interp s') r = Some (PyInt SUBSTANCE_CONNECTOR_SUCCESS).
Proof. apply (python_init_hides_failure recording_table 77 4 some_module some_interpreter); reflexivity. Defined.
